(* ===== verification/_CoqProject ===== *)
-Q . S2P
Prelude.v
Text.v
Bytes.v
Decimal.v
Paths.v
SharedTypes.v
Scheduler.v
Lifecycle.v
SessionCache.v
DialogCache.v
CacheInvariant.v
CacheProps.v
CacheWaits.v
Sequence.v
Ssrc.v
Network.v
CloseService.v
RegisterCore.v
RegisterProps.v
StreamOutputs.v
MediaRegister.v
MediaProps.v
RtpIngest.v
RtpRing.v
RingProps.v
RtpDepacket.v
DepacketProps.v
ReaderProps.v
TimeScale.v
H265Flv.v
H265FlvProps.v
TalkUpload.v
TalkUploadProps.v
Float64.v
MediaExt.v
Sdp.v
SdpProps.v
DialogStore.v
DialogStoreProps.v
SipRuntime.v
SipRuntimeProps.v
Tasks.v
DialogRecovery.v
DialogRecoveryProps.v
Xml.v
DeviceAuth.v
NativeRuntime.v
Subscription.v
SubscriptionProps.v
SipEvents.v
SipEventsProps.v
SipCommands.v
StreamService.v
SipCommandsProps.v
StreamServiceProps.v
CodecParams.v
CodecParamsProps.v
MediaParams.v
DemuxerOpen.v
DemuxerOpenProps.v
Muxers.v
MuxersProps.v
MediaLoop.v
MediaLoopProps.v
ViewerOutput.v
ViewerOutputProps.v
Recorder.v
RecorderProps.v
MediaApi.v
Storage.v
StorageProps.v
StreamIds.v
RecordFiles.v
TaskPool.v
EdgeService.v
EdgeServiceProps.v
SessionApi.v
Config.v
EventLoop.v
Callbacks.v
