(* ===== verification/Prelude.v ===== *)
(** * GMV: a GB/T 28181 video platform, verified

    GMV is two processes.  The session process ([src/session]) is the signalling
    server: cameras register with it over SIP, it starts and ends live views,
    playbacks, downloads and talks with INVITE dialogs, keeps catalog
    subscriptions alive and tells clients where to find the video.  The media
    process ([src/stream]) receives the RTP of the streams that were opened,
    puts the packets in order, rebuilds access units, hands them to FFmpeg and
    on to the viewers, and sends the audio of talks to the devices.  The two
    exchange the structs of [src/shared] over HTTP.  This development models
    their own logic and proves what makes it correct.

    ** The parts

    Session process, from the bottom up.
    - [Scheduler]: [register/schedule.rs], the requests to the timer wheel.
    - [Lifecycle]: one stream's closing ([StreamTable], [StreamLifecycle] of
      [state/session.rs]).
    - [SessionCache], [DialogCache]: all operations of [Cache] of
      [state/session.rs]: streams, device lists, talks, subscriptions, keyed
      waits.  [CacheInvariant] has the alphabet of its operations, the invariant
      and its preservation; [CacheProps] and [CacheWaits] what follows for a
      device reset, NOTIFY, waits and load figures.
    - [Network]: [register/network.rs], sessions and associations.
    - [CloseService]: [service/stream_close.rs], [service/talk_close.rs], and the
      state [Inner] that register and services share, with its log of effects.
    - [RegisterCore], [RegisterProps]: [register/core.rs], [register/event.rs].
    - [Sequence], [Ssrc]: [gb/sip/sequence.rs], [storage/ssrc_sequence.rs],
      [utils/id_builder.rs]: serial numbers, SSRCs, stream ids.
    - [DialogStore], [DialogStoreProps]: [storage/dialog_session.rs], the durable
      table of dialogs; [DialogRecovery], [DialogRecoveryProps]:
      [service/dialog_recovery.rs] and the callbacks of [service/hook_serv.rs],
      over the table, the register, the cache and the SIP waiters together.
    - [SipRuntime], [SipRuntimeProps]: [gb/sip/runtime_cache.rs], the waiters of
      SIP requests.  [NativeRuntime]: [gb/sip/native_runtime.rs], the way to and
      from the SIP stack.  [DeviceAuth]: [gb/sip/auth.rs].
    - [Subscription], [SubscriptionProps]: [gb/sip/subscription.rs].
    - [SipEvents], [SipEventsProps]: [gb/sip/register.rs], [message.rs],
      [invite.rs], [bye.rs], [adapter.rs]: an event of the stack becomes a
      business event, which changes the register and wakes the waiters.
    - [SipCommands], [SipCommandsProps]: [gb/sip/command.rs], the requests to a
      device with what they wait for and the durable row they keep.
      [StreamService], [StreamServiceProps]: [service/api_serv.rs], the requests of
      the clients: live views, playback, downloads, talks, PTZ.  Both are programs
      of [Tasks].
    - [Storage], [StorageProps]: [storage/db_task.rs], [entity.rs], [mapper.rs]: the
      queue of the data base's task and the statements on devices, channels,
      records and files.  [RecordFiles]: [end_record] of
      [service/hook_serv.rs] and the removal of a file.  [StreamIds]:
      [build_ssrc_stream_id] of [utils/id_builder.rs], which the services ask for
      through a question.
    - [EdgeService], [EdgeServiceProps]: [service/edge_serv.rs],
      [utils/edge_token.rs], [http/edge.rs]: snapshots, and the pictures devices
      upload under a token.  [SessionApi]: the handlers of [http/api.rs].
    - [Config]: what [state/mod.rs] and [storage/pics.rs], and the media process's
      [general/cfg.rs], check of the configuration, and the table of media nodes.
    - [Xml]: [gb/sip/xml.rs]; [Sdp], [SdpProps]: [gb/sip/sdp.rs] and the audio of
      [service/talk.rs].
    Both processes: [SharedTypes] has the wire data, [MediaExt] the description
    of a stream the session process reads of an SDP and the media process acts on.
    [Callbacks] puts the two together: the session process's handlers
    ([http/hook.rs]) answer what [EventLoop] calls, any call or answer may be lost,
    and theorems follow a silent stream, a viewer's token and the end of a talk
    from one process into the other.

    Media process, along the way of a packet.
    - [RtpIngest]: [io/splitter.rs], [io/rtp_handler.rs]: framing and dispatch.
    - [MediaRegister], [MediaProps]: [state/register.rs], [state/event.rs]: the
      channels of the streams, the viewers and their tokens, timeouts, reports.
      [StreamOutputs]: [OutputCount], [state/layer.rs],
      [media/context/format/muxer.rs].
    - [RtpRing], [RingProps]: the reordering ring of [media/rtp.rs] and the
      sorted buffer it refines.  [RtpDepacket], [DepacketProps], [ReaderProps]:
      the depacketisers, access units, and the demuxer's reads.
    - [TimeScale]: [media/context/utils/time_scale.rs].
    - [CodecParams], [CodecParamsProps]: [media/context/utils/codecpar.rs], what
      is repaired of a stream's parameters.  [MediaParams]:
      [media/context/utils/extradata.rs], [general/mp.rs], its description for
      players.
    - [DemuxerOpen], [DemuxerOpenProps]: [media/context/format/demuxer.rs], a
      program of [Tasks] that asks FFmpeg.
    - [H265Flv], [H265FlvProps]: [media/context/format/h265flv.rs].
      [Muxers], [MuxersProps]: [mp4.rs], [flv.rs], [fmp4.rs], [dashmp4.rs],
      [hlsfmp4.rs] beside it.
    - [MediaLoop], [MediaLoopProps]: [media/context/mod.rs], [event/], the thread
      of a stream, over any muxers with the operations of the class [FmtMuxer];
      those above are its instances.
    - [TalkUpload], [TalkUploadProps]: [io/talk.rs].
    - [ViewerOutput], [ViewerOutputProps]: [io/http/out/]: the requests of viewers,
      their admission, the bodies that are streamed to them, the DASH manifest.
    - [Recorder], [RecorderProps]: [io/local/mp4.rs], the task that writes a
      recording.  [MediaApi]: [io/http/api.rs] and [media/mod.rs],
      what the session process asks of a media node, and the start of streams.
    - [EventLoop]: [state/event.rs], the loop that reports events to the session
      process, its permits and retries.

    Library files: this prelude (wrap-around arithmetic, lists, options, maps,
    outcomes, [MapIter]), [Tasks] (programs, weakest preconditions, bounded waits,
    accounts of what was asked), [TaskPool] (programs that run side by side, and
    what each can afford), [Paths] (Rust's [Path] on Unix), [Text] (the string functions of Rust's library on UTF-8
    bytes), [Bytes], [Decimal], [Float64].

    ** How the code is modelled

    - A component's state is a record; an operation is a function of it, with
      every guard and early return; [Result] is [outcome] (a value, an error, or
      a panic).  Logging is left out.
    - A [DashMap] or [HashMap] is a [gmap]; where the code iterates, the order is
      a parameter of the class [MapIter], which only promises each entry once.
      One map operation is one step; a scan followed by a removal, or the parts
      of an [async] function around an [await], are separate definitions, so that
      other tasks may come between them.
    - The timer wheel (crate [c100k]) is the log of the requests made to it, and
      [armed_after] says what an observer of the log finds pending; whether the
      wheel accepts an insertion is the parameter [accepts].  Spawned tasks,
      wake-ups, published events and BYEs are entries of logs in the state;
      channels and senders are numbers.
    - Instants and durations are in milliseconds and are arguments.  Integers
      wrap at their width where the code lets them, as in a release build.
    - The reader's waits ([RtpRing]) consume a list of readings, each a time and
      what the receive that follows returns; the sender tasks of talks choose
      freely among the branches that are ready.
    - MySQL is an interface with laws ([SeqStore]), answers given as arguments,
      or tables of rows the statements act on: of dialogs, and of devices,
      channels, records and files ([Db], where [db_fate] says which of the next
      statements fail).  The primary keys are taken to be as the statements use
      them, since the schema is not in [src].
    - The recorder, the viewers' bodies and the uploads are programs of [Tasks]
      whose questions are those to the file system, the image library, the clock
      and the stream's thread; what a [select!] takes next is an element of a
      list.  Where case is folded, only ASCII letters change.
    - FFmpeg's structures are records of the fields the code reads or writes; its
      decoders and its output side are the classes [FFmpeg] and [AVOutput], what
      it reads is a list of packets.  What a muxer sent is part of its state.  Raw
      pointers to one owner are that owner's state; a read outside an array and
      a write through a null pointer are [Panic].
    - What is not in [src] is a parameter with the documented behaviour as a named
      hypothesis: the base-62 codec, the RTP header parser, [av_rescale_q], the
      SIP stack [gmv_pjsip] with its parsers, [sdp_types], [regex], the Unicode
      case table, the socket address parser, [serde_json], the tokenizer of
      [quick_xml], [encoding_rs], FFmpeg's numbers of the codecs.  The commands take
      theirs as the class [SipLibrary].

    ** Fuel

    [allocate_loop] runs at most 9999 rounds, the code's own bound.
    [next_atomic_value] is a step relation and has none.  The
    scanners ([utf8_scan], [strip_while], [annexb_loop], [nalu_loop],
    [annexb_sps_loop], [parse_avcc_loop],
    [chunks_of], [split_data], [feed_loop]) take the length of their input (plus
    one), which each round shortens; [consume_loop] what the reader is asked for;
    [wait_phases] ten rounds, more than a gap wait has; [recover_loop] one more
    than the number of full pages.  Each bound is proved enough where a theorem
    relies on it.  Programs of [Tasks] are finite trees; [waits_at_most] bounds
    their waits.

    ** What the theorems show

    - Dialogs and devices: a late timer, BYE answer or clean-up never touches a
      newer dialog or connection; a close always ends; each registered device
      has the timers that remove it; a reset leaves nothing of a device; the row
      a registration writes brings the device back.
    - Durable dialogs: rows stay readable, updates are serial, CSeqs are used
      once; recovery meets every open dialog once and forgets none.
    - Requests of the clients: a view has exactly one stream and a talk one node,
      and a request that fails gives back what it prepared; an INVITE settles the
      durable row of its stream, a BYE ends it; every command ends.
    - SIP: every waiting call is answered once or told; requests follow the
      connection; events have one reading; refused, late and failed
      subscriptions lead on; the offers and answers of SDP, and XML bodies, read
      back.
    - Numbers: serial numbers and SSRCs are unique while they are in use.
    - Media: bytes are framed as they were sent, packets ordered, access units
      rebuilt and read unchanged, damaged video withheld, time stamps made
      regular, FLV tags readable, talk frames sent in order; viewers are counted
      and silent streams and talks closed.
    - FFmpeg: parameter sets are found wherever they are sent, a repaired stream is
      complete, a stream begins with a key frame, every muxer gets the packets as
      if alone and sends all FFmpeg makes of them; and what is released of an
      input that was, or could not be, opened.
    - Viewers and recordings: nobody watches whom the session process did not
      let in, viewers are counted out but for the cases named, a recording is the
      muxer's header and bytes, its row and its file end together; streams start
      in order; no event is lost while there are permits.
    - Devices' data: a catalog's items become the rows of channels where they can
      be told apart; pictures are accepted with the session's token only, no
      more than it allows, inside the directory of the day.
    Theorems whose name says so ([closing_talk_is_dropped],
    [late_refusal_subscribes_twice], ...) show where the code falls short.

    ** Not modelled

    The routing tables, the set-up of HTTP clients and servers, the generated
    documentation ([http/doc.rs]), the reading of the configuration and the start-up of both
    processes are glue around libraries ([http/client.rs], [io/http/call.rs],
    [app.rs], [general/]), as are the formats of clocks ([utils/date_time.rs]); the
    HLS handlers and the muxers for TS and RTP are [unimplemented!] in the code;
    the sockets belong to the networking crate, the transport of SIP to
    [gmv_pjsip]; the destructors of the muxers only free what FFmpeg allocated;
    code for tests and for dumping packets is left out. *)
From Stdlib Require Export ZArith Lia Sorting.Sorted.
From stdpp Require Export base gmap strings list fin_maps sets tactics.
From stdpp Require Export relations.

Local Open Scope Z_scope.

(** ** Machine-width integers

    A [w]-bit unsigned integer of the source is a [Z]; the operations of the
    source that wrap or saturate are written out. *)
Definition umax (w : Z) : Z := 2 ^ w - 1.
Definition wrapping_add (w x y : Z) : Z := (x + y) mod 2 ^ w.
Definition wrapping_sub (w x y : Z) : Z := (x - y) mod 2 ^ w.
Definition saturating_add (w x y : Z) : Z := Z.min (umax w) (x + y).
Definition saturating_sub (x y : Z) : Z := Z.max 0 (x - y).
Definition in_width (w x : Z) : Prop := 0 <= x < 2 ^ w.

(** [i64] arithmetic of a release build: two's complement wrap-around. *)
Definition i64_min : Z := - 2 ^ 63.
Definition i64_max : Z := 2 ^ 63 - 1.
Definition i64_wrap (x : Z) : Z := (x + 2 ^ 63) mod 2 ^ 64 - 2 ^ 63.
Definition i64_add (x y : Z) : Z := i64_wrap (x + y).
Definition i64_sub (x y : Z) : Z := i64_wrap (x - y).
Definition i64_saturating_sub (x y : Z) : Z := Z.max i64_min (Z.min i64_max (x - y)).

(** ** Outcomes: a value, an error the caller sees, or a panic *)
Inductive outcome (E A : Type) : Type :=
| Done (a : A)
| Failed (e : E)
| Panic.
Arguments Done {E A} a.
Arguments Failed {E A} e.
Arguments Panic {E A}.

Definition outcome_bind {E A B} (m : outcome E A) (k : A -> outcome E B) : outcome E B :=
  match m with Done a => k a | Failed e => Failed e | Panic => Panic end.

Declare Scope gmv_scope.
Delimit Scope gmv_scope with gmv.
Notation "x <-! m ;; k" := (outcome_bind m (fun x => k))
  (at level 100, m at next level, right associativity) : gmv_scope.

Lemma outcome_bind_done {E A B} (m : outcome E A) (k : A -> outcome E B) r :
  outcome_bind m k = Done r -> exists x, m = Done x /\ k x = Done r.
Proof. destruct m; [by eauto|done..]. Qed.

(** ** Tactics of the development *)
Ltac split_and_all := repeat match goal with |- _ /\ _ => split end.
Ltac case_bool :=
  repeat match goal with
  | H : context [bool_decide ?P] |- _ => case_bool_decide
  | |- context [bool_decide ?P] => case_bool_decide
  end.
(** Open every [match] of the goal and of the hypotheses, closing the
    impossible branches. *)
Ltac cases := repeat (case_match; simplify_eq/=; try done).
(** Turn the boolean comparisons of the context into propositions. *)
Ltac zbool :=
  repeat match goal with
  | H : (_ =? _) = true |- _ => apply Z.eqb_eq in H
  | H : (_ =? _) = false |- _ => apply Z.eqb_neq in H
  | H : (_ <? _) = true |- _ => apply Z.ltb_lt in H
  | H : (_ <? _) = false |- _ => apply Z.ltb_ge in H
  | H : (_ <=? _) = true |- _ => apply Z.leb_le in H
  | H : (_ <=? _) = false |- _ => apply Z.leb_gt in H
  | H : andb _ _ = true |- _ => apply andb_true_iff in H as [? ?]
  | H : orb _ _ = false |- _ => apply orb_false_iff in H as [? ?]
  | H : negb _ = true |- _ => apply negb_true_iff in H
  | H : negb _ = false |- _ => apply negb_false_iff in H
  end.

(** Linear goals with divisions and remainders by constants. *)
Ltac zmod := Z.to_euclidean_division_equations; lia.

Create HintDb gmv.

(** ** Integer lemmas *)
Lemma pow2_pos (w : Z) : 0 <= w -> 0 < 2 ^ w.
Proof. intros. by apply Z.pow_pos_nonneg. Qed.

Lemma wrapping_add_small (w x y : Z) :
  0 <= x + y < 2 ^ w -> wrapping_add w x y = x + y.
Proof. intros. unfold wrapping_add. by rewrite Z.mod_small. Qed.

Lemma wrapping_add_bound (w x y : Z) : 0 <= w -> in_width w (wrapping_add w x y).
Proof. intros. unfold in_width, wrapping_add. by apply Z.mod_pos_bound, pow2_pos. Qed.

Lemma wrapping_sub_bound (w x y : Z) : 0 <= w -> in_width w (wrapping_sub w x y).
Proof. intros. unfold in_width, wrapping_sub. by apply Z.mod_pos_bound, pow2_pos. Qed.

Lemma saturating_add_bound (w x y : Z) :
  0 <= w -> 0 <= x -> 0 <= y -> in_width w (saturating_add w x y).
Proof. intros. pose proof (pow2_pos w). unfold in_width, saturating_add, umax. lia. Qed.

Lemma saturating_add_ge (w x y : Z) : in_width w x -> 0 <= y -> x <= saturating_add w x y.
Proof. unfold in_width, saturating_add, umax. lia. Qed.

Lemma i64_wrap_small (x : Z) : i64_min <= x <= i64_max -> i64_wrap x = x.
Proof. unfold i64_min, i64_max, i64_wrap. intros. rewrite Z.mod_small; lia. Qed.

#[export] Hint Resolve wrapping_add_bound wrapping_sub_bound saturating_add_bound
  saturating_add_ge : gmv.

(** ** Iteration over a sharded hash map

    [DashMap] and [HashMap] iterate in an unspecified order.  A component that
    iterates is written against this interface: the order is any permutation
    of the bindings, and nothing else is known about it. *)
Class MapIter (K : Type) `{Countable K} := {
  map_iter : forall {V : Type}, gmap K V -> list (K * V);
  map_iter_perm : forall {V : Type} (m : gmap K V), map_iter m ≡ₚ map_to_list m
}.

(** The order used by concrete evaluations. *)
#[export] Instance map_iter_default (K : Type) `{Countable K} : MapIter K | 100 := {|
  map_iter := fun V m => map_to_list m;
  map_iter_perm := fun V m => reflexivity _
|}.

Section MapIterFacts.
Context {K : Type} `{MapIter K}.

Lemma elem_of_map_iter {V} (m : gmap K V) (k : K) (v : V) :
  (k, v) ∈ map_iter m <-> m !! k = Some v.
Proof. rewrite map_iter_perm. apply elem_of_map_to_list. Qed.

(** [iter().any(p)] *)
Definition map_any {V} (p : K -> V -> bool) (m : gmap K V) : bool :=
  existsb (fun kv => p kv.1 kv.2) (map_iter m).

(** [iter().filter_map(..).collect()], keeping the keys that satisfy [p] *)
Definition map_keys_where {V} (p : K -> V -> bool) (m : gmap K V) : list K :=
  (filter (fun kv : K * V => p kv.1 kv.2 = true) (map_iter m)).*1.

(** [iter().find_map(..)] on the keys *)
Definition map_find_key {V} (p : K -> V -> bool) (m : gmap K V) : option K :=
  head (map_keys_where p m).

Lemma map_any_true {V} (p : K -> V -> bool) (m : gmap K V) :
  map_any p m = true <-> exists k v, m !! k = Some v /\ p k v = true.
Proof.
  unfold map_any. rewrite existsb_exists. split.
  - intros [[k v] [Hin Hp]]. exists k, v. split; [|done].
    by apply elem_of_map_iter, list_elem_of_In.
  - intros (k & v & Hk & Hp). exists (k, v). split; [|done].
    by apply list_elem_of_In, elem_of_map_iter.
Qed.

Lemma elem_of_map_keys_where {V} (p : K -> V -> bool) (m : gmap K V) (k : K) :
  k ∈ map_keys_where p m <-> exists v, m !! k = Some v /\ p k v = true.
Proof.
  unfold map_keys_where. rewrite list_elem_of_fmap. split.
  - intros [[k' v] [-> Hin]]. apply list_elem_of_filter in Hin as [Hp Hin].
    exists v. by rewrite <- elem_of_map_iter.
  - intros (v & Hk & Hp). exists (k, v). split; [done|].
    apply list_elem_of_filter. by rewrite elem_of_map_iter.
Qed.

Lemma NoDup_map_keys_where {V} (p : K -> V -> bool) (m : gmap K V) :
  NoDup (map_keys_where p m).
Proof.
  unfold map_keys_where. apply (NoDup_fmap_1 (fun x => x)). rewrite list_fmap_id.
  eapply (sublist_NoDup _ (map_iter m).*1).
  - rewrite map_iter_perm. apply NoDup_fst_map_to_list.
  - apply fmap_sublist, sublist_filter.
Qed.

Lemma map_find_key_Some {V} (p : K -> V -> bool) (m : gmap K V) (k : K) :
  map_find_key p m = Some k -> exists v, m !! k = Some v /\ p k v = true.
Proof.
  unfold map_find_key. intros Hh. apply elem_of_map_keys_where.
  destruct (map_keys_where p m); simplify_eq/=. apply list_elem_of_here.
Qed.

Lemma map_find_key_None {V} (p : K -> V -> bool) (m : gmap K V) :
  map_find_key p m = None <-> forall k v, m !! k = Some v -> p k v = false.
Proof.
  unfold map_find_key. split.
  - intros Hh k v Hk. destruct (p k v) eqn:Hp; [|done].
    assert (k ∈ map_keys_where p m) as Hin by (apply elem_of_map_keys_where; eauto).
    destruct (map_keys_where p m); [by apply elem_of_nil in Hin|done].
  - intros Hall. destruct (map_keys_where p m) as [|k l] eqn:Hl; [done|].
    assert (k ∈ map_keys_where p m) as Hin by (rewrite Hl; apply list_elem_of_here).
    apply elem_of_map_keys_where in Hin as (v & Hk & Hp).
    by rewrite (Hall _ _ Hk) in Hp.
Qed.
End MapIterFacts.
