(* ===== verification/Text.v ===== *)
(** * Text: the string functions of the standard library

    Strings are scanned as lists of bytes, their UTF-8 encoding. *)
From Stdlib Require Import Ascii.
From S2P Require Import Prelude.
Local Open Scope Z_scope.

(** The UTF-8 encodings of the characters [char::is_whitespace] holds for. *)
Definition bytes (ns : list nat) : list ascii := ascii_of_nat <$> ns.
Definition white_space : list (list ascii) :=
  bytes <$> [[32]; [9]; [10]; [11]; [12]; [13]; [194; 133]; [194; 160]; [225; 154; 128]; [226; 128; 128];
    [226; 128; 129]; [226; 128; 130]; [226; 128; 131]; [226; 128; 132]; [226; 128; 133]; [226; 128; 134];
    [226; 128; 135]; [226; 128; 136]; [226; 128; 137]; [226; 128; 138]; [226; 128; 168]; [226; 128; 169];
    [226; 128; 175]; [226; 129; 159]; [227; 128; 128]]%nat.
Fixpoint strip_prefix (p l : list ascii) : option (list ascii) :=
  match p, l with
  | [], _ => Some l
  | a :: p', b :: l' => if bool_decide (a = b) then strip_prefix p' l' else None
  | _ :: _, [] => None
  end.
Fixpoint strip_while (fuel : nat) (ps : list (list ascii)) (l : list ascii) : list ascii :=
  match fuel, head (omap (fun p => strip_prefix p l) ps) with
  | S fuel, Some rest => strip_while fuel ps rest
  | _, _ => l
  end.
Definition trim_start (l : list ascii) : list ascii := strip_while (length l) white_space l.
Definition trim_end (l : list ascii) : list ascii :=
  reverse (strip_while (length l) (reverse <$> white_space) (reverse l)).
Definition trim (l : list ascii) : list ascii := trim_end (trim_start l).

(** [split(ch)] yields at least one piece; [split_once] cuts at the first. *)
Fixpoint split_on (ch : ascii) (l : list ascii) : list (list ascii) :=
  match l with
  | [] => [[]]
  | a :: l' =>
      if bool_decide (a = ch) then [] :: split_on ch l'
      else match split_on ch l' with
           | piece :: rest => (a :: piece) :: rest
           | [] => [[a]]
           end
  end.
Fixpoint split_once (ch : ascii) (l : list ascii)
    : option (list ascii * list ascii) :=
  match l with
  | [] => None
  | a :: l' =>
      if bool_decide (a = ch) then Some ([], l')
      else (fun p => (a :: p.1, p.2)) <$> split_once ch l'
  end.

Definition ascii_lower (a : ascii) : ascii :=
  let n := nat_of_ascii a in
  if (65 <=? n)%nat && (n <=? 90)%nat then ascii_of_nat (n + 32) else a.
Definition eq_ignore_ascii_case (l1 l2 : list ascii) : bool :=
  bool_decide (ascii_lower <$> l1 = ascii_lower <$> l2).

(** ** Decimal strings *)

Definition is_ascii_digit (a : ascii) : bool :=
  let n := nat_of_ascii a in (48 <=? n)%nat && (n <=? 57)%nat.
Definition all_digits (s : string) : bool := forallb is_ascii_digit (String.list_ascii_of_string s).
Definition digit_value (a : ascii) : Z := Z.of_nat (nat_of_ascii a) - 48.

(** The value of a string of digits, most significant first. *)
Definition decimal_value (l : list ascii) : Z := foldl (fun acc a => acc * 10 + digit_value a) 0 l.

(** [str::parse::<u32>]: an optional plus sign, at least one digit, no
    overflow. *)
Definition parse_u32 (s : string) : option Z :=
  let l := String.list_ascii_of_string s in
  let ds := match l with "+"%char :: ds => ds | _ => l end in
  match ds with
  | [] => None
  | _ => if forallb is_ascii_digit ds && (decimal_value ds <=? umax 32)
         then Some (decimal_value ds) else None
  end.

Lemma list_ascii_app (s1 s2 : string) :
  String.list_ascii_of_string (s1 +:+ s2)
  = String.list_ascii_of_string s1 ++ String.list_ascii_of_string s2.
Proof. induction s1; simpl; [done|]. by rewrite IHs1. Qed.

Lemma list_ascii_length (s : string) : length (String.list_ascii_of_string s) = String.length s.
Proof. induction s; simpl; congruence. Qed.

Lemma list_ascii_inj (s1 s2 : string) :
  String.list_ascii_of_string s1 = String.list_ascii_of_string s2 -> s1 = s2.
Proof.
  intros Heq. rewrite <- (String.string_of_list_ascii_of_string s1), Heq.
  apply String.string_of_list_ascii_of_string.
Qed.

Lemma list_ascii_substring (s : string) : forall n m,
  String.list_ascii_of_string (String.substring n m s)
  = take m (drop n (String.list_ascii_of_string s)).
Proof.
  induction s as [|a s IH]; intros [|n] [|m]; simpl; try done.
  f_equal. by rewrite IH.
Qed.

Lemma decimal_value_app (l1 l2 : list ascii) :
  decimal_value (l1 ++ l2) = decimal_value l1 * 10 ^ Z.of_nat (length l2) + decimal_value l2.
Proof.
  unfold decimal_value. rewrite foldl_app. generalize (foldl (fun acc a => acc * 10 + digit_value a) 0 l1).
  assert (forall l z, foldl (fun acc a => acc * 10 + digit_value a) z l =
    z * 10 ^ Z.of_nat (length l) + foldl (fun acc a => acc * 10 + digit_value a) 0 l) as Hg.
  { induction l as [|a l IH]; intros z; cbn [foldl length]; [lia|].
    rewrite (IH (z * 10 + digit_value a)), (IH (0 * 10 + digit_value a)).
    rewrite Nat2Z.inj_succ, Z.pow_succ_r by lia. ring. }
  intros z. apply Hg.
Qed.

Lemma decimal_value_bound (l : list ascii) :
  forallb is_ascii_digit l = true -> 0 <= decimal_value l < 10 ^ Z.of_nat (length l).
Proof.
  induction l as [|a l IH] using rev_ind; intros Hd; [done|].
  rewrite forallb_app in Hd. apply andb_true_iff in Hd as [Hl Ha]. simpl in Ha.
  rewrite decimal_value_app, length_app. simpl.
  rewrite Nat2Z.inj_add, Z.pow_add_r by lia. specialize (IH Hl).
  unfold is_ascii_digit in Ha. unfold decimal_value at 2 4, digit_value. simpl.
  rewrite andb_true_r in Ha. apply andb_true_iff in Ha as [?%Nat.leb_le ?%Nat.leb_le].
  change (10 ^ 1) with 10. change (10 ^ Z.of_nat 1) with 10. lia.
Qed.

(** ** Prefixes and letter case *)

Definition starts_with (p l : list ascii) : bool := bool_decide (is_Some (strip_prefix p l)).

Definition ascii_upper (a : ascii) : ascii :=
  let n := nat_of_ascii a in
  if (97 <=? n)%nat && (n <=? 122)%nat then ascii_of_nat (n - 32) else a.
Definition map_string (f : ascii -> ascii) (s : string) : string :=
  String.string_of_list_ascii (f <$> String.list_ascii_of_string s).
Definition to_ascii_uppercase : string -> string := map_string ascii_upper.
Definition to_ascii_lowercase : string -> string := map_string ascii_lower.

(** Characters of a literal. *)
Abbreviation chars := String.list_ascii_of_string.
Abbreviation text := String.string_of_list_ascii.

(** [str::parse::<i32>]: an optional sign, at least one digit, no overflow. *)
Definition parse_i32 (s : string) : option Z :=
  let '(neg, ds) := match chars s with
                    | "-"%char :: ds => (true, ds)
                    | "+"%char :: ds => (false, ds)
                    | ds => (false, ds)
                    end in
  match ds with
  | [] => None
  | _ => if forallb is_ascii_digit ds
         then let v := if neg then - decimal_value ds else decimal_value ds in
              if (- 2 ^ 31 <=? v) && (v <? 2 ^ 31) then Some v else None
         else None
  end.

Lemma strip_prefix_app (p l : list ascii) : strip_prefix p (p ++ l) = Some l.
Proof. induction p as [|a p IH]; simpl; [done|]. by rewrite bool_decide_eq_true_2. Qed.
Lemma strip_prefix_Some (p l rest : list ascii) : strip_prefix p l = Some rest <-> l = p ++ rest.
Proof.
  split; [|intros ->; apply strip_prefix_app]. revert l. induction p as [|a p IH]; intros l; simpl.
  - by intros [= ->].
  - destruct l as [|b l]; [done|]. case_bool_decide; [|done]. subst. intros Hs. by rewrite (IH _ Hs).
Qed.

(** *** UTF-8 *)

Definition in_range (lo hi : nat) (a : ascii) : bool :=
  let n := nat_of_ascii a in (lo <=? n)%nat && (n <=? hi)%nat.
Definition is_continuation : ascii -> bool := in_range 128 191.
(** How many more of [tests] the bytes pass. *)
Fixpoint passes (tests : list (ascii -> bool)) (l : list ascii) : nat :=
  match tests, l with
  | t :: tests, a :: l => if t a then S (passes tests l) else 0
  | _, _ => 0
  end.
(** What may follow a leading byte that is not ASCII. *)
Definition followers (a : ascii) : option (list (ascii -> bool)) :=
  let n := nat_of_ascii a in
  let c := is_continuation in
  if in_range 194 223 a then Some [c]
  else if (n =? 224)%nat then Some [in_range 160 191; c]
  else if (n =? 237)%nat then Some [in_range 128 159; c]
  else if in_range 225 239 a then Some [c; c]
  else if (n =? 240)%nat then Some [in_range 144 191; c; c]
  else if in_range 241 243 a then Some [c; c; c]
  else if (n =? 244)%nat then Some [in_range 128 143; c; c]
  else None.
(** The first character, or the bytes one replacement character stands for. *)
Definition utf8_char (l : list ascii) : bool * nat :=
  match l with
  | [] => (true, 0%nat)
  | a :: l =>
      if in_range 0 127 a then (true, 1%nat)
      else match followers a with
           | None => (false, 1%nat)
           | Some tests => let n := passes tests l in ((n =? length tests)%nat, S n)
           end
  end.
Definition replacement : list ascii := bytes [239; 191; 189]%nat.
Fixpoint utf8_scan (fuel : nat) (l : list ascii) : bool * list ascii :=
  match fuel, l with
  | S fuel, _ :: _ =>
      let '(ok, n) := utf8_char l in
      let '(all, rest) := utf8_scan fuel (drop n l) in
      (ok && all, (if ok then take n l else replacement) ++ rest)
  | _, _ => (true, [])
  end.
(** [str::from_utf8(l).is_ok()] and [String::from_utf8_lossy(l)]. *)
Definition utf8_valid (l : list ascii) : bool := (utf8_scan (length l) l).1.
Definition utf8_lossy (l : list ascii) : list ascii := (utf8_scan (length l) l).2.

Lemma utf8_char_pos a l : (1 <= (utf8_char (a :: l)).2)%nat.
Proof. simpl. destruct (in_range 0 127 a); [done|]. destruct (followers a); simpl; lia. Qed.
Lemma utf8_valid_lossy l : utf8_valid l = true -> utf8_lossy l = l.
Proof.
  unfold utf8_valid, utf8_lossy. remember (length l) as fuel eqn:Hf. assert (length l <= fuel)%nat as Hl by lia.
  clear Hf. revert l Hl. induction fuel as [|fuel IH]; intros [|a l] Hl; try done; [simpl in Hl; lia|].
  cbn [utf8_scan]. pose proof (utf8_char_pos a l) as Hp. destruct (utf8_char (a :: l)) as [ok n]. simpl in Hp.
  specialize (IH (drop n (a :: l))). rewrite length_drop in IH. simpl in Hl. specialize (IH ltac:(simpl; lia)).
  destruct (utf8_scan fuel (drop n (a :: l))) as [all rest]. cbn [fst snd] in *.
  intros [-> ->]%andb_true_iff. rewrite IH by done. apply take_drop.
Qed.
