(* ===== verification/Bytes.v ===== *)
(** * Big-endian numbers

    [to_be_bytes], [from_be_bytes] and that they are inverse. *)
From S2P Require Import Prelude.
Local Open Scope Z_scope.

(** [to_be_bytes], the last [k] bytes, and [from_be_bytes]. *)
Fixpoint be_bytes (k : nat) (n : Z) : list Z :=
  match k with O => [] | S k => Z.land (Z.shiftr n (8 * Z.of_nat k)) 255 :: be_bytes k n end.
Definition of_be (l : list Z) : Z := foldl (fun acc b => acc * 256 + b) 0 l.

Lemma length_be_bytes k n : length (be_bytes k n) = k.
Proof. induction k; simpl; congruence. Qed.
Lemma of_be_app l1 l2 : of_be (l1 ++ l2) = of_be l1 * 256 ^ Z.of_nat (length l2) + of_be l2.
Proof.
  unfold of_be. rewrite foldl_app. generalize (foldl (fun acc b => acc * 256 + b) 0 l1). revert l2.
  induction l2 as [|b l2 IH] using rev_ind; intros n; [simpl; lia|].
  rewrite !foldl_app, IH, length_app. simpl foldl. rewrite Nat2Z.inj_add, Z.pow_add_r by lia. simpl. lia.
Qed.
Lemma of_be_be_bytes k n : of_be (be_bytes k n) = n mod 256 ^ Z.of_nat k.
Proof.
  induction k as [|k IH]; [by rewrite Z.mod_1_r|].
  change (be_bytes (S k) n) with ([Z.land (Z.shiftr n (8 * Z.of_nat k)) 255] ++ be_bytes k n).
  rewrite of_be_app, IH, length_be_bytes. change (of_be [?x]) with (0 * 256 + x).
  change 255 with (Z.ones 8). rewrite Z.land_ones, Z.shiftr_div_pow2 by lia.
  replace (2 ^ (8 * Z.of_nat k)) with (256 ^ Z.of_nat k) by (rewrite (Z.pow_mul_r 2 8) by lia; done).
  rewrite Nat2Z.inj_succ, Z.pow_succ_r by lia. rewrite (Z.mul_comm 256), Z.rem_mul_r by lia. change (2 ^ 8) with 256. ring.
Qed.
Lemma of_be_small k n : 0 <= n < 256 ^ Z.of_nat k -> of_be (be_bytes k n) = n.
Proof. intros Hn. by rewrite of_be_be_bytes, Z.mod_small. Qed.
