(* ===== verification/Decimal.v ===== *)
(** * Numbers printed and parsed

    What [format!] prints of an unsigned number, [parse] reads back. *)
From Stdlib Require Import Ascii.
From stdpp Require Import pretty.
From S2P Require Import Prelude Text.
Local Open Scope Z_scope.

Lemma digit_char (x : N) : (x < 10)%N ->
  is_ascii_digit (pretty_N_char x) = true /\ digit_value (pretty_N_char x) = Z.of_N x.
Proof.
  intros Hx. assert (x = 0 \/ x = 1 \/ x = 2 \/ x = 3 \/ x = 4 \/ x = 5 \/ x = 6 \/ x = 7 \/ x = 8 \/ x = 9)%N as Hc by lia.
  by destruct_or! Hc; subst.
Qed.
Lemma pretty_N_go_digits (x : N) : forall s, exists ds, chars (pretty_N_go x s) = ds ++ chars s /\
  forallb is_ascii_digit ds = true /\ decimal_value ds = Z.of_N x /\ ((0 < x)%N -> ds <> []).
Proof.
  induction (N.lt_wf_0 x) as [x _ IH]; intros s. assert (x = 0 \/ 0 < x)%N as [->|Hx] by lia.
  - exists []. by rewrite pretty_N_go_0.
  - rewrite pretty_N_go_step by done.
    destruct (IH (x / 10)%N ltac:(by apply N.div_lt) (String (pretty_N_char (x mod 10)) s)) as (ds & Hd & Hf & Hv & _).
    destruct (digit_char (x mod 10)) as [H1 H2]; [by apply N.mod_lt|]. exists (ds ++ [pretty_N_char (x mod 10)]).
    rewrite Hd, <- app_assoc, forallb_app, Hf, decimal_value_app, Hv. split; [done|]. split; [by cbn; rewrite H1|].
    split; [|by destruct ds]. unfold decimal_value. cbn [foldl length Z.of_nat]. rewrite H2.
    rewrite N2Z.inj_div, N2Z.inj_mod. change (10 ^ Z.of_nat 1) with 10. pose proof (Z.div_mod (Z.of_N x) 10). lia.
Qed.
Lemma pretty_N_digits (x : N) :
  forallb is_ascii_digit (chars (pretty x)) = true /\ decimal_value (chars (pretty x)) = Z.of_N x /\ chars (pretty x) <> [].
Proof.
  unfold pretty, pretty_N. case_decide as Hx; [by subst|].
  destruct (pretty_N_go_digits x "") as (ds & -> & Hf & Hv & Hne). rewrite app_nil_r. split; [done|].
  split; [done|]. apply Hne. lia.
Qed.
Lemma pretty_Z_digits (x : Z) : 0 <= x ->
  forallb is_ascii_digit (chars (pretty x)) = true /\ decimal_value (chars (pretty x)) = x /\ chars (pretty x) <> [].
Proof.
  destruct x as [|p|p]; [done| |lia]. intros _. apply (pretty_N_digits (Npos p)).
Qed.
Lemma parse_u32_pretty (x : Z) : 0 <= x <= umax 32 -> parse_u32 (pretty x) = Some x.
Proof.
  intros Hx. destruct (pretty_Z_digits x) as (Hf & Hv & Hne); [lia|]. unfold parse_u32.
  destruct (chars (pretty x)) as [|a l] eqn:Hc; [done|].
  assert (is_ascii_digit a = true) as Ha by (cbn in Hf; by apply andb_true_iff in Hf as [? _]).
  assert (match a :: l with "+"%char :: ds => ds | _ => a :: l end = a :: l) as ->.
  { destruct a as [[] [] [] [] [] [] [] []]; try done; discriminate Ha. }
  rewrite Hf, Hv, (proj2 (Z.leb_le _ _)) by lia. done.
Qed.
(** The number of digits. *)
Lemma pretty_N_go_length (n : nat) : forall x s, (x < 10 ^ N.of_nat n)%N ->
  (length (chars (pretty_N_go x s)) <= n + length (chars s))%nat.
Proof.
  induction n as [|n IH]; intros x s Hx; (assert (x = 0 \/ 0 < x)%N as [->|Hp] by lia; [rewrite pretty_N_go_0; lia|]).
  - cbn in Hx. lia.
  - rewrite pretty_N_go_step by done. etransitivity; [apply IH|cbn; lia].
    apply N.Div0.div_lt_upper_bound. by rewrite <- N.pow_succ_r', <- Nat2N.inj_succ.
Qed.
Lemma pretty_N_length (n : nat) (x : N) : (0 < n)%nat -> (x < 10 ^ N.of_nat n)%N -> (length (chars (pretty x)) <= n)%nat.
Proof.
  intros Hn Hx. unfold pretty, pretty_N. case_decide; [cbn; lia|].
  pose proof (pretty_N_go_length n x "" Hx). cbn in *. lia.
Qed.
(** No control character in a number. *)
Lemma pretty_no_control (x : Z) (a : ascii) : (nat_of_ascii a < 32)%nat -> a ∉ chars (pretty x).
Proof.
  intros Ha Hin.
  assert (forall l, forallb is_ascii_digit l = true -> a ∉ l) as Hd.
  { intros l Hl Hin'. rewrite forallb_forall in Hl. apply list_elem_of_In, Hl in Hin'.
    unfold is_ascii_digit in Hin'. apply andb_true_iff in Hin' as [?%Nat.leb_le ?]. lia. }
  destruct x as [|p|p]; cbn in Hin.
  - apply list_elem_of_singleton in Hin. subst. by cbv in Ha; lia.
  - by eapply Hd; [apply (pretty_N_digits (Npos p))|exact Hin].
  - apply elem_of_cons in Hin as [->|Hin]; [cbv in Ha; lia|].
    by eapply Hd; [apply (pretty_N_digits (Npos p))|exact Hin].
Qed.
