(* ===== verification/Paths.v ===== *)
(** * Paths: the functions of [std::path] on Unix

    A path is its text.  Separators may repeat, a dot is a component only where
    a relative path begins. *)
From Stdlib Require Import Ascii.
From S2P Require Import Prelude Text.

Definition slash : ascii := "/"%char.
Definition has_root (p : string) : bool := match p with String a _ => bool_decide (a = slash) | EmptyString => false end.
Definition piece := list ascii.

(** The pieces from the last, those that are no component dropped from the end;
    the first piece of the text stays, it is empty before a root. *)
Fixpoint trim_back (rev_pieces : list piece) : list piece :=
  match rev_pieces with
  | p :: ((_ :: _) as rest) => if bool_decide (p = [] \/ p = ["."%char]) then trim_back rest else rev_pieces
  | _ => rev_pieces
  end.
Definition rev_pieces (p : string) : list piece := trim_back (reverse (split_on slash (chars p))).
Fixpoint join_pieces (pieces : list piece) : list ascii :=
  match pieces with
  | [] => []
  | [p] => p
  | p :: rest => p ++ slash :: join_pieces rest
  end.
Definition path_text (root : bool) (rev : list piece) : string :=
  match rev with
  | [[]] => if root then "/" else ""
  | _ => text (join_pieces (reverse rev))
  end.
(** The last component and the pieces before it. *)
Definition last_component (p : string) : option (piece * list piece) :=
  match rev_pieces p with
  | [] | [[]] => None
  | c :: rest => Some (c, rest)
  end.

Definition file_name (p : string) : option string :=
  '(c, _) ← last_component p; if bool_decide (c = chars "." \/ c = chars "..") then None else Some (text c).
Definition parent (p : string) : option string :=
  '(_, rest) ← last_component p; Some (path_text (has_root p) (trim_back rest)).
(** A name cut at its last dot; a leading dot cuts nothing. *)
Definition split_at_dot (name : piece) : piece * option piece :=
  match split_once "." (reverse name) with
  | Some (_, []) | None => (name, None)
  | Some (after, before) => (reverse before, Some (reverse after))
  end.
Definition file_stem (p : string) : option string := (fun n => text (split_at_dot (chars n)).1) <$> file_name p.
Definition extension (p : string) : option string := name ← file_name p; text <$> (split_at_dot (chars name)).2.

(** [Path::join]: a rooted path replaces the first. *)
Definition ends_with_slash (p : string) : bool :=
  match last (chars p) with Some a => bool_decide (a = slash) | None => true end.
Definition path_join (p q : string) : string :=
  if has_root q then q else if ends_with_slash p then (p +:+ q)%string else (p +:+ "/" +:+ q)%string.
Definition with_extension (p ext : string) : string :=
  match last_component p, file_stem p with
  | Some (_, rest), Some stem => text (join_pieces (reverse (chars (stem +:+ "." +:+ ext)%string :: rest)))
  | _, _ => p
  end.

(** ** Plain names *)

(** A file name: no separator, not empty, not a dot or two. *)
Definition plain (name : string) : Prop := slash ∉ chars name /\ name <> ""%string /\ name <> "."%string /\ name <> ".."%string.
Definition dotless (name : string) : Prop := "."%char ∉ chars name.

Lemma chars_text l : chars (text l) = l.
Proof. apply String.list_ascii_of_string_of_list_ascii. Qed.
Lemma text_chars s : text (chars s) = s.
Proof. apply String.string_of_list_ascii_of_string. Qed.

Lemma split_on_plain ch n : ch ∉ n -> split_on ch n = [n].
Proof.
  induction n as [|a n IH]; intros Hn; [done|]. apply not_elem_of_cons in Hn as [Ha Hn]. simpl.
  rewrite bool_decide_eq_false_2 by congruence. by rewrite IH.
Qed.
Lemma split_on_cons ch l : exists p rest, split_on ch l = p :: rest.
Proof.
  destruct l as [|a l]; simpl; [by eexists _, _|]. case_bool_decide; [by eexists _, _|].
  destruct (split_on ch l); by eexists _, _.
Qed.
Lemma split_on_app ch l n : split_on ch (l ++ ch :: n) = split_on ch l ++ split_on ch n.
Proof.
  induction l as [|a l IH]; simpl.
  - by rewrite bool_decide_eq_true_2.
  - rewrite IH. case_bool_decide; [done|]. by destruct (split_on_cons ch l) as (p & rest & ->).
Qed.
Lemma join_split l : join_pieces (split_on slash l) = l.
Proof.
  induction l as [|a l IH]; [done|]. simpl. destruct (split_on_cons slash l) as (p & rest & Hs). rewrite Hs in *.
  case_bool_decide as Ha; [rewrite Ha; change (slash :: join_pieces (p :: rest) = slash :: l); by rewrite IH|]. cbn in IH |- *. rewrite <- IH. by destruct rest.
Qed.
(** A path that ends in a component, and has more than the root. *)
Definition tidy (p : string) : Prop :=
  exists c rest, reverse (split_on slash (chars p)) = c :: rest /\ c <> [] /\ (c <> ["."%char] \/ rest = []).
Lemma tidy_pieces p : tidy p -> rev_pieces p = reverse (split_on slash (chars p)).
Proof.
  intros (c & rest & Hc & Hn & Hd). unfold rev_pieces. rewrite Hc. destruct rest as [|q rest]; [done|]. simpl.
  rewrite bool_decide_eq_false_2; [done|]. by intros [->| ->]; [|destruct Hd].
Qed.
Lemma path_text_tidy p : tidy p -> path_text (has_root p) (reverse (split_on slash (chars p))) = p.
Proof.
  intros (c & rest & Hc & Hn & _). unfold path_text. rewrite Hc. destruct c as [|a c]; [done|].
  rewrite <- Hc, reverse_involutive, join_split. apply text_chars.
Qed.

Lemma chars_app s1 s2 : chars (s1 +:+ s2) = chars s1 ++ chars s2.
Proof. apply list_ascii_app. Qed.
Lemma chars_inj s1 s2 : chars s1 = chars s2 -> s1 = s2.
Proof. apply list_ascii_inj. Qed.
Lemma tidy_last p : tidy p -> ends_with_slash p = false.
Proof.
  intros (c & rest & Hc & Hn & _). unfold ends_with_slash. destruct (last (chars p)) as [a|] eqn:Hl.
  - apply bool_decide_eq_false_2. intros ->. apply last_Some in Hl as [l Hl]. rewrite Hl, split_on_app, reverse_app in Hc.
    cbn in Hc. by injection Hc as <- _.
  - apply last_None in Hl. rewrite Hl in Hc. cbn in Hc. by injection Hc as <- _.
Qed.
Lemma plain_no_root name : plain name -> has_root name = false.
Proof.
  intros (Hs & Hn & _). destruct name as [|a name]; [done|]. apply bool_decide_eq_false_2. intros ->. apply Hs. by left.
Qed.
Lemma join_text p name : tidy p -> plain name -> path_join p name = (p +:+ "/" +:+ name)%string.
Proof. intros Hp Hn. unfold path_join. by rewrite (plain_no_root _ Hn), (tidy_last _ Hp). Qed.
Lemma join_pieces_of p name : plain name ->
  reverse (split_on slash (chars (p +:+ "/" +:+ name)%string)) = chars name :: reverse (split_on slash (chars p)).
Proof.
  intros (Hs & _). rewrite !chars_app. change (chars "/" ++ chars name) with (slash :: chars name).
  rewrite split_on_app, reverse_app, (split_on_plain _ _ Hs). done.
Qed.
Lemma plain_chars name : plain name -> chars name <> [] /\ chars name <> ["."%char] /\ chars name <> chars "..".
Proof.
  intros (_ & H1 & H2 & H3). split_and!; intros Hc; [apply H1|apply H2|apply H3]; by apply chars_inj.
Qed.
Lemma tidy_join p name : plain name -> tidy (p +:+ "/" +:+ name)%string.
Proof.
  intros Hn. destruct (plain_chars _ Hn) as (H1 & H2 & _). eexists _, _. split; [by apply join_pieces_of|]. split; [done|by left].
Qed.
Lemma last_component_join p name : plain name ->
  last_component (p +:+ "/" +:+ name)%string = Some (chars name, reverse (split_on slash (chars p))).
Proof.
  intros Hn. unfold last_component. rewrite tidy_pieces by by apply tidy_join. rewrite join_pieces_of by done.
  destruct (plain_chars _ Hn) as (H1 & _). by destruct (chars name).
Qed.
Lemma has_root_app p name : tidy p -> has_root (p +:+ name)%string = has_root p.
Proof. intros (c & rest & Hc & Hn & _). destruct p as [|a p]; [|done]. cbn in Hc. by injection Hc as <- _. Qed.
Lemma file_name_join p name : plain name -> file_name (p +:+ "/" +:+ name)%string = Some name.
Proof.
  intros Hn. unfold file_name. rewrite last_component_join by done. simpl.
  destruct (plain_chars _ Hn) as (_ & H2 & H3). rewrite bool_decide_eq_false_2 by (intros [Hc|Hc]; [by apply H2|by apply H3]).
  f_equal. apply text_chars.
Qed.
Lemma parent_join p name : tidy p -> plain name -> parent (p +:+ "/" +:+ name)%string = Some p.
Proof.
  intros Hp Hn. unfold parent. rewrite last_component_join by done. simpl. f_equal.
  pose proof (tidy_pieces _ Hp) as Ht. unfold rev_pieces in Ht. rewrite Ht, has_root_app by done. by apply path_text_tidy.
Qed.
Lemma split_at_dot_plain name : dotless name -> split_at_dot (chars name) = (chars name, None).
Proof.
  intros Hd. unfold split_at_dot. assert (split_once "."%char (reverse (chars name)) = None) as ->; [|done].
  assert (forall l, "."%char ∉ l -> split_once "."%char l = None) as H.
  { induction l as [|a l IH]; intros Hl; [done|]. apply not_elem_of_cons in Hl as [Ha Hl]. simpl.
    rewrite bool_decide_eq_false_2 by congruence. by rewrite IH. }
  apply H. by rewrite elem_of_reverse.
Qed.
Lemma split_at_dot_ext name ext : name <> ""%string -> dotless ext ->
  split_at_dot (chars (name +:+ "." +:+ ext)%string) = (chars name, Some (chars ext)).
Proof.
  intros Hn Hd. unfold split_at_dot. rewrite !chars_app, !reverse_app. change (reverse (chars ".")) with ["."%char].
  rewrite <- app_assoc. assert (forall l r, "."%char ∉ l -> split_once "."%char (l ++ "."%char :: r) = Some (l, r)) as H.
  { induction l as [|a l IH]; intros r Hl; [done|]. apply not_elem_of_cons in Hl as [Ha Hl]. simpl.
    rewrite bool_decide_eq_false_2 by congruence. by rewrite IH. }
  simpl. rewrite H by by rewrite elem_of_reverse. destruct (reverse (chars name)) eqn:Hr; cbn [fst snd].
  - exfalso. apply Hn, chars_inj. rewrite <- (reverse_involutive (chars name)), Hr. done.
  - by rewrite <- Hr, !reverse_involutive.
Qed.
