(* ===== verification/SharedTypes.v ===== *)
(** * Wire data of the [shared] crate

    The enums and structs both processes exchange ([shared/src/info]). *)
From S2P Require Import Prelude.
Local Open Scope Z_scope.

(** The transports of the networking crate's associations; its third value,
    [ALL], is no association's. *)
Inductive Protocol := UDP | TCP.
#[export] Instance Protocol_eq_dec : EqDecision Protocol.
Proof. solve_decision. Defined.

Inductive OptAction := Insert | Remove.

Inductive OutputEnum :=
| HttpFlv | Rtmp | DashMp4 | DashFmp4 | HlsFmp4 | HlsTs | Rtsp
| Gb28181Frame | Gb28181Ps | WebRtc | LocalMp4 | LocalTs.

#[export] Instance OutputEnum_eq_dec : EqDecision OutputEnum.
Proof. solve_decision. Defined.

(** [OutputKind] carries an [OutputEnum] tag and, for the local files, a path;
    the format structs of [info/format.rs] are empty. *)
Inductive OutputKind :=
| KHttpFlv | KRtmp | KDashFmp4 | KDashMp4 | KHlsFmp4 | KHlsTs | KRtsp
| KGb28181Frame | KGb28181Ps | KWebRtc
| KLocalMp4 (path : string)
| KLocalTs (path : string).

Inductive Codec :=
| Mpeg4 | CH264 | SvacVideo | CH265 | G711a | G711u | G7221 | G7231 | G729 | SvacAudio | CAac.

Record Filter := { capture : option unit }.

Record NetSource := { ns_remote_addr : string; ns_protocol : string }.

Record RtpInfo := {
  ri_ssrc : Z;
  ri_origin_trans : option NetSource;
  ri_server_name : string;
  ri_proxy_addr : string
}.

Record BaseStreamInfo := { rtp_info : RtpInfo; bsi_stream_id : string; in_time : Z }.

(** The media description ([info/media_info_ext.rs]). *)
Record VideoParams := {
  vp_codec_id : option string; vp_resolution : option (Z * Z); vp_fps : option Z; vp_bitrate_type : option string;
  vp_bitrate : option Z
}.
Record AudioParams := {
  ap_codec_id : option string; ap_bitrate : option string; ap_sample_rate : option string; ap_channel_count : Z;
  ap_clock_rate : Z
}.
(** [me_rtp_encrypt]: present or not; the struct is empty. *)
Record MediaExt := {
  me_rtp_encrypt : option unit; type_code : Z; me_type_name : string; me_clock_rate : Z;
  me_stream_number : option Z; me_video_params : VideoParams; me_audio_params : AudioParams
}.
Definition VideoParams_default : VideoParams := {|
  vp_codec_id := None; vp_resolution := None; vp_fps := None; vp_bitrate_type := None; vp_bitrate := None |}.
Definition AudioParams_default : AudioParams := {|
  ap_codec_id := None; ap_bitrate := None; ap_sample_rate := None; ap_channel_count := 1; ap_clock_rate := 8000 |}.
Definition MediaExt_default : MediaExt := {|
  me_rtp_encrypt := None; type_code := 0; me_type_name := ""%string; me_clock_rate := 0; me_stream_number := None;
  me_video_params := VideoParams_default; me_audio_params := AudioParams_default |}.


Record MediaConfig := {
  mc_ssrc : Z;
  mc_stream_id : string;
  mc_in_wait_timeout : option Z;
  mc_out_idle_timeout : option Z;
  mc_codec : option Codec;
  mc_filter : Filter;
  mc_output : OutputKind
}.

Record StreamState := { ss_base : BaseStreamInfo; ss_user_count : Z }.
Record OutputStreamInfo := {
  osi_base : BaseStreamInfo; osi_play_type : OutputEnum; osi_user_count : Z
}.
Record StreamPlayInfo := {
  spi_base : BaseStreamInfo; spi_remote_addr : option string;
  spi_token : string; spi_play_type : OutputEnum
}.
Record StreamRecordInfo := {
  sr_path_file_name : option string; sr_file_size : Z; sr_timestamp : Z; sr_state : Z
}.
Record RegisterStreamInfo := {
  rsi_base : BaseStreamInfo; rsi_code : Z; rsi_msg : option string
}.
Record StreamKey := { sk_ssrc : Z; sk_stream_id : option string }.
Record UnknownStreamEvent := {
  use_media_node_id : string; use_ssrc : Z; use_remote_addr : string; use_protocol : string;
  use_first_seen_at_ms : Z; use_last_seen_at_ms : Z; use_packet_count : Z; use_reason : string
}.

Inductive InTimeoutEventRes := InKeepAlive | InCloseAll.
Inductive OutputEventRes := KeepMuxer | CloseMuxer | OutCloseAll.
#[export] Instance InTimeoutEventRes_eq_dec : EqDecision InTimeoutEventRes.
Proof. solve_decision. Defined.
#[export] Instance OutputEventRes_eq_dec : EqDecision OutputEventRes.
Proof. solve_decision. Defined.
