(* ===== verification/Scheduler.v ===== *)
(** * The timer wheel of the session process ([register/schedule.rs])

    The wheel itself ([base::cache::c100k]) is not part of the repository.  The
    code only sends it requests: insert a key with a time to live, refresh it,
    delete it.  The model records those requests, in order, and [armed_after]
    says which keys an observer of the log finds pending.  The scheduler is
    initialised by [Register::init] before any operation runs, so
    [try_global] finds it and [global] does not panic. *)
From S2P Require Import Prelude.
Local Open Scope Z_scope.

Inductive TimeScheduleKey :=
| Device3Heart (device_id : string)
| DeviceRegistration (device_id : string)
| DeviceReconnect (device_id : string) (generation : Z)
| StreamClosing (stream_id : string) (generation : Z)
| TalkClosing (talk_id : string) (generation : Z)
| CatalogSubscription (device_id : string) (generation : Z)
| OutSessionKey (id : Z)
| ServerHeart (domain_id : string).

Inductive ScheduleKey :=
| SRegister (key : TimeScheduleKey)
| SGeneralCache (key : string).

#[export] Instance TimeScheduleKey_eq_dec : EqDecision TimeScheduleKey.
Proof. solve_decision. Defined.
#[export] Instance ScheduleKey_eq_dec : EqDecision ScheduleKey.
Proof. solve_decision. Defined.

(** A request to the wheel; durations are in milliseconds. *)
Inductive sched_request :=
| ReqInsert (key : ScheduleKey) (ttl : Z)
| ReqRefresh (key : ScheduleKey)
| ReqDelete (key : ScheduleKey).

Definition insert_register (key : TimeScheduleKey) (ttl : Z) : sched_request :=
  ReqInsert (SRegister key) ttl.
Definition refresh_register (key : TimeScheduleKey) : sched_request :=
  ReqRefresh (SRegister key).
Definition remove_register (key : TimeScheduleKey) : sched_request :=
  ReqDelete (SRegister key).
Definition insert_general_cache (key : string) (ttl : Z) : sched_request :=
  ReqInsert (SGeneralCache key) ttl.
Definition remove_general_cache (key : string) : sched_request :=
  ReqDelete (SGeneralCache key).

(** ** What a log of requests leaves pending *)

Definition armed_step (k : ScheduleKey) (armed : bool) (r : sched_request) : bool :=
  match r with
  | ReqInsert k' _ => if decide (k = k') then true else armed
  | ReqRefresh _ => armed
  | ReqDelete k' => if decide (k = k') then false else armed
  end.

Definition armed_from (k : ScheduleKey) (b : bool) (log : list sched_request) : bool :=
  foldl (armed_step k) b log.

(** [armed_after log k]: after the requests [log], [k] is pending. *)
Definition armed_after (log : list sched_request) (k : ScheduleKey) : bool :=
  armed_from k false log.

Lemma armed_after_app (log1 log2 : list sched_request) (k : ScheduleKey) :
  armed_after (log1 ++ log2) k = armed_from k (armed_after log1 k) log2.
Proof. unfold armed_after, armed_from. by rewrite foldl_app. Qed.

Lemma armed_after_insert (log : list sched_request) (k : ScheduleKey) (ttl : Z) :
  armed_after (log ++ [ReqInsert k ttl]) k = true.
Proof. rewrite armed_after_app. simpl. by rewrite decide_True. Qed.

Lemma armed_after_delete (log : list sched_request) (k : ScheduleKey) :
  armed_after (log ++ [ReqDelete k]) k = false.
Proof. rewrite armed_after_app. simpl. by rewrite decide_True. Qed.

Lemma armed_after_insert_ne (log : list sched_request) (k k' : ScheduleKey) (ttl : Z) :
  k <> k' -> armed_after (log ++ [ReqInsert k' ttl]) k = armed_after log k.
Proof. intros. rewrite armed_after_app. simpl. by rewrite decide_False. Qed.

Lemma armed_after_delete_ne (log : list sched_request) (k k' : ScheduleKey) :
  k <> k' -> armed_after (log ++ [ReqDelete k']) k = armed_after log k.
Proof. intros. rewrite armed_after_app. simpl. by rewrite decide_False. Qed.

Lemma armed_after_refresh (log : list sched_request) (k k' : ScheduleKey) :
  armed_after (log ++ [ReqRefresh k']) k = armed_after log k.
Proof. by rewrite armed_after_app. Qed.

(** A key that occurs only in deletions of [log2] is never armed by it. *)
Lemma armed_from_false (log : list sched_request) (k : ScheduleKey) :
  (forall ttl, ReqInsert k ttl ∉ log) -> armed_from k false log = false.
Proof.
  induction log as [|r log IH]; intros Hno; [done|]. simpl.
  assert (armed_step k false r = false) as ->.
  { destruct r; simpl; try case_decide; simplify_eq; try done.
    exfalso. eapply (Hno ttl). by left. }
  apply IH. intros ttl Hin. eapply (Hno ttl). by right.
Qed.

Lemma armed_from_deleted (log : list sched_request) (b : bool) (k : ScheduleKey) :
  (forall ttl, ReqInsert k ttl ∉ log) -> ReqDelete k ∈ log -> armed_from k b log = false.
Proof.
  induction log as [|r log IH] in b |- *; intros Hno Hin; [by apply elem_of_nil in Hin|].
  apply elem_of_cons in Hin as [<-|Hin]; simpl.
  - rewrite decide_True by done. apply armed_from_false.
    intros ttl Hin. eapply (Hno ttl). by right.
  - apply IH; [|done]. intros ttl Hin'. eapply (Hno ttl). by right.
Qed.

(** Requests about other keys do not change a key. *)
Lemma armed_from_frame (log : list sched_request) (b : bool) (k : ScheduleKey) :
  (forall ttl, ReqInsert k ttl ∉ log) -> ReqDelete k ∉ log -> armed_from k b log = b.
Proof.
  induction log as [|r log IH] in b |- *; intros Hno Hnd; [done|]. simpl.
  rewrite not_elem_of_cons in Hnd. destruct Hnd as [Hr Hnd].
  assert (armed_step k b r = b) as ->.
  { destruct r; simpl; try case_decide; simplify_eq; try done.
    exfalso. eapply (Hno ttl). by left. }
  apply IH; [|done]. intros ttl Hin. eapply (Hno ttl). by right.
Qed.

#[export] Hint Rewrite armed_after_insert armed_after_delete armed_after_refresh : gmv.
