(* ===== verification/Lifecycle.v ===== *)
(** * Closing a dialog: the life cycle of one stream

    [StreamTable] and [StreamLifecycle] of [session/src/state/session.rs]: a
    stream is playing until a close begins; a closing stream has at most one
    BYE request in flight, and every BYE carries a fresh CSeq. *)
From S2P Require Import Prelude.
Local Open Scope Z_scope.

Inductive AccessMode := Live | Back | Down | Talk.
#[export] Instance AccessMode_eq_dec : EqDecision AccessMode.
Proof. solve_decision. Defined.

Definition AccessMode_as_str (am : AccessMode) : string :=
  match am with Live => "live" | Back => "back" | Down => "down" | Talk => "talk" end.

Inductive StreamLifecycle :=
| Playing
| Closing (generation : Z) (inflight_seq : option Z) (last_error : option string).

Record StreamTable := {
  gmv_token_sets : gset string;
  st_device_id : string;
  st_channel_id : string;
  st_proxy_addr : string;
  st_stream_node_name : string;
  st_call_id : string;
  st_seq : Z;
  st_am : AccessMode;
  st_ssrc : Z;
  st_restored : bool;
  lifecycle : StreamLifecycle
}.

Definition with_lifecycle (l : StreamLifecycle) (t : StreamTable) : StreamTable := {|
  gmv_token_sets := gmv_token_sets t; st_device_id := st_device_id t;
  st_channel_id := st_channel_id t; st_proxy_addr := st_proxy_addr t;
  st_stream_node_name := st_stream_node_name t; st_call_id := st_call_id t;
  st_seq := st_seq t; st_am := st_am t; st_ssrc := st_ssrc t;
  st_restored := st_restored t; lifecycle := l |}.

Definition with_seq_lifecycle (s : Z) (l : StreamLifecycle) (t : StreamTable) : StreamTable := {|
  gmv_token_sets := gmv_token_sets t; st_device_id := st_device_id t;
  st_channel_id := st_channel_id t; st_proxy_addr := st_proxy_addr t;
  st_stream_node_name := st_stream_node_name t; st_call_id := st_call_id t;
  st_seq := s; st_am := st_am t; st_ssrc := st_ssrc t;
  st_restored := st_restored t; lifecycle := l |}.

Definition with_tokens (f : gset string -> gset string) (t : StreamTable) : StreamTable := {|
  gmv_token_sets := f (gmv_token_sets t); st_device_id := st_device_id t;
  st_channel_id := st_channel_id t; st_proxy_addr := st_proxy_addr t;
  st_stream_node_name := st_stream_node_name t; st_call_id := st_call_id t;
  st_seq := st_seq t; st_am := st_am t; st_ssrc := st_ssrc t;
  st_restored := st_restored t; lifecycle := lifecycle t |}.

Definition with_source (proxy node : string) (t : StreamTable) : StreamTable := {|
  gmv_token_sets := gmv_token_sets t; st_device_id := st_device_id t;
  st_channel_id := st_channel_id t; st_proxy_addr := proxy;
  st_stream_node_name := node; st_call_id := st_call_id t;
  st_seq := st_seq t; st_am := st_am t; st_ssrc := st_ssrc t;
  st_restored := st_restored t; lifecycle := lifecycle t |}.

(** ** The methods of [StreamTable] *)

Definition begin_close (generation : Z) (t : StreamTable) : bool * StreamTable :=
  match lifecycle t with
  | Closing _ _ _ => (false, t)
  | Playing => (true, with_lifecycle (Closing generation None None) t)
  end.

Definition take_bye (t : StreamTable) : option (Z * Z) * StreamTable :=
  match lifecycle t with
  | Playing => (None, t)
  | Closing generation (Some _) _ => (None, t)
  | Closing generation None err =>
      let seq := saturating_add 32 (st_seq t) 1 in
      (Some (generation, seq),
       with_seq_lifecycle seq (Closing generation (Some seq) err) t)
  end.

Definition mark_bye_failed (expected_generation expected_seq : Z) (reason : string)
    (t : StreamTable) : bool * StreamTable :=
  match lifecycle t with
  | Playing => (false, t)
  | Closing generation inflight_seq _ =>
      if bool_decide (generation <> expected_generation)
         || bool_decide (inflight_seq <> Some expected_seq)
      then (false, t)
      else (true, with_lifecycle (Closing generation None (Some reason)) t)
  end.

Definition is_closing (t : StreamTable) : bool :=
  match lifecycle t with Closing _ _ _ => true | Playing => false end.

Definition is_closing_generation (expected_generation : Z) (t : StreamTable) : bool :=
  match lifecycle t with
  | Closing generation _ _ => bool_decide (generation = expected_generation)
  | Playing => false
  end.

Definition closing_generation (t : StreamTable) : option Z :=
  match lifecycle t with Playing => None | Closing generation _ _ => Some generation end.

Definition last_error (t : StreamTable) : option string :=
  match lifecycle t with Playing => None | Closing _ _ e => e end.

(** ** Runs of one stream

    The calls other code makes on a table that stays in the map, with what
    each call returned. *)
Inductive bye_event :=
| EvBegin (generation : Z) (started : bool)
| EvTake (sent : option (Z * Z))
| EvFail (generation seq : Z) (matched : bool).

Inductive bye_step : StreamTable -> bye_event -> StreamTable -> Prop :=
| step_begin g t : bye_step t (EvBegin g (begin_close g t).1) (begin_close g t).2
| step_take t : bye_step t (EvTake (take_bye t).1) (take_bye t).2
| step_fail g s r t :
    bye_step t (EvFail g s (mark_bye_failed g s r t).1) (mark_bye_failed g s r t).2.

Inductive bye_run : StreamTable -> list bye_event -> StreamTable -> Prop :=
| run_nil t : bye_run t [] t
| run_cons t e t' es t'' : bye_step t e t' -> bye_run t' es t'' -> bye_run t (e :: es) t''.

(** The BYE requests a run sent, and the abstract view of it: the requests
    not answered by a failure report. *)
Fixpoint sent_byes (es : list bye_event) : list (Z * Z) :=
  match es with
  | [] => []
  | EvTake (Some b) :: es => b :: sent_byes es
  | _ :: es => sent_byes es
  end.

Fixpoint outstanding (pending : option (Z * Z)) (es : list bye_event) : list (Z * Z) :=
  match es with
  | [] => option_list pending
  | EvTake (Some b) :: es => option_list pending ++ outstanding (Some b) es
  | EvFail _ _ true :: es => outstanding None es
  | _ :: es => outstanding pending es
  end.

(** The request a table considers in flight. *)
Definition in_flight (t : StreamTable) : option (Z * Z) :=
  match lifecycle t with
  | Closing g (Some s) _ => Some (g, s)
  | _ => None
  end.

(** Well-formed: an in-flight CSeq is the table's current CSeq. *)
Definition bye_wf (t : StreamTable) : Prop :=
  in_width 32 (st_seq t) /\
  match in_flight t with Some (_, s) => s = st_seq t | None => True end.

Lemma bye_step_wf (t t' : StreamTable) (e : bye_event) : bye_step t e t' -> bye_wf t -> bye_wf t'.
Proof.
  intros [g t0|t0|g s r t0] [Hw Hf].
  - unfold begin_close, bye_wf, in_flight in *. cases; simpl; rewrite ?H; by split.
  - unfold take_bye, bye_wf, in_flight in *.
    destruct (lifecycle t0) as [|g' [s|] err] eqn:Hl; simpl; rewrite ?Hl; try by split.
    split; [|done]. apply saturating_add_bound; [lia|unfold in_width in Hw; lia|lia].
  - unfold mark_bye_failed, bye_wf, in_flight in *.
    destruct (lifecycle t0) as [|g' fl err] eqn:Hl; simpl; rewrite ?Hl; [by split|].
    destruct (_ || _); simpl; rewrite ?Hl; by split.
Qed.

Lemma bye_step_in_flight (t t' : StreamTable) (e : bye_event) :
  bye_step t e t' ->
  match e with
  | EvTake (Some b) => in_flight t = None /\ in_flight t' = Some b
  | EvFail g s true => in_flight t = Some (g, s) /\ in_flight t' = None
  | _ => in_flight t' = in_flight t
  end.
Proof.
  intros [g t0|t0|g s r t0]; unfold begin_close, take_bye, mark_bye_failed, in_flight.
  - destruct (lifecycle t0) eqn:Hl; simpl; by rewrite ?Hl.
  - destruct (lifecycle t0) as [|g' [s|] err] eqn:Hl; simpl; by rewrite ?Hl.
  - destruct (lifecycle t0) as [|g' fl err] eqn:Hl; simpl; [by rewrite Hl|].
    case_bool; simpl; rewrite ?Hl; try done.
    destruct (decide (g' = g)), (decide (fl = Some s)); simplify_eq/=; naive_solver.
Qed.

Lemma bye_step_seq (t t' : StreamTable) (e : bye_event) :
  bye_step t e t' -> bye_wf t ->
  match e with
  | EvTake (Some (_, s)) => s = st_seq t' /\ (st_seq t < umax 32 -> st_seq t' = st_seq t + 1)
                            /\ st_seq t <= st_seq t'
  | _ => st_seq t' = st_seq t
  end.
Proof.
  intros [g t0|t0|g s r t0] [Hw _]; unfold begin_close, take_bye, mark_bye_failed.
  - destruct (lifecycle t0) eqn:Hl; done.
  - destruct (lifecycle t0) as [|g' [s|] err] eqn:Hl; simpl; try done.
    unfold in_width in Hw. unfold saturating_add, umax. lia.
  - destruct (lifecycle t0) as [|g' fl err] eqn:Hl; simpl; [done|]. destruct (_ || _); done.
Qed.

Lemma bye_step_generation (t t' : StreamTable) (e : bye_event) (g : Z) :
  bye_step t e t' -> closing_generation t = Some g -> closing_generation t' = Some g.
Proof.
  intros [g0 t0|t0|g0 s r t0]; unfold closing_generation, begin_close, take_bye, mark_bye_failed.
  - destruct (lifecycle t0) eqn:Hl; simpl; by rewrite ?Hl.
  - destruct (lifecycle t0) as [|g' [s|] err] eqn:Hl; simpl; by rewrite ?Hl.
  - destruct (lifecycle t0) as [|g' fl err] eqn:Hl; simpl; [done|].
    destruct (_ || _); simpl; by rewrite ?Hl.
Qed.

Lemma bye_run_seq_lower (t t' : StreamTable) (es : list bye_event) :
  bye_run t es t' -> bye_wf t -> Z.of_nat (length (sent_byes es)) + st_seq t <= umax 32 ->
  Forall (fun b => st_seq t < b.2) (sent_byes es) /\
  st_seq t' = st_seq t + Z.of_nat (length (sent_byes es)).
Proof.
  induction 1 as [t|t e t1 es t2 Hstep Hrun IH]; intros Hwf Hb; [split; [constructor|simpl; lia]|].
  pose proof (bye_step_seq _ _ _ Hstep Hwf) as Hs.
  pose proof (bye_step_wf _ _ _ Hstep Hwf) as Hwf1.
  destruct e as [g b|[[g s]|]|g s b]; simpl in *.
  1,3,4: rewrite Hs in IH; by apply IH.
  destruct Hs as (-> & Hnext & _). rewrite Hnext in IH by lia.
  destruct IH as [Hall Heq]; [done|lia|]. split; [|lia].
  constructor; simpl; [lia|]. eapply Forall_impl; [done|]. intros ? ?. simpl in *. lia.
Qed.

(** Closing a dialog.  In every run of close, BYE and failure reports on
    one stream, at most one BYE is unanswered at any time (it is exactly the
    one the table records), and as long as the CSeq space is not exhausted
    every BYE carries a CSeq strictly greater than all earlier ones. *)
Theorem bye_single_flight (t t' : StreamTable) (es : list bye_event) :
  bye_run t es t' -> bye_wf t -> in_flight t = None ->
  Z.of_nat (length (sent_byes es)) + st_seq t <= umax 32 ->
  outstanding None es = option_list (in_flight t') /\
  StronglySorted (fun a b : Z * Z => a.2 < b.2) (sent_byes es).
Proof.
  intros Hrun Hwf Hnone. rewrite <- Hnone. clear Hnone. revert Hwf.
  induction Hrun as [t|t e t1 es t2 Hstep Hrun IH]; intros Hwf Hb; [split; [done|constructor]|].
  pose proof (bye_step_in_flight _ _ _ Hstep) as Hf.
  pose proof (bye_step_seq _ _ _ Hstep Hwf) as Hs.
  pose proof (bye_step_wf _ _ _ Hstep Hwf) as Hwf1.
  destruct e as [g b|[[g s]|]|g s [|]]; simpl in *.
  - rewrite Hf, Hs in IH. auto.
  - destruct Hs as (-> & Hnext & _), Hf as [-> Hf1]. rewrite Hf1 in IH. simpl.
    destruct IH as [Ho Hsort]; [done|lia|]. split; [done|].
    constructor; [done|]. eapply bye_run_seq_lower; [done|done|lia].
  - rewrite Hf, Hs in IH. auto.
  - destruct Hf as [_ Hf]. rewrite Hf, Hs in IH. auto.
  - rewrite Hf, Hs in IH. auto.
Qed.

Definition demo_table : StreamTable := {|
  gmv_token_sets := ∅; st_device_id := "device-id"; st_channel_id := "channel-id";
  st_proxy_addr := ""; st_stream_node_name := ""; st_call_id := "call-id"; st_seq := 7;
  st_am := Live; st_ssrc := 1001; st_restored := false; lifecycle := Playing |}.

Definition demo_run : list bye_event :=
  [EvBegin 11 true; EvTake (Some (11, 8)); EvFail 11 8 true; EvTake (Some (11, 9)); EvTake None].

Definition demo_end : StreamTable :=
  with_seq_lifecycle 9 (Closing 11 (Some 9) (Some "tcp closed"%string)) demo_table.

Lemma demo_run_ok : bye_run demo_table demo_run demo_end.
Proof.
  eapply run_cons; [exact (step_begin 11 _)|].
  eapply run_cons; [exact (step_take _)|].
  eapply run_cons; [exact (step_fail 11 8 "tcp closed" _)|].
  eapply run_cons; [exact (step_take _)|].
  eapply run_cons; [exact (step_take _)|]. exact (run_nil _).
Qed.

Lemma bye_single_flight_witness :
  outstanding None demo_run = [(11, 9)] /\
  StronglySorted (fun a b : Z * Z => a.2 < b.2) (sent_byes demo_run).
Proof.
  apply (bye_single_flight demo_table demo_end demo_run demo_run_ok).
  - split; [unfold in_width; simpl; lia|done].
  - reflexivity.
  - vm_compute. discriminate.
Defined.

(** A close keeps the generation it started with: once a stream is
    closing with generation [g], every later call leaves it closing with [g],
    and a second [begin_close] changes nothing. *)
Theorem close_generation_stable (t t' : StreamTable) (es : list bye_event) (g : Z) :
  bye_run t es t' -> closing_generation t = Some g ->
  closing_generation t' = Some g /\
  (forall g', begin_close g' t' = (false, t')) /\
  (forall g', is_closing_generation g' t' = bool_decide (g = g')).
Proof.
  intros Hrun Hg. assert (closing_generation t' = Some g) as Hg'.
  { clear -Hrun Hg. induction Hrun; [done|]. eauto using bye_step_generation. }
  split; [done|]. revert Hg'. unfold closing_generation, begin_close, is_closing_generation.
  destruct (lifecycle t'); naive_solver.
Qed.

Lemma close_generation_stable_witness :
  closing_generation demo_end = Some 11 /\
  (forall g', begin_close g' demo_end = (false, demo_end)) /\
  (forall g', is_closing_generation g' demo_end = bool_decide (11 = g')).
Proof.
  apply (close_generation_stable (begin_close 11 demo_table).2 demo_end
           [EvTake (Some (11, 8)); EvFail 11 8 true; EvTake (Some (11, 9)); EvTake None] 11).
  - eapply run_cons; [exact (step_take _)|].
    eapply run_cons; [exact (step_fail 11 8 "tcp closed" _)|].
    eapply run_cons; [exact (step_take _)|].
    eapply run_cons; [exact (step_take _)|]. exact (run_nil _).
  - reflexivity.
Defined.
