(* ===== verification/SessionCache.v ===== *)
(** * The session cache: streams and devices

    [Cache] and [Shared] of [session/src/state/session.rs]: the maps of live
    streams, talks, catalog subscriptions and devices, the set-up locks, the
    keyed wait entries, and the three generation counters.  Each operation is a
    function of the cache; the requests it sends to the timer wheel and to
    waiting tasks are appended to logs. *)
From S2P Require Import Prelude SharedTypes Scheduler Lifecycle.
Local Open Scope Z_scope.

(** ** Data *)

Record DeviceTable := {
  dt_channel_id : string;
  dt_am : AccessMode;
  dt_stream_id : string;
  dt_config : option MediaConfig;
  dt_ssrc : string
}.

Record TalkSessionState := {
  tk_talk_id : string;
  tk_device_id : string;
  tk_channel_id : string;
  tk_ssrc : Z;
  tk_stream_node_name : string;
  tk_call_id : string;
  tk_seq : Z;
  tk_restored : bool;
  tk_closing_generation : option Z;
  tk_bye_inflight_seq : option Z;
  tk_close_last_error : option string
}.

Record CatalogSubscriptionState := {
  cs_generation : Z;
  cs_call_id : string;
  cs_seq : Z;
  cs_event : string;
  cs_expires : Z;
  cs_remote_target : string;
  cs_route_set : list string;
  cs_from_header : string;
  cs_to_header : string;
  cs_local_tag : string;
  cs_remote_tag : string;
  cs_inflight : bool
}.

Inductive StateValue := Empty | Counter (n : Z).

(** A waiter holds the sending half of a channel, named by a number. *)
Inductive StateWaiter := WaitStream (tx : Z) | WaitSnapshot (tx : Z).

Record StateEntry := {
  se_value : StateValue; se_expire : option Z; se_waiter : option StateWaiter
}.

(** A [try_send] on a waiter's channel. *)
Inductive wake :=
| WakeStream (tx : Z) (info : option BaseStreamInfo)
| WakeSnapshot (tx : Z) (ok : bool).

Record Cache := {
  stream_map : gmap string StreamTable;
  talk_map : gmap string TalkSessionState;
  catalog_subscriptions : gmap string CatalogSubscriptionState;
  device_map : gmap string (list DeviceTable);
  stream_setup_locks : gmap string Z;
  entities : gmap string StateEntry;
  stream_close_generation : Z;
  talk_close_generation : Z;
  catalog_subscription_generation : Z;
  locks_created : Z;
  requests : list sched_request;
  wakes : list wake
}.

Definition Cache_init : Cache := {|
  stream_map := ∅; talk_map := ∅; catalog_subscriptions := ∅; device_map := ∅;
  stream_setup_locks := ∅; entities := ∅; stream_close_generation := 1;
  talk_close_generation := 1; catalog_subscription_generation := 1;
  locks_created := 0; requests := []; wakes := [] |}.

(** Field updates. *)
Definition on_streams (f : gmap string StreamTable -> gmap string StreamTable) (c : Cache) : Cache := {|
  stream_map := f (stream_map c); talk_map := talk_map c;
  catalog_subscriptions := catalog_subscriptions c; device_map := device_map c;
  stream_setup_locks := stream_setup_locks c; entities := entities c;
  stream_close_generation := stream_close_generation c;
  talk_close_generation := talk_close_generation c;
  catalog_subscription_generation := catalog_subscription_generation c;
  locks_created := locks_created c; requests := requests c; wakes := wakes c |}.
Definition on_talks (f : gmap string TalkSessionState -> gmap string TalkSessionState) (c : Cache) : Cache := {|
  stream_map := stream_map c; talk_map := f (talk_map c);
  catalog_subscriptions := catalog_subscriptions c; device_map := device_map c;
  stream_setup_locks := stream_setup_locks c; entities := entities c;
  stream_close_generation := stream_close_generation c;
  talk_close_generation := talk_close_generation c;
  catalog_subscription_generation := catalog_subscription_generation c;
  locks_created := locks_created c; requests := requests c; wakes := wakes c |}.
Definition on_catalog (f : gmap string CatalogSubscriptionState -> gmap string CatalogSubscriptionState)
    (c : Cache) : Cache := {|
  stream_map := stream_map c; talk_map := talk_map c;
  catalog_subscriptions := f (catalog_subscriptions c); device_map := device_map c;
  stream_setup_locks := stream_setup_locks c; entities := entities c;
  stream_close_generation := stream_close_generation c;
  talk_close_generation := talk_close_generation c;
  catalog_subscription_generation := catalog_subscription_generation c;
  locks_created := locks_created c; requests := requests c; wakes := wakes c |}.
Definition on_devices (f : gmap string (list DeviceTable) -> gmap string (list DeviceTable))
    (c : Cache) : Cache := {|
  stream_map := stream_map c; talk_map := talk_map c;
  catalog_subscriptions := catalog_subscriptions c; device_map := f (device_map c);
  stream_setup_locks := stream_setup_locks c; entities := entities c;
  stream_close_generation := stream_close_generation c;
  talk_close_generation := talk_close_generation c;
  catalog_subscription_generation := catalog_subscription_generation c;
  locks_created := locks_created c; requests := requests c; wakes := wakes c |}.
Definition on_locks (f : gmap string Z -> gmap string Z) (created : Z) (c : Cache) : Cache := {|
  stream_map := stream_map c; talk_map := talk_map c;
  catalog_subscriptions := catalog_subscriptions c; device_map := device_map c;
  stream_setup_locks := f (stream_setup_locks c); entities := entities c;
  stream_close_generation := stream_close_generation c;
  talk_close_generation := talk_close_generation c;
  catalog_subscription_generation := catalog_subscription_generation c;
  locks_created := created; requests := requests c; wakes := wakes c |}.
Definition on_entities (f : gmap string StateEntry -> gmap string StateEntry) (c : Cache) : Cache := {|
  stream_map := stream_map c; talk_map := talk_map c;
  catalog_subscriptions := catalog_subscriptions c; device_map := device_map c;
  stream_setup_locks := stream_setup_locks c; entities := f (entities c);
  stream_close_generation := stream_close_generation c;
  talk_close_generation := talk_close_generation c;
  catalog_subscription_generation := catalog_subscription_generation c;
  locks_created := locks_created c; requests := requests c; wakes := wakes c |}.
Definition with_generations (s t k : Z) (c : Cache) : Cache := {|
  stream_map := stream_map c; talk_map := talk_map c;
  catalog_subscriptions := catalog_subscriptions c; device_map := device_map c;
  stream_setup_locks := stream_setup_locks c; entities := entities c;
  stream_close_generation := s; talk_close_generation := t;
  catalog_subscription_generation := k;
  locks_created := locks_created c; requests := requests c; wakes := wakes c |}.
Definition request (r : sched_request) (c : Cache) : Cache := {|
  stream_map := stream_map c; talk_map := talk_map c;
  catalog_subscriptions := catalog_subscriptions c; device_map := device_map c;
  stream_setup_locks := stream_setup_locks c; entities := entities c;
  stream_close_generation := stream_close_generation c;
  talk_close_generation := talk_close_generation c;
  catalog_subscription_generation := catalog_subscription_generation c;
  locks_created := locks_created c; requests := requests c ++ [r]; wakes := wakes c |}.
Definition wake_up (w : wake) (c : Cache) : Cache := {|
  stream_map := stream_map c; talk_map := talk_map c;
  catalog_subscriptions := catalog_subscriptions c; device_map := device_map c;
  stream_setup_locks := stream_setup_locks c; entities := entities c;
  stream_close_generation := stream_close_generation c;
  talk_close_generation := talk_close_generation c;
  catalog_subscription_generation := catalog_subscription_generation c;
  locks_created := locks_created c; requests := requests c; wakes := wakes c ++ [w] |}.

(** [STREAM_CLOSE_GENERATION.fetch_add(1)] and its two siblings: the old value
    and the cache with the counter advanced, wrapping at 64 bits. *)
Definition next_stream_close_generation (c : Cache) : Z * Cache :=
  (stream_close_generation c,
   with_generations (wrapping_add 64 (stream_close_generation c) 1)
     (talk_close_generation c) (catalog_subscription_generation c) c).
Definition next_talk_close_generation (c : Cache) : Z * Cache :=
  (talk_close_generation c,
   with_generations (stream_close_generation c)
     (wrapping_add 64 (talk_close_generation c) 1) (catalog_subscription_generation c) c).
Definition next_catalog_subscription_generation (c : Cache) : Z * Cache :=
  (catalog_subscription_generation c,
   with_generations (stream_close_generation c) (talk_close_generation c)
     (wrapping_add 64 (catalog_subscription_generation c) 1) c).

(** ** Streams: look-ups and insertion *)

Section Streams.
Context `{!MapIter string}.

(** The count per node of [stream_map_order_node]; the counter is a [u16]. *)
Definition node_counts (c : Cache) : gmap string Z :=
  foldl (fun m kv =>
    let node := st_stream_node_name kv.2 in
    <[node := match m !! node with Some n => wrapping_add 16 n 1 | None => 1 end]> m)
    ∅ (map_iter (stream_map c)).

Definition stream_map_order_node (node_map : list string) (c : Cache) : gset (Z * string) :=
  list_to_set ((fun k => (default 0 (node_counts c !! k), k)) <$> node_map).

Definition stream_map_insert_token (stream_id gmv_token : string) (c : Cache) : bool * Cache :=
  match stream_map c !! stream_id with
  | Some t =>
      (true, on_streams <[stream_id := with_tokens (fun s => {[gmv_token]} ∪ s) t]> c)
  | None => (false, c)
  end.

Definition stream_map_insert (stream_id device_id channel_id : string) (ssrc : Z)
    (proxy_addr stream_node_name call_id : string) (seq : Z) (am : AccessMode)
    (restored : bool) (c : Cache) : bool * Cache :=
  match stream_map c !! stream_id with
  | Some _ => (false, c)
  | None =>
      (true, on_streams <[stream_id := {|
         gmv_token_sets := ∅; st_device_id := device_id; st_channel_id := channel_id;
         st_proxy_addr := proxy_addr; st_stream_node_name := stream_node_name;
         st_call_id := call_id; st_seq := seq; st_am := am; st_ssrc := ssrc;
         st_restored := restored; lifecycle := Playing |}]> c)
  end.

Definition stream_map_insert_info (stream_id device_id channel_id : string) (ssrc : Z)
    (proxy_addr stream_node_name call_id : string) (seq : Z) (am : AccessMode)
    (c : Cache) : bool * Cache :=
  stream_map_insert stream_id device_id channel_id ssrc proxy_addr stream_node_name
    call_id seq am false c.

Definition stream_map_insert_restored (stream_id device_id channel_id : string) (ssrc : Z)
    (stream_node_name call_id : string) (seq : Z) (am : AccessMode) (c : Cache) : bool * Cache :=
  stream_map_insert stream_id device_id channel_id ssrc "" stream_node_name
    call_id seq am true c.

Definition stream_device_id (stream_id : string) (c : Cache) : option string :=
  st_device_id <$> stream_map c !! stream_id.
Definition stream_call_id (stream_id : string) (c : Cache) : option string :=
  st_call_id <$> stream_map c !! stream_id.
Definition stream_is_restored (stream_id : string) (c : Cache) : bool :=
  match stream_map c !! stream_id with Some t => st_restored t | None => false end.
Definition stream_map_query_node_ssrc (stream_id : string) (c : Cache) : option (string * Z) :=
  (fun t => (st_stream_node_name t, st_ssrc t)) <$> stream_map c !! stream_id.

Definition stream_ids_by_node_ssrc (node_name : string) (ssrc : Z) (c : Cache) : list string :=
  map_keys_where (fun _ t => bool_decide (st_stream_node_name t = node_name)
                             && (st_ssrc t =? ssrc)) (stream_map c).

Definition ssrc_is_active (ssrc : Z) (c : Cache) : bool :=
  map_any (fun _ t => st_ssrc t =? ssrc) (stream_map c)
  || map_any (fun _ t => tk_ssrc t =? ssrc) (talk_map c).

Definition stream_map_update_source (stream_id proxy_addr stream_node_name : string)
    (c : Cache) : bool * Cache :=
  match stream_map c !! stream_id with
  | Some t => (true, on_streams <[stream_id := with_source proxy_addr stream_node_name t]> c)
  | None => (false, c)
  end.

Definition stream_map_query_node (stream_id : string) (c : Cache) : option (string * string) :=
  (fun t => (st_stream_node_name t, st_proxy_addr t)) <$> stream_map c !! stream_id.

Definition stream_map_remove (stream_id : string) (gmv_token : option string) (c : Cache) : Cache :=
  match gmv_token with
  | None => on_streams (delete stream_id) c
  | Some token =>
      match stream_map c !! stream_id with
      | Some t => on_streams <[stream_id := with_tokens (fun s => s ∖ {[token]}) t]> c
      | None => c
      end
  end.

Definition stream_map_contains_token (stream_id gmv_token : string) (c : Cache) : bool :=
  match stream_map c !! stream_id with
  | None => false
  | Some t => bool_decide (gmv_token ∈ gmv_token_sets t)
  end.

Definition stream_map_query_play_type_by_stream_id (stream_id : string) (c : Cache) : option AccessMode :=
  st_am <$> stream_map c !! stream_id.

(** ** Streams: closing *)

Record StreamCloseStart := {
  scs_generation : Z; scs_device_id : string; scs_newly_started : bool
}.
Record StreamByeCommand := {
  sbc_stream_id : string; sbc_generation : Z; sbc_device_id : string;
  sbc_call_id : string; sbc_seq : Z
}.
Record StreamCloseInfo := {
  sci_stream_id : string; sci_generation : Z; sci_device_id : string; sci_channel_id : string;
  sci_ssrc : Z; sci_call_id : string; sci_last_error : option string
}.

Definition stream_is_closing (stream_id : string) (c : Cache) : bool :=
  match stream_map c !! stream_id with Some t => is_closing t | None => false end.

Definition stream_close_begin (stream_id : string) (c : Cache) : option StreamCloseStart * Cache :=
  match stream_map c !! stream_id with
  | None => (None, c)
  | Some t =>
      let '(generation, c1) := next_stream_close_generation c in
      let '(newly_started, t1) := begin_close generation t in
      let c2 := on_streams <[stream_id := t1]> c1 in
      (match closing_generation t1 with
       | None => None
       | Some g => Some {| scs_generation := g; scs_device_id := st_device_id t1;
                           scs_newly_started := newly_started |}
       end, c2)
  end.

Definition stream_close_take_bye (stream_id : string) (c : Cache) : option StreamByeCommand * Cache :=
  match stream_map c !! stream_id with
  | None => (None, c)
  | Some t =>
      let '(bye, t1) := take_bye t in
      ((fun '(generation, seq) =>
          {| sbc_stream_id := stream_id; sbc_generation := generation;
             sbc_device_id := st_device_id t1; sbc_call_id := st_call_id t1;
             sbc_seq := seq |}) <$> bye,
       on_streams <[stream_id := t1]> c)
  end.

Definition stream_close_mark_failed (stream_id : string) (generation seq : Z) (reason : string)
    (c : Cache) : bool * Cache :=
  match stream_map c !! stream_id with
  | None => (false, c)
  | Some t =>
      let '(matched, t1) := mark_bye_failed generation seq reason t in
      (matched, on_streams <[stream_id := t1]> c)
  end.

Definition stream_close_ids_by_device (device_id : string) (c : Cache) : list string :=
  map_keys_where (fun _ t => bool_decide (st_device_id t = device_id) && is_closing t)
    (stream_map c).

(** ** Devices *)

Definition device_map_remove_stream (device_id stream_id : string) (c : Cache) : Cache :=
  match device_map c !! device_id with
  | None => c
  | Some rows =>
      let kept := filter (fun row => dt_stream_id row <> stream_id) rows in
      match kept with
      | [] => on_devices (delete device_id) c
      | _ => on_devices <[device_id := kept]> c
      end
  end.

Definition device_map_insert_table (device_id : string) (device_table : DeviceTable) (c : Cache) : Cache :=
  match device_map c !! device_id with
  | Some rows => on_devices <[device_id := rows ++ [device_table]]> c
  | None => on_devices <[device_id := [device_table]]> c
  end.

Definition device_map_insert (device_id channel_id ssrc stream_id : string) (am : AccessMode)
    (config : MediaConfig) (c : Cache) : Cache :=
  device_map_insert_table device_id
    {| dt_channel_id := channel_id; dt_am := am; dt_stream_id := stream_id;
       dt_config := Some config; dt_ssrc := ssrc |} c.

Definition device_map_insert_restored (device_id channel_id ssrc stream_id : string)
    (am : AccessMode) (c : Cache) : Cache :=
  device_map_insert_table device_id
    {| dt_channel_id := channel_id; dt_am := am; dt_stream_id := stream_id;
       dt_config := None; dt_ssrc := ssrc |} c.

(** The row test of [device_map_remove]: what the [retain] keeps. *)
Definition device_row_kept (channel_id : string) (channel_ssrc : option (AccessMode * string))
    (row : DeviceTable) : bool :=
  match channel_ssrc with
  | None => negb (bool_decide (dt_channel_id row = channel_id))
  | Some (am, ssrc) =>
      bool_decide (dt_channel_id row <> channel_id) || bool_decide (dt_am row <> am)
      || bool_decide (dt_ssrc row <> ssrc)
  end.

Definition device_map_remove (device_id : string)
    (opt_channel_ssrc : option (string * option (AccessMode * string))) (c : Cache) : Cache :=
  match opt_channel_ssrc with
  | None => on_devices (delete device_id) c
  | Some (channel_id, channel_ssrc) =>
      match device_map c !! device_id with
      | None => c
      | Some rows =>
          let kept := filter (fun row => device_row_kept channel_id channel_ssrc row = true) rows in
          match kept with
          | [] => on_devices (delete device_id) c
          | _ => on_devices <[device_id := kept]> c
          end
      end
  end.

Definition device_map_get_invite_info (device_id channel_id : string) (am : AccessMode)
    (c : Cache) : option (string * string) :=
  match device_map c !! device_id with
  | None => None
  | Some rows =>
      (fun row => (dt_stream_id row, dt_ssrc row)) <$>
      head (filter (fun row => dt_channel_id row = channel_id /\ dt_am row = am) rows)
  end.

Definition stream_ids_for_media_status (device_id channel_id : string) (c : Cache) : list string :=
  match device_map c !! device_id with
  | None => []
  | Some rows =>
      dt_stream_id <$>
      filter (fun row => dt_channel_id row = channel_id /\ (dt_am row = Back \/ dt_am row = Down)) rows
  end.

(** [stream_setup_lock] returns the lock's handle. *)
Definition stream_setup_lock (device_id channel_id : string) (am : AccessMode) (c : Cache) : Z * Cache :=
  let key := (device_id +:+ ":" +:+ channel_id +:+ ":" +:+ AccessMode_as_str am)%string in
  match stream_setup_locks c !! key with
  | Some lock => (lock, c)
  | None => (locks_created c, on_locks <[key := locks_created c]> (locks_created c + 1) c)
  end.

(** ** Streams: removal at the end of a close *)

Definition finish_removed_stream (stream_id : string) (stream : StreamTable) (generation : Z)
    (c : Cache) : option StreamCloseInfo * Cache :=
  let c1 := device_map_remove_stream (st_device_id stream) stream_id c in
  let c2 := match closing_generation stream with
            | Some g => request (remove_register (StreamClosing stream_id g)) c1
            | None => c1
            end in
  (Some {| sci_stream_id := stream_id; sci_generation := generation;
           sci_device_id := st_device_id stream; sci_channel_id := st_channel_id stream;
           sci_ssrc := st_ssrc stream; sci_call_id := st_call_id stream;
           sci_last_error := last_error stream |}, c2).

Definition stream_close_remove (stream_id : string) (generation : Z) (c : Cache)
    : option StreamCloseInfo * Cache :=
  match stream_map c !! stream_id with
  | Some stream =>
      if is_closing_generation generation stream
      then finish_removed_stream stream_id stream generation (on_streams (delete stream_id) c)
      else (None, c)
  | None => (None, c)
  end.

Definition stream_close_complete (stream_id : string) (generation : Z) (c : Cache)
    : option StreamCloseInfo * Cache := stream_close_remove stream_id generation c.
Definition stream_close_force (stream_id : string) (generation : Z) (c : Cache)
    : option StreamCloseInfo * Cache := stream_close_remove stream_id generation c.

(** [stream_terminated_by_call_id] scans the map and then removes what it
    found; other tasks may change the map between the two. *)
Definition stream_terminated_scan (call_id : string) (c : Cache) : option string :=
  map_find_key (fun _ t => bool_decide (st_call_id t = call_id)) (stream_map c).

Definition stream_terminated_remove (call_id stream_id : string) (c : Cache)
    : option StreamCloseInfo * Cache :=
  match stream_map c !! stream_id with
  | Some stream =>
      if bool_decide (st_call_id stream = call_id)
      then finish_removed_stream stream_id stream (default 0 (closing_generation stream))
             (on_streams (delete stream_id) c)
      else (None, c)
  | None => (None, c)
  end.

Definition stream_terminated_by_call_id (call_id : string) (c : Cache)
    : option StreamCloseInfo * Cache :=
  match stream_terminated_scan call_id c with
  | Some stream_id => stream_terminated_remove call_id stream_id c
  | None => (None, c)
  end.
End Streams.
