(* ===== verification/DialogCache.v ===== *)
(** * The session cache: talks, catalog subscriptions, keyed waits, reset

    The remaining operations of [Cache] in [session/src/state/session.rs]. *)
From Stdlib Require Import Ascii.
From S2P Require Import Prelude Text SharedTypes Scheduler Lifecycle SessionCache.
Local Open Scope Z_scope.

(** ** Talks *)

Record TalkCloseStart := {
  tcs_generation : Z; tcs_device_id : string; tcs_newly_started : bool
}.
Record TalkByeCommand := {
  tbc_talk_id : string; tbc_generation : Z; tbc_device_id : string;
  tbc_call_id : string; tbc_seq : Z
}.
Record TalkCloseInfo := {
  tci_talk_id : string; tci_generation : Z; tci_device_id : string; tci_channel_id : string;
  tci_ssrc : Z; tci_call_id : string; tci_last_error : option string
}.

(** The close fields of a talk, replaced together. *)
Definition with_talk_close (seq : Z) (generation inflight : option Z) (err : option string)
    (t : TalkSessionState) : TalkSessionState := {|
  tk_talk_id := tk_talk_id t; tk_device_id := tk_device_id t; tk_channel_id := tk_channel_id t;
  tk_ssrc := tk_ssrc t; tk_stream_node_name := tk_stream_node_name t;
  tk_call_id := tk_call_id t; tk_seq := seq; tk_restored := tk_restored t;
  tk_closing_generation := generation; tk_bye_inflight_seq := inflight;
  tk_close_last_error := err |}.

Section Talks.
Context `{!MapIter string}.

Definition talk_map_insert (state : TalkSessionState) (c : Cache) : bool * Cache :=
  match talk_map c !! tk_talk_id state with
  | Some _ => (false, c)
  | None => (true, on_talks <[tk_talk_id state := state]> c)
  end.

Definition cancel_talk_close_timer (talk_id : string) (talk : TalkSessionState) (c : Cache) : Cache :=
  match tk_closing_generation talk with
  | None => c
  | Some generation => request (remove_register (TalkClosing talk_id generation)) c
  end.

Definition talk_map_remove (talk_id : string) (c : Cache) : option TalkSessionState * Cache :=
  match talk_map c !! talk_id with
  | None => (None, c)
  | Some talk => (Some talk, cancel_talk_close_timer talk_id talk (on_talks (delete talk_id) c))
  end.

Definition talk_map_get (talk_id : string) (c : Cache) : option TalkSessionState :=
  talk_map c !! talk_id.
Definition talk_is_restored (talk_id : string) (c : Cache) : bool :=
  match talk_map c !! talk_id with Some t => tk_restored t | None => false end.

(** The scan and the removal of [talk_map_remove_by_call_id]. *)
Definition talk_by_call_id_scan (call_id : string) (c : Cache) : option string :=
  map_find_key (fun _ t => bool_decide (tk_call_id t = call_id)) (talk_map c).

Definition talk_by_call_id_remove (call_id talk_id : string) (c : Cache)
    : option TalkSessionState * Cache :=
  match talk_map c !! talk_id with
  | Some talk =>
      if bool_decide (tk_call_id talk = call_id)
      then (Some talk, cancel_talk_close_timer talk_id talk (on_talks (delete talk_id) c))
      else (None, c)
  | None => (None, c)
  end.

Definition talk_map_remove_by_call_id (call_id : string) (c : Cache)
    : option TalkSessionState * Cache :=
  match talk_by_call_id_scan call_id c with
  | Some talk_id => talk_by_call_id_remove call_id talk_id c
  | None => (None, c)
  end.

Definition talk_close_begin (talk_id : string) (c : Cache) : option TalkCloseStart * Cache :=
  match talk_map c !! talk_id with
  | None => (None, c)
  | Some talk =>
      match tk_closing_generation talk with
      | Some g => (Some {| tcs_generation := g; tcs_device_id := tk_device_id talk;
                           tcs_newly_started := false |}, c)
      | None =>
          let '(g, c1) := next_talk_close_generation c in
          (Some {| tcs_generation := g; tcs_device_id := tk_device_id talk;
                   tcs_newly_started := true |},
           on_talks <[talk_id := with_talk_close (tk_seq talk) (Some g) None None talk]> c1)
      end
  end.

Definition talk_close_take_bye (talk_id : string) (c : Cache) : option TalkByeCommand * Cache :=
  match talk_map c !! talk_id with
  | None => (None, c)
  | Some talk =>
      match tk_closing_generation talk with
      | None => (None, c)
      | Some generation =>
          match tk_bye_inflight_seq talk with
          | Some _ => (None, c)
          | None =>
              let seq := saturating_add 32 (tk_seq talk) 1 in
              (Some {| tbc_talk_id := talk_id; tbc_generation := generation;
                       tbc_device_id := tk_device_id talk; tbc_call_id := tk_call_id talk;
                       tbc_seq := seq |},
               on_talks <[talk_id := with_talk_close seq (Some generation) (Some seq)
                                       (tk_close_last_error talk) talk]> c)
          end
      end
  end.

Definition talk_close_mark_failed (talk_id : string) (generation seq : Z) (reason : string)
    (c : Cache) : bool * Cache :=
  match talk_map c !! talk_id with
  | None => (false, c)
  | Some talk =>
      if bool_decide (tk_closing_generation talk <> Some generation)
         || bool_decide (tk_bye_inflight_seq talk <> Some seq)
      then (false, c)
      else (true, on_talks <[talk_id := with_talk_close (tk_seq talk) (tk_closing_generation talk)
                                          None (Some reason) talk]> c)
  end.

Definition talk_close_ids_by_device (device_id : string) (c : Cache) : list string :=
  (fun kv => tk_talk_id kv.2) <$>
  filter (fun kv : string * TalkSessionState =>
            tk_device_id kv.2 = device_id /\ is_Some (tk_closing_generation kv.2))
         (map_iter (talk_map c)).

Definition talk_close_complete (talk_id : string) (generation : Z) (c : Cache)
    : option TalkCloseInfo * Cache :=
  match talk_map c !! talk_id with
  | Some talk =>
      if bool_decide (tk_closing_generation talk = Some generation)
      then (Some {| tci_talk_id := talk_id; tci_generation := generation;
                    tci_device_id := tk_device_id talk; tci_channel_id := tk_channel_id talk;
                    tci_ssrc := tk_ssrc talk; tci_call_id := tk_call_id talk;
                    tci_last_error := tk_close_last_error talk |},
            request (remove_register (TalkClosing talk_id generation)) (on_talks (delete talk_id) c))
      else (None, c)
  | None => (None, c)
  end.

Definition talk_close_force (talk_id : string) (generation : Z) (c : Cache)
    : option TalkCloseInfo * Cache := talk_close_complete talk_id generation c.

Definition has_dialog_call_id (call_id : string) (c : Cache) : bool :=
  map_any (fun _ t => bool_decide (st_call_id t = call_id)) (stream_map c)
  || map_any (fun _ t => bool_decide (tk_call_id t = call_id)) (talk_map c).

Definition talk_map_get_by_device_channel (device_id channel_id : string) (c : Cache)
    : option TalkSessionState :=
  snd <$> head (filter (fun kv : string * TalkSessionState =>
                  tk_device_id kv.2 = device_id /\ tk_channel_id kv.2 = channel_id)
                (map_iter (talk_map c))).
End Talks.

(** ** Catalog subscriptions *)

Record CatalogSubscriptionCommand := {
  cc_generation : Z; cc_call_id : string; cc_seq : Z; cc_event : string; cc_expires : Z;
  cc_remote_target : string; cc_route_set : list string;
  cc_from_header : string; cc_to_header : string
}.

Definition catalog_subscription_begin (device_id call_id : string) (seq : Z) (event : string)
    (expires : Z) (remote_target from_header to_header local_tag : string) (c : Cache)
    : option Z * Cache :=
  match catalog_subscriptions c !! device_id with
  | Some _ => (None, c)
  | None =>
      let '(generation, c1) := next_catalog_subscription_generation c in
      (Some generation, on_catalog <[device_id := {|
         cs_generation := generation; cs_call_id := call_id; cs_seq := seq; cs_event := event;
         cs_expires := expires; cs_remote_target := remote_target; cs_route_set := [];
         cs_from_header := from_header; cs_to_header := to_header; cs_local_tag := local_tag;
         cs_remote_tag := ""; cs_inflight := true |}]> c1)
  end.

Definition catalog_subscription_complete (device_id : string) (generation : Z)
    (remote_target : string) (route_set : list string)
    (from_header to_header remote_tag : string) (c : Cache) : bool * Cache :=
  match catalog_subscriptions c !! device_id with
  | Some s =>
      if bool_decide (cs_generation s <> generation) then (false, c)
      else (true, on_catalog <[device_id := {|
         cs_generation := cs_generation s; cs_call_id := cs_call_id s; cs_seq := cs_seq s;
         cs_event := cs_event s; cs_expires := cs_expires s; cs_remote_target := remote_target;
         cs_route_set := route_set; cs_from_header := from_header; cs_to_header := to_header;
         cs_local_tag := cs_local_tag s; cs_remote_tag := remote_tag; cs_inflight := false |}]> c)
  | None => (false, c)
  end.

(** [seq], [expires], [remote_tag] and [inflight] of a subscription. *)
Definition with_subscription (seq expires : Z) (remote_tag : string) (inflight : bool)
    (s : CatalogSubscriptionState) : CatalogSubscriptionState := {|
  cs_generation := cs_generation s; cs_call_id := cs_call_id s; cs_seq := seq;
  cs_event := cs_event s; cs_expires := expires; cs_remote_target := cs_remote_target s;
  cs_route_set := cs_route_set s; cs_from_header := cs_from_header s;
  cs_to_header := cs_to_header s; cs_local_tag := cs_local_tag s;
  cs_remote_tag := remote_tag; cs_inflight := inflight |}.

Definition catalog_subscription_take_refresh (device_id : string) (generation : Z) (c : Cache)
    : option CatalogSubscriptionCommand * Cache :=
  match catalog_subscriptions c !! device_id with
  | None => (None, c)
  | Some s =>
      if bool_decide (cs_generation s <> generation) || cs_inflight s then (None, c)
      else
        let s1 := with_subscription (saturating_add 32 (cs_seq s) 1) (cs_expires s)
                    (cs_remote_tag s) true s in
        (Some {| cc_generation := generation; cc_call_id := cs_call_id s1; cc_seq := cs_seq s1;
                 cc_event := cs_event s1; cc_expires := cs_expires s1;
                 cc_remote_target := cs_remote_target s1; cc_route_set := cs_route_set s1;
                 cc_from_header := cs_from_header s1; cc_to_header := cs_to_header s1 |},
         on_catalog <[device_id := s1]> c)
  end.

Definition catalog_subscription_mark_failed (device_id : string) (generation : Z) (c : Cache)
    : bool * Cache :=
  match catalog_subscriptions c !! device_id with
  | None => (false, c)
  | Some s =>
      if bool_decide (cs_generation s <> generation) then (false, c)
      else (true, on_catalog <[device_id := with_subscription (cs_seq s) (cs_expires s)
                                              (cs_remote_tag s) false s]> c)
  end.

Definition catalog_subscription_update_expires (device_id : string) (generation expires : Z)
    (c : Cache) : bool * Cache :=
  match catalog_subscriptions c !! device_id with
  | None => (false, c)
  | Some s =>
      if bool_decide (cs_generation s <> generation) then (false, c)
      else (true, on_catalog <[device_id := with_subscription (cs_seq s) expires
                                              (cs_remote_tag s) (cs_inflight s) s]> c)
  end.

Definition catalog_subscription_expires (device_id : string) (generation : Z) (c : Cache) : option Z :=
  match catalog_subscriptions c !! device_id with
  | Some s => if bool_decide (cs_generation s = generation) then Some (cs_expires s) else None
  | None => None
  end.

(** *** [catalog_event_matches]

    The headers are read as lists of characters ([Text]). *)
Definition event_id_of_part (part : list Ascii.ascii) : option (list Ascii.ascii) :=
  '(key, value) ← split_once "="%char part;
  if eq_ignore_ascii_case (trim key) ["i"%char; "d"%char] then Some (trim value) else None.

Definition event_parts (value : list Ascii.ascii) : list Ascii.ascii * option (list Ascii.ascii) :=
  match trim <$> split_on ";"%char value with
  | package :: rest => (package, head (omap event_id_of_part rest))
  | [] => ([], None)
  end.

Definition catalog_event_matches (expected actual : string) : bool :=
  let '(expected_package, expected_id) := event_parts (String.list_ascii_of_string expected) in
  let '(actual_package, actual_id) := event_parts (String.list_ascii_of_string actual) in
  eq_ignore_ascii_case expected_package actual_package
  && match actual_id with
     | Some _ => bool_decide (expected_id = actual_id)
     | None => true
     end.

Definition catalog_subscription_validate_notify (device_id call_id event : string)
    (remote_tag local_tag : option string) (c : Cache) : option Z * Cache :=
  match catalog_subscriptions c !! device_id with
  | None => (None, c)
  | Some s =>
      if bool_decide (cs_call_id s <> call_id)
         || negb (catalog_event_matches (cs_event s) event)
         || bool_decide (local_tag <> Some (cs_local_tag s))
      then (None, c)
      else match remote_tag with
           | Some tag =>
               if bool_decide (cs_remote_tag s = ""%string)
               then (Some (cs_generation s),
                     on_catalog <[device_id := with_subscription (cs_seq s) (cs_expires s)
                                                 tag (cs_inflight s) s]> c)
               else if bool_decide (tag = cs_remote_tag s) then (Some (cs_generation s), c)
               else (None, c)
           | None => (None, c)
           end
  end.

Definition catalog_subscription_remove (device_id : string) (generation : option Z) (c : Cache)
    : bool * Cache :=
  match catalog_subscriptions c !! device_id with
  | None => (false, c)
  | Some s =>
      if match generation with Some g => bool_decide (cs_generation s = g) | None => true end
      then (true, request (remove_register (CatalogSubscription device_id (cs_generation s)))
                    (on_catalog (delete device_id) c))
      else (false, c)
  end.

(** ** Keyed wait entries

    [now] is the value [Instant::now()] returns in the call; instants and
    durations are in milliseconds. *)

Definition upsert_state (key : string) (value : StateValue) (expire : option Z)
    (waiter : option StateWaiter) (now : Z) (c : Cache) : Cache :=
  let c1 := on_entities <[key := {| se_value := value; se_expire := expire;
                                    se_waiter := waiter |}]> c in
  match expire with
  | Some when => request (insert_general_cache key (saturating_sub when now)) c1
  | None => request (remove_general_cache key) c1
  end.

Definition insert_stream_wait (key : string) (expire tx now : Z) (c : Cache) : Cache :=
  upsert_state key Empty (Some expire) (Some (WaitStream tx)) now c.

Definition notify_stream_wait (key : string) (info : option BaseStreamInfo) (c : Cache) : bool * Cache :=
  match entities c !! key with
  | Some {| se_waiter := Some (WaitStream tx) |} => (true, wake_up (WakeStream tx info) c)
  | _ => (false, c)
  end.

Definition insert_snapshot_wait (key : string) (expire tx now : Z) (c : Cache) : Cache :=
  upsert_state key Empty (Some expire) (Some (WaitSnapshot tx)) now c.

Definition notify_snapshot_wait (key : string) (c : Cache) : bool * Cache :=
  match entities c !! key with
  | Some {| se_waiter := Some (WaitSnapshot tx) |} => (true, wake_up (WakeSnapshot tx true) c)
  | _ => (false, c)
  end.

(** [insert_counter] reads the clock twice: for the deadline and, inside
    [upsert_state], for the time to live. *)
Definition insert_counter (key : string) (count expire now now' : Z) (c : Cache) : Cache :=
  upsert_state key (Counter count) (Some (now + expire)) None now' c.

Definition remove_state (key : string) (c : Cache) : bool * Cache :=
  (bool_decide (is_Some (entities c !! key)),
   request (remove_general_cache key) (on_entities (delete key) c)).

Definition refresh_state (key : string) (expire now : Z) (c : Cache) : bool * Cache :=
  match entities c !! key with
  | Some e =>
      (true, request (insert_general_cache key expire)
               (on_entities <[key := {| se_value := se_value e; se_expire := Some (now + expire);
                                        se_waiter := se_waiter e |}]> c))
  | None => (false, c)
  end.

(** [State::decrement_counter]; the outer option tells whether the key exists,
    the inner flag whether the entry was removed. *)
Definition state_decrement_counter (key : string) (m : gmap string StateEntry)
    : option bool * gmap string StateEntry :=
  match m !! key with
  | None => (None, m)
  | Some e =>
      match se_value e with
      | Counter n =>
          if n <=? 1 then (Some true, delete key m)
          else (Some false, <[key := {| se_value := Counter (n - 1); se_expire := se_expire e;
                                        se_waiter := se_waiter e |}]> m)
      | Empty => (Some true, delete key m)
      end
  end.

Definition decrement_counter (key : string) (c : Cache) : bool * Cache :=
  let '(handled, m) := state_decrement_counter key (entities c) in
  let c1 := on_entities (fun _ => m) c in
  let c2 := if bool_decide (handled = Some true) then request (remove_general_cache key) c1 else c1 in
  (bool_decide (is_Some handled), c2).

(** One iteration of [Shared::purge_expired_keys]. *)
Definition purge_expired_key (now : Z) (c : Cache) (key : string) : Cache :=
  match entities c !! key with
  | Some e =>
      match se_expire e with
      | Some expire =>
          if expire <=? now then
            let c1 := on_entities (delete key) c in
            match se_waiter e with
            | Some (WaitStream tx) => wake_up (WakeStream tx None) c1
            | Some (WaitSnapshot tx) => wake_up (WakeSnapshot tx false) c1
            | None => c1
            end
          else c
      | None => c
      end
  | None => c
  end.

Definition purge_expired_keys (keys : list string) (now : Z) (c : Cache) : Cache :=
  foldl (purge_expired_key now) c keys.

(** ** Reset of a device *)

Section Reset.
Context `{!MapIter string}.

(** Remove one stream and cancel its close timer. *)
Definition reset_stream (c : Cache) (stream_id : string) : Cache :=
  match stream_map c !! stream_id with
  | None => c
  | Some stream =>
      let c1 := on_streams (delete stream_id) c in
      match closing_generation stream with
      | Some g => request (remove_register (StreamClosing stream_id g)) c1
      | None => c1
      end
  end.

Definition reset_talk (c : Cache) (talk_id : string) : Cache :=
  match talk_map c !! talk_id with
  | None => c
  | Some talk => cancel_talk_close_timer talk_id talk (on_talks (delete talk_id) c)
  end.

Definition reset_device_state (device_id : string) (c : Cache) : Cache :=
  let c1 :=
    match device_map c !! device_id with
    | Some entries =>
        foldl reset_stream (on_devices (delete device_id) c) (dt_stream_id <$> entries)
    | None => c
    end in
  let remaining_stream_ids :=
    map_keys_where (fun _ t => bool_decide (st_device_id t = device_id)) (stream_map c1) in
  let c2 := foldl reset_stream c1 remaining_stream_ids in
  let talk_ids :=
    (fun kv => tk_talk_id kv.2) <$>
    filter (fun kv : string * TalkSessionState => tk_device_id kv.2 = device_id)
           (map_iter (talk_map c2)) in
  let c3 := foldl reset_talk c2 talk_ids in
  let setup_lock_prefix := (device_id +:+ ":")%string in
  let c4 := on_locks (filter (fun kv => negb (String.prefix setup_lock_prefix kv.1) = true))
              (locks_created c3) c3 in
  (catalog_subscription_remove device_id None c4).2.
End Reset.
