(* ===== verification/CacheInvariant.v ===== *)
(** * The invariant of the session cache

    Every operation of [Cache] that changes state, as one alphabet; the
    well-formedness invariant; its preservation along any run from the initial
    cache; and what it gives to the timers that carry a generation. *)
From S2P Require Import Prelude SharedTypes Scheduler Lifecycle SessionCache DialogCache.
Local Open Scope Z_scope.

(** ** Generations handed out by a counter

    [gens_ok n m f]: the generations [f] reads in [m] were all handed out
    before the counter reached [n], and no two keys share one. *)
Section Generations.
Context {V : Type}.
Implicit Types (m : gmap string V) (f : V -> option Z).

Definition gens_ok (n : Z) m f : Prop :=
  (forall k v g, m !! k = Some v -> f v = Some g -> 1 <= g < n) /\
  (forall k1 k2 v1 v2 g, m !! k1 = Some v1 -> m !! k2 = Some v2 ->
     f v1 = Some g -> f v2 = Some g -> k1 = k2).

Lemma gens_ok_delete n m f k : gens_ok n m f -> gens_ok n (delete k m) f.
Proof.
  intros [Hb Hu]. split.
  - intros k' v g Hk. apply lookup_delete_Some in Hk as [_ Hk]. eauto.
  - intros k1 k2 v1 v2 g [_ H1]%lookup_delete_Some [_ H2]%lookup_delete_Some. eauto.
Qed.

Lemma gens_ok_mono n n' m f : n <= n' -> gens_ok n m f -> gens_ok n' m f.
Proof. intros Hn [Hb Hu]. split; [|done]. intros k v g Hk Hg. specialize (Hb _ _ _ Hk Hg). lia. Qed.

(** Replacing the value of a key by one with the same generation, or none. *)
Lemma gens_ok_update n m f k v v' :
  m !! k = Some v -> f v' = f v -> gens_ok n m f -> gens_ok n (<[k := v']> m) f.
Proof.
  intros Hv Hf [Hb Hu]. split.
  - intros k' w g [[<- <-]|[Hne Hk]]%lookup_insert_Some Hg; [rewrite Hf in Hg|]; eauto.
  - intros k1 k2 v1 v2 g [[<- <-]|[? H1]]%lookup_insert_Some [[<- <-]|[? H2]]%lookup_insert_Some;
      rewrite ?Hf; eauto.
Qed.

Lemma gens_ok_insert_none n m f k v' :
  f v' = None -> gens_ok n m f -> gens_ok n (<[k := v']> m) f.
Proof.
  intros Hf [Hb Hu]. split.
  - intros k' w g [[<- <-]|[Hne Hk]]%lookup_insert_Some Hg; [congruence|]; eauto.
  - intros k1 k2 v1 v2 g [[<- <-]|[? H1]]%lookup_insert_Some [[<- <-]|[? H2]]%lookup_insert_Some;
      rewrite ?Hf; intros; simplify_eq; eauto.
Qed.

(** A value stamped with the counter, which then advances. *)
Lemma gens_ok_insert_fresh n m f k v' :
  1 <= n -> f v' = Some n -> gens_ok n m f -> gens_ok (n + 1) (<[k := v']> m) f.
Proof.
  intros Hn Hf [Hb Hu]. split.
  - intros k' w g [[<- <-]|[Hne Hk]]%lookup_insert_Some Hg; [simplify_eq; lia|].
    specialize (Hb _ _ _ Hk Hg). lia.
  - intros k1 k2 v1 v2 g [[<- <-]|[? H1]]%lookup_insert_Some [[<- <-]|[? H2]]%lookup_insert_Some
      Hg1 Hg2; simplify_eq; eauto.
    + specialize (Hb _ _ _ H2 Hg2). lia.
    + specialize (Hb _ _ _ H1 Hg1). lia.
Qed.
End Generations.

#[export] Hint Resolve gens_ok_delete gens_ok_insert_none : gmv.

(** ** The invariant *)

Record cache_wf (c : Cache) : Prop := {
  wf_stream_gens : gens_ok (stream_close_generation c) (stream_map c) closing_generation;
  wf_talk_gens : gens_ok (talk_close_generation c) (talk_map c) tk_closing_generation;
  wf_catalog_gens : gens_ok (catalog_subscription_generation c) (catalog_subscriptions c)
                      (fun s => Some (cs_generation s));
  wf_rows : forall d rows, device_map c !! d = Some rows -> rows <> [];
  wf_talk_keys : forall id t, talk_map c !! id = Some t -> tk_talk_id t = id;
  wf_counters : 1 <= stream_close_generation c /\ 1 <= talk_close_generation c /\
                1 <= catalog_subscription_generation c
}.

(** None of the three counters is about to wrap. *)
Definition counters_below (n : Z) (c : Cache) : Prop :=
  stream_close_generation c <= n /\ talk_close_generation c <= n /\
  catalog_subscription_generation c <= n.

Lemma cache_wf_init : cache_wf Cache_init.
Proof. split; simpl; try (split; intros; simplify_map_eq); intros; simplify_map_eq; lia. Qed.

(** [cache_wf] reads only the maps and counters. *)
Lemma cache_wf_ext (c c' : Cache) :
  stream_map c' = stream_map c -> talk_map c' = talk_map c ->
  catalog_subscriptions c' = catalog_subscriptions c -> device_map c' = device_map c ->
  stream_close_generation c' = stream_close_generation c ->
  talk_close_generation c' = talk_close_generation c ->
  catalog_subscription_generation c' = catalog_subscription_generation c ->
  cache_wf c -> cache_wf c'.
Proof. intros E1 E2 E3 E4 E5 E6 E7 []. split; rewrite ?E1, ?E2, ?E3, ?E4, ?E5, ?E6, ?E7; done. Qed.

Lemma cache_wf_request r c : cache_wf c -> cache_wf (request r c).
Proof. by apply cache_wf_ext. Qed.
Lemma cache_wf_wake w c : cache_wf c -> cache_wf (wake_up w c).
Proof. by apply cache_wf_ext. Qed.
Lemma cache_wf_entities f c : cache_wf c -> cache_wf (on_entities f c).
Proof. by apply cache_wf_ext. Qed.
Lemma cache_wf_locks f n c : cache_wf c -> cache_wf (on_locks f n c).
Proof. by apply cache_wf_ext. Qed.

Lemma cache_wf_streams f c :
  gens_ok (stream_close_generation c) (f (stream_map c)) closing_generation ->
  cache_wf c -> cache_wf (on_streams f c).
Proof. intros ? []. by split. Qed.
Lemma cache_wf_talks f c :
  gens_ok (talk_close_generation c) (f (talk_map c)) tk_closing_generation ->
  (forall id t, f (talk_map c) !! id = Some t -> tk_talk_id t = id) ->
  cache_wf c -> cache_wf (on_talks f c).
Proof. intros ?? []. by split. Qed.
Lemma cache_wf_catalog f c :
  gens_ok (catalog_subscription_generation c) (f (catalog_subscriptions c))
    (fun s => Some (cs_generation s)) ->
  cache_wf c -> cache_wf (on_catalog f c).
Proof. intros ? []. by split. Qed.
Lemma cache_wf_devices f c :
  (forall d rows, f (device_map c) !! d = Some rows -> rows <> []) ->
  cache_wf c -> cache_wf (on_devices f c).
Proof. intros ? []. by split. Qed.

#[export] Hint Resolve cache_wf_request cache_wf_wake cache_wf_entities cache_wf_locks
  wf_stream_gens wf_talk_gens wf_catalog_gens wf_talk_keys wf_rows : gmv.

Lemma cache_wf_stream_update (c : Cache) id t t' :
  stream_map c !! id = Some t -> closing_generation t' = closing_generation t ->
  cache_wf c -> cache_wf (on_streams <[id := t']> c).
Proof. intros. apply cache_wf_streams; [|done]. eapply gens_ok_update; eauto with gmv. Qed.

Lemma cache_wf_stream_delete (c : Cache) id : cache_wf c -> cache_wf (on_streams (delete id) c).
Proof. intros. apply cache_wf_streams; eauto with gmv. Qed.

Lemma cache_wf_talk_update (c : Cache) id t t' :
  talk_map c !! id = Some t -> tk_closing_generation t' = tk_closing_generation t ->
  tk_talk_id t' = tk_talk_id t ->
  cache_wf c -> cache_wf (on_talks <[id := t']> c).
Proof.
  intros Ht Hg Hid Hwf. apply cache_wf_talks; [|..|done].
  - eapply gens_ok_update; eauto with gmv.
  - intros id' t0 [[<- <-]|[? H]]%lookup_insert_Some; [rewrite Hid|]; eauto with gmv.
Qed.

Lemma cache_wf_talk_delete (c : Cache) id : cache_wf c -> cache_wf (on_talks (delete id) c).
Proof.
  intros. apply cache_wf_talks; eauto with gmv.
  intros id' t [_ H']%lookup_delete_Some. eauto with gmv.
Qed.

Lemma cache_wf_catalog_update (c : Cache) id s s' :
  catalog_subscriptions c !! id = Some s -> cs_generation s' = cs_generation s ->
  cache_wf c -> cache_wf (on_catalog <[id := s']> c).
Proof. intros ? Hg ?. apply cache_wf_catalog; [|done]. eapply gens_ok_update; eauto with gmv. by rewrite Hg. Qed.

Lemma cache_wf_device_delete (c : Cache) d : cache_wf c -> cache_wf (on_devices (delete d) c).
Proof. intros. apply cache_wf_devices; [|done]. intros d' rows [_ H']%lookup_delete_Some. eauto with gmv. Qed.

Lemma cache_wf_device_insert (c : Cache) d rows :
  rows <> [] -> cache_wf c -> cache_wf (on_devices <[d := rows]> c).
Proof.
  intros. apply cache_wf_devices; [|done].
  intros d' rows' [[<- <-]|[? H']]%lookup_insert_Some; eauto with gmv.
Qed.

#[export] Hint Resolve cache_wf_stream_delete cache_wf_talk_delete cache_wf_device_delete
  cache_wf_device_insert cache_wf_stream_update cache_wf_talk_update cache_wf_catalog_update : gmv.

(** ** The alphabet of state-changing operations *)

Inductive cache_op :=
| OpInsertToken (stream_id token : string)
| OpStreamInsert (stream_id device_id channel_id : string) (ssrc : Z)
    (proxy_addr node call_id : string) (seq : Z) (am : AccessMode) (restored : bool)
| OpUpdateSource (stream_id proxy_addr node : string)
| OpStreamRemove (stream_id : string) (token : option string)
| OpCloseBegin (stream_id : string)
| OpCloseTakeBye (stream_id : string)
| OpCloseMarkFailed (stream_id : string) (generation seq : Z) (reason : string)
| OpCloseRemove (stream_id : string) (generation : Z)
| OpTerminated (call_id stream_id : string)
| OpDeviceInsert (device_id : string) (row : DeviceTable)
| OpDeviceRemove (device_id : string) (sel : option (string * option (AccessMode * string)))
| OpSetupLock (device_id channel_id : string) (am : AccessMode)
| OpTalkInsert (state : TalkSessionState)
| OpTalkRemove (talk_id : string)
| OpTalkByCallId (call_id talk_id : string)
| OpTalkCloseBegin (talk_id : string)
| OpTalkTakeBye (talk_id : string)
| OpTalkMarkFailed (talk_id : string) (generation seq : Z) (reason : string)
| OpTalkComplete (talk_id : string) (generation : Z)
| OpCatalogBegin (device_id call_id : string) (seq : Z) (event : string) (expires : Z)
    (target from_header to_header local_tag : string)
| OpCatalogComplete (device_id : string) (generation : Z) (target : string)
    (route_set : list string) (from_header to_header remote_tag : string)
| OpCatalogRefresh (device_id : string) (generation : Z)
| OpCatalogFailed (device_id : string) (generation : Z)
| OpCatalogExpires (device_id : string) (generation expires : Z)
| OpCatalogNotify (device_id call_id event : string) (remote_tag local_tag : option string)
| OpCatalogRemove (device_id : string) (generation : option Z)
| OpUpsert (key : string) (value : StateValue) (expire : option Z) (waiter : option StateWaiter) (now : Z)
| OpNotifyStream (key : string) (info : option BaseStreamInfo)
| OpNotifySnapshot (key : string)
| OpRemoveState (key : string)
| OpRefreshState (key : string) (expire now : Z)
| OpDecrement (key : string)
| OpPurge (keys : list string) (now : Z)
| OpReset (device_id : string).

(** What the callers respect: a talk is inserted open. *)
Definition op_ok (op : cache_op) : Prop :=
  match op with
  | OpTalkInsert state => tk_closing_generation state = None
  | _ => True
  end.

Section Runs.
Context `{!MapIter string}.

Definition cache_apply (op : cache_op) (c : Cache) : Cache :=
  match op with
  | OpInsertToken s t => (stream_map_insert_token s t c).2
  | OpStreamInsert s d ch ssrc p n call seq am r =>
      (stream_map_insert s d ch ssrc p n call seq am r c).2
  | OpUpdateSource s p n => (stream_map_update_source s p n c).2
  | OpStreamRemove s t => stream_map_remove s t c
  | OpCloseBegin s => (stream_close_begin s c).2
  | OpCloseTakeBye s => (stream_close_take_bye s c).2
  | OpCloseMarkFailed s g q r => (stream_close_mark_failed s g q r c).2
  | OpCloseRemove s g => (stream_close_remove s g c).2
  | OpTerminated call s => (stream_terminated_remove call s c).2
  | OpDeviceInsert d row => device_map_insert_table d row c
  | OpDeviceRemove d sel => device_map_remove d sel c
  | OpSetupLock d ch am => (stream_setup_lock d ch am c).2
  | OpTalkInsert st => (talk_map_insert st c).2
  | OpTalkRemove t => (talk_map_remove t c).2
  | OpTalkByCallId call t => (talk_by_call_id_remove call t c).2
  | OpTalkCloseBegin t => (talk_close_begin t c).2
  | OpTalkTakeBye t => (talk_close_take_bye t c).2
  | OpTalkMarkFailed t g q r => (talk_close_mark_failed t g q r c).2
  | OpTalkComplete t g => (talk_close_complete t g c).2
  | OpCatalogBegin d call q e x tg f t l => (catalog_subscription_begin d call q e x tg f t l c).2
  | OpCatalogComplete d g tg rs f t rt => (catalog_subscription_complete d g tg rs f t rt c).2
  | OpCatalogRefresh d g => (catalog_subscription_take_refresh d g c).2
  | OpCatalogFailed d g => (catalog_subscription_mark_failed d g c).2
  | OpCatalogExpires d g x => (catalog_subscription_update_expires d g x c).2
  | OpCatalogNotify d call e rt lt => (catalog_subscription_validate_notify d call e rt lt c).2
  | OpCatalogRemove d g => (catalog_subscription_remove d g c).2
  | OpUpsert k v e w n => upsert_state k v e w n c
  | OpNotifyStream k i => (notify_stream_wait k i c).2
  | OpNotifySnapshot k => (notify_snapshot_wait k c).2
  | OpRemoveState k => (remove_state k c).2
  | OpRefreshState k e n => (refresh_state k e n c).2
  | OpDecrement k => (decrement_counter k c).2
  | OpPurge ks n => purge_expired_keys ks n c
  | OpReset d => reset_device_state d c
  end.

Definition cache_run (ops : list cache_op) (c : Cache) : Cache := foldl (fun c op => cache_apply op c) c ops.

Lemma reset_stream_wf c id : cache_wf c -> cache_wf (reset_stream c id).
Proof. intros. unfold reset_stream. cases; eauto with gmv. Qed.
Lemma cancel_talk_wf id t c : cache_wf c -> cache_wf (cancel_talk_close_timer id t c).
Proof. intros. unfold cancel_talk_close_timer. cases; eauto with gmv. Qed.
Lemma reset_talk_wf c id : cache_wf c -> cache_wf (reset_talk c id).
Proof. intros. unfold reset_talk. cases; eauto using cancel_talk_wf with gmv. Qed.
Lemma purge_key_wf now c key : cache_wf c -> cache_wf (purge_expired_key now c key).
Proof. intros. unfold purge_expired_key. cases; eauto with gmv. Qed.

Lemma foldl_wf {A} (f : Cache -> A -> Cache) (l : list A) c :
  (forall c a, cache_wf c -> cache_wf (f c a)) -> cache_wf c -> cache_wf (foldl f c l).
Proof. intros Hf. revert c. induction l; simpl; auto. Qed.

Lemma catalog_remove_wf d g c : cache_wf c -> cache_wf (catalog_subscription_remove d g c).2.
Proof.
  intros. unfold catalog_subscription_remove.
  destruct (catalog_subscriptions c !! d) eqn:Hs; [|done].
  destruct g; [case_bool_decide|]; simpl; [|done|];
    apply cache_wf_request, cache_wf_catalog; eauto with gmv.
Qed.

Lemma reset_device_wf d c : cache_wf c -> cache_wf (reset_device_state d c).
Proof.
  intros Hwf. unfold reset_device_state. apply catalog_remove_wf, cache_wf_locks.
  apply foldl_wf; [intros; by apply reset_talk_wf|].
  apply foldl_wf; [intros; by apply reset_stream_wf|].
  case_match; [|done]. apply foldl_wf; [intros; by apply reset_stream_wf|]. eauto with gmv.
Qed.

Lemma device_remove_stream_wf d s c : cache_wf c -> cache_wf (device_map_remove_stream d s c).
Proof. intros. unfold device_map_remove_stream. cases; eauto with gmv. Qed.

Lemma finish_removed_wf s t g c : cache_wf c -> cache_wf (finish_removed_stream s t g c).2.
Proof.
  intros. unfold finish_removed_stream. simpl. cases; eauto using device_remove_stream_wf with gmv.
Qed.

Lemma begin_close_wf s c :
  stream_close_generation c < umax 64 -> cache_wf c -> cache_wf (stream_close_begin s c).2.
Proof.
  intros Hroom Hwf. unfold stream_close_begin. destruct (stream_map c !! s) as [t|] eqn:Ht; [|done].
  pose proof (wf_counters c Hwf) as (Hc & _ & _).
  assert (wrapping_add 64 (stream_close_generation c) 1 = stream_close_generation c + 1) as Hn
    by (apply wrapping_add_small; unfold umax in Hroom; lia).
  unfold begin_close. destruct (lifecycle t) eqn:Hl; simpl; split; simpl; rewrite ?Hn;
    try (apply Hwf || (destruct (wf_counters c Hwf); lia)).
  - apply gens_ok_insert_fresh; [lia|done|apply Hwf].
  - eapply gens_ok_update; [exact Ht|done|]. eapply gens_ok_mono; [|apply Hwf]. lia.
Qed.

Lemma talk_begin_wf s c :
  talk_close_generation c < umax 64 -> cache_wf c -> cache_wf (talk_close_begin s c).2.
Proof.
  intros Hroom Hwf. unfold talk_close_begin. destruct (talk_map c !! s) as [t|] eqn:Ht; [|done].
  destruct (tk_closing_generation t) eqn:Hg; [done|].
  pose proof (wf_counters c Hwf) as (_ & Hc & _).
  assert (wrapping_add 64 (talk_close_generation c) 1 = talk_close_generation c + 1) as Hn
    by (apply wrapping_add_small; unfold umax in Hroom; lia).
  split; simpl; rewrite ?Hn; try (apply Hwf || (destruct (wf_counters c Hwf); lia)).
  - apply gens_ok_insert_fresh; [lia|done|apply Hwf].
  - intros id t0 [[<- <-]|[? H]]%lookup_insert_Some; simpl; eauto with gmv.
Qed.

Lemma catalog_begin_wf d call q e x tg f t l c :
  catalog_subscription_generation c < umax 64 -> cache_wf c ->
  cache_wf (catalog_subscription_begin d call q e x tg f t l c).2.
Proof.
  intros Hroom Hwf. unfold catalog_subscription_begin.
  destruct (catalog_subscriptions c !! d) as [s|] eqn:Hs; [done|].
  pose proof (wf_counters c Hwf) as (_ & _ & Hc).
  assert (wrapping_add 64 (catalog_subscription_generation c) 1
          = catalog_subscription_generation c + 1) as Hn
    by (apply wrapping_add_small; unfold umax in Hroom; lia).
  split; simpl; rewrite ?Hn; try (apply Hwf || (destruct (wf_counters c Hwf); lia)).
  apply gens_ok_insert_fresh; [lia|done|apply Hwf].
Qed.

Lemma take_bye_generation t : closing_generation (take_bye t).2 = closing_generation t.
Proof. unfold take_bye, closing_generation. destruct (lifecycle t) as [|? []] eqn:Hl; simpl; by rewrite ?Hl. Qed.
Lemma mark_failed_generation g q r t :
  closing_generation (mark_bye_failed g q r t).2 = closing_generation t.
Proof.
  unfold mark_bye_failed, closing_generation. destruct (lifecycle t) eqn:Hl; simpl; [by rewrite Hl|].
  destruct (_ || _); simpl; by rewrite ?Hl.
Qed.
End Runs.

#[export] Hint Resolve reset_stream_wf reset_talk_wf purge_key_wf catalog_remove_wf reset_device_wf
  cancel_talk_wf device_remove_stream_wf finish_removed_wf begin_close_wf talk_begin_wf catalog_begin_wf : gmv.

Section Preservation.
Context `{!MapIter string}.

(** One operation preserves the invariant as long as no counter wraps. *)
Lemma cache_apply_wf (op : cache_op) (c : Cache) :
  op_ok op -> counters_below (umax 64 - 1) c -> cache_wf c -> cache_wf (cache_apply op c).
Proof.
  intros Hok (H1 & H2 & H3) Hwf. destruct op; simpl in *.
  - unfold stream_map_insert_token. cases; eauto with gmv.
  - unfold stream_map_insert. cases. apply cache_wf_streams; eauto with gmv.
  - unfold stream_map_update_source. cases; eauto with gmv.
  - unfold stream_map_remove. cases; eauto with gmv.
  - apply begin_close_wf; [lia|done].
  - unfold stream_close_take_bye. destruct (stream_map c !! stream_id) eqn:Hs; [|done].
    pose proof (take_bye_generation s). destruct (take_bye s). simpl in *. eauto with gmv.
  - unfold stream_close_mark_failed. destruct (stream_map c !! stream_id) eqn:Hs; [|done].
    pose proof (mark_failed_generation generation seq reason s).
    destruct (mark_bye_failed _ _ _ s). simpl in *. eauto with gmv.
  - unfold stream_close_remove. cases; eauto with gmv.
  - unfold stream_terminated_remove. cases; eauto with gmv.
  - unfold device_map_insert_table. cases; eauto using app_nil_r with gmv.
    + apply cache_wf_device_insert; [|done]. by destruct l.
  - unfold device_map_remove. cases; eauto with gmv.
  - unfold stream_setup_lock. cases; eauto with gmv.
  - unfold talk_map_insert. cases. apply cache_wf_talks; [eauto with gmv| |done].
    intros id t [[<- <-]|[? H']]%lookup_insert_Some; eauto with gmv.
  - unfold talk_map_remove. cases; eauto with gmv.
  - unfold talk_by_call_id_remove. cases; eauto with gmv.
  - apply talk_begin_wf; [lia|done].
  - unfold talk_close_take_bye. cases; eauto with gmv.
  - unfold talk_close_mark_failed. cases; eauto with gmv.
  - unfold talk_close_complete. cases; eauto with gmv.
  - apply catalog_begin_wf; [lia|done].
  - unfold catalog_subscription_complete. cases; eauto with gmv.
  - unfold catalog_subscription_take_refresh. cases; eauto with gmv.
  - unfold catalog_subscription_mark_failed. cases; eauto with gmv.
  - unfold catalog_subscription_update_expires. cases; eauto with gmv.
  - unfold catalog_subscription_validate_notify. cases; eauto with gmv.
  - eauto with gmv.
  - unfold upsert_state. cases; eauto with gmv.
  - unfold notify_stream_wait. cases; eauto with gmv.
  - unfold notify_snapshot_wait. cases; eauto with gmv.
  - unfold remove_state. simpl. eauto with gmv.
  - unfold refresh_state. cases; eauto with gmv.
  - unfold decrement_counter. destruct (state_decrement_counter key (entities c)).
    simpl. cases; eauto with gmv.
  - apply foldl_wf; eauto with gmv.
  - eauto with gmv.
Qed.
End Preservation.

(** ** Generations along a run

    [gens_evolve n m n' m' f]: between two states of a counter and its map,
    every generation a key carries afterwards was carried by that key before,
    or was handed out in between. *)
Section Evolution.
Context {V : Type}.
Implicit Types (m : gmap string V) (f : V -> option Z).

Definition gens_evolve (f : V -> option Z) (n : Z) m (n' : Z) m' : Prop :=
  n <= n' /\
  forall k v' g, m' !! k = Some v' -> f v' = Some g ->
    (exists v, m !! k = Some v /\ f v = Some g) \/ n <= g.

Lemma gens_evolve_refl f n m : gens_evolve f n m n m.
Proof. split; [lia|]. eauto. Qed.
Lemma gens_evolve_trans f n1 m1 n2 m2 n3 m3 :
  gens_evolve f n1 m1 n2 m2 -> gens_evolve f n2 m2 n3 m3 -> gens_evolve f n1 m1 n3 m3.
Proof.
  intros [Hn1 H1] [Hn2 H2]. split; [lia|]. intros k v g Hk Hg.
  destruct (H2 _ _ _ Hk Hg) as [(w & Hw & Hwg)|]; [eauto|right; lia].
Qed.
Lemma gens_evolve_delete f n m k : gens_evolve f n m n (delete k m).
Proof. split; [lia|]. intros k' v g [_ Hk]%lookup_delete_Some Hg. eauto. Qed.
Lemma gens_evolve_update f n m k v v' :
  m !! k = Some v -> f v' = f v -> gens_evolve f n m n (<[k := v']> m).
Proof.
  intros Hv Hf. split; [lia|].
  intros k' w g [[<- <-]|[? Hk]]%lookup_insert_Some Hg; [rewrite Hf in Hg|]; eauto.
Qed.
Lemma gens_evolve_insert_none f n m k v' : f v' = None -> gens_evolve f n m n (<[k := v']> m).
Proof.
  intros Hf. split; [lia|].
  intros k' w g [[<- <-]|[? Hk]]%lookup_insert_Some Hg; [congruence|]; eauto.
Qed.
Lemma gens_evolve_insert_fresh f n n' m k v' :
  f v' = Some n -> n <= n' -> gens_evolve f n m n' (<[k := v']> m).
Proof.
  intros Hf ?. split; [lia|].
  intros k' w g [[<- <-]|[? Hk]]%lookup_insert_Some Hg; [right; simplify_eq; lia|]; eauto.
Qed.
Lemma gens_evolve_counter f n n' m m' : n <= n' -> gens_evolve f n m n m' -> gens_evolve f n m n' m'.
Proof. intros ? [_ ?]. by split. Qed.
End Evolution.

#[export] Hint Resolve gens_evolve_refl gens_evolve_delete gens_evolve_insert_none
  gens_evolve_update : gmv.

Record cache_evolves (c c' : Cache) : Prop := {
  ev_streams : gens_evolve closing_generation (stream_close_generation c) (stream_map c)
                 (stream_close_generation c') (stream_map c');
  ev_talks : gens_evolve tk_closing_generation (talk_close_generation c) (talk_map c)
               (talk_close_generation c') (talk_map c');
  ev_catalog : gens_evolve (fun s => Some (cs_generation s)) (catalog_subscription_generation c)
                 (catalog_subscriptions c) (catalog_subscription_generation c') (catalog_subscriptions c')
}.

#[export] Instance cache_evolves_preorder : PreOrder cache_evolves.
Proof.
  split.
  - intros c. split; apply gens_evolve_refl.
  - intros c1 c2 c3 [] []. split; eapply gens_evolve_trans; eauto.
Qed.

Section EvolutionOfOps.
Context `{!MapIter string}.

Lemma foldl_evolves {A} (f : Cache -> A -> Cache) (l : list A) c :
  (forall c a, cache_evolves c (f c a)) -> cache_evolves c (foldl f c l).
Proof. intros Hf. revert c. induction l; simpl; intros; [done|]. etrans; eauto. Qed.

Lemma reset_stream_evolves c id : cache_evolves c (reset_stream c id).
Proof. unfold reset_stream. cases; split; simpl; eauto with gmv. Qed.
Lemma reset_talk_evolves c id : cache_evolves c (reset_talk c id).
Proof. unfold reset_talk, cancel_talk_close_timer. cases; split; simpl; eauto with gmv. Qed.
Lemma purge_key_evolves now c key : cache_evolves c (purge_expired_key now c key).
Proof. unfold purge_expired_key. cases; split; simpl; eauto with gmv. Qed.
Lemma catalog_remove_evolves d g c : cache_evolves c (catalog_subscription_remove d g c).2.
Proof.
  unfold catalog_subscription_remove. destruct (catalog_subscriptions c !! d) eqn:Hs; [|done].
  destruct g; [case_bool_decide|]; split; simpl; eauto with gmv.
Qed.

Lemma reset_device_evolves d c : cache_evolves c (reset_device_state d c).
Proof.
  unfold reset_device_state. etrans; [|apply catalog_remove_evolves].
  match goal with |- cache_evolves _ (on_locks _ _ ?c3) => trans c3; [|split; simpl; eauto with gmv] end.
  etrans; [|apply foldl_evolves; eauto using reset_talk_evolves].
  etrans; [|apply foldl_evolves; eauto using reset_stream_evolves].
  case_match; [|done]. etrans; [|apply foldl_evolves; eauto using reset_stream_evolves].
  split; simpl; eauto with gmv.
Qed.

Lemma finish_removed_evolves s t g c :
  cache_evolves c (finish_removed_stream s t g (on_streams (delete s) c)).2.
Proof. unfold finish_removed_stream, device_map_remove_stream. simpl. cases; split; simpl; eauto with gmv. Qed.

Lemma begin_close_evolves s c :
  stream_close_generation c < umax 64 -> 0 <= stream_close_generation c ->
  cache_evolves c (stream_close_begin s c).2.
Proof.
  intros. unfold stream_close_begin. destruct (stream_map c !! s) as [t|] eqn:Ht; [|done].
  assert (wrapping_add 64 (stream_close_generation c) 1 = stream_close_generation c + 1) as Hn
    by (apply wrapping_add_small; unfold umax in *; lia).
  unfold begin_close. destruct (lifecycle t) eqn:Hl; simpl; split; simpl; rewrite ?Hn; eauto with gmv.
  - apply gens_evolve_insert_fresh; [done|lia].
  - apply gens_evolve_counter; [lia|]. eauto with gmv.
Qed.
End EvolutionOfOps.

#[export] Hint Resolve finish_removed_evolves reset_device_evolves catalog_remove_evolves
  purge_key_evolves : gmv.

Section Reachable.
Context `{!MapIter string}.

Lemma cache_apply_evolves (op : cache_op) (c : Cache) :
  op_ok op -> counters_below (umax 64 - 1) c -> cache_wf c -> cache_evolves c (cache_apply op c).
Proof.
  intros Hok (H1 & H2 & H3) Hwf. pose proof (wf_counters c Hwf) as (P1 & P2 & P3).
  assert (forall n, 1 <= n -> n <= umax 64 - 1 -> wrapping_add 64 n 1 = n + 1) as Hn
    by (intros; apply wrapping_add_small; unfold umax in *; lia).
  destruct op; simpl in *.
  all: try (unfold stream_map_insert_token, stream_map_insert, stream_map_update_source,
    stream_map_remove, stream_close_remove, stream_terminated_remove, device_map_insert_table,
    device_map_remove, stream_setup_lock, talk_map_insert, talk_map_remove, talk_by_call_id_remove,
    talk_close_begin, next_talk_close_generation, cancel_talk_close_timer,
    talk_close_take_bye, talk_close_mark_failed, talk_close_complete,
    catalog_subscription_complete, catalog_subscription_take_refresh, catalog_subscription_mark_failed,
    catalog_subscription_update_expires, catalog_subscription_validate_notify, upsert_state,
    notify_stream_wait, notify_snapshot_wait, remove_state, refresh_state;
    cases; (done || (split; simpl; rewrite ?Hn by lia; by eauto with gmv) || by eauto with gmv)).
  - apply begin_close_evolves; lia.
  - unfold stream_close_take_bye. destruct (stream_map c !! stream_id) eqn:Hs; [|done].
    pose proof (take_bye_generation s). destruct (take_bye s).
    split; simpl in *; eauto with gmv.
  - unfold stream_close_mark_failed. destruct (stream_map c !! stream_id) eqn:Hs; [|done].
    pose proof (mark_failed_generation generation seq reason s).
    destruct (mark_bye_failed _ _ _ s). split; simpl in *; eauto with gmv.
  - unfold stream_close_remove. destruct (stream_map c !! stream_id); [|done].
    destruct (is_closing_generation _ _); [apply finish_removed_evolves|done].
  - unfold stream_terminated_remove. destruct (stream_map c !! stream_id); [|done].
    case_bool_decide; [apply finish_removed_evolves|done].
  - unfold talk_close_begin. destruct (talk_map c !! talk_id) as [t|] eqn:Ht; [|done].
    destruct (tk_closing_generation t); [done|].
    split; simpl; rewrite ?Hn by lia; eauto with gmv. apply gens_evolve_insert_fresh; [done|lia].
  - unfold catalog_subscription_begin. destruct (catalog_subscriptions c !! device_id); [done|].
    split; simpl; rewrite ?Hn by lia; eauto with gmv. apply gens_evolve_insert_fresh; [done|lia].
  - unfold decrement_counter. destruct (state_decrement_counter key (entities c)).
    simpl. cases; split; simpl; eauto with gmv.
  - apply foldl_evolves. eauto with gmv.
Qed.

(** Caches reachable from [from] by operations, no generation counter being
    exhausted on the way. *)
Inductive cache_reaches (from : Cache) : Cache -> Prop :=
| reach_refl : cache_reaches from from
| reach_step c op : cache_reaches from c -> op_ok op -> counters_below (umax 64 - 1) c ->
    cache_reaches from (cache_apply op c).

Lemma cache_reaches_wf (c c' : Cache) : cache_reaches c c' -> cache_wf c -> cache_wf c'.
Proof. induction 1; intros; [done|]. apply cache_apply_wf; auto. Qed.

Lemma cache_reaches_evolves (c c' : Cache) : cache_reaches c c' -> cache_wf c -> cache_evolves c c'.
Proof.
  induction 1 as [|c1 op Hr IH Hok Hb]; intros Hwf; [done|].
  etrans; [by apply IH|]. apply cache_apply_evolves; eauto using cache_reaches_wf.
Qed.

Lemma on_streams_insert_id (c : Cache) id t :
  stream_map c !! id = Some t -> on_streams <[id := t]> c = c.
Proof. intros Ht. unfold on_streams. rewrite insert_id by done. by destruct c. Qed.

(** C1: the cache invariant.  In every cache reachable from start-up: the close
    generations of streams, of talks and of catalog subscriptions were all
    handed out by their counter and are pairwise distinct, no device keeps an
    empty stream list, and a talk is stored under its own id. *)
Theorem cache_invariant (c : Cache) : cache_reaches Cache_init c -> cache_wf c.
Proof. intros Hr. exact (cache_reaches_wf _ _ Hr cache_wf_init). Qed.

(** C2: a stale close timer is harmless.  Once generation [g] of stream [id]
    has been handed out and the stream is no longer closing under it (it was
    removed, or reset), no later state of the cache, whatever dialogs with the
    same id are opened and closed in between, lets a forced close or a late BYE
    answer for [g] change anything. *)
Theorem stale_close_is_noop (c c' : Cache) (id : string) (g : Z) :
  cache_wf c -> cache_reaches c c' -> g < stream_close_generation c ->
  stream_map c !! id ≫= closing_generation <> Some g ->
  stream_close_force id g c' = (None, c') /\
  stream_close_complete id g c' = (None, c') /\
  (forall seq reason, stream_close_mark_failed id g seq reason c' = (false, c')).
Proof.
  intros Hwf Hr Hg Hno.
  assert (forall t, stream_map c' !! id = Some t -> closing_generation t <> Some g) as Hno'.
  { intros t Ht Hcg. destruct (cache_reaches_evolves _ _ Hr Hwf) as [[_ Hev] _ _].
    destruct (Hev _ _ _ Ht Hcg) as [(v & Hv & Hvg)|]; [|lia]. by rewrite Hv in Hno. }
  unfold stream_close_force, stream_close_complete, stream_close_remove, stream_close_mark_failed.
  destruct (stream_map c' !! id) as [t|] eqn:Ht; [|by destruct c'].
  specialize (Hno' t eq_refl). unfold closing_generation, is_closing_generation, mark_bye_failed in *.
  destruct (lifecycle t) as [|g' fl err] eqn:Hl.
  - split; [done|]. split; [done|]. intros. by rewrite on_streams_insert_id.
  - rewrite bool_decide_false by congruence. split; [done|]. split; [done|]. intros.
    rewrite (bool_decide_true (g' <> g)) by congruence. simpl. by rewrite on_streams_insert_id.
Qed.
End Reachable.

Definition demo_stream_ops : list cache_op :=
  [OpStreamInsert "s" "d" "ch" 7 "" "n1" "call-1" 3 Live false; OpCloseBegin "s"; OpCloseRemove "s" 1].
Definition demo_reopen_ops : list cache_op :=
  [OpStreamInsert "s" "d" "ch" 8 "" "n1" "call-2" 1 Live false; OpCloseBegin "s"; OpCloseTakeBye "s"].
Definition demo_cache : Cache := cache_run demo_stream_ops Cache_init.
Definition demo_cache_reopened : Cache := cache_run demo_reopen_ops demo_cache.

Lemma demo_cache_reached : cache_reaches Cache_init demo_cache.
Proof.
  change demo_cache with (cache_apply (OpCloseRemove "s" 1) (cache_apply (OpCloseBegin "s")
    (cache_apply (OpStreamInsert "s" "d" "ch" 7 "" "n1" "call-1" 3 Live false) Cache_init))).
  do 3 (apply reach_step; [|exact I|by vm_compute]). apply reach_refl.
Qed.
Lemma demo_cache_reopens : cache_reaches demo_cache demo_cache_reopened.
Proof.
  change demo_cache_reopened with (cache_apply (OpCloseTakeBye "s") (cache_apply (OpCloseBegin "s")
    (cache_apply (OpStreamInsert "s" "d" "ch" 8 "" "n1" "call-2" 1 Live false) demo_cache))).
  do 3 (apply reach_step; [|exact I|by vm_compute]). apply reach_refl.
Qed.

Lemma cache_invariant_witness : cache_wf demo_cache.
Proof. exact (cache_invariant demo_cache demo_cache_reached). Defined.

Lemma stale_close_is_noop_witness :
  stream_is_closing "s" demo_cache_reopened = true /\
  stream_close_force "s" 1 demo_cache_reopened = (None, demo_cache_reopened) /\
  stream_close_complete "s" 1 demo_cache_reopened = (None, demo_cache_reopened) /\
  (forall seq reason, stream_close_mark_failed "s" 1 seq reason demo_cache_reopened
     = (false, demo_cache_reopened)).
Proof.
  split; [by vm_compute|].
  apply (stale_close_is_noop demo_cache demo_cache_reopened "s" 1).
  - exact (cache_reaches_wf _ _ demo_cache_reached cache_wf_init).
  - exact demo_cache_reopens.
  - by vm_compute.
  - vm_compute. discriminate.
Defined.
