(* ===== verification/CacheProps.v ===== *)
(** * What the session cache guarantees

    Reset of a device, removal of a closed stream, load ordering of the media
    nodes, expiry of wait entries, the download counter, and the dialog checks
    of catalog notifications. *)
From S2P Require Import Prelude SharedTypes Scheduler Lifecycle SessionCache DialogCache CacheInvariant.
Local Open Scope Z_scope.

(** ** Deletion-only logs *)

Definition is_delete (r : sched_request) : Prop := exists k, r = ReqDelete k.

Lemma deletes_no_insert (log : list sched_request) k ttl :
  Forall is_delete log -> ReqInsert k ttl ∉ log.
Proof. rewrite Forall_forall. intros Hd Hin. by destruct (Hd _ Hin). Qed.

Lemma armed_after_deletes (log1 log2 : list sched_request) k :
  Forall is_delete log2 -> ReqDelete k ∈ log2 -> armed_after (log1 ++ log2) k = false.
Proof.
  intros. rewrite armed_after_app. apply armed_from_deleted; [|done].
  intros. by apply deletes_no_insert.
Qed.

(** ** Folding removals over a list of ids *)

Section Reset.
Context `{!MapIter string}.

(** [streams_removed c ids log c']: [c'] is [c] without the streams [ids], the
    requests [log] having been sent. *)
Definition streams_removed (c : Cache) (ids : list string) (log : list sched_request) (c' : Cache) : Prop :=
  (forall id, stream_map c' !! id = if decide (id ∈ ids) then None else stream_map c !! id) /\
  talk_map c' = talk_map c /\ catalog_subscriptions c' = catalog_subscriptions c /\
  device_map c' = device_map c /\ stream_setup_locks c' = stream_setup_locks c /\
  requests c' = requests c ++ log /\ Forall is_delete log /\
  (forall id t g, id ∈ ids -> stream_map c !! id = Some t -> closing_generation t = Some g ->
     ReqDelete (SRegister (StreamClosing id g)) ∈ log).

Lemma reset_stream_spec c id : exists log, streams_removed c [id] log (reset_stream c id).
Proof.
  unfold reset_stream. destruct (stream_map c !! id) as [t|] eqn:Ht.
  - assert (forall id0, delete id (stream_map c) !! id0
              = if decide (id0 ∈ [id]) then None else stream_map c !! id0) as Hdel.
    { intros id0. rewrite lookup_delete. repeat case_decide; set_solver. }
    destruct (closing_generation t) as [g|] eqn:Hg.
    + exists [remove_register (StreamClosing id g)]. split_and!; simpl; try done.
      * repeat constructor. eexists. reflexivity.
      * intros id0 t0 g0 ->%list_elem_of_singleton ??. simplify_eq. by left.
    + exists []. split_and!; simpl; try done; [by rewrite app_nil_r|].
      intros id0 t0 g0 ->%list_elem_of_singleton ??. simplify_eq.
  - exists []. split_and!; simpl; try done; [|by rewrite app_nil_r|].
    + intros id0. case_decide; set_solver.
    + intros id0 t0 g0 ->%list_elem_of_singleton ??. simplify_eq.
Qed.

Lemma reset_streams_spec ids : forall c, exists log, streams_removed c ids log (foldl reset_stream c ids).
Proof.
  induction ids as [|id ids IH]; intros c; simpl.
  - exists []. split_and!; try done; [by rewrite app_nil_r|].
    intros ??? []%elem_of_nil.
  - destruct (reset_stream_spec c id) as (log1 & A1 & A2 & A3 & A4 & A5 & A6 & A7 & A8).
    destruct (IH (reset_stream c id)) as (log2 & B1 & B2 & B3 & B4 & B5 & B6 & B7 & B8).
    exists (log1 ++ log2). split_and!; try congruence.
    + intros id0. rewrite B1, A1. repeat case_decide; set_solver.
    + by rewrite B6, A6, app_assoc.
    + by apply Forall_app.
    + intros id0 t g [->|Hin]%elem_of_cons Ht Hg; apply elem_of_app; [left; apply (A8 id t g); set_solver|].
      destruct (decide (id0 = id)) as [->|Hne]; [left; apply (A8 id t g); set_solver|].
      right. apply (B8 id0 t g); [done| |done]. rewrite A1. rewrite decide_False; [done|set_solver].
Qed.

Definition talks_removed (c : Cache) (ids : list string) (log : list sched_request) (c' : Cache) : Prop :=
  (forall id, talk_map c' !! id = if decide (id ∈ ids) then None else talk_map c !! id) /\
  stream_map c' = stream_map c /\ catalog_subscriptions c' = catalog_subscriptions c /\
  device_map c' = device_map c /\ stream_setup_locks c' = stream_setup_locks c /\
  requests c' = requests c ++ log /\ Forall is_delete log /\
  (forall id t g, id ∈ ids -> talk_map c !! id = Some t -> tk_closing_generation t = Some g ->
     ReqDelete (SRegister (TalkClosing id g)) ∈ log).

Lemma reset_talk_spec c id : exists log, talks_removed c [id] log (reset_talk c id).
Proof.
  unfold reset_talk, cancel_talk_close_timer. destruct (talk_map c !! id) as [t|] eqn:Ht.
  - assert (forall id0, delete id (talk_map c) !! id0
              = if decide (id0 ∈ [id]) then None else talk_map c !! id0) as Hdel.
    { intros id0. rewrite lookup_delete. repeat case_decide; set_solver. }
    destruct (tk_closing_generation t) as [g|] eqn:Hg.
    + exists [remove_register (TalkClosing id g)]. split_and!; simpl; try done.
      * repeat constructor. eexists. reflexivity.
      * intros id0 t0 g0 ->%list_elem_of_singleton ??. simplify_eq. by left.
    + exists []. split_and!; simpl; try done; [by rewrite app_nil_r|].
      intros id0 t0 g0 ->%list_elem_of_singleton ??. simplify_eq.
  - exists []. split_and!; simpl; try done; [|by rewrite app_nil_r|].
    + intros id0. case_decide; set_solver.
    + intros id0 t0 g0 ->%list_elem_of_singleton ??. simplify_eq.
Qed.

Lemma reset_talks_spec ids : forall c, exists log, talks_removed c ids log (foldl reset_talk c ids).
Proof.
  induction ids as [|id ids IH]; intros c; simpl.
  - exists []. split_and!; try done; [by rewrite app_nil_r|]. intros ??? []%elem_of_nil.
  - destruct (reset_talk_spec c id) as (log1 & A1 & A2 & A3 & A4 & A5 & A6 & A7 & A8).
    destruct (IH (reset_talk c id)) as (log2 & B1 & B2 & B3 & B4 & B5 & B6 & B7 & B8).
    exists (log1 ++ log2). split_and!; try congruence.
    + intros id0. rewrite B1, A1. repeat case_decide; set_solver.
    + by rewrite B6, A6, app_assoc.
    + by apply Forall_app.
    + intros id0 t g [->|Hin]%elem_of_cons Ht Hg; apply elem_of_app; [left; apply (A8 id t g); set_solver|].
      destruct (decide (id0 = id)) as [->|Hne]; [left; apply (A8 id t g); set_solver|].
      right. apply (B8 id0 t g); [done| |done]. rewrite A1. rewrite decide_False; [done|set_solver].
Qed.

(** The ids the talk pass of the reset collects are the keys of the device's
    talks. *)
Lemma reset_talk_ids (m : gmap string TalkSessionState) d id :
  (forall k t, m !! k = Some t -> tk_talk_id t = k) ->
  id ∈ (fun kv => tk_talk_id kv.2) <$>
       filter (fun kv : string * TalkSessionState => tk_device_id kv.2 = d) (map_iter m) <->
  exists t, m !! id = Some t /\ tk_device_id t = d.
Proof.
  intros Hkeys. rewrite list_elem_of_fmap. split.
  - intros ([k t] & -> & [Hd Hin]%list_elem_of_filter). apply elem_of_map_iter in Hin. simpl in *.
    exists t. by rewrite (Hkeys _ _ Hin).
  - intros (t & Ht & Hd). exists (id, t). rewrite list_elem_of_filter, elem_of_map_iter. simpl.
    by rewrite (Hkeys _ _ Ht).
Qed.

(** The streams a device lists, and the ones the reset removes. *)
Definition listed_streams (d : string) (c : Cache) : list string :=
  dt_stream_id <$> default [] (device_map c !! d).
Definition owned_by (d : string) (c : Cache) (id : string) : Prop :=
  id ∈ listed_streams d c \/ exists t, stream_map c !! id = Some t /\ st_device_id t = d.

(** The two stream passes of the reset. *)
Lemma reset_stream_passes c d :
  let c1 := match device_map c !! d with
            | Some entries => foldl reset_stream (on_devices (delete d) c) (dt_stream_id <$> entries)
            | None => c end in
  let c2 := foldl reset_stream c1
     (map_keys_where (fun _ t => bool_decide (st_device_id t = d)) (stream_map c1)) in
  exists ids log, (forall id, id ∈ ids -> owned_by d c id) /\
    (forall id, owned_by d c id -> id ∈ ids) /\
    streams_removed (on_devices (delete d) c) ids log c2.
Proof.
  intros c1 c2.
  assert (exists log, streams_removed (on_devices (delete d) c) (listed_streams d c) log c1) as (log1 & A).
  { unfold c1, listed_streams. destruct (device_map c !! d) as [rows|] eqn:Hd; simpl.
    - apply reset_streams_spec.
    - exists []. split_and!; simpl; try done; [by rewrite delete_id|by rewrite app_nil_r|].
      intros ??? []%elem_of_nil. }
  destruct A as (A1 & A2 & A3 & A4 & A5 & A6 & A7 & A8). simpl in *.
  clearbody c1. subst c2.
  set (ids2 := map_keys_where (fun _ t => bool_decide (st_device_id t = d)) (stream_map c1)).
  destruct (reset_streams_spec ids2 c1) as (log2 & B1 & B2 & B3 & B4 & B5 & B6 & B7 & B8).
  assert (forall id, id ∈ ids2 <-> id ∉ listed_streams d c /\
            exists t, stream_map c !! id = Some t /\ st_device_id t = d) as Hids2.
  { intros id. unfold ids2. rewrite elem_of_map_keys_where. setoid_rewrite A1. split.
    - intros (t & Ht & Hd%bool_decide_eq_true). case_decide; [done|]. eauto.
    - intros (Hn & t & Ht & Hd). exists t. rewrite decide_False by done.
      by rewrite bool_decide_eq_true. }
  exists (listed_streams d c ++ ids2), (log1 ++ log2). unfold owned_by, streams_removed. simpl.
  split_and!; try congruence.
  - intros id [?|?%Hids2]%elem_of_app; [by left|right; tauto].
  - intros id [?|?]; apply elem_of_app; [by left|].
    destruct (decide (id ∈ listed_streams d c)); [by left|right]. by apply Hids2.
  - intros id. rewrite B1, A1. simpl. repeat case_decide; set_solver.
  - by rewrite B6, A6, app_assoc.
  - by apply Forall_app.
  - intros id t g [Hin|Hin]%elem_of_app Ht Hg; apply elem_of_app.
    { left. eauto. }
    right. apply (B8 id t g); [done| |done]. rewrite A1, decide_False; [done|]. by apply Hids2 in Hin as [? _].
Qed.

(** What [reset_device_state] computes, in one specification. *)
Record device_reset (d : string) (c c' : Cache) (log : list sched_request) : Prop := {
  dr_streams_gone : forall id, owned_by d c id -> stream_map c' !! id = None;
  dr_streams_kept : forall id, ~ owned_by d c id -> stream_map c' !! id = stream_map c !! id;
  dr_talks : forall id, talk_map c' !! id
     = (talk_map c !! id ≫= fun t => if decide (tk_device_id t = d) then None else Some t);
  dr_devices : device_map c' = delete d (device_map c);
  dr_catalog : catalog_subscriptions c' = delete d (catalog_subscriptions c);
  dr_locks : stream_setup_locks c'
    = filter (fun kv => negb (String.prefix (d +:+ ":") kv.1) = true) (stream_setup_locks c);
  dr_log : requests c' = requests c ++ log;
  dr_deletes : Forall is_delete log;
  dr_stream_timers : forall id t g, owned_by d c id -> stream_map c !! id = Some t ->
     closing_generation t = Some g -> ReqDelete (SRegister (StreamClosing id g)) ∈ log;
  dr_talk_timers : forall id t g, talk_map c !! id = Some t -> tk_device_id t = d ->
     tk_closing_generation t = Some g -> ReqDelete (SRegister (TalkClosing id g)) ∈ log;
  dr_catalog_timer : forall s, catalog_subscriptions c !! d = Some s ->
     ReqDelete (SRegister (CatalogSubscription d (cs_generation s))) ∈ log
}.

Lemma catalog_remove_none d c :
  exists log, let c' := (catalog_subscription_remove d None c).2 in
  catalog_subscriptions c' = delete d (catalog_subscriptions c) /\
  stream_map c' = stream_map c /\ talk_map c' = talk_map c /\ device_map c' = device_map c /\
  stream_setup_locks c' = stream_setup_locks c /\ requests c' = requests c ++ log /\
  Forall is_delete log /\
  (forall s, catalog_subscriptions c !! d = Some s ->
     ReqDelete (SRegister (CatalogSubscription d (cs_generation s))) ∈ log).
Proof.
  unfold catalog_subscription_remove. destruct (catalog_subscriptions c !! d) as [s|] eqn:Hs.
  - exists [remove_register (CatalogSubscription d (cs_generation s))]. simpl. split_and!; try done.
    + repeat constructor. by eexists.
    + intros s' ?. simplify_eq. by left.
  - exists []. simpl. split_and!; try done; [by rewrite delete_id|by rewrite app_nil_r].
Qed.

Lemma reset_device_spec c d :
  cache_wf c -> exists log, device_reset d c (reset_device_state d c) log.
Proof.
  intros Hwf. unfold reset_device_state.
  destruct (reset_stream_passes c d) as (ids & log2 & HA & HB & B1 & B2 & B3 & B4 & B5 & B6 & B7 & B8).
  set (c2 := foldl reset_stream _ _) in *. simpl in *.
  destruct (reset_talks_spec ((fun kv => tk_talk_id kv.2) <$>
     filter (fun kv : string * TalkSessionState => tk_device_id kv.2 = d) (map_iter (talk_map c2))) c2)
    as (log3 & C1 & C2 & C3 & C4 & C5 & C6 & C7 & C8).
  set (c3 := foldl reset_talk c2 _) in *.
  destruct (catalog_remove_none d (on_locks (filter (fun kv => negb (String.prefix (d +:+ ":") kv.1) = true))
              (locks_created c3) c3)) as (log4 & D1 & D2 & D3 & D4 & D5 & D6 & D7 & D8).
  simpl in *. rewrite B2 in C1, C8.
  assert (forall id, id ∈ (fun kv => tk_talk_id kv.2) <$>
       filter (fun kv : string * TalkSessionState => tk_device_id kv.2 = d) (map_iter (talk_map c)) <->
     exists t, talk_map c !! id = Some t /\ tk_device_id t = d) as Htalk
    by (intros; apply reset_talk_ids; eauto with gmv).
  exists (log2 ++ log3 ++ log4). split.
  - intros id Hid. rewrite D2, C2, B1, decide_True; auto.
  - intros id Hid. rewrite D2, C2, B1, decide_False; auto.
  - intros id. rewrite D3, C1. case_decide as Hin.
    + apply Htalk in Hin as (t & -> & Hd). simpl. by rewrite decide_True.
    + destruct (talk_map c !! id) as [t|] eqn:Ht; [|done]. simpl.
      rewrite decide_False; [done|]. intros Hd. apply Hin, Htalk. eauto.
  - congruence.
  - by rewrite D1, C3, B3.
  - by rewrite D5, C5, B5.
  - by rewrite D6, C6, B6, <- !app_assoc.
  - by rewrite !Forall_app.
  - intros id t g Hid Ht Hg. apply elem_of_app. left. eauto.
  - intros id t g Ht Hd Hg. rewrite !elem_of_app. right. left. apply (C8 id t g); [|done|done].
    apply Htalk. eauto.
  - intros s Hs. rewrite !elem_of_app. do 2 right. apply D8. by rewrite C3, B3.
Qed.
End Reset.

(** ** The catalog subscription of a device, across operations *)

Section CatalogRuns.
Context `{!MapIter string}.

(** How an operation may change the subscription [s] it finds into [s']. *)
Definition catalog_change (op : cache_op) (d : string) (s s' : CatalogSubscriptionState) : Prop :=
  cs_generation s' = cs_generation s /\
  match op with
  | OpCatalogComplete d' _ _ _ _ _ _ => d' = d
  | OpCatalogRefresh _ _ => cs_inflight s = false /\ cs_remote_tag s' = cs_remote_tag s
  | OpCatalogFailed d' _ => d' = d /\ cs_remote_tag s' = cs_remote_tag s
  | OpCatalogExpires _ _ _ => cs_inflight s' = cs_inflight s /\ cs_remote_tag s' = cs_remote_tag s
  | OpCatalogNotify _ _ _ _ _ =>
      cs_inflight s' = cs_inflight s /\
      (cs_remote_tag s = ""%string \/ cs_remote_tag s' = cs_remote_tag s)
  | _ => False
  end.

Lemma foldl_catalog {A} (f : Cache -> A -> Cache) (l : list A) c :
  (forall c a, catalog_subscriptions (f c a) = catalog_subscriptions c) ->
  catalog_subscriptions (foldl f c l) = catalog_subscriptions c.
Proof. intros Hf. revert c. induction l; simpl; intros; [done|]. by rewrite IHl. Qed.

Lemma reset_stream_catalog c id : catalog_subscriptions (reset_stream c id) = catalog_subscriptions c.
Proof. unfold reset_stream. by cases. Qed.
Lemma reset_talk_catalog c id : catalog_subscriptions (reset_talk c id) = catalog_subscriptions c.
Proof. unfold reset_talk, cancel_talk_close_timer. by cases. Qed.
Lemma reset_device_catalog d c :
  catalog_subscriptions (reset_device_state d c) = delete d (catalog_subscriptions c).
Proof.
  unfold reset_device_state.
  match goal with |- catalog_subscriptions (catalog_subscription_remove _ _ ?c').2 = _ =>
    destruct (catalog_remove_none d c') as (? & -> & _) end.
  simpl. rewrite !foldl_catalog by (intros; apply reset_talk_catalog || apply reset_stream_catalog).
  case_match; [|done]. by rewrite foldl_catalog by apply reset_stream_catalog.
Qed.
Lemma purge_catalog keys now c :
  catalog_subscriptions (purge_expired_keys keys now c) = catalog_subscriptions c.
Proof. apply foldl_catalog. intros. unfold purge_expired_key. by cases. Qed.

Lemma catalog_step (op : cache_op) (c : Cache) (d : string) (s' : CatalogSubscriptionState) :
  catalog_subscriptions (cache_apply op c) !! d = Some s' ->
  catalog_subscriptions c !! d = Some s' \/
  (exists s, catalog_subscriptions c !! d = Some s /\ catalog_change op d s s') \/
  cs_generation s' = catalog_subscription_generation c.
Proof.
  destruct op; simpl.
  all: try (unfold stream_map_insert_token, stream_map_insert, stream_map_update_source,
    stream_map_remove, stream_close_begin, stream_close_take_bye, stream_close_mark_failed,
    stream_close_remove, stream_terminated_remove, finish_removed_stream, device_map_remove_stream,
    device_map_insert_table, device_map_remove, stream_setup_lock, talk_map_insert, talk_map_remove,
    talk_by_call_id_remove, talk_close_begin, next_talk_close_generation, cancel_talk_close_timer,
    talk_close_take_bye, talk_close_mark_failed, talk_close_complete, upsert_state, decrement_counter,
    notify_stream_wait, notify_snapshot_wait, remove_state, refresh_state;
    simpl; cases; by left).
  - unfold catalog_subscription_begin. destruct (catalog_subscriptions c !! device_id); [by left|].
    simpl. intros [[<- <-]|[? ?]]%lookup_insert_Some; [right; by right|by left].
  - unfold catalog_subscription_complete. destruct (catalog_subscriptions c !! device_id) eqn:Hs; [|by left].
    case_bool_decide; [by left|]. simpl. intros [[<- <-]|[? ?]]%lookup_insert_Some; [|by left].
    right; left. eexists. split; [done|]. by split.
  - unfold catalog_subscription_take_refresh. destruct (catalog_subscriptions c !! device_id) as [s|] eqn:Hs; [|by left].
    destruct (cs_inflight s) eqn:Hi; [rewrite orb_true_r; by left|]. rewrite orb_false_r.
    case_bool_decide; [by left|]. simpl. intros [[<- <-]|[? ?]]%lookup_insert_Some; [|by left].
    right; left. eexists. split; [done|]. by split.
  - unfold catalog_subscription_mark_failed. destruct (catalog_subscriptions c !! device_id) eqn:Hs; [|by left].
    case_bool_decide; [by left|]. simpl. intros [[<- <-]|[? ?]]%lookup_insert_Some; [|by left].
    right; left. eexists. split; [done|]. by split.
  - unfold catalog_subscription_update_expires. destruct (catalog_subscriptions c !! device_id) eqn:Hs; [|by left].
    case_bool_decide; [by left|]. simpl. intros [[<- <-]|[? ?]]%lookup_insert_Some; [|by left].
    right; left. eexists. split; [done|]. by split.
  - unfold catalog_subscription_validate_notify. destruct (catalog_subscriptions c !! device_id) eqn:Hs; [|by left].
    destruct (_ || _); [by left|]. destruct remote_tag as [tag|]; [|by left].
    case_bool_decide; [|case_bool_decide; by left].
    simpl. intros [[<- <-]|[? ?]]%lookup_insert_Some; [|by left].
    right; left. eexists. split; [done|]. split; [done|]. split; [done|by left].
  - unfold catalog_subscription_remove. destruct (catalog_subscriptions c !! device_id); [|by left].
    case_match; [|by left]. simpl. intros [_ ?]%lookup_delete_Some. by left.
  - rewrite purge_catalog. by left.
  - rewrite reset_device_catalog. intros [_ ?]%lookup_delete_Some. by left.
Qed.
End CatalogRuns.

Section CatalogProps.
Context `{!MapIter string}.

(** Runs that avoid the operations [bad]. *)
Inductive reaches_without (bad : cache_op -> Prop) (from : Cache) : Cache -> Prop :=
| without_refl : reaches_without bad from from
| without_step c op : reaches_without bad from c -> ~ bad op -> op_ok op ->
    counters_below (umax 64 - 1) c -> reaches_without bad from (cache_apply op c).

Lemma reaches_without_reaches bad c c' : reaches_without bad c c' -> cache_reaches c c'.
Proof. induction 1; [constructor|]. by constructor. Qed.

(** A property of the subscription [g] of device [d] that every allowed
    change keeps holds at the end of a run. *)
Lemma catalog_run_keeps bad d g (P : CatalogSubscriptionState -> Prop) c c' :
  (forall op s s', ~ bad op -> catalog_change op d s s' -> P s -> P s') ->
  cache_wf c -> g < catalog_subscription_generation c ->
  (forall s, catalog_subscriptions c !! d = Some s -> cs_generation s = g -> P s) ->
  reaches_without bad c c' ->
  forall s', catalog_subscriptions c' !! d = Some s' -> cs_generation s' = g -> P s'.
Proof.
  intros Hstep Hwf Hg HP Hr. induction Hr as [|c1 op Hr IH Hb Hok Hc]; [done|].
  intros s' Hs' Hg'. apply catalog_step in Hs' as [Hs'|[(s & Hs & Hch)|Hnew]].
  - by apply IH.
  - eapply Hstep; [done..|]. apply IH; [done|]. destruct Hch. congruence.
  - destruct (cache_reaches_evolves _ _ (reaches_without_reaches _ _ _ Hr) Hwf) as [_ _ [? _]]. lia.
Qed.

Definition completes_catalog (d : string) (op : cache_op) : Prop :=
  match op with OpCatalogComplete d' _ _ _ _ _ _ => d' = d | _ => False end.
Definition answers_catalog (d : string) (op : cache_op) : Prop :=
  match op with
  | OpCatalogComplete d' _ _ _ _ _ _ | OpCatalogFailed d' _ => d' = d
  | _ => False
  end.

(** The remote tag of a catalog subscription is pinned.  Once the dialog
    has a remote tag, from the answer to SUBSCRIBE or from the first accepted
    NOTIFY, then until the next answer to a SUBSCRIBE of that device no
    operation changes it while the subscription lives, and a NOTIFY carrying
    any other tag, another Call-ID or another local tag is refused without a
    change of state. *)
Theorem catalog_tag_pinned (c c' : Cache) (d : string) (s s' : CatalogSubscriptionState) :
  cache_wf c -> catalog_subscriptions c !! d = Some s -> cs_remote_tag s <> ""%string ->
  reaches_without (completes_catalog d) c c' ->
  catalog_subscriptions c' !! d = Some s' -> cs_generation s' = cs_generation s ->
  cs_remote_tag s' = cs_remote_tag s /\
  forall call_id event remote_tag local_tag,
    remote_tag <> Some (cs_remote_tag s) \/ call_id <> cs_call_id s' \/
    local_tag <> Some (cs_local_tag s') ->
    catalog_subscription_validate_notify d call_id event remote_tag local_tag c' = (None, c').
Proof.
  intros Hwf Hs Htag Hr Hs' Hg.
  assert (cs_remote_tag s' = cs_remote_tag s) as Heq.
  { apply (catalog_run_keeps (completes_catalog d) d (cs_generation s)
      (fun x => cs_remote_tag x = cs_remote_tag s) c c'); try done.
    - intros op x x' Hb [_ Hc] Hx. destruct op; simpl in *; naive_solver congruence.
    - destruct (wf_catalog_gens _ Hwf) as [Hb _]. by destruct (Hb _ _ _ Hs eq_refl).
    - naive_solver. }
  split; [done|]. intros call event rt lt Hbad. unfold catalog_subscription_validate_notify.
  rewrite Hs'. destruct (bool_decide (cs_call_id s' <> call)) eqn:H1; [done|].
  destruct (negb _); [done|]. destruct (bool_decide (lt <> _)) eqn:H2; [done|]. simpl.
  apply bool_decide_eq_false in H1. apply bool_decide_eq_false in H2.
  destruct rt as [tag|]; [|done]. rewrite Heq. rewrite bool_decide_false by done.
  rewrite bool_decide_false; [done|]. intros ->. destruct Hbad as [|[|]]; [done|..]; naive_solver.
Qed.

(** One SUBSCRIBE refresh at a time.  After a refresh was handed out,
    every further request for a refresh of that subscription is refused, and
    changes nothing, until the answer or the failure of the first is
    recorded. *)
Theorem catalog_refresh_exclusive (c c1 c2 : Cache) (d : string) (g : Z)
    (cmd : CatalogSubscriptionCommand) :
  cache_wf c -> catalog_subscription_take_refresh d g c = (Some cmd, c1) ->
  reaches_without (answers_catalog d) c1 c2 ->
  catalog_subscription_take_refresh d g c2 = (None, c2).
Proof.
  intros Hwf Ht Hr. unfold catalog_subscription_take_refresh in Ht.
  destruct (catalog_subscriptions c !! d) as [s|] eqn:Hs; [|done].
  destruct (_ || _) eqn:Hc; [done|]. apply orb_false_iff in Hc as [Hg Hi].
  apply bool_decide_eq_false, dec_stable in Hg. simplify_eq/=.
  set (c1 := on_catalog _ c) in *.
  assert (cache_wf c1) as Hwf1.
  { apply cache_wf_catalog; [|done]. eapply gens_ok_update; eauto with gmv. }
  unfold catalog_subscription_take_refresh.
  destruct (catalog_subscriptions c2 !! d) as [s'|] eqn:Hs'; [|done].
  case_bool_decide as Hg'; [done|].
  assert (cs_inflight s' = true) as ->; [|done].
  apply (catalog_run_keeps (answers_catalog d) d (cs_generation s) (fun x => cs_inflight x = true)
           c1 c2); try done.
  - intros op x x' Hb [_ Hx] Hp. destruct op; simpl in *; naive_solver congruence.
  - destruct (wf_catalog_gens _ Hwf) as [Hb _]. by destruct (Hb _ _ _ Hs eq_refl).
  - intros x Hx _. unfold c1 in Hx. simpl in Hx. by simplify_map_eq.
Qed.
End CatalogProps.

(** ** Reset and removal *)

Section CacheTheorems.
Context `{!MapIter string}.

(** A device reset is complete and affects only that device.  Afterwards
    no stream, talk, set-up lock, stream list or catalog subscription of the
    device is left and every timer they had pending is disarmed, while the
    streams, talks, lists and subscriptions of other devices are untouched. *)
Theorem reset_device_complete (c : Cache) (d : string) :
  cache_wf c ->
  let c' := reset_device_state d c in
  (forall id, stream_map c' !! id = None <-> owned_by d c id \/ stream_map c !! id = None) /\
  (forall id, ~ owned_by d c id -> stream_map c' !! id = stream_map c !! id) /\
  (forall id t, talk_map c' !! id = Some t <-> talk_map c !! id = Some t /\ tk_device_id t <> d) /\
  device_map c' = delete d (device_map c) /\
  catalog_subscriptions c' = delete d (catalog_subscriptions c) /\
  (forall key, is_Some (stream_setup_locks c' !! key) <->
     is_Some (stream_setup_locks c !! key) /\ String.prefix (d +:+ ":") key = false) /\
  (forall id t g, owned_by d c id -> stream_map c !! id = Some t -> closing_generation t = Some g ->
     armed_after (requests c') (SRegister (StreamClosing id g)) = false) /\
  (forall id t g, talk_map c !! id = Some t -> tk_device_id t = d -> tk_closing_generation t = Some g ->
     armed_after (requests c') (SRegister (TalkClosing id g)) = false) /\
  (forall s, catalog_subscriptions c !! d = Some s ->
     armed_after (requests c') (SRegister (CatalogSubscription d (cs_generation s))) = false).
Proof.
  intros Hwf c'. destruct (reset_device_spec c d Hwf) as [log [R1 R2 R3 R4 R5 R6 R7 R8 R9 R10 R11]].
  fold c' in R1, R2, R3, R4, R5, R6, R7. rewrite R7.
  split_and!; try done.
  - intros id. split.
    + intros Hn. destruct (decide (id ∈ listed_streams d c)); [left; by left|].
      destruct (stream_map c !! id) as [t|] eqn:Ht; [|by right]. left. right. exists t.
      split; [done|]. destruct (decide (st_device_id t = d)); [done|].
      rewrite R2 in Hn; [congruence|]. intros [?|(? & ? & ?)]; [done|congruence].
    + intros [Ho|Hn]; [auto|]. destruct (decide (id ∈ listed_streams d c)); [apply R1; by left|].
      rewrite R2; [done|]. intros [?|(? & ? & ?)]; [done|congruence].
  - intros id t. rewrite R3. destruct (talk_map c !! id) as [t0|]; simpl; [|naive_solver].
    case_decide; naive_solver.
  - intros key. rewrite R6. unfold is_Some. setoid_rewrite map_lookup_filter_Some. simpl.
    setoid_rewrite negb_true_iff. naive_solver.
  - intros. eapply armed_after_deletes; eauto.
  - intros. eapply armed_after_deletes; eauto.
  - intros. eapply armed_after_deletes; eauto.
Qed.

(** What [device_map_remove_stream] leaves. *)
Lemma device_remove_stream_rows d s c d' :
  device_map (device_map_remove_stream d s c) !! d' =
  if decide (d' = d) then
    match filter (fun row => dt_stream_id row <> s) (default [] (device_map c !! d)) with
    | [] => None | kept => Some kept end
  else device_map c !! d'.
Proof.
  unfold device_map_remove_stream. destruct (device_map c !! d) as [rows|] eqn:Hd; simpl.
  - destruct (filter _ rows) eqn:Hf; simpl; case_decide; simplify_map_eq; done.
  - case_decide; by subst.
Qed.

(** The end of a close.  Completing (or forcing) the close of generation
    [g] takes effect exactly when the stream is closing under [g]; it then
    reports the dialog, removes the stream and its row in the device's list
    (dropping an emptied list), disarms the close timer, and changes no other
    stream, talk, subscription or device. *)
Theorem close_complete_spec (c : Cache) (id : string) (g : Z) :
  match stream_map c !! id with
  | Some t =>
      if decide (closing_generation t = Some g) then
        exists c', stream_close_complete id g c =
          (Some {| sci_stream_id := id; sci_generation := g; sci_device_id := st_device_id t;
                   sci_channel_id := st_channel_id t; sci_ssrc := st_ssrc t;
                   sci_call_id := st_call_id t; sci_last_error := last_error t |}, c') /\
        stream_map c' = delete id (stream_map c) /\ talk_map c' = talk_map c /\
        catalog_subscriptions c' = catalog_subscriptions c /\ entities c' = entities c /\
        (forall d', d' <> st_device_id t -> device_map c' !! d' = device_map c !! d') /\
        (forall row, row ∈ default [] (device_map c' !! st_device_id t) <->
           row ∈ default [] (device_map c !! st_device_id t) /\ dt_stream_id row <> id) /\
        device_map c' !! st_device_id t <> Some [] /\
        armed_after (requests c') (SRegister (StreamClosing id g)) = false
      else stream_close_complete id g c = (None, c)
  | None => stream_close_complete id g c = (None, c)
  end.
Proof.
  unfold stream_close_complete, stream_close_remove.
  destruct (stream_map c !! id) as [t|] eqn:Ht; [|done].
  unfold is_closing_generation, closing_generation.
  destruct (lifecycle t) as [|g0 fl err] eqn:Hl; [by rewrite decide_False|].
  destruct (decide (g0 = g)) as [->|Hne]; [|rewrite decide_False by congruence; by rewrite bool_decide_false].
  rewrite decide_True, bool_decide_true by done.
  unfold finish_removed_stream, closing_generation. rewrite Hl. eexists. split; [done|].
  set (c1 := on_streams _ c).
  assert (forall d s c, stream_map (device_map_remove_stream d s c) = stream_map c /\
    talk_map (device_map_remove_stream d s c) = talk_map c /\
    catalog_subscriptions (device_map_remove_stream d s c) = catalog_subscriptions c /\
    entities (device_map_remove_stream d s c) = entities c) as Hfr
    by (intros; unfold device_map_remove_stream; by cases).
  destruct (Hfr (st_device_id t) id c1) as (F1 & F2 & F3 & F4).
  simpl. rewrite F1, F2, F3, F4. split_and!; try done.
  - intros d' Hd'. by rewrite device_remove_stream_rows, decide_False.
  - intros row. rewrite device_remove_stream_rows, decide_True by done.
    transitivity (row ∈ filter (fun row => dt_stream_id row <> id)
                   (default [] (device_map c1 !! st_device_id t))).
    + by destruct (filter _ _).
    + rewrite list_elem_of_filter. simpl. tauto.
  - rewrite device_remove_stream_rows, decide_True by done. by destruct (filter _ _).
  - apply armed_after_delete.
Qed.

(** A dialog the peer terminated.  The scan for the Call-ID and the removal
    are two steps; whatever other tasks do to the cache in between, the removal
    only ever takes out a stream that carries this Call-ID, and without
    interference it finds one exactly when one exists. *)
Theorem terminated_by_call_id (c c' : Cache) (call_id id : string) :
  (forall info c'', stream_terminated_remove call_id id c' = (Some info, c'') ->
     exists t, stream_map c' !! id = Some t /\ st_call_id t = call_id /\
       sci_call_id info = call_id /\ stream_map c'' = delete id (stream_map c')) /\
  (forall c'', stream_terminated_remove call_id id c' = (None, c'') -> c'' = c') /\
  (stream_terminated_scan call_id c = Some id -> exists info c'',
     stream_terminated_remove call_id id c = (Some info, c'')) /\
  (is_Some (stream_terminated_by_call_id call_id c).1 <->
     exists id' t, stream_map c !! id' = Some t /\ st_call_id t = call_id).
Proof.
  assert (forall id', stream_terminated_scan call_id c = Some id' -> exists info c'',
     stream_terminated_remove call_id id' c = (Some info, c'')) as Hscan.
  { intros id' (t & Ht & Hc)%map_find_key_Some. unfold stream_terminated_remove.
    rewrite Ht, Hc. unfold finish_removed_stream. eauto. }
  split_and!; [..|by apply Hscan|].
  - unfold stream_terminated_remove. destruct (stream_map c' !! id) as [t|]; [|done].
    case_bool_decide; [|done]. intros info c'' Hf. exists t. unfold finish_removed_stream in Hf.
    injection Hf as <- <-. split_and!; try done.
    unfold device_map_remove_stream. by cases.
  - unfold stream_terminated_remove, finish_removed_stream. intros c'' H. cases.
  - unfold stream_terminated_by_call_id. destruct (stream_terminated_scan call_id c) as [id'|] eqn:Hs.
    + destruct (Hscan _ eq_refl) as (info & c'' & ->). simpl. split; [|done]. intros _.
      apply map_find_key_Some in Hs as (t & ? & ?%bool_decide_eq_true). eauto.
    + simpl. split; [by intros []|]. intros (id' & t & Ht & Hc). unfold stream_terminated_scan in Hs.
      rewrite map_find_key_None in Hs. specialize (Hs _ _ Ht). by case_bool_decide.
Qed.
End CacheTheorems.

(** ** Concrete runs *)

Definition demo_dialogs : Cache := cache_run
  [OpStreamInsert "s" "d" "ch" 7 "" "n1" "call-1" 3 Live false; OpCloseBegin "s";
   OpStreamInsert "s2" "e" "ch" 8 "" "n1" "call-2" 3 Live false;
   OpCatalogBegin "d" "cat-1" 1 "Catalog;id=1" 3600 "sip:d" "from" "to" "lt";
   OpCatalogComplete "d" 1 "sip:d" [] "from" "to" "rt"] Cache_init.

(** A run whose side conditions hold at every step reaches its result. *)
Fixpoint run_ok (ops : list cache_op) (c : Cache) : Prop :=
  match ops with
  | [] => True
  | op :: ops => op_ok op /\ counters_below (umax 64 - 1) c /\ run_ok ops (cache_apply op c)
  end.

Lemma cache_run_reaches (ops : list cache_op) : forall c0 c,
  cache_reaches c0 c -> run_ok ops c -> cache_reaches c0 (cache_run ops c).
Proof.
  induction ops as [|op ops IH]; intros c0 c Hr Hok; [done|]. destruct Hok as (? & ? & ?).
  apply IH; [by constructor|done].
Qed.

Lemma demo_dialogs_reached : cache_reaches Cache_init demo_dialogs.
Proof.
  apply cache_run_reaches; [constructor|]. simpl run_ok. unfold counters_below.
  split_and!; try exact I; by vm_compute.
Qed.

Lemma reset_device_complete_witness :
  stream_map (reset_device_state "d" demo_dialogs) !! "s" = None /\
  is_Some (stream_map (reset_device_state "d" demo_dialogs) !! "s2") /\
  armed_after (requests (reset_device_state "d" demo_dialogs)) (SRegister (StreamClosing "s" 1)) = false.
Proof.
  pose proof (cache_reaches_wf _ _ demo_dialogs_reached cache_wf_init) as Hwf.
  destruct (reset_device_complete demo_dialogs "d" Hwf) as (H1 & H2 & _ & _ & _ & _ & H3 & _).
  assert (owned_by "d" demo_dialogs "s") as Ho.
  { right. eexists. split; by vm_compute. }
  split; [|split].
  - apply H1. left. exact Ho.
  - rewrite H2; [by vm_compute; eauto|]. intros [Hin|(t & Ht & Hd)].
    + vm_compute in Hin. by apply elem_of_nil in Hin.
    + vm_compute in Ht. by simplify_eq.
  - eapply H3; [exact Ho|by vm_compute|by vm_compute].
Defined.

Lemma catalog_tag_pinned_witness :
  catalog_subscription_validate_notify "d" "cat-1" "Catalog;id=1" (Some "other") (Some "lt") demo_dialogs
  = (None, demo_dialogs).
Proof.
  destruct (catalog_subscriptions demo_dialogs !! "d") as [s|] eqn:Hs; [|by vm_compute in Hs].
  pose proof (cache_reaches_wf _ _ demo_dialogs_reached cache_wf_init) as Hwf.
  assert (cs_remote_tag s = "rt"%string) as Ht by (vm_compute in Hs; by simplify_eq).
  assert (cs_remote_tag s <> ""%string) as Hne by by rewrite Ht.
  destruct (catalog_tag_pinned demo_dialogs demo_dialogs "d" s s Hwf Hs Hne
              (without_refl _ _) Hs eq_refl) as [_ H].
  apply H. left. by rewrite Ht.
Defined.

Lemma catalog_refresh_exclusive_witness :
  let c1 := (catalog_subscription_take_refresh "d" 1 demo_dialogs).2 in
  catalog_subscription_take_refresh "d" 1 c1 = (None, c1).
Proof.
  pose proof (cache_reaches_wf _ _ demo_dialogs_reached cache_wf_init) as Hwf.
  destruct (catalog_subscription_take_refresh "d" 1 demo_dialogs) as [[cmd|] c1] eqn:Hr;
    [|by vm_compute in Hr].
  exact (catalog_refresh_exclusive demo_dialogs c1 c1 "d" 1 cmd Hwf Hr (without_refl _ _)).
Defined.
