(* ===== verification/CacheWaits.v ===== *)
(** * Wait entries, counters and load figures of the session cache

    Expiry of keyed wait entries, the countdown used to count the snapshots of
    a device, and the stream counts the scheduler of media nodes reads. *)
From S2P Require Import Prelude SharedTypes Scheduler Lifecycle SessionCache DialogCache.
Local Open Scope Z_scope.

(** ** Expiry *)

(** An entry whose deadline has passed. *)
Definition expired (now : Z) (e : StateEntry) : bool :=
  match se_expire e with Some t => t <=? now | None => false end.

(** What the expiry of an entry sends to its waiter. *)
Definition expiry_wake (e : StateEntry) : option wake :=
  match se_waiter e with
  | Some (WaitStream tx) => Some (WakeStream tx None)
  | Some (WaitSnapshot tx) => Some (WakeSnapshot tx false)
  | None => None
  end.

Definition expiry_wake_of (now : Z) (m : gmap string StateEntry) (key : string) : option wake :=
  match m !! key with
  | Some e => if expired now e then expiry_wake e else None
  | None => None
  end.

Lemma purge_expired_key_spec now c key :
  let c' := purge_expired_key now c key in
  match entities c !! key with
  | Some e =>
      if expired now e
      then entities c' = delete key (entities c) /\ wakes c' = wakes c ++ option_list (expiry_wake e)
      else c' = c
  | None => c' = c
  end /\
  stream_map c' = stream_map c /\ talk_map c' = talk_map c /\ requests c' = requests c.
Proof.
  unfold purge_expired_key, expired, expiry_wake. destruct (entities c !! key) as [e|]; [|done].
  destruct (se_expire e) as [t|]; [|done]. destruct (t <=? now); [|done].
  destruct (se_waiter e) as [[]|]; simpl; by rewrite ?app_nil_r.
Qed.

(** Expiry of wait entries.  For the keys the timer wheel reports, exactly
    the entries whose deadline has passed are removed, each waiter of a removed
    entry is woken exactly once, in the order of the keys, with the failure
    value of its kind, and a refreshed entry (deadline in the future) survives
    its stale notification; nothing else of the cache changes. *)
Theorem purge_expired_keys_spec (keys : list string) (now : Z) (c : Cache) :
  NoDup keys ->
  let c' := purge_expired_keys keys now c in
  (forall key, entities c' !! key =
     match entities c !! key with
     | Some e => if bool_decide (key ∈ keys) && expired now e then None else Some e
     | None => None
     end) /\
  wakes c' = wakes c ++ omap (expiry_wake_of now (entities c)) keys /\
  stream_map c' = stream_map c /\ talk_map c' = talk_map c /\ requests c' = requests c.
Proof.
  unfold purge_expired_keys. induction keys as [|k keys IH] in c |- *; intros Hnd; simpl.
  - rewrite app_nil_r. split_and!; try done. intros key. by destruct (entities c !! key).
  - apply NoDup_cons in Hnd as [Hk Hnd].
    destruct (IH (purge_expired_key now c k) Hnd) as (I1 & I2 & I3 & I4 & I5).
    destruct (purge_expired_key_spec now c k) as (P1 & P2 & P3 & P4).
    assert (forall key, key <> k -> entities (purge_expired_key now c k) !! key = entities c !! key) as Hne.
    { intros key Hkey. destruct (entities c !! k) as [e|]; [|by rewrite P1].
      destruct (expired now e); [|by rewrite P1]. destruct P1 as [-> _].
      by rewrite lookup_delete_ne. }
    split_and!; try congruence.
    + intros key. rewrite I1. destruct (decide (key = k)) as [->|Hkey].
      * rewrite (bool_decide_false (k ∈ keys)) by done. rewrite bool_decide_true by by left. simpl.
        destruct (entities c !! k) as [e|] eqn:He; [|by rewrite P1, He].
        destruct (expired now e); [|by rewrite P1, He]. destruct P1 as [-> _]. by rewrite lookup_delete_eq.
      * rewrite Hne by done. rewrite (bool_decide_ext (key ∈ k :: keys) (key ∈ keys)); [done|].
        rewrite elem_of_cons. naive_solver.
    + rewrite I2.
      assert (omap (expiry_wake_of now (entities (purge_expired_key now c k))) keys
            = omap (expiry_wake_of now (entities c)) keys) as ->.
      { apply list_omap_ext, Forall_Forall2_diag, Forall_forall. intros k' Hk'.
        unfold expiry_wake_of. rewrite Hne; [done|]. by intros ->. }
      simpl. unfold expiry_wake_of at 2.
      destruct (entities c !! k) as [e|]; simpl; [|by rewrite P1].
      destruct (expired now e); [|by rewrite P1]. destruct P1 as [_ ->].
      destruct (expiry_wake e); simpl; by rewrite <- ?app_assoc.
Qed.

(** ** Countdown *)

(** [n] calls of [decrement_counter]: what they return, and the cache after. *)
Fixpoint decrements (n : nat) (key : string) (c : Cache) : list bool * Cache :=
  match n with
  | O => ([], c)
  | S n => let '(b, c1) := decrement_counter key c in
           let '(bs, c2) := decrements n key c1 in (b :: bs, c2)
  end.

Lemma decrement_live key c n x w :
  entities c !! key = Some {| se_value := Counter n; se_expire := x; se_waiter := w |} ->
  decrement_counter key c =
  (true, if n <=? 1 then request (remove_general_cache key) (on_entities (delete key) c)
         else on_entities <[key := {| se_value := Counter (n - 1); se_expire := x; se_waiter := w |}]> c).
Proof.
  intros He. unfold decrement_counter, state_decrement_counter. rewrite He. simpl.
  destruct (n <=? 1); simpl; [|done]. by destruct c.
Qed.

Lemma decrements_live key x w : forall k c n,
  entities c !! key = Some {| se_value := Counter n; se_expire := x; se_waiter := w |} ->
  Z.of_nat k < Z.max 1 n ->
  exists c', decrements k key c = (replicate k true, c') /\ requests c' = requests c /\
    entities c' !! key = Some {| se_value := Counter (n - Z.of_nat k); se_expire := x; se_waiter := w |}.
Proof.
  induction k as [|k IH]; intros c n He Hk; simpl.
  - exists c. rewrite Z.sub_0_r. done.
  - rewrite (decrement_live _ _ _ _ _ He). destruct (Z.leb_spec n 1); [lia|].
    destruct (IH (on_entities <[key := {| se_value := Counter (n - 1); se_expire := x; se_waiter := w |}]> c)
                (n - 1)) as (c' & Hd & Hr & He'); [by simpl; simplify_map_eq|lia|].
    rewrite Hd. exists c'. split; [done|]. split; [by rewrite Hr|]. rewrite He'. do 3 f_equal. lia.
Qed.

(** The snapshot countdown.  A counter inserted with [n] (a [u8]) is handled
    by exactly [max 1 n] decrements: every one of them reports the key as
    known, the entry lives until the last, which removes it and disarms its
    timer, and the following decrement reports the key as unknown. *)
Theorem counter_countdown (key : string) (n expire now now' : Z) (c : Cache) :
  in_width 8 n ->
  let c0 := insert_counter key n expire now now' c in
  let total := Z.to_nat (Z.max 1 n) in
  (forall k, (k < total)%nat -> exists c',
     decrements k key c0 = (replicate k true, c') /\ is_Some (entities c' !! key) /\
     armed_after (requests c') (SGeneralCache key) = true) /\
  exists c', decrements total key c0 = (replicate total true, c') /\
     entities c' !! key = None /\ armed_after (requests c') (SGeneralCache key) = false /\
     decrement_counter key c' = (false, c').
Proof.
  intros Hn c0 total. unfold in_width in Hn.
  set (x := Some (now + expire)).
  assert (entities c0 !! key = Some {| se_value := Counter n; se_expire := x; se_waiter := None |}) as He
    by (unfold c0, insert_counter, upsert_state; simpl; by simplify_map_eq).
  assert (armed_after (requests c0) (SGeneralCache key) = true) as Harm
    by (unfold c0, insert_counter, upsert_state; simpl; apply armed_after_insert).
  assert (forall m k c, decrements (m + k) key c =
     let '(bs, c1) := decrements m key c in let '(bs', c2) := decrements k key c1 in (bs ++ bs', c2)) as Hadd.
  { induction m as [|m IH]; intros k c1; simpl; [by destruct (decrements k key c1)|].
    destruct (decrement_counter key c1) as [b c2]. rewrite IH. destruct (decrements m key c2) as [bs c3].
    by destruct (decrements k key c3). }
  split.
  - intros k Hk. destruct (decrements_live key x None k c0 n He) as (c' & ? & Hr & Hl); [lia|].
    exists c'. rewrite Hr, Hl. by split_and!.
  - destruct (decrements_live key x None (total - 1) c0 n He) as (c1 & Hd & Hr & Hl); [lia|].
    replace total with ((total - 1) + 1)%nat by lia. rewrite Hadd, Hd. simpl.
    rewrite (decrement_live _ _ _ _ _ Hl). destruct (Z.leb_spec (n - Z.of_nat (total - 1)) 1); [|lia].
    eexists. split; [by rewrite replicate_add|]. simpl. rewrite lookup_delete_eq.
    split_and!; [done|apply armed_after_delete|].
    unfold decrement_counter, state_decrement_counter. simpl. rewrite lookup_delete_eq. simpl.
    f_equal.
Qed.

(** ** Load of the media nodes *)

Section Load.
Context `{!MapIter string}.

Definition on_node (node : string) (kv : string * StreamTable) : Prop :=
  st_stream_node_name kv.2 = node.
#[local] Instance on_node_dec node kv : Decision (on_node node kv).
Proof. unfold on_node. apply _. Defined.

Lemma node_counts_fold (l : list (string * StreamTable)) (m : gmap string Z) (node : string) (k : Z) :
  m !! node = (if decide (k = 0) then None else Some (k mod 2 ^ 16)) -> 0 <= k ->
  let n := k + Z.of_nat (length (filter (on_node node) l)) in
  foldl (fun (m : gmap string Z) kv =>
    let node := st_stream_node_name kv.2 in
    <[node := match m !! node with Some n => wrapping_add 16 n 1 | None => 1 end]> m) m l !! node
  = if decide (n = 0) then None else Some (n mod 2 ^ 16).
Proof.
  induction l as [|kv l IH] in m, k |- *; intros Hm Hk; simpl; [by rewrite Z.add_0_r|].
  rewrite filter_cons. destruct (decide (on_node node kv)) as [Hn|Hn]; unfold on_node in Hn.
  - simpl. rewrite (IH _ (k + 1)); [|..|lia].
    + match goal with |- (if decide (?a = 0) then _ else _) = (if decide (?b = 0) then _ else _) =>
        replace a with b by lia end. done.
    + rewrite Hn, lookup_insert_eq, Hm, (decide_False (P := k + 1 = 0)) by lia. f_equal.
      case_decide; [by subst|]. unfold wrapping_add. by rewrite Zplus_mod_idemp_l.
  - apply IH; [|done]. by rewrite lookup_insert_ne.
Qed.

(** Number of live streams on a media node. *)
Definition node_load (node : string) (c : Cache) : Z :=
  Z.of_nat (size (filter (on_node node) (stream_map c))).

(** Load ordering.  The set handed to the media node scheduler pairs each
    requested node, and no other, with the number of streams it carries
    (modulo the 16 bits of the counter), in whatever order the stream map is
    iterated. *)
Theorem stream_map_order_node_spec (nodes : list string) (c : Cache) (n : Z) (node : string) :
  (n, node) ∈ stream_map_order_node nodes c <->
  node ∈ nodes /\ n = node_load node c mod 2 ^ 16.
Proof.
  assert (forall node, default 0 (node_counts c !! node) = node_load node c mod 2 ^ 16) as Hc.
  { intros nd. unfold node_counts. rewrite (node_counts_fold _ _ nd 0); [|by simplify_map_eq|lia].
    rewrite Z.add_0_l.
    assert (Z.of_nat (length (filter (on_node nd) (map_iter (stream_map c)))) = node_load nd c) as ->.
    { unfold node_load. rewrite map_iter_perm, <- length_map_to_list, map_filter_alt.
      rewrite map_to_list_to_map; [done|].
      eapply sublist_NoDup; [apply (NoDup_fst_map_to_list (stream_map c))|apply fmap_sublist, sublist_filter]. }
    by case_decide as H0; [rewrite H0|]. }
  unfold stream_map_order_node. rewrite elem_of_list_to_set, list_elem_of_fmap. split.
  - intros (k & ? & ?). simplify_eq. by rewrite Hc.
  - intros [? ->]. exists node. by rewrite Hc.
Qed.

(** Membership test used when an SSRC is chosen. *)
Lemma ssrc_is_active_spec (ssrc : Z) (c : Cache) :
  ssrc_is_active ssrc c = true <->
  (exists id t, stream_map c !! id = Some t /\ st_ssrc t = ssrc) \/
  (exists id t, talk_map c !! id = Some t /\ tk_ssrc t = ssrc).
Proof.
  unfold ssrc_is_active. rewrite orb_true_iff, !map_any_true. by setoid_rewrite Z.eqb_eq.
Qed.
End Load.

Definition demo_waits : Cache :=
  insert_snapshot_wait "b" 50 2 0 (insert_stream_wait "a" 10 1 0 Cache_init).

Lemma purge_expired_keys_spec_witness :
  let c' := purge_expired_keys ["a"; "b"] 20 demo_waits in
  entities c' !! "a" = None /\ is_Some (entities c' !! "b") /\ wakes c' = [WakeStream 1 None].
Proof.
  assert (NoDup ["a"; "b"]) as Hnd by (apply (bool_decide_unpack _); exact I).
  destruct (purge_expired_keys_spec ["a"; "b"] 20 demo_waits Hnd) as (Hl & Hw & _).
  split; [|split]; [by rewrite Hl|by rewrite Hl; vm_compute; eauto|by rewrite Hw].
Defined.

Lemma counter_countdown_witness :
  exists c', decrements 3 "k" (insert_counter "k" 3 1000 0 0 Cache_init) = ([true; true; true], c') /\
     entities c' !! "k" = None /\ decrement_counter "k" c' = (false, c').
Proof.
  assert (in_width 8 3) as H8 by (unfold in_width; lia).
  destruct (counter_countdown "k" 3 1000 0 0 Cache_init H8) as [_ (c' & H1 & H2 & _ & H4)].
  exists c'. exact (conj H1 (conj H2 H4)).
Defined.
