(* ===== verification/Sequence.v ===== *)
(** * The SIP serial number ([session/src/gb/sip/sequence.rs])

    [next_atomic_value] is a compare-and-swap loop on one shared word.  The
    model interleaves any number of callers, each load and each
    compare-exchange being one step; the weak exchange may fail for no
    reason. *)
From S2P Require Import Prelude.
Local Open Scope Z_scope.

(** The value the loop body computes from the value it read. *)
Definition sn_next (max current : Z) : Z := if max <=? current then 1 else current + 1.

(** A caller is outside the function or in the loop with its [current]. *)
Inductive sn_caller := SnIdle | SnLoop (current : Z).

Record sn_state := {
  sn_word : Z;                      (* the shared atomic *)
  sn_callers : gmap nat sn_caller;
  sn_returned : list Z              (* values returned, oldest first *)
}.

Inductive sn_step (max : Z) : sn_state -> sn_state -> Prop :=
| sn_load w cs r i :
    default SnIdle (cs !! i) = SnIdle ->
    sn_step max {| sn_word := w; sn_callers := cs; sn_returned := r |}
      {| sn_word := w; sn_callers := <[i := SnLoop w]> cs; sn_returned := r |}
| sn_cas_ok w cs r i :
    cs !! i = Some (SnLoop w) ->
    sn_step max {| sn_word := w; sn_callers := cs; sn_returned := r |}
      {| sn_word := sn_next max w; sn_callers := <[i := SnIdle]> cs;
         sn_returned := r ++ [sn_next max w] |}
| sn_cas_err w cs r i current :
    cs !! i = Some (SnLoop current) ->
    sn_step max {| sn_word := w; sn_callers := cs; sn_returned := r |}
      {| sn_word := w; sn_callers := <[i := SnLoop w]> cs; sn_returned := r |}.

Definition sn_init (v0 : Z) : sn_state :=
  {| sn_word := v0; sn_callers := ∅; sn_returned := [] |}.

(** One caller that runs the loop without interference; [fuel] bounds the
    attempts. *)
Fixpoint next_atomic_value (fuel : nat) (max word current : Z) : option (Z * Z) :=
  match fuel with
  | O => None
  | S fuel =>
      let next := sn_next max current in
      if word =? current then Some (next, next)
      else next_atomic_value fuel max word word
  end.

Lemma next_atomic_value_alone (max word current : Z) :
  next_atomic_value 2 max word current = Some (sn_next max word, sn_next max word).
Proof. simpl. rewrite Z.eqb_refl. destruct (Z.eqb_spec word current); [by subst|done]. Qed.

Lemma sn_next_mod (max v : Z) : 0 < max -> 0 <= v <= max -> sn_next max v = v mod max + 1.
Proof.
  intros. unfold sn_next. destruct (Z.leb_spec max v).
  - replace v with max by lia. rewrite Z_mod_same_full. done.
  - by rewrite Z.mod_small by lia.
Qed.

(** The [k]-th value returned, counting from 0. *)
Definition sn_value (max v0 : Z) (k : nat) : Z := (v0 + Z.of_nat k) mod max + 1.

Lemma sn_value_range (max v0 : Z) (k : nat) : 0 < max -> 1 <= sn_value max v0 k <= max.
Proof. intros. unfold sn_value. pose proof (Z.mod_pos_bound (v0 + Z.of_nat k) max). lia. Qed.

Lemma sn_value_inj (max v0 : Z) (i j : nat) :
  0 < max -> (i < j)%nat -> Z.of_nat j - Z.of_nat i < max -> sn_value max v0 i <> sn_value max v0 j.
Proof.
  intros Hm Hij Hd Heq. unfold sn_value in Heq.
  assert ((v0 + Z.of_nat i) mod max = (v0 + Z.of_nat j) mod max) as He by lia.
  apply Z.cong_iff_0 in He. replace (v0 + Z.of_nat i - (v0 + Z.of_nat j))
    with (- (Z.of_nat j - Z.of_nat i)) in He by lia.
  apply Z.mod_opp_l_z in He; [|lia]. rewrite Z.opp_involutive, Z.mod_small in He; lia.
Qed.

Lemma sn_run_log (max v0 : Z) (s : sn_state) :
  0 < max -> 0 <= v0 <= max -> rtc (sn_step max) (sn_init v0) s ->
  sn_returned s = sn_value max v0 <$> seq 0 (length (sn_returned s)) /\
  0 <= sn_word s <= max /\
  sn_word s mod max = (v0 + Z.of_nat (length (sn_returned s))) mod max.
Proof.
  intros Hm Hv. apply (rtc_ind_r (fun s =>
    sn_returned s = sn_value max v0 <$> seq 0 (length (sn_returned s)) /\
    0 <= sn_word s <= max /\ sn_word s mod max = (v0 + Z.of_nat (length (sn_returned s))) mod max)).
  { simpl. rewrite Z.add_0_r. done. }
  intros s1 s2 _ Hstep (IH1 & IH2 & IH3). destruct Hstep; simpl in *; try done.
  rewrite length_app, seq_app, fmap_app, <- IH1. simpl. rewrite sn_next_mod by done.
  rewrite IH3. split_and!.
  - by unfold sn_value.
  - pose proof (Z.mod_pos_bound (v0 + Z.of_nat (length r)) max). lia.
  - pose proof (Z.mod_pos_bound (v0 + Z.of_nat (length r)) max). lia.
  - rewrite Zplus_mod_idemp_l. f_equal. lia.
Qed.

(** Serial numbers under concurrency.  However the callers interleave, the
    values returned are, in the order of the successful exchanges, the cycle
    1..max started after the initial value: none is 0, and any [max]
    consecutive ones are pairwise distinct. *)
Theorem sn_unique_concurrent (max v0 : Z) (s : sn_state) :
  0 < max -> 0 <= v0 <= max -> rtc (sn_step max) (sn_init v0) s ->
  Forall (fun v => 1 <= v <= max) (sn_returned s) /\
  (forall i j a b, sn_returned s !! i = Some a -> sn_returned s !! j = Some b ->
     (i < j)%nat -> Z.of_nat j - Z.of_nat i < max -> a <> b) /\
  (forall i a, sn_returned s !! i = Some a -> v0 + Z.of_nat i < max -> a = v0 + Z.of_nat i + 1).
Proof.
  intros Hm Hv Hr. destruct (sn_run_log _ _ _ Hm Hv Hr) as (Hlog & _ & _).
  assert (forall i a, sn_returned s !! i = Some a -> a = sn_value max v0 i) as Hat.
  { intros i a Ha. rewrite Hlog, list_lookup_fmap in Ha.
    apply fmap_Some in Ha as (k & Hk & ->). apply lookup_seq in Hk as [-> _]. done. }
  split_and!.
  - apply Forall_lookup. intros i a ->%Hat. by apply sn_value_range.
  - intros i j a b ->%Hat ->%Hat. by apply sn_value_inj.
  - intros i a ->%Hat Hi. unfold sn_value. rewrite Z.mod_small; lia.
Qed.

(** Two callers race from [max - 1]: one wraps to 1 after the other took
    [max]. *)
Definition sn_race : sn_state :=
  {| sn_word := 1; sn_callers := <[1%nat := SnIdle]> (<[1%nat := SnLoop 3]> (<[0%nat := SnIdle]>
       (<[1%nat := SnLoop 2]> (<[0%nat := SnLoop 2]> ∅)))); sn_returned := [3; 1] |}.

Lemma sn_unique_concurrent_witness :
  Forall (fun v => 1 <= v <= 3) (sn_returned sn_race).
Proof.
  assert (rtc (sn_step 3) (sn_init 2) sn_race) as Hr.
  { eapply rtc_l; [apply (sn_load 3 2 _ _ 0); by vm_compute|].
    eapply rtc_l; [apply (sn_load 3 2 _ _ 1); by vm_compute|].
    eapply rtc_l; [apply (sn_cas_ok 3 2 _ _ 0); by vm_compute|].
    eapply rtc_l; [apply (sn_cas_err 3 3 _ _ 1 2); by vm_compute|].
    eapply rtc_l; [apply (sn_cas_ok 3 3 _ _ 1); by vm_compute|]. apply rtc_refl. }
  exact (proj1 (sn_unique_concurrent 3 2 sn_race ltac:(lia) ltac:(lia) Hr)).
Defined.
