(* ===== verification/Ssrc.v ===== *)
(** * SSRC allocation and stream ids

    [session/src/storage/ssrc_sequence.rs] and the codec of
    [session/src/utils/id_builder.rs].  The MySQL tables are behind the
    interface [SeqStore]; whether a running session uses an SSRC is behind
    [SsrcUse], which the session cache implements.  Other tasks and processes
    may change both between two attempts. *)
From Stdlib Require Import Ascii.
From stdpp Require Import pretty.
From S2P Require Import Prelude Text Decimal SharedTypes Scheduler Lifecycle SessionCache CacheWaits.
Local Open Scope Z_scope.

(** ** Decimal strings *)

(** [format!("{value:04}")]. *)
Definition fmt04 (value : Z) : string :=
  let s := pretty (Z.to_N value) in
  (String.string_of_list_ascii (replicate (4 - String.length s) "0"%char) +:+ s)%string.

(** ** Kinds, prefix, errors *)

Inductive SsrcKind := Realtime | History.
Definition marker (k : SsrcKind) : string := match k with Realtime => "0" | History => "1" end.

Inductive SsrcError := InvalidRequest | InvalidState | IoBusy | DbError.

Definition SSRC_SEQUENCE_MAX : Z := 9999.
Definition SSRC_CODE_LENGTH : Z := 4.

Definition prefix (domain_id : string) (kind : SsrcKind) : outcome SsrcError string :=
  if negb (String.length domain_id =? 20)%nat || negb (all_digits domain_id)
  then Failed InvalidRequest
  else Done (marker kind +:+ String.substring 3 5 domain_id)%string.

(** ** The tables *)

(** A row of [C_SEQ_CODE]. *)
Record SeqRow := {
  init_value : Z; current_value : Z; increment_value : Z;
  prefix_code : option string; code_length : option Z
}.
Definition with_current (v : Z) (r : SeqRow) : SeqRow := {|
  init_value := init_value r; current_value := v; increment_value := increment_value r;
  prefix_code := prefix_code r; code_length := code_length r |}.

(** What the code asks of the data base.  [seq_update] is the UPDATE with the
    COMMIT of its transaction; the row lock of SELECT .. FOR UPDATE makes the
    pair one step. *)
Class SeqStore (S : Type) := {
  seq_insert_ignore : string -> SeqRow -> S -> outcome SsrcError S;
  seq_select : string -> S -> outcome SsrcError (option SeqRow);
  seq_update : string -> Z -> S -> outcome SsrcError S;
  dialog_active : string -> string -> S -> outcome SsrcError bool
}.

(** A committed update is what the next SELECT sees, and it does not touch the
    table of dialogs. *)
Class SeqStoreLaws (S : Type) `{SeqStore S} := {
  seq_update_select name v s s' r :
    seq_select name s = Done (Some r) -> seq_update name v s = Done s' ->
    seq_select name s' = Done (Some (with_current v r));
  seq_update_dialogs name v s s' node ssrc :
    seq_update name v s = Done s' -> dialog_active node ssrc s' = dialog_active node ssrc s
}.

(** Whether the running session uses an SSRC. *)
Class SsrcUse (C : Type) := { ssrc_used : Z -> C -> bool }.
#[export] Instance cache_ssrc_use `{!MapIter string} : SsrcUse Cache :=
  {| ssrc_used := ssrc_is_active |}.

Section Allocation.
Context {S C : Type} `{SeqStore S} `{SsrcUse C}.
Local Open Scope gmv_scope.

(** The check both readers of a row make. *)
Definition row_valid (seq_name : string) (r : SeqRow) : bool :=
  negb (negb (init_value r =? 1)
        || negb ((1 <=? current_value r) && (current_value r <=? SSRC_SEQUENCE_MAX))
        || negb (increment_value r =? 1)
        || negb (bool_decide (prefix_code r = Some seq_name))
        || negb (bool_decide (code_length r = Some SSRC_CODE_LENGTH))).

Definition validate_sequence (seq_name : string) (s : S) : outcome SsrcError unit :=
  row <-! seq_select seq_name s ;;
  match row with
  | None => Failed InvalidState
  | Some r => if row_valid seq_name r then Done tt else Failed InvalidState
  end.

Definition initialize_one (seq_name : string) (s : S) : outcome SsrcError S :=
  s1 <-! seq_insert_ignore seq_name
           {| init_value := 1; current_value := 1; increment_value := 1;
              prefix_code := Some seq_name; code_length := Some 4 |} s ;;
  _ <-! validate_sequence seq_name s1 ;; Done s1.

Definition initialize (domain_id : string) (s : S) : outcome SsrcError S :=
  realtime <-! prefix domain_id Realtime ;;
  history <-! prefix domain_id History ;;
  s1 <-! initialize_one realtime s ;; initialize_one history s1.

Definition next_current (r : SeqRow) : Z :=
  if current_value r =? SSRC_SEQUENCE_MAX then init_value r else current_value r + 1.

Definition take_next_value (seq_name : string) (s : S) : outcome SsrcError (Z * S) :=
  row <-! seq_select seq_name s ;;
  match row with
  | None => Failed InvalidState
  | Some r =>
      if row_valid seq_name r then
        s1 <-! seq_update seq_name (next_current r) s ;;
        if current_value r <=? umax 16 then Done (current_value r, s1) else Failed InvalidState
      else Failed InvalidState
  end.

(** [env i] is what others do to the data base and the session before attempt
    [i], and, in the same attempt, [env'] between taking a value and testing
    it. *)
Section Loop.
Context (env env' : nat -> S * C -> S * C).

Fixpoint allocate_loop (fuel i : nat) (domain_id seq_name : string) (w : S * C)
    : outcome SsrcError (string * (S * C)) :=
  match fuel with
  | O => Failed IoBusy
  | Datatypes.S fuel =>
      let w1 := env i w in
      vs <-! take_next_value seq_name w1.1 ;;
      let w2 := env' i (vs.2, w1.2) in
      let ssrc := (seq_name +:+ fmt04 vs.1)%string in
      match parse_u32 ssrc with
      | None => Failed InvalidState
      | Some numeric =>
          if ssrc_used numeric w2.2 then allocate_loop fuel (Datatypes.S i) domain_id seq_name w2
          else active <-! dialog_active domain_id ssrc w2.1 ;;
               if active then allocate_loop fuel (Datatypes.S i) domain_id seq_name w2
               else Done (ssrc, w2)
      end
  end.

Definition allocate (domain_id : string) (kind : SsrcKind) (w : S * C)
    : outcome SsrcError (string * (S * C)) :=
  seq_name <-! prefix domain_id kind ;;
  allocate_loop (Z.to_nat SSRC_SEQUENCE_MAX) 0 domain_id seq_name w.
End Loop.
End Allocation.

(** ** Stream ids

    [dig62] is a parameter: a text codec of another crate. *)
Section StreamIds.
Context (dig62_en : string -> outcome SsrcError string) (dig62_de : string -> outcome SsrcError string).
Local Open Scope gmv_scope.

Definition validate_decimal_field (value : string) (expected_len : nat) : outcome SsrcError unit :=
  if (String.length value =? expected_len)%nat && all_digits value then Done tt
  else Failed InvalidRequest.

(** [millis] is the clock's reading. *)
Definition en_stream_id (millis : Z) (device_id channel_id ssrc : string) : outcome SsrcError string :=
  _ <-! validate_decimal_field device_id 20 ;;
  _ <-! validate_decimal_field channel_id 20 ;;
  _ <-! validate_decimal_field ssrc 10 ;;
  dig62_en (device_id +:+ channel_id +:+ ssrc +:+ pretty (Z.to_N millis))%string.

Definition de_stream_id (stream_id : string) : outcome SsrcError (string * string * string) :=
  ori_str <-! dig62_de stream_id ;;
  if (String.length ori_str <? 50)%nat || negb (all_digits (String.substring 0 50 ori_str))
  then Failed InvalidRequest
  else Done (String.substring 0 20 ori_str, String.substring 20 20 ori_str,
             String.substring 40 10 ori_str).
End StreamIds.

(** ** Facts about the decimal strings *)

Lemma zeros_value (n : nat) : decimal_value (replicate n "0"%char) = 0.
Proof. induction n as [|n IH]; [done|]. exact IH. Qed.
Lemma zeros_digits (n : nat) : forallb is_ascii_digit (replicate n "0"%char) = true.
Proof. induction n as [|n IH]; [done|]. exact IH. Qed.
Lemma fmt04_spec (v : Z) :
  0 <= v <= 9999 ->
  let l := String.list_ascii_of_string (fmt04 v) in
  length l = 4%nat /\ forallb is_ascii_digit l = true /\ decimal_value l = v.
Proof.
  intros Hv. cbn zeta. unfold fmt04. rewrite list_ascii_app, String.list_ascii_of_string_of_list_ascii.
  destruct (pretty_N_digits (Z.to_N v)) as (Hf & Hd & _). pose proof (pretty_N_length 4 (Z.to_N v) ltac:(lia) ltac:(lia)) as Hl.
  unfold chars in *. rewrite list_ascii_length in Hl.
  rewrite length_app, length_replicate, list_ascii_length, forallb_app, zeros_digits, Hf, decimal_value_app, zeros_value, Hd.
  split_and!; [lia|done|lia].
Qed.

(** The prefix of a valid domain: six digits, the first 0 or 1. *)
Lemma prefix_spec (domain_id : string) (kind : SsrcKind) :
  String.length domain_id = 20%nat -> all_digits domain_id = true ->
  exists p, prefix domain_id kind = Done p /\ String.length p = 6%nat /\ all_digits p = true /\
    p = (marker kind +:+ String.substring 3 5 domain_id)%string /\
    decimal_value (String.list_ascii_of_string p) < 200000.
Proof.
  intros Hlen Hd. unfold prefix. rewrite Hlen, Hd. simpl. eexists. split; [done|].
  assert (length (String.list_ascii_of_string (String.substring 3 5 domain_id)) = 5%nat) as H5.
  { rewrite list_ascii_substring, length_take, length_drop, list_ascii_length, Hlen. done. }
  assert (forallb is_ascii_digit (String.list_ascii_of_string (String.substring 3 5 domain_id)) = true) as Hs.
  { rewrite list_ascii_substring. apply forallb_forall. intros a Ha.
    unfold all_digits in Hd. rewrite forallb_forall in Hd. apply Hd.
    rewrite <- list_elem_of_In in *. by eapply subseteq_drop, subseteq_take. }
  pose proof (decimal_value_bound _ Hs) as Hb. rewrite H5 in Hb.
  split_and!; [..|done|].
  - rewrite <- list_ascii_length, list_ascii_app, length_app, H5. by destruct kind.
  - unfold all_digits. rewrite list_ascii_app, forallb_app, Hs. by destruct kind.
  - rewrite list_ascii_app, decimal_value_app, H5. destruct kind; vm_compute (decimal_value _) at 1; lia.
Qed.

(** The text and the number of the SSRC with prefix [p] and value [v]. *)
Definition ssrc_text (p : string) (v : Z) : string := (p +:+ fmt04 v)%string.
Definition ssrc_number (p : string) (v : Z) : Z :=
  decimal_value (String.list_ascii_of_string p) * 10000 + v.

Lemma ssrc_text_spec (p : string) (v : Z) :
  String.length p = 6%nat -> all_digits p = true ->
  decimal_value (String.list_ascii_of_string p) < 200000 -> 0 <= v <= 9999 ->
  String.length (ssrc_text p v) = 10%nat /\ all_digits (ssrc_text p v) = true /\
  parse_u32 (ssrc_text p v) = Some (ssrc_number p v).
Proof.
  intros Hl Hd Hb Hv. destruct (fmt04_spec v Hv) as (F1 & F2 & F3).
  pose proof (decimal_value_bound _ Hd) as Hp.
  assert (String.length (ssrc_text p v) = 10%nat) as Hlen.
  { unfold ssrc_text. rewrite <- list_ascii_length, list_ascii_app, length_app, F1, list_ascii_length, Hl. done. }
  assert (all_digits (ssrc_text p v) = true) as Hall.
  { unfold all_digits, ssrc_text. rewrite list_ascii_app, forallb_app, F2. unfold all_digits in Hd. by rewrite Hd. }
  assert (decimal_value (String.list_ascii_of_string (ssrc_text p v)) = ssrc_number p v) as Hval.
  { unfold ssrc_text, ssrc_number. rewrite list_ascii_app, decimal_value_app, F1, F3. done. }
  split_and!; [done..|]. unfold parse_u32. unfold all_digits in Hall.
  destruct (String.list_ascii_of_string (ssrc_text p v)) as [|a l] eqn:Hl2.
  { by rewrite <- list_ascii_length, Hl2 in Hlen. }
  assert (a <> "+"%char) as Ha by (intros ->; by simpl in Hall).
  assert (match a :: l with "+"%char :: ds => ds | _ => a :: l end = a :: l) as ->.
  { destruct a as [[] [] [] [] [] [] [] []]; done. }
  rewrite Hall, Hval. simpl. destruct (Z.leb_spec (ssrc_number p v) (umax 32)) as [|Hgt]; [done|].
  unfold ssrc_number, umax in Hgt. lia.
Qed.

Section AllocationFacts.
Context {S C : Type} `{SeqStoreLaws S} `{SsrcUse C}.
Local Open Scope gmv_scope.

Lemma row_valid_spec (name : string) (r : SeqRow) :
  row_valid name r = true <->
  r = {| init_value := 1; current_value := current_value r; increment_value := 1;
         prefix_code := Some name; code_length := Some 4 |} /\ 1 <= current_value r <= 9999.
Proof.
  unfold row_valid, SSRC_SEQUENCE_MAX, SSRC_CODE_LENGTH. destruct r as [i c inc p l]. simpl. split.
  - intros Hr. apply negb_true_iff in Hr. repeat (apply orb_false_iff in Hr as [Hr ?]). zbool.
    repeat match goal with H : bool_decide _ = true |- _ => apply bool_decide_eq_true in H end.
    subst. split; [done|lia].
  - intros [Hr Hc]. simplify_eq. rewrite !bool_decide_true by done. simpl.
    destruct (Z.leb_spec 1 c), (Z.leb_spec c 9999); (done || lia).
Qed.

Lemma take_next_value_spec (name : string) (s : S) v s' :
  take_next_value name s = Done (v, s') ->
  exists r, seq_select name s = Done (Some r) /\ row_valid name r = true /\ v = current_value r /\
    1 <= v <= 9999 /\
    seq_select name s' = Done (Some (with_current (v mod 9999 + 1) r)) /\
    row_valid name (with_current (v mod 9999 + 1) r) = true /\
    (forall node ssrc, dialog_active node ssrc s' = dialog_active node ssrc s).
Proof.
  unfold take_next_value. destruct (seq_select name s) as [[r|]| |] eqn:Hs; simpl; try done.
  destruct (row_valid name r) eqn:Hv; [|done].
  destruct (seq_update name (next_current r) s) as [s1| |] eqn:Hu; simpl; try done.
  destruct (current_value r <=? umax 16); [|done]. intros ?. simplify_eq. exists r.
  pose proof (proj1 (row_valid_spec _ _) Hv) as [Hr Hc].
  assert (next_current r = current_value r mod 9999 + 1) as Hn.
  { unfold next_current, SSRC_SEQUENCE_MAX. destruct (Z.eqb_spec (current_value r) 9999) as [->|].
    - by rewrite Hr.
    - rewrite Z.mod_small; lia. }
  split_and!; try done; try lia.
  - rewrite <- Hn. by eapply seq_update_select.
  - apply row_valid_spec. simpl. rewrite Hr at 1 2 3 4. simpl. split; [done|].
    pose proof (Z.mod_pos_bound (current_value r) 9999). lia.
  - intros. by eapply seq_update_dialogs.
Qed.

Lemma allocate_loop_sound env env' domain name : forall fuel i (w : S * C) ssrc w',
  String.length name = 6%nat -> all_digits name = true ->
  decimal_value (String.list_ascii_of_string name) < 200000 ->
  allocate_loop env env' fuel i domain name w = Done (ssrc, w') ->
  exists v, 1 <= v <= 9999 /\ ssrc = ssrc_text name v /\
    ssrc_used (ssrc_number name v) w'.2 = false /\ dialog_active domain ssrc w'.1 = Done false.
Proof.
  induction fuel as [|fuel IH]; intros i w ssrc w' Hl Hd Hb; simpl; [done|].
  destruct (take_next_value name (env i w).1) as [[v s1]| |] eqn:Ht; simpl; try done.
  apply take_next_value_spec in Ht as (r & _ & _ & _ & Hv & _).
  destruct (ssrc_text_spec name v Hl Hd Hb ltac:(lia)) as (_ & _ & Hp).
  fold (ssrc_text name v). rewrite Hp.
  set (w2 := env' i (s1, (env i w).2)).
  destruct (ssrc_used (ssrc_number name v) w2.2) eqn:Hu; [by apply IH|].
  destruct (dialog_active domain (ssrc_text name v) w2.1) as [[|]| |] eqn:Ha; simpl; try done; [by apply IH|].
  intros ?. simplify_eq. by exists v.
Qed.

(** What an allocated SSRC is.  Whatever other tasks and processes do to
    the sequence table, the dialogs and the sessions during the loop, an SSRC
    that [allocate] returns is ten decimal digits: the kind's marker, positions
    4 to 8 of the domain id, and a serial in 1..9999; it fits a [u32], and at
    the moment it was tested neither the running session nor an active dialog
    of the data base used it. *)
Theorem allocate_sound (env env' : nat -> S * C -> S * C) (domain_id ssrc : string) (kind : SsrcKind)
    (w w' : S * C) :
  allocate env env' domain_id kind w = Done (ssrc, w') ->
  exists serial n, 1 <= serial <= 9999 /\
    ssrc = (marker kind +:+ String.substring 3 5 domain_id +:+ fmt04 serial)%string /\
    String.length ssrc = 10%nat /\ all_digits ssrc = true /\
    parse_u32 ssrc = Some n /\ n mod 10000 = serial /\
    ssrc_used n w'.2 = false /\ dialog_active domain_id ssrc w'.1 = Done false.
Proof.
  unfold allocate. destruct (prefix domain_id kind) as [p| |] eqn:Hp; cbn [outcome_bind]; try done.
  assert (String.length domain_id = 20%nat /\ all_digits domain_id = true) as [Hl Hd].
  { unfold prefix in Hp. destruct (Nat.eqb_spec (String.length domain_id) 20); [|done].
    destruct (all_digits domain_id); [done|done]. }
  destruct (prefix_spec domain_id kind Hl Hd) as (p' & Hp' & P1 & P2 & P3 & P4).
  rewrite Hp in Hp'. injection Hp' as <-. subst p.
  intros Ha. apply allocate_loop_sound in Ha as (v & Hv & -> & Hu & Hdb); [|done..].
  destruct (ssrc_text_spec _ v P1 P2 P4 ltac:(lia)) as (T1 & T2 & T3).
  exists v, (ssrc_number (marker kind +:+ String.substring 3 5 domain_id) v). split_and!; try done; try lia.
  - apply list_ascii_inj. unfold ssrc_text. by rewrite !list_ascii_app, app_assoc.
  - unfold ssrc_number. rewrite Z.add_comm, Z_mod_plus_full. apply Z.mod_small. lia.
Qed.

(** Without interference the loop visits the serials in cyclic order. *)
Definition quiet : nat -> S * C -> S * C := fun _ w => w.

Definition serial_busy (domain name : string) (w : S * C) (v : Z) : Prop :=
  ssrc_used (ssrc_number name v) w.2 = true \/ dialog_active domain (ssrc_text name v) w.1 = Done true.

(** The data base answers. *)
Definition reliable : Prop :=
  (forall name v s, exists s', seq_update name v s = Done s') /\
  (forall node ssrc s, exists b, dialog_active node ssrc s = Done b).

Definition cyc (v0 : Z) (k : nat) : Z := (v0 - 1 + Z.of_nat k) mod 9999 + 1.

Lemma take_next_value_total name (s : S) r :
  reliable -> seq_select name s = Done (Some r) -> row_valid name r = true ->
  exists s', take_next_value name s = Done (current_value r, s').
Proof.
  intros [Hup _] Hs Hv. unfold take_next_value. rewrite Hs. simpl. rewrite Hv.
  destruct (Hup name (next_current r) s) as [s' ->]. simpl.
  apply row_valid_spec in Hv as [_ Hc]. exists s'.
  destruct (Z.leb_spec (current_value r) (umax 16)) as [|Hgt]; [done|]. unfold umax in Hgt. lia.
Qed.

(** One quiet attempt: the table advances to the next serial, and the loop
    goes on exactly when this serial is busy. *)
Lemma allocate_attempt domain name fuel i (w : S * C) r :
  reliable -> String.length name = 6%nat -> all_digits name = true ->
  decimal_value (String.list_ascii_of_string name) < 200000 ->
  seq_select name w.1 = Done (Some r) -> row_valid name r = true ->
  exists s', seq_select name s' = Done (Some (with_current (current_value r mod 9999 + 1) r)) /\
    row_valid name (with_current (current_value r mod 9999 + 1) r) = true /\
    (forall v, serial_busy domain name (s', w.2) v <-> serial_busy domain name w v) /\
    ((serial_busy domain name w (current_value r) /\
      allocate_loop quiet quiet (Datatypes.S fuel) i domain name w
        = allocate_loop quiet quiet fuel (Datatypes.S i) domain name (s', w.2)) \/
     (~ serial_busy domain name w (current_value r) /\
      allocate_loop quiet quiet (Datatypes.S fuel) i domain name w
        = Done (ssrc_text name (current_value r), (s', w.2)))).
Proof.
  intros Hrel Hl Hd Hb Hs Hv. pose proof (proj1 (row_valid_spec _ _) Hv) as [_ Hc].
  destruct (take_next_value_total _ _ _ Hrel Hs Hv) as [s' Ht].
  destruct (take_next_value_spec _ _ _ _ Ht) as (r' & Hs' & _ & _ & _ & Hsel & Hv' & Hdlg).
  assert (r' = r) as -> by congruence.
  destruct (ssrc_text_spec name (current_value r) Hl Hd Hb ltac:(lia)) as (_ & _ & Hp).
  exists s'. split_and!; [done|done| |].
  { intros v. unfold serial_busy. simpl. by rewrite Hdlg. }
  cbn [allocate_loop]. change (quiet i w) with w. rewrite Ht. cbn [outcome_bind fst snd].
  change (quiet i (s', w.2)) with (s', w.2). cbn [fst snd].
  fold (ssrc_text name (current_value r)). rewrite Hp.
  destruct Hrel as [_ Hda]. destruct (Hda domain (ssrc_text name (current_value r)) w.1) as [b Hact].
  unfold serial_busy. rewrite Hdlg, Hact. cbn [outcome_bind].
  destruct (ssrc_used _ w.2); [left; by split; [left|]|].
  destruct b; [left; by split; [right|]|right]. split; [|done]. intros [?|?]; congruence.
Qed.

Lemma allocate_loop_quiet domain name : forall fuel i (w : S * C) r,
  reliable -> String.length name = 6%nat -> all_digits name = true ->
  decimal_value (String.list_ascii_of_string name) < 200000 ->
  seq_select name w.1 = Done (Some r) -> row_valid name r = true ->
  (exists k w', (k < fuel)%nat /\ (forall j, (j < k)%nat -> serial_busy domain name w (cyc (current_value r) j)) /\
     ~ serial_busy domain name w (cyc (current_value r) k) /\
     allocate_loop quiet quiet fuel i domain name w = Done (ssrc_text name (cyc (current_value r) k), w')) \/
  ((forall j, (j < fuel)%nat -> serial_busy domain name w (cyc (current_value r) j)) /\
   allocate_loop quiet quiet fuel i domain name w = Failed IoBusy).
Proof.
  induction fuel as [|fuel IH]; intros i w r Hrel Hl Hd Hb Hs Hv; [right; split; [lia|done]|].
  pose proof (proj1 (row_valid_spec _ _) Hv) as [_ Hc].
  assert (cyc (current_value r) 0 = current_value r) as Hc0
    by (unfold cyc; rewrite Z.mod_small by lia; lia).
  destruct (allocate_attempt domain name fuel i w r Hrel Hl Hd Hb Hs Hv)
    as (s' & Hsel & Hv' & Hsb & [[Hbz ->]|[Hnb ->]]); [|left; exists 0%nat; rewrite Hc0].
  2: { eexists. split_and!; [lia|lia|done|done]. }
  assert (forall j, cyc (current_value (with_current (current_value r mod 9999 + 1) r)) j
               = cyc (current_value r) (Datatypes.S j)) as Hcyc.
  { intros j. unfold cyc. simpl current_value. f_equal. rewrite Z.add_simpl_r, Zplus_mod_idemp_l. f_equal. lia. }
  assert (forall k, (forall j, (j < k)%nat -> serial_busy domain name w (cyc (current_value r) (Datatypes.S j))) ->
    forall j, (j < Datatypes.S k)%nat -> serial_busy domain name w (cyc (current_value r) j)) as Hsh.
  { intros k Hk [|j] Hj; [by rewrite Hc0|]. apply Hk. lia. }
  destruct (IH (Datatypes.S i) (s', w.2) _ Hrel Hl Hd Hb Hsel Hv') as [(k & w' & Hk & Hbusy & Hfree & ->)|[Hbusy ->]].
  - left. exists (Datatypes.S k), w'. rewrite Hsb, Hcyc in Hfree. split_and!; [lia| |done|by rewrite Hcyc].
    apply Hsh. intros j Hj. rewrite <- Hcyc, <- Hsb. by apply Hbusy.
  - right. split; [|done]. apply Hsh. intros j Hj. rewrite <- Hcyc, <- Hsb. by apply Hbusy.
Qed.

(** Exhaustion.  With an undisturbed, valid sequence row and a data base
    that answers, [allocate] fails with "exhausted" exactly when each of the
    9999 serials is in use, and otherwise returns the first free serial in
    cyclic order after the stored one. *)
Theorem allocate_complete (domain_id p : string) (kind : SsrcKind) (w : S * C) (r : SeqRow) :
  reliable -> prefix domain_id kind = Done p ->
  seq_select p w.1 = Done (Some r) -> row_valid p r = true ->
  (allocate quiet quiet domain_id kind w = Failed IoBusy <->
     forall v, 1 <= v <= 9999 -> serial_busy domain_id p w v) /\
  (forall v, 1 <= v <= 9999 -> ~ serial_busy domain_id p w v ->
     exists k w', allocate quiet quiet domain_id kind w
       = Done (ssrc_text p (cyc (current_value r) k), w') /\
     ~ serial_busy domain_id p w (cyc (current_value r) k) /\
     forall j, (j < k)%nat -> serial_busy domain_id p w (cyc (current_value r) j)).
Proof.
  intros Hrel Hp Hs Hv. pose proof (proj1 (row_valid_spec _ _) Hv) as [_ Hc].
  assert (String.length domain_id = 20%nat /\ all_digits domain_id = true) as [Hl Hd].
  { unfold prefix in Hp. destruct (Nat.eqb_spec (String.length domain_id) 20); [|done].
    destruct (all_digits domain_id); done. }
  destruct (prefix_spec domain_id kind Hl Hd) as (p' & Hp' & P1 & P2 & _ & P4).
  rewrite Hp in Hp'. injection Hp' as <-.
  assert (forall v, 1 <= v <= 9999 -> exists j, (j < Z.to_nat 9999)%nat /\ cyc (current_value r) j = v) as Hall.
  { intros v Hv1. exists (Z.to_nat ((v - current_value r) mod 9999)).
    pose proof (Z.mod_pos_bound (v - current_value r) 9999). split; [lia|].
    unfold cyc. rewrite Z2Nat.id by lia. rewrite Zplus_mod_idemp_r.
    replace (current_value r - 1 + (v - current_value r)) with (v - 1) by lia.
    rewrite Z.mod_small; lia. }
  unfold allocate. rewrite Hp. cbn [outcome_bind]. unfold SSRC_SEQUENCE_MAX.
  destruct (allocate_loop_quiet domain_id p (Z.to_nat 9999) 0 w r Hrel P1 P2 P4 Hs Hv)
    as [(k & w' & Hk & Hbusy & Hfree & Heq)|[Hbusy Heq]]; rewrite Heq.
  - split; [|intros; by exists k, w'].
    split; [done|]. intros Hb. destruct Hfree. apply Hb. unfold cyc.
    pose proof (Z.mod_pos_bound (current_value r - 1 + Z.of_nat k) 9999). lia.
  - split; [split; [|done]|].
    + intros _ v Hv1. destruct (Hall v Hv1) as (j & Hj & <-). auto.
    + intros v Hv1 Hn. destruct Hn. destruct (Hall v Hv1) as (j & Hj & <-). auto.
Qed.
End AllocationFacts.

Lemma digits_prefix (l1 l2 : list ascii) :
  forallb is_ascii_digit (take (length l1) (l1 ++ l2)) = forallb is_ascii_digit l1.
Proof. by rewrite take_app_length. Qed.

(** Stream ids round-trip.  If the text codec decodes what it encodes, a
    stream id built from a device id, a channel id and an SSRC decodes to
    exactly these three, whatever the clock reads; and building one refuses
    fields that are not 20, 20 and 10 decimal digits. *)
Theorem stream_id_round_trip (en de : string -> outcome SsrcError string)
    (millis : Z) (device_id channel_id ssrc : string) :
  (forall s t, en s = Done t -> de t = Done s) ->
  (forall stream_id, en_stream_id en millis device_id channel_id ssrc = Done stream_id ->
     de_stream_id de stream_id = Done (device_id, channel_id, ssrc)) /\
  (validate_decimal_field device_id 20 = Done tt /\ validate_decimal_field channel_id 20 = Done tt /\
   validate_decimal_field ssrc 10 = Done tt \/
   en_stream_id en millis device_id channel_id ssrc = Failed InvalidRequest).
Proof.
  intros Hen. unfold en_stream_id, validate_decimal_field.
  destruct (_ && _) eqn:H1; [|split; [done|by right]].
  destruct (_ && all_digits channel_id) eqn:H2; [|split; [done|by right]].
  destruct (_ && all_digits ssrc) eqn:H3; [|split; [done|by right]].
  cbn [outcome_bind]. split; [|by left]. intros sid Hsid.
  unfold de_stream_id. rewrite (Hen _ _ Hsid). cbn [outcome_bind].
  apply andb_true_iff in H1 as [L1%Nat.eqb_eq D1], H2 as [L2%Nat.eqb_eq D2], H3 as [L3%Nat.eqb_eq D3].
  set (tail := pretty (Z.to_N millis)). set (all := (device_id +:+ channel_id +:+ ssrc +:+ tail)%string).
  rewrite <- list_ascii_length in L1, L2, L3.
  assert (String.list_ascii_of_string all =
    String.list_ascii_of_string device_id ++ String.list_ascii_of_string channel_id ++
    String.list_ascii_of_string ssrc ++ String.list_ascii_of_string tail) as Hall
    by (unfold all; by rewrite !list_ascii_app).
  assert (String.length all <? 50 = false)%nat as ->.
  { apply Nat.ltb_ge. rewrite <- list_ascii_length, Hall, !length_app, L1, L2, L3. lia. }
  assert (all_digits (String.substring 0 50 all) = true) as ->.
  { unfold all_digits in *. rewrite list_ascii_substring, Hall, drop_0, app_assoc, app_assoc.
    rewrite take_app_length' by (rewrite !length_app; lia).
    by rewrite !forallb_app, D1, D2, D3. }
  cbn [orb negb]. do 3 f_equal; apply list_ascii_inj; rewrite list_ascii_substring, Hall.
  - rewrite drop_0. by apply take_app_length'.
  - rewrite drop_app_length' by done. by apply take_app_length'.
  - rewrite app_assoc, drop_app_length' by (rewrite length_app; lia). by apply take_app_length'.
Qed.

(** ** A concrete data base *)

Record demo_store := { ds_rows : gmap string SeqRow; ds_dialogs : list (string * string) }.
#[local] Instance demo_store_ops : SeqStore demo_store := {|
  seq_insert_ignore name r s :=
    Done {| ds_rows := match ds_rows s !! name with Some _ => ds_rows s | None => <[name := r]> (ds_rows s) end;
            ds_dialogs := ds_dialogs s |};
  seq_select name s := Done (ds_rows s !! name);
  seq_update name v s := Done {| ds_rows := alter (with_current v) name (ds_rows s);
                                 ds_dialogs := ds_dialogs s |};
  dialog_active node ssrc s := Done (bool_decide ((node, ssrc) ∈ ds_dialogs s))
|}.
#[local] Instance demo_store_laws : SeqStoreLaws demo_store.
Proof.
  split; simpl.
  - intros name v s s' r [= Hs] [= <-]. simpl. by rewrite lookup_alter_eq, Hs.
  - intros. by simplify_eq.
Qed.

Definition demo_domain : string := "34020000002000000001".
Definition demo_db : demo_store := {|
  ds_rows := <["020000" := {| init_value := 1; current_value := 9999; increment_value := 1;
                 prefix_code := Some "020000"%string; code_length := Some 4 |}]> ∅;
  ds_dialogs := [(demo_domain, "0200009999"%string)] |}.

(** Serial 9999 belongs to an active dialog, so serial 1 is handed out. *)
Lemma allocate_sound_witness :
  exists serial n, 1 <= serial <= 9999 /\ parse_u32 "0200000001" = Some n /\ n mod 10000 = serial.
Proof.
  destruct (allocate quiet quiet demo_domain Realtime (demo_db, Cache_init)) as [[ssrc w']| |] eqn:Ha;
    [|by vm_compute in Ha..].
  assert (ssrc = "0200000001"%string) as Hs by (vm_compute in Ha; by simplify_eq).
  destruct (allocate_sound quiet quiet demo_domain ssrc Realtime _ w' Ha)
    as (v & n & H1 & _ & _ & _ & H2 & H3 & _).
  rewrite Hs in H2. exists v, n. exact (conj H1 (conj H2 H3)).
Defined.

Lemma allocate_complete_witness :
  allocate quiet quiet demo_domain Realtime (demo_db, Cache_init) <> Failed IoBusy.
Proof.
  assert (@reliable demo_store _) as Hrel by (split; intros; simpl; eauto).
  destruct (ds_rows demo_db !! "020000"%string) as [r|] eqn:Hr; [|by vm_compute in Hr].
  assert (row_valid "020000" r = true) as Hv by (vm_compute in Hr; simplify_eq; by vm_compute).
  destruct (allocate_complete demo_domain "020000" Realtime (demo_db, Cache_init) r Hrel
              ltac:(by vm_compute) (f_equal Done Hr) Hv) as [[H1 _] _].
  intros He. destruct (H1 He 1 ltac:(lia)) as [Hb|Hb]; by vm_compute in Hb.
Defined.

Lemma stream_id_round_trip_witness :
  de_stream_id Done "34020000001110000001340200000013200001010200000001171" =
  Done ("34020000001110000001", "34020000001320000101", "0200000001")%string.
Proof.
  apply (stream_id_round_trip Done Done 171 "34020000001110000001" "34020000001320000101" "0200000001").
  - intros s t Hst. by simplify_eq.
  - by vm_compute.
Defined.
