(* ===== verification/Network.v ===== *)
(** * Device connections ([session/src/register/network.rs])

    A registered device has a session with the network association it was last
    seen on; [net_device_map] maps an association back to its device.  Another
    device may take an association over, a connection may be lost and come
    back, and each loss of the connection is numbered so that a late clean-up
    cannot hit the session of a device that is back. *)
From S2P Require Import Prelude SharedTypes.
Local Open Scope Z_scope.

(** The association type is the networking crate's; the code compares and
    hashes it and asks for its protocol. *)
Class AssociationLike (A : Type) `{Countable A} := { assoc_protocol : A -> Protocol }.

Section Network.
Context {A : Type} `{AssociationLike A}.

(** ** Data; instants and durations are in milliseconds *)

Record DeviceSession := {
  gb_version : option string;
  contact_uri : string;
  registration_call_id : string;
  registration_cseq : Z;
  association : A;
  connected : bool;
  connection_generation : Z;
  association_expire : bool;
  support_lr : bool;
  heartbeat_sec : Z;
  last_seen : Z;
  registration_duration : Z;
  registration_expires_at : Z
}.

(** The fields the operations write. *)
Definition with_link (a : A) (conn : bool) (gen : Z) (expire : bool) (seen : Z)
    (s : DeviceSession) : DeviceSession := {|
  gb_version := gb_version s; contact_uri := contact_uri s;
  registration_call_id := registration_call_id s; registration_cseq := registration_cseq s;
  association := a; connected := conn; connection_generation := gen;
  association_expire := expire; support_lr := support_lr s; heartbeat_sec := heartbeat_sec s;
  last_seen := seen; registration_duration := registration_duration s;
  registration_expires_at := registration_expires_at s |}.

(** [update_net_device_mapping] marks a displaced session without touching its
    generation; [rebind] and [rebind_registration] also advance it. *)
Definition mark_displaced (s : DeviceSession) : DeviceSession :=
  with_link (association s) false (connection_generation s) true (last_seen s) s.
Definition mark_displaced_next (s : DeviceSession) : DeviceSession :=
  with_link (association s) false (wrapping_add 64 (connection_generation s) 1) true (last_seen s) s.

Record Network := {
  session : gmap string DeviceSession;
  net_device_map : gmap A string
}.
Definition on_session (f : gmap string DeviceSession -> gmap string DeviceSession) (n : Network) : Network :=
  {| session := f (session n); net_device_map := net_device_map n |}.
Definition on_net (f : gmap A string -> gmap A string) (n : Network) : Network :=
  {| session := session n; net_device_map := f (net_device_map n) |}.

Record DetachedAssociation := { da_device_id : string; da_generation : Z; da_timeout : Z }.

(** ** [DeviceSession] *)

Definition DeviceSession_build (uri : string) (a : A) (heartbeat duration now : Z) : DeviceSession := {|
  gb_version := None; contact_uri := uri; registration_call_id := ""; registration_cseq := 0;
  association := a; connected := true; connection_generation := 0; association_expire := false;
  support_lr := false; heartbeat_sec := heartbeat; last_seen := now;
  registration_duration := duration; registration_expires_at := now + duration |}.

Definition registration_generation_changed (next self : DeviceSession) : bool :=
  let transport_changed :=
    bool_decide (association self <> association next) || negb (connected self) in
  negb (bool_decide (registration_call_id self = ""%string))
  && bool_decide (registration_call_id self = registration_call_id next)
  && (0 <? registration_cseq self) && (0 <? registration_cseq next)
  && (registration_cseq next <? registration_cseq self) && transport_changed.

Definition reconnect_timeout (now : Z) (s : DeviceSession) : Z :=
  let heartbeat_timeout := Z.min (umax 64) (heartbeat_sec s * 3) * 1000 in
  let registration_remaining := saturating_sub (registration_expires_at s) now in
  Z.min heartbeat_timeout registration_remaining.

(** ** [Network] *)

Definition update_net_device_mapping (a : A) (device_id : string) (n : Network)
    : option string * Network :=
  let n1 := on_net <[a := device_id]> n in
  match net_device_map n !! a with
  | Some old =>
      if bool_decide (old <> device_id)
      then (Some old, on_session (alter mark_displaced old) n1)
      else (None, n1)
  | None => (None, n1)
  end.

Definition remove_device_mapping (device_id : string) (old : A) (n : Network) : Network :=
  if bool_decide (net_device_map n !! old = Some device_id) then on_net (delete old) n else n.

Definition insert_session (device_id : string) (s : DeviceSession) (n : Network) : Network :=
  let s1 := with_link (association s) true (connection_generation s) false (last_seen s) s in
  on_session <[device_id := s1]> (update_net_device_mapping (association s) device_id n).2.

(** The end of [rebind] and of [rebind_registration]: the device that held the
    association, if another, is marked. *)
Definition displace (displaced : option string) (n : Network) : Network :=
  match displaced with
  | Some d => on_session (alter mark_displaced_next d) n
  | None => n
  end.

(** The result is [None] without a session, and otherwise the generation whose
    pending clean-up the caller has to cancel, if any. *)
Definition rebind (device_id : string) (a : A) (now : Z) (n : Network)
    : option (option Z) * Network :=
  match session n !! device_id with
  | None => (None, n)
  | Some s =>
      let was_connected := connected s in
      let reconnect_generation := if was_connected then None else Some (connection_generation s) in
      let generation := if was_connected then connection_generation s
                        else wrapping_add 64 (connection_generation s) 1 in
      let n1 := if bool_decide (association s <> a)
                then remove_device_mapping device_id (association s) n else n in
      let displaced := match net_device_map n1 !! a with
                       | Some old => if bool_decide (old <> device_id) then Some old else None
                       | None => None
                       end in
      let n2 := on_net <[a := device_id]> n1 in
      let n3 := on_session <[device_id := with_link a true generation false now s]> n2 in
      (Some reconnect_generation, displace displaced n3)
  end.

(** [inl] is the source's [Ok]: the cancelled generation; [inr] gives the
    session back. *)
Definition rebind_registration (device_id : string) (new : DeviceSession) (n : Network)
    : (Z + DeviceSession) * Network :=
  match session n !! device_id with
  | None => (inr new, n)
  | Some current =>
      if connected current then (inr new, n)
      else
        let cleanup_generation := connection_generation current in
        let new1 := with_link (association new) (connected new) (saturating_add 64 cleanup_generation 1)
                      (association_expire new) (last_seen new) new in
        let n1 := remove_device_mapping device_id (association current) n in
        let displaced := match net_device_map n1 !! association new1 with
                         | Some old => if bool_decide (old <> device_id) then Some old else None
                         | None => None
                         end in
        let n2 := on_net <[association new1 := device_id]> n1 in
        let n3 := on_session <[device_id := new1]> n2 in
        (inl cleanup_generation, displace displaced n3)
  end.

Definition detach_association (a : A) (now : Z) (n : Network) : option DetachedAssociation * Network :=
  match net_device_map n !! a with
  | None => (None, n)
  | Some device_id =>
      match session n !! device_id with
      | None => (None, n)
      | Some s =>
          if bool_decide (association s <> a) then (None, n)
          else if connected s then
            let n1 := remove_device_mapping device_id a n in
            let s1 := with_link (association s) false (wrapping_add 64 (connection_generation s) 1)
                        (association_expire s) (last_seen s) s in
            (Some {| da_device_id := device_id;
                     da_generation := saturating_add 64 (connection_generation s) 1;
                     da_timeout := reconnect_timeout now s1 |},
             on_session <[device_id := s1]> n1)
          else (None, n)
      end
  end.

Definition remove_disconnected (device_id : string) (generation : Z) (n : Network)
    : option DeviceSession * Network :=
  match session n !! device_id with
  | Some s =>
      if negb (connected s) && (connection_generation s =? generation)
      then (Some s, remove_device_mapping device_id (association s) (on_session (delete device_id) n))
      else (None, n)
  | None => (None, n)
  end.

Definition connected_session (device_id : string) (n : Network) : option DeviceSession :=
  match session n !! device_id with
  | Some s => if negb (connected s) || association_expire s then None else Some s
  | None => None
  end.

Definition rm_by_association (a : A) (n : Network) : Network :=
  match net_device_map n !! a with
  | Some device_id => on_session (delete device_id) (on_net (delete a) n)
  | None => n
  end.

Definition rm_by_device_id (device_id : string) (n : Network) : Network :=
  match session n !! device_id with
  | Some s => on_net (delete (association s)) (on_session (delete device_id) n)
  | None => n
  end.

(** ** The invariant

    [full] is the part that a careless removal can break (see
    [rm_by_device_id_wf]). *)

Record net_wf (full : Prop) (n : Network) : Prop := {
  (* an association belongs to a connected device that uses it *)
  net_owner : forall a d, net_device_map n !! a = Some d ->
    exists s, session n !! d = Some s /\ association s = a /\ connected s = true;
  (* a connected device is found under its association *)
  net_connected : forall d s, session n !! d = Some s -> connected s = true ->
    association_expire s = false /\ (full -> net_device_map n !! association s = Some d);
  (* generations are 64-bit words *)
  net_gens : forall d s, session n !! d = Some s -> in_width 64 (connection_generation s)
}.

(** A session as [build] makes it, before it is stored. *)
Definition session_fresh (s : DeviceSession) : Prop :=
  connected s = true /\ association_expire s = false /\ in_width 64 (connection_generation s).

(** [d] may go: nobody else has taken over the association it still names. *)
Definition not_taken_over (d : string) (n : Network) : Prop :=
  forall s, session n !! d = Some s ->
    net_device_map n !! association s = None \/ net_device_map n !! association s = Some d.


(** ** Preservation *)

Implicit Types (n : Network) (s : DeviceSession) (a : A) (d : string) (full : Prop).

Lemma on_session_net f n : net_device_map (on_session f n) = net_device_map n.
Proof. done. Qed.

Lemma lookup_alter_session (f : DeviceSession -> DeviceSession) n o d :
  session (on_session (alter f o) n) !! d = if decide (d = o) then f <$> session n !! o else session n !! d.
Proof. simpl. case_decide; subst; [apply lookup_alter_eq|by apply lookup_alter_ne]. Qed.

Lemma remove_mapping_lookup d a n b :
  net_device_map (remove_device_mapping d a n) !! b =
  if decide (b = a /\ net_device_map n !! a = Some d) then None else net_device_map n !! b.
Proof.
  unfold remove_device_mapping. case_bool_decide as Hm.
  - simpl. destruct (decide (b = a)) as [->|Hne].
    + rewrite lookup_delete_eq. by rewrite decide_True.
    + rewrite lookup_delete_ne by done. rewrite decide_False; naive_solver.
  - rewrite decide_False; [done|]. naive_solver.
Qed.

Lemma remove_mapping_session d a n : session (remove_device_mapping d a n) = session n.
Proof. unfold remove_device_mapping. by case_bool_decide. Qed.

(** Marking the device displaced from [a] by [d], in the shape all three
    operations share: [d]'s new session [sd] is stored under [a], and whoever
    held [a] is marked by [mark]. *)
Definition take_over (mark : DeviceSession -> DeviceSession) d a sd n : Network :=
  {| session := <[d := sd]> (match net_device_map n !! a with
                             | Some o => if decide (o = d) then session n else alter mark o (session n)
                             | None => session n end);
     net_device_map := <[a := d]> (net_device_map n) |}.

Lemma take_over_wf full mark d a sd n :
  (forall s, association (mark s) = association s /\ connected (mark s) = false /\
     (in_width 64 (connection_generation s) -> in_width 64 (connection_generation (mark s)))) ->
  association sd = a -> connected sd = true -> association_expire sd = false ->
  in_width 64 (connection_generation sd) ->
  (forall b, net_device_map n !! b = Some d -> b = a) ->
  net_wf full n -> net_wf full (take_over mark d a sd n).
Proof.
  intros Hmark Ha Hc Hx Hg Hd [Ho Hcon Hgen].
  assert (forall e, e <> d -> session (take_over mark d a sd n) !! e =
    if decide (net_device_map n !! a = Some e) then mark <$> session n !! e else session n !! e) as Hlook.
  { intros e He. simpl. rewrite lookup_insert_ne by done.
    destruct (net_device_map n !! a) as [o|] eqn:Hna; [|done].
    destruct (decide (o = d)) as [->|Hod]; [by rewrite decide_False by congruence|].
    destruct (decide (o = e)) as [->|Hoe].
    - by rewrite lookup_alter_eq, decide_True.
    - by rewrite lookup_alter_ne, decide_False by congruence. }
  split.
  - intros b e. simpl. intros [[<- <-]|[Hba Hb]]%lookup_insert_Some.
    + exists sd. by rewrite lookup_insert_eq.
    + destruct (decide (e = d)) as [->|Hed]; [by apply Hd in Hb|].
      destruct (Ho _ _ Hb) as (s & Hs & Has & Hsc). exists s. split; [|done].
      change (session (take_over mark d a sd n) !! e = Some s). rewrite Hlook by done.
      rewrite decide_False; [done|]. intros He. destruct (Ho _ _ He) as (s0 & Hs0 & Ha0 & _). congruence.
  - intros e s. destruct (decide (e = d)) as [->|Hed].
    + simpl. rewrite lookup_insert_eq. intros [= <-] Hconn. split; [done|]. by rewrite Ha, lookup_insert_eq.
    + rewrite Hlook by done. case_decide as Hna.
      * intros (s0 & Hs0 & ->)%fmap_Some Hconn. destruct (Hmark s0) as (_ & Hf & _). congruence.
      * intros Hs Hconn. destruct (Hcon _ _ Hs Hconn) as [Hexp Hnet]. split; [done|]. intros Hfull.
        simpl. rewrite lookup_insert_ne; [auto|]. intros E. rewrite <- E in Hnet. specialize (Hnet Hfull). congruence.
  - intros e s. destruct (decide (e = d)) as [->|Hed].
    + simpl. rewrite lookup_insert_eq. by intros [= <-].
    + rewrite Hlook by done. case_decide; [|apply Hgen].
      intros (s0 & Hs0 & ->)%fmap_Some. apply Hmark. eauto.
Qed.

Lemma mark_displaced_ok s :
  association (mark_displaced s) = association s /\ connected (mark_displaced s) = false /\
  (in_width 64 (connection_generation s) -> in_width 64 (connection_generation (mark_displaced s))).
Proof. done. Qed.
Lemma mark_displaced_next_ok s :
  association (mark_displaced_next s) = association s /\ connected (mark_displaced_next s) = false /\
  (in_width 64 (connection_generation s) -> in_width 64 (connection_generation (mark_displaced_next s))).
Proof. split_and!; [done..|]. intros. by apply wrapping_add_bound. Qed.

Lemma network_eq n1 n2 : session n1 = session n2 -> net_device_map n1 = net_device_map n2 -> n1 = n2.
Proof. destruct n1, n2; simpl; congruence. Qed.

Lemma insert_session_take_over d s n :
  insert_session d s n =
  take_over mark_displaced d (association s)
    (with_link (association s) true (connection_generation s) false (last_seen s) s) n.
Proof.
  unfold insert_session, update_net_device_mapping, take_over.
  destruct (net_device_map n !! association s) as [o|]; [|done].
  case_bool_decide; [rewrite decide_False by done|rewrite decide_True by (by destruct (decide (o = d)))]; done.
Qed.

(** The take-over of [rebind] and [rebind_registration] marks the displaced
    device after storing the new session; they are different devices. *)
Lemma displace_take_over d a sd n :
  displace (match net_device_map n !! a with
            | Some old => if bool_decide (old <> d) then Some old else None
            | None => None end)
    (on_session <[d := sd]> (on_net <[a := d]> n)) = take_over mark_displaced_next d a sd n.
Proof.
  unfold displace, take_over. destruct (net_device_map n !! a) as [o|]; [|done].
  case_bool_decide as Ho; [rewrite decide_False by done|by rewrite decide_True by (by destruct (decide (o = d)))].
  apply network_eq; [|done]. simpl. by rewrite alter_insert_ne.
Qed.

Lemma rebind_eq d a now n s :
  session n !! d = Some s ->
  let gen := if connected s then connection_generation s else wrapping_add 64 (connection_generation s) 1 in
  rebind d a now n =
  (Some (if connected s then None else Some (connection_generation s)),
   take_over mark_displaced_next d a (with_link a true gen false now s)
     (if bool_decide (association s <> a) then remove_device_mapping d (association s) n else n)).
Proof. intros Hs gen. unfold rebind. rewrite Hs. f_equal. apply displace_take_over. Qed.

Lemma rebind_registration_eq d new n s :
  session n !! d = Some s -> connected s = false ->
  rebind_registration d new n =
  (inl (connection_generation s),
   take_over mark_displaced_next d (association new)
     (with_link (association new) (connected new) (saturating_add 64 (connection_generation s) 1)
        (association_expire new) (last_seen new) new)
     (remove_device_mapping d (association s) n)).
Proof. intros Hs Hc. unfold rebind_registration. rewrite Hs, Hc. f_equal. apply displace_take_over. Qed.

(** ** Every operation keeps the invariant *)

Lemma delete_session_wf full d n :
  net_wf full n -> (forall a, net_device_map n !! a <> Some d) -> net_wf full (on_session (delete d) n).
Proof.
  intros [Ho Hcon Hgen] Hno. split; simpl.
  - intros a e He. destruct (Ho _ _ He) as (s & Hs & Ha). exists s.
    rewrite lookup_delete_ne; [done|]. intros ->. by eapply Hno.
  - intros e s [_ Hs]%lookup_delete_Some. by apply Hcon.
  - intros e s [_ Hs]%lookup_delete_Some. eauto.
Qed.

Lemma update_session_wf full d s' n :
  net_wf full n -> (forall a, net_device_map n !! a <> Some d) -> connected s' = false ->
  in_width 64 (connection_generation s') -> net_wf full (on_session <[d := s']> n).
Proof.
  intros [Ho Hcon Hgen] Hno Hc Hg. split; simpl.
  - intros a e He. destruct (Ho _ _ He) as (s0 & Hs0 & Ha0). exists s0.
    rewrite lookup_insert_ne; [done|]. intros ->. by eapply Hno.
  - intros e s0 [[<- <-]|[? Hs0]]%lookup_insert_Some; [congruence|by apply Hcon].
  - intros e s0 [[<- <-]|[? Hs0]]%lookup_insert_Some; eauto.
Qed.

Lemma insert_session_wf full d s n :
  net_wf full n -> session n !! d = None -> in_width 64 (connection_generation s) ->
  net_wf full (insert_session d s n).
Proof.
  intros Hwf Hd Hg. rewrite insert_session_take_over. apply take_over_wf; try done.
  intros b Hb. destruct (net_owner _ _ Hwf _ _ Hb) as (? & ? & _). congruence.
Qed.

(** The mapping of [d] before a take-over that first dropped its own. *)
Lemma own_mapping_dropped full d s n b :
  net_wf full n -> session n !! d = Some s ->
  net_device_map (remove_device_mapping d (association s) n) !! b <> Some d.
Proof.
  intros Hwf Hs. rewrite remove_mapping_lookup. case_decide as Hb; [done|]. intros Hm.
  destruct (net_owner _ _ Hwf _ _ Hm) as (s0 & Hs0 & <- & _). simplify_eq. naive_solver.
Qed.

Lemma drop_own_mapping_wf full d s n :
  net_wf full n -> session n !! d = Some s ->
  net_wf full (on_session <[d := with_link (association s) false (connection_generation s)
            (association_expire s) (last_seen s) s]> (remove_device_mapping d (association s) n)).
Proof.
  intros [Ho Hcon Hgen] Hs. split; simpl; rewrite ?remove_mapping_session.
  - intros b e. rewrite remove_mapping_lookup. case_decide as Hb; [done|]. intros Hm.
    destruct (Ho _ _ Hm) as (s0 & Hs0 & Ha0). destruct (decide (e = d)) as [->|].
    + simplify_eq. naive_solver.
    + exists s0. by rewrite lookup_insert_ne.
  - intros e s0 [[<- <-]|[? Hs0]]%lookup_insert_Some; [done|]. intros Hc.
    destruct (Hcon _ _ Hs0 Hc) as [? Hnet]. split; [done|]. intros Hfull.
    rewrite remove_mapping_lookup, decide_False; [auto|].
    intros [? ?]. specialize (Hnet Hfull). congruence.
  - intros e s0 [[<- <-]|[? Hs0]]%lookup_insert_Some; simpl; eauto.
Qed.

(** Overwriting [d]'s session in a take-over hides what was stored for it. *)
Lemma take_over_insert mark d a sd s0 n :
  net_device_map n !! a <> Some d ->
  take_over mark d a sd (on_session <[d := s0]> n) = take_over mark d a sd n.
Proof.
  intros Hne. apply network_eq; [|done]. simpl.
  destruct (net_device_map n !! a) as [o|]; [|by rewrite insert_insert_eq].
  rewrite !decide_False by congruence.
  by rewrite alter_insert_ne, insert_insert_eq by congruence.
Qed.

Lemma rebind_wf full d a now n : net_wf full n -> net_wf full (rebind d a now n).2.
Proof.
  intros Hwf. destruct (session n !! d) as [s|] eqn:Hs; [|by unfold rebind; rewrite Hs].
  rewrite (rebind_eq _ _ _ _ _ Hs). simpl.
  assert (in_width 64 (if connected s then connection_generation s
            else wrapping_add 64 (connection_generation s) 1)) as Hg.
  { destruct (connected s); [by eapply net_gens|by apply wrapping_add_bound]. }
  case_bool_decide as Ha.
  - rewrite <- (take_over_insert _ _ _ _ (with_link (association s) false (connection_generation s)
            (association_expire s) (last_seen s) s)) by by eapply own_mapping_dropped.
    apply take_over_wf; try done; [apply mark_displaced_next_ok| |by apply drop_own_mapping_wf].
    intros b Hb. simpl in Hb. by eapply own_mapping_dropped in Hb.
  - assert (association s = a) as <- by (by destruct (decide (association s = a))).
    apply take_over_wf; try done; [apply mark_displaced_next_ok|].
    intros b Hb. destruct (net_owner _ _ Hwf _ _ Hb) as (s0 & Hs0 & <- & _). by simplify_eq.
Qed.

Lemma rebind_registration_wf full d new n :
  net_wf full n -> session_fresh new -> net_wf full (rebind_registration d new n).2.
Proof.
  intros Hwf (Hf1 & Hf2 & Hf3). destruct (session n !! d) as [s|] eqn:Hs;
    [|by unfold rebind_registration; rewrite Hs].
  destruct (connected s) eqn:Hc; [by unfold rebind_registration; rewrite Hs, Hc|].
  rewrite (rebind_registration_eq _ _ _ _ Hs Hc). simpl.
  rewrite <- (take_over_insert _ _ _ _ (with_link (association s) false (connection_generation s)
            (association_expire s) (last_seen s) s)) by by eapply own_mapping_dropped.
  apply take_over_wf; try done; [apply mark_displaced_next_ok| | |by apply drop_own_mapping_wf].
  - simpl. apply saturating_add_bound; [done|..|done]. by destruct (net_gens _ _ Hwf _ _ Hs).
  - intros b Hb. simpl in Hb. by eapply own_mapping_dropped in Hb.
Qed.

Lemma detach_wf full a now n : net_wf full n -> net_wf full (detach_association a now n).2.
Proof.
  intros Hwf. unfold detach_association. destruct (net_device_map n !! a) as [d|] eqn:Ha; [|done].
  destruct (session n !! d) as [s|] eqn:Hs; [|done].
  case_bool_decide as Has; [done|].
  assert (association s = a) as <- by (by destruct (decide (association s = a))).
  destruct (connected s) eqn:Hc; [|done]. simpl.
  pose proof (drop_own_mapping_wf full d s n Hwf Hs) as Hwf1.
  eapply (update_session_wf full d (with_link (association s) false
    (wrapping_add 64 (connection_generation s) 1) (association_expire s) (last_seen s) s)) in Hwf1;
    [|by intros b; simpl; eapply own_mapping_dropped|done|by apply wrapping_add_bound].
  match type of Hwf1 with net_wf _ ?x => match goal with |- net_wf _ ?y => replace y with x; [done|] end end.
  apply network_eq; [|done]. simpl. by rewrite insert_insert_eq.
Qed.

Lemma remove_disconnected_wf full d g n : net_wf full n -> net_wf full (remove_disconnected d g n).2.
Proof.
  intros Hwf. unfold remove_disconnected. destruct (session n !! d) as [s|] eqn:Hs; [|done].
  destruct (_ && _); [|done]. simpl.
  pose proof (delete_session_wf full d _ (drop_own_mapping_wf full d s n Hwf Hs)) as Hdel.
  match type of Hdel with _ -> net_wf _ ?x => match goal with |- net_wf _ ?y => replace y with x; [apply Hdel|] end end.
  - intros b. simpl. by eapply own_mapping_dropped.
  - apply network_eq; simpl.
    + rewrite delete_insert_eq, !remove_mapping_session. done.
    + unfold remove_device_mapping. simpl. by case_bool_decide.
Qed.

Lemma rm_by_association_wf full a n : net_wf full n -> net_wf full (rm_by_association a n).
Proof.
  intros Hwf. unfold rm_by_association. destruct (net_device_map n !! a) as [d|] eqn:Ha; [|done].
  destruct (net_owner _ _ Hwf _ _ Ha) as (s & Hs & <- & _).
  pose proof (delete_session_wf full d _ (drop_own_mapping_wf full d s n Hwf Hs)) as Hdel.
  match type of Hdel with _ -> net_wf _ ?x => match goal with |- net_wf _ ?y => replace y with x; [apply Hdel|] end end.
  - intros b. simpl. by eapply own_mapping_dropped.
  - apply network_eq; simpl.
    + rewrite delete_insert_eq, !remove_mapping_session. done.
    + unfold remove_device_mapping. by rewrite bool_decide_true.
Qed.

Lemma rm_by_device_id_wf full d n : net_wf full n -> not_taken_over d n -> net_wf full (rm_by_device_id d n).
Proof.
  intros Hwf Hown. unfold rm_by_device_id. destruct (session n !! d) as [s|] eqn:Hs; [|done].
  pose proof (delete_session_wf full d _ (drop_own_mapping_wf full d s n Hwf Hs)) as Hdel.
  match type of Hdel with _ -> net_wf _ ?x => match goal with |- net_wf _ ?y => replace y with x; [apply Hdel|] end end.
  - intros b. simpl. by eapply own_mapping_dropped.
  - apply network_eq; simpl.
    + rewrite delete_insert_eq, !remove_mapping_session. done.
    + unfold remove_device_mapping. destruct (Hown s Hs) as [Hn|Hn]; rewrite Hn.
      * rewrite bool_decide_false by done. symmetry. by apply delete_id.
      * by rewrite bool_decide_true.
Qed.

(** Removing a mapping keeps all but the [full] part. *)
Lemma delete_net_wf full a n : net_wf full n -> net_wf False (on_net (delete a) n).
Proof.
  intros [Ho Hcon Hgen]. split; simpl; [|intros d s Hs Hc; by destruct (Hcon _ _ Hs Hc)|done].
  intros b d [_ Hb]%lookup_delete_Some. eauto.
Qed.
Lemma net_wf_weaken full n : net_wf full n -> net_wf False n.
Proof. intros [Ho Hcon Hgen]. split; [done| |done]. intros d s Hs Hc. by destruct (Hcon _ _ Hs Hc). Qed.

(** ** Runs *)

Inductive net_op :=
| NInsert (d : string) (s : DeviceSession)
| NRebind (d : string) (a : A) (now : Z)
| NRebindRegistration (d : string) (s : DeviceSession)
| NDetach (a : A) (now : Z)
| NRemoveDisconnected (d : string) (g : Z)
| NRmByAssociation (a : A)
| NRmByDevice (d : string).

Definition net_apply (op : net_op) (n : Network) : Network :=
  match op with
  | NInsert d s => insert_session d s n
  | NRebind d a now => (rebind d a now n).2
  | NRebindRegistration d s => (rebind_registration d s n).2
  | NDetach a now => (detach_association a now n).2
  | NRemoveDisconnected d g => (remove_disconnected d g n).2
  | NRmByAssociation a => rm_by_association a n
  | NRmByDevice d => rm_by_device_id d n
  end.

(** Sessions are stored as [build] made them, and only for a device that has
    none; a device is not removed while another uses its last association. *)
Definition net_op_ok (op : net_op) (n : Network) : Prop :=
  match op with
  | NInsert d s => session n !! d = None /\ session_fresh s
  | NRebindRegistration _ s => session_fresh s
  | NRmByDevice d => not_taken_over d n
  | _ => True
  end.

Definition net_init : Network := {| session := ∅; net_device_map := ∅ |}.

Inductive net_reaches (from : Network) : Network -> Prop :=
| net_refl : net_reaches from from
| net_step n op : net_reaches from n -> net_op_ok op n -> net_reaches from (net_apply op n).

Lemma net_apply_wf op n : net_op_ok op n -> net_wf True n -> net_wf True (net_apply op n).
Proof.
  destruct op; simpl; intros Hok Hwf.
  - destruct Hok as (? & _ & _ & ?). by apply insert_session_wf.
  - by apply rebind_wf.
  - by apply rebind_registration_wf.
  - by apply detach_wf.
  - by apply remove_disconnected_wf.
  - by apply rm_by_association_wf.
  - by apply rm_by_device_id_wf.
Qed.

Lemma net_init_wf : net_wf True net_init.
Proof. split; intros ??; simpl; by rewrite lookup_empty. Qed.

Lemma net_reaches_wf n n' : net_reaches n n' -> net_wf True n -> net_wf True n'.
Proof. induction 1; eauto using net_apply_wf. Qed.


(** ** Generations *)

(** [d] stays registered and its generation does not wrap. *)
Definition keeps_device (d : string) (op : net_op) (n : Network) : Prop :=
  is_Some (session (net_apply op n) !! d) /\
  (match op with NInsert d' _ => d' <> d | _ => True end) /\
  forall s, session n !! d = Some s -> connection_generation s < umax 64.

Inductive net_reaches_keeping (d : string) (from : Network) : Network -> Prop :=
| keep_refl : net_reaches_keeping d from from
| keep_step n op : net_reaches_keeping d from n -> net_op_ok op n -> keeps_device d op n ->
    net_reaches_keeping d from (net_apply op n).

(** One operation never lowers the generation of a device that stays, and a
    device that comes back gets a higher one. *)
Lemma take_over_lookup mark d a sd n e :
  session (take_over mark d a sd n) !! e =
  if decide (e = d) then Some sd
  else if decide (net_device_map n !! a = Some e) then mark <$> session n !! e else session n !! e.
Proof.
  simpl. destruct (decide (e = d)) as [->|He]; [by rewrite lookup_insert_eq|].
  rewrite lookup_insert_ne by done. destruct (net_device_map n !! a) as [o|]; [|done].
  destruct (decide (o = d)) as [->|]; [by rewrite decide_False by congruence|].
  destruct (decide (o = e)) as [->|].
  - by rewrite lookup_alter_eq, decide_True.
  - by rewrite lookup_alter_ne, decide_False by congruence.
Qed.

Definition gen_advance s s' : Prop :=
  connection_generation s <= connection_generation s' /\
  (connected s = false -> connected s' = true -> connection_generation s < connection_generation s') /\
  (connected s = false -> connected s' = false ->
     association s' = association s \/ connection_generation s < connection_generation s').

Lemma gen_advance_refl s s' : Some s = Some s' -> gen_advance s s'.
Proof. intros [= <-]. unfold gen_advance. split_and!; [lia|congruence|by left]. Qed.
Lemma gen_advance_lt s s' : connection_generation s < connection_generation s' -> gen_advance s s'.
Proof. unfold gen_advance. intros. split_and!; [lia|done|by right]. Qed.

(** The displacing take-over, seen from [d]. *)
Lemma take_over_advance d e b sd n n1 s s' :
  session n1 = session n -> session n !! d = Some s ->
  0 <= connection_generation s < umax 64 ->
  (d = e -> gen_advance s sd) ->
  session (take_over mark_displaced_next e b sd n1) !! d = Some s' -> gen_advance s s'.
Proof.
  intros Hn Hs Hb He. rewrite take_over_lookup, Hn, Hs. case_decide; [intros [= <-]; auto|].
  case_decide; simpl; [|by apply gen_advance_refl]. intros [= <-]. apply gen_advance_lt. simpl.
  rewrite wrapping_add_small; unfold umax in *; lia.
Qed.

Lemma generation_step op n d s s' :
  net_wf True n -> net_op_ok op n -> keeps_device d op n ->
  session n !! d = Some s -> session (net_apply op n) !! d = Some s' -> gen_advance s s'.
Proof.
  intros Hwf Hok (_ & Hins & Hlt) Hs. specialize (Hlt _ Hs).
  assert (0 <= connection_generation s) as Hpos by (by destruct (net_gens _ _ Hwf _ _ Hs)).
  assert (wrapping_add 64 (connection_generation s) 1 = connection_generation s + 1) as Hw
    by (apply wrapping_add_small; unfold umax in Hlt; lia).
  assert (saturating_add 64 (connection_generation s) 1 = connection_generation s + 1) as Hsat
    by (unfold saturating_add, umax in *; lia).
  destruct op as [e se|e b now|e se|b now|e g|b|e]; cbn [net_apply] in *.
  - rewrite insert_session_take_over, take_over_lookup, decide_False by (simpl in Hins; congruence).
    case_decide; rewrite Hs; [|by apply gen_advance_refl]. intros [= <-].
    unfold gen_advance. simpl. split_and!; [lia|congruence|by left].
  - destruct (session n !! e) as [se|] eqn:He;
      [|unfold rebind; rewrite He; simpl; rewrite Hs; apply gen_advance_refl].
    rewrite (rebind_eq _ _ _ _ _ He). apply (take_over_advance d e b _ n); [|done|lia|].
    + case_bool_decide; [apply remove_mapping_session|done].
    + intros <-. simplify_eq. unfold gen_advance. simpl. destruct (connected s); split_and!; (done || lia).
  - destruct (session n !! e) as [se0|] eqn:He;
      [|unfold rebind_registration; rewrite He; simpl; rewrite Hs; apply gen_advance_refl].
    destruct (connected se0) eqn:Hc0;
      [unfold rebind_registration; rewrite He, Hc0; simpl; rewrite Hs; apply gen_advance_refl|].
    rewrite (rebind_registration_eq _ _ _ _ He Hc0).
    apply (take_over_advance d e _ _ n); [apply remove_mapping_session|done|lia|].
    intros <-. simplify_eq. apply gen_advance_lt. simpl. lia.
  - unfold detach_association.
    destruct (net_device_map n !! b) as [e|]; [|simpl; rewrite Hs; apply gen_advance_refl].
    destruct (session n !! e) as [se|] eqn:He; [|simpl; rewrite Hs; apply gen_advance_refl].
    case_bool_decide; [simpl; rewrite Hs; apply gen_advance_refl|].
    destruct (connected se) eqn:Hc; [|simpl; rewrite Hs; apply gen_advance_refl].
    simpl. rewrite remove_mapping_session. intros [[<- <-]|[_ Hs']]%lookup_insert_Some.
    + simplify_eq. apply gen_advance_lt. simpl. lia.
    + apply gen_advance_refl. congruence.
  - unfold remove_disconnected. destruct (session n !! e) as [se|];
      [destruct (_ && _)|]; simpl; rewrite ?remove_mapping_session; simpl;
      rewrite ?lookup_delete_Some; [intros [_ ?]|intros ?..]; apply gen_advance_refl; congruence.
  - unfold rm_by_association. destruct (net_device_map n !! b); simpl;
      rewrite ?lookup_delete_Some; [intros [_ ?]|intros ?]; apply gen_advance_refl; congruence.
  - unfold rm_by_device_id. destruct (session n !! e); simpl;
      rewrite ?lookup_delete_Some; [intros [_ ?]|intros ?]; apply gen_advance_refl; congruence.
Qed.

Lemma net_reaches_keeping_reaches d n n' : net_reaches_keeping d n n' -> net_reaches n n'.
Proof. induction 1; [constructor|by constructor]. Qed.

(** A late reconnect clean-up is harmless.  After the connection of device
    [d] was lost under generation [g], and whatever happens while [d] stays
    registered: either [d] is still in that same disconnected state, or its
    generation has moved past [g] and the clean-up for [g] finds nothing to
    remove. *)
Theorem stale_reconnect_is_noop n n1 n2 a now d g timeout :
  net_wf True n ->
  detach_association a now n = (Some {| da_device_id := d; da_generation := g; da_timeout := timeout |}, n1) ->
  g < umax 64 ->
  net_reaches_keeping d n1 n2 ->
  connected_session d n1 = None /\ net_device_map n1 !! a = None /\
  exists s2, session n2 !! d = Some s2 /\
    ((connected s2 = false /\ association s2 = a /\ connection_generation s2 = g) \/
     (g < connection_generation s2 /\ remove_disconnected d g n2 = (None, n2))).
Proof.
  intros Hwf Hdet Hg Hr. pose proof (detach_wf True a now n Hwf) as Hwf1. rewrite Hdet in Hwf1. simpl in Hwf1.
  unfold detach_association in Hdet. destruct (net_device_map n !! a) as [e|] eqn:Hna; [|done].
  destruct (session n !! e) as [s|] eqn:Hs; [|done]. case_bool_decide as Ha; [done|].
  assert (association s = a) as Ha' by (by destruct (decide (association s = a))).
  destruct (connected s) eqn:Hc; [|done]. injection Hdet as -> Hgen Htm Hn1.
  destruct (net_gens _ _ Hwf _ _ Hs) as [Hlo Hhi].
  set (s1 := with_link (association s) false (wrapping_add 64 (connection_generation s) 1)
               (association_expire s) (last_seen s) s) in *.
  assert (session n1 !! d = Some s1) as Hs1 by (by rewrite <- Hn1; simpl; rewrite lookup_insert_eq).
  assert (connection_generation s1 = g) as Hs1g.
  { simpl. unfold saturating_add, umax in *. rewrite wrapping_add_small; lia. }
  split; [unfold connected_session; by rewrite Hs1|]. split.
  { rewrite <- Hn1. simpl. by rewrite remove_mapping_lookup, decide_True. }
  assert (exists s2, session n2 !! d = Some s2 /\
    ((connected s2 = false /\ association s2 = a /\ connection_generation s2 = g) \/
     g < connection_generation s2)) as (s2 & Hs2 & Hcase).
  { induction Hr as [|n2 op Hr IH Hok Hk]; [exists s1; split; [done|by left]|].
    destruct IH as (s2 & Hs2 & Hcase). pose proof Hk as ([s3 Hs3] & _ & _). exists s3. split; [done|].
    assert (net_wf True n2) as Hwf2 by (eapply net_reaches_wf; [by eapply net_reaches_keeping_reaches|done]).
    destruct (generation_step op n2 d s2 s3 Hwf2 Hok Hk Hs2 Hs3) as (G1 & G2 & G3).
    destruct Hcase as [(C1 & C2 & C3)|]; [|right; lia].
    destruct (connected s3) eqn:Hc3; [right; specialize (G2 C1 eq_refl); lia|].
    destruct (decide (connection_generation s3 = g)); [left|right; lia].
    destruct (G3 C1 eq_refl) as [?|?]; [|lia]. split_and!; congruence. }
  exists s2. split; [done|]. destruct Hcase as [|Hlt]; [by left|right]. split; [done|].
  unfold remove_disconnected. rewrite Hs2. destruct (Z.eqb_spec (connection_generation s2) g); [lia|].
  by rewrite andb_false_r.
Qed.

(** How long a lost device is kept: never beyond its registration, at most
    three heart-beat periods, and not at all once the registration has run
    out. *)
Theorem reconnect_timeout_bounds s now :
  in_width 8 (heartbeat_sec s) ->
  0 <= reconnect_timeout now s <= heartbeat_sec s * 3000 /\
  reconnect_timeout now s <= Z.max 0 (registration_expires_at s - now) /\
  (reconnect_timeout now s = 0 <-> registration_expires_at s <= now \/ heartbeat_sec s = 0).
Proof.
  unfold in_width, reconnect_timeout, saturating_sub, umax. intros. lia.
Qed.
End Network.
Arguments DeviceSession A : clear implicits.
Arguments Network A {_ _}.

(** ** Concrete runs; associations are numbered *)

#[export] Instance demo_association : AssociationLike Z := {| assoc_protocol := fun _ => TCP |}.

Definition demo_session (a : Z) : DeviceSession Z := DeviceSession_build "sip:d" a 60 3600000 0.
Definition demo_net : Network Z :=
  net_apply (NInsert "e" (demo_session 2)) (net_apply (NInsert "d" (demo_session 1)) net_init).

Lemma demo_session_fresh a : session_fresh (demo_session a).
Proof. unfold session_fresh, in_width. simpl. split_and!; (done || lia). Qed.
Lemma demo_net_reached : net_reaches net_init demo_net.
Proof.
  apply net_step; [apply net_step; [apply net_refl|]|]; (split; [by vm_compute|apply demo_session_fresh]).
Qed.


Lemma stale_reconnect_is_noop_witness :
  let n1 := (detach_association 1 10 demo_net).2 in
  let n2 := net_apply (NRebind "d" 7 20) n1 in
  (exists s2, session n2 !! "d" = Some s2 /\ connected s2 = true) /\
  remove_disconnected "d" 1 n2 = (None, n2).
Proof.
  set (n1 := (detach_association 1 10 demo_net).2). set (n2 := net_apply (NRebind "d" 7 20) n1).
  pose proof (net_reaches_wf _ _ demo_net_reached net_init_wf) as Hwf.
  assert (net_reaches_keeping "d" n1 n2) as Hr.
  { apply keep_step; [apply keep_refl|exact I|]. split; [by vm_compute; eauto|]. split; [exact I|].
    intros s Hs. vm_compute in Hs. simplify_eq. by vm_compute. }
  destruct (stale_reconnect_is_noop demo_net n1 n2 1 10 "d" 1 180000 Hwf
    ltac:(by vm_compute) ltac:(by vm_compute) Hr) as (_ & _ & s2 & Hs2 & [(Hc & _)|[_ Hn]]).
  - vm_compute in Hs2. by simplify_eq.
  - split; [|exact Hn]. exists s2. split; [exact Hs2|]. vm_compute in Hs2. by simplify_eq.
Defined.

Lemma reconnect_timeout_bounds_witness : reconnect_timeout 3599000 (demo_session 1) <= 1000.
Proof.
  destruct (reconnect_timeout_bounds (demo_session 1) 3599000 ltac:(by vm_compute)) as (_ & H & _).
  exact H.
Defined.
