(* ===== verification/CloseService.v ===== *)
(** * Closing streams and talks ([session/src/service])

    [stream_close.rs] and [talk_close.rs]: a close takes a deadline on the
    timer wheel and sends a BYE; a failed BYE waits for the device to come
    back; the deadline forces the clean-up.  Also the state the register and
    the services share, and the effects they have on the outside. *)
From S2P Require Import Prelude SharedTypes Scheduler Lifecycle SessionCache DialogCache Network.
Local Open Scope Z_scope.

(** The events of [register/event.rs]. *)
Inductive Event :=
| DeviceOffline (device_id : string)
| EvServerHeart (domain_id : string)
| RefreshCatalogSubscription (device_id : string) (generation : Z)
| OutSession (id : Z).

(** What the code asks of other parts: tasks it spawns, messages it sends,
    transports it closes. *)
Inductive effect (A : Type) :=
| SpawnStreamBye (cmd : StreamByeCommand)
| SpawnTalkBye (cmd : TalkByeCommand)
| SpawnOrphanTransition (stream_id : string)
| SpawnRecovery (device_id : string) (a : A)
| CloseTransport (a : A)
| TrySendEvent (e : Event)
| TouchDeviceHeartbeat (device_id : string)
| ExpireDeviceOnline (device_id : string)
| HeartToDb.
Arguments SpawnStreamBye {A} cmd.
Arguments SpawnTalkBye {A} cmd.
Arguments SpawnOrphanTransition {A} stream_id.
Arguments SpawnRecovery {A} device_id a.
Arguments CloseTransport {A} a.
Arguments TrySendEvent {A} e.
Arguments TouchDeviceHeartbeat {A} device_id.
Arguments ExpireDeviceOnline {A} device_id.
Arguments HeartToDb {A}.

Section CloseService.
Context {A : Type} `{AssociationLike A} `{!MapIter string}.

(** The global cache, the connection tables and the recovery bookkeeping of
    [register/core.rs], and the effects so far. *)
Record Inner := {
  general_cache : Cache;
  io_map : Network A;
  recovering_devices : gset string;
  recovery_permits : Z;
  effects : list (effect A)
}.
Definition on_cache (f : Cache -> Cache) (r : Inner) : Inner := {|
  general_cache := f (general_cache r); io_map := io_map r;
  recovering_devices := recovering_devices r; recovery_permits := recovery_permits r;
  effects := effects r |}.
Definition on_io_map (f : Network A -> Network A) (r : Inner) : Inner := {|
  general_cache := general_cache r; io_map := f (io_map r);
  recovering_devices := recovering_devices r; recovery_permits := recovery_permits r;
  effects := effects r |}.
Definition on_recovery (f : gset string -> gset string) (permits : Z) (r : Inner) : Inner := {|
  general_cache := general_cache r; io_map := io_map r;
  recovering_devices := f (recovering_devices r); recovery_permits := permits;
  effects := effects r |}.
Definition emit (e : effect A) (r : Inner) : Inner := {|
  general_cache := general_cache r; io_map := io_map r;
  recovering_devices := recovering_devices r; recovery_permits := recovery_permits r;
  effects := effects r ++ [e] |}.

(** The wheel may refuse a request; a deletion's result is ignored. *)
Context (accepts : TimeScheduleKey -> bool).

Definition timer_insert (key : TimeScheduleKey) (ttl : Z) (r : Inner) : bool * Inner :=
  if accepts key then (true, on_cache (request (insert_register key ttl)) r) else (false, r).
Definition timer_refresh (key : TimeScheduleKey) (r : Inner) : bool * Inner :=
  if accepts key then (true, on_cache (request (refresh_register key)) r) else (false, r).
Definition timer_remove (key : TimeScheduleKey) (r : Inner) : Inner :=
  on_cache (request (remove_register key)) r.

(** ** [stream_close.rs] *)

(** The spawned half of [force_cleanup] moves the stored dialog to "orphan". *)
Definition stream_force_cleanup (stream_id : string) (generation : Z) (r : Inner) : Inner :=
  let '(info, c) := stream_close_force stream_id generation (general_cache r) in
  let r1 := on_cache (fun _ => c) r in
  match info with
  | Some info => emit (SpawnOrphanTransition (sci_stream_id info)) r1
  | None => r1
  end.

Definition retry_stream (stream_id : string) (r : Inner) : Inner :=
  let '(command, c) := stream_close_take_bye stream_id (general_cache r) in
  let r1 := on_cache (fun _ => c) r in
  match command with Some cmd => emit (SpawnStreamBye cmd) r1 | None => r1 end.

Definition stream_retry_device (device_id : string) (r : Inner) : Inner :=
  foldl (fun r id => retry_stream id r) r (stream_close_ids_by_device device_id (general_cache r)).

Definition stream_begin (now : Z) (stream_id : string) (r : Inner) : Inner :=
  let '(start, c) := stream_close_begin stream_id (general_cache r) in
  let r1 := on_cache (fun _ => c) r in
  match start with
  | None => r1
  | Some start =>
      if negb (scs_newly_started start) then r1 else
      match session (io_map r1) !! scs_device_id start with
      | None =>
          if stream_is_restored stream_id (general_cache r1) then r1
          else stream_force_cleanup stream_id (scs_generation start) r1
      | Some s =>
          let close_timeout := reconnect_timeout now s in
          if close_timeout =? 0 then stream_force_cleanup stream_id (scs_generation start) r1
          else
            let '(ok, r2) := timer_insert (StreamClosing stream_id (scs_generation start))
                               close_timeout r1 in
            if ok then retry_stream stream_id r2
            else stream_force_cleanup stream_id (scs_generation start) r2
      end
  end.

Definition stream_mark_failed (stream_id : string) (generation seq : Z) (device_id reason : string)
    (retry_if_connected : bool) (r : Inner) : Inner :=
  let '(matched, c) := stream_close_mark_failed stream_id generation seq reason (general_cache r) in
  let r1 := on_cache (fun _ => c) r in
  if matched && retry_if_connected && bool_decide (is_Some (connected_session device_id (io_map r1)))
  then retry_stream stream_id r1 else r1.

(** [send_bye] after the answer of [invite_stop_by_device]; [None] is success. *)
Definition stream_send_bye_answer (cmd : StreamByeCommand) (result : option string) (r : Inner) : Inner :=
  match result with
  | None => on_cache (fun c => (stream_close_complete (sbc_stream_id cmd) (sbc_generation cmd) c).2) r
  | Some err => stream_mark_failed (sbc_stream_id cmd) (sbc_generation cmd) (sbc_seq cmd)
                  (sbc_device_id cmd) err false r
  end.

(** ** [talk_close.rs] *)

Definition talk_force_cleanup (talk_id : string) (generation : Z) (r : Inner) : Inner :=
  on_cache (fun c => (talk_close_force talk_id generation c).2) r.

Definition retry_talk (talk_id : string) (r : Inner) : Inner :=
  let '(command, c) := talk_close_take_bye talk_id (general_cache r) in
  let r1 := on_cache (fun _ => c) r in
  match command with Some cmd => emit (SpawnTalkBye cmd) r1 | None => r1 end.

Definition talk_retry_device (device_id : string) (r : Inner) : Inner :=
  foldl (fun r id => retry_talk id r) r (talk_close_ids_by_device device_id (general_cache r)).

Definition talk_begin (now : Z) (talk_id : string) (r : Inner) : bool * Inner :=
  let '(start, c) := talk_close_begin talk_id (general_cache r) in
  let r1 := on_cache (fun _ => c) r in
  match start with
  | None => (false, r1)
  | Some start =>
      if negb (tcs_newly_started start) then (true, r1) else
      match session (io_map r1) !! tcs_device_id start with
      | None => (true, talk_force_cleanup talk_id (tcs_generation start) r1)
      | Some s =>
          let close_timeout := reconnect_timeout now s in
          if close_timeout =? 0 then (true, talk_force_cleanup talk_id (tcs_generation start) r1)
          else
            let '(ok, r2) := timer_insert (TalkClosing talk_id (tcs_generation start)) close_timeout r1 in
            if ok then (true, retry_talk talk_id r2)
            else (true, talk_force_cleanup talk_id (tcs_generation start) r2)
      end
  end.

Definition talk_mark_failed (talk_id : string) (generation seq : Z) (device_id reason : string)
    (retry_if_connected : bool) (r : Inner) : Inner :=
  let '(matched, c) := talk_close_mark_failed talk_id generation seq reason (general_cache r) in
  let r1 := on_cache (fun _ => c) r in
  if matched && retry_if_connected && bool_decide (is_Some (connected_session device_id (io_map r1)))
  then retry_talk talk_id r1 else r1.

Definition talk_send_bye_answer (cmd : TalkByeCommand) (result : option string) (r : Inner) : Inner :=
  match result with
  | None => on_cache (fun c => (talk_close_complete (tbc_talk_id cmd) (tbc_generation cmd) c).2) r
  | Some err => talk_mark_failed (tbc_talk_id cmd) (tbc_generation cmd) (tbc_seq cmd)
                  (tbc_device_id cmd) err false r
  end.

(** ** What a close achieves *)

(** C5: a close is bounded in time.  When the close of a playing stream begins,
    exactly one of three things holds afterwards: the stream is gone; or it
    closes under a fresh generation with one BYE on its way and a deadline on
    the wheel for this very generation; or the dialog was restored from the
    data base and its device is not registered, and it waits for the device
    (no BYE, no deadline).  No other stream is touched. *)
Theorem stream_begin_outcome (now : Z) (id : string) (r : Inner) (t : StreamTable) :
  stream_map (general_cache r) !! id = Some t -> lifecycle t = Playing ->
  let r' := stream_begin now id r in
  let g := stream_close_generation (general_cache r) in
  (forall id', id' <> id ->
     stream_map (general_cache r') !! id' = stream_map (general_cache r) !! id') /\
  (stream_map (general_cache r') !! id = None \/
   (exists t', stream_map (general_cache r') !! id = Some t' /\
      lifecycle t' = Closing g (Some (saturating_add 32 (st_seq t) 1)) None /\
      armed_after (requests (general_cache r')) (SRegister (StreamClosing id g)) = true /\
      effects r' = effects r ++ [SpawnStreamBye {| sbc_stream_id := id; sbc_generation := g;
        sbc_device_id := st_device_id t; sbc_call_id := st_call_id t;
        sbc_seq := saturating_add 32 (st_seq t) 1 |}]) \/
   (st_restored t = true /\ session (io_map r) !! st_device_id t = None /\ effects r' = effects r /\
    exists t', stream_map (general_cache r') !! id = Some t' /\ lifecycle t' = Closing g None None)).
Proof.
  intros Ht Hl r' g. unfold r', stream_begin, stream_close_begin, begin_close, closing_generation.
  rewrite Ht, Hl. cbn -[stream_is_restored stream_force_cleanup reconnect_timeout retry_stream].
  set (r1 := on_cache _ r). set (t1 := with_lifecycle _ t) in *.
  assert (stream_map (general_cache r1) = <[id := t1]> (stream_map (general_cache r))) as Hm1 by done.
  assert (forall r0, stream_map (general_cache r0) = <[id := t1]> (stream_map (general_cache r)) ->
    (forall id', id' <> id -> stream_map (general_cache (stream_force_cleanup id g r0)) !! id'
        = stream_map (general_cache r) !! id') /\
    stream_map (general_cache (stream_force_cleanup id g r0)) !! id = None) as Hforce.
  { intros r0 Hr0. unfold stream_force_cleanup, stream_close_force, stream_close_remove.
    rewrite Hr0, lookup_insert_eq. change (is_closing_generation g t1) with (bool_decide (g = g)).
    rewrite bool_decide_true by done. simpl.
    assert (forall d s c, stream_map (device_map_remove_stream d s c) = stream_map c) as Hdm
      by (intros; unfold device_map_remove_stream; by cases).
    rewrite Hdm. simpl. rewrite Hr0. split; [intros|]; by simplify_map_eq. }
  change (io_map r1) with (io_map r).
  destruct (session (io_map r) !! st_device_id t) as [s|] eqn:Hs.
  - destruct (reconnect_timeout now s =? 0); [destruct (Hforce r1 Hm1); eauto|].
    unfold timer_insert. destruct (accepts _); simpl; [|destruct (Hforce r1 Hm1); eauto].
    unfold retry_stream, stream_close_take_bye, take_bye. simpl. rewrite lookup_insert_eq. simpl.
    split; [intros; by simplify_map_eq|]. right; left. eexists. rewrite lookup_insert_eq.
    split_and!; try done. apply armed_after_insert.
  - unfold stream_is_restored. simpl. rewrite lookup_insert_eq. simpl.
    destruct (st_restored t) eqn:Hrest; [|destruct (Hforce r1 Hm1); eauto].
    split; [intros; by simplify_map_eq|]. right; right. split_and!; try done.
    exists t1. simpl. by rewrite lookup_insert_eq.
Qed.

(** The answer to a BYE.  A success removes the stream only if it still
    closes under the generation the BYE was sent for; a failure only frees the
    BYE slot of that generation and CSeq, so that the next contact of the
    device sends a new BYE with the next CSeq; an answer for an older close
    changes nothing. *)
Theorem stream_bye_answer (cmd : StreamByeCommand) (result : option string) (r : Inner) :
  let r' := stream_send_bye_answer cmd result r in
  let id := sbc_stream_id cmd in
  effects r' = effects r /\ io_map r' = io_map r /\
  match stream_map (general_cache r) !! id with
  | Some t =>
      match lifecycle t with
      | Closing g inflight err =>
          if decide (g = sbc_generation cmd) then
            match result with
            | None => stream_map (general_cache r') = delete id (stream_map (general_cache r))
            | Some reason =>
                if decide (inflight = Some (sbc_seq cmd)) then
                  exists t', stream_map (general_cache r') = <[id := t']> (stream_map (general_cache r)) /\
                    lifecycle t' = Closing g None (Some reason) /\
                    (take_bye t').1 = Some (g, saturating_add 32 (st_seq t) 1)
                else stream_map (general_cache r') = stream_map (general_cache r)
            end
          else stream_map (general_cache r') = stream_map (general_cache r)
      | Playing => stream_map (general_cache r') = stream_map (general_cache r)
      end
  | None => stream_map (general_cache r') = stream_map (general_cache r)
  end.
Proof.
  simpl. unfold stream_send_bye_answer, stream_mark_failed. destruct result as [reason|].
  - unfold stream_close_mark_failed, mark_bye_failed.
    destruct (stream_map (general_cache r) !! sbc_stream_id cmd) as [t|] eqn:Ht; [|done].
    destruct (lifecycle t) as [|g fl err] eqn:Hl; simpl; [by rewrite insert_id|].
    destruct (decide (g = sbc_generation cmd)) as [->|Hg];
      [rewrite bool_decide_false by naive_solver|rewrite bool_decide_true by done].
    + destruct (decide (fl = Some (sbc_seq cmd))) as [->|Hf];
        [rewrite bool_decide_false by naive_solver|rewrite bool_decide_true by done]; simpl.
      * split_and!; try done. eexists. split; [done|]. split; [done|]. by unfold take_bye.
      * by rewrite insert_id.
    + simpl. by rewrite insert_id.
  - unfold stream_close_complete, stream_close_remove. simpl.
    destruct (stream_map (general_cache r) !! sbc_stream_id cmd) as [t|] eqn:Ht; [|done].
    unfold is_closing_generation. destruct (lifecycle t) as [|g fl err] eqn:Hl; [done|].
    destruct (decide (g = sbc_generation cmd)) as [->|Hg];
      [rewrite bool_decide_true by done|by rewrite bool_decide_false].
    assert (forall d s c, stream_map (device_map_remove_stream d s c) = stream_map c) as Hdm
      by (intros; unfold device_map_remove_stream; by cases).
    simpl. split_and!; try done. cases; simpl; by rewrite Hdm.
Qed.
End CloseService.

(** A stream of a registered device, closed 5 ms after start. *)
Definition demo_inner : Inner (A := Z) := {|
  general_cache := (stream_map_insert "s" "d" "ch" 7 "" "n1" "call-1" 3 Live false Cache_init).2;
  io_map := demo_net; recovering_devices := ∅; recovery_permits := 64; effects := [] |}.

Lemma stream_begin_outcome_witness :
  let r' := stream_begin (fun _ => true) 5 "s" demo_inner in
  stream_map (general_cache r') !! "s" = None \/
  armed_after (requests (general_cache r')) (SRegister (StreamClosing "s" 1)) = true.
Proof.
  destruct (stream_map (general_cache demo_inner) !! "s") as [t|] eqn:Ht; [|by vm_compute in Ht].
  assert (lifecycle t = Playing) as Hl by (vm_compute in Ht; by simplify_eq).
  destruct (stream_begin_outcome (fun _ => true) 5 "s" demo_inner t Ht Hl)
    as [_ [H|[(t' & _ & _ & H & _)|(Hr & _)]]].
  - left. exact H.
  - right. exact H.
  - vm_compute in Ht. by simplify_eq.
Defined.
