(* ===== verification/RegisterCore.v ===== *)
(** * The device register ([session/src/register/core.rs], [event.rs])

    Registration, keep-alive, loss and expiry of devices: the connection
    tables, the session cache, the timers of each device and the close
    services, put together the way [Register] composes them. *)
From Stdlib Require Import Ascii.
From S2P Require Import Prelude Text SharedTypes Scheduler Lifecycle SessionCache DialogCache Network CloseService.
Local Open Scope Z_scope.

Inductive RegError := UnregisteredKeepalive | SessionDisappeared | WheelRefused | InvalidLease | StorageError.

(** The rows [recover_device_session] reads. *)
Record GmvDevice := {
  gd_transport : string; gd_local_addr : string; gd_register_time : Z; gd_register_expires : Z;
  gd_online_expire_time : option Z; gd_contact_uri : string; gd_gb_version : option string;
  gd_enable_lr : Z
}.

Section RegisterCore.
Context {A : Type} `{AssociationLike A} `{!MapIter string}.
(** The wheel; the remote address of an association and the address parser of
    the standard library's [SocketAddr]. *)
Context (accepts : TimeScheduleKey -> bool).
Context {IP : Type} `{EqDecision IP} (remote_ip : A -> IP) (parse_ip : string -> option IP).

Notation Inner := (Inner (A := A)).
Notation reg_result := (outcome RegError unit * Inner)%type.

Definition MAX_DEVICE_RECOVERY_CONCURRENCY : Z := 64.

Definition heartbeat_timeout (heartbeat_sec : Z) : Z := Z.min (umax 64) (heartbeat_sec * 3) * 1000.

(** A fallible timer insertion followed by the rest of the handler. *)
Definition try_insert (key : TimeScheduleKey) (ttl : Z) (k : Inner -> reg_result) (r : Inner) : reg_result :=
  let '(ok, r1) := timer_insert accepts key ttl r in
  if ok then k r1 else (Failed WheelRefused, r1).

Definition close_tcp_if_needed (s : DeviceSession A) (r : Inner) : Inner :=
  match assoc_protocol (association s) with
  | TCP => emit (CloseTransport (association s)) r
  | UDP => r
  end.

Definition retry_closes (device_id : string) (r : Inner) : Inner :=
  talk_retry_device device_id (stream_retry_device device_id r).

(** ** Keep-alive *)

Definition device_heart (now : Z) (device_id : string) (a : A) (r : Inner) : reg_result :=
  match session (io_map r) !! device_id with
  | None => (Failed UnregisteredKeepalive, r)
  | Some previous =>
      let '(rebound, n) := rebind device_id a now (io_map r) in
      let r1 := on_io_map (fun _ => n) r in
      match rebound with
      | None => (Failed SessionDisappeared, r1)
      | Some reconnect_generation =>
          let changed := bool_decide (association previous <> a) in
          let r2 := if changed then close_tcp_if_needed previous r1 else r1 in
          let finish (reconnected : bool) (r : Inner) : reg_result :=
            (Done tt, if reconnected || changed then retry_closes device_id r else r) in
          match reconnect_generation with
          | Some generation =>
              try_insert (Device3Heart device_id) (heartbeat_timeout (heartbeat_sec previous))
                (finish true) (timer_remove (DeviceReconnect device_id generation) r2)
          | None =>
              let '(ok, r3) := timer_refresh accepts (Device3Heart device_id) r2 in
              if ok then finish false r3 else (Failed WheelRefused, r3)
          end
      end
  end.

(** ** Registration *)

Definition remove_device_by_inner (device_id : string) (r : Inner) : option (DeviceSession A) * Inner :=
  let r1 := timer_remove (DeviceRegistration device_id) (timer_remove (Device3Heart device_id) r) in
  match session (io_map r1) !! device_id with
  | Some s =>
      let r2 := on_io_map (on_session (delete device_id)) r1 in
      let r3 := timer_remove (DeviceReconnect device_id (connection_generation s)) r2 in
      (Some s, if association_expire s then r3
               else on_io_map (on_net (delete (association s))) r3)
  | None => (None, r1)
  end.

Definition remove_device (device_id : string) (r : Inner) : Inner :=
  on_cache (reset_device_state device_id) (remove_device_by_inner device_id r).2.

(** The rest of [register_device] when the session was not rebound. *)
Definition register_afresh (device_id : string) (new_generation : bool) (ds : DeviceSession A)
    (r : Inner) : reg_result :=
  let '(previous, r1) := remove_device_by_inner device_id r in
  let r2 := match previous with
            | Some p => if bool_decide (association p <> association ds)
                        then close_tcp_if_needed p r1 else r1
            | None => r1
            end in
  let r3 := if new_generation then on_cache (reset_device_state device_id) r2 else r2 in
  try_insert (Device3Heart device_id) (heartbeat_timeout (heartbeat_sec ds)) (fun r4 =>
    try_insert (DeviceRegistration device_id) (registration_duration ds) (fun r5 =>
      let r6 := on_io_map (insert_session device_id ds) r5 in
      (Done tt, if new_generation then r6 else retry_closes device_id r6)) r4) r3.

Definition register_device (device_id : string) (ds : DeviceSession A) (r : Inner) : reg_result :=
  let new_generation :=
    match session (io_map r) !! device_id with
    | Some current => registration_generation_changed ds current
    | None => false
    end in
  if new_generation then register_afresh device_id true ds r
  else
    let '(rebound, n) := rebind_registration device_id ds (io_map r) in
    let r1 := on_io_map (fun _ => n) r in
    match rebound with
    | inl generation =>
        try_insert (Device3Heart device_id) (heartbeat_timeout (heartbeat_sec ds)) (fun r2 =>
          try_insert (DeviceRegistration device_id) (registration_duration ds) (fun r3 =>
            (Done tt, retry_closes device_id r3)) r2)
          (timer_remove (DeviceReconnect device_id generation) r1)
    | inr ds => register_afresh device_id false ds r1
    end.

(** ** Loss of a connection *)

Definition expire_disconnected_by_inner (device_id : string) (generation : Z) (r : Inner)
    : option (DeviceSession A) * Inner :=
  match remove_disconnected device_id generation (io_map r) with
  | (Some s, n) =>
      let r1 := timer_remove (DeviceReconnect device_id generation)
                  (timer_remove (DeviceRegistration device_id)
                    (timer_remove (Device3Heart device_id) (on_io_map (fun _ => n) r))) in
      (Some s, emit (TrySendEvent (DeviceOffline device_id))
                 (on_cache (reset_device_state device_id) r1))
  | (None, n) => (None, on_io_map (fun _ => n) r)
  end.

Definition detach_device_association (now : Z) (a : A) (r : Inner) : bool * Inner :=
  match detach_association a now (io_map r) with
  | (None, n) => (false, on_io_map (fun _ => n) r)
  | (Some d, n) =>
      let r1 := timer_remove (Device3Heart (da_device_id d)) (on_io_map (fun _ => n) r) in
      let '(ok, r2) := timer_insert accepts (DeviceReconnect (da_device_id d) (da_generation d))
                         (da_timeout d) r1 in
      (true, if ok then r2
             else (expire_disconnected_by_inner (da_device_id d) (da_generation d) r2).2)
  end.

(** ** Recovery from a keep-alive *)

Definition str_eq_ignore_case (s1 s2 : string) : bool :=
  eq_ignore_ascii_case (String.list_ascii_of_string s1) (String.list_ascii_of_string s2).

(** Times of the data base and [now] in milliseconds; [num_seconds] truncates.
    [oauth] and [device] are what the two queries return. *)
Definition recover_device_session (now : Z) (device_id : string) (a : A)
    (oauth : outcome RegError (option Z)) (device : outcome RegError (option GmvDevice))
    (r : Inner) : reg_result :=
  if bool_decide (is_Some (session (io_map r) !! device_id)) then device_heart now device_id a r
  else
  match oauth, device with
  | Failed e, _ => (Failed e, r)
  | Panic, _ => (Panic, r)
  | Done None, _ => (Failed InvalidLease, r)
  | Done (Some _), Failed e => (Failed e, r)
  | Done (Some _), Panic => (Panic, r)
  | Done (Some _), Done None => (Failed InvalidLease, r)
  | Done (Some heartbeat), Done (Some dev) =>
      let expected := if str_eq_ignore_case (gd_transport dev) "UDP" then Some UDP
                      else if str_eq_ignore_case (gd_transport dev) "TCP" then Some TCP else None in
      match expected with
      | None => (Failed InvalidLease, r)
      | Some protocol =>
          if bool_decide (assoc_protocol a <> protocol) then (Failed InvalidLease, r) else
          match parse_ip (gd_local_addr dev) with
          | None => (Failed InvalidLease, r)
          | Some ip =>
              if bool_decide (ip <> remote_ip a) then (Failed InvalidLease, r) else
              let registration_expires_at := gd_register_time dev + gd_register_expires dev * 1000 in
              match gd_online_expire_time dev with
              | None => (Failed InvalidLease, r)
              | Some online_expires_at =>
                  if (registration_expires_at <=? now) || (online_expires_at <=? now)
                  then (Failed InvalidLease, r)
                  else
                    let remaining := Z.max 1 (Z.quot (registration_expires_at - now) 1000) in
                    let s0 := DeviceSession_build (gd_contact_uri dev) a heartbeat (remaining * 1000) now in
                    register_device device_id {|
                      gb_version := gd_gb_version dev; contact_uri := contact_uri s0;
                      registration_call_id := registration_call_id s0;
                      registration_cseq := registration_cseq s0; association := association s0;
                      connected := connected s0; connection_generation := connection_generation s0;
                      association_expire := association_expire s0;
                      support_lr := negb (gd_enable_lr dev =? 0);
                      heartbeat_sec := heartbeat_sec s0; last_seen := last_seen s0;
                      registration_duration := registration_duration s0;
                      registration_expires_at := Network.registration_expires_at s0 |} r
              end
          end
      end
  end.

(** The synchronous part of [recover_device_on_keepalive]; the recovery itself
    runs in a spawned task and ends with [recovery_finished]. *)
Definition recover_device_on_keepalive (now : Z) (device_id : string) (a : A) (r : Inner) : reg_result :=
  if bool_decide (is_Some (session (io_map r) !! device_id)) then
    match device_heart now device_id a r with
    | (Done _, r1) => (Done tt, emit (TouchDeviceHeartbeat device_id) r1)
    | res => res
    end
  else if bool_decide (device_id ∈ recovering_devices r) then (Done tt, r)
  else
    let r1 := on_recovery (fun s => {[device_id]} ∪ s) (recovery_permits r) r in
    if 0 <? recovery_permits r1
    then (Done tt, emit (SpawnRecovery device_id a) (on_recovery id (recovery_permits r1 - 1) r1))
    else (Done tt, on_recovery (fun s => s ∖ {[device_id]}) (recovery_permits r1) r1).

Definition recovery_finished (now : Z) (device_id : string) (a : A)
    (oauth : outcome RegError (option Z)) (device : outcome RegError (option GmvDevice))
    (r : Inner) : Inner :=
  let '(result, r1) := recover_device_session now device_id a oauth device r in
  let r2 := on_recovery (fun s => s ∖ {[device_id]}) (recovery_permits r1) r1 in
  let r3 := match result with Done _ => emit (TouchDeviceHeartbeat device_id) r2 | _ => r2 end in
  on_recovery id (recovery_permits r3 + 1) r3.

(** ** Look-ups *)

Definition get_device_id_by_association (a : A) (r : Inner) : option string := net_device_map (io_map r) !! a.
Definition get_device_session (device_id : string) (r : Inner) : option (DeviceSession A) :=
  session (io_map r) !! device_id.
Definition get_connected_device_session (device_id : string) (r : Inner) : option (DeviceSession A) :=
  connected_session device_id (io_map r).
Definition has_session (device_id : string) (r : Inner) : bool :=
  bool_decide (is_Some (session (io_map r) !! device_id)).

Definition SERVER_HEART_EXPIRE : Z := 60000.
Definition server_keep_heart_update_db (domain_id : string) (update : outcome RegError unit)
    (r : Inner) : reg_result :=
  try_insert (ServerHeart domain_id) SERVER_HEART_EXPIRE (fun r1 => (update, r1)) (emit HeartToDb r).

(** ** [event.rs] *)

(** One event of a batch; general cache keys are collected. *)
Definition on_time_event (r_keys : Inner * list string) (key : ScheduleKey) : Inner * list string :=
  let '(r, cache_keys) := r_keys in
  match key with
  | SRegister (Device3Heart device_id) | SRegister (DeviceRegistration device_id) =>
      match remove_device_by_inner device_id r with
      | (Some s, r1) =>
          (emit (TrySendEvent (DeviceOffline device_id))
             (close_tcp_if_needed s (on_cache (reset_device_state device_id) r1)), cache_keys)
      | (None, r1) => (r1, cache_keys)
      end
  | SRegister (DeviceReconnect device_id generation) =>
      ((expire_disconnected_by_inner device_id generation r).2, cache_keys)
  | SRegister (StreamClosing stream_id generation) =>
      (on_cache (fun c => (stream_close_force stream_id generation c).2) r, cache_keys)
  | SRegister (TalkClosing talk_id generation) =>
      (on_cache (fun c => (talk_close_force talk_id generation c).2) r, cache_keys)
  | SRegister (CatalogSubscription device_id generation) =>
      (emit (TrySendEvent (RefreshCatalogSubscription device_id generation)) r, cache_keys)
  | SRegister (ServerHeart domain_id) => (emit (TrySendEvent (EvServerHeart domain_id)) r, cache_keys)
  | SRegister (OutSessionKey _) => (r, cache_keys)
  | SGeneralCache key => (r, cache_keys ++ [key])
  end.

Definition on_time_schedule (now : Z) (batch : list ScheduleKey) (r : Inner) : Inner :=
  let '(r1, cache_keys) := foldl on_time_event (r, []) batch in
  match cache_keys with
  | [] => r1
  | _ => on_cache (purge_expired_keys cache_keys now) r1
  end.

(** [hand_event], with the results of the calls that leave the component. *)
Definition hand_event (e : Event) (update : outcome RegError unit) (r : Inner) : Inner :=
  match e with
  | DeviceOffline device_id => emit (ExpireDeviceOnline device_id) r
  | EvServerHeart domain_id => (server_keep_heart_update_db domain_id update r).2
  | RefreshCatalogSubscription _ _ => r
  | OutSession _ => r
  end.

(** ** The timers of a device

    What is pending for a registered device: its registration, and its
    heart-beat or, while its connection is lost, the reconnect deadline of the
    current generation. *)
Definition armed (r : Inner) (key : TimeScheduleKey) : Prop :=
  armed_after (requests (general_cache r)) (SRegister key) = true.

Definition device_timers (r : Inner) (d : string) (s : DeviceSession A) : Prop :=
  armed r (DeviceRegistration d) /\
  (connected s = true \/ association_expire s = true -> armed r (Device3Heart d)) /\
  (connected s = false -> association_expire s = false ->
     armed r (DeviceReconnect d (connection_generation s))).

Record reg_wf (r : Inner) : Prop := {
  reg_net : net_wf False (io_map r);
  reg_timers : forall d s, session (io_map r) !! d = Some s -> device_timers r d s
}.
End RegisterCore.
