(* ===== verification/RegisterProps.v ===== *)
(** * What the register guarantees

    Every registered device always has the timers that will remove it; expiry
    reports it offline exactly once; and the one removal that can damage
    another device's routing. *)
From Stdlib Require Import Ascii.
From S2P Require Import Prelude Text SharedTypes Scheduler Lifecycle SessionCache DialogCache CacheInvariant.
From S2P Require Import Network CloseService RegisterCore.
Local Open Scope Z_scope.

(** ** Requests about other keys than a device's *)

Definition device_key (k : TimeScheduleKey) : bool :=
  match k with Device3Heart _ | DeviceRegistration _ | DeviceReconnect _ _ => true | _ => false end.

Definition req_key (r : sched_request) : ScheduleKey :=
  match r with ReqInsert k _ | ReqRefresh k | ReqDelete k => k end.

Definition about_device (k : ScheduleKey) : bool :=
  match k with SRegister k => device_key k | SGeneralCache _ => false end.

Lemma armed_after_snoc (log : list sched_request) (k : ScheduleKey) (r : sched_request) :
  armed_after (log ++ [r]) k = armed_step k (armed_after log k) r.
Proof. by rewrite armed_after_app. Qed.

(** The requests a cache sent between [c] and [c'] leave device timers alone. *)
Definition quiet_timers (c c' : Cache) : Prop :=
  exists log, requests c' = requests c ++ log /\ Forall (fun r => about_device (req_key r) = false) log.

#[export] Instance quiet_timers_preorder : PreOrder quiet_timers.
Proof.
  split.
  - intros c. exists []. by rewrite app_nil_r.
  - intros c1 c2 c3 (l1 & H1 & F1) (l2 & H2 & F2). exists (l1 ++ l2).
    rewrite H2, H1, app_assoc. split; [done|]. by apply Forall_app.
Qed.

Lemma quiet_armed (c c' : Cache) (k : TimeScheduleKey) :
  quiet_timers c c' -> device_key k = true ->
  armed_after (requests c') (SRegister k) = armed_after (requests c) (SRegister k).
Proof.
  intros (log & -> & Hall) Hk. rewrite armed_after_app. apply armed_from_frame.
  - intros ttl Hin. rewrite Forall_forall in Hall. specialize (Hall _ Hin). simpl in Hall. congruence.
  - intros Hin. rewrite Forall_forall in Hall. specialize (Hall _ Hin). simpl in Hall. congruence.
Qed.

Lemma quiet_same (c c' : Cache) : requests c' = requests c -> quiet_timers c c'.
Proof. intros Heq. exists []. by rewrite app_nil_r. Qed.
Lemma quiet_request (c c' : Cache) (r : sched_request) :
  requests c' = requests c ++ [r] -> about_device (req_key r) = false -> quiet_timers c c'.
Proof. intros. exists [r]. split; [done|]. by constructor. Qed.
Lemma quiet_foldl {X} (f : Cache -> X -> Cache) (l : list X) c :
  (forall c x, quiet_timers c (f c x)) -> quiet_timers c (foldl f c l).
Proof. intros Hf. revert c. induction l; simpl; intros; [done|]. etrans; eauto. Qed.

Create HintDb quiet.
#[export] Hint Resolve quiet_same quiet_request : quiet.

Section CacheQuiet.
Context `{!MapIter string}.

Lemma reset_stream_quiet c id : quiet_timers c (reset_stream c id).
Proof. unfold reset_stream. cases; eauto with quiet. Qed.
Lemma reset_talk_quiet c id : quiet_timers c (reset_talk c id).
Proof. unfold reset_talk, cancel_talk_close_timer. cases; eauto with quiet. Qed.
Lemma catalog_remove_quiet d g c : quiet_timers c (catalog_subscription_remove d g c).2.
Proof. unfold catalog_subscription_remove. cases; eauto with quiet. Qed.
Lemma purge_quiet keys now c : quiet_timers c (purge_expired_keys keys now c).
Proof.
  apply quiet_foldl. intros. unfold purge_expired_key. cases; eauto with quiet.
Qed.

Lemma reset_device_quiet d c : quiet_timers c (reset_device_state d c).
Proof.
  unfold reset_device_state. etrans; [|apply catalog_remove_quiet].
  match goal with |- quiet_timers _ (on_locks _ _ ?c3) => trans c3; [|by apply quiet_same] end.
  etrans; [|apply quiet_foldl; apply reset_talk_quiet].
  etrans; [|apply quiet_foldl; apply reset_stream_quiet].
  case_match; [|done]. etrans; [|apply quiet_foldl; apply reset_stream_quiet]. by apply quiet_same.
Qed.

Lemma device_remove_stream_requests d s c : requests (device_map_remove_stream d s c) = requests c.
Proof. unfold device_map_remove_stream. by cases. Qed.

Lemma finish_removed_quiet id t g c : quiet_timers c (finish_removed_stream id t g c).2.
Proof.
  unfold finish_removed_stream. simpl. case_match.
  - eapply quiet_request; [simpl; by rewrite device_remove_stream_requests|done].
  - apply quiet_same, device_remove_stream_requests.
Qed.

Lemma cache_apply_quiet op c : quiet_timers c (cache_apply op c).
Proof.
  destruct op; simpl.
  all: try (unfold stream_map_insert_token, stream_map_insert, stream_map_update_source,
    stream_map_remove, stream_close_begin, stream_close_take_bye, stream_close_mark_failed,
    device_map_insert_table, device_map_remove, stream_setup_lock, talk_map_insert, talk_map_remove,
    talk_by_call_id_remove, talk_close_begin, next_talk_close_generation, cancel_talk_close_timer,
    talk_close_take_bye, talk_close_mark_failed, talk_close_complete, catalog_subscription_begin,
    catalog_subscription_complete, catalog_subscription_take_refresh, catalog_subscription_mark_failed,
    catalog_subscription_update_expires, catalog_subscription_validate_notify,
    upsert_state, decrement_counter, notify_stream_wait, notify_snapshot_wait, remove_state, refresh_state;
    simpl; cases; by eauto with quiet).
  - unfold stream_close_remove. destruct (stream_map c !! stream_id); [|done].
    destruct (is_closing_generation _ _); [|done].
    etrans; [|apply finish_removed_quiet]. by apply quiet_same.
  - unfold stream_terminated_remove. destruct (stream_map c !! stream_id); [|done].
    case_bool_decide; [|done]. etrans; [|apply finish_removed_quiet]. by apply quiet_same.
  - apply catalog_remove_quiet.
  - apply purge_quiet.
  - apply reset_device_quiet.
Qed.
End CacheQuiet.

(** ** Frames: steps that leave the connection tables and device timers alone *)

Section RegisterInvariant.
Context {A : Type} `{AssociationLike A} `{!MapIter string}.
Context {IP : Type} `{EqDecision IP} (remote_ip : A -> IP) (parse_ip : string -> option IP).
Notation Inner := (Inner (A := A)).
Notation accepts := (fun _ : TimeScheduleKey => true).

Definition reg_frame (r r' : Inner) : Prop :=
  io_map r' = io_map r /\ quiet_timers (general_cache r) (general_cache r').

#[local] Instance reg_frame_preorder : PreOrder reg_frame.
Proof.
  split; [done|]. intros r1 r2 r3 [E1 Q1] [E2 Q2]. split; [congruence|]. by etrans.
Qed.

Lemma frame_emit e r : reg_frame r (emit e r).
Proof. done. Qed.
Lemma frame_cache f r : quiet_timers (general_cache r) (f (general_cache r)) -> reg_frame r (on_cache f r).
Proof. done. Qed.
Lemma frame_recovery f p r : reg_frame r (on_recovery f p r).
Proof. done. Qed.
Lemma frame_close_tcp s r : reg_frame r (close_tcp_if_needed s r).
Proof. unfold close_tcp_if_needed. by case_match. Qed.
Lemma frame_foldl {X} (f : Inner -> X -> Inner) (l : list X) r :
  (forall r x, reg_frame r (f r x)) -> reg_frame r (foldl f r l).
Proof. intros Hf. revert r. induction l; simpl; intros; [done|]. etrans; eauto. Qed.

(** A cache operation of the alphabet, wrapped. *)
Lemma frame_op op r : reg_frame r (on_cache (cache_apply op) r).
Proof. apply frame_cache, cache_apply_quiet. Qed.

Lemma frame_retry_stream id r : reg_frame r (retry_stream id r).
Proof.
  unfold retry_stream. pose proof (frame_op (OpCloseTakeBye id) r) as Hf. unfold reg_frame in *. simpl in *.
  destruct (stream_close_take_bye id (general_cache r)) as [[cmd|] c]; done.
Qed.
Lemma frame_retry_talk id r : reg_frame r (retry_talk id r).
Proof.
  unfold retry_talk. pose proof (frame_op (OpTalkTakeBye id) r) as Hf. unfold reg_frame in *. simpl in *.
  destruct (talk_close_take_bye id (general_cache r)) as [[cmd|] c]; done.
Qed.
Lemma frame_retry_closes d r : reg_frame r (retry_closes d r).
Proof.
  unfold retry_closes, talk_retry_device, stream_retry_device.
  etrans; [|apply frame_foldl; intros; apply frame_retry_talk].
  apply frame_foldl; intros; apply frame_retry_stream.
Qed.
Lemma frame_stream_force id g r : reg_frame r (stream_force_cleanup id g r).
Proof.
  unfold stream_force_cleanup. pose proof (frame_op (OpCloseRemove id g) r) as Hf.
  unfold reg_frame, stream_close_force in *. simpl in *.
  destruct (stream_close_remove id g (general_cache r)) as [[info|] c]; done.
Qed.
Lemma frame_stream_begin now id r : reg_frame r (stream_begin accepts now id r).
Proof.
  unfold stream_begin. pose proof (frame_op (OpCloseBegin id) r) as Hf.
  assert (forall k ttl (r : Inner), device_key k = false -> reg_frame r (timer_insert accepts k ttl r).2) as Hins.
  { intros k ttl r0 Hk. apply frame_cache. by eapply quiet_request. }
  destruct (stream_close_begin id (general_cache r)) as [[start|] c] eqn:Hb;
    (assert (reg_frame r (on_cache (fun _ => c) r)) as Hf1
       by (unfold reg_frame in *; simpl in *; rewrite Hb in Hf; done)); [|done].
  destruct (negb _); [done|]. etrans; [exact Hf1|]. clear Hf1.
  destruct (session _ !! _) as [s|].
  - destruct (_ =? 0); [apply frame_stream_force|].
    simpl. etrans; [apply (Hins (StreamClosing id (scs_generation start)) (reconnect_timeout now s)); done|].
    apply frame_retry_stream.
  - destruct (stream_is_restored _ _); [done|apply frame_stream_force].
Qed.
Lemma frame_talk_begin now id r : reg_frame r (talk_begin accepts now id r).2.
Proof.
  unfold talk_begin. pose proof (frame_op (OpTalkCloseBegin id) r) as Hf.
  assert (forall g (r : Inner), reg_frame r (talk_force_cleanup id g r)) as Hforce
    by (intros; apply (frame_op (OpTalkComplete id g))).
  destruct (talk_close_begin id (general_cache r)) as [[start|] c] eqn:Hb;
    (assert (reg_frame r (on_cache (fun _ => c) r)) as Hf1
       by (unfold reg_frame in *; simpl in *; rewrite Hb in Hf; done)); [|done].
  destruct (negb _); [done|]. etrans; [exact Hf1|]. clear Hf1.
  destruct (session _ !! _) as [s|]; [|apply Hforce].
  destruct (_ =? 0); [apply Hforce|]. simpl. etrans; [|apply frame_retry_talk].
  apply frame_cache. by eapply quiet_request.
Qed.
Lemma frame_stream_answer cmd res r : reg_frame r (stream_send_bye_answer cmd res r).
Proof.
  unfold stream_send_bye_answer, stream_mark_failed. destruct res as [err|].
  - pose proof (frame_op (OpCloseMarkFailed (sbc_stream_id cmd) (sbc_generation cmd) (sbc_seq cmd) err) r) as Hf.
    unfold reg_frame in *. simpl in *.
    destruct (stream_close_mark_failed _ _ _ _ _) as [b c]. rewrite andb_false_r. done.
  - apply (frame_op (OpCloseRemove (sbc_stream_id cmd) (sbc_generation cmd))).
Qed.
Lemma frame_talk_answer cmd res r : reg_frame r (talk_send_bye_answer cmd res r).
Proof.
  unfold talk_send_bye_answer, talk_mark_failed. destruct res as [err|].
  - pose proof (frame_op (OpTalkMarkFailed (tbc_talk_id cmd) (tbc_generation cmd) (tbc_seq cmd) err) r) as Hf.
    unfold reg_frame in *. simpl in *.
    destruct (talk_close_mark_failed _ _ _ _ _) as [b c]. rewrite andb_false_r. done.
  - apply (frame_op (OpTalkComplete (tbc_talk_id cmd) (tbc_generation cmd))).
Qed.

(** ** Armed timers, as a boolean *)

Definition armedb (r : Inner) (k : TimeScheduleKey) : bool :=
  armed_after (requests (general_cache r)) (SRegister k).

Lemma armedb_insert k ttl r k' :
  armedb (timer_insert accepts k ttl r).2 k' = if decide (k' = k) then true else armedb r k'.
Proof.
  unfold armedb. simpl. rewrite armed_after_snoc. simpl.
  destruct (decide (SRegister k' = SRegister k)), (decide (k' = k)); congruence.
Qed.
Lemma armedb_remove k r k' :
  armedb (timer_remove k r) k' = if decide (k' = k) then false else armedb r k'.
Proof.
  unfold armedb. simpl. rewrite armed_after_snoc. simpl.
  destruct (decide (SRegister k' = SRegister k)), (decide (k' = k)); congruence.
Qed.
Lemma armedb_refresh k r k' : armedb (timer_refresh accepts k r).2 k' = armedb r k'.
Proof. unfold armedb. simpl. by rewrite armed_after_snoc. Qed.
Lemma armedb_frame r r' k : reg_frame r r' -> device_key k = true -> armedb r' k = armedb r k.
Proof. intros [_ Hq] Hk. unfold armedb. by apply quiet_armed. Qed.
Lemma armedb_io_map f r k : armedb (on_io_map f r) k = armedb r k.
Proof. done. Qed.

Lemma reg_wf_frame r r' : reg_frame r r' -> reg_wf r -> reg_wf r'.
Proof.
  intros Hf [Hn Ht]. pose proof Hf as [Hio _]. split; [by rewrite Hio|].
  intros d s. rewrite Hio. intros Hs. destruct (Ht d s Hs) as (T1 & T2 & T3).
  unfold device_timers, armed in *.
  pose proof (armedb_frame _ _ (DeviceRegistration d) Hf eq_refl) as E1.
  pose proof (armedb_frame _ _ (Device3Heart d) Hf eq_refl) as E2.
  pose proof (armedb_frame _ _ (DeviceReconnect d (connection_generation s)) Hf eq_refl) as E3.
  unfold armedb in *. rewrite E1, E2, E3. done.
Qed.

(** One device changes; the others keep their session or are displaced while
    connected; timers of other devices are untouched. *)
Definition key_device (k : TimeScheduleKey) : option string :=
  match k with
  | Device3Heart d | DeviceRegistration d | DeviceReconnect d _ => Some d
  | _ => None
  end.

Lemma reg_wf_step d r r' :
  net_wf False (io_map r') ->
  (forall k e, key_device k = Some e -> e <> d -> armedb r' k = armedb r k) ->
  (forall e s', e <> d -> session (io_map r') !! e = Some s' ->
     session (io_map r) !! e = Some s' \/
     exists s, session (io_map r) !! e = Some s /\ connected s = true /\
       connected s' = false /\ association_expire s' = true) ->
  (forall s', session (io_map r') !! d = Some s' -> device_timers r' d s') ->
  reg_wf r -> reg_wf r'.
Proof.
  intros Hn Hk Ho Hd [_ Ht]. split; [done|]. intros e s' Hs'.
  destruct (decide (e = d)) as [->|He]; [auto|].
  pose proof (Hk (DeviceRegistration e) e eq_refl He) as E1.
  pose proof (Hk (Device3Heart e) e eq_refl He) as E2.
  pose proof (fun g => Hk (DeviceReconnect e g) e eq_refl He) as E3.
  unfold armedb in *. unfold device_timers, armed in *.
  destruct (Ho e s' He Hs') as [Hs|(s & Hs & Hc & Hc' & Hx')]; destruct (Ht _ _ Hs) as (T1 & T2 & T3).
  - rewrite E1, E2, E3. done.
  - rewrite E1, E2. split_and!; [done|auto|congruence].
Qed.

(** ** The operations of the register *)

Lemma armedb_close_tcp (s : DeviceSession A) (r : Inner) k : armedb (close_tcp_if_needed s r) k = armedb r k.
Proof. unfold close_tcp_if_needed. by case_match. Qed.
Lemma io_map_close_tcp (s : DeviceSession A) (r : Inner) : io_map (close_tcp_if_needed s r) = io_map r.
Proof. unfold close_tcp_if_needed. by case_match. Qed.
Lemma io_map_timer_remove k (r : Inner) : io_map (timer_remove k r) = io_map r.
Proof. done. Qed.
Lemma io_map_timer_insert k ttl (r : Inner) : io_map (timer_insert accepts k ttl r).2 = io_map r.
Proof. done. Qed.
Lemma armedb_reset d (r : Inner) k : device_key k = true -> armedb (on_cache (reset_device_state d) r) k = armedb r k.
Proof. intros. apply armedb_frame; [|done]. apply frame_cache, reset_device_quiet. Qed.

Lemma device_timers_connected (r : Inner) d s :
  connected s = true -> armedb r (DeviceRegistration d) = true -> armedb r (Device3Heart d) = true ->
  device_timers r d s.
Proof. intros Hc H1 H2. split_and!; [done|done|congruence]. Qed.

Hint Rewrite @armedb_insert @armedb_remove @armedb_refresh @armedb_close_tcp @armedb_io_map : armed.
Ltac armed_simpl := autorewrite with armed; repeat case_decide; simplify_eq/=; try done.

(** Others in a displacing take-over. *)
Lemma take_over_others full d a sd (n n1 : Network A) e s' :
  net_wf full n -> session n1 = session n ->
  (forall b o, net_device_map n1 !! b = Some o -> net_device_map n !! b = Some o) ->
  e <> d -> session (take_over mark_displaced_next d a sd n1) !! e = Some s' ->
  session n !! e = Some s' \/
  exists s, session n !! e = Some s /\ connected s = true /\ connected s' = false /\ association_expire s' = true.
Proof.
  intros Hwf Hses Hmap He. rewrite take_over_lookup, decide_False by done. rewrite Hses.
  case_decide as Hm; [|by left]. intros (s & Hs & ->)%fmap_Some. right. exists s.
  apply Hmap in Hm. destruct (net_owner _ _ Hwf _ _ Hm) as (s0 & Hs0 & _ & Hc). simplify_eq. done.
Qed.

Lemma remove_mapping_mono d a (n : Network A) b o :
  net_device_map (remove_device_mapping d a n) !! b = Some o -> net_device_map n !! b = Some o.
Proof. rewrite remove_mapping_lookup. by case_decide. Qed.

Lemma device_heart_wf now d a (r : Inner) : reg_wf r -> reg_wf (device_heart accepts now d a r).2.
Proof.
  intros Hwf. pose proof (reg_net _ Hwf) as Hn. unfold device_heart.
  destruct (session (io_map r) !! d) as [s|] eqn:Hs; [|done].
  destruct (reg_timers _ Hwf _ _ Hs) as (T1 & T2 & T3). change (armedb r (DeviceRegistration d) = true) in T1.
  pose proof (rebind_wf _ d a now _ Hn) as Hn'. rewrite (rebind_eq _ _ _ _ _ Hs) in *. simpl in Hn'.
  set (n' := take_over _ _ _ _ _) in *.
  assert (forall e s', e <> d -> session n' !! e = Some s' -> session (io_map r) !! e = Some s' \/
     exists s, session (io_map r) !! e = Some s /\ connected s = true /\
       connected s' = false /\ association_expire s' = true) as Hoth.
  { intros e s' He. eapply take_over_others; [exact Hn|..|done].
    - case_bool_decide; [apply remove_mapping_session|done].
    - intros b o. case_bool_decide; [apply remove_mapping_mono|done]. }
  assert (forall s', session n' !! d = Some s' -> connected s' = true) as Hself.
  { intros s'. unfold n'. rewrite take_over_lookup, decide_True by done. by intros [= <-]. }
  destruct (connected s) eqn:Hc; cbn [timer_refresh fst snd].
  - assert (armedb r (Device3Heart d) = true) as T2' by (apply T2; by left).
    apply (reg_wf_frame (timer_refresh accepts (Device3Heart d) (if bool_decide (association s <> a)
      then close_tcp_if_needed s (on_io_map (fun _ => n') r) else on_io_map (fun _ => n') r)).2).
    { simpl. case_match; [apply frame_retry_closes|done]. }
    apply (reg_wf_step d r); [| | | |done].
    + simpl. case_bool_decide; by rewrite ?io_map_close_tcp.
    + intros k e _ _. case_bool_decide; armed_simpl.
    + intros e s'. simpl. case_bool_decide; rewrite ?io_map_close_tcp; apply Hoth.
    + intros s' Hs'. assert (connected s' = true) as Hc'.
      { apply Hself. revert Hs'. simpl. case_bool_decide; by rewrite ?io_map_close_tcp. }
      apply device_timers_connected; [done|..]; case_bool_decide; armed_simpl.
  - unfold try_insert. cbn [timer_insert]. 
    match goal with |- context [timer_remove ?k ?x] => set (r2 := x) end.
    apply (reg_wf_frame (timer_insert accepts (Device3Heart d) (heartbeat_timeout (heartbeat_sec s))
      (timer_remove (DeviceReconnect d (connection_generation s)) r2)).2).
    { simpl. apply frame_retry_closes. }
    assert (io_map r2 = n') as Hio by (unfold r2; case_bool_decide; by rewrite ?io_map_close_tcp).
    assert (forall k, armedb r2 k = armedb r k) as Har
      by (intros; unfold r2; case_bool_decide; armed_simpl).
    apply (reg_wf_step d r); [| | | |done]; rewrite ?io_map_timer_insert, ?io_map_timer_remove, ?Hio; [done|..].
    + intros k e Hk He. armed_simpl; apply Har.
    + done.
    + intros s' Hs'%Hself. apply device_timers_connected; [done|..]; armed_simpl; by rewrite ?Har.
Qed.

Lemma remove_device_net d (r : Inner) :
  net_wf False (io_map r) -> net_wf False (io_map (remove_device_by_inner d r).2).
Proof.
  intros Hn. unfold remove_device_by_inner. simpl.
  destruct (session (io_map r) !! d) as [s|] eqn:Hs; simpl; [|done].
  destruct (association_expire s) eqn:Hx; simpl.
  - apply delete_session_wf; [done|]. intros b Hb.
    destruct (net_owner _ _ Hn _ _ Hb) as (s0 & Hs0 & _ & Hc). simplify_eq.
    destruct (net_connected _ _ Hn _ _ Hs Hc). congruence.
  - pose proof (delete_session_wf False d _ (drop_own_mapping_wf False d s _ Hn Hs)) as Hdel.
    assert (forall b, net_device_map (remove_device_mapping d (association s) (io_map r)) !! b <> Some d) as Hno
      by (intros b; by eapply own_mapping_dropped).
    specialize (Hdel Hno). apply (delete_net_wf _ (association s)) in Hdel.
    match type of Hdel with net_wf _ ?x => match goal with |- net_wf _ ?y => replace y with x; [done|] end end.
    apply network_eq; simpl.
    + by rewrite delete_insert_eq, remove_mapping_session.
    + unfold remove_device_mapping. case_bool_decide; [|done]. simpl. by rewrite delete_delete_eq.
Qed.

Lemma remove_device_session d (r : Inner) e :
  session (io_map (remove_device_by_inner d r).2) !! e
  = if decide (e = d) then None else session (io_map r) !! e.
Proof.
  unfold remove_device_by_inner. simpl. destruct (session (io_map r) !! d) as [s|] eqn:Hs; simpl.
  - assert (delete d (session (io_map r)) !! e = if decide (e = d) then None else session (io_map r) !! e)
      as Hd by (case_decide; subst; by simplify_map_eq).
    by destruct (association_expire s).
  - case_decide; by subst.
Qed.

Lemma remove_device_armed d (r : Inner) k :
  key_device k <> Some d -> armedb (remove_device_by_inner d r).2 k = armedb r k.
Proof.
  intros Hk. unfold remove_device_by_inner. simpl.
  assert (forall k' (r : Inner), key_device k' = Some d -> armedb (timer_remove k' r) k = armedb r k) as Hrm.
  { intros k' r0 Hk'. rewrite armedb_remove, decide_False; congruence. }
  destruct (session (io_map r) !! d) as [s|]; simpl; [|by rewrite !Hrm].
  destruct (association_expire s); rewrite ?armedb_io_map, !Hrm by done; rewrite ?armedb_io_map; by rewrite !Hrm.
Qed.

Lemma remove_device_wf d (r : Inner) : reg_wf r -> reg_wf (remove_device_by_inner d r).2.
Proof.
  intros Hwf. apply (reg_wf_step d r); [|..|done].
  - apply remove_device_net, Hwf.
  - intros k e Hk He. apply remove_device_armed. congruence.
  - intros e s' He. rewrite remove_device_session, decide_False by done. by left.
  - intros s'. by rewrite remove_device_session, decide_True.
Qed.

Lemma expire_disconnected_wf d g (r : Inner) : reg_wf r -> reg_wf (expire_disconnected_by_inner d g r).2.
Proof.
  intros Hwf. unfold expire_disconnected_by_inner.
  pose proof (remove_disconnected_wf False d g _ (reg_net _ Hwf)) as Hn.
  assert (forall e s', session (remove_disconnected d g (io_map r)).2 !! e = Some s' ->
    session (io_map r) !! e = Some s' /\
    (e = d -> (remove_disconnected d g (io_map r)).1 = None)) as Hlook.
  { intros e s'. unfold remove_disconnected. destruct (session (io_map r) !! d) as [s|]; [|done].
    destruct (_ && _); [|done]. simpl. rewrite remove_mapping_session. simpl.
    intros [? ?]%lookup_delete_Some. split; congruence. }
  destruct (remove_disconnected d g (io_map r)) as [[s|] n] eqn:Hrm; simpl in Hn, Hlook.
  - eapply reg_wf_frame; [etrans; [apply frame_cache, reset_device_quiet|apply frame_emit]|].
    apply (reg_wf_step d r); [done|..|done].
    + intros k e Hk He. armed_simpl.
    + intros e s' _ Hs'. left. by apply Hlook.
    + intros s' Hs'. by destruct (Hlook _ _ Hs') as [_ ?%(fun f => f eq_refl)].
  - simpl. destruct Hwf as [_ Ht]. split; [done|]. intros e s' Hs'. apply Hlook in Hs' as [Hs' _].
    exact (Ht _ _ Hs').
Qed.

Lemma register_afresh_wf d b ds (r : Inner) :
  session_fresh ds -> reg_wf r -> reg_wf (register_afresh accepts d b ds r).2.
Proof.
  intros Hds Hwf. unfold register_afresh.
  pose proof (remove_device_wf d r Hwf) as Hwf1. pose proof (remove_device_session d r d) as Hnone.
  rewrite decide_True in Hnone by done.
  destruct (remove_device_by_inner d r) as [previous r1]. simpl in Hwf1, Hnone.
  unfold try_insert. cbn [timer_insert fst snd].
  set (r2 := match previous with Some p => _ | None => r1 end).
  assert (reg_frame r1 r2) as F2.
  { unfold r2. destruct previous; [|done]. case_bool_decide; [apply frame_close_tcp|done]. }
  set (r3 := if b then on_cache (reset_device_state d) r2 else r2).
  assert (reg_frame r1 r3) as F3.
  { etrans; [exact F2|]. unfold r3. destruct b; [apply frame_cache, reset_device_quiet|done]. }
  clearbody r2 r3. clear F2.
  set (r5 := on_cache _ (on_cache _ r3)).
  assert (forall k, armedb r5 k = if decide (k = DeviceRegistration d) then true
            else if decide (k = Device3Heart d) then true else armedb r3 k) as Har.
  { intros k. unfold r5.
    change (on_cache (request (insert_register (Device3Heart d) (heartbeat_timeout (heartbeat_sec ds)))) r3)
      with (timer_insert accepts (Device3Heart d) (heartbeat_timeout (heartbeat_sec ds)) r3).2.
    match goal with |- armedb (on_cache _ ?x) k = _ =>
      change (armedb (timer_insert accepts (DeviceRegistration d) (registration_duration ds) x).2 k
        = if decide (k = DeviceRegistration d) then true
            else if decide (k = Device3Heart d) then true else armedb r3 k) end.
    by rewrite !armedb_insert. }
  apply (reg_wf_frame (on_io_map (insert_session d ds) r5)).
  { destruct b; [done|]. apply frame_retry_closes. }
  assert (io_map (on_io_map (insert_session d ds) r5) = insert_session d ds (io_map r1)) as Hio
    by (destruct F3 as [<- _]; done).
  pose proof (reg_net _ Hwf1) as Hn1.
  apply (reg_wf_step d r1); [| | | |done]; rewrite ?Hio.
  - apply insert_session_wf; [done|done|apply Hds].
  - intros k e Hk He. rewrite armedb_io_map, Har.
    rewrite !decide_False by (intros ->; simpl in Hk; congruence).
    apply armedb_frame; [done|]. by destruct k.
  - intros e s' He. rewrite insert_session_take_over.
    rewrite take_over_lookup, decide_False by done. case_decide as Hm; [|by left].
    intros (s & Hs & ->)%fmap_Some. right. exists s.
    destruct (net_owner _ _ Hn1 _ _ Hm) as (s0 & Hs0 & _ & Hc). by simplify_eq.
  - intros s'. rewrite insert_session_take_over, take_over_lookup, decide_True by done. intros [= <-].
    apply device_timers_connected; [done|..]; rewrite armedb_io_map, Har; repeat case_decide; done.
Qed.

Lemma on_io_map_same (r : Inner) : on_io_map (fun _ => io_map r) r = r.
Proof. by destruct r. Qed.

Lemma register_device_wf d ds (r : Inner) :
  session_fresh ds -> reg_wf r -> reg_wf (register_device accepts d ds r).2.
Proof.
  intros Hds Hwf. unfold register_device. destruct (match _ with Some _ => _ | None => false end);
    [by apply register_afresh_wf|].
  pose proof (reg_net _ Hwf) as Hn. pose proof (rebind_registration_wf False d ds _ Hn Hds) as Hn'.
  assert (rebind_registration d ds (io_map r) = (inr ds, io_map r) \/
    exists s, session (io_map r) !! d = Some s /\ connected s = false) as [Hrb|(s & Hs & Hc)].
  { unfold rebind_registration. destruct (session (io_map r) !! d) as [s|]; [|by left].
    destruct (connected s) eqn:Hc; [by left|right; eauto]. }
  { rewrite Hrb. rewrite on_io_map_same. by apply register_afresh_wf. }
  rewrite (rebind_registration_eq _ _ _ _ Hs Hc) in *. simpl in Hn'. set (n' := take_over _ _ _ _ _) in *.
  unfold try_insert. cbn [timer_insert].
  set (r1 := on_io_map (fun _ => n') r).
  set (r3 := (timer_insert accepts (DeviceRegistration d) (registration_duration ds)
    (timer_insert accepts (Device3Heart d) (heartbeat_timeout (heartbeat_sec ds))
      (timer_remove (DeviceReconnect d (connection_generation s)) r1)).2).2).
  apply (reg_wf_frame r3); [apply frame_retry_closes|].
  assert (forall k, armedb r3 k = if decide (k = DeviceRegistration d) then true
      else if decide (k = Device3Heart d) then true
      else if decide (k = DeviceReconnect d (connection_generation s)) then false else armedb r k) as Har
    by (intros k; unfold r3; by rewrite !armedb_insert, armedb_remove).
  apply (reg_wf_step d r); [done|..|done].
  - intros k e Hk He. rewrite Har. by rewrite !decide_False by (intros ->; simpl in Hk; congruence).
  - intros e s' He. eapply (take_over_others False d _ _ (io_map r)); [done|..|done].
    + apply remove_mapping_session.
    + apply remove_mapping_mono.
  - intros s'. change (io_map r3) with n'. unfold n'. rewrite take_over_lookup, decide_True by done.
    intros [= <-]. apply device_timers_connected; [apply Hds|..]; rewrite Har; repeat case_decide; done.
Qed.

(** No generation is about to wrap. *)
Definition gens_room (r : Inner) : Prop :=
  forall d s, session (io_map r) !! d = Some s -> connection_generation s < umax 64.

Lemma detach_device_wf now a (r : Inner) :
  gens_room r -> reg_wf r -> reg_wf (detach_device_association accepts now a r).2.
Proof.
  intros Hroom Hwf. unfold detach_device_association. pose proof (reg_net _ Hwf) as Hn.
  pose proof (detach_wf False a now _ Hn) as Hn'.
  assert (detach_association a now (io_map r) = (None, io_map r) \/ exists d s,
    net_device_map (io_map r) !! a = Some d /\ session (io_map r) !! d = Some s /\
    connected s = true /\ association s = a) as [Hdet|(d & s & Ha & Hs & Hc & Has)].
  { unfold detach_association. destruct (net_device_map (io_map r) !! a) as [d|]; [|by left].
    destruct (session (io_map r) !! d) as [s|] eqn:Hs; [|by left]. case_bool_decide; [by left|].
    destruct (connected s) eqn:Hc; [right|by left]. exists d, s.
    split_and!; try done; by destruct (decide (association s = a)). }
  { rewrite Hdet. by rewrite on_io_map_same. }
  unfold detach_association in Hn' |- *. rewrite Ha, Hs, Has in Hn' |- *.
  rewrite bool_decide_false in Hn' |- * by (intros F; by apply F). rewrite Hc in Hn' |- *.
  cbn [da_device_id da_generation da_timeout fst snd] in *.
  set (n1 := on_session _ _) in *. set (s1 := with_link a false _ _ _ s) in *.
  cbn [timer_insert].
  set (r2 := (timer_insert accepts (DeviceReconnect d (saturating_add 64 (connection_generation s) 1))
     (reconnect_timeout now s1) (timer_remove (Device3Heart d) (on_io_map (fun _ => n1) r))).2).
  change (reg_wf r2).
  assert (forall k, armedb r2 k = if decide (k = DeviceReconnect d (saturating_add 64 (connection_generation s) 1))
      then true else if decide (k = Device3Heart d) then false else armedb r k) as Har
    by (intros k; unfold r2; by rewrite armedb_insert, armedb_remove).
  destruct (net_gens _ _ Hn _ _ Hs) as [G0 G1].
  apply (reg_wf_step d r); [done|..|done].
  - intros k e Hk He. rewrite Har. by rewrite !decide_False by (intros ->; simpl in Hk; congruence).
  - intros e s' He Hs'. left. revert Hs'. change (io_map r2) with n1. unfold n1. simpl.
    by rewrite lookup_insert_ne, remove_mapping_session.
  - intros s'. change (io_map r2) with n1. unfold n1. simpl. rewrite lookup_insert_eq. intros [= <-].
    destruct (reg_timers _ Hwf _ _ Hs) as (T1 & _ & _). change (armedb r (DeviceRegistration d) = true) in T1.
    destruct (net_connected _ _ Hn _ _ Hs Hc) as [Hx _].
    unfold device_timers, armed. fold (armedb r2 (DeviceRegistration d)) (armedb r2 (Device3Heart d))
      (armedb r2 (DeviceReconnect d (connection_generation s1))). rewrite !Har. simpl.
    split_and!; [done|intros [?|?]; congruence|]. intros _ _. rewrite decide_True; [done|]. f_equal.
    specialize (Hroom _ _ Hs). unfold saturating_add, umax in *. rewrite wrapping_add_small; lia.
Qed.

(** ** Expiry *)

(** The wheel reports [key]: it is no longer pending, and the batch with it is
    handled. *)
Definition fire (now : Z) (key : ScheduleKey) (r : Inner) : Inner :=
  on_time_schedule now [key] (on_cache (request (ReqDelete key)) r).

Lemma fire_frame now key (r : Inner) :
  about_device key = false -> reg_frame r (fire now key r).
Proof.
  intros Hk. unfold fire, on_time_schedule.
  assert (reg_frame r (on_cache (request (ReqDelete key)) r)) as F0
    by (apply frame_cache; by eapply quiet_request).
  etrans; [exact F0|]. destruct key as [key|key]; [destruct key|]; simpl in *; try done.
  - apply (frame_op (OpCloseRemove stream_id generation)).
  - apply (frame_op (OpTalkComplete talk_id generation)).
  - apply frame_cache, purge_quiet.
Qed.

(** Expiry of the registration or of the heart-beat. *)
Lemma fire_device now k d (r : Inner) :
  k = Device3Heart d \/ k = DeviceRegistration d ->
  let r1 := (remove_device_by_inner d (timer_remove k r)).2 in
  reg_frame r1 (fire now (SRegister k) r) /\
  effects (fire now (SRegister k) r) = effects r ++
    match session (io_map r) !! d with
    | Some s => (match assoc_protocol (association s) with
                 | TCP => [CloseTransport (association s)] | UDP => [] end)
                ++ [TrySendEvent (DeviceOffline d)]
    | None => []
    end.
Proof.
  intros Hk. assert (fire now (SRegister k) r =
    match remove_device_by_inner d (timer_remove k r) with
    | (Some s, r1) => emit (TrySendEvent (DeviceOffline d))
             (close_tcp_if_needed s (on_cache (reset_device_state d) r1))
    | (None, r1) => r1
    end) as ->.
  { unfold fire, on_time_schedule, timer_remove, remove_register. simpl foldl.
    destruct Hk as [-> | ->]; by destruct (remove_device_by_inner d _) as [[s|] r1]. }
  assert (effects (remove_device_by_inner d (timer_remove k r)).2 = effects r /\
    (remove_device_by_inner d (timer_remove k r)).1 = session (io_map r) !! d) as [He Hres].
  { unfold remove_device_by_inner. simpl. destruct (session (io_map r) !! d) as [s|]; [|done].
    simpl. by destruct (association_expire s). }
  destruct (remove_device_by_inner d (timer_remove k r)) as [[s|] r1]; simpl in *; rewrite <- Hres.
  - split.
    + etrans; [|apply frame_emit]. etrans; [apply frame_cache, (reset_device_quiet d)|].
      apply frame_close_tcp.
    + unfold close_tcp_if_needed. rewrite <- He. destruct (assoc_protocol _); simpl; [done|].
      by rewrite <- app_assoc.
  - split; [done|]. by rewrite app_nil_r.
Qed.

Lemma fire_wf now key (r : Inner) : reg_wf r -> reg_wf (fire now key r).
Proof.
  intros Hwf. destruct (about_device key) eqn:Hk; [|by eapply reg_wf_frame; [apply fire_frame|]].
  assert (forall k d, k = Device3Heart d \/ k = DeviceRegistration d -> reg_wf (fire now (SRegister k) r)) as Hdev.
  { intros k d Hkd. eapply reg_wf_frame; [by apply (fire_device now k d r)|].
    assert (key_device k = Some d) as Hkd' by (by destruct Hkd as [-> | ->]).
    apply (reg_wf_step d r); [|..|done].
    - apply remove_device_net. apply Hwf.
    - intros k' e Hk' He. rewrite remove_device_armed by congruence.
      rewrite armedb_remove, decide_False; [done|congruence].
    - intros e s' He. rewrite remove_device_session, decide_False by done. by left.
    - intros s'. by rewrite remove_device_session, decide_True. }
  destruct key as [[d|d|d g| | | | |]|]; try done; [apply (Hdev _ d); by left|apply (Hdev _ d); by right|].
  set (r0 := timer_remove (DeviceReconnect d g) r).
  assert (fire now (SRegister (DeviceReconnect d g)) r = (expire_disconnected_by_inner d g r0).2) as -> by done.
  destruct (remove_disconnected d g (io_map r)) as [[s|] n] eqn:Hrm.
  - pose proof (remove_disconnected_wf False d g _ (reg_net _ Hwf)) as Hn. rewrite Hrm in Hn. simpl in Hn.
    unfold expire_disconnected_by_inner. change (io_map r0) with (io_map r). rewrite Hrm.
    eapply reg_wf_frame; [etrans; [apply frame_cache, reset_device_quiet|apply frame_emit]|].
    assert (forall e, session n !! e = if decide (e = d) then None else session (io_map r) !! e) as Hlook.
    { intros e. unfold remove_disconnected in Hrm. destruct (session (io_map r) !! d) as [s0|]; [|done].
      destruct (_ && _); [|done]. injection Hrm as _ <-. rewrite remove_mapping_session. simpl.
      case_decide; subst; by simplify_map_eq. }
    apply (reg_wf_step d r); [done|..|done].
    + intros k e Hk' He. unfold r0. armed_simpl.
    + intros e s' He. simpl. rewrite Hlook, decide_False by done. by left.
    + intros s'. simpl. by rewrite Hlook, decide_True.
  - assert (n = io_map r) as ->.
    { unfold remove_disconnected in Hrm. destruct (session (io_map r) !! d) as [s0|]; [|by simplify_eq].
      destruct (_ && _); by simplify_eq. }
    assert ((expire_disconnected_by_inner d g r0).2 = r0) as ->.
    { unfold expire_disconnected_by_inner. change (io_map r0) with (io_map r). rewrite Hrm. simpl.
      apply (on_io_map_same r0). }
    apply (reg_wf_step d r); [apply Hwf|..|done].
    + intros k e Hk' He. unfold r0. armed_simpl.
    + intros e s' He Hs'. by left.
    + intros s' Hs'. destruct (reg_timers _ Hwf _ _ Hs') as (T1 & T2 & T3).
      unfold device_timers, armed in *. fold (armedb r (DeviceRegistration d)) (armedb r (Device3Heart d))
        (armedb r (DeviceReconnect d (connection_generation s'))) in T1, T2, T3.
      fold (armedb r0 (DeviceRegistration d)) (armedb r0 (Device3Heart d))
        (armedb r0 (DeviceReconnect d (connection_generation s'))).
      unfold r0. rewrite !armedb_remove. split_and!; [done|done|]. intros Hc Hx.
      rewrite decide_False; [auto|]. intros [= Hg]. unfold remove_disconnected in Hrm.
      change (io_map r0) with (io_map r) in Hs'. rewrite Hs', Hc, Hg, Z.eqb_refl in Hrm. done.
Qed.

(** ** Recovery and the remaining operations *)

Lemma recover_session_wf now d a oauth device (r : Inner) :
  reg_wf r -> reg_wf (recover_device_session accepts remote_ip parse_ip now d a oauth device r).2.
Proof.
  intros Hwf. unfold recover_device_session.
  case_bool_decide; [by apply device_heart_wf|].
  destruct oauth as [[hb|]| |], device as [[dev|]| |]; try done.
  destruct (if str_eq_ignore_case _ "UDP" then _ else _); [|done].
  case_bool_decide; [done|]. destruct (parse_ip _); [|done]. case_bool_decide; [done|].
  destruct (gd_online_expire_time dev); [|done]. destruct (_ || _); [done|].
  apply register_device_wf; [|done]. split_and!; simpl; [done|done|]. unfold in_width. lia.
Qed.

Inductive reg_op :=
| RHeart (now : Z) (d : string) (a : A)
| RKeepalive (now : Z) (d : string) (a : A)
| RRecovered (now : Z) (d : string) (a : A) (oauth : outcome RegError (option Z))
    (device : outcome RegError (option GmvDevice))
| RRegister (d : string) (ds : DeviceSession A)
| RRemove (d : string)
| RDetach (now : Z) (a : A)
| RFire (now : Z) (key : ScheduleKey)
| RStreamClose (now : Z) (id : string)
| RTalkClose (now : Z) (id : string)
| RStreamAnswer (cmd : StreamByeCommand) (res : option string)
| RTalkAnswer (cmd : TalkByeCommand) (res : option string)
| RServerHeart (domain : string) (update : outcome RegError unit)
| RCache (op : cache_op).

Definition reg_apply (op : reg_op) (r : Inner) : Inner :=
  match op with
  | RHeart now d a => (device_heart accepts now d a r).2
  | RKeepalive now d a => (recover_device_on_keepalive accepts now d a r).2
  | RRecovered now d a o dev => recovery_finished accepts remote_ip parse_ip now d a o dev r
  | RRegister d ds => (register_device accepts d ds r).2
  | RRemove d => remove_device d r
  | RDetach now a => (detach_device_association accepts now a r).2
  | RFire now key => fire now key r
  | RStreamClose now id => stream_begin accepts now id r
  | RTalkClose now id => (talk_begin accepts now id r).2
  | RStreamAnswer cmd res => stream_send_bye_answer cmd res r
  | RTalkAnswer cmd res => talk_send_bye_answer cmd res r
  | RServerHeart dom u => (server_keep_heart_update_db accepts dom u r).2
  | RCache op => on_cache (cache_apply op) r
  end.

Definition reg_op_ok (op : reg_op) (r : Inner) : Prop :=
  match op with
  | RRegister _ ds => session_fresh ds
  | RDetach _ _ => gens_room r
  | _ => True
  end.

Definition reg_init : Inner := {|
  general_cache := Cache_init; io_map := net_init; recovering_devices := ∅;
  recovery_permits := MAX_DEVICE_RECOVERY_CONCURRENCY; effects := [] |}.

Inductive reg_reaches (from : Inner) : Inner -> Prop :=
| reg_refl : reg_reaches from from
| reg_step r op : reg_reaches from r -> reg_op_ok op r -> reg_reaches from (reg_apply op r).

Lemma reg_init_wf : reg_wf reg_init.
Proof. split; [apply (net_wf_weaken True), net_init_wf|]. intros d s. simpl. by rewrite lookup_empty. Qed.

Lemma reg_apply_wf op (r : Inner) : reg_op_ok op r -> reg_wf r -> reg_wf (reg_apply op r).
Proof.
  intros Hok Hwf. destruct op; cbn [reg_apply].
  - by apply device_heart_wf.
  - unfold recover_device_on_keepalive. case_bool_decide.
    + pose proof (device_heart_wf now d a r Hwf) as Hh.
      destruct (device_heart accepts now d a r) as [[]]; [eapply reg_wf_frame; [apply frame_emit|]|..]; done.
    + case_bool_decide; [done|]. simpl. destruct (0 <? _); (eapply reg_wf_frame; [|exact Hwf]; split; [done|by apply quiet_same]).
  - unfold recovery_finished. pose proof (recover_session_wf now d a oauth device r Hwf) as Hr.
    destruct (recover_device_session _ _ _ _ _ _ _ _ _) as [res r1]. simpl in Hr.
    eapply reg_wf_frame; [|exact Hr]. destruct res; (split; [done|by apply quiet_same]).
  - by apply register_device_wf.
  - unfold remove_device. eapply reg_wf_frame; [apply frame_cache, reset_device_quiet|].
    by apply remove_device_wf.
  - by apply detach_device_wf.
  - by apply fire_wf.
  - eapply reg_wf_frame; [apply frame_stream_begin|done].
  - eapply reg_wf_frame; [apply frame_talk_begin|done].
  - eapply reg_wf_frame; [apply frame_stream_answer|done].
  - eapply reg_wf_frame; [apply frame_talk_answer|done].
  - eapply reg_wf_frame; [|exact Hwf]. split; [done|]. by eapply quiet_request.
  - eapply reg_wf_frame; [apply frame_op|done].
Qed.

Lemma reg_reaches_wf (r : Inner) : reg_reaches reg_init r -> reg_wf r.
Proof. induction 1; eauto using reg_apply_wf, reg_init_wf. Qed.


(** Keep-alive.  A keep-alive of an unknown device is refused and changes
    nothing; for a registered device it always leaves it connected on the
    association the message came from, which then leads to it, with the
    heart-beat timer pending and the timer of an earlier loss cancelled, and
    with its registration data unchanged. *)
Theorem device_heart_spec (now : Z) (d : string) (a : A) (r : Inner) :
  reg_reaches reg_init r ->
  let '(result, r') := device_heart accepts now d a r in
  match session (io_map r) !! d with
  | None => result = Failed UnregisteredKeepalive /\ r' = r
  | Some s =>
      result = Done tt /\
      (exists s', session (io_map r') !! d = Some s' /\ connected s' = true /\
         association_expire s' = false /\ association s' = a /\ last_seen s' = now /\
         registration_expires_at s' = registration_expires_at s /\
         heartbeat_sec s' = heartbeat_sec s) /\
      net_device_map (io_map r') !! a = Some d /\
      armed r' (Device3Heart d) /\
      (connected s = false -> ~ armed r' (DeviceReconnect d (connection_generation s)))
  end.
Proof.
  intros Hr. pose proof (device_heart_wf now d a r (reg_reaches_wf _ Hr)) as Hwf'.
  unfold device_heart in *. destruct (session (io_map r) !! d) as [s|] eqn:Hs; [|done].
  rewrite (rebind_eq _ _ _ _ _ Hs) in *. set (n' := take_over _ _ _ _ _) in *.
  set (s' := with_link a true _ false now s) in *.
  assert (session n' !! d = Some s') as Hs' by (unfold n'; by rewrite take_over_lookup, decide_True).
  assert (net_device_map n' !! a = Some d) as Hnet by (unfold n'; simpl; apply lookup_insert_eq).
  set (r1 := if bool_decide (association s <> a) then close_tcp_if_needed s _ else _) in *.
  assert (io_map r1 = n') as Hio1 by (unfold r1; case_bool_decide; by rewrite ?io_map_close_tcp).
  assert (forall r4 : Inner, io_map r4 = n' -> reg_wf r4 -> (exists s', session (io_map r4) !! d = Some s' /\
      connected s' = true /\ association_expire s' = false /\ association s' = a /\ last_seen s' = now /\
      registration_expires_at s' = registration_expires_at s /\ heartbeat_sec s' = heartbeat_sec s) /\
      net_device_map (io_map r4) !! a = Some d /\ armed r4 (Device3Heart d)) as Hend.
  { intros r4 Hio4 Hwf4. rewrite Hio4. split; [exists s'; by split_and!|]. split; [done|].
    destruct (reg_timers _ Hwf4 d s') as (_ & T & _); [by rewrite Hio4|]. apply T. by left. }
  destruct (connected s) eqn:Hc; cbn [timer_refresh try_insert timer_insert fst snd] in *.
  - split; [done|]. edestruct Hend as (E1 & E2 & E3); [|exact Hwf'|by split_and!].
    set (r2 := on_cache _ r1). pose proof (frame_retry_closes d r2) as [E _].
    change (io_map r2) with (io_map r1) in E.
    case_match; simpl; [by rewrite E|exact Hio1].
  - unfold try_insert, timer_insert in *. simpl in *. split; [done|].
    set (r3 := on_cache _ (timer_remove _ r1)) in *.
    pose proof (frame_retry_closes d r3) as Hf. pose proof Hf as [Hf1 _].
    edestruct Hend as (E1 & E2 & E3); [|exact Hwf'|split_and!; [done|done|done|]].
    { by rewrite Hf1. }
    intros _ Harm. unfold armed in Harm. fold (armedb (retry_closes d r3) (DeviceReconnect d (connection_generation s))) in Harm.
    rewrite (armedb_frame r3 _ _ Hf) in Harm by done.
    change r3 with (timer_insert accepts (Device3Heart d) (heartbeat_timeout (heartbeat_sec s))
      (timer_remove (DeviceReconnect d (connection_generation s)) r1)).2 in Harm.
    by rewrite armedb_insert, armedb_remove, decide_False, decide_True in Harm by done.
Qed.

(** Removing a lost device can unroute another one.  [d]'s connection was
    lost (not displaced) and [e] has since taken over the association [d] still
    names.  The removal of [d] (a new registration, an expiry) deletes the
    association's entry although it is [e]'s: [e] is still reported as
    connected, but a message arriving on its association finds no device. *)
Theorem lost_device_removal_unroutes (r : Inner) (d e : string) (sd se : DeviceSession A) :
  session (io_map r) !! d = Some sd -> connected sd = false -> association_expire sd = false ->
  d <> e -> net_device_map (io_map r) !! association sd = Some e ->
  connected_session e (io_map r) = Some se -> association se = association sd ->
  let r' := (remove_device_by_inner d r).2 in
  get_connected_device_session e r' = Some se /\
  get_device_id_by_association (association se) r = Some e /\
  get_device_id_by_association (association se) r' = None.
Proof.
  intros Hd Hc Hx Hde Hnet He Ha r'. unfold get_connected_device_session, get_device_id_by_association.
  assert (session (io_map r') !! e = session (io_map r) !! e) as Hse
    by (unfold r'; rewrite remove_device_session, decide_False; congruence).
  split_and!.
  - unfold connected_session in *. by rewrite Hse.
  - by rewrite Ha.
  - unfold r', remove_device_by_inner. simpl. rewrite Hd. simpl. rewrite Hx. simpl.
    rewrite Ha. apply lookup_delete_eq.
Qed.

(** Recovery needs a valid lease.  A device without a session is recovered
    from a keep-alive only if it is authorised and stored, the message came over
    the stored transport and from the stored address, and neither the stored
    registration nor its online lease has run out; a refused recovery changes
    nothing. *)
Theorem recovery_needs_lease (now : Z) (d : string) (a : A) (oauth : outcome RegError (option Z))
    (device : outcome RegError (option GmvDevice)) (r : Inner) :
  session (io_map r) !! d = None ->
  let '(result, r') := recover_device_session accepts remote_ip parse_ip now d a oauth device r in
  (result = Done tt ->
    exists heartbeat dev online, oauth = Done (Some heartbeat) /\ device = Done (Some dev) /\
      gd_online_expire_time dev = Some online /\
      now < online /\ now < gd_register_time dev + gd_register_expires dev * 1000 /\
      parse_ip (gd_local_addr dev) = Some (remote_ip a) /\
      (str_eq_ignore_case (gd_transport dev) "UDP" = true /\ assoc_protocol a = UDP \/
       str_eq_ignore_case (gd_transport dev) "TCP" = true /\ assoc_protocol a = TCP)) /\
  (result <> Done tt -> r' = r).
Proof.
  intros Hs. unfold recover_device_session. rewrite Hs, bool_decide_false by (by intros []).
  destruct oauth as [[hb|]| |], device as [[dev|]| |]; try done.
  destruct (if str_eq_ignore_case _ "UDP" then _ else _) as [p|] eqn:Hp; [|done].
  case_bool_decide as Hpr; [done|]. destruct (parse_ip _) as [ip|] eqn:Hip; [|done].
  case_bool_decide as Hipa; [done|]. destruct (gd_online_expire_time dev) as [online|] eqn:Hon; [|done].
  destruct (_ || _) eqn:Hexp; [done|].
  assert (forall (b : bool) ds (r : Inner), (register_afresh accepts d b ds r).1 = Done tt) as Hfresh.
  { intros b ds r0. unfold register_afresh, try_insert. cbn [timer_insert].
    by destruct (remove_device_by_inner d r0). }
  unfold register_device, rebind_registration. rewrite Hs, on_io_map_same.
  match goal with |- context [register_afresh accepts d false ?ds r] =>
    specialize (Hfresh false ds r); destruct (register_afresh accepts d false ds r) as [res r'] end.
  simpl in Hfresh. subst res. split; [intros _|done]. exists hb, dev, online.
  apply orb_false_iff in Hexp as [?%Z.leb_gt ?%Z.leb_gt].
  assert (ip = remote_ip a) as <- by (by destruct (decide (ip = remote_ip a))).
  assert (assoc_protocol a = p) as Hap by (by destruct (decide (assoc_protocol a = p))).
  split_and!; try done. destruct (str_eq_ignore_case _ "UDP"); [left|]; simplify_eq; [done|].
  destruct (str_eq_ignore_case _ "TCP"); [right|]; simplify_eq; done.
Qed.
End RegisterInvariant.

(** ** A concrete run: the take-over *)

Notation demo_reg_apply := (reg_apply (A := Z) (fun a => a) (fun _ => Some 1)).
Notation demo_reg_reaches := (reg_reaches (A := Z) (fun a => a) (fun _ => Some 1)).

(** [d] registers on association 1 and loses it; [e] registers on it. *)
Definition demo_takeover : Inner (A := Z) :=
  demo_reg_apply (RRegister "e" (demo_session 1))
    (demo_reg_apply (RDetach 10 1) (demo_reg_apply (RRegister "d" (demo_session 1)) reg_init)).

Lemma demo_takeover_reached : demo_reg_reaches reg_init demo_takeover.
Proof.
  apply reg_step; [apply reg_step; [apply reg_step; [apply reg_refl|]|]|]; cbn [reg_op_ok].
  - apply demo_session_fresh.
  - match goal with |- gens_room ?r =>
      change (map_Forall (fun _ s => connection_generation s < umax 64) (session (io_map r))) end.
    apply (bool_decide_unpack _). by vm_compute.
  - apply demo_session_fresh.
Qed.


Lemma device_heart_spec_witness :
  exists r', device_heart (fun _ => true) 30 "d" 5 demo_takeover = (Done tt, r') /\
    net_device_map (io_map r') !! 5 = Some "d"%string.
Proof.
  pose proof (device_heart_spec _ _ 30 "d" 5 demo_takeover demo_takeover_reached) as Hh.
  destruct (device_heart (fun _ => true) 30 "d" 5 demo_takeover) as [res r'].
  destruct (session (io_map demo_takeover) !! "d") as [s|] eqn:Hs; [|by vm_compute in Hs].
  destruct Hh as (-> & _ & Hnet & _). exists r'. split; [reflexivity|exact Hnet].
Defined.

Lemma lost_device_removal_unroutes_witness :
  let r' := (remove_device_by_inner "d" demo_takeover).2 in
  (exists se, get_connected_device_session "e" r' = Some se /\ association se = 1) /\
  get_device_id_by_association 1 r' = None.
Proof.
  destruct (session (io_map demo_takeover) !! "d") as [sd|] eqn:Hd; [|by vm_compute in Hd].
  destruct (connected_session "e" (io_map demo_takeover)) as [se|] eqn:He; [|by vm_compute in He].
  assert (connected sd = false /\ association_expire sd = false /\ association sd = 1) as (E1 & E2 & E3)
    by (vm_compute in Hd; by simplify_eq).
  assert (association se = 1) as E4 by (vm_compute in He; by simplify_eq).
  assert (net_device_map (io_map demo_takeover) !! association sd = Some "e"%string) as Hn
    by (rewrite E3; by vm_compute).
  destruct (lost_device_removal_unroutes demo_takeover "d" "e" sd se Hd E1 E2 ltac:(done) Hn He
              ltac:(congruence)) as (H1 & _ & H3).
  rewrite E4 in H3. split; [exists se; split; [exact H1|exact E4]|exact H3].
Defined.

Lemma recovery_needs_lease_witness :
  let dev := {| gd_transport := "tcp"; gd_local_addr := "10.0.0.1:5060"; gd_register_time := 0;
     gd_register_expires := 3600; gd_online_expire_time := Some 9; gd_contact_uri := "sip:d";
     gd_gb_version := None; gd_enable_lr := 0 |} in
  exists r', recover_device_session (A := Z) (fun _ => true) (fun a => a) (fun _ => Some 1) 10 "d" 1
    (Done (Some 60)) (Done (Some dev)) reg_init = (Failed InvalidLease, r') /\ r' = reg_init.
Proof.
  intros dev. pose proof (recovery_needs_lease (fun a : Z => a) (fun _ => Some 1) 10 "d" 1
    (Done (Some 60)) (Done (Some dev)) reg_init ltac:(by vm_compute)) as H.
  destruct (recover_device_session _ _ _ _ _ _ _ _ _) as [res r'] eqn:Hr.
  assert (res = Failed InvalidLease) as Hres by (vm_compute in Hr; by simplify_eq).
  subst res. exists r'. split; [reflexivity|]. apply (proj2 H). discriminate.
Defined.
