(* ===== verification/StreamOutputs.v ===== *)
(** * Outputs of a media stream ([stream/src/state])

    [OutputCount] of [register.rs] (viewers per output), [MuxerEnum] of
    [media/context/format/muxer.rs], and the output and muxer layers of
    [layer.rs].  A layer is the handle of its broadcast channel; the arms the
    code leaves [unimplemented!()] panic. *)
From S2P Require Import Prelude SharedTypes.
Local Open Scope Z_scope.

(** ** Viewers per output: twelve 32-bit counters *)

Record OutputCount := {
  oc_http_flv : Z;
  oc_rtmp : Z;
  oc_dash_fmp4 : Z;
  oc_dash_mp4 : Z;
  oc_hls_fmp4 : Z;
  oc_hls_ts : Z;
  oc_rtsp : Z;
  oc_gb28181_frame : Z;
  oc_gb28181_ps : Z;
  oc_web_rtc : Z;
  oc_local_mp4 : Z;
  oc_local_ts : Z
}.
Definition OutputCount_default : OutputCount := {|
  oc_http_flv := 0; oc_rtmp := 0; oc_dash_fmp4 := 0; oc_dash_mp4 := 0; oc_hls_fmp4 := 0; oc_hls_ts := 0; oc_rtsp := 0; oc_gb28181_frame := 0; oc_gb28181_ps := 0; oc_web_rtc := 0; oc_local_mp4 := 0; oc_local_ts := 0 |}.

Definition get_muxer_size (output : OutputEnum) (c : OutputCount) : Z :=
  match output with
  | HttpFlv => oc_http_flv c
  | Rtmp => oc_rtmp c
  | DashFmp4 => oc_dash_fmp4 c
  | DashMp4 => oc_dash_mp4 c
  | HlsFmp4 => oc_hls_fmp4 c
  | HlsTs => oc_hls_ts c
  | Rtsp => oc_rtsp c
  | Gb28181Frame => oc_gb28181_frame c
  | Gb28181Ps => oc_gb28181_ps c
  | WebRtc => oc_web_rtc c
  | LocalMp4 => oc_local_mp4 c
  | LocalTs => oc_local_ts c
  end.

(** Store one counter. *)
Definition oc_store (output : OutputEnum) (v : Z) (c : OutputCount) : OutputCount :=
  match output with
  | HttpFlv => {| oc_http_flv := v; oc_rtmp := oc_rtmp c; oc_dash_fmp4 := oc_dash_fmp4 c; oc_dash_mp4 := oc_dash_mp4 c; oc_hls_fmp4 := oc_hls_fmp4 c; oc_hls_ts := oc_hls_ts c; oc_rtsp := oc_rtsp c; oc_gb28181_frame := oc_gb28181_frame c; oc_gb28181_ps := oc_gb28181_ps c; oc_web_rtc := oc_web_rtc c; oc_local_mp4 := oc_local_mp4 c; oc_local_ts := oc_local_ts c |}
  | Rtmp => {| oc_http_flv := oc_http_flv c; oc_rtmp := v; oc_dash_fmp4 := oc_dash_fmp4 c; oc_dash_mp4 := oc_dash_mp4 c; oc_hls_fmp4 := oc_hls_fmp4 c; oc_hls_ts := oc_hls_ts c; oc_rtsp := oc_rtsp c; oc_gb28181_frame := oc_gb28181_frame c; oc_gb28181_ps := oc_gb28181_ps c; oc_web_rtc := oc_web_rtc c; oc_local_mp4 := oc_local_mp4 c; oc_local_ts := oc_local_ts c |}
  | DashFmp4 => {| oc_http_flv := oc_http_flv c; oc_rtmp := oc_rtmp c; oc_dash_fmp4 := v; oc_dash_mp4 := oc_dash_mp4 c; oc_hls_fmp4 := oc_hls_fmp4 c; oc_hls_ts := oc_hls_ts c; oc_rtsp := oc_rtsp c; oc_gb28181_frame := oc_gb28181_frame c; oc_gb28181_ps := oc_gb28181_ps c; oc_web_rtc := oc_web_rtc c; oc_local_mp4 := oc_local_mp4 c; oc_local_ts := oc_local_ts c |}
  | DashMp4 => {| oc_http_flv := oc_http_flv c; oc_rtmp := oc_rtmp c; oc_dash_fmp4 := oc_dash_fmp4 c; oc_dash_mp4 := v; oc_hls_fmp4 := oc_hls_fmp4 c; oc_hls_ts := oc_hls_ts c; oc_rtsp := oc_rtsp c; oc_gb28181_frame := oc_gb28181_frame c; oc_gb28181_ps := oc_gb28181_ps c; oc_web_rtc := oc_web_rtc c; oc_local_mp4 := oc_local_mp4 c; oc_local_ts := oc_local_ts c |}
  | HlsFmp4 => {| oc_http_flv := oc_http_flv c; oc_rtmp := oc_rtmp c; oc_dash_fmp4 := oc_dash_fmp4 c; oc_dash_mp4 := oc_dash_mp4 c; oc_hls_fmp4 := v; oc_hls_ts := oc_hls_ts c; oc_rtsp := oc_rtsp c; oc_gb28181_frame := oc_gb28181_frame c; oc_gb28181_ps := oc_gb28181_ps c; oc_web_rtc := oc_web_rtc c; oc_local_mp4 := oc_local_mp4 c; oc_local_ts := oc_local_ts c |}
  | HlsTs => {| oc_http_flv := oc_http_flv c; oc_rtmp := oc_rtmp c; oc_dash_fmp4 := oc_dash_fmp4 c; oc_dash_mp4 := oc_dash_mp4 c; oc_hls_fmp4 := oc_hls_fmp4 c; oc_hls_ts := v; oc_rtsp := oc_rtsp c; oc_gb28181_frame := oc_gb28181_frame c; oc_gb28181_ps := oc_gb28181_ps c; oc_web_rtc := oc_web_rtc c; oc_local_mp4 := oc_local_mp4 c; oc_local_ts := oc_local_ts c |}
  | Rtsp => {| oc_http_flv := oc_http_flv c; oc_rtmp := oc_rtmp c; oc_dash_fmp4 := oc_dash_fmp4 c; oc_dash_mp4 := oc_dash_mp4 c; oc_hls_fmp4 := oc_hls_fmp4 c; oc_hls_ts := oc_hls_ts c; oc_rtsp := v; oc_gb28181_frame := oc_gb28181_frame c; oc_gb28181_ps := oc_gb28181_ps c; oc_web_rtc := oc_web_rtc c; oc_local_mp4 := oc_local_mp4 c; oc_local_ts := oc_local_ts c |}
  | Gb28181Frame => {| oc_http_flv := oc_http_flv c; oc_rtmp := oc_rtmp c; oc_dash_fmp4 := oc_dash_fmp4 c; oc_dash_mp4 := oc_dash_mp4 c; oc_hls_fmp4 := oc_hls_fmp4 c; oc_hls_ts := oc_hls_ts c; oc_rtsp := oc_rtsp c; oc_gb28181_frame := v; oc_gb28181_ps := oc_gb28181_ps c; oc_web_rtc := oc_web_rtc c; oc_local_mp4 := oc_local_mp4 c; oc_local_ts := oc_local_ts c |}
  | Gb28181Ps => {| oc_http_flv := oc_http_flv c; oc_rtmp := oc_rtmp c; oc_dash_fmp4 := oc_dash_fmp4 c; oc_dash_mp4 := oc_dash_mp4 c; oc_hls_fmp4 := oc_hls_fmp4 c; oc_hls_ts := oc_hls_ts c; oc_rtsp := oc_rtsp c; oc_gb28181_frame := oc_gb28181_frame c; oc_gb28181_ps := v; oc_web_rtc := oc_web_rtc c; oc_local_mp4 := oc_local_mp4 c; oc_local_ts := oc_local_ts c |}
  | WebRtc => {| oc_http_flv := oc_http_flv c; oc_rtmp := oc_rtmp c; oc_dash_fmp4 := oc_dash_fmp4 c; oc_dash_mp4 := oc_dash_mp4 c; oc_hls_fmp4 := oc_hls_fmp4 c; oc_hls_ts := oc_hls_ts c; oc_rtsp := oc_rtsp c; oc_gb28181_frame := oc_gb28181_frame c; oc_gb28181_ps := oc_gb28181_ps c; oc_web_rtc := v; oc_local_mp4 := oc_local_mp4 c; oc_local_ts := oc_local_ts c |}
  | LocalMp4 => {| oc_http_flv := oc_http_flv c; oc_rtmp := oc_rtmp c; oc_dash_fmp4 := oc_dash_fmp4 c; oc_dash_mp4 := oc_dash_mp4 c; oc_hls_fmp4 := oc_hls_fmp4 c; oc_hls_ts := oc_hls_ts c; oc_rtsp := oc_rtsp c; oc_gb28181_frame := oc_gb28181_frame c; oc_gb28181_ps := oc_gb28181_ps c; oc_web_rtc := oc_web_rtc c; oc_local_mp4 := v; oc_local_ts := oc_local_ts c |}
  | LocalTs => {| oc_http_flv := oc_http_flv c; oc_rtmp := oc_rtmp c; oc_dash_fmp4 := oc_dash_fmp4 c; oc_dash_mp4 := oc_dash_mp4 c; oc_hls_fmp4 := oc_hls_fmp4 c; oc_hls_ts := oc_hls_ts c; oc_rtsp := oc_rtsp c; oc_gb28181_frame := oc_gb28181_frame c; oc_gb28181_ps := oc_gb28181_ps c; oc_web_rtc := oc_web_rtc c; oc_local_mp4 := oc_local_mp4 c; oc_local_ts := v |}
  end.

(** The sum of the release build wraps. *)
Definition get_out_count (c : OutputCount) : Z :=
  (oc_http_flv c + oc_rtmp c + oc_dash_fmp4 c + oc_dash_mp4 c + oc_hls_fmp4 c + oc_hls_ts c + oc_rtsp c + oc_gb28181_frame c + oc_gb28181_ps c + oc_web_rtc c + oc_local_mp4 c + oc_local_ts c) mod 2 ^ 32.

Definition count_add (output : OutputEnum) (c : OutputCount) : Z * OutputCount :=
  let last := get_muxer_size output c in
  (wrapping_add 32 last 1, oc_store output (wrapping_add 32 last 1) c).

(** [subtract] is an atomic decrement and, when it found 0, a second store;
    other threads may run in between. *)
Definition subtract_fetch (output : OutputEnum) (c : OutputCount) : Z * OutputCount :=
  let last := get_muxer_size output c in
  (last, oc_store output (wrapping_sub 32 last 1) c).
Definition subtract_finish (output : OutputEnum) (last : Z) (c : OutputCount) : Z * OutputCount :=
  if last =? 1 then (0, c)
  else if last =? 0 then (0, oc_store output 0 c)
  else (last - 1, c).
Definition subtract (output : OutputEnum) (c : OutputCount) : Z * OutputCount :=
  let '(last, c1) := subtract_fetch output c in subtract_finish output last c1.

Lemma get_store (o o' : OutputEnum) (v : Z) (c : OutputCount) :
  get_muxer_size o (oc_store o' v c) = if decide (o = o') then v else get_muxer_size o c.
Proof. destruct o, o'; done. Qed.

Lemma store_store (o : OutputEnum) (v w : Z) (c : OutputCount) :
  oc_store o v (oc_store o w c) = oc_store o v c.
Proof. destruct o; done. Qed.

Lemma store_get (o : OutputEnum) (c : OutputCount) : oc_store o (get_muxer_size o c) c = c.
Proof. destruct o, c; done. Qed.

(** Every counter is a 32-bit word. *)
Definition counts_wf (c : OutputCount) : Prop := forall o, in_width 32 (get_muxer_size o c).

Lemma counts_store_wf (o : OutputEnum) (v : Z) (c : OutputCount) :
  in_width 32 v -> counts_wf c -> counts_wf (oc_store o v c).
Proof. intros Hv Hc o'. rewrite get_store. by case_decide. Qed.

Lemma count_add_small (o : OutputEnum) (c : OutputCount) :
  counts_wf c -> get_muxer_size o c < umax 32 ->
  count_add o c = (get_muxer_size o c + 1, oc_store o (get_muxer_size o c + 1) c) /\
  counts_wf (count_add o c).2.
Proof.
  intros Hc Hn. pose proof (Hc o) as Ho. unfold in_width, umax in *.
  assert (count_add o c = (get_muxer_size o c + 1, oc_store o (get_muxer_size o c + 1) c)) as Heq
    by (unfold count_add; rewrite wrapping_add_small by lia; done).
  split; [done|]. rewrite Heq. apply counts_store_wf; [unfold in_width; lia|done].
Qed.

Lemma subtract_small (o : OutputEnum) (c : OutputCount) :
  counts_wf c ->
  subtract o c = (Z.max 0 (get_muxer_size o c - 1), oc_store o (Z.max 0 (get_muxer_size o c - 1)) c).
Proof.
  intros Hc. pose proof (Hc o) as Ho. unfold in_width in Ho.
  unfold subtract, subtract_fetch, subtract_finish. set (n := get_muxer_size o c) in *.
  destruct (Z.eqb_spec n 1) as [->|]; [done|]. destruct (Z.eqb_spec n 0) as [->|]; simpl.
  - by rewrite store_store.
  - replace (Z.max 0 (n - 1)) with (n - 1) by lia. unfold wrapping_sub. by rewrite Z.mod_small by lia.
Qed.

(** A viewer that comes and goes. *)
Lemma subtract_add (o : OutputEnum) (c : OutputCount) :
  counts_wf c -> get_muxer_size o c < umax 32 ->
  subtract o (count_add o c).2 = (get_muxer_size o c, c).
Proof.
  intros Hc Hn. destruct (count_add_small o c Hc Hn) as [Heq Hwf]. pose proof (Hc o) as Ho.
  unfold in_width in Ho. rewrite subtract_small by done. rewrite Heq. simpl.
  rewrite get_store, decide_True by done.
  replace (Z.max 0 (get_muxer_size o c + 1 - 1)) with (get_muxer_size o c) by lia.
  by rewrite store_store, store_get.
Qed.

(** The viewer counters count.  On 32-bit counters that do not overflow,
    [add] and [subtract] are increment and truncated decrement of their own
    output's counter, return the new count, and touch no other output; an
    [add] undone by a [subtract] leaves everything as it was. *)
Theorem output_count_refines (o : OutputEnum) (c : OutputCount) :
  counts_wf c -> get_muxer_size o c < umax 32 ->
  let n := get_muxer_size o c in
  (count_add o c).1 = n + 1 /\ (subtract o c).1 = Z.max 0 (n - 1) /\
  (forall o', get_muxer_size o' (count_add o c).2 = if decide (o' = o) then n + 1 else get_muxer_size o' c) /\
  (forall o', get_muxer_size o' (subtract o c).2
     = if decide (o' = o) then Z.max 0 (n - 1) else get_muxer_size o' c) /\
  counts_wf (count_add o c).2 /\ counts_wf (subtract o c).2 /\
  (subtract o (count_add o c).2).2 = c.
Proof.
  intros Hc Hn n. pose proof (Hc o) as Ho. fold n in Ho. unfold in_width, umax in *.
  destruct (count_add_small o c Hc Hn) as [Hadd Hwf]. pose proof (subtract_small o c Hc) as Hsub.
  fold n in Hadd, Hsub. split_and!; [by rewrite Hadd|by rewrite Hsub|..|done| |by rewrite subtract_add].
  - intros o'. by rewrite Hadd; simpl; rewrite get_store.
  - intros o'. by rewrite Hsub; simpl; rewrite get_store.
  - rewrite Hsub. apply counts_store_wf; [unfold in_width; lia|done].
Qed.

Lemma output_count_refines_witness :
  (subtract HttpFlv (count_add HttpFlv OutputCount_default).2).2 = OutputCount_default.
Proof.
  assert (counts_wf OutputCount_default) as Hc by (intros o; destruct o; by vm_compute).
  destruct (output_count_refines HttpFlv OutputCount_default Hc ltac:(by vm_compute))
    as (_ & _ & _ & _ & _ & _ & H). exact H.
Defined.

(** A viewer can be lost.  When [subtract] finds 0 and a new viewer's [add]
    runs between its two steps, the new viewer is not counted. *)
Theorem subtract_race_loses_viewer (o : OutputEnum) (c : OutputCount) :
  get_muxer_size o c = 0 ->
  let '(last, c1) := subtract_fetch o c in
  let c2 := (count_add o c1).2 in
  let c3 := (subtract_finish o last c2).2 in
  last = 0 /\ get_muxer_size o c3 = 0 /\ c3 = c.
Proof.
  intros Hz. unfold subtract_fetch, count_add, subtract_finish. rewrite Hz. simpl.
  rewrite !store_store. assert (oc_store o 0 c = c) as -> by (rewrite <- Hz; apply store_get).
  done.
Qed.
Lemma subtract_race_loses_viewer_witness :
  let '(last, c1) := subtract_fetch Rtmp OutputCount_default in
  get_muxer_size Rtmp (subtract_finish Rtmp last (count_add Rtmp c1).2).2 = 0.
Proof.
  exact (proj1 (proj2 (subtract_race_loses_viewer Rtmp OutputCount_default eq_refl))).
Defined.

(** ** Muxers *)

Inductive MuxerEnum := Flv | Mp4 | Ts | FMp4 | HlsMp4 | DashMp4Muxer | HlsTsMuxer | RtpFrame | RtpPs | RtpEnc.
#[export] Instance MuxerEnum_eq_dec : EqDecision MuxerEnum.
Proof. solve_decision. Defined.

Definition from_output_enum (output_enum : OutputEnum) : MuxerEnum :=
  match output_enum with
  | HttpFlv => Flv | Rtmp => Flv | DashMp4 => DashMp4Muxer | DashFmp4 => FMp4 | HlsFmp4 => HlsMp4
  | HlsTs => Ts | Rtsp => RtpFrame | Gb28181Frame => RtpFrame | Gb28181Ps => RtpPs
  | WebRtc => RtpEnc | LocalMp4 => Mp4 | LocalTs => Ts
  end.

Inductive MediaError := NotFound | InvalidState | IoBusy | BusError.

Record MuxerLayer := {
  ml_flv : option Z;
  ml_fmp4 : option Z;
  ml_dash_mp4 : option Z;
  ml_hls_mp4 : option Z;
  ml_hls_ts : option Z;
  ml_rtp_frame : option Z;
  ml_rtp_ps : option Z;
  ml_rtp_enc : option Z;
  ml_mp4 : option Z;
  ml_ts : option Z
}.
Definition MuxerLayer_default : MuxerLayer := {|
  ml_flv := None; ml_fmp4 := None; ml_dash_mp4 := None; ml_hls_mp4 := None; ml_hls_ts := None; ml_rtp_frame := None; ml_rtp_ps := None; ml_rtp_enc := None; ml_mp4 := None; ml_ts := None |}.

(** The layer a muxer has, and its replacement. *)
Definition muxer_get (m : MuxerEnum) (l : MuxerLayer) : option Z :=
  match m with
  | Flv => ml_flv l
  | Mp4 => ml_mp4 l
  | Ts => ml_ts l
  | FMp4 => ml_fmp4 l
  | HlsMp4 => ml_hls_mp4 l
  | DashMp4Muxer => ml_dash_mp4 l
  | HlsTsMuxer => ml_hls_ts l
  | RtpFrame => ml_rtp_frame l
  | RtpPs => ml_rtp_ps l
  | RtpEnc => ml_rtp_enc l
  end.
Definition muxer_set (m : MuxerEnum) (v : option Z) (l : MuxerLayer) : MuxerLayer :=
  match m with
  | Flv => {| ml_flv := v; ml_fmp4 := ml_fmp4 l; ml_dash_mp4 := ml_dash_mp4 l; ml_hls_mp4 := ml_hls_mp4 l; ml_hls_ts := ml_hls_ts l; ml_rtp_frame := ml_rtp_frame l; ml_rtp_ps := ml_rtp_ps l; ml_rtp_enc := ml_rtp_enc l; ml_mp4 := ml_mp4 l; ml_ts := ml_ts l |}
  | Mp4 => {| ml_flv := ml_flv l; ml_fmp4 := ml_fmp4 l; ml_dash_mp4 := ml_dash_mp4 l; ml_hls_mp4 := ml_hls_mp4 l; ml_hls_ts := ml_hls_ts l; ml_rtp_frame := ml_rtp_frame l; ml_rtp_ps := ml_rtp_ps l; ml_rtp_enc := ml_rtp_enc l; ml_mp4 := v; ml_ts := ml_ts l |}
  | Ts => {| ml_flv := ml_flv l; ml_fmp4 := ml_fmp4 l; ml_dash_mp4 := ml_dash_mp4 l; ml_hls_mp4 := ml_hls_mp4 l; ml_hls_ts := ml_hls_ts l; ml_rtp_frame := ml_rtp_frame l; ml_rtp_ps := ml_rtp_ps l; ml_rtp_enc := ml_rtp_enc l; ml_mp4 := ml_mp4 l; ml_ts := v |}
  | FMp4 => {| ml_flv := ml_flv l; ml_fmp4 := v; ml_dash_mp4 := ml_dash_mp4 l; ml_hls_mp4 := ml_hls_mp4 l; ml_hls_ts := ml_hls_ts l; ml_rtp_frame := ml_rtp_frame l; ml_rtp_ps := ml_rtp_ps l; ml_rtp_enc := ml_rtp_enc l; ml_mp4 := ml_mp4 l; ml_ts := ml_ts l |}
  | HlsMp4 => {| ml_flv := ml_flv l; ml_fmp4 := ml_fmp4 l; ml_dash_mp4 := ml_dash_mp4 l; ml_hls_mp4 := v; ml_hls_ts := ml_hls_ts l; ml_rtp_frame := ml_rtp_frame l; ml_rtp_ps := ml_rtp_ps l; ml_rtp_enc := ml_rtp_enc l; ml_mp4 := ml_mp4 l; ml_ts := ml_ts l |}
  | DashMp4Muxer => {| ml_flv := ml_flv l; ml_fmp4 := ml_fmp4 l; ml_dash_mp4 := v; ml_hls_mp4 := ml_hls_mp4 l; ml_hls_ts := ml_hls_ts l; ml_rtp_frame := ml_rtp_frame l; ml_rtp_ps := ml_rtp_ps l; ml_rtp_enc := ml_rtp_enc l; ml_mp4 := ml_mp4 l; ml_ts := ml_ts l |}
  | HlsTsMuxer => {| ml_flv := ml_flv l; ml_fmp4 := ml_fmp4 l; ml_dash_mp4 := ml_dash_mp4 l; ml_hls_mp4 := ml_hls_mp4 l; ml_hls_ts := v; ml_rtp_frame := ml_rtp_frame l; ml_rtp_ps := ml_rtp_ps l; ml_rtp_enc := ml_rtp_enc l; ml_mp4 := ml_mp4 l; ml_ts := ml_ts l |}
  | RtpFrame => {| ml_flv := ml_flv l; ml_fmp4 := ml_fmp4 l; ml_dash_mp4 := ml_dash_mp4 l; ml_hls_mp4 := ml_hls_mp4 l; ml_hls_ts := ml_hls_ts l; ml_rtp_frame := v; ml_rtp_ps := ml_rtp_ps l; ml_rtp_enc := ml_rtp_enc l; ml_mp4 := ml_mp4 l; ml_ts := ml_ts l |}
  | RtpPs => {| ml_flv := ml_flv l; ml_fmp4 := ml_fmp4 l; ml_dash_mp4 := ml_dash_mp4 l; ml_hls_mp4 := ml_hls_mp4 l; ml_hls_ts := ml_hls_ts l; ml_rtp_frame := ml_rtp_frame l; ml_rtp_ps := v; ml_rtp_enc := ml_rtp_enc l; ml_mp4 := ml_mp4 l; ml_ts := ml_ts l |}
  | RtpEnc => {| ml_flv := ml_flv l; ml_fmp4 := ml_fmp4 l; ml_dash_mp4 := ml_dash_mp4 l; ml_hls_mp4 := ml_hls_mp4 l; ml_hls_ts := ml_hls_ts l; ml_rtp_frame := ml_rtp_frame l; ml_rtp_ps := ml_rtp_ps l; ml_rtp_enc := v; ml_mp4 := ml_mp4 l; ml_ts := ml_ts l |}
  end.

Definition get_rx (m : MuxerEnum) (l : MuxerLayer) : outcome MediaError Z :=
  match m with
  | Flv | Mp4 | FMp4 | DashMp4Muxer | HlsMp4 =>
      match muxer_get m l with Some tx => Done tx | None => Failed InvalidState end
  | Ts | HlsTsMuxer | RtpFrame | RtpPs | RtpEnc => Panic
  end.

(** [tx] is the channel [broadcast::channel] makes if a layer is opened. *)
Definition muxer_put_if_absent (output : OutputKind) (tx : Z) (l : MuxerLayer)
    : outcome MediaError MuxerLayer :=
  let opened (m : MuxerEnum) : outcome MediaError MuxerLayer :=
    match muxer_get m l with None => Done (muxer_set m (Some tx) l) | Some _ => Done l end in
  let unimplemented (m : MuxerEnum) : outcome MediaError MuxerLayer :=
    match muxer_get m l with None => Panic | Some _ => Done l end in
  match output with
  | KHttpFlv | KRtmp => opened Flv
  | KDashFmp4 => opened FMp4
  | KHlsFmp4 => opened FMp4
  | KHlsTs => unimplemented HlsTsMuxer
  | KRtsp | KGb28181Frame => unimplemented RtpFrame
  | KGb28181Ps => unimplemented RtpPs
  | KWebRtc => unimplemented RtpEnc
  | KLocalMp4 _ => opened Mp4
  | KLocalTs _ => unimplemented Ts
  | KDashMp4 => opened DashMp4Muxer
  end.

Definition MuxerLayer_new (output : OutputKind) (tx : Z) : outcome MediaError MuxerLayer :=
  muxer_put_if_absent output tx MuxerLayer_default.

Definition close_by_muxer_type (m : MuxerEnum) (l : MuxerLayer) : MuxerLayer := muxer_set m None l.

Lemma muxer_get_set (m m' : MuxerEnum) (v : option Z) (l : MuxerLayer) :
  muxer_get m (muxer_set m' v l) = if decide (m = m') then v else muxer_get m l.
Proof. destruct m, m'; done. Qed.

(** The tag of an output, as the API names it. *)
Definition output_enum_of (k : OutputKind) : OutputEnum :=
  match k with
  | KHttpFlv => HttpFlv
  | KRtmp => Rtmp
  | KDashFmp4 => DashFmp4
  | KDashMp4 => DashMp4
  | KHlsFmp4 => HlsFmp4
  | KHlsTs => HlsTs
  | KRtsp => Rtsp
  | KGb28181Frame => Gb28181Frame
  | KGb28181Ps => Gb28181Ps
  | KWebRtc => WebRtc
  | KLocalMp4 _ => LocalMp4
  | KLocalTs _ => LocalTs
  end.

(** Which outputs a stream can serve.  A stream configured for an output
    opens the muxer that this output's name maps to, and readers can subscribe
    to it, for HTTP-FLV, RTMP, DASH (both) and local MP4; for HLS-fMP4 the layer
    opens the fMP4 muxer while the name maps to the HLS muxer, so every
    subscription by name is refused; for the other outputs the layer cannot be
    built at all. *)
Theorem muxer_serves_output (k : OutputKind) (tx : Z) :
  match output_enum_of k with
  | HttpFlv | Rtmp | DashFmp4 | DashMp4 | LocalMp4 =>
      exists l, MuxerLayer_new k tx = Done l /\
        get_rx (from_output_enum (output_enum_of k)) l = Done tx /\
        (forall m, get_rx m l = Done tx -> m = from_output_enum (output_enum_of k))
  | HlsFmp4 =>
      exists l, MuxerLayer_new k tx = Done l /\
        get_rx (from_output_enum HlsFmp4) l = Failed InvalidState /\
        get_rx (from_output_enum DashFmp4) l = Done tx /\
        close_by_muxer_type (from_output_enum HlsFmp4) l = l
  | _ => MuxerLayer_new k tx = Panic
  end.
Proof.
  destruct k; simpl; try done; eexists; (split; [done|]); (split; [done|]); try done;
    intros m; destruct m; simpl; done.
Qed.

(** Opening a layer never replaces the channel its readers hold. *)
Lemma muxer_put_keeps (k : OutputKind) (tx : Z) (l l' : MuxerLayer) (m : MuxerEnum) (tx0 : Z) :
  muxer_put_if_absent k tx l = Done l' -> muxer_get m l = Some tx0 -> muxer_get m l' = Some tx0.
Proof.
  intros Hp Hm. destruct k, m; simpl in *; cases; congruence.
Qed.

(** ** Outputs *)

Record OutputLayer := {
  ol_http_flv : option unit;
  ol_rtmp : option unit;
  ol_dash_fmp4 : option unit;
  ol_dash_mp4 : option unit;
  ol_hls_fmp4 : option unit;
  ol_hls_ts : option unit;
  ol_rtsp : option unit;
  ol_gb28181_frame : option unit;
  ol_gb28181_ps : option unit;
  ol_web_rtc : option unit;
  ol_local_mp4 : option string;
  ol_local_ts : option string
}.
Definition OutputLayer_empty : OutputLayer := {|
  ol_http_flv := None; ol_rtmp := None; ol_dash_fmp4 := None; ol_dash_mp4 := None; ol_hls_fmp4 := None; ol_hls_ts := None; ol_rtsp := None; ol_gb28181_frame := None; ol_gb28181_ps := None; ol_web_rtc := None; ol_local_mp4 := None; ol_local_ts := None |}.

(** Store the layer of one output. *)
Definition output_set (output : OutputKind) (l : OutputLayer) : OutputLayer :=
  match output with
  | KHttpFlv => {| ol_http_flv := Some tt; ol_rtmp := ol_rtmp l; ol_dash_fmp4 := ol_dash_fmp4 l; ol_dash_mp4 := ol_dash_mp4 l; ol_hls_fmp4 := ol_hls_fmp4 l; ol_hls_ts := ol_hls_ts l; ol_rtsp := ol_rtsp l; ol_gb28181_frame := ol_gb28181_frame l; ol_gb28181_ps := ol_gb28181_ps l; ol_web_rtc := ol_web_rtc l; ol_local_mp4 := ol_local_mp4 l; ol_local_ts := ol_local_ts l |}
  | KRtmp => {| ol_http_flv := ol_http_flv l; ol_rtmp := Some tt; ol_dash_fmp4 := ol_dash_fmp4 l; ol_dash_mp4 := ol_dash_mp4 l; ol_hls_fmp4 := ol_hls_fmp4 l; ol_hls_ts := ol_hls_ts l; ol_rtsp := ol_rtsp l; ol_gb28181_frame := ol_gb28181_frame l; ol_gb28181_ps := ol_gb28181_ps l; ol_web_rtc := ol_web_rtc l; ol_local_mp4 := ol_local_mp4 l; ol_local_ts := ol_local_ts l |}
  | KDashFmp4 => {| ol_http_flv := ol_http_flv l; ol_rtmp := ol_rtmp l; ol_dash_fmp4 := Some tt; ol_dash_mp4 := ol_dash_mp4 l; ol_hls_fmp4 := ol_hls_fmp4 l; ol_hls_ts := ol_hls_ts l; ol_rtsp := ol_rtsp l; ol_gb28181_frame := ol_gb28181_frame l; ol_gb28181_ps := ol_gb28181_ps l; ol_web_rtc := ol_web_rtc l; ol_local_mp4 := ol_local_mp4 l; ol_local_ts := ol_local_ts l |}
  | KDashMp4 => {| ol_http_flv := ol_http_flv l; ol_rtmp := ol_rtmp l; ol_dash_fmp4 := ol_dash_fmp4 l; ol_dash_mp4 := Some tt; ol_hls_fmp4 := ol_hls_fmp4 l; ol_hls_ts := ol_hls_ts l; ol_rtsp := ol_rtsp l; ol_gb28181_frame := ol_gb28181_frame l; ol_gb28181_ps := ol_gb28181_ps l; ol_web_rtc := ol_web_rtc l; ol_local_mp4 := ol_local_mp4 l; ol_local_ts := ol_local_ts l |}
  | KHlsFmp4 => {| ol_http_flv := ol_http_flv l; ol_rtmp := ol_rtmp l; ol_dash_fmp4 := ol_dash_fmp4 l; ol_dash_mp4 := ol_dash_mp4 l; ol_hls_fmp4 := Some tt; ol_hls_ts := ol_hls_ts l; ol_rtsp := ol_rtsp l; ol_gb28181_frame := ol_gb28181_frame l; ol_gb28181_ps := ol_gb28181_ps l; ol_web_rtc := ol_web_rtc l; ol_local_mp4 := ol_local_mp4 l; ol_local_ts := ol_local_ts l |}
  | KHlsTs => {| ol_http_flv := ol_http_flv l; ol_rtmp := ol_rtmp l; ol_dash_fmp4 := ol_dash_fmp4 l; ol_dash_mp4 := ol_dash_mp4 l; ol_hls_fmp4 := ol_hls_fmp4 l; ol_hls_ts := Some tt; ol_rtsp := ol_rtsp l; ol_gb28181_frame := ol_gb28181_frame l; ol_gb28181_ps := ol_gb28181_ps l; ol_web_rtc := ol_web_rtc l; ol_local_mp4 := ol_local_mp4 l; ol_local_ts := ol_local_ts l |}
  | KRtsp => {| ol_http_flv := ol_http_flv l; ol_rtmp := ol_rtmp l; ol_dash_fmp4 := ol_dash_fmp4 l; ol_dash_mp4 := ol_dash_mp4 l; ol_hls_fmp4 := ol_hls_fmp4 l; ol_hls_ts := ol_hls_ts l; ol_rtsp := Some tt; ol_gb28181_frame := ol_gb28181_frame l; ol_gb28181_ps := ol_gb28181_ps l; ol_web_rtc := ol_web_rtc l; ol_local_mp4 := ol_local_mp4 l; ol_local_ts := ol_local_ts l |}
  | KGb28181Frame => {| ol_http_flv := ol_http_flv l; ol_rtmp := ol_rtmp l; ol_dash_fmp4 := ol_dash_fmp4 l; ol_dash_mp4 := ol_dash_mp4 l; ol_hls_fmp4 := ol_hls_fmp4 l; ol_hls_ts := ol_hls_ts l; ol_rtsp := ol_rtsp l; ol_gb28181_frame := Some tt; ol_gb28181_ps := ol_gb28181_ps l; ol_web_rtc := ol_web_rtc l; ol_local_mp4 := ol_local_mp4 l; ol_local_ts := ol_local_ts l |}
  | KGb28181Ps => {| ol_http_flv := ol_http_flv l; ol_rtmp := ol_rtmp l; ol_dash_fmp4 := ol_dash_fmp4 l; ol_dash_mp4 := ol_dash_mp4 l; ol_hls_fmp4 := ol_hls_fmp4 l; ol_hls_ts := ol_hls_ts l; ol_rtsp := ol_rtsp l; ol_gb28181_frame := ol_gb28181_frame l; ol_gb28181_ps := Some tt; ol_web_rtc := ol_web_rtc l; ol_local_mp4 := ol_local_mp4 l; ol_local_ts := ol_local_ts l |}
  | KWebRtc => {| ol_http_flv := ol_http_flv l; ol_rtmp := ol_rtmp l; ol_dash_fmp4 := ol_dash_fmp4 l; ol_dash_mp4 := ol_dash_mp4 l; ol_hls_fmp4 := ol_hls_fmp4 l; ol_hls_ts := ol_hls_ts l; ol_rtsp := ol_rtsp l; ol_gb28181_frame := ol_gb28181_frame l; ol_gb28181_ps := ol_gb28181_ps l; ol_web_rtc := Some tt; ol_local_mp4 := ol_local_mp4 l; ol_local_ts := ol_local_ts l |}
  | KLocalMp4 path => {| ol_http_flv := ol_http_flv l; ol_rtmp := ol_rtmp l; ol_dash_fmp4 := ol_dash_fmp4 l; ol_dash_mp4 := ol_dash_mp4 l; ol_hls_fmp4 := ol_hls_fmp4 l; ol_hls_ts := ol_hls_ts l; ol_rtsp := ol_rtsp l; ol_gb28181_frame := ol_gb28181_frame l; ol_gb28181_ps := ol_gb28181_ps l; ol_web_rtc := ol_web_rtc l; ol_local_mp4 := Some path; ol_local_ts := ol_local_ts l |}
  | KLocalTs path => {| ol_http_flv := ol_http_flv l; ol_rtmp := ol_rtmp l; ol_dash_fmp4 := ol_dash_fmp4 l; ol_dash_mp4 := ol_dash_mp4 l; ol_hls_fmp4 := ol_hls_fmp4 l; ol_hls_ts := ol_hls_ts l; ol_rtsp := ol_rtsp l; ol_gb28181_frame := ol_gb28181_frame l; ol_gb28181_ps := ol_gb28181_ps l; ol_web_rtc := ol_web_rtc l; ol_local_mp4 := ol_local_mp4 l; ol_local_ts := Some path |}
  end.
Definition output_present (output : OutputKind) (l : OutputLayer) : bool :=
  match output with
  | KHttpFlv => bool_decide (is_Some (ol_http_flv l))
  | KRtmp => bool_decide (is_Some (ol_rtmp l))
  | KDashFmp4 => bool_decide (is_Some (ol_dash_fmp4 l))
  | KDashMp4 => bool_decide (is_Some (ol_dash_mp4 l))
  | KHlsFmp4 => bool_decide (is_Some (ol_hls_fmp4 l))
  | KHlsTs => bool_decide (is_Some (ol_hls_ts l))
  | KRtsp => bool_decide (is_Some (ol_rtsp l))
  | KGb28181Frame => bool_decide (is_Some (ol_gb28181_frame l))
  | KGb28181Ps => bool_decide (is_Some (ol_gb28181_ps l))
  | KWebRtc => bool_decide (is_Some (ol_web_rtc l))
  | KLocalMp4 _ => bool_decide (is_Some (ol_local_mp4 l))
  | KLocalTs _ => bool_decide (is_Some (ol_local_ts l))
  end.

Definition OutputLayer_new (output : OutputKind) : OutputLayer := output_set output OutputLayer_empty.

Definition output_put_if_absent (output : OutputKind) (l : OutputLayer) : bool * OutputLayer :=
  if output_present output l then (false, l) else (true, output_set output l).

(** Adding an output.  [put_if_absent] answers whether the output was
    absent; afterwards it is present, a second attempt is refused and changes
    nothing, and no other output is affected. *)
Theorem output_put_if_absent_spec (k : OutputKind) (l : OutputLayer) :
  let '(added, l') := output_put_if_absent k l in
  added = negb (output_present k l) /\
  (added = false -> l' = l) /\
  output_put_if_absent k l' = (false, l') /\
  (forall k', output_present k' l' = output_present k' l || bool_decide (output_enum_of k' = output_enum_of k)).
Proof.
  unfold output_put_if_absent. destruct (output_present k l) eqn:Hp.
  - split_and!; [done|done|by rewrite Hp|]. intros k'. case_bool_decide as He; [|by rewrite orb_false_r].
    rewrite orb_true_r. rewrite <- Hp. destruct k, k'; simpl in He; done.
  - assert (output_present k (output_set k l) = true) as Hs by (destruct k; done).
    rewrite Hs. split_and!; [done|done|done|]. intros k'.
    destruct k, k'; simpl; rewrite ?orb_false_r, ?orb_true_r; done.
Qed.
