(* ===== verification/MediaRegister.v ===== *)
(** * The media register ([stream/src/state/register.rs], [event.rs])

    Incoming RTP channels by SSRC, stream metadata by stream id, the tokens of
    the viewers, expiring output sessions, and the reports about RTP packets
    nobody asked for.  The event channel and the timer wheel are logs; the
    event channel is bounded. *)
From stdpp Require Import pretty.
From S2P Require Import Prelude SharedTypes StreamOutputs.
Local Open Scope Z_scope.

(** An injection for keys of the viewer map. *)
Definition OutputEnum_tag (o : OutputEnum) : nat :=
  match o with
  | HttpFlv => 0 | Rtmp => 1 | DashMp4 => 2 | DashFmp4 => 3 | HlsFmp4 => 4 | HlsTs => 5 | Rtsp => 6
  | Gb28181Frame => 7 | Gb28181Ps => 8 | WebRtc => 9 | LocalMp4 => 10 | LocalTs => 11
  end.
Definition OutputEnum_untag (n : nat) : option OutputEnum :=
  nth_error [HttpFlv; Rtmp; DashMp4; DashFmp4; HlsFmp4; HlsTs; Rtsp;
             Gb28181Frame; Gb28181Ps; WebRtc; LocalMp4; LocalTs] n.
#[export] Instance OutputEnum_countable : Countable OutputEnum.
Proof. apply (inj_countable OutputEnum_tag OutputEnum_untag). by intros []. Defined.

(** ** Data *)

(** Durations in milliseconds. *)
Definition DEFAULT_EXPIRES : Z := 8000.
Definition RTP_INPUT_CHECK_INTERVAL : Z := 1000.
Definition UNKNOWN_STREAM_CONFIRM_MS : Z := 2000.
Definition UNKNOWN_STREAM_MIN_PACKETS : Z := 3.
Definition UNKNOWN_STREAM_COOLDOWN_MS : Z := 30000.
Definition UNKNOWN_STREAM_EXPIRE_MS : Z := 30000.
Definition DEFAULT_OFFSET_SECOND : Z := 4.
Definition RTP_BUFFER_SIZE : Z := 64.

(** [rc_queued] is the number of packets in the bounded channel; [rc_id] names
    the channel. *)
Record RtpChannel := {
  rc_id : Z; rc_queued : Z; in_has_timeout : Z; wait_sign_in : bool; rc_stream_id : string; miss_pkt : Z
}.

Inductive TimeScheduleKey :=
| RtpGateway (ssrc : Z) | OutSessionKey (id : Z) | UnknownStream (key : string).

Record OutSession := {
  os_addr : option string; os_token : string; os_output_enum : OutputEnum; os_stream_id : string
}.

Record UnknownStreamObservation := {
  uo_ssrc : Z; uo_remote_addr : string; uo_protocol : string; uo_first_seen_at_ms : Z;
  uo_last_seen_at_ms : Z; uo_packet_count : Z; uo_last_notify_at_ms : Z
}.

Record ConverterLayer := { cv_codec : option Codec; cv_muxer : MuxerLayer; cv_filter : Filter }.

Record StreamMetadata := {
  sm_ssrc : Z; output_count : OutputCount; in_wait_timeout : Z; out_idle_timeout : Z;
  origin_trans : option (string * string); register_ts : Z; converter : ConverterLayer;
  media_ext : option MediaExt; sm_output : OutputLayer
}.

Inductive OutEvent :=
| OStreamRegister (info : RegisterStreamInfo)
| OStreamInTimeout (state : StreamState)
| OStreamIdle (info : OutputStreamInfo)
| OStreamUnknown (event : UnknownStreamEvent)
| OOnPlay (info : StreamPlayInfo)
| OOffPlay (info : StreamPlayInfo)
| OEndRecord (info : StreamRecordInfo).

Inductive MEvent :=
| MOut (e : OutEvent)
| MActiveLocalStoreMp4 (path : string) (ssrc : Z) (stream_id : string) (rx : Z)
| MInnerStreamRegister (rtp_type : Z) (stream_id : string) (origin : string * string).

(** What is published on a stream's bus. *)
Inductive bus_msg :=
| BusMuxerClose (stream_id : string) (m : MuxerEnum)
| BusStreamConfig (stream_id : string) (converter : ConverterLayer) (ext : MediaExt) (rtp_rx : Z).

Record MInner := {
  time_schedule : list (TimeScheduleKey * Z);
  rtp_gateway_map : gmap Z RtpChannel;
  stream_metadata_map : gmap string StreamMetadata;
  out_session_map : gmap Z OutSession;
  unknown_stream_map : gmap string UnknownStreamObservation;
  user_token_map : gmap (string * string) (gmap OutputEnum Z);
  next_id : Z;
  next_channel : Z;
  server_name : string;
  proxy_addr : string;
  conf_in_wait_timeout : Z;
  conf_out_idle_timeout : Z;
  events : list MEvent;
  event_room : Z;
  published : list bus_msg
}.

(** Field updates. *)
Definition set_maps (gw : gmap Z RtpChannel) (md : gmap string StreamMetadata) (i : MInner) : MInner := {|
  time_schedule := time_schedule i; rtp_gateway_map := gw; stream_metadata_map := md;
  out_session_map := out_session_map i; unknown_stream_map := unknown_stream_map i;
  user_token_map := user_token_map i; next_id := next_id i; next_channel := next_channel i;
  server_name := server_name i; proxy_addr := proxy_addr i;
  conf_in_wait_timeout := conf_in_wait_timeout i; conf_out_idle_timeout := conf_out_idle_timeout i;
  events := events i; event_room := event_room i; published := published i |}.
Definition on_gateway (f : gmap Z RtpChannel -> gmap Z RtpChannel) (i : MInner) : MInner :=
  set_maps (f (rtp_gateway_map i)) (stream_metadata_map i) i.
Definition on_metadata (f : gmap string StreamMetadata -> gmap string StreamMetadata) (i : MInner) : MInner :=
  set_maps (rtp_gateway_map i) (f (stream_metadata_map i)) i.
Definition set_sessions (os : gmap Z OutSession) (tk : gmap (string * string) (gmap OutputEnum Z))
    (n : Z) (i : MInner) : MInner := {|
  time_schedule := time_schedule i; rtp_gateway_map := rtp_gateway_map i;
  stream_metadata_map := stream_metadata_map i; out_session_map := os;
  unknown_stream_map := unknown_stream_map i; user_token_map := tk; next_id := n;
  next_channel := next_channel i; server_name := server_name i; proxy_addr := proxy_addr i;
  conf_in_wait_timeout := conf_in_wait_timeout i; conf_out_idle_timeout := conf_out_idle_timeout i;
  events := events i; event_room := event_room i; published := published i |}.
Definition on_unknown (f : gmap string UnknownStreamObservation -> gmap string UnknownStreamObservation)
    (i : MInner) : MInner := {|
  time_schedule := time_schedule i; rtp_gateway_map := rtp_gateway_map i;
  stream_metadata_map := stream_metadata_map i; out_session_map := out_session_map i;
  unknown_stream_map := f (unknown_stream_map i); user_token_map := user_token_map i;
  next_id := next_id i; next_channel := next_channel i; server_name := server_name i;
  proxy_addr := proxy_addr i; conf_in_wait_timeout := conf_in_wait_timeout i;
  conf_out_idle_timeout := conf_out_idle_timeout i; events := events i; event_room := event_room i;
  published := published i |}.
Definition on_logs (ts : list (TimeScheduleKey * Z)) (ev : list MEvent) (room : Z)
    (pub : list bus_msg) (ch : Z) (i : MInner) : MInner := {|
  time_schedule := ts; rtp_gateway_map := rtp_gateway_map i;
  stream_metadata_map := stream_metadata_map i; out_session_map := out_session_map i;
  unknown_stream_map := unknown_stream_map i; user_token_map := user_token_map i;
  next_id := next_id i; next_channel := ch; server_name := server_name i;
  proxy_addr := proxy_addr i; conf_in_wait_timeout := conf_in_wait_timeout i;
  conf_out_idle_timeout := conf_out_idle_timeout i; events := ev; event_room := room; published := pub |}.

Definition schedule (key : TimeScheduleKey) (ttl : Z) (i : MInner) : MInner :=
  on_logs (time_schedule i ++ [(key, ttl)]) (events i) (event_room i) (published i) (next_channel i) i.
(** [event_tx.try_send]: refused when the channel is full. *)
Definition try_send (e : MEvent) (i : MInner) : bool * MInner :=
  if 0 <? event_room i
  then (true, on_logs (time_schedule i) (events i ++ [e]) (event_room i - 1) (published i) (next_channel i) i)
  else (false, i).
Definition publish (m : bus_msg) (i : MInner) : MInner :=
  on_logs (time_schedule i) (events i) (event_room i) (published i ++ [m]) (next_channel i) i.
Definition fresh_channel (i : MInner) : Z * MInner :=
  (next_channel i, on_logs (time_schedule i) (events i) (event_room i) (published i) (next_channel i + 1) i).
(** [NEXT_ID.fetch_add(1)] *)
Definition take_id (i : MInner) : Z * MInner :=
  (next_id i, set_sessions (out_session_map i) (user_token_map i) (wrapping_add 64 (next_id i) 1) i).

(** ** RTP channels *)

Definition RtpChannel_new (id : Z) (stream_id : string) : RtpChannel := {|
  rc_id := id; rc_queued := 0; in_has_timeout := 0; wait_sign_in := true;
  rc_stream_id := stream_id; miss_pkt := 0 |}.

Definition with_channel (timeout : Z) (wait : bool) (miss : Z) (rc : RtpChannel) : RtpChannel := {|
  rc_id := rc_id rc; rc_queued := rc_queued rc; in_has_timeout := timeout; wait_sign_in := wait;
  rc_stream_id := rc_stream_id rc; miss_pkt := miss |}.

Definition rtp_is_full (rc : RtpChannel) : bool := RTP_BUFFER_SIZE * 10 <=? rc_queued rc.

(** [RtpChannel::refresh]: the sender, the channel afterwards, the state. *)
Definition refresh (rtp_type : Z) (origin : string * string) (rc : RtpChannel) (i : MInner)
    : outcome MediaError Z * RtpChannel * MInner :=
  let '(ok, rc1, i1) :=
    if wait_sign_in rc then
      let '(sent, i1) := try_send (MInnerStreamRegister rtp_type (rc_stream_id rc) origin) i in
      if sent then (true, with_channel (in_has_timeout rc) false (miss_pkt rc) rc, i1)
      else (false, rc, i1)
    else (true, rc, i) in
  if negb ok then (Failed BusError, rc1, i1) else
  if rtp_is_full rc1 then
    let count := miss_pkt rc1 in
    let call_io_busy := if count <? 60 then count mod 60 =? 0 else count mod 300 =? 0 in
    let rc2 := with_channel 0 (wait_sign_in rc1) (wrapping_add 64 count 1) rc1 in
    (if call_io_busy then Failed IoBusy else Done (rc_id rc2), rc2, i1)
  else
    let rc2 := with_channel 0 (wait_sign_in rc1) 0 rc1 in (Done (rc_id rc2), rc2, i1).

Definition refresh_rtp (ssrc rtp_type : Z) (origin : string * string) (i : MInner) : option Z * MInner :=
  match rtp_gateway_map i !! ssrc with
  | None => (None, i)
  | Some rc =>
      let '(res, rc1, i1) := refresh rtp_type origin rc i in
      (match res with Done tx => Some tx | _ => None end, on_gateway <[ssrc := rc1]> i1)
  end.

(** ** Unknown streams *)

Definition observe (now_ms : Z) (o : UnknownStreamObservation) : bool * UnknownStreamObservation :=
  let count := saturating_add 64 (uo_packet_count o) 1 in
  let confirmed := (UNKNOWN_STREAM_MIN_PACKETS <=? count)
    && (UNKNOWN_STREAM_CONFIRM_MS <=? saturating_sub now_ms (uo_first_seen_at_ms o)) in
  let cooled_down := (uo_last_notify_at_ms o =? 0)
    || (UNKNOWN_STREAM_COOLDOWN_MS <=? saturating_sub now_ms (uo_last_notify_at_ms o)) in
  let notify := confirmed && cooled_down in
  (notify, {|
     uo_ssrc := uo_ssrc o; uo_remote_addr := uo_remote_addr o; uo_protocol := uo_protocol o;
     uo_first_seen_at_ms := uo_first_seen_at_ms o; uo_last_seen_at_ms := now_ms;
     uo_packet_count := count;
     uo_last_notify_at_ms := if notify then now_ms else uo_last_notify_at_ms o |}).

Definition idle_ms (now_ms : Z) (o : UnknownStreamObservation) : Z :=
  saturating_sub now_ms (uo_last_seen_at_ms o).

Definition unknown_key (ssrc : Z) (remote_addr protocol : string) : string :=
  (pretty (Z.to_N ssrc) +:+ "|" +:+ remote_addr +:+ "|" +:+ protocol)%string.

Definition observe_unknown_rtp (now ssrc : Z) (remote_addr protocol : string) (i : MInner) : MInner :=
  let key := unknown_key ssrc remote_addr protocol in
  match unknown_stream_map i !! key with
  | None =>
      schedule (UnknownStream key) UNKNOWN_STREAM_EXPIRE_MS
        (on_unknown <[key := {|
           uo_ssrc := ssrc; uo_remote_addr := remote_addr; uo_protocol := protocol;
           uo_first_seen_at_ms := now; uo_last_seen_at_ms := now; uo_packet_count := 1;
           uo_last_notify_at_ms := 0 |}]> i)
  | Some o =>
      let '(notify, o1) := observe now o in
      let i1 := on_unknown <[key := o1]> i in
      if notify then
        (try_send (MOut (OStreamUnknown {|
           use_media_node_id := server_name i; use_ssrc := uo_ssrc o1;
           use_remote_addr := uo_remote_addr o1; use_protocol := uo_protocol o1;
           use_first_seen_at_ms := uo_first_seen_at_ms o1; use_last_seen_at_ms := uo_last_seen_at_ms o1;
           use_packet_count := uo_packet_count o1;
           use_reason := "unknown_ssrc_after_media_restart" |})) i1).2
      else i1
  end.

Definition expire_unknown_stream (now : Z) (key : string) (i : MInner) : MInner :=
  match unknown_stream_map i !! key with
  | None => i
  | Some o =>
      if UNKNOWN_STREAM_EXPIRE_MS <=? idle_ms now o then on_unknown (delete key) i
      else schedule (UnknownStream key) (UNKNOWN_STREAM_EXPIRE_MS - idle_ms now o) i
  end.

(** ** Stream information *)

Definition build_rtp_info (meta : StreamMetadata) (server_name proxy_addr : string) : RtpInfo := {|
  ri_ssrc := sm_ssrc meta;
  ri_origin_trans := (fun o => {| ns_remote_addr := o.1; ns_protocol := o.2 |}) <$> origin_trans meta;
  ri_server_name := server_name; ri_proxy_addr := proxy_addr |}.
Definition build_base_stream_info (meta : StreamMetadata) (server_name proxy_addr stream_id : string)
    : BaseStreamInfo := {|
  rtp_info := build_rtp_info meta server_name proxy_addr; bsi_stream_id := stream_id;
  in_time := register_ts meta |}.
Definition base_info (i : MInner) (meta : StreamMetadata) (stream_id : string) : BaseStreamInfo :=
  build_base_stream_info meta (server_name i) (proxy_addr i) stream_id.

Definition get_base_stream_info_by_stream_id (stream_id : string) (i : MInner) : option BaseStreamInfo :=
  (fun meta => base_info i meta stream_id) <$> stream_metadata_map i !! stream_id.
Definition build_stream_info (stream_id : string) (i : MInner) : option BaseStreamInfo :=
  (fun meta => base_info i meta stream_id) <$> stream_metadata_map i !! stream_id.

Definition is_exist (key : StreamKey) (i : MInner) : bool :=
  match sk_stream_id key with
  | None => bool_decide (is_Some (rtp_gateway_map i !! sk_ssrc key))
  | Some stream_id =>
      match stream_metadata_map i !! stream_id with
      | Some meta => sm_ssrc meta =? sk_ssrc key
      | None => false
      end
      && match rtp_gateway_map i !! sk_ssrc key with
         | Some rc => bool_decide (rc_stream_id rc = stream_id)
         | None => false
         end
  end.

(** ** Timeouts of the input *)

Definition handle_rtp_in_timeout (ssrc : Z) (i : MInner) : MInner :=
  match rtp_gateway_map i !! ssrc with
  | None => i
  | Some rc =>
      match stream_metadata_map i !! rc_stream_id rc with
      | None => i
      | Some meta =>
          let timeout_count := saturating_add 8 (in_has_timeout rc) 1 in
          let i1 := on_gateway <[ssrc := with_channel (wrapping_add 8 (in_has_timeout rc) 1)
                                           (wait_sign_in rc) (miss_pkt rc) rc]> i in
          if timeout_count <? in_wait_timeout meta
          then schedule (RtpGateway ssrc) RTP_INPUT_CHECK_INTERVAL i1
          else (try_send (MOut (OStreamInTimeout {|
                  ss_base := base_info i meta (rc_stream_id rc);
                  ss_user_count := get_out_count (output_count meta) |})) i1).2
      end
  end.

Definition close_stream_by_input (state : StreamState) (res : InTimeoutEventRes) (i : MInner) : MInner :=
  let ssrc := ri_ssrc (rtp_info (ss_base state)) in
  match res with
  | InKeepAlive => schedule (RtpGateway ssrc) DEFAULT_EXPIRES i
  | InCloseAll => set_maps (delete ssrc (rtp_gateway_map i))
                    (delete (bsi_stream_id (ss_base state)) (stream_metadata_map i)) i
  end.

(** ** Outputs *)

Definition with_count (c : OutputCount) (m : StreamMetadata) : StreamMetadata := {|
  sm_ssrc := sm_ssrc m; output_count := c; in_wait_timeout := in_wait_timeout m;
  out_idle_timeout := out_idle_timeout m; origin_trans := origin_trans m;
  register_ts := register_ts m; converter := converter m; media_ext := media_ext m;
  sm_output := sm_output m |}.
Definition with_muxer (l : MuxerLayer) (m : StreamMetadata) : StreamMetadata := {|
  sm_ssrc := sm_ssrc m; output_count := output_count m; in_wait_timeout := in_wait_timeout m;
  out_idle_timeout := out_idle_timeout m; origin_trans := origin_trans m;
  register_ts := register_ts m;
  converter := {| cv_codec := cv_codec (converter m); cv_muxer := l; cv_filter := cv_filter (converter m) |};
  media_ext := media_ext m; sm_output := sm_output m |}.

Definition check_token (token stream_id : string) (i : MInner) : bool :=
  bool_decide (is_Some (user_token_map i !! (token, stream_id))).

Definition handle_stream_metadata_map_output (act : OptAction) (stream_id : string)
    (output_enum : OutputEnum) (i : MInner) : MInner :=
  match stream_metadata_map i !! stream_id with
  | None => i
  | Some meta =>
      let c := match act with
               | Insert => (count_add output_enum (output_count meta)).2
               | Remove => (subtract output_enum (output_count meta)).2
               end in
      on_metadata <[stream_id := with_count c meta]> i
  end.

(** [now] is not read here: the session expires after the given time. *)
Definition listen_output_timeout (stream_id : string) (output_enum : OutputEnum)
    (user_token remote_addr : string) (time_offset_sec : Z) (i : MInner) : MInner :=
  match stream_metadata_map i !! stream_id with
  | None => i
  | Some meta =>
      let '(expire_id, i1) := take_id i in
      let os := {| os_addr := Some remote_addr; os_token := user_token;
                   os_output_enum := output_enum; os_stream_id := stream_id |} in
      let i2 := set_sessions (<[expire_id := os]> (out_session_map i1)) (user_token_map i1) (next_id i1) i1 in
      schedule (OutSessionKey expire_id)
        (saturating_add 8 time_offset_sec (out_idle_timeout meta) * 1000) i2
  end.

Definition insert_out_token (stream_id : string) (output_enum : OutputEnum) (user_token : string)
    (i : MInner) : outcome MediaError unit * MInner :=
  match stream_metadata_map i !! stream_id with
  | None => (Failed NotFound, i)
  | Some meta =>
      let i1 := on_metadata <[stream_id := with_count (count_add output_enum (output_count meta)).2 meta]> i in
      let plays := default ∅ (user_token_map i1 !! (user_token, stream_id)) in
      let n := match plays !! output_enum with Some n => wrapping_add 32 n 1 | None => 1 end in
      (Done tt, set_sessions (out_session_map i1)
                  (<[(user_token, stream_id) := <[output_enum := n]> plays]> (user_token_map i1))
                  (next_id i1) i1)
  end.

(** The token part of [clean_play_token]: the map, and the token if its last
    play of the stream just ended. *)
Definition release_token (token stream_id : string) (output_enum : OutputEnum)
    (tokens : gmap (string * string) (gmap OutputEnum Z))
    : option string * gmap (string * string) (gmap OutputEnum Z) :=
  match tokens !! (token, stream_id) with
  | None => (None, tokens)
  | Some plays =>
      match plays !! output_enum with
      | None => (None, tokens)
      | Some n =>
          if n =? 1 then
            let plays1 := delete output_enum plays in
            if bool_decide (plays1 = ∅)
            then (if bool_decide (token = ""%string) then None else Some token,
                  delete (token, stream_id) tokens)
            else (None, <[(token, stream_id) := plays1]> tokens)
          else (None, <[(token, stream_id) := <[output_enum := wrapping_sub 32 n 1]> plays]> tokens)
      end
  end.

Definition clean_play_token (expire_id : Z) (i : MInner) : MInner :=
  match out_session_map i !! expire_id with
  | None => i
  | Some os =>
      let '(user_token, tokens) :=
        release_token (os_token os) (os_stream_id os) (os_output_enum os) (user_token_map i) in
      let i1 := set_sessions (delete expire_id (out_session_map i)) tokens (next_id i) i in
      match stream_metadata_map i1 !! os_stream_id os with
      | None => i1
      | Some meta =>
          let base := base_info i1 meta (os_stream_id os) in
          let i2 := match user_token with
                    | Some token => (try_send (MOut (OOffPlay {|
                        spi_base := base; spi_remote_addr := None; spi_token := token;
                        spi_play_type := os_output_enum os |})) i1).2
                    | None => i1
                    end in
          let '(left_over, c) := subtract (os_output_enum os) (output_count meta) in
          let i3 := on_metadata <[os_stream_id os := with_count c meta]> i2 in
          if left_over =? 0
          then (try_send (MOut (OStreamIdle {|
                  osi_base := base; osi_play_type := os_output_enum os;
                  osi_user_count := get_out_count c |})) i3).2
          else i3
      end
  end.

Definition close_stream_by_output (info : OutputStreamInfo) (res : OutputEventRes) (i : MInner) : MInner :=
  let stream_id := bsi_stream_id (osi_base info) in
  match res with
  | KeepMuxer =>
      let '(expire_id, i1) := take_id i in
      let i2 := schedule (OutSessionKey expire_id) DEFAULT_EXPIRES i1 in
      set_sessions (<[expire_id := {| os_addr := None; os_token := ""; os_output_enum := osi_play_type info;
                                      os_stream_id := stream_id |}]> (out_session_map i2))
        (user_token_map i2) (next_id i2) i2
  | CloseMuxer =>
      match stream_metadata_map i !! stream_id with
      | None => i
      | Some meta =>
          if get_muxer_size (osi_play_type info) (output_count meta) =? 0 then
            let m := from_output_enum (osi_play_type info) in
            publish (BusMuxerClose stream_id m)
              (on_metadata <[stream_id := with_muxer (close_by_muxer_type m (cv_muxer (converter meta))) meta]> i)
          else i
      end
  | OutCloseAll => set_maps (delete (ri_ssrc (rtp_info (osi_base info))) (rtp_gateway_map i))
                     (delete stream_id (stream_metadata_map i)) i
  end.

(** ** Opening a stream *)

Section Opening.
(** The numeric error code and the typed bus are other crates'. *)
Context (code_invalid_state : Z) (bus_ok : bool).

Definition get_muxer_rx (ssrc : Z) (m : MuxerEnum) (i : MInner) : outcome MediaError Z :=
  match rtp_gateway_map i !! ssrc with
  | None => Failed NotFound
  | Some rc =>
      match stream_metadata_map i !! rc_stream_id rc with
      | None => Failed NotFound
      | Some meta => get_rx m (cv_muxer (converter meta))
      end
  end.

(** [sub_bus_mpsc_channel] and [try_publish_mpsc] look the stream up the same
    way; the bus answers. *)
Definition with_bus (ssrc : Z) (k : StreamMetadata -> bool) (i : MInner) : outcome MediaError unit :=
  match rtp_gateway_map i !! ssrc with
  | None => Failed NotFound
  | Some rc =>
      match stream_metadata_map i !! rc_stream_id rc with
      | None => Failed NotFound
      | Some meta => if k meta then Done tt else Failed BusError
      end
  end.

Definition with_ext (e : option MediaExt) (m : StreamMetadata) : StreamMetadata := {|
  sm_ssrc := sm_ssrc m; output_count := output_count m; in_wait_timeout := in_wait_timeout m;
  out_idle_timeout := out_idle_timeout m; origin_trans := origin_trans m;
  register_ts := register_ts m; converter := converter m; media_ext := e; sm_output := sm_output m |}.

Definition init_media_ext (ssrc : Z) (ext : MediaExt) (i : MInner) : outcome MediaError unit * MInner :=
  match rtp_gateway_map i !! ssrc with
  | None => (Failed NotFound, i)
  | Some rc =>
      match stream_metadata_map i !! rc_stream_id rc with
      | None => (Failed NotFound, i)
      | Some meta => (Done tt, on_metadata <[rc_stream_id rc := with_ext (Some ext) meta]> i)
      end
  end.

Definition with_origin (o : string * string) (ts : Z) (m : StreamMetadata) : StreamMetadata := {|
  sm_ssrc := sm_ssrc m; output_count := output_count m; in_wait_timeout := in_wait_timeout m;
  out_idle_timeout := out_idle_timeout m; origin_trans := Some o; register_ts := ts;
  converter := converter m; media_ext := media_ext m; sm_output := sm_output m |}.

Definition insert_origin_trans (time : Z) (stream_id : string) (origin : string * string) (i : MInner)
    : bool * MInner :=
  match stream_metadata_map i !! stream_id with
  | Some meta => (true, on_metadata <[stream_id := with_origin origin time meta]> i)
  | None => (false, i)
  end.

Definition send_stream_config (rtp_type : Z) (stream_id : string) (i : MInner) : MInner :=
  match stream_metadata_map i !! stream_id with
  | None => i
  | Some meta =>
      match media_ext meta with
      | None => i
      | Some ext =>
          if type_code ext =? rtp_type then
            match rtp_gateway_map i !! sm_ssrc meta with
            | None => i
            | Some rc =>
                if bus_ok then
                  (try_send (MOut (OStreamRegister {|
                     rsi_base := base_info i meta stream_id; rsi_code := 200; rsi_msg := None |}))
                     (publish (BusStreamConfig stream_id (converter meta) ext (rc_id rc)) i)).2
                else i
            end
          else
            let i1 := (try_send (MOut (OStreamRegister {|
                 rsi_base := base_info i meta stream_id; rsi_code := code_invalid_state;
                 rsi_msg := Some ("Play type is not identical;sdp=" +:+ pretty (Z.to_N (type_code ext))
                                  +:+ ",rtp=" +:+ pretty (Z.to_N rtp_type))%string |})) i).2 in
            set_maps (delete (sm_ssrc meta) (rtp_gateway_map i1))
              (delete stream_id (stream_metadata_map i1)) i1
      end
  end.

Definition hand_inner (time rtp_type : Z) (stream_id : string) (origin : string * string) (i : MInner) : MInner :=
  let '(known, i1) := insert_origin_trans time stream_id origin i in
  if known then send_stream_config rtp_type stream_id i1 else i1.

Definition ConverterLayer_new (codec : option Codec) (filter : Filter) (output : OutputKind) (tx : Z)
    : outcome MediaError ConverterLayer :=
  outcome_bind (MuxerLayer_new output tx) (fun muxer =>
    match capture filter with
    | Some _ => Panic
    | None => Done {| cv_codec := codec; cv_muxer := muxer; cv_filter := filter |}
    end).

(** [build_from_output_kind]: the task that records a local file, if any. *)
Definition build_from_output_kind (output_kind : OutputKind) (ssrc : Z) (stream_id : string)
    (muxer : MuxerLayer) : outcome MediaError (option MEvent) :=
  match output_kind with
  | KHttpFlv | KDashFmp4 | KHlsFmp4 | KHlsTs | KDashMp4 => Done None
  | KRtmp | KRtsp | KGb28181Frame | KGb28181Ps | KWebRtc | KLocalTs _ => Panic
  | KLocalMp4 path =>
      match get_rx Mp4 muxer with
      | Done rx => if bus_ok then Done (Some (MActiveLocalStoreMp4 path ssrc stream_id rx)) else Panic
      | _ => Panic
      end
  end.

Definition init_media (cfg : MediaConfig) (i : MInner) : outcome MediaError Z * MInner :=
  let ssrc := mc_ssrc cfg in
  let stream_id := mc_stream_id cfg in
  let '(rtp_id, i1) := fresh_channel i in
  let '(tx, i2) := fresh_channel i1 in
  match ConverterLayer_new (mc_codec cfg) (mc_filter cfg) (mc_output cfg) tx with
  | Failed e => (Failed e, i2)
  | Panic => (Panic, i2)
  | Done converter =>
      let meta := {|
        sm_ssrc := ssrc; output_count := OutputCount_default;
        in_wait_timeout := default (conf_in_wait_timeout i2) (mc_in_wait_timeout cfg);
        out_idle_timeout := default (conf_out_idle_timeout i2) (mc_out_idle_timeout cfg);
        origin_trans := None; register_ts := 0; converter := converter; media_ext := None;
        sm_output := OutputLayer_new (mc_output cfg) |} in
      match build_from_output_kind (mc_output cfg) ssrc stream_id (cv_muxer converter) with
      | Failed e => (Failed e, i2)
      | Panic => (Panic, i2)
      | Done event =>
          let i3 := schedule (RtpGateway ssrc) RTP_INPUT_CHECK_INTERVAL i2 in
          let i4 := set_maps (<[ssrc := RtpChannel_new rtp_id stream_id]> (rtp_gateway_map i3))
                      (<[stream_id := meta]> (stream_metadata_map i3)) i3 in
          (Done ssrc, match event with Some e => (try_send e i4).2 | None => i4 end)
      end
  end.
End Opening.

(** ** Timers and answers of the signalling server *)

Definition on_time_key (now : Z) (i : MInner) (key : TimeScheduleKey) : MInner :=
  match key with
  | RtpGateway ssrc => handle_rtp_in_timeout ssrc i
  | OutSessionKey expire_id => clean_play_token expire_id i
  | UnknownStream key => expire_unknown_stream now key i
  end.
Definition on_time_schedule (now : Z) (batch : list TimeScheduleKey) (i : MInner) : MInner :=
  foldl (on_time_key now) i batch.

(** A response of the hook call: [None] for a transport error, else the code
    and the data. *)
Definition input_timeout_decision (resp : option (Z * option InTimeoutEventRes)) : InTimeoutEventRes :=
  match resp with Some (200, Some r) => r | _ => InCloseAll end.
Definition idle_decision (user_count : Z) (resp : option (Z * option OutputEventRes)) : OutputEventRes :=
  let oe := if user_count =? 0 then OutCloseAll else CloseMuxer in
  match resp with Some (200, Some r) => r | _ => oe end.

Definition hand_out_input_timeout (state : StreamState) (resp : option (Z * option InTimeoutEventRes))
    (i : MInner) : MInner := close_stream_by_input state (input_timeout_decision resp) i.
Definition hand_out_stream_idle (info : OutputStreamInfo) (resp : option (Z * option OutputEventRes))
    (i : MInner) : MInner := close_stream_by_output info (idle_decision (osi_user_count info) resp) i.

Definition MInner_init (server proxy : string) (in_wait out_idle : Z) : MInner := {|
  time_schedule := []; rtp_gateway_map := ∅; stream_metadata_map := ∅; out_session_map := ∅;
  unknown_stream_map := ∅; user_token_map := ∅; next_id := 1; next_channel := 0;
  server_name := server; proxy_addr := proxy; conf_in_wait_timeout := in_wait;
  conf_out_idle_timeout := out_idle; events := []; event_room := 10000; published := [] |}.
