(* ===== verification/MediaProps.v ===== *)
(** * What the media register guarantees

    Spacing of the unknown-stream reports, counting of input timeouts,
    accounting of viewers and tokens, opening and closing of streams, and the
    viewer that a kept muxer's expiry discounts. *)
From S2P Require Import Prelude SharedTypes StreamOutputs MediaRegister.
Local Open Scope Z_scope.

(** ** Reports about unknown streams *)

Inductive unknown_op :=
| UPacket (now ssrc : Z) (addr protocol : string)
| UExpire (now : Z) (key : string).

Definition unknown_time (op : unknown_op) : Z := match op with UPacket t _ _ _ | UExpire t _ => t end.
Definition unknown_apply (i : MInner) (op : unknown_op) : MInner :=
  match op with
  | UPacket now ssrc addr protocol => observe_unknown_rtp now ssrc addr protocol i
  | UExpire now key => expire_unknown_stream now key i
  end.

(** The reports sent, oldest first, and the key each is about. *)
Definition unknown_reports (i : MInner) : list UnknownStreamEvent :=
  omap (fun e => match e with MOut (OStreamUnknown u) => Some u | _ => None end) (events i).
Definition report_key (u : UnknownStreamEvent) : string :=
  unknown_key (use_ssrc u) (use_remote_addr u) (use_protocol u).

(** A later report about the same key is at least the cool-down after the
    earlier one. *)
Definition spaced (u1 u2 : UnknownStreamEvent) : Prop :=
  report_key u1 = report_key u2 ->
  use_last_seen_at_ms u1 + UNKNOWN_STREAM_COOLDOWN_MS <= use_last_seen_at_ms u2.
Definition confirmed_report (u : UnknownStreamEvent) : Prop :=
  UNKNOWN_STREAM_MIN_PACKETS <= use_packet_count u /\
  use_first_seen_at_ms u + UNKNOWN_STREAM_CONFIRM_MS <= use_last_seen_at_ms u.

(** What holds at time [now] between the observations and the reports. *)
Record unknown_wf (now : Z) (i : MInner) : Prop := {
  uw_now : 0 <= now;
  uw_obs : forall k o, unknown_stream_map i !! k = Some o ->
    unknown_key (uo_ssrc o) (uo_remote_addr o) (uo_protocol o) = k /\
    0 <= uo_last_notify_at_ms o <= uo_last_seen_at_ms o /\
    uo_first_seen_at_ms o <= uo_last_seen_at_ms o /\ uo_last_seen_at_ms o <= now;
  uw_reports : forall u, u ∈ unknown_reports i ->
    match unknown_stream_map i !! report_key u with
    | Some o => if uo_last_notify_at_ms o =? 0
                then use_last_seen_at_ms u + UNKNOWN_STREAM_COOLDOWN_MS <= uo_first_seen_at_ms o
                else use_last_seen_at_ms u <= uo_last_notify_at_ms o
    | None => use_last_seen_at_ms u + UNKNOWN_STREAM_COOLDOWN_MS <= now
    end;
  uw_spaced : StronglySorted spaced (unknown_reports i);
  uw_confirmed : Forall confirmed_report (unknown_reports i)
}.

Lemma StronglySorted_snoc {X} (R : X -> X -> Prop) (l : list X) (x : X) :
  StronglySorted R l -> Forall (fun y => R y x) l -> StronglySorted R (l ++ [x]).
Proof.
  induction 1 as [|y l Hs IH Hy]; intros Hall; simpl; [repeat constructor|].
  apply Forall_cons in Hall as [Hyx Hall]. constructor; [by apply IH|].
  apply Forall_app. split; [done|]. by constructor.
Qed.

Lemma unknown_reports_snoc (e : MEvent) (evs : list MEvent) :
  omap (fun e => match e with MOut (OStreamUnknown u) => Some u | _ => None end) (evs ++ [e])
  = omap (fun e => match e with MOut (OStreamUnknown u) => Some u | _ => None end) evs
    ++ match e with MOut (OStreamUnknown u) => [u] | _ => [] end.
Proof. rewrite omap_app. by destruct e as [[]| |]. Qed.

(** Time passes. *)
Lemma unknown_wf_later now now' i : now <= now' -> unknown_wf now i -> unknown_wf now' i.
Proof.
  intros Ht [W1 W2 W3 W4 W5]. split; [lia| | |done|done].
  - intros k o Hk. destruct (W2 _ _ Hk) as (? & ? & ? & ?). split_and!; (done || lia).
  - intros u Hu. specialize (W3 u Hu). destruct (unknown_stream_map i !! report_key u); [done|lia].
Qed.

(** A packet that finds an observation. *)
Lemma observe_wf now k o i i' :
  0 < now -> unknown_wf now i -> unknown_stream_map i !! k = Some o ->
  let '(notify, o1) := observe now o in
  unknown_stream_map i' = <[k := o1]> (unknown_stream_map i) ->
  (unknown_reports i' = unknown_reports i \/
   notify = true /\ exists u, unknown_reports i' = unknown_reports i ++ [u] /\
     use_ssrc u = uo_ssrc o1 /\ use_remote_addr u = uo_remote_addr o1 /\ use_protocol u = uo_protocol o1 /\
     use_first_seen_at_ms u = uo_first_seen_at_ms o1 /\ use_last_seen_at_ms u = uo_last_seen_at_ms o1 /\
     use_packet_count u = uo_packet_count o1) ->
  unknown_wf now i'.
Proof.
  intros Hnow [W1 W2 W3 W4 W5] Hk. unfold observe. set (notify := andb _ _).
  set (o1 := Build_UnknownStreamObservation _ _ _ _ _ _ _). intros Hmap Hrep.
  destruct (W2 _ _ Hk) as (K1 & K2 & K3 & K4).
  assert (forall u, u ∈ unknown_reports i -> report_key u = k ->
    if notify then use_last_seen_at_ms u + UNKNOWN_STREAM_COOLDOWN_MS <= now
    else if uo_last_notify_at_ms o =? 0
         then use_last_seen_at_ms u + UNKNOWN_STREAM_COOLDOWN_MS <= uo_first_seen_at_ms o
         else use_last_seen_at_ms u <= uo_last_notify_at_ms o) as Hold.
  { intros u Hu Hku. specialize (W3 u Hu). rewrite Hku, Hk in W3.
    destruct notify eqn:Hn; [|done]. unfold notify in Hn. zbool.
    destruct (uo_last_notify_at_ms o =? 0) eqn:Hz; [lia|]. simpl in *. zbool.
    unfold saturating_sub, UNKNOWN_STREAM_COOLDOWN_MS in *. lia. }
  split; [done| | | |].
  - intros k' o'. rewrite Hmap. intros [[<- <-]|[? Hk']]%lookup_insert_Some; [|by eauto].
    unfold o1. simpl. split_and!; (done || destruct notify; lia).
  - intros u Hu. rewrite Hmap. destruct (decide (report_key u = k)) as [Hku|Hku].
    + rewrite Hku, lookup_insert_eq. unfold o1. simpl.
      destruct Hrep as [Hrep|(Hn & u0 & Hrep & _ & _ & _ & _ & U5 & _)]; rewrite Hrep in Hu.
      * specialize (Hold u Hu Hku). destruct notify; [|done].
        destruct (Z.eqb_spec now 0); [lia|]. unfold UNKNOWN_STREAM_COOLDOWN_MS in *. lia.
      * rewrite Hn. destruct (Z.eqb_spec now 0); [lia|].
        apply elem_of_app in Hu as [Hu|Hu]; [|apply list_elem_of_singleton in Hu as ->; rewrite U5; simpl; lia].
        specialize (Hold u Hu Hku). rewrite Hn in Hold. unfold UNKNOWN_STREAM_COOLDOWN_MS in *. lia.
    + rewrite lookup_insert_ne by done. apply W3.
      destruct Hrep as [Hrep|(Hn & u0 & Hrep & U1 & U2 & U3 & _)]; rewrite Hrep in Hu; [done|].
      apply elem_of_app in Hu as [Hu|Hu]; [done|]. apply list_elem_of_singleton in Hu as ->.
      destruct Hku. unfold report_key. by rewrite U1, U2, U3.
  - destruct Hrep as [->|(Hn & u0 & -> & U1 & U2 & U3 & U4 & U5 & U6)]; [done|].
    apply StronglySorted_snoc; [done|]. apply Forall_forall. intros u Hu Hku.
    assert (report_key u = k) as Hku' by (rewrite Hku; unfold report_key; by rewrite U1, U2, U3).
    specialize (Hold u Hu Hku'). rewrite Hn in Hold. rewrite U5. done.
  - destruct Hrep as [->|(Hn & u0 & -> & U1 & U2 & U3 & U4 & U5 & U6)]; [done|].
    apply Forall_app. split; [done|]. constructor; [|done]. unfold confirmed_report.
    rewrite U4, U5, U6. unfold o1. simpl. unfold notify in Hn. zbool.
    unfold saturating_sub, UNKNOWN_STREAM_CONFIRM_MS in *. lia.
Qed.

Lemma unknown_apply_wf now op i :
  0 < unknown_time op -> now <= unknown_time op -> unknown_wf now i ->
  unknown_wf (unknown_time op) (unknown_apply i op).
Proof.
  intros Hpos Hle Hwf%(unknown_wf_later _ _ _ Hle). destruct op as [t ssrc addr proto|t key]; simpl in *.
  - unfold observe_unknown_rtp. set (k := unknown_key ssrc addr proto).
    destruct (unknown_stream_map i !! k) as [o|] eqn:Hk.
    + pose proof (observe_wf t k o i) as Hob. destruct (observe t o) as [notify o1].
      destruct notify.
      * unfold try_send. simpl. destruct (0 <? event_room i); simpl.
        -- eapply Hob; [done..|]. right. split; [done|]. eexists. split.
           ++ unfold unknown_reports. simpl. rewrite unknown_reports_snoc. done.
           ++ done.
        -- eapply Hob; [done..|]. by left.
      * eapply Hob; [done..|]. by left.
    + destruct Hwf as [W1 W2 W3 W4 W5]. split; simpl; [done| | |done|done].
      * intros k' o'. intros [[<- <-]|[? ?]]%lookup_insert_Some; [|by eauto]. simpl. split_and!; (done || lia).
      * intros u Hu. specialize (W3 u Hu). destruct (decide (report_key u = k)) as [Hku|Hku].
        -- rewrite Hku, lookup_insert_eq. simpl. by rewrite Hku, Hk in W3.
        -- by rewrite lookup_insert_ne.
  - unfold expire_unknown_stream. destruct (unknown_stream_map i !! key) as [o|] eqn:Hk; [|done].
    destruct (Z.leb_spec UNKNOWN_STREAM_EXPIRE_MS (idle_ms t o)) as [Hidle|]; [|by destruct Hwf].
    destruct Hwf as [W1 W2 W3 W4 W5]. destruct (W2 _ _ Hk) as (K1 & K2 & K3 & K4).
    split; simpl; [done| | |done|done].
    + intros k' o' [? ?]%lookup_delete_Some. by eauto.
    + intros u Hu. specialize (W3 u Hu). destruct (decide (report_key u = key)) as [Hku|Hku].
      * rewrite Hku, lookup_delete_eq. rewrite Hku, Hk in W3.
        unfold idle_ms, saturating_sub, UNKNOWN_STREAM_EXPIRE_MS, UNKNOWN_STREAM_COOLDOWN_MS in *.
        destruct (Z.eqb_spec (uo_last_notify_at_ms o) 0); lia.
      * by rewrite lookup_delete_ne.
Qed.

(** Times are positive and do not go back. *)
Fixpoint times_from (now : Z) (ops : list unknown_op) : Prop :=
  match ops with
  | [] => True
  | op :: ops => 0 < unknown_time op /\ now <= unknown_time op /\ times_from (unknown_time op) ops
  end.

(** Reports about unknown streams are confirmed and spaced.  For any
    sequence of stray RTP packets and expiry notifications with a clock that
    does not go back, every report is about a source seen at least three times
    over at least two seconds, and two reports about the same source are at
    least thirty seconds apart, also across the expiry of its entry. *)
Theorem unknown_reports_spaced (server proxy : string) (w o : Z) (ops : list unknown_op) :
  times_from 0 ops ->
  let i := foldl unknown_apply (MInner_init server proxy w o) ops in
  Forall confirmed_report (unknown_reports i) /\ StronglySorted spaced (unknown_reports i).
Proof.
  intros Ht i. assert (exists now, unknown_wf now i) as [now Hwf]; [|by destruct Hwf].
  assert (unknown_wf 0 (MInner_init server proxy w o)) as H0.
  { split; simpl; [done| | |constructor|constructor].
    - intros k ob. by rewrite lookup_empty.
    - intros u []%elem_of_nil. }
  unfold i. clear i. revert H0 Ht. generalize (MInner_init server proxy w o). generalize 0.
  induction ops as [|op ops IH]; intros t i Hi Ht; simpl; [by exists t|].
  destruct Ht as (? & ? & Ht). eapply IH; [|done]. by apply (unknown_apply_wf t).
Qed.

Lemma unknown_reports_spaced_witness :
  let i := foldl unknown_apply (MInner_init "m" "p" 4 3)
             [UPacket 1 7 "a" "udp"; UPacket 1000 7 "a" "udp"; UPacket 2500 7 "a" "udp"] in
  times_from 0 [UPacket 1 7 "a" "udp"; UPacket 1000 7 "a" "udp"; UPacket 2500 7 "a" "udp"] /\
  length (unknown_reports i) = 1%nat /\ Forall confirmed_report (unknown_reports i).
Proof.
  split_and!; [done|by vm_compute|].
  apply (unknown_reports_spaced "m" "p" 4 3
           [UPacket 1 7 "a" "udp"; UPacket 1000 7 "a" "udp"; UPacket 2500 7 "a" "udp"]). done.
Defined.

(** ** Input timeouts *)

(** A stream that is receiving: its channel and its metadata. *)
Definition streaming (ssrc : Z) (rc : RtpChannel) (meta : StreamMetadata) (i : MInner) : Prop :=
  rtp_gateway_map i !! ssrc = Some rc /\ stream_metadata_map i !! rc_stream_id rc = Some meta.

(** [n] checks in a row without a packet. *)
Fixpoint silent_checks (ssrc : Z) (n : nat) (i : MInner) : MInner :=
  match n with O => i | S n => handle_rtp_in_timeout ssrc (silent_checks ssrc n i) end.

Lemma silent_checks_wait (ssrc : Z) (n : nat) (i : MInner) (rc : RtpChannel) (meta : StreamMetadata) :
  streaming ssrc rc meta i -> 0 <= in_has_timeout rc -> in_wait_timeout meta <= 255 ->
  in_has_timeout rc + Z.of_nat n < in_wait_timeout meta ->
  let i' := silent_checks ssrc n i in
  streaming ssrc (with_channel (in_has_timeout rc + Z.of_nat n) (wait_sign_in rc) (miss_pkt rc) rc) meta i' /\
  events i' = events i /\ event_room i' = event_room i /\ stream_metadata_map i' = stream_metadata_map i /\
  server_name i' = server_name i /\ proxy_addr i' = proxy_addr i /\
  time_schedule i' = time_schedule i ++ replicate n (RtpGateway ssrc, RTP_INPUT_CHECK_INTERVAL).
Proof.
  intros [Hg Hm] H0 Hw. induction n as [|n IH]; intros Hn; simpl.
  - rewrite Z.add_0_r, app_nil_r. destruct rc. by split_and!.
  - destruct IH as ([Hg' Hm'] & E1 & E2 & E3 & E4 & E5 & E6); [lia|].
    set (j := silent_checks ssrc n i) in *.
    unfold handle_rtp_in_timeout. rewrite Hg'. simpl in *. rewrite Hm'.
    assert (saturating_add 8 (in_has_timeout rc + Z.of_nat n) 1 = in_has_timeout rc + Z.of_nat (S n)) as ->
      by (unfold saturating_add, umax; lia).
    rewrite wrapping_add_small by lia. destruct (Z.ltb_spec (in_has_timeout rc + Z.of_nat (S n))
      (in_wait_timeout meta)); [|lia]. unfold streaming. simpl. rewrite lookup_insert_eq.
    replace (in_has_timeout rc + Z.of_nat n + 1) with (in_has_timeout rc + Z.of_nat (S n)) by lia.
    split_and!; try done. rewrite E6, <- app_assoc. f_equal. by rewrite <- replicate_S_end.
Qed.

(** A silent stream is reported and closed.  Counting from the last packet,
    the checks before the [in_wait_timeout]-th only re-arm the one-second timer;
    that check reports the stream and its viewers and arms nothing; the answer
    then keeps the stream for eight more seconds when it is an accepted
    [KeepAlive], and in every other case, errors included, removes both the
    channel and the metadata. *)
Theorem silent_stream_is_closed (ssrc : Z) (i : MInner) (rc : RtpChannel) (meta : StreamMetadata)
    (resp : option (Z * option InTimeoutEventRes)) :
  streaming ssrc rc meta i -> sm_ssrc meta = ssrc -> in_has_timeout rc = 0 ->
  0 < in_wait_timeout meta <= 255 -> 0 < event_room i ->
  let w := Z.to_nat (in_wait_timeout meta) in
  let state := {| ss_base := base_info i meta (rc_stream_id rc);
                  ss_user_count := get_out_count (output_count meta) |} in
  let i' := silent_checks ssrc w i in
  let i2 := hand_out_input_timeout state resp i' in
  events i' = events i ++ [MOut (OStreamInTimeout state)] /\
  time_schedule i' = time_schedule i ++ replicate (w - 1) (RtpGateway ssrc, RTP_INPUT_CHECK_INTERVAL) /\
  (forall n, (n < w)%nat -> events (silent_checks ssrc n i) = events i) /\
  if decide (resp = Some (200, Some InKeepAlive))
  then is_Some (rtp_gateway_map i2 !! ssrc) /\ stream_metadata_map i2 = stream_metadata_map i /\
       time_schedule i2 = time_schedule i' ++ [(RtpGateway ssrc, 8000)]
  else rtp_gateway_map i2 !! ssrc = None /\ stream_metadata_map i2 !! rc_stream_id rc = None /\
       time_schedule i2 = time_schedule i' /\
       is_exist {| sk_ssrc := ssrc; sk_stream_id := Some (rc_stream_id rc) |} i2 = false.
Proof.
  intros Hs Hid H0 Hw Hroom w state i' i2.
  assert (Hb := silent_checks_wait ssrc (w - 1) i rc meta Hs ltac:(lia) ltac:(lia) ltac:(lia)).
  destruct Hb as ([Hg Hm] & E1 & E2 & E3 & E4 & E5 & E6).
  assert (i' = handle_rtp_in_timeout ssrc (silent_checks ssrc (w - 1) i)) as Hi'.
  { unfold i'. replace w with (S (w - 1)) at 1 by lia. done. }
  set (j := silent_checks ssrc (w - 1) i) in *.
  assert (rtp_gateway_map i' !! ssrc <> None /\ stream_metadata_map i' = stream_metadata_map i /\
          events i' = events i ++ [MOut (OStreamInTimeout state)] /\
          time_schedule i' = time_schedule j) as (F1 & F2 & F3 & F4).
  { rewrite Hi'. unfold handle_rtp_in_timeout. rewrite Hg. simpl in *. rewrite Hm.
    destruct (Z.ltb_spec (saturating_add 8 (in_has_timeout rc + Z.of_nat (w - 1)) 1) (in_wait_timeout meta));
      [unfold saturating_add, umax in *; lia|].
    unfold try_send. simpl. rewrite E2. destruct (Z.ltb_spec 0 (event_room i)); [|lia]. simpl.
    rewrite lookup_insert_eq. split_and!; [done|done| |done]. rewrite E1. do 4 f_equal.
    unfold state, base_info. simpl. by rewrite E4, E5. }
  split_and!; [done|by rewrite F4|..].
  - intros n Hn. by apply (silent_checks_wait ssrc n i rc meta Hs); lia.
  - unfold i2, hand_out_input_timeout. destruct (decide _) as [->|Hne].
    + simpl. rewrite Hid. split_and!; [|done|done]. by apply not_eq_None_Some.
    + assert (input_timeout_decision resp = InCloseAll) as ->.
      { unfold input_timeout_decision. destruct resp as [[c [[]|]]|]; try done;
          destruct c as [|c|c]; try done; repeat (destruct c as [c|c|]; try done); by destruct Hne. }
      simpl. rewrite Hid, lookup_delete_eq, lookup_delete_eq. split_and!; [done|done|done|].
      unfold is_exist. simpl. by rewrite lookup_delete_eq.
Qed.

(** A stream under test: SSRC 7, one minute of patience in seconds, two event
    slots. *)
Definition demo_config (k : OutputKind) : MediaConfig := {|
  mc_ssrc := 7; mc_stream_id := "s"; mc_in_wait_timeout := Some 3; mc_out_idle_timeout := Some 6;
  mc_codec := None; mc_filter := {| capture := None |}; mc_output := k |}.
Definition demo_stream : MInner := (init_media true (demo_config KHttpFlv) (MInner_init "m" "p" 4 3)).2.
Definition demo_channel : RtpChannel := RtpChannel_new 0 "s".
Definition demo_meta : StreamMetadata := {|
  sm_ssrc := 7; output_count := OutputCount_default; in_wait_timeout := 3; out_idle_timeout := 6;
  origin_trans := None; register_ts := 0;
  converter := {| cv_codec := None; cv_muxer := muxer_set Flv (Some 1) MuxerLayer_default;
                  cv_filter := {| capture := None |} |};
  media_ext := None; sm_output := OutputLayer_new KHttpFlv |}.

Lemma demo_streaming : streaming 7 demo_channel demo_meta demo_stream.
Proof. split; by vm_compute. Qed.

Lemma silent_stream_is_closed_witness :
  events (silent_checks 7 2 demo_stream) = [] /\ length (events (silent_checks 7 3 demo_stream)) = 1%nat.
Proof.
  destruct (silent_stream_is_closed 7 demo_stream demo_channel demo_meta None demo_streaming
    eq_refl eq_refl ltac:(by vm_compute) eq_refl) as (H1 & _ & H2 & _).
  split; [exact (H2 2%nat ltac:(vm_compute; lia))|].
  change 3%nat with (Z.to_nat (in_wait_timeout demo_meta)). rewrite H1. done.
Defined.

(** ** Viewers *)

(** Every token record has a play, and every play a positive 32-bit count. *)
Definition tokens_wf (t : gmap (string * string) (gmap OutputEnum Z)) : Prop :=
  forall key plays, t !! key = Some plays ->
    plays <> ∅ /\ forall o n, plays !! o = Some n -> 1 <= n < 2 ^ 32.

(** Releasing a play just taken gives the records back, and the token when it
    had no record. *)
Lemma release_take (token stream_id : string) (o : OutputEnum)
    (t : gmap (string * string) (gmap OutputEnum Z)) :
  tokens_wf t ->
  let plays := default ∅ (t !! (token, stream_id)) in
  (forall n, plays !! o = Some n -> n < umax 32) ->
  let n := match plays !! o with Some n => wrapping_add 32 n 1 | None => 1 end in
  release_token token stream_id o (<[(token, stream_id) := <[o := n]> plays]> t)
  = (match t !! (token, stream_id) with
     | None => if bool_decide (token = "") then None else Some token
     | Some _ => None
     end, t).
Proof.
  intros Hwf plays Hmax n. unfold release_token. rewrite lookup_insert_eq, lookup_insert_eq.
  unfold plays in *. clear plays. destruct (t !! (token, stream_id)) as [plays|] eqn:Ht; simpl in *.
  - destruct (Hwf _ _ Ht) as [Hne Hn]. unfold n. clear n. destruct (plays !! o) as [m|] eqn:Ho.
    + specialize (Hn _ _ Ho). specialize (Hmax _ eq_refl). unfold umax in Hmax.
      rewrite wrapping_add_small by lia. destruct (Z.eqb_spec (m + 1) 1); [lia|].
      unfold wrapping_sub. replace (m + 1 - 1) with m by lia. rewrite Z.mod_small by lia.
      rewrite !insert_insert_eq, (insert_id plays) by done. by rewrite insert_id.
    + simpl. rewrite delete_insert_id by done. rewrite bool_decide_eq_false_2 by done.
      rewrite insert_insert_eq. by rewrite insert_id.
  - unfold n. simpl. rewrite delete_insert_id by done. rewrite bool_decide_eq_true_2 by done.
    by rewrite delete_insert_id.
Qed.

Lemma out_session_released (expire_id : Z) (os : OutSession) (meta : StreamMetadata) (i : MInner)
    (tok : option string) (tokens : gmap (string * string) (gmap OutputEnum Z)) :
  out_session_map i !! expire_id = Some os ->
  stream_metadata_map i !! os_stream_id os = Some meta -> 1 < event_room i ->
  release_token (os_token os) (os_stream_id os) (os_output_enum os) (user_token_map i) = (tok, tokens) ->
  let '(left_over, c) := subtract (os_output_enum os) (output_count meta) in
  let base := base_info i meta (os_stream_id os) in
  let i' := clean_play_token expire_id i in
  user_token_map i' = tokens /\ out_session_map i' = delete expire_id (out_session_map i) /\
  stream_metadata_map i' = <[os_stream_id os := with_count c meta]> (stream_metadata_map i) /\
  rtp_gateway_map i' = rtp_gateway_map i /\ next_id i' = next_id i /\
  time_schedule i' = time_schedule i /\ published i' = published i /\
  events i' = events i
    ++ match tok with Some token => [MOut (OOffPlay {| spi_base := base; spi_remote_addr := None;
                                       spi_token := token; spi_play_type := os_output_enum os |})]
       | None => [] end
    ++ (if left_over =? 0 then [MOut (OStreamIdle {| osi_base := base; osi_play_type := os_output_enum os;
                                  osi_user_count := get_out_count c |})] else []).
Proof.
  intros Hos Hm Hroom Hrel. destruct (subtract _ _) as [left_over c] eqn:Hsub. intros base i'.
  unfold i', clean_play_token. rewrite Hos, Hrel. simpl. rewrite Hm, Hsub. unfold try_send.
  destruct tok as [token|]; simpl.
  - destruct (Z.ltb_spec 0 (event_room i)); [|lia]. simpl. destruct (left_over =? 0); simpl.
    + destruct (Z.ltb_spec 0 (event_room i - 1)); [|lia]. simpl. by rewrite <- app_assoc.
    + done.
  - destruct (left_over =? 0); simpl; [|by rewrite app_nil_r].
    destruct (Z.ltb_spec 0 (event_room i)); [|lia]. done.
Qed.

Lemma with_count_id (m : StreamMetadata) : with_count (output_count m) m = m.
Proof. by destruct m. Qed.
Lemma with_count_count (c c' : OutputCount) (m : StreamMetadata) :
  with_count c (with_count c' m) = with_count c m.
Proof. done. Qed.

(** Playing and leaving balance.  A viewer who plays an output is counted
    and authorised by its token; when its session later expires, the viewer
    count, the tokens and the sessions are exactly what they were, the off-play
    event is sent if the token was not playing the stream before, and the idle
    event if there was no viewer of the output before. *)
Theorem play_leave_round_trip (stream_id token addr : string) (o : OutputEnum) (offset : Z)
    (i : MInner) (meta : StreamMetadata) :
  let c := output_count meta in
  let key := (token, stream_id) in
  stream_metadata_map i !! stream_id = Some meta -> counts_wf c -> get_muxer_size o c < umax 32 ->
  tokens_wf (user_token_map i) ->
  (forall plays n, user_token_map i !! key = Some plays -> plays !! o = Some n -> n < umax 32) ->
  out_session_map i !! next_id i = None -> 1 < event_room i ->
  let '(res, i1) := insert_out_token stream_id o token i in
  let i2 := listen_output_timeout stream_id o token addr offset i1 in
  let i3 := clean_play_token (next_id i) i2 in
  res = Done tt /\ check_token token stream_id i1 = true /\
  ((fun m => get_muxer_size o (output_count m)) <$> stream_metadata_map i2 !! stream_id)
    = Some (get_muxer_size o c + 1) /\
  user_token_map i3 = user_token_map i /\ stream_metadata_map i3 = stream_metadata_map i /\
  out_session_map i3 = out_session_map i /\
  let base := base_info i meta stream_id in
  events i3 = events i
    ++ (if bool_decide (user_token_map i !! key = None /\ token <> "")
        then [MOut (OOffPlay {| spi_base := base; spi_remote_addr := None; spi_token := token;
                                spi_play_type := o |})] else [])
    ++ (if get_muxer_size o c =? 0
        then [MOut (OStreamIdle {| osi_base := base; osi_play_type := o;
                                   osi_user_count := get_out_count c |})] else []).
Proof.
  intros c key Hm Hc Hmax Ht Hplays Hs Hroom.
  destruct (count_add_small o c Hc Hmax) as [Hadd _]. pose proof (subtract_add o c Hc Hmax) as Hsub.
  unfold insert_out_token. rewrite Hm. change (output_count meta) with c.
  set (c1 := (count_add o c).2) in *. set (t1 := <[_ := _]> (user_token_map _)).
  cbn beta iota zeta. set (i1 := set_sessions _ _ _ _).
  assert (stream_metadata_map i1 !! stream_id = Some (with_count c1 meta)) as Hm1 by (simpl; apply lookup_insert_eq).
  unfold listen_output_timeout. rewrite Hm1. unfold take_id.
  set (os := Build_OutSession _ _ _ _). set (i2 := schedule _ _ _).
  assert (release_token token stream_id o (user_token_map i2)
    = (match user_token_map i !! key with
       | None => if bool_decide (token = "") then None else Some token | Some _ => None end,
       user_token_map i)) as Hrel.
  { apply (release_take token stream_id o _ Ht). intros n. unfold key in Hplays.
    destruct (user_token_map i !! (token, stream_id)) as [plays|]; simpl; [by apply Hplays|done]. }
  pose proof (out_session_released (next_id i) os (with_count c1 meta) i2 _ _
    (lookup_insert_eq _ _ _) Hm1 Hroom Hrel) as Hfin. simpl in Hfin. rewrite Hsub in Hfin.
  destruct Hfin as (F1 & F2 & F3 & _ & _ & _ & _ & F4). fold i2 in F1, F2, F3, F4.
  split_and!; [done| | |done| | |].
  - unfold check_token. simpl. rewrite bool_decide_eq_true_2; [done|]. unfold t1. rewrite lookup_insert_eq. by eexists.
  - change (stream_metadata_map i2) with (stream_metadata_map i1). rewrite Hm1. simpl. unfold c1. rewrite Hadd.
    simpl. by rewrite get_store, decide_True.
  - rewrite F3. simpl. rewrite insert_insert_eq, with_count_count. unfold c. rewrite with_count_id.
    by apply insert_id.
  - rewrite F2. simpl. by apply delete_insert_id.
  - rewrite F4. simpl. f_equal. f_equal.
    destruct (user_token_map i !! key); [by rewrite bool_decide_eq_false_2 by (intros Hx; discriminate (proj1 Hx))|].
    destruct (decide (token = "")) as [->|];
      [by rewrite bool_decide_eq_true_2, bool_decide_eq_false_2 by (done || intros Hx; by apply (proj2 Hx))|].
    by rewrite bool_decide_eq_false_2, bool_decide_eq_true_2.
Qed.

Lemma demo_counts_wf : counts_wf OutputCount_default.
Proof. intros o. by destruct o. Qed.

Lemma play_leave_round_trip_witness :
  user_token_map (clean_play_token 1 (listen_output_timeout "s" HttpFlv "t" "1.2.3.4" 1
    (insert_out_token "s" HttpFlv "t" demo_stream).2)) = user_token_map demo_stream.
Proof.
  pose proof (play_leave_round_trip "s" "t" "1.2.3.4" HttpFlv 1 demo_stream demo_meta
    (proj2 demo_streaming) demo_counts_wf ltac:(by vm_compute)
    ltac:(intros key plays H; vm_compute in H; discriminate H)
    ltac:(intros plays n H; vm_compute in H; discriminate H) eq_refl eq_refl) as H.
  change (next_id demo_stream) with 1 in H.
  destruct (insert_out_token "s" HttpFlv "t" demo_stream) as [res i1] eqn:Hi.
  cbv zeta in H. exact (proj1 (proj2 (proj2 (proj2 H)))).
Defined.

(** A kept muxer's expiry takes a viewer away.  When the server answers an
    idle stream with [KeepMuxer] and a viewer starts playing within the eight
    seconds, the expiry of the kept muxer discounts that viewer: the count is
    back to zero and the stream is reported idle while the viewer's token is
    still valid and its session not ended; and without an answer the stream is
    then removed under the viewer. *)
Theorem keep_muxer_steals_viewer (info : OutputStreamInfo) (token : string) (i : MInner)
    (meta : StreamMetadata) :
  let stream_id := bsi_stream_id (osi_base info) in
  let o := osi_play_type info in
  let c := output_count meta in
  stream_metadata_map i !! stream_id = Some meta -> counts_wf c -> get_muxer_size o c = 0 ->
  user_token_map i !! ("", stream_id) = None -> token <> "" -> 1 < event_room i ->
  let i1 := hand_out_stream_idle info (Some (200, Some KeepMuxer)) i in
  let i2 := (insert_out_token stream_id o token i1).2 in
  let i3 := clean_play_token (next_id i) i2 in
  let idle := {| osi_base := base_info i meta stream_id; osi_play_type := o;
                 osi_user_count := get_out_count c |} in
  ((fun m => get_muxer_size o (output_count m)) <$> stream_metadata_map i2 !! stream_id) = Some 1 /\
  ((fun m => get_muxer_size o (output_count m)) <$> stream_metadata_map i3 !! stream_id) = Some 0 /\
  check_token token stream_id i3 = true /\ events i3 = events i ++ [MOut (OStreamIdle idle)] /\
  (get_out_count c = 0 ->
   stream_metadata_map (hand_out_stream_idle idle None i3) !! stream_id = None).
Proof.
  intros stream_id o c Hm Hc H0 Hno Htok Hroom i1 i2 i3 idle.
  assert (get_muxer_size o c < umax 32) as Hmax by (rewrite H0; done).
  destruct (count_add_small o c Hc Hmax) as [Hadd _]. pose proof (subtract_add o c Hc Hmax) as Hsub.
  set (os := {| os_addr := None; os_token := ""; os_output_enum := o; os_stream_id := stream_id |}).
  assert (out_session_map i2 !! next_id i = Some os /\
          stream_metadata_map i2 = <[stream_id := with_count (count_add o c).2 meta]> (stream_metadata_map i) /\
          user_token_map i2 !! ("", stream_id) = None /\ is_Some (user_token_map i2 !! (token, stream_id)) /\
          event_room i2 = event_room i /\ events i2 = events i /\
          base_info i2 (with_count (count_add o c).2 meta) stream_id = base_info i meta stream_id)
    as (G1 & G2 & G3 & G4 & G5 & G6 & G7).
  { unfold i2, i1, insert_out_token, hand_out_stream_idle. simpl. rewrite Hm. simpl.
    split_and!; try done; [by rewrite lookup_insert_eq| |rewrite lookup_insert_eq; by eexists].
    rewrite lookup_insert_ne by congruence. done. }
  assert (release_token "" stream_id o (user_token_map i2) = (None, user_token_map i2)) as Hrel
    by (unfold release_token; by rewrite G3).
  pose proof (out_session_released (next_id i) os (with_count (count_add o c).2 meta) i2 None
    (user_token_map i2) G1 ltac:(rewrite G2; apply lookup_insert_eq) ltac:(lia) Hrel) as Hfin.
  cbn [os_output_enum os_stream_id output_count with_count os] in Hfin.
  rewrite Hsub, H0 in Hfin. destruct Hfin as (F1 & _ & F3 & _ & _ & _ & _ & F4).
  fold i3 in F1, F3, F4. split_and!.
  - rewrite G2, Hadd, lookup_insert_eq. simpl. by rewrite get_store, decide_True, H0 by done.
  - rewrite F3, lookup_insert_eq. simpl. by rewrite H0.
  - unfold check_token. rewrite F1. by rewrite bool_decide_eq_true_2.
  - rewrite F4, G6. unfold idle. by rewrite <- G7.
  - intros Hz. unfold hand_out_stream_idle. simpl. rewrite Hz. simpl. apply lookup_delete_eq.
Qed.

Lemma keep_muxer_steals_viewer_witness :
  let info := {| osi_base := base_info demo_stream demo_meta "s"; osi_play_type := HttpFlv; osi_user_count := 0 |} in
  let i1 := hand_out_stream_idle info (Some (200, Some KeepMuxer)) demo_stream in
  let i2 := (insert_out_token "s" HttpFlv "t" i1).2 in
  check_token "t" "s" (clean_play_token 1 i2) = true.
Proof.
  exact (proj1 (proj2 (proj2 (keep_muxer_steals_viewer
    {| osi_base := base_info demo_stream demo_meta "s"; osi_play_type := HttpFlv; osi_user_count := 0 |} "t"
    demo_stream demo_meta (proj2 demo_streaming) demo_counts_wf eq_refl eq_refl ltac:(done) eq_refl)))).
Defined.

(** ** Opening *)

Definition packets (ssrc : Z) (pkts : list (Z * (string * string))) (i : MInner) : MInner :=
  foldl (fun i p => (refresh_rtp ssrc p.1 p.2 i).2) i pkts.

Lemma refresh_rtp_signed (ssrc t : Z) (origin : string * string) (rc : RtpChannel) (i : MInner) :
  rtp_gateway_map i !! ssrc = Some rc -> wait_sign_in rc = false ->
  let i' := (refresh_rtp ssrc t origin i).2 in
  (exists m, i' = on_gateway <[ssrc := with_channel 0 false m rc]> i).
Proof.
  intros Hg Hw i'. unfold i', refresh_rtp, refresh. rewrite Hg, Hw. simpl.
  destruct (rtp_is_full rc); simpl; rewrite Hw; eexists; done.
Qed.

Lemma packets_signed (ssrc : Z) (pkts : list (Z * (string * string))) (rc : RtpChannel) (i : MInner) :
  rtp_gateway_map i !! ssrc = Some rc -> wait_sign_in rc = false ->
  let i' := packets ssrc pkts i in
  events i' = events i /\ stream_metadata_map i' = stream_metadata_map i /\ published i' = published i /\
  exists rc', rtp_gateway_map i' !! ssrc = Some rc' /\ wait_sign_in rc' = false /\
    rc_stream_id rc' = rc_stream_id rc /\ (pkts <> [] -> in_has_timeout rc' = 0).
Proof.
  revert rc i. induction pkts as [|[t origin] pkts IH]; intros rc i Hg Hw; simpl.
  { split_and!; [done..|]. by exists rc. }
  destruct (refresh_rtp_signed ssrc t origin rc i Hg Hw) as [m Hi]. rewrite Hi. simpl.
  destruct (IH (with_channel 0 false m rc) (on_gateway <[ssrc := with_channel 0 false m rc]> i))
    as (E1 & E2 & E3 & rc' & R1 & R2 & R3 & R4); [apply lookup_insert_eq|done|].
  split_and!; [done..|]. exists rc'. split_and!; [done..|]. intros _.
  destruct pkts; [|by apply R4]. simpl in R1. rewrite lookup_insert_eq in R1. by simplify_eq.
Qed.

Lemma refresh_rtp_sign_in (ssrc t : Z) (origin : string * string) (rc : RtpChannel) (i : MInner) :
  rtp_gateway_map i !! ssrc = Some rc -> wait_sign_in rc = true -> 0 < event_room i ->
  let i' := (refresh_rtp ssrc t origin i).2 in
  events i' = events i ++ [MInnerStreamRegister t (rc_stream_id rc) origin] /\
  stream_metadata_map i' = stream_metadata_map i /\ published i' = published i /\
  server_name i' = server_name i /\ proxy_addr i' = proxy_addr i /\ event_room i' = event_room i - 1 /\
  exists m, rtp_gateway_map i' = <[ssrc := with_channel 0 false m rc]> (rtp_gateway_map i).
Proof.
  intros Hg Hw Hr i'. unfold i', refresh_rtp, refresh, try_send. rewrite Hg, Hw.
  destruct (Z.ltb_spec 0 (event_room i)); [|lia]. simpl.
  destruct (rtp_is_full _); simpl; split_and!; try done; eexists; done.
Qed.

Definition demo_ext (t : Z) : MediaExt := {|
  me_rtp_encrypt := None; type_code := t; me_type_name := "PS"; me_clock_rate := 90000; me_stream_number := None;
  me_video_params := VideoParams_default; me_audio_params := AudioParams_default |}.

(** The sign-in is sent once, by the first packet.  While the event channel
    is full the packet is refused and the sign-in stays due; once it has been
    sent no later packet sends it again, and every packet resets the input
    timeout.  So when the sign-in is handled before the SDP description is
    known, the stream's configuration is never published and its registration
    never reported, whatever packets and descriptions come afterwards. *)
Theorem sign_in_once (bus_ok : bool) (inv t now : Z) (origin : string * string) (ext : MediaExt)
    (ssrc : Z) (pkts : list (Z * (string * string))) (i : MInner) (rc : RtpChannel) (meta : StreamMetadata) :
  streaming ssrc rc meta i -> wait_sign_in rc = true -> sm_ssrc meta = ssrc ->
  (event_room i <= 0 ->
   refresh_rtp ssrc t origin i = (None, i)) /\
  (0 < event_room i ->
   let i1 := packets ssrc ((t, origin) :: pkts) i in
   events i1 = events i ++ [MInnerStreamRegister t (rc_stream_id rc) origin] /\
   in_has_timeout <$> (rtp_gateway_map i1 !! ssrc) = Some 0 /\
   (media_ext meta = None ->
    let i2 := hand_inner inv bus_ok now t (rc_stream_id rc) origin i1 in
    let '(res, i3) := init_media_ext ssrc ext i2 in
    let i4 := packets ssrc pkts i3 in
    res = Done tt /\ events i4 = events i1 /\ published i4 = published i)).
Proof.
  intros [Hg Hm] Hw Hid. split.
  - intros Hr. unfold refresh_rtp, refresh, try_send. rewrite Hg, Hw.
    destruct (Z.ltb_spec 0 (event_room i)); [lia|]. simpl. f_equal. unfold on_gateway, set_maps.
    rewrite insert_id by done. by destruct i.
  - intros Hr i1. unfold i1. simpl.
    destruct (refresh_rtp_sign_in ssrc t origin rc i Hg Hw Hr) as (A1 & A2 & A3 & A4 & A5 & _ & m & A6).
    set (j := (refresh_rtp ssrc t origin i).2) in *.
    destruct (packets_signed ssrc pkts (with_channel 0 false m rc) j)
      as (B1 & B2 & B3 & rc' & R1 & R2 & R3 & R4); [by rewrite A6, lookup_insert_eq|done|].
    change (foldl _ j pkts) with (packets ssrc pkts j). set (i1' := packets ssrc pkts j) in *.
    split_and!; [by rewrite B1|rewrite R1; simpl; f_equal; destruct pkts; [|by apply R4]|].
    { unfold i1' in R1. simpl in R1. rewrite A6, lookup_insert_eq in R1. by simplify_eq. }
    intros Hext. unfold hand_inner, insert_origin_trans. rewrite B2, A2, Hm.
    unfold send_stream_config. simpl. rewrite B2, A2, lookup_insert_eq. simpl. rewrite Hext.
    unfold init_media_ext. simpl. rewrite R1. rewrite R3. simpl. rewrite lookup_insert_eq.
    set (i3 := on_metadata _ _).
    destruct (packets_signed ssrc pkts rc' i3 R1 R2) as (C1 & _ & C3 & _).
    split_and!; [done|by rewrite C1|by rewrite C3; simpl; rewrite B3].
Qed.

Lemma sign_in_once_witness :
  events (packets 7 [(96, ("a", "udp")); (96, ("a", "udp"))] demo_stream)
    = [MInnerStreamRegister 96 "s" ("a", "udp")].
Proof.
  exact (proj1 (proj2 (sign_in_once true 1 96 0 ("a", "udp") (demo_ext 96) 7
    [(96, ("a", "udp"))] demo_stream demo_channel demo_meta demo_streaming eq_refl eq_refl) eq_refl)).
Defined.

(** How a stream is registered.  When the sign-in of a stream with a known
    SDP description is handled, the source and time are recorded; if the
    payload types agree the configuration is published once, on the channel of
    the stream's SSRC, and the registration reported with code 200; if they
    differ nothing is published, the mismatch is reported, and the channel and
    the metadata are both released; either way no other stream is touched. *)
Theorem stream_config_spec (inv t now : Z) (origin : string * string) (ext : MediaExt)
    (ssrc : Z) (i : MInner) (rc : RtpChannel) (meta : StreamMetadata) :
  streaming ssrc rc meta i -> sm_ssrc meta = ssrc -> media_ext meta = Some ext -> 0 < event_room i ->
  let stream_id := rc_stream_id rc in
  let meta1 := with_origin origin now meta in
  let i' := hand_inner inv true now t stream_id origin i in
  exists rsi,
    events i' = events i ++ [MOut (OStreamRegister rsi)] /\
    rsi_base rsi = base_info i meta1 stream_id /\ ri_ssrc (rtp_info (rsi_base rsi)) = ssrc /\
    (forall s, s <> stream_id -> stream_metadata_map i' !! s = stream_metadata_map i !! s) /\
    (forall s, s <> ssrc -> rtp_gateway_map i' !! s = rtp_gateway_map i !! s) /\
    if type_code ext =? t
    then rsi_code rsi = 200 /\ streaming ssrc rc meta1 i' /\
         published i' = published i ++ [BusStreamConfig stream_id (converter meta) ext (rc_id rc)]
    else rsi_code rsi = inv /\ published i' = published i /\
         rtp_gateway_map i' !! ssrc = None /\ stream_metadata_map i' !! stream_id = None.
Proof.
  intros [Hg Hm] Hid Hext Hroom stream_id meta1 i'.
  unfold i', hand_inner, insert_origin_trans. unfold stream_id. rewrite Hm. unfold send_stream_config.
  simpl. rewrite lookup_insert_eq. simpl. rewrite Hext, Hid.
  destruct (type_code ext =? t); [rewrite Hg|]; unfold try_send; simpl;
    destruct (Z.ltb_spec 0 (event_room i)); try lia; simpl; eexists; (split; [done|]);
    (split; [done|]); (split; [done|]).
  - split_and!; [|done|done| |done].
    + intros s Hs. by rewrite lookup_insert_ne.
    + split; simpl; [done|]. by rewrite lookup_insert_eq.
  - split_and!; [| |done|done| |].
    + intros s Hs. by rewrite lookup_delete_ne, lookup_insert_ne.
    + intros s Hs. by rewrite lookup_delete_ne.
    + apply lookup_delete_eq.
    + apply lookup_delete_eq.
Qed.

Lemma stream_config_spec_witness :
  let ext := (demo_ext 96) in
  let i := (init_media_ext 7 ext demo_stream).2 in
  exists rsi, events (hand_inner 400 true 5 96 "s" ("a", "udp") i) = [MOut (OStreamRegister rsi)] /\ rsi_code rsi = 200.
Proof.
  destruct (stream_config_spec 400 96 5 ("a", "udp") (demo_ext 96) 7
    (init_media_ext 7 (demo_ext 96) demo_stream).2 demo_channel
    (with_ext (Some (demo_ext 96)) demo_meta)
    ltac:(split; by vm_compute) eq_refl eq_refl eq_refl) as (rsi & H1 & _ & _ & _ & _ & H2 & _).
  exists rsi. split; [exact H1|exact H2].
Defined.

(** The outputs a stream can be opened with, and the muxer each is read from. *)
Definition opens (k : OutputKind) : option MuxerEnum :=
  match k with
  | KHttpFlv => Some Flv
  | KDashFmp4 | KHlsFmp4 => Some FMp4
  | KDashMp4 => Some DashMp4Muxer
  | KLocalMp4 _ => Some Mp4
  | _ => None
  end.

(** Opening a stream.  For the outputs the server implements the stream
    exists afterwards under its SSRC and its id, waits for its sign-in with no
    viewers, has the requested timeouts or the configured ones, can be read
    through the muxer of its output, has its input timer armed, and a local
    recording is started exactly for a local MP4 output; for any other output
    the call panics and registers nothing. *)
Theorem init_media_spec (cfg : MediaConfig) (i : MInner) :
  capture (mc_filter cfg) = None -> 0 < event_room i ->
  let '(res, i') := init_media true cfg i in
  let ssrc := mc_ssrc cfg in
  let stream_id := mc_stream_id cfg in
  match opens (mc_output cfg) with
  | None => res = Panic /\ rtp_gateway_map i' = rtp_gateway_map i /\
            stream_metadata_map i' = stream_metadata_map i /\ time_schedule i' = time_schedule i /\
            events i' = events i
  | Some m =>
      res = Done ssrc /\
      is_exist {| sk_ssrc := ssrc; sk_stream_id := Some stream_id |} i' = true /\
      get_muxer_rx ssrc m i' = Done (next_channel i + 1) /\
      (exists rc meta, streaming ssrc rc meta i' /\ wait_sign_in rc = true /\ rc_id rc = next_channel i /\
         in_has_timeout rc = 0 /\ rc_stream_id rc = stream_id /\
         output_count meta = OutputCount_default /\ get_out_count (output_count meta) = 0 /\
         in_wait_timeout meta = default (conf_in_wait_timeout i) (mc_in_wait_timeout cfg) /\
         out_idle_timeout meta = default (conf_out_idle_timeout i) (mc_out_idle_timeout cfg) /\
         media_ext meta = None) /\
      time_schedule i' = time_schedule i ++ [(RtpGateway ssrc, RTP_INPUT_CHECK_INTERVAL)] /\
      events i' = events i ++ match mc_output cfg with
                              | KLocalMp4 path => [MActiveLocalStoreMp4 path ssrc stream_id (next_channel i + 1)]
                              | _ => []
                              end
  end.
Proof.
  intros Hcap Hroom. unfold init_media, ConverterLayer_new.
  destruct cfg as [ssrc stream_id win wout codec filter output]. simpl in *. rewrite Hcap.
  assert (forall i' rc meta m, rtp_gateway_map i' !! ssrc = Some rc -> rc_stream_id rc = stream_id ->
            stream_metadata_map i' !! stream_id = Some meta -> sm_ssrc meta = ssrc ->
            get_muxer_rx ssrc m i' = get_rx m (cv_muxer (converter meta)) /\
            is_exist {| sk_ssrc := ssrc; sk_stream_id := Some stream_id |} i' = true) as Hex.
  { intros i' rc meta m Hg Hr Hm Hs. unfold get_muxer_rx, is_exist. simpl. rewrite Hg, Hr, Hm, Hs.
    by rewrite Z.eqb_refl, bool_decide_eq_true_2. }
  destruct output; simpl; try (by split_and!);
    try (unfold try_send; simpl; destruct (Z.ltb_spec 0 (event_room i)); [|lia]);
    simpl; rewrite ?app_nil_r;
    (split; [done|]);
    match goal with |- is_exist _ ?i' = _ /\ get_muxer_rx _ ?m _ = _ /\ _ =>
      destruct (Hex i' _ _ m (lookup_insert_eq _ _ _) eq_refl (lookup_insert_eq _ _ _) eq_refl) as [-> ->] end;
    (split_and!; [done|done| |done|done]);
    (eexists _, _; split; [split; apply lookup_insert_eq|by split_and!]).
Qed.

Lemma init_media_spec_witness :
  (init_media true (demo_config KHttpFlv) (MInner_init "m" "p" 4 3)).1 = Done 7 /\
  (init_media true (demo_config KRtsp) (MInner_init "m" "p" 4 3)).1 = Panic.
Proof.
  pose proof (init_media_spec (demo_config KHttpFlv) (MInner_init "m" "p" 4 3) eq_refl eq_refl) as H1.
  pose proof (init_media_spec (demo_config KRtsp) (MInner_init "m" "p" 4 3) eq_refl eq_refl) as H2.
  split; [exact (proj1 H1)|exact (proj1 H2)].
Defined.
