(* ===== verification/RtpIngest.v ===== *)
(** * Receiving RTP ([stream/src/io/rtp_handler.rs], [splitter.rs])

    Framing of RTP over TCP, and the dispatch of a parsed packet to the channel
    of its stream.  The RTP header parser is another crate's and a parameter. *)
From S2P Require Import Prelude SharedTypes StreamOutputs MediaRegister.
Local Open Scope Z_scope.

(** Bytes are integers in 0..255. *)
Abbreviation bytes := (list Z).
Definition is_byte (b : Z) : Prop := in_width 8 b.
(** [u16::from_be_bytes] *)
Definition u16_be (hi lo : Z) : Z := Z.lor (Z.shiftl hi 8) lo.
(** [data.slice(a..b)]: panics out of range. *)
Definition slice {E} (a b : Z) (data : bytes) : outcome E bytes :=
  if (0 <=? a) && (a <=? b) && (b <=? Z.of_nat (length data))
  then Done (take (Z.to_nat (b - a)) (drop (Z.to_nat a) data)) else Panic.

(** ** The splitter of TCP connections *)

Definition TCP_RTP_HEADER_LEN : nat := 2.
Definition MIN_RTP_HEADER_LEN : nat := 12.
Definition TCP_DATA_BASE_LEN : nat := TCP_RTP_HEADER_LEN + MIN_RTP_HEADER_LEN.
Definition MAX_LIMIT_RTP_PACKET_SIZE : Z := 1024 * 16.

Section Splitter.
(** The callback that receives a packet, with the state it changes. *)
Context {X : Type} (f : bytes -> X -> outcome MediaError unit * X).

(** One iteration of the loop: leave it, or go on with the rest. *)
Inductive feed_step := FeedStop (r : outcome MediaError unit) | FeedMore.
Definition feed_once (buffer : bytes) (x : X) : feed_step * bytes * X :=
  if decide (length buffer < TCP_DATA_BASE_LEN)%nat then (FeedStop (Done tt), buffer, x) else
  let len := u16_be (nth 0 buffer 0) (nth 1 buffer 0) in
  if MAX_LIMIT_RTP_PACKET_SIZE <? len then (FeedStop (Failed InvalidState), [], x) else
  let split_len := (Z.to_nat len + TCP_RTP_HEADER_LEN)%nat in
  if decide (length buffer < split_len)%nat then (FeedStop (Done tt), buffer, x) else
  let packet := take split_len buffer in
  let rest := drop split_len buffer in
  match f (drop TCP_RTP_HEADER_LEN packet) x with
  | (Done _, x1) => (FeedMore, rest, x1)
  | (r, x1) => (FeedStop r, rest, x1)
  end.

(** [None]: out of fuel, which [feed_tcp_packets_total] excludes. *)
Fixpoint feed_loop (fuel : nat) (buffer : bytes) (x : X) : option (outcome MediaError unit * bytes * X) :=
  match fuel with
  | O => None
  | S fuel =>
      match feed_once buffer x with
      | (FeedStop r, buffer1, x1) => Some (r, buffer1, x1)
      | (FeedMore, buffer1, x1) => feed_loop fuel buffer1 x1
      end
  end.
Definition feed_tcp_packets (buffer : bytes) (x : X) : option (outcome MediaError unit * bytes * X) :=
  feed_loop (S (length buffer)) buffer x.

(** One read of the socket after another, until an error ends the connection. *)
Fixpoint feed_chunks (chunks : list bytes) (buffer : bytes) (x : X)
    : option (outcome MediaError unit * bytes * X) :=
  match chunks with
  | [] => Some (Done tt, buffer, x)
  | c :: chunks =>
      match feed_tcp_packets (buffer ++ c) x with
      | Some (Done _, buffer1, x1) => feed_chunks chunks buffer1 x1
      | r => r
      end
  end.

Lemma feed_once_more (buffer : bytes) (x x1 : X) (rest : bytes) :
  feed_once buffer x = (FeedMore, rest, x1) -> (length rest < length buffer)%nat.
Proof.
  unfold feed_once, TCP_DATA_BASE_LEN, TCP_RTP_HEADER_LEN, MIN_RTP_HEADER_LEN. intros Hf.
  cases; rewrite length_drop; lia.
Qed.

Lemma feed_loop_fuel (fuel fuel' : nat) : forall buffer x,
  (length buffer < fuel)%nat -> (length buffer < fuel')%nat ->
  feed_loop fuel buffer x = feed_loop fuel' buffer x /\ feed_loop fuel buffer x <> None.
Proof.
  revert fuel'. induction fuel as [|fuel IH]; intros [|fuel'] buffer x H1 H2; simpl; try lia.
  destruct (feed_once buffer x) as [[[r|] rest] x1] eqn:Hf; [done|].
  apply feed_once_more in Hf. apply IH; lia.
Qed.

(** The recursion on the rest, without fuel. *)
Lemma feed_eq (buffer : bytes) (x : X) :
  feed_tcp_packets buffer x =
  match feed_once buffer x with
  | (FeedStop r, buffer1, x1) => Some (r, buffer1, x1)
  | (FeedMore, buffer1, x1) => feed_tcp_packets buffer1 x1
  end.
Proof.
  unfold feed_tcp_packets at 1. simpl. destruct (feed_once buffer x) as [[[r|] rest] x1] eqn:Hf; [done|].
  apply feed_once_more in Hf. apply feed_loop_fuel; lia.
Qed.

Lemma feed_tcp_packets_total (buffer : bytes) (x : X) : feed_tcp_packets buffer x <> None.
Proof. unfold feed_tcp_packets. apply feed_loop_fuel with (fuel' := S (length buffer)); lia. Qed.

(** More bytes at the end only ever extend what a step did. *)
Lemma feed_once_app (buffer more : bytes) (x x1 : X) (rest : bytes) :
  feed_once buffer x = (FeedMore, rest, x1) -> feed_once (buffer ++ more) x = (FeedMore, rest ++ more, x1).
Proof.
  unfold feed_once, TCP_DATA_BASE_LEN, TCP_RTP_HEADER_LEN, MIN_RTP_HEADER_LEN.
  destruct (decide (length buffer < 2 + 12)%nat) as [|Hlen]; [done|]. rewrite length_app.
  destruct (decide (length buffer + length more < 2 + 12)%nat) as [|_]; [lia|].
  rewrite !app_nth1 by lia.
  destruct (_ <? _); [done|]. set (n := (Z.to_nat _ + 2)%nat).
  destruct (decide (length buffer < n)%nat); [done|].
  destruct (decide (length buffer + length more < n)%nat) as [|_]; [lia|].
  rewrite take_app_le, drop_app_le by lia. destruct (f _ x) as [[]]; naive_solver.
Qed.

Lemma feed_app (buffer more : bytes) (x : X) :
  feed_tcp_packets (buffer ++ more) x =
  match feed_tcp_packets buffer x with
  | Some (Done _, rest, x1) => feed_tcp_packets (rest ++ more) x1
  | _ => feed_tcp_packets (buffer ++ more) x
  end.
Proof.
  remember (length buffer) as n eqn:Hn. revert buffer x Hn.
  induction n as [n IH] using lt_wf_ind. intros buffer x ->. rewrite (feed_eq buffer).
  destruct (feed_once buffer x) as [[[r|] rest] x1] eqn:Hf.
  - destruct r as [[]| |]; try done. unfold feed_once in Hf. cases.
  - rewrite (feed_eq (buffer ++ more)). rewrite (feed_once_app _ _ _ _ _ Hf).
    pose proof (IH (length rest) (feed_once_more _ _ _ _ Hf) rest x1 eq_refl) as ->. 
    by destruct (feed_tcp_packets rest x1) as [[[[]] ]|].
Qed.

(** What the rest looks like once a call returns without error: nothing can be
    taken from it. *)
Lemma feed_stuck (buffer rest : bytes) (x x1 : X) :
  feed_tcp_packets buffer x = Some (Done tt, rest, x1) -> feed_tcp_packets rest x1 = Some (Done tt, rest, x1).
Proof.
  remember (length buffer) as n eqn:Hn. revert buffer x Hn.
  induction n as [n IH] using lt_wf_ind. intros buffer x ->. rewrite (feed_eq buffer).
  destruct (feed_once buffer x) as [[[r|] rest'] x'] eqn:Hf.
  - intros [= -> -> ->]. rewrite feed_eq. unfold feed_once in *. cases.
  - apply (IH (length rest') (feed_once_more _ _ _ _ Hf) rest' x' eq_refl).
Qed.

(** A callback that never refuses: the dispatcher. *)
Context (f_total : forall p x, (f p x).1 = Done tt).

Lemma feed_error_app (buffer more rest : bytes) (e : MediaError) (x x1 : X) :
  feed_tcp_packets buffer x = Some (Failed e, rest, x1) ->
  feed_tcp_packets (buffer ++ more) x = Some (Failed e, rest, x1).
Proof.
  remember (length buffer) as n eqn:Hn. revert buffer x Hn.
  induction n as [n IH] using lt_wf_ind. intros buffer x ->. rewrite (feed_eq buffer), (feed_eq (buffer ++ more)).
  destruct (feed_once buffer x) as [[[r|] rest'] x'] eqn:Hf.
  - intros [= -> -> ->]. unfold feed_once in Hf.
    destruct (decide (length buffer < TCP_DATA_BASE_LEN)%nat); [done|].
    unfold TCP_DATA_BASE_LEN, TCP_RTP_HEADER_LEN, MIN_RTP_HEADER_LEN in *.
    destruct (_ <? _) eqn:Hbig.
    + simplify_eq. unfold feed_once, TCP_DATA_BASE_LEN, TCP_RTP_HEADER_LEN, MIN_RTP_HEADER_LEN.
      destruct (decide (length (buffer ++ more) < 2 + 12)%nat); [rewrite length_app in *; lia|].
      rewrite !app_nth1 by lia. by rewrite Hbig.
    + destruct (decide _); [done|]. exfalso. revert Hf.
      match goal with |- context [f ?p ?y] => pose proof (f_total p y); destruct (f p y) as [[]] end; naive_solver.
  - rewrite (feed_once_app _ _ _ _ _ Hf). apply (IH (length rest') (feed_once_more _ _ _ _ Hf) rest' x' eq_refl).
Qed.

Lemma feed_no_panic (buffer rest : bytes) (x x1 : X) :
  feed_tcp_packets buffer x <> Some (Panic, rest, x1).
Proof.
  remember (length buffer) as n eqn:Hn. revert buffer x Hn.
  induction n as [n IH] using lt_wf_ind. intros buffer x ->. rewrite (feed_eq buffer).
  destruct (feed_once buffer x) as [[[r|] rest'] x'] eqn:Hf.
  - intros [= -> -> ->]. unfold feed_once in Hf. destruct (decide _); [done|].
    destruct (_ <? _); [done|]. destruct (decide _); [done|]. revert Hf.
    match goal with |- context [f ?p ?y] => pose proof (f_total p y); destruct (f p y) as [[]] end; naive_solver.
  - apply (IH (length rest') (feed_once_more _ _ _ _ Hf) rest' x' eq_refl).
Qed.

Lemma feed_chunks_concat (chunks : list bytes) : forall buffer x,
  feed_tcp_packets buffer x = Some (Done tt, buffer, x) ->
  feed_chunks chunks buffer x = feed_tcp_packets (buffer ++ concat chunks) x.
Proof.
  induction chunks as [|c chunks IH]; intros buffer x Hst; simpl.
  - by rewrite app_nil_r.
  - rewrite (app_assoc buffer c). rewrite (feed_app (buffer ++ c)).
    destruct (feed_tcp_packets (buffer ++ c) x) as [[[[[]|e|] rest] x1]|] eqn:Hf.
    + apply IH. by eapply feed_stuck.
    + symmetry. by apply feed_error_app.
    + by apply feed_no_panic in Hf.
    + by apply feed_tcp_packets_total in Hf.
Qed.

(** The length-prefixed form of a packet, as the peer sends it. *)
Definition frame (p : bytes) : bytes :=
  Z.shiftr (Z.of_nat (length p)) 8 :: Z.land (Z.of_nat (length p)) 255 :: p.
Definition frame_ok (p : bytes) : Prop :=
  (MIN_RTP_HEADER_LEN <= length p)%nat /\ Z.of_nat (length p) <= MAX_LIMIT_RTP_PACKET_SIZE.
(** Bytes that do not yet hold a whole packet. *)
Definition announced (tail : bytes) : Z := u16_be (nth 0 tail 0) (nth 1 tail 0).
Definition incomplete (tail : bytes) : Prop :=
  (length tail < TCP_DATA_BASE_LEN)%nat \/
  (announced tail <= MAX_LIMIT_RTP_PACKET_SIZE /\
   (length tail < Z.to_nat (announced tail) + TCP_RTP_HEADER_LEN)%nat).

Lemma u16_be_split (n : Z) : 0 <= n < 2 ^ 16 -> u16_be (Z.shiftr n 8) (Z.land n 255) = n.
Proof.
  intros Hn. unfold u16_be. apply Z.bits_inj'. intros k Hk.
  rewrite Z.lor_spec, Z.land_spec. destruct (Z.ltb_spec k 8).
  - rewrite Z.shiftl_spec_low by lia. change 255 with (Z.ones 8).
    by rewrite Z.ones_spec_low, andb_true_r by lia.
  - rewrite Z.shiftl_spec, Z.shiftr_spec by lia. change 255 with (Z.ones 8).
    rewrite Z.ones_spec_high, andb_false_r, orb_false_r by lia. f_equal. lia.
Qed.

Lemma feed_frame (p more : bytes) (x : X) :
  frame_ok p -> feed_once (frame p ++ more) x = (FeedMore, more, (f p x).2).
Proof.
  intros [Hmin Hmax]. unfold feed_once, frame, TCP_DATA_BASE_LEN, TCP_RTP_HEADER_LEN, MIN_RTP_HEADER_LEN,
    MAX_LIMIT_RTP_PACKET_SIZE in *.
  cbn [app length nth drop]. rewrite u16_be_split by lia. rewrite length_app.
  destruct (decide _); [lia|]. destruct (Z.ltb_spec (1024 * 16) (Z.of_nat (length p))); [lia|].
  rewrite Nat2Z.id. destruct (decide _); [lia|]. rewrite Nat.add_comm. cbn [Nat.add take drop].
  rewrite take_app_length, drop_app_length. pose proof (f_total p x) as Ht.
  rewrite drop_0. destruct (f p x) as [r x1]. simpl in *. by subst r.
Qed.

(** C15: RTP over TCP is reassembled.  However the peer's byte stream is cut
    into reads, the packets handed on, their order, the error and the bytes
    kept are those of the uncut stream; and when the stream is a sequence of
    length-prefixed packets of 12 to 16384 bytes followed by an incomplete one,
    exactly those packets are handed on and the incomplete one is kept. *)
Theorem tcp_stream_reassembled (chunks : list bytes) (x : X) :
  feed_chunks chunks [] x = feed_tcp_packets (concat chunks) x /\
  forall packets tail,
    Forall frame_ok packets -> incomplete tail -> concat chunks = concat (frame <$> packets) ++ tail ->
    feed_chunks chunks [] x = Some (Done tt, tail, foldl (fun x p => (f p x).2) x packets).
Proof.
  split; [by apply (feed_chunks_concat chunks [])|]. intros packets tail Hok Htail Heq.
  rewrite (feed_chunks_concat chunks []) by done. simpl. rewrite Heq. clear Heq chunks.
  revert x. induction Hok as [|p packets Hp Hok IH]; intros x.
  - simpl. rewrite feed_eq. unfold feed_once. destruct (decide _); [done|]. destruct Htail as [|[H1 H2]]; [done|]. unfold announced in *.
    destruct (Z.ltb_spec MAX_LIMIT_RTP_PACKET_SIZE (u16_be (nth 0 tail 0) (nth 1 tail 0))); [lia|].
    by rewrite decide_True.
  - change (concat (frame <$> p :: packets)) with (frame p ++ concat (frame <$> packets)).
    rewrite <- app_assoc, feed_eq, feed_frame by done. apply IH.
Qed.
End Splitter.

(** ** Dispatch to the streams *)

(** What the header parser reports. *)
Record ParsedRtp := {
  pr_ssrc : Z; pr_payload_type : Z; pr_timestamp : Z; pr_marker : bool; pr_seq : Z;
  pr_payload_offset : Z; pr_payload_len : Z
}.
Record RtpPacket := {
  pk_ssrc : Z; pk_timestamp : Z; pk_marker : bool; pk_seq : Z; pk_payload : bytes
}.

(** The register and, per channel, the packets put into it. *)
Record Ingest := { ig_register : MInner; ig_channels : gmap Z (list RtpPacket) }.

Section Dispatch.
Context (parse : bytes -> option ParsedRtp) (now : Z) (remote_addr protocol : string).

(** [rtp_tx.try_send]: a full channel drops the packet. *)
Definition channel_send (ssrc tx : Z) (packet : RtpPacket) (s : Ingest) : Ingest :=
  match rtp_gateway_map (ig_register s) !! ssrc with
  | None => s
  | Some rc =>
      if rtp_is_full rc then s
      else {| ig_register := on_gateway <[ssrc := {| rc_id := rc_id rc; rc_queued := rc_queued rc + 1;
                in_has_timeout := in_has_timeout rc; wait_sign_in := wait_sign_in rc;
                rc_stream_id := rc_stream_id rc; miss_pkt := miss_pkt rc |}]> (ig_register s);
              ig_channels := <[tx := default [] (ig_channels s !! tx) ++ [packet]]> (ig_channels s) |}
  end.

Definition forward_packet (pkt : ParsedRtp) (payload : bytes) (s : Ingest) : Ingest :=
  match refresh_rtp (pr_ssrc pkt) (pr_payload_type pkt) (remote_addr, protocol) (ig_register s) with
  | (None, i1) =>
      {| ig_register := observe_unknown_rtp now (pr_ssrc pkt) remote_addr protocol i1;
         ig_channels := ig_channels s |}
  | (Some tx, i1) =>
      channel_send (pr_ssrc pkt) tx {|
        pk_ssrc := pr_ssrc pkt; pk_timestamp := pr_timestamp pkt; pk_marker := pr_marker pkt;
        pk_seq := pr_seq pkt; pk_payload := payload |}
        {| ig_register := i1; ig_channels := ig_channels s |}
  end.

Definition dispatch_owned (data : bytes) (s : Ingest) : outcome MediaError unit * Ingest :=
  match parse data with
  | None => (Done tt, s)
  | Some pkt =>
      match slice (E := MediaError) (pr_payload_offset pkt) (pr_payload_offset pkt + pr_payload_len pkt) data with
      | Done payload => (Done tt, forward_packet pkt payload s)
      | Failed e => (Failed e, s)
      | Panic => (Panic, s)
      end
  end.

(** The parser's offsets lie in the packet it was given. *)
Definition parser_ok : Prop := forall data pkt, parse data = Some pkt ->
  0 <= pr_payload_offset pkt /\ 0 <= pr_payload_len pkt /\
  pr_payload_offset pkt + pr_payload_len pkt <= Z.of_nat (length data).

Lemma dispatch_total (data : bytes) (s : Ingest) : parser_ok -> (dispatch_owned data s).1 = Done tt.
Proof.
  intros Hp. unfold dispatch_owned. destruct (parse data) as [pkt|] eqn:Hd; [|done].
  destruct (Hp _ _ Hd) as (H1 & H2 & H3). unfold slice.
  rewrite (proj2 (Z.leb_le 0 _)), (proj2 (Z.leb_le (pr_payload_offset pkt) _)), (proj2 (Z.leb_le _ _)) by lia.
  done.
Qed.

(** The number of packets in a channel of the register is the channel's length,
    and no channel exceeds its bound. *)
Definition ingest_wf (s : Ingest) : Prop :=
  forall ssrc rc, rtp_gateway_map (ig_register s) !! ssrc = Some rc ->
    rc_queued rc = Z.of_nat (length (default [] (ig_channels s !! rc_id rc))) /\
    0 <= rc_queued rc <= RTP_BUFFER_SIZE * 10 /\
    forall ssrc' rc', rtp_gateway_map (ig_register s) !! ssrc' = Some rc' -> rc_id rc' = rc_id rc -> ssrc' = ssrc.

Lemma observe_unknown_gateway (t ssrc : Z) (a p : string) (i : MInner) :
  let i' := observe_unknown_rtp t ssrc a p i in
  rtp_gateway_map i' = rtp_gateway_map i /\ stream_metadata_map i' = stream_metadata_map i.
Proof.
  unfold observe_unknown_rtp. destruct (_ !! _) as [o|]; [|done].
  destruct (observe t o) as [[] o1]; simpl; [|done]. unfold try_send. by destruct (_ <? _).
Qed.

(** A refresh changes only the channel's own counters, and keeps its id. *)
Lemma refresh_keeps (t : Z) (o : string * string) (rc : RtpChannel) (i : MInner) :
  let '(res, rc1, i1) := refresh t o rc i in
  rc_id rc1 = rc_id rc /\ rc_queued rc1 = rc_queued rc /\ rc_stream_id rc1 = rc_stream_id rc /\
  rtp_gateway_map i1 = rtp_gateway_map i /\ stream_metadata_map i1 = stream_metadata_map i /\
  (forall tx, res = Done tx -> tx = rc_id rc).
Proof.
  unfold refresh, try_send. destruct (wait_sign_in rc), (0 <? event_room i); simpl;
    try destruct (rtp_is_full _); simpl; split_and!; try done; intros tx Htx; cases; congruence.
Qed.

Lemma forward_wf (pkt : ParsedRtp) (payload : bytes) (s : Ingest) :
  ingest_wf s -> ingest_wf (forward_packet pkt payload s).
Proof.
  intros Hwf. unfold forward_packet, refresh_rtp.
  destruct (rtp_gateway_map (ig_register s) !! pr_ssrc pkt) as [rc|] eqn:Hg.
  - pose proof (refresh_keeps (pr_payload_type pkt) (remote_addr, protocol) rc (ig_register s)) as Hk.
    destruct (refresh _ _ _ _) as [[res rc1] i1]. destruct Hk as (K1 & K2 & K3 & K4 & K5 & K6).
    set (i2 := on_gateway <[pr_ssrc pkt := rc1]> i1).
    assert (ingest_wf {| ig_register := i2; ig_channels := ig_channels s |}) as Hwf1.
    { intros ssrc r. simpl. rewrite K4. intros [[<- <-]|[Hne Hr]]%lookup_insert_Some.
      - destruct (Hwf _ _ Hg) as (W1 & W2 & W3). rewrite K1, K2. split_and!; [done|lia|lia|].
        intros ssrc' r' [[<- <-]|[Hne Hr]]%lookup_insert_Some He; [done|]. by eapply W3.
      - destruct (Hwf _ _ Hr) as (W1 & W2 & W3). split_and!; [done|lia|lia|].
        intros ssrc' r' [[<- <-]|[Hne' Hr']]%lookup_insert_Some He; [|by eapply W3].
        rewrite K1 in He. by rewrite (W3 _ _ Hg He) in Hne. }
    assert (forall s', ingest_wf s' -> rtp_gateway_map (ig_register s') !! pr_ssrc pkt = Some rc1 ->
              ingest_wf (channel_send (pr_ssrc pkt) (rc_id rc) {| pk_ssrc := pr_ssrc pkt;
                pk_timestamp := pr_timestamp pkt; pk_marker := pr_marker pkt; pk_seq := pr_seq pkt;
                pk_payload := payload |} s')) as Hsend.
    { intros s' Hwf' Hg'. unfold channel_send. rewrite Hg'.
      destruct (rtp_is_full rc1) eqn:Hfull; [done|]. unfold rtp_is_full in Hfull. zbool.
      destruct (Hwf' _ _ Hg') as (W1 & W2 & W3). rewrite K1 in W1.
      intros ssrc r. simpl. intros [[<- <-]|[Hne Hr]]%lookup_insert_Some; simpl.
      - rewrite K1, lookup_insert_eq. simpl. rewrite length_app. simpl. split_and!; [lia|lia|lia|].
        intros ssrc' r' [[<- <-]|[Hne Hr]]%lookup_insert_Some He; [done|]. eapply W3; [done|]. by rewrite K1.
      - destruct (Hwf' _ _ Hr) as (V1 & V2 & V3).
        assert (rc_id r <> rc_id rc) as Hid.
        { intros He. rewrite <- K1 in He. by rewrite (W3 _ _ Hr He) in Hne. }
        rewrite lookup_insert_ne by congruence. split_and!; [done|lia|lia|].
        intros ssrc' r' [[<- <-]|[Hne' Hr']]%lookup_insert_Some He; [|by eapply V3].
        simpl in He. congruence. }
    destruct res as [tx| |].
    + rewrite (K6 tx eq_refl). apply Hsend; [done|]. simpl. apply lookup_insert_eq.
    + intros ssrc r. simpl. rewrite (proj1 (observe_unknown_gateway _ _ _ _ _)). apply Hwf1.
    + intros ssrc r. simpl. rewrite (proj1 (observe_unknown_gateway _ _ _ _ _)). apply Hwf1.
  - intros ssrc r. simpl. rewrite (proj1 (observe_unknown_gateway _ _ _ _ _)). apply Hwf.
Qed.

Lemma dispatch_wf (data : bytes) (s : Ingest) : ingest_wf s -> ingest_wf (dispatch_owned data s).2.
Proof.
  intros Hwf. unfold dispatch_owned. destruct (parse data) as [pkt|]; [|done].
  destruct (slice _ _ _); simpl; [by apply forward_wf|done|done].
Qed.

Lemma forward_other (pkt : ParsedRtp) (payload : bytes) (s : Ingest) (ssrc : Z) :
  ssrc <> pr_ssrc pkt ->
  rtp_gateway_map (ig_register (forward_packet pkt payload s)) !! ssrc
  = rtp_gateway_map (ig_register s) !! ssrc.
Proof.
  intros Hne. unfold forward_packet, refresh_rtp.
  destruct (rtp_gateway_map (ig_register s) !! pr_ssrc pkt) as [rc|] eqn:Hg.
  - pose proof (refresh_keeps (pr_payload_type pkt) (remote_addr, protocol) rc (ig_register s)) as Hk.
    destruct (refresh _ _ _ _) as [[res rc1] i1]. destruct Hk as (K1 & K2 & K3 & K4 & K5 & K6).
    destruct res; simpl; rewrite ?(proj1 (observe_unknown_gateway _ _ _ _ _)); simpl;
      try by rewrite lookup_insert_ne, K4.
    unfold channel_send. simpl. rewrite lookup_insert_eq.
    destruct (rtp_is_full rc1); simpl; rewrite ?lookup_insert_ne by done; by rewrite K4.
  - simpl. by rewrite (proj1 (observe_unknown_gateway _ _ _ _ _)).
Qed.

Lemma forward_metadata (pkt : ParsedRtp) (payload : bytes) (s : Ingest) :
  stream_metadata_map (ig_register (forward_packet pkt payload s)) = stream_metadata_map (ig_register s).
Proof.
  unfold forward_packet, refresh_rtp.
  destruct (rtp_gateway_map (ig_register s) !! pr_ssrc pkt) as [rc|] eqn:Hg.
  - pose proof (refresh_keeps (pr_payload_type pkt) (remote_addr, protocol) rc (ig_register s)) as Hk.
    destruct (refresh _ _ _ _) as [[res rc1] i1]. destruct Hk as (K1 & K2 & K3 & K4 & K5 & K6).
    destruct res; simpl; rewrite ?(proj2 (observe_unknown_gateway _ _ _ _ _)); simpl; try done.
    unfold channel_send. simpl. rewrite lookup_insert_eq. by destruct (rtp_is_full rc1).
  - simpl. by rewrite (proj2 (observe_unknown_gateway _ _ _ _ _)).
Qed.

Lemma refresh_accepts (t : Z) (o : string * string) (rc : RtpChannel) (i : MInner) :
  rtp_is_full rc = false -> wait_sign_in rc = false \/ 0 < event_room i ->
  let '(res, rc1, i1) := refresh t o rc i in
  res = Done (rc_id rc) /\ rc_queued rc1 = rc_queued rc /\ in_has_timeout rc1 = 0 /\ wait_sign_in rc1 = false.
Proof.
  intros Hfull Hw. unfold refresh, try_send.
  assert (forall a b c, rtp_is_full (with_channel a b c rc) = false) as Hf by done.
  destruct (wait_sign_in rc) eqn:Hwait.
  - destruct (Z.ltb_spec 0 (event_room i)); [|by destruct Hw; [|lia]]. simpl. by rewrite Hf.
  - simpl. rewrite Hfull. simpl. by rewrite Hwait.
Qed.

Lemma refresh_full (t : Z) (o : string * string) (rc : RtpChannel) (i : MInner) :
  rtp_is_full rc = true -> let '(_, rc1, _) := refresh t o rc i in rtp_is_full rc1 = true.
Proof.
  intros Hfull. unfold refresh, try_send.
  destruct (wait_sign_in rc), (0 <? event_room i); simpl; unfold rtp_is_full in *; simpl; rewrite ?Hfull; done.
Qed.

Lemma unknown_recorded (t ssrc : Z) (a p : string) (i : MInner) :
  is_Some (unknown_stream_map (observe_unknown_rtp t ssrc a p i) !! unknown_key ssrc a p).
Proof.
  unfold observe_unknown_rtp. destruct (unknown_stream_map i !! _) as [o|] eqn:Ho.
  - destruct (observe t o) as [[] o1]; simpl; [unfold try_send; destruct (0 <? _); simpl|];
      rewrite lookup_insert_eq; by eexists.
  - simpl. rewrite lookup_insert_eq. by eexists.
Qed.

(** A received packet goes to its own stream.  Dispatching never fails and
    never changes a stream's metadata or another stream's channel; a packet
    that does not parse changes nothing; one of an SSRC nobody opened is
    recorded as unknown and delivered nowhere; one of an open stream is put at
    the end of its channel exactly once, resetting the input timeout, when
    there is room (and, for the first packet, room for the sign-in event); and
    no channel ever holds more than its 640 packets. *)
Theorem dispatch_spec (data : bytes) (s : Ingest) :
  parser_ok -> ingest_wf s ->
  let '(res, s') := dispatch_owned data s in
  res = Done tt /\ ingest_wf s' /\
  stream_metadata_map (ig_register s') = stream_metadata_map (ig_register s) /\
  match parse data with
  | None => s' = s
  | Some pkt =>
      (forall ssrc, ssrc <> pr_ssrc pkt ->
         rtp_gateway_map (ig_register s') !! ssrc = rtp_gateway_map (ig_register s) !! ssrc) /\
      match rtp_gateway_map (ig_register s) !! pr_ssrc pkt with
      | None =>
          ig_channels s' = ig_channels s /\
          is_Some (unknown_stream_map (ig_register s') !! unknown_key (pr_ssrc pkt) remote_addr protocol)
      | Some rc =>
          (forall tx, tx <> rc_id rc -> ig_channels s' !! tx = ig_channels s !! tx) /\
          (rtp_is_full rc = true -> ig_channels s' = ig_channels s) /\
          (rtp_is_full rc = false -> wait_sign_in rc = false \/ 0 < event_room (ig_register s) ->
           in_has_timeout <$> (rtp_gateway_map (ig_register s') !! pr_ssrc pkt) = Some 0 /\
           exists payload, slice (E := MediaError) (pr_payload_offset pkt)
               (pr_payload_offset pkt + pr_payload_len pkt) data = Done payload /\
             ig_channels s' !! rc_id rc = Some (default [] (ig_channels s !! rc_id rc)
               ++ [{| pk_ssrc := pr_ssrc pkt; pk_timestamp := pr_timestamp pkt; pk_marker := pr_marker pkt;
                      pk_seq := pr_seq pkt; pk_payload := payload |}]))
      end
  end.
Proof.
  intros Hp Hwf. pose proof (dispatch_total data s Hp) as Ht. pose proof (dispatch_wf data s Hwf) as Hw.
  unfold dispatch_owned in *. destruct (parse data) as [pkt|] eqn:Hd; [|done].
  destruct (slice _ _ data) as [payload| |]; [|done|done]. cbn [fst snd] in *.
  split_and!; [done|done|apply forward_metadata|intros ssrc Hne; by apply forward_other|].
  unfold forward_packet, refresh_rtp.
  destruct (rtp_gateway_map (ig_register s) !! pr_ssrc pkt) as [rc|]; [|split; [done|apply unknown_recorded]].
  pose proof (refresh_keeps (pr_payload_type pkt) (remote_addr, protocol) rc (ig_register s)) as Hk.
  pose proof (refresh_accepts (pr_payload_type pkt) (remote_addr, protocol) rc (ig_register s)) as Ha.
  pose proof (refresh_full (pr_payload_type pkt) (remote_addr, protocol) rc (ig_register s)) as Hf.
  destruct (refresh _ _ _ _) as [[res rc1] i1]. destruct Hk as (K1 & K2 & K3 & K4 & K5 & K6).
  split_and!.
  - intros tx Htx. destruct res as [tx'| |]; simpl; try done. rewrite (K6 tx' eq_refl).
    unfold channel_send. simpl. rewrite lookup_insert_eq. destruct (rtp_is_full rc1); [done|]. simpl.
    by rewrite lookup_insert_ne.
  - intros Hfull. specialize (Hf Hfull). destruct res as [tx'| |]; simpl; try done.
    unfold channel_send. simpl. rewrite lookup_insert_eq. by rewrite Hf.
  - intros Hfull Hroom. destruct (Ha Hfull Hroom) as (-> & A2 & A3 & A4). simpl.
    unfold channel_send. simpl. rewrite lookup_insert_eq.
    assert (rtp_is_full rc1 = false) as -> by (unfold rtp_is_full in *; by rewrite A2).
    simpl. rewrite !lookup_insert_eq. simpl. rewrite A3. split; [done|]. by exists payload.
Qed.

(** A congested stream is taken for an unknown one.  A packet of an open,
    signed-in stream that finds the channel full, as the first of a congestion
    or the 300th, 600th, ..., is not only dropped but recorded as a stray
    packet; so three such packets spread over two seconds make the media
    server report its own running stream as unknown, although its channel and
    metadata are there. *)
Theorem congested_stream_reported_unknown (data : bytes) (pkt : ParsedRtp) (s : Ingest) (rc : RtpChannel) :
  parse data = Some pkt -> parser_ok ->
  rtp_gateway_map (ig_register s) !! pr_ssrc pkt = Some rc -> wait_sign_in rc = false ->
  rtp_is_full rc = true -> miss_pkt rc = 0 \/ (60 <= miss_pkt rc /\ miss_pkt rc mod 300 = 0) ->
  let i := ig_register s in
  let s' := (dispatch_owned data s).2 in
  let i1 := on_gateway <[pr_ssrc pkt := with_channel 0 false (wrapping_add 64 (miss_pkt rc) 1) rc]> i in
  ig_channels s' = ig_channels s /\
  ig_register s' = observe_unknown_rtp now (pr_ssrc pkt) remote_addr protocol i1 /\
  forall o, unknown_stream_map i !! unknown_key (pr_ssrc pkt) remote_addr protocol = Some o ->
    2 <= uo_packet_count o -> uo_first_seen_at_ms o + 2000 <= now -> uo_last_notify_at_ms o = 0 ->
    uo_ssrc o = pr_ssrc pkt -> 0 < event_room i ->
    (exists u, events (ig_register s') = events i ++ [MOut (OStreamUnknown u)] /\ use_ssrc u = pr_ssrc pkt) /\
    is_Some (rtp_gateway_map (ig_register s') !! pr_ssrc pkt) /\
    stream_metadata_map (ig_register s') = stream_metadata_map i.
Proof.
  intros Hd Hp Hg Hw Hfull Hmiss i s' i1.
  assert (s' = {| ig_register := observe_unknown_rtp now (pr_ssrc pkt) remote_addr protocol i1;
                  ig_channels := ig_channels s |}) as ->.
  { unfold s', dispatch_owned. rewrite Hd. destruct (Hp _ _ Hd) as (H1 & H2 & H3). unfold slice.
    rewrite (proj2 (Z.leb_le 0 _)), (proj2 (Z.leb_le (pr_payload_offset pkt) _)), (proj2 (Z.leb_le _ _)) by lia.
    simpl. unfold forward_packet, refresh_rtp, refresh. rewrite Hg, Hw. simpl. rewrite Hfull. simpl. rewrite Hw.
    assert ((if miss_pkt rc <? 60 then miss_pkt rc mod 60 =? 0 else miss_pkt rc mod 300 =? 0) = true) as ->.
    { destruct Hmiss as [->|[H60 ->]]; [done|]. by destruct (Z.ltb_spec (miss_pkt rc) 60); [lia|]. }
    done. }
  split_and!; [done|done|]. intros o Ho Hc Hf Hn Hid Hroom. simpl. unfold observe_unknown_rtp. simpl.
  fold i. rewrite Ho. unfold observe.
  assert (UNKNOWN_STREAM_MIN_PACKETS <=? saturating_add 64 (uo_packet_count o) 1 = true) as ->.
  { apply Z.leb_le. unfold UNKNOWN_STREAM_MIN_PACKETS, saturating_add, umax. lia. }
  assert (UNKNOWN_STREAM_CONFIRM_MS <=? saturating_sub now (uo_first_seen_at_ms o) = true) as ->.
  { apply Z.leb_le. unfold UNKNOWN_STREAM_CONFIRM_MS, saturating_sub. lia. }
  rewrite Hn. simpl. unfold try_send. simpl. destruct (Z.ltb_spec 0 (event_room i)); [|lia]. simpl.
  split_and!; [|rewrite lookup_insert_eq; by eexists|done]. eexists. split; [done|]. done.
Qed.
End Dispatch.

(** A parser of headers without extensions, for concrete runs. *)
Definition demo_parse (data : bytes) : option ParsedRtp :=
  if decide (length data < 12)%nat then None
  else Some {| pr_ssrc := nth 11 data 0; pr_payload_type := nth 1 data 0; pr_timestamp := nth 7 data 0;
               pr_marker := false; pr_seq := nth 3 data 0; pr_payload_offset := 12;
               pr_payload_len := Z.of_nat (length data) - 12 |}.
Lemma demo_parse_ok : parser_ok demo_parse.
Proof. intros data pkt. unfold demo_parse. destruct (decide _); [done|]. intros [= <-]. simpl. lia. Qed.
Definition demo_packet : bytes := [128; 96; 0; 1; 0; 0; 0; 9; 0; 0; 0; 7; 65; 66].
Definition demo_rc (queued : Z) : RtpChannel := {|
  rc_id := 0; rc_queued := queued; in_has_timeout := 1; wait_sign_in := false; rc_stream_id := "s"; miss_pkt := 0 |}.
Definition demo_ingest (queued : nat) : Ingest := {|
  ig_register := on_gateway <[7 := demo_rc (Z.of_nat queued)]> (MInner_init "m" "p" 4 3);
  ig_channels := {[ 0 := replicate queued {| pk_ssrc := 7; pk_timestamp := 0; pk_marker := false;
                                             pk_seq := 0; pk_payload := [] |} ]} |}.
Lemma demo_ingest_wf (n : nat) : Z.of_nat n <= 640 -> ingest_wf (demo_ingest n).
Proof.
  intros Hn ssrc rc. simpl. intros [[<- <-]|[_ H]]%lookup_insert_Some; [|by rewrite lookup_empty in H].
  simpl. split_and!; [by rewrite lookup_singleton_eq; simpl; rewrite length_replicate|lia|unfold RTP_BUFFER_SIZE; lia|].
  intros ssrc' rc' [[<- _]|[_ H]]%lookup_insert_Some _; [done|by rewrite lookup_empty in H].
Qed.

Lemma tcp_stream_reassembled_witness :
  feed_chunks (fun p x => (Done tt, x ++ [p])) [[0; 14; 128; 96; 0]; drop 3 demo_packet; [0]] [] []
  = Some (Done tt, [0], [demo_packet]).
Proof.
  destruct (tcp_stream_reassembled (fun p x => (Done tt, x ++ [p])) ltac:(done)
    [[0; 14; 128; 96; 0]; drop 3 demo_packet; [0]] []) as [_ H].
  apply (H [demo_packet] [0]); [|left; vm_compute; lia|done].
  apply Forall_singleton. split; [vm_compute; lia|done].
Defined.

Lemma dispatch_spec_witness :
  ingest_wf (dispatch_owned demo_parse 5 "a" "udp" demo_packet (demo_ingest 2)).2 /\
  length (default [] (ig_channels (dispatch_owned demo_parse 5 "a" "udp" demo_packet (demo_ingest 2)).2 !! 0)) = 3%nat.
Proof.
  pose proof (dispatch_spec demo_parse 5 "a" "udp" demo_packet (demo_ingest 2) demo_parse_ok
    (demo_ingest_wf 2 ltac:(lia))) as H.
  split; [|by vm_compute]. destruct (dispatch_owned _ _ _ _ _ _) as [res s']. exact (proj1 (proj2 H)).
Defined.

(** The two earlier stray reports of the stream, as the theorem's first part
    records them. *)
Definition demo_congested : Ingest :=
  let s := demo_ingest 640 in
  {| ig_register := observe_unknown_rtp 2000 7 "a" "udp" (observe_unknown_rtp 1000 7 "a" "udp" (ig_register s));
     ig_channels := ig_channels s |}.
Lemma congested_stream_reported_unknown_witness :
  exists u, events (ig_register (dispatch_owned demo_parse 3500 "a" "udp" demo_packet demo_congested).2)
            = [MOut (OStreamUnknown u)] /\ use_ssrc u = 7.
Proof.
  destruct (congested_stream_reported_unknown demo_parse 3500 "a" "udp" demo_packet
    {| pr_ssrc := 7; pr_payload_type := 96; pr_timestamp := 9; pr_marker := false; pr_seq := 1;
       pr_payload_offset := 12; pr_payload_len := 2 |} demo_congested (demo_rc 640)
    eq_refl demo_parse_ok ltac:(by vm_compute) eq_refl eq_refl (or_introl eq_refl)) as (_ & _ & H).
  destruct (H {| uo_ssrc := 7; uo_remote_addr := "a"; uo_protocol := "udp"; uo_first_seen_at_ms := 1000;
       uo_last_seen_at_ms := 2000; uo_packet_count := 2; uo_last_notify_at_ms := 0 |}) as [[u Hu] _];
    [by vm_compute|simpl; lia|simpl; lia|done|done|done|].
  exists u. exact Hu.
Defined.

(** ** The per-connection buffer of [splitter.rs] *)

Module TcpBuffer.
Definition TCP_RTP_DATA_LEN : nat := 2.
Definition TCP_DATA_BASE_LEN : nat := 14.

(** One iteration: [None] to leave the loop.  [get_u16] and [split_to] take
    their bytes from the buffer; [split_to] panics beyond its end. *)
Definition split_once (buffer : bytes) : outcome MediaError (option bytes) * bytes :=
  let buffer_len := length buffer in
  if decide (buffer_len < TCP_DATA_BASE_LEN)%nat then (Done None, buffer) else
  let split_len := (Z.to_nat (announced buffer) + TCP_RTP_DATA_LEN)%nat in
  let buffer1 := drop 2 buffer in
  if decide (buffer_len < split_len)%nat then (Done None, buffer1) else
  if decide (length buffer1 < split_len)%nat then (Panic, buffer1) else
  (Done (Some (drop TCP_RTP_DATA_LEN (take split_len buffer1))), drop split_len buffer1).
Fixpoint split_data (fuel : nat) (buffer : bytes) : outcome MediaError (list bytes) * bytes :=
  match fuel with
  | O => (Done [], buffer)
  | S fuel =>
      match split_once buffer with
      | (Done (Some p), rest) =>
          match split_data fuel rest with
          | (Done ps, rest') => (Done (p :: ps), rest')
          | r => r
          end
      | (Done None, rest) => (Done [], rest)
      | (Failed e, rest) => (Failed e, rest)
      | (Panic, rest) => (Panic, rest)
      end
  end.

Definition TcpRtpBuffer := gmap (string * string) bytes.
Definition fresh_data (local_addr remote_addr : string) (data : bytes) (b : TcpRtpBuffer)
    : outcome MediaError (list bytes) * TcpRtpBuffer :=
  let buffer := default [] (b !! (local_addr, remote_addr)) ++ data in
  let '(res, rest) := split_data (S (length buffer)) buffer in
  (res, <[(local_addr, remote_addr) := rest]> b).
Definition remove_map (local_addr remote_addr : string) (b : TcpRtpBuffer) : TcpRtpBuffer :=
  delete (local_addr, remote_addr) b.

Lemma split_once_whole (p : bytes) :
  (12 <= length p)%nat -> Z.of_nat (length p) < 2 ^ 16 -> split_once (frame p) = (Panic, p).
Proof.
  intros Hmin Hmax. unfold split_once, announced, frame, TCP_DATA_BASE_LEN, TCP_RTP_DATA_LEN.
  cbn [length nth drop]. rewrite u16_be_split, Nat2Z.id, drop_0 by lia.
  destruct (decide _); [lia|]. destruct (decide _); [lia|]. by destruct (decide _); [|lia].
Qed.

Lemma split_once_part (p : bytes) (k : nat) :
  Z.of_nat (length p) < 2 ^ 16 -> (14 <= k < 2 + length p)%nat ->
  split_once (take k (frame p)) = (Done None, take (k - 2) p).
Proof.
  intros Hmax Hk. unfold split_once, announced, frame, TCP_DATA_BASE_LEN, TCP_RTP_DATA_LEN.
  destruct k as [|[|k]]; [lia|lia|].
  cbn [length nth drop take]. rewrite length_take, u16_be_split, Nat2Z.id by lia.
  destruct (decide _); [lia|]. destruct (decide _); [|lia]. simpl. by rewrite Nat.sub_0_r.
Qed.

(** The buffer of [splitter.rs] counts the length prefix twice: a read that
    holds exactly one packet panics, and a read that ends within a packet loses
    the packet's length prefix. *)
Theorem tcp_rtp_buffer_miscounts (l r : string) (p : bytes) (b : TcpRtpBuffer) :
  b !! (l, r) = None -> (12 <= length p)%nat -> Z.of_nat (length p) < 2 ^ 16 ->
  (fresh_data l r (frame p) b).1 = Panic /\
  forall k, (14 <= k < 2 + length p)%nat ->
    fresh_data l r (take k (frame p)) b = (Done [], <[(l, r) := take (k - 2) p]> b).
Proof.
  intros Hb Hmin Hmax. unfold fresh_data. rewrite Hb. cbn [default app]. split; [|intros k Hk]; cbn [split_data].
  - by rewrite split_once_whole.
  - by rewrite split_once_part.
Qed.
End TcpBuffer.
