(* ===== verification/RtpRing.v ===== *)
(** * The reordering ring of the RTP reader ([stream/src/media/rtp.rs])

    [RtpPacketBuffer] keeps up to 1024 packets by their sequence number modulo
    the size and hands them on in order, waiting a little for a missing one.
    The waiting reads the clock and the channel: a run of it is given by the
    readings, each a time and what the receive that follows returns. *)
From S2P Require Import Prelude SharedTypes StreamOutputs MediaRegister RtpIngest.
Local Open Scope Z_scope.

Definition BUFFER_SIZE : Z := 1024.
Definition DEFAULT_VIDEO_QUEUE_WINDOW : Z := 32.
Definition DEFAULT_AUDIO_QUEUE_WINDOW : Z := 8.
Definition REORDER_BUFFER_HIGH_WATERMARK : Z := BUFFER_SIZE * 4 / 5.
Definition VIDEO_GAP_WAIT_MS : Z := 80.
Definition AUDIO_GAP_WAIT_MS : Z := 5.
Definition GAP_WAIT_FIRST_MS : Z := 5.
Definition GAP_WAIT_SECOND_MS : Z := 15.
Definition GAP_WAIT_STEP_MS : Z := 10.
Definition SEQ_HALF_RANGE : Z := 32768.

Inductive PayloadKind := Ps | PH264 | PH265 | PAac | PG711 | Passthrough.
#[export] Instance PayloadKind_eq_dec : EqDecision PayloadKind.
Proof. solve_decision. Defined.

Definition reorder_window (k : PayloadKind) : Z :=
  match k with
  | Ps | PH264 | PH265 | Passthrough => DEFAULT_VIDEO_QUEUE_WINDOW
  | PAac | PG711 => DEFAULT_AUDIO_QUEUE_WINDOW
  end.
Definition max_gap_wait_ms (k : PayloadKind) : Z :=
  match k with
  | Ps | PH264 | PH265 | Passthrough => VIDEO_GAP_WAIT_MS
  | PAac | PG711 => AUDIO_GAP_WAIT_MS
  end.

Definition seq_before (seq base : Z) : bool :=
  negb (seq =? base) && (wrapping_sub 16 base seq <? SEQ_HALF_RANGE).

(** The occupied slots of the array. *)
Record Ring := { first_read_rtp_sn : Z; queue : gmap Z RtpPacket; queue_count : Z }.
Definition ring_empty : Ring := {| first_read_rtp_sn := umax 16; queue := ∅; queue_count := 0 |}.
Definition slot (seq : Z) : Z := seq mod BUFFER_SIZE.

Definition is_old_packet (seq : Z) (r : Ring) : bool :=
  negb (seq =? first_read_rtp_sn r) && (wrapping_sub 16 (first_read_rtp_sn r) seq <? SEQ_HALF_RANGE).
Definition has_packet (seq : Z) (r : Ring) : bool :=
  match queue r !! slot seq with Some p => pk_seq p =? seq | None => false end.

(** Store in a slot, counting it if it was free. *)
Definition put_slot (pkt : RtpPacket) (r : Ring) : Ring := {|
  first_read_rtp_sn := first_read_rtp_sn r;
  queue := <[slot (pk_seq pkt) := pkt]> (queue r);
  queue_count := match queue r !! slot (pk_seq pkt) with
                 | None => queue_count r + 1 | Some _ => queue_count r end |}.
Definition with_first (seq : Z) (r : Ring) : Ring := {|
  first_read_rtp_sn := seq; queue := queue r; queue_count := queue_count r |}.

Definition enqueue_initial (pkt : RtpPacket) (r : Ring) : Ring :=
  let seq := pk_seq pkt in
  if has_packet seq r then r
  else
    let r1 := if (queue_count r =? 0) || seq_before seq (first_read_rtp_sn r) then with_first seq r else r in
    put_slot pkt r1.

(** [calculate_index]: receive until the window is full, before the first read;
    [None] when the channel closes first. *)
Fixpoint calculate_index (queue_window : Z) (input : list RtpPacket) (r : Ring)
    : option (list RtpPacket * Ring) :=
  if queue_window <=? queue_count r then Some (input, r)
  else match input with
       | [] => None
       | pkt :: input => calculate_index queue_window input (enqueue_initial pkt r)
       end.

Definition enqueue (pkt : RtpPacket) (r : Ring) : Ring :=
  let seq := pk_seq pkt in
  if is_old_packet seq r then r else if has_packet seq r then r else put_slot pkt r.

Definition take_slot (index : Z) (r : Ring) : Ring := {|
  first_read_rtp_sn := first_read_rtp_sn r; queue := delete index (queue r);
  queue_count := queue_count r - 1 |}.

Definition take_expected_packet (r : Ring) : option RtpPacket * Ring :=
  let seq := first_read_rtp_sn r in
  match queue r !! slot seq with
  | Some p => if pk_seq p =? seq then (Some p, take_slot (slot seq) r) else (None, r)
  | None => (None, r)
  end.

(** The loop over the offsets [offset, offset + n). *)
Fixpoint scan (n : nat) (offset index : Z) (q : gmap Z RtpPacket) : option (RtpPacket * Z * Z) :=
  match n with
  | O => None
  | S n =>
      let index := if index =? BUFFER_SIZE then 0 else index in
      match q !! index with
      | Some p => Some (p, offset, index)
      | None => scan n (offset + 1) (index + 1) q
      end
  end.
Definition take_first_available_packet (r : Ring) : option (RtpPacket * Z) * Ring :=
  match scan (Z.to_nat BUFFER_SIZE) 0 (slot (first_read_rtp_sn r)) (queue r) with
  | Some (p, offset, index) => (Some (p, offset), take_slot index r)
  | None => (None, r)
  end.

(** ** Waiting for a missing packet *)

(** A clock reading (in milliseconds since the wait began) and what the receive
    after it returns: a packet or a timeout.  The end of the list is a closed
    channel. *)
Definition reading : Type := Z * option RtpPacket.

Fixpoint wait_until_gap_deadline (expected_seq deadline : Z) (env : list reading) (r : Ring)
    : bool * list reading * Ring :=
  if has_packet expected_seq r then (true, env, r)
  else if REORDER_BUFFER_HIGH_WATERMARK <=? queue_count r then (false, env, r)
  else
    match env with
    | [] => (false, [], r)
    | (now, received) :: rest =>
        if deadline <=? now then (false, env, r)
        else match received with
             | Some pkt => wait_until_gap_deadline expected_seq deadline rest (enqueue pkt r)
             | None => (has_packet expected_seq r, rest, r)
             end
    end.

(** The phases end at [max_wait_ms], 80 at most: 5, 20, 30, ..., 80. *)
Fixpoint wait_phases (fuel : nat) (max_wait_ms phase_ms : Z) (use_second_gap : bool) (expected_seq : Z)
    (env : list reading) (r : Ring) : bool * list reading * Ring :=
  match fuel with
  | O => (false, env, r)
  | S fuel =>
      let '(found, env1, r1) := wait_until_gap_deadline expected_seq phase_ms env r in
      if found then (true, env1, r1)
      else if max_wait_ms <=? phase_ms then (false, env1, r1)
      else
        let step_ms := if use_second_gap then GAP_WAIT_SECOND_MS else GAP_WAIT_STEP_MS in
        wait_phases fuel max_wait_ms (Z.min (saturating_add 64 phase_ms step_ms) max_wait_ms) false
          expected_seq env1 r1
  end.
Definition wait_for_gap_packet (k : PayloadKind) (expected_seq : Z) (env : list reading) (r : Ring)
    : bool * list reading * Ring :=
  wait_phases 10 (max_gap_wait_ms k) (Z.min GAP_WAIT_FIRST_MS (max_gap_wait_ms k)) true expected_seq env r.

(** [take_next_packet]: the packet and whether some before it are missing. *)
Definition take_next_packet (k : PayloadKind) (input_closed : bool) (env : list reading) (r : Ring)
    : option (RtpPacket * bool) * list reading * Ring :=
  if queue_count r =? 0 then (None, env, r) else
  match take_expected_packet r with
  | (Some pkt, r1) => (Some (pkt, false), env, with_first (wrapping_add 16 (pk_seq pkt) 1) r1)
  | (None, _) =>
      let '(found, env1, r1) :=
        if input_closed then (false, env, r) else wait_for_gap_packet k (first_read_rtp_sn r) env r in
      match (if found then take_expected_packet r1 else (None, r1)) with
      | (Some pkt, r2) => (Some (pkt, false), env1, with_first (wrapping_add 16 (pk_seq pkt) 1) r2)
      | (None, _) =>
          match take_first_available_packet r1 with
          | (None, r2) => (None, env1, r2)
          | (Some (pkt, offset), r2) =>
              (Some (pkt, 0 <? offset), env1, with_first (wrapping_add 16 (pk_seq pkt) 1) r2)
          end
      end
  end.
