(* ===== verification/RingProps.v ===== *)
(** * The reordering ring refines a sorted buffer

    The specification numbers the packets of a sender by unbounded integers: it
    holds the packets received and not yet handed on, and the number expected
    next; what it hands on is the least number it holds.  As long as packets
    stay within 1024 numbers of the expected one the ring behaves like it. *)
From S2P Require Import Prelude SharedTypes StreamOutputs MediaRegister RtpIngest RtpRing.
Local Open Scope Z_scope.

(** The number nearest to the expected one with this sequence number. *)
Definition unwrap (F seq : Z) : Z := F + 32768 - (F + 32768 - seq) mod 65536.

Lemma unwrap_spec (F seq : Z) :
  in_width 16 seq -> F - 32768 < unwrap F seq <= F + 32768 /\ unwrap F seq mod 65536 = seq.
Proof. unfold in_width, unwrap. intros. zmod. Qed.

(** A sender's number within half the range of the expected one is recovered. *)
Lemma unwrap_sender (F e : Z) : F - 32768 < e <= F + 32768 -> unwrap F (e mod 65536) = e.
Proof. unfold unwrap. intros. zmod. Qed.

Lemma slot_number (e : Z) : slot (e mod 65536) = e mod 1024.
Proof. unfold slot, BUFFER_SIZE. zmod. Qed.

(** ** The specification *)

Record SortedBuffer := { expected : Z; held : gmap Z RtpPacket }.

Definition spec_arrive (p : RtpPacket) (s : SortedBuffer) : SortedBuffer :=
  let e := unwrap (expected s) (pk_seq p) in
  if (e <? expected s) || bool_decide (is_Some (held s !! e)) then s
  else {| expected := expected s; held := <[e := p]> (held s) |}.

(** Hand on the packet with the least number, and whether numbers are missing
    before it. *)
Inductive spec_take : SortedBuffer -> option (Z * RtpPacket * bool) -> SortedBuffer -> Prop :=
| take_none s : held s = ∅ -> spec_take s None s
| take_least s e p :
    held s !! e = Some p -> (forall e' p', held s !! e' = Some p' -> e <= e') ->
    spec_take s (Some (e, p, expected s <? e)) {| expected := e + 1; held := delete e (held s) |}.

(** Every packet held is at most 1023 ahead. *)
Definition ring_rel (r : Ring) (s : SortedBuffer) : Prop :=
  first_read_rtp_sn r = expected s mod 65536 /\
  (forall e p, held s !! e = Some p -> expected s <= e < expected s + 1024 /\ pk_seq p = e mod 65536) /\
  (forall index p, queue r !! index = Some p <-> exists e, held s !! e = Some p /\ e mod 1024 = index) /\
  queue_count r = Z.of_nat (size (held s)).

Definition in_window (p : RtpPacket) (s : SortedBuffer) : Prop :=
  in_width 16 (pk_seq p) /\ unwrap (expected s) (pk_seq p) < expected s + 1024.

Lemma window_inj (F a b : Z) : F <= a < F + 1024 -> F <= b < F + 1024 -> a mod 1024 = b mod 1024 -> a = b.
Proof. intros. zmod. Qed.

Lemma rel_has_packet (r : Ring) (s : SortedBuffer) (e : Z) :
  ring_rel r s -> expected s <= e < expected s + 1024 ->
  has_packet (e mod 65536) r = bool_decide (is_Some (held s !! e)).
Proof.
  intros (R1 & R2 & R3 & R4) He. unfold has_packet. rewrite slot_number.
  destruct (queue r !! (e mod 1024)) as [p|] eqn:Hq.
  - apply R3 in Hq as (e' & He' & Hs). destruct (R2 _ _ He') as [Hw Hp].
    assert (e' = e) as -> by by apply (window_inj (expected s)). by rewrite Hp, Z.eqb_refl, He'.
  - destruct (held s !! e) as [p|] eqn:Hh; [|done].
    assert (queue r !! (e mod 1024) = Some p) by (apply R3; by exists e). congruence.
Qed.

Lemma rel_old (r : Ring) (s : SortedBuffer) (seq : Z) :
  ring_rel r s -> in_width 16 seq -> is_old_packet seq r = (unwrap (expected s) seq <? expected s).
Proof.
  intros (R1 & _) Hs. destruct (unwrap_spec (expected s) seq Hs) as [Hr Hm].
  unfold is_old_packet, wrapping_sub, SEQ_HALF_RANGE. rewrite R1. rewrite <- Hm at 1 2.
  set (e := unwrap (expected s) seq) in *. change (2 ^ 16) with 65536. rewrite <- Zminus_mod.
  destruct (Z.ltb_spec e (expected s)).
  - apply andb_true_iff. split; [apply negb_true_iff, Z.eqb_neq; zmod|apply Z.ltb_lt; zmod].
  - apply andb_false_iff. destruct (decide (e = expected s)) as [->|]; [left; by rewrite Z.eqb_refl|].
    right. apply Z.ltb_ge. zmod.
Qed.

(** Storing a new packet of the window. *)
Lemma rel_put (r : Ring) (s : SortedBuffer) (p : RtpPacket) (e : Z) :
  ring_rel r s -> expected s <= e < expected s + 1024 -> pk_seq p = e mod 65536 -> held s !! e = None ->
  ring_rel (put_slot p r) {| expected := expected s; held := <[e := p]> (held s) |}.
Proof.
  intros (R1 & R2 & R3 & R4) He Hp Hn. unfold put_slot. rewrite Hp, slot_number. split_and!; simpl; [done| | |].
  - intros e' p' [[<- <-]|[_ H]]%lookup_insert_Some; [done|by apply R2].
  - intros index p'. rewrite lookup_insert_Some. split.
    + intros [[<- <-]|[Hne Hq]]; [exists e; by rewrite lookup_insert_eq|].
      apply R3 in Hq as (e' & He' & <-). exists e'. rewrite lookup_insert_ne by congruence. done.
    + intros (e' & He' & <-). apply lookup_insert_Some in He' as [[<- <-]|[Hne He']]; [by left|].
      destruct (decide (e mod 1024 = e' mod 1024)) as [Hs|]; [|right; split; [done|]; apply R3; by exists e'].
      destruct (R2 _ _ He') as [Hw _]. by rewrite (window_inj (expected s) e e') in Hne.
  - rewrite map_size_insert_None by done. destruct (queue r !! (e mod 1024)) as [p'|] eqn:Hq; [|lia].
    apply R3 in Hq as (e' & He' & Hs). destruct (R2 _ _ He') as [Hw _].
    rewrite (window_inj (expected s) e' e) in He' by done. congruence.
Qed.

Lemma rel_arrive (r : Ring) (s : SortedBuffer) (p : RtpPacket) :
  ring_rel r s -> in_window p s -> ring_rel (enqueue p r) (spec_arrive p s).
Proof.
  intros Hr [Hseq Hwin]. unfold enqueue, spec_arrive. rewrite (rel_old r s) by done.
  destruct (unwrap_spec (expected s) (pk_seq p) Hseq) as [Hb Hm].
  set (e := unwrap (expected s) (pk_seq p)) in *. destruct (Z.ltb_spec e (expected s)); [done|]. simpl.
  rewrite <- Hm at 1. rewrite (rel_has_packet r s e) by (done || lia).
  destruct (bool_decide _) eqn:Hd; [done|]. apply bool_decide_eq_false in Hd.
  apply rel_put; [done|lia|done|]. by apply eq_None_not_Some.
Qed.

(** Handing on the packet [e], the least held. *)
Lemma rel_take_slot (r : Ring) (s : SortedBuffer) (e : Z) (p : RtpPacket) :
  ring_rel r s -> held s !! e = Some p -> (forall e' p', held s !! e' = Some p' -> e <= e') ->
  ring_rel (with_first (wrapping_add 16 (pk_seq p) 1) (take_slot (e mod 1024) r))
    {| expected := e + 1; held := delete e (held s) |}.
Proof.
  intros (R1 & R2 & R3 & R4) He Hmin. destruct (R2 _ _ He) as [Hw Hp]. split_and!; simpl.
  - rewrite Hp. unfold wrapping_add. change (2 ^ 16) with 65536. zmod.
  - intros e' p' [Hne He']%lookup_delete_Some. destruct (R2 _ _ He') as [Hw' Hp'].
    specialize (Hmin _ _ He'). split; [lia|done].
  - intros index p'. rewrite lookup_delete_Some. split.
    + intros [Hne Hq]. apply R3 in Hq as (e' & He' & <-). exists e'. rewrite lookup_delete_ne by congruence. done.
    + intros (e' & He' & <-). apply lookup_delete_Some in He' as [Hne He']. split; [|apply R3; by exists e'].
      intros Hs. destruct (R2 _ _ He') as [Hw' _]. by apply Hne, (window_inj (expected s)).
  - rewrite map_size_delete_Some by (by eexists).
    assert (size (held s) <> 0%nat) by (intros H0; apply map_size_empty_inv in H0; by rewrite H0, lookup_empty in He).
    rewrite R4. lia.
Qed.

Lemma rel_expected (r : Ring) (s : SortedBuffer) :
  ring_rel r s ->
  take_expected_packet r = match held s !! expected s with
                           | Some p => (Some p, take_slot (expected s mod 1024) r)
                           | None => (None, r)
                           end.
Proof.
  intros Hr. pose proof (rel_has_packet r s (expected s) Hr ltac:(lia)) as Hh.
  destruct Hr as (R1 & R2 & R3 & R4). unfold take_expected_packet, has_packet in *.
  rewrite R1, slot_number in *. destruct (held s !! expected s) as [p|] eqn:Hp.
  - assert (queue r !! (expected s mod 1024) = Some p) as Hq by (apply R3; by exists (expected s)).
    rewrite Hq in *. by rewrite Hh.
  - destruct (queue r !! _); [|done]. by rewrite Hh.
Qed.

(** The scan finds the least number held, at its distance. *)
Lemma scan_least (r : Ring) (s : SortedBuffer) : ring_rel r s -> forall n k index,
  Z.of_nat n + k = 1024 -> 0 <= k ->
  (index = (expected s + k) mod 1024 \/ index = 1024 /\ (expected s + k) mod 1024 = 0) ->
  (forall e p, held s !! e = Some p -> expected s + k <= e) ->
  match scan n k index (queue r) with
  | None => held s = ∅
  | Some (p, offset, index') =>
      held s !! (expected s + offset) = Some p /\ index' = (expected s + offset) mod 1024 /\
      (forall e p', held s !! e = Some p' -> expected s + offset <= e)
  end.
Proof.
  intros (R1 & R2 & R3 & R4). induction n as [|n IH]; intros k index Hk H0 Hi Hmin; simpl.
  - apply map_empty. intros e. destruct (held s !! e) as [p|] eqn:He; [|done].
    destruct (R2 _ _ He) as [Hw _]. specialize (Hmin _ _ He). lia.
  - set (i1 := if index =? BUFFER_SIZE then 0 else index).
    assert (i1 = (expected s + k) mod 1024) as ->.
    { unfold i1, BUFFER_SIZE. destruct (Z.eqb_spec index 1024) as [->|Hne].
      - destruct Hi as [Hi|[_ Hi]]; [zmod|by rewrite Hi].
      - destruct Hi as [->|[-> _]]; done. }
    destruct (queue r !! _) as [p|] eqn:Hq.
    + apply R3 in Hq as (e & He & Hs). destruct (R2 _ _ He) as [Hw _]. specialize (Hmin _ _ He) as Hge.
      assert (e = expected s + k) as -> by (apply (window_inj (expected s)); [done|lia|done]). done.
    + apply IH; [lia|lia|zmod|]. intros e p He. specialize (Hmin _ _ He) as Hge.
      destruct (decide (e = expected s + k)) as [->|]; [|lia].
      assert (queue r !! ((expected s + k) mod 1024) = Some p) by (apply R3; by eexists). congruence.
Qed.

(** ** Handing packets on *)

Definition arrivals (env : list reading) : list RtpPacket := omap snd env.
Definition enqueue_all (ps : list RtpPacket) (r : Ring) : Ring := foldl (fun r p => enqueue p r) r ps.
Definition spec_arrive_all (ps : list RtpPacket) (s : SortedBuffer) : SortedBuffer :=
  foldl (fun s p => spec_arrive p s) s ps.

(** A wait stores some of the packets that arrive, in order, and does nothing
    else. *)
Definition waited (env env1 : list reading) (r r1 : Ring) : Prop :=
  exists ps, arrivals env = ps ++ arrivals env1 /\ r1 = enqueue_all ps r.

Lemma waited_refl env r : waited env env r r.
Proof. by exists []. Qed.
Lemma waited_trans env env1 env2 r r1 r2 :
  waited env env1 r r1 -> waited env1 env2 r1 r2 -> waited env env2 r r2.
Proof.
  intros (ps & H1 & ->) (ps' & H2 & ->). exists (ps ++ ps'). split; [by rewrite H1, H2, app_assoc|].
  unfold enqueue_all. by rewrite foldl_app.
Qed.

Lemma wait_until_waited (seq deadline : Z) (env : list reading) : forall r,
  let '(_, env1, r1) := wait_until_gap_deadline seq deadline env r in waited env env1 r r1.
Proof.
  induction env as [|[now rec] env IH]; intros r; simpl;
    destruct (has_packet seq r); [apply waited_refl| |apply waited_refl|];
    destruct (REORDER_BUFFER_HIGH_WATERMARK <=? queue_count r); try apply waited_refl.
  destruct (deadline <=? now); [apply waited_refl|]. destruct rec as [p|]; [|by exists []].
  specialize (IH (enqueue p r)). destruct (wait_until_gap_deadline _ _ _ _) as [[found env1] r1].
  destruct IH as (ps & He & ->). exists (p :: ps). split; [|done].
  change (arrivals ((now, Some p) :: env)) with (p :: arrivals env). by rewrite He.
Qed.

Lemma wait_phases_waited (fuel : nat) (max seq : Z) : forall phase b env r,
  let '(_, env1, r1) := wait_phases fuel max phase b seq env r in waited env env1 r r1.
Proof.
  induction fuel as [|fuel IH]; intros phase b env r; simpl; [apply waited_refl|].
  pose proof (wait_until_waited seq phase env r) as H1.
  destruct (wait_until_gap_deadline _ _ _ _) as [[[] env1] r1]; [done|].
  destruct (max <=? phase); [done|].
  specialize (IH (Z.min (saturating_add 64 phase (if b then GAP_WAIT_SECOND_MS else GAP_WAIT_STEP_MS)) max)
    false env1 r1). destruct (wait_phases _ _ _ _ _ _ _) as [[found env2] r2]. by eapply waited_trans.
Qed.

Lemma wait_for_waited (k : PayloadKind) (seq : Z) (env : list reading) (r : Ring) :
  let '(_, env1, r1) := wait_for_gap_packet k seq env r in waited env env1 r r1.
Proof. unfold wait_for_gap_packet. apply wait_phases_waited. Qed.

(** Ten phases are more than any kind of payload waits. *)
Lemma wait_phases_fuel (n : nat) (k : PayloadKind) (seq : Z) (env : list reading) (r : Ring) :
  wait_phases (10 + n) (max_gap_wait_ms k) (Z.min GAP_WAIT_FIRST_MS (max_gap_wait_ms k)) true seq env r
  = wait_for_gap_packet k seq env r.
Proof. destruct k; reflexivity. Qed.

Lemma arrive_expected (p : RtpPacket) (s : SortedBuffer) : expected (spec_arrive p s) = expected s.
Proof. unfold spec_arrive. by destruct (_ || _). Qed.

Lemma rel_arrive_all (ps : list RtpPacket) : forall r s,
  ring_rel r s -> Forall (fun p => in_window p s) ps ->
  ring_rel (enqueue_all ps r) (spec_arrive_all ps s) /\ expected (spec_arrive_all ps s) = expected s.
Proof.
  induction ps as [|p ps IH]; intros r s Hr; simpl; [done|]. intros [Hp Hps]%Forall_cons.
  destruct (IH (enqueue p r) (spec_arrive p s)) as [H1 H2]; [by apply rel_arrive| |].
  - eapply Forall_impl; [exact Hps|]. intros q. unfold in_window. by rewrite arrive_expected.
  - split; [done|]. by rewrite H2, arrive_expected.
Qed.

(** The least packet, found by either way of taking it. *)
Lemma rel_take_least (r : Ring) (s : SortedBuffer) :
  ring_rel r s ->
  match take_first_available_packet r with
  | (None, _) => held s = ∅
  | (Some (p, offset), r1) =>
      0 <= offset /\ spec_take s (Some (expected s + offset, p, 0 <? offset))
        {| expected := expected s + offset + 1; held := delete (expected s + offset) (held s) |} /\
      ring_rel (with_first (wrapping_add 16 (pk_seq p) 1) r1)
        {| expected := expected s + offset + 1; held := delete (expected s + offset) (held s) |}
  end.
Proof.
  intros Hr. pose proof Hr as (R1 & R2 & _). unfold take_first_available_packet.
  pose proof (scan_least r s Hr (Z.to_nat BUFFER_SIZE) 0 (slot (first_read_rtp_sn r)) ltac:(done) ltac:(done))
    as Hsc. rewrite R1, slot_number, Z.add_0_r in *. specialize (Hsc ltac:(by left)).
  destruct (scan _ _ _ _) as [[[p offset] index]|].
  - destruct Hsc as (S1 & -> & S3); [intros e p' He; by apply R2 in He as [? _]; lia|].
    destruct (R2 _ _ S1) as [Hw _]. split_and!; [lia| |by apply rel_take_slot].
    replace (0 <? offset) with (expected s <? expected s + offset) by
      (destruct (Z.ltb_spec (expected s) (expected s + offset)), (Z.ltb_spec 0 offset); (done || lia)).
    by constructor.
  - apply Hsc. intros e p' He. apply R2 in He as [? _]. lia.
Qed.

Lemma take_first_none (r r1 : Ring) : take_first_available_packet r = (None, r1) -> r1 = r.
Proof. unfold take_first_available_packet. destruct (scan _ _ _ _) as [[[]]|]; congruence. Qed.
#[local] Opaque take_first_available_packet wait_for_gap_packet.

Lemma rel_take (k : PayloadKind) (closed : bool) (env : list reading) (r : Ring) (s : SortedBuffer) :
  ring_rel r s -> Forall (fun p => in_window p s) (arrivals env) ->
  let '(out, env1, r1) := take_next_packet k closed env r in
  exists ps sout s1, arrivals env = ps ++ arrivals env1 /\ Forall (fun p => in_window p s) ps /\
    spec_take (spec_arrive_all ps s) sout s1 /\
    out = (fun o => (o.1.2, o.2)) <$> sout /\ ring_rel r1 s1.
Proof.
  intros Hr Henv. unfold take_next_packet. destruct (Z.eqb_spec (queue_count r) 0) as [H0|H0].
  { assert (held s = ∅) as He.
    { destruct Hr as (_ & _ & _ & R4). apply map_size_empty_inv. lia. }
    exists [], None, s. split_and!; [done|done|by constructor|done|done]. }
  rewrite (rel_expected r s Hr). destruct (held s !! expected s) as [p|] eqn:Hp.
  { exists [], (Some (expected s, p, false)), {| expected := expected s + 1; held := delete (expected s) (held s) |}.
    destruct Hr as (R1 & R2 & R3). split_and!; [done|done| |done|].
    - rewrite <- (Z.ltb_irrefl (expected s)). constructor; [done|].
      intros e' p' He. apply R2 in He as [? _]. lia.
    - apply rel_take_slot; [done|done|]. intros e' p' He. apply R2 in He as [? _]. lia. }
  set (w := if closed then _ else _).
  assert (let '(_, env1, r1) := w in waited env env1 r r1) as Hw.
  { unfold w. destruct closed; [apply waited_refl|apply wait_for_waited]. }
  destruct w as [[found env1] r1]. destruct Hw as (ps & Hps & ->). rewrite Hps in Henv.
  apply Forall_app in Henv as [Hin _]. destruct (rel_arrive_all ps r s Hr Hin) as [Hr1 Hx].
  set (s1 := spec_arrive_all ps s) in *. pose proof (rel_take_least _ _ Hr1) as Hleast.
  assert (forall p r2, take_expected_packet (enqueue_all ps r) = (Some p, r2) ->
    exists s2, spec_take s1 (Some (expected s1, p, false)) s2 /\
      ring_rel (with_first (wrapping_add 16 (pk_seq p) 1) r2) s2) as Hexp.
  { intros p r2. rewrite (rel_expected _ _ Hr1). destruct (held s1 !! expected s1) as [p'|] eqn:Hp'; [|done].
    intros [= <- <-]. eexists. pose proof Hr1 as (_ & R2 & _).
    assert (forall e' p', held s1 !! e' = Some p' -> expected s1 <= e') as Hmin
      by (intros e' q He; apply R2 in He as [? _]; lia).
    split; [|by apply rel_take_slot]. rewrite <- (Z.ltb_irrefl (expected s1)). by constructor. }
  destruct (if found then _ else _) as [[p|] r2] eqn:Hf.
  - destruct found; [|done]. destruct (Hexp _ _ Hf) as (s2 & T1 & T2).
    by exists ps, (Some (expected s1, p, false)), s2.
  - destruct (take_first_available_packet _) as [[[p offset]|] r3] eqn:Hfirst.
    + destruct Hleast as (_ & T1 & T2). exists ps, (Some (expected s1 + offset, p, 0 <? offset)).
      eexists. split_and!; [done|done|exact T1|done|done].
    + apply take_first_none in Hfirst as ->.
      exists ps, None, s1. split_and!; [done|done|by constructor|done|done].
Qed.

(** ** The first packets *)

(** All initial packets lie in a span of 1024 numbers from [e0] on. *)
Definition in_span (e0 : Z) (p : RtpPacket) (e : Z) : Prop :=
  e0 <= e < e0 + 1024 /\ pk_seq p = e mod 65536.

(** While the ring fills, its contents are related with [e0] as the base, and
    its first number is the least of them. *)
Definition filling (e0 : Z) (r : Ring) (s : SortedBuffer) : Prop :=
  ring_rel (with_first (e0 mod 65536) r) {| expected := e0; held := held s |} /\
  (held s = ∅ \/ (first_read_rtp_sn r = expected s mod 65536 /\ is_Some (held s !! expected s) /\
                  forall e p, held s !! e = Some p -> expected s <= e)).

Lemma seq_before_number (e0 a b : Z) :
  e0 <= a < e0 + 1024 -> e0 <= b < e0 + 1024 -> seq_before (a mod 65536) (b mod 65536) = (a <? b).
Proof.
  intros Ha Hb. unfold seq_before, wrapping_sub, SEQ_HALF_RANGE. change (2 ^ 16) with 65536. rewrite <- Zminus_mod.
  destruct (Z.ltb_spec a b).
  - apply andb_true_iff. split; [apply negb_true_iff, Z.eqb_neq; zmod|apply Z.ltb_lt; zmod].
  - apply andb_false_iff. destruct (decide (a = b)) as [->|]; [left; by rewrite Z.eqb_refl|].
    right. apply Z.ltb_ge. zmod.
Qed.

Lemma fill_one (e0 e : Z) (p : RtpPacket) (r : Ring) (s : SortedBuffer) :
  filling e0 r s -> in_span e0 p e ->
  exists s', filling e0 (enqueue_initial p r) s' /\ is_Some (held s' !! e) /\
    (forall e' p', held s !! e' = Some p' -> held s' !! e' = Some p') /\
    (forall e', is_Some (held s' !! e') -> e' = e \/ is_Some (held s !! e')).
Proof.
  intros [Hr Hmin] [He Hp]. unfold enqueue_initial.
  pose proof (rel_has_packet _ _ e Hr He) as Hh. unfold has_packet in Hh. simpl in Hh.
  fold (has_packet (e mod 65536) r) in Hh. rewrite Hp, Hh. case_bool_decide as Hd.
  { exists s. split_and!; [by split|done|done|by right]. }
  assert (held s !! e = None) as Hn by by apply eq_None_not_Some.
  pose proof Hr as (_ & R2 & _ & R4). simpl in *.
  set (b := (queue_count r =? 0) || seq_before (e mod 65536) (first_read_rtp_sn r)).
  assert (b = bool_decide (held s = ∅) || (e <? expected s)) as Hb.
  { unfold b. rewrite R4. destruct Hmin as [Hm|(Hf & Hi & Hl)].
    - by rewrite Hm, bool_decide_eq_true_2.
    - rewrite Hf. destruct Hi as [q Hq]. destruct (R2 _ _ Hq) as [Hw _].
      rewrite (seq_before_number e0) by done. f_equal.
      destruct (Z.eqb_spec (Z.of_nat (size (held s))) 0) as [H0|H0].
      + assert (held s = ∅) as Hm by (apply map_size_empty_inv; lia). by rewrite Hm, lookup_empty in Hq.
      + rewrite bool_decide_eq_false_2; [done|]. intros Hm. by rewrite Hm, lookup_empty in Hq. }
  pose proof (rel_put _ _ p e Hr He Hp Hn) as Hput. simpl in Hput.
  exists {| expected := if b then e else expected s; held := <[e := p]> (held s) |}. simpl. split_and!.
  - split; [by destruct b|]. right. simpl. rewrite Hb. destruct Hmin as [Hm|(Hf & Hi & Hl)].
    + rewrite Hm, bool_decide_eq_true_2 by done. simpl. rewrite lookup_insert_eq. split_and!; [by destruct b|by eexists|].
      intros e' p' [[<- _]|[_ H]]%lookup_insert_Some; [lia|by rewrite lookup_empty in H].
    + destruct Hi as [q Hq]. rewrite bool_decide_eq_false_2 by (intros Hm; by rewrite Hm, lookup_empty in Hq).
      simpl. destruct (Z.ltb_spec e (expected s)).
      * rewrite lookup_insert_eq. split_and!; [done|by eexists|].
        intros e' p' [[<- _]|[_ He']]%lookup_insert_Some; [lia|]. specialize (Hl _ _ He'). lia.
      * rewrite lookup_insert_is_Some'. split_and!; [done|right; by eexists|].
        intros e' p' [[<- _]|[_ He']]%lookup_insert_Some; [lia|]. by eapply Hl.
  - rewrite lookup_insert_eq. by eexists.
  - intros e' p' He'. rewrite lookup_insert_ne; [done|]. intros <-. congruence.
  - intros e' [q Hq]. apply lookup_insert_Some in Hq as [[<- _]|[_ Hq]]; [by left|right; by exists q].
Qed.

Lemma fill_all (e0 : Z) (pkts : list RtpPacket) (es : list Z) : forall r s,
  filling e0 r s -> Forall2 (in_span e0) pkts es ->
  exists s', filling e0 (foldl (fun r p => enqueue_initial p r) r pkts) s' /\
    Forall (fun e => is_Some (held s' !! e)) es /\
    (forall e p, held s !! e = Some p -> held s' !! e = Some p) /\
    (forall e, is_Some (held s' !! e) -> e ∈ es \/ is_Some (held s !! e)).
Proof.
  revert es. induction pkts as [|p pkts IH]; intros es r s Hf Hall; inversion Hall; subst; simpl.
  { exists s. by eauto. }
  destruct (fill_one e0 y p r s Hf) as (s1 & F1 & F2 & F3 & F4); [done|].
  destruct (IH l' (enqueue_initial p r) s1 F1) as (s2 & G1 & G2 & G3 & G4); [done|].
  exists s2. split_and!; [done| |by eauto|].
  - constructor; [|done]. destruct F2 as [q Hq]. exists q. by apply G3.
  - intros e [He|He]%G4; [left; by apply list_elem_of_further|].
    apply F4 in He as [->|He]; [left; apply list_elem_of_here|by right].
Qed.

Lemma filling_rel (e0 : Z) (r : Ring) (s : SortedBuffer) :
  filling e0 r s -> held s <> ∅ -> ring_rel r s.
Proof.
  intros [(R1 & R2 & R3 & R4) [|(Hf & Hi & Hl)]]; [done|]. intros _. simpl in *.
  destruct Hi as [q Hq]. destruct (R2 _ _ Hq) as [Hw _]. split_and!; [done| |done|done].
  intros e p He. destruct (R2 _ _ He) as [Hw' Hp]. specialize (Hl _ _ He). split; [lia|done].
Qed.

(** ** Reading *)

(** Sequence numbers that are old or less than 1024 ahead. *)
Definition near (p : RtpPacket) (r : Ring) : Prop :=
  in_width 16 (pk_seq p) /\
  (is_old_packet (pk_seq p) r = true \/ wrapping_sub 16 (pk_seq p) (first_read_rtp_sn r) < 1024).

(** Packets arrive and are handed on, in any interleaving. *)
Inductive ring_steps (k : PayloadKind) : Ring -> list (RtpPacket * bool) -> Ring -> Prop :=
| ring_done r : ring_steps k r [] r
| ring_arrive p r outs r' : near p r -> ring_steps k (enqueue p r) outs r' -> ring_steps k r outs r'
| ring_take closed env env1 out r r1 outs r' :
    Forall (fun p => near p r) (arrivals env) -> take_next_packet k closed env r = (Some out, env1, r1) ->
    ring_steps k r1 outs r' -> ring_steps k r (out :: outs) r'
| ring_idle closed env env1 r r1 outs r' :
    Forall (fun p => near p r) (arrivals env) -> take_next_packet k closed env r = (None, env1, r1) ->
    ring_steps k r1 outs r' -> ring_steps k r outs r'.

(** Which of the numbers handed on leave a gap before them. *)
Fixpoint gaps (F : Z) (es : list Z) : list bool :=
  match es with [] => [] | e :: es => (F <? e) :: gaps (e + 1) es end.

Lemma near_window (r : Ring) (s : SortedBuffer) (p : RtpPacket) :
  ring_rel r s -> near p r -> in_window p s.
Proof.
  intros Hr [Hs Hn]. split; [done|]. destruct (unwrap_spec (expected s) (pk_seq p) Hs) as [Hb Hm].
  destruct Hn as [Ho|Hd].
  - rewrite (rel_old r s) in Ho by done. zbool. lia.
  - destruct Hr as (R1 & _). rewrite R1 in Hd. rewrite <- Hm in Hd. unfold wrapping_sub in Hd.
    change (2 ^ 16) with 65536 in Hd. rewrite <- Zminus_mod in Hd. revert Hd Hb.
    generalize (unwrap (expected s) (pk_seq p)). intros. zmod.
Qed.

(** What a run hands on, between related states. *)
Definition in_order (s s' : SortedBuffer) (es : list Z) (outs : list (RtpPacket * bool)) : Prop :=
  Forall2 (fun e o => pk_seq o.1 = e mod 65536) es outs /\ StronglySorted Z.lt es /\
  Forall (fun e => expected s <= e < expected s') es /\ expected s <= expected s' /\
  gaps (expected s) es = outs.*2 /\
  (forall e p, held s !! e = Some p -> (e, p) ∈ zip es outs.*1 \/ held s' !! e = Some p).

Lemma in_order_take (s s1 s' : SortedBuffer) (e : Z) (p : RtpPacket) (b : bool) es outs :
  (forall e p, held s !! e = Some p -> pk_seq p = e mod 65536 /\ expected s <= e) ->
  spec_take s (Some (e, p, b)) s1 -> in_order s1 s' es outs -> in_order s s' (e :: es) ((p, b) :: outs).
Proof.
  intros Hs Ht (H1 & H2 & H3 & H4 & H5 & H6). inversion Ht as [|? ? ? Hp Hmin]; subst. simpl in *.
  destruct (Hs _ _ Hp) as [Hseq Hge]. unfold in_order. split_and!.
  - by constructor.
  - constructor; [done|]. eapply Forall_impl; [exact H3|]. simpl. lia.
  - constructor; [lia|]. eapply Forall_impl; [exact H3|]. simpl. lia.
  - lia.
  - simpl. by rewrite H5.
  - intros e' p' He'. simpl. destruct (decide (e' = e)) as [->|Hne].
    + rewrite Hp in He'. simplify_eq. left. by apply list_elem_of_here.
    + destruct (H6 e' p') as [|]; [by rewrite lookup_delete_ne|left; by apply list_elem_of_further|by right].
Qed.

Lemma arrive_held (s : SortedBuffer) (ps : list RtpPacket) e p :
  held s !! e = Some p -> held (spec_arrive_all ps s) !! e = Some p.
Proof.
  revert s. induction ps as [|q ps IH]; intros s He; simpl; [done|]. apply IH. unfold spec_arrive.
  destruct ((_ <? _) || bool_decide (is_Some (held s !! unwrap (expected s) (pk_seq q)))) eqn:Hb; [done|]. simpl.
  apply orb_false_iff in Hb as [_ Hb]. apply bool_decide_eq_false in Hb.
  rewrite lookup_insert_ne; [done|]. intros <-. apply Hb. by eexists.
Qed.

Lemma in_order_more (s s1 s' : SortedBuffer) es outs :
  expected s1 = expected s -> (forall e p, held s !! e = Some p -> held s1 !! e = Some p) ->
  in_order s1 s' es outs -> in_order s s' es outs.
Proof.
  intros He Hh (H1 & H2 & H3 & H4 & H5 & H6). unfold in_order. rewrite He in *. split_and!; try done. eauto.
Qed.

(** Any run of related states. *)
Lemma ring_steps_in_order (k : PayloadKind) (r r' : Ring) (outs : list (RtpPacket * bool)) :
  ring_steps k r outs r' -> forall s, ring_rel r s ->
  exists s' es, ring_rel r' s' /\ in_order s s' es outs.
Proof.
  induction 1 as [r|p r outs r' Hn _ IH|closed env env1 out r r1 outs r' Hn Ht _ IH
                  |closed env env1 r r1 outs r' Hn Ht _ IH]; intros s Hr.
  - exists s, []. split; [done|]. unfold in_order. split_and!; [constructor|constructor|constructor|lia|done|by right].
  - destruct (IH (spec_arrive p s)) as (s' & es & Hr' & Ho); [apply rel_arrive; [done|by apply (near_window r)]|].
    exists s', es. split; [done|]. eapply in_order_more; [apply arrive_expected| |exact Ho].
    intros e q. apply (arrive_held s [p]).
  - pose proof (rel_take k closed env r s Hr) as Hrt. rewrite Ht in Hrt.
    destruct Hrt as (ps & sout & s1 & _ & Hps & Hst & Hout & Hr1);
      [eapply Forall_impl; [exact Hn|]; intros q; by apply near_window|].
    destruct sout as [[[e p] b]|]; [|done]. simpl in Hout. simplify_eq.
    destruct (IH s1 Hr1) as (s' & es & Hr' & Ho). exists s', (e :: es). split; [done|].
    destruct (rel_arrive_all ps r s Hr Hps) as [(_ & R2 & _) Hx].
    eapply in_order_more; [exact Hx|intros; by apply arrive_held|]. eapply in_order_take; [|exact Hst|exact Ho].
    intros e' p' He'. destruct (R2 _ _ He') as [? ?]. split; [done|lia].
  - pose proof (rel_take k closed env r s Hr) as Hrt. rewrite Ht in Hrt.
    destruct Hrt as (ps & sout & s1 & _ & Hps & Hst & Hout & Hr1);
      [eapply Forall_impl; [exact Hn|]; intros q; by apply near_window|].
    destruct sout as [[[e p] b]|]; [done|]. inversion Hst; subst.
    destruct (rel_arrive_all ps r s Hr Hps) as [_ Hx].
    destruct (IH _ Hr1) as (s' & es & Hr' & Ho). exists s', es. split; [done|].
    eapply in_order_more; [exact Hx|intros; by apply arrive_held|exact Ho].
Qed.

(** A full window is what the packets received for it make. *)
Lemma calculate_index_all (w : Z) (pkts : list RtpPacket) : forall r r0,
  calculate_index w pkts r = Some ([], r0) -> r0 = foldl (fun r p => enqueue_initial p r) r pkts.
Proof.
  induction pkts as [|p pkts IH]; intros r r0; simpl; (destruct (w <=? queue_count r); [congruence|]); [done|].
  apply IH.
Qed.

(** C20: Packets are handed on in order.  Let the packets received to fill the
    window before the first read lie in a span of 1024 sequence numbers, and every later one be old or less than
    1024 ahead of the expected one.  However packets are reordered, duplicated
    or lost, and whatever the waits for missing ones see, what the reader hands
    on has strictly increasing numbers, starting with the least of the first
    ones; a packet is marked as following a loss exactly when the number before
    it was not handed on just before; and each of the first packets is handed
    on or still in the ring. *)
Theorem packets_in_order (k : PayloadKind) (e0 w : Z) (pkts : list RtpPacket) (es0 : list Z) (r0 : Ring)
    (outs : list (RtpPacket * bool)) (r' : Ring) :
  0 < w -> calculate_index w pkts ring_empty = Some ([], r0) -> Forall2 (in_span e0) pkts es0 ->
  ring_steps k r0 outs r' ->
  exists F es, F ∈ es0 /\ Forall (fun e => F <= e) es0 /\
    Forall2 (fun e o => pk_seq o.1 = e mod 65536) es outs /\ StronglySorted Z.lt es /\
    Forall (fun e => F <= e) es /\ gaps F es = outs.*2 /\
    forall e, e ∈ es0 -> e ∈ es \/ exists p, queue r' !! (e mod 1024) = Some p /\ pk_seq p = e mod 65536.
Proof.
  intros Hw Hfill Hspan Hrun.
  assert (pkts <> []) as Hne.
  { intros ->. cbn [calculate_index] in Hfill. destruct (w <=? queue_count ring_empty) eqn:E; [|done].
    change (queue_count ring_empty) with 0 in E. lia. }
  rewrite (calculate_index_all _ _ _ _ Hfill) in Hrun.
  destruct (fill_all e0 pkts es0 ring_empty {| expected := e0; held := ∅ |}) as (s & Hf & Hall & _ & Hkeys); [|done|].
  { split; [|by left]. unfold ring_rel. simpl. split_and!; [done| | |done].
    - intros e p. by rewrite lookup_empty.
    - intros index p. rewrite lookup_empty. split; [done|]. intros (e & He & _). by rewrite lookup_empty in He. }
  assert (held s <> ∅) as Hs.
  { intros Hs. destruct Hspan as [|p e pkts es0 _ _]; [done|]. apply Forall_cons in Hall as [[q Hq] _].
    by rewrite Hs, lookup_empty in Hq. }
  pose proof (filling_rel _ _ _ Hf Hs) as Hr. destruct Hf as [_ [|(_ & Hi & Hl)]]; [done|].
  destruct (ring_steps_in_order _ _ _ _ Hrun s Hr) as (s' & es & (_ & R2 & R3 & _) & H1 & H2 & H3 & H4 & H5 & H6).
  exists (expected s), es. split_and!; [| |done|done| |done|].
  - destruct (Hkeys _ Hi) as [|[q Hq]]; [done|]. simpl in Hq. by rewrite lookup_empty in Hq.
  - eapply Forall_impl; [exact Hall|]. intros e [q Hq]. by eapply Hl.
  - eapply Forall_impl; [exact H3|]. simpl. lia.
  - intros e He. rewrite Forall_forall in Hall. destruct (Hall _ He) as [q Hq].
    destruct (H6 _ _ Hq) as [Hz|Hh].
    + left. by eapply elem_of_zip_l.
    + right. exists q. split; [apply R3; by exists e|]. by destruct (R2 _ _ Hh).
Qed.

Definition demo_rtp (seq : Z) : RtpPacket := {|
  pk_ssrc := 7; pk_timestamp := 0; pk_marker := false; pk_seq := seq; pk_payload := [seq] |}.

Lemma packets_in_order_witness :
  exists F es, F ∈ [65535; 65534; 65537] /\ StronglySorted Z.lt es /\ gaps F es = [false; false; true].
Proof.
  destruct (packets_in_order PH264 65534 3 [demo_rtp 65535; demo_rtp 65534; demo_rtp 1] [65535; 65534; 65537]
    (foldl (fun r p => enqueue_initial p r) ring_empty [demo_rtp 65535; demo_rtp 65534; demo_rtp 1])
    [(demo_rtp 65534, false); (demo_rtp 65535, false); (demo_rtp 1, true)]
    {| first_read_rtp_sn := 2; queue := ∅; queue_count := 0 |}) as (F & es & H1 & _ & _ & H2 & _ & H3 & _).
  - done.
  - by vm_compute.
  - repeat constructor; done.
  - eapply (ring_take _ true [] []); [constructor|by vm_compute|].
    eapply (ring_take _ true [] []); [constructor|by vm_compute|].
    eapply (ring_take _ true [] []); [constructor|by vm_compute|]. constructor.
  - by exists F, es.
Defined.

(** The bound on the distance is needed: after a jump of 1024 or more the ring
    hands on packets out of order. *)
Lemma jump_goes_back :
  let r0 := foldl (fun r p => enqueue p r) (with_first 0 ring_empty) [demo_rtp 5; demo_rtp 1027] in
  let '(out1, _, r1) := take_next_packet PH264 true [] r0 in
  let '(out2, _, r2) := take_next_packet PH264 true [] r1 in
  ((fun o => pk_seq o.1) <$> out1) = Some 1027 /\ ((fun o => pk_seq o.1) <$> out2) = Some 5 /\
  first_read_rtp_sn r2 = 6.
Proof. by vm_compute. Qed.
