(* ===== verification/RtpDepacket.v ===== *)
(** * Depacketising RTP payloads ([stream/src/media/rtp.rs])

    H.264, H.265 and AAC payloads to elementary streams, the assembly of access
    units with its handling of losses, and the reads of the demuxer. *)
From S2P Require Import Prelude SharedTypes StreamOutputs MediaRegister RtpIngest RtpRing.
Local Open Scope Z_scope.

Definition START_CODE : bytes := [0; 0; 0; 1].
Definition byte_at (i : nat) (b : bytes) : Z := nth i b 0.

Record AacAdtsConfig := { sample_rate : Z; channels : Z }.

(** The reader without its ring, which [RtpRing] models. *)
Record RtpPacketBuffer := {
  remaining : bytes;
  ready_aus : list bytes;
  au_buffer : bytes;
  au_timestamp : option Z;
  au_damaged : bool;
  wait_keyframe : bool;
  payload_kind : PayloadKind;
  h264_fu : option bytes;
  h265_fu : option bytes;
  aac_adts : AacAdtsConfig
}.

Definition is_raw_video_kind (k : PayloadKind) : bool :=
  match k with PH264 | PH265 => true | _ => false end.
Definition RtpPacketBuffer_init (k : PayloadKind) (cfg : AacAdtsConfig) : RtpPacketBuffer := {|
  remaining := []; ready_aus := []; au_buffer := []; au_timestamp := None; au_damaged := false;
  wait_keyframe := is_raw_video_kind k; payload_kind := k; h264_fu := None; h265_fu := None;
  aac_adts := cfg |}.

Definition with_au (buf : bytes) (ts : option Z) (damaged wait : bool) (b : RtpPacketBuffer) : RtpPacketBuffer := {|
  remaining := remaining b; ready_aus := ready_aus b; au_buffer := buf; au_timestamp := ts;
  au_damaged := damaged; wait_keyframe := wait; payload_kind := payload_kind b;
  h264_fu := h264_fu b; h265_fu := h265_fu b; aac_adts := aac_adts b |}.
Definition with_fu (fu264 fu265 : option bytes) (b : RtpPacketBuffer) : RtpPacketBuffer := {|
  remaining := remaining b; ready_aus := ready_aus b; au_buffer := au_buffer b; au_timestamp := au_timestamp b;
  au_damaged := au_damaged b; wait_keyframe := wait_keyframe b; payload_kind := payload_kind b;
  h264_fu := fu264; h265_fu := fu265; aac_adts := aac_adts b |}.
Definition with_output (rem : bytes) (aus : list bytes) (b : RtpPacketBuffer) : RtpPacketBuffer := {|
  remaining := rem; ready_aus := aus; au_buffer := au_buffer b; au_timestamp := au_timestamp b;
  au_damaged := au_damaged b; wait_keyframe := wait_keyframe b; payload_kind := payload_kind b;
  h264_fu := h264_fu b; h265_fu := h265_fu b; aac_adts := aac_adts b |}.
Definition push_au (data : bytes) (b : RtpPacketBuffer) : RtpPacketBuffer :=
  with_output (remaining b) (ready_aus b ++ [data]) b.

(** ** H.264 *)

Definition with_start_code (payload : bytes) : bytes := START_CODE ++ payload.

(** The loop over length-prefixed units: at least one byte is consumed per
    round, so the length of the payload is fuel enough. *)
Fixpoint aggregated (fuel : nat) (rest out : bytes) : option bytes :=
  match fuel with
  | O => Some out
  | S fuel =>
      match rest with
      | hi :: lo :: rest =>
          let nalu_len := Z.to_nat (u16_be hi lo) in
          if decide (nalu_len = 0 \/ length rest < nalu_len)%nat then None
          else aggregated fuel (drop nalu_len rest) (out ++ START_CODE ++ take nalu_len rest)
      | _ => Some out
      end
  end.
Definition nonempty (out : bytes) : option bytes := match out with [] => None | _ => Some out end.

Definition depacketize_h264_stap_a (payload : bytes) : option bytes :=
  if decide (length payload <= 1)%nat then None
  else aggregated (length payload) (drop 1 payload) [] ≫= nonempty.

(** The payload and the fragment under assembly; the data and the fragment. *)
Definition depacketize_h264_fu_a (payload : bytes) (fu : option bytes) : option bytes * option bytes :=
  if decide (length payload < 3)%nat then (None, None) else
  let fu_indicator := byte_at 0 payload in
  let fu_header := byte_at 1 payload in
  let start := negb (Z.land fu_header 128 =? 0) in
  let end_ := negb (Z.land fu_header 64 =? 0) in
  if start && end_ then (None, None)
  else if start then
    let reconstructed_nal := Z.lor (Z.land fu_indicator 224) (Z.land fu_header 31) in
    (None, Some (START_CODE ++ [reconstructed_nal] ++ drop 2 payload))
  else
    match fu with
    | None => (None, None)
    | Some out =>
        let out1 := out ++ drop 2 payload in
        if end_ then (Some out1, None) else (None, Some out1)
    end.

Definition depacketize_h264 (payload : bytes) (fu : option bytes) : option bytes * option bytes :=
  match payload with
  | [] => (None, fu)
  | nal :: _ =>
      let nal_type := Z.land nal 31 in
      if nal_type <=? 23 then (Some (with_start_code payload), fu)
      else if nal_type =? 24 then (depacketize_h264_stap_a payload, fu)
      else if nal_type =? 28 then depacketize_h264_fu_a payload fu
      else (None, fu)
  end.

(** ** H.265 *)

Definition depacketize_h265_ap (payload : bytes) : option bytes :=
  if decide (length payload <= 2)%nat then None
  else aggregated (length payload) (drop 2 payload) [] ≫= nonempty.

(** A shift of a byte keeps eight bits. *)
Definition shl8 (x n : Z) : Z := Z.land (Z.shiftl x n) 255.

Definition depacketize_h265_fu (payload : bytes) (fu : option bytes) : option bytes * option bytes :=
  if decide (length payload < 4)%nat then (None, None) else
  let fu_header := byte_at 2 payload in
  let start := negb (Z.land fu_header 128 =? 0) in
  let end_ := negb (Z.land fu_header 64 =? 0) in
  let fu_type := Z.land fu_header 63 in
  if start && end_ then (None, None)
  else if start then
    let new_header := [Z.lor (Z.land (byte_at 0 payload) 129) (shl8 fu_type 1); byte_at 1 payload] in
    (None, Some (START_CODE ++ new_header ++ drop 3 payload))
  else
    match fu with
    | None => (None, None)
    | Some out =>
        let out1 := out ++ drop 3 payload in
        if end_ then (Some out1, None) else (None, Some out1)
    end.

Definition depacketize_h265 (payload : bytes) (fu : option bytes) : option bytes * option bytes :=
  if decide (length payload < 3)%nat then (None, fu) else
  let b0 := byte_at 0 payload in
  let b1 := byte_at 1 payload in
  let nal_type := Z.land (Z.shiftr b0 1) 63 in
  let layer_id := Z.lor (Z.land (shl8 b0 5) 32) (Z.land (Z.shiftr b1 3) 31) in
  let tid := Z.land b1 7 in
  if negb (layer_id =? 0) then (None, fu)
  else if tid =? 0 then (None, fu)
  else if 50 <? nal_type then (None, fu)
  else if nal_type <=? 47 then (Some (with_start_code payload), fu)
  else if nal_type =? 48 then (depacketize_h265_ap payload, fu)
  else if nal_type =? 49 then depacketize_h265_fu payload fu
  else (None, fu).

(** ** AAC *)

Definition is_adts (data : bytes) : bool :=
  (2 <=? Z.of_nat (length data)) && (byte_at 0 data =? 255) && (Z.land (byte_at 1 data) 240 =? 240).

Definition AAC_SAMPLE_RATES : list Z :=
  [96000; 88200; 64000; 48000; 44100; 32000; 24000; 22050; 16000; 12000; 11025; 8000; 7350].
Definition aac_sample_rate_index (rate : Z) : option Z :=
  (fun found => Z.of_nat found.1) <$> list_find (fun r => r = rate) AAC_SAMPLE_RATES.

Definition adts_header (sample_rate_index channels frame_len : Z) : bytes :=
  [255; 241;
   Z.land (Z.lor (Z.lor (Z.shiftl (Z.land 1 3) 6) (Z.shiftl (Z.land sample_rate_index 15) 2)) (Z.shiftr channels 2)) 255;
   Z.land (Z.lor (Z.shiftl (Z.land channels 3) 6) (Z.land (Z.shiftr frame_len 11) 3)) 255;
   Z.land (Z.shiftr frame_len 3) 255;
   Z.land (Z.lor (Z.shiftl (Z.land frame_len 7) 5) 31) 255;
   252].

Definition append_adts_frame (out frame : bytes) (cfg : AacAdtsConfig) : bytes :=
  match aac_sample_rate_index (sample_rate cfg) with
  | None => out
  | Some sample_rate_index =>
      out ++ adts_header sample_rate_index (Z.min (channels cfg) 7) (Z.of_nat (length frame) + 7) ++ frame
  end.

(** The loop over the access units: their headers, the data left. *)
Fixpoint aac_units (cfg : AacAdtsConfig) (headers : list Z) (data out : bytes) : option bytes :=
  match headers with
  | [] => Some out
  | au_header :: headers =>
      let au_size := Z.to_nat (Z.shiftr au_header 3) in
      if decide (length data < au_size)%nat then None
      else aac_units cfg headers (drop au_size data) (append_adts_frame out (take au_size data) cfg)
  end.
(** The 16-bit headers, as many as [n]. *)
Fixpoint au_headers (n : nat) (b : bytes) : list Z :=
  match n, b with S n, hi :: lo :: b => u16_be hi lo :: au_headers n b | _, _ => [] end.

Definition depacketize_aac (cfg : AacAdtsConfig) (payload : bytes) : option bytes :=
  if is_adts payload then Some payload
  else if decide (length payload < 4)%nat then None
  else
    let au_header_bits := u16_be (byte_at 0 payload) (byte_at 1 payload) in
    let au_header_bytes := (au_header_bits + 7) / 8 in
    if (au_header_bits =? 0) || negb (au_header_bits mod 16 =? 0)
       || (Z.of_nat (length payload) <? 2 + au_header_bytes)
    then None
    else
      let au_count := Z.to_nat (au_header_bits / 16) in
      aac_units cfg (au_headers au_count (drop 2 payload)) (drop (Z.to_nat (2 + au_header_bytes)) payload) []
        ≫= nonempty.

(** ** Key frames *)

(** The first start code of [data], whose first byte has position [pos]. *)
Fixpoint find_start_code_from (data : bytes) (pos : nat) : option (nat * nat) :=
  if bool_decide (take 4 data = START_CODE) then Some (pos, 4%nat)
  else if bool_decide (take 3 data = [0; 0; 1]) then Some (pos, 3%nat)
  else match data with [] => None | _ :: data => find_start_code_from data (S pos) end.
Definition find_start_code (data : bytes) (from : nat) : option (nat * nat) :=
  find_start_code_from (drop from data) from.

Section HasNal.
Context (predicate : bytes -> bool).
(** Every round passes a start code, so the length is fuel enough. *)
Fixpoint has_nal_from (fuel : nat) (data : bytes) (nal_start : nat) : bool :=
  match fuel with
  | O => false
  | S fuel =>
      if decide (nal_start < length data)%nat then
        match find_start_code data nal_start with
        | Some (next_start, next_start_len) =>
            if bool_decide (nal_start < next_start)%nat && predicate (take (next_start - nal_start) (drop nal_start data))
            then true
            else has_nal_from fuel data (next_start + next_start_len)
        | None => predicate (drop nal_start data)
        end
      else false
  end.
Definition access_unit_has_nal (data : bytes) : bool :=
  match find_start_code data 0 with
  | None => negb (bool_decide (data = [])) && predicate data
  | Some (first_start, first_start_len) => has_nal_from (length data) data (first_start + first_start_len)
  end.
End HasNal.

Definition h264_key_nal (nal : bytes) : bool := Z.land (byte_at 0 nal) 31 =? 5.
Definition h265_key_nal (nal : bytes) : bool :=
  if decide (length nal < 2)%nat then false
  else let t := Z.land (Z.shiftr (byte_at 0 nal) 1) 63 in (t =? 19) || (t =? 20) || (t =? 21).
Definition h264_access_unit_has_keyframe (data : bytes) : bool := access_unit_has_nal h264_key_nal data.
Definition h265_access_unit_has_keyframe (data : bytes) : bool := access_unit_has_nal h265_key_nal data.

(** ** Access units *)

Definition is_raw_video (b : RtpPacketBuffer) : bool := is_raw_video_kind (payload_kind b).

Definition should_output_access_unit (data : bytes) (b : RtpPacketBuffer) : bool * RtpPacketBuffer :=
  if negb (is_raw_video b) then (true, b) else
  let keyframe := match payload_kind b with
                  | PH264 => h264_access_unit_has_keyframe data
                  | PH265 => h265_access_unit_has_keyframe data
                  | _ => false
                  end in
  if wait_keyframe b then
    if keyframe then (true, with_au (au_buffer b) (au_timestamp b) (au_damaged b) false b) else (false, b)
  else (true, b).

Definition finish_access_unit (b : RtpPacketBuffer) : RtpPacketBuffer :=
  match au_buffer b with
  | [] => with_au [] None false (wait_keyframe b) b
  | _ =>
      if au_damaged b then with_au [] None false (is_raw_video b || wait_keyframe b) b
      else
        let data := au_buffer b in
        let '(ok, b1) := should_output_access_unit data (with_au [] (au_timestamp b) false (wait_keyframe b) b) in
        let b2 := if ok then push_au data b1 else b1 in
        with_au [] None false (wait_keyframe b2) b2
  end.

Definition append_access_unit (timestamp : Z) (marker : bool) (data : bytes) (b : RtpPacketBuffer)
    : RtpPacketBuffer :=
  let b1 := match au_timestamp b with
            | Some current => if current =? timestamp then b else finish_access_unit b
            | None => b
            end in
  let ts := match au_timestamp b1 with None => Some timestamp | Some t => Some t end in
  let b2 := with_au (au_buffer b1 ++ data) ts (au_damaged b1) (wait_keyframe b1) b1 in
  if marker then finish_access_unit b2 else b2.

Definition mark_packet_loss (next_timestamp : Z) (b : RtpPacketBuffer) : RtpPacketBuffer :=
  let had_fragment := bool_decide (is_Some (h264_fu b)) || bool_decide (is_Some (h265_fu b)) in
  let b1 := with_fu None None b in
  match au_buffer b1 with
  | [] => with_au [] None false (had_fragment && is_raw_video b1 || wait_keyframe b1) b1
  | _ =>
      if match au_timestamp b1 with Some current => negb (current =? next_timestamp) | None => false end
      then with_au [] None false (wait_keyframe b1) b1
      else with_au [] (Some next_timestamp) true (wait_keyframe b1) b1
  end.

Definition process_packet (pkt : RtpPacket) (lost_before : bool) (b : RtpPacketBuffer) : RtpPacketBuffer :=
  let timestamp := pk_timestamp pkt in
  let marker := pk_marker pkt in
  match payload_kind b with
  | Ps | Passthrough =>
      let b1 := if lost_before then mark_packet_loss timestamp b else b in
      append_access_unit timestamp marker (pk_payload pkt) b1
  | PH264 =>
      let b1 := if lost_before then mark_packet_loss timestamp b else b in
      let '(data, fu) := depacketize_h264 (pk_payload pkt) (h264_fu b1) in
      let b2 := with_fu fu (h265_fu b1) b1 in
      match data with
      | Some data => append_access_unit timestamp marker data b2
      | None => if marker then finish_access_unit b2 else b2
      end
  | PH265 =>
      let b1 := if lost_before then mark_packet_loss timestamp b else b in
      let '(data, fu) := depacketize_h265 (pk_payload pkt) (h265_fu b1) in
      let b2 := with_fu (h264_fu b1) fu b1 in
      match data with
      | Some data => append_access_unit timestamp marker data b2
      | None => if marker then finish_access_unit b2 else b2
      end
  | PAac =>
      match depacketize_aac (aac_adts b) (pk_payload pkt) with
      | Some data => push_au data b
      | None => b
      end
  | PG711 => push_au (pk_payload pkt) b
  end.

(** ** Reads of the demuxer *)

(** The bytes copied, if any were left. *)
Definition consume_remaining (max_consume_len : nat) (b : RtpPacketBuffer) : option bytes * RtpPacketBuffer :=
  match remaining b with
  | [] => (None, b)
  | data => (Some (take max_consume_len data), with_output (drop max_consume_len data) (ready_aus b) b)
  end.
Definition consume_ready_au (max_consume_len : nat) (b : RtpPacketBuffer) : option bytes * RtpPacketBuffer :=
  match ready_aus b with
  | [] => (None, b)
  | data :: aus => consume_remaining max_consume_len (with_output data aus b)
  end.

(** ** The whole reader *)

Record Reader := { rd_ring : Ring; rd_buf : RtpPacketBuffer }.

(** [RtpPacketBuffer::init]: with the packets left in the channel. *)
Definition reader_init (k : PayloadKind) (cfg : AacAdtsConfig) (input : list RtpPacket)
    : option (list RtpPacket * Reader) :=
  match calculate_index (reorder_window k) input ring_empty with
  | None => None
  | Some (input1, r) => Some (input1, {| rd_ring := r; rd_buf := RtpPacketBuffer_init k cfg |})
  end.

(** [reduce_packet]: receive until the window is full; timeouts do not end a
    blocking receive, the end of the list is a closed channel.  [false] when it
    closed. *)
Fixpoint reduce_packet (window : Z) (env : list reading) (r : Ring) : bool * list reading * Ring :=
  if window <=? queue_count r then (true, env, r)
  else match env with
       | [] => (false, [], r)
       | (_, Some pkt) :: env => reduce_packet window env (enqueue pkt r)
       | (_, None) :: env => reduce_packet window env r
       end.

(** The loop of [consume_packet].  Each round takes a packet out of the ring or
    ends; [fuel] counts the packets in the ring and still to come. *)
Fixpoint consume_loop (fuel max_consume_len : nat) (env : list reading) (rd : Reader)
    : option (option bytes) * list reading * Reader :=
  match fuel with
  | O => (None, env, rd)
  | S fuel =>
      let b := rd_buf rd in
      let '(open, env1, r1) := reduce_packet (reorder_window (payload_kind b)) env (rd_ring rd) in
      let input_closed := negb open in
      match take_next_packet (payload_kind b) input_closed env1 r1 with
      | (None, env2, r2) =>
          if input_closed && (queue_count r2 =? 0)
          then let '(out, b1) := consume_ready_au max_consume_len (finish_access_unit b) in
               (Some out, env2, {| rd_ring := r2; rd_buf := b1 |})
          else (Some None, env2, {| rd_ring := r2; rd_buf := b |})
      | (Some (pkt, lost_before), env2, r2) =>
          let '(out, b1) := consume_ready_au max_consume_len (process_packet pkt lost_before b) in
          match out with
          | Some data => (Some (Some data), env2, {| rd_ring := r2; rd_buf := b1 |})
          | None =>
              if input_closed && (queue_count r2 =? 0)
              then let '(out, b2) := consume_ready_au max_consume_len (finish_access_unit b1) in
                   (Some out, env2, {| rd_ring := r2; rd_buf := b2 |})
              else consume_loop fuel max_consume_len env2 {| rd_ring := r2; rd_buf := b1 |}
          end
      end
  end.

Definition consume_packet (max_consume_len : nat) (env : list reading) (rd : Reader)
    : option (option bytes) * list reading * Reader :=
  if decide (max_consume_len = 0)%nat then (Some (Some []), env, rd) else
  match consume_remaining max_consume_len (rd_buf rd) with
  | (Some data, b1) => (Some (Some data), env, {| rd_ring := rd_ring rd; rd_buf := b1 |})
  | (None, _) =>
      match consume_ready_au max_consume_len (rd_buf rd) with
      | (Some data, b1) => (Some (Some data), env, {| rd_ring := rd_ring rd; rd_buf := b1 |})
      | (None, b1) =>
          consume_loop (S (size (queue (rd_ring rd)) + length env)) max_consume_len env
            {| rd_ring := rd_ring rd; rd_buf := b1 |}
      end
  end.
