(* ===== verification/DepacketProps.v ===== *)
(** * What the depacketisers guarantee

    Packetising an access unit as RFC 6184, RFC 7798 and RFC 3640 describe and
    feeding the packets to the reader gives the access unit back; damaged video
    is withheld until a key frame; reads deliver the stream unchanged. *)
From S2P Require Import Prelude SharedTypes StreamOutputs MediaRegister RtpIngest RtpRing RtpDepacket.
Local Open Scope Z_scope.

(** ** Key-frame detection *)

(** No start code inside, as the encoder's emulation prevention ensures. *)
Definition no_start (nal : bytes) : Prop := forall i, take 3 (drop i nal) <> [0; 0; 1].
Definition nal_ok (nal : bytes) : Prop := nal <> [] /\ no_start nal.
Definition elementary (nals : list bytes) : bytes := concat (with_start_code <$> nals).

Lemma no_start_tail (x : Z) (nal : bytes) : no_start (x :: nal) -> no_start nal.
Proof. intros H i. apply (H (S i)). Qed.

Lemma find_none (nal : bytes) : forall pos, no_start nal -> find_start_code_from nal pos = None.
Proof.
  induction nal as [|x nal IH]; intros pos Hn; [done|]. cbn [find_start_code_from].
  rewrite (bool_decide_eq_false_2 (take 3 _ = _)) by (apply (Hn 0%nat)).
  rewrite bool_decide_eq_false_2; [by apply IH, (no_start_tail x)|].
  intros H. apply (Hn 1%nat). unfold START_CODE in H. simpl in *. injection H as -> H.
  destruct nal as [|? [|? [|? ?]]]; simpl in *; rewrite ?take_0 in *; congruence.
Qed.

Lemma find_next (nal rest : bytes) : forall pos, no_start nal ->
  find_start_code_from (nal ++ START_CODE ++ rest) pos = Some ((pos + length nal)%nat, 4%nat).
Proof.
  induction nal as [|x nal IH]; intros pos Hn.
  - cbn. by rewrite Nat.add_0_r.
  - cbn [app find_start_code_from].
    rewrite bool_decide_eq_false_2; [rewrite bool_decide_eq_false_2|].
    + rewrite IH by by apply (no_start_tail x). cbn [length]. f_equal. f_equal. lia.
    + intros H. pose proof (Hn 0%nat) as H0. unfold START_CODE in H. destruct nal as [|y [|z nal]]; simpl in *; rewrite ?take_0 in *; congruence.
    + intros H. pose proof (Hn 1%nat) as H1. unfold START_CODE in H.
      destruct nal as [|y [|z [|w nal]]]; simpl in *; rewrite ?take_0 in *; congruence.
Qed.

Lemma has_nal_walk (pred : bytes -> bool) (rest : list bytes) : forall nal pre fuel,
  nal_ok nal -> Forall nal_ok rest -> (length rest < fuel)%nat ->
  has_nal_from pred fuel (pre ++ nal ++ elementary rest) (length pre) = existsb pred (nal :: rest).
Proof.
  induction rest as [|n rest IH]; intros nal pre fuel [Hne Hn] Hrest Hf;
    (destruct fuel as [|fuel]; [simpl in Hf; lia|]); cbn [has_nal_from].
  - unfold elementary. simpl. rewrite app_nil_r, length_app. destruct nal as [|x nal]; [done|].
    rewrite decide_True by (cbn [length]; lia). unfold find_start_code. rewrite drop_app_length.
    rewrite find_none by done. by rewrite orb_false_r.
  - apply Forall_cons in Hrest as [Hn' Hrest].
    change (elementary (n :: rest)) with ((START_CODE ++ n) ++ elementary rest).
    rewrite <- (app_assoc START_CODE).
    rewrite decide_True by (rewrite !length_app; destruct nal; [done|cbn [length]; lia]).
    unfold find_start_code. rewrite drop_app_length. rewrite find_next by done.
    rewrite bool_decide_eq_true_2 by (destruct nal; [done|cbn [length]; lia]). cbn [andb existsb].
    replace (length pre + length nal - length pre)%nat with (length nal) by lia.
    rewrite take_app_length. destruct (pred nal); [done|]. simpl orb.
    rewrite (app_assoc pre), (app_assoc (pre ++ nal)).
    replace (length pre + length nal + 4)%nat with (length ((pre ++ nal) ++ START_CODE))
      by (rewrite !length_app; done).
    apply IH; [done|done|]. cbn [length] in Hf. lia.
Qed.

Lemma elementary_length (nals : list bytes) : (length nals <= length (elementary nals))%nat.
Proof.
  induction nals as [|n nals IH]; [done|].
  change (elementary (n :: nals)) with ((START_CODE ++ n) ++ elementary nals). rewrite !length_app. simpl. lia.
Qed.

Lemma access_unit_nals (pred : bytes -> bool) (nals : list bytes) :
  nals <> [] -> Forall nal_ok nals -> access_unit_has_nal pred (elementary nals) = existsb pred nals.
Proof.
  intros Hne Hall. destruct nals as [|n nals]; [done|]. apply Forall_cons in Hall as [Hn Hall].
  unfold access_unit_has_nal, find_start_code. rewrite drop_0.
  change (elementary (n :: nals)) with ((START_CODE ++ n) ++ elementary nals). rewrite <- (app_assoc START_CODE).
  change (START_CODE ++ n ++ elementary nals) with ([] ++ START_CODE ++ (n ++ elementary nals)).
  rewrite find_next by (intros [|i]; done). cbn [length Nat.add app].
  change 4%nat with (length START_CODE). apply has_nal_walk; [done|done|].
  pose proof (elementary_length nals). rewrite !length_app. simpl. lia.
Qed.

(** ** Aggregation *)

Definition unit_ok (n : bytes) : Prop := (0 < length n)%nat /\ Z.of_nat (length n) < 2 ^ 16.

Lemma aggregated_units (nals : list bytes) : forall fuel out,
  Forall unit_ok nals -> (length nals < fuel)%nat ->
  aggregated fuel (concat (frame <$> nals)) out = Some (out ++ elementary nals).
Proof.
  induction nals as [|n nals IH]; intros [|fuel] out Hall Hf; try (simpl in Hf; lia).
  - simpl. by rewrite app_nil_r.
  - apply Forall_cons in Hall as [[Hl Hu] Hall].
    change (concat (frame <$> n :: nals)) with (frame n ++ concat (frame <$> nals)).
    unfold frame at 1. cbn [app aggregated]. rewrite u16_be_split, Nat2Z.id by lia.
    rewrite decide_False by (rewrite length_app; lia).
    rewrite drop_app_length, take_app_length, IH by (done || simpl in Hf; lia).
    f_equal. change (elementary (n :: nals)) with ((START_CODE ++ n) ++ elementary nals).
    by rewrite <- !app_assoc.
Qed.

Lemma units_length (nals : list bytes) : Forall unit_ok nals -> (length nals <= length (concat (frame <$> nals)))%nat.
Proof.
  induction 1 as [|n nals Hn _ IH]; [done|].
  change (concat (frame <$> n :: nals)) with (frame n ++ concat (frame <$> nals)).
  rewrite length_app. unfold frame at 1. cbn [length]. lia.
Qed.

Lemma elementary_nonempty (nals : list bytes) : nals <> [] -> nonempty (elementary nals) = Some (elementary nals).
Proof. by destruct nals. Qed.

(** ** Packetisers *)

(** Feeding payloads one after another: the data they give, and the fragment
    left. *)
Fixpoint step_all (step : bytes -> option bytes -> option bytes * option bytes) (ps : list bytes)
    (fu : option bytes) : bytes * option bytes :=
  match ps with
  | [] => ([], fu)
  | p :: ps =>
      let '(data, fu1) := step p fu in
      let '(rest, fu2) := step_all step ps fu1 in (default [] data ++ rest, fu2)
  end.

(** What a video depacketiser promises: which payloads carry a unit alone,
    several units, or together one unit, and what it makes of them. *)
Class Depacketizer := {
  dp_step : bytes -> option bytes -> option bytes * option bytes;
  dp_single : bytes -> Prop;
  dp_aggregate : bytes -> list bytes -> Prop;
  dp_fragments : list bytes -> bytes -> Prop;
  dp_single_spec nal fu : dp_single nal -> dp_step nal fu = (Some (with_start_code nal), fu);
  dp_aggregate_spec p nals fu : dp_aggregate p nals -> dp_step p fu = (Some (elementary nals), fu);
  dp_fragments_spec frs nal fu : dp_fragments frs nal -> step_all dp_step frs fu = (with_start_code nal, None)
}.

(** The payloads of a list of units, packetised in any of the ways. *)
Inductive payloads_of `{Depacketizer} : list bytes -> list bytes -> Prop :=
| po_nil : payloads_of [] []
| po_single nal ps nals : dp_single nal -> payloads_of ps nals -> payloads_of (nal :: ps) (nal :: nals)
| po_aggregate p units ps nals :
    dp_aggregate p units -> payloads_of ps nals -> payloads_of (p :: ps) (units ++ nals)
| po_fragments frs nal ps nals :
    dp_fragments frs nal -> payloads_of ps nals -> payloads_of (frs ++ ps) (nal :: nals).

Lemma step_all_app step (ps qs : list bytes) : forall fu,
  step_all step (ps ++ qs) fu =
  let '(d1, fu1) := step_all step ps fu in let '(d2, fu2) := step_all step qs fu1 in (d1 ++ d2, fu2).
Proof.
  induction ps as [|p ps IH]; intros fu; simpl; [by destruct (step_all step qs fu)|].
  destruct (step p fu) as [data fu1]. rewrite IH. destruct (step_all step ps fu1) as [d1 fu2].
  destruct (step_all step qs fu2). by rewrite app_assoc.
Qed.

Lemma elementary_app (a b : list bytes) : elementary (a ++ b) = elementary a ++ elementary b.
Proof. unfold elementary. by rewrite fmap_app, concat_app. Qed.

Lemma payloads_data `{Depacketizer} (ps nals : list bytes) :
  payloads_of ps nals -> step_all dp_step ps None = (elementary nals, None).
Proof.
  induction 1 as [|nal ps nals Hs _ IH|p units ps nals Ha _ IH|frs nal ps nals Hf _ IH]; [done|..].
  - simpl. rewrite dp_single_spec, IH by done. done.
  - simpl. rewrite (dp_aggregate_spec p units), IH by done. by rewrite elementary_app.
  - rewrite step_all_app, (dp_fragments_spec frs nal), IH by done.
    by change (elementary (nal :: nals)) with (with_start_code nal ++ elementary nals).
Qed.

(** A check of all bytes. *)
Lemma byte_forall (P : Z -> bool) : forallb P (seqZ 0 256) = true -> forall h, is_byte h -> P h = true.
Proof.
  intros Hall h Hh. rewrite forallb_forall in Hall. apply Hall, list_elem_of_In, elem_of_seqZ.
  unfold is_byte, in_width in Hh. lia.
Qed.

(** RFC 6184: the indicator and header bytes of a FU-A fragment. *)
Definition fu_a_indicator (h : Z) : Z := Z.lor (Z.land h 224) 28.
Definition fu_a_header (flag h : Z) : Z := Z.lor flag (Z.land h 31).

Inductive h264_fragments : list bytes -> bytes -> Prop :=
| fu_a h first mids last :
    is_byte h -> first <> [] -> Forall (fun c => c <> []) mids -> last <> [] ->
    h264_fragments
      ((fu_a_indicator h :: fu_a_header 128 h :: first)
         :: ((fun c => fu_a_indicator h :: fu_a_header 0 h :: c) <$> mids)
         ++ [fu_a_indicator h :: fu_a_header 64 h :: last])
      (h :: first ++ concat mids ++ last).

Lemma fu_a_bits (h : Z) : is_byte h ->
  Z.land (fu_a_indicator h) 31 = 28 /\
  Z.land (fu_a_header 128 h) 128 <> 0 /\ Z.land (fu_a_header 128 h) 64 = 0 /\
  Z.land (fu_a_header 0 h) 128 = 0 /\ Z.land (fu_a_header 0 h) 64 = 0 /\
  Z.land (fu_a_header 64 h) 128 = 0 /\ Z.land (fu_a_header 64 h) 64 <> 0 /\
  Z.lor (Z.land (fu_a_indicator h) 224) (Z.land (fu_a_header 128 h) 31) = h.
Proof.
  intros Hh. pose proof (byte_forall (fun h =>
    bool_decide (Z.land (fu_a_indicator h) 31 = 28 /\
      Z.land (fu_a_header 128 h) 128 <> 0 /\ Z.land (fu_a_header 128 h) 64 = 0 /\
      Z.land (fu_a_header 0 h) 128 = 0 /\ Z.land (fu_a_header 0 h) 64 = 0 /\
      Z.land (fu_a_header 64 h) 128 = 0 /\ Z.land (fu_a_header 64 h) 64 <> 0 /\
      Z.lor (Z.land (fu_a_indicator h) 224) (Z.land (fu_a_header 128 h) 31) = h)) ltac:(by vm_compute) h Hh) as Hb.
  by apply bool_decide_eq_true in Hb.
Qed.

(** One fragment after another. *)
Lemma fragments_steps step (hd : bytes) (mids : list bytes) (last : bytes) (lead : nat) : forall acc,
  (forall c acc, c ∈ mids -> step (hd ++ c) (Some acc) = (None, Some (acc ++ c))) ->
  step last (Some (acc ++ concat mids)) = (Some (acc ++ concat mids ++ drop lead last), None) ->
  step_all step (((fun c => hd ++ c) <$> mids) ++ [last]) (Some acc)
  = (acc ++ concat mids ++ drop lead last, None).
Proof.
  induction mids as [|c mids IH]; intros acc Hmid Hlast.
  - simpl in *. rewrite app_nil_r in Hlast. rewrite Hlast. simpl. by rewrite app_nil_r.
  - cbn [fmap list_fmap app step_all]. rewrite Hmid by apply list_elem_of_here. cbn [default].
    rewrite IH; [by cbn [concat app]; rewrite <- !app_assoc| |].
    + intros c' acc' Hc'. apply Hmid. by apply list_elem_of_further.
    + cbn [concat] in Hlast. by rewrite <- !app_assoc in *.
Qed.

Lemma h264_fragments_spec (frs : list bytes) (nal : bytes) (fu : option bytes) :
  h264_fragments frs nal -> step_all depacketize_h264 frs fu = (with_start_code nal, None).
Proof.
  intros [h first mids last Hh Hf Hm Hl]. destruct (fu_a_bits h Hh) as (B1 & B2 & B3 & B4 & B5 & B6 & B7 & B8).
  assert (forall flag c fu, c <> [] -> depacketize_h264 (fu_a_indicator h :: fu_a_header flag h :: c) fu
            = depacketize_h264_fu_a (fu_a_indicator h :: fu_a_header flag h :: c) fu /\
            ~ (length (fu_a_indicator h :: fu_a_header flag h :: c) < 3)%nat) as Hfu.
  { intros flag c fu' Hc. split; [unfold depacketize_h264; by rewrite B1|]. destruct c; [done|cbn [length]; lia]. }
  cbn [step_all]. destruct (Hfu 128 first fu Hf) as [-> Hlen]. unfold depacketize_h264_fu_a at 1.
  rewrite decide_False by done. unfold byte_at. cbn [nth drop].
  rewrite (proj2 (Z.eqb_neq _ _) B2), (proj2 (Z.eqb_eq _ _) B3). cbn [negb andb].
  rewrite B8, drop_0. change (fun c => fu_a_indicator h :: fu_a_header 0 h :: c)
    with (fun c => [fu_a_indicator h; fu_a_header 0 h] ++ c).
  rewrite (fragments_steps depacketize_h264 _ _ _ 2).
  - cbn [default app drop]. rewrite drop_0. unfold with_start_code. by rewrite <- !app_assoc.
  - intros c acc Hc. rewrite Forall_forall in Hm. cbn [app]. destruct (Hfu 0 c (Some acc) (Hm _ Hc)) as [-> Hlen'].
    unfold depacketize_h264_fu_a. rewrite decide_False by done. unfold byte_at. cbn [nth drop].
    rewrite (proj2 (Z.eqb_eq _ _) B4), (proj2 (Z.eqb_eq _ _) B5), drop_0. done.
  - match goal with |- _ _ (Some ?acc) = _ => destruct (Hfu 64 last (Some acc) Hl) as [-> Hlen'] end.
    unfold depacketize_h264_fu_a. rewrite decide_False by done. unfold byte_at. cbn [nth drop].
    rewrite (proj2 (Z.eqb_eq _ _) B6), (proj2 (Z.eqb_neq _ _) B7), drop_0. cbn [negb andb].
    by rewrite <- !app_assoc.
Qed.

Lemma aggregate_step (k : nat) (payload : bytes) (nals : list bytes) :
  nals <> [] -> Forall unit_ok nals -> drop k payload = concat (frame <$> nals) -> (k <= length payload)%nat ->
  aggregated (length payload) (drop k payload) [] ≫= nonempty = Some (elementary nals) \/ k = 0%nat.
Proof.
  intros Hne Hu Hd Hk. destruct k as [|k]; [by right|left].
  rewrite Hd, aggregated_units; [by apply elementary_nonempty|done|].
  pose proof (units_length nals Hu) as Hl. rewrite <- Hd, length_drop in Hl. lia.
Qed.

Definition h264_single (nal : bytes) : Prop := exists h body, nal = h :: body /\ Z.land h 31 <= 23.
Definition h264_aggregate (p : bytes) (nals : list bytes) : Prop :=
  exists h, p = h :: concat (frame <$> nals) /\ Z.land h 31 = 24 /\ nals <> [] /\ Forall unit_ok nals.

Lemma h264_single_spec (nal : bytes) (fu : option bytes) :
  h264_single nal -> depacketize_h264 nal fu = (Some (with_start_code nal), fu).
Proof. intros (h & body & -> & Ht). unfold depacketize_h264. by rewrite (proj2 (Z.leb_le _ _) Ht). Qed.

Lemma units_long (nals : list bytes) :
  nals <> [] -> Forall unit_ok nals -> (2 < length (concat (frame <$> nals)))%nat.
Proof.
  intros Hne Hu. destruct Hu as [|n nals [Hn _] _]; [done|].
  change (concat (frame <$> n :: nals)) with (frame n ++ concat (frame <$> nals)).
  unfold frame at 1. cbn [length app]. rewrite length_app. lia.
Qed.

Lemma h264_aggregate_spec (p : bytes) (nals : list bytes) (fu : option bytes) :
  h264_aggregate p nals -> depacketize_h264 p fu = (Some (elementary nals), fu).
Proof.
  intros (h & -> & Ht & Hne & Hu). unfold depacketize_h264. rewrite Ht. cbn [Z.leb Z.eqb Z.compare].
  unfold depacketize_h264_stap_a. pose proof (units_long nals Hne Hu) as Hlong.
  destruct (aggregate_step 1 (h :: concat (frame <$> nals)) nals Hne Hu eq_refl) as [Heq|]; [cbn [length]; lia| |done].
  rewrite Heq, decide_False by (cbn [length]; lia). done.
Qed.

#[export] Instance h264_depacketizer : Depacketizer := {|
  dp_step := depacketize_h264; dp_single := h264_single; dp_aggregate := h264_aggregate;
  dp_fragments := h264_fragments; dp_single_spec := h264_single_spec;
  dp_aggregate_spec := h264_aggregate_spec; dp_fragments_spec := h264_fragments_spec |}.

(** RFC 7798: the two header bytes of a unit, of an aggregation packet and of
    the fragments, in a single layer. *)
Definition h265_type (b0 : Z) : Z := Z.land (Z.shiftr b0 1) 63.
Definition h265_layer (b0 b1 : Z) : Z := Z.lor (Z.land (shl8 b0 5) 32) (Z.land (Z.shiftr b1 3) 31).
Definition h265_header (b0 b1 : Z) : Prop :=
  is_byte b0 /\ h265_layer b0 b1 = 0 /\ Z.land b1 7 <> 0.
Definition h265_single (nal : bytes) : Prop :=
  exists b0 b1 x body, nal = b0 :: b1 :: x :: body /\ h265_header b0 b1 /\ h265_type b0 <= 47.
Definition h265_aggregate (p : bytes) (nals : list bytes) : Prop :=
  exists b0 b1, p = b0 :: b1 :: concat (frame <$> nals) /\ h265_header b0 b1 /\ h265_type b0 = 48 /\
    nals <> [] /\ Forall unit_ok nals.

Definition fu_indicator (b0 : Z) : Z := Z.lor (Z.land b0 129) 98.
Definition fu_header (flag b0 : Z) : Z := Z.lor flag (h265_type b0).
Inductive h265_fragments : list bytes -> bytes -> Prop :=
| h265_fu_packets b0 b1 first mids last :
    h265_header b0 b1 -> first <> [] -> Forall (fun c => c <> []) mids -> last <> [] ->
    h265_fragments
      ((fu_indicator b0 :: b1 :: fu_header 128 b0 :: first)
         :: ((fun c => fu_indicator b0 :: b1 :: fu_header 0 b0 :: c) <$> mids)
         ++ [fu_indicator b0 :: b1 :: fu_header 64 b0 :: last])
      (b0 :: b1 :: first ++ concat mids ++ last).

Lemma h265_fu_bits (b0 : Z) : is_byte b0 ->
  h265_type (fu_indicator b0) = 49 /\ Z.land (shl8 (fu_indicator b0) 5) 32 = Z.land (shl8 b0 5) 32 /\
  Z.land (fu_header 128 b0) 128 <> 0 /\ Z.land (fu_header 128 b0) 64 = 0 /\
  Z.land (fu_header 0 b0) 128 = 0 /\ Z.land (fu_header 0 b0) 64 = 0 /\
  Z.land (fu_header 64 b0) 128 = 0 /\ Z.land (fu_header 64 b0) 64 <> 0 /\
  Z.lor (Z.land (fu_indicator b0) 129) (shl8 (Z.land (fu_header 128 b0) 63) 1) = b0.
Proof.
  intros Hh. pose proof (byte_forall (fun b0 =>
    bool_decide (h265_type (fu_indicator b0) = 49 /\ Z.land (shl8 (fu_indicator b0) 5) 32 = Z.land (shl8 b0 5) 32 /\
      Z.land (fu_header 128 b0) 128 <> 0 /\ Z.land (fu_header 128 b0) 64 = 0 /\
      Z.land (fu_header 0 b0) 128 = 0 /\ Z.land (fu_header 0 b0) 64 = 0 /\
      Z.land (fu_header 64 b0) 128 = 0 /\ Z.land (fu_header 64 b0) 64 <> 0 /\
      Z.lor (Z.land (fu_indicator b0) 129) (shl8 (Z.land (fu_header 128 b0) 63) 1) = b0))
    ltac:(by vm_compute) b0 Hh) as Hb.
  by apply bool_decide_eq_true in Hb.
Qed.

Lemma h265_step_eq (b0 b1 : Z) (body : bytes) (fu : option bytes) :
  h265_layer b0 b1 = 0 -> Z.land b1 7 <> 0 -> h265_type b0 <= 49 -> body <> [] ->
  depacketize_h265 (b0 :: b1 :: body) fu =
  if h265_type b0 <=? 47 then (Some (with_start_code (b0 :: b1 :: body)), fu)
  else if h265_type b0 =? 48 then (depacketize_h265_ap (b0 :: b1 :: body), fu)
  else depacketize_h265_fu (b0 :: b1 :: body) fu.
Proof.
  intros Hl Ht Hty Hb. unfold depacketize_h265. rewrite decide_False by (destruct body; [done|cbn [length]; lia]).
  unfold byte_at. cbn [nth]. fold (h265_layer b0 b1) (h265_type b0). rewrite Hl, (proj2 (Z.eqb_neq _ _) Ht).
  cbn [Z.eqb negb]. destruct (Z.ltb_spec 50 (h265_type b0)); [lia|].
  destruct (Z.leb_spec (h265_type b0) 47); [done|]. destruct (Z.eqb_spec (h265_type b0) 48); [done|].
  by destruct (Z.eqb_spec (h265_type b0) 49); [|lia].
Qed.

Lemma h265_single_spec (nal : bytes) (fu : option bytes) :
  h265_single nal -> depacketize_h265 nal fu = (Some (with_start_code nal), fu).
Proof.
  intros (b0 & b1 & x & body & -> & (_ & Hl & Ht) & Hty). rewrite h265_step_eq by (done || lia).
  by rewrite (proj2 (Z.leb_le _ _) Hty).
Qed.

Lemma h265_aggregate_spec (p : bytes) (nals : list bytes) (fu : option bytes) :
  h265_aggregate p nals -> depacketize_h265 p fu = (Some (elementary nals), fu).
Proof.
  intros (b0 & b1 & -> & (_ & Hl & Ht) & Hty & Hne & Hu). pose proof (units_long nals Hne Hu) as Hlong.
  rewrite h265_step_eq by (done || lia || (intros Hn; rewrite Hn in Hlong; simpl in Hlong; lia)).
  rewrite Hty. cbn [Z.leb Z.eqb Z.compare Pos.compare Pos.compare_cont Pos.eqb]. unfold depacketize_h265_ap.
  destruct (aggregate_step 2 (b0 :: b1 :: concat (frame <$> nals)) nals Hne Hu eq_refl) as [Heq|];
    [cbn [length]; lia| |done].
  rewrite Heq, decide_False by (cbn [length]; lia). done.
Qed.

Lemma h265_fragments_spec (frs : list bytes) (nal : bytes) (fu : option bytes) :
  h265_fragments frs nal -> step_all depacketize_h265 frs fu = (with_start_code nal, None).
Proof.
  intros [b0 b1 first mids last (Hh & Hlay & Ht) Hf Hm Hl].
  destruct (h265_fu_bits b0 Hh) as (B0 & B1 & B2 & B3 & B4 & B5 & B6 & B7 & B8).
  assert (forall flag c fu, c <> [] -> depacketize_h265 (fu_indicator b0 :: b1 :: fu_header flag b0 :: c) fu
            = depacketize_h265_fu (fu_indicator b0 :: b1 :: fu_header flag b0 :: c) fu /\
            ~ (length (fu_indicator b0 :: b1 :: fu_header flag b0 :: c) < 4)%nat) as Hfu.
  { intros flag c fu' Hc. split; [|destruct c; [done|cbn [length]; lia]].
    rewrite h265_step_eq; [by rewrite B0| |done|lia|done]. unfold h265_layer in *. by rewrite B1. }
  cbn [step_all]. destruct (Hfu 128 first fu Hf) as [-> Hlen]. unfold depacketize_h265_fu at 1.
  rewrite decide_False by done. unfold byte_at. cbn [nth drop].
  rewrite (proj2 (Z.eqb_neq _ _) B2), (proj2 (Z.eqb_eq _ _) B3). cbn [negb andb].
  rewrite B8, drop_0. change (fun c => fu_indicator b0 :: b1 :: fu_header 0 b0 :: c)
    with (fun c => [fu_indicator b0; b1; fu_header 0 b0] ++ c).
  rewrite (fragments_steps depacketize_h265 _ _ _ 3).
  - cbn [default app drop]. rewrite drop_0. unfold with_start_code. by rewrite <- !app_assoc.
  - intros c acc Hc. rewrite Forall_forall in Hm. cbn [app]. destruct (Hfu 0 c (Some acc) (Hm _ Hc)) as [-> Hlen'].
    unfold depacketize_h265_fu. rewrite decide_False by done. unfold byte_at. cbn [nth drop].
    rewrite (proj2 (Z.eqb_eq _ _) B4), (proj2 (Z.eqb_eq _ _) B5), drop_0. done.
  - match goal with |- _ _ (Some ?acc) = _ => destruct (Hfu 64 last (Some acc) Hl) as [-> Hlen'] end.
    unfold depacketize_h265_fu. rewrite decide_False by done. unfold byte_at. cbn [nth drop].
    rewrite (proj2 (Z.eqb_eq _ _) B6), (proj2 (Z.eqb_neq _ _) B7), drop_0. cbn [negb andb].
    by rewrite <- !app_assoc.
Qed.

Definition h265_depacketizer : Depacketizer := {|
  dp_step := depacketize_h265; dp_single := h265_single; dp_aggregate := h265_aggregate;
  dp_fragments := h265_fragments; dp_single_spec := h265_single_spec;
  dp_aggregate_spec := h265_aggregate_spec; dp_fragments_spec := h265_fragments_spec |}.

(** ** Access units *)

(** The depacketiser of a kind of raw video, its fragment and its key units. *)
Definition kind_step (k : PayloadKind) : bytes -> option bytes -> option bytes * option bytes :=
  match k with PH264 => depacketize_h264 | _ => depacketize_h265 end.
Definition fu_of (k : PayloadKind) (b : RtpPacketBuffer) : option bytes :=
  match k with PH264 => h264_fu b | _ => h265_fu b end.
Definition set_fu (k : PayloadKind) (fu : option bytes) (b : RtpPacketBuffer) : RtpPacketBuffer :=
  match k with PH264 => with_fu fu (h265_fu b) b | _ => with_fu (h264_fu b) fu b end.
Definition key_nal (k : PayloadKind) : bytes -> bool := match k with PH264 => h264_key_nal | _ => h265_key_nal end.

Lemma process_raw (k : PayloadKind) (pkt : RtpPacket) (b : RtpPacketBuffer) :
  payload_kind b = k -> is_raw_video_kind k = true ->
  process_packet pkt false b =
  let '(data, fu) := kind_step k (pk_payload pkt) (fu_of k b) in
  let b2 := set_fu k fu b in
  match data with
  | Some data => append_access_unit (pk_timestamp pkt) (pk_marker pkt) data b2
  | None => if pk_marker pkt then finish_access_unit b2 else b2
  end.
Proof. intros Hk Hraw. unfold process_packet. rewrite Hk. by destruct k. Qed.

(** Inside an access unit with time stamp [ts]: no damage, what [buf] holds. *)
Definition assembling (k : PayloadKind) (ts : Z) (b : RtpPacketBuffer) : Prop :=
  payload_kind b = k /\ au_damaged b = false /\
  (au_timestamp b = Some ts \/ au_timestamp b = None /\ au_buffer b = []).

Definition mk_packet (ts : Z) (marker : bool) (payload : bytes) : RtpPacket := {|
  pk_ssrc := 0; pk_timestamp := ts; pk_marker := marker; pk_seq := 0; pk_payload := payload |}.
Definition process_all (pkts : list RtpPacket) (b : RtpPacketBuffer) : RtpPacketBuffer :=
  foldl (fun b p => process_packet p false b) b pkts.

(** What an access unit's packets without marker do. *)
Lemma assemble (k : PayloadKind) (ts : Z) (ps : list bytes) : forall b,
  is_raw_video_kind k = true -> assembling k ts b ->
  let b' := process_all (mk_packet ts false <$> ps) b in
  assembling k ts b' /\ au_buffer b' = au_buffer b ++ (step_all (kind_step k) ps (fu_of k b)).1 /\
  fu_of k b' = (step_all (kind_step k) ps (fu_of k b)).2 /\
  ready_aus b' = ready_aus b /\ wait_keyframe b' = wait_keyframe b.
Proof.
  induction ps as [|p ps IH]; intros b Hraw Ha; [simpl; by rewrite app_nil_r|].
  cbn [fmap list_fmap]. unfold process_all. cbn [foldl]. fold (process_all (mk_packet ts false <$> ps)).
  destruct Ha as (Hk & Hd & Ht). rewrite (process_raw k) by done. cbn [mk_packet pk_payload pk_timestamp pk_marker step_all].
  destruct (kind_step k p (fu_of k b)) as [data fu].
  assert (exists b1, match data with
                     | Some data => append_access_unit ts false data (set_fu k fu b)
                     | None => set_fu k fu b end = b1 /\ assembling k ts b1 /\
            au_buffer b1 = au_buffer b ++ default [] data /\ fu_of k b1 = fu /\
            ready_aus b1 = ready_aus b /\ wait_keyframe b1 = wait_keyframe b) as (b1 & -> & A1 & A2 & A3 & A4 & A5).
  { eexists. split; [done|]. destruct data as [data|].
    - unfold append_access_unit.
      assert (au_timestamp (set_fu k fu b) = au_timestamp b /\ au_buffer (set_fu k fu b) = au_buffer b /\
              au_damaged (set_fu k fu b) = au_damaged b) as (S1 & S2 & S3) by by destruct k.
      rewrite S1. destruct Ht as [Ht|[Ht Hbuf]]; rewrite Ht, ?Z.eqb_refl, ?S1, ?Ht; unfold assembling; simpl;
        (split_and!; [by destruct k|by rewrite S3|by left|by rewrite S2|by destruct k|by destruct k|by destruct k]).
    - simpl. rewrite app_nil_r. unfold assembling. destruct k; by split_and!. }
  specialize (IH b1 Hraw A1). rewrite A3, A2, A4, A5 in IH.
  destruct (step_all (kind_step k) ps fu) as [rest fu2]. simpl in *.
  destruct IH as (I1 & I2 & I3 & I4 & I5).
  split_and!; [exact I1|etrans; [exact I2|by rewrite <- app_assoc]|exact I3|exact I4|exact I5].
Qed.

(** Closing an access unit that is intact. *)
Lemma finish_intact (k : PayloadKind) (nals : list bytes) (b : RtpPacketBuffer) :
  is_raw_video_kind k = true -> payload_kind b = k -> au_damaged b = false ->
  nals <> [] -> Forall nal_ok nals -> au_buffer b = elementary nals ->
  finish_access_unit b =
  let key := existsb (key_nal k) nals in
  with_au [] None false (wait_keyframe b && negb key)
    (if wait_keyframe b && negb key then b else push_au (elementary nals) b).
Proof.
  intros Hraw Hk Hd Hne Hok Hbuf. unfold finish_access_unit. rewrite Hbuf, Hd.
  destruct (elementary nals) as [|x d] eqn:Hel; [by destruct nals|]. rewrite <- Hel.
  unfold should_output_access_unit, is_raw_video. simpl. rewrite Hk, Hraw. simpl.
  assert (match k with
          | PH264 => h264_access_unit_has_keyframe (elementary nals)
          | PH265 => h265_access_unit_has_keyframe (elementary nals)
          | _ => false end = existsb (key_nal k) nals) as ->.
  { destruct k; try done; by apply access_unit_nals. }
  destruct (wait_keyframe b) eqn:Hw, (existsb (key_nal k) nals); simpl; rewrite ?Hw; done.
Qed.

(** The packets of an access unit: the marker is on the last. *)
Definition au_packets (ts : Z) (front : list bytes) (last : bytes) : list RtpPacket :=
  (mk_packet ts false <$> front) ++ [mk_packet ts true last].

(** Between access units. *)
Definition idle (k : PayloadKind) (b : RtpPacketBuffer) : Prop :=
  payload_kind b = k /\ au_damaged b = false /\ au_timestamp b = None /\ au_buffer b = [] /\ fu_of k b = None.

Lemma access_unit_round_trip (k : PayloadKind) (ts : Z) (front : list bytes) (last : bytes)
    (nals : list bytes) (b : RtpPacketBuffer) :
  is_raw_video_kind k = true -> step_all (kind_step k) (front ++ [last]) None = (elementary nals, None) ->
  nals <> [] -> Forall nal_ok nals -> idle k b ->
  let b' := process_all (au_packets ts front last) b in
  let withheld := wait_keyframe b && negb (existsb (key_nal k) nals) in
  idle k b' /\ wait_keyframe b' = withheld /\
  ready_aus b' = ready_aus b ++ (if withheld then [] else [elementary nals]).
Proof.
  intros Hraw Hstep Hne Hok (I1 & I2 & I3 & I4 & I5). unfold process_all, au_packets. rewrite foldl_app.
  fold (process_all (mk_packet ts false <$> front) b).
  destruct (assemble k ts front b Hraw) as ((A1 & A2 & A3) & B2 & B3 & B4 & B5); [split_and!; [done|done|by right]|].
  set (b1 := process_all (mk_packet ts false <$> front) b) in *. rewrite I4, I5 in *. cbn [foldl].
  rewrite (process_raw k) by done. cbn [mk_packet pk_payload pk_timestamp pk_marker].
  rewrite step_all_app in Hstep. destruct (step_all (kind_step k) front None) as [d1 fu1]. simpl in B2, B3.
  rewrite B3. cbn [step_all] in Hstep. destruct (kind_step k last fu1) as [data fu2].
  injection Hstep as Hd Hfu. rewrite app_nil_r in Hd. subst fu2.
  assert (exists b2, match data with
                     | Some data => append_access_unit ts true data (set_fu k None b1)
                     | None => finish_access_unit (set_fu k None b1) end = finish_access_unit b2 /\
            payload_kind b2 = k /\ au_damaged b2 = false /\ au_buffer b2 = elementary nals /\
            fu_of k b2 = None /\ ready_aus b2 = ready_aus b /\ wait_keyframe b2 = wait_keyframe b)
    as (b2 & -> & C1 & C2 & C3 & C4 & C5 & C6).
  { assert (au_timestamp (set_fu k None b1) = au_timestamp b1 /\ au_buffer (set_fu k None b1) = d1 /\
            au_damaged (set_fu k None b1) = false) as (S1 & S2 & S3) by (rewrite <- B2, <- A2; by destruct k).
    destruct data as [data|].
    - unfold append_access_unit. rewrite S1.
      destruct A3 as [Ht|[Ht Hb]]; rewrite Ht, ?Z.eqb_refl, ?S1, ?Ht, S2, S3; eexists; (split; [done|]); simpl;
        (split_and!; [by destruct k|done|done|by destruct k|by destruct k|by destruct k]).
    - eexists. split; [done|]. simpl in Hd. rewrite app_nil_r in Hd.
      split_and!; [by destruct k|done|by rewrite S2|by destruct k|by destruct k|by destruct k]. }
  rewrite (finish_intact k nals) by done. rewrite C6. unfold idle.
  destruct (wait_keyframe b && negb (existsb (key_nal k) nals)); simpl;
    (split_and!; [done|done|done|done|by destruct k|done|by rewrite ?app_nil_r, ?C5]).
Qed.

(** C16: H.264 over RTP is depacketised.  Let an access unit be cut into
    payloads as RFC 6184 allows: units sent alone, aggregated (STAP-A) or
    fragmented (FU-A), in any mixture.  Received in order without loss, its
    packets give exactly the units in order, each behind a start code, as one
    access unit, which is handed to the demuxer unless the reader waits for a
    key frame and the unit has none; and the reader is ready for the next. *)
Theorem h264_round_trip (ts : Z) (front : list bytes) (last : bytes) (nals : list bytes) (b : RtpPacketBuffer) :
  payloads_of (front ++ [last]) nals -> nals <> [] -> Forall nal_ok nals -> idle PH264 b ->
  let b' := process_all (au_packets ts front last) b in
  let withheld := wait_keyframe b && negb (existsb h264_key_nal nals) in
  idle PH264 b' /\ wait_keyframe b' = withheld /\
  ready_aus b' = ready_aus b ++ (if withheld then [] else [elementary nals]).
Proof.
  intros Hp Hne Hok Hi. apply (access_unit_round_trip PH264); [done| |done|done|done].
  apply (payloads_data _ _ Hp).
Qed.

(** H.265 over RTP is depacketised, likewise: units of at least three
    bytes sent alone, aggregated or fragmented as RFC 7798 describes come out
    in order as one access unit. *)
Theorem h265_round_trip (ts : Z) (front : list bytes) (last : bytes) (nals : list bytes) (b : RtpPacketBuffer) :
  @payloads_of h265_depacketizer (front ++ [last]) nals -> nals <> [] -> Forall nal_ok nals -> idle PH265 b ->
  let b' := process_all (au_packets ts front last) b in
  let withheld := wait_keyframe b && negb (existsb h265_key_nal nals) in
  idle PH265 b' /\ wait_keyframe b' = withheld /\
  ready_aus b' = ready_aus b ++ (if withheld then [] else [elementary nals]).
Proof.
  intros Hp Hne Hok Hi. apply (access_unit_round_trip PH265); [done| |done|done|done].
  apply (@payloads_data h265_depacketizer _ _ Hp).
Qed.

(** A checkable form of [no_start]. *)
Lemma no_start_check (nal : bytes) : find_start_code_from nal 0 = None -> no_start nal.
Proof.
  generalize 0%nat. induction nal as [|x nal IH]; intros pos H i; [by destruct i|].
  cbn [find_start_code_from] in H. case_bool_decide; [done|]. case_bool_decide; [done|].
  destruct i as [|i]; [done|]. by apply (IH (S pos)).
Qed.
Lemma nals_check (nals : list bytes) :
  forallb (fun n => negb (bool_decide (n = [])) && bool_decide (find_start_code_from n 0 = None)) nals = true ->
  Forall nal_ok nals.
Proof.
  intros H. apply Forall_forall. intros n Hn. rewrite forallb_forall in H.
  apply list_elem_of_In, H, andb_true_iff in Hn as [H1 H2]. apply negb_true_iff, bool_decide_eq_false in H1.
  apply bool_decide_eq_true in H2. split; [done|by apply no_start_check].
Qed.

Lemma h264_round_trip_witness :
  ready_aus (process_all (au_packets 9 [[24; 0; 2; 103; 1; 0; 1; 104]; [124; 133; 1; 2]] [124; 69; 3; 4])
    (RtpPacketBuffer_init PH264 {| sample_rate := 8000; channels := 1 |}))
  = [elementary [[103; 1]; [104]; [101; 1; 2; 3; 4]]].
Proof.
  apply (h264_round_trip 9 [[24; 0; 2; 103; 1; 0; 1; 104]; [124; 133; 1; 2]] [124; 69; 3; 4]
    [[103; 1]; [104]; [101; 1; 2; 3; 4]]
    (RtpPacketBuffer_init PH264 {| sample_rate := 8000; channels := 1 |})).
  - apply (po_aggregate [24; 0; 2; 103; 1; 0; 1; 104] [[103; 1]; [104]]).
    + exists 24. split_and!; [done|done|done|]. repeat constructor; simpl; lia.
    + apply (po_fragments [[124; 133; 1; 2]; [124; 69; 3; 4]] [101; 1; 2; 3; 4] [] []); [|constructor].
      by apply (fu_a 101 [1; 2] [] [3; 4]).
  - done.
  - by apply nals_check.
  - done.
Defined.

Lemma h265_round_trip_witness :
  ready_aus (process_all (au_packets 9 [[64; 1; 1; 2]; [98; 1; 147; 1; 2]] [98; 1; 83; 3; 4])
    (RtpPacketBuffer_init PH265 {| sample_rate := 8000; channels := 1 |}))
  = [elementary [[64; 1; 1; 2]; [38; 1; 1; 2; 3; 4]]].
Proof.
  apply (h265_round_trip 9 [[64; 1; 1; 2]; [98; 1; 147; 1; 2]] [98; 1; 83; 3; 4]
    [[64; 1; 1; 2]; [38; 1; 1; 2; 3; 4]]
    (RtpPacketBuffer_init PH265 {| sample_rate := 8000; channels := 1 |})).
  - apply (@po_single h265_depacketizer [64; 1; 1; 2]).
    + by exists 64, 1, 1, [2].
    + apply (@po_fragments h265_depacketizer [[98; 1; 147; 1; 2]; [98; 1; 83; 3; 4]] [38; 1; 1; 2; 3; 4] [] []);
        [|constructor].
      by apply (h265_fu_packets 38 1 [1; 2] [] [3; 4]).
  - done.
  - by apply nals_check.
  - done.
Defined.

(** ** AAC *)

(** RFC 3640 with 13-bit sizes: the number of header bits, a header per access
    unit, the access units. *)
Definition be16 (n : Z) : bytes := [Z.shiftr n 8; Z.land n 255].
Definition aac_payload (frames : list bytes) : bytes :=
  be16 (16 * Z.of_nat (length frames))
  ++ concat ((fun f => be16 (Z.shiftl (Z.of_nat (length f)) 3)) <$> frames) ++ concat frames.

(** The fields of an ADTS header, as a decoder reads them. *)
Definition adts_frame_length (h : bytes) : Z :=
  Z.lor (Z.lor (Z.shiftl (Z.land (byte_at 3 h) 3) 11) (Z.shiftl (byte_at 4 h) 3)) (Z.shiftr (byte_at 5 h) 5).
Definition adts_rate_index (h : bytes) : Z := Z.land (Z.shiftr (byte_at 2 h) 2) 15.
Definition adts_channels (h : bytes) : Z :=
  Z.lor (Z.shiftl (Z.land (byte_at 2 h) 1) 2) (Z.shiftr (byte_at 3 h) 6).

(** The byte that holds bits of both the channels and the length. *)
Definition adts_mixed (c m : Z) : Z := Z.land (Z.lor (Z.shiftl (Z.land c 3) 6) m) 255.

Lemma seqZ_In (x lo n : Z) : lo <= x < lo + n -> In x (seqZ lo n).
Proof. intros. apply list_elem_of_In, elem_of_seqZ. lia. Qed.
Lemma forallb_seqZ (P : Z -> bool) (lo n x : Z) :
  forallb P (seqZ lo n) = true -> lo <= x < lo + n -> P x = true.
Proof. rewrite forallb_forall. intros H Hx. by apply H, seqZ_In. Qed.

Lemma adts_mixed_spec (c m : Z) : 0 <= c <= 7 -> 0 <= m <= 3 ->
  Z.shiftr (adts_mixed c m) 6 = Z.land c 3 /\ Z.land (adts_mixed c m) 3 = m.
Proof.
  intros Hc Hm. pose proof (forallb_seqZ (fun c => forallb (fun m =>
    (Z.shiftr (adts_mixed c m) 6 =? Z.land c 3) && (Z.land (adts_mixed c m) 3 =? m)) (seqZ 0 4)) 0 8 c
    ltac:(by vm_compute) ltac:(lia)) as H. cbv beta in H.
  apply forallb_seqZ with (x := m) in H; [|lia]. zbool. done.
Qed.

Lemma adts_length_bits (n : Z) : 0 <= n <= 8198 ->
  Z.lor (Z.lor (Z.shiftl (Z.land (Z.shiftr n 11) 3) 11) (Z.shiftl (Z.land (Z.shiftr n 3) 255) 3))
    (Z.shiftr (Z.land (Z.lor (Z.shiftl (Z.land n 7) 5) 31) 255) 5) = n mod 8192.
Proof.
  intros _. change 8192 with (2 ^ 13). rewrite <- Z.land_ones by lia. change (Z.ones 13) with 8191. apply Z.bits_inj'. intros i Hi.
  assert (13 <= i \/ i = 0 \/ i = 1 \/ i = 2 \/ i = 3 \/ i = 4 \/ i = 5 \/ i = 6 \/ i = 7 \/ i = 8 \/ i = 9 \/ i = 10 \/
    i = 11 \/ i = 12) as Hc by lia.
  rewrite !Z.lor_spec, Z.land_spec, !Z.shiftl_spec, Z.shiftr_spec, !Z.land_spec, Z.lor_spec, !Z.shiftl_spec by lia.
  destruct Hc as [Hc|Hc].
  - rewrite (Z.bits_above_log2 3 (i - 11)), (Z.bits_above_log2 255 (i - 3)), (Z.bits_above_log2 255 (i + 5)),
      (Z.bits_above_log2 8191 i)
      by (try match goal with |- context [Z.log2 ?a] => let b := eval vm_compute in (Z.log2 a) in change (Z.log2 a) with b end; lia).
    by rewrite !andb_false_r.
  - destruct_or! Hc; subst;
      repeat match goal with |- context [Z.testbit ?x (?a - ?b)] => let c := eval vm_compute in (a - b) in change (a - b) with c end;
      repeat match goal with |- context [Z.testbit (Zpos ?p) ?k] => let b := eval vm_compute in (Z.testbit (Zpos p) k) in
        change (Z.testbit (Zpos p) k) with b end;
      rewrite ?andb_true_r, ?andb_false_r, ?orb_true_r, ?orb_false_r, ?orb_false_l, ?Z.shiftr_spec, ?Z.land_spec, ?andb_true_r by lia;
      repeat match goal with |- context [Z.testbit (Zpos ?p) ?k] => let b := eval vm_compute in (Z.testbit (Zpos p) k) in
        change (Z.testbit (Zpos p) k) with b end;
      rewrite ?andb_true_r, ?andb_false_r, ?orb_false_r; done.
Qed.

Lemma adts_fields (i c n : Z) :
  0 <= i < 13 -> 0 <= c <= 7 -> 0 <= n <= 8198 ->
  let h := adts_header i c n in
  adts_rate_index h = i /\ adts_channels h = c /\ adts_frame_length h = n mod 8192.
Proof.
  intros Hi Hc Hn h. assert (0 <= Z.land (Z.shiftr n 11) 3 <= 3) as Hm.
  { change (Z.land (Z.shiftr n 11) 3) with (Z.land (Z.shiftr n 11) (Z.ones 2)). rewrite Z.land_ones by lia.
    pose proof (Z.mod_pos_bound (Z.shiftr n 11) (2 ^ 2)). lia. }
  destruct (adts_mixed_spec c _ Hc Hm) as [M1 M2].
  pose proof (forallb_seqZ (fun i => forallb (fun c =>
      let h := adts_header i c 0 in (adts_rate_index h =? i) && (Z.land (byte_at 2 h) 1 =? Z.shiftr c 2)
        && (Z.lor (Z.shiftl (Z.shiftr c 2) 2) (Z.land c 3) =? c)) (seqZ 0 8)) 0 13 i
      ltac:(by vm_compute) ltac:(lia)) as H. cbv beta in H.
  apply forallb_seqZ with (x := c) in H; [|lia]. cbv beta zeta in H. zbool.
  split_and!; [done| |].
  - unfold adts_channels. change (byte_at 3 h) with (adts_mixed c (Z.land (Z.shiftr n 11) 3)).
    change (byte_at 2 h) with (byte_at 2 (adts_header i c 0)). by rewrite M1; congruence.
  - unfold adts_frame_length. change (byte_at 3 h) with (adts_mixed c (Z.land (Z.shiftr n 11) 3)).
    rewrite M2. by apply adts_length_bits.
Qed.

Lemma be16_read (n : Z) : 0 <= n < 2 ^ 16 -> u16_be (Z.shiftr n 8) (Z.land n 255) = n.
Proof. apply u16_be_split. Qed.

Definition adts_frame (i : Z) (cfg : AacAdtsConfig) (f : bytes) : bytes :=
  adts_header i (Z.min (channels cfg) 7) (Z.of_nat (length f) + 7) ++ f.

Lemma au_headers_read (frames : list bytes) (rest : bytes) :
  Forall (fun f : bytes => Z.of_nat (length f) < 8192) frames ->
  au_headers (length frames) (concat ((fun f => be16 (Z.shiftl (Z.of_nat (length f)) 3)) <$> frames) ++ rest)
  = (fun f => Z.shiftl (Z.of_nat (length f)) 3) <$> frames.
Proof.
  induction 1 as [|f frames Hf _ IH]; [done|]. cbn. rewrite be16_read, IH; [done|].
  rewrite Z.shiftl_mul_pow2 by lia. lia.
Qed.

Lemma aac_units_read (i : Z) (cfg : AacAdtsConfig) (frames : list bytes) : forall out,
  aac_sample_rate_index (sample_rate cfg) = Some i ->
  aac_units cfg ((fun f => Z.shiftl (Z.of_nat (length f)) 3) <$> frames) (concat frames) out
  = Some (out ++ concat (adts_frame i cfg <$> frames)).
Proof.
  induction frames as [|f frames IH]; intros out Hi; simpl; [by rewrite app_nil_r|].
  rewrite Z.shiftr_shiftl_l, Z.shiftl_0_r, Nat2Z.id by lia.
  rewrite decide_False by (rewrite length_app; lia). rewrite drop_app_length, take_app_length, IH by done.
  unfold append_adts_frame. rewrite Hi. f_equal. by rewrite <- app_assoc.
Qed.

Lemma aac_units_unsupported (cfg : AacAdtsConfig) (hs : list Z) : forall data,
  aac_sample_rate_index (sample_rate cfg) = None ->
  aac_units cfg hs data [] = Some [] \/ aac_units cfg hs data [] = None.
Proof.
  induction hs as [|h hs IH]; intros data Hi; simpl; [by left|]. destruct (decide _); [by right|].
  unfold append_adts_frame. rewrite Hi. by apply IH.
Qed.

Lemma aac_depacketized (cfg : AacAdtsConfig) (frames : list bytes) :
  frames <> [] -> (length frames < 4080)%nat -> Forall (fun f : bytes => Z.of_nat (length f) < 8192) frames ->
  depacketize_aac cfg (aac_payload frames)
  = aac_units cfg ((fun f => Z.shiftl (Z.of_nat (length f)) 3) <$> frames) (concat frames) [] ≫= nonempty.
Proof.
  intros Hne Hn Hf. set (n := length frames) in *.
  assert (0 < n)%nat as Hpos by (unfold n; destruct frames; [done|simpl; lia]).
  set (hs := concat ((fun f => be16 (Z.shiftl (Z.of_nat (length f)) 3)) <$> frames)).
  assert (length hs = 2 * n)%nat as Hhs.
  { unfold hs, n. clear. induction frames as [|f frames IH]; [done|].
    rewrite fmap_cons. cbn [concat]. rewrite length_app, IH. cbn [be16 length]. lia. }
  set (bits := 16 * Z.of_nat n). assert (0 <= bits < 2 ^ 16) as Hbits by (unfold bits; lia).
  assert (aac_payload frames = Z.shiftr bits 8 :: Z.land bits 255 :: hs ++ concat frames) as Hp by done.
  unfold depacketize_aac. rewrite Hp.
  assert (is_adts (Z.shiftr bits 8 :: Z.land bits 255 :: hs ++ concat frames) = false) as ->.
  { unfold is_adts, byte_at. cbn [nth]. rewrite Z.shiftr_div_pow2 by lia.
    assert (bits / 2 ^ 8 =? 255 = false) as -> by (apply Z.eqb_neq; unfold bits; zmod).
    by rewrite andb_false_r. }
  rewrite decide_False by (cbn [length]; rewrite length_app; lia). unfold byte_at. cbn [nth].
  rewrite u16_be_split by done. assert (bits =? 0 = false) as -> by (apply Z.eqb_neq; unfold bits; lia).
  assert (bits mod 16 =? 0 = true) as -> by (apply Z.eqb_eq; unfold bits; zmod).
  assert ((bits + 7) / 8 = 2 * Z.of_nat n) as -> by (unfold bits; zmod).
  assert (bits / 16 = Z.of_nat n) as -> by (unfold bits; zmod).
  destruct (Z.ltb_spec (Z.of_nat (length (Z.shiftr bits 8 :: Z.land bits 255 :: hs ++ concat frames)))
    (2 + 2 * Z.of_nat n)) as [Hlt|_]; [cbn [length] in Hlt; rewrite length_app in Hlt; lia|].
  cbn [orb negb]. rewrite Nat2Z.id. cbn [drop]. unfold n at 1, hs at 1. rewrite drop_0, au_headers_read by done.
  replace (Z.to_nat (2 + 2 * Z.of_nat n)) with (S (S (length hs))) by lia. cbn [drop].
  by rewrite drop_app_length.
Qed.

(** AAC over RTP becomes ADTS.  The access units of a payload come out in
    order, each behind an ADTS header that carries the configured sampling rate
    and channels (7 at most) and its length; with a sampling rate ADTS has no
    index for nothing comes out.  The 13-bit length of the header is right up
    to 8184 bytes; a unit of 8185 to 8191 bytes, which RFC 3640 allows, gets a
    length that is 8192 too small. *)
Theorem aac_round_trip (cfg : AacAdtsConfig) (frames : list bytes) :
  frames <> [] -> (length frames < 4080)%nat -> Forall (fun f : bytes => Z.of_nat (length f) < 8192) frames ->
  0 <= channels cfg ->
  match aac_sample_rate_index (sample_rate cfg) with
  | None => depacketize_aac cfg (aac_payload frames) = None
  | Some i =>
      depacketize_aac cfg (aac_payload frames) = Some (concat (adts_frame i cfg <$> frames)) /\
      forall f, f ∈ frames ->
        let h := take 7 (adts_frame i cfg f) in
        drop 7 (adts_frame i cfg f) = f /\
        adts_rate_index h = i /\ adts_channels h = Z.min (channels cfg) 7 /\
        adts_frame_length h = if Z.of_nat (length f) <=? 8184 then Z.of_nat (length f) + 7
                              else Z.of_nat (length f) + 7 - 8192
  end.
Proof.
  intros Hne Hn Hf Hc. rewrite aac_depacketized by done.
  destruct (aac_sample_rate_index (sample_rate cfg)) as [i|] eqn:Hi.
  - rewrite (aac_units_read i) by done. split.
    + destruct frames as [|f frames]; [done|]. done.
    + intros f Hin h. rewrite Forall_forall in Hf. specialize (Hf _ Hin).
      assert (0 <= i < 13) as Hi13.
      { unfold aac_sample_rate_index in Hi. apply fmap_Some in Hi as ([j r] & Hj & ->).
        apply list_find_Some in Hj as (Hj & _). apply lookup_lt_Some in Hj. simpl in *. lia. }
      split; [done|]. destruct (adts_fields i (Z.min (channels cfg) 7) (Z.of_nat (length f) + 7)) as (F1 & F2 & F3);
        [done|lia|lia|].
      split_and!; [exact F1|exact F2|]. etrans; [exact F3|].
      destruct (Z.leb_spec (Z.of_nat (length f)) 8184); zmod.
  - by destruct (aac_units_unsupported cfg ((fun f => Z.shiftl (Z.of_nat (length f)) 3) <$> frames)
      (concat frames) Hi) as [-> | ->].
Qed.

Lemma aac_round_trip_witness :
  depacketize_aac {| sample_rate := 16000; channels := 2 |} (aac_payload [[1; 2; 3]; [4; 5]])
  = Some [255; 241; 96; 128; 1; 95; 252; 1; 2; 3; 255; 241; 96; 128; 1; 63; 252; 4; 5].
Proof.
  exact (proj1 (aac_round_trip {| sample_rate := 16000; channels := 2 |} [[1; 2; 3]; [4; 5]] ltac:(done)
    ltac:(simpl; lia) ltac:(repeat constructor; done) ltac:(simpl; lia))).
Defined.
