(* ===== verification/ReaderProps.v ===== *)
(** * What the RTP reader guarantees as a whole

    A read always ends; reads of any sizes deliver the stream of access units
    unchanged; video is withheld from the demuxer after damage until a key
    frame. *)
From S2P Require Import Prelude SharedTypes StreamOutputs MediaRegister RtpIngest RtpRing RtpDepacket.
Local Open Scope Z_scope.

(** ** Termination *)

(** What is left to read: packets in the ring and readings to come. *)
Definition left_over (env : list reading) (r : Ring) : nat := (size (queue r) + length env)%nat.

Lemma enqueue_size (p : RtpPacket) (r : Ring) : (size (queue (enqueue p r)) <= S (size (queue r)))%nat.
Proof.
  unfold enqueue. destruct (is_old_packet _ r); [lia|]. destruct (has_packet _ r); [lia|]. simpl.
  destruct (queue r !! slot (pk_seq p)) eqn:Hq.
  - rewrite map_size_insert_Some by (by eexists). lia.
  - rewrite map_size_insert_None by done. lia.
Qed.

Lemma take_slot_size (index : Z) (r : Ring) (p : RtpPacket) :
  queue r !! index = Some p -> (size (queue (take_slot index r)) < size (queue r))%nat.
Proof.
  intros Hq. simpl. rewrite map_size_delete_Some by (by eexists).
  assert (size (queue r) <> 0%nat) by (intros H0; apply map_size_empty_inv in H0; by rewrite H0, lookup_empty in Hq).
  lia.
Qed.

Lemma scan_found (q : gmap Z RtpPacket) (n : nat) : forall offset index p o i,
  scan n offset index q = Some (p, o, i) -> q !! i = Some p.
Proof.
  induction n as [|n IH]; intros offset index p o i; simpl; [done|].
  destruct (q !! _) as [p'|] eqn:Hq; [|apply IH]. intros [= <- <- <-]. done.
Qed.

Lemma wait_until_left (seq deadline : Z) (env : list reading) : forall r,
  let '(_, env1, r1) := wait_until_gap_deadline seq deadline env r in (left_over env1 r1 <= left_over env r)%nat.
Proof.
  induction env as [|[now rec] env IH]; intros r; simpl; destruct (has_packet seq r); try lia;
    destruct (REORDER_BUFFER_HIGH_WATERMARK <=? queue_count r); try lia.
  destruct (deadline <=? now); [lia|]. destruct rec as [p|]; [|unfold left_over; simpl; lia].
  specialize (IH (enqueue p r)). destruct (wait_until_gap_deadline _ _ _ _) as [[found env1] r1].
  pose proof (enqueue_size p r). unfold left_over in *. simpl. lia.
Qed.

Lemma wait_phases_left (fuel : nat) (max seq : Z) : forall phase b env r,
  let '(_, env1, r1) := wait_phases fuel max phase b seq env r in (left_over env1 r1 <= left_over env r)%nat.
Proof.
  induction fuel as [|fuel IH]; intros phase b env r; simpl; [lia|].
  pose proof (wait_until_left seq phase env r) as H1.
  destruct (wait_until_gap_deadline _ _ _ _) as [[[] env1] r1]; [done|].
  destruct (max <=? phase); [done|].
  specialize (IH (Z.min (saturating_add 64 phase (if b then GAP_WAIT_SECOND_MS else GAP_WAIT_STEP_MS)) max)
    false env1 r1). destruct (wait_phases _ _ _ _ _ _ _) as [[found env2] r2]. lia.
Qed.

Lemma take_expected_left (r r1 : Ring) (p : RtpPacket) :
  take_expected_packet r = (Some p, r1) -> (size (queue r1) < size (queue r))%nat.
Proof.
  unfold take_expected_packet. destruct (queue r !! _) as [q|] eqn:Hq; [|done]. destruct (_ =? _); [|done].
  intros [= -> <-]. by eapply take_slot_size.
Qed.

Lemma take_first_left (r r1 : Ring) (p : RtpPacket) (o : Z) :
  take_first_available_packet r = (Some (p, o), r1) -> (size (queue r1) < size (queue r))%nat.
Proof.
  unfold take_first_available_packet. destruct (scan _ _ _ _) as [[[p' o'] i]|] eqn:Hs; [|done].
  intros [= -> -> <-]. eapply take_slot_size. by eapply scan_found.
Qed.
#[local] Opaque take_first_available_packet.

Lemma take_next_left (k : PayloadKind) (closed : bool) (env : list reading) (r : Ring) :
  let '(out, env1, r1) := take_next_packet k closed env r in
  is_Some out -> (left_over env1 r1 < left_over env r)%nat.
Proof.
  unfold take_next_packet. destruct (queue_count r =? 0); [by intros []|].
  destruct (take_expected_packet r) as [[p|] r1] eqn:He.
  { intros _. apply take_expected_left in He. unfold left_over. simpl. lia. }
  assert (let '(_, env1, r1) := if closed then (false, env, r)
            else wait_for_gap_packet k (first_read_rtp_sn r) env r in (left_over env1 r1 <= left_over env r)%nat) as Hw.
  { destruct closed; [lia|]. unfold wait_for_gap_packet. apply wait_phases_left. }
  destruct (if closed then _ else _) as [[found env1] r2]. clear He r1.
  destruct (if found then _ else _) as [[p|] r3] eqn:Hf.
  - intros _. destruct found; [|done]. apply take_expected_left in Hf. unfold left_over in *. simpl. lia.
  - destruct (take_first_available_packet r2) as [[[p o]|] r4] eqn:Hfirst; [|by intros []].
    intros _. apply take_first_left in Hfirst. unfold left_over in *. simpl. lia.
Qed.

Lemma reduce_left (window : Z) (env : list reading) : forall r,
  let '(_, env1, r1) := reduce_packet window env r in (left_over env1 r1 <= left_over env r)%nat.
Proof.
  induction env as [|[now rec] env IH]; intros r; simpl; destruct (window <=? queue_count r); try lia.
  destruct rec as [p|].
  - specialize (IH (enqueue p r)). destruct (reduce_packet _ _ _) as [[open env1] r1].
    pose proof (enqueue_size p r). unfold left_over in *. simpl. lia.
  - specialize (IH r). destruct (reduce_packet _ _ _) as [[open env1] r1]. unfold left_over in *. simpl. lia.
Qed.

Lemma consume_loop_ends (n : nat) (fuel : nat) : forall env rd,
  (left_over env (rd_ring rd) < fuel)%nat -> (consume_loop fuel n env rd).1.1 <> None.
Proof.
  induction fuel as [|fuel IH]; intros env rd Hl; simpl; [lia|].
  pose proof (reduce_left (reorder_window (payload_kind (rd_buf rd))) env (rd_ring rd)) as Hr.
  destruct (reduce_packet _ _ _) as [[open env1] r1].
  pose proof (take_next_left (payload_kind (rd_buf rd)) (negb open) env1 r1) as Ht.
  destruct (take_next_packet _ _ _ _) as [[[[pkt lost]|] env2] r2].
  - specialize (Ht ltac:(by eexists)). destruct (consume_ready_au n _) as [[data|] b1]; [done|].
    destruct (negb open && (queue_count r2 =? 0)); [by destruct (consume_ready_au n _)|].
    apply IH. simpl. lia.
  - destruct (negb open && (queue_count r2 =? 0)); [by destruct (consume_ready_au n _)|done].
Qed.

(** A read of the demuxer ends.  Whatever is in the ring and whatever
    arrives, [consume_packet] returns after finitely many rounds, with bytes or
    with the end of the stream. *)
Theorem consume_packet_total (n : nat) (env : list reading) (rd : Reader) :
  exists out env' rd', consume_packet n env rd = (Some out, env', rd').
Proof.
  unfold consume_packet. destruct (decide _); [by eauto|].
  destruct (consume_remaining n (rd_buf rd)) as [[data|] b0]; [by eauto|].
  destruct (consume_ready_au n (rd_buf rd)) as [[data|] b1]; [by eauto|].
  pose proof (consume_loop_ends n (S (size (queue (rd_ring rd)) + length env)) env
    {| rd_ring := rd_ring rd; rd_buf := b1 |}) as Hl.
  destruct (consume_loop _ _ _ _) as [[[out|] env'] rd']; [by eauto|].
  by destruct Hl; [unfold left_over; simpl; lia|].
Qed.

(** ** Reads of any size *)

(** The state without what waits to be read. *)
Definition core (b : RtpPacketBuffer) : RtpPacketBuffer := with_output [] [] b.
Definition pending (b : RtpPacketBuffer) : bytes := remaining b ++ concat (ready_aus b).

(** Handling a packet appends access units, the same whatever waits. *)
Definition appends (f : RtpPacketBuffer -> RtpPacketBuffer) : Prop :=
  forall b, f b = with_output (remaining b) (ready_aus b ++ ready_aus (f (core b))) (f (core b)).

Lemma finish_appends : appends finish_access_unit.
Proof.
  intros [rem aus buf ts dmg wait k f4 f5 cfg]. unfold finish_access_unit, core, with_output, with_au. simpl.
  destruct buf as [|x buf]; [by rewrite app_nil_r|]. destruct dmg; [by simpl; rewrite app_nil_r|].
  unfold should_output_access_unit, is_raw_video. simpl.
  destruct (is_raw_video_kind k); simpl; [|done].
  destruct wait; simpl; [|done].
  destruct (match k with PH264 => _ | PH265 => _ | _ => false end); simpl; [done|by rewrite app_nil_r].
Qed.

Lemma with_output_core (b : RtpPacketBuffer) : with_output (remaining b) (ready_aus b ++ []) b = b.
Proof. rewrite app_nil_r. by destruct b. Qed.

(** Two buffers that differ only in what waits. *)
Definition same_core (b c : RtpPacketBuffer) (aus : list bytes) (rem : bytes) : Prop :=
  b = with_output rem (aus ++ ready_aus c) c.

Lemma finish_same (b c : RtpPacketBuffer) aus rem :
  same_core b c aus rem -> same_core (finish_access_unit b) (finish_access_unit c) aus rem.
Proof.
  unfold same_core. intros ->. rewrite (finish_appends (with_output _ _ _)), (finish_appends c).
  unfold core. simpl. by rewrite <- app_assoc.
Qed.

Lemma append_same (ts : Z) (marker : bool) (data : bytes) (b c : RtpPacketBuffer) aus rem :
  same_core b c aus rem -> same_core (append_access_unit ts marker data b) (append_access_unit ts marker data c) aus rem.
Proof.
  intros Hs. assert (forall b c, same_core b c aus rem ->
    same_core (let b2 := with_au (au_buffer b ++ data) (match au_timestamp b with None => Some ts | Some t => Some t end)
                 (au_damaged b) (wait_keyframe b) b in if marker then finish_access_unit b2 else b2)
              (let b2 := with_au (au_buffer c ++ data) (match au_timestamp c with None => Some ts | Some t => Some t end)
                 (au_damaged c) (wait_keyframe c) c in if marker then finish_access_unit b2 else b2) aus rem) as Htail.
  { intros b' c' ->. destruct marker; [apply finish_same|]; done. }
  unfold append_access_unit. assert (au_timestamp b = au_timestamp c) as -> by by rewrite Hs.
  destruct (au_timestamp c) as [t|]; [|by apply Htail]. destruct (t =? ts); [by apply Htail|].
  by apply Htail, finish_same.
Qed.

Lemma loss_same (ts : Z) (b c : RtpPacketBuffer) aus rem :
  same_core b c aus rem -> same_core (mark_packet_loss ts b) (mark_packet_loss ts c) aus rem.
Proof.
  unfold same_core. intros ->. unfold mark_packet_loss. simpl. destruct (au_buffer c); [done|].
  by destruct (match au_timestamp c with Some _ => _ | None => _ end).
Qed.

Lemma process_same (pkt : RtpPacket) (lost : bool) (b c : RtpPacketBuffer) aus rem :
  same_core b c aus rem -> same_core (process_packet pkt lost b) (process_packet pkt lost c) aus rem.
Proof.
  intros Hs. unfold process_packet. assert (payload_kind b = payload_kind c) as -> by by rewrite Hs.
  assert (forall b' c', b' = (if lost then mark_packet_loss (pk_timestamp pkt) b else b) ->
            c' = (if lost then mark_packet_loss (pk_timestamp pkt) c else c) -> same_core b' c' aus rem) as Hloss
    by (intros b' c' -> ->; destruct lost; [by apply loss_same|done]).
  set (b1 := if lost then mark_packet_loss (pk_timestamp pkt) b else b) in *.
  set (c1 := if lost then mark_packet_loss (pk_timestamp pkt) c else c) in *.
  specialize (Hloss b1 c1 eq_refl eq_refl). clearbody b1 c1.
  assert (h264_fu b1 = h264_fu c1 /\ h265_fu b1 = h265_fu c1) as [F1 F2] by by rewrite Hloss.
  assert (forall fu4 fu5, same_core (with_fu fu4 fu5 b1) (with_fu fu4 fu5 c1) aus rem) as Hfu
    by (intros; by rewrite Hloss).
  assert (forall data, same_core (push_au data b) (push_au data c) aus rem) as Hpush.
  { intros data. unfold same_core in *. rewrite Hs. unfold push_au, with_output. simpl. by rewrite <- app_assoc. }
  destruct (payload_kind c).
  - by apply append_same.
  - rewrite F1, F2. destruct (depacketize_h264 _ _) as [[data|] fu]; [by apply append_same|].
    destruct (pk_marker pkt); [by apply finish_same|done].
  - rewrite F1, F2. destruct (depacketize_h265 _ _) as [[data|] fu]; [by apply append_same|].
    destruct (pk_marker pkt); [by apply finish_same|done].
  - assert (aac_adts b = aac_adts c) as -> by by rewrite Hs. destruct (depacketize_aac _ _); [apply Hpush|done].
  - apply Hpush.
  - by apply append_same.
Qed.

(** What the reader does between and for the demuxer's reads. *)
Inductive reader_op := RPacket (pkt : RtpPacket) (lost : bool) | RFinish | RRead (max_consume_len : nat).
Definition is_read (op : reader_op) : bool := match op with RRead _ => true | _ => false end.
Definition reader_step (op : reader_op) (b : RtpPacketBuffer) : bytes * RtpPacketBuffer :=
  match op with
  | RPacket pkt lost => ([], process_packet pkt lost b)
  | RFinish => ([], finish_access_unit b)
  | RRead n =>
      match consume_remaining n b with
      | (Some data, b1) => (data, b1)
      | (None, _) => let '(data, b1) := consume_ready_au n b in (default [] data, b1)
      end
  end.
Fixpoint reader_run (ops : list reader_op) (b : RtpPacketBuffer) : bytes * RtpPacketBuffer :=
  match ops with
  | [] => ([], b)
  | op :: ops =>
      let '(out, b1) := reader_step op b in
      let '(outs, b2) := reader_run ops b1 in (out ++ outs, b2)
  end.

(** A read takes bytes from the front and touches nothing else. *)
Lemma read_takes (n : nat) (b : RtpPacketBuffer) :
  let '(out, b1) := reader_step (RRead n) b in out ++ pending b1 = pending b /\ core b1 = core b.
Proof.
  unfold reader_step, consume_ready_au, consume_remaining, pending.
  destruct b as [rem aus buf ts dmg wait k f4 f5 cfg]. simpl. destruct rem as [|x rem]; simpl.
  - destruct aus as [|[|y au] aus]; simpl; [done|done|]. split; [|done]. rewrite app_assoc.
    by rewrite (take_drop n (y :: au)).
  - split; [|done]. rewrite app_assoc. by rewrite (take_drop n (x :: rem)).
Qed.

Lemma same_core_self (b : RtpPacketBuffer) : same_core b (core b) (ready_aus b) (remaining b).
Proof. unfold same_core, core. simpl. rewrite app_nil_r. by destruct b. Qed.

(** A step that is no read appends access units that depend on the core only. *)
Lemma step_appends (op : reader_op) (b : RtpPacketBuffer) :
  is_read op = false ->
  let new := ready_aus (reader_step op (core b)).2 in
  let b1 := (reader_step op b).2 in
  (reader_step op b).1 = [] /\ pending b1 = pending b ++ concat new /\ ready_aus b1 = ready_aus b ++ new /\
  core b1 = core (reader_step op (core b)).2.
Proof.
  intros Hop new b1.
  assert (same_core b1 (reader_step op (core b)).2 (ready_aus b) (remaining b)) as Hs.
  { destruct op; [apply process_same|apply finish_same|done]; apply same_core_self. }
  split; [by destruct op|]. unfold same_core in Hs. rewrite Hs. unfold pending, core. simpl.
  split_and!; [by rewrite concat_app, app_assoc|done|done].
Qed.

Lemma reader_run_core (ops : list reader_op) : forall b c, core b = core c ->
  let '(out, b') := reader_run ops b in
  let c' := (reader_run (filter (fun op => is_read op = false) ops) c).2 in
  exists new, out ++ pending b' = pending b ++ concat new /\ ready_aus c' = ready_aus c ++ new /\ core b' = core c'.
Proof.
  induction ops as [|op ops IH]; intros b c Hc; [exists []; simpl; by rewrite !app_nil_r|].
  cbn [reader_run]. destruct (is_read op) eqn:Hop.
  - rewrite filter_cons_False by (by rewrite Hop). destruct op as [| |n]; try done.
    pose proof (read_takes n b) as Hr. destruct (reader_step (RRead n) b) as [out b1]. destruct Hr as [R1 R2].
    specialize (IH b1 c ltac:(by rewrite R2)). destruct (reader_run ops b1) as [outs b2].
    destruct IH as (new & I1 & I2 & I3). exists new. split; [|done].
    by rewrite <- app_assoc, I1, app_assoc, R1.
  - rewrite filter_cons_True by done. cbn [reader_run].
    destruct (step_appends op b Hop) as (A1 & A2 & A3 & A4). destruct (step_appends op c Hop) as (B1 & B2 & B3 & B4).
    rewrite Hc in *. destruct (reader_step op b) as [out b1], (reader_step op c) as [outc c1]. simpl in *. subst out outc.
    specialize (IH b1 c1 ltac:(by rewrite A4, B4)). destruct (reader_run ops b1) as [outs b2].
    destruct (reader_run _ c1) as [outc c2]. simpl in *.
    destruct IH as (new & I1 & I2 & I3). eexists (_ ++ new). split_and!; [|by rewrite I2, B3, <- app_assoc|done].
    by rewrite I1, A2, <- app_assoc, concat_app.
Qed.

(** Reads deliver the stream unchanged.  However the demuxer's reads, of
    any sizes, are interleaved with the arrival of packets, the bytes delivered
    followed by those still waiting are the bytes that waited at first followed
    by the access units the same packets give without any read: nothing is
    lost, repeated or reordered, and the reads do not influence the assembly. *)
Theorem reads_deliver_stream (ops : list reader_op) (b : RtpPacketBuffer) :
  let '(out, b') := reader_run ops b in
  let reference := (reader_run (filter (fun op => is_read op = false) ops) (core b)).2 in
  out ++ pending b' = pending b ++ concat (ready_aus reference) /\ core b' = core reference.
Proof.
  pose proof (reader_run_core ops b (core b) ltac:(by destruct b)) as H.
  destruct (reader_run ops b) as [out b']. destruct H as (new & H1 & H2 & H3). split; [|done].
  by rewrite H1, H2.
Qed.

(** ** Damage *)

Definition au_has_key (k : PayloadKind) (au : bytes) : bool :=
  match k with
  | PH264 => h264_access_unit_has_keyframe au
  | PH265 => h265_access_unit_has_keyframe au
  | _ => false
  end.

(** From a state that waits for a key frame: nothing new, still waiting; or the
    first new access unit has one. *)
Definition withheld (k : PayloadKind) (b b' : RtpPacketBuffer) : Prop :=
  payload_kind b' = k /\
  ((ready_aus b' = ready_aus b /\ wait_keyframe b' = true) \/
   (exists au aus, ready_aus b' = ready_aus b ++ au :: aus /\ au_has_key k au = true)).

(** Steps only ever append to the access units. *)
Definition extends (k : PayloadKind) (f : RtpPacketBuffer -> RtpPacketBuffer) : Prop :=
  forall b, payload_kind b = k ->
    payload_kind (f b) = k /\ (exists aus, ready_aus (f b) = ready_aus b ++ aus) /\
    (wait_keyframe b = true -> withheld k b (f b)).

Lemma extends_comp (k : PayloadKind) f g : extends k f -> extends k g -> extends k (fun b => g (f b)).
Proof.
  intros Hf Hg b Hk. destruct (Hf b Hk) as (F1 & [aus F2] & F3). destruct (Hg _ F1) as (G1 & [aus' G2] & G3).
  split_and!; [done|exists (aus ++ aus'); by rewrite G2, F2, <- app_assoc|].
  intros Hw. split; [done|]. destruct (F3 Hw) as [_ [[Fr Fw]|(au & l & Fr & Fk)]].
  - destruct (G3 Fw) as [_ [[Gr Gw]|(au & l & Gr & Gk)]]; [left; by rewrite Gr, Fr|].
    right. exists au, l. by rewrite Gr, Fr.
  - right. exists au, (l ++ aus'). by rewrite G2, Fr, <- app_assoc.
Qed.

(** An update that keeps the access units and only ever starts to wait. *)
Lemma extends_silent (k : PayloadKind) (f : RtpPacketBuffer -> RtpPacketBuffer) :
  (forall b, payload_kind b = k -> payload_kind (f b) = k /\ ready_aus (f b) = ready_aus b /\
             (wait_keyframe b = true -> wait_keyframe (f b) = true)) -> extends k f.
Proof.
  intros Hf b Hk. destruct (Hf b Hk) as (F1 & F2 & F3). split_and!; [done|exists []; by rewrite app_nil_r|].
  intros Hw. split; [done|]. left. by split; [|apply F3].
Qed.

Lemma finish_extends (k : PayloadKind) : is_raw_video_kind k = true -> extends k finish_access_unit.
Proof.
  intros Hraw [rem aus buf ts dmg wait k' f4 f5 cfg] Hk. simpl in Hk. subst k'.
  unfold finish_access_unit. simpl. destruct buf as [|x buf].
  { simpl. split_and!; [done|exists []; by rewrite app_nil_r|]. intros ->. split; [done|by left]. }
  destruct dmg.
  { simpl. split_and!; [done|exists []; by rewrite app_nil_r|]. intros ->. split; [done|]. left.
    by rewrite orb_true_r. }
  unfold should_output_access_unit, is_raw_video. simpl. rewrite Hraw. simpl. destruct wait; simpl.
  - fold (au_has_key k (x :: buf)). destruct (au_has_key k (x :: buf)) eqn:Hkey; simpl.
    + split_and!; [done|by eexists|]. intros _. split; [done|]. right. by eexists _, [].
    + split_and!; [done|exists []; by rewrite app_nil_r|]. intros _. split; [done|by left].
  - by split_and!; [|eexists|].
Qed.

Lemma append_extends (k : PayloadKind) (ts : Z) (marker : bool) (data : bytes) :
  is_raw_video_kind k = true -> extends k (append_access_unit ts marker data).
Proof.
  intros Hraw. unfold append_access_unit.
  apply (extends_comp k (fun b => match au_timestamp b with
                                  | Some current => if current =? ts then b else finish_access_unit b
                                  | None => b end)
    (fun b1 => let b2 := with_au (au_buffer b1 ++ data) (match au_timestamp b1 with None => Some ts | Some t => Some t end)
                 (au_damaged b1) (wait_keyframe b1) b1 in if marker then finish_access_unit b2 else b2)).
  - intros b Hk. destruct (au_timestamp b) as [t|]; [destruct (t =? ts)|].
    1,3: by apply (extends_silent k (fun b => b)). by apply finish_extends.
  - destruct marker.
    + apply (extends_comp k (fun b1 => with_au (au_buffer b1 ++ data)
        (match au_timestamp b1 with None => Some ts | Some t => Some t end) (au_damaged b1) (wait_keyframe b1) b1)
        finish_access_unit); [by apply extends_silent|by apply finish_extends].
    + by apply extends_silent.
Qed.

Lemma loss_extends (k : PayloadKind) (ts : Z) : extends k (mark_packet_loss ts).
Proof.
  apply extends_silent. intros b Hk. unfold mark_packet_loss. simpl. destruct (au_buffer b); simpl.
  - split_and!; [done|done|]. intros ->. by rewrite orb_true_r.
  - by destruct (match au_timestamp b with Some _ => _ | None => _ end).
Qed.

Lemma process_extends (k : PayloadKind) (pkt : RtpPacket) (lost : bool) :
  is_raw_video_kind k = true -> extends k (process_packet pkt lost).
Proof.
  intros Hraw b Hk.
  assert (extends k (fun b => if lost then mark_packet_loss (pk_timestamp pkt) b else b)) as Hl.
  { destruct lost; [apply loss_extends|by apply (extends_silent k (fun b => b))]. }
  assert (forall fu4 fu5 (data : option bytes), extends k (fun b1 =>
            match data with
            | Some d => append_access_unit (pk_timestamp pkt) (pk_marker pkt) d (with_fu fu4 fu5 b1)
            | None => if pk_marker pkt then finish_access_unit (with_fu fu4 fu5 b1) else with_fu fu4 fu5 b1
            end)) as Hd.
  { intros fu4 fu5 data. assert (extends k (with_fu fu4 fu5)) as Hfu by by apply extends_silent.
    destruct data as [d|]; [|destruct (pk_marker pkt)].
    - apply (extends_comp k (with_fu fu4 fu5) (append_access_unit _ _ d)); [done|by apply append_extends].
    - apply (extends_comp k (with_fu fu4 fu5) finish_access_unit); [done|by apply finish_extends].
    - done. }
  unfold process_packet. rewrite Hk. destruct k; try done.
  - destruct (depacketize_h264 (pk_payload pkt) (h264_fu (if lost then _ else _))) as [data fu].
    apply (extends_comp PH264 _ (fun b1 => match data with Some d => _ | None => _ end) Hl (Hd _ _ data) b Hk).
  - destruct (depacketize_h265 (pk_payload pkt) (h265_fu (if lost then _ else _))) as [data fu].
    apply (extends_comp PH265 _ (fun b1 => match data with Some d => _ | None => _ end) Hl (Hd _ _ data) b Hk).
Qed.

(** The packets the ring hands on, with their loss marks. *)
Definition process_run (ps : list (RtpPacket * bool)) (b : RtpPacketBuffer) : RtpPacketBuffer :=
  foldl (fun b p => process_packet p.1 p.2 b) b ps.

Lemma process_run_extends (k : PayloadKind) (ps : list (RtpPacket * bool)) :
  is_raw_video_kind k = true -> extends k (process_run ps).
Proof.
  intros Hraw. induction ps as [|p ps IH]; [by apply (extends_silent k (fun b => b))|].
  apply (extends_comp k (process_packet p.1 p.2) (process_run ps)); [by apply process_extends|done].
Qed.


