(* ===== verification/TimeScale.v ===== *)
(** * Time stamps of the demuxed packets
    ([stream/src/media/context/utils/time_scale.rs])

    [StreamTimeline] repairs the time stamps of one stream, [TimelineNormalizer]
    those of all streams of a source.  [i64] arithmetic wraps as in a release
    build; FFmpeg's [av_rescale_q] is a parameter. *)
From S2P Require Import Prelude SharedTypes.
Local Open Scope Z_scope.

Definition MAX_DELTA_TICKS : Z := 500000.
Definition DEFAULT_AUDIO_DELTA : Z := 1024.
Definition DEFAULT_VIDEO_DELTA : Z := 1.
Definition MAX_REORDER_DELAY : Z := 16.
(** [AV_NOPTS_VALUE], the least [i64]. *)
Definition AV_NOPTS_VALUE : Z := i64_min.

(** The fields read here; [av_empty] is [data.is_null() || size <= 0]. *)
Record AVPacket := { pts : Z; dts : Z; stream_index : Z; av_empty : bool }.
Definition with_ts (p d : Z) (pkt : AVPacket) : AVPacket := {|
  pts := p; dts := d; stream_index := stream_index pkt; av_empty := av_empty pkt |}.

Definition repair_missing_timestamps (pkt : AVPacket) (reorder_delay : Z) : bool * AVPacket :=
  if (pts pkt =? AV_NOPTS_VALUE) && (dts pkt =? AV_NOPTS_VALUE) then (false, pkt) else
  let no_reorder := reorder_delay <=? 0 in
  let pkt1 :=
    if no_reorder && (pts pkt =? AV_NOPTS_VALUE) then with_ts (dts pkt) (dts pkt) pkt
    else if no_reorder && (dts pkt =? AV_NOPTS_VALUE) then with_ts (pts pkt) (pts pkt) pkt
    else pkt in
  (negb (pts pkt1 =? AV_NOPTS_VALUE) && negb (dts pkt1 =? AV_NOPTS_VALUE), pkt1).

Inductive ProcessResult := POk | Discontinuity.
#[export] Instance ProcessResult_eq_dec : EqDecision ProcessResult.
Proof. solve_decision. Defined.

Record StreamTimeline := {
  last_dts : Z; last_pts : Z; last_origin_dts : Z; normal_delta : Z; initialized : bool;
  is_audio : bool; reorder_delay : Z
}.
Definition StreamTimeline_new (audio : bool) (delay : Z) : StreamTimeline := {|
  last_dts := 0; last_pts := 0; last_origin_dts := 0; normal_delta := 0; initialized := false;
  is_audio := audio; reorder_delay := Z.max 0 (Z.min MAX_REORDER_DELAY delay) |}.

Definition default_delta (t : StreamTimeline) : Z :=
  if is_audio t then DEFAULT_AUDIO_DELTA else DEFAULT_VIDEO_DELTA.
Definition get_delta (t : StreamTimeline) : Z :=
  if 0 <? normal_delta t then normal_delta t else default_delta t.

(** Out of the range of a regular step. *)
Definition irregular (diff : Z) : bool := (diff <? 0) || (MAX_DELTA_TICKS <? diff).

Definition timeline_process (pkt : AVPacket) (t : StreamTimeline) : ProcessResult * AVPacket * StreamTimeline :=
  let '(ok, pkt1) := repair_missing_timestamps pkt (reorder_delay t) in
  if negb ok then (POk, pkt1, t) else
  if negb (initialized t) then
    (POk, pkt1, {| last_dts := dts pkt1; last_pts := pts pkt1; last_origin_dts := dts pkt1;
                   normal_delta := normal_delta t; initialized := true; is_audio := is_audio t;
                   reorder_delay := reorder_delay t |})
  else
    let result := if irregular (i64_sub (dts pkt1) (last_origin_dts t)) then Discontinuity else POk in
    let fix_ := irregular (i64_sub (dts pkt1) (last_dts t)) in
    let d := if fix_ then i64_add (last_dts t) (get_delta t) else dts pkt1 in
    let p := if fix_ then d else pts pkt1 in
    let nd := if fix_ then 0 else normal_delta t in
    let p := if p <? d then d else p in
    let delta := i64_sub d (last_dts t) in
    let nd := if (0 <? delta) && (delta <? MAX_DELTA_TICKS)
              then if nd =? 0 then delta else Z.quot (i64_add (i64_wrap (nd * 7)) (i64_wrap (delta * 3))) 10
              else nd in
    (result, with_ts p d pkt1,
     {| last_dts := d; last_pts := p; last_origin_dts := dts pkt1; normal_delta := nd;
        initialized := true; is_audio := is_audio t; reorder_delay := reorder_delay t |}).

Record TimelineNormalizer := { streams : list (option StreamTimeline); global_base_us : Z }.
Definition TimelineNormalizer_new (n : nat) : TimelineNormalizer := {|
  streams := replicate n None; global_base_us := i64_max |}.
(** [self.streams[idx] = ...] panics out of range. *)
Definition init_stream (idx : nat) (audio : bool) (delay : Z) (n : TimelineNormalizer)
    : outcome unit TimelineNormalizer :=
  if decide (idx < length (streams n))%nat
  then Done {| streams := <[idx := Some (StreamTimeline_new audio delay)]> (streams n);
               global_base_us := global_base_us n |}
  else Panic.
Definition rescale_global_base_us (p : Z) (n : TimelineNormalizer) : TimelineNormalizer :=
  if p =? AV_NOPTS_VALUE then n
  else {| streams := streams n; global_base_us := Z.min (global_base_us n) p |}.

Section Normalizer.
(** [av_rescale_q] from the stream's time base to microseconds. *)
Context (rescale : nat -> Z -> Z).

Definition normalizer_process (pkt : AVPacket) (n : TimelineNormalizer)
    : option Z * ProcessResult * AVPacket * TimelineNormalizer :=
  if stream_index pkt <? 0 then (None, POk, pkt, n) else
  let idx := Z.to_nat (stream_index pkt) in
  match streams n !! idx with
  | None => (None, POk, pkt, n)
  | Some stream =>
      if av_empty pkt then (None, POk, pkt, n) else
      match stream with
      | None => (None, POk, pkt, n)
      | Some t =>
          let '(ok, pkt1) := repair_missing_timestamps pkt (reorder_delay t) in
          if negb ok then (None, POk, pkt1, n) else
          let global := if global_base_us n =? i64_max then 0
                        else i64_saturating_sub (pts pkt1) (global_base_us n) in
          let scale_global := if 0 <? global then rescale idx global else 0 in
          let '(res, pkt2, t1) := timeline_process pkt1 t in
          (Some scale_global, res, pkt2,
           {| streams := <[idx := Some t1]> (streams n); global_base_us := global_base_us n |})
      end
  end.
End Normalizer.

(** ** What the timeline guarantees *)

(** Far from the ends of [i64]. *)
Definition small (x : Z) : Prop := - 2 ^ 61 <= x <= 2 ^ 61.
Definition usable (delay : Z) (pkt : AVPacket) : Prop :=
  (repair_missing_timestamps pkt delay).1 = true /\
  let pkt1 := (repair_missing_timestamps pkt delay).2 in small (pts pkt1) /\ small (dts pkt1).

(** After packets whose repairs moved the time at most [m] past the bound. *)
Definition timeline_wf (m : Z) (t : StreamTimeline) : Prop :=
  0 <= normal_delta t < MAX_DELTA_TICKS /\
  (initialized t = true -> - 2 ^ 61 <= last_dts t <= 2 ^ 61 + m /\ small (last_origin_dts t)).

Fixpoint timeline_run (pkts : list AVPacket) (t : StreamTimeline) : list (ProcessResult * AVPacket) :=
  match pkts with
  | [] => []
  | pkt :: pkts => let '(res, out, t1) := timeline_process pkt t in (res, out) :: timeline_run pkts t1
  end.

(** [outs] are the packets [pkts] regularised, after one sent with decoding
    time [d] that had the time [o] originally. *)
Fixpoint regularised (delay d o : Z) (pkts : list AVPacket) (outs : list (ProcessResult * AVPacket)) : Prop :=
  match pkts, outs with
  | [], [] => True
  | pkt :: pkts, (res, out) :: outs =>
      let pkt1 := (repair_missing_timestamps pkt delay).2 in
      d <= dts out <= d + MAX_DELTA_TICKS /\ dts out <= pts out /\
      (res = Discontinuity <-> irregular (dts pkt1 - o) = true) /\
      (irregular (dts pkt1 - d) = false -> dts out = dts pkt1 /\ pts out = Z.max (pts pkt1) (dts pkt1)) /\
      (irregular (dts pkt1 - d) = true -> d < dts out /\ pts out = dts out) /\
      stream_index out = stream_index pkt /\
      regularised delay (dts out) (dts pkt1) pkts outs
  | _, _ => False
  end.

Lemma get_delta_bounds (t : StreamTimeline) :
  0 <= normal_delta t < MAX_DELTA_TICKS -> 0 < get_delta t < MAX_DELTA_TICKS.
Proof.
  unfold get_delta, default_delta, MAX_DELTA_TICKS, DEFAULT_AUDIO_DELTA, DEFAULT_VIDEO_DELTA.
  destruct (Z.ltb_spec 0 (normal_delta t)); [lia|]. destruct (is_audio t); lia.
Qed.

Lemma repair_index (pkt : AVPacket) (delay : Z) :
  stream_index (repair_missing_timestamps pkt delay).2 = stream_index pkt.
Proof. unfold repair_missing_timestamps. by repeat case_match. Qed.

Lemma learned_delta_bounds (nd delta : Z) :
  0 <= nd < MAX_DELTA_TICKS -> 0 < delta < MAX_DELTA_TICKS ->
  0 <= Z.quot (i64_add (i64_wrap (nd * 7)) (i64_wrap (delta * 3))) 10 < MAX_DELTA_TICKS.
Proof.
  unfold MAX_DELTA_TICKS. intros Hn Hd. unfold i64_add.
  rewrite (i64_wrap_small (nd * 7)), (i64_wrap_small (delta * 3)), i64_wrap_small
    by (unfold i64_min, i64_max; lia).
  rewrite Z.quot_div_nonneg by lia. zmod.
Qed.

(** One packet of an initialised timeline. *)
Lemma timeline_step (m : Z) (pkt : AVPacket) (t : StreamTimeline) :
  0 <= m <= 2 ^ 61 -> timeline_wf m t -> initialized t = true -> usable (reorder_delay t) pkt ->
  let pkt1 := (repair_missing_timestamps pkt (reorder_delay t)).2 in
  let '(res, out, t1) := timeline_process pkt t in
  timeline_wf (m + MAX_DELTA_TICKS) t1 /\ initialized t1 = true /\ reorder_delay t1 = reorder_delay t /\
  last_dts t1 = dts out /\ last_origin_dts t1 = dts pkt1 /\ stream_index out = stream_index pkt /\
  last_dts t <= dts out <= last_dts t + MAX_DELTA_TICKS /\ dts out <= pts out /\
  (res = Discontinuity <-> irregular (dts pkt1 - last_origin_dts t) = true) /\
  (irregular (dts pkt1 - last_dts t) = false -> dts out = dts pkt1 /\ pts out = Z.max (pts pkt1) (dts pkt1)) /\
  (irregular (dts pkt1 - last_dts t) = true -> last_dts t < dts out /\ pts out = dts out).
Proof.
  intros Hm [Hnd Hwf] Hi [Hok [Hp Hd]]. destruct (Hwf Hi) as [Hl Ho].
  unfold timeline_process. pose proof (repair_index pkt (reorder_delay t)) as Hidx.
  destruct (repair_missing_timestamps pkt (reorder_delay t)) as [ok p1] eqn:Hrep.
  cbv zeta in *. cbn [fst snd] in *. subst ok. rewrite Hi. simpl. unfold small in *. pose proof (get_delta_bounds t Hnd) as Hgd.
  assert (i64_sub (dts p1) (last_origin_dts t) = dts p1 - last_origin_dts t) as ->
    by (unfold i64_sub; apply i64_wrap_small; unfold i64_min, i64_max; lia).
  assert (i64_sub (dts p1) (last_dts t) = dts p1 - last_dts t) as ->
    by (unfold i64_sub; apply i64_wrap_small; unfold i64_min, i64_max; lia).
  assert (i64_add (last_dts t) (get_delta t) = last_dts t + get_delta t) as ->
    by (unfold i64_add; apply i64_wrap_small; unfold i64_min, i64_max, MAX_DELTA_TICKS in *; lia).
  set (fx := irregular (dts p1 - last_dts t)).
  assert (fx = false -> 0 <= dts p1 - last_dts t <= MAX_DELTA_TICKS) as Hfx.
  { unfold fx, irregular. intros Hf. apply orb_false_iff in Hf as [H1 H2]. zbool. lia. }
  set (d := if fx then last_dts t + get_delta t else dts p1).
  assert (last_dts t <= d <= last_dts t + MAX_DELTA_TICKS) as Hdb
    by (unfold d, MAX_DELTA_TICKS in *; destruct fx; [|specialize (Hfx eq_refl)]; lia).
  assert (i64_sub d (last_dts t) = d - last_dts t) as ->
    by (unfold i64_sub; apply i64_wrap_small; unfold i64_min, i64_max, MAX_DELTA_TICKS in *; lia).
  split_and!; try done; simpl; try (clear -Hdb; lia).
  - split; simpl; [|intros _].
    + destruct (Z.ltb_spec 0 (d - last_dts t)), (Z.ltb_spec (d - last_dts t) MAX_DELTA_TICKS); simpl;
        try (destruct fx; unfold MAX_DELTA_TICKS in *; lia).
      destruct fx; simpl; [unfold MAX_DELTA_TICKS in *; lia|].
      destruct (Z.eqb_spec (normal_delta t) 0); [unfold MAX_DELTA_TICKS in *; lia|].
      apply learned_delta_bounds; unfold MAX_DELTA_TICKS in *; lia.
    + unfold small. unfold MAX_DELTA_TICKS in *. split; [|lia]. unfold d.
      destruct fx; [lia|specialize (Hfx eq_refl); lia].
  - match goal with |- _ <= (if ?x <? ?y then _ else _) => destruct (Z.ltb_spec x y); lia end.
  - destruct (irregular (dts p1 - last_origin_dts t)); naive_solver.
  - intros Hf. unfold d. rewrite Hf. simpl. split; [done|]. destruct (Z.ltb_spec (pts p1) (dts p1)); lia.
  - intros Hf. unfold d. rewrite Hf. simpl. rewrite Z.ltb_irrefl. split; [lia|done].
Qed.

Lemma timeline_run_regularised (pkts : list AVPacket) : forall m t,
  timeline_wf m t -> initialized t = true -> 0 <= m -> m + Z.of_nat (length pkts) * MAX_DELTA_TICKS <= 2 ^ 61 ->
  Forall (usable (reorder_delay t)) pkts ->
  regularised (reorder_delay t) (last_dts t) (last_origin_dts t) pkts (timeline_run pkts t).
Proof.
  induction pkts as [|pkt pkts IH]; intros m t Hwf Hi H0 Hm Hall; [done|].
  apply Forall_cons in Hall as [Hp Hall]. cbn [length] in Hm. unfold MAX_DELTA_TICKS in Hm.
  pose proof (timeline_step m pkt t ltac:(lia) Hwf Hi Hp) as Hs. cbn [timeline_run regularised].
  destruct (timeline_process pkt t) as [[res out] t1].
  destruct Hs as (S1 & S2 & S3 & S4 & S5 & S6 & S7 & S8 & S9 & S10 & S11).
  split_and!; try done; try lia. rewrite <- S4, <- S5, <- S3.
  apply (IH (m + MAX_DELTA_TICKS)); [done|done| |unfold MAX_DELTA_TICKS; lia|by rewrite S3].
  unfold MAX_DELTA_TICKS. lia.
Qed.

(** The time stamps of a stream are regular.  Of packets that carry time
    stamps, or one of the two when no reordering is expected, the first passes
    as it is; after it, decoding times never decrease and never jump by more
    than 500000 ticks, no packet is presented before it is decoded, a packet
    in step with the last one sent keeps its times (its presentation time
    raised to the decoding time if it was earlier), one out of step is placed
    a positive learned step after it, and a discontinuity is reported exactly
    when the original times go back or jump.  The times are to be within 2^61
    and the packets fewer than 2^40, so that no [i64] overflows. *)
Theorem timeline_regular (audio : bool) (delay : Z) (pkt : AVPacket) (pkts : list AVPacket) :
  let t := StreamTimeline_new audio delay in
  Forall (usable (reorder_delay t)) (pkt :: pkts) -> Z.of_nat (length pkts) < 2 ^ 40 ->
  let first := (repair_missing_timestamps pkt (reorder_delay t)).2 in
  exists outs, timeline_run (pkt :: pkts) t = (POk, first) :: outs /\
    regularised (reorder_delay t) (dts first) (dts first) pkts outs.
Proof.
  intros t [Hp Hall]%Forall_cons Hlen. cbn [timeline_run]. unfold timeline_process.
  destruct Hp as [Hok [Hpts Hdts]].
  destruct (repair_missing_timestamps pkt (reorder_delay t)) as [ok p1].
  cbv zeta in Hpts, Hdts. cbn [fst snd] in *. subst ok. cbn [negb initialized t StreamTimeline_new].
  set (t1 := Build_StreamTimeline _ _ _ _ _ _ _). exists (timeline_run pkts t1). split; [done|].
  apply (timeline_run_regularised pkts 0 t1); [|done|lia|unfold MAX_DELTA_TICKS; lia|done].
  split; [done|]. intros _. simpl. unfold small in *. split; [lia|done].
Qed.

Lemma timeline_regular_witness :
  let p a b := {| pts := a; dts := b; stream_index := 0; av_empty := false |} in
  (fun o => (o.1, dts o.2)) <$> timeline_run [p 100 100; p 140 140; p 10 10; p 60 50] (StreamTimeline_new false 0)
  = [(POk, 100); (POk, 140); (Discontinuity, 180); (POk, 220)] /\
  exists outs, timeline_run [p 100 100; p 140 140; p 10 10; p 60 50] (StreamTimeline_new false 0)
    = (POk, p 100 100) :: outs /\ regularised 0 100 100 [p 140 140; p 10 10; p 60 50] outs.
Proof.
  intros p. split; [by vm_compute|].
  apply (timeline_regular false 0 (p 100 100) [p 140 140; p 10 10; p 60 50]); [|done].
  repeat constructor; simpl; unfold small; lia.
Defined.
