(* ===== verification/H265Flv.v ===== *)
(** * The H.265 FLV muxer ([stream/src/media/context/format/h265flv.rs])

    FLV tags around H.265 access units and audio frames, the conversion of
    Annex B data to length-prefixed units, and the decoder configuration.
    FFmpeg's numbers of the codecs and its [av_rescale_q] are parameters; the
    streams FFmpeg found are arguments. *)
From S2P Require Import Prelude Bytes SharedTypes StreamOutputs MediaRegister RtpIngest RtpDepacket.
Local Open Scope Z_scope.

Definition i32_wrap (x : Z) : Z := (x + 2 ^ 31) mod 2 ^ 32 - 2 ^ 31.

Definition FLV_TAG_AUDIO : Z := 8.
Definition FLV_TAG_VIDEO : Z := 9.
Definition FLV_CODEC_H265 : Z := 12.
Definition FLV_CODEC_AAC : Z := 10.
Definition FLV_FRAME_KEY : Z := 1.
Definition FLV_FRAME_INTER : Z := 2.
Definition FLV_AUDIO_BITS_16 : Z := 1.
Definition FLV_CODEC_G711_A : Z := 7.
Definition FLV_CODEC_G711_MU : Z := 8.

Record AVRational := { tb_num : Z; tb_den : Z }.
Definition FLV_TIME_BASE : AVRational := {| tb_num := 1; tb_den := 1000 |}.
Record AudioStreamInfo := {
  as_stream_index : Z; as_codec_id : Z; as_sample_rate : Z; as_channels : Z; as_extradata : bytes;
  as_time_base : AVRational
}.
Record H265ParameterSets := { h_vps : option bytes; h_sps : option bytes; h_pps : option bytes }.
(** [mp_epoch]: the instant the context was made. *)
Record MuxPacket := { mp_data : bytes; mp_is_key : bool; mp_timestamp : Z; mp_epoch : Z; mp_seq : Z }.
Record H265FlvContext := {
  fx_vps : bytes; fx_sps : bytes; fx_pps : bytes; fx_video_extradata : bytes; fx_video_stream_index : Z;
  fx_video_time_base : AVRational; fx_audio_streams : gmap Z AudioStreamInfo; fx_header : bytes; fx_epoch : Z
}.

(** ** The decoder configuration *)

Definition is_hvcc (data : bytes) : bool :=
  (23 <=? Z.of_nat (length data)) && (byte_at 0 data =? 1) && (Z.land (byte_at 21 data) 3 =? 3).
Definition hvcc_array (nal_type : Z) (nal : bytes) : bytes :=
  match nal with
  | [] => []
  | _ => [Z.lor 128 nal_type] ++ be_bytes 2 1 ++ be_bytes 2 (Z.of_nat (length nal)) ++ nal
  end.
Definition build_hvcc_from_nalus (vps sps pps : bytes) : bytes :=
  let present (nal : bytes) := match nal with [] => 0 | _ => 1 end in
  [1; 1; 0; 0; 0; 0; 0; 0; 0; 0; 0; 0; 120; 240; 0; 252; Z.lor 252 1; 248; 248; 0; 0; 3;
   present vps + present sps + present pps]
  ++ hvcc_array 32 vps ++ hvcc_array 33 sps ++ hvcc_array 34 pps.
Definition ensure_hvcc (extradata vps sps pps : bytes) : bytes :=
  if is_hvcc extradata then extradata else build_hvcc_from_nalus vps sps pps.

(** ** Annex B to length prefixes *)

Definition is_keyframe (nal_type : Z) : bool := bool_decide (nal_type ∈ [19; 20; 21]).
Definition get_nal_type (nalu : bytes) : Z :=
  match nalu with [] => 0 | b :: _ => Z.land (Z.shiftr b 1) 63 end.

(** At the head of what is left. *)
Definition annexb_start_code_len (l : bytes) : option nat :=
  match l with
  | 0 :: 0 :: 0 :: 1 :: _ => Some 4%nat
  | 0 :: 0 :: 1 :: _ => Some 3%nat
  | _ => None
  end.
Fixpoint scan_start_code (l : bytes) (pos : nat) : option (nat * nat) :=
  match annexb_start_code_len l with
  | Some n => Some (pos, n)
  | None => match l with [] => None | _ :: l => scan_start_code l (S pos) end
  end.
Definition find_annexb_start_code (data : bytes) (from : nat) : option (nat * nat) :=
  scan_start_code (drop from data) from.

(** The offset only grows; [fuel] is the length. *)
Fixpoint parse_avcc_loop (fuel : nat) (data : bytes) : list bytes :=
  match fuel with
  | O => []
  | S fuel =>
      if decide (length data < 4)%nat then [] else
      let nal_len := of_be (take 4 data) in
      let rest := drop 4 data in
      if Z.of_nat (length rest) <? nal_len then []
      else take (Z.to_nat nal_len) rest :: parse_avcc_loop fuel (drop (Z.to_nat nal_len) rest)
  end.
Definition parse_avcc (data : bytes) : list bytes := parse_avcc_loop (length data) data.

Section Filter.
(** The filter, with the state its closure changes. *)
Context {X : Type} (keep : Z -> X -> bool * X).

Definition append_filtered_nalu (out : bytes) (x : X) (nal : bytes) : bytes * X :=
  match nal with
  | [] => (out, x)
  | _ => let '(kept, x1) := keep (get_nal_type nal) x in
         (if kept then out ++ be_bytes 4 (Z.of_nat (length nal)) ++ nal else out, x1)
  end.
Fixpoint annexb_loop (fuel : nat) (data : bytes) (nal_start : nat) (out : bytes) (x : X) : bytes * X :=
  match fuel with
  | O => (out, x)
  | S fuel =>
      if decide (length data <= nal_start)%nat then (out, x) else
      match find_annexb_start_code data nal_start with
      | Some (next_pos, next_len) =>
          let '(out1, x1) :=
            if decide (nal_start < next_pos)%nat
            then append_filtered_nalu out x (take (next_pos - nal_start) (drop nal_start data)) else (out, x) in
          annexb_loop fuel data (next_pos + next_len) out1 x1
      | None => append_filtered_nalu out x (drop nal_start data)
      end
  end.
Definition annexb_to_avcc_fast (data : bytes) (x : X) : bytes * X :=
  match find_annexb_start_code data 0 with
  | None => foldl (fun ox nal => append_filtered_nalu ox.1 ox.2 nal) ([], x) (parse_avcc data)
  | Some (start_pos, start_len) => annexb_loop (length data) data (start_pos + start_len) [] x
  end.
End Filter.

(** ** Tags *)

Definition build_flv_tag (tag_type : Z) (body : bytes) (dts : Z) : bytes :=
  let tag := [tag_type] ++ be_bytes 3 (Z.of_nat (length body)) ++ be_bytes 3 dts
             ++ [Z.land (Z.shiftr dts 24) 255] ++ [0; 0; 0] ++ body in
  tag ++ be_bytes 4 (Z.of_nat (length tag)).

Definition get_flv_samplerate_index (sample_rate : Z) : Z :=
  if sample_rate =? 5512 then 0 else if sample_rate =? 11025 then 1 else if sample_rate =? 22050 then 2 else 3.

(** The removal of an ADTS header. *)
Definition strip_adts (data : bytes) : bytes :=
  if (7 <=? Z.of_nat (length data)) && (byte_at 0 data =? 255) && (Z.land (byte_at 1 data) 240 =? 240) then
    let header_len := if Z.land (byte_at 1 data) 1 =? 0 then 9%nat else 7%nat in
    if decide (header_len < length data)%nat then drop header_len data else data
  else data.

Definition build_video_sequence_header (c : H265FlvContext) : bytes :=
  build_flv_tag FLV_TAG_VIDEO
    ([Z.lor (Z.shiftl FLV_FRAME_KEY 4) FLV_CODEC_H265; 0; 0; 0; 0] ++ fx_video_extradata c) 0.
Definition build_video_data_tag (frame_type cts : Z) (payload : bytes) (dts : Z) : bytes :=
  build_flv_tag FLV_TAG_VIDEO
    ([Z.lor (Z.shiftl frame_type 4) FLV_CODEC_H265; 1] ++ be_bytes 3 cts ++ payload) dts.

Inductive FlvError := UnsupportedAudioCodec | MissingExtradata | MissingParameterSets | NoVideoStream | NoReceiver.

(** What FFmpeg found, and a packet it read. *)
Inductive StreamKind := VideoStream | AudioStream | OtherStream.
Record FmtStream := {
  fs_kind : StreamKind; fs_time_base : AVRational; fs_codec_id : Z; fs_sample_rate : Z; fs_channels : Z;
  fs_extradata : bytes
}.
Record AVPacket := { pkt_stream_index : Z; pkt_dts : Z; pkt_pts : Z; pkt_data : bytes }.

Section Muxer.
Context (AAC PCM_ALAW PCM_MULAW : Z) (av_rescale_q : Z -> AVRational -> AVRational -> Z).
Context `{!MapIter Z}.

Definition audio_header (info : AudioStreamInfo) : option Z :=
  let header codec := Z.lor (Z.lor (Z.lor (Z.shiftl codec 4) (Z.shiftl (get_flv_samplerate_index (as_sample_rate info)) 2))
                             (Z.shiftl FLV_AUDIO_BITS_16 1)) (if as_channels info =? 2 then 1 else 0) in
  if as_codec_id info =? AAC then Some (header FLV_CODEC_AAC)
  else if as_codec_id info =? PCM_ALAW then Some (header FLV_CODEC_G711_A)
  else if as_codec_id info =? PCM_MULAW then Some (header FLV_CODEC_G711_MU)
  else None.
Definition build_audio_sequence_header (info : AudioStreamInfo) : outcome FlvError bytes :=
  match audio_header info with
  | None => Failed UnsupportedAudioCodec
  | Some header =>
      Done (build_flv_tag FLV_TAG_AUDIO
              ([header] ++ (if as_codec_id info =? AAC then [0] ++ as_extradata info else [])) 0)
  end.
Definition build_audio_data_tag (info : AudioStreamInfo) (raw_audio : bytes) (dts : Z) : outcome FlvError bytes :=
  match audio_header info with
  | None => Failed UnsupportedAudioCodec
  | Some header =>
      Done (build_flv_tag FLV_TAG_AUDIO
              ([header] ++ (if as_codec_id info =? AAC then [1] else []) ++ raw_audio) dts)
  end.

(** The file header, the video configuration, and the AAC configurations in the
    order of the map. *)
Definition build_full_header (c : H265FlvContext) : outcome FlvError bytes :=
  foldl (fun h kv =>
    match h with
    | Done h =>
        if negb (bool_decide (as_extradata kv.2 = [])) && (as_codec_id kv.2 =? AAC)
        then match build_audio_sequence_header kv.2 with Done t => Done (h ++ t) | Failed e => Failed e | Panic => Panic end
        else Done h
    | e => e
    end)
    (Done ([70; 76; 86; 1; 5; 0; 0; 0; 9; 0; 0; 0; 0] ++ build_video_sequence_header c))
    (map_iter (fx_audio_streams c)).

Definition with_video (vps sps pps : bytes) (index : Z) (tb : AVRational) (extradata : bytes) (c : H265FlvContext) := {|
  fx_vps := fx_vps c ++ vps; fx_sps := fx_sps c ++ sps; fx_pps := fx_pps c ++ pps; fx_video_extradata := extradata;
  fx_video_stream_index := index; fx_video_time_base := tb; fx_audio_streams := fx_audio_streams c;
  fx_header := fx_header c; fx_epoch := fx_epoch c |}.
Definition with_audio (index : Z) (info : AudioStreamInfo) (c : H265FlvContext) := {|
  fx_vps := fx_vps c; fx_sps := fx_sps c; fx_pps := fx_pps c; fx_video_extradata := fx_video_extradata c;
  fx_video_stream_index := fx_video_stream_index c; fx_video_time_base := fx_video_time_base c;
  fx_audio_streams := <[index := info]> (fx_audio_streams c); fx_header := fx_header c; fx_epoch := fx_epoch c |}.
Definition with_header (h : bytes) (c : H265FlvContext) := {|
  fx_vps := fx_vps c; fx_sps := fx_sps c; fx_pps := fx_pps c; fx_video_extradata := fx_video_extradata c;
  fx_video_stream_index := fx_video_stream_index c; fx_video_time_base := fx_video_time_base c;
  fx_audio_streams := fx_audio_streams c; fx_header := h; fx_epoch := fx_epoch c |}.

(** One stream; [ps]: the parameter sets the demuxer collected for it, if any. *)
Definition init_av_stream (i : Z) (s : FmtStream) (ps : option H265ParameterSets) (c : H265FlvContext)
    : outcome FlvError H265FlvContext :=
  match fs_kind s with
  | VideoStream =>
      match ps with
      | Some {| h_vps := Some vps; h_sps := Some sps; h_pps := Some pps |} =>
          match fs_extradata s with
          | [] => Failed MissingExtradata
          | extradata =>
              Done (with_video vps sps pps i (fs_time_base s)
                      (ensure_hvcc extradata (fx_vps c ++ vps) (fx_sps c ++ sps) (fx_pps c ++ pps)) c)
          end
      | _ => Failed MissingParameterSets
      end
  | AudioStream =>
      Done (with_audio i {| as_stream_index := i; as_codec_id := fs_codec_id s; as_sample_rate := fs_sample_rate s;
              as_channels := fs_channels s; as_extradata := fs_extradata s; as_time_base := fs_time_base s |} c)
  | OtherStream => Done c
  end.
Fixpoint init_av_streams (i : Z) (streams : list FmtStream) (params : list (option H265ParameterSets)) (c : H265FlvContext)
    : outcome FlvError H265FlvContext :=
  match streams with
  | [] => Done c
  | s :: streams =>
      match init_av_stream i s (mjoin (head params)) c with
      | Done c1 => init_av_streams (i + 1) streams (tail params) c1
      | Failed e => Failed e
      | Panic => Panic
      end
  end.
Definition init_context (now : Z) (streams : list FmtStream) (params : list (option H265ParameterSets))
    : outcome FlvError H265FlvContext :=
  match init_av_streams 0 streams params {|
      fx_vps := []; fx_sps := []; fx_pps := []; fx_video_extradata := []; fx_video_stream_index := -1;
      fx_video_time_base := {| tb_num := 0; tb_den := 0 |}; fx_audio_streams := ∅; fx_header := []; fx_epoch := now |} with
  | Done c =>
      if fx_video_stream_index c =? -1 then Failed NoVideoStream
      else if bool_decide (fx_video_extradata c = []) then Failed MissingExtradata
      else match build_full_header c with
           | Done h => Done (with_header h c) | Failed e => Failed e | Panic => Panic
           end
  | e => e
  end.
Definition get_header (c : H265FlvContext) : bytes := fx_header c.

(** The filter of a video packet; its state is [is_key]. *)
Definition video_filter (nal_type : Z) (is_key : bool) : bool * bool :=
  (negb (bool_decide (nal_type ∈ [32; 33; 34; 35; 39; 40; 41; 42])), is_key || is_keyframe nal_type).

(** [listened]: whether the broadcast channel has a receiver. *)
Definition send_packet (listened : bool) (p : MuxPacket) (sent : list MuxPacket) : outcome FlvError unit * list MuxPacket :=
  if listened then (Done tt, sent ++ [p]) else (Failed NoReceiver, sent).
Definition write_packet (listened : bool) (pkt : AVPacket) (timestamp : Z) (c : H265FlvContext) (sent : list MuxPacket)
    : outcome FlvError unit * list MuxPacket :=
  let packet data is_key :=
    {| mp_data := data; mp_is_key := is_key; mp_timestamp := timestamp; mp_epoch := fx_epoch c; mp_seq := 0 |} in
  if pkt_stream_index pkt =? fx_video_stream_index c then
    match pkt_data pkt with
    | [] => (Done tt, sent)
    | data =>
        let dts := Z.max (av_rescale_q (pkt_dts pkt) (fx_video_time_base c) FLV_TIME_BASE) 0 in
        let pts := Z.max (av_rescale_q (pkt_pts pkt) (fx_video_time_base c) FLV_TIME_BASE) 0 in
        let '(avcc, is_key) := annexb_to_avcc_fast video_filter data false in
        match avcc with
        | [] => (Done tt, sent)
        | _ =>
            let cts := if dts <? pts then i32_wrap (pts - dts) else 0 in
            let frame_type := if is_key then FLV_FRAME_KEY else FLV_FRAME_INTER in
            send_packet listened (packet (build_video_data_tag frame_type cts avcc (dts mod 2 ^ 32)) is_key) sent
        end
    end
  else
    match fx_audio_streams c !! pkt_stream_index pkt with
    | None => (Done tt, sent)
    | Some info =>
        match pkt_data pkt with
        | [] => (Done tt, sent)
        | data =>
            let dts := Z.max (av_rescale_q (pkt_dts pkt) (as_time_base info) FLV_TIME_BASE) 0 mod 2 ^ 32 in
            let raw_audio := if as_codec_id info =? AAC then strip_adts data else data in
            match build_audio_data_tag info raw_audio dts with
            | Done tag => send_packet listened (packet tag false) sent
            | Failed e => (Failed e, sent)
            | Panic => (Panic, sent)
            end
        end
    end.
End Muxer.
