(* ===== verification/H265FlvProps.v ===== *)
(** * What a player reads from the H.265 FLV muxer

    A reader of FLV tags, of length-prefixed units and of the decoder
    configuration, and that it gets back what was put in. *)
From S2P Require Import Prelude Bytes SharedTypes StreamOutputs MediaRegister RtpIngest RtpDepacket H265Flv.
Local Open Scope Z_scope.

(** ** Length-prefixed units *)

Definition prefixed (nal : bytes) : bytes := be_bytes 4 (Z.of_nat (length nal)) ++ nal.
Lemma length_prefixed nal : length (prefixed nal) = (4 + length nal)%nat.
Proof. unfold prefixed. by rewrite length_app, length_be_bytes. Qed.

Lemma parse_avcc_loop_prefixed nals : Forall (fun nal => Z.of_nat (length nal) < 2 ^ 32) nals ->
  forall fuel, (length (mjoin (prefixed <$> nals)) <= fuel)%nat ->
  parse_avcc_loop fuel (mjoin (prefixed <$> nals)) = nals.
Proof.
  induction 1 as [|nal nals Hn _ IH]; intros fuel Hf; [by destruct fuel|].
  change (mjoin (prefixed <$> nal :: nals)) with (prefixed nal ++ mjoin (prefixed <$> nals)) in *.
  rewrite length_app, length_prefixed in Hf. destruct fuel as [|fuel]; [lia|]. cbn [parse_avcc_loop].
  rewrite decide_False by (rewrite length_app, length_prefixed; lia).
  assert (forall rest, take 4 (prefixed nal ++ rest) = be_bytes 4 (Z.of_nat (length nal)) /\
    drop 4 (prefixed nal ++ rest) = nal ++ rest) as Hp by done.
  rewrite !(proj1 (Hp _)), !(proj2 (Hp _)).
  rewrite of_be_small by (simpl; lia). rewrite (proj2 (Z.ltb_ge _ _)) by (rewrite length_app; lia).
  rewrite Nat2Z.id, take_app_length, drop_app_length. f_equal. apply IH. lia.
Qed.
Lemma parse_avcc_prefixed nals : Forall (fun nal => Z.of_nat (length nal) < 2 ^ 32) nals ->
  parse_avcc (mjoin (prefixed <$> nals)) = nals.
Proof. intros Hn. by apply parse_avcc_loop_prefixed. Qed.

(** ** Annex B *)

(** No start code inside a unit, and none across its end. *)
Fixpoint clean (l : bytes) : Prop := annexb_start_code_len l = None /\ match l with [] => True | _ :: l => clean l end.
Definition nal_ok (nal : bytes) : Prop :=
  nal <> [] /\ clean nal /\ last nal <> Some 0 /\ Z.of_nat (length nal) < 2 ^ 32.
Definition start_code (long : bool) : bytes := if long then [0; 0; 0; 1] else [0; 0; 1].
Definition annexb (units : list (bool * bytes)) : bytes := mjoin ((fun u => start_code u.1 ++ u.2) <$> units).

Lemma code_len_start long more : annexb_start_code_len (start_code long ++ more) = Some (length (start_code long)).
Proof. by destruct long. Qed.
Lemma code_len_inside a l rest : annexb_start_code_len (a :: l) = None -> last (a :: l) <> Some 0 ->
  annexb_start_code_len ((a :: l) ++ rest) = None.
Proof.
  intros Hc Hl. destruct l as [|b [|c [|d l]]]; simpl in *.
  - by destruct a.
  - destruct a; try done; by destruct b.
  - destruct a; try done; destruct b; try done; destruct c as [|p|p]; try done; by destruct p.
  - done.
Qed.
Lemma find_start_inside nal : clean nal -> last nal <> Some 0 -> forall rest pos,
  scan_start_code (nal ++ rest) pos = scan_start_code rest (pos + length nal).
Proof.
  induction nal as [|a nal IH]; intros [Hc Hcl] Hl rest pos; [by rewrite Nat.add_0_r|].
  cbn [app scan_start_code]. rewrite app_comm_cons, code_len_inside by done. simpl app.
  rewrite IH; [simpl; f_equal; lia|done|]. destruct nal; [done|]. by rewrite last_cons_cons in Hl.
Qed.
Lemma scan_start_code_at long more pos : scan_start_code (start_code long ++ more) pos = Some (pos, length (start_code long)).
Proof. by destruct long. Qed.

Section Units.
Context {X : Type} (keep : Z -> X -> bool * X).

(** The reference: the units kept, each with its length, and the state. *)
Fixpoint kept_units (nals : list bytes) (x : X) : list bytes * X :=
  match nals with
  | [] => ([], x)
  | nal :: nals =>
      let '(k, x1) := keep (get_nal_type nal) x in
      let '(rest, x2) := kept_units nals x1 in (if k then nal :: rest else rest, x2)
  end.

Lemma append_kept out x nal : nal <> [] ->
  append_filtered_nalu keep out x nal =
  (out ++ mjoin (prefixed <$> (kept_units [nal] x).1), (kept_units [nal] x).2).
Proof.
  intros Hn. unfold append_filtered_nalu. destruct nal as [|b nal]; [done|]. cbn [kept_units].
  destruct (keep (get_nal_type (b :: nal)) x) as [[] x1]; simpl; by rewrite ?app_nil_r.
Qed.
Lemma kept_cons nal nals x :
  kept_units (nal :: nals) x =
  ((kept_units [nal] x).1 ++ (kept_units nals (kept_units [nal] x).2).1, (kept_units nals (kept_units [nal] x).2).2).
Proof. cbn [kept_units]. destruct (keep (get_nal_type nal) x) as [[] x1]; simpl; by destruct (kept_units nals x1). Qed.

(** The loop at the start of a unit, with [done_] before it. *)
Lemma annexb_loop_units units : forall nal done_ out x fuel,
  nal_ok nal -> Forall (fun u => nal_ok u.2) units -> (length units < fuel)%nat ->
  annexb_loop keep fuel (done_ ++ nal ++ annexb units) (length done_) out x =
  (out ++ mjoin (prefixed <$> (kept_units (nal :: units.*2) x).1), (kept_units (nal :: units.*2) x).2).
Proof.
  induction units as [|[long nal'] units IH]; intros nal done_ out x fuel (Hne & Hc & Hl & Hlen) Hu Hf;
    (destruct fuel as [|fuel]; [simpl in Hf; lia|]); cbn [annexb_loop].
  all: assert (1 <= length nal)%nat as Hpos by (destruct nal; [done|simpl; lia]).
  all: rewrite decide_False by (rewrite !length_app; lia).
  all: unfold find_annexb_start_code; rewrite drop_app_length.
  - unfold annexb. simpl. rewrite app_nil_r. rewrite <- (app_nil_r nal) at 1. rewrite find_start_inside by done. simpl.
    change (kept_units [nal] x) with (kept_units [nal] x). rewrite append_kept by done. done.
  - change (annexb ((long, nal') :: units)) with ((start_code long ++ nal') ++ annexb units). rewrite <- app_assoc.
    rewrite find_start_inside, scan_start_code_at by done. rewrite decide_True by lia.
    replace (length done_ + length nal - length done_)%nat with (length nal) by lia. rewrite take_app_length.
    rewrite append_kept by done. apply Forall_cons in Hu as [Hu1 Hu2].
    replace (done_ ++ nal ++ start_code long ++ nal' ++ annexb units)
      with ((done_ ++ nal ++ start_code long) ++ nal' ++ annexb units) by (by rewrite <- !app_assoc).
    replace (length done_ + length nal + length (start_code long))%nat with (length (done_ ++ nal ++ start_code long))
      by (rewrite !length_app; lia).
    rewrite IH by (done || (simpl in Hf; lia)). cbn [fmap list_fmap snd]. rewrite (kept_cons nal (nal' :: _)). cbn [fst snd].
    by rewrite fmap_app, join_app, <- app_assoc.
Qed.

Lemma annexb_converted long nal units x :
  Forall (fun u => nal_ok u.2) ((long, nal) :: units) ->
  annexb_to_avcc_fast keep (annexb ((long, nal) :: units)) x =
  (mjoin (prefixed <$> (kept_units (nal :: units.*2) x).1), (kept_units (nal :: units.*2) x).2).
Proof.
  intros Hu. apply Forall_cons in Hu as [Hn Hu]. unfold annexb_to_avcc_fast, find_annexb_start_code.
  change (annexb ((long, nal) :: units)) with ((start_code long ++ nal) ++ annexb units). rewrite <- app_assoc, drop_0.
  rewrite scan_start_code_at. cbn [Nat.add]. rewrite annexb_loop_units; [done..|]. rewrite !length_app.
  assert (length units <= length (annexb units))%nat; [|destruct long; simpl; lia].
  clear. induction units as [|[l n] units IH]; [simpl; lia|].
  change (annexb ((l, n) :: units)) with ((start_code l ++ n) ++ annexb units). rewrite !length_app.
  destruct l; cbn [start_code length]; lia.
Qed.
Lemma prefixed_converted nals x :
  Forall nal_ok nals -> find_annexb_start_code (mjoin (prefixed <$> nals)) 0 = None ->
  annexb_to_avcc_fast keep (mjoin (prefixed <$> nals)) x =
  (mjoin (prefixed <$> (kept_units nals x).1), (kept_units nals x).2).
Proof.
  intros Hn Hf. unfold annexb_to_avcc_fast. rewrite Hf, parse_avcc_prefixed.
  2: { eapply Forall_impl; [exact Hn|]. by intros nal (_ & _ & _ & ?). }
  assert (forall out, foldl (fun ox nal => append_filtered_nalu keep ox.1 ox.2 nal) (out, x) nals =
    (out ++ mjoin (prefixed <$> (kept_units nals x).1), (kept_units nals x).2)) as ->; [|done].
  clear Hf. revert x. induction Hn as [|nal nals (Hne & _) _ IH]; intros x out; [by rewrite app_nil_r|].
  cbn [foldl fst snd]. rewrite append_kept by done. rewrite IH, (kept_cons nal nals). cbn [fst snd].
  by rewrite fmap_app, join_app, <- app_assoc.
Qed.
End Units.

(** ** Tags *)

Record Tag := { tag_type : Z; tag_dts : Z; tag_body : bytes }.
Definition tag_ok (t : Tag) : Prop :=
  0 <= tag_dts t < 2 ^ 32 /\ Z.of_nat (length (tag_body t)) < 2 ^ 24.
(** A reader of the format: the header, the body, and the size that repeats. *)
Definition read_tag (l : bytes) : option (Tag * bytes) :=
  match l with
  | ty :: s2 :: s1 :: s0 :: t2 :: t1 :: t0 :: t3 :: 0 :: 0 :: 0 :: rest =>
      let size := of_be [s2; s1; s0] in
      if Z.of_nat (length rest) <? size + 4 then None else
      let body := take (Z.to_nat size) rest in
      let after := drop (Z.to_nat size) rest in
      if of_be (take 4 after) =? 11 + size
      then Some ({| tag_type := ty; tag_dts := of_be [t3; t2; t1; t0]; tag_body := body |}, drop 4 after) else None
  | _ => None
  end.
Fixpoint read_tags (fuel : nat) (l : bytes) : option (list Tag) :=
  match fuel, l with
  | _, [] => Some []
  | S fuel, _ => '(t, rest) ← read_tag l; (t ::.) <$> read_tags fuel rest
  | O, _ => None
  end.
Definition write_tag (t : Tag) : bytes := build_flv_tag (tag_type t) (tag_body t) (tag_dts t).

Lemma dts_bytes dts : 0 <= dts < 2 ^ 32 -> of_be (Z.land (Z.shiftr dts 24) 255 :: be_bytes 3 dts) = dts.
Proof. intros Hd. apply (of_be_small 4 dts). simpl. lia. Qed.

Lemma read_tag_write t more : tag_ok t -> read_tag (write_tag t ++ more) = Some (t, more).
Proof.
  intros [Hd Hb]. unfold write_tag, build_flv_tag. destruct t as [ty dts body]. cbn [tag_dts tag_body tag_type] in *.
  set (n := Z.of_nat (length body)) in *.
  assert (forall total, ([ty] ++ be_bytes 3 n ++ be_bytes 3 dts ++ [Z.land (Z.shiftr dts 24) 255] ++ [0; 0; 0] ++ body)
    ++ be_bytes 4 total ++ more =
    ty :: Z.land (Z.shiftr n 16) 255 :: Z.land (Z.shiftr n 8) 255 :: Z.land (Z.shiftr n 0) 255
    :: Z.land (Z.shiftr dts 16) 255 :: Z.land (Z.shiftr dts 8) 255 :: Z.land (Z.shiftr dts 0) 255
    :: Z.land (Z.shiftr dts 24) 255 :: 0 :: 0 :: 0 :: body ++ be_bytes 4 total ++ more) as Heq.
  { intros total. cbn [be_bytes app]. by rewrite <- ?app_assoc. }
  rewrite <- app_assoc, Heq. cbn [read_tag].
  assert (of_be [Z.land (Z.shiftr n 16) 255; Z.land (Z.shiftr n 8) 255; Z.land (Z.shiftr n 0) 255] = n) as ->
    by (apply (of_be_small 3 n); simpl; lia).
  assert (of_be [Z.land (Z.shiftr dts 24) 255; Z.land (Z.shiftr dts 16) 255; Z.land (Z.shiftr dts 8) 255;
                 Z.land (Z.shiftr dts 0) 255] = dts) as -> by (by apply dts_bytes).
  rewrite (proj2 (Z.ltb_ge _ _)) by (rewrite !length_app, length_be_bytes; lia).
  unfold n. rewrite Nat2Z.id, take_app_length, drop_app_length.
  change (take 4 (be_bytes 4 ?x ++ more)) with (be_bytes 4 x). change (drop 4 (be_bytes 4 ?x ++ more)) with more.
  rewrite of_be_small by (rewrite !length_app, !length_be_bytes; simpl; lia).
  rewrite !length_app, !length_be_bytes. simpl length. by rewrite (proj2 (Z.eqb_eq _ _)) by lia.
Qed.

(** An FLV stream reads back.  Whatever tags are written one after the
    other, with bodies below 2^24 bytes, a reader of the format gets exactly
    their types, time stamps of the full 32 bits and bodies, and every repeated
    size fits. *)
Theorem flv_tags_round_trip (tags : list Tag) :
  Forall tag_ok tags -> read_tags (length tags) (mjoin (write_tag <$> tags)) = Some tags.
Proof.
  induction 1 as [|t tags Ht _ IH]; [done|].
  change (mjoin (write_tag <$> t :: tags)) with (write_tag t ++ mjoin (write_tag <$> tags)).
  cbn [length read_tags]. rewrite read_tag_write by done. cbn [mbind option_bind]. rewrite IH.
  destruct (write_tag t ++ _) eqn:Hw; [|done]. apply app_eq_nil in Hw as [Hw _]. done.
Qed.

(** ** Video packets *)

Definition kept (nal : bytes) : Prop := get_nal_type nal ∉ [32; 33; 34; 35; 39; 40; 41; 42].
Lemma kept_video nals k :
  kept_units video_filter nals k = (filter kept nals, k || existsb (fun nal => is_keyframe (get_nal_type nal)) nals).
Proof.
  revert k. induction nals as [|nal nals IH]; intros k; [by rewrite orb_false_r|]. cbn [kept_units existsb].
  unfold video_filter at 1. rewrite IH, filter_cons, orb_assoc. unfold kept.
  destruct (bool_decide (get_nal_type nal ∈ _)) eqn:Hb; [apply bool_decide_eq_true in Hb|apply bool_decide_eq_false in Hb];
    simpl negb; cbv iota; [rewrite decide_False by naive_solver|rewrite decide_True by done]; done.
Qed.

(** ** A length that looks like a start code *)

(** A unit handed over with its length can be read as if it began with a
    start code.  The first three bytes of every length between 257 and 511 are a
    start code, so the muxer takes the last byte of the length for the first byte
    of the unit: what is sent is one byte too long, and its type, the filter and
    the key frame mark are those of a byte of the length. *)
Theorem length_read_as_start_code (nal : bytes) (k : bool) :
  let size := Z.of_nat (length nal) in
  let sent := (size - 256) :: nal in
  nal_ok nal -> 256 < size < 512 ->
  annexb_to_avcc_fast video_filter (prefixed nal) k =
  (mjoin (prefixed <$> filter kept [sent]), k || is_keyframe (get_nal_type sent)).
Proof.
  intros size sent (Hne & Hc & Hl & Hlen) Hsize.
  assert (prefixed nal = annexb [(false, sent)]) as ->.
  { unfold prefixed, annexb. cbn [fmap list_fmap mjoin list_join fst snd start_code]. rewrite app_nil_r.
    fold size. cbn [be_bytes app]. unfold sent. repeat f_equal;
      (change 255 with (Z.ones 8); rewrite Z.land_ones, Z.shiftr_div_pow2 by lia; simpl Z.pow).
    - rewrite Z.div_small by lia. done.
    - rewrite Z.div_small by lia. done.
    - change (2 ^ (8 * Z.of_nat 1)) with 256. replace (size / 256) with 1; [done|].
      apply Z.div_unique with (size - 256); lia.
    - rewrite Z.div_1_r. symmetry. apply Z.mod_unique with 1; lia. }
  rewrite annexb_converted.
  - cbn [fmap list_fmap snd]. rewrite kept_video. cbn [existsb]. by rewrite orb_false_r.
  - constructor; [|done]. split; [done|]. split; [|split].
    + split; [|done]. unfold sent. destruct (size - 256) as [|q|q] eqn:Hq; [lia|done|lia].
    + cbn [snd]. unfold sent. destruct nal; [done|]. by rewrite last_cons_cons.
    + cbn [snd sent length]. lia.
Qed.

Record VideoBody := { vb_frame_type : Z; vb_codec : Z; vb_packet_type : Z; vb_cts : Z; vb_units : list bytes }.
Definition read_video (body : bytes) : option VideoBody :=
  match body with
  | b0 :: b1 :: c2 :: c1 :: c0 :: rest => Some {| vb_frame_type := Z.shiftr b0 4; vb_codec := Z.land b0 15;
      vb_packet_type := b1; vb_cts := of_be [c2; c1; c0]; vb_units := parse_avcc rest |}
  | _ => None
  end.

Section Packets.
Context (AAC PCM_ALAW PCM_MULAW : Z) (av_rescale_q : Z -> AVRational -> AVRational -> Z).

(** The two forms in which FFmpeg hands over an access unit of these units. *)
Definition access_unit (nals : list bytes) (data : bytes) : Prop :=
  (exists codes, length codes = length nals /\ data = annexb (zip codes nals) /\ nals <> []) \/
  (data = mjoin (prefixed <$> nals) /\ find_annexb_start_code data 0 = None /\ nals <> []).

Lemma access_unit_converted nals data k : Forall nal_ok nals -> access_unit nals data ->
  annexb_to_avcc_fast video_filter data k =
  (mjoin (prefixed <$> filter kept nals), k || existsb (fun nal => is_keyframe (get_nal_type nal)) nals).
Proof.
  intros Hn [(codes & Hlen & -> & Hne)|(-> & Hf & _)].
  - destruct nals as [|nal nals]; [done|]. destruct codes as [|c codes]; [done|]. simpl in Hlen.
    change (zip (c :: codes) (nal :: nals)) with ((c, nal) :: zip codes nals).
    rewrite annexb_converted.
    + by rewrite snd_zip, kept_video by lia.
    + apply Forall_cons in Hn as [Hn1 Hn2]. constructor; [done|]. apply list.Forall_forall. intros [b x] Hx.
      rewrite list.Forall_forall in Hn2. apply Hn2. simpl. by eapply elem_of_zip_r.
  - rewrite prefixed_converted by done. by rewrite kept_video.
Qed.

End Packets.

(** ** The decoder configuration *)

(** A reader of the configuration's arrays: type, then the single unit. *)
Fixpoint read_arrays (count : nat) (l : bytes) : option (list (Z * bytes)) :=
  match count, l with
  | O, [] => Some []
  | S count, ty :: n1 :: n0 :: s1 :: s0 :: rest =>
      let size := Z.to_nat (of_be [s1; s0]) in
      if (of_be [n1; n0] =? 1) && bool_decide (size <= length rest)%nat
      then ((Z.land ty 63, take size rest) ::.) <$> read_arrays count (drop size rest) else None
  | _, _ => None
  end.
Definition read_hvcc (l : bytes) : option (list (Z * bytes)) :=
  if is_hvcc l then read_arrays (Z.to_nat (byte_at 22 l)) (drop 23 l) else None.

Lemma read_arrays_cons count ty nal rest : nal <> [] -> Z.of_nat (length nal) < 2 ^ 16 -> 0 <= ty < 64 ->
  read_arrays (S count) (hvcc_array ty nal ++ rest) = ((ty, nal) ::.) <$> read_arrays count rest.
Proof.
  intros Hne Hn Hty. destruct nal as [|b nal]; [done|]. unfold hvcc_array. set (u := b :: nal) in *.
  assert (Z.land (Z.lor 128 ty) 63 = ty) as Hl.
  { rewrite Z.land_lor_distr_l. change (Z.land 128 63) with 0. rewrite Z.lor_0_l. change 63 with (Z.ones 6).
    rewrite Z.land_ones by lia. by apply Z.mod_small. }
  rewrite <- !app_assoc. cbn [be_bytes app read_arrays]. rewrite Hl.
  assert (of_be [Z.land (Z.shiftr (Z.of_nat (length u)) (8 * Z.of_nat 1)) 255;
                 Z.land (Z.shiftr (Z.of_nat (length u)) (8 * Z.of_nat 0)) 255] = Z.of_nat (length u)) as Hs
    by (apply (of_be_small 2 (Z.of_nat (length u))); simpl Z.pow; lia).
  rewrite Hs, Nat2Z.id. rewrite bool_decide_true by (rewrite length_app; lia).
  change (of_be _ =? 1) with true. cbn [andb]. by rewrite take_app_length, drop_app_length.
Qed.

Definition present (ty : Z) (nal : bytes) : list (Z * bytes) := match nal with [] => [] | _ => [(ty, nal)] end.
Lemma read_arrays_array count ty nal rest : Z.of_nat (length nal) < 2 ^ 16 -> 0 <= ty < 64 ->
  read_arrays (length (present ty nal) + count) (hvcc_array ty nal ++ rest) =
  (present ty nal ++.) <$> read_arrays count rest.
Proof.
  intros Hn Hty. destruct nal as [|b nal]; [simpl; by destruct (read_arrays count rest)|].
  change (length (present ty (b :: nal)) + count)%nat with (S count). by rewrite read_arrays_cons.
Qed.

(** A player configured by the muxer has the camera's parameter sets.
    When FFmpeg's extra data is not already a decoder configuration, the one the
    muxer builds is recognised as one, and a reader finds in it exactly the
    parameter sets that are present, in the order VPS, SPS, PPS, each under its
    unit type; and one that FFmpeg supplies is passed on unchanged. *)
Theorem configuration_reads_back (extradata vps sps pps : bytes) :
  Z.of_nat (length vps) < 2 ^ 16 -> Z.of_nat (length sps) < 2 ^ 16 -> Z.of_nat (length pps) < 2 ^ 16 ->
  is_hvcc (ensure_hvcc extradata vps sps pps) = true /\
  (is_hvcc extradata = true -> ensure_hvcc extradata vps sps pps = extradata) /\
  (is_hvcc extradata = false ->
   read_hvcc (ensure_hvcc extradata vps sps pps) = Some (present 32 vps ++ present 33 sps ++ present 34 pps)).
Proof.
  intros Hv Hs Hp.
  assert (is_hvcc (build_hvcc_from_nalus vps sps pps) = true) as Hi.
  { unfold is_hvcc. rewrite (proj2 (Z.leb_le _ _)); [done|]. unfold build_hvcc_from_nalus. rewrite length_app. simpl. lia. }
  unfold ensure_hvcc. destruct (is_hvcc extradata) eqn:He; (split; [done|]); (split; [done|]); [done|]. intros _.
  unfold read_hvcc. rewrite Hi. unfold build_hvcc_from_nalus.
  match goal with |- context [drop 23 (?h ++ ?l)] => change (drop 23 (h ++ l)) with l end.
  match goal with |- read_arrays ?n _ = _ =>
    replace n with (length (present 32 vps) + (length (present 33 sps) + (length (present 34 pps) + 0)))%nat
      by (by destruct vps, sps, pps) end.
  rewrite <- (app_nil_r (hvcc_array 34 pps)), !read_arrays_array by lia.
  cbn [read_arrays fmap option_fmap option_map]. by rewrite app_nil_r.
Qed.

(** ** Instances *)

Lemma flv_tags_round_trip_witness :
  let tags := [ {| tag_type := 9; tag_dts := 4294967295; tag_body := [1; 2; 3] |};
                {| tag_type := 8; tag_dts := 40; tag_body := [] |} ] in
  Forall tag_ok tags /\ read_tags (length tags) (mjoin (write_tag <$> tags)) = Some tags.
Proof.
  intros tags. assert (Forall tag_ok tags) as H by (repeat constructor; vm_compute; done).
  split; [exact H|]. exact (flv_tags_round_trip tags H).
Defined.

Lemma configuration_reads_back_witness :
  read_hvcc (ensure_hvcc [] [64; 1] [66; 1; 7] [68]) = Some [(32, [64; 1]); (33, [66; 1; 7]); (34, [68])].
Proof.
  refine (proj2 (proj2 (configuration_reads_back [] [64; 1] [66; 1; 7] [68] _ _ _)) _); vm_compute; reflexivity.
Defined.


Lemma length_read_as_start_code_witness :
  let nal := [2; 1] ++ repeat 7 300 in
  annexb_to_avcc_fast video_filter (prefixed nal) false = (prefixed (46 :: nal), false).
Proof.
  intros nal. refine (length_read_as_start_code nal false _ _); [|vm_compute; split; reflexivity].
  split; [discriminate|]. split; [|split; [vm_compute; discriminate|vm_compute; reflexivity]].
  vm_compute. repeat split.
Defined.
