(* ===== verification/TalkUpload.v ===== *)
(** * Talk upload of the media process ([stream/src/io/talk.rs])

    A talk session takes audio frames from a WebSocket and sends them to the
    device as RTP, one per tick of its frame duration.  [TALK_SESSIONS] is
    shared by the HTTP handlers and by one sender task per session; a session
    and its task share the payload type, the target, the frame channel and the
    cancellation token, which the model keeps with the task.  Socket addresses,
    their parser and the TCP sinks come from the standard library and the
    networking crate and are parameters; instants are in milliseconds. *)
From Stdlib Require Import Ascii.
From S2P Require Import Prelude Text Bytes SharedTypes.
Local Open Scope Z_scope.

Definition TALK_INPUT_QUEUE_SIZE : nat := 32.
Definition TALK_JITTER_MIN_FRAMES : nat := 3.
Definition TALK_JITTER_MAX_FRAMES : nat := 8.
Definition RTP_HEADER_LEN : nat := 12.

Inductive TalkError := TInvalidRequest | TInvalidState | TAlreadyExists | TNotFound | TIoBusy | TBadAddress.

(** ** Requests ([shared/src/info/obj.rs]) *)

Record TalkOpenReq := {
  to_talk_id : string; to_ssrc : Z; to_token : string; to_codec : string; to_sample_rate : Z; to_channel_count : Z;
  to_payload_type : Z; to_frame_duration_ms : Z; to_input_timeout_secs : Z
}.
Record TalkOpenResp := {
  tr_talk_id : string; tr_input_url : string; tr_rtp_port : Z; tr_codec : string; tr_sample_rate : Z;
  tr_channel_count : Z; tr_payload_type : Z; tr_frame_duration_ms : Z
}.
Record TalkAnswerReq := {
  ta_talk_id : string; ta_device_ip : string; ta_device_port : Z; ta_protocol : string; ta_payload_type : Z
}.
Record TalkClosedEvent := { tc_talk_id : string; tc_reason : string }.

Definition validate_open_req (req : TalkOpenReq) : outcome TalkError unit :=
  if bool_decide (to_talk_id req = ""%string) || bool_decide (to_token req = ""%string) then Failed TInvalidRequest
  else if (to_sample_rate req =? 0) || (to_channel_count req =? 0) || (to_frame_duration_ms req =? 0)
  then Failed TInvalidRequest else Done tt.

(** [filter(is_ascii_alphanumeric).map(to_ascii_uppercase).collect()] *)
Definition is_ascii_alphanumeric (a : ascii) : bool :=
  in_range 48 57 a || in_range 65 90 a || in_range 97 122 a.
Definition compact_upper (s : string) : string :=
  text (ascii_upper <$> List.filter is_ascii_alphanumeric (chars s)).
Fixpoint contains (p l : list ascii) : bool :=
  starts_with p l || match l with [] => false | _ :: l => contains p l end.
Definition parse_protocol (protocol : string) : outcome TalkError Protocol :=
  let compact := compact_upper protocol in
  if contains (chars "TCP") (chars compact) then Done TCP
  else if contains (chars "UDP") (chars compact) || bool_decide (compact = "RTPAVP"%string) then Done UDP
  else Failed TInvalidRequest.

Definition TALK_INPUT_PREFIX : string := "/talk/input".
Definition build_input_url (proxy_addr talk_id : string) : string :=
  let l := reverse (strip_while (String.length proxy_addr) [chars "/"] (reverse (chars proxy_addr))) in
  let addr := match strip_prefix (chars "https://") l with
              | Some rest => chars "wss://" ++ rest
              | None => match strip_prefix (chars "http://") l with
                        | Some rest => chars "ws://" ++ rest
                        | None => l
                        end
              end in
  text addr +:+ TALK_INPUT_PREFIX +:+ "/" +:+ talk_id.

(** ** The packet *)

Definition build_rtp_packet (ssrc seq timestamp : Z) (marker : bool) (payload_type : Z) (payload : list Z) : list Z :=
  [128; Z.lor (Z.land payload_type 127) (if marker then 128 else 0)]
  ++ be_bytes 2 seq ++ be_bytes 4 timestamp ++ be_bytes 4 ssrc ++ payload.

(** A task that broke out of its loop still has to tidy up. *)
Inductive SenderState := Looping | Leaving (reason : string) | Gone.
#[export] Instance SenderState_eq_dec : EqDecision SenderState.
Proof. solve_decision. Defined.

Section Talk.
Context {Addr : Type}.
Context (parse_device_addr : string -> Z -> option Addr).

Record TalkTarget := { tt_addr : Addr; tt_protocol : Protocol }.

(** ** The sender's loop *)

Record TalkLoop := {
  l_queue : list (list Z); l_last_input : Z; l_ready : bool; l_first_packet : bool; l_seq : Z; l_timestamp : Z
}.
Definition loop_start (now : Z) : TalkLoop :=
  {| l_queue := []; l_last_input := now; l_ready := false; l_first_packet := true; l_seq := 0; l_timestamp := 0 |}.
Definition frame_samples (sample_rate frame_duration_ms : Z) : Z :=
  Z.min (umax 32) (sample_rate * frame_duration_ms) / 1000.

Definition on_frame (now : Z) (frame : list Z) (l : TalkLoop) : TalkLoop :=
  let queue := (if decide (TALK_JITTER_MAX_FRAMES <= length (l_queue l))%nat then tail (l_queue l) else l_queue l)
               ++ [frame] in
  {| l_queue := queue; l_last_input := now;
     l_ready := l_ready l || bool_decide (TALK_JITTER_MIN_FRAMES <= length queue)%nat;
     l_first_packet := l_first_packet l; l_seq := l_seq l; l_timestamp := l_timestamp l |}.

(** A tick with the target and the payload type it reads: the packet to send.
    The frame leaves the queue also when there is no target yet. *)
Definition on_tick (ssrc samples : Z) (target : option TalkTarget) (pt : Z) (l : TalkLoop)
    : option (TalkTarget * list Z) * TalkLoop :=
  if negb (l_ready l) then (None, l) else
  match l_queue l with
  | [] => (None, l)
  | frame :: queue =>
      let popped := {| l_queue := queue; l_last_input := l_last_input l; l_ready := l_ready l;
        l_first_packet := l_first_packet l; l_seq := l_seq l; l_timestamp := l_timestamp l |} in
      match target with
      | None => (None, popped)
      | Some t =>
          (Some (t, build_rtp_packet ssrc (l_seq l) (l_timestamp l) (l_first_packet l) pt frame),
           {| l_queue := queue; l_last_input := l_last_input l; l_ready := l_ready l; l_first_packet := false;
              l_seq := wrapping_add 16 (l_seq l) 1; l_timestamp := wrapping_add 32 (l_timestamp l) samples |})
      end
  end.

(** Where the packet goes: [sinks] are the open TCP connections. *)
Inductive SendAction {Sink : Type} := WriteTo (addr : Addr) | SinkWrite (sink : Sink) | SinkMissing.
Arguments SendAction Sink : clear implicits.
Definition send_rtp_packet {Sink Ip : Type} (tcp_sink : Addr -> option Sink) (ip : Addr -> Ip)
    (tcp_sink_by_ip : Ip -> option Sink) (target : TalkTarget) : SendAction Sink :=
  match tt_protocol target with
  | UDP => WriteTo (tt_addr target)
  | TCP => match tcp_sink (tt_addr target) with
           | Some sink => SinkWrite sink
           | None => match tcp_sink_by_ip (ip (tt_addr target)) with
                     | Some sink => SinkWrite sink | None => SinkMissing
                     end
           end
  end.

(** ** Sessions and sender tasks *)

(** [ts_sender]: the task with which the session shares its cells. *)
Record TalkSession := {
  ts_ssrc : Z; ts_token : string; ts_codec : string; ts_sample_rate : Z; ts_channel_count : Z;
  ts_frame_duration_ms : Z; ts_sender : nat
}.
Record TalkSender := {
  sn_talk_id : string; sn_ssrc : Z; sn_samples : Z; sn_input_timeout : Z;
  sn_payload_type : Z; sn_target : option TalkTarget; sn_input : list (list Z); sn_input_open : bool;
  sn_cancelled : bool; sn_loop : TalkLoop; sn_state : SenderState
}.
Record World := {
  w_rtp_port : option Z; w_proxy_addr : string; w_in_wait_timeout : Z;
  w_sessions : gmap string TalkSession; w_senders : list TalkSender;
  (* close events queued for the RTP input, packets handed to the writer with
     their task, and reports to the session process *)
  w_closes : list Addr; w_packets : list (nat * (TalkTarget * list Z)); w_reports : list TalkClosedEvent
}.

Definition set_sessions (m : gmap string TalkSession) (w : World) : World := {|
  w_rtp_port := w_rtp_port w; w_proxy_addr := w_proxy_addr w; w_in_wait_timeout := w_in_wait_timeout w;
  w_sessions := m; w_senders := w_senders w; w_closes := w_closes w; w_packets := w_packets w;
  w_reports := w_reports w |}.
Definition on_sender (k : nat) (f : TalkSender -> TalkSender) (w : World) : World := {|
  w_rtp_port := w_rtp_port w; w_proxy_addr := w_proxy_addr w; w_in_wait_timeout := w_in_wait_timeout w;
  w_sessions := w_sessions w; w_senders := alter f k (w_senders w); w_closes := w_closes w;
  w_packets := w_packets w; w_reports := w_reports w |}.
Definition new_sender (s : TalkSender) (w : World) : World := {|
  w_rtp_port := w_rtp_port w; w_proxy_addr := w_proxy_addr w; w_in_wait_timeout := w_in_wait_timeout w;
  w_sessions := w_sessions w; w_senders := w_senders w ++ [s]; w_closes := w_closes w;
  w_packets := w_packets w; w_reports := w_reports w |}.
Definition hand_packet (k : nat) (p : option (TalkTarget * list Z)) (w : World) : World := {|
  w_rtp_port := w_rtp_port w; w_proxy_addr := w_proxy_addr w; w_in_wait_timeout := w_in_wait_timeout w;
  w_sessions := w_sessions w; w_senders := w_senders w; w_closes := w_closes w;
  w_packets := match p with Some p => w_packets w ++ [(k, p)] | None => w_packets w end; w_reports := w_reports w |}.
Definition report (e : TalkClosedEvent) (w : World) : World := {|
  w_rtp_port := w_rtp_port w; w_proxy_addr := w_proxy_addr w; w_in_wait_timeout := w_in_wait_timeout w;
  w_sessions := w_sessions w; w_senders := w_senders w; w_closes := w_closes w;
  w_packets := w_packets w; w_reports := w_reports w ++ [e] |}.

(** [room]: whether the output channel takes the event; it is dropped if not. *)
Definition close_talk_target (room : bool) (target : option TalkTarget) (w : World) : World :=
  match target with
  | Some t =>
      if bool_decide (tt_protocol t = TCP) && room
      then {| w_rtp_port := w_rtp_port w; w_proxy_addr := w_proxy_addr w; w_in_wait_timeout := w_in_wait_timeout w;
              w_sessions := w_sessions w; w_senders := w_senders w; w_closes := w_closes w ++ [tt_addr t];
              w_packets := w_packets w; w_reports := w_reports w |}
      else w
  | None => w
  end.

Definition sn_set_cells (pt : Z) (target : option TalkTarget) (s : TalkSender) : TalkSender := {|
  sn_talk_id := sn_talk_id s; sn_ssrc := sn_ssrc s; sn_samples := sn_samples s; sn_input_timeout := sn_input_timeout s;
  sn_payload_type := pt; sn_target := target; sn_input := sn_input s; sn_input_open := sn_input_open s;
  sn_cancelled := sn_cancelled s; sn_loop := sn_loop s; sn_state := sn_state s |}.
Definition sn_set_input (l : list (list Z)) (s : TalkSender) : TalkSender := {|
  sn_talk_id := sn_talk_id s; sn_ssrc := sn_ssrc s; sn_samples := sn_samples s; sn_input_timeout := sn_input_timeout s;
  sn_payload_type := sn_payload_type s; sn_target := sn_target s; sn_input := l; sn_input_open := sn_input_open s;
  sn_cancelled := sn_cancelled s; sn_loop := sn_loop s; sn_state := sn_state s |}.
(** The session is dropped, and with it the sending half of the channel. *)
Definition sn_drop_session (s : TalkSender) : TalkSender := {|
  sn_talk_id := sn_talk_id s; sn_ssrc := sn_ssrc s; sn_samples := sn_samples s; sn_input_timeout := sn_input_timeout s;
  sn_payload_type := sn_payload_type s; sn_target := sn_target s; sn_input := sn_input s; sn_input_open := false;
  sn_cancelled := sn_cancelled s; sn_loop := sn_loop s; sn_state := sn_state s |}.
Definition sn_cancel (s : TalkSender) : TalkSender := {|
  sn_talk_id := sn_talk_id s; sn_ssrc := sn_ssrc s; sn_samples := sn_samples s; sn_input_timeout := sn_input_timeout s;
  sn_payload_type := sn_payload_type s; sn_target := sn_target s; sn_input := sn_input s; sn_input_open := sn_input_open s;
  sn_cancelled := true; sn_loop := sn_loop s; sn_state := sn_state s |}.
Definition sn_set_loop (l : TalkLoop) (s : TalkSender) : TalkSender := {|
  sn_talk_id := sn_talk_id s; sn_ssrc := sn_ssrc s; sn_samples := sn_samples s; sn_input_timeout := sn_input_timeout s;
  sn_payload_type := sn_payload_type s; sn_target := sn_target s; sn_input := sn_input s; sn_input_open := sn_input_open s;
  sn_cancelled := sn_cancelled s; sn_loop := l; sn_state := sn_state s |}.
Definition sn_set_state (st : SenderState) (s : TalkSender) : TalkSender := {|
  sn_talk_id := sn_talk_id s; sn_ssrc := sn_ssrc s; sn_samples := sn_samples s; sn_input_timeout := sn_input_timeout s;
  sn_payload_type := sn_payload_type s; sn_target := sn_target s; sn_input := sn_input s; sn_input_open := sn_input_open s;
  sn_cancelled := sn_cancelled s; sn_loop := sn_loop s; sn_state := st |}.

(** ** [TalkManager] *)

Definition init_rtp_writer (rtp_port : Z) (w : World) : outcome TalkError unit * World :=
  match w_rtp_port w with
  | Some _ => (Failed TAlreadyExists, w)
  | None => (Done tt, {| w_rtp_port := Some rtp_port; w_proxy_addr := w_proxy_addr w;
      w_in_wait_timeout := w_in_wait_timeout w; w_sessions := w_sessions w; w_senders := w_senders w;
      w_closes := w_closes w; w_packets := w_packets w; w_reports := w_reports w |})
  end.

Definition open (now : Z) (req : TalkOpenReq) (w : World) : outcome TalkError TalkOpenResp * World :=
  match validate_open_req req with
  | Failed e => (Failed e, w)
  | Panic => (Panic, w)
  | Done _ =>
      match w_rtp_port w with
      | None => (Failed TInvalidState, w)
      | Some rtp_port =>
          let k := length (w_senders w) in
          let session := {| ts_ssrc := to_ssrc req; ts_token := to_token req; ts_codec := to_codec req;
            ts_sample_rate := to_sample_rate req; ts_channel_count := to_channel_count req;
            ts_frame_duration_ms := to_frame_duration_ms req; ts_sender := k |} in
          match w_sessions w !! to_talk_id req with
          | Some _ => (Failed TAlreadyExists, w)
          | None =>
              (Done {| tr_talk_id := to_talk_id req; tr_input_url := build_input_url (w_proxy_addr w) (to_talk_id req);
                       tr_rtp_port := rtp_port; tr_codec := to_codec req; tr_sample_rate := to_sample_rate req;
                       tr_channel_count := to_channel_count req; tr_payload_type := to_payload_type req;
                       tr_frame_duration_ms := to_frame_duration_ms req |},
               new_sender {| sn_talk_id := to_talk_id req; sn_ssrc := to_ssrc req;
                   sn_samples := frame_samples (to_sample_rate req) (to_frame_duration_ms req);
                   sn_input_timeout := w_in_wait_timeout w * 1000; sn_payload_type := to_payload_type req;
                   sn_target := None; sn_input := []; sn_input_open := true; sn_cancelled := false;
                   sn_loop := loop_start now; sn_state := Looping |}
                 (set_sessions (<[to_talk_id req := session]> (w_sessions w)) w))
          end
      end
  end.

(** [answer] sets the target and then the payload type; the task may read them
    in between. *)
Definition answer_target (req : TalkAnswerReq) (w : World) : outcome TalkError unit * World :=
  match parse_device_addr (ta_device_ip req) (ta_device_port req) with
  | None => (Failed TBadAddress, w)
  | Some addr =>
      match parse_protocol (ta_protocol req) with
      | Failed e => (Failed e, w)
      | Panic => (Panic, w)
      | Done protocol =>
          match w_sessions w !! ta_talk_id req with
          | Some session => (Done tt, on_sender (ts_sender session) (fun s =>
              sn_set_cells (sn_payload_type s) (Some {| tt_addr := addr; tt_protocol := protocol |}) s) w)
          | None => (Failed TNotFound, w)
          end
      end
  end.
Definition answer_payload (req : TalkAnswerReq) (w : World) : World :=
  match w_sessions w !! ta_talk_id req with
  | Some session => on_sender (ts_sender session) (fun s => sn_set_cells (ta_payload_type req) (sn_target s) s) w
  | None => w
  end.
Definition answer (req : TalkAnswerReq) (w : World) : outcome TalkError unit * World :=
  match answer_target req w with (Done _, w1) => (Done tt, answer_payload req w1) | r => r end.

Definition is_online (talk_id : string) (w : World) : bool := bool_decide (is_Some (w_sessions w !! talk_id)).
Definition check_token (talk_id token : string) (w : World) : bool :=
  match w_sessions w !! talk_id with Some s => bool_decide (ts_token s = token) | None => false end.

Definition current_target (k : nat) (w : World) : option TalkTarget := s ← w_senders w !! k; sn_target s.
Definition close (room : bool) (talk_id : string) (w : World) : bool * World :=
  match w_sessions w !! talk_id with
  | Some session =>
      let k := ts_sender session in
      let w1 := set_sessions (delete talk_id (w_sessions w)) w in
      let w2 := if bool_decide (is_Some (w_rtp_port w)) then close_talk_target room (current_target k w1) w1 else w1 in
      (true, on_sender k (fun s => sn_drop_session (sn_cancel s)) w2)
  | None => (false, w)
  end.

Definition push_frame (talk_id : string) (frame : list Z) (w : World) : outcome TalkError unit * World :=
  match frame with
  | [] => (Done tt, w)
  | _ =>
      match w_sessions w !! talk_id with
      | Some session =>
          match w_senders w !! ts_sender session with
          | Some s =>
              if bool_decide (sn_state s = Gone) then (Failed TInvalidState, w)
              else if decide (TALK_INPUT_QUEUE_SIZE <= length (sn_input s))%nat then (Failed TIoBusy, w)
              else (Done tt, on_sender (ts_sender session) (sn_set_input (sn_input s ++ [frame])) w)
          | None => (Failed TInvalidState, w)
          end
      | None => (Failed TNotFound, w)
      end
  end.

(** ** The sender task: a step takes one of the branches that are ready *)

Inductive SenderStep := Cancelled | Received | Ticked.
Definition sender_step (k : nat) (branch : SenderStep) (now : Z) (w : World) : option World :=
  s ← w_senders w !! k;
  if negb (bool_decide (sn_state s = Looping)) then None else
  match branch with
  | Cancelled => if sn_cancelled s then Some (on_sender k (sn_set_state (Leaving "cancelled")) w) else None
  | Received =>
      match sn_input s with
      | frame :: rest =>
          Some (on_sender k (fun s => sn_set_loop (on_frame now frame (sn_loop s)) (sn_set_input rest s)) w)
      | [] => if sn_input_open s then None else Some (on_sender k (sn_set_state (Leaving "input_closed")) w)
      end
  | Ticked =>
      if sn_input_timeout s <? now - l_last_input (sn_loop s)
      then Some (on_sender k (sn_set_state (Leaving "input_timeout")) w)
      else let '(p, l) := on_tick (sn_ssrc s) (sn_samples s) (sn_target s) (sn_payload_type s) (sn_loop s) in
           Some (hand_packet k p (on_sender k (sn_set_loop l) w))
  end.

(** After the loop. *)
Definition sender_leave (room : bool) (k : nat) (w : World) : option World :=
  s ← w_senders w !! k;
  match sn_state s with
  | Leaving reason =>
      let gone w := on_sender k (sn_set_state Gone) w in
      match w_sessions w !! sn_talk_id s with
      | Some session =>
          let w1 := on_sender (ts_sender session) sn_drop_session (set_sessions (delete (sn_talk_id s) (w_sessions w)) w) in
          Some (gone (report {| tc_talk_id := sn_talk_id s; tc_reason := reason |}
                        (close_talk_target room (sn_target s) w1)))
      | None => Some (gone w)
      end
  | _ => None
  end.
End Talk.
