(* ===== verification/TalkUploadProps.v ===== *)
(** * Talk upload: what a device hears, and when a talk ends

    The RTP packets of a talk read back, the order and numbering of the frames
    from the WebSocket to the device, and the life of sessions and their sender
    tasks under any interleaving. *)
From Stdlib Require Import Ascii.
From S2P Require Import Prelude Text Bytes SharedTypes TalkUpload.
Local Open Scope Z_scope.

(** ** The packet *)

Record RtpPacket := {
  rp_marker : bool; rp_payload_type : Z; rp_seq : Z; rp_timestamp : Z; rp_ssrc : Z; rp_payload : list Z
}.
(** A reader of RFC 3550 packets without padding, extension and sources. *)
Definition read_rtp (l : list Z) : option RtpPacket :=
  match l with
  | 128 :: b1 :: rest =>
      if decide (length rest < 10)%nat then None else
      Some {| rp_marker := Z.testbit b1 7; rp_payload_type := Z.land b1 127; rp_seq := of_be (take 2 rest);
              rp_timestamp := of_be (take 4 (drop 2 rest)); rp_ssrc := of_be (take 4 (drop 6 rest));
              rp_payload := drop 10 rest |}
  | _ => None
  end.

(** A packet of a talk reads back: version 2, the marker, the payload type,
    sequence number, time stamp and source as given, and the frame unchanged. *)
Theorem talk_packet_reads_back (ssrc seq timestamp : Z) (marker : bool) (pt : Z) (frame : list Z) :
  in_width 32 ssrc -> in_width 16 seq -> in_width 32 timestamp -> in_width 7 pt ->
  read_rtp (build_rtp_packet ssrc seq timestamp marker pt frame) =
  Some {| rp_marker := marker; rp_payload_type := pt; rp_seq := seq; rp_timestamp := timestamp; rp_ssrc := ssrc;
          rp_payload := frame |}.
Proof.
  intros Hss Hs Ht Hp.
  assert (Z.land (Z.land pt 127) 127 = pt /\ Z.testbit (Z.land pt 127) 7 = false) as [Hpt H7].
  { change 127 with (Z.ones 7). rewrite !Z.land_ones by lia. unfold in_width in Hp. rewrite !(Z.mod_small pt) by lia.
    split; [done|]. destruct (decide (pt = 0)) as [->|]; [done|]. apply Z.bits_above_log2; [lia|].
    apply Z.log2_lt_pow2; lia. }
  unfold build_rtp_packet. set (b1 := Z.lor _ _).
  assert (Z.testbit b1 7 = marker /\ Z.land b1 127 = pt) as [Hm Hb].
  { unfold b1. rewrite Z.lor_spec, H7, Z.land_lor_distr_l, Hpt. by destruct marker; rewrite ?Z.lor_0_r. }
  cbn [app]. unfold read_rtp. rewrite Hm, Hb.
  rewrite decide_False by (rewrite !length_app, !length_be_bytes; lia).
  change (take 2 (be_bytes 2 seq ++ ?l)) with (be_bytes 2 seq).
  change (drop 2 (be_bytes 2 seq ++ ?l)) with l. change (take 4 (be_bytes 4 timestamp ++ ?l)) with (be_bytes 4 timestamp).
  change (take 4 (drop 6 _)) with (be_bytes 4 ssrc). change (drop 10 _) with frame.
  by rewrite !of_be_small.
Qed.

(** ** The loop of the sender task *)

Section Loop.
Context {Addr : Type}.
Local Notation TalkTarget := (@TalkTarget Addr).

Inductive LoopEvent := Frame (now : Z) (frame : list Z) | Tick (target : option TalkTarget) (pt : Z).
Definition loop_event (ssrc samples : Z) (x : list (TalkTarget * list Z) * TalkLoop) (e : LoopEvent)
    : list (TalkTarget * list Z) * TalkLoop :=
  match e with
  | Frame now frame => (x.1, on_frame now frame x.2)
  | Tick target pt =>
      let '(p, l) := on_tick ssrc samples target pt x.2 in (x.1 ++ option_list p, l)
  end.
Definition run_loop (ssrc samples now : Z) (events : list LoopEvent) : list (TalkTarget * list Z) * TalkLoop :=
  foldl (loop_event ssrc samples) ([], loop_start now) events.
Definition received (events : list LoopEvent) : list (list Z) :=
  omap (fun e => match e with Frame _ f => Some f | _ => None end) events.

(** The [i]-th packet of a talk. *)
Definition nth_packet (ssrc samples : Z) (i : nat) (x : TalkTarget * Z * list Z) : TalkTarget * list Z :=
  let '(t, pt, frame) := x in
  (t, build_rtp_packet ssrc (Z.of_nat i mod 2 ^ 16) (Z.of_nat i * samples mod 2 ^ 32) (bool_decide (i = O)) pt frame).
Definition numbered (ssrc samples : Z) (sent : list (TalkTarget * Z * list Z)) : list (TalkTarget * list Z) :=
  imap (nth_packet ssrc samples) sent.

Definition loop_inv (ssrc samples : Z) (frames : list (list Z)) (x : list (TalkTarget * list Z) * TalkLoop) : Prop :=
  exists sent,
    x.1 = numbered ssrc samples sent /\ sublist (sent.*2 ++ l_queue x.2) frames /\
    l_seq x.2 = Z.of_nat (length sent) mod 2 ^ 16 /\ l_timestamp x.2 = Z.of_nat (length sent) * samples mod 2 ^ 32 /\
    l_first_packet x.2 = bool_decide (length sent = O) /\ (length (l_queue x.2) <= TALK_JITTER_MAX_FRAMES)%nat /\
    (l_ready x.2 = true -> TALK_JITTER_MIN_FRAMES <= length frames)%nat /\ (sent <> [] -> l_ready x.2 = true).

Lemma numbered_snoc ssrc samples sent t pt frame :
  numbered ssrc samples (sent ++ [(t, pt, frame)]) =
  numbered ssrc samples sent ++ [(t, build_rtp_packet ssrc (Z.of_nat (length sent) mod 2 ^ 16)
     (Z.of_nat (length sent) * samples mod 2 ^ 32) (bool_decide (length sent = O)) pt frame)].
Proof. unfold numbered. rewrite imap_app. simpl. by rewrite Nat.add_0_r. Qed.

Lemma loop_inv_frame ssrc samples frames x now f :
  loop_inv ssrc samples frames x -> loop_inv ssrc samples (frames ++ [f]) (x.1, on_frame now f x.2).
Proof.
  intros (sent & Ho & Hs & Hq & Ht & Hf & Hl & Hr & Hne). exists sent. unfold on_frame. cbn [fst snd l_queue l_seq
    l_timestamp l_first_packet l_ready]. set (queue := if decide _ then _ else _).
  assert (sublist queue (l_queue x.2) /\ (length queue < TALK_JITTER_MAX_FRAMES)%nat) as [Hqs Hql].
  { unfold queue. destruct (decide (TALK_JITTER_MAX_FRAMES <= length (l_queue x.2))%nat) as [Hle|Hle].
    - destruct (l_queue x.2); simpl in *; [unfold TALK_JITTER_MAX_FRAMES in Hle; lia|]. split; [by apply sublist_cons|lia].
    - split; [done|lia]. }
  assert (sublist (sent.*2 ++ queue) frames) as Hs' by (etrans; [|exact Hs]; by apply sublist_app).
  split_and!; try done.
  - rewrite app_assoc. by apply sublist_app.
  - rewrite length_app. simpl. lia.
  - intros [Hr'|Hb]%orb_true_iff; rewrite length_app; simpl; [specialize (Hr Hr'); lia|].
    apply bool_decide_eq_true in Hb. apply sublist_length in Hs'. rewrite !length_app in *. simpl in Hb. lia.
  - intros Hsent. by rewrite (Hne Hsent).
Qed.
Lemma loop_inv_tick ssrc samples frames x target pt :
  loop_inv ssrc samples frames x -> loop_inv ssrc samples frames (loop_event ssrc samples x (Tick target pt)).
Proof.
  intros Hx. pose proof Hx as (sent & Ho & Hs & Hq & Ht & Hf & Hl & Hr & Hne).
  unfold loop_event, on_tick. destruct (l_ready x.2) eqn:Hready; cbn [negb];
    [|simpl; rewrite app_nil_r; by destruct x].
  destruct (l_queue x.2) as [|frame queue] eqn:Hqueue; [simpl; rewrite app_nil_r; by destruct x|].
  destruct target as [t|].
  - exists (sent ++ [(t, pt, frame)]). cbn [fst snd l_queue l_seq l_timestamp l_first_packet l_ready option_list].
    rewrite numbered_snoc, fmap_app, length_app, Ho, Hq, Ht, Hf. simpl length in Hl |- *. split_and!; try done.
    + cbn [fmap list_fmap snd]. rewrite <- app_assoc. done.
    + unfold wrapping_add. rewrite Zplus_mod_idemp_l. f_equal. lia.
    + unfold wrapping_add. rewrite Zplus_mod_idemp_l. f_equal. lia.
    + rewrite bool_decide_eq_false_2 by lia. done.
    + lia.
  - exists sent. cbn [fst snd l_queue l_seq l_timestamp l_first_packet l_ready option_list]. rewrite app_nil_r.
    simpl length in Hl. split_and!; try done; [|lia].
    etrans; [|exact Hs]. apply sublist_app; [done|]. by apply sublist_cons.
Qed.
Lemma run_loop_snoc ssrc samples now events e :
  run_loop ssrc samples now (events ++ [e]) = loop_event ssrc samples (run_loop ssrc samples now events) e.
Proof. unfold run_loop. by rewrite foldl_app. Qed.
Lemma run_loop_inv ssrc samples now events : loop_inv ssrc samples (received events) (run_loop ssrc samples now events).
Proof.
  induction events as [|e events IH] using rev_ind.
  - exists []. cbn. split_and!; try done; unfold TALK_JITTER_MAX_FRAMES; lia.
  - rewrite run_loop_snoc. unfold received. rewrite omap_app. fold (received events). destruct e as [now' f|target pt].
    + by apply loop_inv_frame.
    + cbn [omap list_omap]. rewrite app_nil_r. by apply loop_inv_tick.
Qed.

(** No frame is lost while no more than eight wait and the device has
    answered. *)
Lemma run_loop_lossless ssrc samples now events :
  (forall p, p `prefix_of` events ->
     (length (received p) <= length (run_loop ssrc samples now p).1 + TALK_JITTER_MAX_FRAMES)%nat) ->
  (forall pt, Tick None pt ∉ events) ->
  exists sent, (run_loop ssrc samples now events).1 = numbered ssrc samples sent /\
    received events = sent.*2 ++ l_queue (run_loop ssrc samples now events).2 /\
    l_seq (run_loop ssrc samples now events).2 = Z.of_nat (length sent) mod 2 ^ 16 /\
    l_timestamp (run_loop ssrc samples now events).2 = Z.of_nat (length sent) * samples mod 2 ^ 32 /\
    l_first_packet (run_loop ssrc samples now events).2 = bool_decide (length sent = O).
Proof.
  induction events as [|e events IH] using rev_ind; intros Hp Ht; [by exists []|].
  destruct IH as (sent & Ho & Hr & Hs & Htm & Hf).
  { intros p Hpre. apply Hp. by apply prefix_app_r. }
  { intros pt Hin. apply (Ht pt). apply elem_of_app. by left. }
  specialize (Hp (events ++ [e]) ltac:(reflexivity)). rewrite run_loop_snoc in *. unfold received in *. rewrite omap_app in *.
  fold (received events) in *. destruct (run_loop ssrc samples now events) as [out l]. cbn [fst snd] in *. subst out.
  destruct e as [now' f|[t|] pt]; cbn [loop_event omap list_omap fst snd] in *.
  - exists sent. split; [done|]. cbn [on_frame l_queue l_seq l_timestamp l_first_packet]. rewrite Hr, <- app_assoc.
    rewrite decide_False; [done|]. rewrite length_app, Hr, length_app, length_fmap in Hp. simpl in Hp.
    unfold numbered in Hp. rewrite length_imap in Hp. lia.
  - rewrite !app_nil_r in *. unfold on_tick in *. destruct (l_ready l); cbn [negb] in *; [|exists sent; by rewrite app_nil_r].
    destruct (l_queue l) as [|frame queue] eqn:Hqueue; [exists sent; cbn [fst snd option_list]; rewrite app_nil_r; by rewrite Hqueue|].
    exists (sent ++ [(t, pt, frame)]). cbn [fst snd l_queue l_seq l_timestamp l_first_packet option_list].
    rewrite numbered_snoc, fmap_app, length_app, <- Hs, <- Htm, <- Hf. simpl. rewrite Hr, <- app_assoc. split_and!; try done.
    + rewrite Hs. unfold wrapping_add. rewrite Zplus_mod_idemp_l. f_equal. lia.
    + rewrite Htm. unfold wrapping_add. rewrite Zplus_mod_idemp_l. f_equal. lia.
    + rewrite bool_decide_eq_false_2 by lia. done.
  - exfalso. apply (Ht pt). apply elem_of_app. right. apply list_elem_of_here.
Qed.
End Loop.

(** ** Sessions and their tasks *)

Create HintDb talk.
Section Manager.
Context {Addr : Type} (parse_device_addr : string -> Z -> option Addr).
Local Notation World := (@World Addr).
Local Notation TalkSender := (@TalkSender Addr).
Implicit Types (w : World) (t : TalkSender).

(** What can happen; a step that is not ready leaves the state. *)
Inductive TalkOp :=
| Open (now : Z) (req : TalkOpenReq)
| AnswerTarget (req : TalkAnswerReq) | AnswerPayload (req : TalkAnswerReq)
| Close (room : bool) (talk_id : string)
| Push (talk_id : string) (frame : list Z)
| Sender (k : nat) (branch : SenderStep) (now : Z)
| Leave (room : bool) (k : nat).
Definition talk_op (o : TalkOp) w : World :=
  match o with
  | Open now req => (open now req w).2
  | AnswerTarget req => (answer_target parse_device_addr req w).2
  | AnswerPayload req => answer_payload req w
  | Close room talk_id => (close room talk_id w).2
  | Push talk_id frame => (push_frame talk_id frame w).2
  | Sender k branch now => default w (sender_step k branch now w)
  | Leave room k => default w (sender_leave room k w)
  end.
Definition talk_ops (ops : list TalkOp) w : World := foldl (fun w o => talk_op o w) w ops.
Definition talk_start (port : option Z) (proxy_addr : string) (in_wait_timeout : Z) : World := {|
  w_rtp_port := port; w_proxy_addr := proxy_addr; w_in_wait_timeout := in_wait_timeout; w_sessions := ∅;
  w_senders := []; w_closes := []; w_packets := []; w_reports := [] |}.
Definition reachable w : Prop := exists port proxy timeout ops, w = talk_ops ops (talk_start port proxy timeout).

Lemma reachable_ind (P : World -> Prop) :
  (forall port proxy timeout, P (talk_start port proxy timeout)) ->
  (forall o w, P w -> P (talk_op o w)) -> forall w, reachable w -> P w.
Proof.
  intros Hs Ho w (port & proxy & timeout & ops & ->). induction ops as [|o ops IH] using rev_ind; [apply Hs|].
  unfold talk_ops. rewrite foldl_app. by apply Ho.
Qed.

(** *** What an operation does to one task *)

(** The packets a task handed to the writer, and the frames an operation puts
    into its channel. *)
Definition packets_of (j : nat) w : list (TalkTarget * list Z) := (filter (fun p => p.1 = j) (w_packets w)).*2.
Definition accepted (j : nat) (o : TalkOp) w : list (list Z) :=
  match o with
  | Push id frame =>
      match (push_frame id frame w).1, frame, w_sessions w !! id with
      | Done _, _ :: _, Some s => if decide (ts_sender s = j) then [frame] else []
      | _, _, _ => []
      end
  | _ => []
  end.

(** The changes of task [j]: its session's cells, its channel, a step of its
    own; with what it sends and the frames it gets. *)
Inductive task_change (j : nat) : TalkOp -> TalkSender -> TalkSender -> list (TalkTarget * list Z) -> list (list Z) -> Prop :=
| ch_none o t : task_change j o t t [] []
| ch_cells o t pt target : task_change j o t (sn_set_cells pt target t) [] []
| ch_closed room id t : task_change j (Close room id) t (sn_drop_session (sn_cancel t)) [] []
| ch_dropped room k t : task_change j (Leave room k) t (sn_drop_session t) [] []
| ch_pushed id frame t : (length (sn_input t) < TALK_INPUT_QUEUE_SIZE)%nat ->
    task_change j (Push id frame) t (sn_set_input (sn_input t ++ [frame]) t) [] [frame]
| ch_received now frame rest t : sn_input t = frame :: rest ->
    task_change j (Sender j Received now) t
      (sn_set_loop (on_frame now frame (sn_loop t)) (sn_set_input rest t)) [] []
| ch_ticked now t p l : on_tick (sn_ssrc t) (sn_samples t) (sn_target t) (sn_payload_type t) (sn_loop t) = (p, l) ->
    task_change j (Sender j Ticked now) t (sn_set_loop l t) (option_list p) []
| ch_leaving branch now reason t : sn_state t = Looping ->
    task_change j (Sender j branch now) t (sn_set_state (Leaving reason) t) [] []
| ch_gone room t drop :
    task_change j (Leave room j) t (sn_set_state Gone (if drop : bool then sn_drop_session t else t)) [] [].
Definition changes (o : TalkOp) w (j : nat) t : Prop :=
  exists t' out inp, w_senders (talk_op o w) !! j = Some t' /\ packets_of j (talk_op o w) = packets_of j w ++ out /\
    accepted j o w = inp /\ task_change j o t t' out inp.

Lemma lookup_on_sender w k f j : w_senders (on_sender k f w) !! j = (if decide (j = k) then f <$> w_senders w !! j else w_senders w !! j).
Proof. cbn. case_decide; subst; [by rewrite list_lookup_alter_eq|by rewrite list_lookup_alter_ne]. Qed.
Lemma close_talk_target_same room target w :
  w_senders (close_talk_target room target w) = w_senders w /\ w_sessions (close_talk_target room target w) = w_sessions w /\
  w_packets (close_talk_target room target w) = w_packets w /\ w_reports (close_talk_target room target w) = w_reports w.
Proof. unfold close_talk_target. destruct target; [|done]. by case_match. Qed.

(** A task that an operation leaves alone, but for its cells. *)
Lemma changes_quiet o w j t t' :
  w_senders (talk_op o w) !! j = Some t' -> w_packets (talk_op o w) = w_packets w -> accepted j o w = [] ->
  task_change j o t t' [] [] -> changes o w j t.
Proof. intros Ht Hp Ha Hc. exists t', [], []. split_and!; try done. rewrite app_nil_r. unfold packets_of. by rewrite Hp. Qed.
Ltac same_task := by eapply changes_quiet; [..|constructor].

Lemma push_changes id frame w j t : w_senders w !! j = Some t -> changes (Push id frame) w j t.
Proof.
  intros Ht. unfold changes. cbn [talk_op accepted]. destruct (push_frame id frame w) as [r w'] eqn:Hr. revert Hr.
  unfold push_frame. assert (forall r0 : outcome TalkError unit, (r0 <> Done tt \/ frame = []) -> (r0, w) = (r, w') ->
    exists t' out inp, w_senders w' !! j = Some t' /\ packets_of j w' = packets_of j w ++ out /\
      match r, frame, w_sessions w !! id with
      | Done _, _ :: _, Some s => if decide (ts_sender s = j) then [frame] else [] | _, _, _ => [] end = inp /\
      task_change j (Push id frame) t t' out inp) as Hno.
  { intros r0 Hr0 [= <- <-]. exists t, [], []. rewrite app_nil_r. split_and!; [done..| |constructor].
    destruct r0 as [[]| |]; [|done..]. destruct Hr0 as [ ? | -> ]; done. }
  destruct frame as [|b frame]; [intros Hr; apply (Hno _ (or_intror eq_refl) Hr)|].
  destruct (w_sessions w !! id) as [s|] eqn:Hs; [|intros Hr; eapply Hno; [|exact Hr]; by left].
  destruct (w_senders w !! ts_sender s) as [t0|] eqn:Ht0; [|intros Hr; eapply Hno; [|exact Hr]; by left].
  case_bool_decide; [intros Hr; eapply Hno; [|exact Hr]; by left|].
  destruct (decide (TALK_INPUT_QUEUE_SIZE <= _)%nat); [intros Hr; eapply Hno; [|exact Hr]; by left|].
  intros [= <- <-]. cbn [snd fst]. rewrite lookup_on_sender, Ht. case_decide as Hj; case_decide as Hj'; try congruence.
  - subst j. assert (t0 = t) as -> by congruence. eexists _, [], _. rewrite app_nil_r. split_and!; try reflexivity.
    constructor. lia.
  - eexists _, [], _. rewrite app_nil_r. split_and!; try reflexivity. constructor.
Qed.
Lemma step_changes k branch now w j t : w_senders w !! j = Some t -> changes (Sender k branch now) w j t.
Proof.
  intros Ht. destruct (decide (j = k)) as [<-|Hjk].
  2: { unfold changes. cbn [talk_op accepted]. unfold sender_step.
       exists t, [], []. rewrite app_nil_r. destruct (w_senders w !! k) as [t0|]; [|by split_and!; [..|constructor]].
       cbn [mbind option_bind].
       split_and!; [| |done|constructor].
       - destruct branch; repeat case_match; cbn [from_option id hand_packet w_senders]; try done;
           simplify_eq; cbn [hand_packet w_senders]; try rewrite lookup_on_sender, decide_False by done; try done;
           (cbn; by rewrite list_lookup_alter_ne by done).
       - unfold packets_of. destruct branch; repeat case_match; simplify_eq; cbn [from_option id hand_packet w_packets on_sender]; try done.
         match goal with |- context [match ?o with _ => _ end] => destruct o; [|done] end. rewrite filter_app, filter_cons_False, filter_nil, app_nil_r by (cbn; congruence). done. }
  unfold changes. cbn [talk_op accepted]. unfold sender_step. rewrite Ht. cbn [mbind option_bind].
  case_bool_decide as Hst; cbn [negb]; [|exists t, [], []; rewrite app_nil_r; by split_and!; [..|constructor]].
  destruct branch; repeat case_match; cbn [from_option id];
    try (exists t, [], []; rewrite app_nil_r; by split_and!; [..|constructor]).
  - eexists _, [], []. rewrite lookup_on_sender, decide_True, Ht, app_nil_r by done.
    split_and!; try reflexivity. by constructor.
  - eexists _, [], []. rewrite lookup_on_sender, decide_True, Ht, app_nil_r by done.
    split_and!; try reflexivity. by constructor.
  - eexists _, [], []. rewrite lookup_on_sender, decide_True, Ht, app_nil_r by done.
    split_and!; try reflexivity. by constructor.
  - eexists _, [], []. rewrite lookup_on_sender, decide_True, Ht, app_nil_r by done.
    split_and!; try reflexivity. by constructor.
  - match goal with Hl : on_tick _ _ _ _ _ = (?p, ?l) |- _ => exists (sn_set_loop l t), (option_list p), []; rename Hl into Htick end.
    split_and!; [|  |done|by constructor].
    + cbn. by rewrite list_lookup_alter_eq, Ht.
    + unfold packets_of. cbn [hand_packet w_packets on_sender].
      match goal with |- context [option_list ?p] => destruct p as [p|] end; [|by rewrite app_nil_r].
      rewrite filter_app, fmap_app. f_equal. by rewrite filter_cons_True.
Qed.
Lemma leave_changes room k w j t : w_senders w !! j = Some t -> changes (Leave room k) w j t.
Proof.
  intros Ht. unfold changes. cbn [talk_op accepted].
  unfold sender_leave. assert (exists t' out inp, w_senders w !! j = Some t' /\ packets_of j w = packets_of j w ++ out /\
    [] = inp /\ task_change j (Leave room k) t t' out inp) as Hno.
  { exists t, [], []. rewrite app_nil_r. by split_and!; [..|constructor]. }
  destruct (w_senders w !! k) as [t0|] eqn:Ht0; [|done]. cbn [mbind option_bind].
  destruct (sn_state t0); [done| |done].
  destruct (w_sessions w !! _) as [s|]; cbn [from_option id].
  - rewrite lookup_on_sender. unfold packets_of. cbn [report on_sender w_senders w_packets].
    match goal with |- context [close_talk_target room ?tg ?w1] =>
      destruct (close_talk_target_same room tg w1) as (Hs & _ & Hp & _) end.
    rewrite Hs, Hp, lookup_on_sender. cbn [set_sessions on_sender w_senders w_packets]. rewrite Ht.
    destruct (decide (j = k)) as [<-|], (decide (j = ts_sender s)); cbn [fmap option_fmap option_map];
      eexists _, [], []; rewrite app_nil_r; (split_and!; try reflexivity); try constructor.
    + apply (ch_gone _ _ _ true).
    + apply (ch_gone _ _ _ false).
  - rewrite lookup_on_sender, Ht. destruct (decide (j = k)) as [<-|]; eexists _, [], []; rewrite app_nil_r;
      (split_and!; try reflexivity); [|constructor].
    apply (ch_gone _ _ _ false).
Qed.
Lemma task_changes o w j t : w_senders w !! j = Some t -> changes o w j t.
Proof.
  intros Ht. destruct o as [now req|req|req|room id|id frame|k branch now|room k].
  - apply changes_quiet with t; [| |done|constructor]; cbn [talk_op]; unfold open; destruct (validate_open_req req); try done;
      (destruct (w_rtp_port w); [|done]); (destruct (w_sessions w !! _); [done|]); [|done]. cbn. by apply lookup_app_l_Some.
  - unfold changes. cbn [talk_op accepted]. unfold answer_target.
    assert (exists t' out inp, w_senders w !! j = Some t' /\ packets_of j w = packets_of j w ++ out /\
      [] = inp /\ task_change j (AnswerTarget req) t t' out inp) as Hno.
    { exists t, [], []. rewrite app_nil_r. by split_and!; [..|constructor]. }
    destruct (parse_device_addr _ _); [|done]. destruct (parse_protocol _); try done.
    destruct (w_sessions w !! _) as [s|]; [|done]. cbn [snd]. rewrite lookup_on_sender, Ht.
    case_decide; eexists _, [], []; rewrite app_nil_r; (split_and!; try reflexivity); constructor.
  - unfold changes. cbn [talk_op accepted]. unfold answer_payload.
    destruct (w_sessions w !! _) as [s|]; [|exists t, [], []; rewrite app_nil_r; by split_and!; [..|constructor]].
    rewrite lookup_on_sender, Ht.
    case_decide; eexists _, [], []; rewrite app_nil_r; (split_and!; try reflexivity); constructor.
  - unfold changes. cbn [talk_op accepted]. unfold close.
    destruct (w_sessions w !! _) as [s|]; [|exists t, [], []; rewrite app_nil_r; by split_and!; [..|constructor]].
    cbn [snd]. rewrite lookup_on_sender. unfold packets_of. cbn [on_sender w_packets]. set (w1 := set_sessions _ w).
    set (w2 := if bool_decide _ then _ else _).
    assert (w_senders w2 = w_senders w /\ w_packets w2 = w_packets w) as [-> ->].
    { unfold w2. case_bool_decide; [|done]. destruct (close_talk_target_same room (current_target (ts_sender s) w1) w1) as (-> & _ & -> & _). done. }
    rewrite Ht. case_decide; eexists _, [], []; rewrite app_nil_r; (split_and!; try reflexivity); constructor.
  - by apply push_changes.
  - by apply step_changes.
  - by apply leave_changes.
Qed.

(** *** The frames of a talk *)

Fixpoint pushed (j : nat) (ops : list TalkOp) w : list (list Z) :=
  match ops with [] => [] | o :: ops => accepted j o w ++ pushed j ops (talk_op o w) end.

(** No task of this number yet, and no packets of it but those of [w]. *)
Definition absent (j : nat) w w' : Prop := packets_of j w' = packets_of j w /\ w_senders w' !! j = None.
Lemma absent_on_sender j w w' k f : absent j w w' -> absent j w (on_sender k f w').
Proof. intros [Hp Hj]. split; [done|]. rewrite lookup_on_sender, Hj. by case_decide. Qed.
Lemma absent_close_target j w w' room target : absent j w w' -> absent j w (close_talk_target room target w').
Proof.
  unfold absent, packets_of. by destruct (close_talk_target_same room target w') as (-> & _ & -> & _).
Qed.
Lemma absent_hand_packet j w w' k p : k <> j -> absent j w w' -> absent j w (hand_packet k p w').
Proof.
  intros Hk [Hp Hj]. split; [|done]. rewrite <- Hp. unfold packets_of. cbn [hand_packet w_packets]. destruct p; [|done].
  rewrite filter_app, filter_cons_False, filter_nil, app_nil_r by done. done.
Qed.
Lemma absent_set_sessions j w w' m : absent j w w' -> absent j w (set_sessions m w').
Proof. done. Qed.
Lemma absent_report j w w' e : absent j w w' -> absent j w (report e w').
Proof. done. Qed.
Hint Resolve absent_on_sender absent_close_target absent_hand_packet absent_set_sessions absent_report : talk.

Lemma absent_op o w j : (forall now req, o <> Open now req) -> w_senders w !! j = None -> absent j w (talk_op o w).
Proof.
  intros Ho Hj. assert (absent j w w) as Hw by done.
  destruct o as [now req|req|req|room i|i frame|k branch now|room k]; [by destruct (Ho now req)|..]; cbn [talk_op].
  all: unfold answer_target, answer_payload, close, push_frame, sender_step, sender_leave.
  all: repeat case_match; cbn [mbind option_bind] in *; simplify_eq; cbn [snd fst from_option id] in *; eauto 10 with talk.
  all: destruct (w_senders w !! k) eqn:?; cbn [mbind option_bind]; [|done].
  all: repeat case_match; simplify_eq; cbn [from_option id]; try done.
  all: (apply absent_hand_packet; [congruence|]) || idtac; eauto 10 with talk.
Qed.
Lemma absent_accepts o w j : w_senders w !! j = None -> accepted j o w = [].
Proof.
  intros Hj. destruct o; try done. cbn [accepted]. unfold push_frame.
  repeat case_match; cbn [fst] in *; simplify_eq; congruence.
Qed.
Lemma absent_task o w j : w_senders w !! j = None ->
  packets_of j (talk_op o w) = packets_of j w /\
  forall t, w_senders (talk_op o w) !! j = Some t -> exists now, sn_loop t = loop_start now /\ sn_input t = [].
Proof.
  intros Hj. assert (absent j w w) as Hw by done.
  assert (forall w', absent j w w' -> talk_op o w = w' -> packets_of j (talk_op o w) = packets_of j w /\
    forall t, w_senders (talk_op o w) !! j = Some t -> exists now, sn_loop t = loop_start now /\ sn_input t = []) as Hdone.
  { intros w' [Hp Hn] ->. split; [done|]. intros t. congruence. }
  destruct o as [now req|req|req|room i|i frame|k branch now|room k];
    [|eapply Hdone; [|reflexivity]; apply absent_op; [intros ? ?; discriminate|done]..].
  cbn [talk_op] in *. unfold open in *. destruct (validate_open_req req); [|by eapply Hdone..].
  destruct (w_rtp_port w); [|by eapply Hdone]. destruct (w_sessions w !! _); [by eapply Hdone|].
  split; [done|]. cbn. intros t Ht. apply lookup_app_Some in Ht as [Ht|[_ Ht]]; [congruence|].
  apply list_lookup_singleton_Some in Ht as [_ <-]. by exists now.
Qed.

Definition task_inv (j : nat) (acc : list (list Z)) w : Prop :=
  match w_senders w !! j with
  | None => packets_of j w = [] /\ acc = []
  | Some t => exists now events, run_loop (sn_ssrc t) (sn_samples t) now events = (packets_of j w, sn_loop t) /\
                received events ++ sn_input t = acc
  end.
Lemma task_inv_step j acc o w : task_inv j acc w -> task_inv j (acc ++ accepted j o w) (talk_op o w).
Proof.
  unfold task_inv. destruct (w_senders w !! j) as [t|] eqn:Ht.
  - intros (now & events & Hrun & Hacc). destruct (task_changes o w j t Ht) as (t' & out & inp & -> & -> & -> & Hch).
    inversion Hch; subst; cbn [sn_ssrc sn_samples sn_loop sn_input sn_set_cells sn_drop_session sn_cancel sn_set_input
      sn_set_loop sn_set_state]; rewrite ?app_nil_r.
    1-4, 8: by exists now, events.
    + exists now, events. by rewrite app_assoc.
    + exists now, (events ++ [Frame now0 frame]). rewrite run_loop_snoc, Hrun. split; [done|].
      unfold received. rewrite omap_app. cbn. rewrite <- app_assoc. by rewrite H.
    + exists now, (events ++ [Tick (sn_target t) (sn_payload_type t)]). rewrite run_loop_snoc, Hrun. cbn [loop_event fst snd].
      rewrite H. split; [done|]. unfold received. rewrite omap_app. cbn. by rewrite app_nil_r.
    + exists now, events. by destruct drop.
  - intros [Hp ->]. rewrite (absent_accepts o w j Ht). destruct (absent_task o w j Ht) as (-> & Hnew).
    destruct (w_senders (talk_op o w) !! j) as [t|]; [|done]. destruct (Hnew t eq_refl) as (now & Hl & Hi).
    exists now, []. by rewrite Hp, Hl, Hi.
Qed.
Lemma task_inv_ops j ops : forall acc w, task_inv j acc w -> task_inv j (acc ++ pushed j ops w) (talk_ops ops w).
Proof.
  induction ops as [|o ops IH]; intros acc w Hi; [by rewrite app_nil_r|]. cbn [pushed talk_ops foldl].
  rewrite app_assoc. by apply IH, task_inv_step.
Qed.

(** C19: what the device hears of a talk.  However opens, answers, closes,
    incoming frames and the steps of the sender tasks interleave, the packets of
    a talk carry frames accepted for this talk, each at most once and in their
    order; their sequence numbers and time stamps count on from 0 by one and by
    the samples of a frame, wrapping, only the first is marked, all have the
    talk's source; none is sent before three frames were taken in; and what is
    still queued comes after what was sent. *)
Theorem talk_frames_in_order (port : option Z) (proxy_addr : string) (timeout : Z) (ops : list TalkOp) (j : nat) t :
  let start := talk_start port proxy_addr timeout in
  let w := talk_ops ops start in
  w_senders w !! j = Some t ->
  exists sent, packets_of j w = numbered (sn_ssrc t) (sn_samples t) sent /\
    sublist (sent.*2 ++ l_queue (sn_loop t) ++ sn_input t) (pushed j ops start) /\
    (sent <> [] -> (TALK_JITTER_MIN_FRAMES <= length (pushed j ops start))%nat).
Proof.
  intros start w Ht. pose proof (task_inv_ops j ops [] start (conj eq_refl eq_refl)) as Hi. fold w in Hi.
  unfold task_inv in Hi. rewrite Ht in Hi. destruct Hi as (now & events & Hrun & Hacc). cbn [app] in Hacc.
  destruct (run_loop_inv (sn_ssrc t) (sn_samples t) now events) as (sent & Ho & Hs & _ & _ & _ & _ & Hr & Hne).
  rewrite Hrun in *. cbn [fst snd] in *. exists sent. rewrite <- Hacc. split_and!.
  - done.
  - rewrite app_assoc. by apply sublist_app.
  - intros Hsent. specialize (Hr (Hne Hsent)). rewrite length_app. lia.
Qed.

(** *** Sessions and tasks belong together *)

Record talks_ok w : Prop := {
  ok_sessions : forall id s, w_sessions w !! id = Some s -> exists t, w_senders w !! ts_sender s = Some t /\
    sn_talk_id t = id /\ sn_input_open t = true /\ sn_cancelled t = false /\ sn_state t <> Gone;
  ok_tasks : forall j t, w_senders w !! j = Some t -> sn_state t <> Gone -> sn_input_open t = true ->
    exists s, w_sessions w !! sn_talk_id t = Some s /\ ts_sender s = j;
  ok_bounds : forall j t, w_senders w !! j = Some t -> (length (sn_input t) <= TALK_INPUT_QUEUE_SIZE)%nat /\
    (length (l_queue (sn_loop t)) <= TALK_JITTER_MAX_FRAMES)%nat /\ sn_input_timeout t = w_in_wait_timeout w * 1000
}.

Lemma timeout_same o w : w_in_wait_timeout (talk_op o w) = w_in_wait_timeout w.
Proof.
  destruct o as [now req|req|req|room i|i frame|k branch now|room k]; cbn [talk_op];
    unfold open, answer_target, answer_payload, close, push_frame, sender_step, sender_leave, close_talk_target;
    try destruct (w_senders w !! k); cbn [mbind option_bind]; repeat case_match; simplify_eq; try done.
Qed.
Definition quiet (o : TalkOp) : bool := match o with Open _ _ | Close _ _ | Leave _ _ => false | _ => true end.
Lemma quiet_sessions o w : quiet o = true -> w_sessions (talk_op o w) = w_sessions w.
Proof.
  destruct o as [now req|req|req|room i|i frame|k branch now|room k]; try done; intros _; cbn [talk_op];
    unfold answer_target, answer_payload, push_frame, sender_step;
    try destruct (w_senders w !! k); cbn [mbind option_bind]; repeat case_match; simplify_eq; try done.
Qed.
Lemma quiet_task o j t t' out inp : quiet o = true -> task_change j o t t' out inp ->
  sn_talk_id t' = sn_talk_id t /\ sn_input_open t' = sn_input_open t /\ sn_cancelled t' = sn_cancelled t /\
  (sn_state t' = Gone <-> sn_state t = Gone).
Proof. intros Hq Hc. inversion Hc; subst; try done. split_and!; try done. cbn. by rewrite H. Qed.

Lemma bounds_step o w : talks_ok w -> forall j t, w_senders (talk_op o w) !! j = Some t ->
  (length (sn_input t) <= TALK_INPUT_QUEUE_SIZE)%nat /\ (length (l_queue (sn_loop t)) <= TALK_JITTER_MAX_FRAMES)%nat /\
  sn_input_timeout t = w_in_wait_timeout w * 1000.
Proof.
  intros Hw j t' Ht'. destruct (w_senders w !! j) as [t|] eqn:Ht.
  - destruct (ok_bounds w Hw j t Ht) as (Hi & Hl & Hto).
    destruct (task_changes o w j t Ht) as (t'' & out & inp & Heq & _ & _ & Hc). assert (t'' = t') as -> by congruence.
    inversion Hc; subst; cbn; try done.
    + rewrite length_app. cbn. split_and!; [lia|done..].
    + rewrite H in Hi. cbn in Hi. split_and!; [lia| |done]. unfold TALK_JITTER_MAX_FRAMES in *. rewrite length_app. cbn.
      case_decide; [|lia]. destruct (l_queue (sn_loop t)); cbn in *; lia.
    + split_and!; [done| |done]. revert H. unfold on_tick. destruct (negb _); [intros [= <- <-]; exact Hl|].
      destruct (l_queue (sn_loop t)) eqn:Hq; [intros [= <- <-]; rewrite Hq; cbn; lia|]. cbn in Hl.
      destruct (sn_target t); intros [= <- <-]; cbn; lia.
    + by destruct drop.
  - destruct o as [now req|req|req|room i|i frame|k branch now|room k];
      [|(exfalso; edestruct absent_op as [_ Hn]; [|exact Ht|rewrite Hn in Ht'; discriminate]; intros ? ?; discriminate)..].
    cbn [talk_op] in Ht'. unfold open in Ht'. destruct (validate_open_req req); try (cbn in Ht'; congruence).
    destruct (w_rtp_port w); [|cbn in Ht'; congruence]. destruct (w_sessions w !! _); [cbn in Ht'; congruence|].
    cbn in Ht'. apply lookup_app_Some in Ht' as [Ht'|[_ Ht']]; [congruence|].
    apply list_lookup_singleton_Some in Ht' as [_ <-]. cbn. unfold TALK_INPUT_QUEUE_SIZE, TALK_JITTER_MAX_FRAMES. lia.
Qed.

Lemma quiet_step o w : quiet o = true -> talks_ok w -> talks_ok (talk_op o w).
Proof.
  intros Hq Hw. split; [| |intros j t; rewrite timeout_same; by apply bounds_step].
  - intros id s. rewrite quiet_sessions by done. intros Hs. destruct (ok_sessions w Hw id s Hs) as (t & Ht & Hid & Ho & Hc & Hg).
    destruct (task_changes o w _ t Ht) as (t' & out & inp & Ht' & _ & _ & Hch). exists t'.
    destruct (quiet_task o _ t t' out inp Hq Hch) as (-> & -> & -> & Hg'). by rewrite Hg'.
  - intros j t' Ht' Hg Ho. rewrite quiet_sessions by done. destruct (w_senders w !! j) as [t|] eqn:Ht.
    + destruct (task_changes o w _ t Ht) as (t'' & out & inp & Heq & _ & _ & Hch). assert (t'' = t') as -> by congruence.
      destruct (quiet_task o _ t t' out inp Hq Hch) as (Hid & Ho' & _ & Hg'). rewrite Hid. apply (ok_tasks w Hw j t Ht); [|congruence].
      by rewrite <- Hg'.
    + exfalso. destruct (absent_op o w j) as [_ Hn]; [by destruct o|done|congruence].
Qed.
Lemma open_step now req w : talks_ok w -> talks_ok (talk_op (Open now req) w).
Proof.
  intros Hw. split; [| |intros j t; rewrite timeout_same; by apply bounds_step];
    cbn [talk_op]; unfold open; destruct (validate_open_req req); try apply Hw;
    (destruct (w_rtp_port w); [|apply Hw]); (destruct (w_sessions w !! _) as [|] eqn:Hs0; [apply Hw|]); cbn.
  - intros id s Hs. apply lookup_insert_Some in Hs as [[<- <-]|[_ Hs]].
    + eexists. cbn. rewrite lookup_app_r, Nat.sub_diag by lia. split; [reflexivity|]. done.
    + destruct (ok_sessions w Hw id s Hs) as (t & Ht & Hrest). exists t. split; [by apply lookup_app_l_Some|done].
  - intros j t Ht Hg Ho. apply lookup_app_Some in Ht as [Ht|[Hj Ht]].
    + destruct (ok_tasks w Hw j t Ht Hg Ho) as (s & Hs & Hj). exists s. split; [|done].
      rewrite lookup_insert_ne; [done|]. congruence.
    + apply list_lookup_singleton_Some in Ht as [Hjj <-]. cbn. rewrite lookup_insert_eq. eexists. split; [done|]. cbn. lia.
Qed.

(** A session is dropped; its task [k] and the tasks in [gone] are changed. *)
Lemma drop_step id s w w' : talks_ok w -> w_sessions w !! id = Some s -> w_sessions w' = delete id (w_sessions w) ->
  (forall j t', w_senders w' !! j = Some t' -> j <> ts_sender s -> sn_state t' <> Gone -> w_senders w !! j = Some t') ->
  (forall j t, w_senders w !! j = Some t -> j <> ts_sender s -> sn_talk_id t <> id -> w_senders w' !! j = Some t) ->
  (forall t', w_senders w' !! ts_sender s = Some t' -> sn_input_open t' = false) ->
  (forall id s, w_sessions w' !! id = Some s -> exists t, w_senders w' !! ts_sender s = Some t /\
    sn_talk_id t = id /\ sn_input_open t = true /\ sn_cancelled t = false /\ sn_state t <> Gone) /\
  (forall j t, w_senders w' !! j = Some t -> sn_state t <> Gone -> sn_input_open t = true ->
    exists s, w_sessions w' !! sn_talk_id t = Some s /\ ts_sender s = j).
Proof.
  intros Hw Hs Hd Hold Hnew Hk. rewrite Hd. split.
  - intros id' s' Hs'. apply lookup_delete_Some in Hs' as [Hne Hs'].
    destruct (ok_sessions w Hw id' s' Hs') as (t & Ht & Hid & Hrest). exists t. split; [|done].
    apply Hnew; [done| |congruence]. intros Heq. destruct (ok_sessions w Hw id s Hs) as (t0 & Ht0 & Hid0 & _). congruence.
  - intros j t Ht Hg Ho. destruct (decide (j = ts_sender s)) as [->|Hj]; [apply Hk in Ht; congruence|].
    pose proof (Hold j t Ht Hj Hg) as Ht0. destruct (ok_tasks w Hw j t Ht0 Hg Ho) as (s' & Hs' & Hj'). exists s'.
    split; [|done]. rewrite lookup_delete_ne; [done|]. congruence.
Qed.
Lemma close_step room id w : talks_ok w -> talks_ok (talk_op (Close room id) w).
Proof.
  intros Hw. destruct (w_sessions w !! id) as [s|] eqn:Hs; [|cbn [talk_op]; unfold close; by rewrite Hs].
  assert (w_sessions (talk_op (Close room id) w) = delete id (w_sessions w) /\
    forall j, w_senders (talk_op (Close room id) w) !! j =
      if decide (j = ts_sender s) then (fun t => sn_drop_session (sn_cancel t)) <$> w_senders w !! j else w_senders w !! j)
    as [Hd Hl].
  { cbn [talk_op]. unfold close. rewrite Hs. cbn [snd]. set (w1 := set_sessions _ w). set (w2 := if bool_decide _ then _ else _).
    assert (w_senders w2 = w_senders w /\ w_sessions w2 = w_sessions w1) as [Hw2 Hw2'].
    { unfold w2. case_bool_decide; [|done]. destruct (close_talk_target_same room (current_target (ts_sender s) w1) w1) as (-> & -> & _). done. }
    split; [done|]. intros j. by rewrite lookup_on_sender, Hw2. }
  destruct (drop_step id s w (talk_op (Close room id) w) Hw Hs Hd) as [H1 H2].
  - intros j t'. rewrite Hl. by case_decide.
  - intros j t Ht Hj _. by rewrite Hl, decide_False.
  - intros t'. rewrite Hl, decide_True by done. destruct (w_senders w !! _); [|done]. by intros [= <-].
  - split; [done..|]. intros j t. rewrite timeout_same. by apply bounds_step.
Qed.
Lemma leave_step room k w : talks_ok w -> talks_ok (talk_op (Leave room k) w).
Proof.
  intros Hw. destruct (w_senders w !! k) as [t0|] eqn:Ht0; [|cbn [talk_op]; unfold sender_leave; by rewrite Ht0].
  destruct (sn_state t0) as [|reason|] eqn:Hst0; try (cbn [talk_op]; unfold sender_leave; rewrite Ht0; cbn [mbind option_bind]; by rewrite Hst0).
  destruct (w_sessions w !! sn_talk_id t0) as [s|] eqn:Hs.
  - assert (w_sessions (talk_op (Leave room k) w) = delete (sn_talk_id t0) (w_sessions w) /\
      forall j, w_senders (talk_op (Leave room k) w) !! j =
        (fun t => (if decide (j = k) then sn_set_state Gone else fun t => t) (if decide (j = ts_sender s) then sn_drop_session t else t))
        <$> w_senders w !! j) as [Hd Hl].
    { cbn [talk_op]. unfold sender_leave. rewrite Ht0. cbn [mbind option_bind]. rewrite Hst0, Hs. cbn [from_option id].
      match goal with |- context [close_talk_target room ?tg ?w1] =>
        destruct (close_talk_target_same room tg w1) as (Hw2 & Hw2' & _) end.
      split; [done|]. intros j. rewrite lookup_on_sender. cbn [report w_senders]. rewrite Hw2, lookup_on_sender.
      cbn [set_sessions w_senders]. destruct (decide (j = k)), (decide (j = ts_sender s)); by destruct (w_senders w !! j). }
    destruct (drop_step _ s w (talk_op (Leave room k) w) Hw Hs Hd) as [H1 H2].
    + intros j t'. rewrite Hl. destruct (w_senders w !! j); [|done]. intros [= <-] Hj. rewrite (decide_False (P := j = ts_sender s)) by done.
      case_decide; [done|done].
    + intros j t Ht Hj Hid. rewrite Hl, Ht. cbn. rewrite (decide_False (P := j = ts_sender s)), decide_False by congruence. done.
    + intros t' Ht'. rewrite Hl in Ht'. apply fmap_Some in Ht' as (t & _ & ->).
      rewrite (decide_True (P := ts_sender s = ts_sender s)) by done. by case_decide.
    + split; [done..|]. intros j t. rewrite timeout_same. by apply bounds_step.
  - assert (talk_op (Leave room k) w = on_sender k (sn_set_state Gone) w) as Heq.
    { cbn [talk_op]. unfold sender_leave. rewrite Ht0. cbn [mbind option_bind]. by rewrite Hst0, Hs. }
    split; [| |intros j t; rewrite timeout_same; by apply bounds_step]; rewrite Heq.
    + intros id s Hs'. destruct (ok_sessions w Hw id s Hs') as (t & Ht & Hid & Hrest). exists t. split; [|done].
      rewrite lookup_on_sender, decide_False; [done|]. intros <-. assert (t0 = t) as -> by congruence.
      change (w_sessions w !! id = Some s) in Hs'. congruence.
    + intros j t. rewrite lookup_on_sender. destruct (decide (j = k)) as [->|].
      * rewrite Ht0. by intros [= <-].
      * apply (ok_tasks w Hw).
Qed.

Lemma reachable_ok w : reachable w -> talks_ok w.
Proof.
  apply reachable_ind.
  - intros port proxy timeout. split; cbn; intros; by simplify_map_eq.
  - intros o w0 Hw. destruct (quiet o) eqn:Hq; [by apply quiet_step|].
    destruct o; try done; [by apply open_step|by apply close_step|by apply leave_step].
Qed.

(** Sessions and sender tasks belong together.  At any time, under any
    interleaving, each session has one task of its own that has not gone, is not
    cancelled and still takes frames; a task whose channel is open has its
    session in the table; no channel holds more than 32 frames and no jitter
    queue more than 8; and every task's input timeout is the configured one. *)
Theorem talk_sessions_invariant w : reachable w -> talks_ok w.
Proof. apply reachable_ok. Qed.

(** A talk ends when its input falls silent.  A tick more than the
    configured input timeout of the media process after the last frame ends the
    task, whatever timeout the talk was opened with; the session is gone then,
    the session process is told once with the reason, a TCP connection to the
    device is closed if the event finds room, no packet is sent, and later
    frames find no session. *)
Theorem silent_talk_closed w (talk_id : string) (s : TalkSession) t (now : Z) (room : bool) (frame : list Z) :
  reachable w -> w_sessions w !! talk_id = Some s -> w_senders w !! ts_sender s = Some t -> sn_state t = Looping ->
  w_in_wait_timeout w * 1000 < now - l_last_input (sn_loop t) -> frame <> [] ->
  exists w1 w2, sender_step (ts_sender s) Ticked now w = Some w1 /\ sender_leave room (ts_sender s) w1 = Some w2 /\
    w_sessions w2 = delete talk_id (w_sessions w) /\
    w_reports w2 = w_reports w ++ [{| tc_talk_id := talk_id; tc_reason := "input_timeout" |}] /\
    w_closes w2 = w_closes w ++ match sn_target t with
                                | Some tg => if bool_decide (tt_protocol tg = TCP) && room then [tt_addr tg] else []
                                | None => []
                                end /\
    w_packets w2 = w_packets w /\ push_frame talk_id frame w2 = (Failed TNotFound, w2).
Proof.
  intros Hw Hs Ht Hst Hnow Hne. destruct (reachable_ok w Hw) as [Hsess _ Hb].
  destruct (Hsess talk_id s Hs) as (t0 & Ht0 & Hid & _). assert (t0 = t) as -> by congruence.
  destruct (Hb _ t Ht) as (_ & _ & Hto).
  eexists (on_sender (ts_sender s) (sn_set_state (Leaving "input_timeout")) w), _. split.
  { unfold sender_step. rewrite Ht. cbn [mbind option_bind]. rewrite Hst, bool_decide_eq_true_2 by done. cbn [negb].
    by rewrite (proj2 (Z.ltb_lt _ _)) by lia. }
  split.
  { unfold sender_leave. rewrite lookup_on_sender, decide_True, Ht by done. cbn [fmap option_fmap option_map mbind option_bind
      sn_set_state sn_state sn_talk_id]. rewrite Hid. change (w_sessions (on_sender _ _ w)) with (w_sessions w). rewrite Hs. reflexivity. }
  assert (forall w', w_sessions w' !! talk_id = None -> push_frame talk_id frame w' = (Failed TNotFound, w')) as Hpush.
  { intros w' Hn. unfold push_frame. destruct frame; [done|]. by rewrite Hn. }
  unfold close_talk_target. cbn [sn_target sn_set_state].
  destruct (sn_target t) as [tg|]; [destruct (_ && _)|]; cbn; rewrite ?app_nil_r; split_and!; try done;
    apply Hpush; cbn; by rewrite lookup_delete_eq.
Qed.

(** A task whose session is gone ends by itself: after the frames still in its
    channel it finds the channel closed. *)
Fixpoint receive_all (n : nat) (k : nat) (now : Z) w : World :=
  match n with O => w | S n => receive_all n k now (talk_op (Sender k Received now) w) end.
Lemma closed_channel_drains k now n : forall w t, w_senders w !! k = Some t -> sn_state t = Looping ->
  sn_input_open t = false -> length (sn_input t) = n ->
  exists t', w_senders (receive_all (S n) k now w) !! k = Some t' /\ sn_state t' = Leaving "input_closed".
Proof.
  induction n as [|n IH]; intros w t Ht Hst Ho Hl; cbn [receive_all]; (destruct (sn_input t) as [|frame rest] eqn:Hi; [|]; try done).
  - cbn [talk_op]. unfold sender_step. rewrite Ht. cbn [mbind option_bind]. rewrite Hst, bool_decide_eq_true_2 by done. cbn [negb].
    rewrite Hi, Ho. cbn [from_option id]. rewrite lookup_on_sender, decide_True, Ht by done. by eexists.
  - assert (w_senders (talk_op (Sender k Received now) w) !! k =
      Some (sn_set_loop (on_frame now frame (sn_loop t)) (sn_set_input rest t))) as Ht'.
    { cbn [talk_op]. unfold sender_step. rewrite Ht. cbn [mbind option_bind]. rewrite Hst, bool_decide_eq_true_2 by done. cbn [negb].
      rewrite Hi. cbn [from_option id]. by rewrite lookup_on_sender, decide_True, Ht by done. }
    eapply (IH _ _ Ht'); try done. cbn in *. lia.
Qed.
Theorem dropped_talk_ends w k t (now : Z) :
  reachable w -> w_senders w !! k = Some t -> sn_state t = Looping ->
  (forall s, w_sessions w !! sn_talk_id t = Some s -> ts_sender s <> k) ->
  exists t', w_senders (receive_all (S (length (sn_input t))) k now w) !! k = Some t' /\ sn_state t' = Leaving "input_closed".
Proof.
  intros Hw Ht Hst Hno. eapply closed_channel_drains; try done. destruct (sn_input_open t) eqn:Ho; [|done]. exfalso.
  destruct (ok_tasks w (reachable_ok w Hw) k t Ht) as (s & Hs & Hj); [congruence|done|]. by apply (Hno s).
Qed.
End Manager.

(** ** Instances *)

Definition demo_open : TalkOpenReq := {|
  to_talk_id := "talk"; to_ssrc := 12345; to_token := "key"; to_codec := "PCMA"; to_sample_rate := 8000;
  to_channel_count := 1; to_payload_type := 8; to_frame_duration_ms := 20; to_input_timeout_secs := 15 |}.
Definition demo_answer : TalkAnswerReq := {|
  ta_talk_id := "talk"; ta_device_ip := "192.0.2.10"; ta_device_port := 30000; ta_protocol := "RTP/AVP"; ta_payload_type := 8 |}.
Definition demo_addr (ip : string) (port : Z) : option (string * Z) := Some (ip, port).
(** A talk with four frames in and two sent. *)
Definition demo_ops : list TalkOp :=
  [Open 0 demo_open; AnswerTarget demo_answer; AnswerPayload demo_answer;
   Push "talk" [1]; Push "talk" [2]; Sender 0 Received 20; Sender 0 Received 30; Sender 0 Ticked 40; Push "talk" [3];
   Sender 0 Received 50; Sender 0 Ticked 60; Push "talk" [4]; Sender 0 Ticked 80].
Local Notation demo_start := (talk_start (Some 18568) "http://127.0.0.1" 4).
Local Notation demo_world := (talk_ops demo_addr demo_ops demo_start).

Lemma talk_packet_reads_back_witness :
  read_rtp (build_rtp_packet 12345 65535 160 true 8 [1; 2]) =
  Some {| rp_marker := true; rp_payload_type := 8; rp_seq := 65535; rp_timestamp := 160; rp_ssrc := 12345; rp_payload := [1; 2] |}.
Proof. refine (talk_packet_reads_back 12345 65535 160 true 8 [1; 2] _ _ _ _); unfold in_width; lia. Defined.

Lemma talk_frames_in_order_witness : exists t sent,
  w_senders demo_world !! O = Some t /\
  packets_of 0 demo_world = numbered 12345 160 sent /\ length sent = 2%nat /\
  sublist (sent.*2 ++ [[3]; [4]]) [[1]; [2]; [3]; [4]].
Proof.
  destruct (w_senders demo_world !! O) as [t|] eqn:Ht; [|vm_compute in Ht; discriminate Ht].
  pose proof (talk_frames_in_order demo_addr (Some 18568) "http://127.0.0.1" 4 demo_ops 0 t) as Hf.
  cbv zeta in Hf.
  destruct (Hf Ht) as (sent & Hp & Hs & _). clear Hf. exists t, sent.
  assert (length (packets_of 0 demo_world) = 2%nat) as Hl by (vm_compute; reflexivity).
  pose proof (f_equal length Hp) as Hpl. unfold numbered in Hpl. rewrite length_imap, Hl in Hpl.
  assert (sn_ssrc t = 12345 /\ sn_samples t = 160 /\ l_queue (sn_loop t) ++ sn_input t = [[3]; [4]]) as (H1 & H2 & H3)
    by (vm_compute in Ht; injection Ht as <-; repeat split).
  assert (pushed demo_addr 0 demo_ops demo_start = [[1]; [2]; [3]; [4]]) as H4
    by (vm_compute; reflexivity).
  rewrite H1, H2 in Hp. rewrite H3, H4 in Hs. split; [reflexivity|]. split; [exact Hp|]. split; [by symmetry|exact Hs].
Defined.

Lemma demo_reachable : reachable demo_addr demo_world.
Proof. by exists (Some 18568), "http://127.0.0.1"%string, 4, demo_ops. Qed.

Lemma talk_sessions_invariant_witness : reachable demo_addr demo_world /\ talks_ok demo_world.
Proof. split; [exact demo_reachable|]. exact (talk_sessions_invariant demo_addr demo_world demo_reachable). Defined.

Lemma silent_talk_closed_witness : exists w1 w2,
  sender_step 0 Ticked 4051 demo_world = Some w1 /\ sender_leave true 0 w1 = Some w2 /\
  w_sessions w2 !! "talk"%string = None /\
  w_reports w2 = [{| tc_talk_id := "talk"; tc_reason := "input_timeout" |}].
Proof.
  destruct (w_sessions demo_world !! "talk"%string) as [s|] eqn:Hs; [|vm_compute in Hs; discriminate Hs].
  destruct (w_senders demo_world !! O) as [t|] eqn:Ht; [|vm_compute in Ht; discriminate Ht].
  assert (ts_sender s = O) as Hk by (vm_compute in Hs; injection Hs as <-; reflexivity).
  edestruct (silent_talk_closed demo_addr demo_world "talk" s t 4051 true [9] demo_reachable Hs) as (w1 & w2 & H1 & H2 & H3 & H4 & _).
  - by rewrite Hk.
  - vm_compute in Ht. injection Ht as <-. reflexivity.
  - vm_compute in Ht. injection Ht as <-. vm_compute. reflexivity.
  - discriminate.
  - exists w1, w2. rewrite Hk in H1, H2. rewrite H3, lookup_delete_eq, H4. repeat split; assumption.
Defined.
