(* ===== verification/Float64.v ===== *)
(** * Binary64 numbers read from text

    [str::parse::<f64>], correctly rounded, over the Standard Library's
    specification of IEEE arithmetic, and the rounding conversions the source
    applies to the result. *)
From Stdlib Require Import Ascii Floats.SpecFloat.
From S2P Require Import Prelude Text.
Local Open Scope Z_scope.

Abbreviation f64 := spec_float.
Definition f64_mul : f64 -> f64 -> f64 := SFmul 53 1024.
(** The number nearest to [n / d]. *)
Definition f64_ratio (neg : bool) (n d : positive) : f64 :=
  SFdiv 53 1024 (S754_finite neg n 0) (S754_finite false d 0).
Definition f64_of_nat (n : positive) : f64 := f64_ratio false n 1.

Fixpoint span_digits (l : list ascii) : list ascii * list ascii :=
  match l with
  | a :: l' => if is_ascii_digit a then let '(ds, rest) := span_digits l' in (a :: ds, rest) else ([], l)
  | [] => ([], [])
  end.
Definition take_sign (l : list ascii) : bool * list ascii :=
  match l with "-"%char :: l => (true, l) | "+"%char :: l => (false, l) | _ => (false, l) end.
(** The exponent after the digits, up to the end. *)
Definition parse_exponent (l : list ascii) : option Z :=
  match l with
  | [] => Some 0
  | e :: l =>
      if bool_decide (ascii_lower e = "e"%char) then
        let '(neg, l) := take_sign l in
        match span_digits l with
        | ((_ :: _) as ds, []) => Some (if neg then - decimal_value ds else decimal_value ds)
        | _ => None
        end
      else None
  end.
(** [ratio]: the rounding of a quotient to the type read. *)
Definition decimal_float (ratio : bool -> positive -> positive -> spec_float) (neg : bool) (n exponent : Z) : spec_float :=
  match n with
  | Zpos p => if 0 <=? exponent then ratio neg (Z.to_pos (n * 10 ^ exponent)) 1%positive
              else ratio neg p (Z.to_pos (10 ^ (- exponent)))
  | _ => S754_zero neg
  end.
Definition parse_float (ratio : bool -> positive -> positive -> spec_float) (s : string) : option spec_float :=
  let '(neg, l) := take_sign (chars s) in
  if eq_ignore_ascii_case l (chars "inf") || eq_ignore_ascii_case l (chars "infinity") then Some (S754_infinity neg)
  else if eq_ignore_ascii_case l (chars "nan") then Some S754_nan
  else
    let '(whole, rest) := span_digits l in
    let '(frac, rest) := match rest with "."%char :: r => span_digits r | _ => ([], rest) end in
    match whole ++ frac with
    | [] => None
    | ds => e ← parse_exponent rest;
            Some (decimal_float ratio neg (decimal_value ds) (e - Z.of_nat (length frac)))
    end.
Definition parse_f64 : string -> option f64 := parse_float f64_ratio.
(** [str::parse::<f32>]. *)
Definition f32_ratio (neg : bool) (n d : positive) : spec_float :=
  SFdiv 24 128 (S754_finite neg n 0) (S754_finite false d 0).
Definition parse_f32 : string -> option spec_float := parse_float f32_ratio.

(** [round], half away from zero, of a finite number. *)
Definition round_finite (m : positive) (e : Z) : Z :=
  if 0 <=? e then Zpos m * 2 ^ e else Z.shiftr (Zpos m + 2 ^ (- e - 1)) (- e).
(** [round() as T] into the range of [T]. *)
Definition round_as (lo hi : Z) (x : f64) : Z :=
  match x with
  | S754_zero _ | S754_nan => 0
  | S754_infinity neg => if neg then lo else hi
  | S754_finite neg m e => let v := if neg then - round_finite m e else round_finite m e in Z.max lo (Z.min hi v)
  end.
Definition round_as_usize : f64 -> Z := round_as 0 (umax 64).
Definition round_as_i32 : f64 -> Z := round_as (- 2 ^ 31) (2 ^ 31 - 1).

Definition f64_zero : f64 := S754_zero false.
Definition f64_leb (x y : f64) : bool := SFleb x y.
Definition f64_ltb (x y : f64) : bool := SFltb x y.
