(* ===== verification/MediaExt.v ===== *)
(** * The media description ([shared/src/info/media_info_ext.rs]) and its readers

    What the session process learned of a stream from the device's SDP, the
    codes of the [f=] line, and what the media process derives from it: the kind
    of payload and the AAC parameters of [stream/src/media/rtp.rs], the input
    format and sample rate of [stream/src/media/context/format/demuxer.rs]. *)
From Stdlib Require Import Ascii.
From S2P Require Import Prelude Text Float64 SharedTypes MediaRegister RtpIngest RtpRing RtpDepacket.
Local Open Scope Z_scope.

(** ** The codes of the [f=] line *)

Definition BITRATE_MAP : list (string * string) :=
  [("1", "5.3"); ("2", "6.3"); ("3", "8"); ("4", "16"); ("5", "24"); ("6", "32"); ("7", "48"); ("8", "64"); ("9", "12");
   ("10", "80"); ("11", "96"); ("12", "112"); ("13", "128"); ("14", "160"); ("15", "192"); ("16", "224"); ("17", "256");
   ("18", "288"); ("19", "320"); ("20", "10.8"); ("21", "12.4"); ("22", "14"); ("23", "15.6"); ("24", "17.2");
   ("25", "19.6"); ("26", "21.2"); ("27", "24.4"); ("28", "23.05"); ("29", "34"); ("30", "48.61")]%string.
Definition SAMPLE_RATE_MAP : list (string * string) :=
  [("1", "8"); ("2", "14"); ("3", "16"); ("4", "32"); ("5", "7"); ("6", "11"); ("7", "12"); ("8", "22"); ("9", "24");
   ("10", "44"); ("11", "48"); ("12", "64"); ("13", "88"); ("14", "96"); ("15", "12.8"); ("16", "25.6");
   ("17", "38.4")]%string.
Definition table_get (k : string) (table : list (string * string)) : option string :=
  snd <$> find (fun kv => bool_decide (kv.1 = k)) table.

Definition vp_set_codec (c : string) (v : VideoParams) : VideoParams := {|
  vp_codec_id := Some c; vp_resolution := vp_resolution v; vp_fps := vp_fps v; vp_bitrate_type := vp_bitrate_type v;
  vp_bitrate := vp_bitrate v |}.
Definition vp_set_resolution (r : Z * Z) (v : VideoParams) : VideoParams := {|
  vp_codec_id := vp_codec_id v; vp_resolution := Some r; vp_fps := vp_fps v; vp_bitrate_type := vp_bitrate_type v;
  vp_bitrate := vp_bitrate v |}.
Definition map_video_codec (item : string) (v : VideoParams) : VideoParams :=
  if bool_decide (item = "1"%string) then vp_set_codec "mpeg4" v
  else if bool_decide (item = "2"%string) then vp_set_codec "h264" v
  else if bool_decide (item = "3"%string) then vp_set_codec "svac" v
  else if bool_decide (item = "4"%string) then vp_set_codec "3gp" v
  else if bool_decide (item = "5"%string) then vp_set_codec "h265" v
  else v.
Definition map_resolution (item : string) (v : VideoParams) : VideoParams :=
  if bool_decide (item = "1"%string) then vp_set_resolution (176, 144) v
  else if bool_decide (item = "2"%string) then vp_set_resolution (352, 288) v
  else if bool_decide (item = "3"%string) then vp_set_resolution (704, 576) v
  else if bool_decide (item = "4"%string) then vp_set_resolution (704, 576) v
  else if bool_decide (item = "5"%string) then vp_set_resolution (1280, 720) v
  else if bool_decide (item = "6"%string) then vp_set_resolution (1920, 1080) v
  else match split_once "x"%char (chars item) with
       | Some (w, h) => match parse_i32 (text w), parse_i32 (text h) with
                        | Some width, Some height => vp_set_resolution (width, height) v | _, _ => v
                        end
       | None => v
       end.
Definition map_fps (item : string) (v : VideoParams) : VideoParams :=
  match parse_i32 item with
  | Some fps => {| vp_codec_id := vp_codec_id v; vp_resolution := vp_resolution v; vp_fps := Some fps;
                   vp_bitrate_type := vp_bitrate_type v; vp_bitrate := vp_bitrate v |}
  | None => v
  end.
Definition map_bitrate_type (item : string) (v : VideoParams) : VideoParams :=
  let set t := {| vp_codec_id := vp_codec_id v; vp_resolution := vp_resolution v; vp_fps := vp_fps v;
                  vp_bitrate_type := Some t; vp_bitrate := vp_bitrate v |} in
  if bool_decide (item = "1"%string) then set "CBR"%string
  else if bool_decide (item = "2"%string) then set "VBR"%string else v.
Definition video_map_bitrate (item : string) (v : VideoParams) : VideoParams :=
  match parse_i32 item with
  | Some br => {| vp_codec_id := vp_codec_id v; vp_resolution := vp_resolution v; vp_fps := vp_fps v;
                  vp_bitrate_type := vp_bitrate_type v; vp_bitrate := Some br |}
  | None => v
  end.
Definition map_audio_codec (item : string) (a : AudioParams) : AudioParams :=
  let set c := {| ap_codec_id := Some c; ap_bitrate := ap_bitrate a; ap_sample_rate := ap_sample_rate a;
                  ap_channel_count := ap_channel_count a; ap_clock_rate := ap_clock_rate a |} in
  if bool_decide (item = "1"%string) then set "g711"%string
  else if bool_decide (item = "2"%string) then set "g723"%string
  else if bool_decide (item = "3"%string) then set "g729"%string
  else if bool_decide (item = "4"%string) then set "g722"%string
  else if bool_decide (item = "5"%string) then set "svac"%string
  else if bool_decide (item = "6"%string) then set "aac"%string else a.
Definition audio_map_bitrate (item : string) (a : AudioParams) : AudioParams :=
  match table_get item BITRATE_MAP with
  | Some rate => {| ap_codec_id := ap_codec_id a; ap_bitrate := Some rate; ap_sample_rate := ap_sample_rate a;
                    ap_channel_count := ap_channel_count a; ap_clock_rate := ap_clock_rate a |}
  | None => a
  end.
Definition map_sample_rate (item : string) (a : AudioParams) : AudioParams :=
  match table_get item SAMPLE_RATE_MAP with
  | Some rate => {| ap_codec_id := ap_codec_id a; ap_bitrate := ap_bitrate a; ap_sample_rate := Some rate;
                    ap_channel_count := ap_channel_count a; ap_clock_rate := ap_clock_rate a |}
  | None => a
  end.

(** ** The kind of payload ([rtp.rs]) *)

Definition matches_codec (codec : option string) (candidates : list string) : bool :=
  match codec with
  | Some s => let lower := to_ascii_lowercase s in existsb (fun c => bool_decide (lower = c)) candidates
  | None => false
  end.
Definition PayloadKind_from_media_ext (m : MediaExt) : PayloadKind :=
  let name := to_ascii_uppercase (me_type_name m) in
  let among names := bool_decide (name ∈ names) in
  if among ["PS"; "MP2P"; "MP2PS"]%string then Ps
  else if among ["H264"; "H.264"; "AVC"]%string then PH264
  else if among ["H265"; "H.265"; "HEVC"]%string then PH265
  else if among ["AAC"; "MPEG4-GENERIC"]%string then PAac
  else if among ["G711"; "G711A"; "G711U"; "PCMA"; "PCMU"]%string then PG711
  else if matches_codec (vp_codec_id (me_video_params m)) ["h264"; "h.264"; "avc"]%string then PH264
  else if matches_codec (vp_codec_id (me_video_params m)) ["h265"; "h.265"; "hevc"]%string then PH265
  else if matches_codec (ap_codec_id (me_audio_params m)) ["aac"]%string then PAac
  else if matches_codec (ap_codec_id (me_audio_params m))
            ["g711"; "g.711"; "g711a"; "g.711a"; "g711u"; "g.711u"; "pcma"; "pcmu"; "alaw"; "mulaw"; "ulaw"]%string then PG711
  else Passthrough.

Definition thousand : f64 := f64_of_nat 1000.
Definition parse_sample_rate (s : string) : option Z :=
  rate ← parse_f64 s;
  if f64_leb rate f64_zero then None
  else if f64_ltb rate thousand then Some (round_as_usize (f64_mul rate thousand))
  else Some (round_as_usize rate).
(** [or_else] and [unwrap_or(8000)] of both readers. *)
Definition fallback_rate (m : MediaExt) : Z :=
  if 0 <? ap_clock_rate (me_audio_params m) then ap_clock_rate (me_audio_params m)
  else if 0 <? me_clock_rate m then me_clock_rate m else 8000.
Definition AacAdtsConfig_from_media_ext (m : MediaExt) : AacAdtsConfig :=
  {| sample_rate := default (fallback_rate m) (ap_sample_rate (me_audio_params m) ≫= parse_sample_rate);
     channels := Z.max (ap_channel_count (me_audio_params m)) 1 |}.

(** ** The demuxer's choice ([demuxer.rs]) *)

Definition is_mulaw_codec (codec : string) : bool :=
  bool_decide (to_ascii_lowercase codec ∈
    ["g711u"; "g.711u"; "g711 u-law"; "g.711 u-law"; "u-law"; "ulaw"; "mu-law"; "mulaw"; "pcmu"; "pcm_mulaw"]%string).
Definition pick_input_format (m : MediaExt) : string :=
  let name := to_ascii_uppercase (me_type_name m) in
  let among names := bool_decide (name ∈ names) in
  let same names codec := match codec with
    | Some s => existsb (fun c => eq_ignore_ascii_case (chars s) (chars c)) names | None => false end in
  let video := vp_codec_id (me_video_params m) in
  let audio := ap_codec_id (me_audio_params m) in
  if among ["PS"; "MP2P"; "MP2PS"]%string then "mpeg"
  else if among ["H264"; "H.264"; "AVC"]%string then "h264"
  else if among ["H265"; "H.265"; "HEVC"]%string then "hevc"
  else if among ["AAC"]%string then "aac"
  else if among ["G711U"; "PCMU"; "MULAW"]%string then "mulaw"
  else if among ["G711"; "G711A"; "PCMA"; "ALAW"]%string then "alaw"
  else if same ["h264"; "h.264"; "avc"]%string video then "h264"
  else if same ["h265"; "h.265"; "hevc"]%string video then "hevc"
  else if match audio with Some s => is_mulaw_codec s | None => false end then "mulaw"
  else if same ["aac"]%string audio then "aac"
  else if bool_decide (is_Some audio) then "alaw"
  else "mpeg".
Definition input_sample_rate (m : MediaExt) : Z :=
  let parsed := s ← ap_sample_rate (me_audio_params m); rate ← parse_f64 s;
    let r := if f64_ltb f64_zero rate && f64_ltb rate thousand
             then round_as_i32 (f64_mul rate thousand) else round_as_i32 rate in
    if 0 <? r then Some r else None in
  default (fallback_rate m) parsed.
