(* ===== verification/Sdp.v ===== *)
(** * SDP of the session process ([session/src/gb/sip/sdp.rs], [session/src/service/talk.rs])

    The offers for live play, playback and download, the check of a device's
    answer, what is read of it into the media description, and the audio
    options and the broadcast INVITE of a talk.  The parsers [SdpInfo::parse_lossy]
    and [sdp_types::Session::parse], the [regex] crate's replacement of white
    space and the Unicode case table are parameters. *)
From Stdlib Require Import Ascii.
From stdpp Require Import pretty.
From S2P Require Import Prelude Text SharedTypes MediaExt TalkUpload.
Local Open Scope Z_scope.

(** ** Lines *)

(** [str::lines]: a last line without its line feed keeps a carriage return. *)
Definition strip_cr (l : list ascii) : list ascii :=
  match reverse l with "013"%char :: r => reverse r | _ => l end.
Fixpoint lines_of (pieces : list (list ascii)) : list (list ascii) :=
  match pieces with
  | [] => []
  | [tail] => match tail with [] => [] | _ => [tail] end
  | piece :: pieces => strip_cr piece :: lines_of pieces
  end.
Definition lines (l : list ascii) : list (list ascii) := lines_of (split_on "010"%char l).
Definition crlf : string := String "013" (String "010" EmptyString).

(** ** The offers *)

Inductive TransMode := TransUdp | TcpActive | TcpPassive.

Definition video_payloads (support_h265 : bool) : string :=
  if support_h265 then "96 97 98 99 100" else "96 97 98 99".

(** [session_ip]: [SessionConf::get_session_by_conf().wan_ip] in text. *)
Definition build_common_play (session_ip channel_id media_ip : string) (media_port : Z) (stream_mode : TransMode)
    (ssrc name st_et : string) (add_u : bool) (download_speed : option Z) (support_h265 : bool) : string :=
  let payloads := video_payloads support_h265 in
  let media proto := ("m=video " +:+ pretty media_port +:+ " " +:+ proto +:+ " " +:+ payloads +:+ crlf)%string in
  ("v=0" +:+ crlf
   +:+ "o=" +:+ channel_id +:+ " 0 0 IN IP4 " +:+ session_ip +:+ crlf
   +:+ "s=" +:+ name +:+ crlf
   +:+ (if add_u then "u=" +:+ channel_id +:+ ":0" +:+ crlf else "")
   +:+ "c=IN IP4 " +:+ media_ip +:+ crlf
   +:+ "t=" +:+ st_et +:+ crlf
   +:+ match stream_mode with
       | TransUdp => media "RTP/AVP"
       | TcpActive => media "TCP/RTP/AVP" +:+ "a=setup:active" +:+ crlf +:+ "a=connection:new" +:+ crlf
       | TcpPassive => media "TCP/RTP/AVP" +:+ "a=setup:passive" +:+ crlf +:+ "a=connection:new" +:+ crlf
       end
   +:+ "a=recvonly" +:+ crlf
   +:+ "a=rtpmap:96 PS/90000" +:+ crlf
   +:+ "a=rtpmap:97 MPEG4/90000" +:+ crlf
   +:+ "a=rtpmap:98 H264/90000" +:+ crlf
   +:+ "a=rtpmap:99 SVAC/90000" +:+ crlf
   +:+ (if support_h265 then "a=rtpmap:100 H265/90000" +:+ crlf else "")
   +:+ match download_speed with Some speed => "a=downloadspeed:" +:+ pretty speed +:+ crlf | None => "" end
   +:+ "y=" +:+ ssrc +:+ crlf)%string.
Definition play_live (session_ip channel_id media_ip : string) (media_port : Z) (stream_mode : TransMode) (ssrc : string)
    (support_h265 : bool) : string :=
  build_common_play session_ip channel_id media_ip media_port stream_mode ssrc "Play" "0 0" false None support_h265.
Definition playback (session_ip channel_id media_ip : string) (media_port : Z) (stream_mode : TransMode) (ssrc : string)
    (st et : Z) (support_h265 : bool) : string :=
  build_common_play session_ip channel_id media_ip media_port stream_mode ssrc "Playback"
    (pretty st +:+ " " +:+ pretty et)%string true None support_h265.
Definition download (session_ip channel_id media_ip : string) (media_port : Z) (stream_mode : TransMode) (ssrc : string)
    (st et download_speed : Z) (support_h265 : bool) : string :=
  build_common_play session_ip channel_id media_ip media_port stream_mode ssrc "Download"
    (pretty st +:+ " " +:+ pretty et)%string true (Some download_speed) support_h265.

(** ** The device's answer *)

(** What the source reads of [gmv_pjsip]'s [SdpInfo]. *)
Record SdpInfo := {
  si_session_name : option string; si_connection_addr : option string; si_media_port : option Z;
  si_media_proto : option string; si_media_payloads : list string; si_ssrc : option string
}.
Inductive SdpError := InvalidAnswer | ParseError | InvalidBroadcast | MissingAddress | MissingPort | UnsupportedPayload.

(** The [f=] line. *)
Definition ends_with_a (l : list ascii) : option (list ascii) :=
  match reverse l with "a"%char :: r => Some (reverse r) | _ => None end.
Definition apply_item {X : Type} (f : string -> X -> X) (item : list ascii) (x : X) : X :=
  match item with [] => x | _ => f (text item) x end.
Definition set_params (v : VideoParams) (a : AudioParams) (m : MediaExt) : MediaExt := {|
  me_rtp_encrypt := me_rtp_encrypt m; type_code := type_code m; me_type_name := me_type_name m;
  me_clock_rate := me_clock_rate m; me_stream_number := me_stream_number m; me_video_params := v; me_audio_params := a |}.
Definition apply_f_field (f_field : list ascii) (m : MediaExt) : MediaExt :=
  match trim <$> split_on "/"%char f_field with
  | [p0; p1; p2; p3; p4; p5; p6; p7; p8] =>
      if bool_decide (p0 = chars "v") then
        match ends_with_a p5 with
        | Some p5 =>
            set_params
              (apply_item video_map_bitrate (trim p5) (apply_item map_bitrate_type p4 (apply_item map_fps p3
                (apply_item map_resolution p2 (apply_item map_video_codec p1 (me_video_params m))))))
              (apply_item map_sample_rate p8 (apply_item audio_map_bitrate p7
                (apply_item map_audio_codec p6 (me_audio_params m)))) m
        | None => m
        end
      else m
  | _ => m
  end.
Definition extract_f_field (m : MediaExt) (sdp : list ascii) : MediaExt :=
  if negb (utf8_valid sdp) then m else
  match head (omap (fun line => strip_prefix (chars "f=") (trim line)) (lines sdp)) with
  | Some f_field => apply_f_field f_field m
  | None => m
  end.

Definition parse_u8 (s : string) : option Z := v ← parse_u32 s; if v <=? 255 then Some v else None.

(** A media of [sdp_types]: its first value of an attribute is an error when
    there is no such attribute. *)
Record SdpMedia := { sm_media : list ascii; sm_first_attribute : string -> option (option (list ascii)) }.

Section Answer.
Context (parse_lossy : string -> SdpInfo) (session_parse : list ascii -> option (list SdpMedia)).
Context (squeeze_space to_uppercase : list ascii -> list ascii).

Definition set_rtpmap (code : Z) (m : MediaExt) : MediaExt := {|
  me_rtp_encrypt := me_rtp_encrypt m; type_code := code; me_type_name := me_type_name m;
  me_clock_rate := me_clock_rate m; me_stream_number := me_stream_number m; me_video_params := me_video_params m;
  me_audio_params := me_audio_params m |}.
Definition set_encoding (name : string) (rate : Z) (m : MediaExt) : MediaExt := {|
  me_rtp_encrypt := me_rtp_encrypt m; type_code := type_code m; me_type_name := name;
  me_clock_rate := rate; me_stream_number := me_stream_number m; me_video_params := me_video_params m;
  me_audio_params := me_audio_params m |}.
Definition set_stream_number (n : Z) (m : MediaExt) : MediaExt := {|
  me_rtp_encrypt := me_rtp_encrypt m; type_code := type_code m; me_type_name := me_type_name m;
  me_clock_rate := me_clock_rate m; me_stream_number := Some n; me_video_params := me_video_params m;
  me_audio_params := me_audio_params m |}.

(** [trim().to_lowercase()] against the two names; no other character has a
    lower case among their letters. *)
Definition is_audio_video (name : list ascii) : bool :=
  eq_ignore_ascii_case (trim name) (chars "video") || eq_ignore_ascii_case (trim name) (chars "audio").
Definition read_rtpmap (info : list ascii) (m : MediaExt) : outcome SdpError MediaExt :=
  match split_once " "%char (trim (squeeze_space info)) with
  | None => Done m
  | Some (play_code, payload) =>
      match parse_u8 (text (trim play_code)) with
      | None => Failed ParseError
      | Some code =>
          match split_on "/"%char (trim payload) with
          | name :: rate :: _ =>
              match parse_i32 (text (trim rate)) with
              | Some rate => Done (set_encoding (text (to_uppercase (trim name))) rate (set_rtpmap code m))
              | None => Failed ParseError
              end
          | _ => Done (set_rtpmap code m)
          end
      end
  end.
Definition read_media (media : SdpMedia) (m : MediaExt) : outcome SdpError MediaExt :=
  if negb (is_audio_video (sm_media media)) then Done m else
  let mapped := match sm_first_attribute media "rtpmap" with
                | None => Failed ParseError
                | Some None => Done m
                | Some (Some info) => read_rtpmap info m
                end in
  match mapped with
  | Done m1 =>
      match sm_first_attribute media "streamnumber" with
      | Some (Some num) =>
          match parse_u8 (text (trim num)) with Some n => Done (set_stream_number n m1) | None => Failed ParseError end
      | _ => Done m1
      end
  | e => e
  end.
Fixpoint read_medias (medias : list SdpMedia) (m : MediaExt) : outcome SdpError MediaExt :=
  match medias with
  | [] => Done m
  | media :: medias => match read_media media m with Done m1 => read_medias medias m1 | e => e end
  end.
Definition parse_media_ext (sdp : list ascii) : outcome SdpError MediaExt :=
  match session_parse sdp with
  | None => Failed ParseError
  | Some medias =>
      match read_medias medias MediaExt_default with Done ext => Done (extract_f_field ext sdp) | e => e end
  end.

Definition validate_invite_answer_sdp (remote_sdp expected_ssrc : string) : outcome SdpError unit :=
  let info := parse_lossy remote_sdp in
  match si_ssrc info with
  | None => Failed InvalidAnswer
  | Some actual =>
      if negb (bool_decide (String.length actual = 10%nat)) || negb (all_digits actual) then Failed InvalidAnswer
      else if bool_decide (actual <> expected_ssrc) then Failed InvalidAnswer
      else if bool_decide (default ""%string (si_connection_addr info) = ""%string) then Failed InvalidAnswer
      else if default 0 (si_media_port info) =? 0 then Failed InvalidAnswer
      else if bool_decide (si_media_payloads info = []) then Failed InvalidAnswer
      else Done tt
  end.

(** ** The broadcast INVITE of a talk *)

Record TalkSdpAnswer := {
  sa_device_ip : string; sa_device_port : Z; sa_protocol : Protocol; sa_payload_type : Z; sa_codec : string;
  sa_sample_rate : Z
}.
(** The first line with the prefix decides. *)
Definition rtpmap_of (rest : list ascii) : string * Z :=
  let rest := trim (strip_while (length rest) [chars " "; chars ":"] rest) in
  match split_on "/"%char rest with
  | codec :: more =>
      (text (to_uppercase (trim codec)),
       default 8000 (rate ← head more; parse_u32 (text (trim rate))))
  | [] => (""%string, 8000)
  end.
Definition parse_rtpmap_from_sdp (sdp : string) (payload_type : Z) : option (string * Z) :=
  let prefix := chars ("a=rtpmap:" +:+ pretty payload_type) in
  rtpmap_of <$> head (omap (fun line => strip_prefix prefix (trim line)) (lines (chars sdp))).
Definition parse_talk_sdp (remote_sdp : string) (sdp : SdpInfo) : outcome SdpError TalkSdpAnswer :=
  match si_connection_addr sdp, si_media_port sdp with
  | None, _ => Failed MissingAddress
  | _, None => Failed MissingPort
  | Some device_ip, Some device_port =>
      let payload_type := default 8 (p ← head (si_media_payloads sdp); parse_u8 p) in
      let '(codec, rate) := default (if payload_type =? 0 then ("PCMU"%string, 8000)
                                     else if payload_type =? 8 then ("PCMA"%string, 8000) else (""%string, 8000))
                              (parse_rtpmap_from_sdp remote_sdp payload_type) in
      if bool_decide (codec = ""%string) then Failed UnsupportedPayload else
      Done {| sa_device_ip := device_ip; sa_device_port := device_port;
              sa_protocol := match si_media_proto sdp with
                             | Some proto => if contains (chars "TCP") (chars (to_ascii_uppercase proto)) then TCP else UDP
                             | None => UDP
                             end;
              sa_payload_type := payload_type; sa_codec := codec; sa_sample_rate := rate |}
  end.
Definition parse_broadcast_sdp (remote_sdp : string) : outcome SdpError TalkSdpAnswer :=
  let sdp := parse_lossy remote_sdp in
  let ls := trim <$> lines (chars remote_sdp) in
  let has_audio := existsb (starts_with (chars "m=audio ")) ls in
  let recvonly := existsb (fun line => eq_ignore_ascii_case line (chars "a=recvonly")) ls in
  if negb (bool_decide (si_session_name sdp = Some "Play"%string)) || negb has_audio || negb recvonly
  then Failed InvalidBroadcast else parse_talk_sdp remote_sdp sdp.
End Answer.

(** ** Audio options of a talk *)

Record TalkStartModel := {
  tm_device_id : string; tm_channel_id : option string; tm_transport : option string; tm_codec : option string;
  tm_sample_rate : option Z; tm_channel_count : option Z; tm_frame_duration_ms : option Z
}.
Record TalkAudioOptions := {
  ao_codec : string; ao_payload_type : Z; ao_sample_rate : Z; ao_channel_count : Z; ao_frame_duration_ms : Z;
  ao_trans_mode : TransMode
}.
Inductive TalkOptionError := Unsupported | InvalidRequest.
Definition DEFAULT_TALK_CODEC : string := "PCMA".
Definition DEFAULT_TALK_SAMPLE_RATE : Z := 8000.
Definition DEFAULT_TALK_CHANNEL_COUNT : Z := 1.
Definition DEFAULT_TALK_FRAME_DURATION_MS : Z := 20.
Definition DEFAULT_TALK_INPUT_TIMEOUT_SECS : Z := 15.

Definition normalize_talk_codec (codec : string) : option (string * Z) :=
  let compact := compact_upper codec in
  if bool_decide (compact ∈ ["PCMA"; "G711A"; "ALAW"]%string) then Some ("PCMA"%string, 8)
  else if bool_decide (compact ∈ ["PCMU"; "G711U"; "MULAW"; "ULAW"]%string) then Some ("PCMU"%string, 0)
  else None.
Definition normalize_talk_transport (transport : option string) : outcome TalkOptionError TransMode :=
  match transport with
  | None => Done TransUdp
  | Some transport =>
      let compact := compact_upper transport in
      if bool_decide (compact ∈ [""; "UDP"]%string) then Done TransUdp
      else if bool_decide (compact ∈ ["TCP"; "TCPPASSIVE"; "PASSIVE"]%string) then Done TcpPassive
      else if bool_decide (compact ∈ ["TCPACTIVE"; "ACTIVE"]%string) then Failed Unsupported
      else Failed InvalidRequest
  end.
Definition try_from_model (m : TalkStartModel) : outcome TalkOptionError TalkAudioOptions :=
  match normalize_talk_codec (default DEFAULT_TALK_CODEC (tm_codec m)) with
  | None => Failed Unsupported
  | Some (codec, payload_type) =>
      if bool_decide (codec <> DEFAULT_TALK_CODEC) then Failed Unsupported else
      let sample_rate := default DEFAULT_TALK_SAMPLE_RATE (tm_sample_rate m) in
      let channel_count := default DEFAULT_TALK_CHANNEL_COUNT (tm_channel_count m) in
      let frame_duration_ms := default DEFAULT_TALK_FRAME_DURATION_MS (tm_frame_duration_ms m) in
      match normalize_talk_transport (tm_transport m) with
      | Failed e => Failed e
      | Panic => Panic
      | Done trans_mode =>
          if negb (sample_rate =? DEFAULT_TALK_SAMPLE_RATE) || negb (channel_count =? DEFAULT_TALK_CHANNEL_COUNT)
          then Failed Unsupported
          else if negb ((10 <=? frame_duration_ms) && (frame_duration_ms <=? 60))
                  || negb (Z.min (umax 32) (sample_rate * frame_duration_ms) mod 1000 =? 0)
          then Failed InvalidRequest
          else Done {| ao_codec := codec; ao_payload_type := payload_type; ao_sample_rate := sample_rate;
                       ao_channel_count := channel_count; ao_frame_duration_ms := frame_duration_ms;
                       ao_trans_mode := trans_mode |}
      end
  end.
Definition compatible_answer (o : TalkAudioOptions) (codec : string) (sample_rate : Z) : bool :=
  match normalize_talk_codec codec with
  | Some (answer_codec, _) => bool_decide (answer_codec = ao_codec o) && (sample_rate =? ao_sample_rate o)
  | None => false
  end.
