(* ===== verification/SdpProps.v ===== *)
(** * From SDP to the media process

    The offer and the [f=] line read back, the audio of a talk from the request
    to the packets, and what the media process makes of a description: that the
    depacketiser and the demuxer agree on it, and which AAC streams are lost. *)
From Stdlib Require Import Ascii.
From stdpp Require Import pretty.
From S2P Require Import Prelude Text Decimal Float64 SharedTypes RtpIngest RtpRing RtpDepacket TalkUpload MediaExt Sdp.
Local Open Scope Z_scope.

(** ** Text *)

(** Printable ASCII: no part of a white space character. *)
Definition solid (a : ascii) : bool := in_range 33 126 a.
Lemma solid_white a : solid a = true ->
  forallb (fun p => match p with b :: _ => negb (bool_decide (b = a)) | [] => false end) white_space = true /\
  forallb (fun p => match reverse p with b :: _ => negb (bool_decide (b = a)) | [] => false end) white_space = true.
Proof. destruct a as [[] [] [] [] [] [] [] []]; vm_compute; (discriminate || (intros _; split; reflexivity)). Qed.
Lemma strip_while_stays ps a l fuel :
  forallb (fun p => match p with b :: _ => negb (bool_decide (b = a)) | [] => false end) ps = true ->
  strip_while fuel ps (a :: l) = a :: l.
Proof.
  intros Hp. destruct fuel; [done|]. cbn [strip_while].
  assert (omap (fun p => strip_prefix p (a :: l)) ps = []) as ->; [|done].
  induction ps as [|p ps IH]; [done|]. cbn in Hp. apply andb_true_iff in Hp as [Hp1 Hp2]. cbn.
  destruct p as [|b p]; [done|]. cbn. case_bool_decide; [done|]. by apply IH.
Qed.
Lemma trim_start_solid a l : solid a = true -> trim_start (a :: l) = a :: l.
Proof. intros Ha. apply strip_while_stays. by apply solid_white. Qed.
Lemma trim_end_solid l a : solid a = true -> trim_end (l ++ [a]) = l ++ [a].
Proof.
  intros Ha. unfold trim_end. rewrite reverse_snoc, strip_while_stays, reverse_cons, reverse_involutive; [done|].
  destruct (solid_white a Ha) as [_ Hr]. revert Hr. generalize white_space. induction l0 as [|p ps IH]; [done|].
  cbn. intros [H1 H2]%andb_true_iff. rewrite IH by done. by rewrite H1.
Qed.
Lemma trim_ok l : (forall a, head l = Some a -> solid a = true) -> (forall a, last l = Some a -> solid a = true) -> trim l = l.
Proof.
  intros Hh Hl. unfold trim. destruct l as [|a l]; [done|]. rewrite trim_start_solid by (by apply Hh).
  destruct (last (a :: l)) as [b|] eqn:Hb; [|by apply last_None in Hb].
  apply last_Some in Hb as (l' & Heq). rewrite Heq. apply trim_end_solid, Hl. reflexivity.
Qed.
Lemma trim_solid l : Forall (fun a => solid a = true) l -> trim l = l.
Proof.
  intros Hl. apply trim_ok; intros a Ha; rewrite list.Forall_forall in Hl; apply Hl.
  - destruct l; [done|]. injection Ha as ->. apply list_elem_of_here.
  - apply last_Some in Ha as (l' & ->). apply elem_of_app. right. apply list_elem_of_here.
Qed.

Lemma split_on_cons_piece ch piece rest : ch ∉ piece -> split_on ch (piece ++ ch :: rest) = piece :: split_on ch rest.
Proof.
  induction piece as [|a piece IH]; intros Hn; cbn.
  - by rewrite bool_decide_eq_true_2.
  - apply not_elem_of_cons in Hn as [Ha Hn]. rewrite bool_decide_eq_false_2 by congruence. by rewrite IH.
Qed.
Lemma split_on_last ch piece : ch ∉ piece -> split_on ch piece = [piece].
Proof.
  induction piece as [|a piece IH]; intros Hn; [done|]. cbn. apply not_elem_of_cons in Hn as [Ha Hn].
  rewrite bool_decide_eq_false_2 by congruence. by rewrite IH.
Qed.
(** The text of lines, and that reading the lines gives them back. *)
Definition unlines (ls : list (list ascii)) : list ascii := mjoin ((fun l => l ++ chars crlf) <$> ls).
Lemma lines_of_cons piece pieces : pieces <> [] -> lines_of (piece :: pieces) = strip_cr piece :: lines_of pieces.
Proof. by destruct pieces. Qed.
Lemma split_on_ne ch l : split_on ch l <> [].
Proof. destruct l as [|a l]; [done|]. cbn. case_bool_decide; [done|]. by destruct (split_on ch l). Qed.
Lemma lines_unlines ls : Forall (fun l => "010"%char ∉ l) ls -> lines (unlines ls) = ls.
Proof.
  induction 1 as [|l ls Hl _ IH]; [done|].
  change (unlines (l :: ls)) with ((l ++ chars crlf) ++ unlines ls). unfold lines, crlf in *. cbn [String.list_ascii_of_string].
  rewrite <- app_assoc. change (["013"; "010"]%char ++ unlines ls) with (["013"%char] ++ "010"%char :: unlines ls).
  rewrite app_assoc, split_on_cons_piece.
  - rewrite lines_of_cons by apply split_on_ne. rewrite IH. unfold strip_cr. rewrite reverse_snoc. by rewrite reverse_involutive.
  - intros [Hin|Hin]%elem_of_app; [done|]. apply list_elem_of_singleton in Hin. discriminate.
Qed.

(** ** The offers *)

(** The fields of an offer, line by line. *)
Definition offer_lines (session_ip channel_id media_ip : string) (media_port : Z) (stream_mode : TransMode)
    (ssrc name st_et : string) (add_u : bool) (download_speed : option Z) (support_h265 : bool) : list string :=
  ["v=0"; "o=" +:+ channel_id +:+ " 0 0 IN IP4 " +:+ session_ip; "s=" +:+ name]%string
  ++ (if add_u then ["u=" +:+ channel_id +:+ ":0"]%string else [])
  ++ ["c=IN IP4 " +:+ media_ip; "t=" +:+ st_et;
      "m=video " +:+ pretty media_port +:+ " " +:+ match stream_mode with TransUdp => "" | _ => "TCP/" end
      +:+ "RTP/AVP " +:+ video_payloads support_h265]%string
  ++ match stream_mode with TransUdp => [] | TcpActive => ["a=setup:active"; "a=connection:new"]%string
     | TcpPassive => ["a=setup:passive"; "a=connection:new"]%string end
  ++ ["a=recvonly"; "a=rtpmap:96 PS/90000"; "a=rtpmap:97 MPEG4/90000"; "a=rtpmap:98 H264/90000"; "a=rtpmap:99 SVAC/90000"]%string
  ++ (if support_h265 then ["a=rtpmap:100 H265/90000"]%string else [])
  ++ match download_speed with Some speed => ["a=downloadspeed:" +:+ pretty speed]%string | None => [] end
  ++ ["y=" +:+ ssrc]%string.

Lemma unlines_app l1 l2 : unlines (l1 ++ l2) = unlines l1 ++ unlines l2.
Proof. unfold unlines. by rewrite fmap_app, join_app. Qed.
Lemma unlines_cons l ls : unlines (l :: ls) = l ++ chars crlf ++ unlines ls.
Proof. unfold unlines. cbn [fmap list_fmap mjoin list_join]. by rewrite <- app_assoc. Qed.

Lemma offer_text session_ip channel_id media_ip media_port stream_mode ssrc name st_et add_u speed h265 :
  chars (build_common_play session_ip channel_id media_ip media_port stream_mode ssrc name st_et add_u speed h265) =
  unlines (chars <$> offer_lines session_ip channel_id media_ip media_port stream_mode ssrc name st_et add_u speed h265).
Proof.
  unfold build_common_play, offer_lines. rewrite !fmap_app, !unlines_app. cbn [fmap list_fmap].
  rewrite !unlines_cons, !list_ascii_app, <- !app_assoc. change (unlines []) with (@nil ascii). cbn [app].
  assert (chars (if add_u then "u=" +:+ channel_id +:+ ":0" +:+ crlf else "")%string =
    unlines (chars <$> (if add_u then ["u=" +:+ channel_id +:+ ":0"]%string else []))) as <-.
  { destruct add_u; [|done]. cbn [fmap list_fmap]. rewrite unlines_cons, !list_ascii_app, <- !app_assoc. by rewrite app_nil_r. }
  assert (chars (if h265 then "a=rtpmap:100 H265/90000" +:+ crlf else "")%string =
    unlines (chars <$> (if h265 then ["a=rtpmap:100 H265/90000"]%string else []))) as <- by (by destruct h265).
  assert (chars (match speed with Some speed => "a=downloadspeed:" +:+ pretty speed +:+ crlf | None => "" end)%string =
    unlines (chars <$> match speed with Some speed => ["a=downloadspeed:" +:+ pretty speed]%string | None => [] end)) as <-.
  { destruct speed; [|done]. cbn [fmap list_fmap]. rewrite unlines_cons, !list_ascii_app, <- !app_assoc. by rewrite app_nil_r. }
  destruct stream_mode; cbn [fmap list_fmap]; rewrite ?unlines_cons, !list_ascii_app, <- ?app_assoc; reflexivity.
Qed.

(** Text that fits in one line. *)
Definition one_line (s : string) : Prop := "010"%char ∉ chars s.
Lemma one_line_app s1 s2 : one_line s1 -> one_line s2 -> one_line (s1 +:+ s2).
Proof. unfold one_line. rewrite list_ascii_app. intros H1 H2 [?|?]%elem_of_app; auto. Qed.
Lemma one_line_pretty (x : Z) : one_line (pretty x).
Proof. apply pretty_no_control. vm_compute. lia. Qed.
Lemma one_line_literal s : forallb (fun a => negb (bool_decide (a = "010"%char))) (chars s) = true -> one_line s.
Proof.
  intros Hf Hin. rewrite forallb_forall in Hf. apply list_elem_of_In, Hf in Hin. by rewrite bool_decide_eq_true_2 in Hin.
Qed.

(** The device reads in the offer what the caller asked for.  The lines of
    any offer, for live play, playback or download, over UDP or TCP, are in order
    the origin with the channel, the media address, the time range, the media
    line with the port, the transport and the payload types, the connection role
    over TCP, a mapping for each payload type offered, the download speed if one
    was given, and last the SSRC. *)
Theorem offer_reads_back session_ip channel_id media_ip media_port stream_mode ssrc name st_et add_u speed h265 :
  one_line session_ip -> one_line channel_id -> one_line media_ip -> one_line ssrc -> one_line name -> one_line st_et ->
  lines (chars (build_common_play session_ip channel_id media_ip media_port stream_mode ssrc name st_et add_u speed h265)) =
  chars <$> offer_lines session_ip channel_id media_ip media_port stream_mode ssrc name st_et add_u speed h265.
Proof.
  intros H1 H2 H3 H4 H5 H6. rewrite offer_text, lines_unlines; [done|]. apply Forall_fmap.
  assert (forall s, forallb (fun a => negb (bool_decide (a = "010"%char))) (chars s) = true -> one_line s) as Hlit
    by exact one_line_literal.
  unfold offer_lines. repeat (apply Forall_app; split); destruct stream_mode, add_u, speed, h265;
    repeat constructor; cbn beta; repeat (apply one_line_app || apply one_line_pretty || assumption);
    apply Hlit; reflexivity.
Qed.

(** ** The [f=] line *)

Lemma head_omap_first {A B} (f : A -> option B) before x after y :
  Forall (fun l => f l = None) before -> f x = Some y -> head (omap f (before ++ x :: after)) = Some y.
Proof. induction 1 as [|l before Hl _ IH]; intros Hx; cbn; [by rewrite Hx|]. rewrite Hl. by apply IH. Qed.

(** What stands between two slashes: printable, without a slash. *)
Definition field (l : list ascii) : Prop := Forall (fun a => solid a = true) l /\ "/"%char ∉ l.
Definition slashes (items : list (list ascii)) : list ascii :=
  match items with [] => [] | x :: items => x ++ mjoin ((fun i => "/"%char :: i) <$> items) end.
Lemma split_slashes items : items <> [] -> Forall field items -> split_on "/"%char (slashes items) = items.
Proof.
  intros Hne Hi. destruct items as [|x items]; [done|]. clear Hne. revert x Hi.
  induction items as [|y items IH]; intros x [Hx Hi]%Forall_cons.
  - cbn. rewrite app_nil_r. apply split_on_last, Hx.
  - unfold slashes. cbn [fmap list_fmap mjoin list_join]. cbn [app].
    change (y ++ mjoin ((fun i => "/"%char :: i) <$> items)) with (slashes (y :: items)).
    rewrite split_on_cons_piece by apply Hx. by rewrite IH.
Qed.
Lemma solid_slashes items : Forall field items -> Forall (fun a => solid a = true) (slashes items).
Proof.
  intros Hi. destruct items as [|x items]; [constructor|]. apply Forall_cons in Hi as [[Hx _] Hi].
  unfold slashes. apply Forall_app. split; [done|]. induction Hi as [|y items [Hy _] _ IH]; [constructor|].
  cbn. constructor; [done|]. by apply Forall_app.
Qed.

(** The codes of the [f=] line reach the description.  If an answer's first
    such line is [v/codec/resolution/rate/kind/bit rate], an [a], and the audio
    codec, bit rate and sample rate, the description carries exactly what their
    codes mean, an empty or unknown code leaving its field, and nothing else of
    it changes. *)
Theorem f_line_reads_back (m : MediaExt) (sdp : list ascii) (before after : list (list ascii))
    (codec resolution fps kind rate acodec arate srate : list ascii) :
  Forall field [codec; resolution; fps; kind; rate; acodec; arate; srate] ->
  utf8_valid sdp = true ->
  lines sdp = before ++ (chars "f=" ++ slashes [chars "v"; codec; resolution; fps; kind; rate ++ chars "a"; acodec; arate; srate])
                :: after ->
  Forall (fun l => strip_prefix (chars "f=") (trim l) = None) before ->
  extract_f_field m sdp =
  set_params
    (apply_item video_map_bitrate rate (apply_item map_bitrate_type kind (apply_item map_fps fps
       (apply_item map_resolution resolution (apply_item map_video_codec codec (me_video_params m))))))
    (apply_item map_sample_rate srate (apply_item audio_map_bitrate arate (apply_item map_audio_codec acodec
       (me_audio_params m)))) m.
Proof.
  intros Hf Hu Hl Hb. unfold extract_f_field. rewrite Hu, Hl. cbn [negb].
  set (items := [chars "v"; codec; resolution; fps; kind; rate ++ chars "a"; acodec; arate; srate]) in *.
  assert (Forall field items) as Hi.
  { assert (forall a, solid a = true -> a <> "/"%char -> field [a]) as Hone.
    { intros a Ha Hs. split; [by constructor|]. intros Heq%list_elem_of_singleton. congruence. }
    repeat (apply Forall_cons in Hf as [? Hf]). unfold items. repeat constructor; try apply Hone; try done; try apply H; try apply H0;
      try apply H1; try apply H2; try apply H4; try apply H5; try apply H6.
    - apply Forall_app. split; [apply H3|by constructor].
    - intros [Hin|Hin]%elem_of_app; [by apply H3|]. by apply list_elem_of_singleton in Hin. }
  erewrite head_omap_first; [|exact Hb|].
  2: { rewrite trim_solid; [apply strip_prefix_app|]. apply Forall_app. split; [by repeat constructor|by apply solid_slashes]. }
  unfold apply_f_field. rewrite split_slashes by done.
  assert (trim <$> items = items) as ->.
  { clear -Hi. induction Hi as [|x l [Hx _] _ IH]; [done|]. cbn. by rewrite IH, trim_solid. }
  unfold items. rewrite bool_decide_eq_true_2 by done. unfold ends_with_a. change (chars "a") with ["a"%char].
  rewrite reverse_snoc, reverse_involutive. rewrite (trim_solid rate); [done|].
  repeat (apply Forall_cons in Hf as [? Hf]). apply H3.
Qed.

(** ** AAC streams *)

Definition aac_ext (code : string) : MediaExt :=
  set_params VideoParams_default (map_sample_rate code (map_audio_codec "6" AudioParams_default))
    MediaExt_default.
(** Which AAC streams reach the demuxer.  Of the seventeen sample rates the
    [f=] line can name the depacketiser keeps the frames for 8, 16, 32, 12, 24,
    48, 64 and 96 kHz only; for the others, among them the codes of 11.025,
    22.05, 44.1 and 88.2 kHz, the table holds the rate cut to whole kilohertz,
    ADTS has no index for it, and every frame is dropped. *)
Theorem aac_rates_of_f_line (m : MediaExt) (code rate : string) (out frame : bytes) :
  (code, rate) ∈ SAMPLE_RATE_MAP -> ap_sample_rate (me_audio_params m) = Some rate ->
  let cfg := AacAdtsConfig_from_media_ext m in
  if bool_decide (code ∈ ["1"; "3"; "4"; "7"; "9"; "11"; "12"; "14"]%string)
  then exists header, append_adts_frame out frame cfg = out ++ header ++ frame /\ length header = 7%nat
  else append_adts_frame out frame cfg = out.
Proof.
  intros Hin Hr cfg.
  assert (aac_sample_rate_index (sample_rate cfg) =
    (parse_sample_rate rate ≫= aac_sample_rate_index) /\ is_Some (parse_sample_rate rate)) as [Hi _].
  { unfold cfg, AacAdtsConfig_from_media_ext. cbn [sample_rate]. rewrite Hr. cbn [mbind option_bind].
    assert (is_Some (parse_sample_rate rate)) as [r Hrate].
    { clear -Hin. unfold SAMPLE_RATE_MAP in Hin.
      repeat (apply elem_of_cons in Hin as [[= -> ->]|Hin]; [vm_compute; eexists; reflexivity|]). by apply elem_of_nil in Hin. }
    rewrite Hrate. by split. }
  unfold append_adts_frame. rewrite Hi. clear Hi Hr. unfold SAMPLE_RATE_MAP in Hin.
  repeat (apply elem_of_cons in Hin as [[= -> ->]|Hin];
    [match goal with |- context [parse_sample_rate ?r ≫= aac_sample_rate_index] =>
       let v := eval vm_compute in (parse_sample_rate r ≫= aac_sample_rate_index) in
       replace (parse_sample_rate r ≫= aac_sample_rate_index) with v by (vm_compute; reflexivity) end;
     match goal with |- context [bool_decide ?P] =>
       let b := eval vm_compute in (bool_decide P) in replace (bool_decide P) with b by (vm_compute; reflexivity) end;
     cbv iota; first [reflexivity|eexists; split; reflexivity]|]).
  by apply elem_of_nil in Hin.
Qed.

(** ** The depacketiser and the demuxer *)

Lemma same_lower (s c : string) : ascii_lower <$> chars c = chars c ->
  eq_ignore_ascii_case (chars s) (chars c) = bool_decide (to_ascii_lowercase s = c).
Proof.
  intros Hc. unfold eq_ignore_ascii_case. rewrite Hc. apply bool_decide_ext. unfold to_ascii_lowercase, map_string. split.
  - intros ->. apply String.string_of_list_ascii_of_string.
  - intros <-. by rewrite String.list_ascii_of_string_of_list_ascii.
Qed.
(** The formats in which the demuxer reads what the depacketiser of a kind
    makes. *)
Definition format_fits (k : PayloadKind) (format : string) : bool :=
  match k with
  | Ps => bool_decide (format = "mpeg"%string)
  | PH264 => bool_decide (format = "h264"%string)
  | PH265 => bool_decide (format = "hevc"%string)
  | PAac => bool_decide (format = "aac"%string)
  | PG711 => bool_decide (format ∈ ["alaw"; "mulaw"]%string)
  | Passthrough => bool_decide (format ∈ ["mpeg"; "alaw"; "mulaw"]%string)
  end.
Lemma codecs_agree (video audio : option string) :
  let same names codec := match codec with
    | Some s => existsb (fun c => eq_ignore_ascii_case (chars s) (chars c)) names | None => false end in
  format_fits
    (if matches_codec video ["h264"; "h.264"; "avc"]%string then PH264
     else if matches_codec video ["h265"; "h.265"; "hevc"]%string then PH265
     else if matches_codec audio ["aac"]%string then PAac
     else if matches_codec audio
               ["g711"; "g.711"; "g711a"; "g.711a"; "g711u"; "g.711u"; "pcma"; "pcmu"; "alaw"; "mulaw"; "ulaw"]%string then PG711
     else Passthrough)
    (if same ["h264"; "h.264"; "avc"]%string video then "h264"
     else if same ["h265"; "h.265"; "hevc"]%string video then "hevc"
     else if match audio with Some s => is_mulaw_codec s | None => false end then "mulaw"
     else if same ["aac"]%string audio then "aac"
     else if bool_decide (is_Some audio) then "alaw"
     else "mpeg")%string = true.
Proof.
  intros same.
  assert (forall codec names, Forall (fun c => ascii_lower <$> chars c = chars c) names -> same names codec = matches_codec codec names) as Hs.
  { intros [s|] names Hn; [|done]. unfold same, matches_codec. induction Hn as [|c names Hc _ IH]; [done|]. cbn.
    by rewrite same_lower, IH. }
  rewrite !Hs by (repeat constructor). clear Hs same.
  destruct (matches_codec video ["h264"; "h.264"; "avc"]%string); [done|].
  destruct (matches_codec video ["h265"; "h.265"; "hevc"]%string); [done|].
  destruct audio as [s|]; [|done]. unfold is_mulaw_codec, matches_codec. set (low := to_ascii_lowercase s). clearbody low.
  cbn [existsb]. rewrite orb_false_r. destruct (decide (low = "aac"%string)) as [->|Ha]; [done|].
  rewrite (bool_decide_eq_false_2 (low = "aac"%string)) by done. cbn [orb].
  match goal with |- context [if bool_decide (low ∈ ?l) then _ else _] => destruct (bool_decide (low ∈ l)) end;
    rewrite ?(bool_decide_eq_true_2 (is_Some (Some s))) by done;
    match goal with |- context [if ?b then PG711 else Passthrough] => by destruct b end.
Qed.

(** The depacketiser and the demuxer agree on a stream.  For every
    description whose payload name is not one of three, the input format opened
    by the demuxer is one for what the depacketiser of that stream produces. *)
Theorem kind_and_format_agree (m : MediaExt) :
  to_ascii_uppercase (me_type_name m) ∉ ["MPEG4-GENERIC"; "MULAW"; "ALAW"]%string ->
  format_fits (PayloadKind_from_media_ext m) (pick_input_format m) = true.
Proof.
  intros Hn. unfold PayloadKind_from_media_ext, pick_input_format. set (name := to_ascii_uppercase _) in *. clearbody name.
  destruct (decide (name ∈ ["PS"; "MP2P"; "MP2PS"; "H264"; "H.264"; "AVC"; "H265"; "H.265"; "HEVC"; "AAC"; "G711"; "G711A";
                            "G711U"; "PCMA"; "PCMU"]%string)) as [Hin|Hout].
  - repeat (apply elem_of_cons in Hin as [->|Hin]; [vm_compute; reflexivity|]). by apply elem_of_nil in Hin.
  - assert (forall l, Forall (fun c => c ∈ ["MPEG4-GENERIC"; "MULAW"; "ALAW"; "PS"; "MP2P"; "MP2PS"; "H264"; "H.264"; "AVC"; "H265"; "H.265";
        "HEVC"; "AAC"; "G711"; "G711A"; "G711U"; "PCMA"; "PCMU"]%string) l -> bool_decide (name ∈ l) = false) as Hno.
    { intros l Hl. apply bool_decide_eq_false_2. intros Hin. rewrite list.Forall_forall in Hl. apply Hl in Hin.
      rewrite !elem_of_cons in *. naive_solver. }
    rewrite !Hno by (repeat constructor; rewrite !elem_of_cons; tauto). apply codecs_agree.
Qed.

(** AAC under its registered name is misread.  A stream whose payload is
    named [MPEG4-GENERIC], in any case, is depacketised to ADTS, but unless a
    codec was named in the [f=] line the demuxer opens it as an MPEG program
    stream. *)
Theorem mpeg4_generic_misread (m : MediaExt) :
  to_ascii_uppercase (me_type_name m) = "MPEG4-GENERIC"%string ->
  vp_codec_id (me_video_params m) = None -> ap_codec_id (me_audio_params m) = None ->
  PayloadKind_from_media_ext m = PAac /\ pick_input_format m = "mpeg"%string /\
  format_fits (PayloadKind_from_media_ext m) (pick_input_format m) = false.
Proof.
  intros Hn Hv Ha. unfold PayloadKind_from_media_ext, pick_input_format. rewrite Hn, Hv, Ha. vm_compute. repeat split.
Qed.

(** ** The device's answer *)

Section Parsers.
Context (parse_lossy : string -> SdpInfo) (session_parse : list ascii -> option (list SdpMedia)).
Context (squeeze_space to_uppercase : list ascii -> list ascii).

(** Which answers to an INVITE are taken.  The answer passes exactly if its
    SSRC is the expected one in ten digits, and it has a media address, a media
    port other than 0 and a payload type; in every other case the result is the
    one error, and never a panic. *)
Theorem invite_answer_spec (remote_sdp expected_ssrc : string) :
  let info := parse_lossy remote_sdp in
  (validate_invite_answer_sdp parse_lossy remote_sdp expected_ssrc = Done tt <->
   si_ssrc info = Some expected_ssrc /\ String.length expected_ssrc = 10%nat /\ all_digits expected_ssrc = true /\
   (exists addr, si_connection_addr info = Some addr /\ addr <> ""%string) /\
   (exists port, si_media_port info = Some port /\ port <> 0) /\ si_media_payloads info <> []) /\
  (validate_invite_answer_sdp parse_lossy remote_sdp expected_ssrc <> Done tt ->
   validate_invite_answer_sdp parse_lossy remote_sdp expected_ssrc = Failed InvalidAnswer).
Proof.
  cbv zeta. unfold validate_invite_answer_sdp. destruct (parse_lossy remote_sdp) as [name addr port proto payloads ssrc].
  cbn [si_ssrc si_connection_addr si_media_port si_media_payloads]. split.
  - split.
    + destruct ssrc as [actual|]; [|done]. destruct (bool_decide (String.length actual = 10%nat)) eqn:Hl; cbn [negb orb]; [|done].
      apply bool_decide_eq_true in Hl. destruct (all_digits actual) eqn:Hd; cbn [negb]; [|done].
      destruct (bool_decide (actual <> expected_ssrc)) eqn:He; [done|]. apply bool_decide_eq_false in He.
      destruct (bool_decide (default ""%string addr = ""%string)) eqn:Ha; [done|]. apply bool_decide_eq_false in Ha.
      destruct (Z.eqb_spec (default 0 port) 0); [done|].
      destruct (bool_decide (payloads = [])) eqn:Hp; [done|]. apply bool_decide_eq_false in Hp. intros _.
      assert (actual = expected_ssrc) as -> by (by destruct (decide (actual = expected_ssrc))).
      destruct addr as [addr|]; [|done]. destruct port as [port|]; [|done]. split_and!; eauto.
    + intros ([= ->] & Hl & Hd & (a & -> & Ha) & (p & -> & Hp) & Hpl). rewrite Hd, (bool_decide_eq_true_2 _ Hl). cbn [negb orb default].
      rewrite bool_decide_eq_false_2 by (intros Hx; by apply Hx). cbn. rewrite bool_decide_eq_false_2 by done.
      rewrite (proj2 (Z.eqb_neq _ _)) by done. by rewrite bool_decide_eq_false_2.
  - destruct ssrc as [actual|]; [|done].
    repeat match goal with |- context [if ?b then _ else _] => destruct b end; done.
Qed.

(** The codec and rate of a talk's payload type. *)
Definition rtpmap_line (pt : Z) (codec rate : list ascii) : list ascii :=
  chars ("a=rtpmap:" +:+ pretty pt) ++ " "%char :: codec ++ "/"%char :: rate.
Definition graphic (l : list ascii) : Prop := l <> [] /\ Forall (fun a => solid a = true) l /\ "/"%char ∉ l.

Lemma graphic_ends l : graphic l -> (exists a l', l = a :: l' /\ solid a = true) /\ (exists l' a, l = l' ++ [a] /\ solid a = true).
Proof.
  intros (Hne & Hs & _). split.
  - destruct l as [|a l]; [done|]. apply Forall_cons in Hs as [Ha _]. by exists a, l.
  - destruct (exists_last Hne) as (l' & a & ->). apply Forall_app in Hs as [_ Ha]. apply Forall_cons in Ha as [Ha _]. by exists l', a.
Qed.
Lemma trim_between x l y : solid x = true -> solid y = true -> trim (x :: l ++ [y]) = x :: l ++ [y].
Proof.
  intros Hx Hy. apply trim_ok; [by intros a [= <-]|]. intros a. rewrite app_comm_cons, last_snoc. by intros [= <-].
Qed.
Lemma rtpmap_of_fields spaces codec rate : graphic codec -> head codec <> Some ":"%char -> graphic rate ->
  spaces = [" "%char] \/ spaces = [] ->
  rtpmap_of to_uppercase (spaces ++ codec ++ "/"%char :: rate) =
  (text (to_uppercase codec), default 8000 (parse_u32 (text rate))).
Proof.
  intros Hc Hcolon Hr Hsp. unfold rtpmap_of.
  destruct (graphic_ends codec Hc) as [(a & c' & Hca & Ha) _]. destruct (graphic_ends rate Hr) as [_ (r' & b & Hrb & Hb)].
  assert (strip_while (length (spaces ++ codec ++ "/"%char :: rate)) [chars " "; chars ":"] (spaces ++ codec ++ "/"%char :: rate)
    = codec ++ "/"%char :: rate) as ->.
  { assert (a <> ":"%char) as Hne by (rewrite Hca in Hcolon; cbn in Hcolon; congruence).
    assert (a <> " "%char) as Hne2 by (intros ->; discriminate Ha).
    assert (forall fuel, strip_while fuel [chars " "; chars ":"] (codec ++ "/"%char :: rate) = codec ++ "/"%char :: rate) as Hst.
    { intros fuel. rewrite Hca. apply strip_while_stays. cbn. by rewrite !bool_decide_eq_false_2 by congruence. }
    destruct Hsp as [->| ->]; [|apply Hst]. cbn [app length strip_while]. apply Hst. }
  assert (trim (codec ++ "/"%char :: rate) = codec ++ "/"%char :: rate) as ->.
  { rewrite Hca, Hrb. assert ((a :: c') ++ "/"%char :: r' ++ [b] = a :: (c' ++ "/"%char :: r') ++ [b]) as ->.
    { cbn [app]. by rewrite <- !app_assoc. }
    by apply trim_between. }
  destruct Hc as (_ & Hcs & Hcn). destruct Hr as (_ & Hrs & Hrn).
  rewrite split_on_cons_piece, split_on_last by done. cbn [head mbind option_bind].
  by rewrite (trim_solid codec), (trim_solid rate) by done.
Qed.
Lemma trim_mapping (pt : Z) mid rate : graphic rate ->
  trim (chars ("a=rtpmap:" +:+ pretty pt) ++ mid ++ "/"%char :: rate) = chars ("a=rtpmap:" +:+ pretty pt) ++ mid ++ "/"%char :: rate.
Proof.
  intros Hr. destruct (graphic_ends rate Hr) as [_ (r' & b & -> & Hb)]. rewrite list_ascii_app.
  assert ((chars "a=rtpmap:" ++ chars (pretty pt)) ++ mid ++ "/"%char :: r' ++ [b] =
    "a"%char :: ((chars "=rtpmap:" ++ chars (pretty pt)) ++ mid ++ "/"%char :: r') ++ [b]) as ->.
  { rewrite <- !app_assoc. cbn [app]. by rewrite <- ?app_assoc. }
  by apply trim_between.
Qed.
(** The codec of a talk is the one the device mapped.  When the first line
    that begins with the mapping of the payload type is the mapping itself, its
    encoding in upper case and its clock rate are read, 8000 if it is no number. *)
Theorem rtpmap_reads_back (sdp : string) (pt : Z) (before after : list (list ascii)) (codec rate : list ascii) :
  graphic codec -> head codec <> Some ":"%char -> graphic rate ->
  lines (chars sdp) = before ++ rtpmap_line pt codec rate :: after ->
  Forall (fun l => strip_prefix (chars ("a=rtpmap:" +:+ pretty pt)) (trim l) = None) before ->
  parse_rtpmap_from_sdp to_uppercase sdp pt = Some (text (to_uppercase codec), default 8000 (parse_u32 (text rate))).
Proof.
  intros Hc Hh Hr Hl Hb. unfold parse_rtpmap_from_sdp. rewrite Hl.
  erewrite head_omap_first; [|exact Hb|].
  2: { unfold rtpmap_line. change (" "%char :: codec ++ "/"%char :: rate) with ((" "%char :: codec) ++ "/"%char :: rate).
       rewrite trim_mapping by done. apply strip_prefix_app. }
  cbn [fmap option_fmap option_map]. f_equal. apply (rtpmap_of_fields [" "%char] codec rate); auto.
Qed.

(** A longer payload type is taken for a shorter one.  The mapping of a
    payload type is looked up by the beginning of the line only: if the first
    line that begins so maps a type with one more digit, that digit becomes part
    of the codec's name. *)
Theorem rtpmap_prefix_confused (sdp : string) (pt : Z) (digit : ascii) (before after : list (list ascii))
    (codec rate : list ascii) :
  is_ascii_digit digit = true -> Forall (fun a => solid a = true \/ a = " "%char) codec -> "/"%char ∉ codec -> codec <> [] ->
  last codec <> Some " "%char -> graphic rate ->
  lines (chars sdp) = before ++ (chars ("a=rtpmap:" +:+ pretty pt) ++ digit :: codec ++ "/"%char :: rate) :: after ->
  Forall (fun l => strip_prefix (chars ("a=rtpmap:" +:+ pretty pt)) (trim l) = None) before ->
  parse_rtpmap_from_sdp to_uppercase sdp pt =
  Some (text (to_uppercase (digit :: codec)), default 8000 (parse_u32 (text rate))).
Proof.
  intros Hd Hc Hs Hne Hlast Hr Hl Hb. unfold parse_rtpmap_from_sdp. rewrite Hl.
  assert (solid digit = true) as Hds.
  { unfold is_ascii_digit in Hd. apply andb_true_iff in Hd as [?%Nat.leb_le ?%Nat.leb_le]. unfold solid, in_range.
    by rewrite (proj2 (Nat.leb_le _ _)), (proj2 (Nat.leb_le _ _)) by lia. }
  erewrite head_omap_first; [|exact Hb|].
  2: { change (digit :: codec ++ "/"%char :: rate) with ((digit :: codec) ++ "/"%char :: rate).
       rewrite trim_mapping by done. apply strip_prefix_app. }
  cbn [fmap option_fmap option_map]. f_equal. unfold rtpmap_of.
  destruct (graphic_ends rate Hr) as [_ (r' & b & Hrb & Hbs)]. destruct Hr as (_ & Hrs & Hrn).
  rewrite <- app_comm_cons. rewrite strip_while_stays.
  2: { destruct digit as [[] [] [] [] [] [] [] []]; try discriminate Hd; reflexivity. }
  assert (trim (digit :: codec ++ "/"%char :: rate) = (digit :: codec) ++ "/"%char :: rate) as ->.
  { assert (digit :: codec ++ "/"%char :: rate = digit :: (codec ++ "/"%char :: r') ++ [b]) as ->
      by (rewrite Hrb; cbn [app]; by rewrite <- !app_assoc).
    rewrite trim_between by done. rewrite Hrb. cbn [app]. by rewrite <- !app_assoc. }
  assert ("/"%char ∉ digit :: codec) as Hnd.
  { intros [Heq|Hin]%elem_of_cons; [|done]. subst. discriminate Hd. }
  rewrite split_on_cons_piece, split_on_last by done. cbn [head mbind option_bind].
  rewrite (trim_solid rate) by done. rewrite trim_ok; [done|by intros a [= <-]|].
  intros a Ha. destruct (exists_last Hne) as (c' & y & Hcy). rewrite Hcy in *. rewrite app_comm_cons, last_snoc in Ha.
  injection Ha as ->. rewrite last_snoc in Hlast. apply Forall_app in Hc as [_ Hc]. apply Forall_cons in Hc as [[?| ->] _]; [done|].
  by destruct Hlast.
Qed.
End Parsers.

(** ** The audio of a talk *)

(** The audio options of a talk suit the media process.  Options that pass
    are PCMA as payload type 8 at 8 kHz, mono, with frames of 10 to 60 ms; the
    media process accepts to open a talk with them under any id and token, its
    packets advance the time stamp by the samples of a frame, eight a
    millisecond, and the device's own default answer is compatible. *)
Theorem talk_options_fit (m : TalkStartModel) (o : TalkAudioOptions) (talk_id token : string) (ssrc : Z) :
  try_from_model m = Done o -> talk_id <> ""%string -> token <> ""%string ->
  ao_codec o = "PCMA"%string /\ ao_payload_type o = 8 /\ 10 <= ao_frame_duration_ms o <= 60 /\
  validate_open_req {| to_talk_id := talk_id; to_ssrc := ssrc; to_token := token; to_codec := ao_codec o;
    to_sample_rate := ao_sample_rate o; to_channel_count := ao_channel_count o; to_payload_type := ao_payload_type o;
    to_frame_duration_ms := ao_frame_duration_ms o; to_input_timeout_secs := DEFAULT_TALK_INPUT_TIMEOUT_SECS |} = Done tt /\
  frame_samples (ao_sample_rate o) (ao_frame_duration_ms o) = 8 * ao_frame_duration_ms o /\
  compatible_answer o "PCMA" 8000 = true.
Proof.
  unfold try_from_model. destruct (normalize_talk_codec _) as [[codec pt]|] eqn:Hn; [|done].
  destruct (bool_decide (codec <> DEFAULT_TALK_CODEC)) eqn:Hc; [done|]. apply bool_decide_eq_false in Hc.
  assert (codec = "PCMA"%string) as -> by (destruct (decide (codec = "PCMA"%string)); [done|by destruct Hc]).
  assert (pt = 8) as ->.
  { revert Hn. unfold normalize_talk_codec. repeat match goal with |- context [if ?b then _ else _] => destruct b end; congruence. }
  destruct (normalize_talk_transport _) as [mode| |]; [|done..].
  set (rate := default DEFAULT_TALK_SAMPLE_RATE _). set (ch := default DEFAULT_TALK_CHANNEL_COUNT _).
  set (d := default DEFAULT_TALK_FRAME_DURATION_MS _). clearbody rate ch d.
  destruct (_ || _) eqn:Hrc; [done|]. zbool. unfold DEFAULT_TALK_SAMPLE_RATE, DEFAULT_TALK_CHANNEL_COUNT in *. subst rate ch.
  destruct (negb _ || _) eqn:Hd; [done|]. zbool. intros [= <-] Hid Htok. cbn.
  split_and!; try done; try lia.
  - unfold validate_open_req. cbn. rewrite !bool_decide_eq_false_2 by done. cbn.
    by rewrite (proj2 (Z.eqb_neq d 0)) by lia.
  - unfold frame_samples, umax. rewrite Z.min_r by lia. replace (8000 * d) with (8 * d * 1000) by ring. by rewrite Z.div_mul.
Qed.

(** ** Instances *)

Lemma offer_reads_back_witness :
  lines (chars (play_live "10.0.0.1" "34020000001320000001" "10.0.0.2" 30000 TransUdp "0100008199" false)) =
  chars <$> ["v=0"; "o=34020000001320000001 0 0 IN IP4 10.0.0.1"; "s=Play"; "c=IN IP4 10.0.0.2"; "t=0 0";
             "m=video 30000 RTP/AVP 96 97 98 99"; "a=recvonly"; "a=rtpmap:96 PS/90000"; "a=rtpmap:97 MPEG4/90000";
             "a=rtpmap:98 H264/90000"; "a=rtpmap:99 SVAC/90000"; "y=0100008199"]%string.
Proof.
  refine (offer_reads_back "10.0.0.1" "34020000001320000001" "10.0.0.2" 30000 TransUdp "0100008199" "Play" "0 0" false None false
    _ _ _ _ _ _); apply one_line_literal; vm_compute; reflexivity.
Defined.

Definition demo_sdp : list ascii := unlines [chars "v=0"; chars "f=v/2/5/25/1/4000a/6/8/10"].
Lemma f_line_reads_back_witness :
  extract_f_field MediaExt_default demo_sdp =
  set_params {| vp_codec_id := Some "h264"%string; vp_resolution := Some (1280, 720); vp_fps := Some 25;
                vp_bitrate_type := Some "CBR"%string; vp_bitrate := Some 4000 |}
             {| ap_codec_id := Some "aac"%string; ap_bitrate := Some "64"%string; ap_sample_rate := Some "44"%string;
                ap_channel_count := 1; ap_clock_rate := 8000 |} MediaExt_default.
Proof.
  refine (f_line_reads_back MediaExt_default demo_sdp [chars "v=0"] [] (chars "2") (chars "5") (chars "25") (chars "1")
    (chars "4000") (chars "6") (chars "8") (chars "10") _ _ _ _).
  - assert (forall l, forallb (fun a => solid a && negb (bool_decide (a = "/"%char))) l = true -> field l) as Hf.
    { intros l Hl. rewrite forallb_forall in Hl. split.
      - apply list.Forall_forall. intros a Ha. apply list_elem_of_In, Hl in Ha. by apply andb_true_iff in Ha as [? _].
      - intros Ha. apply list_elem_of_In, Hl in Ha. discriminate Ha. }
    repeat constructor; apply Hf; vm_compute; reflexivity.
  - vm_compute. reflexivity.
  - vm_compute. reflexivity.
  - repeat constructor.
Defined.

Lemma aac_rates_of_f_line_witness :
  let m := set_params VideoParams_default (map_sample_rate "10" AudioParams_default) MediaExt_default in
  ap_sample_rate (me_audio_params m) = Some "44"%string /\
  append_adts_frame [1] [2; 3] (AacAdtsConfig_from_media_ext m) = [1].
Proof.
  intros m. split; [reflexivity|].
  refine (aac_rates_of_f_line m "10" "44" [1] [2; 3] _ eq_refl).
  unfold SAMPLE_RATE_MAP. do 9 apply list_elem_of_further. apply list_elem_of_here.
Defined.

Lemma kind_and_format_agree_witness :
  let m := set_params (vp_set_codec "H.265" VideoParams_default) AudioParams_default MediaExt_default in
  PayloadKind_from_media_ext m = PH265 /\ format_fits (PayloadKind_from_media_ext m) (pick_input_format m) = true.
Proof.
  intros m. split; [reflexivity|]. apply (kind_and_format_agree m). intros Hin.
  repeat (apply elem_of_cons in Hin as [Hin|Hin]; [discriminate Hin|]). by apply elem_of_nil in Hin.
Defined.

Lemma mpeg4_generic_misread_witness :
  let m := set_encoding "mpeg4-generic" 44100 MediaExt_default in
  PayloadKind_from_media_ext m = PAac /\ pick_input_format m = "mpeg"%string.
Proof.
  intros m. destruct (mpeg4_generic_misread m) as (H1 & H2 & _); [reflexivity..|]. split; [exact H1|exact H2].
Defined.

Lemma talk_options_fit_witness :
  let m := {| tm_device_id := "d"; tm_channel_id := None; tm_transport := Some "tcp-passive"; tm_codec := Some "G.711A";
              tm_sample_rate := None; tm_channel_count := None; tm_frame_duration_ms := Some 40 |}%string in
  exists o, try_from_model m = Done o /\ frame_samples (ao_sample_rate o) (ao_frame_duration_ms o) = 320.
Proof.
  intros m. destruct (try_from_model m) as [o|e|] eqn:Ho; [|vm_compute in Ho; discriminate..].
  exists o. split; [reflexivity|].
  destruct (talk_options_fit m o "t" "k" 1 Ho ltac:(discriminate) ltac:(discriminate)) as (_ & _ & _ & _ & Hf & _).
  rewrite Hf. vm_compute in Ho. injection Ho as <-. reflexivity.
Defined.
