(* ===== verification/DialogStore.v ===== *)
(** * The durable dialog table ([session/src/storage/dialog_session.rs])

    Each INVITE dialog has a row, so that a restarted signalling node can close
    what its predecessor opened.  The table is modelled as MySQL keeps it: rows
    of text and numbers under the primary key [STREAM_ID], which the statements
    of the repository insert, update under a condition, and select.  An update
    compares owner, state, version and time stamps and counts the version up, so
    that of two writers that read the same version one loses.  Parameters: the
    JSON encoder of the route set, the parser of socket addresses, the collation
    of the primary key.  Time stamps are numbers; every statement reaches the
    data base. *)
From Stdlib Require Import Ascii.
From stdpp Require Import sorting.
From S2P Require Import Prelude Text.
Local Open Scope Z_scope.

Inductive DialogSessionType := DLive | DPlayback | DDownload | DTalk.
Inductive DialogTransport := DUdp | DTcp | DTls.
Inductive DialogState := Inviting | Established | Terminating | Terminated | Orphan.
#[export] Instance DialogSessionType_eq_dec : EqDecision DialogSessionType.
Proof. solve_decision. Defined.
#[export] Instance DialogTransport_eq_dec : EqDecision DialogTransport.
Proof. solve_decision. Defined.
#[export] Instance DialogState_eq_dec : EqDecision DialogState.
Proof. solve_decision. Defined.

Definition type_to_string (t : DialogSessionType) : string :=
  match t with DLive => "LIVE" | DPlayback => "PLAYBACK" | DDownload => "DOWNLOAD" | DTalk => "TALK" end.
Definition transport_to_string (t : DialogTransport) : string :=
  match t with DUdp => "UDP" | DTcp => "TCP" | DTls => "TLS" end.
Definition state_to_string (s : DialogState) : string :=
  match s with
  | Inviting => "INVITING" | Established => "ESTABLISHED" | Terminating => "TERMINATING" | Terminated => "TERMINATED"
  | Orphan => "ORPHAN"
  end.
Definition of_string {X : Type} (show : X -> string) (all : list X) (s : string) : option X :=
  find (fun x => bool_decide (show x = s)) all.
Definition type_of_string : string -> option DialogSessionType := of_string type_to_string [DLive; DPlayback; DDownload; DTalk].
Definition transport_of_string : string -> option DialogTransport := of_string transport_to_string [DUdp; DTcp; DTls].
Definition state_of_string : string -> option DialogState :=
  of_string state_to_string [Inviting; Established; Terminating; Terminated; Orphan].

Definition is_terminal (s : DialogState) : bool := match s with Terminated | Orphan => true | _ => false end.
Definition can_transition_to (s next : DialogState) : bool :=
  match s, next with
  | Inviting, (Established | Terminated | Orphan) => true
  | Established, (Terminating | Terminated | Orphan) => true
  | Terminating, (Terminated | Orphan) => true
  | _, _ => false
  end.

Record SipDialogSession := {
  d_stream_id : string; d_device_id : string; d_channel_id : string; d_session_type : DialogSessionType;
  d_signal_node_id : string; d_media_node_id : string; d_ssrc : option string; d_call_id : string;
  d_local_uri : string; d_remote_uri : string; d_local_tag : string; d_remote_tag : option string;
  d_local_cseq : Z; d_remote_cseq : option Z; d_contact_uri : option string; d_route_set : list string;
  d_local_sip_addr : string; d_remote_sip_addr : string; d_transport : DialogTransport; d_state : DialogState;
  d_established_at : option Z; d_last_seen_at : Z; d_expire_at : Z; d_version : Z; d_created_at : Z; d_updated_at : Z
}.
Record EstablishedDialogFields := {
  e_remote_tag : string; e_local_cseq : Z; e_remote_cseq : option Z; e_contact_uri : option string;
  e_route_set : list string; e_local_sip_addr : string; e_remote_sip_addr : string; e_established_at : Z;
  e_last_seen_at : Z; e_expire_at : Z; e_updated_at : Z
}.
(** The row as the data base has it. *)
Record SipDialogSessionRow := {
  r_stream_id : string; r_device_id : string; r_channel_id : string; r_session_type : string;
  r_signal_node_id : string; r_media_node_id : string; r_ssrc : option string; r_call_id : string;
  r_local_uri : string; r_remote_uri : string; r_local_tag : string; r_remote_tag : option string;
  r_local_cseq : Z; r_remote_cseq : option Z; r_contact_uri : option string; r_route_set : option string;
  r_local_sip_addr : string; r_remote_sip_addr : string; r_transport : string; r_state : string;
  r_established_at : option Z; r_last_seen_at : Z; r_expire_at : Z; r_version : Z; r_created_at : Z; r_updated_at : Z
}.

Definition MAX_PAGE_SIZE : Z := 1000.
Inductive StoreError := InvalidData | DuplicateKey.

(** ** Validation *)

Definition validate_len (value : string) (max_len : nat) : bool :=
  negb (bool_decide (value = ""%string)) && bool_decide (String.length value <= max_len)%nat
  && forallb (fun a => negb (bool_decide (a ∈ ["000"; "013"; "010"]%char))) (chars value).
Definition validate_optional {X : Type} (valid : X -> bool) (value : option X) : bool :=
  match value with Some v => valid v | None => true end.
Definition validate_sip_uri (max_len : nat) (value : string) : bool :=
  let l := trim (chars value) in
  let l := strip_while (length l) [chars "<"] l in
  let uri := reverse (strip_while (length l) [chars ">"] (reverse l)) in
  validate_len value max_len && (starts_with (chars "sip:") uri || starts_with (chars "sips:") uri).
Definition validate_route_set (route_set : list string) : bool := forallb (validate_sip_uri 1024) route_set.

Section Store.
Context (is_socket_addr : string -> bool).
Context (routes_to_json : list string -> string) (routes_from_json : string -> option (list string)).
Context (collate : string -> string -> bool).

Definition validate_addr (value : string) : bool := validate_len value 64 && is_socket_addr value.
Definition positive_opt (v : option Z) : bool := validate_optional (fun v => 0 <? v) v.

Definition validate (s : SipDialogSession) : bool :=
  validate_len (d_stream_id s) 64 && validate_len (d_device_id s) 32 && validate_len (d_channel_id s) 32
  && validate_len (d_signal_node_id s) 64 && validate_len (d_media_node_id s) 64
  && validate_optional (fun v => validate_len v 16) (d_ssrc s) && validate_len (d_call_id s) 128
  && validate_sip_uri 256 (d_local_uri s) && validate_sip_uri 256 (d_remote_uri s)
  && validate_len (d_local_tag s) 128 && validate_optional (fun v => validate_len v 128) (d_remote_tag s)
  && validate_optional (validate_sip_uri 256) (d_contact_uri s)
  && validate_addr (d_local_sip_addr s) && validate_addr (d_remote_sip_addr s) && validate_route_set (d_route_set s)
  && (0 <? d_local_cseq s) && positive_opt (d_remote_cseq s)
  && (0 <=? d_version s) && (d_created_at s <=? d_updated_at s) && (d_created_at s <=? d_last_seen_at s)
  && (d_last_seen_at s <? d_expire_at s)
  && validate_optional (fun v => (d_created_at s <=? v) && (v <=? d_updated_at s)) (d_established_at s)
  && match d_state s with
     | Inviting => negb (bool_decide (is_Some (d_established_at s)))
     | Established | Terminating => bool_decide (is_Some (d_remote_tag s)) && bool_decide (is_Some (d_established_at s))
     | _ => true
     end.
Definition validate_fields (f : EstablishedDialogFields) : bool :=
  validate_len (e_remote_tag f) 128 && validate_optional (validate_sip_uri 256) (e_contact_uri f)
  && validate_addr (e_local_sip_addr f) && validate_addr (e_remote_sip_addr f) && validate_route_set (e_route_set f)
  && (0 <? e_local_cseq f) && positive_opt (e_remote_cseq f) && (e_established_at f <=? e_last_seen_at f)
  && (e_established_at f <=? e_updated_at f) && (e_last_seen_at f <? e_expire_at f).

Definition route_set_to_json (route_set : list string) : outcome StoreError (option string) :=
  if negb (validate_route_set route_set) then Failed InvalidData
  else match route_set with
       | [] => Done None
       | _ => let json := routes_to_json route_set in
              if 65535 <? Z.of_nat (String.length json) then Failed InvalidData else Done (Some json)
       end.
Definition route_set_from_json (value : option string) : outcome StoreError (list string) :=
  match value with
  | None => Done []
  | Some value =>
      match routes_from_json value with
      | None => Failed InvalidData
      | Some route_set =>
          if 65535 <? Z.of_nat (String.length value) then Failed InvalidData
          else if validate_route_set route_set then Done route_set else Failed InvalidData
      end
  end.

(** [TryFrom<SipDialogSessionRow>] *)
Definition try_from_row (r : SipDialogSessionRow) : outcome StoreError SipDialogSession :=
  match type_of_string (r_session_type r), route_set_from_json (r_route_set r), transport_of_string (r_transport r),
        state_of_string (r_state r) with
  | Some ty, Done routes, Some transport, Some state =>
      let s := {| d_stream_id := r_stream_id r; d_device_id := r_device_id r; d_channel_id := r_channel_id r;
        d_session_type := ty; d_signal_node_id := r_signal_node_id r; d_media_node_id := r_media_node_id r;
        d_ssrc := r_ssrc r; d_call_id := r_call_id r; d_local_uri := r_local_uri r; d_remote_uri := r_remote_uri r;
        d_local_tag := r_local_tag r; d_remote_tag := r_remote_tag r; d_local_cseq := r_local_cseq r;
        d_remote_cseq := r_remote_cseq r; d_contact_uri := r_contact_uri r; d_route_set := routes;
        d_local_sip_addr := r_local_sip_addr r; d_remote_sip_addr := r_remote_sip_addr r; d_transport := transport;
        d_state := state; d_established_at := r_established_at r; d_last_seen_at := r_last_seen_at r;
        d_expire_at := r_expire_at r; d_version := r_version r; d_created_at := r_created_at r;
        d_updated_at := r_updated_at r |} in
      if validate s then Done s else Failed InvalidData
  | _, _, _, _ => Failed InvalidData
  end.
(** [rows.into_iter().map(TryInto::try_into).collect()] *)
Fixpoint try_from_rows (rows : list SipDialogSessionRow) : outcome StoreError (list SipDialogSession) :=
  match rows with
  | [] => Done []
  | r :: rows => match try_from_row r with
                 | Done s => match try_from_rows rows with Done l => Done (s :: l) | e => e end
                 | Failed e => Failed e | Panic => Panic
                 end
  end.

(** ** The statements *)

Definition Table := gmap string SipDialogSessionRow.

Definition row_of (s : SipDialogSession) (routes : option string) : SipDialogSessionRow := {|
  r_stream_id := d_stream_id s; r_device_id := d_device_id s; r_channel_id := d_channel_id s;
  r_session_type := type_to_string (d_session_type s); r_signal_node_id := d_signal_node_id s;
  r_media_node_id := d_media_node_id s; r_ssrc := d_ssrc s; r_call_id := d_call_id s; r_local_uri := d_local_uri s;
  r_remote_uri := d_remote_uri s; r_local_tag := d_local_tag s; r_remote_tag := d_remote_tag s;
  r_local_cseq := d_local_cseq s; r_remote_cseq := d_remote_cseq s; r_contact_uri := d_contact_uri s;
  r_route_set := routes; r_local_sip_addr := d_local_sip_addr s; r_remote_sip_addr := d_remote_sip_addr s;
  r_transport := transport_to_string (d_transport s); r_state := state_to_string (d_state s);
  r_established_at := d_established_at s; r_last_seen_at := d_last_seen_at s; r_expire_at := d_expire_at s;
  r_version := d_version s; r_created_at := d_created_at s; r_updated_at := d_updated_at s |}.

(** [UPDATE .. WHERE STREAM_ID=? AND ..]: [rows_affected() == 1]. *)
Definition update_where (stream_id : string) (p : SipDialogSessionRow -> bool)
    (f : SipDialogSessionRow -> SipDialogSessionRow) (t : Table) : bool * Table :=
  match t !! stream_id with
  | Some r => if p r then (true, <[stream_id := f r]> t) else (false, t)
  | None => (false, t)
  end.
(** The columns the updates set; the version counts up. *)
Definition set_progress (state : string) (local_cseq last_seen expire updated : Z) (r : SipDialogSessionRow)
    : SipDialogSessionRow := {|
  r_stream_id := r_stream_id r; r_device_id := r_device_id r; r_channel_id := r_channel_id r;
  r_session_type := r_session_type r; r_signal_node_id := r_signal_node_id r; r_media_node_id := r_media_node_id r;
  r_ssrc := r_ssrc r; r_call_id := r_call_id r; r_local_uri := r_local_uri r; r_remote_uri := r_remote_uri r;
  r_local_tag := r_local_tag r; r_remote_tag := r_remote_tag r; r_local_cseq := local_cseq;
  r_remote_cseq := r_remote_cseq r; r_contact_uri := r_contact_uri r; r_route_set := r_route_set r;
  r_local_sip_addr := r_local_sip_addr r; r_remote_sip_addr := r_remote_sip_addr r; r_transport := r_transport r;
  r_state := state; r_established_at := r_established_at r; r_last_seen_at := last_seen; r_expire_at := expire;
  r_version := r_version r + 1; r_created_at := r_created_at r; r_updated_at := updated |}.
Definition set_established (f : EstablishedDialogFields) (routes : option string) (r : SipDialogSessionRow)
    : SipDialogSessionRow := {|
  r_stream_id := r_stream_id r; r_device_id := r_device_id r; r_channel_id := r_channel_id r;
  r_session_type := r_session_type r; r_signal_node_id := r_signal_node_id r; r_media_node_id := r_media_node_id r;
  r_ssrc := r_ssrc r; r_call_id := r_call_id r; r_local_uri := r_local_uri r; r_remote_uri := r_remote_uri r;
  r_local_tag := r_local_tag r; r_remote_tag := Some (e_remote_tag f); r_local_cseq := e_local_cseq f;
  r_remote_cseq := e_remote_cseq f; r_contact_uri := e_contact_uri f; r_route_set := routes;
  r_local_sip_addr := e_local_sip_addr f; r_remote_sip_addr := e_remote_sip_addr f; r_transport := r_transport r;
  r_state := "ESTABLISHED"; r_established_at := Some (e_established_at f); r_last_seen_at := e_last_seen_at f;
  r_expire_at := e_expire_at f; r_version := r_version r + 1; r_created_at := r_created_at r;
  r_updated_at := e_updated_at f |}.

Definition insert_inviting (s : SipDialogSession) (t : Table) : outcome StoreError unit * Table :=
  if negb (validate s) then (Failed InvalidData, t)
  else if negb (bool_decide (d_state s = Inviting)) || negb (d_version s =? 0) || bool_decide (is_Some (d_remote_tag s))
  then (Failed InvalidData, t)
  else match route_set_to_json (d_route_set s) with
       | Done routes =>
           match t !! d_stream_id s with
           | Some _ => (Failed DuplicateKey, t)
           | None => (Done tt, <[d_stream_id s := row_of s routes]> t)
           end
       | Failed e => (Failed e, t)
       | Panic => (Panic, t)
       end.

Definition owned_at (signal_node_id : string) (version : Z) (r : SipDialogSessionRow) : bool :=
  bool_decide (r_signal_node_id r = signal_node_id) && (r_version r =? version).
Definition in_states (states : list DialogState) (r : SipDialogSessionRow) : bool :=
  bool_decide (r_state r ∈ state_to_string <$> states).
Definition cas (valid : bool) (u : bool * Table) (t : Table) : outcome StoreError bool * Table :=
  if valid then (Done u.1, u.2) else (Failed InvalidData, t).

Definition cas_mark_established (stream_id signal_node_id : string) (expected_version : Z) (f : EstablishedDialogFields)
    (t : Table) : outcome StoreError bool * Table :=
  if negb (validate_len stream_id 64) || negb (validate_len signal_node_id 64) || negb (validate_fields f)
     || (expected_version <? 0)
  then (Failed InvalidData, t)
  else match route_set_to_json (e_route_set f) with
       | Done routes =>
           let u := update_where stream_id (fun r => owned_at signal_node_id expected_version r && in_states [Inviting] r
             && (r_created_at r <=? e_established_at f) && (r_updated_at r <=? e_updated_at f)) (set_established f routes) t in
           (Done u.1, u.2)
       | Failed e => (Failed e, t)
       | Panic => (Panic, t)
       end.
Definition valid_cseq (stream_id signal_node_id : string) (expected_version current_cseq next_cseq : Z) : bool :=
  validate_len stream_id 64 && validate_len signal_node_id 64 && (0 <=? expected_version) && (0 <? current_cseq)
  && (next_cseq =? current_cseq + 1) && (next_cseq <=? 2 ^ 31 - 1).
Definition cas_begin_terminating (stream_id signal_node_id : string)
    (expected_version current_cseq next_cseq updated_at : Z) (t : Table) : outcome StoreError bool * Table :=
  cas (valid_cseq stream_id signal_node_id expected_version current_cseq next_cseq)
    (update_where stream_id (fun r => owned_at signal_node_id expected_version r && in_states [Established] r
       && (r_local_cseq r =? current_cseq) && (r_updated_at r <=? updated_at))
       (fun r => set_progress "TERMINATING" next_cseq (r_last_seen_at r) (r_expire_at r) updated_at r) t) t.
Definition cas_transition (stream_id signal_node_id : string) (expected_version : Z) (expected_state next_state : DialogState)
    (updated_at : Z) (t : Table) : outcome StoreError bool * Table :=
  cas (validate_len stream_id 64 && validate_len signal_node_id 64 && (0 <=? expected_version)
       && negb (is_terminal expected_state) && can_transition_to expected_state next_state)
    (update_where stream_id (fun r => owned_at signal_node_id expected_version r && in_states [expected_state] r
       && (r_updated_at r <=? updated_at))
       (fun r => set_progress (state_to_string next_state) (r_local_cseq r) (r_last_seen_at r) (r_expire_at r) updated_at r) t) t.
Definition cas_reserve_local_cseq (stream_id signal_node_id : string)
    (expected_version current_cseq next_cseq updated_at : Z) (t : Table) : outcome StoreError bool * Table :=
  cas (valid_cseq stream_id signal_node_id expected_version current_cseq next_cseq)
    (update_where stream_id (fun r => owned_at signal_node_id expected_version r && in_states [Established; Terminating] r
       && (r_local_cseq r =? current_cseq) && (r_updated_at r <=? updated_at))
       (fun r => set_progress (r_state r) next_cseq (r_last_seen_at r) (r_expire_at r) updated_at r) t) t.
Definition cas_touch (stream_id signal_node_id : string) (expected_version last_seen_at expire_at : Z) (t : Table)
    : outcome StoreError bool * Table :=
  cas (validate_len stream_id 64 && validate_len signal_node_id 64 && (0 <=? expected_version) && (last_seen_at <? expire_at))
    (update_where stream_id (fun r => owned_at signal_node_id expected_version r && in_states [Established; Terminating] r
       && (r_last_seen_at r <=? last_seen_at) && (r_updated_at r <=? last_seen_at))
       (fun r => set_progress (r_state r) (r_local_cseq r) last_seen_at expire_at last_seen_at r) t) t.

(** *** Queries *)

Definition by_stream_id (a b : SipDialogSessionRow) : Prop := collate (r_stream_id a) (r_stream_id b) = true.
Definition newest_first (a b : SipDialogSessionRow) : Prop := r_created_at b <= r_created_at a.
#[export] Instance by_stream_id_dec : RelDecision by_stream_id.
Proof. intros a b. unfold by_stream_id. apply _. Defined.
#[export] Instance newest_first_dec : RelDecision newest_first.
Proof. intros a b. unfold newest_first. apply _. Defined.
Definition rows_where (p : SipDialogSessionRow -> bool) (t : Table) : list SipDialogSessionRow :=
  List.filter p (map_to_list t).*2.

Definition find_by_stream_id (stream_id : string) (t : Table) : outcome StoreError (option SipDialogSession) :=
  if negb (validate_len stream_id 64) then Failed InvalidData else
  match t !! stream_id with
  | None => Done None
  | Some r => match try_from_row r with Done s => Done (Some s) | Failed e => Failed e | Panic => Panic end
  end.
Definition find_by_call_id (call_id : string) (t : Table) : outcome StoreError (list SipDialogSession) :=
  if negb (validate_len call_id 128) then Failed InvalidData else
  try_from_rows (merge_sort by_stream_id (rows_where (fun r => bool_decide (r_call_id r = call_id)) t)).
Definition find_active_by_media_ssrc_before (signal_node_id media_node_id ssrc : string) (first_seen_at now : Z) (t : Table)
    : outcome StoreError (list SipDialogSession) :=
  if negb (validate_len signal_node_id 64 && validate_len media_node_id 64 && validate_len ssrc 16) then Failed InvalidData else
  try_from_rows (take 2 (merge_sort newest_first (rows_where (fun r =>
    bool_decide (r_signal_node_id r = signal_node_id) && bool_decide (r_media_node_id r = media_node_id)
    && bool_decide (r_ssrc r = Some ssrc) && bool_decide (r_session_type r ∈ ["LIVE"; "PLAYBACK"; "DOWNLOAD"]%string)
    && in_states [Established; Terminating] r && (r_created_at r <=? first_seen_at) && (now <? r_expire_at r)) t))).
Definition after (cursor : option string) (r : SipDialogSessionRow) : bool :=
  match cursor with
  | Some c => collate c (r_stream_id r) && negb (bool_decide (r_stream_id r = c))
  | None => true
  end.
Definition page_owned_by_states (signal_node_id : string) (states : list DialogState) (after_stream_id : option string)
    (limit : Z) (t : Table) : outcome StoreError (list SipDialogSession) :=
  if negb (validate_len signal_node_id 64) || negb (validate_optional (fun v => validate_len v 64) after_stream_id)
     || bool_decide (states = []) || (limit =? 0) || (MAX_PAGE_SIZE <? limit)
  then Failed InvalidData
  else try_from_rows (take (Z.to_nat limit) (merge_sort by_stream_id (rows_where (fun r =>
         bool_decide (r_signal_node_id r = signal_node_id) && in_states states r && after after_stream_id r) t))).
End Store.
