(* ===== verification/DialogStoreProps.v ===== *)
(** * The durable dialog table: what its writers cannot do to each other

    Rows stay readable, versions decide between writers, states only advance,
    CSeq numbers are given out once, and what is stored reads back. *)
From Stdlib Require Import Ascii.
From stdpp Require Import sorting.
From S2P Require Import Prelude Text DialogStore.
Local Open Scope Z_scope.

Section Store.
Context (is_socket_addr : string -> bool).
Context (routes_to_json : list string -> string) (routes_from_json : string -> option (list string)).
Local Notation validate := (validate is_socket_addr).
Local Notation validate_fields := (validate_fields is_socket_addr).
Local Notation try_from_row := (try_from_row is_socket_addr routes_from_json).
Local Notation insert_inviting := (insert_inviting is_socket_addr routes_to_json).
Local Notation cas_mark_established := (cas_mark_established is_socket_addr routes_to_json).

(** ** Rows *)

Lemma of_to_state s : state_of_string (state_to_string s) = Some s.
Proof. by destruct s. Qed.
Lemma of_to_type s : type_of_string (type_to_string s) = Some s.
Proof. by destruct s. Qed.
Lemma of_to_transport s : transport_of_string (transport_to_string s) = Some s.
Proof. by destruct s. Qed.
Lemma state_of_string_Some w s : state_of_string w = Some s -> w = state_to_string s.
Proof.
  unfold state_of_string, of_string. intros Hf. apply find_some in Hf as [_ Hb]. by apply bool_decide_eq_true in Hb.
Qed.
Lemma in_states_spec states r : in_states states r = true <-> exists s, s ∈ states /\ r_state r = state_to_string s.
Proof.
  unfold in_states. rewrite bool_decide_eq_true, list_elem_of_fmap. split; intros (s & H1 & H2); exists s; eauto.
Qed.

(** The state conditions of a valid session. *)
Definition state_fits (st : DialogState) (remote_tag : option string) (established_at : option Z) : bool :=
  match st with
  | Inviting => negb (bool_decide (is_Some established_at))
  | Established | Terminating => bool_decide (is_Some remote_tag) && bool_decide (is_Some established_at)
  | _ => true
  end.
Lemma progress_readable r s st cseq ls ex up :
  try_from_row r = Done s -> 0 < cseq -> r_created_at r <= ls -> ls < ex -> r_updated_at r <= up ->
  state_fits st (r_remote_tag r) (r_established_at r) = true ->
  exists s', try_from_row (set_progress (state_to_string st) cseq ls ex up r) = Done s' /\ d_state s' = st.
Proof.
  intros Hr Hc Hls Hex Hup Hst. unfold DialogStore.try_from_row in *. cbn [set_progress r_session_type r_route_set r_transport r_state].
  destruct (type_of_string (r_session_type r)); [|done]. destruct (route_set_from_json _ _) as [routes| |]; [|done..].
  destruct (transport_of_string (r_transport r)); [|done]. destruct (state_of_string (r_state r)); [|done].
  rewrite of_to_state. cbn -[DialogStore.validate]. destruct (DialogStore.validate _ _) eqn:Hv in Hr; [|done].
  assert (forall b (x : SipDialogSession), b = true -> exists s', (if b then Done x else Failed InvalidData) = Done s' /\
    d_state s' = d_state x) as Hif by (intros b x ->; eauto).
  apply (Hif _ {| d_state := st |}). clear Hif Hr. unfold DialogStore.validate in *. cbn in *.
  rewrite !andb_true_iff in Hv |- *. destruct_and! Hv. split_and!; try assumption; zbool; rewrite ?Z.leb_le, ?Z.ltb_lt; try lia.
  - destruct (r_established_at r); [|done]. cbn in *. rewrite !andb_true_iff, !Z.leb_le in *. lia.
Qed.
Lemma readable_facts r s : try_from_row r = Done s ->
  state_of_string (r_state r) = Some (d_state s) /\ validate s = true /\ d_stream_id s = r_stream_id r /\
  state_fits (d_state s) (r_remote_tag r) (r_established_at r) = true /\
  0 < r_local_cseq r /\ r_created_at r <= r_updated_at r /\ r_created_at r <= r_last_seen_at r /\
  r_last_seen_at r < r_expire_at r /\ 0 <= r_version r.
Proof.
  unfold DialogStore.try_from_row. destruct (type_of_string (r_session_type r)); [|done].
  destruct (route_set_from_json _ _) as [routes| |]; [|done..]. destruct (transport_of_string (r_transport r)); [|done].
  destruct (state_of_string (r_state r)) as [st|]; [|done]. destruct (DialogStore.validate _ _) eqn:Hv; [|done].
  intros [= <-]. rewrite Hv. unfold DialogStore.validate in Hv. cbn in *. rewrite !andb_true_iff in Hv. destruct_and! Hv. zbool.
  split_and!; done.
Qed.

Context (routes_round_trip : forall l, routes_from_json (routes_to_json l) = Some l).

Lemma routes_readable routes json : route_set_to_json routes_to_json routes = Done json ->
  route_set_from_json routes_from_json json = Done routes /\ validate_route_set routes = true.
Proof.
  unfold route_set_to_json. destruct (validate_route_set routes) eqn:Hv; [|done]. cbn [negb].
  destruct routes as [|u routes]; [by intros [= <-]|]. destruct (65535 <? _) eqn:Hl; [done|]. intros [= <-].
  cbn [route_set_from_json]. by rewrite routes_round_trip, Hl, Hv.
Qed.
Lemma row_of_readable s json : validate s = true -> route_set_to_json routes_to_json (d_route_set s) = Done json ->
  try_from_row (row_of s json) = Done s.
Proof.
  intros Hv Hj. apply routes_readable in Hj as [Hj _]. unfold DialogStore.try_from_row, row_of.
  cbn [r_session_type r_route_set r_transport r_state]. rewrite of_to_type, of_to_transport, of_to_state, Hj.
  cbn -[DialogStore.validate]. destruct s. cbn -[DialogStore.validate] in *. by rewrite Hv.
Qed.
Lemma established_readable r s f json :
  try_from_row r = Done s -> validate_fields f = true -> route_set_to_json routes_to_json (e_route_set f) = Done json ->
  r_created_at r <= e_established_at f ->
  exists s', try_from_row (set_established f json r) = Done s' /\ d_state s' = Established.
Proof.
  intros Hr Hf Hj Hc. apply routes_readable in Hj as [Hj _]. unfold DialogStore.try_from_row in *.
  cbn [set_established r_session_type r_route_set r_transport r_state].
  destruct (type_of_string (r_session_type r)); [|done]. destruct (route_set_from_json _ _) as [routes| |] in Hr; [|done..].
  destruct (transport_of_string (r_transport r)); [|done]. destruct (state_of_string (r_state r)); [|done].
  rewrite Hj. change (state_of_string "ESTABLISHED") with (Some Established).
  cbn -[DialogStore.validate]. destruct (DialogStore.validate _ _) eqn:Hv in Hr; [|done].
  assert (forall b (x : SipDialogSession), b = true -> exists s', (if b then Done x else Failed InvalidData) = Done s' /\
    d_state s' = d_state x) as Hif by (intros b x ->; eauto).
  apply (Hif _ {| d_state := Established |}). clear Hif Hr. unfold DialogStore.validate, DialogStore.validate_fields in *. cbn in *.
  rewrite !andb_true_iff in Hv. rewrite !andb_true_iff in Hf. rewrite !andb_true_iff. destruct_and! Hv. destruct_and! Hf. split_and!; try assumption; zbool;
    rewrite ?Z.leb_le, ?Z.ltb_lt; try (done || lia).
Qed.

(** ** Histories *)

Inductive StoreOp :=
| OInsert (s : SipDialogSession)
| OEstablished (stream_id node : string) (version : Z) (f : EstablishedDialogFields)
| OBeginTerminating (stream_id node : string) (version current next at_ : Z)
| OTransition (stream_id node : string) (version : Z) (expected next : DialogState) (at_ : Z)
| OReserve (stream_id node : string) (version current next at_ : Z)
| OTouch (stream_id node : string) (version last_seen expire : Z).
(** Whether an update won, and the table after it. *)
Definition store_op (o : StoreOp) (t : Table) : bool * Table :=
  let won (r : outcome StoreError bool * Table) := (match r.1 with Done b => b | _ => false end, r.2) in
  match o with
  | OInsert s => let r := insert_inviting s t in (match r.1 with Done _ => true | _ => false end, r.2)
  | OEstablished id node v f => won (cas_mark_established id node v f t)
  | OBeginTerminating id node v c n at_ => won (cas_begin_terminating id node v c n at_ t)
  | OTransition id node v e n at_ => won (cas_transition id node v e n at_ t)
  | OReserve id node v c n at_ => won (cas_reserve_local_cseq id node v c n at_ t)
  | OTouch id node v ls ex => won (cas_touch id node v ls ex t)
  end.
Definition store_ops (ops : list StoreOp) (t : Table) : Table := foldl (fun t o => (store_op o t).2) t ops.
Definition op_stream (o : StoreOp) : string :=
  match o with
  | OInsert s => d_stream_id s
  | OEstablished id _ _ _ | OBeginTerminating id _ _ _ _ _ | OTransition id _ _ _ _ _ | OReserve id _ _ _ _ _ | OTouch id _ _ _ _ => id
  end.
Definition op_version (o : StoreOp) : Z :=
  match o with
  | OInsert s => d_version s
  | OEstablished _ _ v _ | OBeginTerminating _ _ v _ _ _ | OTransition _ _ v _ _ _ | OReserve _ _ v _ _ _ | OTouch _ _ v _ _ => v
  end.
(** The CSeq an operation hands out. *)
Definition op_cseq (o : StoreOp) : option Z :=
  match o with OBeginTerminating _ _ _ _ n _ | OReserve _ _ _ _ n _ => Some n | _ => None end.
Definition op_node (o : StoreOp) : string :=
  match o with
  | OInsert s => d_signal_node_id s
  | OEstablished _ n _ _ | OBeginTerminating _ n _ _ _ _ | OTransition _ n _ _ _ _ | OReserve _ n _ _ _ _ | OTouch _ n _ _ _ => n
  end.

(** What a winning operation did to its row. *)
Inductive row_change (o : StoreOp) (r : SipDialogSessionRow) : SipDialogSessionRow -> Prop :=
| rc_established f json :
    in_states [Inviting] r = true -> validate_fields f = true -> route_set_to_json routes_to_json (e_route_set f) = Done json ->
    r_created_at r <= e_established_at f -> r_updated_at r <= e_updated_at f -> op_cseq o = None ->
    row_change o r (set_established f json r)
| rc_terminating next at_ :
    in_states [Established] r = true -> 0 < r_local_cseq r -> next = r_local_cseq r + 1 -> r_updated_at r <= at_ ->
    op_cseq o = Some next ->
    row_change o r (set_progress "TERMINATING" next (r_last_seen_at r) (r_expire_at r) at_ r)
| rc_transition e n at_ :
    in_states [e] r = true -> can_transition_to e n = true -> r_updated_at r <= at_ -> op_cseq o = None ->
    (exists id node v, o = OTransition id node v e n at_) ->
    row_change o r (set_progress (state_to_string n) (r_local_cseq r) (r_last_seen_at r) (r_expire_at r) at_ r)
| rc_reserved next at_ :
    in_states [Established; Terminating] r = true -> 0 < r_local_cseq r -> next = r_local_cseq r + 1 -> r_updated_at r <= at_ ->
    op_cseq o = Some next ->
    row_change o r (set_progress (r_state r) next (r_last_seen_at r) (r_expire_at r) at_ r)
| rc_touched ls ex :
    in_states [Established; Terminating] r = true -> r_last_seen_at r <= ls -> r_updated_at r <= ls -> ls < ex -> op_cseq o = None ->
    row_change o r (set_progress (r_state r) (r_local_cseq r) ls ex ls r).

(** An operation that wins inserts a fresh row, or changes the one it names, of
    its owner and version; one that loses changes nothing. *)
Lemma store_op_effect o t :
  match store_op o t with
  | (false, t') => t' = t
  | (true, t') =>
      match t !! op_stream o with
      | None => exists s json, o = OInsert s /\ validate s = true /\ d_state s = Inviting /\ d_version s = 0 /\
                  route_set_to_json routes_to_json (d_route_set s) = Done json /\ t' = <[d_stream_id s := row_of s json]> t
      | Some r => exists r', t' = <[op_stream o := r']> t /\ r_version r = op_version o /\
                  r_signal_node_id r = op_node o /\ row_change o r r'
      end
  end.
Proof.
  destruct o as [s|id node v f|id node v c n at_|id node v e n at_|id node v c n at_|id node v ls ex]; cbn [store_op op_stream op_version op_node].
  - unfold DialogStore.insert_inviting. destruct (DialogStore.validate _ s) eqn:Hv; [|done]. cbn [negb].
    destruct (negb (bool_decide (d_state s = Inviting)) || negb (d_version s =? 0) || bool_decide (is_Some (d_remote_tag s))) eqn:Hc; [done|].
    apply orb_false_iff in Hc as [Hc _]. apply orb_false_iff in Hc as [Hst Hver].
    apply negb_false_iff, bool_decide_eq_true in Hst. apply negb_false_iff, Z.eqb_eq in Hver.
    destruct (route_set_to_json _ _) as [json| |] eqn:Hj; [|done..].
    destruct (t !! d_stream_id s) eqn:Hs; [done|]. cbn. by exists s, json.
  - unfold DialogStore.cas_mark_established, update_where, owned_at. destruct (_ || _) eqn:Hc; [done|].
    apply orb_false_iff in Hc as [Hc _]. apply orb_false_iff in Hc as [_ Hf]. apply negb_false_iff in Hf.
    destruct (route_set_to_json _ _) as [json| |] eqn:Hj; [|done..].
    destruct (t !! id) as [r|] eqn:Hs; [|done]. destruct (_ && _) eqn:Hg; [|done]. cbn. rewrite !andb_true_iff in Hg.
    destruct_and! Hg. zbool. eexists. split_and!; [done|done|by eapply bool_decide_eq_true_1|]. by apply rc_established.
  - unfold cas_begin_terminating, cas, valid_cseq, update_where, owned_at. destruct (_ && _) eqn:Hc; [|done].
    rewrite !andb_true_iff in Hc. destruct_and! Hc. zbool. cbn [fst snd].
    destruct (t !! id) as [r|] eqn:Hs; [|done]. destruct (_ && _) eqn:Hg; [|done]. cbn. rewrite !andb_true_iff in Hg.
    destruct_and! Hg. zbool. subst. eexists. split_and!; [done|done|by eapply bool_decide_eq_true_1|]. by eapply rc_terminating.
  - unfold cas_transition, cas, update_where, owned_at. destruct (_ && _) eqn:Hc; [|done].
    rewrite !andb_true_iff in Hc. destruct_and! Hc. zbool. cbn [fst snd].
    destruct (t !! id) as [r|] eqn:Hs; [|done]. destruct (_ && _) eqn:Hg; [|done]. cbn. rewrite !andb_true_iff in Hg.
    destruct_and! Hg. zbool. eexists. split_and!; [done|done|by eapply bool_decide_eq_true_1|].
    eapply rc_transition; eauto.
  - unfold cas_reserve_local_cseq, cas, valid_cseq, update_where, owned_at. destruct (_ && _) eqn:Hc; [|done].
    rewrite !andb_true_iff in Hc. destruct_and! Hc. zbool. cbn [fst snd].
    destruct (t !! id) as [r|] eqn:Hs; [|done]. destruct (_ && _) eqn:Hg; [|done]. cbn. rewrite !andb_true_iff in Hg.
    destruct_and! Hg. zbool. subst. eexists. split_and!; [done|done|by eapply bool_decide_eq_true_1|]. by eapply rc_reserved.
  - unfold cas_touch, cas, update_where, owned_at. destruct (_ && _) eqn:Hc; [|done].
    rewrite !andb_true_iff in Hc. destruct_and! Hc. zbool. cbn [fst snd].
    destruct (t !! id) as [r|] eqn:Hs; [|done]. destruct (_ && _) eqn:Hg; [|done]. cbn. rewrite !andb_true_iff in Hg.
    destruct_and! Hg. zbool. eexists. split_and!; [done|done|by eapply bool_decide_eq_true_1|]. by eapply rc_touched.
Qed.

(** ** Rows stay readable *)

Definition rows_ok (t : Table) : Prop :=
  forall k r, t !! k = Some r -> r_stream_id r = k /\ exists s, try_from_row r = Done s.
(** No caller uses [cas_transition] to establish a dialog. *)
Definition sane (o : StoreOp) : Prop := match o with OTransition _ _ _ _ Established _ => False | _ => True end.

Lemma in_states_readable states r s : try_from_row r = Done s -> in_states states r = true -> d_state s ∈ states.
Proof.
  intros Hr Hi. apply readable_facts in Hr as (Hst & _). apply in_states_spec in Hi as (s' & Hin & Heq).
  apply state_of_string_Some in Hst. rewrite Heq in Hst.
  assert (s' = d_state s) as <-; [|done]. apply (f_equal state_of_string) in Hst. rewrite !of_to_state in Hst. congruence.
Qed.
Lemma change_readable o r r' s : row_change o r r' -> sane o -> try_from_row r = Done s ->
  r_stream_id r' = r_stream_id r /\ exists s', try_from_row r' = Done s'.
Proof.
  intros Hc Ho Hr. pose proof (readable_facts _ _ Hr) as (Hst & _ & _ & Hfit & Hcs & Hcu & Hcl & Hle & _).
  assert (forall states, in_states states r = true -> d_state s ∈ states) as Hin by (intros; by eapply in_states_readable).
  pose proof (state_of_string_Some _ _ Hst) as Hname.
  destruct Hc as [f json Hi Hf Hj Hce _ _|next at_ Hi Hpos -> Hat _|e n at_ Hi Hcan Hat _ (id & node & v & ->)
                 |next at_ Hi Hpos -> Hat _|ls ex Hi Hls Hup Hex _]; (split; [done|]); apply Hin in Hi.
  - destruct (established_readable r s f json Hr Hf Hj Hce) as (s' & -> & _). by exists s'.
  - apply list_elem_of_singleton in Hi. rewrite Hi in Hfit.
    destruct (progress_readable r s Terminating (r_local_cseq r + 1) (r_last_seen_at r) (r_expire_at r) at_ Hr) as (s' & Hs' & _);
      [lia|done|done|done|done|]. by exists s'.
  - apply list_elem_of_singleton in Hi. rewrite Hi in Hfit.
    destruct (progress_readable r s n (r_local_cseq r) (r_last_seen_at r) (r_expire_at r) at_ Hr) as (s' & Hs' & _);
      [done..| |by exists s']. destruct e, n; try done.
  - rewrite Hname. destruct (progress_readable r s (d_state s) (r_local_cseq r + 1) (r_last_seen_at r) (r_expire_at r) at_ Hr) as (s' & Hs' & _);
      [lia|done..|]. by exists s'.
  - rewrite Hname. destruct (progress_readable r s (d_state s) (r_local_cseq r) ls ex ls Hr) as (s' & Hs' & _);
      [done|lia|done|done|done|]. by exists s'.
Qed.
Lemma rows_ok_step o t : sane o -> rows_ok t -> rows_ok (store_op o t).2.
Proof.
  intros Ho Ht. pose proof (store_op_effect o t) as He. destruct (store_op o t) as [[] t']; [|by subst]. cbn [snd].
  destruct (t !! op_stream o) as [r|] eqn:Hr.
  - destruct He as (r' & -> & _ & _ & Hc). intros k r0 Hk. apply lookup_insert_Some in Hk as [[<- <-]|[_ Hk]]; [|by apply Ht].
    destruct (Ht _ _ Hr) as (Hid & s & Hs). destruct (change_readable o r r' s Hc Ho Hs) as [Hid' Hs']. by rewrite Hid'.
  - destruct He as (s & json & -> & Hv & _ & _ & Hj & ->). intros k r0 Hk. apply lookup_insert_Some in Hk as [[<- <-]|[_ Hk]]; [|by apply Ht].
    split; [done|]. exists s. by apply row_of_readable.
Qed.

Lemma rows_ok_ops (ops : list StoreOp) : Forall sane ops -> rows_ok (store_ops ops ∅).
Proof.
  intros Ho. induction ops as [|o ops IH] using rev_ind; [done|]. apply Forall_app in Ho as [Ho Hl].
  apply Forall_cons in Hl as [Hl _]. unfold store_ops. rewrite foldl_app. apply rows_ok_step; [done|by apply IH].
Qed.

(** C23: every stored dialog can be read.  From an empty table, whatever
    statements the nodes run in whatever order, with whatever versions, each row
    is under its own stream id and decodes to a valid session: enumerations and
    routes parse, addresses, lengths, CSeq numbers and time stamps are in order,
    and an established dialog has its remote tag and its time. *)
Theorem stored_dialogs_readable (ops : list StoreOp) : Forall sane ops -> rows_ok (store_ops ops ∅).
Proof. apply rows_ok_ops. Qed.

(** ** Versions, states and CSeq numbers *)

Definition past_inviting (r : SipDialogSessionRow) : Prop := exists s, s <> Inviting /\ r_state r = state_to_string s.
Definition ended (r : SipDialogSessionRow) : Prop := exists s, is_terminal s = true /\ r_state r = state_to_string s.
Record later (r r' : SipDialogSessionRow) : Prop := {
  lt_version : r_version r < r_version r' \/ r' = r;
  lt_owner : r_signal_node_id r' = r_signal_node_id r /\ r_call_id r' = r_call_id r /\ r_created_at r' = r_created_at r;
  lt_updated : r_updated_at r <= r_updated_at r';
  lt_ended : ended r -> r' = r;
  lt_cseq : past_inviting r -> past_inviting r' /\ r_local_cseq r <= r_local_cseq r'
}.
Lemma later_refl r : later r r.
Proof. split; [by right|done|lia|done|intros ?; split; [done|lia]]. Qed.
Lemma later_trans r1 r2 r3 : later r1 r2 -> later r2 r3 -> later r1 r3.
Proof.
  intros [H1 (? & ? & ?) H3 H4 H5] [G1 (? & ? & ?) G3 G4 G5]. split.
  - destruct H1 as [H1|H1], G1 as [G1|G1]; subst; auto; left; lia.
  - split_and!; congruence.
  - lia.
  - intros He. pose proof (H4 He) as ->. by apply G4.
  - intros Hp. apply H5 in Hp as [Hp ?]. apply G5 in Hp as [Hp ?]. split; [done|lia].
Qed.
Lemma in_states_ended states r : in_states states r = true -> Forall (fun s => is_terminal s = false) states -> ~ ended r.
Proof.
  intros Hi Hs (s & Hst & Heq). apply in_states_spec in Hi as (s' & Hin & Heq'). rewrite list.Forall_forall in Hs.
  apply Hs in Hin. rewrite Heq in Heq'. apply (f_equal state_of_string) in Heq'. rewrite !of_to_state in Heq'. congruence.
Qed.
Lemma past_of states r : in_states states r = true -> Forall (fun s => s <> Inviting) states -> past_inviting r.
Proof.
  intros Hi Hs. apply in_states_spec in Hi as (s' & Hin & Heq'). rewrite list.Forall_forall in Hs. exists s'. split; [by apply Hs|done].
Qed.
Lemma not_past r : in_states [Inviting] r = true -> ~ past_inviting r.
Proof.
  intros Hi (s & Hs & Heq). apply in_states_spec in Hi as (s' & ->%list_elem_of_singleton & Heq').
  rewrite Heq in Heq'. apply (f_equal state_of_string) in Heq'. rewrite !of_to_state in Heq'. congruence.
Qed.
Lemma change_later o r r' : row_change o r r' -> later r r'.
Proof.
  intros Hc. assert (~ ended r /\ r_updated_at r <= r_updated_at r' /\
    (past_inviting r -> past_inviting r' /\ r_local_cseq r <= r_local_cseq r')) as (He & Hu & Hp).
  { destruct Hc as [f json Hi _ _ _ Hup _|next at_ Hi Hpos -> Hat _|e n at_ Hi Hcan Hat _ _
                   |next at_ Hi Hpos -> Hat _|ls ex Hi Hls Hup Hex _]; cbn.
    - split_and!; [by apply (in_states_ended _ _ Hi); repeat constructor|done|]. intros Hp. by apply not_past in Hp.
    - split_and!; [by apply (in_states_ended _ _ Hi); repeat constructor|done|]. intros _. split; [|lia]. by exists Terminating.
    - split_and!; [apply (in_states_ended _ _ Hi); constructor; [by destruct e, n|done]|done|]. intros _. split; [|lia].
      exists n. by destruct e, n.
    - split_and!; [by apply (in_states_ended _ _ Hi); repeat constructor|done|]. intros Hp. split; [|lia]. done.
    - split_and!; [by apply (in_states_ended _ _ Hi); repeat constructor|done|]. intros Hp. split; [|lia]. done. }
  split; [left; destruct Hc; cbn; lia|by destruct Hc|done|done|done].
Qed.
Lemma history_step o t k r : t !! k = Some r -> exists r', (store_op o t).2 !! k = Some r' /\ later r r'.
Proof.
  intros Hk. pose proof (store_op_effect o t) as He. destruct (store_op o t) as [[] t']; cbn [snd];
    [|subst; exists r; split; [done|apply later_refl]].
  destruct (t !! op_stream o) as [r0|] eqn:Hr.
  - destruct He as (r' & -> & _ & _ & Hc). destruct (decide (op_stream o = k)) as [<-|Hne].
    + exists r'. split; [apply lookup_insert_eq|]. assert (r0 = r) as -> by congruence. by eapply change_later.
    + exists r. split; [by rewrite <- Hk; apply lookup_insert_ne|apply later_refl].
  - destruct He as (s & json & -> & _ & _ & _ & _ & ->). cbn in Hr. exists r.
    split; [rewrite <- Hk; apply lookup_insert_ne; congruence|apply later_refl].
Qed.
Lemma history ops : forall t k r, t !! k = Some r -> exists r', store_ops ops t !! k = Some r' /\ later r r'.
Proof.
  induction ops as [|o ops IH]; intros t k r Hk; [exists r; split; [done|apply later_refl]|].
  destruct (history_step o t k r Hk) as (r1 & H1 & Hl). destruct (IH _ k r1 H1) as (r2 & H2 & Hl2).
  exists r2. split; [done|]. by eapply later_trans.
Qed.

(** A dialog's row only moves forward.  Once stored a row is never lost;
    under any statements by any nodes its version grows with each change, its
    owner, call and creation stay, its update time never falls, a terminated or
    orphaned dialog never changes again, and once established it never invites
    again and its CSeq never falls. *)
Theorem dialog_history (ops : list StoreOp) (t : Table) (k : string) (r : SipDialogSessionRow) :
  t !! k = Some r -> exists r', store_ops ops t !! k = Some r' /\ later r r'.
Proof. apply history. Qed.

(** C24: of two writers one wins, and a CSeq is used once.  When an update of a
    dialog won and, any number of statements later, another update of it wins,
    the second named a higher version: no two win with the version both read,
    wherever they run.  If both reserved a CSeq, the second is higher. *)
Theorem dialog_updates_serial (t : Table) (o o' : StoreOp) (between : list StoreOp) (r : SipDialogSessionRow) :
  op_stream o = op_stream o' -> t !! op_stream o = Some r -> (store_op o t).1 = true ->
  (store_op o' (store_ops between (store_op o t).2)).1 = true ->
  op_version o < op_version o' /\ op_node o = op_node o' /\
  (forall n n', op_cseq o = Some n -> op_cseq o' = Some n' -> n < n').
Proof.
  intros Hid Hr Hw Hw'. pose proof (store_op_effect o t) as He. destruct (store_op o t) as [won t1]. cbn [fst snd] in *. subst won.
  rewrite Hr in He. destruct He as (r1 & -> & Hv & Hn & Hc).
  destruct (history between (<[op_stream o := r1]> t) (op_stream o) r1) as (r2 & H2 & Hl); [apply lookup_insert_eq|].
  set (t2 := store_ops between _) in *. clearbody t2. pose proof (store_op_effect o' t2) as He'.
  destruct (store_op o' t2) as [won' t3]. cbn [fst] in Hw'. subst won'. rewrite <- Hid, H2 in He'.
  destruct He' as (r3 & _ & Hv' & Hn' & Hc').
  assert (r_version r1 = r_version r + 1 /\ r_signal_node_id r1 = r_signal_node_id r) as [Hv1 Hn1] by (by destruct Hc).
  destruct Hl as [Hlv (Hlo & _) _ _ Hlc]. split_and!.
  - rewrite <- Hv, <- Hv'. destruct Hlv as [Hlv|Hlv]; [lia|]. rewrite Hlv. lia.
  - congruence.
  - intros n n' Ho Ho'.
    assert (past_inviting r1 /\ r_local_cseq r1 = n) as [Hp Hcs].
    { destruct Hc as [f json Hi _ _ _ _ Hno|next at_ Hi Hpos -> Hat Hno|e m at_ Hi Hcan Hat Hno _
                     |next at_ Hi Hpos -> Hat Hno|ls ex Hi Hls Hup Hex Hno]; try congruence; cbn.
      - split; [by exists Terminating|congruence].
      - split; [|congruence]. exact (past_of _ _ Hi ltac:(repeat constructor; done)). }
    destruct (Hlc Hp) as [_ Hge].
    assert (n' = r_local_cseq r2 + 1) as ->; [|lia].
    destruct Hc' as [f json Hi _ _ _ _ Hno|next at_ Hi Hpos -> Hat Hno|e m at_ Hi Hcan Hat Hno _
                     |next at_ Hi Hpos -> Hat Hno|ls ex Hi Hls Hup Hex Hno]; congruence.
Qed.
End Store.

(** ** A table of one dialog *)

(** A codec of route sets, in binary digits. *)
Fixpoint demo_digits (p : positive) : string :=
  match p with xH => EmptyString | xO p => String "0" (demo_digits p) | xI p => String "1" (demo_digits p) end.
Fixpoint demo_number (s : string) : positive :=
  match s with EmptyString => xH | String "0" s => xO (demo_number s) | String _ s => xI (demo_number s) end.
Definition demo_to_json (l : list string) : string := demo_digits (encode l).
Definition demo_from_json (s : string) : option (list string) := decode (demo_number s).
Lemma demo_codec l : demo_from_json (demo_to_json l) = Some l.
Proof.
  unfold demo_from_json, demo_to_json. assert (forall p, demo_number (demo_digits p) = p) as -> by (induction p; cbn; congruence).
  apply decode_encode.
Qed.
Definition demo_dialog : SipDialogSession := {|
  d_stream_id := "s"; d_device_id := "d"; d_channel_id := "c"; d_session_type := DLive; d_signal_node_id := "n";
  d_media_node_id := "m"; d_ssrc := Some "0100000001"; d_call_id := "call"; d_local_uri := "sip:a@b";
  d_remote_uri := "sip:c@d"; d_local_tag := "lt"; d_remote_tag := None; d_local_cseq := 1; d_remote_cseq := None;
  d_contact_uri := None; d_route_set := ["sip:proxy"]; d_local_sip_addr := "a"; d_remote_sip_addr := "b";
  d_transport := DTcp; d_state := Inviting; d_established_at := None; d_last_seen_at := 10; d_expire_at := 1000;
  d_version := 0; d_created_at := 10; d_updated_at := 10 |}.
Definition demo_fields : EstablishedDialogFields := {|
  e_remote_tag := "rt"; e_local_cseq := 1; e_remote_cseq := None; e_contact_uri := Some "sip:c@d:5060";
  e_route_set := []; e_local_sip_addr := "a"; e_remote_sip_addr := "b"; e_established_at := 12; e_last_seen_at := 12;
  e_expire_at := 2000; e_updated_at := 12 |}.
Local Notation demo_op := (store_op (fun _ => true) demo_to_json).
Local Notation demo_ops := (store_ops (fun _ => true) demo_to_json).
Local Notation demo_history := [OInsert demo_dialog; OEstablished "s" "n" 0 demo_fields].
Local Notation demo_table := (demo_ops demo_history ∅).

Lemma stored_dialogs_readable_witness :
  (exists r, demo_table !! "s" = Some r /\ r_state r = "ESTABLISHED") /\ rows_ok (fun _ => true) demo_from_json demo_table.
Proof.
  split; [eexists; split; [vm_compute; reflexivity|reflexivity]|].
  apply (stored_dialogs_readable (fun _ => true) demo_to_json demo_from_json demo_codec). repeat constructor.
Defined.
Lemma dialog_history_witness :
  exists r r', demo_table !! "s" = Some r /\ demo_ops [OReserve "s" "n" 1 1 2 13] demo_table !! "s" = Some r' /\
    later r r' /\ r_local_cseq r' = 2.
Proof.
  destruct (demo_table !! "s") as [r|] eqn:Hr; [|vm_compute in Hr; discriminate Hr].
  destruct (dialog_history (fun _ => true) demo_to_json [OReserve "s" "n" 1 1 2 13] demo_table "s" r Hr) as (r' & Hr' & Hl).
  exists r, r'. split_and!; [done..|]. vm_compute in Hr'. by injection Hr' as <-.
Defined.
(** The owner reserves a CSeq, touches the dialog, and ends it with the next. *)
Lemma dialog_updates_serial_witness : 1 < 3 /\ (2 < 3)%Z.
Proof.
  destruct (demo_table !! "s") as [r|] eqn:Hr; [|vm_compute in Hr; discriminate Hr].
  destruct (dialog_updates_serial (fun _ => true) demo_to_json demo_table (OReserve "s" "n" 1 1 2 13)
    (OBeginTerminating "s" "n" 3 2 3 15) [OTouch "s" "n" 2 14 3000] r eq_refl Hr) as (Hv & _ & Hc);
    [vm_compute; reflexivity..|].
  split; [exact Hv|by apply Hc].
Defined.
