(* ===== verification/SipRuntime.v ===== *)
(** * The SIP waiters ([session/src/gb/sip/runtime_cache.rs])

    Service calls that need the answer to a SIP request leave a waiter in
    [SipRuntimeCache] and wait on a oneshot channel; the event task of the SIP
    stack completes it.  A channel is its number: the sender is in a waiter of
    one of the tables, [listening] holds the receivers not dropped, and
    [ended] records how each sender ended, by a value or by being dropped.

    [gmv_pjsip] is another repository: its header and SDP parsers and its
    snapshot, association and method types are parameters. *)
From Stdlib Require Import Ascii.
From S2P Require Import Prelude Text SharedTypes Scheduler Lifecycle SessionCache DialogCache.
Local Open Scope Z_scope.

(** ** Data *)

Record BroadcastResponseKey := { brk_sn : string; brk_target_id : string }.
#[export] Instance BroadcastResponseKey_eq_dec : EqDecision BroadcastResponseKey.
Proof. solve_decision. Defined.
#[export] Instance BroadcastResponseKey_countable : Countable BroadcastResponseKey.
Proof.
  refine (inj_countable' (fun k => (brk_sn k, brk_target_id k))
            (fun p => {| brk_sn := p.1; brk_target_id := p.2 |}) _). by intros [].
Defined.

Record SipResponseKey {Meth : Type} := { srk_method : Meth; srk_call_id : string; srk_cseq : Z }.
Arguments SipResponseKey : clear implicits.
#[export] Instance SipResponseKey_eq_dec `{EqDecision Meth} : EqDecision (SipResponseKey Meth).
Proof. solve_decision. Defined.
#[export] Instance SipResponseKey_countable `{Countable Meth} : Countable (SipResponseKey Meth).
Proof.
  refine (inj_countable' (fun k => (srk_method k, srk_call_id k, srk_cseq k))
            (fun p => {| srk_method := p.1.1; srk_call_id := p.1.2; srk_cseq := p.2 |}) _). by intros [].
Defined.

Record SipResponseMetadata := {
  rm_call_id : option string; rm_cseq : option Z; rm_event : option string;
  rm_contact : option string; rm_record_routes : list string;
  rm_from_header : option string; rm_to_header : option string;
  rm_to_tag : option string; rm_expires : option Z
}.
Definition SipResponseMetadata_default : SipResponseMetadata := {|
  rm_call_id := None; rm_cseq := None; rm_event := None; rm_contact := None; rm_record_routes := [];
  rm_from_header := None; rm_to_header := None; rm_to_tag := None; rm_expires := None |}.
Record SipResponseResult := { rr_status : Z; rr_metadata : SipResponseMetadata }.
Record SipInviteFailure := {
  if_call_id : string; if_stream_id : string; if_status : Z; if_dialog_established : bool
}.
Record SipByeFailure := { bf_call_id : string; bf_status : Z }.
Record NativeInviteMetadata := {
  nim_device_id : string; nim_channel_id : string; nim_stream_id : string; nim_ssrc : option Z
}.
Record NativeSubscriptionMetadata := {
  nsm_device_id : string; nsm_event : string; nsm_expires : Z; nsm_remote_target : string
}.
(** [bye.rs], [invite.rs] *)
Record GbByeEvent := {
  be_call_id : string; be_stream_id : option string; be_device_id : option string
}.
Record GbInviteAcceptedEvent {Snap Sdp : Type} := {
  ia_call_id : string; ia_device_id : string; ia_channel_id : string; ia_stream_id : string;
  ia_ssrc : option Z; ia_dialog_snapshot : Snap; ia_remote_sdp : string; ia_sdp_info : Sdp
}.
Arguments GbInviteAcceptedEvent : clear implicits.
Record GbIncomingInviteEvent {Snap Assoc : Type} := {
  ii_call_id : string; ii_cseq : Z; ii_association : Assoc; ii_dialog_snapshot : Snap;
  ii_remote_sdp : string; ii_from : string; ii_to : string; ii_subject : option string
}.
Arguments GbIncomingInviteEvent : clear implicits.

(** A waiter: [InviteWaiter], [ByeWaiter], [ResponseWaiter] and
    [BroadcastResponseWaiter] have no further data. *)
Record Waiter {M : Type} := { w_deadline : Z; w_meta : M; w_tx : Z }.
Arguments Waiter : clear implicits.

(** ** Headers *)

(** [sip_user] of a URI. *)
Definition uri_user (uri : string) : option string :=
  let value := match strip_prefix (chars "sip:") (chars uri) with
               | Some v => Some v
               | None => strip_prefix (chars "sips:") (chars uri)
               end in
  v ← value; text <$> head (split_on "@"%char v).
Definition broadcast_subject_ids (subject : string) : list string :=
  omap (fun leg =>
    '(id, _) ← split_once ":"%char (trim leg);
    match trim id with [] => None | id => Some (text id) end) (split_on ","%char (chars subject)).

(** ** The cache *)

Section SipRuntime.
Context {Snap Sdp Assoc Meth : Type} `{Countable Meth}.

(** How a oneshot sender ended. *)
Inductive Reply :=
| RInvite (r : GbInviteAcceptedEvent Snap Sdp + SipInviteFailure)
| RBye (r : GbByeEvent + SipByeFailure)
| RResponse (r : SipResponseResult)
| RBroadcast (accepted : bool)
| RIncoming (e : GbIncomingInviteEvent Snap Assoc)
| RDropped.

Record SipRuntimeCache := {
  invite_waiters : gmap string (Waiter unit);
  bye_waiters : gmap string (Waiter unit);
  response_waiters : gmap (SipResponseKey Meth) (Waiter unit);
  native_response_waiters : gmap Z (Waiter unit);
  native_invite_waiters : gmap Z (Waiter NativeInviteMetadata);
  native_subscription_waiters : gmap Z (Waiter NativeSubscriptionMetadata);
  broadcast_response_waiters : gmap BroadcastResponseKey (Waiter unit);
  broadcast_invite_waiters : gmap string (Waiter string);
  call_stream_index : gmap string string;
  next_tx : Z; listening : gset Z; ended : list (Z * Reply)
}.
Definition SipRuntimeCache_default : SipRuntimeCache := {|
  invite_waiters := ∅; bye_waiters := ∅; response_waiters := ∅; native_response_waiters := ∅;
  native_invite_waiters := ∅; native_subscription_waiters := ∅; broadcast_response_waiters := ∅;
  broadcast_invite_waiters := ∅; call_stream_index := ∅; next_tx := 0; listening := ∅; ended := [] |}.

(** *** Waiter tables

    How often a sender number occurs in a table, among the ended senders, and
    in the whole cache. *)
Definition hit {M} (x : Z) (w : Waiter M) : nat := if decide (w_tx w = x) then 1 else 0.
Definition hit_opt {M} (x : Z) (o : option (Waiter M)) : nat := match o with Some w => hit x w | None => 0 end.
Definition occ {K M} `{Countable K} (x : Z) (m : gmap K (Waiter M)) : nat :=
  map_fold (fun _ w n => hit x w + n)%nat 0%nat m.
Definition times (x : Z) (l : list (Z * Reply)) : nat := length (filter (fun e => e.1 = x) l).
Definition waiting (x : Z) (c : SipRuntimeCache) : nat :=
  (occ x (invite_waiters c) + occ x (bye_waiters c) + occ x (response_waiters c)
   + occ x (native_response_waiters c) + occ x (native_invite_waiters c)
   + occ x (native_subscription_waiters c) + occ x (broadcast_response_waiters c)
   + occ x (broadcast_invite_waiters c))%nat.

(** The fields other than the tables. *)
Definition rest (c : SipRuntimeCache) := (call_stream_index c, next_tx c, listening c, ended c).

(** A table is read and replaced; replacing it changes nothing else. *)
Record table {K M : Type} `{Countable K} := {
  t_get : SipRuntimeCache -> gmap K (Waiter M);
  t_set : gmap K (Waiter M) -> SipRuntimeCache -> SipRuntimeCache;
  t_get_set : forall m c, t_get (t_set m c) = m;
  t_rest : forall m c, rest (t_set m c) = rest c;
  t_waiting : forall x m c, (waiting x (t_set m c) + occ x (t_get c) = waiting x c + occ x m)%nat
}.
Arguments table K M {_ _}.

Local Ltac table_laws := first [done | intros; unfold waiting; simpl; lia].
Definition invite_table : table string unit.
Proof.
  refine {| t_get := invite_waiters; t_set := fun m c => {|
    invite_waiters := m; bye_waiters := bye_waiters c; response_waiters := response_waiters c;
    native_response_waiters := native_response_waiters c; native_invite_waiters := native_invite_waiters c;
    native_subscription_waiters := native_subscription_waiters c;
    broadcast_response_waiters := broadcast_response_waiters c;
    broadcast_invite_waiters := broadcast_invite_waiters c; call_stream_index := call_stream_index c;
    next_tx := next_tx c; listening := listening c; ended := ended c |} |}; table_laws.
Defined.
Definition bye_table : table string unit.
Proof.
  refine {| t_get := bye_waiters; t_set := fun m c => {|
    invite_waiters := invite_waiters c; bye_waiters := m; response_waiters := response_waiters c;
    native_response_waiters := native_response_waiters c; native_invite_waiters := native_invite_waiters c;
    native_subscription_waiters := native_subscription_waiters c;
    broadcast_response_waiters := broadcast_response_waiters c;
    broadcast_invite_waiters := broadcast_invite_waiters c; call_stream_index := call_stream_index c;
    next_tx := next_tx c; listening := listening c; ended := ended c |} |}; table_laws.
Defined.
Definition response_table : table (SipResponseKey Meth) unit.
Proof.
  refine {| t_get := response_waiters; t_set := fun m c => {|
    invite_waiters := invite_waiters c; bye_waiters := bye_waiters c; response_waiters := m;
    native_response_waiters := native_response_waiters c; native_invite_waiters := native_invite_waiters c;
    native_subscription_waiters := native_subscription_waiters c;
    broadcast_response_waiters := broadcast_response_waiters c;
    broadcast_invite_waiters := broadcast_invite_waiters c; call_stream_index := call_stream_index c;
    next_tx := next_tx c; listening := listening c; ended := ended c |} |}; table_laws.
Defined.
Definition native_response_table : table Z unit.
Proof.
  refine {| t_get := native_response_waiters; t_set := fun m c => {|
    invite_waiters := invite_waiters c; bye_waiters := bye_waiters c; response_waiters := response_waiters c;
    native_response_waiters := m; native_invite_waiters := native_invite_waiters c;
    native_subscription_waiters := native_subscription_waiters c;
    broadcast_response_waiters := broadcast_response_waiters c;
    broadcast_invite_waiters := broadcast_invite_waiters c; call_stream_index := call_stream_index c;
    next_tx := next_tx c; listening := listening c; ended := ended c |} |}; table_laws.
Defined.
Definition native_invite_table : table Z NativeInviteMetadata.
Proof.
  refine {| t_get := native_invite_waiters; t_set := fun m c => {|
    invite_waiters := invite_waiters c; bye_waiters := bye_waiters c; response_waiters := response_waiters c;
    native_response_waiters := native_response_waiters c; native_invite_waiters := m;
    native_subscription_waiters := native_subscription_waiters c;
    broadcast_response_waiters := broadcast_response_waiters c;
    broadcast_invite_waiters := broadcast_invite_waiters c; call_stream_index := call_stream_index c;
    next_tx := next_tx c; listening := listening c; ended := ended c |} |}; table_laws.
Defined.
Definition native_subscription_table : table Z NativeSubscriptionMetadata.
Proof.
  refine {| t_get := native_subscription_waiters; t_set := fun m c => {|
    invite_waiters := invite_waiters c; bye_waiters := bye_waiters c; response_waiters := response_waiters c;
    native_response_waiters := native_response_waiters c; native_invite_waiters := native_invite_waiters c;
    native_subscription_waiters := m;
    broadcast_response_waiters := broadcast_response_waiters c;
    broadcast_invite_waiters := broadcast_invite_waiters c; call_stream_index := call_stream_index c;
    next_tx := next_tx c; listening := listening c; ended := ended c |} |}; table_laws.
Defined.
Definition broadcast_response_table : table BroadcastResponseKey unit.
Proof.
  refine {| t_get := broadcast_response_waiters; t_set := fun m c => {|
    invite_waiters := invite_waiters c; bye_waiters := bye_waiters c; response_waiters := response_waiters c;
    native_response_waiters := native_response_waiters c; native_invite_waiters := native_invite_waiters c;
    native_subscription_waiters := native_subscription_waiters c;
    broadcast_response_waiters := m;
    broadcast_invite_waiters := broadcast_invite_waiters c; call_stream_index := call_stream_index c;
    next_tx := next_tx c; listening := listening c; ended := ended c |} |}; table_laws.
Defined.
Definition broadcast_invite_table : table string string.
Proof.
  refine {| t_get := broadcast_invite_waiters; t_set := fun m c => {|
    invite_waiters := invite_waiters c; bye_waiters := bye_waiters c; response_waiters := response_waiters c;
    native_response_waiters := native_response_waiters c; native_invite_waiters := native_invite_waiters c;
    native_subscription_waiters := native_subscription_waiters c;
    broadcast_response_waiters := broadcast_response_waiters c;
    broadcast_invite_waiters := m; call_stream_index := call_stream_index c;
    next_tx := next_tx c; listening := listening c; ended := ended c |} |}; table_laws.
Defined.

Definition with_rest (index : gmap string string) (tx : Z) (l : gset Z) (e : list (Z * Reply))
    (c : SipRuntimeCache) : SipRuntimeCache := {|
  invite_waiters := invite_waiters c; bye_waiters := bye_waiters c; response_waiters := response_waiters c;
  native_response_waiters := native_response_waiters c; native_invite_waiters := native_invite_waiters c;
  native_subscription_waiters := native_subscription_waiters c;
  broadcast_response_waiters := broadcast_response_waiters c;
  broadcast_invite_waiters := broadcast_invite_waiters c; call_stream_index := index;
  next_tx := tx; listening := l; ended := e |}.
Definition on_index (f : gmap string string -> gmap string string) (c : SipRuntimeCache) : SipRuntimeCache :=
  with_rest (f (call_stream_index c)) (next_tx c) (listening c) (ended c) c.

(** [oneshot::channel()], [tx.send(v).is_ok()], dropping a sender or a receiver. *)
Definition channel (c : SipRuntimeCache) : Z * SipRuntimeCache :=
  (next_tx c, with_rest (call_stream_index c) (next_tx c + 1) ({[next_tx c]} ∪ listening c) (ended c) c).
Definition send (tx : Z) (v : Reply) (c : SipRuntimeCache) : bool * SipRuntimeCache :=
  (bool_decide (tx ∈ listening c),
   with_rest (call_stream_index c) (next_tx c) (listening c) (ended c ++ [(tx, v)]) c).
Definition drop_receiver (tx : Z) (c : SipRuntimeCache) : SipRuntimeCache :=
  with_rest (call_stream_index c) (next_tx c) (listening c ∖ {[tx]}) (ended c) c.

Section Tables.
Context {K M : Type} `{Countable K} (t : table K M).

Definition drop_waiter (o : option (Waiter M)) (c : SipRuntimeCache) : SipRuntimeCache :=
  match o with Some w => (send (w_tx w) RDropped c).2 | None => c end.
(** [insert]: the waiter replaced is dropped. *)
Definition insert_waiter (k : K) (meta : M) (now ttl : Z) (c : SipRuntimeCache) : Z * SipRuntimeCache :=
  let '(tx, c1) := channel c in
  let old := t_get t c1 !! k in
  (tx, drop_waiter old (t_set t (<[k := {| w_deadline := now + ttl; w_meta := meta; w_tx := tx |}]> (t_get t c1)) c1)).
(** [remove]: the waiter taken out. *)
Definition take_waiter (k : K) (c : SipRuntimeCache) : option (Waiter M) * SipRuntimeCache :=
  (t_get t c !! k, t_set t (delete k (t_get t c)) c).
Definition remove_waiter (k : K) (c : SipRuntimeCache) : SipRuntimeCache :=
  let '(o, c1) := take_waiter k c in drop_waiter o c1.
(** [remove(key).map(|waiter| waiter.tx.send(v).is_ok()).unwrap_or(false)] *)
Definition answer (k : K) (v : Waiter M -> Reply) (c : SipRuntimeCache) : bool * SipRuntimeCache :=
  match take_waiter k c with
  | (Some w, c1) => send (w_tx w) (v w) c1
  | (None, c1) => (false, c1)
  end.
(** One pass of [cleanup_expired]: how many were removed. *)
Context `{!MapIter K}.
Definition expire_waiters (now : Z) (c : SipRuntimeCache) : Z * SipRuntimeCache :=
  foldl (fun nc k =>
    let '(o, c1) := take_waiter k nc.2 in
    (match o with Some _ => nc.1 + 1 | None => nc.1 end, drop_waiter o c1))
    (0, c) (map_keys_where (fun _ w => w_deadline w <=? now) (t_get t c)).
End Tables.

(** *** Operations; [now] is the clock, times to live in milliseconds *)

Definition insert_broadcast_response_waiter (key : BroadcastResponseKey) (ttl now : Z) :=
  insert_waiter broadcast_response_table key tt now ttl.
Definition complete_broadcast_response (sn target_id : string) (accepted : bool) :=
  answer broadcast_response_table {| brk_sn := sn; brk_target_id := target_id |} (fun _ => RBroadcast accepted).
Definition remove_broadcast_response_waiter (key : BroadcastResponseKey) := remove_waiter broadcast_response_table key.

Definition insert_broadcast_invite_waiter (target_id source_id : string) (ttl now : Z) :=
  insert_waiter broadcast_invite_table target_id source_id now ttl.
Definition remove_broadcast_invite_waiter (target_id : string) := remove_waiter broadcast_invite_table target_id.

Definition insert_invite_waiter (stream_id : string) (ttl now : Z) := insert_waiter invite_table stream_id tt now ttl.
Definition complete_invite (event : GbInviteAcceptedEvent Snap Sdp) (c : SipRuntimeCache) :=
  answer invite_table (ia_stream_id event) (fun _ => RInvite (inl event))
    (on_index <[ia_call_id event := ia_stream_id event]> c).
Definition fail_invite (failure : SipInviteFailure) :=
  answer invite_table (if_stream_id failure) (fun _ => RInvite (inr failure)).

Definition insert_bye_waiter (key : string) (ttl now : Z) := insert_waiter bye_table key tt now ttl.
(** The first of the keys that has a waiter. *)
Fixpoint complete_bye_keys (event : GbByeEvent) (keys : list string) (c : SipRuntimeCache) : bool * SipRuntimeCache :=
  match keys with
  | [] => (false, c)
  | key :: keys =>
      match take_waiter bye_table key c with
      | (Some w, c1) => (true, (send (w_tx w) (RBye (inl event)) c1).2)
      | (None, c1) => complete_bye_keys event keys c1
      end
  end.
Definition complete_bye (event : GbByeEvent) : SipRuntimeCache -> bool * SipRuntimeCache :=
  complete_bye_keys event (be_call_id event :: option_list (be_stream_id event)).
Definition remove_bye_waiter (key : string) := remove_waiter bye_table key.
Definition fail_bye (call_id : string) (status : Z) :=
  answer bye_table call_id (fun _ => RBye (inr {| bf_call_id := call_id; bf_status := status |})).

Definition insert_response_waiter (key : SipResponseKey Meth) (ttl now : Z) :=
  insert_waiter response_table key tt now ttl.
Definition complete_response (method : Meth) (call_id : string) (cseq status : Z)
    (metadata : SipResponseMetadata) (c : SipRuntimeCache) : bool * SipRuntimeCache :=
  if status <? 200 then (false, c)
  else answer response_table {| srk_method := method; srk_call_id := call_id; srk_cseq := cseq |}
         (fun _ => RResponse {| rr_status := status; rr_metadata := metadata |}) c.
Definition remove_response_waiter (key : SipResponseKey Meth) := remove_waiter response_table key.

Definition insert_native_response_waiter (operation_id ttl now : Z) :=
  insert_waiter native_response_table operation_id tt now ttl.
Definition complete_native_response (operation_id status : Z) (metadata : SipResponseMetadata)
    (c : SipRuntimeCache) : bool * SipRuntimeCache :=
  if status <? 200 then (false, c)
  else answer native_response_table operation_id
         (fun _ => RResponse {| rr_status := status; rr_metadata := metadata |}) c.
Definition remove_native_response_waiter (operation_id : Z) := remove_waiter native_response_table operation_id.

Definition insert_native_subscription_waiter (operation_id : Z) (metadata : NativeSubscriptionMetadata)
    (ttl now : Z) := insert_waiter native_subscription_table operation_id metadata now ttl.
Definition remove_native_subscription_waiter (operation_id : Z) :=
  remove_waiter native_subscription_table operation_id.

Definition insert_native_invite_waiter (operation_id : Z) (metadata : NativeInviteMetadata) (ttl now : Z) :=
  insert_waiter native_invite_table operation_id metadata now ttl.
Definition native_invite_failure (call_id : string) (status : Z) (established : bool)
    (w : Waiter NativeInviteMetadata) : Reply :=
  RInvite (inr {| if_call_id := call_id; if_stream_id := nim_stream_id (w_meta w); if_status := status;
                  if_dialog_established := established |}).
Definition fail_native_invite (operation_id status : Z) :=
  answer native_invite_table operation_id (native_invite_failure "" status false).
Definition remove_native_invite_waiter (operation_id : Z) := remove_waiter native_invite_table operation_id.

Definition stream_id_by_call_id (call_id : string) (c : SipRuntimeCache) : option string :=
  call_stream_index c !! call_id.
Definition remove_stream_indexes (stream_id : string) (call_id : option string) (c : SipRuntimeCache) : SipRuntimeCache :=
  let c1 := remove_waiter bye_table stream_id (remove_waiter invite_table stream_id c) in
  match call_id with
  | Some call_id => remove_waiter bye_table call_id (on_index (delete call_id) c1)
  | None => c1
  end.
Definition restore_stream_index (call_id stream_id : string) : SipRuntimeCache -> SipRuntimeCache :=
  on_index <[call_id := stream_id]>.

(** [recv_with_timeout]: what the waiting call gets; [None] while it waits. *)
Definition recv_with_timeout (tx : Z) (timed_out : bool) (c : SipRuntimeCache) : option (Reply + string) :=
  match snd <$> head (filter (fun e => e.1 = tx) (ended c)) with
  | Some RDropped => Some (inr "waiter closed"%string)
  | Some v => Some (inl v)
  | None => if timed_out then Some (inr "timeout"%string) else None
  end.

(** *** With the parsers of the SIP stack *)

Section Parsers.
Context (parse_lossy : string -> Sdp) (extract_uri extract_tag : string -> option string).

Definition sip_user (header : string) : option string := uri ← extract_uri header; uri_user uri.

(** The waiter an incoming INVITE is for, in the order of the map. *)
Definition broadcast_target `{!MapIter string} (event : GbIncomingInviteEvent Snap Assoc)
    (c : SipRuntimeCache) : option string :=
  source_id ← sip_user (ii_to event);
  let from_id := sip_user (ii_from event) in
  let subject_ids := default [] (broadcast_subject_ids <$> ii_subject event) in
  map_find_key (fun target_id w =>
    bool_decide (w_meta w = source_id)
    && (bool_decide (from_id = Some target_id) || bool_decide (target_id ∈ subject_ids)))
    (broadcast_invite_waiters c).
Definition complete_broadcast_invite `{!MapIter string} (event : GbIncomingInviteEvent Snap Assoc)
    (c : SipRuntimeCache) : bool * SipRuntimeCache :=
  match broadcast_target event c with
  | Some target_id => answer broadcast_invite_table target_id (fun _ => RIncoming event) c
  | None => (false, c)
  end.

Definition complete_native_invite (operation_id : Z) (call_id : string) (status : Z) (remote_sdp : string)
    (dialog_snapshot : option Snap) (c : SipRuntimeCache) : bool * SipRuntimeCache :=
  if status <? 200 then (false, c) else
  match take_waiter native_invite_table operation_id c with
  | (None, c1) => (false, c1)
  | (Some w, c1) =>
      if status <? 300 then
        match dialog_snapshot with
        | None => (true, (send (w_tx w) (native_invite_failure call_id 500 true w) c1).2)
        | Some snapshot =>
            let event := {| ia_call_id := call_id; ia_device_id := nim_device_id (w_meta w);
              ia_channel_id := nim_channel_id (w_meta w); ia_stream_id := nim_stream_id (w_meta w);
              ia_ssrc := nim_ssrc (w_meta w); ia_dialog_snapshot := snapshot;
              ia_remote_sdp := remote_sdp; ia_sdp_info := parse_lossy remote_sdp |} in
            send (w_tx w) (RInvite (inl event)) (on_index <[call_id := ia_stream_id event]> c1)
        end
      else send (w_tx w) (native_invite_failure call_id status false w) c1
  end.

(** *** Establishing a catalog subscription

    The refresh timer is [schedule_catalog_refresh] of [subscription.rs]; a
    refused insertion is only logged. *)
Context (accepts : TimeScheduleKey -> bool).

Definition catalog_refresh_delay (expires : Z) : Z :=
  let advance := Z.max 1 (Z.min 30 (expires / 10)) in
  Z.max (saturating_sub expires advance) 1 * 1000.
Definition schedule_catalog (device_id : string) (generation delay : Z) (c : Cache) : Cache :=
  let key := CatalogSubscription device_id generation in
  let c1 := request (remove_register key) c in
  if accepts key then request (insert_register key delay) c1 else c1.
Definition schedule_catalog_refresh (device_id : string) (generation expires : Z) : Cache -> Cache :=
  schedule_catalog device_id generation (catalog_refresh_delay expires).

Definition establish_native_subscription (pending : NativeSubscriptionMetadata)
    (response : SipResponseMetadata) (c : Cache) : bool * Cache :=
  match rm_call_id response, rm_cseq response, rm_from_header response, rm_to_header response with
  | Some call_id, Some cseq, Some from_header, Some to_header =>
      match extract_tag from_header with
      | None => (false, c)
      | Some local_tag =>
          let remote_target := default (nsm_remote_target pending) (rm_contact response ≫= extract_uri) in
          match catalog_subscription_begin (nsm_device_id pending) call_id cseq (nsm_event pending)
                  (nsm_expires pending) remote_target from_header to_header local_tag c with
          | (None, c1) => (true, c1)
          | (Some generation, c1) =>
              let '(completed, c2) := catalog_subscription_complete (nsm_device_id pending) generation
                remote_target [] from_header to_header (default ""%string (extract_tag to_header)) c1 in
              if completed then
                let expires := Z.max (default (nsm_expires pending) (rm_expires response)) 1 in
                let c3 := (catalog_subscription_update_expires (nsm_device_id pending) generation expires c2).2 in
                (true, schedule_catalog_refresh (nsm_device_id pending) generation expires c3)
              else (false, (catalog_subscription_remove (nsm_device_id pending) (Some generation) c2).2)
          end
      end
  | _, _, _, _ => (false, c)
  end.

(** The two caches the operation changes. *)
Definition complete_native_subscription (operation_id status : Z) (response : SipResponseMetadata)
    (c : SipRuntimeCache) (sc : Cache) : bool * SipRuntimeCache * Cache :=
  if status <? 200 then (false, c, sc) else
  match take_waiter native_subscription_table operation_id c with
  | (None, c1) => (false, c1, sc)
  | (Some w, c1) =>
      let '(status1, sc1) :=
        if status <? 300 then
          let '(ok, sc1) := establish_native_subscription (w_meta w) response sc in
          ((if ok : bool then status else 500), sc1)
        else (status, sc) in
      let '(ok, c2) := send (w_tx w) (RResponse {| rr_status := status1; rr_metadata := response |}) c1 in
      (ok, c2, sc1)
  end.

(** *** Failing and expiring everything *)

Section All.
Context `{!MapIter string, !MapIter Z, !MapIter (SipResponseKey Meth), !MapIter BroadcastResponseKey}.

Definition count_ok {C : Type} (f : Z -> C -> bool * C) (failed_c : Z * C) (id : Z) : Z * C :=
  let '(ok, c1) := f id failed_c.2 in (if ok then failed_c.1 + 1 else failed_c.1, c1).
Definition fail_all_native (status : Z) (c : SipRuntimeCache) (sc : Cache) : Z * (SipRuntimeCache * Cache) :=
  let response_ids := (map_iter (native_response_waiters c)).*1 in
  let subscription_ids := (map_iter (native_subscription_waiters c)).*1 in
  let invite_ids := (map_iter (native_invite_waiters c)).*1 in
  let on_runtime (f : Z -> SipRuntimeCache -> bool * SipRuntimeCache) id (p : SipRuntimeCache * Cache) :=
    let '(ok, c1) := f id p.1 in (ok, (c1, p.2)) in
  let a1 := foldl (count_ok (on_runtime (fun id =>
              complete_native_response id status SipResponseMetadata_default))) (0, (c, sc)) response_ids in
  let a2 := foldl (count_ok (fun id p =>
              let '(ok, c1, sc1) := complete_native_subscription id status SipResponseMetadata_default p.1 p.2 in
              (ok, (c1, sc1)))) a1 subscription_ids in
  foldl (count_ok (on_runtime (fun id => fail_native_invite id status))) a2 invite_ids.

Record RuntimeCleanupReport := {
  rc_invite_waiters : Z; rc_bye_waiters : Z; rc_response_waiters : Z; rc_native_response_waiters : Z
}.
Definition cleanup_expired (now : Z) (c : SipRuntimeCache) : RuntimeCleanupReport * SipRuntimeCache :=
  let '(n1, c1) := expire_waiters invite_table now c in
  let '(n2, c2) := expire_waiters native_invite_table now c1 in
  let '(n3, c3) := expire_waiters bye_table now c2 in
  let '(n4, c4) := expire_waiters response_table now c3 in
  let '(n5, c5) := expire_waiters native_response_table now c4 in
  let '(n6, c6) := expire_waiters native_subscription_table now c5 in
  let '(_, c7) := expire_waiters broadcast_response_table now c6 in
  let '(_, c8) := expire_waiters broadcast_invite_table now c7 in
  ({| rc_invite_waiters := n1 + n2; rc_bye_waiters := n3; rc_response_waiters := n4;
      rc_native_response_waiters := n5 + n6 |}, c8).
End All.
End Parsers.

(** ** Every waiter ends once *)

Lemma occ_insert {K M} `{Countable K} x k (w : Waiter M) (m : gmap K (Waiter M)) :
  (occ x (<[k := w]> m) + hit_opt x (m !! k) = hit x w + occ x m)%nat.
Proof.
  assert (forall (w : Waiter M) (m : gmap K (Waiter M)), m !! k = None ->
    occ x (<[k := w]> m) = hit x w + occ x m)%nat as Hfresh.
  { intros w' m' Hk. unfold occ. rewrite map_fold_insert_L; [done|intros; lia|done]. }
  destruct (m !! k) as [w0|] eqn:Hk; simpl; [|rewrite Hfresh by done; lia].
  rewrite <- (insert_delete_id m k w0 Hk) at 2. rewrite <- insert_delete_eq, !Hfresh by apply lookup_delete_eq. lia.
Qed.

Lemma occ_delete {K M} `{Countable K} x k (m : gmap K (Waiter M)) :
  (occ x (delete k m) + hit_opt x (m !! k) = occ x m)%nat.
Proof.
  destruct (m !! k) as [w|] eqn:Hk; simpl.
  - rewrite <- (insert_delete_id m k w Hk) at 2. pose proof (occ_insert x k w (delete k m)) as Ho.
    rewrite lookup_delete_eq in Ho. simpl in Ho. lia.
  - rewrite delete_id by done. lia.
Qed.
End SipRuntime.
