(* ===== verification/SipRuntimeProps.v ===== *)
(** * Properties of the SIP waiters

    Every waiting call is answered once or told that its waiter is gone; what
    completes, fails, expires and establishes what. *)
From Stdlib Require Import Ascii.
From S2P Require Import Prelude Text SharedTypes Scheduler Lifecycle SessionCache DialogCache SipRuntime.
Local Open Scope Z_scope.

Section SipRuntimeProps.
Context {Snap Sdp Assoc Meth : Type} `{Countable Meth}.
Context (parse_lossy : string -> Sdp) (extract_uri extract_tag : string -> option string).
Context (accepts : TimeScheduleKey -> bool).
Context `{!MapIter string, !MapIter Z, !MapIter (SipResponseKey Meth), !MapIter BroadcastResponseKey}.

Notation SipRuntimeCache := (@SipRuntimeCache Snap Sdp Assoc Meth _ _).
Notation Reply := (@Reply Snap Sdp Assoc).
Notation GbInviteAcceptedEvent := (GbInviteAcceptedEvent Snap Sdp).
Notation GbIncomingInviteEvent := (GbIncomingInviteEvent Snap Assoc).

(** ** Accounts: where a sender is *)

Definition accounts (x : Z) (c : SipRuntimeCache) : nat := (waiting x c + times x (ended c))%nat.
Definition hit_tx (x tx : Z) : nat := if decide (tx = x) then 1%nat else 0%nat.

Lemma times_snoc x (l : list (Z * Reply)) tx v : times x (l ++ [(tx, v)]) = (times x l + hit_tx x tx)%nat.
Proof.
  unfold times, hit_tx. rewrite filter_app, length_app. f_equal. rewrite filter_cons. simpl. by case_decide.
Qed.

(** What an operation does to the accounts, to the numbers handed out, and to
    the log. *)
Record steady (c c' : SipRuntimeCache) : Prop := {
  steady_accounts : forall x, accounts x c' = accounts x c;
  steady_next : next_tx c' = next_tx c;
  steady_ended : exists l, ended c' = ended c ++ l
}.
Lemma steady_refl c : steady c c.
Proof. split; [done..|]. exists []. by rewrite app_nil_r. Qed.
Lemma steady_trans c1 c2 c3 : steady c1 c2 -> steady c2 c3 -> steady c1 c3.
Proof.
  intros [A1 N1 [l1 E1]] [A2 N2 [l2 E2]]. split; [congruence..|]. exists (l1 ++ l2). by rewrite E2, E1, app_assoc.
Qed.

Lemma send_accounts x tx v (c : SipRuntimeCache) :
  accounts x (send tx v c).2 = (accounts x c + hit_tx x tx)%nat.
Proof. unfold accounts. simpl. rewrite times_snoc. change (waiting x (with_rest _ _ _ _ c)) with (waiting x c). lia. Qed.

Section Table.
Context {K M : Type} `{Countable K} (t : @table Snap Sdp Assoc Meth _ _ K M _ _).

Lemma take_accounts x k c :
  (accounts x (take_waiter t k c).2 + hit_opt x (t_get t c !! k) = accounts x c)%nat.
Proof.
  unfold accounts. simpl. pose proof (t_waiting t x (delete k (t_get t c)) c) as Hw.
  pose proof (t_rest t (delete k (t_get t c)) c) as Hr. unfold rest in Hr. simplify_eq.
  pose proof (occ_delete x k (t_get t c)). replace (ended (t_set t _ c)) with (ended c) by congruence. lia.
Qed.
Lemma take_rest k c : rest (take_waiter t k c).2 = rest c.
Proof. apply t_rest. Qed.

Lemma take_send_steady k v w c c1 :
  take_waiter t k c = (Some w, c1) -> steady c (send (w_tx w) v c1).2.
Proof.
  intros Ht. pose proof (take_rest k c) as Hr. pose proof (fun x => take_accounts x k c) as Ha.
  rewrite Ht in Hr, Ha. unfold take_waiter in Ht. simplify_eq. unfold rest in Hr.
  split.
  - intros x. rewrite send_accounts. specialize (Ha x). simpl in *. rewrite H1 in Ha. simpl in Ha.
    unfold hit in Ha. unfold hit_tx. lia.
  - simpl in *. congruence.
  - simpl in *. exists [(w_tx w, v)]. congruence.
Qed.
Lemma take_none_steady k c c1 : take_waiter t k c = (None, c1) -> steady c c1.
Proof.
  intros Ht. pose proof (take_rest k c) as Hr. pose proof (fun x => take_accounts x k c) as Ha.
  rewrite Ht in Hr, Ha. unfold take_waiter in Ht. simplify_eq. unfold rest in Hr. split.
  - intros x. specialize (Ha x). rewrite H1 in Ha. simpl in *. lia.
  - simpl in *. congruence.
  - exists []. rewrite app_nil_r. simpl in *. congruence.
Qed.
Lemma answer_steady k v c : steady c (answer t k v c).2.
Proof.
  unfold answer. destruct (take_waiter t k c) as [[w|] c1] eqn:Ht; [by eapply take_send_steady|].
  by eapply take_none_steady.
Qed.
Lemma remove_steady k c : steady c (remove_waiter t k c).
Proof.
  unfold remove_waiter. destruct (take_waiter t k c) as [[w|] c1] eqn:Ht; [by eapply take_send_steady|].
  by eapply take_none_steady.
Qed.
Lemma expire_steady `{!MapIter K} now c : steady c (expire_waiters t now c).2.
Proof.
  unfold expire_waiters. generalize (map_keys_where (fun _ w => w_deadline w <=? now) (t_get t c)).
  generalize 0. intros n ks. revert n c. induction ks as [|k ks IH]; intros n c; simpl; [apply steady_refl|].
  eapply steady_trans; [|apply IH]. apply remove_steady.
Qed.
End Table.

(** ** Runs *)

Inductive runtime_op :=
| OInsertBroadcastResponse (key : BroadcastResponseKey) (ttl now : Z)
| OCompleteBroadcastResponse (sn target_id : string) (accepted : bool)
| ORemoveBroadcastResponse (key : BroadcastResponseKey)
| OInsertBroadcastInvite (target_id source_id : string) (ttl now : Z)
| OCompleteBroadcastInvite (event : GbIncomingInviteEvent)
| ORemoveBroadcastInvite (target_id : string)
| OInsertInvite (stream_id : string) (ttl now : Z)
| OCompleteInvite (event : GbInviteAcceptedEvent)
| OFailInvite (failure : SipInviteFailure)
| OInsertBye (key : string) (ttl now : Z)
| OCompleteBye (event : GbByeEvent)
| ORemoveBye (key : string)
| OFailBye (call_id : string) (status : Z)
| OInsertResponse (key : SipResponseKey Meth) (ttl now : Z)
| OCompleteResponse (method : Meth) (call_id : string) (cseq status : Z) (metadata : SipResponseMetadata)
| ORemoveResponse (key : SipResponseKey Meth)
| OInsertNativeResponse (operation_id ttl now : Z)
| OCompleteNativeResponse (operation_id status : Z) (metadata : SipResponseMetadata)
| ORemoveNativeResponse (operation_id : Z)
| OInsertNativeSubscription (operation_id : Z) (metadata : NativeSubscriptionMetadata) (ttl now : Z)
| OCompleteNativeSubscription (operation_id status : Z) (response : SipResponseMetadata)
| ORemoveNativeSubscription (operation_id : Z)
| OInsertNativeInvite (operation_id : Z) (metadata : NativeInviteMetadata) (ttl now : Z)
| OCompleteNativeInvite (operation_id : Z) (call_id : string) (status : Z) (remote_sdp : string)
    (dialog_snapshot : option Snap)
| OFailNativeInvite (operation_id status : Z)
| ORemoveNativeInvite (operation_id : Z)
| OFailAllNative (status : Z)
| ORemoveStreamIndexes (stream_id : string) (call_id : option string)
| ORestoreStreamIndex (call_id stream_id : string)
| OCleanupExpired (now : Z)
| ODropReceiver (tx : Z)
| OSession (f : Cache -> Cache).

(** The runtime cache and the session cache; [OSession] is whatever else happens
    to the latter. *)
Definition runtime_apply (op : runtime_op) (s : SipRuntimeCache * Cache) : SipRuntimeCache * Cache :=
  let '(c, sc) := s in
  match op with
  | OInsertBroadcastResponse key ttl now => ((insert_broadcast_response_waiter key ttl now c).2, sc)
  | OCompleteBroadcastResponse sn target_id accepted => ((complete_broadcast_response sn target_id accepted c).2, sc)
  | ORemoveBroadcastResponse key => (remove_broadcast_response_waiter key c, sc)
  | OInsertBroadcastInvite target_id source_id ttl now =>
      ((insert_broadcast_invite_waiter target_id source_id ttl now c).2, sc)
  | OCompleteBroadcastInvite event => ((complete_broadcast_invite extract_uri event c).2, sc)
  | ORemoveBroadcastInvite target_id => (remove_broadcast_invite_waiter target_id c, sc)
  | OInsertInvite stream_id ttl now => ((insert_invite_waiter stream_id ttl now c).2, sc)
  | OCompleteInvite event => ((complete_invite event c).2, sc)
  | OFailInvite failure => ((fail_invite failure c).2, sc)
  | OInsertBye key ttl now => ((insert_bye_waiter key ttl now c).2, sc)
  | OCompleteBye event => ((complete_bye event c).2, sc)
  | ORemoveBye key => (remove_bye_waiter key c, sc)
  | OFailBye call_id status => ((fail_bye call_id status c).2, sc)
  | OInsertResponse key ttl now => ((insert_response_waiter key ttl now c).2, sc)
  | OCompleteResponse method call_id cseq status metadata =>
      ((complete_response method call_id cseq status metadata c).2, sc)
  | ORemoveResponse key => (remove_response_waiter key c, sc)
  | OInsertNativeResponse operation_id ttl now => ((insert_native_response_waiter operation_id ttl now c).2, sc)
  | OCompleteNativeResponse operation_id status metadata =>
      ((complete_native_response operation_id status metadata c).2, sc)
  | ORemoveNativeResponse operation_id => (remove_native_response_waiter operation_id c, sc)
  | OInsertNativeSubscription operation_id metadata ttl now =>
      ((insert_native_subscription_waiter operation_id metadata ttl now c).2, sc)
  | OCompleteNativeSubscription operation_id status response =>
      let '(_, c1, sc1) := complete_native_subscription extract_uri extract_tag accepts operation_id status response c sc in
      (c1, sc1)
  | ORemoveNativeSubscription operation_id => (remove_native_subscription_waiter operation_id c, sc)
  | OInsertNativeInvite operation_id metadata ttl now =>
      ((insert_native_invite_waiter operation_id metadata ttl now c).2, sc)
  | OCompleteNativeInvite operation_id call_id status remote_sdp dialog_snapshot =>
      ((complete_native_invite parse_lossy operation_id call_id status remote_sdp dialog_snapshot c).2, sc)
  | OFailNativeInvite operation_id status => ((fail_native_invite operation_id status c).2, sc)
  | ORemoveNativeInvite operation_id => (remove_native_invite_waiter operation_id c, sc)
  | OFailAllNative status => (fail_all_native extract_uri extract_tag accepts status c sc).2
  | ORemoveStreamIndexes stream_id call_id => (remove_stream_indexes stream_id call_id c, sc)
  | ORestoreStreamIndex call_id stream_id => (restore_stream_index call_id stream_id c, sc)
  | OCleanupExpired now => ((cleanup_expired now c).2, sc)
  | ODropReceiver tx => (drop_receiver tx c, sc)
  | OSession f => (c, f sc)
  end.
Definition runtime_run : list runtime_op -> SipRuntimeCache * Cache -> SipRuntimeCache * Cache :=
  fun ops s => foldl (fun s op => runtime_apply op s) s ops.

Lemma send_steady_after tx v (c c1 c2 : SipRuntimeCache) :
  rest c2 = (call_stream_index c2, next_tx c1, listening c1, ended c1) ->
  (forall x, waiting x c2 = waiting x c1) -> steady c (send tx v c1).2 -> steady c (send tx v c2).2.
Proof.
  intros Hr Hw [A N [l E]]. unfold rest in Hr. injection Hr as Hn Hl He. split.
  - intros x. rewrite <- A, !send_accounts. unfold accounts. by rewrite Hw, He.
  - simpl in *. congruence.
  - exists l. simpl in *. congruence.
Qed.

Lemma complete_bye_steady event keys : forall c, steady c (complete_bye_keys event keys c).2.
Proof.
  induction keys as [|k keys IH]; intros c; cbn [complete_bye_keys]; [apply steady_refl|].
  destruct (take_waiter bye_table k c) as [[w|] c1] eqn:Ht; [by eapply take_send_steady|].
  eapply steady_trans; [by eapply take_none_steady|apply IH].
Qed.

Lemma complete_invite_steady operation_id call_id status remote_sdp snapshot c :
  steady c (complete_native_invite parse_lossy operation_id call_id status remote_sdp snapshot c).2.
Proof.
  unfold complete_native_invite. destruct (status <? 200); [apply steady_refl|].
  destruct (take_waiter native_invite_table operation_id c) as [[w|] c1] eqn:Ht; [|by eapply take_none_steady].
  destruct (status <? 300); [destruct snapshot|]; try by eapply take_send_steady.
  eapply (send_steady_after _ _ c c1); [done..|by eapply take_send_steady].
Qed.

Lemma complete_subscription_steady operation_id status response c sc :
  steady c (complete_native_subscription extract_uri extract_tag accepts operation_id status response c sc).1.2.
Proof.
  unfold complete_native_subscription. destruct (status <? 200); [apply steady_refl|].
  destruct (take_waiter native_subscription_table operation_id c) as [[w|] c1] eqn:Ht; [|by eapply take_none_steady].
  destruct (if status <? 300 then _ else _) as [status1 sc1]. by eapply take_send_steady.
Qed.

Lemma count_fold_steady (f : Z -> SipRuntimeCache * Cache -> bool * (SipRuntimeCache * Cache)) ids :
  (forall id p, steady p.1 (f id p).2.1) ->
  forall a, steady a.2.1 (foldl (count_ok f) a ids).2.1.
Proof.
  intros Hf. induction ids as [|id ids IH]; intros a; simpl; [apply steady_refl|].
  eapply steady_trans; [|apply IH]. unfold count_ok. specialize (Hf id a.2). by destruct (f id a.2).
Qed.

Lemma response_steady operation_id status metadata c : steady c (complete_native_response operation_id status metadata c).2.
Proof. unfold complete_native_response. destruct (status <? 200); [apply steady_refl|apply answer_steady]. Qed.

Lemma fail_all_steady status c sc : steady c (fail_all_native extract_uri extract_tag accepts status c sc).2.1.
Proof.
  unfold fail_all_native. eapply steady_trans; [eapply steady_trans|]. all: revgoals.
  - apply count_fold_steady. intros id p.
    pose proof (answer_steady native_invite_table id (native_invite_failure "" status false) p.1) as Hs.
    unfold fail_native_invite. by destruct (answer _ _ _ _).
  - apply count_fold_steady. intros id p.
    pose proof (complete_subscription_steady id status SipResponseMetadata_default p.1 p.2) as Hs.
    by destruct (complete_native_subscription _ _ _ _ _ _ _ _) as [[??]?].
  - refine (count_fold_steady _ _ _ (0, (c, sc))). intros id p.
    pose proof (response_steady id status SipResponseMetadata_default p.1) as Hs.
    by destruct (complete_native_response _ _ _ _).
Qed.

Lemma cleanup_steady now c : steady c (cleanup_expired now c).2.
Proof.
  unfold cleanup_expired.
  repeat match goal with
  | |- context [expire_waiters ?t now ?c0] =>
      let Hs := fresh "Hs" in
      pose proof (expire_steady t now c0) as Hs; destruct (expire_waiters t now c0) as [? ?]; simpl in Hs
  end.
  simpl. repeat (eapply steady_trans; [eassumption|]). apply steady_refl.
Qed.

(** What an operation may do: end senders, and hand out one number. *)
Record grows (c c' : SipRuntimeCache) : Prop := {
  grows_next : next_tx c <= next_tx c' <= next_tx c + 1;
  grows_accounts : forall x, accounts x c' =
    (accounts x c + (if decide (next_tx c <= x < next_tx c')%Z then 1 else 0))%nat;
  grows_ended : exists l, ended c' = ended c ++ l
}.
Lemma steady_grows c c' : steady c c' -> grows c c'.
Proof. intros [A N E]. split; [lia| |done]. intros x. rewrite A, N, decide_False by lia. lia. Qed.

Lemma insert_grows {K M} `{Countable K} (t : @table Snap Sdp Assoc Meth _ _ K M _ _) k meta now ttl c :
  let '(tx, c') := insert_waiter t k meta now ttl c in
  tx = next_tx c /\ tx < next_tx c' /\ grows c c'.
Proof.
  unfold insert_waiter, channel. set (c1 := with_rest _ _ _ _ c).
  set (w := {| w_deadline := now + ttl; w_meta := meta; w_tx := next_tx c |}).
  set (c2 := t_set t _ c1). pose proof (t_rest t (<[k := w]> (t_get t c1)) c1) as Hr. fold c2 in Hr.
  unfold rest in Hr. injection Hr as Hi Hn Hl He.
  assert (forall x, (accounts x c2 + hit_opt x (t_get t c1 !! k) = accounts x c + hit_tx x (next_tx c))%nat) as Ha.
  { intros x. unfold accounts. pose proof (t_waiting t x (<[k := w]> (t_get t c1)) c1) as Hw. fold c2 in Hw.
    pose proof (occ_insert x k w (t_get t c1)) as Ho. change (hit x w) with (hit_tx x (next_tx c)) in Ho.
    rewrite He. change (waiting x c1) with (waiting x c) in Hw. change (ended c1) with (ended c). lia. }
  change (next_tx c1) with (next_tx c + 1) in Hn. change (ended c1) with (ended c) in He.
  split; [done|]. destruct (t_get t c1 !! k) as [old|]; simpl in *.
  - split; [lia|]. split; simpl.
    + lia.
    + intros x. change (accounts x (with_rest _ _ _ _ c2)) with (accounts x (send (w_tx old) RDropped c2).2).
      rewrite send_accounts. specialize (Ha x). unfold hit, hit_tx in *. rewrite Hn. repeat case_decide; lia.
    + eexists. by rewrite He.
  - split; [lia|]. split; simpl.
    + lia.
    + intros x. specialize (Ha x). unfold hit_tx in *. rewrite Hn. repeat case_decide; lia.
    + exists []. by rewrite He, app_nil_r.
Qed.

Lemma insert_grows_state {K M} `{Countable K} (t : @table Snap Sdp Assoc Meth _ _ K M _ _) k meta now ttl c :
  grows c (insert_waiter t k meta now ttl c).2.
Proof. pose proof (insert_grows t k meta now ttl c) as Hg. destruct (insert_waiter _ _ _ _ _ _). apply Hg. Qed.
Lemma with_rest_steady index l (c : SipRuntimeCache) : steady c (with_rest index (next_tx c) l (ended c) c).
Proof. split; [done..|]. exists []. by rewrite app_nil_r. Qed.
Lemma remove_indexes_steady stream_id call_id c : steady c (remove_stream_indexes stream_id call_id c).
Proof.
  unfold remove_stream_indexes.
  assert (steady c (remove_waiter bye_table stream_id (remove_waiter invite_table stream_id c))) as Hs
    by (eapply steady_trans; [|apply (remove_steady bye_table)]; apply (remove_steady invite_table)).
  destruct call_id; [|done]. eapply steady_trans; [exact Hs|].
  eapply steady_trans; [apply with_rest_steady|apply (remove_steady bye_table)].
Qed.

Local Ltac open_op :=
  cbv delta [insert_broadcast_response_waiter complete_broadcast_response remove_broadcast_response_waiter
    insert_broadcast_invite_waiter remove_broadcast_invite_waiter insert_invite_waiter fail_invite
    insert_bye_waiter remove_bye_waiter fail_bye insert_response_waiter remove_response_waiter
    insert_native_response_waiter remove_native_response_waiter insert_native_subscription_waiter
    remove_native_subscription_waiter insert_native_invite_waiter fail_native_invite
    remove_native_invite_waiter restore_stream_index drop_receiver on_index] beta.
Lemma runtime_apply_grows op c sc : grows c (runtime_apply op (c, sc)).1.
Proof.
  destruct op; cbn [runtime_apply fst]; open_op; try apply insert_grows_state; apply steady_grows;
    try first [apply remove_steady|apply answer_steady|apply with_rest_steady|apply steady_refl].
  - unfold complete_broadcast_invite. destruct (broadcast_target _ _ _); [apply answer_steady|apply steady_refl].
  - eapply steady_trans; [apply with_rest_steady|apply answer_steady].
  - apply complete_bye_steady.
  - unfold complete_response. destruct (status <? 200); [apply steady_refl|apply answer_steady].
  - apply response_steady.
  - pose proof (complete_subscription_steady operation_id status response c sc) as Hs.
    by destruct (complete_native_subscription _ _ _ _ _ _ _ _) as [[??]?].
  - apply complete_invite_steady.
  - apply fail_all_steady.
  - apply remove_indexes_steady.
  - apply cleanup_steady.
Qed.

Definition balanced (c : SipRuntimeCache) : Prop :=
  0 <= next_tx c /\ forall x, accounts x c = (if decide (0 <= x < next_tx c)%Z then 1 else 0)%nat.
Lemma balanced_init : balanced SipRuntimeCache_default.
Proof. split; [done|]. intros x. simpl. rewrite decide_False by lia. done. Qed.
Lemma grows_balanced c c' : grows c c' -> balanced c -> balanced c'.
Proof.
  intros [N A _] [Hn Ha]. split; [lia|]. intros x. rewrite A, Ha. repeat case_decide; lia.
Qed.
Lemma runtime_run_balanced ops : forall s, balanced s.1 ->
  balanced (runtime_run ops s).1 /\ exists l, ended (runtime_run ops s).1 = ended s.1 ++ l.
Proof.
  induction ops as [|op ops IH]; intros s Hs; simpl; [split; [done|]; exists []; by rewrite app_nil_r|].
  pose proof (runtime_apply_grows op s.1 s.2) as Hg. rewrite <- surjective_pairing in Hg.
  destruct (IH (runtime_apply op s) (grows_balanced _ _ Hg Hs)) as [Hb [l2 Hl]]. split; [done|].
  destruct (grows_ended _ _ Hg) as [l1 Hl1]. exists (l1 ++ l2). by rewrite Hl, Hl1, app_assoc.
Qed.

Lemma times_one x (l : list (Z * Reply)) : times x l = 1%nat ->
  exists v, filter (fun e => e.1 = x) l = [(x, v)].
Proof.
  unfold times. intros Hl. destruct (filter _ l) as [|[y v] [|]] eqn:Hf; try done. exists v.
  assert ((y, v) ∈ filter (fun e : Z * Reply => e.1 = x) l) as Hin by (rewrite Hf; apply list_elem_of_here).
  apply list_elem_of_filter in Hin as [Hx _]. simpl in Hx. by subst.
Qed.


(** ** Frames: one table does not disturb another *)

Notation table K M := (@table Snap Sdp Assoc Meth _ _ K M _ _).
Definition indep {K1 M1 K2 M2} `{Countable K1, Countable K2} (t1 : table K1 M1) (t2 : table K2 M2) : Prop :=
  forall m c, t_get t1 (t_set t2 m c) = t_get t1 c.

Section Frame.
Context {K1 M1 K M : Type} `{Countable K1, Countable K} (t1 : table K1 M1) (t : table K M).
(** The shared fields do not matter to a table. *)
Definition reads_table : Prop := forall index tx l e c, t_get t1 (with_rest index tx l e c) = t_get t1 c.
Context (Hi : indep t1 t) (Hr : reads_table).

Lemma answer_frame k v c : t_get t1 (answer t k v c).2 = t_get t1 c.
Proof.
  unfold answer, take_waiter. destruct (t_get t c !! k); unfold send; cbn [snd]; by rewrite ?Hr, Hi.
Qed.
Lemma remove_frame k c : t_get t1 (remove_waiter t k c) = t_get t1 c.
Proof.
  unfold remove_waiter, take_waiter. destruct (t_get t c !! k); unfold drop_waiter, send; cbn [snd]; by rewrite ?Hr, Hi.
Qed.
Lemma insert_frame k meta now ttl c : t_get t1 (insert_waiter t k meta now ttl c).2 = t_get t1 c.
Proof.
  unfold insert_waiter, channel, drop_waiter, send. cbn [snd].
  destruct (t_get t _ !! k); cbn [snd]; by rewrite ?Hr, Hi, ?Hr.
Qed.
Lemma expire_frame `{!MapIter K} now c : t_get t1 (expire_waiters t now c).2 = t_get t1 c.
Proof.
  unfold expire_waiters. generalize (map_keys_where (fun _ w => w_deadline w <=? now) (t_get t c)). intros ks.
  change (t_get t1 c) with (t_get t1 (0, c).2). generalize (0, c). clear c.
  induction ks as [|k ks IH]; intros p; cbn [foldl]; [done|]. rewrite IH. apply remove_frame.
Qed.
End Frame.

(** The effect on the table itself. *)
Section Own.
Context {K M : Type} `{Countable K} (t : table K M) (Hr : reads_table t).

Lemma answer_own k v c : t_get t (answer t k v c).2 = delete k (t_get t c).
Proof.
  unfold answer, take_waiter. destruct (t_get t c !! k); unfold send; cbn [snd]; by rewrite ?Hr, t_get_set.
Qed.
Lemma remove_own k c : t_get t (remove_waiter t k c) = delete k (t_get t c).
Proof.
  unfold remove_waiter, take_waiter. destruct (t_get t c !! k); unfold drop_waiter, send; cbn [snd]; by rewrite ?Hr, t_get_set.
Qed.
Lemma insert_own k meta now ttl c :
  t_get t (insert_waiter t k meta now ttl c).2
  = <[k := {| w_deadline := now + ttl; w_meta := meta; w_tx := next_tx c |}]> (t_get t c).
Proof.
  unfold insert_waiter, channel, drop_waiter, send. cbn [snd].
  destruct (t_get t _ !! k); cbn [snd]; by rewrite ?Hr, t_get_set, ?Hr.
Qed.
(** Who is answered. *)
Lemma answer_some k v c w : t_get t c !! k = Some w ->
  (answer t k v c).1 = bool_decide (w_tx w ∈ listening c) /\
  ended (answer t k v c).2 = ended c ++ [(w_tx w, v w)] /\ listening (answer t k v c).2 = listening c.
Proof.
  intros Hk. unfold answer, take_waiter. rewrite Hk. simpl.
  pose proof (t_rest t (delete k (t_get t c)) c) as Hc. unfold rest in Hc. injection Hc as _ _ -> ->. done.
Qed.
Lemma answer_none k v c : t_get t c !! k = None ->
  (answer t k v c).1 = false /\ rest (answer t k v c).2 = rest c.
Proof. intros Hk. unfold answer, take_waiter. rewrite Hk. split; [done|]. apply t_rest. Qed.
End Own.

Lemma occ_found {K M} `{Countable K} x k (w : Waiter M) (m : gmap K (Waiter M)) :
  m !! k = Some w -> w_tx w = x -> (1 <= occ x m)%nat.
Proof.
  intros Hk Hx. pose proof (occ_delete x k m) as Ho. rewrite Hk in Ho. simpl in Ho. unfold hit in Ho.
  rewrite decide_True in Ho by done. lia.
Qed.

(** ** A response finds its request *)

(** The operation leaves the waiter of request [id] alone: it is about another
    one, provisional, or a clean-up before the deadline. *)
Definition spares (id deadline : Z) (op : runtime_op) : Prop :=
  match op with
  | OInsertNativeResponse id' _ _ | ORemoveNativeResponse id' => id' <> id
  | OCompleteNativeResponse id' status _ => id' <> id \/ status < 200
  | OFailAllNative _ => False
  | OCleanupExpired now => now < deadline
  | _ => True
  end.

(** *** Clean-up *)

Definition expired_keys {K M} `{Countable K, !MapIter K} (now : Z) (m : gmap K (Waiter M)) : list K :=
  map_keys_where (fun _ w => w_deadline w <=? now) m.
Definition unexpired {K M} `{Countable K} (now : Z) (m : gmap K (Waiter M)) : gmap K (Waiter M) :=
  filter (fun kw : K * Waiter M => now < w_deadline kw.2) m.

(** What a pass leaves. *)
Lemma expire_own {K M} `{Countable K, !MapIter K} (t : table K M) now c : reads_table t ->
  t_get t (expire_waiters t now c).2 = unexpired now (t_get t c) /\
  (expire_waiters t now c).1 = Z.of_nat (length (expired_keys now (t_get t c))).
Proof.
  intros Hr. unfold expire_waiters.
  set (step := fun (nc : Z * SipRuntimeCache) k => let '(o, c1) := take_waiter t k nc.2 in _).
  assert (forall ks p, NoDup ks -> (forall k, k ∈ ks -> is_Some (t_get t p.2 !! k)) ->
    (forall k, t_get t (foldl step p ks).2 !! k = if decide (k ∈ ks) then None else t_get t p.2 !! k) /\
    (foldl step p ks).1 = p.1 + Z.of_nat (length ks)) as Hfold.
  { induction ks as [|k ks IH]; intros p Hnd Hin; [split; [done|simpl; lia]|]. cbn [foldl].
    apply NoDup_cons in Hnd as [Hk Hnd].
    assert (t_get t (step p k).2 = delete k (t_get t p.2)) as Hd by apply (remove_own t Hr).
    destruct (IH (step p k) Hnd) as [I1 I2].
    { intros k' Hk'. rewrite Hd, lookup_delete_ne by congruence. apply Hin. by right. }
    split.
    - intros k'. rewrite I1, Hd. destruct (decide (k' = k)) as [->|Hne].
      + rewrite lookup_delete_eq, (decide_True (P := k ∈ k :: ks)) by apply list_elem_of_here. by case_decide.
      + rewrite lookup_delete_ne by done. destruct (decide (k' ∈ ks)) as [Hk'|Hk'].
        * by rewrite decide_True by by right.
        * rewrite decide_False; [done|]. by rewrite elem_of_cons; intros [|].
    - rewrite I2. unfold step at 1, take_waiter. destruct (Hin k) as [w ->]; [apply list_elem_of_here|]. simpl. lia. }
  destruct (Hfold (expired_keys now (t_get t c)) (0, c)) as [F1 F2].
  - apply NoDup_map_keys_where.
  - intros k (w & Hw & _)%elem_of_map_keys_where. by exists w.
  - split; [|exact F2]. apply map_eq. intros k. rewrite F1. unfold unexpired. symmetry. case_decide as Hk.
    + apply elem_of_map_keys_where in Hk as (w & Hw & Hle). apply map_lookup_filter_None. right.
      intros w' Hw'. simpl in *. rewrite Hw in Hw'. simplify_eq. lia.
    + destruct (t_get t c !! k) as [w|] eqn:Hw; cbn [snd]; rewrite Hw.
      * apply map_lookup_filter_Some. split; [done|]. simpl. destruct (Z.ltb_spec now (w_deadline w)); [done|].
        exfalso. apply Hk, elem_of_map_keys_where. exists w. split; [done|lia].
      * apply map_lookup_filter_None. by left.
Qed.

Lemma cleanup_state now (c : SipRuntimeCache) : (cleanup_expired now c).2 =
  (expire_waiters broadcast_invite_table now (expire_waiters broadcast_response_table now
  (expire_waiters native_subscription_table now (expire_waiters native_response_table now
  (expire_waiters response_table now (expire_waiters bye_table now
  (expire_waiters native_invite_table now (expire_waiters invite_table now c).2).2).2).2).2).2).2).2.
Proof. unfold cleanup_expired. by repeat (destruct (expire_waiters _ _ _); cbn [snd]). Qed.

Local Ltac own_table :=
  rewrite cleanup_state; repeat rewrite expire_frame by done;
  match goal with |- t_get ?t (expire_waiters ?t _ _).2 = _ => rewrite (proj1 (expire_own t _ _ ltac:(done))) end;
  repeat rewrite expire_frame by done.
Lemma cleanup_tables now (c : SipRuntimeCache) : let c' := (cleanup_expired now c).2 in
  invite_waiters c' = unexpired now (invite_waiters c) /\
  bye_waiters c' = unexpired now (bye_waiters c) /\
  response_waiters c' = unexpired now (response_waiters c) /\
  native_response_waiters c' = unexpired now (native_response_waiters c) /\
  native_invite_waiters c' = unexpired now (native_invite_waiters c) /\
  native_subscription_waiters c' = unexpired now (native_subscription_waiters c) /\
  broadcast_response_waiters c' = unexpired now (broadcast_response_waiters c) /\
  broadcast_invite_waiters c' = unexpired now (broadcast_invite_waiters c).
Proof.
  intros c'. split_and!.
  - change (t_get invite_table c' = unexpired now (t_get invite_table c)). unfold c'. by own_table.
  - change (t_get bye_table c' = unexpired now (t_get bye_table c)). unfold c'. by own_table.
  - change (t_get response_table c' = unexpired now (t_get response_table c)). unfold c'. by own_table.
  - change (t_get native_response_table c' = unexpired now (t_get native_response_table c)).
    unfold c'. by own_table.
  - change (t_get native_invite_table c' = unexpired now (t_get native_invite_table c)).
    unfold c'. by own_table.
  - change (t_get native_subscription_table c' = unexpired now (t_get native_subscription_table c)).
    unfold c'. by own_table.
  - change (t_get broadcast_response_table c' = unexpired now (t_get broadcast_response_table c)).
    unfold c'. by own_table.
  - change (t_get broadcast_invite_table c' = unexpired now (t_get broadcast_invite_table c)).
    unfold c'. by own_table.
Qed.

(** *** The response table under other operations *)

Lemma count_fold_frame {V} (get : SipRuntimeCache -> V)
    (f : Z -> SipRuntimeCache * Cache -> bool * (SipRuntimeCache * Cache)) ids :
  (forall id p, get (f id p).2.1 = get p.1) ->
  forall a, get (foldl (count_ok f) a ids).2.1 = get a.2.1.
Proof.
  intros Hf. induction ids as [|id ids IH]; intros a; cbn [foldl]; [done|]. rewrite IH.
  unfold count_ok. specialize (Hf id a.2). by destruct (f id a.2).
Qed.

Lemma complete_invite_native_frame operation_id call_id status remote_sdp snapshot (c : SipRuntimeCache) :
  native_response_waiters (complete_native_invite parse_lossy operation_id call_id status remote_sdp snapshot c).2
  = native_response_waiters c.
Proof.
  unfold complete_native_invite, take_waiter. destruct (status <? 200); [done|].
  destruct (t_get native_invite_table c !! operation_id); [|done].
  destruct (status <? 300); [|done]. by destruct snapshot.
Qed.

Lemma complete_bye_frame event keys : forall c : SipRuntimeCache,
  native_response_waiters (complete_bye_keys event keys c).2 = native_response_waiters c.
Proof.
  induction keys as [|k keys IH]; intros c; cbn [complete_bye_keys]; [done|].
  unfold take_waiter. destruct (t_get bye_table c !! k); [done|]. by rewrite IH.
Qed.

Lemma native_response_spared id deadline op (c : SipRuntimeCache) sc w :
  spares id deadline op -> w_deadline w = deadline -> native_response_waiters c !! id = Some w ->
  native_response_waiters (runtime_apply op (c, sc)).1 !! id = Some w.
Proof.
  intros Hop Hd Hw. change (t_get native_response_table (runtime_apply op (c, sc)).1 !! id = Some w).
  destruct op; cbn [runtime_apply fst]; open_op; try done;
    try (rewrite insert_frame by done; exact Hw); try (rewrite answer_frame by done; exact Hw);
    try (rewrite remove_frame by done; exact Hw).
  - unfold complete_broadcast_invite. destruct (broadcast_target _ _ _); [|done]. by rewrite answer_frame.
  - unfold complete_invite. by rewrite answer_frame.
  - simpl. unfold complete_bye. by rewrite complete_bye_frame.
  - unfold complete_response. destruct (status <? 200); [done|]. by rewrite answer_frame.
  - simpl in Hop. by rewrite insert_own, lookup_insert_ne.
  - unfold complete_native_response. simpl in Hop. destruct (Z.ltb_spec status 200); [done|].
    rewrite answer_own by done. by rewrite lookup_delete_ne by lia.
  - simpl in Hop. by rewrite remove_own, lookup_delete_ne.
  - unfold complete_native_subscription, take_waiter. destruct (status <? 200); [done|].
    destruct (t_get native_subscription_table c !! operation_id); [|done].
    by destruct (if status <? 300 then _ else _).
  - simpl. by rewrite complete_invite_native_frame.
  - unfold remove_stream_indexes, on_index. destruct call_id; rewrite !remove_frame by done; [|done].
    change (t_get native_response_table (remove_waiter bye_table stream_id (remove_waiter invite_table stream_id c))
            !! id = Some w). by rewrite !remove_frame.
  - change (native_response_waiters (cleanup_expired now c).2 !! id = Some w).
    destruct (cleanup_tables now c) as (_ & _ & _ & -> & _). apply map_lookup_filter_Some. simpl in *.
    split; [done|lia].
Qed.

Lemma runtime_run_spared id ops : forall s w, Forall (spares id (w_deadline w)) ops ->
  native_response_waiters s.1 !! id = Some w -> native_response_waiters (runtime_run ops s).1 !! id = Some w.
Proof.
  induction ops as [|op ops IH]; intros [c sc] w Hops Hw; [done|]. apply Forall_cons in Hops as [Hop Hops].
  apply IH; [done|]. by eapply native_response_spared.
Qed.

(** A response finds its request.  Once a request has left its waiter,
    nothing that is about other requests, nor a provisional response, nor a
    clean-up before the deadline makes the final response miss it: the call
    gets exactly that status and metadata, and the waiter is gone. *)
Theorem native_request_answered (ops ops' : list runtime_op) (id ttl now status : Z)
    (metadata : SipResponseMetadata) :
  let s0 := runtime_run ops (SipRuntimeCache_default, Cache_init) in
  let '(tx, c1) := insert_native_response_waiter id ttl now s0.1 in
  Forall (spares id (now + ttl)) ops' -> 200 <= status ->
  let c2 := (runtime_run ops' (c1, s0.2)).1 in
  let '(ok, c3) := complete_native_response id status metadata c2 in
  ok = bool_decide (tx ∈ listening c2) /\ native_response_waiters c3 !! id = None /\
  forall timed_out, recv_with_timeout tx timed_out c3
    = Some (inl (RResponse {| rr_status := status; rr_metadata := metadata |})).
Proof.
  intros s0. unfold insert_native_response_waiter.
  pose proof (insert_grows native_response_table id tt now ttl s0.1) as Hg.
  pose proof (insert_own native_response_table ltac:(done) id tt now ttl s0.1) as Hown.
  destruct (insert_waiter native_response_table id tt now ttl s0.1) as [tx c1]. destruct Hg as (-> & Hlt & Hg).
  intros Hops Hst. set (c2 := (runtime_run ops' (c1, s0.2)).1). set (w := {| w_deadline := now + ttl; w_meta := tt; w_tx := next_tx s0.1 |}) in *.
  destruct (runtime_run_balanced ops (SipRuntimeCache_default, Cache_init) balanced_init) as [Hb0 _]. fold s0 in Hb0.
  assert (balanced c2) as Hb2 by (apply (runtime_run_balanced ops' (c1, s0.2)), (grows_balanced _ _ Hg Hb0)).
  assert (native_response_waiters c2 !! id = Some w) as Hw.
  { apply (runtime_run_spared id ops' (c1, s0.2)); [done|]. cbn [fst snd] in *.
    change (t_get native_response_table c1 !! id = Some w). rewrite Hown. apply lookup_insert_eq. }
  unfold complete_native_response. rewrite (proj2 (Z.ltb_ge status 200)) by lia.
  destruct (answer_some native_response_table id
    (fun _ => RResponse {| rr_status := status; rr_metadata := metadata |}) c2 w Hw) as (A1 & A2 & A3).
  pose proof (answer_own native_response_table ltac:(done) id
    (fun _ => RResponse {| rr_status := status; rr_metadata := metadata |}) c2) as A4.
  destruct (answer native_response_table id _ c2) as [ok c3]. cbn [fst snd] in *. split_and!; [done| |].
  - change (t_get native_response_table c3 !! id = None). rewrite A4. apply lookup_delete_eq.
  - intros timed_out. unfold recv_with_timeout. rewrite A2, filter_app. change (w_tx w) with (next_tx s0.1).
    assert (times (next_tx s0.1) (ended c2) = 0%nat) as Ht.
    { destruct Hb2 as [_ Hb2]. specialize (Hb2 (next_tx s0.1)). unfold accounts in Hb2.
      assert (1 <= waiting (next_tx s0.1) c2)%nat.
      { unfold waiting. pose proof (occ_found (next_tx s0.1) id w _ Hw eq_refl). lia. }
      case_decide; lia. }
    unfold times in Ht. destruct (filter _ (ended c2)); [|done]. simpl. by rewrite filter_cons, decide_True.
Qed.

(** ** Failing everything when the SIP stack stops *)

Definition lost_reply (status : Z) : Reply :=
  RResponse {| rr_status := status; rr_metadata := SipResponseMetadata_default |}.
(** Waiters whose call still listens. *)
Definition heard {M} (c : SipRuntimeCache) (l : list (Z * Waiter M)) : Z :=
  Z.of_nat (length (filter (fun kw : Z * Waiter M => w_tx kw.2 ∈ listening c) l)).
Definition replies {M} (v : Waiter M -> Reply) (l : list (Z * Waiter M)) : list (Z * Reply) :=
  (fun kw => (w_tx kw.2, v kw.2)) <$> l.

Definition answer_step {M} (t : table Z M) (v : Waiter M -> Reply) (id : Z) (p : SipRuntimeCache * Cache)
    : bool * (SipRuntimeCache * Cache) := let '(ok, c1) := answer t id v p.1 in (ok, (c1, p.2)).

Lemma answer_fold {M} (t : table Z M) (v : Waiter M -> Reply) (L : list (Z * Waiter M)) : reads_table t ->
  forall a, NoDup L.*1 -> (forall k w, (k, w) ∈ L -> t_get t a.2.1 !! k = Some w) ->
  let r := foldl (count_ok (answer_step t v)) a L.*1 in
  r.2.2 = a.2.2 /\ listening r.2.1 = listening a.2.1 /\ ended r.2.1 = ended a.2.1 ++ replies v L /\
  r.1 = a.1 + heard a.2.1 L /\
  (forall k, t_get t r.2.1 !! k = if decide (k ∈ L.*1) then None else t_get t a.2.1 !! k).
Proof.
  intros Hr. induction L as [|[k w] L IH]; intros [n [c sc]] Hnd Hin; cbn [fmap list_fmap foldl].
  - unfold heard, replies. simpl. rewrite app_nil_r. split_and!; try done. lia.
  - simpl in Hnd. apply NoDup_cons in Hnd as [Hk Hnd].
    pose proof (Hin k w ltac:(apply list_elem_of_here)) as Hw. cbn [fst snd] in *.
    destruct (answer_some t k v c w Hw) as (A1 & A2 & A3). pose proof (answer_own t Hr k v c) as A4.
    destruct (answer t k v c) as [ok c1] eqn:Ha. cbn [fst snd] in *.
    assert (count_ok (answer_step t v) (n, (c, sc)) k = (if ok then n + 1 else n, (c1, sc))) as ->.
    { unfold count_ok, answer_step. cbn [fst snd]. by rewrite Ha. }
    destruct (IH (if ok then n + 1 else n, (c1, sc)) Hnd) as (I1 & I2 & I3 & I4 & I5); cbn [fst snd] in *.
    { intros k' w' Hkw. rewrite A4, lookup_delete_ne; [apply Hin; by right|]. intros <-.
      apply Hk, list_elem_of_fmap. by exists (k, w'). }
    split_and!; [done|congruence|rewrite I3, A2, <- app_assoc; reflexivity| |].
    + rewrite I4, A1. unfold heard. rewrite A3. rewrite (filter_cons _ (k, w)). cbn [snd].
      case_bool_decide; [rewrite decide_True by done|rewrite decide_False by done]; simpl; lia.
    + intros k'. rewrite I5, A4. destruct (decide (k' = k)) as [->|Hne].
      * rewrite lookup_delete_eq, (decide_True (P := k ∈ k :: L.*1)) by apply list_elem_of_here.
        by destruct (decide (k ∈ L.*1)).
      * rewrite lookup_delete_ne by done. destruct (decide (k' ∈ L.*1)) as [Hin'|Hin'].
        -- by rewrite decide_True by by right.
        -- rewrite decide_False; [done|]. by rewrite elem_of_cons; intros [|].
Qed.

Lemma answer_fold_frame {M K1 M1} `{Countable K1} (t1 : table K1 M1) (t : table Z M) v ids a :
  indep t1 t -> reads_table t1 -> t_get t1 (foldl (count_ok (answer_step t v)) a ids).2.1 = t_get t1 a.2.1.
Proof.
  intros Hi Hr. apply (count_fold_frame (t_get t1)). intros id p. unfold answer_step.
  pose proof (answer_frame t1 t Hi Hr id v p.1). by destruct (answer t id v p.1).
Qed.

(** With a failure status each of the three passes answers its table. *)
Lemma fail_all_passes status c sc : 300 <= status ->
  fail_all_native extract_uri extract_tag accepts status c sc =
  foldl (count_ok (answer_step native_invite_table (native_invite_failure "" status false)))
    (foldl (count_ok (answer_step native_subscription_table (fun _ => lost_reply status)))
       (foldl (count_ok (answer_step native_response_table (fun _ => lost_reply status))) (0, (c, sc))
          (map_iter (native_response_waiters c)).*1)
       (map_iter (native_subscription_waiters c)).*1)
    (map_iter (native_invite_waiters c)).*1.
Proof.
  intros Hst. unfold fail_all_native.
  assert (forall f g l a, (forall id p, f id p = g id p) ->
    foldl (count_ok (C := SipRuntimeCache * Cache) f) a l = foldl (count_ok g) a l) as Hext.
  { intros f g l a Hfg. revert a. induction l as [|x l IH]; intros a; cbn [foldl]; [done|].
    rewrite IH. unfold count_ok. by rewrite Hfg. }
  f_equal. rewrite (Hext _ (answer_step native_subscription_table (fun _ => lost_reply status))).
  - f_equal. apply Hext. intros id p. unfold complete_native_response, answer_step.
    by rewrite (proj2 (Z.ltb_ge status 200)) by lia.
  - intros id [c1 sc1]. unfold complete_native_subscription, answer_step, answer. cbn [fst snd].
    rewrite (proj2 (Z.ltb_ge status 200)), (proj2 (Z.ltb_ge status 300)) by lia.
    by destruct (take_waiter native_subscription_table id c1) as [[w|] c2].
Qed.

Lemma map_iter_fold_hyps {M} (m : gmap Z (Waiter M)) :
  NoDup (map_iter m).*1 /\ (forall k w, (k, w) ∈ map_iter m -> m !! k = Some w).
Proof.
  split; [rewrite map_iter_perm; apply NoDup_fst_map_to_list|]. intros k w. by rewrite elem_of_map_iter.
Qed.
Lemma emptied {M} (m m' : gmap Z (Waiter M)) :
  (forall k, m' !! k = if decide (k ∈ (map_iter m).*1) then None else m !! k) -> m' = ∅.
Proof.
  intros Hm. apply map_eq. intros k. rewrite Hm, lookup_empty. case_decide as Hk; [done|].
  destruct (m !! k) as [w|] eqn:Hw; [|done]. exfalso. apply Hk, list_elem_of_fmap. exists (k, w).
  by rewrite elem_of_map_iter.
Qed.

(** No call survives the SIP stack.  When the stack stops, every pending
    native request, subscription and INVITE, and nothing else, is failed with
    the given status; none is left, the session's subscriptions are not
    touched, and the number reported is that of the calls still listening. *)
Theorem fail_all_native_spec (status : Z) (c : SipRuntimeCache) (sc : Cache) :
  300 <= status ->
  let '(failed, (c', sc')) := fail_all_native extract_uri extract_tag accepts status c sc in
  sc' = sc /\ native_response_waiters c' = ∅ /\ native_subscription_waiters c' = ∅ /\
  native_invite_waiters c' = ∅ /\
  (invite_waiters c', bye_waiters c', response_waiters c', broadcast_response_waiters c',
   broadcast_invite_waiters c') =
  (invite_waiters c, bye_waiters c, response_waiters c, broadcast_response_waiters c,
   broadcast_invite_waiters c) /\
  ended c' = ended c ++ replies (fun _ => lost_reply status) (map_iter (native_response_waiters c))
    ++ replies (fun _ => lost_reply status) (map_iter (native_subscription_waiters c))
    ++ replies (native_invite_failure "" status false) (map_iter (native_invite_waiters c)) /\
  failed = heard c (map_iter (native_response_waiters c)) + heard c (map_iter (native_subscription_waiters c))
           + heard c (map_iter (native_invite_waiters c)).
Proof.
  intros Hst. rewrite (fail_all_passes status c sc Hst).
  destruct (map_iter_fold_hyps (native_response_waiters c)) as [D1 L1].
  destruct (map_iter_fold_hyps (native_subscription_waiters c)) as [D2 L2].
  destruct (map_iter_fold_hyps (native_invite_waiters c)) as [D3 L3].
  destruct (answer_fold native_response_table (fun _ => lost_reply status) _ ltac:(done) (0, (c, sc)) D1 L1)
    as (A1 & A2 & A3 & A4 & A5).
  set (a1 := foldl _ (0, (c, sc)) _) in *. cbn [fst snd] in *.
  assert (forall K M (E : EqDecision K) (C : Countable K) (t : @SipRuntime.table Snap Sdp Assoc Meth _ _ K M E C),
    indep t native_response_table -> reads_table t -> t_get t a1.2.1 = t_get t c) as F1.
  { intros. unfold a1. by rewrite answer_fold_frame. }
  destruct (answer_fold native_subscription_table (fun _ => lost_reply status) _ ltac:(done) a1 D2) as (B1 & B2 & B3 & B4 & B5).
  { intros k w Hkw. rewrite F1 by done. by apply L2. }
  set (a2 := foldl _ a1 _) in *.
  assert (forall K M (E : EqDecision K) (C : Countable K) (t : @SipRuntime.table Snap Sdp Assoc Meth _ _ K M E C),
    indep t native_subscription_table -> reads_table t -> t_get t a2.2.1 = t_get t a1.2.1) as F2.
  { intros. unfold a2. by rewrite answer_fold_frame. }
  destruct (answer_fold native_invite_table (native_invite_failure "" status false) _ ltac:(done) a2 D3) as (C1 & C2 & C3 & C4 & C5).
  { intros k w Hkw. rewrite F2, F1 by done. by apply L3. }
  pose proof (fun K M (E : EqDecision K) (C : Countable K) (t : @SipRuntime.table Snap Sdp Assoc Meth _ _ K M E C) =>
    answer_fold_frame t native_invite_table (native_invite_failure "" status false) (map_iter (native_invite_waiters c)).*1 a2) as F3.
  destruct (foldl _ a2 _) as [failed [c' sc']]. cbn [fst snd] in *.
  assert (forall K M (E : EqDecision K) (C : Countable K) (t : @SipRuntime.table Snap Sdp Assoc Meth _ _ K M E C),
    indep t native_invite_table -> indep t native_subscription_table -> indep t native_response_table ->
    reads_table t -> t_get t c' = t_get t c) as F by (intros; by rewrite F3, F2, F1).
  split_and!; [congruence| | | | | |].
  - change (t_get native_response_table c' = ∅). rewrite F3, F2 by done. by apply (emptied (native_response_waiters c)).
  - change (t_get native_subscription_table c' = ∅). rewrite F3 by done. apply (emptied (native_subscription_waiters c)).
    intros k. by rewrite B5, F1.
  - apply (emptied (native_invite_waiters c)). intros k.
    change (native_invite_waiters c' !! k) with (t_get native_invite_table c' !! k). by rewrite C5, F2, F1.
  - pose proof (F _ _ _ _ invite_table ltac:(done) ltac:(done) ltac:(done) ltac:(done)) as E1.
    pose proof (F _ _ _ _ bye_table ltac:(done) ltac:(done) ltac:(done) ltac:(done)) as E2.
    pose proof (F _ _ _ _ response_table ltac:(done) ltac:(done) ltac:(done) ltac:(done)) as E3.
    pose proof (F _ _ _ _ broadcast_response_table ltac:(done) ltac:(done) ltac:(done) ltac:(done)) as E4.
    pose proof (F _ _ _ _ broadcast_invite_table ltac:(done) ltac:(done) ltac:(done) ltac:(done)) as E5.
    cbn [t_get invite_table bye_table response_table broadcast_response_table broadcast_invite_table] in *. congruence.
  - by rewrite C3, B3, A3, <- !app_assoc.
  - rewrite C4, B4, A4. unfold heard. rewrite B2, A2. lia.
Qed.
End SipRuntimeProps.

(** ** Witnesses *)

Local Notation demo_cache := (@SipRuntimeCache_default string string string string _ _).
Local Notation demo_run := (runtime_run (fun s : string => s) Some Some (fun _ => true)).
Definition demo_ops : list (@runtime_op string string string string) :=
  [OInsertNativeResponse 5 1000 0; OInsertBye "call" 1000 0; OInsertNativeResponse 6 1000 0;
   OCompleteNativeResponse 5 200 SipResponseMetadata_default].


Lemma native_request_answered_witness :
  let s0 := demo_run demo_ops (demo_cache, Cache_init) in
  let '(tx, c1) := insert_native_response_waiter 7 500 100 s0.1 in
  let c2 := (demo_run [OCompleteNativeResponse 7 100 SipResponseMetadata_default; OCleanupExpired 300] (c1, s0.2)).1 in
  let '(ok, c3) := complete_native_response 7 486 SipResponseMetadata_default c2 in
  ok = bool_decide (tx ∈ listening c2) /\ native_response_waiters c3 !! 7 = None /\
  forall timed_out, recv_with_timeout tx timed_out c3
    = Some (inl (RResponse {| rr_status := 486; rr_metadata := SipResponseMetadata_default |})).
Proof.
  apply (native_request_answered (fun s : string => s) Some Some (fun _ => true) demo_ops
           [OCompleteNativeResponse 7 100 SipResponseMetadata_default; OCleanupExpired 300] 7 500 100 486
           SipResponseMetadata_default).
  - repeat constructor; simpl; lia.
  - lia.
Defined.

Lemma fail_all_native_spec_witness :
  let c := (demo_run demo_ops (demo_cache, Cache_init)).1 in
  (fail_all_native Some Some (fun _ => true) 503 c Cache_init).1 = 1.
Proof.
  intros c. pose proof (fail_all_native_spec Some Some (fun _ => true) 503 c Cache_init ltac:(lia)) as Hf.
  destruct (fail_all_native _ _ _ _ _ _) as [failed [c' sc']]. destruct Hf as (_ & _ & _ & _ & _ & _ & ->).
  vm_compute. reflexivity.
Defined.
