(* ===== verification/Tasks.v ===== *)
(** * Asynchronous tasks

    An [async] function of the session process is a program: it takes steps on
    the state it shares with other tasks, waits on channels until a message or a
    timeout is there, and asks the outside (a media node, a clock) questions.
    [exec] runs a program while other tasks change the shared state between its
    steps; [wp] is the weakest precondition that goes with it. *)
From stdpp Require Import relations.
From S2P Require Import Prelude.

Declare Scope task_scope.
Delimit Scope task_scope with task.

Section Tasks.
Context {W Q : Type} {ans : Q -> Type}.

(** [Await f]: [f timed_out w] is [None] while the channel has nothing and the
    time is not over. *)
Inductive task (R : Type) : Type :=
| Ret (r : R)
| Step {X : Type} (f : W -> X * W) (k : X -> task R)
| Await {X : Type} (f : bool -> W -> option (X * W)) (k : X -> task R)
| Ask (q : Q) (k : ans q -> task R).
Arguments Ret {R} r.
Arguments Step {R X} f k.
Arguments Await {R X} f k.
Arguments Ask {R} q k.

Fixpoint bind {R S : Type} (t : task R) (k : R -> task S) : task S :=
  match t with
  | Ret r => k r
  | Step f k' => Step f (fun x => bind (k' x) k)
  | Await f k' => Await f (fun x => bind (k' x) k)
  | Ask q k' => Ask q (fun a => bind (k' a) k)
  end.
(** The [?] operator. *)
Definition bind_ok {E R S : Type} (t : task (outcome E R)) (k : R -> task (outcome E S)) : task (outcome E S) :=
  bind t (fun o => match o with Done r => k r | Failed e => Ret (Failed e) | Panic => Ret Panic end).
Definition atomically {X : Type} (f : W -> X * W) : task X := Step f Ret.
Definition modify (f : W -> W) : task unit := Step (fun w => (tt, f w)) Ret.
Definition reads {X : Type} (f : W -> X) : task X := Step (fun w => (f w, w)) Ret.
Definition wait {X : Type} (f : bool -> W -> option (X * W)) : task X := Await f Ret.
Definition ask (q : Q) : task (ans q) := Ask q Ret.

(** ** Runs *)

(** What the task asked, with the answers. *)
Definition event := {q : Q & ans q}.

Section Runs.
(** What other tasks may do to the shared state in one step. *)
Context (env : W -> W -> Prop).

Inductive exec : forall {R}, W -> task R -> list event -> W -> R -> Prop :=
| exec_ret {R} w (r : R) : exec w (Ret r) [] w r
| exec_step {R X} w w1 (f : W -> X * W) x w2 (k : X -> task R) tr w' r :
    rtc env w w1 -> f w1 = (x, w2) -> exec w2 (k x) tr w' r -> exec w (Step f k) tr w' r
| exec_await {R X} w w1 (f : bool -> W -> option (X * W)) late x w2 (k : X -> task R) tr w' r :
    rtc env w w1 -> f late w1 = Some (x, w2) -> exec w2 (k x) tr w' r -> exec w (Await f k) tr w' r
| exec_ask {R} w q a (k : ans q -> task R) tr w' r :
    exec w (k a) tr w' r -> exec w (Ask q k) (existT q a :: tr) w' r.

Fixpoint wp {R} (t : task R) (post : R -> W -> list event -> Prop) (w : W) : Prop :=
  match t with
  | Ret r => post r w []
  | Step f k => forall w1, rtc env w w1 -> wp (k (f w1).1) post (f w1).2
  | Await f k => forall w1 late x w2, rtc env w w1 -> f late w1 = Some (x, w2) -> wp (k x) post w2
  | Ask q k => forall a, wp (k a) (fun r w' tr => post r w' (existT q a :: tr)) w
  end.

Lemma wp_sound {R} (t : task R) post w tr w' r : exec w t tr w' r -> wp t post w -> post r w' tr.
Proof.
  intros He. revert post. induction He as [R w r|R X w w1 f x w2 k tr w' r Hr Hf _ IH|R X w w1 f late x w2 k tr w' r Hr Hf _ IH|R w q a k tr w' r _ IH];
    intros post Hwp; cbn in Hwp.
  - done.
  - specialize (Hwp w1 Hr). rewrite Hf in Hwp. by apply IH.
  - by apply IH, (Hwp w1 late x w2).
  - by apply (IH (fun r w' tr => post r w' (existT q a :: tr))).
Qed.
Lemma wp_mono {R} (t : task R) (post post' : R -> W -> list event -> Prop) w :
  (forall r w' tr, post r w' tr -> post' r w' tr) -> wp t post w -> wp t post' w.
Proof.
  revert post post' w. induction t as [r|X f k IH|X f k IH|q k IH]; intros post post' w Hp Hwp; cbn in *.
  - by apply Hp.
  - intros w1 Hr. eapply IH; [done|]. by apply Hwp.
  - intros w1 late x w2 Hr Hf. eapply IH; [done|]. by eapply Hwp.
  - intros a. eapply IH; [|apply Hwp]. intros r w' tr. apply Hp.
Qed.
Lemma wp_bind {R S} (t : task R) (k : R -> task S) post w :
  wp t (fun x w1 tr1 => wp (k x) (fun r w' tr2 => post r w' (tr1 ++ tr2)) w1) w -> wp (bind t k) post w.
Proof.
  revert post w. induction t as [r|X f k' IH|X f k' IH|q k' IH]; intros post w Hwp; cbn in *.
  - done.
  - intros w1 Hr. by apply IH, Hwp.
  - intros w1 late x w2 Hr Hf. by eapply IH, Hwp.
  - intros a. apply (IH a (fun r w' tr => post r w' (existT q a :: tr))). exact (Hwp a).
Qed.

Lemma wp_bind_ok {E R S} (t : task (outcome E R)) (k : R -> task (outcome E S)) post w :
  wp t (fun o w1 tr1 => match o with
                        | Done r => wp (k r) (fun r w' tr2 => post r w' (tr1 ++ tr2)) w1
                        | Failed e => post (Failed e) w1 tr1
                        | Panic => post Panic w1 tr1
                        end) w -> wp (bind_ok t k) post w.
Proof.
  intros Hwp. apply wp_bind. eapply wp_mono; [|done]. intros [] w1 tr1; cbn; [done| |]; by rewrite app_nil_r.
Qed.
Lemma wp_ret {R} (r : R) (post : R -> W -> list event -> Prop) w : post r w [] -> wp (Ret r) post w.
Proof. done. Qed.
Lemma wp_step {X R} (f : W -> X * W) (k : X -> task R) post w :
  (forall w1, rtc env w w1 -> wp (k (f w1).1) post (f w1).2) -> wp (bind (Step f Ret) k) post w.
Proof. done. Qed.
Lemma wp_await {X R} (f : bool -> W -> option (X * W)) (k : X -> task R) post w :
  (forall w1 late x w2, rtc env w w1 -> f late w1 = Some (x, w2) -> wp (k x) post w2) -> wp (bind (Await f Ret) k) post w.
Proof. done. Qed.
Lemma wp_ask {R} q (k : ans q -> task R) post w :
  (forall a, wp (k a) (fun r w' tr => post r w' (existT q a :: tr)) w) -> wp (bind (Ask q Ret) k) post w.
Proof. done. Qed.
End Runs.

(** ** Tasks that end

    A task whose waits end on time-out, and which waits at most [n] times. *)
Fixpoint waits_at_most (n : nat) {R} (t : task R) : Prop :=
  match t with
  | Ret _ => True
  | Step f k => forall x, waits_at_most n (k x)
  | Await f k => match n with
                 | O => False
                 | S n => (forall w, is_Some (f true w)) /\ forall x, waits_at_most n (k x)
                 end
  | Ask q k => forall a, waits_at_most n (k a)
  end.
Lemma waits_mono {R} (t : task R) n m : (n <= m)%nat -> waits_at_most n t -> waits_at_most m t.
Proof.
  revert n m. induction t as [r|X f k IH|X f k IH|q k IH]; intros n m Hnm Ht; cbn in *; [done|eauto| |eauto].
  destruct n as [|n]; [done|]. destruct m as [|m]; [lia|]. destruct Ht as [Hf Hk]. split; [done|].
  intros x. apply (IH x n); [lia|auto].
Qed.
Lemma waits_bind n m {R S} (t : task R) (k : R -> task S) :
  waits_at_most n t -> (forall r, waits_at_most m (k r)) -> waits_at_most (n + m) (bind t k).
Proof.
  revert n. induction t as [r|X f k' IH|X f k' IH|q k' IH]; intros n Ht Hk; cbn in *; [|eauto| |eauto].
  - apply (waits_mono _ m); [lia|done].
  - destruct n as [|n]; [done|]. destruct Ht as [Hf Ht]. cbn. split; [done|]. intros x. by apply IH.
Qed.
(** A part of a task whose own bound is known. *)
Lemma waits_part n {m R S} (t : task R) (k : R -> task S) :
  waits_at_most n t -> (n <= m)%nat -> (forall r, waits_at_most (m - n) (k r)) -> waits_at_most m (bind t k).
Proof. intros Ht Hnm Hk. replace m with (n + (m - n))%nat by lia. by apply waits_bind. Qed.
Lemma waits_part_ok n {m E R S} (t : task (outcome E R)) (k : R -> task (outcome E S)) :
  waits_at_most n t -> (n <= m)%nat -> (forall r, waits_at_most (m - n) (k r)) -> waits_at_most m (bind_ok t k).
Proof. intros Ht Hnm Hk. apply (waits_part n); [done..|]. by intros []; cbn. Qed.
Lemma waits_ends n {R} (t : task R) env (some_answer : forall q, ans q) w :
  waits_at_most n t -> exists tr w' r, exec env w t tr w' r.
Proof.
  revert n w. induction t as [r|X f k IH|X f k IH|q k IH]; intros n w Ht; cbn in Ht.
  - by exists [], w, r; constructor.
  - destruct (f w) as [x w2] eqn:Hf. destruct (IH x n w2 (Ht x)) as (tr & w' & r & He). exists tr, w', r.
    by apply (exec_step env w w f x w2).
  - destruct n as [|n]; [done|]. destruct Ht as [Hf Hk]. destruct (Hf w) as ([x w2] & Hfw).
    destruct (IH x n w2 (Hk x)) as (tr & w' & r & He). exists tr, w', r. by apply (exec_await env w w f true x w2).
  - destruct (IH (some_answer q) n w (Ht _)) as (tr & w' & r & He). exists (existT q (some_answer q) :: tr), w', r.
    by constructor.
Qed.

(** ** Tasks whose every step keeps a relation *)
Fixpoint keeps (P : W -> W -> Prop) {R} (t : task R) : Prop :=
  match t with
  | Ret _ => True
  | Step f k => (forall w, P w (f w).2) /\ forall x, keeps P (k x)
  | Await f k => (forall late w x w2, f late w = Some (x, w2) -> P w w2) /\ forall x, keeps P (k x)
  | Ask q k => forall a, keeps P (k a)
  end.
Lemma keeps_bind P {R S} (t : task R) (k : R -> task S) : keeps P t -> (forall r, keeps P (k r)) -> keeps P (bind t k).
Proof.
  intros Ht Hk. induction t as [r|X f k' IH|X f k' IH|q k' IH]; cbn in *;
    [done|destruct Ht; split; eauto|destruct Ht; split; eauto|eauto].
Qed.
Lemma keeps_bind_ok P {E R S} (t : task (outcome E R)) (k : R -> task (outcome E S)) :
  keeps P t -> (forall r, keeps P (k r)) -> keeps P (bind_ok t k).
Proof. intros Ht Hk. apply keeps_bind; [done|]. intros []; cbn; auto. Qed.
Lemma keeps_wp (env P : W -> W -> Prop) `{!PreOrder P} {R} (t : task R) w :
  (forall w1 w2, env w1 w2 -> P w1 w2) -> keeps P t -> wp env t (fun _ w' _ => P w w') w.
Proof.
  intros Henv Ht. assert (Hrtc : forall w1 w2, rtc env w1 w2 -> P w1 w2).
  { induction 1; [reflexivity|]. etransitivity; eauto. }
  revert w. induction t as [r|X f k IH|X f k IH|q k IH]; intros w; cbn in *.
  - reflexivity.
  - destruct Ht as [Hf Hk]. intros w1 Hr. eapply wp_mono; [|by apply IH]. cbn. intros _ w' _ Hw.
    transitivity w1; [auto|]. by transitivity (f w1).2.
  - destruct Ht as [Hf Hk]. intros w1 late x w2 Hr Hfw. eapply wp_mono; [|by apply IH]. cbn. intros _ w' _ Hw.
    transitivity w1; [auto|]. transitivity w2; eauto.
  - intros a. eapply wp_mono; [|by apply IH]. done.
Qed.

(** ** Tasks that only ask some questions *)
Fixpoint asks (P : Q -> Prop) {R} (t : task R) : Prop :=
  match t with
  | Ret _ => True
  | Step _ k => forall x, asks P (k x)
  | Await _ k => forall x, asks P (k x)
  | Ask q k => P q /\ forall a, asks P (k a)
  end.
Lemma asks_bind P {R S} (t : task R) (k : R -> task S) : asks P t -> (forall r, asks P (k r)) -> asks P (bind t k).
Proof. intros Ht Hk. induction t as [r|X f k' IH|X f k' IH|q k' IH]; cbn in *; [done|eauto|eauto|destruct Ht; split; eauto]. Qed.
Lemma asks_bind_ok P {E R S} (t : task (outcome E R)) (k : R -> task (outcome E S)) :
  asks P t -> (forall r, asks P (k r)) -> asks P (bind_ok t k).
Proof. intros Ht Hk. apply asks_bind; [done|]. intros []; cbn; auto. Qed.
Lemma asks_wp env P {R} (t : task R) w : asks P t -> wp env t (fun _ _ tr => Forall (fun e : event => P (projT1 e)) tr) w.
Proof.
  revert w. induction t as [r|X f k IH|X f k IH|q k IH]; intros w Ht; cbn in *.
  - constructor.
  - intros w1 _. by apply IH.
  - intros w1 late x w2 _ _. by apply IH.
  - destruct Ht as [Hq Ht]. intros a. eapply wp_mono; [|by apply IH]. intros. by constructor.
Qed.
(** ** What a task has done with the answers it got

    [accounts step t post g]: however the waits and the answers come, [t] ends with
    [post] of its result and the account [g] brought up to date by [step]. *)
Section Accounts.
Context {G : Type} (step : G -> event -> G).
Fixpoint accounts {R} (t : task R) (post : R -> G -> Prop) (g : G) : Prop :=
  match t with
  | Ret r => post r g
  | Step _ k => forall x, accounts (k x) post g
  | Await _ k => forall x, accounts (k x) post g
  | Ask q k => forall a, accounts (k a) post (step g (existT q a))
  end.
Lemma accounts_sound env {R} (t : task R) post w tr w' r g :
  exec env w t tr w' r -> accounts t post g -> post r (foldl step g tr).
Proof.
  intros He. revert post g. induction He; intros post g Ht; cbn in *; [done|by apply IHHe, Ht..].
Qed.
Lemma accounts_mono {R} (t : task R) (post post' : R -> G -> Prop) g :
  accounts t post g -> (forall r g', post r g' -> post' r g') -> accounts t post' g.
Proof. intros Ht Hp. revert g Ht. induction t; cbn; eauto. Qed.
Lemma accounts_bind {R S} (t : task R) (k : R -> task S) post g :
  accounts t (fun r g1 => accounts (k r) post g1) g -> accounts (bind t k) post g.
Proof. revert g. induction t; cbn; eauto. Qed.
Lemma accounts_bind_ok {E R S} (t : task (outcome E R)) (k : R -> task (outcome E S)) post g :
  accounts t (fun o g1 => match o with
                          | Done r => accounts (k r) post g1
                          | Failed e => post (Failed e) g1
                          | Panic => post Panic g1
                          end) g -> accounts (bind_ok t k) post g.
Proof. intros Ht. apply accounts_bind. eapply accounts_mono; [done|]. by intros []. Qed.
(** A part whose questions do not count. *)
Lemma accounts_silent (P : Q -> Prop) {R S} (t : task R) (k : R -> task S) post g :
  asks P t -> (forall q a, P q -> step g (existT q a) = g) -> (forall r, accounts (k r) post g) -> accounts (bind t k) post g.
Proof.
  intros Ht Hq Hk. induction t as [r|X f k' IH|X f k' IH|q k' IH]; cbn in *; [done|auto|auto|].
  intros a. rewrite Hq by apply Ht. by apply IH, Ht.
Qed.
End Accounts.

(** ** Where a run ends, when only the result and the state matter *)
Section Ends.
Context (env P : W -> W -> Prop) `{!PreOrder P} (env_keeps : forall w1 w2, env w1 w2 -> P w1 w2).

Definition ends_in {R} (t : task R) (post : R -> W -> Prop) (w : W) : Prop := wp env t (fun r w' _ => post r w') w.

Lemma env_rtc w w' : rtc env w w' -> P w w'.
Proof using All. induction 1; [reflexivity|]. etransitivity; eauto. Qed.
Lemma ends_ret {R} (r : R) (post : R -> W -> Prop) w : post r w -> ends_in (Ret r) post w.
Proof. done. Qed.
Lemma ends_weaken {R} (t : task R) (post post' : R -> W -> Prop) w :
  ends_in t post w -> (forall r w', post r w' -> post' r w') -> ends_in t post' w.
Proof. intros Ht Hp. eapply wp_mono; [|exact Ht]. auto. Qed.
Lemma ends_bind {R S} (t : task R) (k : R -> task S) post w :
  ends_in t (fun x w1 => ends_in (k x) post w1) w -> ends_in (bind t k) post w.
Proof. intros Ht. by apply wp_bind. Qed.
Lemma ends_bind_ok {E R S} (t : task (outcome E R)) (k : R -> task (outcome E S)) post w :
  ends_in t (fun o w1 => match o with
                         | Done r => ends_in (k r) post w1
                         | Failed e => post (Failed e) w1
                         | Panic => post Panic w1
                         end) w -> ends_in (bind_ok t k) post w.
Proof. intros Ht. by apply wp_bind_ok. Qed.
(** One step of our own after steps of the others. *)
Lemma ends_step {X R} (f : W -> X * W) (k : X -> task R) post w :
  (forall w1, P w w1 -> ends_in (k (f w1).1) post (f w1).2) -> ends_in (bind (Step f Ret) k) post w.
Proof using All. intros Hk. apply wp_step. intros w1 Hr. by apply Hk, env_rtc. Qed.
Lemma ends_one {X} (f : W -> X * W) (post : X -> W -> Prop) w :
  (forall w1, P w w1 -> post (f w1).1 (f w1).2) -> ends_in (Step f Ret) post w.
Proof using All. intros Hp w1 Hr. by apply Hp, env_rtc. Qed.
(** A part that keeps the relation. *)
Lemma ends_quiet {X R} (t : task X) (k : X -> task R) post w :
  keeps P t -> (forall x w1, P w w1 -> ends_in (k x) post w1) -> ends_in (bind t k) post w.
Proof using All.
  intros Ht Hk. apply ends_bind. eapply ends_weaken; [by apply (keeps_wp env P)|]. intros x w1. apply Hk.
Qed.
Lemma ends_quiet_ok {X E R} (t : task (outcome E X)) (k : X -> task (outcome E R)) post w :
  keeps P t ->
  (forall x w1, P w w1 -> ends_in (k x) post w1) ->
  (forall e w1, P w w1 -> post (Failed e) w1) -> (forall w1, P w w1 -> post Panic w1) -> ends_in (bind_ok t k) post w.
Proof using All.
  intros Ht Hk Hf Hp. apply ends_bind_ok. eapply ends_weaken; [by apply (keeps_wp env P)|]. intros [] w1 Hw; eauto.
Qed.
Lemma ends_sound {R} (t : task R) post w tr w' r : exec env w t tr w' r -> ends_in t post w -> post r w'.
Proof. intros He Ht. exact (wp_sound env t _ w tr w' r He Ht). Qed.
End Ends.
(** ** Evaluation

    One run: [between] is what the others do before each wait, [late] whether the
    waits end on time-out, [answer] the outside. *)
Section Evaluation.
Context (between : W -> W) (late : bool) (answer : forall q, ans q).
Fixpoint run {R} (t : task R) (w : W) : option (list event * W * R) :=
  match t with
  | Ret r => Some ([], w, r)
  | Step f k => let '(x, w2) := f w in run (k x) w2
  | Await f k => match f late (between w) with Some (x, w2) => run (k x) w2 | None => None end
  | Ask q k => match run (k (answer q)) w with
               | Some (tr, w', r) => Some (existT q (answer q) :: tr, w', r)
               | None => None
               end
  end.
Lemma run_exec (env : W -> W -> Prop) {R} (t : task R) w tr w' r :
  (forall w, rtc env w (between w)) -> run t w = Some (tr, w', r) -> exec env w t tr w' r.
Proof.
  intros Henv. revert w tr. induction t as [r0|X f k IH|X f k IH|q k IH]; intros w tr Hr; cbn in Hr.
  - simplify_eq. constructor.
  - destruct (f w) as [x w2] eqn:Hf. eapply exec_step; [reflexivity|exact Hf|]. by apply IH.
  - destruct (f late (between w)) as [[x w2]|] eqn:Hf; [|done]. eapply exec_await; [apply Henv|exact Hf|]. by apply IH.
  - destruct (run (k (answer q)) w) as [[[tr1 w1] r1]|] eqn:Hk; [|done]. simplify_eq. constructor. by apply IH.
Qed.
(** A run whose result satisfies a test. *)
Definition run_test {R} (p : list event -> W -> R -> bool) (t : task R) (w : W) : bool :=
  match run t w with Some (tr, w', r) => p tr w' r | None => false end.
Lemma run_found (env : W -> W -> Prop) {R} p (t : task R) w :
  (forall w, rtc env w (between w)) -> run_test p t w = true ->
  exists tr w' r, p tr w' r = true /\ exec env w t tr w' r.
Proof.
  intros Henv Hp. unfold run_test in Hp. destruct (run t w) as [[[tr w'] r]|] eqn:Hr; [|done].
  exists tr, w', r. split; [done|]. by apply run_exec.
Qed.
End Evaluation.
End Tasks.
Arguments Ret {W Q ans R} r.
Arguments Step {W Q ans R X} f k.
Arguments Await {W Q ans R X} f k.
Arguments Ask {W Q ans R} q k.
Arguments task : clear implicits.
Arguments task W {Q} ans R.
Arguments event {Q} ans.

Notation "x <- t ;; k" := (bind t (fun x => k)) (at level 100, t at next level, right associativity) : task_scope.
Notation "x <-? t ;; k" := (bind_ok t (fun x => k)) (at level 100, t at next level, right associativity) : task_scope.
Notation "t ;;; k" := (bind t (fun _ => k)) (at level 100, right associativity) : task_scope.
