(* ===== verification/DialogRecovery.v ===== *)
(** * Recovery of durable dialogs

    [session/src/service/dialog_recovery.rs], the handlers of
    [service/hook_serv.rs] that the media nodes call, and the peer's BYE of
    [service/api_serv.rs]: where the durable table, the session cache, the device
    register and the SIP runtime cache meet.  [Server] is the state they share.
    What a query to a media node, to the other tables or to a clock answers is an
    argument ([Answers]); the handlers run between two steps of other tasks.
    Parameters: the socket address parser, the association made from an address,
    the configured media nodes, the time zone. *)
From Stdlib Require Import Ascii.
From stdpp Require Import pretty sorting.
From S2P Require Import Prelude Text SharedTypes Scheduler Lifecycle SessionCache DialogCache Network CloseService RegisterCore.
From S2P Require Import Ssrc DialogStore SipRuntime.
Local Open Scope Z_scope.

Definition RECOVERY_PAGE_SIZE : Z := 200.
Definition recovery_states : list DialogState := [Inviting; Established; Terminating].

Inductive RecoveryError := InvalidRecovery | InStore (e : StoreError) | QueryFailed | InRegister (e : RegError).

(** The answers of one recovery: the clock at its start and at [mark_orphan],
    the monotonic clock, the media node's [*_online], and what
    [ensure_udp_device_session] reads. *)
Record Answers := {
  an_now : Z; an_orphan_now : Z; an_instant : Z; an_online : option bool;
  an_lease_now : Z; an_oauth : outcome RegError (option Z); an_device : outcome RegError (option GmvDevice)
}.

Definition access_mode (ty : DialogSessionType) : option AccessMode :=
  match ty with DLive => Some Live | DPlayback => Some Back | DDownload => Some Down | DTalk => None end.
(** [u32::try_from(..).unwrap_or(u32::MAX)]. *)
Definition cseq_u32 (cseq : Z) : Z := if (0 <=? cseq) && (cseq <=? umax 32) then cseq else umax 32.

Section DialogRecovery.
Context {A : Type} `{AssociationLike A} `{!MapIter string}.
Context {Snap Sdp Assoc Meth : Type} `{Countable Meth}.
Context (accepts : TimeScheduleKey -> bool).
Context {IP SA : Type} `{EqDecision IP} (parse_socket : string -> option SA) (sa_ip : SA -> IP) (association_new : SA -> A).
Context (routes_from_json : string -> option (list string)) (collate : string -> string -> bool).
Context (has_node : string -> bool).

Notation SipRuntimeCache := (SipRuntimeCache (Snap := Snap) (Sdp := Sdp) (Assoc := Assoc) (Meth := Meth)).
Record Server := { sv_dialogs : Table; sv_register : Inner (A := A); sv_sip : SipRuntimeCache }.
Definition on_dialogs (f : Table -> Table) (v : Server) : Server :=
  {| sv_dialogs := f (sv_dialogs v); sv_register := sv_register v; sv_sip := sv_sip v |}.
Definition on_register (f : Inner (A := A) -> Inner (A := A)) (v : Server) : Server :=
  {| sv_dialogs := sv_dialogs v; sv_register := f (sv_register v); sv_sip := sv_sip v |}.
Definition on_sip (f : SipRuntimeCache -> SipRuntimeCache) (v : Server) : Server :=
  {| sv_dialogs := sv_dialogs v; sv_register := sv_register v; sv_sip := f (sv_sip v) |}.
Notation result := (outcome RecoveryError unit * Server)%type.

(** *** The pieces of [recover_dialog] *)

Definition mark_orphan (now : Z) (s : SipDialogSession) (v : Server) : result :=
  let '(changed, t) := cas_transition (d_stream_id s) (d_signal_node_id s) (d_version s) (d_state s) Orphan now (sv_dialogs v) in
  (match changed with Done _ => Done tt | Failed e => Failed (InStore e) | Panic => Panic end, on_dialogs (fun _ => t) v).

Definition recovered_device_session (an : Answers) (heartbeat : Z) (dev : GmvDevice) (a : A) (registration_expires_at : Z)
    : DeviceSession A :=
  let remaining := Z.max 1 (Z.quot (registration_expires_at - an_lease_now an) 1000) in
  let s0 := DeviceSession_build (gd_contact_uri dev) a heartbeat (remaining * 1000) (an_instant an) in
  {| gb_version := gd_gb_version dev; contact_uri := contact_uri s0; registration_call_id := registration_call_id s0;
     registration_cseq := registration_cseq s0; association := association s0; connected := connected s0;
     connection_generation := connection_generation s0; association_expire := association_expire s0;
     support_lr := negb (gd_enable_lr dev =? 0); heartbeat_sec := heartbeat_sec s0; last_seen := last_seen s0;
     registration_duration := registration_duration s0; Network.registration_expires_at := Network.registration_expires_at s0 |}.
(** The session [ensure_udp_device_session] registers. *)
Definition udp_session (an : Answers) (s : SipDialogSession) : outcome RecoveryError (DeviceSession A) :=
  match an_oauth an, an_device an with
  | Failed e, _ => Failed (InRegister e)
  | Panic, _ => Panic
  | Done None, _ => Failed InvalidRecovery
  | Done (Some _), Failed e => Failed (InRegister e)
  | Done (Some _), Panic => Panic
  | Done (Some _), Done None => Failed InvalidRecovery
  | Done (Some heartbeat), Done (Some dev) =>
      if negb (str_eq_ignore_case (gd_transport dev) "UDP") then Failed InvalidRecovery else
      let registration_expires_at := gd_register_time dev + gd_register_expires dev * 1000 in
      match gd_online_expire_time dev with
      | None => Failed InvalidRecovery
      | Some online_expires_at =>
          if (registration_expires_at <=? an_lease_now an) || (online_expires_at <=? an_lease_now an)
          then Failed InvalidRecovery
          else match parse_socket (gd_local_addr dev), parse_socket (d_remote_sip_addr s) with
               | Some stored, Some remote =>
                   if bool_decide (sa_ip stored <> sa_ip remote) then Failed InvalidRecovery
                   else Done (recovered_device_session an heartbeat dev (association_new remote) registration_expires_at)
               | _, _ => Failed InvalidRecovery
               end
      end
  end.
Definition ensure_udp_device_session (an : Answers) (s : SipDialogSession) (v : Server) : result :=
  if has_session (d_device_id s) (sv_register v) then (Done tt, v)
  else match udp_session an s with
       | Done ds =>
           let '(r, reg) := register_device accepts (d_device_id s) ds (sv_register v) in
           (match r with Done _ => Done tt | Failed e => Failed (InRegister e) | Panic => Panic end, on_register (fun _ => reg) v)
       | Failed e => (Failed e, v)
       | Panic => (Panic, v)
       end.
(** UDP only; on failure the dialog is marked and the error handed on, unless
    the marking itself fails. *)
Definition ensure_or_orphan (an : Answers) (s : SipDialogSession) (k : Server -> result) (v : Server) : result :=
  match d_transport s with
  | DUdp =>
      let '(r, v1) := ensure_udp_device_session an s v in
      match r with
      | Done _ => k v1
      | e => let '(m, v2) := mark_orphan (an_orphan_now an) s v1 in
             (match m with Done _ => e | _ => m end, v2)
      end
  | _ => k v
  end.

Definition restored_talk (s : SipDialogSession) (ssrc : Z) : TalkSessionState := {|
  tk_talk_id := d_stream_id s; tk_device_id := d_device_id s; tk_channel_id := d_channel_id s; tk_ssrc := ssrc;
  tk_stream_node_name := d_media_node_id s; tk_call_id := d_call_id s; tk_seq := cseq_u32 (d_local_cseq s);
  tk_restored := true; tk_closing_generation := None; tk_bye_inflight_seq := None; tk_close_last_error := None |}.
Definition insert_stream (s : SipDialogSession) (ssrc : Z) (am : AccessMode) (c : Cache) : bool * Cache :=
  stream_map_insert_restored (d_stream_id s) (d_device_id s) (d_channel_id s) ssrc (d_media_node_id s) (d_call_id s)
    (cseq_u32 (d_local_cseq s)) am c.
Definition index (s : SipDialogSession) : Server -> Server := on_sip (restore_stream_index (d_call_id s) (d_stream_id s)).
Definition begin_stream_close (an : Answers) (s : SipDialogSession) : Server -> Server :=
  on_register (stream_begin accepts (an_instant an) (d_stream_id s)).

Definition restore_talk (an : Answers) (s : SipDialogSession) (ssrc : Z) (v : Server) : result :=
  match an_online an with
  | None => (Failed QueryFailed, v)
  | Some false => mark_orphan (an_orphan_now an) s v
  | Some true =>
      let '(ok, c) := talk_map_insert (restored_talk s ssrc) (general_cache (sv_register v)) in
      let v1 := on_register (on_cache (fun _ => c)) v in
      if negb ok then mark_orphan (an_orphan_now an) s v1
      else let v2 := index s v1 in
           (Done tt, match d_state s with
                     | Terminating => on_register (fun r => (talk_begin accepts (an_instant an) (d_stream_id s) r).2) v2
                     | _ => v2
                     end)
  end.
Definition restore_online (an : Answers) (s : SipDialogSession) (ssrc : Z) (am : AccessMode) (v : Server) : result :=
  let '(ok, c) := insert_stream s ssrc am (general_cache (sv_register v)) in
  let v1 := on_register (on_cache (fun _ => c)) v in
  if negb ok then mark_orphan (an_orphan_now an) s v1
  else let v2 := index s (on_register (on_cache (device_map_insert_restored (d_device_id s) (d_channel_id s)
                            (default ""%string (d_ssrc s)) (d_stream_id s) am)) v1) in
       (Done tt, match d_state s with Terminating => begin_stream_close an s v2 | _ => v2 end).
Definition close_offline (an : Answers) (s : SipDialogSession) (ssrc : Z) (am : AccessMode) (v : Server) : result :=
  let '(r, t) := match d_state s with
                 | Established => cas_transition (d_stream_id s) (d_signal_node_id s) (d_version s) Established Terminating
                                    (an_now an) (sv_dialogs v)
                 | _ => (Done true, sv_dialogs v)
                 end in
  let v1 := on_dialogs (fun _ => t) v in
  match r with
  | Failed e => (Failed (InStore e), v1)
  | Panic => (Panic, v1)
  | Done _ =>
      let '(ok, c) := insert_stream s ssrc am (general_cache (sv_register v1)) in
      let v2 := on_register (on_cache (fun _ => c)) v1 in
      (Done tt, if ok then begin_stream_close an s (index s v2) else v2)
  end.
Definition restore_stream (an : Answers) (s : SipDialogSession) (ssrc : Z) (am : AccessMode) (v : Server) : result :=
  match an_online an with
  | None => (Failed QueryFailed, v)
  | Some online => ensure_or_orphan an s (fun v => if online then restore_online an s ssrc am v
                                                    else close_offline an s ssrc am v) v
  end.

Definition recover_dialog (an : Answers) (s : SipDialogSession) (v : Server) : result :=
  if (d_expire_at s <=? an_now an) || bool_decide (d_state s = Inviting) || bool_decide (d_transport s = DTls)
  then mark_orphan (an_orphan_now an) s v
  else match ssrc ← d_ssrc s; parse_u32 ssrc with
       | None => (Failed InvalidRecovery, v)
       | Some ssrc =>
           if negb (has_node (d_media_node_id s)) then mark_orphan (an_orphan_now an) s v
           else match access_mode (d_session_type s) with
                | None => ensure_or_orphan an s (restore_talk an s ssrc) v
                | Some am => restore_stream an s ssrc am v
                end
       end.

(** *** The startup loop *)

Context (answers : string -> Answers).
Definition recover_page (page : list SipDialogSession) (v : Server) : Server :=
  foldl (fun v s => (recover_dialog (answers (d_stream_id s)) s v).2) v page.
Fixpoint recover_loop (fuel : nat) (node : string) (cursor : option string) (v : Server) : option result :=
  match fuel with
  | O => None
  | S fuel =>
      match page_owned_by_states (fun a => bool_decide (is_Some (parse_socket a))) routes_from_json collate
              node recovery_states cursor RECOVERY_PAGE_SIZE (sv_dialogs v) with
      | Failed e => Some (Failed (InStore e), v)
      | Panic => Some (Panic, v)
      | Done [] => Some (Done tt, v)
      | Done page =>
          let v1 := recover_page page v in
          if Z.of_nat (length page) <? RECOVERY_PAGE_SIZE then Some (Done tt, v1)
          else recover_loop fuel node (d_stream_id <$> last page) v1
      end
  end.
Definition recover_owned_dialogs (fuel : nat) (node : string) : Server -> option result := recover_loop fuel node None.

(** ** The callbacks of the media nodes *)

(** [touch_durable_dialog]; [eight_hours] is [Duration::hours(8)]. *)
Definition eight_hours : Z := 8 * 3600 * 1000.
Definition touch_durable_dialog (now : Z) (stream_id : string) (t : Table) : Table :=
  match find_by_stream_id (fun a => bool_decide (is_Some (parse_socket a))) routes_from_json stream_id t with
  | Done (Some s) => (cas_touch stream_id (d_signal_node_id s) (d_version s) now (now + eight_hours) t).2
  | _ => t
  end.
Definition KEY_STREAM_IN : string := "KEY_STREAM_IN:".
Definition stream_register (now code : Z) (info : BaseStreamInfo) (v : Server) : Server :=
  let key := (KEY_STREAM_IN +:+ bsi_stream_id info)%string in
  if code =? 200
  then on_register (on_cache (fun c => (notify_stream_wait key (Some info) c).2))
         (on_dialogs (touch_durable_dialog now (bsi_stream_id info)) v)
  else on_register (on_cache (fun c => (notify_stream_wait key None c).2)) v.
Definition stream_input_timeout (instant : Z) (stream_id : string) (r : Inner (A := A)) : InTimeoutEventRes * Inner (A := A) :=
  if stream_is_closing stream_id (general_cache r) then (InCloseAll, r)
  else (InCloseAll, stream_begin accepts instant stream_id r).
(** The answer; when it is yes the touch of the dialog is spawned. *)
Definition on_play (stream_id token : string) (r : Inner (A := A)) : bool := stream_map_contains_token stream_id token (general_cache r).
Definition off_play (stream_id token : string) : Inner (A := A) -> Inner (A := A) :=
  on_cache (stream_map_remove stream_id (Some token)).
Definition stream_idle (instant : Z) (stream_id : string) (user_count : Z) (r : Inner (A := A)) : OutputEventRes * Inner (A := A) :=
  if 0 <? user_count then (CloseMuxer, r) else (OutCloseAll, stream_begin accepts instant stream_id r).
Definition talk_closed (instant : Z) (talk_id : string) (r : Inner (A := A)) : bool * Inner (A := A) := talk_begin accepts instant talk_id r.

(** [format!("{:010}")]. *)
Definition fmt010 (value : Z) : string :=
  let s := pretty (Z.to_N value) in
  (String.string_of_list_ascii (replicate (10 - String.length s) "0"%char) +:+ s)%string.
(** [Local.timestamp_millis_opt(..).single()] as a naive local time. *)
Context (local_of_millis : Z -> option Z).
Definition stream_unknown (domain_id : string) (now instant : Z) (event : UnknownStreamEvent) (v : Server) : bool * Server :=
  if negb (has_node (use_media_node_id event)) then (false, v)
  else if (2000000000 <=? use_ssrc event) || (use_ssrc event mod 10000 =? 0) then (false, v)
  else match prefix domain_id Realtime with
  | Failed _ | Panic => (false, v)
  | Done _ =>
      match stream_ids_by_node_ssrc (use_media_node_id event) (use_ssrc event) (general_cache (sv_register v)) with
      | [stream_id] => (true, on_register (stream_begin accepts instant stream_id) v)
      | _ :: _ :: _ => (false, v)
      | [] =>
          if 2 ^ 63 - 1 <? use_first_seen_at_ms event then (false, v) else
          match local_of_millis (use_first_seen_at_ms event) with
          | None => (false, v)
          | Some first_seen_at =>
              match find_active_by_media_ssrc_before (fun a => bool_decide (is_Some (parse_socket a))) routes_from_json
                      domain_id (use_media_node_id event) (fmt010 (use_ssrc event)) first_seen_at now (sv_dialogs v) with
              | Done [s] =>
                  match recover_dialog (answers (d_stream_id s)) s v with
                  | (Done _, v1) => (true, on_register (stream_begin accepts instant (d_stream_id s)) v1)
                  | (_, v1) => (false, v1)
                  end
              | _ => (false, v)
              end
          end
      end
  end.

(** ** The peer ends a dialog ([api_serv.rs]) *)

Definition peer_ended (node : string) (now : Z) (t : Table) (s : SipDialogSession) : Table :=
  if bool_decide (d_signal_node_id s <> node) || negb (bool_decide (d_state s ∈ [Established; Terminating])) then t
  else (cas_transition (d_stream_id s) (d_signal_node_id s) (d_version s) (d_state s) Terminated now t).2.
Definition persist_peer_dialog_terminated (node : string) (now : Z) (call_id : string) (t : Table) : Table :=
  match find_by_call_id (fun a => bool_decide (is_Some (parse_socket a))) routes_from_json collate call_id t with
  | Done sessions => foldl (peer_ended node now) t sessions
  | _ => t
  end.
(** The answer, and the media node that is asked to close the talk. *)
Definition peer_dialog_terminated (node : string) (now : Z) (call_id : string) (v : Server) : bool * option string * Server :=
  let v1 := on_dialogs (persist_peer_dialog_terminated node now call_id) v in
  let '(stream, c) := stream_terminated_by_call_id call_id (general_cache (sv_register v1)) in
  let v2 := on_register (on_cache (fun _ => c)) v1 in
  match stream with
  | Some _ => (true, None, v2)
  | None =>
      let '(talk, c) := talk_map_remove_by_call_id call_id (general_cache (sv_register v2)) in
      let v3 := on_register (on_cache (fun _ => c)) v2 in
      match talk with
      | None => (false, None, v3)
      | Some talk => (true, if has_node (tk_stream_node_name talk) then Some (tk_talk_id talk) else None, v3)
      end
  end.
End DialogRecovery.
