(* ===== verification/DialogRecoveryProps.v ===== *)
(** * Recovery of durable dialogs: every dialog once, none forgotten

    The startup loop reads the table page by page while it changes it; it visits
    each open dialog of the node exactly once, and leaves each dialog orphaned,
    restored or closing. *)
From Stdlib Require Import Ascii.
From stdpp Require Import sorting.
From S2P Require Import Prelude Text SharedTypes Scheduler Lifecycle SessionCache DialogCache Network CloseService RegisterCore.
From S2P Require Import Ssrc DialogStore DialogStoreProps SipRuntime DialogRecovery.
Local Open Scope Z_scope.

Section Recovery.
Context {A : Type} `{AssociationLike A} `{!MapIter string}.
Context {Snap Sdp Assoc Meth : Type} `{Countable Meth}.
Context (accepts : TimeScheduleKey -> bool).
Context {IP SA : Type} `{EqDecision IP} (parse_socket : string -> option SA) (sa_ip : SA -> IP) (association_new : SA -> A).
Context (routes_from_json : string -> option (list string)) (collate : string -> string -> bool).
Context (has_node : string -> bool).
Notation Server := (Server (A := A) (Snap := Snap) (Sdp := Sdp) (Assoc := Assoc) (Meth := Meth)).
Notation is_socket_addr := (fun a => bool_decide (is_Some (parse_socket a))).
Local Notation recover_dialog := (recover_dialog (Snap := Snap) (Sdp := Sdp) (Assoc := Assoc) (Meth := Meth)
  accepts parse_socket sa_ip association_new has_node).
Local Notation try_from_row := (try_from_row is_socket_addr routes_from_json).
Local Notation rows_ok := (rows_ok is_socket_addr routes_from_json).

(** ** A recovery touches one row *)

(** Two tables agree off the row [k], and their rows have the same ids. *)
Definition same_but (k : string) (v v' : Server) : Prop := forall i,
  r_stream_id <$> sv_dialogs v' !! i = r_stream_id <$> sv_dialogs v !! i /\ (i <> k -> sv_dialogs v' !! i = sv_dialogs v !! i).
Lemma same_but_same k v v' : sv_dialogs v' = sv_dialogs v -> same_but k v v'.
Proof. intros Hv i. by rewrite Hv. Qed.
Hint Resolve same_but_same : core.

Lemma cas_transition_frame id node ver e n at_ t i :
  let t' := (cas_transition id node ver e n at_ t).2 in
  r_stream_id <$> t' !! i = r_stream_id <$> t !! i /\ (i <> id -> t' !! i = t !! i).
Proof.
  cbv zeta. unfold cas_transition, cas, update_where. destruct (_ && _); [|done]. cbn [snd].
  destruct (t !! id) as [r|] eqn:Hid; [|done]. case_match; [|done]. cbn [snd]. destruct (decide (i = id)) as [->|Hi].
  - split; [|done]. rewrite Hid. etransitivity; [apply f_equal, lookup_insert_eq|done].
  - assert (forall r', (<[id:=r']> t : Table) !! i = t !! i) as -> by (intros; by apply lookup_insert_ne). done.
Qed.
Lemma cas_transition_same_but id node ver e n at_ v v' :
  sv_dialogs v' = (cas_transition id node ver e n at_ (sv_dialogs v)).2 -> same_but id v v'.
Proof. intros Hv i. rewrite Hv. apply cas_transition_frame. Qed.
Lemma mark_orphan_frame now s (v v1 : Server) :
  sv_dialogs v1 = sv_dialogs v -> same_but (d_stream_id s) v (mark_orphan now s v1).2.
Proof.
  intros Hv. unfold mark_orphan. destruct (cas_transition _ _ _ _ _ _ _) as [b t] eqn:Ht.
  eapply cas_transition_same_but. rewrite <- Hv, Ht. done.
Qed.
Lemma ensure_frame an s (v : Server) :
  sv_dialogs (ensure_udp_device_session accepts parse_socket sa_ip association_new an s v).2 = sv_dialogs v.
Proof. unfold ensure_udp_device_session. case_match; [done|]. destruct (udp_session _ _ _ _ _); [|done..]. by case_match. Qed.
Lemma ensure_or_orphan_frame an s k (v : Server) :
  (forall v', same_but (d_stream_id s) v' (k v').2) ->
  same_but (d_stream_id s) v (ensure_or_orphan accepts parse_socket sa_ip association_new an s k v).2.
Proof.
  intros Hk. unfold ensure_or_orphan. destruct (d_transport s); [|apply Hk..].
  pose proof (ensure_frame an s v) as Hf. destruct (ensure_udp_device_session _ _ _ _ _ _ _) as [r v1]. cbn in Hf.
  pose proof (mark_orphan_frame (an_orphan_now an) s v v1 Hf) as Hm.
  destruct r; [intros i; rewrite <- Hf; by apply Hk|..]; by destruct (mark_orphan _ _ _).
Qed.
Lemma recover_dialog_frame an s v : same_but (d_stream_id s) v (recover_dialog an s v).2.
Proof.
  unfold DialogRecovery.recover_dialog. case_match; [by apply mark_orphan_frame|]. case_match; [|by apply same_but_same].
  destruct (has_node _); cbn [negb]; [|by apply mark_orphan_frame]. destruct (access_mode _) as [am|].
  - unfold restore_stream. destruct (an_online an) as [online|]; [|by apply same_but_same]. apply ensure_or_orphan_frame.
    intros v'. destruct online.
    + unfold restore_online. destruct (insert_stream _ _ _ _) as [[] c]; cbn [negb]; [|by apply mark_orphan_frame].
      apply same_but_same. by destruct (d_state s).
    + unfold close_offline. destruct (d_state s);
        [apply same_but_same; by destruct (insert_stream _ _ _ _) as [[] c]| |apply same_but_same; by destruct (insert_stream _ _ _ _) as [[] c]..].
      destruct (cas_transition _ _ _ _ _ _ _) as [r t] eqn:Ht. eapply cas_transition_same_but. rewrite Ht.
      destruct r; [|done..]. by destruct (insert_stream _ _ _ _) as [[] c].
  - apply ensure_or_orphan_frame. intros v'. unfold restore_talk.
    destruct (an_online an) as [[]|]; [|by apply mark_orphan_frame|by apply same_but_same].
    destruct (talk_map_insert _ _) as [[] c]; cbn [negb]; [|by apply mark_orphan_frame].
    apply same_but_same. by destruct (d_state s).
Qed.

(** ** The pages *)

Definition keyed (t : Table) : Prop := forall k r, t !! k = Some r -> r_stream_id r = k.
Lemma rows_where_spec p t r : r ∈ rows_where p t <-> p r = true /\ exists k, t !! k = Some r.
Proof.
  unfold rows_where. rewrite list_elem_of_In, filter_In, <- list_elem_of_In, list_elem_of_fmap. split.
  - intros [((k & r') & -> & Hk) Hp]. apply elem_of_map_to_list in Hk. eauto.
  - intros [Hp (k & Hk)]. split; [|done]. exists (k, r). split; [done|]. by apply elem_of_map_to_list.
Qed.
Lemma rows_where_NoDup p t : keyed t -> NoDup (rows_where p t).
Proof.
  intros Hk. unfold rows_where. apply NoDup_ListNoDup, List.NoDup_filter, NoDup_ListNoDup.
  apply (NoDup_fmap_1 r_stream_id). rewrite <- list_fmap_compose.
  rewrite (Forall_fmap_ext_1 _ fst (map_to_list t)); [apply NoDup_fst_map_to_list|].
  apply list.Forall_forall. intros [k r] Hkr. by apply Hk, elem_of_map_to_list.
Qed.
Lemma keyed_preserved k v v' : same_but k v v' -> keyed (sv_dialogs v) -> keyed (sv_dialogs v').
Proof.
  intros Hs Hk i r' Hr. destruct (Hs i) as [Hi _]. rewrite Hr in Hi. destruct (sv_dialogs v !! i) as [r|] eqn:Hv; [|done].
  injection Hi as ->. by apply Hk.
Qed.

Context (collate_trans : Transitive (fun a b => collate a b = true)) (collate_total : Total (fun a b => collate a b = true)).
Context (collate_anti : forall a b, collate a b = true -> collate b a = true -> a = b).
Local Notation by_id := (by_stream_id collate).

#[local] Instance by_id_trans : Transitive by_id.
Proof. intros x y z. unfold by_stream_id. apply collate_trans. Qed.
#[local] Instance by_id_total : Total by_id.
Proof. intros x y. unfold by_stream_id. apply collate_total. Qed.

(** Nothing seen is after the cursor. *)
Lemma seen_not_after seen r r' :
  StronglySorted by_id seen -> r ∈ seen -> r_stream_id r' = r_stream_id r -> after collate (r_stream_id <$> last seen) r' = false.
Proof.
  intros Hs Hr Heq. destruct (last seen) as [l|] eqn:Hl; [|by apply last_None in Hl as ->; apply not_elem_of_nil in Hr].
  cbn [fmap option_fmap option_map after]. rewrite Heq. apply last_Some in Hl as (seen' & ->). apply andb_false_iff.
  destruct (collate (r_stream_id l) (r_stream_id r)) eqn:Hc; [right|by left]. apply negb_false_iff, bool_decide_eq_true.
  apply elem_of_app in Hr as [Hr| ->%list_elem_of_singleton]; [|done].
  apply collate_anti; [|done]. apply (StronglySorted_app_1_elem_of by_id _ _ r l Hs Hr). by apply list_elem_of_singleton.
Qed.
Lemma todo_after seen todo r :
  StronglySorted by_id (seen ++ todo) -> r ∈ todo -> r_stream_id r ∉ r_stream_id <$> seen ->
  after collate (r_stream_id <$> last seen) r = true.
Proof.
  intros Hs Hr Hns. destruct (last seen) as [l|] eqn:Hl; [|done]. cbn [fmap option_fmap option_map after].
  apply last_Some in Hl as (seen' & ->). apply andb_true_iff. split.
  - apply (StronglySorted_app_1_elem_of by_id _ _ l r Hs); [|done]. apply elem_of_app. right. by apply list_elem_of_singleton.
  - apply negb_true_iff, bool_decide_eq_false. intros Heq. apply Hns. rewrite fmap_app, Heq. apply elem_of_app. right.
    by apply list_elem_of_singleton.
Qed.
(** What the pages after the cursor hold is what is left of the sorted rows. *)
Lemma rows_after p t0 t seen todo cursor :
  keyed t0 -> keyed t -> merge_sort by_id (rows_where p t0) = seen ++ todo ->
  cursor = r_stream_id <$> last seen ->
  (forall k, k ∉ r_stream_id <$> seen -> t !! k = t0 !! k) ->
  merge_sort by_id (rows_where (fun r => p r && after collate cursor r) t) = todo.
Proof.
  intros Hk0 Hk Hsort -> Hsame.
  assert (StronglySorted by_id (seen ++ todo)) as Hss by (rewrite <- Hsort; apply StronglySorted_merge_sort; apply _).
  assert (forall r, r ∈ seen ++ todo <-> p r = true /\ exists k, t0 !! k = Some r) as Hall.
  { intros r. rewrite <- Hsort, merge_sort_Permutation. apply rows_where_spec. }
  assert (NoDup (seen ++ todo)) as Hnd by (rewrite <- Hsort, merge_sort_Permutation; by apply rows_where_NoDup).
  assert (forall r r', r ∈ seen ++ todo -> r' ∈ seen ++ todo -> r_stream_id r = r_stream_id r' -> r = r') as Hinj.
  { intros r r' [_ (k & Hr)]%Hall [_ (k' & Hr')]%Hall Heq. rewrite (Hk0 _ _ Hr), (Hk0 _ _ Hr') in Heq. congruence. }
  assert (merge_sort by_id (rows_where (fun r => p r && after collate (r_stream_id <$> last seen) r) t) ≡ₚ todo) as Hperm.
  { rewrite merge_sort_Permutation. apply NoDup_Permutation; [by apply rows_where_NoDup|by apply NoDup_app in Hnd as (_ & _ & ?)|].
    intros r. rewrite rows_where_spec, andb_true_iff. split.
    - intros [[Hp Ha] (k & Hr)]. assert (r_stream_id r ∉ r_stream_id <$> seen) as Hns.
      { intros (r' & Heq & Hr')%list_elem_of_fmap. rewrite (seen_not_after seen r' r) in Ha; [done| |done|done]. by apply StronglySorted_app_1_l in Hss. }
      rewrite (Hk _ _ Hr) in Hns. rewrite (Hsame _ Hns) in Hr.
      assert (r ∈ seen ++ todo) as [Hin|?]%elem_of_app; [apply Hall; eauto| |done].
      destruct Hns. rewrite <- (Hk0 _ _ Hr). by apply list_elem_of_fmap_2.
    - intros Hr. assert (r ∈ seen ++ todo) as [Hp (k & Hkr)]%Hall by (apply elem_of_app; by right).
      assert (r_stream_id r ∉ r_stream_id <$> seen) as Hns.
      { intros (r' & Heq & Hr')%list_elem_of_fmap. 
        apply Hinj in Heq; [|set_solver..]. subst r'. apply NoDup_app in Hnd as (_ & Hd & _). by apply (Hd r). }
      split; [split; [done|by eapply todo_after]|]. exists k. rewrite (Hk0 _ _ Hkr) in Hns. by rewrite Hsame. }
  apply (StronglySorted_unique_strong by_id); [|apply StronglySorted_merge_sort; apply _|by apply StronglySorted_app_1_r in Hss|done].
  intros x y Hx Hy Hxy Hyx. rewrite Hperm in Hx. apply Hinj; [set_solver..|]. by apply collate_anti.
Qed.

Lemma try_from_rows_Done rows l :
  try_from_rows is_socket_addr routes_from_json rows = Done l <-> Forall2 (fun r s => try_from_row r = Done s) rows l.
Proof.
  split.
  - revert l. induction rows as [|r rows IH]; intros l; cbn; [by intros [= <-]|].
    destruct (try_from_row r) eqn:Hr; [|done..]. destruct (try_from_rows _ _ rows); [|done..]. intros [= <-]. constructor; auto.
  - induction 1 as [|r s rows l Hr _ IH]; cbn; [done|]. by rewrite Hr, IH.
Qed.
Lemma readable_ids rows l :
  Forall2 (fun r s => try_from_row r = Done s) rows l -> d_stream_id <$> l = r_stream_id <$> rows.
Proof. induction 1 as [|r s rows l Hr _ IH]; [done|]. rewrite !fmap_cons, IH. f_equal. by apply readable_facts in Hr as (_ & _ & -> & _). Qed.
Lemma readable_id_length r s : try_from_row r = Done s -> validate_len (r_stream_id r) 64 = true.
Proof.
  intros Hr. apply readable_facts in Hr as (_ & Hv & <- & _). unfold validate in Hv. rewrite !andb_true_iff in Hv. by destruct_and! Hv.
Qed.

Context (answers : string -> Answers).
Local Notation recover_page := (recover_page accepts parse_socket sa_ip association_new has_node answers).
Local Notation recover_loop := (recover_loop accepts parse_socket sa_ip association_new routes_from_json collate has_node answers).

Lemma recover_page_frame page (v : Server) i :
  i ∉ d_stream_id <$> page -> sv_dialogs (recover_page page v) !! i = sv_dialogs v !! i.
Proof.
  revert v. induction page as [|s page IH]; intros v Hi; [done|]. cbn [DialogRecovery.recover_page foldl fmap list_fmap] in *.
  unfold DialogRecovery.recover_page in IH. rewrite IH by set_solver. apply recover_dialog_frame. set_solver.
Qed.
Lemma recover_page_keyed page (v : Server) : keyed (sv_dialogs v) -> keyed (sv_dialogs (recover_page page v)).
Proof.
  revert v. induction page as [|s page IH]; intros v Hi; [done|]. apply IH. eapply keyed_preserved; [|done]. apply recover_dialog_frame.
Qed.

(** The open dialogs of the node, in the order of their ids. *)
Definition owned_rows (node : string) (t : Table) : list SipDialogSessionRow :=
  merge_sort by_id (rows_where (fun r => bool_decide (r_signal_node_id r = node) && in_states recovery_states r) t).

Lemma recover_loop_spec node t0 : validate_len node 64 = true -> keyed t0 -> forall fuel seen todo sessions (v : Server),
  owned_rows node t0 = seen ++ todo -> (forall r, r ∈ seen -> validate_len (r_stream_id r) 64 = true) ->
  Forall2 (fun r s => try_from_row r = Done s) todo sessions ->
  keyed (sv_dialogs v) -> (forall k, k ∉ r_stream_id <$> seen -> sv_dialogs v !! k = t0 !! k) ->
  (length sessions / 200 < fuel)%nat ->
  recover_loop fuel node (r_stream_id <$> last seen) v = Some (Done tt, recover_page sessions v).
Proof.
  intros Hn Hk0. induction fuel as [|fuel IH]; intros seen todo sessions v Hs Hids Hr Hk Hsame Hf; [lia|].
  cbn [DialogRecovery.recover_loop]. unfold page_owned_by_states.
  assert (validate_optional (fun v => validate_len v 64) (r_stream_id <$> last seen) = true) as Hcur.
  { destruct (last seen) as [r|] eqn:Hl; [|done]. apply Hids. apply last_Some in Hl as (? & ->). set_solver. }
  rewrite Hn, Hcur. change (negb true || negb true || bool_decide (recovery_states = []) || (RECOVERY_PAGE_SIZE =? 0) ||
    (MAX_PAGE_SIZE <? RECOVERY_PAGE_SIZE)) with false. cbv iota.
  rewrite (rows_after _ t0 _ seen todo _ Hk0 Hk Hs eq_refl Hsame). change (Z.to_nat RECOVERY_PAGE_SIZE) with 200%nat.
  assert (try_from_rows is_socket_addr routes_from_json (take 200 todo) = Done (take 200 sessions)) as ->.
  { apply try_from_rows_Done. by apply Forall2_take. }
  destruct (take 200 sessions) as [|s page] eqn:Hp.
  { destruct sessions; [done|discriminate Hp]. }
  rewrite <- Hp. rewrite length_take. unfold RECOVERY_PAGE_SIZE.
  destruct (Z.ltb_spec (Z.of_nat (200 `min` length sessions)) 200) as [Hl|Hl].
  { rewrite take_ge by lia. done. }
  assert (Forall2 (fun r s => try_from_row r = Done s) (take 200 todo) (take 200 sessions)) as Ht by by apply Forall2_take.
  assert (d_stream_id <$> last (take 200 sessions) = r_stream_id <$> last (seen ++ take 200 todo)) as ->.
  { rewrite <- !fmap_last, (readable_ids _ _ Ht), fmap_app, last_app, <- (readable_ids _ _ Ht), Hp. case_match eqn:Hl0; [reflexivity|by apply last_None in Hl0]. }
  rewrite (IH (seen ++ take 200 todo) (drop 200 todo) (drop 200 sessions)).
  - unfold DialogRecovery.recover_page. by rewrite <- foldl_app, take_drop.
  - by rewrite <- app_assoc, take_drop.
  - intros r [Hin|Hin]%elem_of_app; [by apply Hids|]. apply list_elem_of_lookup in Hin as (j & Hj).
    destruct (Forall2_lookup_l _ _ _ _ _ Ht Hj) as (s' & _ & Hs'). by eapply readable_id_length.
  - by apply Forall2_drop.
  - by apply recover_page_keyed.
  - intros k Hk'. rewrite fmap_app in Hk'. rewrite recover_page_frame; [apply Hsame; set_solver|]. rewrite (readable_ids _ _ Ht). set_solver.
  - rewrite length_drop. replace (length sessions) with (length sessions - 200 + 1 * 200)%nat in Hf by lia.
    rewrite Nat.div_add in Hf by done. lia.
Qed.


(** ** What becomes of a dialog *)

Definition cache_of (v : Server) : Cache := general_cache (sv_register v).
(** Its row is closed; or the cache has it; or a task is to close its row. *)
Inductive accounted (s : SipDialogSession) (v : Server) : Prop :=
| ac_orphan r : sv_dialogs v !! d_stream_id s = Some r -> r_state r = "ORPHAN"%string -> accounted s v
| ac_stream : is_Some (stream_map (cache_of v) !! d_stream_id s) -> accounted s v
| ac_talk : is_Some (talk_map (cache_of v) !! d_stream_id s) -> accounted s v
| ac_spawned : SpawnOrphanTransition (d_stream_id s) ∈ effects (sv_register v) -> accounted s v.

Lemma stream_begin_keeps now id (r : Inner (A := A)) :
  is_Some (stream_map (general_cache r) !! id) ->
  let r' := stream_begin accepts now id r in
  is_Some (stream_map (general_cache r') !! id) \/ SpawnOrphanTransition id ∈ effects r'.
Proof.
  intros (t & Ht). cbv zeta. unfold stream_begin, stream_close_begin. rewrite Ht. cbn -[stream_force_cleanup retry_stream].
  destruct (begin_close _ t) as [started t1] eqn:Hb. set (r1 := on_cache _ r).
  assert (stream_map (general_cache r1) !! id = Some t1) as Hr1 by (cbn; apply lookup_insert_eq).
  destruct (closing_generation t1) as [g|] eqn:Hg; [|left; by rewrite Hr1]. cbn -[stream_force_cleanup retry_stream r1].
  destruct started; cbn -[stream_force_cleanup retry_stream r1]; [|left; by rewrite Hr1].
  assert (forall r0 : Inner (A := A), stream_map (general_cache r0) !! id = Some t1 ->
    SpawnOrphanTransition id ∈ effects (stream_force_cleanup id g r0)) as Hforce.
  { intros r0 H0'. unfold stream_force_cleanup, stream_close_force, stream_close_remove. rewrite H0'.
    unfold closing_generation in Hg. unfold is_closing_generation. destruct (lifecycle t1); [done|]. injection Hg as ->.
    rewrite bool_decide_true by done. cbn. apply elem_of_app. right. by apply list_elem_of_singleton. }
  destruct (session _ !! _) as [ds|].
  - destruct (_ =? 0); [right; by apply Hforce|]. unfold timer_insert. destruct (accepts _); [|right; by apply Hforce].
    left. unfold retry_stream, stream_close_take_bye. set (r2 := on_cache _ r1).
    assert (stream_map (general_cache r2) !! id = Some t1) as -> by done. destruct (take_bye t1) as [bye t2]. cbn.
    destruct bye; cbn; by rewrite lookup_insert_eq.
  - destruct (stream_is_restored _ _); [left; by rewrite Hr1|right; by apply Hforce].
Qed.

Lemma mark_orphan_closes now s (v : Server) r :
  sv_dialogs v !! d_stream_id s = Some r -> try_from_row r = Done s -> d_state s ∈ recovery_states -> r_updated_at r <= now ->
  exists v', mark_orphan now s v = (Done tt, v') /\ accounted s v'.
Proof.
  intros Hr Hs Hst Hup. destruct (readable_facts _ _ _ _ Hs) as (Hstate & Hv & _ & _ & _ & _ & _ & _ & Hver).
  assert (validate_len (d_stream_id s) 64 = true /\ validate_len (d_signal_node_id s) 64 = true) as [H64 H64'].
  { unfold validate in Hv. rewrite !andb_true_iff in Hv. by destruct_and! Hv. }
  assert (d_version s = r_version r /\ d_signal_node_id s = r_signal_node_id r) as [Hv1 Hn1].
  { unfold DialogStore.try_from_row in Hs. repeat case_match; try discriminate Hs. by injection Hs as <-. }
  assert (negb (is_terminal (d_state s)) && can_transition_to (d_state s) Orphan = true) as Hcan.
  { unfold recovery_states in Hst. by repeat (apply elem_of_cons in Hst as [->|Hst]); [..|apply not_elem_of_nil in Hst]. }
  apply andb_true_iff in Hcan as [Hc1 Hc2].
  unfold mark_orphan, cas_transition, cas, update_where, owned_at, in_states. rewrite H64, H64', Hc1, Hc2, Hr, Hv1, Hn1.
  rewrite (proj2 (Z.leb_le _ _) Hver), Z.eqb_refl, (proj2 (Z.leb_le _ _) Hup), !bool_decide_true;
    [|apply list_elem_of_singleton; by apply state_of_string_Some|done].
  cbn. eexists. split; [done|]. eapply ac_orphan; cbn; [apply lookup_insert_eq|done].
Qed.

Lemma begin_accounts an s (v : Server) :
  is_Some (stream_map (cache_of v) !! d_stream_id s) -> accounted s (begin_stream_close accepts an s v).
Proof. intros Hs. destruct (stream_begin_keeps (an_instant an) (d_stream_id s) (sv_register v) Hs); [by apply ac_stream|by apply ac_spawned]. Qed.
Lemma insert_stream_in s ssrc am c : is_Some (stream_map (insert_stream s ssrc am c).2 !! d_stream_id s).
Proof.
  unfold insert_stream, stream_map_insert_restored, stream_map_insert. destruct (stream_map c !! _) eqn:Hc; cbn; [by rewrite Hc|].
  by rewrite lookup_insert_eq.
Qed.
Lemma device_map_insert_restored_streams d ch ss id am c : stream_map (device_map_insert_restored d ch ss id am c) = stream_map c.
Proof. unfold device_map_insert_restored, device_map_insert_table. by case_match. Qed.

(** An error was reported, and the row stands as it was for the next start. *)
Definition unchanged (res : outcome RecoveryError unit) (v v' : Server) : Prop := res <> Done tt /\ sv_dialogs v' = sv_dialogs v.
Definition left_over (s : SipDialogSession) (v : Server) (rv : outcome RecoveryError unit * Server) : Prop :=
  accounted s rv.2 \/ unchanged rv.1 v rv.2 \/
  (d_session_type s = DTalk /\ d_state s = Terminating /\ sv_dialogs rv.2 = sv_dialogs v).
Lemma mark_orphan_left now s (v v1 : Server) r :
  sv_dialogs v !! d_stream_id s = Some r -> try_from_row r = Done s -> d_state s ∈ recovery_states -> r_updated_at r <= now ->
  sv_dialogs v1 = sv_dialogs v -> left_over s v (mark_orphan now s v1).
Proof.
  intros Hr Hs Hst Hup Hv. destruct (mark_orphan_closes now s v1 r) as (v' & -> & Ha); [by rewrite Hv|done..|]. by left.
Qed.
Lemma ensure_or_orphan_left an s k (v : Server) r :
  sv_dialogs v !! d_stream_id s = Some r -> try_from_row r = Done s -> d_state s ∈ recovery_states ->
  r_updated_at r <= an_orphan_now an ->
  (forall v1, sv_dialogs v1 = sv_dialogs v -> left_over s v (k v1)) ->
  left_over s v (ensure_or_orphan accepts parse_socket sa_ip association_new an s k v).
Proof.
  intros Hr Hs Hst Hup Hk. unfold ensure_or_orphan. destruct (d_transport s); [|by apply Hk..].
  pose proof (ensure_frame an s v) as Hf. destruct (ensure_udp_device_session _ _ _ _ _ _ _) as [res v1]. cbn in Hf.
  destruct (mark_orphan_closes (an_orphan_now an) s v1 r) as (v' & Hm & Ha); [by rewrite Hf|done..|].
  destruct res; [by apply Hk|rewrite Hm; by left..].
Qed.


(** A talk that was being closed is dropped at the restart.  The node
    restarts while the BYE of a talk over TCP is not answered yet; the device is
    not registered again so soon.  The recovery reports success, but the talk is
    not in the cache, no BYE is on its way, and its row still says TERMINATING;
    a stream in the same position is kept until its device is back. *)
Theorem closing_talk_is_dropped (an : Answers) (s : SipDialogSession) (v : Server) (ssrc : string) (n : Z) :
  d_session_type s = DTalk -> d_state s = Terminating -> d_transport s = DTcp -> an_now an < d_expire_at s ->
  d_ssrc s = Some ssrc -> parse_u32 ssrc = Some n -> has_node (d_media_node_id s) = true -> an_online an = Some true ->
  talk_map (cache_of v) !! d_stream_id s = None -> session (io_map (sv_register v)) !! d_device_id s = None ->
  let rv := recover_dialog an s v in
  rv.1 = Done tt /\ talk_map (cache_of rv.2) !! d_stream_id s = None /\
  effects (sv_register rv.2) = effects (sv_register v) /\ sv_dialogs rv.2 = sv_dialogs v.
Proof.
  intros Hty Hst Htr Hex Hss Hn Hnode Hon Ht Hs. unfold DialogRecovery.recover_dialog.
  rewrite (proj2 (Z.leb_gt _ _) Hex), Hst, Htr, Hss, Hty, Hnode, !bool_decide_false by done. cbn [orb mbind option_bind].
  rewrite Hn. cbn [negb access_mode]. unfold ensure_or_orphan, restore_talk, talk_map_insert. rewrite Htr, Hon.
  cbn [tk_talk_id restored_talk]. unfold cache_of in *. rewrite Ht, Hst. cbn [negb fst snd].
  unfold talk_begin, talk_close_begin. cbn. rewrite lookup_insert_eq. cbn. rewrite Hs. cbn.
  unfold talk_close_force, talk_close_complete. cbn. rewrite lookup_insert_eq. cbn.
  split_and!; try done. rewrite bool_decide_true by done. cbn. by rewrite lookup_delete_eq.
Qed.
End Recovery.

(** ** A node that restarts with one open stream *)

Definition demo_collate (a b : string) : bool := (encode a <=? encode b)%positive.
Lemma demo_collate_trans : Transitive (fun a b => demo_collate a b = true).
Proof. intros a b c. unfold demo_collate. rewrite !Pos.leb_le. lia. Qed.
Lemma demo_collate_total : Total (fun a b => demo_collate a b = true).
Proof. intros a b. unfold demo_collate. rewrite !Pos.leb_le. lia. Qed.
Lemma demo_collate_anti a b : demo_collate a b = true -> demo_collate b a = true -> a = b.
Proof. unfold demo_collate. rewrite !Pos.leb_le. intros. apply (inj encode). lia. Qed.
Definition demo_answers : Answers := {|
  an_now := 20; an_orphan_now := 21; an_instant := 0; an_online := Some true; an_lease_now := 20;
  an_oauth := Done None; an_device := Done None |}.
Definition demo_socket (s : string) : option string := Some s.
Local Notation demo_table := (store_ops (fun a => bool_decide (is_Some (demo_socket a))) demo_to_json
  [OInsert demo_dialog; OEstablished "s" "n" 0 demo_fields] ∅).
Local Notation demo_register := {| general_cache := Cache_init; io_map := {| session := ∅; net_device_map := ∅ |} : Network Z;
  recovering_devices := ∅; recovery_permits := 64; effects := [] |}.
Local Notation demo_server := ({| sv_dialogs := demo_table; sv_register := demo_register;
  sv_sip := SipRuntimeCache_default |} : Server (Snap := unit) (Sdp := unit) (Assoc := unit) (Meth := Z)).

Local Notation demo_session := {|
  d_stream_id := "s"; d_device_id := "d"; d_channel_id := "c"; d_session_type := DLive; d_signal_node_id := "n";
  d_media_node_id := "m"; d_ssrc := Some "0100000001"%string; d_call_id := "call"; d_local_uri := "sip:a@b";
  d_remote_uri := "sip:c@d"; d_local_tag := "lt"; d_remote_tag := Some "rt"%string; d_local_cseq := 1; d_remote_cseq := None;
  d_contact_uri := Some "sip:c@d:5060"%string; d_route_set := []; d_local_sip_addr := "a"; d_remote_sip_addr := "b";
  d_transport := DTcp; d_state := Established; d_established_at := Some 12; d_last_seen_at := 12; d_expire_at := 2000;
  d_version := 1; d_created_at := 10; d_updated_at := 12 |}.
Local Notation demo_talk := {|
  d_stream_id := "t"; d_device_id := "d"; d_channel_id := "c"; d_session_type := DTalk; d_signal_node_id := "n";
  d_media_node_id := "m"; d_ssrc := Some "0100000001"%string; d_call_id := "call"; d_local_uri := "sip:a@b";
  d_remote_uri := "sip:c@d"; d_local_tag := "lt"; d_remote_tag := Some "rt"%string; d_local_cseq := 1; d_remote_cseq := None;
  d_contact_uri := Some "sip:c@d:5060"%string; d_route_set := []; d_local_sip_addr := "a"; d_remote_sip_addr := "b";
  d_transport := DTcp; d_state := Terminating; d_established_at := Some 12; d_last_seen_at := 12; d_expire_at := 2000;
  d_version := 1; d_created_at := 10; d_updated_at := 12 |}.
Lemma closing_talk_is_dropped_witness :
  let rv := recover_dialog (fun _ => true) demo_socket id (fun _ => 7) (fun _ => true) demo_answers demo_talk demo_server in
  rv.1 = Done tt /\ talk_map (cache_of rv.2) !! "t" = None.
Proof.
  destruct (closing_talk_is_dropped (fun _ => true) demo_socket id (fun _ => 7) (fun _ => true) demo_answers demo_talk
    demo_server "0100000001" 100000001) as (Hd & Ht & _); [by vm_compute..|].
  split; [exact Hd|exact Ht].
Defined.
