(* ===== verification/Xml.v ===== *)
(** * GB28181 XML ([session/src/gb/sip/xml.rs])

    Building and reading of the XML bodies.  The tokenizer ([quick_xml]) and
    the character encodings ([encoding_rs]) are libraries: the reader is given
    as the events it reports, the decoder is a parameter.  A string is the
    bytes of its UTF-8 text. *)
From Stdlib Require Import Ascii.
From stdpp Require Import pretty.
From S2P Require Import Prelude Text.
Local Open Scope Z_scope.

Definition GB_2022_VERSION : string := "3.0".
Inductive XmlEncoding := Utf8 | Gb2312 | Gb18030.

(** [str::contains] *)
Fixpoint contains (needle l : list ascii) : bool :=
  starts_with needle l || match l with [] => false | _ :: l => contains needle l end.

Definition detect_encoding (xml : list ascii) : XmlEncoding :=
  let declaration := ascii_upper <$> utf8_lossy (take 256 xml) in
  if contains (chars "GB18030") declaration then Gb18030
  else if contains (chars "GB2312") declaration || contains (chars "GBK") declaration then Gb2312
  else if utf8_valid xml then Utf8 else Gb18030.

Fixpoint skip_while (p : ascii -> bool) (l : list ascii) : list ascii :=
  match l with a :: l' => if p a then skip_while p l' else l | [] => [] end.
Definition is_crlf (a : ascii) : bool := bool_decide (a = "013"%char) || bool_decide (a = "010"%char).
Definition bom : list ascii := ["239"%char; "187"%char; "191"%char].
(** [trim_start_matches('\u{feff}')] *)
Fixpoint skip_bom (fuel : nat) (l : list ascii) : list ascii :=
  match fuel, strip_prefix bom l with S fuel, Some rest => skip_bom fuel rest | _, _ => l end.
(** What follows the first ["?>"], or everything. *)
Fixpoint after_declaration (l : list ascii) : option (list ascii) :=
  match strip_prefix (chars "?>") l with
  | Some rest => Some rest
  | None => match l with [] => None | _ :: l => after_declaration l end
  end.
Definition crlf : string := String "013" (String "010" EmptyString).
Definition quote : string := String "034" EmptyString.
Definition declaration (encoding : string) : string :=
  "<?xml version=" +:+ quote +:+ "1.0" +:+ quote +:+ " encoding=" +:+ quote +:+ encoding +:+ quote +:+ "?>" +:+ crlf.
Definition with_encoding_declaration (xml : list ascii) (encoding : string) : list ascii :=
  let xml := skip_bom (length xml) xml in
  let body := if starts_with (chars "<?xml") xml then default xml (after_declaration xml) else xml in
  chars (declaration encoding) ++ skip_while is_crlf body.
Definition document_encoding (gb_version : option string) : XmlEncoding :=
  match gb_version with
  | Some v => if bool_decide (trim (chars v) = chars GB_2022_VERSION) then Gb18030 else Gb2312
  | None => Gb2312
  end.
(** [encode]: the encoder of the library. *)
Definition encode_document (encode : XmlEncoding -> list ascii -> list ascii) (xml : list ascii)
    (gb_version : option string) : list ascii :=
  let encoding := document_encoding gb_version in
  encode encoding (with_encoding_declaration xml
    match encoding with Gb18030 => "GB18030" | _ => "GB2312" end).

(** ** Reading *)

Definition SPLIT_CLASS : string := "?<-0_0->?".
Inductive XmlError := InvalidEncoding | InvalidXml | InvalidText.
(** What the tokenizer reports; a name that is not UTF-8 and a text that cannot
    be unescaped are [None]. *)
Inductive XmlEvent :=
| XStart (name : option string)
| XText (unescaped : option string)
| XEnd
| XError
| XOther.

Definition join_path (path : list string) : string := String.concat "," path.

Record ParseState := { ps_path : list string; ps_items : list (string * string); ps_last_depth : nat }.
Definition parse_event (st : ParseState) (e : XmlEvent) : outcome XmlError ParseState :=
  match e with
  | XStart None => Failed InvalidText
  | XStart (Some name) =>
      Done {| ps_path := ps_path st ++ [name]; ps_items := ps_items st; ps_last_depth := ps_last_depth st |}
  | XText None => Failed InvalidText
  | XText (Some t) =>
      match trim (chars t) with
      | [] => Done st
      | value =>
          let depth := length (ps_path st) in
          let items := if decide (ps_last_depth st = depth) then ps_items st
                       else ps_items st ++ [(SPLIT_CLASS, pretty depth)] in
          Done {| ps_path := ps_path st; ps_items := items ++ [(join_path (ps_path st), text value)];
                  ps_last_depth := depth |}
      end
  | XEnd => Done {| ps_path := take (length (ps_path st) - 1) (ps_path st); ps_items := ps_items st;
                    ps_last_depth := ps_last_depth st |}
  | XError => Failed InvalidXml
  | XOther => Done st
  end.
Fixpoint parse_events (st : ParseState) (events : list XmlEvent) : outcome XmlError ParseState :=
  match events with
  | [] => Done st
  | e :: events =>
      match parse_event st e with Done st1 => parse_events st1 events | Failed e => Failed e | Panic => Panic end
  end.
Definition parse_start : ParseState := {| ps_path := []; ps_items := []; ps_last_depth := 0 |}.
(** [decode] and [reader] are the libraries'. *)
Definition parse_items (decode : XmlEncoding -> list ascii -> option string) (reader : string -> list XmlEvent)
    (xml : list ascii) : outcome XmlError (list (string * string)) :=
  match decode (detect_encoding xml) xml with
  | None => Failed InvalidEncoding
  | Some decoded =>
      match parse_events parse_start (reader decoded) with
      | Done st => Done (ps_items st) | Failed e => Failed e | Panic => Panic
      end
  end.

Definition value (items : list (string * string)) (key : string) : option string :=
  snd <$> head (filter (fun kv => kv.1 = key) items).
(** [rsplit(',').next()]: the last piece. *)
Definition last_piece (key : string) : string := text (default [] (last (split_on ","%char (chars key)))).
Definition value_by_tag (items : list (string * string)) (tag : string) : option string :=
  snd <$> head (filter (fun kv => last_piece kv.1 = tag) items).

Definition NOTIFY_DEVICE_ID : string := "Notify,DeviceID".
Definition NOTIFY_TYPE : string := "Notify,NotifyType".

(** ** Building *)

(** [str::replace] of a character. *)
Definition replace_char (a : ascii) (by_ : string) (l : list ascii) : list ascii :=
  l ≫= (fun b => if bool_decide (b = a) then chars by_ else [b]).
Definition escape (v : string) : string :=
  text (replace_char "'" "&apos;" (replace_char "034" "&quot;" (replace_char ">" "&gt;"
    (replace_char "<" "&lt;" (replace_char "&" "&amp;" (chars v)))))).
Definition line (s : string) : string := s +:+ crlf.
Definition element (name content : string) : string :=
  line ("<" +:+ name +:+ ">" +:+ content +:+ "</" +:+ name +:+ ">").
Definition open_tag (name : string) : string := line ("<" +:+ name +:+ ">").
Definition close_tag (name : string) : string := line ("</" +:+ name +:+ ">").

Definition build_simple_query (cmd_type : string) (sn : Z) (device_id extra : string) : string :=
  declaration "GB2312" +:+ open_tag "Query" +:+ element "CmdType" (escape cmd_type)
  +:+ element "SN" (pretty sn) +:+ element "DeviceID" (escape device_id) +:+ extra +:+ close_tag "Query".
Definition build_catalog_query (sn : Z) (device_id : string) : string :=
  build_simple_query "Catalog" sn device_id "".
Definition build_catalog_subscription (sn : Z) (device_id start_time end_time : string) : string :=
  build_simple_query "Catalog" sn device_id
    (element "StartTime" (escape start_time) +:+ element "EndTime" (escape end_time)).
Definition build_device_info_query (sn : Z) (device_id : string) : string :=
  build_simple_query "DeviceInfo" sn device_id "".
Definition build_device_status_query (sn : Z) (device_id : string) : string :=
  build_simple_query "DeviceStatus" sn device_id "".
Definition build_config_download_query (sn : Z) (device_id config_type : string) : string :=
  build_simple_query "ConfigDownload" sn device_id (element "ConfigType" (escape config_type)).
Definition build_ptz_position_query (sn : Z) (device_id : string) : string :=
  build_simple_query "PTZPosition" sn device_id "".
Definition build_cruise_track_list_query (sn : Z) (device_id : string) : string :=
  build_simple_query "CruiseTrackListQuery" sn device_id "".
Definition build_cruise_track_query (sn : Z) (device_id : string) (number : Z) : string :=
  build_simple_query "CruiseTrackQuery" sn device_id (element "Number" (pretty number)).
Definition build_broadcast_notify (sn : Z) (source_id target_id : string) : string :=
  declaration "GB2312" +:+ open_tag "Notify" +:+ element "CmdType" "Broadcast" +:+ element "SN" (pretty sn)
  +:+ element "SourceID" (escape source_id) +:+ element "TargetID" (escape target_id) +:+ close_tag "Notify".
Definition build_record_info_query (sn : Z) (device_id start_time end_time : string) : string :=
  build_simple_query "RecordInfo" sn device_id
    (element "StartTime" (escape start_time) +:+ element "EndTime" (escape end_time)
     +:+ element "Secrecy" "0" +:+ element "Type" "all").
Definition build_ptz_control (sn : Z) (device_id command : string) : string :=
  declaration "GB2312" +:+ open_tag "Control" +:+ element "CmdType" "DeviceControl" +:+ element "SN" (pretty sn)
  +:+ element "DeviceID" (escape device_id) +:+ element "PTZCmd" (escape command) +:+ open_tag "Info"
  +:+ element "ControlPriority" "5" +:+ close_tag "Info" +:+ close_tag "Control".
Definition build_preset_query_xml (device_id : string) : string :=
  declaration "GB2312" +:+ open_tag "Query" +:+ element "CmdType" "PresetQuery" +:+ element "SN" "1"
  +:+ element "DeviceID" (escape device_id) +:+ close_tag "Query".
Definition build_snapshot_control_xml (channel_id : string) (count interval : Z) (url session_id : string) : string :=
  line ("<?xml version=" +:+ quote +:+ "1.0" +:+ quote +:+ "?>") +:+ open_tag "Control"
  +:+ element "CmdType" "DeviceConfig" +:+ element "SN" "1" +:+ element "DeviceID" (escape channel_id)
  +:+ open_tag "SnapShotConfig" +:+ element "SnapNum" (pretty count) +:+ element "Interval" (pretty interval)
  +:+ element "UploadURL" (escape url) +:+ element "SessionID" (escape session_id)
  +:+ close_tag "SnapShotConfig" +:+ close_tag "Control".

(** ** What is read from a document

    A document as a tree, what the tokenizer reports for it, and the text it
    holds with the names of the elements around it. *)
Inductive Node := Elem (name : string) (children : list Node) | Txt (t : string).
Fixpoint node_events (n : Node) : list XmlEvent :=
  match n with
  | Elem name children => XStart (Some name) :: flat_map node_events children ++ [XEnd]
  | Txt t => [XText (Some t)]
  end.
Fixpoint node_texts (path : list string) (n : Node) : list (list string * string) :=
  match n with
  | Elem name children => flat_map (node_texts (path ++ [name])) children
  | Txt t => match trim (chars t) with [] => [] | v => [(path, text v)] end
  end.
(** A marker where the depth differs from that of the text before. *)
Fixpoint marked (last_depth : nat) (l : list (list string * string)) : list (string * string) :=
  match l with
  | [] => []
  | (path, v) :: l =>
      (if decide (last_depth = length path) then [] else [(SPLIT_CLASS, pretty (length path))])
      ++ (join_path path, v) :: marked (length path) l
  end.
Definition last_depth_of (d : nat) (l : list (list string * string)) : nat :=
  from_option (fun pv => length pv.1) d (last l).

Lemma node_ind_all (P : Node -> Prop) :
  (forall name children, Forall P children -> P (Elem name children)) -> (forall t, P (Txt t)) -> forall n, P n.
Proof.
  intros He Ht. fix IH 1. intros [name children|t]; [|apply Ht]. apply He.
  induction children as [|c cs IHc]; constructor; [apply IH|exact IHc].
Qed.

Lemma marked_app l1 l2 d : marked d (l1 ++ l2) = marked d l1 ++ marked (last_depth_of d l1) l2.
Proof.
  revert d. induction l1 as [|[p v] l1 IH]; intros d; [done|]. simpl. rewrite IH, <- app_assoc. simpl. do 3 f_equal.
  unfold last_depth_of. by destruct l1 as [|x l1]; [|rewrite !last_cons; destruct (last l1)].
Qed.
Lemma last_depth_app l1 l2 d : last_depth_of d (l1 ++ l2) = last_depth_of (last_depth_of d l1) l2.
Proof. unfold last_depth_of. rewrite last_app. by destruct (last l2). Qed.

Lemma parse_events_app evs1 evs2 st : parse_events st (evs1 ++ evs2) =
  match parse_events st evs1 with Done st1 => parse_events st1 evs2 | Failed e => Failed e | Panic => Panic end.
Proof.
  revert st. induction evs1 as [|e evs1 IH]; intros st; [done|]. simpl. destruct (parse_event st e); [apply IH|done..].
Qed.

(** Reading a node, or a list of nodes, adds its texts. *)
Definition reads (path : list string) (evs : list XmlEvent) (texts : list (list string * string)) : Prop :=
  forall items d,
  parse_events {| ps_path := path; ps_items := items; ps_last_depth := d |} evs
  = Done {| ps_path := path; ps_items := items ++ marked d texts; ps_last_depth := last_depth_of d texts |}.
Lemma reads_nodes path children :
  Forall (fun n => forall path, reads path (node_events n) (node_texts path n)) children ->
  reads path (flat_map node_events children) (flat_map (node_texts path) children).
Proof.
  induction 1 as [|n ns Hn _ IH]; intros items d; simpl; [by rewrite app_nil_r|].
  rewrite parse_events_app, Hn, IH. f_equal. rewrite marked_app, last_depth_app, <- app_assoc. done.
Qed.
Lemma reads_node n : forall path, reads path (node_events n) (node_texts path n).
Proof.
  induction n as [name children IH|t] using node_ind_all; intros path items d.
  - cbn [node_events node_texts parse_events parse_event]. rewrite parse_events_app, (reads_nodes _ _ IH).
    cbn [parse_events parse_event ps_path ps_items ps_last_depth]. rewrite length_app. simpl.
    by rewrite Nat.add_sub, take_app_length.
  - cbn [node_events node_texts parse_events parse_event]. destruct (trim (chars t)) as [|a l] eqn:Ht.
    + simpl. by rewrite app_nil_r.
    + cbn [ps_path ps_items ps_last_depth marked]. unfold last_depth_of. simpl.
      case_decide; simpl; by rewrite <- ?app_assoc.
Qed.

Lemma filter_marked (P : string * string -> Prop) `{!forall x, Decision (P x)} l d :
  (forall depth, ~ P (SPLIT_CLASS, depth)) ->
  filter P (marked d l) = (fun pv => (join_path pv.1, pv.2)) <$> filter (fun pv => P (join_path pv.1, pv.2)) l.
Proof.
  intros HP. revert d. induction l as [|[p v] l IH]; intros d; [done|]. cbn [marked]. rewrite filter_app.
  replace (filter P (if decide _ then [] else _)) with (@nil (string * string)).
  2: { case_decide; [done|]. by rewrite filter_cons, decide_False. }
  simpl. rewrite !filter_cons. simpl. rewrite IH. by case_decide.
Qed.
Lemma head_fmap {A B} (f : A -> B) (l : list A) : head (f <$> l) = f <$> head l.
Proof. by destruct l. Qed.

Lemma split_on_nonempty ch l : split_on ch l <> [].
Proof. destruct l as [|a l]; simpl; [done|]. case_bool_decide; [done|]. by destruct (split_on ch l). Qed.
Lemma last_split ch l n : ch ∉ n -> last (split_on ch (l ++ ch :: n)) = Some n.
Proof.
  intros Hn. assert (split_on ch n = [n]) as Hs.
  { induction n as [|a n IH]; [done|]. apply not_elem_of_cons in Hn as [Ha Hn]. simpl.
    rewrite bool_decide_eq_false_2 by congruence. by rewrite IH. }
  induction l as [|a l IH]; simpl.
  - rewrite bool_decide_eq_true_2 by done. by rewrite Hs.
  - pose proof (split_on_nonempty ch (l ++ ch :: n)). case_bool_decide.
    + by destruct (split_on ch (l ++ ch :: n)).
    + destruct (split_on ch (l ++ ch :: n)) as [|p [|q r]] eqn:Hr; [done| |done]. exfalso.
      clear - Hr. revert p Hr. induction l as [|b l IH]; intros p; simpl.
      * rewrite bool_decide_eq_true_2 by done. intros Hp. pose proof (split_on_nonempty ch n). by destruct (split_on ch n).
      * case_bool_decide; [pose proof (split_on_nonempty ch (l ++ ch :: n)); by destruct (split_on ch (l ++ ch :: n))|].
        pose proof (split_on_nonempty ch (l ++ ch :: n)).
        destruct (split_on ch (l ++ ch :: n)) as [|q [|]] eqn:Hr; [done| |done]. intros _. by apply (IH q).
Qed.
Lemma join_path_snoc (p : list string) (n : string) : p <> [] ->
  chars (join_path (p ++ [n])) = chars (join_path p) ++ ","%char :: chars n.
Proof.
  induction p as [|a [|b p] IH]; intros Hne; [done|..].
  - unfold join_path. simpl. by rewrite list_ascii_app.
  - unfold join_path in *. cbn [app String.concat] in *. rewrite !list_ascii_app, IH by done.
    rewrite <- !app_assoc. simpl. reflexivity.
Qed.
Lemma last_piece_path (p : list string) (n : string) :
  ","%char ∉ chars n -> last_piece (join_path (p ++ [n])) = n.
Proof.
  intros Hn. unfold last_piece. destruct p as [|a p].
  - unfold join_path. simpl. assert (split_on ","%char (chars n) = [chars n]) as ->.
    { induction n as [|b n IH]; [done|]. simpl in *. apply not_elem_of_cons in Hn as [Hb Hn].
      rewrite bool_decide_eq_false_2 by congruence. by rewrite IH. }
    simpl. apply String.string_of_list_ascii_of_string.
  - rewrite join_path_snoc, last_split by done. simpl. apply String.string_of_list_ascii_of_string.
Qed.

Definition tokenizes (reader : string -> list XmlEvent) (decoded : string) (doc : list Node) : Prop :=
  reader decoded = flat_map node_events doc.
Definition doc_texts : list Node -> list (list string * string) := flat_map (node_texts []).
Definition comma_free (texts : list (list string * string)) : Prop :=
  Forall (fun pv => Forall (fun name => ","%char ∉ chars name) pv.1) texts.

Lemma parse_items_marked (decode : XmlEncoding -> list ascii -> option string) (reader : string -> list XmlEvent)
    (xml : list ascii) (decoded : string) (doc : list Node) :
  decode (detect_encoding xml) xml = Some decoded -> tokenizes reader decoded doc ->
  parse_items decode reader xml = Done (marked 0 (doc_texts doc)).
Proof.
  intros Hd Ht. unfold parse_items. rewrite Hd, Ht. unfold parse_start.
  rewrite (reads_nodes [] doc); [done|]. apply Forall_forall. intros n _. apply reads_node.
Qed.

(** A document is read as its texts.  When the body decodes and tokenizes
    to a document, [parse_items] succeeds with the document's texts in order,
    each under the names around it, a marker wherever the depth changes;
    [value] finds the first text at a path, and [value_by_tag] the first one
    directly inside an element of that name. *)
Theorem parse_items_reads_document (decode : XmlEncoding -> list ascii -> option string)
    (reader : string -> list XmlEvent) (xml : list ascii) (decoded : string) (doc : list Node) :
  decode (detect_encoding xml) xml = Some decoded -> tokenizes reader decoded doc ->
  exists items, parse_items decode reader xml = Done items /\ items = marked 0 (doc_texts doc) /\
    (forall key, key <> SPLIT_CLASS ->
       value items key = snd <$> head (filter (fun pv => join_path pv.1 = key) (doc_texts doc))) /\
    (forall tag, comma_free (doc_texts doc) -> tag <> SPLIT_CLASS -> tag <> ""%string ->
       value_by_tag items tag = snd <$> head (filter (fun pv => last pv.1 = Some tag) (doc_texts doc))).
Proof.
  intros Hd Ht. exists (marked 0 (doc_texts doc)). split_and!; [by eapply parse_items_marked|done| |].
  - intros key Hk. unfold value. rewrite filter_marked by by intros d ?.
    rewrite head_fmap, <- option_fmap_compose. done.
  - intros tag Hc Htag Hne. unfold value_by_tag. rewrite filter_marked.
    2: { intros d Hx. apply Htag. by rewrite <- Hx. }
    rewrite head_fmap, <- option_fmap_compose. simpl.
    assert (filter (fun pv : list string * string => last_piece (join_path pv.1) = tag) (doc_texts doc)
            = filter (fun pv => last pv.1 = Some tag) (doc_texts doc)) as ->; [|done].
    induction Hc as [|[p v] l Hp _ IH]; [done|]. rewrite !filter_cons. simpl in *. rewrite IH.
    destruct (last p) as [n|] eqn:Hl.
    + apply last_Some in Hl as [p' ->]. rewrite last_piece_path; [|by apply Forall_app in Hp as [_ [? _]%Forall_cons]].
      repeat case_decide; simplify_eq; done.
    + apply last_None in Hl as ->. by rewrite !decide_False.
Qed.

(** *** Escaping *)

Definition entity (a : ascii) : list ascii :=
  if bool_decide (a = "&"%char) then chars "&amp;" else if bool_decide (a = "<"%char) then chars "&lt;"
  else if bool_decide (a = ">"%char) then chars "&gt;" else if bool_decide (a = "034"%char) then chars "&quot;"
  else if bool_decide (a = "'"%char) then chars "&apos;" else [a].
(** The reference decoder of the five predefined entities. *)
Definition entities : list (list ascii * ascii) :=
  [(chars "&amp;", "&"%char); (chars "&lt;", "<"%char); (chars "&gt;", ">"%char);
   (chars "&quot;", "034"%char); (chars "&apos;", "'"%char)].
Fixpoint decode_entities (fuel : nat) (l : list ascii) : list ascii :=
  match fuel, l with
  | S fuel, a :: l' =>
      match head (omap (fun ea => (fun r => (ea.2, r)) <$> strip_prefix ea.1 l) entities) with
      | Some (b, r) => b :: decode_entities fuel r
      | None => a :: decode_entities fuel l'
      end
  | _, _ => l
  end.

Lemma list_bind_compose {A B C} (f : A -> list B) (g : B -> list C) (l : list A) :
  (l ≫= f) ≫= g = l ≫= (fun a => f a ≫= g).
Proof. induction l as [|a l IH]; [done|]. rewrite bind_cons, bind_app, IH. done. Qed.
Lemma escape_entities (v : string) : chars (escape v) = chars v ≫= entity.
Proof.
  unfold escape. rewrite String.list_ascii_of_string_of_list_ascii. unfold replace_char.
  rewrite !list_bind_compose. generalize (chars v). intros l. induction l as [|a l IH]; [done|].
  rewrite !bind_cons, IH. f_equal. unfold entity.
  repeat (case_bool_decide; simplify_eq; [by vm_compute|]).
  rewrite bind_cons. simpl. rewrite (bool_decide_eq_false_2 (a = "<"%char)) by done. simpl.
  rewrite (bool_decide_eq_false_2 (a = ">"%char)) by done. simpl.
  rewrite (bool_decide_eq_false_2 (a = "034"%char)) by done. simpl.
  by rewrite (bool_decide_eq_false_2 (a = "'"%char)) by done.
Qed.

Lemma decode_entity (a : ascii) (l : list ascii) fuel :
  decode_entities (S fuel) (entity a ++ l) = a :: decode_entities fuel l.
Proof.
  unfold entity. repeat (case_bool_decide; simplify_eq; [done|]).
  cbn [app decode_entities]. assert (forall b r, strip_prefix ("&"%char :: r) (a :: b) = None) as Hno.
  { intros b r. simpl. rewrite bool_decide_eq_false_2; [done|congruence]. }
  unfold entities. cbn [omap list_omap fst snd]. change (chars "&amp;") with ("&"%char :: chars "amp;").
  change (chars "&lt;") with ("&"%char :: chars "lt;"). change (chars "&gt;") with ("&"%char :: chars "gt;").
  change (chars "&quot;") with ("&"%char :: chars "quot;"). change (chars "&apos;") with ("&"%char :: chars "apos;").
  by rewrite !Hno.
Qed.

(** Text survives the document.  Escaped text holds no markup character
    and no bare ampersand: decoding the five entities gives the text back. *)
Theorem escape_round_trip (v : string) :
  decode_entities (length (chars v)) (chars (escape v)) = chars v /\
  Forall (fun a => a <> "<"%char /\ a <> ">"%char /\ a <> "034"%char /\ a <> "'"%char) (chars (escape v)).
Proof.
  rewrite escape_entities. generalize (chars v). intros l. split.
  - induction l as [|a l IH]; [done|]. rewrite bind_cons. cbn [length]. by rewrite decode_entity, IH.
  - induction l as [|a l IH]; [constructor|]. rewrite bind_cons. apply Forall_app. split; [|done]. unfold entity.
    repeat (case_bool_decide; simplify_eq; [by repeat constructor|]). by repeat constructor.
Qed.

Lemma parse_items_reads_document_witness :
  let doc := [Elem "Response" [Elem "CmdType" [Txt "Catalog"]; Elem "List" [Elem "Item" [Txt " a "]; Elem "Item" [Txt "b"]]]] in
  exists items, parse_items (fun _ l => Some (text l)) (fun _ => flat_map node_events doc) (chars "<Response/>")
    = Done items /\ value items "Response,List,Item" = Some "a"%string /\ value_by_tag items "CmdType" = Some "Catalog"%string.
Proof.
  intros doc. destruct (parse_items_reads_document (fun _ l => Some (text l)) (fun _ => flat_map node_events doc)
    (chars "<Response/>") "<Response/>" doc) as (items & H1 & H2 & H3 & H4); [done|done|].
  exists items. split; [exact H1|]. split; [rewrite H3 by done; by vm_compute|]. rewrite H4; [by vm_compute| |done|done].
  unfold comma_free. vm_compute doc_texts. repeat constructor; apply (bool_decide_unpack _); by vm_compute.
Defined.
