(* ===== verification/DeviceAuth.v ===== *)
(** * Device credentials ([session/src/gb/sip/auth.rs], [native_runtime.rs])

    The cache of the stored authorisations and the policy derived from them.
    The data base is a parameter.  [get_or_load_many] is split where it awaits
    the data base; every read of the clock is an argument.  The load locks only
    make concurrent loads of one key wait for each other and hold no data. *)
From Stdlib Require Import Ascii.
From stdpp Require Import sorting.
From S2P Require Import Prelude Text.
Local Open Scope Z_scope.

Definition POSITIVE_CACHE_TTL : Z := 300000.
Definition NEGATIVE_CACHE_TTL : Z := 30000.
Definition DEFAULT_CACHE_CAPACITY : Z := 40000.
Definition AUTH_DB_BATCH_LIMIT : nat := 2000.

(** [storage/entity.rs] *)
Record GmvOauth := {
  oa_device_id : string; oa_domain_id : string; oa_domain : string; oa_pwd : option string;
  oa_pwd_check : Z; oa_alias : option string; oa_status : Z; oa_heartbeat_sec : Z
}.
Record AuthCacheKey := { ak_device_id : string; ak_realm : string }.
#[export] Instance AuthCacheKey_eq_dec : EqDecision AuthCacheKey.
Proof. solve_decision. Defined.
#[export] Instance AuthCacheKey_countable : Countable AuthCacheKey.
Proof.
  refine (inj_countable' (fun k => (ak_device_id k, ak_realm k))
            (fun p => {| ak_device_id := p.1; ak_realm := p.2 |}) _). by intros [].
Defined.
(** The derived order. *)
Definition key_le (k1 k2 : AuthCacheKey) : Prop :=
  String.ltb (ak_device_id k1) (ak_device_id k2)
  || (bool_decide (ak_device_id k1 = ak_device_id k2) && String.leb (ak_realm k1) (ak_realm k2)) = true.
#[export] Instance key_le_dec : RelDecision key_le.
Proof. intros k1 k2. unfold key_le. apply _. Defined.

Record AuthCacheEntry := { ce_oauth : option GmvOauth; ce_expires_at : Z }.
Record DeviceAuthCache := { entries : gmap AuthCacheKey AuthCacheEntry; max_entries : Z }.
Definition DeviceAuthCache_default : DeviceAuthCache :=
  {| entries := ∅; max_entries := DEFAULT_CACHE_CAPACITY |}.
Definition on_entries (f : gmap AuthCacheKey AuthCacheEntry -> gmap AuthCacheKey AuthCacheEntry)
    (c : DeviceAuthCache) : DeviceAuthCache := {| entries := f (entries c); max_entries := max_entries c |}.

(** [cached]: an expired entry is removed. *)
Definition cached (now : Z) (key : AuthCacheKey) (c : DeviceAuthCache)
    : option (option GmvOauth) * DeviceAuthCache :=
  match entries c !! key with
  | None => (None, c)
  | Some e => if now <? ce_expires_at e then (Some (ce_oauth e), c) else (None, on_entries (delete key) c)
  end.
Definition get (now : Z) (device_id realm : string) (c : DeviceAuthCache) : option GmvOauth * DeviceAuthCache :=
  let '(r, c1) := cached now {| ak_device_id := device_id; ak_realm := realm |} c in (mjoin r, c1).
Section Device.
Context `{!MapIter AuthCacheKey}.
Definition get_by_device (now : Z) (device_id : string) (c : DeviceAuthCache) : option GmvOauth :=
  head (omap (fun ke : AuthCacheKey * AuthCacheEntry =>
    if bool_decide (ak_device_id ke.1 = device_id) && (now <? ce_expires_at ke.2) then ce_oauth ke.2 else None)
    (map_iter (entries c))).

(** *** Loading *)

(** The keys a predicate on the cache keeps, with the cache it leaves. *)
Fixpoint not_cached (now : Z) (keys : list AuthCacheKey) (c : DeviceAuthCache)
    : list AuthCacheKey * DeviceAuthCache :=
  match keys with
  | [] => ([], c)
  | key :: keys =>
      let '(r, c1) := cached now key c in
      let '(missing, c2) := not_cached now keys c1 in
      (match r with None => key :: missing | Some _ => missing end, c2)
  end.
Definition auth_keys (lookups : list (string * string)) : list AuthCacheKey :=
  (fun dr => {| ak_device_id := dr.1; ak_realm := dr.2 |}) <$> lookups.
(** [HashSet] then [sort]: distinct keys in order. *)
Definition sorted_missing (now : Z) (requested : list AuthCacheKey) (c : DeviceAuthCache)
    : list AuthCacheKey * DeviceAuthCache :=
  let '(missing, c1) := not_cached now requested c in (merge_sort key_le (remove_dups missing), c1).

(** The rows by device, the last of a device winning. *)
Definition oauth_by_device (rows : list GmvOauth) : gmap string GmvOauth :=
  foldl (fun m o => <[oa_device_id o := o]> m) ∅ rows.
Definition load_entry (rows : list GmvOauth) (now : Z) (key : AuthCacheKey) : AuthCacheEntry :=
  let oauth := o ← oauth_by_device rows !! ak_device_id key;
               if bool_decide (oa_domain o = ak_realm key) then Some o else None in
  {| ce_oauth := oauth;
     ce_expires_at := now + match oauth with Some _ => POSITIVE_CACHE_TTL | None => NEGATIVE_CACHE_TTL end |}.
Definition load_chunk (rows : list GmvOauth) (now : Z) (chunk : list AuthCacheKey) (c : DeviceAuthCache)
    : DeviceAuthCache :=
  foldl (fun c key => on_entries <[key := load_entry rows now key]> c) c chunk.

(** [chunks(n)] *)
Fixpoint chunks_of (fuel n : nat) (l : list AuthCacheKey) : list (list AuthCacheKey) :=
  match fuel, l with
  | S fuel, _ :: _ => take n l :: chunks_of fuel n (drop n l)
  | _, _ => []
  end.

(** What the data base answers for the devices of a chunk, and when. *)
Context {E : Type} (read : list string -> outcome E (list GmvOauth)).
Fixpoint load_chunks (chunks : list (list AuthCacheKey * Z)) (c : DeviceAuthCache)
    : outcome E unit * DeviceAuthCache :=
  match chunks with
  | [] => (Done tt, c)
  | (chunk, now) :: chunks =>
      match read (remove_dups (ak_device_id <$> chunk)) with
      | Done rows => load_chunks chunks (load_chunk rows now chunk c)
      | Failed e => (Failed e, c)
      | Panic => (Panic, c)
      end
  end.

Definition cleanup_expired (now : Z) : DeviceAuthCache -> DeviceAuthCache :=
  on_entries (filter (fun ke : AuthCacheKey * AuthCacheEntry => now < ce_expires_at ke.2)).
Definition expires_le (e1 e2 : AuthCacheKey * Z) : Prop := e1.2 <= e2.2.
#[local] Instance expires_le_dec : RelDecision expires_le.
Proof. intros e1 e2. unfold expires_le. apply _. Defined.
Definition enforce_capacity (now : Z) (c : DeviceAuthCache) : DeviceAuthCache :=
  let c1 := cleanup_expired now c in
  let excess := Z.to_nat (Z.of_nat (size (entries c1)) - max_entries c1) in
  let oldest := merge_sort expires_le
    ((fun ke : AuthCacheKey * AuthCacheEntry => (ke.1, ce_expires_at ke.2)) <$> map_iter (entries c1)) in
  on_entries (fun m => foldl (fun m k => delete k m) m (take excess oldest).*1) c1.
Fixpoint cached_all (now : Z) (keys : list AuthCacheKey) (c : DeviceAuthCache)
    : list (option GmvOauth) * DeviceAuthCache :=
  match keys with
  | [] => ([], c)
  | key :: keys =>
      let '(r, c1) := cached now key c in
      let '(rs, c2) := cached_all now keys c1 in (mjoin r :: rs, c2)
  end.

(** [get_or_load_many]: the clock at the first look-up, after the locks, at the
    insertions of each chunk, at the end. *)
Record LoadTimes := { t_start : Z; t_locked : Z; t_loaded : nat -> Z; t_done : Z }.
Definition get_or_load_many (lookups : list (string * string)) (t : LoadTimes) (c : DeviceAuthCache)
    : outcome E (list (option GmvOauth)) * DeviceAuthCache :=
  match lookups with
  | [] => (Done [], c)
  | _ =>
      let requested := auth_keys lookups in
      let '(missing, c1) := sorted_missing (t_start t) requested c in
      let '(missing, c2) := not_cached (t_locked t) missing c1 in
      let chunks := chunks_of (length missing) AUTH_DB_BATCH_LIMIT missing in
      match load_chunks (zip chunks (t_loaded t <$> seq 0 (length chunks))) c2 with
      | (Done _, c3) =>
          let '(rs, c4) := cached_all (t_done t) requested (enforce_capacity (t_done t) c3) in (Done rs, c4)
      | (Failed e, c3) => (Failed e, c3)
      | (Panic, c3) => (Panic, c3)
      end
  end.
Definition get_or_load (device_id realm : string) (t : LoadTimes) (c : DeviceAuthCache)
    : outcome E (option GmvOauth) * DeviceAuthCache :=
  match get_or_load_many [(device_id, realm)] t c with
  | (Done rs, c1) => (Done (mjoin (last rs)), c1)
  | (Failed e, c1) => (Failed e, c1)
  | (Panic, c1) => (Panic, c1)
  end.
Definition invalidate_device (device_id : string) : DeviceAuthCache -> DeviceAuthCache :=
  on_entries (filter (fun ke : AuthCacheKey * AuthCacheEntry => ak_device_id ke.1 <> device_id)).
End Device.

(** ** Policy *)

Definition nonempty_password (p : option string) : option string :=
  p ≫= (fun s => if bool_decide (s = ""%string) then None else Some s).

(** [PasswordProvider] for the cache. *)
Inductive AuthRequirement := Forbidden | Disabled | Required.
#[export] Instance AuthRequirement_eq_dec : EqDecision AuthRequirement.
Proof. solve_decision. Defined.
Definition requirement_for (now : Z) (username realm : string) (c : DeviceAuthCache)
    : AuthRequirement * DeviceAuthCache :=
  let '(r, c1) := get now username realm c in
  (match r with
   | None => Forbidden
   | Some e => if oa_status e =? 0 then Forbidden
               else if oa_pwd_check e =? 0 then Disabled
               else match nonempty_password (oa_pwd e) with Some _ => Required | None => Forbidden end
   end, c1).
Definition password_for (now : Z) (username realm : string) (c : DeviceAuthCache)
    : option string * DeviceAuthCache :=
  let '(r, c1) := get now username realm c in
  (e ← r; if negb (oa_status e =? 0) && negb (oa_pwd_check e =? 0) then nonempty_password (oa_pwd e) else None, c1).

(** [auth_result] of [native_runtime.rs] *)
Inductive SipAuthLookupResult :=
| NotFound | Reject | Bypass | Credential (username realm secret : string).
Definition auth_result (device_id realm : string) (oauth : option GmvOauth) : SipAuthLookupResult :=
  match oauth with
  | None => NotFound
  | Some oauth =>
      if oa_status oauth =? 0 then Reject
      else if oa_pwd_check oauth =? 0 then Bypass
      else match nonempty_password (oa_pwd oauth) with
           | None => Reject
           | Some secret => Credential device_id realm secret
           end
  end.

(** ** What a look-up answers *)

(** The unexpired record of a key. *)
Definition live (now : Z) (key : AuthCacheKey) (c : DeviceAuthCache) : option (option GmvOauth) :=
  e ← entries c !! key; if now <? ce_expires_at e then Some (ce_oauth e) else None.
(** [c'] has the records of [c] that are alive from [now] on, and no other. *)
Definition keeps_live (now : Z) (c c' : DeviceAuthCache) : Prop :=
  max_entries c' = max_entries c /\ entries c' ⊆ entries c /\
  forall t key, now <= t -> live t key c' = live t key c.
Lemma keeps_live_refl now c : keeps_live now c c.
Proof. by split_and!. Qed.
Lemma keeps_live_trans now1 now2 c1 c2 c3 : now1 <= now2 ->
  keeps_live now1 c1 c2 -> keeps_live now2 c2 c3 -> keeps_live now2 c1 c3.
Proof.
  intros Hle (M1 & S1 & L1) (M2 & S2 & L2). split_and!; [congruence|by etrans|].
  intros t key Ht. rewrite L2, L1 by lia. done.
Qed.

Lemma cached_spec now key c : (cached now key c).1 = live now key c /\ keeps_live now c (cached now key c).2.
Proof.
  unfold cached, live. destruct (entries c !! key) as [e|] eqn:He; simpl; [|by split; [|apply keeps_live_refl]].
  destruct (now <? ce_expires_at e) eqn:Hl; simpl; (split; [done|]); [apply keeps_live_refl|]. zbool.
  split_and!; [done|apply delete_subseteq|]. intros t key' Ht. unfold live. simpl.
  destruct (decide (key' = key)) as [->|Hne]; [|by rewrite lookup_delete_ne].
  rewrite lookup_delete_eq, He. simpl. by rewrite (proj2 (Z.ltb_ge _ _)) by lia.
Qed.
Lemma not_cached_spec now keys : forall c,
  (not_cached now keys c).1 = filter (fun key => live now key c = None) keys /\
  keeps_live now c (not_cached now keys c).2.
Proof.
  induction keys as [|key keys IH]; intros c; cbn [not_cached]; [split; [done|apply keeps_live_refl]|].
  destruct (cached_spec now key c) as [C1 C2]. destruct (cached now key c) as [r c1]. cbn [fst snd] in *. subst r.
  destruct (IH c1) as [I1 I2]. destruct (not_cached now keys c1) as [missing c2]. cbn [fst snd] in *. subst missing.
  split; [|eapply keeps_live_trans; [|exact C2|exact I2]; lia].
  rewrite filter_cons. assert (filter (fun key => live now key c1 = None) keys
    = filter (fun key => live now key c = None) keys) as ->.
  { apply list_filter_iff. intros k. by rewrite (proj2 (proj2 C2)). }
  by destruct (live now key c).
Qed.
Lemma cached_all_spec now keys : forall c,
  (cached_all now keys c).1 = (fun key => mjoin (live now key c)) <$> keys.
Proof.
  induction keys as [|key keys IH]; intros c; cbn [cached_all]; [done|].
  destruct (cached_spec now key c) as [C1 C2]. destruct (cached now key c) as [r c1]. cbn [fst snd] in *. subst r.
  specialize (IH c1). destruct (cached_all now keys c1) as [rs c2]. cbn [fst snd] in *. subst rs.
  cbn [fmap list_fmap]. f_equal. apply list_fmap_ext. intros i k _. by rewrite (proj2 (proj2 C2)) by lia.
Qed.

Lemma load_chunk_lookup rows now chunk : forall c key,
  entries (load_chunk rows now chunk c) !! key
  = if decide (key ∈ chunk) then Some (load_entry rows now key) else entries c !! key.
Proof.
  unfold load_chunk. induction chunk as [|k chunk IH]; intros c key; cbn [foldl]; [done|]. rewrite IH. simpl.
  destruct (decide (key ∈ chunk)) as [Hin|Hin].
  - by rewrite decide_True by by right.
  - destruct (decide (key = k)) as [->|Hne].
    + by rewrite lookup_insert_eq, decide_True by left.
    + rewrite lookup_insert_ne, decide_False; [done| |done]. by rewrite elem_of_cons; intros [|].
Qed.
Lemma load_chunk_max rows now chunk : forall c, max_entries (load_chunk rows now chunk c) = max_entries c.
Proof. unfold load_chunk. induction chunk as [|k chunk IH]; intros c; cbn [foldl]; [done|]. by rewrite IH. Qed.
Lemma load_chunk_size rows now chunk : forall c,
  (size (entries (load_chunk rows now chunk c)) <= size (entries c) + length chunk)%nat.
Proof.
  unfold load_chunk. induction chunk as [|k chunk IH]; intros c; cbn [foldl length]; [lia|].
  etrans; [apply IH|]. simpl. destruct (entries c !! k) eqn:Hk.
  - rewrite map_size_insert_Some by by eexists. lia.
  - rewrite map_size_insert_None by done. lia.
Qed.

Lemma concat_chunks (n : nat) : (0 < n)%nat -> forall fuel l, (length l <= fuel)%nat -> concat (chunks_of fuel n l) = l.
Proof.
  intros Hn. induction fuel as [|fuel IH]; intros [|k l] Hl; simpl in *; try done; [lia|].
  destruct n as [|n]; [lia|]. simpl. f_equal. rewrite IH; [apply take_drop|]. rewrite length_drop. lia.
Qed.

Section Loads.
Context `{!MapIter AuthCacheKey} {E : Type} (read : list string -> outcome E (list GmvOauth)) (db : string -> option GmvOauth).
(** The query returns the stored rows of the devices asked for. *)
Hypothesis read_rows : forall ids, exists rows, read ids = Done rows /\
  forall d, d ∈ ids -> oauth_by_device rows !! d = db d.

Definition stored (key : AuthCacheKey) : option GmvOauth :=
  o ← db (ak_device_id key); if bool_decide (oa_domain o = ak_realm key) then Some o else None.

Lemma load_entry_stored chunk rows now key :
  (forall d, d ∈ remove_dups (ak_device_id <$> chunk) -> oauth_by_device rows !! d = db d) -> key ∈ chunk ->
  ce_oauth (load_entry rows now key) = stored key /\ now + NEGATIVE_CACHE_TTL <= ce_expires_at (load_entry rows now key).
Proof.
  intros Hrows Hin. unfold load_entry, stored. simpl. rewrite Hrows.
  - split; [done|]. destruct (db (ak_device_id key)) as [o|]; simpl; [case_bool_decide|]; unfold POSITIVE_CACHE_TTL, NEGATIVE_CACHE_TTL; lia.
  - apply elem_of_remove_dups, list_elem_of_fmap. by exists key.
Qed.

(** Loading succeeds; each key asked for is stored with its row. *)
Lemma load_chunks_spec (chunks : list (list AuthCacheKey * Z)) (lo : Z) : Forall (fun cn => lo <= cn.2) chunks -> forall c,
  exists c', load_chunks read chunks c = (Done tt, c') /\ max_entries c' = max_entries c /\
  (size (entries c') <= size (entries c) + length (concat chunks.*1))%nat /\
  forall key, if decide (key ∈ concat chunks.*1)
    then exists e, entries c' !! key = Some e /\ ce_oauth e = stored key /\ lo + NEGATIVE_CACHE_TTL <= ce_expires_at e
    else entries c' !! key = entries c !! key.
Proof.
  induction 1 as [|[chunk now] chunks Hlo _ IH]; intros c; cbn [load_chunks fmap list_fmap concat].
  { exists c. split_and!; [done..|lia|]. intros key. by rewrite decide_False by apply not_elem_of_nil. }
  destruct (read_rows (remove_dups (ak_device_id <$> chunk))) as (rows & -> & Hrows). simpl in *.
  destruct (IH (load_chunk rows now chunk c)) as (c' & H1 & H2 & H3 & H4). exists c'. split_and!; [done| | |].
  - by rewrite H2, load_chunk_max.
  - rewrite length_app. pose proof (load_chunk_size rows now chunk c). lia.
  - intros key. specialize (H4 key). rewrite load_chunk_lookup in H4.
    destruct (decide (key ∈ concat chunks.*1)) as [Hin|Hin].
    + rewrite decide_True; [done|]. apply elem_of_app. by right.
    + destruct (decide (key ∈ chunk)) as [Hc|Hc].
      * rewrite decide_True by (apply elem_of_app; by left). eexists. split; [exact H4|].
        destruct (load_entry_stored chunk rows now key Hrows Hc). split; [done|lia].
      * rewrite decide_False; [done|]. by rewrite elem_of_app; intros [|].
Qed.
End Loads.

Lemma live_mono now t key c : now <= t -> live now key c = None -> live t key c = None.
Proof.
  unfold live. destruct (entries c !! key) as [e|]; simpl; [|done]. intros Ht.
  destruct (Z.ltb_spec now (ce_expires_at e)); [done|]. intros _. by rewrite (proj2 (Z.ltb_ge _ _)) by lia.
Qed.
Lemma cleanup_live now t key c : now <= t -> live t key (cleanup_expired now c) = live t key c.
Proof.
  intros Ht. unfold live, cleanup_expired. simpl. destruct (entries c !! key) as [e|] eqn:He.
  - destruct (decide (now < ce_expires_at e)) as [Hl|Hl].
    + by rewrite (map_lookup_filter_Some_2 _ _ key e) by done.
    + assert (filter (fun ke : AuthCacheKey * AuthCacheEntry => now < ce_expires_at ke.2) (entries c) !! key = None) as ->.
      { apply map_lookup_filter_None. right. intros e' He' Hl'. simpl in Hl'. rewrite He in He'. by simplify_eq. }
      simpl. by rewrite (proj2 (Z.ltb_ge _ _)) by lia.
  - assert (filter (fun ke : AuthCacheKey * AuthCacheEntry => now < ce_expires_at ke.2) (entries c) !! key = None) as ->;
      [|done]. apply map_lookup_filter_None. by left.
Qed.
Lemma cleanup_size now c : (size (entries (cleanup_expired now c)) <= size (entries c))%nat.
Proof. simpl. apply map_subseteq_size, map_filter_subseteq. Qed.
Lemma enforce_small `{!MapIter AuthCacheKey} now c :
  Z.of_nat (size (entries c)) <= max_entries c -> enforce_capacity now c = cleanup_expired now c.
Proof.
  intros Hs. unfold enforce_capacity. pose proof (cleanup_size now c) as Hc. unfold cleanup_expired in Hc. simpl in Hc.
  replace (Z.to_nat _) with 0%nat by (unfold cleanup_expired; simpl; lia). by rewrite take_0.
Qed.

(** The authorisation used is the stored one.  When the data base answers
    and the cache has room, a look-up of any devices, in any number and with
    repetitions, answers for each: a record not in the cache is read, and is
    the stored row if it is of the realm asked for; one in the cache is used
    while it has not expired, and is missing when it expires during the
    look-up. *)
Theorem auth_lookup_spec `{!MapIter AuthCacheKey} {E : Type} (read : list string -> outcome E (list GmvOauth))
    (db : string -> option GmvOauth) (lookups : list (string * string)) (t : LoadTimes) (c : DeviceAuthCache) :
  (forall ids, exists rows, read ids = Done rows /\ forall d, d ∈ ids -> oauth_by_device rows !! d = db d) ->
  t_start t <= t_locked t <= t_done t ->
  (forall i, t_locked t <= t_loaded t i <= t_done t /\ t_done t < t_loaded t i + NEGATIVE_CACHE_TTL) ->
  Z.of_nat (size (entries c)) + Z.of_nat (length lookups) <= max_entries c ->
  (get_or_load_many read lookups t c).1 = Done ((fun dr =>
     let key := {| ak_device_id := dr.1; ak_realm := dr.2 |} in
     match live (t_start t) key c with
     | None => stored db key
     | Some _ => mjoin (live (t_done t) key c)
     end) <$> lookups).
Proof.
  intros Hread Ht1 Ht2 Hroom. unfold get_or_load_many. destruct lookups as [|l0 ls]; [done|].
  set (lookups := l0 :: ls) in *. unfold sorted_missing.
  destruct (not_cached_spec (t_start t) (auth_keys lookups) c) as [N1 N2].
  destruct (not_cached (t_start t) (auth_keys lookups) c) as [missing0 c1]. cbn [fst snd] in N1, N2.
  set (missing1 := merge_sort key_le (remove_dups missing0)).
  destruct (not_cached_spec (t_locked t) missing1 c1) as [M1 M2].
  destruct (not_cached (t_locked t) missing1 c1) as [missing c2]. cbn [fst snd] in M1, M2.
  assert (keeps_live (t_locked t) c c2) as (K1 & K2 & K3) by (eapply keeps_live_trans; [|exact N2|exact M2]; lia).
  assert (forall key, key ∈ missing <-> key ∈ auth_keys lookups /\ live (t_start t) key c = None) as Hmissing.
  { intros key. rewrite M1, list_elem_of_filter. unfold missing1. rewrite merge_sort_Permutation, elem_of_remove_dups, N1.
    rewrite list_elem_of_filter. split; [tauto|]. intros [Hin Hn]. split_and!; try done.
    rewrite (proj2 (proj2 N2)) by lia. by apply (live_mono (t_start t)); [lia|]. }
  assert (length missing <= length lookups)%nat as Hlen.
  { rewrite M1. etrans; [apply length_filter|]. unfold missing1. rewrite merge_sort_Permutation.
    etrans; [apply submseteq_length, (NoDup_submseteq _ missing0); [apply NoDup_remove_dups|intros ?; apply elem_of_remove_dups]|].
    rewrite N1. etrans; [apply length_filter|]. unfold auth_keys. by rewrite length_fmap. }
  set (chunks := chunks_of (length missing) AUTH_DB_BATCH_LIMIT missing).
  assert ((zip chunks (t_loaded t <$> seq 0 (length chunks))).*1 = chunks) as Hzip.
  { apply fst_zip. by rewrite length_fmap, length_seq. }
  destruct (load_chunks_spec read db Hread (zip chunks (t_loaded t <$> seq 0 (length chunks)))
    (t_done t - NEGATIVE_CACHE_TTL + 1)) with (c := c2) as (c3 & L1 & L2 & L3 & L4).
  { apply Forall_forall. intros [ch n] Hin. apply elem_of_zip_r in Hin.
    apply list_elem_of_fmap in Hin as (i & -> & _). simpl. specialize (Ht2 i). lia. }
  assert (concat chunks = missing) as Hconcat by (apply concat_chunks; [unfold AUTH_DB_BATCH_LIMIT; lia|done]).
  rewrite Hzip, Hconcat in L3. rewrite L1.
  pose proof (map_subseteq_size _ _ K2). rewrite enforce_small by lia.
  destruct (cached_all _ _ _) as [rs c4] eqn:Hall. pose proof (cached_all_spec (t_done t) (auth_keys lookups)
    (cleanup_expired (t_done t) c3)) as Hrs. rewrite Hall in Hrs. cbn [fst] in *. subst rs. f_equal.
  unfold auth_keys at 1. rewrite <- list_fmap_compose. apply list_fmap_ext. intros i [d r] Hi. cbn [compose fst snd].
  set (key := {| ak_device_id := d; ak_realm := r |}). rewrite cleanup_live by lia.
  specialize (L4 key). rewrite Hzip, Hconcat in L4. specialize (Hmissing key).
  assert (key ∈ auth_keys lookups) as Hkey.
  { apply list_elem_of_fmap. exists (d, r). split; [done|]. by eapply list_elem_of_lookup_2. }
  destruct (live (t_start t) key c) as [v|] eqn:Hlive.
  - rewrite decide_False in L4 by naive_solver. unfold live at 1. rewrite L4. fold (live (t_done t) key c2).
    by rewrite K3 by lia.
  - rewrite decide_True in L4 by naive_solver. destruct L4 as (e & He & Ho & Hx). unfold live. rewrite He. simpl.
    rewrite (proj2 (Z.ltb_lt _ _)) by lia. done.
Qed.

(** The two ways of asking agree.  Whatever the cache holds, what the SIP
    stack is told about a device is what the password provider says: no
    password is asked exactly if none is required, a credential is the one
    stored, non-empty and under the device's name, and a device is refused
    exactly if it is forbidden; a disabled device and one without a record
    always are. *)
Theorem auth_policies_agree (now : Z) (device_id realm : string) (c : DeviceAuthCache) :
  let record := (get now device_id realm c).1 in
  let requirement := (requirement_for now device_id realm c).1 in
  let password := (password_for now device_id realm c).1 in
  match auth_result device_id realm record with
  | Bypass => requirement = Disabled /\ password = None
  | Credential user r secret =>
      requirement = Required /\ password = Some secret /\ user = device_id /\ r = realm /\ secret <> ""%string
  | NotFound | Reject => requirement = Forbidden /\ password = None
  end /\
  (record = None \/ (exists o, record = Some o /\ oa_status o = 0) -> requirement = Forbidden).
Proof.
  intros record requirement password. unfold record, requirement, password, requirement_for, password_for.
  destruct (get now device_id realm c) as [r c1]. cbn [fst snd]. unfold auth_result.
  destruct r as [o|]; simpl; [|done]. destruct (Z.eqb_spec (oa_status o) 0) as [H0|H0]; simpl; [done|].
  split.
  - destruct (Z.eqb_spec (oa_pwd_check o) 0) as [H1|H1]; simpl; [done|].
    destruct (nonempty_password (oa_pwd o)) as [secret|] eqn:Hs; [|done]. split_and!; try done. intros ->.
    unfold nonempty_password in Hs. destruct (oa_pwd o); simpl in Hs; [|done]. case_bool_decide; simplify_eq.
  - intros [|(o' & [= <-] & ?)]; done.
Qed.

Definition demo_oauth : GmvOauth := {|
  oa_device_id := "dev"; oa_domain_id := "dom"; oa_domain := "realm"; oa_pwd := Some "secret"; oa_pwd_check := 1;
  oa_alias := None; oa_status := 1; oa_heartbeat_sec := 60 |}.
Definition demo_db (d : string) : option GmvOauth := if bool_decide (d = "dev"%string) then Some demo_oauth else None.
Definition demo_read (ids : list string) : outcome unit (list GmvOauth) :=
  Done (if bool_decide ("dev"%string ∈ ids) then [demo_oauth] else []).
Lemma demo_read_rows ids : exists rows, demo_read ids = Done rows /\ forall d, d ∈ ids -> oauth_by_device rows !! d = demo_db d.
Proof.
  eexists. split; [done|]. intros d Hd. unfold demo_db. case_bool_decide as H1; case_bool_decide as H2; subst; try done.
  change (oauth_by_device [demo_oauth]) with (<["dev"%string := demo_oauth]> (∅ : gmap string GmvOauth)).
  by rewrite lookup_insert_ne.
Qed.

Lemma auth_lookup_spec_witness :
  let t := {| t_start := 0; t_locked := 1; t_loaded := fun _ => 2; t_done := 3 |} in
  (get_or_load_many demo_read [("dev", "realm"); ("dev", "other"); ("nobody", "realm")]%string t DeviceAuthCache_default).1
  = Done [Some demo_oauth; None; None].
Proof.
  intros t. rewrite (auth_lookup_spec demo_read demo_db _ t DeviceAuthCache_default demo_read_rows); [by vm_compute|..].
  - simpl. lia.
  - intros i. simpl. unfold NEGATIVE_CACHE_TTL. lia.
  - by vm_compute.
Defined.
