(* ===== verification/NativeRuntime.v ===== *)
(** * The native SIP runtime ([session/src/gb/sip/native_runtime.rs])

    The handle through which requests reach the SIP stack, the owner thread's
    treatment of commands and events, and the authorisation task.  The stack
    itself ([gmv_pjsip]) is another repository: whether it accepts a command,
    the events it reports, its snapshot, SDP and association types and the
    contents of the requests are parameters. *)
From S2P Require Import Prelude Text SharedTypes Scheduler Lifecycle SessionCache DialogCache Network CloseService RegisterCore.
From S2P Require Import SipRuntime DeviceAuth.
Local Open Scope Z_scope.

Definition RUNTIME_COMMAND_CAPACITY : Z := 32768.
Inductive SipTransportProtocol := SUdp | STcp | STls.
#[export] Instance SipTransportProtocol_eq_dec : EqDecision SipTransportProtocol.
Proof. solve_decision. Defined.
Inductive SipRuntimeEventKind :=
| AuthLookupRequired | TransportClosed | OutboundResponse | RuntimeFault | RequestReceived
| IncomingInvite | Registered | Unregistered | OtherEvent.
#[export] Instance SipRuntimeEventKind_eq_dec : EqDecision SipRuntimeEventKind.
Proof. solve_decision. Defined.

(** [protocol ALL] does not occur on an association. *)
Definition native_protocol (p : Protocol) : SipTransportProtocol := match p with UDP => SUdp | TCP => STcp end.
Definition session_protocol (p : SipTransportProtocol) : option Protocol :=
  match p with SUdp => Some UDP | STcp => Some TCP | STls => None end.

Inductive RuntimeError := AssociationNotRegistered | QueueUnavailable.

Section NativeRuntime.
Context {A Snap Sdp Assoc Meth Body : Type} `{AssociationLike A} `{Countable Meth} `{!MapIter A}.

(** The fields the handle fills in, and the rest of the request. *)
Record Outbound := {
  ob_operation_id : Z; ob_protocol : SipTransportProtocol; ob_association_id : Z; ob_body : Body
}.
(** A request in a restored dialog; [sd_addresses] is the association its
    addresses were taken from. *)
Record RestoredRequest := {
  sd_operation_id : Z; sd_protocol : SipTransportProtocol; sd_association_id : Z;
  sd_addresses : option A; sd_body : Body
}.
Inductive RuntimeCommand :=
| CompleteAuth (lookup_id : Z) (result : SipAuthLookupResult)
| SendMessage (message : Outbound)
| SendInvite (invite : Outbound)
| SendDialog (operation_id : Z) (body : Body)
| SendRestoredDialog (request : RestoredRequest)
| RespondInvite (call_id : string) (status_code : Z)
| SendSubscribe (subscribe : Outbound)
| CloseTransport' (association_id status : Z).

(** The command queue and whether the owner thread still reads it. *)
Record Handle := {
  association_ids : gmap A Z; next_operation : Z; commands : list RuntimeCommand; owner_alive : bool
}.
Definition with_ids (f : gmap A Z -> gmap A Z) (h : Handle) : Handle := {|
  association_ids := f (association_ids h); next_operation := next_operation h; commands := commands h;
  owner_alive := owner_alive h |}.
Definition with_commands (cs : list RuntimeCommand) (alive : bool) (h : Handle) : Handle := {|
  association_ids := association_ids h; next_operation := next_operation h; commands := cs;
  owner_alive := alive |}.
Notation sent := (outcome RuntimeError unit * Handle)%type.

Definition next_operation_id (h : Handle) : Z * Handle :=
  (next_operation h, {| association_ids := association_ids h;
     next_operation := wrapping_add 64 (next_operation h) 1; commands := commands h; owner_alive := owner_alive h |}).

(** [SyncSender::try_send]: fails when the queue is full or nobody reads it. *)
Definition try_send (command : RuntimeCommand) (h : Handle) : sent :=
  if owner_alive h && (Z.of_nat (length (commands h)) <? RUNTIME_COMMAND_CAPACITY)
  then (Done tt, with_commands (commands h ++ [command]) true h) else (Failed QueueUnavailable, h).

(** The common part of [send_message], [send_invite] and [send_subscribe]. *)
Definition send_outbound (mk : Outbound -> RuntimeCommand) (a : A) (o : Outbound) (h : Handle) : sent :=
  let protocol := native_protocol (assoc_protocol a) in
  let go id := try_send (mk {| ob_operation_id := ob_operation_id o; ob_protocol := protocol;
                               ob_association_id := id; ob_body := ob_body o |}) h in
  match protocol with
  | STcp => match association_ids h !! a with
            | Some id => go id
            | None => (Failed AssociationNotRegistered, h)
            end
  | _ => go 0
  end.
Definition send_message := send_outbound SendMessage.
Definition send_invite := send_outbound SendInvite.
Definition send_subscribe := send_outbound SendSubscribe.
Definition send_dialog_request (operation_id : Z) (body : Body) : Handle -> sent := try_send (SendDialog operation_id body).
Definition send_restored_dialog_request (a : option A) (r : RestoredRequest) (h : Handle) : sent :=
  let go id addrs := try_send (SendRestoredDialog {| sd_operation_id := sd_operation_id r;
        sd_protocol := sd_protocol r; sd_association_id := id; sd_addresses := addrs; sd_body := sd_body r |}) h in
  match sd_protocol r with
  | STcp => match a with
            | None => (Failed AssociationNotRegistered, h)
            | Some a => match association_ids h !! a with
                        | Some id => go id (Some a)
                        | None => (Failed AssociationNotRegistered, h)
                        end
            end
  | _ => go 0 (sd_addresses r)
  end.
Definition respond_invite (call_id : string) (status : Z) : Handle -> sent := try_send (RespondInvite call_id status).

(** A failure to queue the close is only logged. *)
Definition queue_transport_close (association_id status : Z) (h : Handle) : Handle :=
  (try_send (CloseTransport' association_id status) h).2.
Definition close_transport (a : A) (status : Z) (h : Handle) : Handle :=
  match assoc_protocol a with
  | UDP => h
  | TCP => match association_ids h !! a with
           | None => h
           | Some id => queue_transport_close id status (with_ids (delete a) h)
           end
  end.
Definition close_transport_id (association_id status : Z) (h : Handle) : option A * Handle :=
  if association_id =? 0 then (None, h) else
  let a := map_find_key (fun _ id => id =? association_id) (association_ids h) in
  let h1 := match a with Some a => with_ids (delete a) h | None => h end in
  (a, queue_transport_close association_id status h1).

(** ** The owner thread: commands *)

Context (extract_uri extract_tag : string -> option string) (parse_lossy : string -> Sdp).
Context (accepts : TimeScheduleKey -> bool).
Notation SipRuntimeCache := (@SipRuntimeCache Snap Sdp Assoc Meth _ _).
Notation caches := (SipRuntimeCache * Cache)%type.

Definition finish_response (operation_id status : Z) (m : SipResponseMetadata) (s : caches) : caches :=
  ((complete_native_response operation_id status m s.1).2, s.2).
(** A subscription that is not waited for may be a refresh. *)
Definition finish_subscription (operation_id status : Z) (m : SipResponseMetadata) (s : caches) : caches :=
  let '(ok, c, sc) := complete_native_subscription extract_uri extract_tag accepts operation_id status m s.1 s.2 in
  if ok then (c, sc) else finish_response operation_id status m (c, sc).
(** [ok]: whether the stack took the command. *)
Definition execute (command : RuntimeCommand) (ok : bool) (s : caches) : caches :=
  if ok then s else
  match command with
  | SendMessage m => finish_response (ob_operation_id m) 503 SipResponseMetadata_default s
  | SendInvite i => ((fail_native_invite (ob_operation_id i) 503 s.1).2, s.2)
  | SendDialog operation_id _ => finish_response operation_id 503 SipResponseMetadata_default s
  | SendRestoredDialog r => finish_response (sd_operation_id r) 503 SipResponseMetadata_default s
  | SendSubscribe sub => finish_subscription (ob_operation_id sub) 503 SipResponseMetadata_default s
  | CompleteAuth _ _ | RespondInvite _ _ | CloseTransport' _ _ => s
  end.
Fixpoint drain (oks : nat -> bool) (cs : list RuntimeCommand) (s : caches) : caches :=
  match cs with
  | [] => s
  | command :: cs => drain (fun n => oks (S n)) cs (execute command (oks 0%nat) s)
  end.

(** ** Events *)

Record SipRuntimeEvent := {
  ev_kind : SipRuntimeEventKind; ev_protocol : option SipTransportProtocol; ev_status_code : option Z;
  ev_method : option string; ev_call_id : option string; ev_cseq : option Z; ev_content_type : option string;
  ev_body : string; ev_local_addr : option string; ev_remote_addr : option string;
  ev_lookup_id : option Z; ev_device_id : option string; ev_realm : option string;
  ev_expires_seconds : option Z; ev_contact : option string; ev_user_agent : option string;
  ev_gb_version : option string; ev_operation_id : option Z; ev_association_id : option Z;
  ev_from_header : option string; ev_to_header : option string; ev_subject : option string;
  ev_event : option string; ev_subscription_state : option string; ev_dialog_snapshot : option Snap
}.

Definition response_metadata (e : SipRuntimeEvent) : SipResponseMetadata := {|
  rm_call_id := ev_call_id e; rm_cseq := ev_cseq e; rm_event := ev_event e; rm_contact := ev_contact e;
  rm_record_routes := []; rm_from_header := ev_from_header e; rm_to_header := ev_to_header e;
  rm_to_tag := ev_to_header e ≫= extract_tag; rm_expires := ev_expires_seconds e |}.

(** The waiters an event completes. *)
Definition complete_event (e : SipRuntimeEvent) (s : caches) : caches :=
  match ev_operation_id e with
  | None => s
  | Some operation_id =>
      match ev_kind e with
      | OutboundResponse =>
          match ev_status_code e with
          | None => s
          | Some status =>
              if bool_decide (ev_method e = Some "INVITE"%string)
              then ((complete_native_invite parse_lossy operation_id (default ""%string (ev_call_id e)) status
                       (text (utf8_lossy (chars (ev_body e)))) (ev_dialog_snapshot e) s.1).2, s.2)
              else if bool_decide (ev_method e = Some "SUBSCRIBE"%string)
              then finish_subscription operation_id status (response_metadata e) s
              else finish_response operation_id status (response_metadata e) s
          end
      | RuntimeFault =>
          let '(ok, c) := fail_native_invite operation_id 503 s.1 in
          if ok then (c, s.2) else finish_subscription operation_id 503 SipResponseMetadata_default (c, s.2)
      | _ => s
      end
  end.

(** The association of an event; [mk_assoc] is [Association { .. }]. *)
Context (mk_assoc : string -> string -> Protocol -> A).
Definition event_association (e : SipRuntimeEvent) : option (A * Z) :=
  id ← ev_association_id e; protocol ← ev_protocol e ≫= session_protocol;
  local_addr ← ev_local_addr e; remote_addr ← ev_remote_addr e;
  Some (mk_assoc local_addr remote_addr protocol, id).
Definition remember_event_association (e : SipRuntimeEvent) (h : Handle) : Handle :=
  match event_association e with Some (a, id) => with_ids <[a := id]> h | None => h end.
(** Whether the association was forgotten, and the register is told. *)
Definition forget_event_association (e : SipRuntimeEvent) (h : Handle) : option A * Handle :=
  match event_association e with
  | None => (None, h)
  | Some (a, id) =>
      if bool_decide (association_ids h !! a = Some id) then (Some a, with_ids (delete a) h) else (None, h)
  end.

(** ** The authorisation task *)

Record AuthLookup := { al_lookup_id : Z; al_device_id : string; al_realm : string }.
(** The results of a batch are queued until one cannot be; then the task ends. *)
Fixpoint complete_batch (results : list (Z * SipAuthLookupResult)) (h : Handle) : bool * Handle :=
  match results with
  | [] => (true, h)
  | (lookup_id, result) :: results =>
      match try_send (CompleteAuth lookup_id result) h with
      | (Done _, h1) => complete_batch results h1
      | (_, h1) => (false, h1)
      end
  end.
Definition batch_results {E} (batch : list AuthLookup) (oauths : outcome E (list (option GmvOauth)))
    : list (Z * SipAuthLookupResult) :=
  match oauths with
  | Done oauths =>
      zip_with (fun l oauth => (al_lookup_id l, auth_result (al_device_id l) (al_realm l) oauth)) batch oauths
  | _ => (fun l => (al_lookup_id l, Reject)) <$> batch
  end.

(** The threads: the lookups waiting for the authorisation task, which is gone
    once it has ended, and the events passed on. *)
Record Threads := {
  th_handle : Handle; th_lookups : list AuthLookup; th_auth_alive : bool; th_business : list SipRuntimeEvent
}.
Definition on_handle (f : Handle -> Handle) (t : Threads) : Threads := {|
  th_handle := f (th_handle t); th_lookups := th_lookups t; th_auth_alive := th_auth_alive t;
  th_business := th_business t |}.
(** One event of the stack on the owner thread; it exits when nobody takes its
    lookups. *)
Definition owner_event (e : SipRuntimeEvent) (t : Threads) : Threads :=
  if negb (owner_alive (th_handle t)) then t else
  if bool_decide (ev_kind e = AuthLookupRequired) then
    match ev_lookup_id e, ev_device_id e, ev_realm e with
    | Some lookup_id, Some device_id, Some realm =>
        if th_auth_alive t then
          {| th_handle := th_handle t;
             th_lookups := th_lookups t ++ [{| al_lookup_id := lookup_id; al_device_id := device_id; al_realm := realm |}];
             th_auth_alive := true; th_business := th_business t |}
        else on_handle (fun h => with_commands (commands h) false h) t
    | _, _, _ => t
    end
  else {| th_handle := th_handle t; th_lookups := th_lookups t; th_auth_alive := th_auth_alive t;
          th_business := th_business t ++ [e] |}.
(** One batch of the authorisation task, at most [AUTH_DB_BATCH_LIMIT] lookups;
    [load] is the cache's answer. *)
Definition auth_batch {E} (load : list (string * string) -> outcome E (list (option GmvOauth))) (t : Threads) : Threads :=
  if negb (th_auth_alive t) then t else
  match th_lookups t with
  | [] => t
  | _ =>
      let batch := take AUTH_DB_BATCH_LIMIT (th_lookups t) in
      let oauths := load ((fun l => (al_device_id l, al_realm l)) <$> batch) in
      let '(alive, h) := complete_batch (batch_results batch oauths) (th_handle t) in
      {| th_handle := h; th_lookups := if alive then drop AUTH_DB_BATCH_LIMIT (th_lookups t) else [];
         th_auth_alive := alive; th_business := th_business t |}
  end.

(** The event task's treatment of an event's connection: the register is told
    of a connection that is gone. *)
Definition track_association (e : SipRuntimeEvent) (ht : Handle * list A) : Handle * list A :=
  if bool_decide (ev_kind e = TransportClosed) then
    let '(gone, h) := forget_event_association e ht.1 in (h, ht.2 ++ option_list gone)
  else (remember_event_association e ht.1, ht.2).
Definition track_all (es : list SipRuntimeEvent) (ht : Handle * list A) : Handle * list A :=
  foldl (fun ht e => track_association e ht) ht es.

(** ** Connections of a device *)

(** The connection an address pair has after a history: that of its last
    event, unless that very connection was closed. *)
Definition step_id (a : A) (current : option Z) (e : SipRuntimeEvent) : option Z :=
  match event_association e with
  | Some (a', id) =>
      if bool_decide (a' = a) then
        if bool_decide (ev_kind e = TransportClosed)
        then (if bool_decide (current = Some id) then None else current) else Some id
      else current
  | None => current
  end.
Definition connection_id (a : A) (es : list SipRuntimeEvent) (current : option Z) : option Z :=
  foldl (step_id a) current es.
(** How often the register is told that an address pair's connection is gone. *)
Fixpoint losses (a : A) (es : list SipRuntimeEvent) (current : option Z) : nat :=
  match es with
  | [] => 0
  | e :: es =>
      match current, step_id a current e with Some _, None => 1 | _, _ => 0 end
      + losses a es (step_id a current e)
  end.
Definition occurrences (a : A) (l : list A) : nat := length (filter (fun x => x = a) l).

Lemma occurrences_app a l l' : occurrences a (l ++ l') = (occurrences a l + occurrences a l')%nat.
Proof. unfold occurrences. by rewrite filter_app, length_app. Qed.
Lemma occurrences_one a a' : occurrences a [a'] = if decide (a' = a) then 1%nat else 0%nat.
Proof. unfold occurrences. rewrite filter_cons. by case_decide. Qed.
Lemma track_step (e : SipRuntimeEvent) (ht : Handle * list A) (a : A) :
  association_ids (track_association e ht).1 !! a = step_id a (association_ids ht.1 !! a) e /\
  occurrences a (track_association e ht).2 =
  (occurrences a ht.2 + losses a [e] (association_ids ht.1 !! a))%nat.
Proof.
  unfold track_association, forget_event_association, remember_event_association, step_id.
  assert (forall n : option Z, losses a [e] n =
    match n, step_id a n e with Some _, None => 1%nat | _, _ => 0%nat end) as Hl by (intros; simpl; lia).
  rewrite Hl. unfold step_id. clear Hl. destruct (association_ids ht.1 !! a) as [n|] eqn:Hn.
  all: destruct (event_association e) as [[a' id]|]; destruct (bool_decide (ev_kind e = TransportClosed)); cbn [fst snd].
  all: try (destruct (decide (a' = a)) as [->|Hne];
    [rewrite !(bool_decide_true (a = a)) by done; rewrite ?Hn|rewrite !(bool_decide_false (a' = a)) by done]).
  all: repeat case_bool_decide; simplify_eq; simpl;
    rewrite ?occurrences_app, ?lookup_delete_eq, ?lookup_insert_eq, ?lookup_delete_ne, ?lookup_insert_ne, ?Hn by done;
    rewrite ?occurrences_one; repeat case_decide; simplify_eq; try (split; [congruence|]); change (occurrences a []) with 0%nat; lia.
Qed.
Lemma track_keeps es : forall ht, commands (track_all es ht).1 = commands ht.1 /\
  owner_alive (track_all es ht).1 = owner_alive ht.1.
Proof.
  induction es as [|e es IH]; intros ht; [done|]. simpl. destruct (IH (track_association e ht)) as [-> ->].
  unfold track_association, forget_event_association, remember_event_association.
  destruct (bool_decide _); destruct (event_association e) as [[a id]|]; try done.
  by destruct (bool_decide (association_ids ht.1 !! a = Some id)).
Qed.
Lemma losses_cons a e es current :
  losses a (e :: es) current = (losses a [e] current + losses a es (step_id a current e))%nat.
Proof. simpl. lia. Qed.
Lemma track_all_ids es : forall ht a,
  association_ids (track_all es ht).1 !! a = connection_id a es (association_ids ht.1 !! a) /\
  occurrences a (track_all es ht).2 = (occurrences a ht.2 + losses a es (association_ids ht.1 !! a))%nat.
Proof.
  induction es as [|e es IH]; intros ht a; [simpl; split; [done|lia]|].
  destruct (track_step e ht a) as [K1 K2]. destruct (IH (track_association e ht) a) as [I1 I2].
  simpl track_all. simpl connection_id. rewrite I1, I2, K2, K1, (losses_cons a e es). split; [done|lia].
Qed.


(** ** A full command queue *)

Lemma auth_batch_full {E} (load : list (string * string) -> outcome E (list (option GmvOauth))) (t : Threads) :
  th_auth_alive t = true -> th_lookups t <> [] ->
  RUNTIME_COMMAND_CAPACITY <= Z.of_nat (length (commands (th_handle t))) ->
  (forall ks, exists l, load ks = Done l /\ length l = length ks) ->
  auth_batch load t = {| th_handle := th_handle t; th_lookups := []; th_auth_alive := false;
                         th_business := th_business t |}.
Proof.
  intros Hauth Hne Hfull Hload. unfold auth_batch. rewrite Hauth. simpl.
  destruct (th_lookups t) as [|l ls]; [done|]. set (ks := _ <$> _). destruct (Hload ks) as (os & -> & Hlen).
  unfold ks, AUTH_DB_BATCH_LIMIT in *. rewrite length_fmap in Hlen.
  change (take 2000 (l :: ls)) with (l :: take 1999 ls) in *. destruct os as [|o os]; [done|].
  cbn [batch_results zip_with complete_batch]. unfold try_send. by rewrite (proj2 (Z.ltb_ge _ _) Hfull), andb_false_r.
Qed.

(** The lookup of an event. *)
Definition is_lookup (e : SipRuntimeEvent) : Prop :=
  ev_kind e = AuthLookupRequired /\ is_Some (ev_lookup_id e) /\ is_Some (ev_device_id e) /\ is_Some (ev_realm e).

(** A full command queue stops SIP for good.  When the authorisation task
    has a lookup to answer while the command queue is full, it ends; the next
    device that authenticates then makes the owner thread exit, and from then
    on every send fails and every further event is ignored, whatever room the
    queue has. *)
Theorem full_queue_stops_sip {E} (load : list (string * string) -> outcome E (list (option GmvOauth)))
    (t : Threads) (e e' : SipRuntimeEvent) (command : RuntimeCommand) :
  th_auth_alive t = true -> owner_alive (th_handle t) = true -> th_lookups t <> [] ->
  RUNTIME_COMMAND_CAPACITY <= Z.of_nat (length (commands (th_handle t))) ->
  (forall ks, exists l, load ks = Done l /\ length l = length ks) -> is_lookup e ->
  let t1 := auth_batch load t in
  let t2 := owner_event e (on_handle (with_commands [] true) t1) in
  th_auth_alive t1 = false /\ owner_alive (th_handle t2) = false /\
  try_send command (th_handle t2) = (Failed QueueUnavailable, th_handle t2) /\
  owner_event e' t2 = t2.
Proof.
  intros Hauth Hown Hne Hfull Hload (Hk & [lid Hl] & [did Hd] & [realm Hr]).
  rewrite (auth_batch_full load t Hauth Hne Hfull Hload). cbv zeta.
  assert (owner_event e (on_handle (with_commands [] true) {| th_handle := th_handle t; th_lookups := [];
     th_auth_alive := false; th_business := th_business t |}) = {| th_handle := with_commands [] false (th_handle t);
     th_lookups := []; th_auth_alive := false; th_business := th_business t |}) as ->.
  { unfold owner_event. simpl. by rewrite Hk, Hl, Hd, Hr. }
  split_and!; [done..|]. unfold owner_event. by destruct (negb _) eqn:Hn.
Qed.
End NativeRuntime.

(** ** Witnesses *)

Notation demo_native_event := (@SipRuntimeEvent string).
Definition demo_event (kind : SipRuntimeEventKind) (id : Z) : demo_native_event := {|
  ev_kind := kind; ev_protocol := Some STcp; ev_status_code := None; ev_method := None; ev_call_id := None;
  ev_cseq := None; ev_content_type := None; ev_body := ""; ev_local_addr := Some "l"%string;
  ev_remote_addr := Some "r"%string; ev_lookup_id := Some 9; ev_device_id := Some "d"%string;
  ev_realm := Some "realm"%string; ev_expires_seconds := None; ev_contact := None; ev_user_agent := None;
  ev_gb_version := None; ev_operation_id := None; ev_association_id := Some id; ev_from_header := None;
  ev_to_header := None; ev_subject := None; ev_event := None; ev_subscription_state := None;
  ev_dialog_snapshot := None |}.
Definition demo_handle (n : nat) : @Handle Z unit _ _ := {|
  association_ids := ∅; next_operation := 1; commands := repeat (RespondInvite "call" 501) n; owner_alive := true |}.
Definition demo_outbound : @Outbound unit :=
  {| ob_operation_id := 3; ob_protocol := SUdp; ob_association_id := 0; ob_body := tt |}.
(** A new connection, then the late report that the previous one was closed. *)
Definition demo_history : list demo_native_event :=
  [demo_event OtherEvent 1; demo_event OtherEvent 2; demo_event TransportClosed 1].


Definition demo_threads : @Threads Z string unit _ _ := {|
  th_handle := demo_handle (Z.to_nat 32768);
  th_lookups := [{| al_lookup_id := 4; al_device_id := "d"; al_realm := "realm" |}];
  th_auth_alive := true; th_business := [] |}.
Lemma full_queue_stops_sip_witness :
  th_auth_alive (auth_batch (fun ks => Done (E := unit) (repeat None (length ks))) demo_threads) = false.
Proof.
  refine (proj1 (full_queue_stops_sip _ demo_threads (demo_event AuthLookupRequired 0) (demo_event OtherEvent 1)
    (RespondInvite "x" 200) eq_refl eq_refl _ _ _ _)).
  - discriminate.
  - vm_compute. discriminate.
  - intros ks. exists (repeat None (length ks)). split; [reflexivity|apply repeat_length].
  - repeat split; eexists; reflexivity.
Defined.
