(* ===== verification/Subscription.v ===== *)
(** * Catalog subscriptions ([session/src/gb/sip/subscription.rs])

    Subscribing, refreshing, retrying and ending a device's catalog
    subscription.  Every operation that waits for an answer is split at its
    [await]: what it does before, and what it does with the answer. *)
From Stdlib Require Import Ascii.
From stdpp Require Import pretty.
From S2P Require Import Prelude Text SharedTypes Scheduler Lifecycle SessionCache DialogCache Network CloseService RegisterCore.
From S2P Require Import SipRuntime Xml NativeRuntime.
Local Open Scope Z_scope.

Definition SUBSCRIBE_WAIT_TIMEOUT : Z := 8000.
Definition CATALOG_EVENT : string := "Catalog".
Definition GB_XML_CONTENT_TYPE : string := "Application/MANSCDP+xml".

(** [gb/mod.rs]; addresses in text. *)
Record SessionConf := {
  sc_domain : string; sc_domain_id : string; sc_http_source : string; sc_lan_ip : string; sc_wan_ip : string;
  sc_lan_port : Z; sc_wan_port : Z
}.

(** [target_uri] of [message.rs], [pjsip_protocol_from_base] of [adapter.rs]. *)
Definition target_uri (device_id host : string) (port : Z) (protocol : SipTransportProtocol) : string :=
  match protocol with
  | SUdp => "sip:" +:+ device_id +:+ "@" +:+ host +:+ ":" +:+ pretty port
  | STcp => "sip:" +:+ device_id +:+ "@" +:+ host +:+ ":" +:+ pretty port +:+ ";transport=tcp"
  | STls => "sips:" +:+ device_id +:+ "@" +:+ host +:+ ":" +:+ pretty port +:+ ";transport=tls"
  end.
Definition pjsip_protocol_from_base (p : Protocol) : SipTransportProtocol :=
  match p with TCP => STcp | _ => SUdp end.

(** [SipOutboundSubscribe], less the fields the handle sets. *)
Record SubscribeBody := {
  sb_target_uri : string; sb_from_uri : string; sb_contact_uri : string; sb_call_id : option string;
  sb_event : string; sb_expires : Z; sb_content_type : string; sb_body : list ascii
}.

Inductive SubscribeError := NotConnected | Unavailable | SubscribeTimeout (reason : string)
  | Rejected (status : Z) | StateChanged.

(** The tasks this part spawns: [retry_new_catalog_subscription], asleep for a
    delay before its next attempt. *)
Record Retry := { rt_device_id : string; rt_expires : Z; rt_delay : Z }.

(** Two parts of a [Subscription-State] value. *)
Definition expires_of_part (part : list ascii) : option Z :=
  '(key, value) ← split_once "="%char part;
  if eq_ignore_ascii_case key (chars "expires") then parse_u32 (text (trim value)) else None.
Definition parse_subscription_state (value : list ascii) : list ascii * option Z :=
  match trim <$> split_on ";"%char value with
  | state :: rest => (state, head (omap expires_of_part rest))
  | [] => ([], None)
  end.

Section Subscription.
Context {A Snap Sdp Assoc Meth : Type} `{AssociationLike A} `{Countable Meth} `{!MapIter A}.
Context (extract_uri : string -> option string) (accepts : TimeScheduleKey -> bool).
(** The peer's address, the configuration, the text of an instant and the
    encoders. *)
Context (remote_ip : A -> string) (remote_port : A -> Z) (conf : SessionConf).
Context (clock_text : Z -> string) (encode : XmlEncoding -> list ascii -> list ascii).

Notation SipRuntimeCache := (@SipRuntimeCache Snap Sdp Assoc Meth _ _).
Notation Inner := (@Inner A _ _).
Notation Handle := (@Handle A SubscribeBody _ _).

(** The register with the session cache, the SIP waiters, the runtime handle and
    whether it is installed as the global one, and the retry tasks. *)
Record World := {
  w_reg : Inner; w_sip : SipRuntimeCache; w_handle : Handle; w_installed : bool; w_retries : list Retry
}.
Definition on_reg (f : Inner -> Inner) (w : World) : World :=
  {| w_reg := f (w_reg w); w_sip := w_sip w; w_handle := w_handle w; w_installed := w_installed w; w_retries := w_retries w |}.
Definition on_sip (f : SipRuntimeCache -> SipRuntimeCache) (w : World) : World :=
  {| w_reg := w_reg w; w_sip := f (w_sip w); w_handle := w_handle w; w_installed := w_installed w; w_retries := w_retries w |}.
Definition with_handle (h : Handle) (w : World) : World :=
  {| w_reg := w_reg w; w_sip := w_sip w; w_handle := h; w_installed := w_installed w; w_retries := w_retries w |}.
Definition spawn_retry (t : Retry) (w : World) : World :=
  {| w_reg := w_reg w; w_sip := w_sip w; w_handle := w_handle w; w_installed := w_installed w; w_retries := w_retries w ++ [t] |}.
Definition subscriptions (w : World) : gmap string CatalogSubscriptionState :=
  catalog_subscriptions (general_cache (w_reg w)).
Definition on_session (f : Cache -> Cache) : World -> World := on_reg (on_cache f).

Definition retry_new_catalog_subscription (device_id : string) (expires : Z) : World -> World :=
  spawn_retry {| rt_device_id := device_id; rt_expires := expires; rt_delay := 5000 |}.
Definition schedule_catalog_retry (device_id : string) (generation expires : Z) : World -> World :=
  on_session (schedule_catalog accepts device_id generation (Z.max 1 (Z.min 30 expires) * 1000)).

(** [sn] is what [next_sn] returned. *)
Definition catalog_subscription_body (sn now : Z) (device_id : string) (expires : Z) : list ascii :=
  chars (build_catalog_subscription sn device_id (clock_text now) (clock_text (now + expires * 1000))).

Definition mark_failed (device_id : string) (generation : Z) : World -> World :=
  on_session (fun c => (catalog_subscription_mark_failed device_id generation c).2).

(** ** Subscribing *)

Inductive Waiting := WFailed (e : SubscribeError) | WAnswer (operation_id tx : Z).

Definition subscribe_catalog_once (now sn : Z) (device_id : string) (expires : Z) (w : World) : Waiting * World :=
  match get_connected_device_session device_id (w_reg w) with
  | None => (WFailed NotConnected, w)
  | Some s =>
      if negb (w_installed w) then (WFailed Unavailable, w) else
      let protocol := pjsip_protocol_from_base (assoc_protocol (association s)) in
      let remote_target := target_uri device_id (remote_ip (association s)) (remote_port (association s)) protocol in
      let '(operation_id, h1) := next_operation_id (w_handle w) in
      let '(tx, c1) := insert_native_subscription_waiter operation_id
        {| nsm_device_id := device_id; nsm_event := CATALOG_EVENT; nsm_expires := expires;
           nsm_remote_target := remote_target |} SUBSCRIBE_WAIT_TIMEOUT now (w_sip w) in
      let w1 := with_handle h1 (on_sip (fun _ => c1) w) in
      let body := {|
        sb_target_uri := remote_target;
        sb_from_uri := "<sip:" +:+ sc_domain_id conf +:+ "@" +:+ sc_domain conf +:+ ">";
        sb_contact_uri := "<" +:+ target_uri (sc_domain_id conf) (sc_wan_ip conf) (sc_wan_port conf) protocol +:+ ">";
        sb_call_id := None; sb_event := CATALOG_EVENT; sb_expires := expires; sb_content_type := GB_XML_CONTENT_TYPE;
        sb_body := encode_document encode (catalog_subscription_body sn now device_id expires) (gb_version s) |} in
      match send_subscribe (association s)
              {| ob_operation_id := operation_id; ob_protocol := protocol; ob_association_id := 0; ob_body := body |} h1 with
      | (Done _, h2) => (WAnswer operation_id tx, with_handle h2 w1)
      | (_, h2) => (WFailed Unavailable,
                    on_sip (remove_native_subscription_waiter operation_id) (with_handle h2 w1))
      end
  end.
(** With the reply; [None] while it waits. *)
Definition subscribe_answer (operation_id tx : Z) (timed_out : bool) (w : World) : option (outcome SubscribeError unit * World) :=
  match recv_with_timeout tx timed_out (w_sip w) with
  | None => None
  | Some (inl (RResponse r)) =>
      Some (if (200 <=? rr_status r) && (rr_status r <? 300) then Done tt else Failed (Rejected (rr_status r)),
            on_sip (drop_receiver tx) w)
  | Some (inr reason) =>
      Some (Failed (SubscribeTimeout reason),
            on_sip (fun c => remove_native_subscription_waiter operation_id (drop_receiver tx c)) w)
  | Some (inl _) => Some (Panic, w)
  end.
(** [subscribe_catalog]: its end on an outcome. *)
Definition subscribe_catalog_end (device_id : string) (expires : Z) (o : outcome SubscribeError unit) (w : World) : World :=
  match o with
  | Done _ => w
  | _ => retry_new_catalog_subscription device_id (Z.max expires 1) w
  end.

(** A retry task that wakes up: it ends, or makes its attempt. *)
Definition retry_wakes (now sn : Z) (t : Retry) (w : World) : option Waiting * World :=
  match get_connected_device_session (rt_device_id t) (w_reg w) with
  | None => (None, w)
  | Some _ =>
      let '(a, w1) := subscribe_catalog_once now sn (rt_device_id t) (rt_expires t) w in (Some a, w1)
  end.
(** An attempt that failed sleeps again. *)
Definition retry_end (t : Retry) (o : outcome SubscribeError unit) (w : World) : World :=
  match o with
  | Done _ => w
  | _ => spawn_retry {| rt_device_id := rt_device_id t; rt_expires := rt_expires t; rt_delay := 30000 |} w
  end.

(** ** Refreshing *)

Inductive Refresh := RSkipped | RFailed (e : SubscribeError)
  | RAnswer (operation_id tx : Z) (command : CatalogSubscriptionCommand).

Definition refresh_catalog_subscription (now sn : Z) (device_id : string) (generation : Z) (w : World) : Refresh * World :=
  match catalog_subscription_take_refresh device_id generation (general_cache (w_reg w)) with
  | (None, _) => (RSkipped, w)
  | (Some command, c1) =>
      let w1 := on_session (fun _ => c1) w in
      match get_connected_device_session device_id (w_reg w1) with
      | None => (RFailed NotConnected, mark_failed device_id generation w1)
      | Some s =>
          if negb (w_installed w1) then (RFailed Unavailable, w1) else
          let '(operation_id, h1) := next_operation_id (w_handle w1) in
          let '(tx, c2) := insert_native_response_waiter operation_id SUBSCRIBE_WAIT_TIMEOUT now (w_sip w1) in
          let w2 := with_handle h1 (on_sip (fun _ => c2) w1) in
          let body := {|
            sb_target_uri := ""; sb_from_uri := ""; sb_contact_uri := "";
            sb_call_id := Some (cc_call_id command); sb_event := cc_event command;
            sb_expires := cc_expires command; sb_content_type := GB_XML_CONTENT_TYPE;
            sb_body := encode_document encode
              (catalog_subscription_body sn now device_id (cc_expires command)) (gb_version s) |} in
          match send_subscribe (association s)
                  {| ob_operation_id := operation_id;
                     ob_protocol := pjsip_protocol_from_base (assoc_protocol (association s));
                     ob_association_id := 0; ob_body := body |} h1 with
          | (Done _, h2) => (RAnswer operation_id tx command, with_handle h2 w2)
          | (_, h2) => (RFailed Unavailable,
              mark_failed device_id generation
                (on_sip (remove_native_response_waiter operation_id) (with_handle h2 w2)))
          end
      end
  end.

(** The expiry agreed on, when the subscription is still this one. *)
Definition complete_catalog_subscription (device_id : string) (generation : Z)
    (fallback_remote_target fallback_from_header fallback_to_header : string) (requested_expires : Z)
    (m : SipResponseMetadata) (w : World) : outcome SubscribeError Z * World :=
  let remote_target := default fallback_remote_target (rm_contact m ≫= extract_uri) in
  let from_header := default fallback_from_header (rm_from_header m) in
  let to_header := default fallback_to_header (rm_to_header m) in
  let '(ok, c1) := catalog_subscription_complete device_id generation remote_target [] from_header to_header
                     (default ""%string (rm_to_tag m)) (general_cache (w_reg w)) in
  if ok then
    let expires := Z.max (default requested_expires (rm_expires m)) 1 in
    (Done expires, on_session (fun _ => (catalog_subscription_update_expires device_id generation expires c1).2) w)
  else (Failed StateChanged, w).

Definition complete_refresh (device_id : string) (command : CatalogSubscriptionCommand) (r : SipResponseResult)
    (w : World) : outcome SubscribeError unit * World :=
  let generation := cc_generation command in
  if (200 <=? rr_status r) && (rr_status r <? 300) then
    match complete_catalog_subscription device_id generation (cc_remote_target command) (cc_from_header command)
            (cc_to_header command) (cc_expires command) (rr_metadata r) w with
    | (Done expires, w1) => (Done tt, on_session (schedule_catalog_refresh accepts device_id generation expires) w1)
    | (_, w1) => (Failed StateChanged,
                  schedule_catalog_retry device_id generation (cc_expires command) (mark_failed device_id generation w1))
    end
  else if rr_status r =? 481 then
    (Done tt, retry_new_catalog_subscription device_id (cc_expires command)
                (on_session (fun c => (catalog_subscription_remove device_id (Some generation) c).2) w))
  else (Failed (Rejected (rr_status r)),
        schedule_catalog_retry device_id generation (cc_expires command) (mark_failed device_id generation w)).

(** The refresh with its answer; [None] while it waits. *)
Definition refresh_answer (device_id : string) (operation_id tx : Z) (command : CatalogSubscriptionCommand)
    (timed_out : bool) (w : World) : option (outcome SubscribeError unit * World) :=
  let generation := cc_generation command in
  match recv_with_timeout tx timed_out (w_sip w) with
  | None => None
  | Some (inl (RResponse r)) => Some (complete_refresh device_id command r (on_sip (drop_receiver tx) w))
  | Some (inr reason) =>
      Some (Failed (SubscribeTimeout reason),
        schedule_catalog_retry device_id generation (cc_expires command)
          (mark_failed device_id generation
            (on_sip (fun c => remove_native_response_waiter operation_id (drop_receiver tx c)) w)))
  | Some (inl _) => Some (Panic, w)
  end.

(** ** A NOTIFY *)

Definition terminate_catalog_subscription (device_id : string) (generation : Z) (w : World) : World :=
  let expires := catalog_subscription_expires device_id generation (general_cache (w_reg w)) in
  let '(removed, c1) := catalog_subscription_remove device_id (Some generation) (general_cache (w_reg w)) in
  let w1 := on_session (fun _ => c1) w in
  match removed, expires with
  | true, Some expires => retry_new_catalog_subscription device_id expires w1
  | _, _ => w1
  end.

Definition accept_catalog_notify (call_id event from_tag to_tag subscription_state : option string)
    (device_id : string) (w : World) : bool * World :=
  match call_id, event with
  | Some call_id, Some event_header =>
      match catalog_subscription_validate_notify device_id call_id event_header from_tag to_tag
              (general_cache (w_reg w)) with
      | (None, _) => (false, w)
      | (Some generation, c1) =>
          let w1 := on_session (fun _ => c1) w in
          (true,
           match subscription_state with
           | None => w1
           | Some state =>
               let '(state, expires) := parse_subscription_state (chars state) in
               if eq_ignore_ascii_case state (chars "terminated")
               then terminate_catalog_subscription device_id generation w1
               else match expires with
                    | Some expires =>
                        let expires := Z.max expires 1 in
                        on_session (fun c => schedule_catalog_refresh accepts device_id generation expires
                          (catalog_subscription_update_expires device_id generation expires c).2) w1
                    | None => w1
                    end
           end)
      end
  | _, _ => (false, w)
  end.
End Subscription.
