(* ===== verification/SubscriptionProps.v ===== *)
(** * What catalog subscriptions guarantee

    A refresh that was sent always leads to another one or to a new
    subscription; what a NOTIFY and the answer to a SUBSCRIBE change. *)
From Stdlib Require Import Ascii.
From S2P Require Import Prelude Text SharedTypes Scheduler Lifecycle SessionCache DialogCache Network CloseService RegisterCore.
From S2P Require Import SipRuntime Xml NativeRuntime Subscription.
Local Open Scope Z_scope.

Lemma catalog_armed_last log k ttl : armed_after (log ++ [ReqDelete k; ReqInsert k ttl]) k = true.
Proof. rewrite armed_after_app. cbn [armed_from foldl]. unfold armed_step. by rewrite !decide_True. Qed.

(** A refresh is due before its subscription ends.  For any expiry the delay
    is at least a second, at most the expiry, and for two seconds or more ahead
    of it by a tenth of it, between one and thirty seconds. *)
Theorem catalog_refresh_delay_bounds (expires : Z) :
  1 <= expires <= umax 32 ->
  1000 <= catalog_refresh_delay expires <= expires * 1000 /\
  (2 <= expires -> exists ahead, 1 <= ahead <= 30 /\ (ahead <= expires / 10 \/ ahead = 1) /\
     catalog_refresh_delay expires = (expires - ahead) * 1000).
Proof.
  intros He. unfold catalog_refresh_delay, saturating_sub.
  pose proof (Z.div_mod expires 10 ltac:(lia)). pose proof (Z.mod_pos_bound expires 10 ltac:(lia)).
  split; [lia|]. intros H2. exists (Z.max 1 (Z.min 30 (expires / 10))). split_and!; lia.
Qed.

Section SubscriptionProps.
Context {A Snap Sdp Assoc Meth : Type} `{AssociationLike A} `{Countable Meth} `{!MapIter A}.
Context (extract_uri extract_tag : string -> option string) (accepts : TimeScheduleKey -> bool).
Context (remote_ip : A -> string) (remote_port : A -> Z) (conf : SessionConf).
Context (clock_text : Z -> string) (encode : XmlEncoding -> list ascii -> list ascii).
Notation World := (@World A Snap Sdp Assoc Meth _ _ _ _).
Notation answer_of := (refresh_answer extract_uri accepts).

Definition refresh_armed (device_id : string) (generation : Z) (w : World) : Prop :=
  armed_after (requests (general_cache (w_reg w))) (SRegister (CatalogSubscription device_id generation)) = true.
(** The subscription can be refreshed again: it is not waiting for an answer,
    so that the next expiry of its timer is not skipped. *)
Definition refreshable (device_id : string) (generation : Z) (w : World) : Prop :=
  exists s, subscriptions w !! device_id = Some s /\ cs_generation s = generation /\ cs_inflight s = false.

Lemma schedule_armed device_id generation delay (w : World) :
  accepts (CatalogSubscription device_id generation) = true ->
  refresh_armed device_id generation (on_session (schedule_catalog accepts device_id generation delay) w).
Proof.
  intros Ha. unfold refresh_armed, on_session, on_reg, on_cache, schedule_catalog, request. simpl. rewrite Ha. simpl.
  rewrite <- app_assoc. apply catalog_armed_last.
Qed.
Lemma schedule_subscriptions device_id generation delay (w : World) :
  subscriptions (on_session (schedule_catalog accepts device_id generation delay) w) = subscriptions w.
Proof. unfold subscriptions, on_session, schedule_catalog. simpl. by case_match. Qed.
Lemma schedule_refreshable d g device_id generation delay (w : World) :
  refreshable d g w -> refreshable d g (on_session (schedule_catalog accepts device_id generation delay) w).
Proof. unfold refreshable. by rewrite schedule_subscriptions. Qed.
Lemma mark_failed_refreshable device_id generation s (w : World) :
  subscriptions w !! device_id = Some s -> cs_generation s = generation ->
  refreshable device_id generation (mark_failed device_id generation w).
Proof.
  intros Hs Hg. unfold mark_failed, refreshable, subscriptions, on_session, catalog_subscription_mark_failed in *.
  simpl. rewrite Hs, bool_decide_false by (intros Hn; by apply Hn). simpl. rewrite lookup_insert_eq. by eexists.
Qed.

Lemma complete_subscription_current device_id generation t f to_ expires m s (w : World) :
  subscriptions w !! device_id = Some s -> cs_generation s = generation ->
  exists e w1, complete_catalog_subscription extract_uri device_id generation t f to_ expires m w = (Done e, w1) /\
    refreshable device_id generation w1 /\ w_retries w1 = w_retries w.
Proof.
  intros Hs Hg. unfold complete_catalog_subscription, catalog_subscription_complete, subscriptions in *.
  rewrite Hs, bool_decide_false by (intros Hn; by apply Hn). eexists _, _. split; [reflexivity|]. split; [|done].
  unfold refreshable, subscriptions, on_session, catalog_subscription_update_expires. simpl.
  rewrite lookup_insert_eq, bool_decide_false by (simpl; intros Hn; by apply Hn). simpl.
  rewrite lookup_insert_eq. eexists. split; [reflexivity|]. by simpl.
Qed.

(** C13: a refresh that was sent leads on.  Whatever becomes of it (an answer of
    any status, no answer in time, a waiter that was dropped), a subscription
    that is still the one refreshed is afterwards refreshable with its timer
    pending, when the wheel takes it; or the device answered that it does not
    know it, the subscription is gone, and a task subscribes anew. *)
Theorem refresh_leads_on (w w' : World) (device_id : string) (operation_id tx : Z)
    (command : CatalogSubscriptionCommand) (s : CatalogSubscriptionState) (timed_out : bool)
    (o : outcome SubscribeError unit) :
  let generation := cc_generation command in
  subscriptions w !! device_id = Some s -> cs_generation s = generation ->
  accepts (CatalogSubscription device_id generation) = true ->
  answer_of device_id operation_id tx command timed_out w = Some (o, w') -> o <> Panic ->
  (refreshable device_id generation w' /\ refresh_armed device_id generation w' /\ w_retries w' = w_retries w) \/
  (subscriptions w' !! device_id = None /\
   w_retries w' = w_retries w ++ [{| rt_device_id := device_id; rt_expires := cc_expires command; rt_delay := 5000 |}]).
Proof.
  intros generation Hs Hg Ha Hans Ho. unfold refresh_answer in Hans. fold generation in Hans.
  assert (forall w0 : World, subscriptions w0 = subscriptions w -> w_retries w0 = w_retries w ->
    refreshable device_id generation (schedule_catalog_retry accepts device_id generation (cc_expires command)
      (mark_failed device_id generation w0)) /\
    refresh_armed device_id generation (schedule_catalog_retry accepts device_id generation (cc_expires command)
      (mark_failed device_id generation w0)) /\
    w_retries (schedule_catalog_retry accepts device_id generation (cc_expires command)
      (mark_failed device_id generation w0)) = w_retries w) as Hretry.
  { intros w0 H0' H1'. split_and!; [apply schedule_refreshable|apply schedule_armed; done|done].
    apply (mark_failed_refreshable _ _ s); [by rewrite H0'|done]. }
  destruct (recv_with_timeout tx timed_out (w_sip w)) as [[[| |r| | |]|reason]|]; try by simplify_eq.
  2: { injection Hans as <- <-. left. by apply Hretry. }
  injection Hans as Hans. unfold complete_refresh in Hans. fold generation in Hans.
  set (w0 := on_sip (drop_receiver tx) w) in *.
  destruct ((200 <=? rr_status r) && (rr_status r <? 300)).
  - destruct (complete_subscription_current device_id generation (cc_remote_target command)
      (cc_from_header command) (cc_to_header command) (cc_expires command) (rr_metadata r) s w0 Hs Hg)
      as (e & w1 & Hc & Hr1 & Hr2). rewrite Hc in Hans. injection Hans as <- <-. left.
    split_and!; [by apply schedule_refreshable|by apply schedule_armed|done].
  - destruct (rr_status r =? 481).
    + injection Hans as <- <-. right. split; [|done]. unfold subscriptions, on_session in *. simpl.
      unfold catalog_subscription_remove. rewrite Hs, bool_decide_true by done. simpl. apply lookup_delete_eq.
    + injection Hans as <- <-. left. by apply Hretry.
Qed.

(** A late refusal subscribes twice.  When the device registers anew while
    a refresh is unanswered, its subscription is replaced; if the old request is
    then answered 481, a task that subscribes again is started all the same,
    beside the subscription in place.  (The end of a subscription by a NOTIFY
    starts such a task only when it removed something.) *)
Theorem late_refusal_subscribes_twice (w : World) (device_id : string) (operation_id tx : Z)
    (command : CatalogSubscriptionCommand) (s : CatalogSubscriptionState) (m : SipResponseMetadata) (timed_out : bool) :
  subscriptions w !! device_id = Some s -> cs_generation s <> cc_generation command ->
  recv_with_timeout tx timed_out (w_sip w) = Some (inl (RResponse {| rr_status := 481; rr_metadata := m |})) ->
  exists w', answer_of device_id operation_id tx command timed_out w = Some (Done tt, w') /\
    general_cache (w_reg w') = general_cache (w_reg w) /\
    w_retries w' = w_retries w ++ [{| rt_device_id := device_id; rt_expires := cc_expires command; rt_delay := 5000 |}] /\
    terminate_catalog_subscription device_id (cc_generation command) w = on_session (fun c => c) w.
Proof.
  intros Hs Hg Hr. unfold refresh_answer. rewrite Hr. eexists. split; [reflexivity|].
  unfold complete_refresh, terminate_catalog_subscription, catalog_subscription_remove, subscriptions in *.
  simpl. rewrite Hs, bool_decide_false by done. done.
Qed.

(** ** NOTIFY *)

(** The subscription a NOTIFY belongs to. *)
Definition notify_for (call_id event : string) (from_tag to_tag : option string) (s : CatalogSubscriptionState) : Prop :=
  cs_call_id s = call_id /\ catalog_event_matches (cs_event s) event = true /\ to_tag = Some (cs_local_tag s) /\
  exists tag, from_tag = Some tag /\ (cs_remote_tag s = ""%string \/ cs_remote_tag s = tag).
(** It with the tag of the NOTIFY. *)
Definition tagged (tag : string) (s : CatalogSubscriptionState) : CatalogSubscriptionState :=
  with_subscription (cs_seq s) (cs_expires s) tag (cs_inflight s) s.

Lemma with_subscription_same s : with_subscription (cs_seq s) (cs_expires s) (cs_remote_tag s) (cs_inflight s) s = s.
Proof. by destruct s. Qed.

Lemma validate_notify_accepts device_id call_id event from_tag to_tag s (c : Cache) :
  catalog_subscriptions c !! device_id = Some s -> notify_for call_id event from_tag to_tag s ->
  exists tag c1, from_tag = Some tag /\
    catalog_subscription_validate_notify device_id call_id event from_tag to_tag c = (Some (cs_generation s), c1) /\
    requests c1 = requests c /\ catalog_subscriptions c1 !! device_id = Some (tagged tag s).
Proof.
  intros Hs (Hc & He & Ht & tag & -> & Htag). exists tag. unfold catalog_subscription_validate_notify.
  rewrite Hs, (bool_decide_false (cs_call_id s <> call_id)), He, (bool_decide_false (to_tag <> _))
    by (intros Hn; by apply Hn). simpl.
  case_bool_decide as H0'; [eexists; split_and!; try done; simpl; apply lookup_insert_eq|].
  destruct Htag as [Htag|Htag]; [done|]. rewrite bool_decide_true by done. exists c. split_and!; try done.
  rewrite Hs. unfold tagged. rewrite <- Htag. by rewrite with_subscription_same.
Qed.
Lemma validate_notify_inv device_id call_id event from_tag to_tag (c c1 : Cache) g :
  catalog_subscription_validate_notify device_id call_id event from_tag to_tag c = (Some g, c1) ->
  exists s, catalog_subscriptions c !! device_id = Some s /\ notify_for call_id event from_tag to_tag s.
Proof.
  unfold catalog_subscription_validate_notify. destruct (catalog_subscriptions c !! device_id) as [s|]; [|done].
  intros Hv. exists s. split; [done|]. destruct (bool_decide (cs_call_id s <> call_id)) eqn:E1; [done|].
  destruct (catalog_event_matches (cs_event s) event) eqn:E2; [|done].
  destruct (bool_decide (to_tag <> Some (cs_local_tag s))) eqn:E3; [done|]. simpl in Hv.
  apply bool_decide_eq_false in E1, E3. apply dec_stable in E1, E3.
  destruct from_tag as [tag|]; [|done]. split_and!; [done..|]. exists tag. split; [done|].
  case_bool_decide; [by left|]. right. case_bool_decide; [done|by simplify_eq].
Qed.

(** What its [Subscription-State] asks for. *)
Inductive notify_change := NEnds | NExpires (expires : Z) | NKeeps.
Definition change_of (state : option string) : notify_change :=
  match state with
  | None => NKeeps
  | Some state =>
      let '(st, expires) := parse_subscription_state (chars state) in
      if eq_ignore_ascii_case st (chars "terminated") then NEnds
      else match expires with Some expires => NExpires (Z.max expires 1) | None => NKeeps end
  end.
Definition subscription_log (w : World) : list sched_request := requests (general_cache (w_reg w)).

(** What a catalog NOTIFY does.  It is accepted exactly when the device has a
    subscription with its call, event, local tag and, once there is one, remote
    tag; a refused NOTIFY changes nothing.  An accepted one fixes the remote tag
    and then: the state [terminated] removes the subscription, cancels its timer
    and starts a task that subscribes anew with the same expiry; an expiry is
    stored, at least 1, and the refresh timer set by it; anything else changes
    nothing more. *)
Theorem catalog_notify_spec (w : World) (device_id call_id event : string)
    (from_tag to_tag state : option string) :
  let '(ok, w') := accept_catalog_notify accepts (Some call_id) (Some event) from_tag to_tag state device_id w in
  (ok = true <-> exists s, subscriptions w !! device_id = Some s /\ notify_for call_id event from_tag to_tag s) /\
  (ok = false -> w' = w) /\
  (forall s, subscriptions w !! device_id = Some s -> notify_for call_id event from_tag to_tag s ->
   exists tag, from_tag = Some tag /\
   let key := CatalogSubscription device_id (cs_generation s) in
   match change_of state with
   | NEnds => subscriptions w' !! device_id = None /\
       subscription_log w' = subscription_log w ++ [remove_register key] /\
       w_retries w' = w_retries w ++ [{| rt_device_id := device_id; rt_expires := cs_expires s; rt_delay := 5000 |}]
   | NExpires expires =>
       subscriptions w' !! device_id = Some (with_subscription (cs_seq s) expires tag (cs_inflight s) s) /\
       subscription_log w' = subscription_log w ++ remove_register key ::
         (if accepts key then [insert_register key (catalog_refresh_delay expires)] else []) /\
       w_retries w' = w_retries w
   | NKeeps => subscriptions w' !! device_id = Some (tagged tag s) /\
       subscription_log w' = subscription_log w /\ w_retries w' = w_retries w
   end).
Proof.
  unfold accept_catalog_notify.
  destruct (catalog_subscription_validate_notify device_id call_id event from_tag to_tag (general_cache (w_reg w)))
    as [[g|] c1] eqn:Hv.
  2: { split; [|split; [done|]].
    - split; [done|]. intros (s & Hs & Hn).
      destruct (validate_notify_accepts _ _ _ _ _ _ _ Hs Hn) as (? & ? & _ & Hv' & _). congruence.
    - intros s Hs Hn. destruct (validate_notify_accepts _ _ _ _ _ _ _ Hs Hn) as (? & ? & _ & Hv' & _). congruence. }
  split; [|split; [done|]].
  { split; [|done]. intros _. by eapply validate_notify_inv. }
  intros s Hs Hn. destruct (validate_notify_accepts _ _ _ _ _ _ _ Hs Hn) as (tag & c2 & Htag & Hv' & Hreq & Hsub).
  rewrite Hv in Hv'. injection Hv' as -> ->. exists tag. split; [done|]. cbv zeta. unfold change_of.
  destruct state as [state|]; [|done]. destruct (parse_subscription_state (chars state)) as [st expires].
  destruct (eq_ignore_ascii_case st (chars "terminated")); [|destruct expires as [expires|]; [|done]].
  - unfold terminate_catalog_subscription, catalog_subscription_expires, catalog_subscription_remove. simpl.
    rewrite Hsub. simpl. rewrite !bool_decide_true by done. unfold subscriptions, subscription_log. simpl.
    rewrite lookup_delete_eq, Hreq. done.
  - unfold catalog_subscription_update_expires, subscriptions, subscription_log, on_session, schedule_catalog_refresh,
      schedule_catalog, request. simpl.
    rewrite Hsub. simpl. rewrite (bool_decide_false (cs_generation s <> _)) by (intros Hne; by apply Hne).
    case_match; simpl; rewrite lookup_insert_eq, Hreq, <- ?app_assoc; done.
Qed.

(** ** The answer to a SUBSCRIBE *)

(** The subscription an answer establishes for a waiting SUBSCRIBE; [None] when
    a header it needs is missing. *)
Definition established (pending : NativeSubscriptionMetadata) (m : SipResponseMetadata) (generation : Z)
    : option CatalogSubscriptionState :=
  call_id ← rm_call_id m; cseq ← rm_cseq m; from_header ← rm_from_header m; to_header ← rm_to_header m;
  local_tag ← extract_tag from_header;
  Some {| cs_generation := generation; cs_call_id := call_id; cs_seq := cseq; cs_event := nsm_event pending;
          cs_expires := Z.max (default (nsm_expires pending) (rm_expires m)) 1;
          cs_remote_target := default (nsm_remote_target pending) (rm_contact m ≫= extract_uri);
          cs_route_set := []; cs_from_header := from_header; cs_to_header := to_header;
          cs_local_tag := local_tag; cs_remote_tag := default ""%string (extract_tag to_header);
          cs_inflight := false |}.

Lemma establish_effect pending m (sc : Cache) :
  let '(ok, sc') := establish_native_subscription extract_uri extract_tag accepts pending m sc in
  let key := CatalogSubscription (nsm_device_id pending) (next_catalog_subscription_generation sc).1 in
  match established pending m (next_catalog_subscription_generation sc).1,
        catalog_subscriptions sc !! nsm_device_id pending with
  | None, _ => ok = false /\ sc' = sc
  | Some _, Some _ => ok = true /\ sc' = sc
  | Some s, None => ok = true /\
      catalog_subscriptions sc' = <[nsm_device_id pending := s]> (catalog_subscriptions sc) /\
      requests sc' = requests sc ++ remove_register key ::
        (if accepts key then [insert_register key (catalog_refresh_delay (cs_expires s))] else [])
  end.
Proof.
  unfold establish_native_subscription, established.
  destruct (rm_call_id m) as [call_id|]; [|done]. destruct (rm_cseq m) as [cseq|]; [|done].
  destruct (rm_from_header m) as [from_header|]; [|done]. destruct (rm_to_header m) as [to_header|]; [|done].
  cbn [mbind option_bind]. destruct (extract_tag from_header) as [local_tag|]; [|done].
  unfold catalog_subscription_begin. destruct (catalog_subscriptions sc !! nsm_device_id pending) as [s|] eqn:Hs; [done|].
  destruct (next_catalog_subscription_generation sc) as [g c1] eqn:Hg.
  assert (catalog_subscriptions c1 = catalog_subscriptions sc /\ requests c1 = requests sc) as [Hc1 Hr1].
  { unfold next_catalog_subscription_generation in Hg. injection Hg as _ <-. done. }
  unfold catalog_subscription_complete. simpl. rewrite lookup_insert_eq. cbn [cs_generation].
  rewrite bool_decide_false by (intros Hn; by apply Hn). unfold catalog_subscription_update_expires. simpl.
  rewrite lookup_insert_eq. cbn [cs_generation]. rewrite bool_decide_false by (intros Hn; by apply Hn).
  unfold schedule_catalog_refresh, schedule_catalog, request. simpl.
  case_match; simpl; rewrite !insert_insert_eq, Hc1, Hr1, <- ?app_assoc; done.
Qed.

(** What the answer to a SUBSCRIBE establishes.  A provisional answer changes
    nothing.  A final one takes the waiter out and answers it, once: a success
    with the headers a dialog needs leaves a subscription under a fresh
    generation, not refreshing, with the answer's expiry and tags and its
    refresh timer set, unless the device has one already, which then stays as
    it is; a success that lacks a header is answered 500 and a failure with its
    status, and both leave the subscriptions alone. *)
Theorem subscribe_answer_spec (operation_id status : Z) (m : SipResponseMetadata)
    (c : @SipRuntimeCache Snap Sdp Assoc Meth _ _) (sc : Cache) (w : Waiter NativeSubscriptionMetadata) :
  native_subscription_waiters c !! operation_id = Some w ->
  let '(ok, c', sc') := complete_native_subscription extract_uri extract_tag accepts operation_id status m c sc in
  let pending := w_meta w in
  let generation := (next_catalog_subscription_generation sc).1 in
  let key := CatalogSubscription (nsm_device_id pending) generation in
  if status <? 200 then c' = c /\ sc' = sc
  else
    native_subscription_waiters c' = delete operation_id (native_subscription_waiters c) /\
    ok = bool_decide (w_tx w ∈ listening c) /\
    exists answered, ended c' = ended c ++ [(w_tx w, RResponse {| rr_status := answered; rr_metadata := m |})] /\
    match (if status <? 300 then established pending m generation else None),
          catalog_subscriptions sc !! nsm_device_id pending with
    | Some s, None => answered = status /\
        catalog_subscriptions sc' = <[nsm_device_id pending := s]> (catalog_subscriptions sc) /\
        requests sc' = requests sc ++ remove_register key ::
          (if accepts key then [insert_register key (catalog_refresh_delay (cs_expires s))] else [])
    | Some _, Some _ => answered = status /\ sc' = sc
    | None, _ => answered = (if status <? 300 then 500 else status) /\ sc' = sc
    end.
Proof.
  intros Hw. unfold complete_native_subscription. destruct (status <? 200); [done|].
  unfold take_waiter. change (t_get native_subscription_table c) with (native_subscription_waiters c). rewrite Hw.
  destruct (status <? 300).
  - pose proof (establish_effect (w_meta w) m sc) as He.
    destruct (establish_native_subscription extract_uri extract_tag accepts (w_meta w) m sc) as [ok sc'].
    cbv zeta in He |- *. revert He. generalize ((next_catalog_subscription_generation sc).1). intros g He.
    simpl. split; [done|]. split; [done|]. destruct (established (w_meta w) m g) as [s|];
      [destruct (catalog_subscriptions sc !! nsm_device_id (w_meta w)); destruct He as [-> He]|destruct He as [-> He]];
      eexists; (split; [reflexivity|done]).
  - simpl. split; [done|]. split; [done|]. eexists. split; [reflexivity|].
    by destruct (catalog_subscriptions sc !! nsm_device_id (w_meta w)).
Qed.
End SubscriptionProps.

(** ** Witnesses *)

Lemma catalog_refresh_delay_bounds_witness : 1000 <= catalog_refresh_delay 3600 <= 3600 * 1000.
Proof. apply (catalog_refresh_delay_bounds 3600). vm_compute. split; discriminate. Defined.

Definition demo_subscription : CatalogSubscriptionState := {|
  cs_generation := 4; cs_call_id := "call"; cs_seq := 2; cs_event := "Catalog"; cs_expires := 3600;
  cs_remote_target := "sip:d"; cs_route_set := []; cs_from_header := "f"; cs_to_header := "t"; cs_local_tag := "lt";
  cs_remote_tag := "rt"; cs_inflight := true |}.
Definition demo_command (generation : Z) : CatalogSubscriptionCommand := {|
  cc_generation := generation; cc_call_id := "call"; cc_seq := 2; cc_event := "Catalog"; cc_expires := 3600;
  cc_remote_target := "sip:d"; cc_route_set := []; cc_from_header := "f"; cc_to_header := "t" |}.
(** A device with a subscription, and the answer to its refresh. *)
Definition demo_world (status : Z) : @World Z string string string string _ _ _ _ := {|
  w_reg := {| general_cache := on_catalog <["d" := demo_subscription]> Cache_init; io_map := net_init;
              recovering_devices := ∅; recovery_permits := 0; effects := [] |};
  w_sip := (complete_native_response 1 status SipResponseMetadata_default
             (insert_native_response_waiter 1 8000 0 SipRuntimeCache_default).2).2;
  w_handle := {| association_ids := ∅; next_operation := 2; commands := []; owner_alive := true |};
  w_installed := true; w_retries := [] |}.

Lemma refresh_leads_on_witness : exists w', refresh_answer Some (fun _ => true) "d" 1 0 (demo_command 4) false (demo_world 503)
    = Some (Failed (Rejected 503), w') /\ refresh_armed "d" 4 w'.
Proof.
  eexists. split; [vm_compute; reflexivity|].
  match goal with |- refresh_armed _ _ ?w' =>
    destruct (refresh_leads_on Some (fun _ => true) (demo_world 503) w' "d" 1 0 (demo_command 4) demo_subscription false
      (Failed (Rejected 503)) ltac:(vm_compute; reflexivity) eq_refl eq_refl ltac:(vm_compute; reflexivity) ltac:(discriminate))
      as [(_ & Ha & _)|[Hn _]] end.
  - exact Ha.
  - exfalso. vm_compute in Hn. discriminate Hn.
Defined.

Lemma late_refusal_subscribes_twice_witness : exists w',
  refresh_answer Some (fun _ => true) "d" 1 0 (demo_command 3) false (demo_world 481) = Some (Done tt, w') /\
  w_retries w' = [{| rt_device_id := "d"; rt_expires := 3600; rt_delay := 5000 |}].
Proof.
  destruct (late_refusal_subscribes_twice Some (fun _ => true) (demo_world 481) "d" 1 0 (demo_command 3) demo_subscription
    SipResponseMetadata_default false) as (w' & H1 & _ & H2 & _).
  - vm_compute. reflexivity.
  - discriminate.
  - vm_compute. reflexivity.
  - exists w'. split; [exact H1|exact H2].
Defined.

Definition demo_metadata : SipResponseMetadata := {|
  rm_call_id := Some "call"%string; rm_cseq := Some 1; rm_event := None; rm_contact := None; rm_record_routes := [];
  rm_from_header := Some "f"%string; rm_to_header := Some "t"%string; rm_to_tag := None; rm_expires := Some 60 |}.
Definition demo_pending : NativeSubscriptionMetadata :=
  {| nsm_device_id := "d"; nsm_event := "Catalog"; nsm_expires := 3600; nsm_remote_target := "sip:d" |}.
Definition demo_waiting : @SipRuntimeCache string string string string _ _ :=
  (insert_native_subscription_waiter 1 demo_pending 8000 0 SipRuntimeCache_default).2.
Lemma subscribe_answer_spec_witness :
  let '(_, _, sc') := complete_native_subscription Some Some (fun _ => true) 1 200 demo_metadata demo_waiting Cache_init in
  cs_expires <$> catalog_subscriptions sc' !! "d"%string = Some 60.
Proof.
  pose proof (subscribe_answer_spec Some Some (fun _ => true) 1 200 demo_metadata demo_waiting Cache_init
    {| w_deadline := 8000; w_meta := demo_pending; w_tx := 0 |} ltac:(vm_compute; reflexivity)) as Hs.
  destruct (complete_native_subscription _ _ _ _ _ _ _ _) as [[ok c'] sc'].
  destruct Hs as (_ & _ & answered & _ & _ & -> & _). vm_compute. reflexivity.
Defined.
