(* ===== verification/SipEvents.v ===== *)
(** * SIP events and their handlers ([session/src/gb/sip])

    [register.rs], [message.rs], [invite.rs] and [native_dialog_event] turn an
    event of the SIP stack into a business event; [adapter.rs] applies it, and
    [run_native_business_events] composes the two with the waiters. *)
From Stdlib Require Import Ascii.
From S2P Require Import Prelude Text SharedTypes Scheduler Lifecycle SessionCache DialogCache Network CloseService RegisterCore.
From S2P Require Import SipRuntime Xml DeviceAuth NativeRuntime Subscription.
Local Open Scope Z_scope.

(** The methods [message.rs] and [adapter.rs] tell apart. *)
Inductive SipMethod := MMessage | MNotify | MOptions | MUpdate | MPrack | MOther.
#[export] Instance SipMethod_eq_dec : EqDecision SipMethod.
Proof. solve_decision. Defined.
Record SipAssociation := { sa_local_addr : string; sa_remote_addr : string; sa_protocol : SipTransportProtocol }.

Record GbRegisterEvent := {
  re_device_id : string; re_contact : option string; re_support_lr : bool; re_expires : Z; re_call_id : string;
  re_cseq : Z; re_authorized : bool; re_username : option string; re_association : SipAssociation;
  re_user_agent : option string; re_gb_version : option string
}.
Inductive GbMessageKind :=
| KKeepalive | KCatalog | KDeviceInfo | KAlarm | KRecordInfo | KMediaStatus | KDeviceStatus | KDeviceControl
| KDeviceConfig | KConfigDownload | KPresetQuery | KBroadcast | KPtzPosition | KCruiseTrackListQuery
| KCruiseTrackQuery | KUploadSnapshotFinished | KNotify | KOptions | KUpdate | KPrack | KStandard | KUnknown.
#[export] Instance GbMessageKind_eq_dec : EqDecision GbMessageKind.
Proof. solve_decision. Defined.
Record GbMessageEvent := {
  me_kind : GbMessageKind; me_method : option SipMethod; me_device_id : option string; me_call_id : option string;
  me_cseq : option Z; me_association : SipAssociation; me_content_type : option string; me_event : option string;
  me_from_tag : option string; me_to_tag : option string; me_subscription_state : option string;
  me_items : list (string * string); me_xml_cmd_type : option string; me_xml_sn : option string;
  me_xml_device_id : option string; me_snapshot_session_id : option string
}.

(** [AlarmInfo] and [AlarmConf] of [state]; the priority of the latter is read
    nowhere. *)
Record AlarmInfo := {
  al_priority : Z; al_method : Z; al_alarm_type : Z; al_time_str : string; al_device : string; al_channel_id : string
}.
Definition AlarmInfo_default : AlarmInfo := {|
  al_priority := 0; al_method := 0; al_alarm_type := 0; al_time_str := ""; al_device := ""; al_channel_id := "" |}.
Record AlarmConf := { ac_enable : bool; ac_push_url : option string; ac_priority : Z }.

Inductive EventError := AuthMissing | InRegister (e : RegError) | InXml (e : XmlError) | BadAlarm.

(** ** Events of the stack to business events *)

Definition GbRegisterEvent_from_native {Snap} (e : SipRuntimeEvent (Snap := Snap)) : option GbRegisterEvent :=
  match ev_kind e with
  | Registered | Unregistered =>
      device_id ← ev_device_id e; local_addr ← ev_local_addr e; remote_addr ← ev_remote_addr e;
      protocol ← ev_protocol e; call_id ← ev_call_id e; cseq ← ev_cseq e;
      Some {| re_device_id := device_id; re_contact := ev_contact e;
        re_support_lr := match ev_contact e with
                         | Some contact => existsb (fun p => eq_ignore_ascii_case p (chars "lr"))
                                             (drop 1 (split_on ";"%char (chars contact)))
                         | None => false
                         end;
        re_expires := default 0 (ev_expires_seconds e); re_call_id := call_id; re_cseq := cseq;
        re_authorized := true; re_username := Some device_id;
        re_association := {| sa_local_addr := local_addr; sa_remote_addr := remote_addr; sa_protocol := protocol |};
        re_user_agent := ev_user_agent e; re_gb_version := ev_gb_version e |}
  | _ => None
  end.
Definition is_unregister (e : GbRegisterEvent) : bool := re_expires e =? 0.

Definition GbIncomingInviteEvent_from_native {Snap} (e : SipRuntimeEvent (Snap := Snap))
    : option (GbIncomingInviteEvent Snap SipAssociation) :=
  if bool_decide (ev_kind e <> IncomingInvite) then None else
  call_id ← ev_call_id e; cseq ← ev_cseq e; local_addr ← ev_local_addr e; remote_addr ← ev_remote_addr e;
  protocol ← ev_protocol e; snapshot ← ev_dialog_snapshot e;
  Some {| ii_call_id := call_id; ii_cseq := cseq;
    ii_association := {| sa_local_addr := local_addr; sa_remote_addr := remote_addr; sa_protocol := protocol |};
    ii_dialog_snapshot := snapshot; ii_remote_sdp := text (utf8_lossy (chars (ev_body e)));
    ii_from := default ""%string (ev_from_header e); ii_to := default ""%string (ev_to_header e);
    ii_subject := ev_subject e |}.

(** The kind of a document by its command. *)
Definition kind_of_cmd_type (cmd_type : option string) (kind : GbMessageKind) : GbMessageKind :=
  match cmd_type with
  | None => kind
  | Some c =>
      let named s := bool_decide (c = s) in
      if named "Keepalive"%string then KKeepalive else if named "Catalog"%string then KCatalog
      else if named "DeviceInfo"%string then KDeviceInfo else if named "Alarm"%string then KAlarm
      else if named "RecordInfo"%string then KRecordInfo else if named "MediaStatus"%string then KMediaStatus
      else if named "DeviceStatus"%string then KDeviceStatus else if named "DeviceControl"%string then KDeviceControl
      else if named "DeviceConfig"%string then KDeviceConfig else if named "ConfigDownload"%string then KConfigDownload
      else if named "PresetQuery"%string then KPresetQuery else if named "Broadcast"%string then KBroadcast
      else if named "PTZPosition"%string then KPtzPosition
      else if named "CruiseTrackListQuery"%string then KCruiseTrackListQuery
      else if named "CruiseTrackQuery"%string then KCruiseTrackQuery
      else if named "UploadSnapShotFinished"%string || named "UploadSnapshotFinished"%string then KUploadSnapshotFinished
      else kind
  end.

Section Messages.
Context {Snap : Type} (extract_tag : string -> option string) (parse_method : string -> SipMethod).
Context (decode : XmlEncoding -> list ascii -> option string) (reader : string -> list XmlEvent).
Notation SipRuntimeEvent := (SipRuntimeEvent (Snap := Snap)).

(** With no device and no session from outside, as [from_native] calls it. *)
Definition from_parts (kind : GbMessageKind) (method : SipMethod) (a : SipAssociation) (e : SipRuntimeEvent)
    : outcome XmlError GbMessageEvent :=
  match parse_items decode reader (chars (ev_body e)) with
  | Failed x => Failed x
  | Panic => Panic
  | Done items =>
      let xml_cmd_type := value_by_tag items "CmdType" in
      let xml_device_id := value_by_tag items "DeviceID" in
      Done {| me_kind := kind_of_cmd_type xml_cmd_type kind; me_method := Some method;
        me_device_id := xml_device_id; me_call_id := ev_call_id e; me_cseq := ev_cseq e; me_association := a;
        me_content_type := ev_content_type e; me_event := ev_event e;
        me_from_tag := ev_from_header e ≫= extract_tag; me_to_tag := ev_to_header e ≫= extract_tag;
        me_subscription_state := ev_subscription_state e; me_items := items; me_xml_cmd_type := xml_cmd_type;
        me_xml_sn := value_by_tag items "SN"; me_xml_device_id := xml_device_id;
        me_snapshot_session_id := value_by_tag items "SessionID" |}
  end.
Definition kind_of_method (m : SipMethod) : option GbMessageKind :=
  match m with
  | MMessage => Some KUnknown | MNotify => Some KNotify | MOptions => Some KOptions
  | MUpdate => Some KUpdate | MPrack => Some KPrack | MOther => None
  end.
Definition GbMessageEvent_from_native (e : SipRuntimeEvent) : outcome XmlError (option GbMessageEvent) :=
  if bool_decide (ev_kind e <> RequestReceived) then Done None else
  match parse_method <$> ev_method e with
  | None => Done None
  | Some method =>
      match kind_of_method method, ev_local_addr e, ev_remote_addr e, ev_protocol e with
      | Some kind, Some local_addr, Some remote_addr, Some protocol =>
          match from_parts kind method
                  {| sa_local_addr := local_addr; sa_remote_addr := remote_addr; sa_protocol := protocol |} e with
          | Done m => Done (Some m) | Failed x => Failed x | Panic => Panic
          end
      | _, _, _, _ => Done None
      end
  end.
End Messages.

Section SipEvents.
Context {A Snap Sdp Meth : Type} `{AssociationLike A} `{Countable Meth}.
Context `{!MapIter A, !MapIter string, !MapIter AuthCacheKey}.
Context (extract_uri extract_tag : string -> option string) (parse_lossy : string -> Sdp).
Context (parse_method : string -> SipMethod).
Context (decode : XmlEncoding -> list ascii -> option string) (reader : string -> list XmlEvent).
Context (accepts : TimeScheduleKey -> bool) (mk_assoc : string -> string -> Protocol -> A).
Context (alarm_conf : AlarmConf).
Notation SipRuntimeEvent := (SipRuntimeEvent (Snap := Snap)).
Notation GbIncomingInviteEvent := (GbIncomingInviteEvent Snap SipAssociation).
Notation World := (@World A Snap Sdp SipAssociation Meth _ _ _ _).

Inductive GbSipEvent :=
| GRegister (e : GbRegisterEvent)
| GMessage (e : GbMessageEvent)
| GIncomingInvite (e : GbIncomingInviteEvent)
| GAck (call_id : string)
| GBye (e : GbByeEvent)
| GCancel (call_id : string).

Definition base_protocol_from_pjsip (p : SipTransportProtocol) : Protocol :=
  match p with STcp | STls => TCP | SUdp => UDP end.
Definition base_association_from_pjsip (a : SipAssociation) : A :=
  mk_assoc (sa_local_addr a) (sa_remote_addr a) (base_protocol_from_pjsip (sa_protocol a)).

(** Tasks spawned and data base tasks submitted; [Register]'s own are effects of
    the register. *)
Inductive task :=
| PeerDialogTerminated (call_id : string)
| QueryAfterRegister (device_id : string) (expires : Z)
| PushAlarm (url : string) (alarm : AlarmInfo).
Inductive DbTask :=
| UpsertDevice (device_id : string) (row : GmvDevice)
| UpdateDeviceExtInfo (items : list (string * string))
| InsertDeviceCatalog (device_id : string) (items : list (string * string))
| DbExpireDeviceOnline (device_id : string)
| DbTouchDeviceHeartbeat (device_id : string).
Record Site := {
  st_world : World; st_auth : DeviceAuthCache; st_tasks : list task; st_db : list DbTask
}.
Definition on_world (f : World -> World) (s : Site) : Site :=
  {| st_world := f (st_world s); st_auth := st_auth s; st_tasks := st_tasks s; st_db := st_db s |}.
Definition spawn (t : task) (s : Site) : Site :=
  {| st_world := st_world s; st_auth := st_auth s; st_tasks := st_tasks s ++ [t]; st_db := st_db s |}.
Definition submit (t : DbTask) (s : Site) : Site :=
  {| st_world := st_world s; st_auth := st_auth s; st_tasks := st_tasks s; st_db := st_db s ++ [t] |}.
Notation applied := (outcome EventError unit * Site)%type.

(** *** BYE *)

Definition apply_bye_event (e : GbByeEvent) (s : Site) : applied :=
  let sip := w_sip (st_world s) in
  let stream_id := match be_stream_id e with Some id => Some id | None => stream_id_by_call_id (be_call_id e) sip end in
  let '(completed, c1) := complete_bye e sip in
  let c2 := match stream_id with Some id => remove_stream_indexes id (Some (be_call_id e)) c1 | None => c1 end in
  let s1 := on_world (on_sip (fun _ => c2)) s in
  (Done tt, if completed then s1 else spawn (PeerDialogTerminated (be_call_id e)) s1).

(** *** REGISTER *)

Definition registered_session (now : Z) (e : GbRegisterEvent) (heartbeat_sec : Z) : DeviceSession A :=
  let s := DeviceSession_build (default ""%string (re_contact e)) (base_association_from_pjsip (re_association e))
             heartbeat_sec (Z.max (re_expires e) 1 * 1000) now in
  {| gb_version := re_gb_version e; contact_uri := contact_uri s; registration_call_id := re_call_id e;
     registration_cseq := re_cseq e; association := association s; connected := connected s;
     connection_generation := connection_generation s; association_expire := association_expire s;
     support_lr := re_support_lr e; heartbeat_sec := Network.heartbeat_sec s; last_seen := last_seen s;
     registration_duration := registration_duration s; registration_expires_at := registration_expires_at s |}.
(** [clock]: the local time the row is stamped with. *)
Definition device_row (clock : Z) (e : GbRegisterEvent) (heartbeat_sec : Z) : GmvDevice := {|
  gd_transport := match sa_protocol (re_association e) with SUdp => "UDP" | STcp => "TCP" | STls => "TLS" end;
  gd_local_addr := sa_remote_addr (re_association e); gd_register_time := clock;
  gd_register_expires := Z.max (re_expires e) 1; gd_online_expire_time := Some (clock + heartbeat_sec * 3 * 1000);
  gd_contact_uri := default ""%string (re_contact e); gd_gb_version := re_gb_version e;
  gd_enable_lr := if re_support_lr e then 1 else 0 |}.

Definition apply_register_event (now clock : Z) (e : GbRegisterEvent) (s : Site) : applied :=
  let device_id := re_device_id e in
  if is_unregister e then
    (Done tt, on_world (on_reg (fun r =>
      emit (ExpireDeviceOnline device_id)
        (on_cache (reset_device_state device_id) (remove_device device_id r)))) s)
  else
    match get_by_device now device_id (st_auth s) with
    | None => (Failed AuthMissing, s)
    | Some oauth =>
        let '(o, r1) := register_device accepts device_id (registered_session now e (oa_heartbeat_sec oauth))
                          (w_reg (st_world s)) in
        match o with
        | Done _ =>
            let s1 := on_world (on_reg (fun _ =>
                        on_cache (fun c => (catalog_subscription_remove device_id None c).2) r1)) s in
            (Done tt, spawn (QueryAfterRegister device_id (Z.max (re_expires e) 1))
                        (submit (UpsertDevice device_id (device_row clock e (oa_heartbeat_sec oauth))) s1))
        | Failed x => (Failed (InRegister x), on_world (on_reg (fun _ => r1)) s)
        | Panic => (Panic, on_world (on_reg (fun _ => r1)) s)
        end
    end.

(** *** MESSAGE and NOTIFY *)

Definition parse_u8 (v : string) : option Z := n ← parse_u32 v; if n <=? 255 then Some n else None.
Definition alarm_field (m : AlarmInfo) (kv : string * string) : option AlarmInfo :=
  let '(k, v) := kv in
  let upd p me ty t ch := {| al_priority := p; al_method := me; al_alarm_type := ty; al_time_str := t;
                             al_device := al_device m; al_channel_id := ch |} in
  if bool_decide (k = NOTIFY_DEVICE_ID)
  then Some (upd (al_priority m) (al_method m) (al_alarm_type m) (al_time_str m) v)
  else if bool_decide (k = "Notify,AlarmPriority"%string)
  then n ← parse_u8 v; Some (upd n (al_method m) (al_alarm_type m) (al_time_str m) (al_channel_id m))
  else if bool_decide (k = "Notify,AlarmTime"%string)
  then Some (upd (al_priority m) (al_method m) (al_alarm_type m) v (al_channel_id m))
  else if bool_decide (k = "Notify,AlarmMethod"%string)
  then n ← parse_u8 v; Some (upd (al_priority m) n (al_alarm_type m) (al_time_str m) (al_channel_id m))
  else if bool_decide (k = "Notify,Info,AlarmType"%string)
  then n ← parse_u8 v; Some (upd (al_priority m) (al_method m) n (al_time_str m) (al_channel_id m))
  else Some m.
Definition AlarmInfo_kv_to_model (items : list (string * string)) : option AlarmInfo :=
  foldl (fun m kv => m ≫= fun m => alarm_field m kv) (Some AlarmInfo_default) items.
Definition dispatch_alarm (device_id : option string) (items : list (string * string)) (s : Site) : applied :=
  match device_id with
  | None => (Done tt, s)
  | Some device_id =>
      if negb (ac_enable alarm_conf) then (Done tt, s) else
      match AlarmInfo_kv_to_model items with
      | None => (Failed BadAlarm, s)
      | Some alarm =>
          (Done tt, match ac_push_url alarm_conf with
                    | None => s
                    | Some url => spawn (PushAlarm url {| al_priority := al_priority alarm; al_method := al_method alarm;
                        al_alarm_type := al_alarm_type alarm; al_time_str := al_time_str alarm; al_device := device_id;
                        al_channel_id := al_channel_id alarm |}) s
                    end)
      end
  end.

Definition rebuild_snapshot_wait_key (session_id : string) : string := "KEY_SNAPSHOT_IMAGE:" +:+ session_id.
Definition or_else {B} (o1 o2 : option B) : option B := match o1 with Some _ => o1 | None => o2 end.

Definition apply_message_event (now : Z) (e : GbMessageEvent) (s : Site) : applied :=
  let device_id := or_else (me_device_id e) (me_xml_device_id e) in
  match me_kind e with
  | KKeepalive =>
      match device_id with
      | None => (Done tt, s)
      | Some d =>
          let '(o, r1) := recover_device_on_keepalive accepts now d
                            (base_association_from_pjsip (me_association e)) (w_reg (st_world s)) in
          (match o with Done _ => Done tt | Failed x => Failed (InRegister x) | Panic => Panic end,
           on_world (on_reg (fun _ => r1)) s)
      end
  | KDeviceInfo => (Done tt, submit (UpdateDeviceExtInfo (me_items e)) s)
  | KCatalog =>
      match device_id with
      | None => (Done tt, s)
      | Some d =>
          let '(accepted, w1) :=
            if bool_decide (me_method e = Some MNotify)
            then accept_catalog_notify accepts (me_call_id e) (me_event e) (me_from_tag e) (me_to_tag e)
                   (me_subscription_state e) d (st_world s)
            else (true, st_world s) in
          let s1 := on_world (fun _ => w1) s in
          (Done tt, if accepted : bool then submit (InsertDeviceCatalog d (me_items e)) s1 else s1)
      end
  | KAlarm => dispatch_alarm device_id (me_items e) s
  | KMediaStatus =>
      let ended := match value (me_items e) NOTIFY_TYPE with None => true | Some v => bool_decide (v = "121"%string) end in
      (Done tt,
       if ended then
         match device_id, value (me_items e) NOTIFY_DEVICE_ID with
         | Some d, Some channel_id =>
             on_world (on_reg (fun r =>
               foldl (fun r stream_id => stream_begin accepts now stream_id r) r
                 (stream_ids_for_media_status d channel_id (general_cache r)))) s
         | _, _ => s
         end
       else s)
  | KBroadcast =>
      let sn := or_else (me_xml_sn e) (value (me_items e) "Response,SN") in
      let target_id := or_else (me_xml_device_id e) (value (me_items e) "Response,DeviceID") in
      (Done tt,
       match sn, target_id, value (me_items e) "Response,Result" with
       | Some sn, Some target_id, Some result =>
           on_world (on_sip (fun c => (complete_broadcast_response sn target_id
             (eq_ignore_ascii_case (chars result) (chars "OK")) c).2)) s
       | _, _, _ => s
       end)
  | KUploadSnapshotFinished | KNotify =>
      (Done tt,
       match me_snapshot_session_id e with
       | Some session_id => on_world (Subscription.on_session (fun c =>
           (notify_snapshot_wait (rebuild_snapshot_wait_key session_id) c).2)) s
       | None => s
       end)
  | _ => (Done tt, s)
  end.

Definition apply_business_event (now clock : Z) (e : GbSipEvent) (s : Site) : applied :=
  match e with
  | GRegister e => apply_register_event now clock e s
  | GMessage e => apply_message_event now e s
  | GBye e => apply_bye_event e s
  | GIncomingInvite _ | GAck _ | GCancel _ => (Done tt, s)
  end.

(** ** One event of the event task *)

Definition native_dialog_event (e : SipRuntimeEvent) (w : World) : option GbSipEvent :=
  if bool_decide (ev_kind e <> RequestReceived) then None else
  method ← ev_method e;
  if bool_decide (method = "BYE"%string) then
    call_id ← ev_call_id e;
    Some (GBye {| be_call_id := call_id; be_stream_id := stream_id_by_call_id call_id (w_sip w); be_device_id := None |})
  else if bool_decide (method = "CANCEL"%string) then GCancel <$> ev_call_id e
  else if bool_decide (method = "ACK"%string) then GAck <$> ev_call_id e
  else None.

(** A document that cannot be read is only logged. *)
Definition business_event (e : SipRuntimeEvent) (w : World) : option GbSipEvent :=
  let message := match GbMessageEvent_from_native extract_tag parse_method decode reader e with
                 | Done m => m | _ => None end in
  or_else (GRegister <$> GbRegisterEvent_from_native e)
    (or_else (GMessage <$> message)
      (or_else (GIncomingInvite <$> GbIncomingInviteEvent_from_native e) (native_dialog_event e w))).

(** The connection of the event, the waiters it completes, and an INVITE nobody
    waits for. *)
Definition event_connection (now : Z) (e : SipRuntimeEvent) (w : World) : World :=
  let '(h, told) := track_association mk_assoc e (w_handle w, []) in
  on_reg (fun r => foldl (fun r a => (detach_device_association accepts now a r).2) r told) (with_handle h w).
Definition event_waiters (e : SipRuntimeEvent) (w : World) : World :=
  let '(c, sc) := complete_event extract_uri extract_tag parse_lossy accepts e (w_sip w, general_cache (w_reg w)) in
  Subscription.on_session (fun _ => sc) (on_sip (fun _ => c) w).
Definition event_invite (e : GbSipEvent) (w : World) : World :=
  match e with
  | GIncomingInvite invite =>
      let '(taken, c) := complete_broadcast_invite extract_uri invite (w_sip w) in
      let w1 := on_sip (fun _ => c) w in
      if taken then w1
      else with_handle (respond_invite (ii_call_id invite) 501 (w_handle w1)).2 w1
  | _ => w
  end.
Definition run_native_business_event (now clock : Z) (e : SipRuntimeEvent) (s : Site) : Site :=
  let s1 := on_world (fun w => event_waiters e (event_connection now e w)) s in
  match business_event e (st_world s1) with
  | None => s1
  | Some be => (apply_business_event now clock be (on_world (event_invite be) s1)).2
  end.
Definition run_native_business_events (now clock : Z) (es : list SipRuntimeEvent) (s : Site) : Site :=
  foldl (fun s e => run_native_business_event now clock e s) s es.
End SipEvents.
