(* ===== verification/SipEventsProps.v ===== *)
(** * What the handlers of SIP events guarantee

    A registered device can be reached over the connection it registered on,
    and its row brings it back after a restart; an INVITE nobody waits for is
    answered; the readings of an event exclude each other. *)
From Stdlib Require Import Ascii.
From S2P Require Import Prelude Text SharedTypes Scheduler Lifecycle SessionCache DialogCache CacheInvariant Network CloseService RegisterCore.
From S2P Require Import RegisterProps.
From S2P Require Import SipRuntime Xml DeviceAuth NativeRuntime Subscription SipEvents.
Local Open Scope Z_scope.

Section SipEventsProps.
Context {A Snap Sdp Meth : Type} `{AssociationLike A} `{Countable Meth}.
Context `{!MapIter A, !MapIter string, !MapIter AuthCacheKey}.
Context (extract_uri extract_tag : string -> option string) (parse_lossy : string -> Sdp).
Context (parse_method : string -> SipMethod).
Context (decode : XmlEncoding -> list ascii -> option string) (reader : string -> list XmlEvent).
Context (mk_assoc : string -> string -> Protocol -> A) (alarm_conf : AlarmConf).
Notation accepts := (fun _ : TimeScheduleKey => true).
Notation Inner := (@Inner A _ _).

(** ** The session a registration leaves *)

Lemma register_afresh_session d b ds (r : Inner) :
  let '(o, r') := register_afresh accepts d b ds r in
  o = Done tt /\ session (io_map r') !! d =
    Some (with_link (association ds) true (connection_generation ds) false (last_seen ds) ds).
Proof.
  unfold register_afresh. destruct (remove_device_by_inner d r) as [previous r1].
  unfold try_insert, timer_insert. split; [done|].
  set (r2 := match previous with Some p => _ | None => _ end).
  set (r3 := if b then on_cache (reset_device_state d) r2 else r2).
  assert (forall r0 : Inner, io_map (if b then r0 else retry_closes d r0) = io_map r0) as ->.
  { intros r0. destruct b; [done|]. apply (frame_retry_closes d r0). }
  cbn [io_map on_io_map on_cache]. rewrite insert_session_take_over, take_over_lookup. by rewrite decide_True.
Qed.

Lemma register_device_session d ds (r : Inner) :
  let '(o, r') := register_device accepts d ds r in
  connected ds = true -> association_expire ds = false ->
  o = Done tt /\ exists g, session (io_map r') !! d =
    Some (with_link (association ds) true g false (last_seen ds) ds).
Proof.
  unfold register_device.
  destruct (match session (io_map r) !! d with Some _ => _ | None => false end).
  { pose proof (register_afresh_session d true ds r) as Ha. destruct (register_afresh _ _ _ _ _) as [o r'].
    destruct Ha as [-> Ha]. eauto. }
  assert (rebind_registration d ds (io_map r) = (inr ds, io_map r) \/
    exists s, session (io_map r) !! d = Some s /\ connected s = false) as [Hrb|(s & Hs & Hc)].
  { unfold rebind_registration. destruct (session (io_map r) !! d) as [s|]; [|by left].
    destruct (connected s) eqn:Hc; [by left|right; eauto]. }
  { rewrite Hrb. pose proof (register_afresh_session d false ds (on_io_map (fun _ => io_map r) r)) as Ha.
    destruct (register_afresh _ _ _ _ _) as [o r']. destruct Ha as [-> Ha]. eauto. }
  rewrite (rebind_registration_eq _ _ _ _ Hs Hc). unfold try_insert, timer_insert. intros Hcon Hexp. split; [done|].
  eexists. rewrite (proj1 (frame_retry_closes d _)).
  cbn [io_map on_io_map on_cache timer_remove]. rewrite take_over_lookup, decide_True by done. by rewrite Hcon, Hexp.
Qed.

Lemma register_connected d ds (r : Inner) :
  connected ds = true -> association_expire ds = false ->
  let '(o, r') := register_device accepts d ds r in
  o = Done tt /\ exists g, get_connected_device_session d r' =
    Some (with_link (association ds) true g false (last_seen ds) ds).
Proof.
  intros Hc He. pose proof (register_device_session d ds r) as Hr.
  destruct (register_device _ _ _ _) as [o r']. destruct (Hr Hc He) as [-> [g Hg]]. split; [done|]. exists g.
  unfold get_connected_device_session, connected_session. by rewrite Hg.
Qed.

(** ** Recovery from the row of a registration *)

Context {IP : Type} `{EqDecision IP} (remote_ip : A -> IP) (parse_ip : string -> option IP).

(** A registration survives a restart.  The row a registration writes brings
    the device back: a keep-alive from the same address and transport, before
    the lease and the heart-beat window end, registers it again with the same
    contact, version, heart-beat and loose routing, and never with a lease more
    than a second longer than what was left of the first. *)
Theorem registration_survives_restart (now clock : Z) (e : GbRegisterEvent) (heartbeat : Z) (a : A) (r : Inner) :
  let row := device_row clock e heartbeat in
  let lease_end := clock + Z.max (re_expires e) 1 * 1000 in
  sa_protocol (re_association e) <> STls ->
  assoc_protocol a = base_protocol_from_pjsip (sa_protocol (re_association e)) ->
  parse_ip (sa_remote_addr (re_association e)) = Some (remote_ip a) ->
  session (io_map r) !! re_device_id e = None ->
  now < lease_end -> now < clock + heartbeat * 3000 ->
  let '(o, r') := recover_device_session accepts remote_ip parse_ip now (re_device_id e) a
                    (Done (Some heartbeat)) (Done (Some row)) r in
  o = Done tt /\ exists s, get_connected_device_session (re_device_id e) r' = Some s /\
    association s = a /\ contact_uri s = default ""%string (re_contact e) /\ gb_version s = re_gb_version e /\
    support_lr s = re_support_lr e /\ heartbeat_sec s = heartbeat /\
    lease_end - 1000 < registration_expires_at s <= Z.max lease_end (now + 1000).
Proof.
  intros row lease_end Htls Hp Hip Hs Hlease Hbeat. unfold recover_device_session. rewrite Hs.
  rewrite bool_decide_false by (by intros [? ?]).
  assert (forall p, base_protocol_from_pjsip (sa_protocol (re_association e)) = p ->
    (if str_eq_ignore_case (gd_transport row) "UDP" then Some UDP
     else if str_eq_ignore_case (gd_transport row) "TCP" then Some TCP else None) = Some p) as Ht.
  { intros p <-. unfold row, device_row. simpl. by destruct (sa_protocol (re_association e)). }
  rewrite (Ht _ eq_refl), Hp, bool_decide_false by (intros Hne; by apply Hne).
  replace (parse_ip (gd_local_addr row)) with (Some (remote_ip a)) by (by rewrite <- Hip).
  rewrite bool_decide_false by (intros Hne; by apply Hne).
  change (gd_register_time row + gd_register_expires row * 1000) with lease_end.
  change (gd_online_expire_time row) with (Some (clock + heartbeat * 3 * 1000)).
  rewrite (proj2 (Z.leb_gt lease_end now)), (proj2 (Z.leb_gt (clock + heartbeat * 3 * 1000) now)) by lia. simpl.
  match goal with |- context [register_device _ _ ?ds _] =>
    pose proof (register_connected (re_device_id e) ds r eq_refl eq_refl) as Hr;
    destruct (register_device _ (re_device_id e) ds r) as [o r'] end.
  destruct Hr as [-> [g Hg]]. split; [done|]. eexists. split; [exact Hg|]. simpl.
  split_and!; try done; [by destruct (re_support_lr e)|..];
    pose proof (Z.quot_rem' (lease_end - now) 1000); pose proof (Z.rem_bound_pos (lease_end - now) 1000); lia.
Qed.

(** ** A registration event *)

Context (conf : SessionConf) (peer_ip : A -> string) (peer_port : A -> Z).
Context (clock_text : Z -> string) (encode : XmlEncoding -> list ascii -> list ascii).
Notation World := (@World A Snap Sdp SipAssociation Meth _ _ _ _).
Notation Site := (@Site A Snap Sdp Meth _ _ _ _).
Notation SipRuntimeEvent := (SipRuntimeEvent (Snap := Snap)).
Notation run_event := (run_native_business_event extract_uri extract_tag parse_lossy parse_method decode reader
  accepts mk_assoc alarm_conf).
Notation subscribe_once := (subscribe_catalog_once peer_ip peer_port conf clock_text encode).

Lemma event_waiters_quiet (e : SipRuntimeEvent) (w : World) :
  ev_kind e <> OutboundResponse -> ev_kind e <> RuntimeFault ->
  event_waiters extract_uri extract_tag parse_lossy accepts e w = w.
Proof.
  intros H1' H2'. unfold event_waiters, complete_event.
  assert (forall w : World, Subscription.on_session (fun _ => general_cache (w_reg w))
            (on_sip (fun _ => w_sip w) w) = w) as Hw by (by intros [[] ?]).
  destruct (ev_operation_id e); [|apply Hw]. destruct (ev_kind e); try apply Hw; done.
Qed.

Lemma from_native_fields (e : SipRuntimeEvent) (re : GbRegisterEvent) :
  GbRegisterEvent_from_native e = Some re ->
  (ev_kind e = Registered \/ ev_kind e = Unregistered) /\
  ev_local_addr e = Some (sa_local_addr (re_association re)) /\
  ev_remote_addr e = Some (sa_remote_addr (re_association re)) /\
  ev_protocol e = Some (sa_protocol (re_association re)).
Proof.
  unfold GbRegisterEvent_from_native. intros Hn.
  destruct (ev_kind e); try done; (split; [tauto|]);
    destruct (ev_device_id e); try done; destruct (ev_local_addr e); try done;
    destruct (ev_remote_addr e); try done; destruct (ev_protocol e); try done;
    destruct (ev_call_id e); try done; destruct (ev_cseq e); try done; simpl in Hn; by simplify_eq.
Qed.

(** The connection of a TCP registration is known before it is applied. *)
Lemma register_connection (now : Z) (e : SipRuntimeEvent) (re : GbRegisterEvent) (id : Z) (w : World) :
  GbRegisterEvent_from_native e = Some re -> sa_protocol (re_association re) = STcp -> ev_association_id e = Some id ->
  event_connection accepts mk_assoc now e w =
  with_handle (with_ids <[base_association_from_pjsip mk_assoc (re_association re) := id]> (w_handle w)) w.
Proof.
  intros Hn Hp Hid. destruct (from_native_fields e re Hn) as (Hk & Hl & Hr & Hpr).
  unfold event_connection, track_association. rewrite bool_decide_false by (destruct Hk as [-> | ->]; done).
  unfold remember_event_association, event_association. rewrite Hid, Hl, Hr, Hpr, Hp. simpl.
  unfold base_association_from_pjsip. rewrite Hp. by destruct w as [[] ? ? ? ?].
Qed.

(** A registration over TCP is applied with its connection known. *)
Lemma run_register_event (now clock id : Z) (e : SipRuntimeEvent) (re : GbRegisterEvent) (s : Site) :
  GbRegisterEvent_from_native e = Some re -> sa_protocol (re_association re) = STcp -> ev_association_id e = Some id ->
  run_event now clock e s = (apply_register_event accepts mk_assoc now clock re
    {| st_world := with_handle (with_ids <[base_association_from_pjsip mk_assoc (re_association re) := id]>
                     (w_handle (st_world s))) (st_world s);
       st_auth := st_auth s; st_tasks := st_tasks s; st_db := st_db s |}).2.
Proof.
  intros Hn Hp Hid. destruct (from_native_fields e re Hn) as (Hk & _).
  assert (ev_kind e <> OutboundResponse /\ ev_kind e <> RuntimeFault) as [Hk1 Hk2] by (destruct Hk as [-> | ->]; done).
  unfold run_native_business_event, on_world. cbn [st_world st_auth st_tasks st_db].
  rewrite (register_connection now e re id _ Hn Hp Hid), event_waiters_quiet by done.
  unfold business_event. rewrite Hn. reflexivity.
Qed.


(** ** One reading per event *)

Lemma not_registering (e : SipRuntimeEvent) :
  ev_kind e <> Registered -> ev_kind e <> Unregistered -> GbRegisterEvent_from_native e = None.
Proof. unfold GbRegisterEvent_from_native. by destruct (ev_kind e). Qed.
Lemma not_a_message (e : SipRuntimeEvent) : ev_kind e <> RequestReceived ->
  GbMessageEvent_from_native extract_tag parse_method decode reader e = Done None.
Proof. unfold GbMessageEvent_from_native. intros. by rewrite bool_decide_true. Qed.
Lemma not_an_invite (e : SipRuntimeEvent) : ev_kind e <> IncomingInvite -> GbIncomingInviteEvent_from_native e = None.
Proof. unfold GbIncomingInviteEvent_from_native. intros. by rewrite bool_decide_true. Qed.
Lemma not_a_dialog (e : SipRuntimeEvent) (w : World) : ev_kind e <> RequestReceived -> native_dialog_event e w = None.
Proof. unfold native_dialog_event. intros. by rewrite bool_decide_true. Qed.
Lemma message_or_dialog (e : SipRuntimeEvent) (w : World) :
  (forall m, m = "BYE"%string \/ m = "CANCEL"%string \/ m = "ACK"%string -> kind_of_method (parse_method m) = None) ->
  GbMessageEvent_from_native extract_tag parse_method decode reader e = Done None \/ native_dialog_event e w = None.
Proof.
  intros Hm. unfold GbMessageEvent_from_native, native_dialog_event.
  destruct (bool_decide (ev_kind e <> RequestReceived)); [by left|]. destruct (ev_method e) as [n|]; [|by left]. simpl.
  destruct (kind_of_method (parse_method n)) as [k|] eqn:Hk; [right|by left].
  rewrite !bool_decide_false; [done|..]; intros ->; rewrite Hm in Hk by tauto; done.
Qed.

(** An event has one reading.  Whatever the libraries' parsers return, at
    most one of the four readings of an event applies, unless the stack calls a
    BYE, CANCEL or ACK a message; so their order does not matter, and no event
    is handled twice. *)
Theorem event_readings_exclusive (e : SipRuntimeEvent) (w : World) :
  (forall m, m = "BYE"%string \/ m = "CANCEL"%string \/ m = "ACK"%string -> kind_of_method (parse_method m) = None) ->
  let readings := [bool_decide (is_Some (GbRegisterEvent_from_native e));
    match GbMessageEvent_from_native extract_tag parse_method decode reader e with Done (Some _) => true | _ => false end;
    bool_decide (is_Some (GbIncomingInviteEvent_from_native e));
    bool_decide (is_Some (native_dialog_event e w))] in
  (length (filter (fun b => b = true) readings) <= 1)%nat /\
  (is_Some (business_event extract_tag parse_method decode reader e w) <->
   (length (filter (fun b => b = true) readings) = 1)%nat).
Proof.
  intros Hm. unfold business_event.
  destruct (decide (ev_kind e = RequestReceived)) as [Hk|Hk].
  - rewrite (not_registering e), (not_an_invite e) by (rewrite Hk; done).
    destruct (message_or_dialog e w Hm) as [-> | ->].
    + destruct (native_dialog_event e w); simpl; (split; [lia|]; split; [by intros []|done || by eauto]).
    + destruct (GbMessageEvent_from_native _ _ _ _ _) as [[m|]|x|]; simpl;
        (split; [lia|]; split; [by intros []|done || by eauto]).
  - rewrite (not_a_message e Hk), (not_a_dialog e w Hk).
    destruct (decide (ev_kind e = IncomingInvite)) as [Hi|Hi].
    + rewrite (not_registering e) by (rewrite Hi; done).
      destruct (GbIncomingInviteEvent_from_native e); simpl; (split; [lia|]; split; [by intros []|done || by eauto]).
    + rewrite (not_an_invite e Hi).
      destruct (GbRegisterEvent_from_native e); simpl; (split; [lia|]; split; [by intros []|done || by eauto]).
Qed.
End SipEventsProps.

(** ** Witnesses: associations as their addresses and transport *)

Definition address : Type := (string * string * bool)%type.
#[local] Instance address_eq_dec : EqDecision address := _.
#[local] Instance address_countable : Countable address := _.
#[local] Instance address_association : AssociationLike address :=
  {| assoc_protocol := fun a : address => if a.2 then TCP else UDP |}.
Definition mk_address (local_addr remote_addr : string) (p : Protocol) : address :=
  (local_addr, remote_addr, match p with TCP => true | UDP => false end).
Lemma mk_address_protocol l r p : assoc_protocol (mk_address l r p) = p.
Proof. by destruct p. Qed.

Definition demo_registered : @SipRuntimeEvent string := {|
  ev_kind := Registered; ev_protocol := Some STcp; ev_status_code := None; ev_method := None;
  ev_call_id := Some "reg"%string; ev_cseq := Some 1; ev_content_type := None; ev_body := "";
  ev_local_addr := Some "l"%string; ev_remote_addr := Some "r"%string; ev_lookup_id := None;
  ev_device_id := Some "d"%string; ev_realm := None; ev_expires_seconds := Some 3600;
  ev_contact := Some "sip:d@r;LR"%string; ev_user_agent := None; ev_gb_version := Some "3.0"%string;
  ev_operation_id := None; ev_association_id := Some 5; ev_from_header := None; ev_to_header := None;
  ev_subject := None; ev_event := None; ev_subscription_state := None; ev_dialog_snapshot := None |}.
Definition demo_register : GbRegisterEvent := {|
  re_device_id := "d"; re_contact := Some "sip:d@r;LR"%string; re_support_lr := true; re_expires := 3600;
  re_call_id := "reg"; re_cseq := 1; re_authorized := true; re_username := Some "d"%string;
  re_association := {| sa_local_addr := "l"; sa_remote_addr := "r"; sa_protocol := STcp |};
  re_user_agent := None; re_gb_version := Some "3.0"%string |}.
Definition demo_login : GmvOauth := {|
  oa_device_id := "d"; oa_domain_id := "domain"; oa_domain := "realm"; oa_pwd := None; oa_pwd_check := 0;
  oa_alias := None; oa_status := 1; oa_heartbeat_sec := 60 |}.
Definition empty_register : @CloseService.Inner address _ _ := {|
  general_cache := Cache_init; io_map := net_init; recovering_devices := ∅; recovery_permits := 64; effects := [] |}.
Definition demo_site : @Site address string string string _ _ _ _ := {|
  st_world := {| w_reg := empty_register; w_sip := SipRuntimeCache_default;
    w_handle := {| association_ids := ∅; next_operation := 1; commands := []; owner_alive := true |};
    w_installed := true; w_retries := [] |};
  st_auth := {| entries := <[ {| ak_device_id := "d"; ak_realm := "realm" |} :=
                  {| ce_oauth := Some demo_login; ce_expires_at := 300000 |} ]> ∅; max_entries := 10 |};
  st_tasks := []; st_db := [] |}.
Definition demo_method (m : string) : SipMethod := if bool_decide (m = "MESSAGE"%string) then MMessage else MOther.
Definition demo_alarm : AlarmConf := {| ac_enable := false; ac_push_url := None; ac_priority := 4 |}.
Definition demo_conf : SessionConf :=
  {| sc_domain := "realm"; sc_domain_id := "domain"; sc_http_source := ""; sc_lan_ip := "10.0.0.1";
     sc_wan_ip := "10.0.0.1"; sc_lan_port := 5060; sc_wan_port := 5060 |}.

Lemma registration_survives_restart_witness :
  (recover_device_session (fun _ => true) (fun a : address => a.1.2) Some 5000 "d" ("l2", "r", true)%string
     (Done (Some 60)) (Done (Some (device_row 0 demo_register 60))) empty_register).1 = Done tt.
Proof.
  pose proof (registration_survives_restart (fun a : address => a.1.2) Some 5000 0 demo_register 60 ("l2", "r", true)%string
    empty_register ltac:(done) eq_refl eq_refl eq_refl ltac:(vm_compute; reflexivity) ltac:(vm_compute; reflexivity)) as Hr.
  destruct (recover_device_session _ _ _ _ _ _ _ _ _) as [o r']. exact (proj1 Hr).
Defined.


Lemma event_readings_exclusive_witness :
  is_Some (business_event Some demo_method (fun _ l => Some (text l)) (fun _ => []) demo_registered (st_world demo_site)).
Proof.
  apply (event_readings_exclusive Some demo_method (fun _ l => Some (text l)) (fun _ => []) demo_registered (st_world demo_site)).
  - intros m [-> | [-> | ->]]; reflexivity.
  - vm_compute. reflexivity.
Defined.
