(* ===== verification/SipCommands.v ===== *)
(** * SIP commands ([session/src/gb/sip/command.rs])

    The requests the services send to devices and what they wait for: MESSAGEs,
    the INVITE of a stream with its durable row, the broadcast of a talk, BYE and
    INFO within a dialog, dialogs of a former life included.  A command is a task
    ([Tasks]) on the state of the signalling node, [SignalNode]: the shared state
    of [DialogRecovery], the handle of the SIP runtime, the clocks, the locks that
    are held and the channels made.  [sn_sent] is the history of the requests put
    into the queue of the runtime.  What comes from other crates is the interface
    [SipLibrary]. *)
From Stdlib Require Import Ascii.
From stdpp Require Import pretty.
From S2P Require Import Prelude Text SharedTypes Scheduler Lifecycle SessionCache DialogCache Network CloseService RegisterCore.
From S2P Require Import Sequence Ssrc MediaExt Sdp DialogStore SipRuntime Xml NativeRuntime Subscription Tasks DialogRecovery.
Local Open Scope Z_scope.
Local Open Scope task_scope.

Definition INVITE_WAIT_TIMEOUT : Z := 15000.
Definition BYE_WAIT_TIMEOUT : Z := 8000.
Definition REQUEST_WAIT_TIMEOUT : Z := 8000.
Definition DIALOG_EXPIRE_HOURS : Z := 8.
Definition dialog_expiry (now : Z) : Z := now + DIALOG_EXPIRE_HOURS * 3600 * 1000.

Inductive SipDialogMethod := DialogInfo | DialogBye.
#[export] Instance SipDialogMethod_eq_dec : EqDecision SipDialogMethod.
Proof. solve_decision. Defined.
Record SipInviteIdentity := { id_call_id : string; id_local_tag : string; id_local_cseq : Z }.
Record CreateDeviceMessageRequest := { cm_device_id : string; cm_body : string; cm_content_type : string }.
Definition message_xml (device_id body : string) : CreateDeviceMessageRequest :=
  {| cm_device_id := device_id; cm_body := body; cm_content_type := GB_XML_CONTENT_TYPE |}.
Definition catalog_query (device_id : string) (sn : Z) := message_xml device_id (build_catalog_query sn device_id).
Definition device_info_query (device_id : string) (sn : Z) := message_xml device_id (build_device_info_query sn device_id).
Definition device_status_query (device_id : string) (sn : Z) := message_xml device_id (build_device_status_query sn device_id).
Definition config_download_query (device_id : string) (sn : Z) (config_type : string) :=
  message_xml device_id (build_config_download_query sn device_id config_type).
Definition ptz_position_query (device_id : string) (sn : Z) := message_xml device_id (build_ptz_position_query sn device_id).
Definition cruise_track_list_query (device_id : string) (sn : Z) :=
  message_xml device_id (build_cruise_track_list_query sn device_id).
Definition cruise_track_query (device_id : string) (sn number : Z) :=
  message_xml device_id (build_cruise_track_query sn device_id number).
Definition broadcast_notify (target_id : string) (sn : Z) (source_id : string) :=
  message_xml target_id (build_broadcast_notify sn source_id target_id).
Definition record_info_query (device_id : string) (sn : Z) (start_time end_time : string) :=
  message_xml device_id (build_record_info_query sn device_id start_time end_time).
Definition preset_query (device_id : string) := message_xml device_id (build_preset_query_xml device_id).
Definition snapshot_control (device_id channel_id : string) (count interval : Z) (url session_id : string) :=
  message_xml device_id (build_snapshot_control_xml channel_id count interval url session_id).
Record InviteStopRequest := { is_call_id : option string; is_stream_id : option string }.
Record PtzControlModel := {
  pz_deviceId : string; pz_channelId : string; pz_leftRight : Z; pz_upDown : Z; pz_inOut : Z; pz_horizonSpeed : Z;
  pz_verticalSpeed : Z; pz_zoomSpeed : Z
}.
Record DurableDialogReservation := { rs_signal_node_id : string; rs_version : Z }.

Inductive CommandError :=
| NotConnected | NoRuntime | NotSent (e : RuntimeError) | ResponseTimeout (reason : string) | RejectedBy (status : Z)
| NoRemoteTag | BadCSeq | BadAddress | DialogNotFound | OtherOwner | NotAllowed | ReservationLost | CasLost
| CseqOverflow | AtStore (e : StoreError) | BadSsrc | AtSdp (e : SdpError) | IdentityMismatch | BroadcastRejected
| InvalidPtz.

(** ** Texts *)

(** [format_gb_ssrc] and [normalize_gb_ssrc]. *)
Definition format_gb_ssrc (ssrc : Z) : string := fmt010 ssrc.
Definition normalize_gb_ssrc (ssrc : string) : outcome CommandError string :=
  let ssrc := text (trim (chars ssrc)) in
  if negb (String.length ssrc =? 10)%nat || negb (all_digits ssrc) then Failed BadSsrc else Done ssrc.
Definition invite_subject (channel_id receiver_id : string) (ssrc : Z) : string :=
  (channel_id +:+ ":" +:+ format_gb_ssrc ssrc +:+ "," +:+ receiver_id +:+ ":0")%string.

(** [format!("{value:02X}")]. *)
Definition hex_digit (n : Z) : ascii := nth (Z.to_nat n) (chars "0123456789ABCDEF") "0"%char.
Definition fmt02X (value : Z) : list ascii := [hex_digit (value / 16); hex_digit (value mod 16)].
Definition direction (value first second : Z) : Z := if value =? 1 then first else if value =? 2 then second else 0.
(** The bytes are [u8]; the check sum is a sum of [u16]. *)
Definition ptz_bytes (m : PtzControlModel) : list Z :=
  let b3 := Z.lor (Z.lor (direction (pz_leftRight m) 2 1) (direction (pz_upDown m) 8 4)) (direction (pz_inOut m) 32 16) in
  let bytes := [165; 15; 1; b3; pz_horizonSpeed m; pz_verticalSpeed m; Z.shiftl (pz_zoomSpeed m) 4 mod 256] in
  bytes ++ [foldr Z.add 0 bytes mod 2 ^ 16 mod 256].
Definition build_ptz_command (m : PtzControlModel) : outcome CommandError string :=
  if (2 <? pz_leftRight m) || (2 <? pz_upDown m) || (2 <? pz_inOut m) || (15 <? pz_zoomSpeed m) then Failed InvalidPtz
  else Done (text (concat (fmt02X <$> ptz_bytes m))).

Definition transport_protocol (trans_mode : TransMode) (fallback : Protocol) : SipTransportProtocol :=
  match trans_mode with
  | TcpActive | TcpPassive => STcp
  | TransUdp => match fallback with TCP => STcp | _ => SUdp end
  end.
Definition dialog_transport (p : SipTransportProtocol) : DialogTransport :=
  match p with SUdp => DUdp | STcp => DTcp | STls => DTls end.
Definition native_transport (t : DialogTransport) : SipTransportProtocol :=
  match t with DUdp => SUdp | DTcp => STcp | DTls => STls end.

(** What the commands use of other crates and of the configuration: the socket
    addresses and their text, the addresses of an association, [SessionConf], the
    character encodings, the JSON of route sets, the MANSRTSP and default SDP
    builders, the SDP parsers, the regular expression and the case table they
    need. *)
Class SipLibrary (A SA F32 : Type) := {
  parse_socket : string -> option SA; show_socket : SA -> string;
  remote_ip : A -> string; remote_port : A -> Z; local_text : A -> string; remote_text : A -> string;
  session_conf : SessionConf; xml_encode : XmlEncoding -> list ascii -> list ascii;
  routes_to_json : list string -> string; routes_from_json : string -> option (list string);
  build_play_sdp : string -> Z -> Z -> Z -> string; CONTENT_TYPE_MANSRTSP : string;
  build_mansrtsp_seek_body : Z -> Z -> list ascii; build_mansrtsp_speed_body : F32 -> Z -> list ascii;
  parse_lossy : string -> SdpInfo; session_parse : list ascii -> option (list SdpMedia);
  squeeze_space : list ascii -> list ascii; to_uppercase : list ascii -> list ascii
}.

Section SipCommands.
Context {A : Type} `{AssociationLike A} `{!MapIter string}.
Context {SA F32 : Type} `{!SipLibrary A SA F32} {Assoc Meth : Type} `{Countable Meth}.
Notation conf := session_conf.
Definition is_socket (a : string) : bool := bool_decide (is_Some (parse_socket a)).

(** [gmv_pjsip::SipDialogSnapshot], with the fields the source gives it. *)
Record SipDialogSnapshot := {
  ds_call_id : string; ds_local_uri : string; ds_remote_uri : string; ds_local_tag : string; ds_remote_tag : string;
  ds_local_cseq : Z; ds_remote_target : string; ds_route_set : list string; ds_protocol : SipTransportProtocol;
  ds_association_id : Z; ds_local_addr : SA; ds_remote_addr : SA
}.
(** The contents of the requests. *)
Inductive SipBody :=
| MessageBody (target_uri from_uri content_type : string) (body : list ascii)
| InviteBody (identity : SipInviteIdentity) (target_uri from_uri contact_uri : string) (subject sdp : string)
| DialogBody (method : SipDialogMethod) (call_id : string) (content_type : option string) (body : list ascii)
| RestoredBody (method : SipDialogMethod) (snapshot : SipDialogSnapshot) (content_type : option string) (body : list ascii).

Notation Handle := (@Handle A SipBody _ _).
Notation RuntimeCommand := (@RuntimeCommand A SipBody).
Notation Server := (Server (A := A) (Snap := SipDialogSnapshot) (Sdp := SdpInfo) (Assoc := Assoc) (Meth := Meth)).
Notation SipRuntimeCache := (SipRuntimeCache (Snap := SipDialogSnapshot) (Sdp := SdpInfo) (Assoc := Assoc) (Meth := Meth)).
Notation Reply := (@Reply SipDialogSnapshot SdpInfo Assoc).
Notation Accepted := (GbInviteAcceptedEvent SipDialogSnapshot SdpInfo).
Notation Incoming := (GbIncomingInviteEvent SipDialogSnapshot Assoc).

Record SignalNode := {
  sn_server : Server; sn_handle : Handle; sn_installed : bool; sn_clock : Z; sn_instant : Z; sn_serial : Z;
  sn_sent : list RuntimeCommand;
  sn_locked : gset Z; sn_channels : Z
}.
Definition on_server (f : Server -> Server) (w : SignalNode) : SignalNode := {|
  sn_server := f (sn_server w); sn_handle := sn_handle w; sn_installed := sn_installed w; sn_clock := sn_clock w;
  sn_instant := sn_instant w; sn_serial := sn_serial w; sn_sent := sn_sent w; sn_locked := sn_locked w;
  sn_channels := sn_channels w |}.
Definition with_runtime (h : Handle) (sent : list RuntimeCommand) (w : SignalNode) : SignalNode := {|
  sn_server := sn_server w; sn_handle := h; sn_installed := sn_installed w; sn_clock := sn_clock w;
  sn_instant := sn_instant w; sn_serial := sn_serial w; sn_sent := sent; sn_locked := sn_locked w;
  sn_channels := sn_channels w |}.
Definition with_serial (n : Z) (w : SignalNode) : SignalNode := {|
  sn_server := sn_server w; sn_handle := sn_handle w; sn_installed := sn_installed w; sn_clock := sn_clock w;
  sn_instant := sn_instant w; sn_serial := n; sn_sent := sn_sent w; sn_locked := sn_locked w;
  sn_channels := sn_channels w |}.

Definition with_locks (l : gset Z) (channels : Z) (w : SignalNode) : SignalNode := {|
  sn_server := sn_server w; sn_handle := sn_handle w; sn_installed := sn_installed w; sn_clock := sn_clock w;
  sn_instant := sn_instant w; sn_serial := sn_serial w; sn_sent := sn_sent w; sn_locked := l; sn_channels := channels |}.

(** What a task asks the outside.  The questions of the services are added by
    their own type, [More]. *)
Context {More : Type} {more_answer : More -> Type}.
Inductive Question := GenerateIdentity | Other (q : More).
Definition Answer (q : Question) : Type :=
  match q with GenerateIdentity => SipInviteIdentity | Other q => more_answer q end.
Notation task := (task SignalNode Answer).
Notation result X := (outcome CommandError X).

(** *** The steps *)

Definition cache_of_node (w : SignalNode) : Cache := general_cache (sv_register (sn_server w)).
Definition with_cache {X : Type} (f : Cache -> X * Cache) : task X :=
  atomically (fun w => let '(x, c) := f (cache_of_node w) in (x, on_server (on_register (on_cache (fun _ => c))) w)).
Definition from_cache {X : Type} (f : Cache -> X) : task X := reads (fun w => f (cache_of_node w)).
Definition do_sip (f : SipRuntimeCache -> SipRuntimeCache) : task unit := modify (on_server (on_sip f)).
Definition insert_waiter_now (f : Z -> SipRuntimeCache -> Z * SipRuntimeCache) : task Z :=
  atomically (fun w => let '(tx, c) := f (sn_instant w) (sv_sip (sn_server w)) in (tx, on_server (on_sip (fun _ => c)) w)).
Definition dialogs {X : Type} (f : Table -> outcome StoreError X * Table) : task (result X) :=
  atomically (fun w => let '(r, t) := f (sv_dialogs (sn_server w)) in
    (match r with Done x => Done x | Failed e => Failed (AtStore e) | Panic => Panic end, on_server (on_dialogs (fun _ => t)) w)).
Definition find_dialog (stream_id : string) : task (result (option SipDialogSession)) :=
  dialogs (fun t => (find_by_stream_id is_socket routes_from_json stream_id t, t)).
Definition connected (device_id : string) : task (option (DeviceSession A)) :=
  reads (fun w => get_connected_device_session device_id (sv_register (sn_server w))).
(** [NativeSipRuntimeHandle::global()] *)
Definition runtime : task (result unit) := reads (fun w => if sn_installed w then Done tt else Failed NoRuntime).
Definition next_id : task Z :=
  atomically (fun w => let '(id, h) := next_operation_id (sn_handle w) in (id, with_runtime h (sn_sent w) w)).
Definition submit (f : Handle -> outcome RuntimeError unit * Handle) : task (result unit) :=
  atomically (fun w => let '(r, h) := f (sn_handle w) in
    (match r with Done _ => Done tt | Failed e => Failed (NotSent e) | Panic => Panic end,
     with_runtime h (sn_sent w ++ drop (length (commands (sn_handle w))) (commands h)) w)).
Definition clock : task Z := reads sn_clock.
Definition next_sn : task Z := atomically (fun w => (sn_next (umax 32) (sn_serial w), with_serial (sn_next (umax 32) (sn_serial w)) w)).
(** [recv_with_timeout]; the receiver is gone afterwards. *)
Definition recv (tx : Z) : task (Reply + string) :=
  wait (fun timed_out w =>
    x ← recv_with_timeout tx timed_out (sv_sip (sn_server w)); Some (x, on_server (on_sip (drop_receiver tx)) w)).

(** ** Requests and their responses *)

(** The end of the three request functions. *)
Definition await_response (operation_id tx : Z) (accept : Z -> bool) : task (result unit) :=
  r <- recv tx ;;
  match r with
  | inr reason => do_sip (remove_native_response_waiter operation_id) ;;; Ret (Failed (ResponseTimeout reason))
  | inl (RResponse r) => Ret (if accept (rr_status r) then Done tt else Failed (RejectedBy (rr_status r)))
  | inl _ => Ret Panic
  end.
(** Submit under a waiter, which goes when the queue refuses. *)
Definition send_and_wait (operation_id tx : Z) (accept : Z -> bool) (f : Handle -> outcome RuntimeError unit * Handle)
    : task (result unit) :=
  r <- submit f ;;
  match r with
  | Done _ => await_response operation_id tx accept
  | e => do_sip (fun c => drop_receiver tx (remove_native_response_waiter operation_id c)) ;;; Ret e
  end.
Definition success (status : Z) : bool := (200 <=? status) && (status <? 300).
Definition dialog_success (method : SipDialogMethod) (status : Z) : bool :=
  success status || (bool_decide (method = DialogBye) && (status =? 481)).
Definition from_uri : string :=
  ("<sip:" +:+ sc_domain_id conf +:+ "@" +:+ sc_wan_ip conf +:+ ":" +:+ pretty (sc_wan_port conf) +:+ ">")%string.

Definition send_native_message_on_device_and_wait (device_id : string) (req : CreateDeviceMessageRequest) : task (result unit) :=
  s <- connected device_id ;;
  match s with
  | None => Ret (Failed NotConnected)
  | Some s =>
      _ <-? runtime ;;
      operation_id <- next_id ;;
      tx <- insert_waiter_now (fun now => insert_native_response_waiter operation_id REQUEST_WAIT_TIMEOUT now) ;;
      let protocol := pjsip_protocol_from_base (assoc_protocol (association s)) in
      let body := encode_document xml_encode (chars (cm_body req)) (gb_version s) in
      send_and_wait operation_id tx success (send_message (association s)
        {| ob_operation_id := operation_id; ob_protocol := protocol; ob_association_id := 0;
           ob_body := MessageBody (target_uri (cm_device_id req) (remote_ip (association s)) (remote_port (association s)) protocol)
                        from_uri (cm_content_type req) body |})
  end.
Definition send_native_message_and_wait (req : CreateDeviceMessageRequest) : task (result unit) :=
  send_native_message_on_device_and_wait (cm_device_id req) req.
Definition send_native_dialog_and_wait (device_id : string) (method : SipDialogMethod) (call_id : string)
    (content_type : option string) (body : list ascii) (timeout : Z) : task (result unit) :=
  s <- connected device_id ;;
  match s with
  | None => Ret (Failed NotConnected)
  | Some _ =>
      _ <-? runtime ;;
      operation_id <- next_id ;;
      tx <- insert_waiter_now (fun now => insert_native_response_waiter operation_id timeout now) ;;
      send_and_wait operation_id tx (dialog_success method)
        (send_dialog_request operation_id (DialogBody method call_id content_type body))
  end.

(** ** Requests in dialogs of a former life *)

Definition dialog_snapshot_from_session (s : SipDialogSession) : result SipDialogSnapshot :=
  match d_remote_tag s with
  | None => Failed NoRemoteTag
  | Some remote_tag =>
      if negb ((0 <=? d_local_cseq s) && (d_local_cseq s <=? umax 32)) then Failed BadCSeq else
      match parse_socket (d_local_sip_addr s), parse_socket (d_remote_sip_addr s) with
      | Some local_addr, Some remote_addr =>
          Done {| ds_call_id := d_call_id s; ds_local_uri := d_local_uri s; ds_remote_uri := d_remote_uri s;
            ds_local_tag := d_local_tag s; ds_remote_tag := remote_tag; ds_local_cseq := d_local_cseq s;
            ds_remote_target := default (d_remote_uri s) (d_contact_uri s); ds_route_set := d_route_set s;
            ds_protocol := native_transport (d_transport s); ds_association_id := 0; ds_local_addr := local_addr;
            ds_remote_addr := remote_addr |}
      | _, _ => Failed BadAddress
      end
  end.
(** A session that gives no snapshot is refused after the waiter was made; the
    waiter stays until it expires. *)
Definition send_restored_dialog_and_wait (device_id : string) (method : SipDialogMethod) (session : SipDialogSession)
    (content_type : option string) (body : list ascii) (timeout : Z) : task (result unit) :=
  s <- connected device_id ;;
  match d_transport session, s with
  | DTcp, None => Ret (Failed NotConnected)
  | _, _ =>
      _ <-? runtime ;;
      operation_id <- next_id ;;
      tx <- insert_waiter_now (fun now => insert_native_response_waiter operation_id timeout now) ;;
      match dialog_snapshot_from_session session with
      | Done snapshot =>
          send_and_wait operation_id tx (dialog_success method) (send_restored_dialog_request (association <$> s)
            {| sd_operation_id := operation_id; sd_protocol := ds_protocol snapshot; sd_association_id := 0;
               sd_addresses := None; sd_body := RestoredBody method snapshot content_type body |})
      | Failed e => do_sip (drop_receiver tx) ;;; Ret (Failed e)
      | Panic => Ret Panic
      end
  end.

Definition load_durable_dialog (stream_id : string) : task (result SipDialogSession) :=
  s <-? find_dialog stream_id ;;
  match s with Some s => Ret (Done s) | None => Ret (Failed DialogNotFound) end.
Definition reserve_durable_dialog_request (stream_id : string) (method : SipDialogMethod)
    : task (result (option DurableDialogReservation)) :=
  s <-? find_dialog stream_id ;;
  match s with
  | None => Ret (Done None)
  | Some s =>
      if bool_decide (d_signal_node_id s <> sc_domain_id conf) then Ret (Failed OtherOwner)
      else if 2 ^ 63 - 1 <? d_local_cseq s + 1 then Ret (Failed CseqOverflow)
      else
        updated_at <- clock ;;
        let next_cseq := d_local_cseq s + 1 in
        let reserved (t : task (result bool)) :=
          r <-? t ;;
          Ret (if r : bool
               then Done (Some {| rs_signal_node_id := d_signal_node_id s; rs_version := d_version s + 1 |})
               else Failed ReservationLost) in
        match method, d_state s with
        | DialogInfo, Established | DialogBye, Terminating =>
            reserved (dialogs (cas_reserve_local_cseq stream_id (d_signal_node_id s) (d_version s) (d_local_cseq s) next_cseq updated_at))
        | DialogBye, Established =>
            reserved (dialogs (cas_begin_terminating stream_id (d_signal_node_id s) (d_version s) (d_local_cseq s) next_cseq updated_at))
        | _, _ => Ret (Failed NotAllowed)
        end
  end.

Definition invite_stop_by_device (device_id : string) (req : InviteStopRequest) : task (result unit) :=
  cached <- from_cache (fun c => id ← is_stream_id req; stream_call_id id c) ;;
  match match is_call_id req with Some call_id => Some call_id | None => cached end with
  | None => Ret (Failed DialogNotFound)
  | Some call_id =>
      reservation <-? match is_stream_id req with
                      | Some stream_id => reserve_durable_dialog_request stream_id DialogBye
                      | None => Ret (Done None)
                      end ;;
      restored <- from_cache (fun c => match is_stream_id req with
                                       | Some id => stream_is_restored id c || talk_is_restored id c
                                       | None => false
                                       end) ;;
      _ <-? (if restored : bool then
               session <-? load_durable_dialog (default ""%string (is_stream_id req)) ;;
               send_restored_dialog_and_wait device_id DialogBye session None [] BYE_WAIT_TIMEOUT
             else send_native_dialog_and_wait device_id DialogBye call_id None [] BYE_WAIT_TIMEOUT) ;;
      match is_stream_id req, reservation with
      | Some stream_id, Some reservation =>
          updated_at <- clock ;;
          persisted <-? dialogs (cas_transition stream_id (rs_signal_node_id reservation) (rs_version reservation)
                                   Terminating Terminated updated_at) ;;
          Ret (if persisted : bool then Done tt else Failed CasLost)
      | _, _ => Ret (Done tt)
      end
  end.
Definition invite_stop_by_stream (stream_id : string) : task (result unit) :=
  call_id <- from_cache (stream_call_id stream_id) ;;
  match call_id with
  | None => Ret (Failed DialogNotFound)
  | Some call_id =>
      device_id <- from_cache (stream_device_id stream_id) ;;
      match device_id with
      | None => Ret (Failed DialogNotFound)
      | Some device_id =>
          invite_stop_by_device device_id {| is_call_id := Some call_id; is_stream_id := Some stream_id |}
      end
  end.
(** [play_seek] and [play_speed]; the MANSRTSP body is another crate's. *)
Definition play_info (device_id stream_id : string) (body : list ascii) : task (result unit) :=
  call_id <- from_cache (stream_call_id stream_id) ;;
  match call_id with
  | None => Ret (Failed DialogNotFound)
  | Some call_id =>
      _ <-? reserve_durable_dialog_request stream_id DialogInfo ;;
      restored <- from_cache (stream_is_restored stream_id) ;;
      if restored : bool then
        session <-? load_durable_dialog stream_id ;;
        send_restored_dialog_and_wait device_id DialogInfo session (Some CONTENT_TYPE_MANSRTSP) body REQUEST_WAIT_TIMEOUT
      else send_native_dialog_and_wait device_id DialogInfo call_id (Some CONTENT_TYPE_MANSRTSP) body REQUEST_WAIT_TIMEOUT
  end.
Definition play_seek (device_id stream_id : string) (seek_second : Z) : task (result unit) :=
  play_info device_id stream_id (build_mansrtsp_seek_body seek_second 1).
Definition play_speed (device_id stream_id : string) (speed : F32) : task (result unit) :=
  play_info device_id stream_id (build_mansrtsp_speed_body speed 1).

(** ** MESSAGEs *)

Definition query_catalog (device_id : string) (sn : Z) : task (result unit) :=
  send_native_message_and_wait (catalog_query device_id sn).
Definition query_device_info (device_id : string) (sn : Z) : task (result unit) :=
  send_native_message_and_wait (device_info_query device_id sn).
Definition query_record_info (device_id : string) (sn : Z) (start_time end_time : string) : task (result unit) :=
  send_native_message_and_wait (record_info_query device_id sn start_time end_time).
Definition query_preset (device_id : string) : task (result unit) :=
  send_native_message_and_wait (preset_query device_id).
Definition send_xml_message (device_id body : string) : task (result unit) :=
  send_native_message_and_wait (message_xml device_id body).
Definition control_ptz (m : PtzControlModel) : task (result unit) :=
  sn <- next_sn ;;
  command <-? Ret (build_ptz_command m) ;;
  send_xml_message (pz_deviceId m) (build_ptz_control sn (pz_channelId m) command).
Definition snapshot_image_call (device_id channel_id : string) (count interval : Z) (url session_id : string)
    : task (result unit) :=
  send_native_message_and_wait (snapshot_control device_id channel_id count interval url session_id).

(** ** The broadcast of a talk *)

(** Whether the runtime takes the answer is not looked at. *)
Definition reject_broadcast_invite (call_id : string) (status_code : Z) : task unit :=
  up <- runtime ;;
  match up with
  | Done _ => submit (respond_invite call_id status_code) ;;; Ret tt
  | _ => Ret tt
  end.
(** [invite_rx.try_recv()] *)
Definition try_recv (tx : Z) : task (option Reply) :=
  reads (fun w => match snd <$> head (filter (fun e => e.1 = tx) (ended (sv_sip (sn_server w)))) with
                  | Some RDropped | None => None
                  | Some v => Some v
                  end).
Definition reject_buffered_broadcast_invite (tx : Z) : task unit :=
  r <- try_recv tx ;;
  match r with
  | Some (RIncoming invite) => reject_broadcast_invite (ii_call_id invite) 503
  | _ => Ret tt
  end.
(** The receiver of the INVITE is dropped when the function returns. *)
Definition give_up_invite (target_id : string) (rx : Z) (e : CommandError) : task (result Incoming) :=
  reject_buffered_broadcast_invite rx ;;;
  do_sip (remove_broadcast_invite_waiter target_id) ;;;
  do_sip (drop_receiver rx) ;;;
  Ret (Failed e).
Definition broadcast_notify_and_wait (device_id target_id : string) (sn : Z) : task (result Incoming) :=
  let key := {| brk_sn := pretty sn; brk_target_id := target_id |} in
  response_rx <- insert_waiter_now (fun now => insert_broadcast_response_waiter key INVITE_WAIT_TIMEOUT now) ;;
  invite_rx <- insert_waiter_now (fun now => insert_broadcast_invite_waiter target_id (sc_domain_id conf) INVITE_WAIT_TIMEOUT now) ;;
  r <- send_native_message_on_device_and_wait device_id
         (broadcast_notify target_id sn (sc_domain_id conf)) ;;
  match r with
  | Failed e =>
      do_sip (fun c => drop_receiver response_rx (remove_broadcast_response_waiter key c)) ;;;
      give_up_invite target_id invite_rx e
  | Panic => Ret Panic
  | Done _ =>
      r <- recv response_rx ;;
      match r with
      | inl (RBroadcast true) =>
          r <- recv invite_rx ;;
          match r with
          | inl (RIncoming invite) => Ret (Done invite)
          | inr reason => do_sip (remove_broadcast_invite_waiter target_id) ;;; Ret (Failed (ResponseTimeout reason))
          | inl _ => Ret Panic
          end
      | inl (RBroadcast false) => give_up_invite target_id invite_rx BroadcastRejected
      | inr reason => do_sip (remove_broadcast_response_waiter key) ;;; give_up_invite target_id invite_rx (ResponseTimeout reason)
      | inl _ => Ret Panic
      end
  end.

(** ** Ending an INVITE that went wrong *)

(** A lost or failed update is only logged. *)
Definition mark_inviting_terminal (stream_id signal_node_id : string) (next_state : DialogState) : task unit :=
  updated_at <- clock ;;
  _ <- dialogs (cas_transition stream_id signal_node_id 0 Inviting next_state updated_at) ;;
  Ret tt.
Definition rollback_established_invite (device_id stream_id signal_node_id call_id : string) (next_state : DialogState)
    : task unit :=
  bye <- send_native_dialog_and_wait device_id DialogBye call_id None [] BYE_WAIT_TIMEOUT ;;
  do_sip (remove_stream_indexes stream_id (Some call_id)) ;;;
  mark_inviting_terminal stream_id signal_node_id (match bye with Done _ => Terminated | _ => next_state end).
Definition close_invite_after_answer_error (device_id stream_id : string) (accepted : Accepted) : task unit :=
  _ <- invite_stop_by_device device_id {| is_call_id := Some (ia_call_id accepted); is_stream_id := Some stream_id |} ;;
  do_sip (remove_stream_indexes stream_id (Some (ia_call_id accepted))).

(** The row of a dialog that is being opened, and of one that is open. *)
Definition inviting_session (stream_id device_id channel_id : string) (ty : DialogSessionType) (media_node_id : string)
    (ssrc : Z) (call_id local_uri remote_uri local_tag : string) (local_cseq : Z) (remote_cseq : option Z)
    (contact_uri : option string) (route_set : list string) (local_addr remote_addr : string) (transport : DialogTransport)
    (now : Z) : SipDialogSession := {|
  d_stream_id := stream_id; d_device_id := device_id; d_channel_id := channel_id; d_session_type := ty;
  d_signal_node_id := sc_domain_id conf; d_media_node_id := media_node_id; d_ssrc := Some (format_gb_ssrc ssrc);
  d_call_id := call_id; d_local_uri := local_uri; d_remote_uri := remote_uri; d_local_tag := local_tag;
  d_remote_tag := None; d_local_cseq := local_cseq; d_remote_cseq := remote_cseq; d_contact_uri := contact_uri;
  d_route_set := route_set; d_local_sip_addr := local_addr; d_remote_sip_addr := remote_addr; d_transport := transport;
  d_state := Inviting; d_established_at := None; d_last_seen_at := now; d_expire_at := dialog_expiry now; d_version := 0;
  d_created_at := now; d_updated_at := now |}.
Definition established_fields (s : SipDialogSnapshot) (remote_cseq : option Z) (at_ : Z) : EstablishedDialogFields := {|
  e_remote_tag := ds_remote_tag s; e_local_cseq := ds_local_cseq s; e_remote_cseq := remote_cseq;
  e_contact_uri := Some (ds_remote_target s); e_route_set := ds_route_set s;
  e_local_sip_addr := show_socket (ds_local_addr s); e_remote_sip_addr := show_socket (ds_remote_addr s);
  e_established_at := at_; e_last_seen_at := at_; e_expire_at := dialog_expiry at_; e_updated_at := at_ |}.
Definition insert_dialog (s : SipDialogSession) : task (result unit) :=
  dialogs (insert_inviting is_socket routes_to_json s).
Definition mark_established (stream_id signal_node_id : string) (f : EstablishedDialogFields) : task (result bool) :=
  dialogs (cas_mark_established is_socket routes_to_json stream_id signal_node_id 0 f).

Record AcceptBroadcastInviteRequest := {
  ab_device_id : string; ab_channel_id : string; ab_talk_id : string; ab_media_node_id : string; ab_media_ip : string;
  ab_media_port : Z; ab_ssrc : Z; ab_payload_type : Z; ab_invite : Incoming
}.
(** The SDP of the 200 response. *)
Definition broadcast_answer_sdp (req : AcceptBroadcastInviteRequest) : string :=
  let pt := pretty (ab_payload_type req) in
  ("v=0" +:+ crlf +:+ "o=" +:+ sc_domain_id conf +:+ " 0 0 IN IP4 " +:+ ab_media_ip req +:+ crlf +:+ "s=Play" +:+ crlf
   +:+ "c=IN IP4 " +:+ ab_media_ip req +:+ crlf +:+ "t=0 0" +:+ crlf
   +:+ "m=audio " +:+ pretty (ab_media_port req) +:+ " RTP/AVP " +:+ pt +:+ crlf +:+ "a=sendonly" +:+ crlf
   +:+ "a=rtpmap:" +:+ pt +:+ " PCMA/8000/1" +:+ crlf +:+ "f=v/////a/1/8/1" +:+ crlf
   +:+ "y=" +:+ fmt010 (ab_ssrc req) +:+ crlf)%string.
Definition accept_broadcast_invite (req : AcceptBroadcastInviteRequest) : task (result unit) :=
  let invite := ab_invite req in
  let snapshot := ii_dialog_snapshot invite in
  let roll_back (e : CommandError) : task (result unit) :=
    rollback_established_invite (ab_device_id req) (ab_talk_id req) (sc_domain_id conf) (ii_call_id invite) Orphan ;;;
    Ret (Failed e) in
  now <- clock ;;
  r <- insert_dialog (inviting_session (ab_talk_id req) (ab_device_id req) (ab_channel_id req) DTalk (ab_media_node_id req)
         (ab_ssrc req) (ii_call_id invite) (ds_local_uri snapshot) (ds_remote_uri snapshot) (ds_local_tag snapshot)
         (ds_local_cseq snapshot) (Some (ii_cseq invite)) (Some (ds_remote_target snapshot)) (ds_route_set snapshot)
         (show_socket (ds_local_addr snapshot)) (show_socket (ds_remote_addr snapshot))
         (dialog_transport (ds_protocol snapshot)) now) ;;
  match r with
  | Failed e => reject_broadcast_invite (ii_call_id invite) 500 ;;; Ret (Failed e)
  | Panic => Ret Panic
  | Done _ =>
      _ <-? runtime ;;
      r <- submit (respond_invite (ii_call_id invite) 200) ;;
      match r with
      | Done _ =>
          established_at <- clock ;;
          r <- mark_established (ab_talk_id req) (sc_domain_id conf)
                 (established_fields snapshot (Some (ii_cseq invite)) established_at) ;;
          match r with
          | Done true => do_sip (restore_stream_index (ii_call_id invite) (ab_talk_id req)) ;;; Ret (Done tt)
          | Done false => roll_back CasLost
          | Failed e => roll_back e
          | Panic => Ret Panic
          end
      | Failed e => mark_inviting_terminal (ab_talk_id req) (sc_domain_id conf) Orphan ;;; Ret (Failed e)
      | Panic => Ret Panic
      end
  end.

(** ** The INVITE of a stream *)

Record InvitePlayRequest := {
  ip_device_id : string; ip_channel_id : string; ip_stream_id : string; ip_media_node_id : string;
  ip_session_type : DialogSessionType; ip_device_host : string; ip_device_port : Z; ip_media_ip : string;
  ip_media_port : Z; ip_ssrc : Z; ip_payload_type : Z; ip_protocol : SipTransportProtocol; ip_sdp : option string;
  ip_call_id : option string; ip_cseq : option Z; ip_subject : option string
}.
Definition outbound_invite (req : InvitePlayRequest) (identity : SipInviteIdentity) (operation_id : Z)
    (protocol : SipTransportProtocol) : Outbound := {|
  ob_operation_id := operation_id; ob_protocol := protocol; ob_association_id := 0;
  ob_body := InviteBody identity (target_uri (ip_device_id req) (ip_device_host req) (ip_device_port req) protocol) from_uri
    ("<" +:+ target_uri (sc_domain_id conf) (sc_wan_ip conf) (sc_wan_port conf) protocol +:+ ">")%string
    (default (invite_subject (ip_channel_id req) (sc_domain_id conf) (ip_ssrc req)) (ip_subject req))
    (default (build_play_sdp (ip_media_ip req) (ip_media_port req) (ip_ssrc req) (ip_payload_type req)) (ip_sdp req)) |}.
(** [invite_play], which does not wait. *)
Definition invite_play (req : InvitePlayRequest) : task (result unit) :=
  s <- connected (ip_device_id req) ;;
  match s with
  | None => Ret (Failed NotConnected)
  | Some s =>
      _ <-? runtime ;;
      operation_id <- next_id ;;
      identity <- ask GenerateIdentity ;;
      submit (send_invite (association s)
        (outbound_invite req identity operation_id (pjsip_protocol_from_base (assoc_protocol (association s)))))
  end.

Definition same_identity (s : SipDialogSnapshot) (identity : SipInviteIdentity) (protocol : SipTransportProtocol) : bool :=
  bool_decide (ds_call_id s = id_call_id identity) && bool_decide (ds_local_tag s = id_local_tag identity)
  && (ds_local_cseq s =? id_local_cseq identity) && bool_decide (ds_protocol s = protocol).
(** What follows the answer to the INVITE. *)
Definition invite_answered (req : InvitePlayRequest) (identity : SipInviteIdentity) (protocol : SipTransportProtocol)
    (operation_id : Z) (r : Reply + string) : task (result Accepted) :=
  let stream_id := ip_stream_id req in
  let roll_back (call_id : string) (e : CommandError) : task (result Accepted) :=
    rollback_established_invite (ip_device_id req) stream_id (sc_domain_id conf) call_id Orphan ;;; Ret (Failed e) in
  match r with
  | inl (RInvite (inl event)) =>
      if negb (same_identity (ia_dialog_snapshot event) identity protocol) then roll_back (ia_call_id event) IdentityMismatch
      else
        established_at <- clock ;;
        r <- mark_established stream_id (sc_domain_id conf) (established_fields (ia_dialog_snapshot event) None established_at) ;;
        match r with
        | Done true => Ret (Done event)
        | Done false => roll_back (ia_call_id event) CasLost
        | Failed e => roll_back (ia_call_id event) e
        | Panic => Ret Panic
        end
  | inl (RInvite (inr failure)) =>
      do_sip (remove_stream_indexes stream_id (Some (if_call_id failure))) ;;;
      (if if_dialog_established failure
       then rollback_established_invite (ip_device_id req) stream_id (sc_domain_id conf) (if_call_id failure) Orphan
       else mark_inviting_terminal stream_id (sc_domain_id conf) Terminated) ;;;
      Ret (Failed (RejectedBy (if_status failure)))
  | inl _ => Ret Panic
  | inr reason =>
      do_sip (remove_native_invite_waiter operation_id) ;;;
      mark_inviting_terminal stream_id (sc_domain_id conf) Orphan ;;;
      Ret (Failed (ResponseTimeout reason))
  end.
Definition invite_play_and_wait (req : InvitePlayRequest) : task (result Accepted) :=
  s <- connected (ip_device_id req) ;;
  match s with
  | None => Ret (Failed NotConnected)
  | Some s =>
      _ <-? runtime ;;
      operation_id <- next_id ;;
      identity <- ask GenerateIdentity ;;
      let protocol := pjsip_protocol_from_base (assoc_protocol (association s)) in
      now <- clock ;;
      _ <-? insert_dialog (inviting_session (ip_stream_id req) (ip_device_id req) (ip_channel_id req) (ip_session_type req)
              (ip_media_node_id req) (ip_ssrc req) (id_call_id identity) from_uri
              (target_uri (ip_device_id req) (ip_device_host req) (ip_device_port req) protocol) (id_local_tag identity)
              (id_local_cseq identity) None None [] (local_text (association s)) (remote_text (association s))
              (dialog_transport protocol) now) ;;
      rx <- insert_waiter_now (fun now => insert_native_invite_waiter operation_id
              {| nim_device_id := ip_device_id req; nim_channel_id := ip_channel_id req; nim_stream_id := ip_stream_id req;
                 nim_ssrc := Some (ip_ssrc req) |} INVITE_WAIT_TIMEOUT now) ;;
      sent <- submit (send_invite (association s) (outbound_invite req identity operation_id protocol)) ;;
      match sent with
      | Done _ => r <- recv rx ;; invite_answered req identity protocol operation_id r
      | Failed e =>
          do_sip (fun c => drop_receiver rx (remove_native_invite_waiter operation_id c)) ;;;
          mark_inviting_terminal (ip_stream_id req) (sc_domain_id conf) Terminated ;;;
          Ret (Failed e)
      | Panic => Ret Panic
      end
  end.

(** *** Live, playback, download *)

Definition connected_target (device_id : string) : task (result (string * Z * Protocol)) :=
  s <- connected device_id ;;
  Ret (match s with
       | None => Failed NotConnected
       | Some s => Done (remote_ip (association s), remote_port (association s), assoc_protocol (association s))
       end).
Definition parse_media_ext_or_close (device_id stream_id expected_ssrc : string) (accepted : Accepted)
    : task (result MediaExt) :=
  match match validate_invite_answer_sdp parse_lossy (ia_remote_sdp accepted) expected_ssrc with
        | Done _ => parse_media_ext session_parse squeeze_space to_uppercase (chars (ia_remote_sdp accepted))
        | Failed e => Failed e
        | Panic => Panic
        end with
  | Done ext => Ret (Done ext)
  | Failed e => close_invite_after_answer_error device_id stream_id accepted ;;; Ret (Failed (AtSdp e))
  | Panic => Ret Panic
  end.
(** The three functions differ in the offer and the type of the session. *)
Definition invite_with (ty : DialogSessionType) (offer : string -> string) (device_id channel_id media_node_id media_ip : string)
    (media_port : Z) (trans_mode : TransMode) (ssrc stream_id : string) : task (result (Accepted * MediaExt)) :=
  target <-? connected_target device_id ;;
  let '(host, port, proto) := target in
  ssrc <-? Ret (normalize_gb_ssrc ssrc) ;;
  match parse_u32 ssrc with
  | None => Ret (Failed BadSsrc)
  | Some ssrc_u32 =>
      accepted <-? invite_play_and_wait {|
        ip_device_id := device_id; ip_channel_id := channel_id; ip_stream_id := stream_id;
        ip_media_node_id := media_node_id; ip_session_type := ty; ip_device_host := host; ip_device_port := port;
        ip_media_ip := media_ip; ip_media_port := media_port; ip_ssrc := ssrc_u32; ip_payload_type := 96;
        ip_protocol := transport_protocol trans_mode proto; ip_sdp := Some (offer ssrc); ip_call_id := None;
        ip_cseq := None; ip_subject := None |} ;;
      ext <-? parse_media_ext_or_close device_id stream_id ssrc accepted ;;
      Ret (Done (accepted, ext))
  end.
Definition play_live_invite_wait (device_id channel_id media_node_id media_ip : string) (media_port : Z)
    (trans_mode : TransMode) (ssrc stream_id : string) :=
  invite_with DLive (fun ssrc => play_live (sc_wan_ip conf) channel_id media_ip media_port trans_mode ssrc true)
    device_id channel_id media_node_id media_ip media_port trans_mode ssrc stream_id.
Definition play_back_invite_wait (device_id channel_id media_node_id media_ip : string) (media_port : Z)
    (trans_mode : TransMode) (ssrc stream_id : string) (st et : Z) :=
  invite_with DPlayback (fun ssrc => playback (sc_wan_ip conf) channel_id media_ip media_port trans_mode ssrc st et true)
    device_id channel_id media_node_id media_ip media_port trans_mode ssrc stream_id.
Definition download_invite_wait (device_id channel_id media_node_id media_ip : string) (media_port : Z)
    (trans_mode : TransMode) (ssrc stream_id : string) (st et speed : Z) :=
  invite_with DDownload (fun ssrc => download (sc_wan_ip conf) channel_id media_ip media_port trans_mode ssrc st et speed true)
    device_id channel_id media_node_id media_ip media_port trans_mode ssrc stream_id.
End SipCommands.
