(* ===== verification/StreamService.v ===== *)
(** * Opening streams and talks ([session/src/service/api_serv.rs])

    A client asks for a live view, a playback, a download or a talk.  The service
    looks for a stream it can share, prepares a media node, invites the device
    and waits for the media; what it prepared it takes back when a later step
    fails.  Each function is a task on the [SignalNode] of [SipCommands]; the
    requests to the media nodes, the allocation of SSRCs and the data base are
    questions ([ServiceQuestion]). *)
From Stdlib Require Import Ascii Floats.SpecFloat.
From stdpp Require Import pretty sorting.
From S2P Require Import Prelude Text SharedTypes Scheduler Lifecycle SessionCache DialogCache Network CloseService RegisterCore.
From S2P Require Import Ssrc MediaExt Sdp TalkUpload DialogStore SipRuntime NativeRuntime Subscription Tasks DialogRecovery SipCommands.
Local Open Scope Z_scope.
Local Open Scope task_scope.

Definition EXPIRES : Z := 8.

Record StreamQo := { sq_stream_id : string; sq_media_type : option OutputEnum }.
(** [Filter::default()] *)
Definition Filter_default : Filter := {| capture := None |}.
Record CustomMediaConfig := { cm_output : OutputKind; cm_codec : option Codec; cm_filter : Filter }.
Record PlayLiveModel := {
  pl_device_id : string; pl_channel_id : option string; pl_trans_mode : option TransMode;
  pl_custom_media_config : option CustomMediaConfig
}.
Record PlayBackModel := {
  pb_device_id : string; pb_channel_id : option string; pb_trans_mode : option TransMode;
  pb_custom_media_config : option CustomMediaConfig; pb_st : Z; pb_et : Z
}.
Record PlaySeekModel := { pk_streamId : string; pk_seekSecond : Z }.
(** An [f32] is [spec_float] with 24 bits of precision. *)
Abbreviation f32 := spec_float.
Record PlaySpeedModel := { pe_streamId : string; pe_speedRate : f32 }.
(** [matches!(speedRate, 0.5 | 1.0 | 2.0 | 4.0)] *)
Definition speed_supported (speed : f32) : bool :=
  existsb (fun e => SFeqb speed (S754_finite false 8388608 e)) [-24; -23; -22; -21].
Record StreamInfo := { sf_url : string; sf_streamId : string }.
Record GmvRecord := {
  gr_biz_id : string; gr_device_id : string; gr_channel_id : string; gr_user_id : option string; gr_st : Z; gr_et : Z;
  gr_speed : Z; gr_ct : Z; gr_state : Z; gr_lt : Z; gr_stream_app_name : string
}.
Record TalkInfo := {
  ti_talk_id : string; ti_input_url : string; ti_codec : string; ti_sample_rate : Z; ti_channel_count : Z;
  ti_frame_duration_ms : Z
}.
(** A configured media node. *)
Record MediaNode := { mn_pub_ip : string; mn_pub_port : Z }.

Inductive ServiceError :=
| DeviceOffline | BadStreamId | StreamServer | UnsupportedOutput | BadRange | BadSpeed | NotPlayback | StreamNotFound
| TaskExists | TalkExists | NoStreamServer | NoMedia | DialogExists | IncompatibleCodec | NodeError (code : Z) | HttpError
| ClientError | AtCommand (e : CommandError) | AtSsrc (e : SsrcError) | AtTalk (e : TalkOptionError) | AtBroadcastSdp (e : SdpError)
| StorageFailed | BadNumber | BadTime.

Definition output_kind_to_enum (output : OutputKind) : OutputEnum :=
  match output with
  | KRtmp => Rtmp | KDashFmp4 => DashFmp4 | KDashMp4 => DashMp4 | KHlsFmp4 => HlsFmp4 | KHlsTs => HlsTs | KRtsp => Rtsp
  | KGb28181Frame => Gb28181Frame | KGb28181Ps => Gb28181Ps | KWebRtc => WebRtc | KLocalMp4 _ => LocalMp4
  | KLocalTs _ => LocalTs | KHttpFlv => HttpFlv
  end.
(** [StreamInfo::build] *)
Definition StreamInfo_build (stream_id proxy_addr : string) (out_kind : option OutputKind) : outcome ServiceError StreamInfo :=
  let url := (proxy_addr +:+ "/play/" +:+ stream_id)%string in
  let ok suffix := Done {| sf_url := (url +:+ suffix)%string; sf_streamId := stream_id |} in
  match out_kind with
  | None | Some KDashFmp4 => ok ".fmp4"%string
  | Some KHttpFlv => ok ".flv"%string
  | Some KDashMp4 => ok ".mpd"%string
  | _ => Failed UnsupportedOutput
  end.
Definition validate_playback_range (st et : Z) : outcome ServiceError unit := if st <? et then Done tt else Failed BadRange.

(** The questions; a request to a media node is answered by [None] when it
    fails, by the code of its response and what is read of it otherwise. *)
Inductive ServiceQuestion :=
| StreamInit (node : string) (config : MediaConfig)
| StreamInitExt (node : string) (ssrc : Z) (ext : MediaExt)
| StreamOnline (node : string) (ssrc : Z) (stream_id : string)
| CloseOutput (node : string) (ssrc : Z) (output : OutputEnum)
| TalkOpen (node : string) (req : TalkOpenReq)
| TalkAnswer (node : string) (req : TalkAnswerReq)
| TalkClose (node talk_id : string)
| RecordInfo (node : string) (ssrc : Z) (output : OutputEnum)
| BuildSsrcStreamId (device_id channel_id : string) (live : bool)
| BroadcastTarget (device_id channel_id : string)
| RecordRunning (device_id channel_id : string)
| InsertRecord (record : GmvRecord)
| PreparePath
| Sleep (ms : Z).
Definition service_answer (q : ServiceQuestion) : Type :=
  match q with
  | StreamInit _ _ | StreamInitExt _ _ _ | CloseOutput _ _ _ | TalkAnswer _ _ => option Z
  | StreamOnline _ _ _ => option (option bool)
  | TalkOpen _ _ => option (Z * option TalkOpenResp)
  | TalkClose _ _ | Sleep _ => unit
  | RecordInfo _ _ _ => option (Z * option StreamRecordInfo)
  | BuildSsrcStreamId _ _ _ => outcome SsrcError (string * string)
  | BroadcastTarget _ _ => option string
  | RecordRunning _ _ => option bool
  | InsertRecord _ => option unit
  | PreparePath => option string
  end.

Section StreamService.
Context {A : Type} `{AssociationLike A} `{!MapIter string}.
Context {SA : Type} `{!SipLibrary A SA f32} {Assoc Meth : Type} `{Countable Meth}.
Context (accepts : TimeScheduleKey -> bool).
(** The configured nodes, in the order of the map, and whether a client can be
    made for one; the local time of a second; how a token is written in a URL. *)
Context (node_names : list string) (node_map : string -> option MediaNode) (client_ok : string -> bool).
Context (local_of_secs : Z -> option Z) (form_urlencode : string -> string).
(** The base-62 decoder of stream ids; the name of a protocol in requests. *)
Context (dig62_de : string -> outcome SsrcError string) (protocol_value : Protocol -> string).

Notation Node := (SignalNode (A := A) (SA := SA) (Assoc := Assoc) (Meth := Meth)).
Notation task := (task Node (Answer (more_answer := service_answer))).
Notation result X := (outcome ServiceError X).
Notation Incoming := (GbIncomingInviteEvent (SipDialogSnapshot (SA := SA)) Assoc).

Definition query (q : ServiceQuestion) : task (service_answer q) := ask (Other q).
Definition command {X : Type} (t : task (outcome CommandError X)) : task (result X) :=
  r <- t ;; Ret (match r with Done x => Done x | Failed e => Failed (AtCommand e) | Panic => Panic end).
Definition begin_close (stream_id : string) : task unit :=
  modify (fun w => on_server (on_register (stream_begin accepts (sn_instant w) stream_id)) w).
Definition online (device_id : string) : task bool :=
  reads (fun w => has_session device_id (sv_register (sn_server w))).
Definition insert_token (stream_id token : string) : task unit :=
  with_cache (fun c => (tt, (stream_map_insert_token stream_id token c).2)).

(** The [tokio] mutex of a set-up, held until [unlock]. *)
Definition lock_setup (device_id channel_id : string) (am : AccessMode) : task Z :=
  lock <- with_cache (stream_setup_lock device_id channel_id am) ;;
  wait (fun _ w => if bool_decide (lock ∈ sn_locked w) then None
                   else Some (lock, with_locks ({[lock]} ∪ sn_locked w) (sn_channels w) w)).
Definition unlock (lock : Z) : task unit := modify (fun w => with_locks (sn_locked w ∖ {[lock]}) (sn_channels w) w).
Definition locked {X : Type} (device_id channel_id : string) (am : AccessMode) (t : task X) : task X :=
  lock <- lock_setup device_id channel_id am ;; r <- t ;; unlock lock ;;; Ret r.

(** [BTreeSet::pop_first] until it is empty: by load, then by name. *)
Definition node_le (a b : Z * string) : Prop := a.1 < b.1 \/ a.1 = b.1 /\ String.leb a.2 b.2 = true.
#[local] Instance node_le_dec : RelDecision node_le.
Proof. intros a b. unfold node_le. apply _. Defined.
Definition ordered_nodes : task (list string) :=
  from_cache (fun c => (merge_sort node_le (elements (stream_map_order_node node_names c))).*2).

Definition cleanup_stream_init (node : string) (ssrc : Z) (output : OutputKind) : task unit :=
  query (CloseOutput node ssrc (output_kind_to_enum output)) ;;; Ret tt.
Definition cleanup_talk_open (node talk_id : string) : task unit := query (TalkClose node talk_id).

(** ** Waiting for the media *)

Definition listen_stream_by_stream_id (stream_id : string) (secs : Z) : task (option BaseStreamInfo) :=
  tx <- atomically (fun w => (sn_channels w, with_locks (sn_locked w) (sn_channels w + 1) w)) ;;
  let key := (KEY_STREAM_IN +:+ stream_id)%string in
  modify (fun w => on_server (on_register (on_cache
    (insert_stream_wait key (sn_instant w + secs * 1000) tx (sn_instant w)))) w) ;;;
  res <- wait (fun _ w =>
    let c := cache_of_node w in
    let messages := omap (fun m => match m with WakeStream t info => if t =? tx then Some info else None | _ => None end) (wakes c) in
    let waiting := map_any (fun _ e => match se_waiter e with Some (WaitStream t) => t =? tx | _ => false end) (entities c) in
    match messages with
    | info :: _ => Some (info, w)
    | [] => if waiting then None else Some (None, w)
    end) ;;
  with_cache (fun c => (tt, (remove_state key c).2)) ;;;
  Ret res.

(** ** Sharing a stream *)

Definition enable_invite_stream (device_id channel_id : string) (am : AccessMode) : task (result (option (string * string))) :=
  info <- from_cache (device_map_get_invite_info device_id channel_id am) ;;
  match info with
  | None => Ret (Done None)
  | Some (stream_id, ssrc) =>
      let close : task (result (option (string * string))) := begin_close stream_id ;;; Ret (Done None) in
      node <- from_cache (stream_map_query_node stream_id) ;;
      match node with
      | Some (node_name, proxy_addr) =>
          match node_map node_name with
          | Some _ =>
              if negb (client_ok node_name) then Ret (Failed ClientError) else
              match parse_u32 ssrc with
              | None => Ret (Failed BadNumber)
              | Some ssrc_num =>
                  r <- query (StreamOnline node_name ssrc_num stream_id) ;;
                  match r with
                  | None => Ret (Failed HttpError)
                  | Some (Some true) => Ret (Done (Some (stream_id, proxy_addr)))
                  | Some _ => close
                  end
              end
          | None => close
          end
      | None => close
      end
  end.

(** ** Starting a stream *)

Definition stream_media_config (stream_id : string) (ssrc : Z) (custom : option CustomMediaConfig) : MediaConfig :=
  match custom with
  | None => {| mc_ssrc := ssrc; mc_stream_id := stream_id; mc_in_wait_timeout := None; mc_out_idle_timeout := None;
               mc_codec := None; mc_filter := Filter_default; mc_output := KDashFmp4 |}
  | Some c => {| mc_ssrc := ssrc; mc_stream_id := stream_id; mc_in_wait_timeout := None; mc_out_idle_timeout := None;
                 mc_codec := cm_codec c; mc_filter := cm_filter c; mc_output := cm_output c |}
  end.
Definition stop_invited (device_id call_id stream_id : string) : task unit :=
  _ <- invite_stop_by_device device_id {| is_call_id := Some call_id; is_stream_id := Some stream_id |} ;; Ret tt.

Section Start.
Context (device_id channel_id : string) (am : AccessMode) (st et : Z) (trans_mode : option TransMode).
Context (ssrc stream_id : string) (u32ssrc : Z) (msc : MediaConfig).

Definition invite_by_mode (node_name : string) (n : MediaNode)
    : task (result (GbInviteAcceptedEvent (SipDialogSnapshot (SA := SA)) SdpInfo * MediaExt)) :=
  let mode := default TransUdp trans_mode in
  match am with
  | Live => command (play_live_invite_wait device_id channel_id node_name (mn_pub_ip n) (mn_pub_port n) mode ssrc stream_id)
  | Back => command (play_back_invite_wait device_id channel_id node_name (mn_pub_ip n) (mn_pub_port n) mode ssrc stream_id st et)
  | Down => command (download_invite_wait device_id channel_id node_name (mn_pub_ip n) (mn_pub_port n) mode ssrc stream_id st et 1)
  | Talk => Ret Panic
  end.
(** After the device accepted. *)
Definition stream_accepted (node_name call_id : string) (ext : MediaExt) : task (result (string * string * string)) :=
  let give_back (e : ServiceError) : task (result (string * string * string)) :=
    stop_invited device_id call_id stream_id ;;; cleanup_stream_init node_name u32ssrc (mc_output msc) ;;; Ret (Failed e) in
  r <- query (StreamInitExt node_name u32ssrc ext) ;;
  match r with
  | None => give_back HttpError
  | Some code =>
      if negb (code =? 200) then give_back (NodeError code) else
      inserted <- with_cache (stream_map_insert_info stream_id device_id channel_id u32ssrc "" node_name call_id 1 am) ;;
      if negb inserted then give_back DialogExists else
      info <- listen_stream_by_stream_id stream_id EXPIRES ;;
      match info with
      | Some info =>
          let proxy_addr := ri_proxy_addr (rtp_info info) in
          with_cache (fun c => (tt, (stream_map_update_source stream_id proxy_addr node_name c).2)) ;;;
          with_cache (fun c => (tt, device_map_insert device_id channel_id ssrc stream_id am msc c)) ;;;
          Ret (Done (stream_id, node_name, proxy_addr))
      | None =>
          cleanup_stream_init node_name u32ssrc (mc_output msc) ;;;
          begin_close stream_id ;;;
          Ret (Failed NoMedia)
      end
  end.
Fixpoint start_on_nodes (nodes : list string) : task (result (string * string * string)) :=
  match nodes with
  | [] => Ret (Failed NoStreamServer)
  | node_name :: nodes =>
      match node_map node_name with
      | None => start_on_nodes nodes
      | Some n =>
          if negb (client_ok node_name) then Ret (Failed ClientError) else
          res <- query (StreamInit node_name msc) ;;
          match res with
          | None => start_on_nodes nodes
          | Some code =>
              if negb (code =? 200) then start_on_nodes nodes else
              r <- invite_by_mode node_name n ;;
              match r with
              | Done (accepted, ext) => stream_accepted node_name (ia_call_id accepted) ext
              | Failed e => cleanup_stream_init node_name u32ssrc (mc_output msc) ;;; Ret (Failed e)
              | Panic => Ret Panic
              end
          end
      end
  end.
End Start.
Definition start_invite_stream (device_id channel_id : string) (am : AccessMode) (st et : Z) (trans_mode : option TransMode)
    (custom : option CustomMediaConfig) : task (result (string * string * string)) :=
  nodes <- ordered_nodes ;;
  ids <- query (BuildSsrcStreamId device_id channel_id (bool_decide (am = Live))) ;;
  match ids with
  | Failed e => Ret (Failed (AtSsrc e))
  | Panic => Ret Panic
  | Done (ssrc, stream_id) =>
      match parse_u32 ssrc with
      | None => Ret (Failed BadNumber)
      | Some u32ssrc =>
          start_on_nodes device_id channel_id am st et trans_mode ssrc stream_id u32ssrc
            (stream_media_config stream_id u32ssrc custom) nodes
      end
  end.

(** ** The requests of the clients *)

(** The part [play_live] and [play_back] share. *)
Definition share_or_start (device_id channel_id token : string) (am : AccessMode) (st et : Z) (trans_mode : option TransMode)
    (custom : option CustomMediaConfig) : task (result StreamInfo) :=
  let output := cm_output <$> custom in
  locked device_id channel_id am (
    shared <-? enable_invite_stream device_id channel_id am ;;
    match shared with
    | Some (stream_id, proxy_addr) =>
        insert_token stream_id token ;;; Ret (StreamInfo_build stream_id proxy_addr output)
    | None =>
        started <-? start_invite_stream device_id channel_id am st et trans_mode custom ;;
        let '(stream_id, _, proxy_addr) := started in
        insert_token stream_id token ;;; Ret (StreamInfo_build stream_id proxy_addr output)
    end).
Definition play_live (m : PlayLiveModel) (token : string) : task (result StreamInfo) :=
  up <- online (pl_device_id m) ;;
  if negb up then Ret (Failed DeviceOffline)
  else share_or_start (pl_device_id m) (default (pl_device_id m) (pl_channel_id m)) token Live 0 0 (pl_trans_mode m)
         (pl_custom_media_config m).
Definition play_back (m : PlayBackModel) (token : string) : task (result StreamInfo) :=
  up <- online (pb_device_id m) ;;
  if negb up then Ret (Failed DeviceOffline)
  else _ <-? Ret (validate_playback_range (pb_st m) (pb_et m)) ;;
       share_or_start (pb_device_id m) (default (pb_device_id m) (pb_channel_id m)) token Back (pb_st m) (pb_et m)
         (pb_trans_mode m) (pb_custom_media_config m).
Definition download_record (m : PlayBackModel) (device_id channel_id stream_id node_name : string) (st et now lt : Z) : GmvRecord := {|
  gr_biz_id := stream_id; gr_device_id := device_id; gr_channel_id := channel_id; gr_user_id := None; gr_st := st;
  gr_et := et; gr_speed := 1; gr_ct := now; gr_state := 0; gr_lt := lt; gr_stream_app_name := node_name |}.
Definition download (m : PlayBackModel) (token : string) : task (result string) :=
  let device_id := pb_device_id m in
  let channel_id := default device_id (pb_channel_id m) in
  up <- online device_id ;;
  if negb up then Ret (Failed DeviceOffline)
  else locked device_id channel_id Down (
    running <- query (RecordRunning device_id channel_id) ;;
    match running with
    | None => Ret (Failed StorageFailed)
    | Some true => Ret (Failed TaskExists)
    | Some false =>
        _ <-? Ret (validate_playback_range (pb_st m) (pb_et m)) ;;
        path <- query PreparePath ;;
        match path with
        | None => Ret (Failed StorageFailed)
        | Some path =>
            let down_conf := default {| cm_output := KLocalMp4 path; cm_codec := None; cm_filter := Filter_default |}
                               (pb_custom_media_config m) in
            started <-? start_invite_stream device_id channel_id Down (saturating_sub (pb_st m) 2)
                          (saturating_add 32 (pb_et m) 1) (pb_trans_mode m) (Some down_conf) ;;
            let '(stream_id, node_name, _) := started in
            insert_token stream_id token ;;;
            match local_of_secs (pb_st m) with
            | None => Ret (Failed BadTime)
            | Some st =>
                match local_of_secs (pb_et m) with
                | None => Ret (Failed BadTime)
                | Some et =>
                    ct <- clock ;; lt <- clock ;;
                    r <- query (InsertRecord (download_record m device_id channel_id stream_id node_name st et ct lt)) ;;
                    match r with
                    | Some _ => Ret (Done stream_id)
                    | None => begin_close stream_id ;;; Ret (Failed StorageFailed)
                    end
                end
            end
        end
    end).

Definition playback_stream_device (stream_id : string) : task (result string) :=
  mode <- from_cache (stream_map_query_play_type_by_stream_id stream_id) ;;
  match mode with
  | None => Ret (Failed StreamNotFound)
  | Some (Back | Down) =>
      device_id <- from_cache (stream_device_id stream_id) ;;
      Ret (match device_id with Some device_id => Done device_id | None => Failed StreamNotFound end)
  | Some _ => Ret (Failed NotPlayback)
  end.
Definition seek (m : PlaySeekModel) : task (result bool) :=
  device_id <-? playback_stream_device (pk_streamId m) ;;
  _ <-? command (play_seek device_id (pk_streamId m) (pk_seekSecond m)) ;;
  Ret (Done true).
Definition speed (m : PlaySpeedModel) : task (result bool) :=
  if negb (speed_supported (pe_speedRate m)) then Ret (Failed BadSpeed) else
  device_id <-? playback_stream_device (pe_streamId m) ;;
  _ <-? command (play_speed device_id (pe_streamId m) (pe_speedRate m)) ;;
  Ret (Done true).
(** The movement, and after a second the command that stops it. *)
Definition ptz_stop (m : PtzControlModel) : PtzControlModel := {|
  pz_deviceId := pz_deviceId m; pz_channelId := pz_channelId m; pz_leftRight := 0; pz_upDown := 0; pz_inOut := 0;
  pz_horizonSpeed := 0; pz_verticalSpeed := 0; pz_zoomSpeed := 0 |}.
Definition ptz (m : PtzControlModel) : task (result bool) :=
  _ <-? command (control_ptz m) ;;
  query (Sleep 1000) ;;;
  _ <-? command (control_ptz (ptz_stop m)) ;;
  Ret (Done true).

Definition download_info_by_stream_id (info : StreamQo) : task (result StreamRecordInfo) :=
  at_ <- from_cache (stream_map_query_node_ssrc (sq_stream_id info)) ;;
  match at_ with
  | None => Ret (Failed BadStreamId)
  | Some (stream_server, ssrc) =>
      match node_map stream_server with
      | None => Ret (Failed StreamServer)
      | Some _ =>
          if negb (client_ok stream_server) then Ret (Failed ClientError) else
          r <- query (RecordInfo stream_server ssrc (default LocalMp4 (sq_media_type info))) ;;
          Ret (match r with
               | None => Failed HttpError
               | Some (code, data) =>
                   if code =? 200 then match data with Some info => Done info | None => Failed StreamServer end
                   else Failed StreamServer
               end)
      end
  end.
Definition download_stop (stream_id : string) : task (result bool) :=
  match de_stream_id dig62_de stream_id with
  | Done _ =>
      at_ <- from_cache (stream_map_query_node_ssrc stream_id) ;;
      match at_ with
      | None => Ret (Failed BadStreamId)
      | Some (stream_server, ssrc) =>
          begin_close stream_id ;;;
          match node_map stream_server with
          | None => Ret (Failed NoStreamServer)
          | Some _ =>
              if negb (client_ok stream_server) then Ret (Failed ClientError) else
              r <- query (CloseOutput stream_server ssrc LocalMp4) ;;
              Ret (match r with
                   | None => Failed HttpError
                   | Some code => if code =? 200 then Done true else Failed (NodeError code)
                   end)
          end
      end
  | Failed _ => Ret (Done false)
  | Panic => Ret Panic
  end.

(** ** Talks *)

Definition append_gmv_token (input_url token : string) : string :=
  (input_url +:+ (if contains (chars "?") (chars input_url) then "&" else "?") +:+ "gmv-token=" +:+ form_urlencode token)%string.
Definition stream_resp_data {X : Type} (r : Z * option X) : option X := if r.1 =? 200 then r.2 else None.

Section TalkStart.
Context (device_id channel_id target_id token talk_id : string) (u32ssrc : Z) (audio : TalkAudioOptions).

Definition talk_open_request : TalkOpenReq := {|
  to_talk_id := talk_id; to_ssrc := u32ssrc; to_token := token; to_codec := ao_codec audio;
  to_sample_rate := ao_sample_rate audio; to_channel_count := ao_channel_count audio;
  to_payload_type := ao_payload_type audio; to_frame_duration_ms := ao_frame_duration_ms audio;
  to_input_timeout_secs := DEFAULT_TALK_INPUT_TIMEOUT_SECS |}.
Definition talk_answer_request (a : TalkSdpAnswer) : TalkAnswerReq := {|
  ta_talk_id := talk_id; ta_device_ip := sa_device_ip a; ta_device_port := sa_device_port a;
  ta_protocol := protocol_value (sa_protocol a);
  ta_payload_type := sa_payload_type a |}.
Definition talk_state (node_name : string) (invite : Incoming) : TalkSessionState := {|
  tk_talk_id := talk_id; tk_device_id := device_id; tk_channel_id := channel_id; tk_ssrc := u32ssrc;
  tk_stream_node_name := node_name; tk_call_id := ii_call_id invite;
  tk_seq := ds_local_cseq (ii_dialog_snapshot invite); tk_restored := false; tk_closing_generation := None;
  tk_bye_inflight_seq := None; tk_close_last_error := None |}.
(** After the node opened the talk. *)
Definition talk_opened (node_name : string) (node : MediaNode) (open_resp : TalkOpenResp) : task (result TalkInfo) :=
  let abandon (e : ServiceError) : task (result TalkInfo) := cleanup_talk_open node_name talk_id ;;; Ret (Failed e) in
  sn <- next_sn ;;
  r <- command (broadcast_notify_and_wait device_id target_id sn) ;;
  match r with
  | Failed e => abandon e
  | Panic => Ret Panic
  | Done invite =>
      let refuse (status : Z) (e : ServiceError) : task (result TalkInfo) :=
        reject_broadcast_invite (ii_call_id invite) status ;;; abandon e in
      match parse_broadcast_sdp parse_lossy to_uppercase (ii_remote_sdp invite) with
      | Failed e => refuse 488 (AtBroadcastSdp e)
      | Panic => Ret Panic
      | Done answer =>
          if negb (compatible_answer audio (sa_codec answer) (sa_sample_rate answer)) then refuse 488 IncompatibleCodec else
          r <- query (TalkAnswer node_name (talk_answer_request answer)) ;;
          match r with
          | None => refuse 500 HttpError
          | Some code =>
              if negb (code =? 200) then refuse 500 (NodeError code) else
              r <- command (accept_broadcast_invite {|
                     ab_device_id := device_id; ab_channel_id := channel_id; ab_talk_id := talk_id;
                     ab_media_node_id := node_name; ab_media_ip := mn_pub_ip node; ab_media_port := tr_rtp_port open_resp;
                     ab_ssrc := u32ssrc; ab_payload_type := tr_payload_type open_resp; ab_invite := invite |}) ;;
              match r with
              | Failed e => abandon e
              | Panic => Ret Panic
              | Done _ =>
                  inserted <- with_cache (talk_map_insert (talk_state node_name invite)) ;;
                  if negb inserted then stop_invited device_id (ii_call_id invite) talk_id ;;; abandon TalkExists
                  else Ret (Done {| ti_talk_id := talk_id; ti_input_url := append_gmv_token (tr_input_url open_resp) token;
                                    ti_codec := tr_codec open_resp; ti_sample_rate := tr_sample_rate open_resp;
                                    ti_channel_count := tr_channel_count open_resp;
                                    ti_frame_duration_ms := tr_frame_duration_ms open_resp |})
              end
          end
      end
  end.
Fixpoint talk_on_nodes (nodes : list string) : task (result TalkInfo) :=
  match nodes with
  | [] => Ret (Failed NoStreamServer)
  | node_name :: nodes =>
      match node_map node_name with
      | None => talk_on_nodes nodes
      | Some node =>
          if negb (client_ok node_name) then Ret (Failed ClientError) else
          r <- query (TalkOpen node_name talk_open_request) ;;
          match r ≫= stream_resp_data with
          | None => talk_on_nodes nodes
          | Some open_resp => talk_opened node_name node open_resp
          end
      end
  end.
End TalkStart.
Definition talk_start (m : TalkStartModel) (token : string) : task (result TalkInfo) :=
  let device_id := tm_device_id m in
  let channel_id := default device_id (tm_channel_id m) in
  up <- online device_id ;;
  if negb up then Ret (Failed DeviceOffline) else
  match try_from_model m with
  | Failed e => Ret (Failed (AtTalk e))
  | Panic => Ret Panic
  | Done audio => locked device_id channel_id Talk (
      talk <- from_cache (talk_map_get_by_device_channel device_id channel_id) ;;
      if bool_decide (is_Some talk) then Ret (Failed TalkExists) else
      target <- query (BroadcastTarget device_id channel_id) ;;
      match target with
      | None => Ret (Failed StorageFailed)
      | Some target_id =>
          ids <- query (BuildSsrcStreamId device_id channel_id true) ;;
          match ids with
          | Failed e => Ret (Failed (AtSsrc e))
          | Panic => Ret Panic
          | Done (ssrc, talk_id) =>
              match parse_u32 ssrc with
              | None => Ret (Failed BadNumber)
              | Some u32ssrc =>
                  nodes <- ordered_nodes ;; talk_on_nodes device_id channel_id target_id token talk_id u32ssrc audio nodes
              end
          end
      end)
  end.
Definition talk_stop (talk_id : string) : task (result bool) :=
  talk <- from_cache (talk_map_get talk_id) ;;
  match talk with
  | None => Ret (Done false)
  | Some talk =>
      started <- atomically (fun w => let '(b, r) := talk_begin accepts (sn_instant w) talk_id (sv_register (sn_server w)) in
                                      (b, on_server (on_register (fun _ => r)) w)) ;;
      match node_map (tk_stream_node_name talk) with
      | Some _ => if client_ok (tk_stream_node_name talk)
                  then cleanup_talk_open (tk_stream_node_name talk) (tk_talk_id talk) else Ret tt
      | None => Ret tt
      end ;;;
      Ret (Done started)
  end.
End StreamService.
