(* ===== verification/SipCommandsProps.v ===== *)
(** * Theorems on the SIP commands

    What [SipCommands] promises: a PTZ command that can be read back, waits that
    are bounded, the row of an INVITE settled in every case, the row of a BYE. *)
From Stdlib Require Import Ascii Floats.SpecFloat.
From stdpp Require Import pretty relations.
From S2P Require Import Prelude Text SharedTypes Scheduler Lifecycle SessionCache DialogCache Network CloseService RegisterCore.
From S2P Require Import Sequence Ssrc MediaExt Sdp DialogStore DialogStoreProps SipRuntime Xml NativeRuntime Subscription Tasks DialogRecovery.
From S2P Require Import SipCommands.
Local Open Scope Z_scope.
Local Open Scope task_scope.

(** ** The PTZ command *)

(** What a device reads of the sixteen digits. *)
Definition hex_value (a : ascii) : Z :=
  let n := Z.of_N (N_of_ascii a) in if n <? 58 then n - 48 else n - 55.
Fixpoint read_hex (l : list ascii) : list Z :=
  match l with a :: b :: l => (16 * hex_value a + hex_value b) :: read_hex l | _ => [] end.
Definition read_direction (b3 first second : Z) : Z :=
  if negb (Z.land b3 first =? 0) then 1 else if negb (Z.land b3 second =? 0) then 2 else 0.
Definition read_ptz (command : string) : option (Z * Z * Z * Z * Z * Z) :=
  match read_hex (chars command) with
  | [165; 15; 1; b3; horizon; vertical; zoom; sum] =>
      if sum =? (165 + 15 + 1 + b3 + horizon + vertical + zoom) mod 256
      then Some (read_direction b3 2 1, read_direction b3 8 4, read_direction b3 32 16, horizon, vertical, Z.shiftr zoom 4)
      else None
  | _ => None
  end.
Definition ptz_fields (m : PtzControlModel) : list Z :=
  [pz_leftRight m; pz_upDown m; pz_inOut m; pz_horizonSpeed m; pz_verticalSpeed m; pz_zoomSpeed m].

Lemma hex_digit_value n : 0 <= n < 16 -> hex_value (hex_digit n) = n.
Proof.
  intros Hn. assert (Hall : forallb (fun k => hex_value (hex_digit (Z.of_nat k)) =? Z.of_nat k) (seq 0 16) = true)
    by by vm_compute.
  rewrite forallb_forall in Hall. specialize (Hall (Z.to_nat n)). rewrite Z2Nat.id in Hall by lia.
  apply Z.eqb_eq, Hall, in_seq. lia.
Qed.
Lemma read_hex_bytes l : Forall (fun b => 0 <= b < 256) l -> read_hex (concat (fmt02X <$> l)) = l.
Proof.
  induction 1 as [|b l Hb _ IH]; [done|]. cbn [fmap list_fmap concat fmt02X app read_hex]. rewrite IH. f_equal.
  rewrite !hex_digit_value; [|apply Z.mod_pos_bound; lia|split; [apply Z.div_pos; lia|apply Z.div_lt_upper_bound; lia]].
  symmetry. apply Z.div_mod. lia.
Qed.
Lemma direction_bits l u i : 0 <= l <= 2 -> 0 <= u <= 2 -> 0 <= i <= 2 ->
  let b3 := Z.lor (Z.lor (direction l 2 1) (direction u 8 4)) (direction i 32 16) in
  0 <= b3 < 256 /\ read_direction b3 2 1 = l /\ read_direction b3 8 4 = u /\ read_direction b3 32 16 = i.
Proof.
  intros Hl Hu Hi.
  assert (l = 0 \/ l = 1 \/ l = 2) as [->|[->| ->]] by lia; assert (u = 0 \/ u = 1 \/ u = 2) as [->|[->| ->]] by lia;
    assert (i = 0 \/ i = 1 \/ i = 2) as [->|[->| ->]] by lia; by vm_compute.
Qed.
Lemma zoom_bits z : 0 <= z <= 15 -> Z.shiftl z 4 mod 256 = 16 * z /\ Z.shiftr (16 * z) 4 = z.
Proof.
  intros Hz. rewrite Z.shiftl_mul_pow2, Z.shiftr_div_pow2 by lia. change (2 ^ 4) with 16. split.
  - rewrite Z.mod_small; lia.
  - rewrite (Z.mul_comm 16), Z.div_mul; lia.
Qed.

(** A PTZ command is sixteen hexadecimal digits from which a device that
    verifies the check sum reads the directions and the speeds of the request
    back; a request is refused exactly when a direction is above two or the zoom
    speed above fifteen. *)
Theorem ptz_command_reads_back (m : PtzControlModel) (Hm : Forall (fun v => 0 <= v < 256) (ptz_fields m)) :
  match build_ptz_command m with
  | Done command =>
      String.length command = 16%nat
      /\ read_ptz command = Some (pz_leftRight m, pz_upDown m, pz_inOut m, pz_horizonSpeed m, pz_verticalSpeed m, pz_zoomSpeed m)
  | Failed e => e = InvalidPtz /\ (2 < pz_leftRight m \/ 2 < pz_upDown m \/ 2 < pz_inOut m \/ 15 < pz_zoomSpeed m)
  | Panic => False
  end.
Proof.
  repeat (apply Forall_cons in Hm as [? Hm]). unfold build_ptz_command.
  destruct ((2 <? pz_leftRight m) || (2 <? pz_upDown m) || (2 <? pz_inOut m) || (15 <? pz_zoomSpeed m)) eqn:Hbad.
  { split; [done|]. lia. }
  apply orb_false_elim in Hbad as [Hbad ?]. apply orb_false_elim in Hbad as [Hbad ?]. apply orb_false_elim in Hbad as [? ?].
  destruct (direction_bits (pz_leftRight m) (pz_upDown m) (pz_inOut m)) as (Hb3 & Hl & Hu & Hi); [lia..|].
  destruct (zoom_bits (pz_zoomSpeed m)) as [Hz Hz']; [lia|]. unfold ptz_bytes. rewrite Hz.
  set (b3 := Z.lor _ _) in *. split; [done|]. unfold read_ptz. rewrite String.list_ascii_of_string_of_list_ascii, read_hex_bytes.
  - cbn [app foldr]. rewrite (Z.mod_small _ (2 ^ 16)) by lia. rewrite (proj2 (Z.eqb_eq _ _)) by (f_equal; lia).
    by rewrite Hl, Hu, Hi, Hz'.
  - repeat constructor; try lia. all: apply Z.mod_pos_bound; lia.
Qed.

(** ** Bounded waits *)

(** The parts that have lemmas of their own. *)
#[local] Arguments recv : simpl never.
#[local] Arguments submit : simpl never.
#[local] Arguments reject_broadcast_invite : simpl never.
#[local] Arguments await_response : simpl never.
#[local] Arguments send_and_wait : simpl never.
#[local] Arguments send_native_message_on_device_and_wait : simpl never.
#[local] Arguments send_native_dialog_and_wait : simpl never.
#[local] Arguments send_restored_dialog_and_wait : simpl never.
#[local] Arguments reserve_durable_dialog_request : simpl never.
#[local] Arguments invite_stop_by_device : simpl never.
#[local] Arguments give_up_invite : simpl never.
#[local] Arguments rollback_established_invite : simpl never.
#[local] Arguments invite_answered : simpl never.
#[local] Arguments invite_play_and_wait : simpl never.
#[local] Arguments close_invite_after_answer_error : simpl never.
#[local] Arguments parse_media_ext_or_close : simpl never.

Section Bounds.
Context {A : Type} `{AssociationLike A} `{!MapIter string}.
Context {SA F32 : Type} `{!SipLibrary A SA F32} {Assoc Meth : Type} `{Countable Meth}.
Context {More : Type} {more_answer : More -> Type}.
Notation Node := (SignalNode (A := A) (SA := SA) (Assoc := Assoc) (Meth := Meth)).
Notation task := (task Node (Answer (more_answer := more_answer))).

Lemma recv_waits tx : waits_at_most 1 (recv tx : task _).
Proof.
  unfold recv, wait. cbn. split; [|done]. intros w. unfold recv_with_timeout.
  destruct (snd <$> _) as [[]|]; cbn; eauto.
Qed.
Lemma submit_waits f : waits_at_most 0 (submit f : task _).
Proof. done. Qed.
Lemma send_and_wait_waits operation_id tx accept f : waits_at_most 1 (send_and_wait operation_id tx accept f : task _).
Proof.
  unfold send_and_wait. change 1%nat with (0 + 1)%nat. apply waits_bind; [done|]. intros []; [|done..].
  unfold await_response. change 1%nat with (1 + 0)%nat. apply waits_bind; [apply recv_waits|]. intros [[]|]; cbn; done.
Qed.
(** Through the steps and branches of a task, with the lemmas of its parts. *)
Create HintDb sip_waits.
Ltac waits := repeat first [progress cbn | case_match | lazymatch goal with
  | |- True => exact I
  | |- forall _, _ => intros ?
  | |- waits_at_most _ (bind _ _) => eapply waits_part; [solve [eauto with sip_waits]|lia|]
  | |- waits_at_most _ (bind_ok _ _) => eapply waits_part_ok; [solve [eauto with sip_waits]|lia|]
  | |- waits_at_most _ _ => solve [eapply waits_mono; [|solve [eauto with sip_waits]]; lia]
  end].
#[local] Hint Resolve recv_waits submit_waits send_and_wait_waits : sip_waits.
Lemma message_waits device_id req : waits_at_most 1 (send_native_message_on_device_and_wait device_id req : task _).
Proof. unfold send_native_message_on_device_and_wait. waits. Qed.
Lemma dialog_waits device_id method call_id content_type body timeout :
  waits_at_most 1 (send_native_dialog_and_wait device_id method call_id content_type body timeout : task _).
Proof. unfold send_native_dialog_and_wait. waits. Qed.
Lemma restored_waits device_id method session content_type body timeout :
  waits_at_most 1 (send_restored_dialog_and_wait device_id method session content_type body timeout : task _).
Proof. unfold send_restored_dialog_and_wait. waits. Qed.
Lemma reserve_waits stream_id method : waits_at_most 0 (reserve_durable_dialog_request stream_id method : task _).
Proof. unfold reserve_durable_dialog_request. waits. Qed.
#[local] Hint Resolve message_waits dialog_waits restored_waits reserve_waits : sip_waits.
Lemma invite_stop_waits device_id req : waits_at_most 1 (invite_stop_by_device device_id req : task _).
Proof. unfold invite_stop_by_device. waits. Qed.
Lemma play_info_waits device_id stream_id body : waits_at_most 1 (play_info device_id stream_id body : task _).
Proof. unfold play_info. waits. Qed.
Lemma reject_waits call_id status : waits_at_most 0 (reject_broadcast_invite call_id status : task _).
Proof. unfold reject_broadcast_invite. waits. Qed.
#[local] Hint Resolve reject_waits : sip_waits.
Lemma give_up_waits target_id rx e : waits_at_most 0 (give_up_invite target_id rx e : task _).
Proof. unfold give_up_invite. waits. Qed.
Lemma rollback_waits device_id stream_id node call_id next :
  waits_at_most 1 (rollback_established_invite device_id stream_id node call_id next : task _).
Proof. unfold rollback_established_invite. waits. Qed.
#[local] Hint Resolve invite_stop_waits give_up_waits rollback_waits : sip_waits.
Lemma broadcast_waits device_id target_id sn : waits_at_most 3 (broadcast_notify_and_wait device_id target_id sn : task _).
Proof. unfold broadcast_notify_and_wait. waits. Qed.
Lemma accept_waits req : waits_at_most 1 (accept_broadcast_invite req : task _).
Proof. unfold accept_broadcast_invite. waits. Qed.
Lemma answered_waits req identity protocol id r : waits_at_most 1 (invite_answered req identity protocol id r : task _).
Proof. unfold invite_answered. waits. Qed.
#[local] Hint Resolve answered_waits : sip_waits.
Lemma invite_waits req : waits_at_most 2 (invite_play_and_wait req : task _).
Proof. unfold invite_play_and_wait. waits. Qed.
Lemma close_waits device_id stream_id accepted :
  waits_at_most 1 (close_invite_after_answer_error device_id stream_id accepted : task _).
Proof. unfold close_invite_after_answer_error. waits. Qed.
#[local] Hint Resolve invite_waits close_waits : sip_waits.
Lemma parse_or_close_waits device_id stream_id ssrc accepted :
  waits_at_most 1 (parse_media_ext_or_close device_id stream_id ssrc accepted : task _).
Proof. unfold parse_media_ext_or_close. waits. Qed.
#[local] Hint Resolve parse_or_close_waits : sip_waits.
Lemma invite_with_waits ty offer device_id channel_id node ip port mode ssrc stream_id :
  waits_at_most 3 (invite_with ty offer device_id channel_id node ip port mode ssrc stream_id : task _).
Proof. unfold invite_with. waits. Qed.
Lemma control_waits m : waits_at_most 1 (control_ptz m : task _).
Proof. unfold control_ptz, send_xml_message, send_native_message_and_wait. waits. Qed.
#[local] Hint Resolve invite_with_waits control_waits accept_waits broadcast_waits play_info_waits : sip_waits.

(** Every command ends, whatever the devices do and whatever other tasks do to
    the shared state meanwhile: a request and the BYE wait once, the INVITE of a
    stream at most twice (the second time for the BYE that takes it back), a live
    view, a playback or a download at most three times, the broadcast three
    times; a wait ends on time-out, so that from every state there is a run to
    the end. *)
Theorem commands_end (env : Node -> Node -> Prop) (some_answer : forall q, Answer (more_answer := more_answer) q) (w : Node)
    (device_id stream_id target_id : string) (req : InvitePlayRequest) (m : PtzControlModel)
    (accept : AcceptBroadcastInviteRequest (SA := SA) (Assoc := Assoc)) (sn : Z) :
  let ends {R} (n : nat) (t : task R) := waits_at_most n t /\ exists tr w' r, exec env w t tr w' r in
  ends 1%nat (control_ptz m)
  /\ ends 1%nat (invite_stop_by_device device_id {| is_call_id := None; is_stream_id := Some stream_id |})
  /\ ends 1%nat (play_seek device_id stream_id sn)
  /\ ends 1%nat (accept_broadcast_invite accept)
  /\ ends 2%nat (invite_play_and_wait req)
  /\ ends 3%nat (broadcast_notify_and_wait device_id target_id sn)
  /\ forall ty offer channel_id node ip port mode ssrc,
       ends 3%nat (invite_with ty offer device_id channel_id node ip port mode ssrc stream_id).
Proof.
  intros ends. assert (Hends : forall R n (t : task R), waits_at_most n t -> ends R n t).
  { intros R n t Ht. split; [done|]. by eapply waits_ends. }
  unfold play_seek. split_and!; intros; apply Hends; auto with sip_waits.
Qed.
End Bounds.

(** ** The durable row of a dialog that is opened *)

Section Rows.
Context {A : Type} `{AssociationLike A} `{!MapIter string}.
Context {SA F32 : Type} `{!SipLibrary A SA F32} {Assoc Meth : Type} `{Countable Meth}.
Context {More : Type} {more_answer : More -> Type}.
Notation Node := (SignalNode (A := A) (SA := SA) (Assoc := Assoc) (Meth := Meth)).
Notation task := (task Node (Answer (more_answer := more_answer))).
Notation node_id := (sc_domain_id session_conf).

Definition row_at (stream_id : string) (w : Node) : option SipDialogSessionRow := sv_dialogs (sn_server w) !! stream_id.
(** The row is left alone and the clock does not go back. *)
Definition same_row (stream_id : string) (w w' : Node) : Prop :=
  row_at stream_id w' = row_at stream_id w /\ sn_clock w <= sn_clock w'.
#[local] Instance same_row_preorder stream_id : PreOrder (same_row stream_id).
Proof. split; [done|]. intros w1 w2 w3 [E1 ?] [E2 ?]. split; [congruence|lia]. Qed.

(** A row as the INVITE writes it; one that has come to its end. *)
Definition inviting_row (w : Node) (r : SipDialogSessionRow) : Prop :=
  r_signal_node_id r = node_id /\ r_version r = 0 /\ r_state r = state_to_string Inviting
  /\ r_created_at r <= sn_clock w /\ r_updated_at r <= sn_clock w.
Definition ended_row (r : SipDialogSessionRow) : Prop :=
  r_state r = state_to_string Terminated \/ r_state r = state_to_string Orphan.
(** Established with the tag and the sequence number of the snapshot, which a
    later BYE needs. *)
Definition established_row (s : SipDialogSnapshot (SA := SA)) (r : SipDialogSessionRow) : Prop :=
  r_signal_node_id r = node_id /\ r_version r = 1 /\ r_state r = state_to_string Established
  /\ r_remote_tag r = Some (ds_remote_tag s) /\ r_local_cseq r = ds_local_cseq s.

Lemma inviting_kept stream_id w w' r : row_at stream_id w = Some r -> inviting_row w r -> same_row stream_id w w' ->
  row_at stream_id w' = Some r /\ inviting_row w' r.
Proof. intros Hr (? & ? & ? & ? & ?) [Hw Hc]. rewrite Hw. repeat split; (done || lia). Qed.

Lemma transition_row stream_id next now t r :
  is_terminal next = true -> validate_len stream_id 64 = true -> validate_len node_id 64 = true -> t !! stream_id = Some r ->
  r_signal_node_id r = node_id -> r_version r = 0 -> r_state r = state_to_string Inviting -> r_updated_at r <= now ->
  exists r', (cas_transition stream_id node_id 0 Inviting next now t).2 !! stream_id = Some r' /\ ended_row r'.
Proof.
  intros Hnext Hlen Hnode Hr Howner Hversion Hstate Hup. unfold cas_transition, cas.
  assert (Hcan : can_transition_to Inviting next = true) by by destruct next. rewrite Hlen, Hnode, Hcan. cbn -[cas update_where].
  unfold update_where. rewrite Hr. unfold owned_at, in_states. rewrite Howner, Hversion, Hstate.
  rewrite !bool_decide_true by (done || apply list_elem_of_here). rewrite (proj2 (Z.leb_le _ _)) by done. cbn.
  eexists. split; [apply lookup_insert_eq|]. destruct next; try done; [left|right]; done.
Qed.

(** *** Parts that leave the rows alone *)

Create HintDb sip_keeps.
Ltac row_step := intros; cbn; repeat (case_match; simplify_eq/=); split; cbn; (done || lia).
Ltac quiet := repeat first [progress cbn | case_match | lazymatch goal with
  | |- True => exact I
  | |- _ /\ _ => split
  | |- forall w : SignalNode, same_row _ _ _ => row_step
  | |- forall _, _ => intros ?
  | |- keeps _ (bind _ _) => apply keeps_bind; [solve [eauto with sip_keeps]|]
  | |- keeps _ (bind_ok _ _) => apply keeps_bind_ok; [solve [eauto with sip_keeps]|]
  | |- keeps _ _ => solve [eauto with sip_keeps]
  end].
Section Quiet.
Context (stream_id : string).
Notation quiet_task t := (keeps (same_row stream_id) (t : task _)).

Lemma recv_quiet tx : quiet_task (recv tx).
Proof.
  unfold recv, wait. cbn. split; [|done]. intros late w x w2 Hf. destruct (recv_with_timeout _ _ _); simplify_eq/=. by split.
Qed.
Lemma submit_quiet f : quiet_task (submit f).
Proof. unfold submit, atomically. cbn. split; [|done]. intros w. destruct (f _) as [[] h]; by split. Qed.
#[local] Hint Resolve recv_quiet submit_quiet : sip_keeps.
Lemma await_quiet operation_id tx accept : quiet_task (await_response operation_id tx accept).
Proof. unfold await_response. quiet. Qed.
#[local] Hint Resolve await_quiet : sip_keeps.
Lemma send_and_wait_quiet operation_id tx accept f : quiet_task (send_and_wait operation_id tx accept f).
Proof. unfold send_and_wait. quiet. Qed.
#[local] Hint Resolve send_and_wait_quiet : sip_keeps.
Lemma dialog_quiet device_id method call_id content_type body timeout :
  quiet_task (send_native_dialog_and_wait device_id method call_id content_type body timeout).
Proof. unfold send_native_dialog_and_wait. quiet. Qed.
Lemma restored_quiet device_id method session content_type body timeout :
  quiet_task (send_restored_dialog_and_wait device_id method session content_type body timeout).
Proof. unfold send_restored_dialog_and_wait. quiet. Qed.
End Quiet.
#[local] Hint Resolve recv_quiet submit_quiet dialog_quiet : sip_keeps.

(** *** The row when an INVITE went wrong *)

Section Opened.
Context (env : Node -> Node -> Prop) (stream_id : string) (env_quiet : forall w w', env w w' -> same_row stream_id w w').
Context (stream_ok : validate_len stream_id 64 = true) (node_ok : validate_len node_id 64 = true).
Definition ended_at (w : Node) : Prop := exists r, row_at stream_id w = Some r /\ ended_row r.
Definition inviting_at (w : Node) : Prop := exists r, row_at stream_id w = Some r /\ inviting_row w r.

Lemma inviting_at_kept w w' : inviting_at w -> same_row stream_id w w' -> inviting_at w'.
Proof. intros (r & Hr & Hi) Hs. exists r. by apply (inviting_kept stream_id w w'). Qed.
Lemma mark_ends next w : is_terminal next = true -> inviting_at w ->
  ends_in env (mark_inviting_terminal stream_id node_id next : task _) (fun _ w' => ended_at w') w.
Proof.
  intros Hnext Hw. unfold mark_inviting_terminal, clock, dialogs.
  apply (ends_step env (same_row stream_id) env_quiet). intros w1 Hw1. cbn [fst snd].
  apply (ends_step env (same_row stream_id) env_quiet). intros w2 Hw2. apply ends_ret.
  destruct (inviting_at_kept w w1) as (r & Hr & Hi); [done..|].
  destruct (inviting_kept stream_id w1 w2 r) as [Hr2 _]; [done..|]. destruct Hi as (Ho & Hv & Hs & Hc & Hu).
  destruct (transition_row stream_id next (sn_clock w1) (sv_dialogs (sn_server w2)) r) as (r' & Hr' & He); [done..|].
  exists r'. split; [|done]. unfold row_at. destruct (cas_transition _ _ _ _ _ _ _) as [[] t]; done.
Qed.
Lemma rollback_ends device_id call_id w : inviting_at w ->
  ends_in env (rollback_established_invite device_id stream_id node_id call_id Orphan : task _) (fun _ w' => ended_at w') w.
Proof.
  intros Hw. unfold rollback_established_invite, do_sip, modify.
  apply (ends_quiet env (same_row stream_id) env_quiet); [apply dialog_quiet|]. intros x w1 Hw1.
  apply (ends_step env (same_row stream_id) env_quiet). intros w2 Hw2. cbn [fst snd].
  apply mark_ends; [by destruct x|]. eapply inviting_at_kept; [|transitivity w1; [exact Hw1|]].
  - done.
  - transitivity w2; [exact Hw2|]. by split.
Qed.
Lemma mark_established_effect s cseq at_ t r :
  let f := established_fields s cseq at_ in
  t !! stream_id = Some r -> r_signal_node_id r = node_id -> r_version r = 0 ->
  match cas_mark_established is_socket routes_to_json stream_id node_id 0 f t with
  | (Done true, t') => exists r', t' !! stream_id = Some r' /\ established_row s r'
  | (_, t') => t' = t
  end.
Proof.
  intros f Hr Ho Hv. unfold cas_mark_established, is_socket. destruct (_ || _ || _ || _); [done|].
  destruct (route_set_to_json _ _) as [routes|e|]; [|done..]. cbn. unfold update_where. rewrite Hr.
  destruct (_ && _ && _ && _); cbn; [|done]. eexists. split; [apply lookup_insert_eq|]. repeat split; cbn; (done || by rewrite Hv).
Qed.
(** How an INVITE may leave the row, once the row is there. *)
Definition settled {X : Type} (snapshot : X -> SipDialogSnapshot) (r : outcome CommandError X) (w : Node) : Prop :=
  match r with
  | Done x => exists r', row_at stream_id w = Some r' /\ established_row (snapshot x) r'
  | Failed _ => ended_at w
  | Panic => True
  end.
Lemma roll_back_then {X} (snapshot : X -> SipDialogSnapshot) (device_id call_id : string) (e : CommandError) w : inviting_at w ->
  ends_in env (rollback_established_invite device_id stream_id node_id call_id Orphan ;;; Ret (Failed e)
               : task (outcome CommandError X)) (settled snapshot) w.
Proof. intros Hw. apply ends_bind. eapply ends_weaken; [by apply rollback_ends|]. done. Qed.
Lemma mark_then {X} (snapshot : X -> SipDialogSnapshot) next (e : CommandError) w : is_terminal next = true -> inviting_at w ->
  ends_in env (mark_inviting_terminal stream_id node_id next ;;; Ret (Failed e) : task (outcome CommandError X)) (settled snapshot) w.
Proof. intros Hn Hw. apply ends_bind. eapply ends_weaken; [by apply mark_ends|]. done. Qed.
Lemma do_sip_then {X} f (t : task X) post w : inviting_at w ->
  (forall w1, inviting_at w1 -> ends_in env t post w1) -> ends_in env (do_sip f ;;; t) post w.
Proof.
  intros Hw Ht. unfold do_sip, modify. apply (ends_step env (same_row stream_id) env_quiet). intros w1 Hw1. cbn [fst snd].
  apply Ht. eapply inviting_at_kept; [done|]. by transitivity w1.
Qed.
Lemma mark_established_then {X} s cseq at_ (k : outcome CommandError bool -> task X) post w : inviting_at w ->
  (forall w1 r', row_at stream_id w1 = Some r' -> established_row s r' -> ends_in env (k (Done true)) post w1) ->
  (forall w1 r, inviting_at w1 -> match r with Done true => False | _ => True end -> ends_in env (k r) post w1) ->
  ends_in env (x <- mark_established stream_id node_id (established_fields s cseq at_) ;; k x) post w.
Proof.
  intros Hw Hyes Hno. unfold mark_established, dialogs. apply (ends_step env (same_row stream_id) env_quiet). intros w1 Hw1.
  destruct (inviting_at_kept w w1) as (row & Hrow & Hi); [done..|].
  pose proof (mark_established_effect s cseq at_ (sv_dialogs (sn_server w1)) row Hrow (proj1 Hi) (proj1 (proj2 Hi))) as He.
  destruct (cas_mark_established _ _ _ _ _ _ _) as [[[]|e|] t]; cbn [fst snd];
    [destruct He as (r' & ? & ?); by apply (Hyes _ r')|subst t; apply Hno; [|done]; exists row..]; done.
Qed.
Lemma answered_ends req identity protocol operation_id r w : ip_stream_id req = stream_id -> inviting_at w ->
  ends_in env (invite_answered req identity protocol operation_id r : task _) (settled ia_dialog_snapshot) w.
Proof.
  intros Hreq Hw. unfold invite_answered. rewrite Hreq. destruct r as [[[event|failure]|?|?|?|?|]|reason]; try done.
  - destruct (same_identity _ _ _); [|by apply roll_back_then]. cbn [negb]. unfold clock, reads.
    apply (ends_step env (same_row stream_id) env_quiet). intros w1 Hw1. cbn [fst snd].
    apply mark_established_then; [by apply (inviting_at_kept w)| |].
    + intros w2 r' Hr' He. apply ends_ret. by exists r'.
    + intros w2 [[]|e|] Hw2 Hr; try done; by apply roll_back_then.
  - apply do_sip_then; [done|]. intros w1 Hw1. destruct (if_dialog_established failure).
    + by apply roll_back_then.
    + by apply mark_then.
  - apply do_sip_then; [done|]. intros w1 Hw1. by apply mark_then.
Qed.
End Opened.

Lemma insert_effect s t :
  match insert_inviting is_socket routes_to_json s t with
  | (Done _, t') => validate_len (d_stream_id s) 64 = true /\ validate_len (d_signal_node_id s) 64 = true
                    /\ exists routes, t' !! d_stream_id s = Some (row_of s routes)
  | (_, t') => t' = t
  end.
Proof.
  unfold insert_inviting. destruct (validate is_socket s) eqn:Hv; [cbn|done]. destruct (_ || _ || _); [done|].
  destruct (route_set_to_json _ _) as [routes|e|]; [|done..]. destruct (t !! d_stream_id s); [done|].
  unfold validate in Hv. rewrite !andb_true_iff in Hv. destruct_and? Hv.
  split; [done|]. split; [done|]. exists routes. apply lookup_insert_eq.
Qed.

(** How a request to open a dialog leaves the row: [before] is the row at its start. *)
Definition settles {X : Type} (stream_id : string) (snapshot : X -> SipDialogSnapshot) (before : option SipDialogSessionRow)
    (r : outcome CommandError X) (w : Node) : Prop :=
  match r with
  | Done x => exists r', row_at stream_id w = Some r' /\ established_row (snapshot x) r'
  | Failed _ => row_at stream_id w = before \/ exists r', row_at stream_id w = Some r' /\ ended_row r'
  | Panic => True
  end.
Lemma settled_settles {X} stream_id (snapshot : X -> SipDialogSnapshot) before r w :
  settled stream_id snapshot r w -> settles stream_id snapshot before r w.
Proof. destruct r; cbn; auto. Qed.


Lemma reject_quiet stream_id call_id status : keeps (same_row stream_id) (reject_broadcast_invite call_id status : task _).
Proof. unfold reject_broadcast_invite. quiet. Qed.
(** When other tasks leave the row of the talk alone and the clock does not go
    back, accepting the INVITE of a talk settles its row: answered, the row is
    ESTABLISHED; refused, it has ended or was not written; only when the SIP
    runtime is gone after the row was written does the row stay INVITING. *)
Theorem talk_row_settled (env : Node -> Node -> Prop) (req : AcceptBroadcastInviteRequest) (w w' : Node) tr r
    (Henv : forall w1 w2, env w1 w2 -> same_row (ab_talk_id req) w1 w2)
    (Hrun : exec env w (accept_broadcast_invite req : task _) tr w' r) :
  settles (ab_talk_id req) (fun _ => ii_dialog_snapshot (ab_invite req)) (row_at (ab_talk_id req) w) r w'
  \/ r = Failed NoRuntime /\ inviting_at (ab_talk_id req) w'.
Proof.
  set (stream_id := ab_talk_id req) in *. revert w' r Hrun.
  assert (Hends : ends_in env (accept_broadcast_invite req : task _) (fun r w' =>
    settles stream_id (fun _ => ii_dialog_snapshot (ab_invite req)) (row_at stream_id w) r w'
    \/ r = Failed NoRuntime /\ inviting_at stream_id w') w); [|intros w' r Hrun; exact (ends_sound env _ _ w tr w' r Hrun Hends)].
  unfold accept_broadcast_invite. apply (ends_step env (same_row stream_id) Henv). intros w1 Hw1. cbn [fst snd].
  apply (ends_step env (same_row stream_id) Henv). intros w2 Hw2.
  assert (same_row stream_id w w2) as [Hrow _] by by transitivity w1.
  match goal with |- context [insert_inviting _ _ ?s _] => set (session := s) end.
  pose proof (insert_effect session (sv_dialogs (sn_server w2))) as Hi.
  destruct (insert_inviting _ _ session _) as [[[]|e|] t]; cbn [fst snd]; [| |by left].
  2:{ subst t. apply (ends_quiet env (same_row stream_id) Henv); [apply reject_quiet|]. intros x w3 [Hw3 _].
      left. left. etransitivity; [exact Hw3|exact Hrow]. }
  destruct Hi as (Hlen & Hnode & routes & Ht). change (d_stream_id session) with stream_id in *.
  assert (Hopen : inviting_at stream_id (on_server (on_dialogs (fun _ => t)) w2)).
  { exists (row_of session routes). split; [exact Ht|]. destruct Hw2. repeat split; cbn; (done || lia). }
  unfold runtime at 1. apply ends_bind_ok, (ends_one env (same_row stream_id) Henv). intros w3 Hw3. cbn [fst snd].
  apply (inviting_at_kept _ _ w3) in Hopen; [|done]. destruct (sn_installed w3); [|by right].
  eapply ends_weaken; [|intros r w' Hr; left; apply settled_settles, Hr].
  apply (ends_quiet env (same_row stream_id) Henv); [apply submit_quiet|]. intros sent w4 Hw4.
  apply (inviting_at_kept _ _ w4) in Hopen; [|done]. destruct sent as [[]|e|]; [|by apply mark_then|done].
  apply (ends_step env (same_row stream_id) Henv). intros w5 Hw5. cbn [fst snd].
  apply (inviting_at_kept _ _ w5) in Hopen; [|done]. apply mark_established_then; [done..| |].
  - intros w6 r' Hr' He. apply (ends_step env (same_row stream_id) Henv). intros w7 [Hw7 _]. apply ends_ret.
    exists r'. split; [|done]. etransitivity; [exact Hw7|exact Hr'].
  - intros w6 [[]|e|] Hw6 Hr; try done; by apply roll_back_then.
Qed.

(** ** The BYE and the row *)

Lemma readable_progress r s : try_from_row is_socket routes_from_json r = Done s ->
  d_local_cseq s = r_local_cseq r /\ d_version s = r_version r /\ d_signal_node_id s = r_signal_node_id r
  /\ r_state r = state_to_string (d_state s).
Proof.
  unfold try_from_row. destruct (type_of_string (r_session_type r)); [|done].
  destruct (route_set_from_json _ _) as [routes| |]; [|done..]. destruct (transport_of_string (r_transport r)); [|done].
  destruct (state_of_string (r_state r)) as [st|] eqn:Hst; [|done]. destruct (validate _ _); [|done]. intros [= <-]. cbn.
  by apply state_of_string_Some in Hst.
Qed.
(** A request within the dialog took the next sequence number. *)
Definition reserved_row (state : DialogState) (r r' : SipDialogSessionRow) : Prop :=
  r_signal_node_id r' = r_signal_node_id r /\ r_version r' = r_version r + 1 /\ r_local_cseq r' = r_local_cseq r + 1
  /\ r_state r' = state_to_string state.
Lemma begin_row stream_id node version cseq now t r :
  t !! stream_id = Some r -> r_version r = version -> r_local_cseq r = cseq ->
  match cas_begin_terminating stream_id node version cseq (cseq + 1) now t with
  | (Done true, t') => exists r', t' !! stream_id = Some r' /\ reserved_row Terminating r r'
  | (_, t') => t' = t
  end.
Proof.
  intros Hr Hv Hc. unfold cas_begin_terminating, cas. destruct (valid_cseq _ _ _ _ _); [|done]. unfold update_where. rewrite Hr.
  destruct (_ && _ && _ && _); cbn; [|done]. eexists. split; [apply lookup_insert_eq|]. repeat split; cbn; lia.
Qed.
Lemma reserve_row stream_id node version cseq now t r :
  t !! stream_id = Some r -> r_version r = version -> r_local_cseq r = cseq -> r_state r = state_to_string Terminating ->
  match cas_reserve_local_cseq stream_id node version cseq (cseq + 1) now t with
  | (Done true, t') => exists r', t' !! stream_id = Some r' /\ reserved_row Terminating r r'
  | (_, t') => t' = t
  end.
Proof.
  intros Hr Hv Hc Hs. unfold cas_reserve_local_cseq, cas. destruct (valid_cseq _ _ _ _ _); [|done]. unfold update_where. rewrite Hr.
  destruct (_ && _ && _ && _); cbn; [|done]. eexists. split; [apply lookup_insert_eq|]. repeat split; cbn; (done || lia).
Qed.

Section Stopped.
Context (env : Node -> Node -> Prop) (stream_id : string) (env_quiet : forall w w', env w w' -> same_row stream_id w w').

Definition bye_reserved (before : option SipDialogSessionRow) (r : outcome CommandError (option DurableDialogReservation))
    (w : Node) : Prop :=
  match r with
  | Done None => before = None /\ row_at stream_id w = None
  | Done (Some v) => exists row row', before = Some row /\ row_at stream_id w = Some row' /\ reserved_row Terminating row row'
                                   /\ rs_signal_node_id v = r_signal_node_id row' /\ rs_version v = r_version row'
  | _ => row_at stream_id w = before
  end.
Lemma reserving_ends (op : Table -> outcome StoreError bool * Table) node version row w :
  row_at stream_id w = Some row -> node = r_signal_node_id row -> version = r_version row ->
  (forall t, t !! stream_id = Some row ->
     match op t with
     | (Done true, t') => exists r', t' !! stream_id = Some r' /\ reserved_row Terminating row r'
     | (_, t') => t' = t
     end) ->
  ends_in env (r <-? dialogs op ;;
               Ret (if r : bool then Done (Some {| rs_signal_node_id := node; rs_version := version + 1 |})
                    else Failed ReservationLost) : task _) (bye_reserved (Some row)) w.
Proof.
  intros Hw -> -> Hop. apply ends_bind_ok, (ends_one env (same_row stream_id) env_quiet). intros w1 [Hw1 _]. rewrite Hw in Hw1.
  specialize (Hop _ Hw1). destruct (op _) as [[[]|e|] t]; cbn [fst snd]; [|subst t; exact Hw1..].
  apply ends_ret. destruct Hop as (r' & Hr' & Hres). exists row, r'.
  pose proof Hres as (Hn & Hv & _). split_and!; (done || congruence).
Qed.
Lemma reserve_ends w :
  ends_in env (reserve_durable_dialog_request stream_id DialogBye : task _) (bye_reserved (row_at stream_id w)) w.
Proof.
  unfold reserve_durable_dialog_request, find_dialog, dialogs.
  apply ends_bind_ok, (ends_one env (same_row stream_id) env_quiet). intros w1 [Hw1 _]. cbn [fst snd].
  unfold find_by_stream_id. destruct (validate_len stream_id 64); [cbn [negb]|done]. change (_ !! stream_id) with (row_at stream_id w1).
  rewrite Hw1. destruct (row_at stream_id w) as [row|] eqn:Hrow; [|by apply ends_ret].
  destruct (try_from_row _ _ row) as [s|e|] eqn:Hs; [|exact Hw1..]. apply readable_progress in Hs as (Hc & Hv & Hn & Hst).
  destruct (bool_decide (d_signal_node_id s <> node_id)); [exact Hw1|]. destruct (_ <? _); [exact Hw1|].
  apply (ends_step env (same_row stream_id) env_quiet). intros w2 [Hw2 _]. cbn [fst snd].
  assert (Hw : row_at stream_id w2 = Some row) by (etransitivity; [exact Hw2|exact Hw1]).
  destruct (d_state s); try exact Hw; apply (reserving_ends _ _ _ row); try done.
  - intros t Ht. apply begin_row; congruence.
  - intros t Ht. apply reserve_row; congruence.
Qed.

(** How a BYE leaves the row. *)
Definition stopped (before : option SipDialogSessionRow) (r : outcome CommandError unit) (w : Node) : Prop :=
  match before, r with
  | None, _ => row_at stream_id w = None
  | Some row, Done _ =>
      exists row', row_at stream_id w = Some row' /\ r_state row' = state_to_string Terminated
                   /\ r_local_cseq row' = r_local_cseq row + 1 /\ r_version row' = r_version row + 2
  | Some row, _ =>
      row_at stream_id w = Some row \/ exists row', row_at stream_id w = Some row' /\ reserved_row Terminating row row'
  end.
Lemma reserved_kept before v w w' : bye_reserved before (Done v) w -> same_row stream_id w w' -> bye_reserved before (Done v) w'.
Proof. intros Hv [Hw _]. unfold bye_reserved in *. by rewrite Hw. Qed.
Lemma reserved_stopped before v w r : bye_reserved before (Done v) w -> match r with Done _ => False | _ => True end ->
  stopped before r w.
Proof.
  intros Hv Hr. destruct v as [v|]; cbn in Hv; [|by destruct Hv as [-> ?]].
  destruct Hv as (row & row' & -> & Hw & Hrow & _), r; try done; right; by exists row'.
Qed.
Lemma finish_ends before v w : bye_reserved before (Done (Some v)) w ->
  ends_in env (updated_at <- clock ;;
               persisted <-? dialogs (cas_transition stream_id (rs_signal_node_id v) (rs_version v) Terminating Terminated updated_at) ;;
               Ret (if persisted : bool then Done tt else Failed CasLost) : task _) (stopped before) w.
Proof.
  intros Hv. apply (ends_step env (same_row stream_id) env_quiet). intros w1 Hw1. cbn [fst snd].
  apply ends_bind_ok, (ends_one env (same_row stream_id) env_quiet). intros w2 Hw2.
  pose proof (reserved_kept before _ w w2 Hv ltac:(by transitivity w1)) as Hv2.
  assert (Hno : forall e, stopped before (Failed e) w2) by (intros e; by eapply reserved_stopped). destruct Hv2 as (row & row' & -> & Hr & Hrow & Hn & Hver).
  unfold cas_transition, cas. destruct (_ && _ && _ && _ && _); [|exact (Hno CasLost)]. unfold update_where, row_at in *.
  rewrite Hr. destruct (_ && _ && _); [|exact (Hno CasLost)]. destruct Hrow as (_ & Hversion & Hcseq & _). cbn.
  eexists. split; [apply lookup_insert_eq|]. cbn. split_and!; [done|lia..].
Qed.
End Stopped.

(** C8: when other tasks leave the row of the stream alone and the clock does not
    go back, a BYE that succeeds leaves the row TERMINATED with the next sequence
    number; one that fails leaves the row as it was, or TERMINATING with the
    sequence number taken, so that the next attempt sends a higher one. *)
Theorem bye_terminates_row (env : Node -> Node -> Prop) (device_id stream_id call_id : string) (w w' : Node) tr r
    (Henv : forall w1 w2, env w1 w2 -> same_row stream_id w1 w2)
    (Hrun : exec env w (invite_stop_by_device device_id {| is_call_id := Some call_id; is_stream_id := Some stream_id |} : task _) tr w' r) :
  stopped stream_id (row_at stream_id w) r w'.
Proof.
  apply (ends_sound env _ _ w tr w' r Hrun). clear r tr w' Hrun. unfold invite_stop_by_device.
  apply (ends_quiet env (same_row stream_id) Henv); [quiet|]. intros cached w1 [Hw1 _]. cbn [is_call_id is_stream_id].
  apply ends_bind_ok. eapply ends_weaken; [by apply reserve_ends|]. rewrite Hw1. intros r w2 Hr.
  destruct r as [v|e|]; [|destruct (row_at stream_id w); [left|]; exact Hr..].
  apply (ends_quiet env (same_row stream_id) Henv); [quiet|]. intros restored w3 Hw3.
  apply (reserved_kept stream_id _ _ _ w3) in Hr; [|done].
  apply (ends_quiet_ok env (same_row stream_id) Henv).
  - destruct restored; [|apply dialog_quiet]. apply keeps_bind_ok; [unfold load_durable_dialog; quiet|]. intros session. apply restored_quiet.
  - intros _ w4 Hw4. apply (reserved_kept stream_id _ _ _ w4) in Hr; [|done]. destruct v as [v|]; [by apply finish_ends|].
    destruct Hr as [-> Hr]. exact Hr.
  - intros e w4 Hw4. eapply reserved_stopped; [by eapply reserved_kept|done].
  - intros w4 Hw4. eapply reserved_stopped; [by eapply reserved_kept|done].
Qed.
End Rows.

(** ** What the commands ask the outside: at most for a fresh INVITE identity *)

Definition own_question {More : Type} (q : Question (More := More)) : Prop := q = GenerateIdentity.
Create HintDb sip_asks.
Ltac local_only := repeat first [progress cbn | case_match | lazymatch goal with
  | |- True => exact I
  | |- _ /\ _ => split
  | |- own_question _ => reflexivity
  | |- forall _, _ => intros ?
  | |- asks _ (bind _ _) => apply asks_bind; [solve [eauto with sip_asks]|]
  | |- asks _ (bind_ok _ _) => apply asks_bind_ok; [solve [eauto with sip_asks]|]
  | |- asks _ _ => solve [eauto with sip_asks]
  end].
Section Questions.
Context {A : Type} `{AssociationLike A} `{!MapIter string}.
Context {SA F32 : Type} `{!SipLibrary A SA F32} {Assoc Meth : Type} `{Countable Meth}.
Context {More : Type} {more_answer : More -> Type}.
Notation Node := (SignalNode (A := A) (SA := SA) (Assoc := Assoc) (Meth := Meth)).
Notation task := (task Node (Answer (more_answer := more_answer))).
Notation own t := (asks own_question (t : task _)).

Lemma recv_own tx : own (recv tx).
Proof. done. Qed.
Lemma submit_own f : own (submit f).
Proof. done. Qed.
#[local] Hint Resolve recv_own submit_own : sip_asks.
Lemma await_own operation_id tx accept : own (await_response operation_id tx accept).
Proof. unfold await_response. local_only. Qed.
#[local] Hint Resolve await_own : sip_asks.
Lemma send_and_wait_own operation_id tx accept f : own (send_and_wait operation_id tx accept f).
Proof. unfold send_and_wait. local_only. Qed.
#[local] Hint Resolve send_and_wait_own : sip_asks.
Lemma message_own device_id req : own (send_native_message_on_device_and_wait device_id req).
Proof. unfold send_native_message_on_device_and_wait. local_only. Qed.
Lemma dialog_own device_id method call_id content_type body timeout :
  own (send_native_dialog_and_wait device_id method call_id content_type body timeout).
Proof. unfold send_native_dialog_and_wait. local_only. Qed.
Lemma restored_own device_id method session content_type body timeout :
  own (send_restored_dialog_and_wait device_id method session content_type body timeout).
Proof. unfold send_restored_dialog_and_wait. local_only. Qed.
Lemma reserve_own stream_id method : own (reserve_durable_dialog_request stream_id method).
Proof. unfold reserve_durable_dialog_request. local_only. Qed.
Lemma reject_own call_id status : own (reject_broadcast_invite call_id status).
Proof. unfold reject_broadcast_invite. local_only. Qed.
#[local] Hint Resolve message_own dialog_own restored_own reserve_own reject_own : sip_asks.
Lemma invite_stop_own device_id req : own (invite_stop_by_device device_id req).
Proof. unfold invite_stop_by_device. local_only. Qed.
Lemma give_up_own target_id rx e : own (give_up_invite target_id rx e).
Proof. unfold give_up_invite. local_only. Qed.
Lemma rollback_own device_id stream_id node call_id next : own (rollback_established_invite device_id stream_id node call_id next).
Proof. unfold rollback_established_invite. local_only. Qed.
#[local] Hint Resolve invite_stop_own give_up_own rollback_own : sip_asks.
Lemma broadcast_own device_id target_id sn : own (broadcast_notify_and_wait device_id target_id sn).
Proof. unfold broadcast_notify_and_wait. local_only. Qed.
Lemma accept_own req : own (accept_broadcast_invite req).
Proof. unfold accept_broadcast_invite. local_only. Qed.
Lemma answered_own req identity protocol id r : own (invite_answered req identity protocol id r).
Proof. unfold invite_answered. local_only. Qed.
#[local] Hint Resolve answered_own : sip_asks.
Lemma invite_own req : own (invite_play_and_wait req).
Proof. unfold invite_play_and_wait. local_only. Qed.
Lemma close_own device_id stream_id accepted : own (close_invite_after_answer_error device_id stream_id accepted).
Proof. unfold close_invite_after_answer_error. local_only. Qed.
#[local] Hint Resolve invite_own close_own : sip_asks.
Lemma parse_or_close_own device_id stream_id ssrc accepted : own (parse_media_ext_or_close device_id stream_id ssrc accepted).
Proof. unfold parse_media_ext_or_close. local_only. Qed.
#[local] Hint Resolve parse_or_close_own : sip_asks.
Lemma invite_with_own ty offer device_id channel_id node ip port mode ssrc stream_id :
  own (invite_with ty offer device_id channel_id node ip port mode ssrc stream_id).
Proof. unfold invite_with. local_only. Qed.
End Questions.
#[export] Hint Resolve reject_own invite_stop_own broadcast_own accept_own invite_with_own : sip_asks.

(** ** A node with one registered device *)

#[export] Instance demo_library : SipLibrary Z string spec_float := {|
  parse_socket := Some; show_socket := id; remote_ip := fun _ => "192.0.2.1"%string; remote_port := fun _ => 5060;
  local_text := fun _ => "192.0.2.2:5060"%string; remote_text := fun _ => "192.0.2.1:5060"%string;
  session_conf := {| sc_domain := "domain"; sc_domain_id := "n"; sc_http_source := ""; sc_lan_ip := "10.0.0.1";
                     sc_wan_ip := "192.0.2.2"; sc_lan_port := 5060; sc_wan_port := 5060 |};
  xml_encode := fun _ l => l; routes_to_json := demo_to_json; routes_from_json := demo_from_json;
  build_play_sdp := fun _ _ _ _ => ""%string; CONTENT_TYPE_MANSRTSP := "Application/MANSRTSP";
  build_mansrtsp_seek_body := fun _ _ => []; build_mansrtsp_speed_body := fun _ _ => [];
  parse_lossy := fun _ => {| si_session_name := None; si_connection_addr := None; si_media_port := None; si_media_proto := None;
                            si_media_payloads := []; si_ssrc := None |};
  session_parse := fun _ => None; squeeze_space := id; to_uppercase := id
|}.
Notation DemoNode := (SignalNode (A := Z) (SA := string) (Assoc := unit) (Meth := Z)).
Definition demo_node (t : Table) : DemoNode := {|
  sn_server := {| sv_dialogs := t;
                  sv_register := {| general_cache := Cache_init; io_map := demo_net; recovering_devices := ∅; recovery_permits := 64;
                                    effects := [] |};
                  sv_sip := SipRuntimeCache_default |};
  sn_handle := {| association_ids := {[1 := 7]}; next_operation := 1; commands := []; owner_alive := true |};
  sn_installed := true; sn_clock := 100; sn_instant := 0; sn_serial := 0; sn_sent := []; sn_locked := ∅; sn_channels := 0 |}.
Definition demo_snapshot : SipDialogSnapshot (SA := string) := {|
  ds_call_id := "call"; ds_local_uri := "sip:n@192.0.2.2"; ds_remote_uri := "sip:d@192.0.2.1"; ds_local_tag := "lt";
  ds_remote_tag := "rt"; ds_local_cseq := 4; ds_remote_target := "sip:d@192.0.2.1:5060"; ds_route_set := [];
  ds_protocol := STcp; ds_association_id := 7; ds_local_addr := "192.0.2.2:5060"; ds_remote_addr := "192.0.2.1:5060" |}.
(** The runtime delivers a reply to the waiter that was made last. *)
Definition deliver (v : @Reply (SipDialogSnapshot (SA := string)) SdpInfo unit) : DemoNode -> DemoNode :=
  on_server (on_sip (fun c => {|
    invite_waiters := invite_waiters c; bye_waiters := bye_waiters c; response_waiters := response_waiters c;
    native_response_waiters := native_response_waiters c; native_invite_waiters := native_invite_waiters c;
    native_subscription_waiters := native_subscription_waiters c; broadcast_response_waiters := broadcast_response_waiters c;
    broadcast_invite_waiters := broadcast_invite_waiters c; call_stream_index := call_stream_index c; next_tx := next_tx c;
    listening := listening c; ended := (next_tx c - 1, v) :: ended c |})).
Lemma deliver_quiet stream_id v w : rtc (same_row stream_id) w (deliver v w).
Proof. apply rtc_once. by split. Qed.
Definition demo_accepted : GbInviteAcceptedEvent (SipDialogSnapshot (SA := string)) SdpInfo := {|
  ia_call_id := "call"; ia_device_id := "d"; ia_channel_id := "c"; ia_stream_id := "s"; ia_ssrc := None;
  ia_dialog_snapshot := demo_snapshot; ia_remote_sdp := "";
  ia_sdp_info := {| si_session_name := None; si_connection_addr := None; si_media_port := None; si_media_proto := None;
                    si_media_payloads := []; si_ssrc := None |} |}.
Definition demo_invite : InvitePlayRequest := {|
  ip_device_id := "d"; ip_channel_id := "c"; ip_stream_id := "s"; ip_media_node_id := "m"; ip_session_type := DLive;
  ip_device_host := "192.0.2.1"; ip_device_port := 5060; ip_media_ip := "192.0.2.3"; ip_media_port := 30000;
  ip_ssrc := 100000001; ip_payload_type := 96; ip_protocol := STcp; ip_sdp := Some "sdp"%string; ip_call_id := None;
  ip_cseq := None; ip_subject := None |}.
Definition demo_identity (q : Question (More := Empty_set)) : Answer (more_answer := fun _ => unit) q :=
  match q with
  | GenerateIdentity => {| id_call_id := "call"; id_local_tag := "lt"; id_local_cseq := 4 |}
  | Other _ => tt
  end.
Definition is_done {E X : Type} (r : outcome E X) : bool := match r with Done _ => true | _ => false end.

Lemma ptz_command_reads_back_witness :
  exists command, build_ptz_command {| pz_deviceId := "d"; pz_channelId := "c"; pz_leftRight := 1; pz_upDown := 2; pz_inOut := 0;
                                       pz_horizonSpeed := 200; pz_verticalSpeed := 3; pz_zoomSpeed := 15 |} = Done command
                  /\ command = "A50F0106C803F076"%string /\ read_ptz command = Some (1, 2, 0, 200, 3, 15).
Proof.
  eexists. split; [vm_compute; reflexivity|]. split; [vm_compute; reflexivity|].
  exact (proj2 (ptz_command_reads_back {| pz_deviceId := "d"; pz_channelId := "c"; pz_leftRight := 1; pz_upDown := 2; pz_inOut := 0;
    pz_horizonSpeed := 200; pz_verticalSpeed := 3; pz_zoomSpeed := 15 |} ltac:(apply (bool_decide_unpack _); by vm_compute))).
Defined.
(** The row of the INVITE, and the BYE that is answered with 200. *)
Definition demo_open : Table :=
  match run (deliver (RInvite (inl demo_accepted))) false demo_identity (invite_play_and_wait demo_invite) (demo_node ∅) with
  | Some (_, w', _) => sv_dialogs (sn_server w')
  | None => ∅
  end.
Lemma bye_terminates_row_witness :
  exists w' : DemoNode, exists row, row_at "s" w' = Some row /\ r_state row = "TERMINATED"%string /\ r_local_cseq row = 5.
Proof.
  destruct (run_found (deliver (RResponse {| rr_status := 200; rr_metadata := SipResponseMetadata_default |})) false demo_identity (same_row "s") (fun _ _ r => is_done r)
    (invite_stop_by_device "d" {| is_call_id := Some "call"%string; is_stream_id := Some "s"%string |}) (demo_node demo_open)
    (deliver_quiet "s" _)) as (tr & w' & r & Hd & He);
    [vm_compute; reflexivity|].
  pose proof (bye_terminates_row (same_row "s") "d" "s" "call" (demo_node demo_open) w' tr r (fun _ _ Hs => Hs) He) as Hs.
  destruct r as [[]|e|]; [|discriminate Hd..]. exists w'.
  destruct (row_at "s" (demo_node demo_open)) as [row|] eqn:Hrow; [|vm_compute in Hrow; discriminate Hrow].
  destruct Hs as (row' & Hw & Hst & Hc & _). exists row'. split_and!; [done..|]. rewrite Hc. vm_compute in Hrow. by injection Hrow as <-.
Defined.
Definition demo_accept : AcceptBroadcastInviteRequest (SA := string) (Assoc := unit) := {|
  ab_device_id := "d"; ab_channel_id := "c"; ab_talk_id := "t"; ab_media_node_id := "m"; ab_media_ip := "192.0.2.3";
  ab_media_port := 30000; ab_ssrc := 100000002; ab_payload_type := 8;
  ab_invite := {| ii_call_id := "call"; ii_cseq := 1; ii_association := tt; ii_dialog_snapshot := demo_snapshot;
                  ii_remote_sdp := ""; ii_from := ""; ii_to := ""; ii_subject := None |} |}.
Lemma talk_row_settled_witness :
  exists (w' : DemoNode) row, row_at "t" w' = Some row /\ established_row demo_snapshot row.
Proof.
  destruct (run_found id true demo_identity (same_row "t") (fun _ _ r => is_done r)
    (accept_broadcast_invite demo_accept) (demo_node ∅) (fun w => rtc_refl _ w)) as (tr & w' & r & Hd & He);
    [vm_compute; reflexivity|].
  destruct (talk_row_settled (same_row "t") demo_accept (demo_node ∅) w' tr r (fun _ _ Hs => Hs) He) as [Hs|[-> _]];
    [|discriminate Hd]. destruct r as [[]|e|]; [|discriminate Hd..]. exists w'. exact Hs.
Defined.
