(* ===== verification/StreamServiceProps.v ===== *)
(** * Theorems on opening streams and talks

    What [StreamService] prepares on a media node it takes back when it fails; a
    stream that is already online is shared.  The answers of the nodes, the
    device and the data base are arbitrary, and so is what other tasks do. *)
From Stdlib Require Import Ascii Floats.SpecFloat.
From stdpp Require Import pretty sorting.
From S2P Require Import Prelude Text SharedTypes Scheduler Lifecycle SessionCache DialogCache Network CloseService RegisterCore.
From S2P Require Import Ssrc MediaExt Sdp TalkUpload DialogStore SipRuntime NativeRuntime Subscription Tasks DialogRecovery SipCommands.
From S2P Require Import SipCommandsProps StreamService.
Local Open Scope Z_scope.
Local Open Scope task_scope.

(** ** What is prepared on the media nodes *)

(** A stream that a node initialised and that was not closed; a talk that a node
    opened and that was not closed; a stream of another request that is online. *)
Inductive Prepared :=
| StreamOn (node : string) (ssrc : Z) (output : OutputEnum)
| TalkOn (node talk_id : string)
| SharedOn (node : string) (ssrc : Z) (stream_id : string).
#[export] Instance Prepared_eq_dec : EqDecision Prepared.
Proof. solve_decision. Defined.
Fixpoint remove_first (x : Prepared) (l : list Prepared) : list Prepared :=
  match l with [] => [] | y :: l => if decide (x = y) then l else y :: remove_first x l end.
Notation ServiceEvent := (event (Answer (more_answer := service_answer))).
Definition prepared_by (l : list Prepared) (e : ServiceEvent) : list Prepared :=
  match e with
  | existT q a =>
      match q return Answer q -> list Prepared with
      | Other (StreamInit node config) => fun a : option Z =>
          if bool_decide (a = Some 200) then StreamOn node (mc_ssrc config) (output_kind_to_enum (mc_output config)) :: l else l
      | Other (CloseOutput node ssrc output) => fun _ => remove_first (StreamOn node ssrc output) l
      | Other (TalkOpen node req) => fun a : option (Z * option TalkOpenResp) =>
          match a ≫= stream_resp_data with Some _ => TalkOn node (to_talk_id req) :: l | None => l end
      | Other (StreamOnline node ssrc stream_id) => fun a : option (option bool) =>
          if bool_decide (a = Some (Some true)) then SharedOn node ssrc stream_id :: l else l
      | Other (TalkClose node talk_id) => fun _ => remove_first (TalkOn node talk_id) l
      | _ => fun _ => l
      end a
  end.
(** What is left prepared after the questions and answers of a run. *)
Definition prepared (tr : list ServiceEvent) : list Prepared := foldl prepared_by [] tr.
Lemma remove_first_here x l : remove_first x (x :: l) = l.
Proof. cbn. by rewrite decide_True. Qed.

Section StreamServiceProps.
Context {A : Type} `{AssociationLike A} `{!MapIter string}.
Context {SA : Type} `{!SipLibrary A SA f32} {Assoc Meth : Type} `{Countable Meth}.
Context (accepts : TimeScheduleKey -> bool).
Context (node_names : list string) (node_map : string -> option MediaNode) (client_ok : string -> bool).
Context (local_of_secs : Z -> option Z) (form_urlencode : string -> string).
Context (dig62_de : string -> outcome SsrcError string) (protocol_value : Protocol -> string).
Notation Node := (SignalNode (A := A) (SA := SA) (Assoc := Assoc) (Meth := Meth)).
Notation task := (task Node (Answer (more_answer := service_answer))).
Notation prep t := (accounts prepared_by (t : task _)).

Lemma own_silent q a l : own_question q -> prepared_by l (existT q a) = l.
Proof. by intros ->. Qed.
Lemma prep_silent {R S} (t : task R) (k : R -> task S) post l :
  asks own_question t -> (forall r, prep (k r) post l) -> prep (bind t k) post l.
Proof. intros Ht Hk. by apply (accounts_silent prepared_by own_question); [|intros; by apply own_silent|]. Qed.
Lemma command_prep {X R} (t : task (outcome CommandError X)) (k : outcome ServiceError X -> task R) post l :
  asks own_question t -> (forall x, prep (k (Done x)) post l) -> (forall e, prep (k (Failed (AtCommand e))) post l) ->
  prep (k Panic) post l -> prep (bind (command t) k) post l.
Proof.
  intros Ht Hd Hf Hp. unfold command. apply accounts_bind.
  apply (prep_silent t); [done|]. intros [x|e|]; cbn; [apply Hd|apply Hf|apply Hp].
Qed.
Lemma stop_invited_own device_id call_id stream_id : asks own_question (stop_invited device_id call_id stream_id : task _).
Proof. unfold stop_invited. apply asks_bind; [auto with sip_asks|done]. Qed.
Lemma invite_by_mode_prep {R} device_id channel_id am st et mode ssrc stream_id node_name n
    (k : outcome ServiceError _ -> task R) post l :
  (forall x, prep (k (Done x)) post l) -> (forall e, prep (k (Failed (AtCommand e))) post l) -> prep (k Panic) post l ->
  prep (bind (invite_by_mode device_id channel_id am st et mode ssrc stream_id node_name n) k) post l.
Proof. intros Hd Hf Hp. unfold invite_by_mode. destruct am; [..|exact Hp]; apply command_prep; try done; apply invite_with_own. Qed.

(** ** Streams *)

#[local] Arguments stop_invited : simpl never.
#[local] Arguments listen_stream_by_stream_id : simpl never.
#[local] Arguments invite_by_mode : simpl never.
Lemma listen_silent stream_id secs : asks own_question (listen_stream_by_stream_id stream_id secs : task _).
Proof. unfold listen_stream_by_stream_id. by cbn. Qed.

(** Either the stream is the only thing prepared besides [l], or nothing is. *)
Definition stream_kept (ssrc : Z) (msc : MediaConfig) (l : list Prepared)
    (r : outcome ServiceError (string * string * string)) (l' : list Prepared) : Prop :=
  match r with
  | Done (_, node, _) => l' = StreamOn node ssrc (output_kind_to_enum (mc_output msc)) :: l
  | Failed e => l' = l /\ e <> UnsupportedOutput /\ e <> BadTime
  | Panic => True
  end.
Lemma accepted_prep device_id channel_id am ssrc stream_id u32ssrc msc node call_id ext l : 
  prep (stream_accepted accepts device_id channel_id am ssrc stream_id u32ssrc msc node call_id ext)
    (stream_kept u32ssrc msc l) (StreamOn node u32ssrc (output_kind_to_enum (mc_output msc)) :: l).
Proof.
  unfold stream_accepted. set (out := output_kind_to_enum (mc_output msc)).
  assert (Hback : forall e, e <> UnsupportedOutput -> e <> BadTime ->
    prep (stop_invited device_id call_id stream_id ;;; cleanup_stream_init node u32ssrc (mc_output msc) ;;; Ret (Failed e))
      (stream_kept u32ssrc msc l) (StreamOn node u32ssrc out :: l)).
  { intros e He Ht. apply prep_silent; [apply stop_invited_own|]. intros ? ?. cbn. by rewrite decide_True. }
  cbn. intros [code|]; [|by apply Hback]. destruct (code =? 200); cbn; [|by apply Hback]. intros [] ; [|by apply Hback].
  cbn. apply prep_silent; [apply listen_silent|]. intros [info|]; cbn; [done|]. intros ? ?. by rewrite decide_True.
Qed.
#[local] Arguments stream_accepted : simpl never.
Lemma start_on_nodes_prep device_id channel_id am st et mode ssrc stream_id u32ssrc msc nodes l : mc_ssrc msc = u32ssrc ->
  prep (start_on_nodes accepts node_map client_ok device_id channel_id am st et mode ssrc stream_id u32ssrc msc nodes)
    (stream_kept u32ssrc msc l) l.
Proof.
  intros Hssrc. induction nodes as [|node nodes IH]; [done|]. cbn [start_on_nodes]. destruct (node_map node) as [n|]; [|done].
  destruct (client_ok node); [|done]. cbn. intros [code|]; [|done]. destruct (Z.eqb_spec code 200) as [->|Hcode]; cbn.
  - rewrite bool_decide_true by done. rewrite Hssrc.
    apply invite_by_mode_prep; [intros [accepted ext]; apply accepted_prep| |done].
    intros e. cbn. intros ?. by rewrite decide_True.
  - by rewrite bool_decide_false by congruence.
Qed.

(** A started stream is all that is prepared, on the node that is returned. *)
Definition output_of (custom : option CustomMediaConfig) : OutputEnum :=
  match custom with Some c => output_kind_to_enum (cm_output c) | None => DashFmp4 end.
Definition only_stream (output : OutputEnum) (r : outcome ServiceError (string * string * string)) (l : list Prepared) : Prop :=
  match r with
  | Done (_, node, _) => exists ssrc, l = [StreamOn node ssrc output]
  | Failed e => l = [] /\ e <> UnsupportedOutput /\ e <> BadTime
  | Panic => True
  end.
Lemma start_prep device_id channel_id am st et mode custom :
  prep (start_invite_stream accepts node_names node_map client_ok device_id channel_id am st et mode custom)
    (only_stream (output_of custom)) [].
Proof.
  cbn. intros nodes [[ssrc stream_id]|e|]; [|done..]. destruct (parse_u32 ssrc) as [u32ssrc|]; [|done].
  eapply accounts_mono; [apply start_on_nodes_prep; by destruct custom|]. intros [[[sid node] addr]|e|] l; [|done..].
  intros ->. exists u32ssrc. by destruct custom.
Qed.


(** ** Requests for a view *)

Definition has_url (output : option OutputKind) : bool :=
  match output with None | Some (KDashFmp4 | KHttpFlv | KDashMp4) => true | _ => false end.
Lemma build_url stream_id addr output :
  match StreamInfo_build stream_id addr output with
  | Done info => has_url output = true /\ sf_streamId info = stream_id
  | Failed e => has_url output = false /\ e = UnsupportedOutput
  | Panic => False
  end.
Proof. unfold StreamInfo_build. by destruct output as [[]|]. Qed.
(** Every view that is served, and none that is refused, has one stream; a refusal
    for the sake of the output comes too late for that. *)
Definition one_stream (output : option OutputKind) (r : outcome ServiceError StreamInfo) (l : list Prepared) : Prop :=
  match r with
  | Done info => has_url output = true /\ exists x, l = [x]
  | Failed UnsupportedOutput => has_url output = false /\ exists x, l = [x]
  | Failed _ => l = []
  | Panic => True
  end.
Lemma refused output e : e <> UnsupportedOutput -> one_stream output (Failed e) [].
Proof. by destruct e. Qed.
Lemma built output stream_id addr x : one_stream output (StreamInfo_build stream_id addr output) [x].
Proof. pose proof (build_url stream_id addr output) as Hb. destruct (StreamInfo_build _ _ _) as [info|e|]; destruct Hb; subst; cbn; eauto. Qed.
Lemma locked_prep {X} device_id channel_id am (t : task X) post l :
  prep t post l -> prep (locked device_id channel_id am t) post l.
Proof.
  intros Ht. unfold locked. apply prep_silent; [done|]. intros lock. apply accounts_bind.
  eapply accounts_mono; [exact Ht|]. intros r l' Hr. by cbn.
Qed.
#[local] Arguments start_invite_stream : simpl never.
Lemma share_or_start_prep device_id channel_id token am st et mode custom :
  prep (share_or_start accepts node_names node_map client_ok device_id channel_id token am st et mode custom)
    (one_stream (cm_output <$> custom)) [].
Proof.
  unfold share_or_start. apply locked_prep, accounts_bind_ok. 
  assert (Hstart : prep (started <-? start_invite_stream accepts node_names node_map client_ok device_id channel_id am st et mode custom ;;
     let '(stream_id, _, proxy_addr) := started in
     insert_token stream_id token ;;; Ret (StreamInfo_build stream_id proxy_addr (cm_output <$> custom)))
    (one_stream (cm_output <$> custom)) []).
  { apply accounts_bind_ok. eapply accounts_mono; [apply start_prep|]. intros [[[sid node] addr]|e|] l; [|by intros (-> & ? & _); apply refused|done].
    intros (ssrc & ->). cbn. intros _. apply built. }
  unfold enable_invite_stream. cbn. intros [[stream_id ssrc]|]; [|exact Hstart]. intros [[node addr]|]; [|by intros _].
  destruct (node_map node); [|by intros _]. destruct (client_ok node); [|done]. cbn. destruct (parse_u32 ssrc) as [ssrc_num|]; [|done].
  cbn. intros [[[]|]|]; cbn.
  - intros _. apply built.
  - by intros _.
  - by intros _.
  - done.
Qed.
#[local] Arguments share_or_start : simpl never.


(** ** Downloads *)

#[local] Arguments locked : simpl never.
(** The stream of a download that is refused when the database or the calendar
    fail after it was started. *)
Definition one_download (r : outcome ServiceError string) (l : list Prepared) : Prop :=
  match r with
  | Done _ | Failed BadTime => exists x, l = [x]
  | Failed StorageFailed => l = [] \/ exists x, l = [x]
  | Failed _ => l = []
  | Panic => True
  end.
Lemma download_refused e : e <> BadTime -> one_download (Failed e) [].
Proof. intros He. destruct e; try done. by left. Qed.
(** A download that is served has exactly one stream, and one that is refused
    before the stream runs has none; when a bound of the time range has no unique
    local time (a day the clocks change) the request is refused after the stream
    was started, which is left running without a record. *)
Theorem download_has_one_stream (env : Node -> Node -> Prop) (m : PlayBackModel) (token : string) (w w' : Node) tr r
    (Hrun : exec env w (StreamService.download accepts node_names node_map client_ok local_of_secs m token : task _) tr w' r) :
  one_download r (prepared tr).
Proof.
  apply (accounts_sound prepared_by env _ _ w tr w' r [] Hrun). clear Hrun.
  unfold StreamService.download. cbn. intros [|]; [|done]. apply locked_prep. cbn. intros [[|]|]; [done| |by left].
  destruct (validate_playback_range _ _) as [[]|e|] eqn:Hrange; cbn;
    [|apply download_refused; unfold validate_playback_range in Hrange; by case_match; simplify_eq|done].
  intros [path|]; [|by left]. apply accounts_bind_ok. eapply accounts_mono; [apply start_prep|].
  intros [[[sid node] addr]|e|] l; [|by intros (-> & _ & ?); apply download_refused|done]. intros (ssrc & ->). cbn. intros _.
  destruct (local_of_secs (pb_st m)) as [st|]; [|by eexists]. destruct (local_of_secs (pb_et m)) as [et|]; [|by eexists].
  cbn. intros ct lt [[]|]; cbn; [by eexists|]. intros _. right. by eexists.
Qed.

(** ** Talks *)

Definition talk_kept (talk_id : string) (l : list Prepared) (r : outcome ServiceError TalkInfo) (l' : list Prepared) : Prop :=
  match r with
  | Done info => ti_talk_id info = talk_id /\ exists node, l' = TalkOn node talk_id :: l
  | Failed _ => l' = l
  | Panic => True
  end.
#[local] Arguments talk_map_insert : simpl never.
#[local] Arguments reject_broadcast_invite : simpl never.
Lemma opened_prep device_id channel_id target_id token talk_id u32ssrc audio node_name node resp l :
  prep (talk_opened form_urlencode protocol_value device_id channel_id target_id token talk_id u32ssrc audio node_name node resp)
    (talk_kept talk_id l) (TalkOn node_name talk_id :: l).
Proof.
  unfold talk_opened.
  assert (Hgive : forall e, prep (cleanup_talk_open node_name talk_id ;;; Ret (Failed e)) (talk_kept talk_id l) (TalkOn node_name talk_id :: l)).
  { intros e. cbn. intros ?. by rewrite decide_True. }
  assert (Hrefuse : forall call_id status e, prep (reject_broadcast_invite call_id status ;;; cleanup_talk_open node_name talk_id ;;; Ret (Failed e))
    (talk_kept talk_id l) (TalkOn node_name talk_id :: l)).
  { intros call_id status e. apply prep_silent; [apply reject_own|]. intros _. apply Hgive. }
  apply prep_silent; [done|]. intros sn. apply command_prep; [apply broadcast_own| |intros e; apply Hgive|done]. intros invite.
  destruct (parse_broadcast_sdp _ _ _) as [answer|e|]; [|apply Hrefuse|done].
  destruct (compatible_answer _ _ _); [cbn [negb]|apply Hrefuse]. cbn [query ask bind accounts]. intros r. cbn [prepared_by]. destruct r as [code|]; [|apply Hrefuse].
  destruct (code =? 200); [cbn [negb]|apply Hrefuse].
  apply command_prep; [apply accept_own|intros _|intros e; apply Hgive|done]. cbn. intros []; cbn [negb].
  - split; [done|]. by exists node_name.
  - apply prep_silent; [apply stop_invited_own|]. intros _. apply Hgive.
Qed.
#[local] Arguments talk_opened : simpl never.
Lemma talk_on_nodes_prep device_id channel_id target_id token talk_id u32ssrc audio nodes l :
  prep (talk_on_nodes node_map client_ok form_urlencode protocol_value device_id channel_id target_id token talk_id u32ssrc audio nodes)
    (talk_kept talk_id l) l.
Proof.
  induction nodes as [|node_name nodes IH]; [done|]. cbn [talk_on_nodes]. destruct (node_map node_name) as [node|]; [|done].
  destruct (client_ok node_name); [|done]. cbn. intros r. destruct (r ≫= stream_resp_data) as [resp|]; [|done]. apply opened_prep.
Qed.
#[local] Arguments talk_on_nodes : simpl never.
End StreamServiceProps.

(** ** A media node that accepts everything, and a silent device *)

Definition demo_answers (q : Question (More := ServiceQuestion)) : Answer (more_answer := service_answer) q :=
  match q with
  | GenerateIdentity => {| id_call_id := "call"; id_local_tag := "lt"; id_local_cseq := 4 |}
  | Other q =>
      match q return service_answer q with
      | StreamInit _ _ | StreamInitExt _ _ _ | CloseOutput _ _ _ | TalkAnswer _ _ => Some 200
      | StreamOnline _ _ _ => Some (Some true)
      | TalkOpen _ req => Some (200, Some {| tr_talk_id := to_talk_id req; tr_input_url := "ws://m"; tr_rtp_port := 30000;
          tr_codec := "PCMA"; tr_sample_rate := 8000; tr_channel_count := 1; tr_payload_type := 8; tr_frame_duration_ms := 20 |})
      | TalkClose _ _ | Sleep _ => tt
      | RecordInfo _ _ _ => None
      | BuildSsrcStreamId _ _ _ => Done ("0100000001"%string, "s"%string)
      | BroadcastTarget _ _ => Some "c"%string
      | RecordRunning _ _ => Some false
      | InsertRecord _ => Some tt
      | PreparePath => Some "/record"%string
      end
  end.
Definition demo_nodes (name : string) : option MediaNode :=
  if bool_decide (name = "m"%string) then Some {| mn_pub_ip := "192.0.2.3"; mn_pub_port := 30000 |} else None.
Definition is_failed {E X : Type} (r : outcome E X) : bool := match r with Failed _ => true | _ => false end.
(** A run in which the test holds and nobody else does anything. *)
Lemma demo_found {R} (p : list ServiceEvent -> R -> bool) (t : task DemoNode (Answer (more_answer := service_answer)) R) w :
  run_test id true demo_answers (fun tr _ r => p tr r) t w = true ->
  exists tr w' r, p tr r = true /\ exec eq w t tr w' r.
Proof. intros Hp. by apply (run_found id true demo_answers eq (fun tr _ r => p tr r)). Qed.
Definition fails_after {R} (n : nat) (tr : list ServiceEvent) (r : outcome ServiceError R) : bool :=
  is_failed r && bool_decide (length tr = n).

(** A stream is online, and the client asks for it as HLS. *)
Definition demo_online : DemoNode :=
  let c := device_map_insert "d" "c" "0100000001" "s" Live (stream_media_config "s" 100000001 None)
             (stream_map_insert_info "s" "d" "c" 100000001 "http://m" "m" "call" 1 Live Cache_init).2 in
  on_server (on_register (on_cache (fun _ => c))) (demo_node ∅).
Definition demo_hls : PlayLiveModel := {|
  pl_device_id := "d"; pl_channel_id := Some "c"%string; pl_trans_mode := None;
  pl_custom_media_config := Some {| cm_output := KHlsFmp4; cm_codec := None; cm_filter := Filter_default |} |}.
Lemma download_has_one_stream_witness :
  exists tr : list ServiceEvent, length tr = 6%nat /\ prepared tr = [].
Proof.
  destruct (demo_found (fun tr r => bool_decide (length tr = 6%nat)
      && match r with Failed (AtCommand (ResponseTimeout _)) => true | _ => false end)
    (StreamService.download (fun _ => true) ["m"%string] demo_nodes (fun _ => true) Some
      {| pb_device_id := "d"; pb_channel_id := Some "c"%string; pb_trans_mode := None; pb_custom_media_config := None;
         pb_st := 10; pb_et := 20 |} "token") (demo_node ∅)) as (tr & w' & r & Hp & He); [vm_compute; reflexivity|].
  pose proof (download_has_one_stream _ _ _ _ _ _ _ _ _ _ _ _ He) as Hr.
  apply andb_prop in Hp as [Hl Hf]. apply bool_decide_eq_true in Hl. exists tr. split; [exact Hl|].
  destruct r as [|[]|]; try discriminate Hf. exact Hr.
Defined.
