(* ===== verification/CodecParams.v ===== *)
(** * The parameters of a demuxed stream
    ([stream/src/media/context/utils/codecpar.rs])

    What the demuxer could not find out about a stream is taken from its
    packets: the parameter sets of H.264 and H.265 out of Annex B data, the
    AudioSpecificConfig out of an ADTS header; what is still missing comes from
    the media description or is a default.  FFmpeg's decoders, its allocator and
    the numbers of its formats are parameters. *)
From Stdlib Require Import Ascii.
From S2P Require Import Prelude Text SharedTypes RtpIngest RtpDepacket H265Flv TimeScale.
Local Open Scope gmv_scope.
Local Open Scope Z_scope.

(** FFmpeg's codec numbers the code names; any other one by its value. *)
Inductive AVCodecID :=
| NONE | H264 | HEVC | MPEG4 | H263 | AAC | OPUS | MP3 | PCM_ALAW | PCM_MULAW
| ADPCM_G722 | SIREN | G723_1 | G729 | OTHER (n : Z).
#[export] Instance AVCodecID_eq_dec : EqDecision AVCodecID.
Proof. solve_decision. Defined.
Inductive AVMediaType := VIDEO | AUDIO | OTHER_TYPE.
#[export] Instance AVMediaType_eq_dec : EqDecision AVMediaType.
Proof. solve_decision. Defined.

(** [extradata]: [None] for the null pointer, otherwise [extradata_size] bytes. *)
Record AVCodecParameters := {
  codec_type : AVMediaType; codec_id : AVCodecID; extradata : option bytes; format : Z; bit_rate : Z;
  profile : Z; level : Z; width : Z; height : Z; framerate : AVRational; cp_sample_rate : Z; cp_channels : Z;
  channel_layout : Z; video_delay : Z
}.
Record AVStream := {
  time_base : AVRational; avg_frame_rate : AVRational; r_frame_rate : AVRational; start_time : Z; duration : Z;
  codecpar : AVCodecParameters
}.
Record H264ParameterSets := { sps : option bytes; pps : option bytes }.
(** [aac_asc]: two bytes. *)
Record ParamRepairState := {
  h264_ps : option H264ParameterSets; h265_ps : option H265ParameterSets; aac_asc : option bytes; ready : bool
}.
Definition ParamRepairState_default : ParamRepairState := {|
  h264_ps := None; h265_ps := None; aac_asc := None; ready := false |}.

Definition set_extradata (e : bytes) (p : AVCodecParameters) : AVCodecParameters := {|
  codec_type := codec_type p; codec_id := codec_id p; extradata := Some e; format := format p;
  bit_rate := bit_rate p; profile := profile p; level := level p; width := width p; height := height p;
  framerate := framerate p; cp_sample_rate := cp_sample_rate p; cp_channels := cp_channels p;
  channel_layout := channel_layout p; video_delay := video_delay p |}.
Definition set_picture (w h f : Z) (p : AVCodecParameters) : AVCodecParameters := {|
  codec_type := codec_type p; codec_id := codec_id p; extradata := extradata p; format := f;
  bit_rate := bit_rate p; profile := profile p; level := level p; width := w; height := h;
  framerate := framerate p; cp_sample_rate := cp_sample_rate p; cp_channels := cp_channels p;
  channel_layout := channel_layout p; video_delay := video_delay p |}.
Definition set_sound (rate ch layout f br : Z) (p : AVCodecParameters) : AVCodecParameters := {|
  codec_type := codec_type p; codec_id := codec_id p; extradata := extradata p; format := f;
  bit_rate := br; profile := profile p; level := level p; width := width p; height := height p;
  framerate := framerate p; cp_sample_rate := rate; cp_channels := ch;
  channel_layout := layout; video_delay := video_delay p |}.
Definition set_par (p : AVCodecParameters) (s : AVStream) : AVStream := {|
  time_base := time_base s; avg_frame_rate := avg_frame_rate s; r_frame_rate := r_frame_rate s;
  start_time := start_time s; duration := duration s; codecpar := p |}.

(** ** Annex B *)

(** The units [f] is called with, in order; [fuel] is the length. *)
Fixpoint nalu_loop (fuel : nat) (data : bytes) (nalu_start : nat) : list bytes :=
  match fuel with
  | O => []
  | S fuel =>
      if decide (length data <= nalu_start)%nat then [] else
      match find_annexb_start_code data nalu_start with
      | Some (next_pos, next_len) =>
          (if decide (nalu_start < next_pos)%nat then [take (next_pos - nalu_start) (drop nalu_start data)] else [])
          ++ nalu_loop fuel data (next_pos + next_len)
      | None => [drop nalu_start data]
      end
  end.
Definition for_each_nalu_annexb (data : bytes) : list bytes :=
  match find_annexb_start_code data 0 with
  | None => []
  | Some (start_pos, start_len) => nalu_loop (length data) data (start_pos + start_len)
  end.

Definition h264_nal_type (nalu : bytes) : Z := Z.land (byte_at 0 nalu) 31.
Definition h265_nal_type (nalu : bytes) : Z := Z.land (Z.shiftr (byte_at 0 nalu) 1) 63.

Definition keep_first (x : option bytes) (nalu : bytes) : option bytes :=
  match x with None => Some nalu | Some _ => x end.
Definition h264_ps_step (ps : H264ParameterSets) (nalu : bytes) : H264ParameterSets :=
  let t := h264_nal_type nalu in
  if t =? 7 then {| sps := keep_first (sps ps) nalu; pps := pps ps |}
  else if t =? 8 then {| sps := sps ps; pps := keep_first (pps ps) nalu |}
  else ps.
Definition extract_h264_ps (data : bytes) (ps : H264ParameterSets) : H264ParameterSets :=
  foldl h264_ps_step ps (for_each_nalu_annexb data).
Definition h265_ps_step (ps : H265ParameterSets) (nalu : bytes) : H265ParameterSets :=
  let t := h265_nal_type nalu in
  if t =? 32 then {| h_vps := keep_first (h_vps ps) nalu; h_sps := h_sps ps; h_pps := h_pps ps |}
  else if t =? 33 then {| h_vps := h_vps ps; h_sps := keep_first (h_sps ps) nalu; h_pps := h_pps ps |}
  else if t =? 34 then {| h_vps := h_vps ps; h_sps := h_sps ps; h_pps := keep_first (h_pps ps) nalu |}
  else ps.
Definition extract_h265_ps (data : bytes) (ps : H265ParameterSets) : H265ParameterSets :=
  foldl h265_ps_step ps (for_each_nalu_annexb data).

(** ** ADTS *)

Definition u8 (x : Z) : Z := Z.land x 255.
Definition parse_aac_asc_from_adts (adts : bytes) : option bytes :=
  if Z.of_nat (length adts) <? 7 then None else
  if negb (byte_at 0 adts =? 255) || negb (Z.land (byte_at 1 adts) 240 =? 240) then None else
  let profile := Z.shiftr (Z.land (byte_at 2 adts) 192) 6 + 1 in
  let sf_index := Z.shiftr (Z.land (byte_at 2 adts) 60) 2 in
  let chan_cfg := Z.lor (Z.shiftl (Z.land (byte_at 2 adts) 1) 2) (Z.shiftr (Z.land (byte_at 3 adts) 192) 6) in
  Some [Z.lor (u8 (Z.shiftl profile 3)) (Z.shiftr sf_index 1);
        Z.lor (u8 (Z.shiftl (Z.land sf_index 1) 7)) (u8 (Z.shiftl chan_cfg 3))].
Definition extract_aac_asc : bytes -> option bytes := parse_aac_asc_from_adts.

(** What FFmpeg does: a decoder's context made of parameters, opened, and read
    back; [None] and [false] are failures.  A failing
    [avcodec_parameters_from_context] may have changed the parameters. *)
Class FFmpeg := {
  codec_context : Type;
  find_decoder : AVCodecID -> bool;
  alloc_context3 : AVCodecID -> option codec_context;
  parameters_to_context : codec_context -> AVCodecParameters -> option codec_context;
  codec_open2 : codec_context -> option codec_context;
  parameters_from_context : AVCodecParameters -> codec_context -> bool * AVCodecParameters;
  av_malloc : Z -> bool;
  yuv420p : Z; sample_fltp : Z; sample_s16 : Z
}.

Section Repair.
Context `{FFmpeg}.

(** Each unit behind a start code. *)
Definition annexb_extradata (units : list bytes) : bytes := mjoin ((fun nal => [0; 0; 0; 1] ++ nal) <$> units).

(** [Panic]: a write through the null pointer of a failed allocation, which
    only the branch of H.264 looks for.  The comparison of the offset with the
    size cannot fail. *)
Definition repair_codecpar (par : AVCodecParameters) (data : bytes) (param : ParamRepairState)
    : outcome unit (bool * AVCodecParameters * ParamRepairState) :=
  match codec_id par with
  | H264 =>
      let ps := extract_h264_ps data (default {| sps := None; pps := None |} (h264_ps param)) in
      let param1 := {| h264_ps := Some ps; h265_ps := h265_ps param; aac_asc := aac_asc param; ready := ready param |} in
      match sps ps, pps ps with
      | Some sps, Some pps =>
          let e := annexb_extradata [sps; pps] in
          if av_malloc (Z.of_nat (length e)) then Done (true, set_extradata e par, param1) else Done (false, par, param1)
      | _, _ => Done (false, par, param1)
      end
  | HEVC =>
      let ps := extract_h265_ps data (default {| h_vps := None; h_sps := None; h_pps := None |} (h265_ps param)) in
      let param1 := {| h264_ps := h264_ps param; h265_ps := Some ps; aac_asc := aac_asc param; ready := ready param |} in
      match h_vps ps, h_sps ps, h_pps ps with
      | Some vps, Some sps, Some pps =>
          let e := annexb_extradata [vps; sps; pps] in
          if av_malloc (Z.of_nat (length e)) then Done (true, set_extradata e par, param1) else Panic
      | _, _, _ => Done (false, par, param1)
      end
  | AAC =>
      match aac_asc param with
      | Some _ => Done (true, par, param)
      | None =>
          match extract_aac_asc data with
          | Some asc =>
              let param1 := {| h264_ps := h264_ps param; h265_ps := h265_ps param; aac_asc := Some asc;
                               ready := ready param |} in
              if av_malloc 2 then Done (true, set_extradata asc par, param1) else Panic
          | None => Done (false, par, param)
          end
      end
  | _ => Done (true, par, param)
  end.

Definition rebuild_par_from_extradata (par : AVCodecParameters) : bool * AVCodecParameters :=
  if negb (find_decoder (codec_id par)) then (false, par) else
  match alloc_context3 (codec_id par) with
  | None => (false, par)
  | Some ctx =>
      match parameters_to_context ctx par with
      | None => (false, par)
      | Some ctx =>
          match codec_open2 ctx with
          | None => (false, par)
          | Some ctx => parameters_from_context par ctx
          end
      end
  end.

Definition repair_video_stream_info (media_ext : MediaExt) (par : AVCodecParameters) : AVCodecParameters :=
  let '(w, h) :=
    match vp_resolution (me_video_params media_ext) with
    | Some (w, h) => if (0 <? w) && (0 <? h) && ((width par <=? 0) || (height par <=? 0)) then (w, h)
                     else (width par, height par)
    | None => (width par, height par)
    end in
  set_picture w h (if format par <? 0 then yuv420p else format par) par.

(** [parse] of a rate; values below 1000 are kHz. *)
Definition described_rate (media_ext : MediaExt) : option Z :=
  s ← ap_sample_rate (me_audio_params media_ext); sr ← parse_i32 s;
  Some (if (0 <? sr) && (sr <? 1000) then sr * 1000 else sr).
(** [str::parse::<i64>]. *)
Definition parse_i64 (s : string) : option Z :=
  let '(neg, ds) := match chars s with
                    | "-"%char :: ds => (true, ds)
                    | "+"%char :: ds => (false, ds)
                    | ds => (false, ds)
                    end in
  match ds with
  | [] => None
  | _ => if forallb is_ascii_digit ds
         then let v := if neg then - decimal_value ds else decimal_value ds in
              if (i64_min <=? v) && (v <=? i64_max) then Some v else None
         else None
  end.
Definition estimated_rate (id : AVCodecID) (rate : Z) : Z :=
  match id with
  | AAC => if rate =? 8000 then 12000 else if rate =? 16000 then 24000 else if rate =? 44100 then 64000
           else if rate =? 48000 then 96000 else 64000
  | PCM_ALAW | PCM_MULAW => 64000
  | _ => 128000
  end.
Definition repair_audio_stream_info (media_ext : MediaExt) (par : AVCodecParameters) : AVCodecParameters :=
  let rate :=
    if cp_sample_rate par <=? 0 then
      let r := default (cp_sample_rate par) (described_rate media_ext) in if r <=? 0 then 8000 else r
    else cp_sample_rate par in
  let ch := if cp_channels par <=? 0 then 1 else cp_channels par in
  let layout := if channel_layout par =? 0 then 4 else channel_layout par in
  let f := if format par =? -1
           then match codec_id par with AAC => sample_fltp | _ => sample_s16 end else format par in
  let br :=
    if bit_rate par <=? 0 then
      let b := default (bit_rate par)
                 (s ← ap_bitrate (me_audio_params media_ext); kbps ← parse_i64 s; Some (i64_wrap (kbps * 1000))) in
      if b <=? 0 then estimated_rate (codec_id par) rate else b
    else bit_rate par in
  set_sound rate ch layout f br par.

(** ** [repair_basic_stream_info] *)

Definition rational_ok (r : AVRational) : bool := (0 <? tb_num r) && (0 <? tb_den r).
Definition repaired_time_base (media_ext : MediaExt) (s : AVStream) : AVRational :=
  if rational_ok (time_base s) then time_base s else
  match codec_type (codecpar s) with
  | VIDEO => {| tb_num := 1; tb_den := if 0 <? me_clock_rate media_ext then me_clock_rate media_ext else 90000 |}
  | AUDIO => {| tb_num := 1; tb_den := default 48000 (described_rate media_ext) |}
  | OTHER_TYPE => {| tb_num := 1; tb_den := 90000 |}
  end.
Definition too_short (n : Z) (par : AVCodecParameters) : bool :=
  match extradata par with None => true | Some e => Z.of_nat (length e) <? n end.
(** The extra data of a video stream, at least [n] bytes of it. *)
Definition repair_video_extradata (n : Z) (par : AVCodecParameters) (data : bytes) (param : ParamRepairState)
    : outcome unit (bool * AVCodecParameters * ParamRepairState) :=
  if too_short n par then
    r <-! repair_codecpar par data param ;;
    let '(ok, par1, param1) := r in
    if ok : bool then Done (true, (rebuild_par_from_extradata par1).2, param1) else Done (false, par1, param1)
  else Done (true, par, param).
Definition repair_par (media_ext : MediaExt) (par : AVCodecParameters) (data : bytes) (param : ParamRepairState)
    : outcome unit (bool * AVCodecParameters * ParamRepairState) :=
  match codec_type par with
  | VIDEO =>
      r <-! match codec_id par with
            | H264 => repair_video_extradata 15 par data param
            | HEVC => repair_video_extradata 23 par data param
            | _ => Done (true, par, param)
            end ;;
      let '(all_ready, par1, param1) := r in Done (all_ready, repair_video_stream_info media_ext par1, param1)
  | AUDIO =>
      if bool_decide (codec_id par = AAC) && too_short 2 par then
        r <-! repair_codecpar par data param ;;
        let '(ok, par1, param1) := r in
        if ok : bool then Done (true, repair_audio_stream_info media_ext par1, param1) else Done (false, par1, param1)
      else Done (true, repair_audio_stream_info media_ext par, param)
  | OTHER_TYPE => Done (true, par, param)
  end.
Definition repaired_frame_rates (media_ext : MediaExt) (s : AVStream) : AVRational * AVRational :=
  match codec_type (codecpar s) with
  | VIDEO => if rational_ok (avg_frame_rate s) then (avg_frame_rate s, r_frame_rate s)
             else let fps := {| tb_num := default 25 (vp_fps (me_video_params media_ext)); tb_den := 1 |} in (fps, fps)
  | _ => (avg_frame_rate s, r_frame_rate s)
  end.
Definition repair_basic_stream_info (s : AVStream) (data : bytes) (media_ext : MediaExt) (param : ParamRepairState)
    : outcome unit (bool * AVStream * ParamRepairState) :=
  r <-! repair_par media_ext (codecpar s) data param ;;
  let '(all_ready, par1, param1) := r in
  let rates := repaired_frame_rates media_ext s in
  Done (all_ready,
        {| time_base := repaired_time_base media_ext s; avg_frame_rate := rates.1; r_frame_rate := rates.2;
           start_time := match codec_type (codecpar s) with
                         | OTHER_TYPE => start_time s
                         | _ => if start_time s =? AV_NOPTS_VALUE then 0 else start_time s
                         end;
           duration := duration s; codecpar := par1 |}, param1).

(** ** [is_invalid_pkt] *)

(** The closure's two flags: a unit was found to be invalid, one to be of use. *)
Definition invalid_step (id : AVCodecID) (st : bool * bool) (nalu : bytes) : bool * bool :=
  let '(invalid_found, valid) := st in
  if invalid_found then st else
  match nalu with
  | [] => (true, valid)
  | _ =>
      match id with
      | H264 =>
          let t := h264_nal_type nalu in
          if (t =? 0) || (31 <? t) then (true, valid)
          else (false, valid || bool_decide (t ∈ [1; 2; 3; 4; 5; 6; 7; 8; 9; 10; 12]))
      | HEVC =>
          let t := h265_nal_type nalu in
          if 63 <? t then (true, valid) else (false, valid || (t <=? 35) || (t =? 39))
      | _ => st
      end
  end.
(** [None]: the null pointer. *)
Definition is_invalid_pkt (data : option bytes) (id : AVCodecID) : bool :=
  match data with
  | None => true
  | Some data =>
      if Z.of_nat (length data) <=? 4 then true
      else match find_annexb_start_code data 0 with
           | None => false
           | Some _ => let '(invalid_found, valid) := foldl (invalid_step id) (false, false) (for_each_nalu_annexb data) in
                       invalid_found || negb valid
           end
  end.
End Repair.
