(* ===== verification/CodecParamsProps.v ===== *)
(** * What the repair of a stream's parameters achieves

    The parameter sets are found however the sender spread them over packets
    and can be read back from the extra data; the AudioSpecificConfig says what
    the RTP description said; a repaired stream has the values muxers need. *)
From Stdlib Require Import Ascii.
From S2P Require Import Prelude Text SharedTypes RtpIngest RtpDepacket H265Flv H265FlvProps Float64 MediaExt TimeScale.
From S2P Require Import CodecParams.
Local Open Scope gmv_scope.
Local Open Scope Z_scope.

(** ** The units of Annex B data *)

Lemma nalu_loop_units units : forall nal done_ fuel,
  nal_ok nal -> Forall (fun u => nal_ok u.2) units -> (length units < fuel)%nat ->
  nalu_loop fuel (done_ ++ nal ++ annexb units) (length done_) = nal :: units.*2.
Proof.
  induction units as [|[long nal'] units IH]; intros nal done_ fuel (Hne & Hc & Hl & Hlen) Hu Hf;
    (destruct fuel as [|fuel]; [simpl in Hf; lia|]); cbn [nalu_loop].
  all: assert (1 <= length nal)%nat as Hpos by (destruct nal; [done|simpl; lia]).
  all: rewrite decide_False by (rewrite !length_app; lia).
  all: unfold find_annexb_start_code; rewrite drop_app_length.
  - unfold annexb. simpl. rewrite app_nil_r. rewrite <- (app_nil_r nal) at 1. by rewrite find_start_inside.
  - change (annexb ((long, nal') :: units)) with ((start_code long ++ nal') ++ annexb units). rewrite <- app_assoc.
    rewrite find_start_inside, scan_start_code_at by done. rewrite decide_True by lia.
    replace (length done_ + length nal - length done_)%nat with (length nal) by lia. rewrite take_app_length.
    apply Forall_cons in Hu as [Hu1 Hu2].
    replace (done_ ++ nal ++ start_code long ++ nal' ++ annexb units)
      with ((done_ ++ nal ++ start_code long) ++ nal' ++ annexb units) by (by rewrite <- !app_assoc).
    replace (length done_ + length nal + length (start_code long))%nat with (length (done_ ++ nal ++ start_code long))
      by (rewrite !length_app; lia).
    rewrite IH by (done || (simpl in Hf; lia)). done.
Qed.

Lemma length_annexb units : (length units <= length (annexb units))%nat.
Proof.
  induction units as [|[l n] units IH]; [simpl; lia|].
  change (annexb ((l, n) :: units)) with ((start_code l ++ n) ++ annexb units). rewrite !length_app.
  destruct l; cbn [start_code length]; lia.
Qed.

Lemma for_each_nalu_units units : Forall (fun u => nal_ok u.2) units -> for_each_nalu_annexb (annexb units) = units.*2.
Proof.
  intros Hu. destruct units as [|[long nal] units]; [done|]. apply Forall_cons in Hu as [Hn Hu].
  unfold for_each_nalu_annexb, find_annexb_start_code.
  change (annexb ((long, nal) :: units)) with ((start_code long ++ nal) ++ annexb units). rewrite <- app_assoc, drop_0.
  rewrite scan_start_code_at. cbn [Nat.add]. rewrite nalu_loop_units; [done..|].
  pose proof (length_annexb units). rewrite !length_app. destruct long; simpl; lia.
Qed.
Lemma annexb_extradata_units nals : annexb_extradata nals = annexb ((fun nal => (true, nal)) <$> nals).
Proof. unfold annexb_extradata, annexb. by rewrite <- list_fmap_compose. Qed.
Lemma extradata_reads_back nals : Forall nal_ok nals -> for_each_nalu_annexb (annexb_extradata nals) = nals.
Proof.
  intros Hn. rewrite annexb_extradata_units, for_each_nalu_units; [|by apply Forall_fmap].
  rewrite <- list_fmap_compose. apply list_fmap_id.
Qed.

(** ** Parameter sets *)

(** The specification: the first unit of each kind a decoder needs. *)
Definition nal_type (id : AVCodecID) : bytes -> Z := match id with H264 => h264_nal_type | _ => h265_nal_type end.
Definition set_types (id : AVCodecID) : list Z := match id with H264 => [7; 8] | _ => [32; 33; 34] end.
Definition first_unit (id : AVCodecID) (t : Z) (units : list bytes) : option bytes :=
  head (filter (fun u => nal_type id u = t) units).
Definition first_sets (id : AVCodecID) (units : list bytes) : option (list bytes) :=
  mapM (fun t => first_unit id t units) (set_types id).

Lemma first_unit_app id t l1 l2 :
  first_unit id t (l1 ++ l2) = match first_unit id t l1 with Some u => Some u | None => first_unit id t l2 end.
Proof. unfold first_unit. rewrite filter_app. by destruct (filter _ l1). Qed.
Lemma first_unit_cons id t u l :
  first_unit id t (u :: l) = if decide (nal_type id u = t) then Some u else first_unit id t l.
Proof. unfold first_unit. rewrite filter_cons. by case_decide. Qed.
Lemma first_sets_app id l1 l2 sets : first_sets id l1 = Some sets -> first_sets id (l1 ++ l2) = Some sets.
Proof.
  unfold first_sets. intros Hs. apply mapM_Some in Hs. apply mapM_Some. eapply Forall2_impl; [done|].
  intros t u Hu. cbn beta in *. by rewrite first_unit_app, Hu.
Qed.

Lemma h264_ps_fold l : forall ps, foldl h264_ps_step ps l =
  {| sps := match sps ps with Some x => Some x | None => first_unit H264 7 l end;
     pps := match pps ps with Some x => Some x | None => first_unit H264 8 l end |}.
Proof.
  induction l as [|u l IH]; intros [s p]; cbn [foldl]; [by destruct s, p|]. rewrite IH, !first_unit_cons.
  unfold h264_ps_step, nal_type. generalize (h264_nal_type u). intros t.
  destruct (Z.eqb_spec t 7) as [->|]; [rewrite decide_True, decide_False by lia; by destruct s, p|].
  destruct (Z.eqb_spec t 8) as [->|]; [rewrite decide_False, decide_True by lia; by destruct s, p|].
  by rewrite !decide_False by done.
Qed.
Lemma h265_ps_fold l : forall ps, foldl h265_ps_step ps l =
  {| h_vps := match h_vps ps with Some x => Some x | None => first_unit HEVC 32 l end;
     h_sps := match h_sps ps with Some x => Some x | None => first_unit HEVC 33 l end;
     h_pps := match h_pps ps with Some x => Some x | None => first_unit HEVC 34 l end |}.
Proof.
  induction l as [|u l IH]; intros [v s p]; cbn [foldl]; [by destruct v, s, p|]. rewrite IH, !first_unit_cons.
  unfold h265_ps_step, nal_type. generalize (h265_nal_type u). intros t.
  destruct (Z.eqb_spec t 32) as [->|]; [rewrite decide_True, !decide_False by lia; by destruct v, s, p|].
  destruct (Z.eqb_spec t 33) as [->|]; [rewrite decide_False, decide_True, decide_False by lia; by destruct v, s, p|].
  destruct (Z.eqb_spec t 34) as [->|]; [rewrite !decide_False, decide_True by lia; by destruct v, s, p|].
  by rewrite !decide_False by done.
Qed.

Section Assembled.
Context `{FFmpeg}.

(** The packets of one stream until its parameters are known. *)
Fixpoint repair_packets (par : AVCodecParameters) (param : ParamRepairState) (pkts : list bytes)
    : outcome unit (bool * AVCodecParameters * ParamRepairState) :=
  match pkts with
  | [] => Done (false, par, param)
  | data :: pkts =>
      r <-! repair_codecpar par data param ;;
      let '(ok, par1, param1) := r in
      if ok : bool then Done (true, par1, param1) else repair_packets par1 param1 pkts
  end.

(** What the state has kept of the units seen. *)
Definition remembers (id : AVCodecID) (seen : list bytes) (param : ParamRepairState) : Prop :=
  match id with
  | H264 => default {| sps := None; pps := None |} (h264_ps param) =
            {| sps := first_unit id 7 seen; pps := first_unit id 8 seen |}
  | _ => default {| h_vps := None; h_sps := None; h_pps := None |} (h265_ps param) =
         {| h_vps := first_unit id 32 seen; h_sps := first_unit id 33 seen; h_pps := first_unit id 34 seen |}
  end.
Lemma repair_step par units seen param :
  codec_id par = H264 \/ codec_id par = HEVC -> (forall n, av_malloc n = true) -> Forall (fun u => nal_ok u.2) units ->
  remembers (codec_id par) seen param ->
  exists param1, remembers (codec_id par) (seen ++ units.*2) param1 /\
    repair_codecpar par (annexb units) param =
    Done (match first_sets (codec_id par) (seen ++ units.*2) with
          | Some sets => (true, set_extradata (annexb_extradata sets) par, param1)
          | None => (false, par, param1)
          end).
Proof.
  intros Hid Hm Hu Hr. unfold repair_codecpar, first_sets. set (seen' := seen ++ units.*2).
  destruct Hid as [Hid | Hid]; rewrite Hid in Hr |- *; cbn [remembers set_types mapM] in *; rewrite Hr.
  - unfold extract_h264_ps. rewrite for_each_nalu_units, h264_ps_fold by done. cbn [sps pps].
    rewrite <- !first_unit_app. fold seen'.
    exists {| h264_ps := Some {| sps := first_unit H264 7 seen'; pps := first_unit H264 8 seen' |};
              h265_ps := h265_ps param; aac_asc := aac_asc param; ready := ready param |}. split; [done|].
    destruct (first_unit H264 7 seen'), (first_unit H264 8 seen'); cbn; by rewrite ?Hm.
  - unfold extract_h265_ps. rewrite for_each_nalu_units, h265_ps_fold by done. cbn [h_vps h_sps h_pps].
    rewrite <- !first_unit_app. fold seen'.
    exists {| h264_ps := h264_ps param; h265_ps := Some {| h_vps := first_unit HEVC 32 seen';
                h_sps := first_unit HEVC 33 seen'; h_pps := first_unit HEVC 34 seen' |};
              aac_asc := aac_asc param; ready := ready param |}. split; [done|].
    destruct (first_unit HEVC 32 seen'), (first_unit HEVC 33 seen'), (first_unit HEVC 34 seen'); cbn; by rewrite ?Hm.
Qed.

Lemma repair_packets_assemble par pkts : codec_id par = H264 \/ codec_id par = HEVC ->
  (forall n, av_malloc n = true) -> Forall (Forall (fun u => nal_ok u.2)) pkts ->
  forall seen param, remembers (codec_id par) seen param -> first_sets (codec_id par) seen = None ->
  exists param1, repair_packets par param (annexb <$> pkts) =
    Done (match first_sets (codec_id par) (seen ++ (mjoin pkts).*2) with
          | Some sets => (true, set_extradata (annexb_extradata sets) par, param1)
          | None => (false, par, param1)
          end).
Proof.
  intros Hid Hm. induction 1 as [|units pkts Hu _ IH]; intros seen param Hr Hs; cbn [fmap list_fmap repair_packets].
  - exists param. simpl. by rewrite app_nil_r, Hs.
  - destruct (repair_step par units seen param Hid Hm Hu Hr) as (param1 & Hr1 & ->).
    change (mjoin (units :: pkts)) with (units ++ mjoin pkts). rewrite fmap_app, app_assoc. cbn [outcome_bind].
    destruct (first_sets (codec_id par) (seen ++ units.*2)) as [sets|] eqn:E.
    + exists param1. by rewrite (first_sets_app _ _ _ _ E).
    + by apply IH.
Qed.

(** However the sender spreads the units of an H.264 or H.265 stream over
    Annex B packets, the repair of its parameters succeeds at the first packet
    by which each of the sets a decoder needs has been seen, and the extra data
    are then the first set of each kind, behind start codes, in the order the
    decoder wants them; they are read back unchanged.  While a set is missing
    the parameters stay as they are. *)
Theorem parameter_sets_assembled (par : AVCodecParameters) (pkts : list (list (bool * bytes))) :
  codec_id par = H264 \/ codec_id par = HEVC ->
  (forall n, av_malloc n = true) -> Forall (Forall (fun u => nal_ok u.2)) pkts ->
  exists param1, repair_packets par ParamRepairState_default (annexb <$> pkts) =
    Done (match first_sets (codec_id par) (mjoin pkts).*2 with
          | Some sets => (true, set_extradata (annexb_extradata sets) par, param1)
          | None => (false, par, param1)
          end) /\
    (forall sets, first_sets (codec_id par) (mjoin pkts).*2 = Some sets ->
       for_each_nalu_annexb (annexb_extradata sets) = sets).
Proof.
  intros Hid Hm Hu.
  destruct (repair_packets_assemble par pkts Hid Hm Hu [] ParamRepairState_default) as (param1 & Hp).
  1,2: destruct Hid as [Hid | Hid]; rewrite Hid; reflexivity.
  exists param1. split; [exact Hp|]. intros sets Hs. apply extradata_reads_back.
  apply mapM_Some in Hs. apply list.Forall_forall. intros nal Hnal.
  apply list_elem_of_lookup_1 in Hnal as [i Hi]. destruct (Forall2_lookup_r _ _ _ _ _ Hs Hi) as (t & _ & Ht).
  unfold first_unit in Ht. apply head_Some_elem_of, list_elem_of_filter in Ht as [_ Ht].
  apply list_elem_of_fmap in Ht as (u & -> & Hin). apply list_elem_of_join in Hin as (units & Hin & Hin2).
  rewrite list.Forall_forall in Hu. specialize (Hu _ Hin2). rewrite list.Forall_forall in Hu. by apply Hu.
Qed.
End Assembled.

(** ** The AudioSpecificConfig *)

(** What a decoder reads: the object type, the rate's index, the channels. *)
Definition read_asc (asc : bytes) : Z * Z * Z :=
  (Z.shiftr (byte_at 0 asc) 3,
   Z.lor (Z.shiftl (Z.land (byte_at 0 asc) 7) 1) (Z.shiftr (byte_at 1 asc) 7),
   Z.land (Z.shiftr (byte_at 1 asc) 3) 15).

Definition asc_of_header (i c hi : Z) : option bytes :=
  parse_aac_asc_from_adts
    [255; 241; Z.land (Z.lor (Z.lor (Z.shiftl (Z.land 1 3) 6) (Z.shiftl (Z.land i 15) 2)) (Z.shiftr c 2)) 255;
     Z.land (Z.lor (Z.shiftl (Z.land c 3) 6) hi) 255; 0; 0; 0].
Lemma asc_of_header_table : forallb (fun i => forallb (fun c => forallb (fun hi =>
    bool_decide (read_asc <$> asc_of_header (Z.of_nat i) (Z.of_nat c) (Z.of_nat hi) = Some (2, Z.of_nat i, Z.of_nat c)))
  (seq 0 4)) (seq 0 8)) (seq 0 13) = true.
Proof. by vm_compute. Qed.
Lemma asc_of_header_reads i c hi : 0 <= i < 13 -> 0 <= c < 8 -> 0 <= hi < 4 ->
  read_asc <$> asc_of_header i c hi = Some (2, i, c).
Proof.
  intros Hi Hc Hh. pose proof asc_of_header_table as Ht. rewrite forallb_forall in Ht.
  specialize (Ht (Z.to_nat i) ltac:(apply in_seq; lia)). rewrite forallb_forall in Ht.
  specialize (Ht (Z.to_nat c) ltac:(apply in_seq; lia)). rewrite forallb_forall in Ht.
  specialize (Ht (Z.to_nat hi) ltac:(apply in_seq; lia)). apply bool_decide_eq_true in Ht.
  by rewrite !Z2Nat.id in Ht by lia.
Qed.
Lemma asc_of_adts i c n frame : 0 <= i < 13 -> 0 <= c < 8 ->
  read_asc <$> parse_aac_asc_from_adts (adts_header i c n ++ frame) = Some (2, i, c).
Proof.
  intros Hi Hc.
  rewrite <- (asc_of_header_reads i c (Z.land (Z.shiftr n 11) 3) Hi Hc).
  - unfold asc_of_header, parse_aac_asc_from_adts. rewrite length_app.
    cbn [adts_header length app byte_at nth Nat.add]. rewrite (proj2 (Z.ltb_ge _ _)) by lia. reflexivity.
  - change 3 with (Z.ones 2). rewrite Z.land_ones by lia. apply Z.mod_pos_bound. lia.
Qed.

Section Sound.
Context `{FFmpeg}.

(** An AAC stream that came over RTP without a configuration of its own is
    given one by its first frame, and that configuration says AAC-LC at the
    sample rate and with the channels (seven at most) the media description
    announced. *)
Theorem described_aac_configured (media_ext : MediaExt) (par : AVCodecParameters) (param : ParamRepairState)
    (frame : bytes) :
  let cfg := AacAdtsConfig_from_media_ext media_ext in
  codec_id par = AAC -> aac_asc param = None -> av_malloc 2 = true ->
  sample_rate cfg ∈ AAC_SAMPLE_RATES ->
  exists asc param1,
    repair_codecpar par (append_adts_frame [] frame cfg) param = Done (true, set_extradata asc par, param1) /\
    aac_asc param1 = Some asc /\ length asc = 2%nat /\
    (read_asc asc).1.1 = 2 /\ AAC_SAMPLE_RATES !! Z.to_nat (read_asc asc).1.2 = Some (sample_rate cfg) /\
    (read_asc asc).2 = Z.min (channels cfg) 7.
Proof.
  intros cfg Hid Hasc Hm Hrate.
  assert (1 <= channels cfg) as Hch by (unfold cfg, AacAdtsConfig_from_media_ext; cbn; lia).
  destruct (list_find (fun r => r = sample_rate cfg) AAC_SAMPLE_RATES) as [[i r]|] eqn:Ei;
    [|apply list_find_None in Ei; rewrite list.Forall_forall in Ei; by destruct (Ei _ Hrate)].
  pose proof Ei as (Hi & -> & _)%list_find_Some. pose proof (lookup_lt_Some _ _ _ Hi) as Hlt. cbn [length AAC_SAMPLE_RATES] in Hlt.
  unfold repair_codecpar. rewrite Hid, Hasc. unfold append_adts_frame, aac_sample_rate_index. rewrite Ei. cbn [fmap option_fmap option_map fst].
  rewrite app_nil_l. unfold extract_aac_asc.
  pose proof (asc_of_adts (Z.of_nat i) (Z.min (channels cfg) 7) (Z.of_nat (length frame) + 7) frame ltac:(lia) ltac:(lia)) as Hr.
  apply fmap_Some in Hr as (asc & Ha & Hr). rewrite Ha, Hm. do 2 eexists. split; [done|].
  rewrite <- Hr. cbn [fst snd]. rewrite Nat2Z.id. split; [done|]. split; [|done].
  revert Ha. unfold parse_aac_asc_from_adts. repeat case_match; by intros [= <-].
Qed.

(** ** What a repaired stream has *)

Lemma estimated_rate_positive id rate : 0 < estimated_rate id rate.
Proof. unfold estimated_rate. repeat case_match; lia. Qed.
Definition sound_complete (par : AVCodecParameters) : Prop :=
  0 < cp_sample_rate par /\ 0 < cp_channels par /\ channel_layout par <> 0 /\ 0 < bit_rate par.
Lemma audio_repaired media_ext par : sound_complete (repair_audio_stream_info media_ext par).
Proof.
  unfold sound_complete, repair_audio_stream_info, set_sound. cbn.
  pose proof (estimated_rate_positive (codec_id par)) as He. split_and!.
  - repeat case_match; zbool; lia.
  - repeat case_match; zbool; lia.
  - repeat case_match; zbool; lia.
  - repeat case_match; zbool; try lia; apply He.
Qed.

(** FFmpeg's documentation: the parameters read back have the extra data the
    context was given.  [yuv420p] is a pixel format's number. *)
Definition decoders_keep_extradata : Prop := forall id ctx par ctx1 ctx2,
  alloc_context3 id = Some ctx -> parameters_to_context ctx par = Some ctx1 -> codec_open2 ctx1 = Some ctx2 ->
  extradata (parameters_from_context par ctx2).2 = extradata par.

Lemma rebuild_keeps par : decoders_keep_extradata -> extradata (rebuild_par_from_extradata par).2 = extradata par.
Proof.
  intros Hk. unfold rebuild_par_from_extradata. destruct (find_decoder _); [|done]. cbn [negb].
  destruct (alloc_context3 _) eqn:Ea; [|done]. destruct (parameters_to_context _ _) eqn:Et; [|done].
  destruct (codec_open2 _) eqn:Eo; [|done]. by eapply Hk.
Qed.
Lemma repair_codecpar_extradata par data param par1 param1 :
  codec_id par = H264 \/ codec_id par = HEVC \/ codec_id par = AAC /\ aac_asc param = None ->
  repair_codecpar par data param = Done (true, par1, param1) -> is_Some (extradata par1).
Proof.
  unfold repair_codecpar. intros [-> | [-> | [-> ->]]] Hr; cases.
Qed.
Lemma video_extradata n par data param par1 param1 : decoders_keep_extradata ->
  codec_id par = H264 \/ codec_id par = HEVC ->
  repair_video_extradata n par data param = Done (true, par1, param1) -> is_Some (extradata par1).
Proof.
  intros Hk Hid. unfold repair_video_extradata, too_short. destruct (extradata par) as [e|] eqn:Ee.
  1: destruct (_ <? _); [|by intros [= <- _]; rewrite Ee].
  all: destruct (repair_codecpar par data param) as [[[[] par2] param2]| |] eqn:Er; [|done..];
    intros [= <- _]; rewrite rebuild_keeps by done; eapply repair_codecpar_extradata, Er; naive_solver.
Qed.

(** What the muxers take for granted of a stream. *)
Definition stream_complete (s s1 : AVStream) : Prop :=
  rational_ok (time_base s1) = true /\
  match codec_type (codecpar s) with
  | VIDEO => rational_ok (avg_frame_rate s1) = true /\ start_time s1 <> AV_NOPTS_VALUE /\
             0 <= format (codecpar s1) /\
             (codec_id (codecpar s) = H264 \/ codec_id (codecpar s) = HEVC -> is_Some (extradata (codecpar s1)))
  | AUDIO => start_time s1 <> AV_NOPTS_VALUE /\ sound_complete (codecpar s1) /\
             (codec_id (codecpar s) = AAC -> is_Some (extradata (codecpar s1)))
  | OTHER_TYPE => True
  end.
Lemma start_time_set s : (if start_time s =? AV_NOPTS_VALUE then 0 else start_time s) <> AV_NOPTS_VALUE.
Proof. destruct (Z.eqb_spec (start_time s) AV_NOPTS_VALUE); done. Qed.
Lemma repaired_time_base_ok media_ext s : (forall r, described_rate media_ext = Some r -> 0 < r) ->
  rational_ok (repaired_time_base media_ext s) = true.
Proof.
  intros Hr. unfold repaired_time_base. destruct (rational_ok (time_base s)) eqn:E; [done|].
  destruct (codec_type _); unfold rational_ok; cbn.
  - destruct (0 <? me_clock_rate media_ext) eqn:Ec; [exact Ec|done].
  - destruct (described_rate media_ext) as [r|] eqn:Ed; [|done]. apply Z.ltb_lt. cbn. by apply Hr.
  - done.
Qed.

(** A stream reported ready has what the muxers take for granted: a time base, a
    start time and, as the case may be, a frame rate, a pixel format and the
    extra data of its codec, or a sample rate, channels with a layout, a bit
    rate and the extra data of its codec.  The values of the media description
    it may fall back on have to be positive. *)
Theorem ready_stream_complete (s s1 : AVStream) (data : bytes) (media_ext : MediaExt) (param param1 : ParamRepairState) :
  decoders_keep_extradata -> 0 <= yuv420p ->
  (forall r, described_rate media_ext = Some r -> 0 < r) ->
  (forall fps, vp_fps (me_video_params media_ext) = Some fps -> 0 < fps) ->
  aac_asc param = None ->
  repair_basic_stream_info s data media_ext param = Done (true, s1, param1) -> stream_complete s s1.
Proof.
  intros Hk Hy Hrate Hfps Hasc. unfold repair_basic_stream_info.
  destruct (repair_par media_ext (codecpar s) data param) as [[[ok par1] param2]| |] eqn:Er; [|done..].
  intros [= -> <- <-]. split; [by apply repaired_time_base_ok|]. cbn [time_base avg_frame_rate start_time codecpar].
  unfold repair_par in Er. unfold repaired_frame_rates. destruct (codec_type (codecpar s)); [| |done].
  - split; [|split; [apply start_time_set|]].
    { destruct (rational_ok (avg_frame_rate s)) eqn:E; [done|]. unfold rational_ok. cbn.
      destruct (vp_fps _) as [fps|]; [|done]. cbn. rewrite andb_true_r. by apply Z.ltb_lt, Hfps. }
    destruct (match codec_id (codecpar s) with H264 => _ | _ => _ end) as [[[ok2 par2] param3]| |] eqn:Ev; [|done..].
    injection Er as -> <- <-. split; [unfold repair_video_stream_info; repeat case_match; cbn; zbool; lia|].
    intros Hid. assert (is_Some (extradata par2)) as He.
    { destruct Hid as [Hid | Hid]; rewrite Hid in Ev; eapply video_extradata, Ev; auto. }
    unfold repair_video_stream_info. by repeat case_match.
  - split; [apply start_time_set|]. destruct (bool_decide _ && _) eqn:Eb.
    + apply andb_true_iff in Eb as [Eb%bool_decide_eq_true _].
      destruct (repair_codecpar _ _ _) as [[[[] par2] param3]| |] eqn:Ec; [|done..].
      injection Er as <- <-. split; [apply audio_repaired|]. intros _.
      change (is_Some (extradata par2)). eapply repair_codecpar_extradata, Ec. naive_solver.
    + injection Er as <- <-. split; [apply audio_repaired|]. intros Hid.
      rewrite bool_decide_eq_true_2 in Eb by done. cbn in Eb. unfold too_short in Eb.
      change (is_Some (extradata (codecpar s))). by destruct (extradata (codecpar s)).
Qed.
End Sound.

(** ** Witnesses *)

(** A decoder that gives back what it was given. *)
Definition demo_ffmpeg : FFmpeg := {|
  codec_context := option AVCodecParameters; find_decoder _ := true; alloc_context3 _ := Some None;
  parameters_to_context _ par := Some (Some par); codec_open2 ctx := Some ctx;
  parameters_from_context par ctx := (true, default par ctx); av_malloc _ := true;
  yuv420p := 0; sample_fltp := 8; sample_s16 := 1 |}.
Lemma demo_keeps : decoders_keep_extradata (H := demo_ffmpeg).
Proof. intros id ctx par ctx1 ctx2 _ Ht Ho. by injection Ht as <-; injection Ho as <-. Qed.
Definition demo_par (t : AVMediaType) (id : AVCodecID) : AVCodecParameters := {|
  codec_type := t; codec_id := id; extradata := None; format := -1; bit_rate := 0; profile := -99; level := -99;
  width := 704; height := 576; framerate := {| tb_num := 0; tb_den := 0 |}; cp_sample_rate := 0; cp_channels := 0;
  channel_layout := 0; video_delay := 0 |}.
Definition demo_stream_of (par : AVCodecParameters) : AVStream := {|
  time_base := {| tb_num := 1; tb_den := 90000 |}; avg_frame_rate := {| tb_num := 0; tb_den := 0 |};
  r_frame_rate := {| tb_num := 0; tb_den := 0 |}; start_time := AV_NOPTS_VALUE; duration := AV_NOPTS_VALUE;
  codecpar := par |}.
Definition demo_sps : bytes := [103; 77; 0; 41; 150].
Definition demo_pps : bytes := [104; 238; 60; 128].

Lemma parameter_sets_assembled_witness :
  let pkts := [[(true, [9; 16]); (true, demo_sps)]; [(false, demo_pps); (true, [101; 136])]] in
  exists param1, repair_packets (H := demo_ffmpeg) (demo_par VIDEO H264) ParamRepairState_default (annexb <$> pkts) =
    Done (true, set_extradata ([0; 0; 0; 1] ++ demo_sps ++ [0; 0; 0; 1] ++ demo_pps) (demo_par VIDEO H264), param1).
Proof.
  intros pkts.
  destruct (parameter_sets_assembled (H := demo_ffmpeg) (demo_par VIDEO H264) pkts) as (param1 & Hp & _).
  - by left.
  - done.
  - unfold pkts, demo_sps, demo_pps. repeat constructor; discriminate.
  - exists param1. exact Hp.
Defined.

Lemma described_aac_configured_witness :
  let media_ext := {| me_rtp_encrypt := None; type_code := 97; me_type_name := "AAC"; me_clock_rate := 8000;
    me_stream_number := None; me_video_params := VideoParams_default;
    me_audio_params := {| ap_codec_id := Some "aac"%string; ap_bitrate := None; ap_sample_rate := Some "16"%string;
                          ap_channel_count := 2; ap_clock_rate := 8000 |} |} in
  let cfg := AacAdtsConfig_from_media_ext media_ext in
  exists asc param1,
    repair_codecpar (H := demo_ffmpeg) (demo_par AUDIO AAC) (append_adts_frame [] [33; 17] cfg) ParamRepairState_default =
      Done (true, set_extradata asc (demo_par AUDIO AAC), param1) /\
    (read_asc asc).1.1 = 2 /\ AAC_SAMPLE_RATES !! Z.to_nat (read_asc asc).1.2 = Some 16000 /\ (read_asc asc).2 = 2.
Proof.
  intros media_ext cfg.
  destruct (described_aac_configured (H := demo_ffmpeg) media_ext (demo_par AUDIO AAC) ParamRepairState_default [33; 17])
    as (asc & param1 & Hr & _ & _ & Ht & Hf & Hc).
  - done.
  - done.
  - done.
  - apply (bool_decide_unpack _). vm_compute. exact I.
  - exists asc, param1. split; [exact Hr|]. split; [exact Ht|]. split; [exact Hf|exact Hc].
Defined.

Lemma ready_stream_complete_witness :
  let s := demo_stream_of (demo_par VIDEO H264) in
  exists s1 param1,
    repair_basic_stream_info (H := demo_ffmpeg) s (annexb [(true, demo_sps); (true, demo_pps)]) MediaExt_default
      ParamRepairState_default = Done (true, s1, param1) /\ stream_complete s s1.
Proof.
  intros s. eexists _, _. split; [vm_compute; reflexivity|].
  eapply (ready_stream_complete (H := demo_ffmpeg) s _ (annexb [(true, demo_sps); (true, demo_pps)]) MediaExt_default
    ParamRepairState_default).
  - exact demo_keeps.
  - done.
  - vm_compute. discriminate.
  - vm_compute. discriminate.
  - done.
  - vm_compute. reflexivity.
Defined.
