(* ===== verification/MediaParams.v ===== *)
(** * The description of a stream for players
    ([stream/src/media/context/utils/extradata.rs], [stream/src/general/mp.rs])

    The codec strings, frame rate and bandwidth a manifest needs, read off
    FFmpeg's parameters of the streams. *)
From Stdlib Require Import Ascii.
From S2P Require Import Prelude Text SharedTypes RtpIngest RtpDepacket H265Flv H265FlvProps Float64 TimeScale.
From S2P Require Import CodecParams CodecParamsProps.
Local Open Scope gmv_scope.
Local Open Scope Z_scope.

Record Video := {
  v_codec : string; v_width : Z; v_height : Z; v_frame_rate : Z; v_timescale : Z; v_bandwidth : Z
}.
Record Audio := { a_codec : string; a_sample_rate : Z; a_channels : Z; a_timescale : Z; a_bandwidth : Z }.
(** [mp_start_time]: the clock. *)
Record MediaParam := { mp_start_time : Z; mp_video : option Video; mp_audio : option Audio }.

(** The errors, which are only logged, with what their texts show. *)
Inductive ParseError :=
| InvalidDimensions (w h : Z)
| UnsupportedVideo (id : AVCodecID)
| InvalidSampleRate (rate : Z)
| InvalidChannels (n : Z)
| UnsupportedAudio (id : AVCodecID).

(** ** Codec strings *)

Definition H264_CODEC_MAP : list (Z * string) :=
  [(66, "avc1.42E01E"); (77, "avc1.4D0029"); (100, "avc1.640028"); (110, "avc1.6E0028"); (122, "avc1.7A0028");
   (144, "avc1.900028")]%string.
Definition DEFAULT_H264_CODEC : string := "avc1.4D0029".
Definition codec_of_profile (profile : Z) : option string :=
  (fun found => found.2.2) <$> list_find (fun e => e.1 = profile) H264_CODEC_MAP.

(** What is left from the next zero byte on. *)
Fixpoint skip_nonzero (rest : bytes) : bytes :=
  match rest with [] => [] | b :: rest' => if b =? 0 then rest else skip_nonzero rest' end.
(** [rest] is [data] from the offset [i] on, which only grows; [fuel] is the
    length. *)
Fixpoint annexb_sps_loop (fuel : nat) (rest : bytes) : option string :=
  match fuel with
  | O => None
  | S fuel =>
      if decide (4 < length rest)%nat then
        match annexb_start_code_len rest with
        | Some start_len =>
            let nalu := drop start_len rest in
            let found := if (h264_nal_type nalu =? 7) && (3 <? Z.of_nat (length nalu))
                         then codec_of_profile (byte_at 1 nalu) else None in
            match found with
            | Some codec => Some codec
            | None => annexb_sps_loop fuel (skip_nonzero nalu)
            end
        | None => annexb_sps_loop fuel (drop 1 rest)
        end
      else None
  end.
Definition parse_h264_from_annexb (data : bytes) : option string := annexb_sps_loop (length data) data.

Definition get_h264_codec_string (par : AVCodecParameters) : string :=
  if (0 <? profile par) && (0 <? level par) then
    match codec_of_profile (profile par) with
    | Some codec => codec
    | None =>
        if (66 <=? profile par) && (profile par <=? 76) then "avc1.42E01E"
        else if (77 <=? profile par) && (profile par <=? 99) then "avc1.4D0029"
        else if (100 <=? profile par) && (profile par <=? 109) then "avc1.640028"
        else DEFAULT_H264_CODEC
    end
  else match extradata par with
       | None => DEFAULT_H264_CODEC
       | Some data =>
           if Z.of_nat (length data) <? 8 then DEFAULT_H264_CODEC
           else if byte_at 0 data =? 1 then default DEFAULT_H264_CODEC (codec_of_profile (byte_at 1 data))
           else if bool_decide (is_Some (annexb_start_code_len data))
           then default DEFAULT_H264_CODEC (parse_h264_from_annexb data)
           else DEFAULT_H264_CODEC
       end.

Definition upper_hex (n : Z) : ascii := nth (Z.to_nat n) (chars "0123456789ABCDEF") "0"%char.
Fixpoint hex_digits (fuel : nat) (n : Z) (acc : list ascii) : list ascii :=
  match fuel with
  | O => acc
  | S fuel => let acc := upper_hex (n mod 16) :: acc in if n / 16 =? 0 then acc else hex_digits fuel (n / 16) acc
  end.
(** [format!("{:02X}")] of a positive [i32], at most eight digits. *)
Definition fmt_02X (n : Z) : list ascii :=
  let ds := hex_digits 8 n [] in replicate (2 - length ds) "0"%char ++ ds.
Definition get_hevc_codec_string (par : AVCodecParameters) : string :=
  if (0 <? profile par) && (0 <? level par) then
    let profile_space := if profile par =? 1 then "1" else if profile par =? 2 then "2"
                         else if profile par =? 3 then "3" else "1" in
    let tier := if profile par =? 2 then "H" else "L" in
    ("hev1." +:+ profile_space +:+ ".6." +:+ tier +:+ text (fmt_02X (level par)))%string
  else "hev1.1.6.L120".
Definition get_video_codec_string (par : AVCodecParameters) : outcome ParseError string :=
  match codec_id par with
  | H264 => Done (get_h264_codec_string par)
  | HEVC => Done (get_hevc_codec_string par)
  | id => Failed (UnsupportedVideo id)
  end.

Definition hex_value (a : ascii) : option Z :=
  let n := Z.of_nat (nat_of_ascii a) in
  if (48 <=? n) && (n <=? 57) then Some (n - 48)
  else if (65 <=? n) && (n <=? 70) then Some (n - 55)
  else if (97 <=? n) && (n <=? 102) then Some (n - 87) else None.
(** [u32::from_str_radix(_, 16)] of at most eight characters. *)
Definition from_hex (l : list ascii) : option Z :=
  match (match l with "+"%char :: ds => ds | ds => ds end) with
  | [] => None
  | ds => foldl (fun acc a => acc ≫= fun n => d ← hex_value a; Some (n * 16 + d)) (Some 0) ds
  end.
(** [codec[5..7]] of an ASCII string; the one misspelt string looked for at the
    end has the default as its answer, too. *)
Definition normalize_h264_codec (codec : string) : string :=
  if bool_decide (codec ∈ H264_CODEC_MAP.*2) then codec else
  let l := chars codec in
  let known := if starts_with (chars "avc1.") l && (10 <=? Z.of_nat (length l))
               then from_hex (take 2 (drop 5 l)) ≫= codec_of_profile else None in
  default DEFAULT_H264_CODEC known.

Definition get_audio_codec_string (par : AVCodecParameters) : outcome ParseError string :=
  match codec_id par with
  | AAC =>
      let aac_profile := if profile par =? 1 then "2" else if profile par =? 2 then "5"
                         else if profile par =? 3 then "5" else if profile par =? 4 then "29"
                         else if profile par =? 5 then "39" else "2" in
      Done ("mp4a.40." +:+ aac_profile)%string
  | OPUS => Done "opus"%string
  | PCM_ALAW => Done "alaw"%string
  | PCM_MULAW => Done "mulaw"%string
  | MP3 => Done "mp4a.40.34"%string
  | id => Failed (UnsupportedAudio id)
  end.
Definition is_codec_supported (codec : string) : bool :=
  bool_decide (codec ∈ ["avc1.42E01E"; "avc1.4D401E"; "avc1.4D0029"; "avc1.640028"; "avc1.64001F"; "mp4a.40.2";
                        "mp4a.40.5"]%string).

(** ** Frame rate and bandwidth *)

(** [(num as f64 / den as f64).round() as u32], when it is a frame rate. *)
Definition usable_rate (r : AVRational) : option Z :=
  match tb_num r, tb_den r with
  | Zpos n, Zpos d =>
      let fps := round_as 0 (umax 32) (f64_ratio false n d) in
      if (0 <? fps) && (fps <=? 120) then Some fps else None
  | _, _ => None
  end.
Definition get_video_frame_rate (st : AVStream) : option Z :=
  let par := codecpar st in
  match usable_rate (avg_frame_rate st), usable_rate (r_frame_rate st), usable_rate (framerate par) with
  | Some fps, _, _ => Some fps
  | None, Some fps, _ => Some fps
  | None, None, Some fps => Some fps
  | None, None, None => match codec_id par with H264 | HEVC => Some 25 | _ => None end
  end.

(** The product of [u32] wraps as in a release build. *)
Definition estimate_video_bandwidth (w h fps : Z) : Z :=
  let pixels := (w * h) mod 2 ^ 32 in
  let bitrate :=
    if 1920 * 1080 <=? pixels then
      if 50 <=? fps then 8000000 else if 25 <=? fps then 4000000 else 2000000
    else if 1280 * 720 <=? pixels then
      if 50 <=? fps then 4000000 else if 25 <=? fps then 2500000 else 1500000
    else if 720 * 576 <=? pixels then
      if 25 <=? fps then 1500000 else 1000000
    else if 352 * 288 <=? pixels then 512000
    else 384000 in
  Z.min 20000000 (Z.max 500000 bitrate).
Definition estimate_audio_bandwidth (rate channels : Z) : Z :=
  Z.min 256000
    (if 48000 <=? rate then if 2 <=? channels then 192000 else 96000
     else if 44100 <=? rate then if 2 <=? channels then 128000 else 64000
     else if 16000 <=? rate then 32000 else 24000).

(** ** The description *)

Definition parse_video (st : AVStream) : outcome ParseError Video :=
  let par := codecpar st in
  if (width par <=? 0) || (height par <=? 0) then Failed (InvalidDimensions (width par) (height par)) else
  let frame_rate := default 25 (get_video_frame_rate st) in
  codec <-! get_video_codec_string par ;;
  Done {| v_codec := normalize_h264_codec codec; v_width := width par; v_height := height par;
          v_frame_rate := frame_rate; v_timescale := 90000;
          v_bandwidth := estimate_video_bandwidth (width par) (height par) frame_rate |}.
Definition parse_audio (par : AVCodecParameters) : outcome ParseError Audio :=
  if cp_sample_rate par <=? 0 then Failed (InvalidSampleRate (cp_sample_rate par))
  else if cp_channels par <=? 0 then Failed (InvalidChannels (cp_channels par))
  else
    codec <-! get_audio_codec_string par ;;
    Done {| a_codec := codec; a_sample_rate := cp_sample_rate par; a_channels := cp_channels par;
            a_timescale := cp_sample_rate par;
            a_bandwidth := estimate_audio_bandwidth (cp_sample_rate par) (cp_channels par) |}.

(** The first stream of each kind that can be described. *)
Definition media_param_step (va : option Video * option Audio) (st : AVStream) : option Video * option Audio :=
  let '(video, audio) := va in
  match codec_type (codecpar st), video, audio with
  | VIDEO, None, _ => (match parse_video st with Done v => Some v | _ => None end, audio)
  | AUDIO, _, None => (video, match parse_audio (codecpar st) with Done a => Some a | _ => None end)
  | _, _, _ => va
  end.
Definition parse_media_param (now : Z) (streams : list AVStream) : MediaParam :=
  let '(video, audio) := foldl media_param_step (None, None) streams in
  {| mp_start_time := now; mp_video := video; mp_audio := audio |}.

(** ** What the description says

    The codec string of an H.264 stream comes from its first sequence parameter
    set; frame rate and bandwidth are within their bounds; an H.265 stream is
    described as H.264. *)

(** ** The profile of an H.264 stream *)

(** The specification: the first sequence parameter set of a known profile. *)
Definition sps_codec (u : bytes) : option string :=
  if h264_nal_type u =? 7 then codec_of_profile (byte_at 1 u) else None.
Definition first_codec (units : list bytes) : option string := head (omap sps_codec units).
Definition sps_long (u : bytes) : Prop := h264_nal_type u = 7 -> (4 <= length u)%nat.

Lemma first_codec_cons u l : first_codec (u :: l) = match sps_codec u with Some c => Some c | None => first_codec l end.
Proof. unfold first_codec. simpl. by destruct (sps_codec u). Qed.
Lemma short_no_sps units : Forall (fun u => sps_long u.2) units -> (length (annexb units) <= 4)%nat ->
  first_codec units.*2 = None.
Proof.
  induction 1 as [|[long u] units Hu _ IH]; [done|].
  change (annexb ((long, u) :: units)) with ((start_code long ++ u) ++ annexb units). rewrite !length_app.
  intros Hl. cbn [fmap list_fmap snd]. rewrite first_codec_cons. unfold sps_codec.
  destruct (Z.eqb_spec (h264_nal_type u) 7) as [E|]; [|apply IH; lia].
  specialize (Hu E). cbn [snd] in Hu. destruct long; cbn [start_code length] in Hl; lia.
Qed.
Lemma skip_in_unit l rest : clean l -> last l <> Some 0 ->
  (exists l', skip_nonzero (l ++ rest) = l' ++ rest /\ clean l' /\ last l' <> Some 0 /\ (length l' <= length l)%nat) \/
  skip_nonzero (l ++ rest) = skip_nonzero rest.
Proof.
  induction l as [|a l IH]; intros Hc Hl; [by right|]. cbn [app skip_nonzero]. destruct (a =? 0).
  - left. by exists (a :: l).
  - destruct Hc as [_ Hc]. destruct (IH Hc) as [(l' & ? & ? & ? & ?)|Hs].
    + intros E. apply Hl. destruct l; [done|]. by rewrite last_cons_cons.
    + left. exists l'. simpl. split_and!; [done..|lia].
    + by right.
Qed.
Lemma skip_annexb units : skip_nonzero (annexb units) = annexb units.
Proof. destruct units as [|[[] u] units]; done. Qed.

Lemma byte_at_head k l rest : (k < length l)%nat -> byte_at k (l ++ rest) = byte_at k l.
Proof. intros Hk. unfold byte_at. by rewrite app_nth1. Qed.

Lemma sps_loop_units fuel : forall l units,
  Forall (fun u => nal_ok u.2 /\ sps_long u.2) units -> clean l -> last l <> Some 0 ->
  (length (l ++ annexb units) <= fuel)%nat -> annexb_sps_loop fuel (l ++ annexb units) = first_codec units.*2.
Proof.
  induction fuel as [|fuel IH]; intros l units Hu Hc Hl Hf.
  { rewrite length_app in Hf. destruct units as [|[[] u] units]; [done|..]; simpl in Hf; lia. }
  assert (Forall (fun u => sps_long u.2) units) as Hs by (eapply Forall_impl; [exact Hu|]; intros u; by intros [_ ?]).
  cbn [annexb_sps_loop]. case_decide as Hlen; [|symmetry; apply short_no_sps; [done|]; rewrite length_app in Hlen; lia].
  destruct l as [|a l].
  - destruct units as [|[long nal] units]; [simpl in Hlen; lia|]. rewrite app_nil_l in *.
    change (annexb ((long, nal) :: units)) with ((start_code long ++ nal) ++ annexb units) in *. rewrite <- app_assoc in *.
    rewrite code_len_start, drop_app_length. apply Forall_cons in Hu as [[(Hne & Hnc & Hnl & _) Hlong] Hu].
    cbn [fmap list_fmap snd] in *. rewrite first_codec_cons.
    assert (h264_nal_type (nal ++ annexb units) = h264_nal_type nal) as Ht.
    { unfold h264_nal_type. rewrite byte_at_head; [done|]. destruct nal; [done|simpl; lia]. }
    assert (annexb_sps_loop fuel (skip_nonzero (nal ++ annexb units)) = first_codec units.*2) as Hrest.
    { rewrite !length_app in Hf. assert (1 <= length (start_code long))%nat by (destruct long; simpl; lia).
      destruct (skip_in_unit nal (annexb units) Hnc Hnl) as [(l' & -> & Hc' & Hl' & Hlt)| ->].
      - apply IH; [done..|]. rewrite length_app. lia.
      - rewrite skip_annexb. apply (IH []); [done..|]. simpl. lia. }
    rewrite Ht. unfold sps_codec. destruct (Z.eqb_spec (h264_nal_type nal) 7) as [E|]; [|exact Hrest].
    specialize (Hlong E). cbn [snd] in Hlong. rewrite (proj2 (Z.ltb_lt _ _)) by (rewrite length_app; lia).
    cbn [andb]. rewrite byte_at_head by lia. destruct (codec_of_profile _); [done|exact Hrest].
  - assert (last l <> Some 0) as Hl2 by (intros E; apply Hl; destruct l; [done|]; by rewrite last_cons_cons).
    destruct Hc as [Hc1 Hc2]. cbn [app]. rewrite app_comm_cons, code_len_inside by done.
    cbn [app drop]. rewrite drop_0. apply IH; [done..|]. simpl in Hf. lia.
Qed.
Lemma codec_of_annexb units : Forall (fun u => nal_ok u.2 /\ sps_long u.2) units ->
  parse_h264_from_annexb (annexb units) = first_codec units.*2.
Proof. intros Hu. by apply (sps_loop_units _ [] units). Qed.

(** ** The description *)

Lemma h264_codec_known par : get_h264_codec_string par ∈ H264_CODEC_MAP.*2.
Proof.
  assert (forall p c, codec_of_profile p = Some c -> c ∈ H264_CODEC_MAP.*2) as Hmap.
  { intros p c. unfold codec_of_profile. destruct (list_find _ _) as [[i e]|] eqn:E; [|done]. intros [= <-].
    apply list_find_Some in E as (Hi & _). apply list_elem_of_fmap. exists e. split; [done|]. by eapply list_elem_of_lookup_2. }
  assert (DEFAULT_H264_CODEC ∈ H264_CODEC_MAP.*2) as Hd by (apply (bool_decide_unpack _); by vm_compute).
  assert (forall o, (forall c, o = Some c -> c ∈ H264_CODEC_MAP.*2) -> default DEFAULT_H264_CODEC o ∈ H264_CODEC_MAP.*2) as Ho
    by (intros [c|]; simpl; auto).
  assert (forall fuel l c, annexb_sps_loop fuel l = Some c -> c ∈ H264_CODEC_MAP.*2) as Hloop.
  { induction fuel as [|fuel IH]; [done|]. intros l c. cbn [annexb_sps_loop]. case_decide; [|done].
    destruct (annexb_start_code_len l); [|apply IH]. destruct (_ && _); [|apply IH].
    destruct (codec_of_profile _) eqn:E; [intros [= <-]; by eapply Hmap|apply IH]. }
  unfold get_h264_codec_string.
  repeat (case_match; try done); try (apply Ho; by eauto); try (by eapply Hmap); try (apply (bool_decide_unpack _); by vm_compute).
Qed.
Lemma normalize_known codec : codec ∈ H264_CODEC_MAP.*2 -> normalize_h264_codec codec = codec.
Proof. intros Hc. unfold normalize_h264_codec. by rewrite bool_decide_eq_true_2. Qed.
Lemma hevc_codec_head par : exists rest, get_hevc_codec_string par = String "h" rest.
Proof. unfold get_hevc_codec_string. destruct (_ && _); by eexists. Qed.
Lemma normalize_hevc par : normalize_h264_codec (get_hevc_codec_string par) = DEFAULT_H264_CODEC.
Proof.
  destruct (hevc_codec_head par) as [rest ->]. unfold normalize_h264_codec. rewrite bool_decide_eq_false_2; [done|].
  intros Hc. cbn in Hc. repeat (apply elem_of_cons in Hc as [Hc|Hc]; [discriminate|]). by apply elem_of_nil in Hc.
Qed.

(** The description of an H.264 stream whose extra data were put together
    from its packets, when FFmpeg knows no profile of it: the codec string is
    that of the profile in its sequence parameter set, or the default one. *)
Theorem assembled_stream_described (st : AVStream) (s p : bytes) :
  let par := codecpar st in
  codec_id par = H264 -> (profile par <= 0 \/ level par <= 0) -> 0 < width par -> 0 < height par ->
  extradata par = Some (annexb_extradata [s; p]) -> nal_ok s -> nal_ok p ->
  h264_nal_type s = 7 -> (4 <= length s)%nat -> h264_nal_type p = 8 ->
  exists v, parse_video st = Done v /\ v_codec v = default DEFAULT_H264_CODEC (codec_of_profile (byte_at 1 s)).
Proof.
  intros par Hid Hpl Hw Hh He Hs Hp Ht Hlen Ht2. unfold parse_video, get_video_codec_string. fold par.
  rewrite (proj2 (Z.leb_gt _ _)), (proj2 (Z.leb_gt (height par) _)), Hid by done. cbn [orb outcome_bind].
  eexists. split; [done|]. cbn [v_codec]. rewrite normalize_known by apply h264_codec_known.
  unfold get_h264_codec_string. destruct (_ && _) eqn:E; [zbool; lia|]. rewrite He.
  assert (parse_h264_from_annexb (annexb_extradata [s; p]) = codec_of_profile (byte_at 1 s)) as Hparse.
  { rewrite annexb_extradata_units, codec_of_annexb.
    - cbn [fmap list_fmap snd]. rewrite !first_codec_cons. unfold sps_codec. rewrite Ht, Ht2. cbn [Z.eqb Pos.eqb]. by destruct (codec_of_profile (byte_at 1 s)).
    - repeat constructor; try apply Hs; try apply Hp; unfold sps_long; cbn [snd]; intros; lia. }
  rewrite (proj2 (Z.ltb_ge _ _)); [|unfold annexb_extradata; cbn; rewrite length_app; cbn; lia].
  change (byte_at 0 (annexb_extradata [s; p]) =? 1) with false.
  rewrite bool_decide_eq_true_2 by (eexists; reflexivity). by rewrite Hparse.
Qed.

(** Every H.265 stream is described with the codec string of H.264 Main
    profile, whatever its own profile and level: the string made for it passes
    through the table of H.264 strings. *)
Theorem hevc_described_as_h264 (st : AVStream) :
  codec_id (codecpar st) = HEVC -> 0 < width (codecpar st) -> 0 < height (codecpar st) ->
  exists v, parse_video st = Done v /\ v_codec v = "avc1.4D0029"%string.
Proof.
  intros Hid Hw Hh. unfold parse_video, get_video_codec_string.
  rewrite (proj2 (Z.leb_gt _ _)), (proj2 (Z.leb_gt (height _) _)), Hid by done. cbn [orb outcome_bind].
  eexists. split; [done|]. apply normalize_hevc.
Qed.

Lemma usable_rate_bounds r fps : usable_rate r = Some fps -> 1 <= fps <= 120.
Proof. unfold usable_rate. intros Hr. cases. zbool. lia. Qed.
Lemma frame_rate_bounds st : 1 <= default 25 (get_video_frame_rate st) <= 120.
Proof.
  unfold get_video_frame_rate.
  repeat match goal with |- context [usable_rate ?r] => destruct (usable_rate r) eqn:?; cbn end;
    try (by eapply usable_rate_bounds). destruct (codec_id _); cbn; lia.
Qed.
Lemma video_bandwidth_bounds w h fps : 500000 <= estimate_video_bandwidth w h fps <= 8000000.
Proof. unfold estimate_video_bandwidth. repeat case_match; lia. Qed.
Lemma audio_bandwidth_bounds rate ch : 24000 <= estimate_audio_bandwidth rate ch <= 192000.
Proof. unfold estimate_audio_bandwidth. repeat case_match; lia. Qed.

Definition to_option {E A} (o : outcome E A) : option A := match o with Done x => Some x | _ => None end.
Definition described_video (st : AVStream) : option Video :=
  match codec_type (codecpar st) with VIDEO => to_option (parse_video st) | _ => None end.
Definition described_audio (st : AVStream) : option Audio :=
  match codec_type (codecpar st) with AUDIO => to_option (parse_audio (codecpar st)) | _ => None end.
Lemma media_param_fold sts : forall video audio, foldl media_param_step (video, audio) sts =
  (match video with Some _ => video | None => head (omap described_video sts) end,
   match audio with Some _ => audio | None => head (omap described_audio sts) end).
Proof.
  induction sts as [|st sts IH]; intros video audio; cbn [foldl omap list_omap]; [by destruct video, audio|].
  unfold media_param_step at 2. unfold described_video at 1, described_audio at 1.
  destruct (codec_type (codecpar st)).
  - destruct video; rewrite IH; [done|]. by destruct (parse_video st).
  - destruct audio, video; rewrite IH; try done; by destruct (parse_audio _).
  - by rewrite IH.
Qed.

(** The description names the first video and the first audio stream that can
    be described; a video then has a frame rate of 1 to 120 and a bandwidth of
    500 kbit/s to 8 Mbit/s, its own size, and the time scale 90000; an audio
    has 24 to 192 kbit/s, its own rate as the time scale. *)
Theorem media_param_described (now : Z) (sts : list AVStream) :
  let m := parse_media_param now sts in
  mp_video m = head (omap described_video sts) /\ mp_audio m = head (omap described_audio sts) /\
  (forall v, mp_video m = Some v -> exists st, st ∈ sts /\ parse_video st = Done v /\
     1 <= v_frame_rate v <= 120 /\ 500000 <= v_bandwidth v <= 8000000 /\ v_timescale v = 90000 /\
     0 < v_width v /\ 0 < v_height v) /\
  (forall a, mp_audio m = Some a -> exists st, st ∈ sts /\ parse_audio (codecpar st) = Done a /\
     24000 <= a_bandwidth a <= 192000 /\ a_timescale a = a_sample_rate a /\ 0 < a_sample_rate a /\ 0 < a_channels a).
Proof.
  unfold parse_media_param. rewrite media_param_fold. cbn [mp_video mp_audio]. split_and!; [done..| |].
  - intros v Hv. apply head_Some_elem_of, list_elem_of_omap in Hv as (st & Hst & Hv). exists st. split; [done|].
    unfold described_video in Hv. destruct (codec_type _); [|done..]. destruct (parse_video st) as [v'| |] eqn:E; [|done..].
    injection Hv as ->. split; [done|]. unfold parse_video in E. destruct (_ || _) eqn:Ed; [done|].
    destruct (get_video_codec_string _); [|done..]. injection E as <-. cbn. zbool.
    pose proof (frame_rate_bounds st). pose proof (video_bandwidth_bounds (width (codecpar st)) (height (codecpar st)) (default 25 (get_video_frame_rate st))).
    split_and!; lia.
  - intros a Ha. apply head_Some_elem_of, list_elem_of_omap in Ha as (st & Hst & Ha). exists st. split; [done|].
    unfold described_audio in Ha. destruct (codec_type _); [done| |done]. destruct (parse_audio _) as [a'| |] eqn:E; [|done..].
    injection Ha as ->. split; [done|]. unfold parse_audio in E. destruct (cp_sample_rate _ <=? 0) eqn:Er; [done|].
    destruct (cp_channels _ <=? 0) eqn:Ec; [done|]. destruct (get_audio_codec_string _); [|done..]. injection E as <-. cbn. zbool.
    pose proof (audio_bandwidth_bounds (cp_sample_rate (codecpar st)) (cp_channels (codecpar st))). split_and!; lia.
Qed.

(** ** Witnesses *)

Definition with_extradata : AVStream :=
  demo_stream_of (set_extradata (annexb_extradata [demo_sps; demo_pps]) (demo_par VIDEO H264)).
Lemma assembled_stream_described_witness :
  exists v, parse_video with_extradata = Done v /\ v_codec v = "avc1.4D0029"%string.
Proof.
  apply (assembled_stream_described with_extradata demo_sps demo_pps); try done; try (by left).
  all: unfold demo_sps, demo_pps; repeat constructor; discriminate.
Defined.
Lemma hevc_described_as_h264_witness :
  exists v, parse_video (demo_stream_of (demo_par VIDEO HEVC)) = Done v /\ v_codec v = "avc1.4D0029"%string.
Proof. apply (hevc_described_as_h264 (demo_stream_of (demo_par VIDEO HEVC))); done. Defined.
