(* ===== verification/DemuxerOpen.v ===== *)
(** * Opening the demuxer of a stream
    ([stream/src/media/context/format/demuxer.rs], [MediaContext::init] and the
    destructors of the two contexts)

    A program that asks FFmpeg, one call after the other; the calls with their
    answers are the trace of a run, on which allocations and releases can be
    counted. *)
From Stdlib Require Import Ascii.
From stdpp Require Import pretty.
From S2P Require Import Prelude Text Decimal SharedTypes MediaExt H265Flv CodecParams Tasks.
Local Open Scope task_scope.
Local Open Scope Z_scope.

(** ** Names of codecs *)

(** [to_lowercase] as far as a comparison with the names below goes: besides the
    ASCII letters only the Greek capital My has one of their characters as its
    lower case. *)
Fixpoint lower_my (l : list ascii) : list ascii :=
  match l with
  | a :: (b :: l') as l1 =>
      if bool_decide (nat_of_ascii a = 206%nat /\ nat_of_ascii b = 156%nat)
      then ascii_of_nat 206 :: ascii_of_nat 188 :: lower_my l' else ascii_lower a :: lower_my l1
  | l => ascii_lower <$> l
  end.
Definition to_lowercase (s : string) : string := text (lower_my (chars s)).
(** The name [g.711] with the Greek letter. *)
Definition g711_my_law : string := text (chars "g.711 " ++ [ascii_of_nat 206; ascii_of_nat 188] ++ chars "-law").

Definition map_video_codec_id (s : string) : AVCodecID :=
  let among names := bool_decide (to_lowercase s ∈ names) in
  if among ["h264"; "h.264"; "avc"]%string then H264
  else if among ["h265"; "h.265"; "hevc"]%string then HEVC
  else if among ["mpeg4"]%string then MPEG4
  else if among ["3gp"]%string then H263
  else NONE.
Definition map_audio_codec_id (s : string) : AVCodecID :=
  let among names := bool_decide (to_lowercase s ∈ names) in
  if among ["g711"; "g711a"; "g.711a"; "g.711 a-law"; "a-law"; "alaw"; "pcma"; "pcm_alaw"]%string then PCM_ALAW
  else if among ["g711 u-law"; "g.711 u-law"; "u-law"; "ulaw"]%string then PCM_MULAW
  else if among (["g711u"; "g.711u"; g711_my_law; "mu-law"; "mulaw"; "pcmu"; "pcm_mulaw"]%string) then PCM_MULAW
  else if among ["g722"; "g.722"]%string then ADPCM_G722
  else if among ["g7221"; "g.722.1"; "siren"]%string then SIREN
  else if among ["g723"; "g7231"; "g.723"; "g.723.1"; "g723_1"]%string then G723_1
  else if among ["g729"; "g.729"]%string then G729
  else if among ["aac"; "mpeg2-aac"; "mpeg4-aac"]%string then AAC
  else NONE.

(** ** The calls *)

(** [BoxOpaque] and [BoxState] hand a box to raw pointers, [DropOpaque] and
    [DropState] take it back.  The buffers have no other use here. *)
Inductive FfCall :=
| AvformatAllocContext
| FindInputFormat (name : string)
| AvMalloc (size : Z)
| BoxOpaque
| AvioAllocContext
| FindDecoder (id : AVCodecID)
| DictSet (key value : string)
| OpenInput (name : string)
| FindStreamInfo
| Sleep (ms : Z)
| DictFree
| AvioContextFree
| AvFreeBuffer
| DropOpaque
| FreeFormatContext
| CloseInput
| BoxState
| DropState.

(** Whether the call succeeded; [FindStreamInfo] answers the streams, without
    type and codec where a pointer on the way to them is null. *)
Definition ff_answer (c : FfCall) : Type :=
  match c with
  | AvformatAllocContext | FindInputFormat _ | AvMalloc _ | AvioAllocContext | FindDecoder _ | OpenInput _ => bool
  | FindStreamInfo => option (list (option (AVMediaType * AVCodecID)))
  | _ => unit
  end.
Abbreviation ff := (task unit ff_answer).

Inductive OpenError :=
| NoContext | DemuxerNotFound (name : string) | NoIoBuffer | NoAvio | VideoCodecNotFound (name : string)
| AudioCodecNotFound (name : string) | OpenFailed | NoStreamInfo.
(** [dc_video_codec_id]: the hint in FFmpeg's context. *)
Record DemuxerContext := {
  dc_video_codec_id : AVCodecID; dc_audio_codec_id : AVCodecID; dc_params : list ParamRepairState
}.

Definition DEFAULT_IO_BUF_SIZE : Z := 1024 * 1024.

Definition alloc_fmt_ctx_with_custom_io : ff (outcome OpenError unit) :=
  ok <- ask AvformatAllocContext ;;
  if ok : bool then Ret (Done tt) else Ret (Failed NoContext).
Definition alloc_avio_for_rtp : ff (outcome OpenError unit) :=
  buffer <- ask (AvMalloc DEFAULT_IO_BUF_SIZE) ;;
  if negb (buffer : bool) then Ret (Failed NoIoBuffer) else
  ask BoxOpaque ;;;
  pb <- ask AvioAllocContext ;;
  if negb (pb : bool) then
    ask DropOpaque ;;;
    ask AvFreeBuffer ;;;
    Ret (Failed NoAvio)
  else Ret (Done tt).
(** All three pointers are set where it is called. *)
Definition cleanup_early : ff unit :=
  ask AvioContextFree ;;;
  ask AvFreeBuffer ;;;
  ask DropOpaque ;;;
  Ret tt.

(** The codec a stream must have, where one is described and both are known. *)
Definition codec_differs (described : option string) (map_id : string -> AVCodecID) (id : AVCodecID) : bool :=
  match described with
  | Some s => negb (bool_decide (map_id s = NONE)) && negb (bool_decide (id = NONE)) && negb (bool_decide (id = map_id s))
  | None => false
  end.
Definition stream_fits (media_ext : MediaExt) (st : option (AVMediaType * AVCodecID)) : bool :=
  match st with
  | None => false
  | Some (VIDEO, id) => negb (codec_differs (vp_codec_id (me_video_params media_ext)) map_video_codec_id id)
  | Some (AUDIO, id) => negb (codec_differs (ap_codec_id (me_audio_params media_ext)) map_audio_codec_id id)
  | Some (OTHER_TYPE, _) => true
  end.
Definition check_codec (media_ext : MediaExt) (sts : list (option (AVMediaType * AVCodecID))) : bool :=
  match sts with [] => false | _ => forallb (stream_fits media_ext) sts end.

Definition max_retries : nat := 3.
(** The loop: [found] is the last answer, [not_the_codec] the flag. *)
Fixpoint find_stream_info_loop (retries : nat) (media_ext : MediaExt)
    (found : option (list (option (AVMediaType * AVCodecID)))) (not_the_codec : bool)
    : ff (option (list (option (AVMediaType * AVCodecID)))) :=
  match retries with
  | O => Ret found
  | S retries =>
      if negb (bool_decide (is_Some found)) || not_the_codec then
        ask (Sleep 200) ;;;
        found1 <- ask FindStreamInfo ;;
        find_stream_info_loop retries media_ext found1
          (match found1 with Some sts => negb (check_codec media_ext sts) | None => not_the_codec end)
      else Ret found
  end.
Definition find_stream_info_with_retry (media_ext : MediaExt)
    : ff (outcome OpenError (list (option (AVMediaType * AVCodecID)))) :=
  found <- ask FindStreamInfo ;;
  last <- find_stream_info_loop max_retries media_ext found
            (match found with Some sts => negb (check_codec media_ext sts) | None => false end) ;;
  match last with Some sts => Ret (Done sts) | None => Ret (Failed NoStreamInfo) end.

(** A hint for FFmpeg: the codec described, if FFmpeg has a decoder for it. *)
Definition codec_hint (described : option string) (map_id : string -> AVCodecID) (error : string -> OpenError)
    : ff (outcome OpenError AVCodecID) :=
  match described with
  | None => Ret (Done NONE)
  | Some s =>
      let id := map_id s in
      if bool_decide (id = NONE) then Ret (Done NONE) else
      found <- ask (FindDecoder id) ;;
      if negb (found : bool) then
        cleanup_early ;;;
        ask FreeFormatContext ;;;
        Ret (Failed (error s))
      else Ret (Done id)
  end.
Definition set_options (fmt_name : string) (media_ext : MediaExt) : ff unit :=
  ask (DictSet "fflags" "discardcorrupt+genpts") ;;;
  ask (DictSet "analyzeduration" "1000000") ;;;
  ask (DictSet "probesize" "65536") ;;;
  ask (DictSet "max_probe_packets" "64") ;;;
  if bool_decide (fmt_name ∈ ["alaw"; "mulaw"]%string) then
    ask (DictSet "sample_rate" (pretty (input_sample_rate media_ext))) ;;;
    ask (DictSet "channels" (pretty (Z.max (ap_channel_count (me_audio_params media_ext)) 1))) ;;;
    ask (DictSet "ch_layout" (if ap_channel_count (me_audio_params media_ext) =? 2 then "stereo" else "mono")) ;;;
    Ret tt
  else Ret tt.

Definition start_demuxer (media_ext : MediaExt) : ff (outcome OpenError DemuxerContext) :=
  _ <-? alloc_fmt_ctx_with_custom_io ;;
  let fmt_name := pick_input_format media_ext in
  input_fmt <- ask (FindInputFormat fmt_name) ;;
  if negb (input_fmt : bool) then
    ask FreeFormatContext ;;;
    Ret (Failed (DemuxerNotFound fmt_name))
  else
    avio <- alloc_avio_for_rtp ;;
    match avio with
    | Failed e => ask FreeFormatContext ;;; Ret (Failed e)
    | Panic => Ret Panic
    | Done _ =>
        video_id <-? codec_hint (vp_codec_id (me_video_params media_ext)) map_video_codec_id VideoCodecNotFound ;;
        audio_id <-? codec_hint (ap_codec_id (me_audio_params media_ext)) map_audio_codec_id AudioCodecNotFound ;;
        set_options fmt_name media_ext ;;;
        opened <- ask (OpenInput fmt_name) ;;
        if negb (opened : bool) then
          ask DictFree ;;;
          cleanup_early ;;;
          ask FreeFormatContext ;;;
          Ret (Failed OpenFailed)
        else
          info <- find_stream_info_with_retry media_ext ;;
          match info with
          | Failed e => ask CloseInput ;;; Ret (Failed e)
          | Panic => Ret Panic
          | Done sts =>
              ask DictFree ;;;
              Ret (Done {| dc_video_codec_id := video_id; dc_audio_codec_id := audio_id;
                           dc_params := replicate (length sts) ParamRepairState_default |})
          end
    end.

(** ** [MediaContext::init] and the destructors *)

Definition media_context_init (media_ext : MediaExt) : ff (outcome OpenError DemuxerContext) :=
  ask BoxState ;;;
  start_demuxer media_ext.
(** [Drop for AvioResource], all pointers set. *)
Definition avio_resource_drop : ff unit :=
  ask DropOpaque ;;;
  ask AvioContextFree ;;;
  ask CloseInput ;;;
  Ret tt.
(** [Drop for MediaContext] and then its fields. *)
Definition media_context_drop : ff unit :=
  ask DropState ;;;
  avio_resource_drop.
(** A stream from its start to its end, [use] in between not seen here. *)
Definition media_context_life (media_ext : MediaExt) : ff (outcome OpenError unit) :=
  _ <-? media_context_init media_ext ;;
  media_context_drop ;;;
  Ret (Done tt).
