(* ===== verification/DemuxerOpenProps.v ===== *)
(** * What opening a demuxer leaves behind

    The ledger of what a run has allocated and not released, by the
    documentation of FFmpeg's functions. *)
From S2P Require Import Prelude SharedTypes MediaExt H265Flv CodecParams Tasks DemuxerOpen.
Local Open Scope task_scope.
Local Open Scope Z_scope.

(** Allocations less releases. *)
Record Ledger := { fmt_ctx : Z; io_buf : Z; opaque : Z; pb : Z; dict : Z; state : Z }.
Definition empty_ledger : Ledger := {| fmt_ctx := 0; io_buf := 0; opaque := 0; pb := 0; dict := 0; state := 0 |}.

Section Ledger.
(** Whether [avio_context_free] releases the buffer, too. *)
Context (with_buffer : bool).

(** [avformat_open_input] releases the context the caller made when it fails;
    [av_dict_set] makes the dictionary with its first entry. *)
Definition ledger_step (g : Ledger) (e : event ff_answer) : Ledger :=
  match e with
  | existT AvformatAllocContext true =>
      {| fmt_ctx := fmt_ctx g + 1; io_buf := io_buf g; opaque := opaque g; pb := pb g; dict := dict g; state := state g |}
  | existT (AvMalloc _) true =>
      {| fmt_ctx := fmt_ctx g; io_buf := io_buf g + 1; opaque := opaque g; pb := pb g; dict := dict g; state := state g |}
  | existT BoxOpaque _ =>
      {| fmt_ctx := fmt_ctx g; io_buf := io_buf g; opaque := opaque g + 1; pb := pb g; dict := dict g; state := state g |}
  | existT AvioAllocContext true =>
      {| fmt_ctx := fmt_ctx g; io_buf := io_buf g; opaque := opaque g; pb := pb g + 1; dict := dict g; state := state g |}
  | existT (DictSet _ _) _ =>
      {| fmt_ctx := fmt_ctx g; io_buf := io_buf g; opaque := opaque g; pb := pb g; dict := 1; state := state g |}
  | existT (OpenInput _) false | existT FreeFormatContext _ | existT CloseInput _ =>
      {| fmt_ctx := fmt_ctx g - 1; io_buf := io_buf g; opaque := opaque g; pb := pb g; dict := dict g; state := state g |}
  | existT DictFree _ =>
      {| fmt_ctx := fmt_ctx g; io_buf := io_buf g; opaque := opaque g; pb := pb g; dict := 0; state := state g |}
  | existT AvioContextFree _ =>
      {| fmt_ctx := fmt_ctx g; io_buf := io_buf g - (if with_buffer then 1 else 0); opaque := opaque g; pb := pb g - 1;
         dict := dict g; state := state g |}
  | existT AvFreeBuffer _ =>
      {| fmt_ctx := fmt_ctx g; io_buf := io_buf g - 1; opaque := opaque g; pb := pb g; dict := dict g; state := state g |}
  | existT DropOpaque _ =>
      {| fmt_ctx := fmt_ctx g; io_buf := io_buf g; opaque := opaque g - 1; pb := pb g; dict := dict g; state := state g |}
  | existT BoxState _ =>
      {| fmt_ctx := fmt_ctx g; io_buf := io_buf g; opaque := opaque g; pb := pb g; dict := dict g; state := state g + 1 |}
  | existT DropState _ =>
      {| fmt_ctx := fmt_ctx g; io_buf := io_buf g; opaque := opaque g; pb := pb g; dict := dict g; state := state g - 1 |}
  | _ => g
  end.

(** What is left when [start_demuxer] has ended. *)
Definition left_by_start {A} (st : Z) (r : outcome OpenError A) : Ledger :=
  let twice := if with_buffer then -1 else 0 in
  match r with
  | Done _ => {| fmt_ctx := 1; io_buf := 1; opaque := 1; pb := 1; dict := 0; state := st |}
  | Failed (VideoCodecNotFound _ | AudioCodecNotFound _) =>
      {| fmt_ctx := 0; io_buf := twice; opaque := 0; pb := 0; dict := 0; state := st |}
  | Failed OpenFailed => {| fmt_ctx := -1; io_buf := twice; opaque := 0; pb := 0; dict := 0; state := st |}
  | Failed NoStreamInfo => {| fmt_ctx := 0; io_buf := 1; opaque := 1; pb := 1; dict := 1; state := st |}
  | _ => {| fmt_ctx := 0; io_buf := 0; opaque := 0; pb := 0; dict := 0; state := st |}
  end.

(** A loop that only looks. *)
Lemma find_loop_ledger n ext g post : forall found flag, (forall r, post r g) ->
  accounts ledger_step (find_stream_info_loop n ext found flag) post g.
Proof.
  induction n as [|n IH]; intros found flag Hp; cbn [find_stream_info_loop]; [apply Hp|].
  destruct (_ || _); [|apply Hp]. cbn. intros _ f. by apply IH.
Qed.
Lemma find_ledger ext g : accounts ledger_step (find_stream_info_with_retry ext)
  (fun r g1 => g1 = g /\ ((exists sts, r = Done sts) \/ r = Failed NoStreamInfo)) g.
Proof.
  unfold find_stream_info_with_retry. apply accounts_bind. intros found. cbn [ledger_step accounts].
  apply accounts_bind, find_loop_ledger. intros []; cbn; eauto.
Qed.
Lemma codec_hint_ledger described map_id error st :
  (forall s, error s = VideoCodecNotFound s \/ error s = AudioCodecNotFound s) ->
  let g := {| fmt_ctx := 1; io_buf := 1; opaque := 1; pb := 1; dict := 0; state := st |} in
  accounts ledger_step (codec_hint described map_id error)
    (fun r g1 => g1 = left_by_start st r /\
       match r with Done _ => True | Failed e => exists s, e = error s | Panic => False end) g.
Proof.
  intros He. unfold codec_hint. destruct described as [s|]; [|done]. cbn zeta. case_bool_decide; [done|].
  intros [|]; cbn; [done|]. intros _ _ _ _. split; [|eauto]. destruct (He s) as [-> | ->]; cbn; f_equal; by destruct with_buffer.
Qed.

#[local] Arguments find_stream_info_with_retry : simpl never.
#[local] Arguments set_options : simpl never.
#[local] Arguments codec_hint : simpl never.
Lemma start_ledger ext st : accounts ledger_step (start_demuxer ext) (fun r g1 => g1 = left_by_start st r)
  {| fmt_ctx := 0; io_buf := 0; opaque := 0; pb := 0; dict := 0; state := st |}.
Proof.
  unfold start_demuxer. apply accounts_bind_ok. intros [|]; cbn; [|done].
  intros [|]; cbn; [|done]. intros [|]; cbn; [|done]. intros _ [|]; cbn; [|done].
  apply accounts_bind_ok. eapply accounts_mono; [apply (codec_hint_ledger _ _ VideoCodecNotFound st); auto|].
  cbn. intros [video| |] g1 [-> Hr]; [clear Hr|done|done].
  apply accounts_bind_ok. eapply accounts_mono; [apply (codec_hint_ledger _ _ AudioCodecNotFound st); auto|].
  cbn. intros [audio| |] g1 [-> Hr]; [clear Hr|done|done]. cbn.
  set (g1 := {| fmt_ctx := 1; io_buf := 1; opaque := 1; pb := 1; dict := 1; state := st |}).
  apply accounts_bind.
  assert (accounts ledger_step (set_options (pick_input_format ext) ext) (fun _ g => g = g1)
    {| fmt_ctx := 1; io_buf := 1; opaque := 1; pb := 1; dict := 0; state := st |}) as Ho.
  { unfold set_options. cbn. intros _ _ _ _. case_bool_decide; cbn; done. }
  eapply accounts_mono; [exact Ho|]. intros _ g -> [|]; cbn.
  - apply accounts_bind. eapply accounts_mono; [apply find_ledger|].
    intros r g [-> [[sts ->] | ->]]; cbn; [done|]. done.
  - intros _ _ _ _ _. f_equal. by destruct with_buffer.
Qed.

(** What is left when the stream is over. *)
Definition left_by_life (r : outcome OpenError unit) : Ledger :=
  match r with
  | Done _ => {| fmt_ctx := 0; io_buf := if with_buffer then 0 else 1; opaque := 0; pb := 0; dict := 0; state := 0 |}
  | _ => left_by_start 1 r
  end.

#[local] Arguments start_demuxer : simpl never.
End Ledger.

(** ** Finding the streams *)

Definition infos := list (option (list (option (AVMediaType * AVCodecID)))).
Definition info_step (g : infos) (e : event ff_answer) : infos :=
  match e with existT FindStreamInfo a => g ++ [a] | _ => g end.

(** The answers so far decide what the loop ends with. *)
Definition loop_done (ext : MediaExt) (n : nat) (r : option (list (option (AVMediaType * AVCodecID)))) (g : infos) : Prop :=
  last g = Some r /\ (length g <= n)%nat /\
  ((length g < n)%nat -> exists sts, r = Some sts /\ check_codec ext sts = true).
Lemma find_loop_done ext : forall n found flag g,
  last g = Some found -> (found <> None -> forall sts, found = Some sts -> flag = negb (check_codec ext sts)) ->
  accounts info_step (find_stream_info_loop n ext found flag) (loop_done ext (length g + n)) g.
Proof.
  induction n as [|n IH]; intros found flag g Hl Hf; cbn [find_stream_info_loop].
  - cbn. split; [done|]. split; [lia|]. lia.
  - destruct (_ || _) eqn:E.
    + cbn. intros _ a. replace (length g + S n)%nat with (length (g ++ [a]) + n)%nat by (rewrite length_app; simpl; lia).
      apply IH; [by rewrite last_snoc|]. intros Ha sts ->. done.
    + cbn. split; [done|]. split; [lia|]. intros _. apply orb_false_iff in E as [E1 ->].
      apply negb_false_iff, bool_decide_eq_true in E1 as [sts ->]. exists sts. split; [done|].
      assert (negb (check_codec ext sts) = false) as Hn by (symmetry; by apply Hf). by apply negb_false_iff in Hn.
Qed.

(** The streams are looked for at most four times, and as long as FFmpeg
    fails or one of them is not of the codec described; the last answer counts,
    so an input whose codec is not the described one is accepted after the
    fourth. *)
Theorem stream_info_found (env : unit -> unit -> Prop) (ext : MediaExt) (tr : list (event ff_answer)) (w : unit)
    (r : outcome OpenError (list (option (AVMediaType * AVCodecID)))) :
  exec env tt (find_stream_info_with_retry ext) tr w r ->
  let asked := foldl info_step [] tr in
  (1 <= length asked <= 4)%nat /\
  r = match last asked with Some (Some sts) => Done sts | _ => Failed NoStreamInfo end /\
  ((length asked < 4)%nat -> exists sts, r = Done sts /\ check_codec ext sts = true).
Proof.
  intros He. cbv zeta.
  assert (accounts info_step (find_stream_info_with_retry ext)
    (fun r g => exists r', loop_done ext 4 r' g /\ r = match r' with Some sts => Done sts | None => Failed NoStreamInfo end) [])
    as Ha.
  { unfold find_stream_info_with_retry. apply accounts_bind. intros found. cbn [info_step accounts].
    apply accounts_bind. eapply accounts_mono; [apply (find_loop_done ext max_retries _ _ [found]); [done|]|].
    - intros _ sts ->. done.
    - intros r' g Hd. destruct r'; cbn; (eexists; split; [exact Hd|done]). }
  apply (accounts_sound info_step env _ _ _ _ _ _ _ He) in Ha. revert Ha. generalize (foldl info_step [] tr). intros asked (r' & (Hl & Hn & Hd) & ->).
  rewrite Hl. split; [|split; [done|]].
  - split; [|done]. destruct asked; [done|simpl; lia].
  - intros Hlt. destruct (Hd Hlt) as (sts & -> & Hc). by exists sts.
Qed.

(** ** Witnesses *)

(** FFmpeg, with what it finds of the streams. *)
Definition demo_answer (info : option (list (option (AVMediaType * AVCodecID)))) (c : FfCall) : ff_answer c :=
  match c with
  | AvformatAllocContext | FindInputFormat _ | AvMalloc _ | AvioAllocContext | FindDecoder _ | OpenInput _ => true
  | FindStreamInfo => info
  | _ => tt
  end.
Lemma stream_info_found_witness :
  exists tr w sts, exec (fun _ _ => False) tt (find_stream_info_with_retry MediaExt_default) tr w (Done sts) /\
    (1 <= length (foldl info_step [] tr) <= 4)%nat.
Proof.
  destruct (run_found id false (demo_answer (Some [Some (VIDEO, H264)])) (fun _ _ => False)
    (fun _ _ r => match r with Done _ => true | _ => false end) (find_stream_info_with_retry MediaExt_default) tt)
    as (tr & w & r & Hr & He).
  - done.
  - vm_compute. reflexivity.
  - destruct r as [sts| |]; [|done..]. exists tr, w, sts. split; [done|]. apply (stream_info_found _ _ _ _ _ He).
Defined.
