(* ===== verification/Muxers.v ===== *)
(** * The muxers on FFmpeg's output side
    ([stream/src/media/context/format/flv.rs], [mp4.rs], [fmp4.rs],
    [dashmp4.rs], [hlsfmp4.rs])

    Each makes an output context of the demuxed streams, writes packets into it
    and sends on what comes out.  FFmpeg's output side is a class; what a muxer
    has sent is part of its state. *)
From S2P Require Import Prelude SharedTypes RtpIngest H265Flv TimeScale CodecParams.
Local Open Scope gmv_scope.
Local Open Scope Z_scope.

(** A packet; no data for the null pointer or a size of zero. *)
Record Packet := {
  pk_index : Z; pk_pts : Z; pk_dts : Z; pk_duration : Z; pk_key : bool; pk_data : bytes
}.
(** [std::mem::zeroed]. *)
Definition zeroed_packet : Packet := {|
  pk_index := 0; pk_pts := 0; pk_dts := 0; pk_duration := 0; pk_key := false; pk_data := [] |}.
Definition set_duration (d : Z) (p : Packet) : Packet := {|
  pk_index := pk_index p; pk_pts := pk_pts p; pk_dts := pk_dts p; pk_duration := d; pk_key := pk_key p;
  pk_data := pk_data p |}.

(** A step of making an output context that can fail. *)
Inductive SetupCall :=
| AllocBuffer | AllocAvio | AllocOutput | GuessFormat (name : string) | NewStream (i : nat) | CopyParameters (i : nat).

(** FFmpeg's output side: what a call writes is handed to [write_callback], which
    appends it to the muxer's vector.  [write_header] gets the format, the
    options, the streams with their time bases. *)
Class AVOutput := {
  out_ctx : Type;
  setup_ok : SetupCall -> bool;
  write_header : string -> list (string * string) -> list (AVCodecParameters * option AVRational) -> option (bytes * out_ctx);
  out_time_bases : out_ctx -> list AVRational;
  packet_ref : Packet -> option Packet;
  packet_rescale_ts : Packet -> AVRational -> AVRational -> Packet;
  rescale_q : Z -> AVRational -> AVRational -> Z;
  interleaved_write_frame : Packet -> out_ctx -> bool * bytes * out_ctx;
  write_null_frame : out_ctx -> bytes * out_ctx;
  write_trailer : out_ctx -> bytes * out_ctx;
  avio_flush : out_ctx -> bytes * out_ctx
}.

Inductive MuxError :=
| NoMuxBuffer | NoMuxAvio | NoMuxContext | FormatUnsupported | NoParameters | TooManyParameters | StreamFailed
| CopyFailed | NoStreams | HeaderFailed.

(** [write_callback]. *)
Definition write_callback (out_vec buf : bytes) : bytes := out_vec ++ buf.
(** [v[index as usize]], a negative index being a huge one. *)
Definition at_index {A} (i : Z) (l : list A) : option A := if i <? 0 then None else l !! Z.to_nat i.

Section Muxers.
Context `{AVOutput}.

(** The checks before the streams. *)
Definition setup_output (name : string) : outcome MuxError unit :=
  if negb (setup_ok AllocBuffer) then Failed NoMuxBuffer
  else if negb (setup_ok AllocAvio) then Failed NoMuxAvio
  else if negb (setup_ok AllocOutput) then Failed NoMuxContext
  else if negb (setup_ok (GuessFormat name)) then Failed FormatUnsupported
  else Done tt.
Fixpoint add_streams (i : nat) (n : nat) : outcome MuxError unit :=
  match n with
  | O => Done tt
  | S n => if negb (setup_ok (NewStream i)) then Failed StreamFailed
           else if negb (setup_ok (CopyParameters i)) then Failed CopyFailed
           else add_streams (S i) n
  end.

(** ** MP4 *)

Record Mp4Context := {
  mc_header : bytes; mc_ctx : out_ctx; mc_out : bytes; mc_in_tbs : list AVRational; mc_out_tbs : list AVRational;
  mc_epoch : Z; mc_last_timestamp : Z; mc_flushed : bool; mc_sent : list MuxPacket
}.
Definition mp4_set (ctx : out_ctx) (out : bytes) (last : Z) (flushed : bool) (sent : list MuxPacket) (c : Mp4Context) := {|
  mc_header := mc_header c; mc_ctx := ctx; mc_out := out; mc_in_tbs := mc_in_tbs c; mc_out_tbs := mc_out_tbs c;
  mc_epoch := mc_epoch c; mc_last_timestamp := last; mc_flushed := flushed; mc_sent := sent |}.

(** [streams]: those of the demuxer, [params] of which it has a repair state. *)
Definition mp4_init_context (now : Z) (streams : list AVStream) (params : nat) : outcome MuxError Mp4Context :=
  _ <-! setup_output "mp4" ;;
  if (params =? 0)%nat then Failed NoParameters
  else if (length streams <? params)%nat then Failed TooManyParameters
  else
    _ <-! add_streams 0 params ;;
    let used := take params streams in
    match write_header "mp4" [("movflags", "frag_keyframe+empty_moov+default_base_moof+faststart")]%string
            ((fun s => (codecpar s, Some (time_base s))) <$> used) with
    | None => Failed HeaderFailed
    | Some (header, ctx) =>
        Done {| mc_header := header; mc_ctx := ctx; mc_out := []; mc_in_tbs := time_base <$> used;
                mc_out_tbs := time_base <$> used; mc_epoch := now; mc_last_timestamp := 0; mc_flushed := false;
                mc_sent := [] |}
    end.
Definition mp4_get_header (c : Mp4Context) : bytes := mc_header c.
(** The clone with the time stamps and the duration in the output's time base. *)
Definition rescaled (pkt cloned : Packet) (in_tb out_tb : AVRational) : Packet :=
  let cloned := packet_rescale_ts cloned in_tb out_tb in
  if 0 <? pk_duration pkt then set_duration (rescale_q (pk_duration pkt) in_tb out_tb) cloned else cloned.
Definition mp4_write_packet (pkt : Packet) (timestamp : Z) (c : Mp4Context) : Mp4Context :=
  match pk_data pkt, packet_ref pkt with
  | [], _ => c
  | _, None => c
  | _, Some cloned =>
      match at_index (pk_index pkt) (mc_in_tbs c), at_index (pk_index pkt) (mc_out_tbs c) with
      | Some in_tb, Some out_tb =>
          let '(ok, produced, ctx) := interleaved_write_frame (rescaled pkt cloned in_tb out_tb) (mc_ctx c) in
          let out := write_callback (mc_out c) produced in
          if negb ok then mp4_set ctx out (mc_last_timestamp c) (mc_flushed c) (mc_sent c) c
          else match out with
               | [] => mp4_set ctx [] timestamp (mc_flushed c) (mc_sent c) c
               | _ => mp4_set ctx [] timestamp (mc_flushed c)
                        (mc_sent c ++ [{| mp_data := out; mp_is_key := pk_key pkt; mp_timestamp := timestamp;
                                          mp_epoch := mc_epoch c; mp_seq := 0 |}]) c
               end
      | _, _ => c
      end
  end.
Definition mp4_flush (c : Mp4Context) : Mp4Context :=
  let '(produced, ctx) := if negb (mc_flushed c) then write_trailer (mc_ctx c) else ([], mc_ctx c) in
  match write_callback (mc_out c) produced with
  | [] => mp4_set ctx [] (mc_last_timestamp c) true (mc_sent c) c
  | out => mp4_set ctx [] (mc_last_timestamp c) true
             (mc_sent c ++ [{| mp_data := out; mp_is_key := false; mp_timestamp := mc_last_timestamp c;
                               mp_epoch := mc_epoch c; mp_seq := 0 |}]) c
  end.

(** ** FLV *)

Record FlvContext := {
  fc_header : bytes; fc_ctx : out_ctx; fc_out : bytes; fc_in_tbs : list AVRational; fc_out_tbs : list AVRational;
  fc_video_index : Z; fc_started : bool; fc_epoch : Z; fc_sent : list MuxPacket
}.
Definition flv_set (ctx : out_ctx) (out : bytes) (started : bool) (sent : list MuxPacket) (c : FlvContext) := {|
  fc_header := fc_header c; fc_ctx := ctx; fc_out := out; fc_in_tbs := fc_in_tbs c; fc_out_tbs := fc_out_tbs c;
  fc_video_index := fc_video_index c; fc_started := started; fc_epoch := fc_epoch c; fc_sent := sent |}.
Definition flv_time_base (s : AVStream) : AVRational :=
  match codec_type (codecpar s) with
  | VIDEO => {| tb_num := 1; tb_den := 1000 |}
  | AUDIO => {| tb_num := 1; tb_den := Z.max (cp_sample_rate (codecpar s)) 1 |}
  | OTHER_TYPE => time_base s
  end.
(** The first video stream, or -1. *)
Definition first_video (streams : list AVStream) : Z :=
  match list_find (fun s => codec_type (codecpar s) = VIDEO) streams with Some (i, _) => Z.of_nat i | None => -1 end.
(** More parameters than streams: FFmpeg's array is read past its end. *)
Definition flv_init_context (now : Z) (streams : list AVStream) (params : nat) : outcome MuxError FlvContext :=
  _ <-! setup_output "flv" ;;
  if (params =? 0)%nat then Failed NoParameters
  else
    _ <-! add_streams 0 (params `min` length streams) ;;
    if (length streams <? params)%nat then Panic else
    let used := take params streams in
    match write_header "flv" [] ((fun s => (codecpar s, Some (flv_time_base s))) <$> used) with
    | None => Failed HeaderFailed
    | Some (header, ctx) =>
        Done {| fc_header := header; fc_ctx := ctx; fc_out := []; fc_in_tbs := time_base <$> used;
                fc_out_tbs := flv_time_base <$> used; fc_video_index := first_video used; fc_started := false;
                fc_epoch := now; fc_sent := [] |}
    end.
Definition flv_get_header (c : FlvContext) : bytes := fc_header c.
Definition is_video_packet (pkt : Packet) (c : FlvContext) : bool :=
  (0 <=? fc_video_index c) && (pk_index pkt =? fc_video_index c).
Definition flv_write_packet (pkt : Packet) (timestamp : Z) (c : FlvContext) : FlvContext :=
  match pk_data pkt with
  | [] => c
  | _ =>
      let cloned := default zeroed_packet (packet_ref pkt) in
      match at_index (pk_index pkt) (fc_in_tbs c), at_index (pk_index pkt) (fc_out_tbs c) with
      | Some in_tb, Some out_tb =>
          if negb (fc_started c) && negb (is_video_packet pkt c && pk_key pkt) then c else
          let '(ok, produced, ctx) := interleaved_write_frame (rescaled pkt cloned in_tb out_tb) (fc_ctx c) in
          let out := write_callback (fc_out c) produced in
          if negb ok then flv_set ctx out true (fc_sent c) c
          else match out with
               | [] => flv_set ctx [] true (fc_sent c) c
               | _ => flv_set ctx [] true
                        (fc_sent c ++ [{| mp_data := out; mp_is_key := is_video_packet pkt c && pk_key pkt;
                                          mp_timestamp := timestamp; mp_epoch := fc_epoch c; mp_seq := 0 |}]) c
               end
      | _, _ => c
      end
  end.
Definition flv_flush (c : FlvContext) : FlvContext := c.

(** ** Fragmented MP4: three modules of the same text *)

Inductive FragKind := KindFmp4 | KindDash | KindHls.
Definition movflags (k : FragKind) : string :=
  match k with KindDash => "frag_keyframe+empty_moov+default_base_moof+dash"
             | _ => "frag_keyframe+empty_moov+default_base_moof" end.
Definition frag_duration (k : FragKind) : string := match k with KindFmp4 => "500000" | _ => "2000000" end.

(** [gc_seq]: of the HLS module. *)
Record FragContext := {
  gc_init_segment : bytes; gc_ctx : out_ctx; gc_out : bytes; gc_timebase_map : gmap Z AVRational; gc_v_idx : Z;
  gc_started_with_key : bool; gc_start_timestamp : Z; gc_seq : Z; gc_epoch : Z; gc_sent : list MuxPacket
}.
Definition frag_set (ctx : out_ctx) (out : bytes) (key : bool) (start : Z) (c : FragContext) := {|
  gc_init_segment := gc_init_segment c; gc_ctx := ctx; gc_out := out; gc_timebase_map := gc_timebase_map c;
  gc_v_idx := gc_v_idx c; gc_started_with_key := key; gc_start_timestamp := start; gc_seq := gc_seq c;
  gc_epoch := gc_epoch c; gc_sent := gc_sent c |}.
Definition frag_send (p : MuxPacket) (seq : Z) (c : FragContext) := {|
  gc_init_segment := gc_init_segment c; gc_ctx := gc_ctx c; gc_out := []; gc_timebase_map := gc_timebase_map c;
  gc_v_idx := gc_v_idx c; gc_started_with_key := gc_started_with_key c; gc_start_timestamp := gc_start_timestamp c;
  gc_seq := seq; gc_epoch := gc_epoch c; gc_sent := gc_sent c ++ [p] |}.
(** The field the media thread writes at a discontinuity. *)
Definition frag_set_epoch (now : Z) (c : FragContext) := {|
  gc_init_segment := gc_init_segment c; gc_ctx := gc_ctx c; gc_out := gc_out c; gc_timebase_map := gc_timebase_map c;
  gc_v_idx := gc_v_idx c; gc_started_with_key := gc_started_with_key c; gc_start_timestamp := gc_start_timestamp c;
  gc_seq := gc_seq c; gc_epoch := now; gc_sent := gc_sent c |}.

(** The time bases by the index of the input stream, the last video stream, and
    the streams made, in the order of the output. *)
Fixpoint copy_streams (i : nat) (streams : list AVStream) (tbs : gmap Z AVRational) (v_idx : Z)
    (made : list AVCodecParameters) : outcome MuxError (gmap Z AVRational * Z * list AVCodecParameters) :=
  match streams with
  | [] => Done (tbs, v_idx, made)
  | s :: streams =>
      match codec_type (codecpar s) with
      | OTHER_TYPE => copy_streams (S i) streams tbs v_idx made
      | t =>
          let v_idx1 := match t with VIDEO => Z.of_nat i | _ => v_idx end in
          if negb (setup_ok (NewStream (length made))) then Failed StreamFailed
          else copy_streams (S i) streams (<[Z.of_nat i := time_base s]> tbs) v_idx1 (made ++ [codecpar s])
      end
  end.
(** A failed [avformat_alloc_context] is written through. *)
Definition frag_init_context (k : FragKind) (now : Z) (streams : list AVStream) : outcome MuxError FragContext :=
  if negb (setup_ok AllocBuffer) then Failed NoMuxBuffer
  else if negb (setup_ok AllocAvio) then Failed NoMuxAvio
  else if negb (setup_ok AllocOutput) then Panic
  else if negb (setup_ok (GuessFormat "mp4")) then Failed NoMuxContext
  else
    r <-! copy_streams 0 streams ∅ (-1) [] ;;
    let '(tbs, v_idx, made) := r in
    match write_header "mp4" [("movflags", movflags k); ("frag_duration", frag_duration k)]%string
            ((fun p => (p, None)) <$> made) with
    | None => Failed HeaderFailed
    | Some (init, ctx) =>
        Done {| gc_init_segment := init; gc_ctx := ctx; gc_out := []; gc_timebase_map := tbs; gc_v_idx := v_idx;
                gc_started_with_key := true; gc_start_timestamp := 0; gc_seq := 0; gc_epoch := now; gc_sent := [] |}
    end.
Definition frag_get_header (c : FragContext) : bytes := gc_init_segment c.
Definition flush_fragment (k : FragKind) (timestamp : Z) (is_key : bool) (c : FragContext) : bool * FragContext :=
  match gc_out c with
  | [] => (false, c)
  | out =>
      let seq := match k with KindHls => gc_seq c + 1 | _ => gc_seq c end in
      (true, frag_send {| mp_data := out; mp_is_key := is_key; mp_timestamp := timestamp; mp_epoch := gc_epoch c;
                          mp_seq := match k with KindHls => seq | _ => 0 end |} seq c)
  end.
(** [Panic]: the array of the output's streams is read past its end. *)
Definition frag_write_packet (k : FragKind) (pkt : Packet) (timestamp : Z) (c : FragContext)
    : outcome MuxError FragContext :=
  match gc_timebase_map c !! pk_index pkt with
  | None => Done c
  | Some in_tb =>
      let cloned := default zeroed_packet (packet_ref pkt) in
      match at_index (pk_index pkt) (out_time_bases (gc_ctx c)) with
      | None => Panic
      | Some out_tb =>
          let '(ok, produced, ctx) := interleaved_write_frame (packet_rescale_ts cloned in_tb out_tb) (gc_ctx c) in
          let c1 := frag_set ctx (write_callback (gc_out c) produced) (gc_started_with_key c) (gc_start_timestamp c) c in
          if negb ok then Done c1 else
          let is_keyframe := (gc_v_idx c =? pk_index pkt) && pk_key pkt in
          let '(sent, c2) := flush_fragment k (gc_start_timestamp c1) (gc_started_with_key c1) c1 in
          Done (if sent : bool then frag_set (gc_ctx c2) (gc_out c2) is_keyframe timestamp c2 else c2)
      end
  end.
Definition frag_flush (k : FragKind) (c : FragContext) : FragContext :=
  let '(p1, ctx1) := write_null_frame (gc_ctx c) in
  let '(p2, ctx2) := write_trailer ctx1 in
  let '(p3, ctx3) := avio_flush ctx2 in
  let out := write_callback (write_callback (write_callback (gc_out c) p1) p2) p3 in
  (flush_fragment k (gc_start_timestamp c) (gc_started_with_key c)
     (frag_set ctx3 out (gc_started_with_key c) (gc_start_timestamp c) c)).2.

(** The modules. *)
Definition CmafFmp4_init_context : Z -> list AVStream -> outcome MuxError FragContext := frag_init_context KindFmp4.
Definition CmafFmp4_write_packet : Packet -> Z -> FragContext -> outcome MuxError FragContext := frag_write_packet KindFmp4.
Definition CmafFmp4_flush : FragContext -> FragContext := frag_flush KindFmp4.
Definition DashCmafMp4_init_context : Z -> list AVStream -> outcome MuxError FragContext := frag_init_context KindDash.
Definition DashCmafMp4_write_packet : Packet -> Z -> FragContext -> outcome MuxError FragContext := frag_write_packet KindDash.
Definition DashCmafMp4_flush : FragContext -> FragContext := frag_flush KindDash.
Definition DashCmafMp4_flush_fragment : Z -> bool -> FragContext -> bool * FragContext := flush_fragment KindDash.
Definition force_flush_fragment (timestamp : Z) (is_key : bool) (c : FragContext) : bool * FragContext :=
  let '(p1, ctx1) := write_null_frame (gc_ctx c) in
  let '(p2, ctx2) := avio_flush ctx1 in
  flush_fragment KindDash timestamp is_key
    (frag_set ctx2 (write_callback (write_callback (gc_out c) p1) p2) (gc_started_with_key c) (gc_start_timestamp c) c).
Definition HlsFmp4_init_context : Z -> list AVStream -> outcome MuxError FragContext := frag_init_context KindHls.
Definition HlsFmp4_write_packet : Packet -> Z -> FragContext -> outcome MuxError FragContext := frag_write_packet KindHls.
Definition HlsFmp4_flush : FragContext -> FragContext := frag_flush KindHls.
Definition HlsFmp4_flush_fragment : Z -> bool -> FragContext -> bool * FragContext := flush_fragment KindHls.
End Muxers.
