(* ===== verification/MuxersProps.v ===== *)
(** * What the muxers send on

    No byte FFmpeg writes is lost, repeated or reordered on its way to the
    players; FLV begins with a video key frame; fragments carry the mark and the
    time of their first packet; streams that are neither video nor audio shift
    the indices of a fragmented output. *)
From S2P Require Import Prelude SharedTypes RtpIngest H265Flv TimeScale CodecParams Muxers.
Local Open Scope gmv_scope.
Local Open Scope Z_scope.

Section Props.
Context `{AVOutput}.

Definition sent_bytes (sent : list MuxPacket) : bytes := mjoin (mp_data <$> sent).
#[local] Arguments sent_bytes : simpl never.
Lemma sent_bytes_snoc sent p : sent_bytes (sent ++ [p]) = sent_bytes sent ++ mp_data p.
Proof. unfold sent_bytes. rewrite fmap_app, join_app. simpl. by rewrite app_nil_r. Qed.

(** The specification: what FFmpeg writes for a sequence of packets. *)
Fixpoint written (inputs : list Packet) (ctx : out_ctx) : bytes * out_ctx :=
  match inputs with
  | [] => ([], ctx)
  | p :: inputs =>
      let '(_, produced, ctx1) := interleaved_write_frame p ctx in
      let '(rest, ctx2) := written inputs ctx1 in (produced ++ rest, ctx2)
  end.
Lemma written_app l1 l2 ctx :
  written (l1 ++ l2) ctx = ((written l1 ctx).1 ++ (written l2 (written l1 ctx).2).1, (written l2 (written l1 ctx).2).2).
Proof.
  revert ctx. induction l1 as [|p l1 IH]; intros ctx; cbn [app written fst snd]; [by destruct (written l2 ctx)|].
  destruct (interleaved_write_frame p ctx) as [[ok produced] ctx1]. rewrite IH.
  destruct (written l1 ctx1) as [b1 c1]. cbn. by rewrite app_assoc.
Qed.

(** ** MP4 *)

(** What a packet gives FFmpeg, if anything. *)
Definition mp4_input (c : Mp4Context) (pkt : Packet) : option Packet :=
  match pk_data pkt, packet_ref pkt, at_index (pk_index pkt) (mc_in_tbs c), at_index (pk_index pkt) (mc_out_tbs c) with
  | _ :: _, Some cloned, Some in_tb, Some out_tb => Some (rescaled pkt cloned in_tb out_tb)
  | _, _, _, _ => None
  end.
Definition mp4_run (pkts : list (Packet * Z)) (c : Mp4Context) : Mp4Context :=
  foldl (fun c p => mp4_write_packet p.1 p.2 c) c pkts.

(** The parts of the context that never change. *)
Definition mp4_same (c c1 : Mp4Context) : Prop := mc_in_tbs c1 = mc_in_tbs c /\ mc_out_tbs c1 = mc_out_tbs c.
Lemma mp4_step pkt ts c : let c1 := mp4_write_packet pkt ts c in
  mp4_same c c1 /\ mc_flushed c1 = mc_flushed c /\
  (let w := written (option_list (mp4_input c pkt)) (mc_ctx c) in
   sent_bytes (mc_sent c1) ++ mc_out c1 = (sent_bytes (mc_sent c) ++ mc_out c) ++ w.1 /\ mc_ctx c1 = w.2).
Proof.
  unfold mp4_write_packet, mp4_input, mp4_same. cbn zeta.
  destruct (pk_data pkt); [by cbn; rewrite app_nil_r|]. destruct (packet_ref pkt); [|by rewrite app_nil_r].
  destruct (at_index _ (mc_in_tbs c)); [|by rewrite app_nil_r]. destruct (at_index _ (mc_out_tbs c)); [|by rewrite app_nil_r].
  cbn [option_list written]. destruct (interleaved_write_frame _ _) as [[ok produced] ctx] eqn:Ew.
  unfold write_callback. cbn. rewrite ?Ew. cbn. rewrite app_nil_r. destruct ok; cbn; [|by rewrite app_assoc].
  destruct (mc_out c ++ produced) eqn:E; cbn; rewrite ?sent_bytes_snoc, ?app_nil_r; cbn; by rewrite <- app_assoc, E, ?app_nil_r.
Qed.
Lemma mp4_input_same c c1 (pkts : list Packet) : mp4_same c c1 -> omap (mp4_input c1) pkts = omap (mp4_input c) pkts.
Proof.
  intros [Hi Ho]. induction pkts as [|p pkts IH]; [done|]. cbn [omap list_omap]. rewrite IH.
  unfold mp4_input at 1 3. by rewrite Hi, Ho.
Qed.
Lemma mp4_run_bytes pkts : forall c, let c1 := mp4_run pkts c in
  let w := written (omap (mp4_input c) pkts.*1) (mc_ctx c) in
  mc_flushed c1 = mc_flushed c /\
  sent_bytes (mc_sent c1) ++ mc_out c1 = (sent_bytes (mc_sent c) ++ mc_out c) ++ w.1 /\ mc_ctx c1 = w.2.
Proof.
  induction pkts as [|[pkt ts] pkts IH]; intros c; [cbn; by rewrite app_nil_r|].
  destruct (mp4_step pkt ts c) as (Hs & Hf & Hb & Hc). destruct (IH (mp4_write_packet pkt ts c)) as (Hf2 & Hb2 & Hc2).
  change (mp4_run ((pkt, ts) :: pkts) c) with (mp4_run pkts (mp4_write_packet pkt ts c)). cbn zeta in *.
  rewrite (mp4_input_same _ _ _ Hs) in Hb2, Hc2. cbn [fmap list_fmap fst].
  replace (omap (mp4_input c) (pkt :: pkts.*1)) with (option_list (mp4_input c pkt) ++ omap (mp4_input c) pkts.*1)
    by (simpl; by destruct (mp4_input c pkt)).
  rewrite written_app. cbn [fst snd]. rewrite <- Hc, Hf2, Hb2, Hb, Hc2, app_assoc. done.
Qed.

Lemma mp4_flush_bytes c : let c1 := mp4_flush c in
  mc_flushed c1 = true /\ mc_out c1 = [] /\
  sent_bytes (mc_sent c1) = (sent_bytes (mc_sent c) ++ mc_out c) ++ (if mc_flushed c then [] else (write_trailer (mc_ctx c)).1).
Proof.
  cbn zeta. unfold mp4_flush. destruct (mc_flushed c); cbn [negb].
  2: destruct (write_trailer (mc_ctx c)) as [produced ctx].
  all: unfold write_callback; rewrite <- app_assoc; cbn [fst].
  all: destruct (mc_out c ++ _); cbn; by rewrite ?sent_bytes_snoc, ?app_nil_r.
Qed.
Lemma mp4_flush_again c : mc_flushed c = true -> mc_out c = [] -> mc_sent (mp4_flush c) = mc_sent c.
Proof. intros Hf Ho. unfold mp4_flush. by rewrite Hf, Ho. Qed.

(** A recording is complete: the header and the packets sent until the
    stream has ended are, put together, exactly the bytes FFmpeg wrote, in
    order, the trailer included; flushing again sends nothing more. *)
Theorem recording_complete (now : Z) (streams : list AVStream) (params : nat) (c : Mp4Context) (pkts : list (Packet * Z)) :
  mp4_init_context now streams params = Done c ->
  let c1 := mp4_flush (mp4_run pkts c) in
  let w := written (omap (mp4_input c) pkts.*1) (mc_ctx c) in
  sent_bytes (mc_sent c1) = w.1 ++ (write_trailer w.2).1 /\ mc_out c1 = [] /\
  mc_sent (mp4_flush c1) = mc_sent c1.
Proof.
  intros Hi. cbn zeta. destruct (mp4_run_bytes pkts c) as (Hf & Hb & Hc). cbn zeta in *.
  assert (mc_flushed c = false /\ mc_sent c = [] /\ mc_out c = []) as (Hf0 & Hs0 & Ho0).
  { apply outcome_bind_done in Hi as (_ & _ & Hi). cases; apply outcome_bind_done in Hi as (_ & _ & Hi); by simplify_eq. }
  destruct (mp4_flush_bytes (mp4_run pkts c)) as (Hf1 & Ho1 & Hb1). rewrite Hf, Hf0, Hc, Hb, Hs0, Ho0 in Hb1.
  split_and!; [exact Hb1|exact Ho1|by apply mp4_flush_again].
Qed.

(** ** FLV *)

Definition flv_run (pkts : list (Packet * Z)) (c : FlvContext) : FlvContext :=
  foldl (fun c p => flv_write_packet p.1 p.2 c) c pkts.
(** A packet the output can begin with. *)
Definition begins (c : FlvContext) (p : Packet * Z) : bool :=
  match pk_data p.1, at_index (pk_index p.1) (fc_in_tbs c), at_index (pk_index p.1) (fc_out_tbs c) with
  | _ :: _, Some _, Some _ => is_video_packet p.1 c && pk_key p.1
  | _, _, _ => false
  end.
Fixpoint from_first (c : FlvContext) (pkts : list (Packet * Z)) : list (Packet * Z) :=
  match pkts with [] => [] | p :: rest => if begins c p then pkts else from_first c rest end.
Lemma flv_not_begun c p : fc_started c = false -> begins c p = false -> flv_write_packet p.1 p.2 c = c.
Proof.
  intros Hs Hb. unfold flv_write_packet, begins in *. destruct (pk_data p.1); [done|].
  destruct (at_index _ (fc_in_tbs c)); [|done]. destruct (at_index _ (fc_out_tbs c)); [|done]. by rewrite Hs, Hb.
Qed.

(** An FLV output begins with a video key frame: the packets before the
    first one change nothing.  A stream without video never begins, whatever
    its packets. *)
Theorem flv_begins_with_key (now : Z) (streams : list AVStream) (params : nat) (c : FlvContext) (pkts : list (Packet * Z)) :
  flv_init_context now streams params = Done c ->
  flv_run pkts c = flv_run (from_first c pkts) c /\
  ((forall s, s ∈ streams -> codec_type (codecpar s) <> VIDEO) -> fc_sent (flv_flush (flv_run pkts c)) = []).
Proof.
  intros Hi.
  assert (fc_started c = false /\ fc_sent c = [] /\ fc_video_index c = first_video (take params streams)) as (Hs & Hsent & Hv).
  { apply outcome_bind_done in Hi as (_ & _ & Hi). cases; apply outcome_bind_done in Hi as (_ & _ & Hi); by simplify_eq. }
  assert (flv_run pkts c = flv_run (from_first c pkts) c) as Hr.
  { induction pkts as [|p pkts IH]; [done|]. cbn [from_first]. destruct (begins c p) eqn:E; [done|].
    change (flv_run (p :: pkts) c) with (flv_run pkts (flv_write_packet p.1 p.2 c)). by rewrite flv_not_begun. }
  split; [done|]. intros Ha. rewrite Hr.
  assert (from_first c pkts = []) as ->; [|done].
  assert (fc_video_index c = -1) as Hm.
  { rewrite Hv. unfold first_video. destruct (list_find _ _) as [[i s]|] eqn:E; [|done].
    apply list_find_Some in E as (Hl & Ht & _). exfalso. apply (Ha s); [|done].
    apply list_elem_of_lookup_2 in Hl. by apply elem_of_take in Hl as (? & ? & _); eapply list_elem_of_lookup_2. }
  clear - Hm. induction pkts as [|p pkts IH]; [done|]. cbn [from_first].
  assert (begins c p = false) as ->; [|done]. unfold begins, is_video_packet. rewrite Hm. cbn. by repeat case_match.
Qed.

(** ** Fragments *)

(** What FFmpeg writes for the packets of a fragmented output. *)
Fixpoint frag_written (tbs : gmap Z AVRational) (pkts : list Packet) (ctx : out_ctx) : bytes * out_ctx :=
  match pkts with
  | [] => ([], ctx)
  | p :: pkts =>
      match tbs !! pk_index p, at_index (pk_index p) (out_time_bases ctx) with
      | Some in_tb, Some out_tb =>
          let w := interleaved_write_frame (packet_rescale_ts (default zeroed_packet (packet_ref p)) in_tb out_tb) ctx in
          (w.1.2 ++ (frag_written tbs pkts w.2).1, (frag_written tbs pkts w.2).2)
      | _, _ => frag_written tbs pkts ctx
      end
  end.
(** The writing of packets, with the mark and the time of those that made it
    send a fragment. *)
Definition frag_label (c : FragContext) : bool * Z := (gc_started_with_key c, gc_start_timestamp c).
Definition label (p : MuxPacket) : bool * Z := (mp_is_key p, mp_timestamp p).
Fixpoint frag_run (k : FragKind) (pkts : list (Packet * Z)) (c : FragContext)
    : outcome MuxError (FragContext * list (bool * Z)) :=
  match pkts with
  | [] => Done (c, [])
  | (pkt, ts) :: pkts =>
      c1 <-! frag_write_packet k pkt ts c ;;
      r <-! frag_run k pkts c1 ;;
      Done (r.1, (if (length (gc_sent c) <? length (gc_sent c1))%nat
                  then [((gc_v_idx c =? pk_index pkt) && pk_key pkt, ts)] else []) ++ r.2)
  end.

(** What one packet does. *)
Definition frag_step_ok (k : FragKind) (pkt : Packet) (ts : Z) (c c1 : FragContext) : Prop :=
  gc_timebase_map c1 = gc_timebase_map c /\ gc_v_idx c1 = gc_v_idx c /\ gc_epoch c1 = gc_epoch c /\
  (let w := frag_written (gc_timebase_map c) [pkt] (gc_ctx c) in
   sent_bytes (gc_sent c1) ++ gc_out c1 = (sent_bytes (gc_sent c) ++ gc_out c) ++ w.1 /\ gc_ctx c1 = w.2) /\
  (gc_sent c1 = gc_sent c /\ frag_label c1 = frag_label c /\ gc_seq c1 = gc_seq c \/
   exists p, gc_sent c1 = gc_sent c ++ [p] /\ label p = frag_label c /\
     frag_label c1 = ((gc_v_idx c =? pk_index pkt) && pk_key pkt, ts) /\
     (k = KindHls -> mp_seq p = gc_seq c + 1 /\ gc_seq c1 = gc_seq c + 1)).
Lemma frag_step k pkt ts c c1 : frag_write_packet k pkt ts c = Done c1 -> frag_step_ok k pkt ts c c1.
Proof.
  unfold frag_write_packet, frag_step_ok. cbn [frag_written]. destruct (gc_timebase_map c !! pk_index pkt) as [in_tb|] eqn:Et.
  2: { intros [= <-]. cbn. rewrite app_nil_r. by split_and!; [..|left]. }
  destruct (at_index _ _) as [out_tb|]; [|done].
  destruct (interleaved_write_frame _ _) as [[ok produced] ctx] eqn:Ew. cbn [fst snd]. unfold write_callback. rewrite app_nil_r.
  destruct ok; cbn [negb]; [|intros [= <-]; cbn; rewrite app_assoc; by split_and!; [..|left]].
  unfold flush_fragment. cbn [gc_out frag_set]. destruct (gc_out c ++ produced) as [|b out] eqn:Eo.
  - intros [= <-]. cbn. rewrite app_nil_r, <- app_assoc, Eo, app_nil_r. by split_and!; [..|left].
  - intros [= <-]. cbn. rewrite sent_bytes_snoc, app_nil_r, <- app_assoc, Eo. split_and!; [done..|]. right.
    eexists. split; [done|]. cbn. split; [done|]. split; [done|]. by intros ->.
Qed.

Definition numbered (n0 : Z) (sent : list MuxPacket) : Prop :=
  forall i p, sent !! i = Some p -> mp_seq p = n0 + 1 + Z.of_nat i.
Lemma frag_run_ok k pkts : forall c c1 E, frag_run k pkts c = Done (c1, E) ->
  exists more, gc_sent c1 = gc_sent c ++ more /\ label <$> more = take (length E) (frag_label c :: E) /\
    last (frag_label c :: E) = Some (frag_label c1) /\ length more = length E /\
    (k = KindHls -> numbered (gc_seq c) more /\ gc_seq c1 = gc_seq c + Z.of_nat (length more)) /\
    (let w := frag_written (gc_timebase_map c) pkts.*1 (gc_ctx c) in
     sent_bytes (gc_sent c1) ++ gc_out c1 = (sent_bytes (gc_sent c) ++ gc_out c) ++ w.1 /\ gc_ctx c1 = w.2).
Proof.
  induction pkts as [|[pkt ts] pkts IH]; intros c c2 E2; cbn [frag_run].
  - intros [= <- <-]. exists []. cbn. rewrite !app_nil_r. split_and!; try done. intros _. split; [done|lia].
  - intros Hr. apply outcome_bind_done in Hr as (c1 & Hw & Hr). apply outcome_bind_done in Hr as ([c1' E] & Hr & Heq).
    cbn [fst snd] in Heq. injection Heq as -> <-. destruct (frag_step _ _ _ _ _ Hw) as (Htb & Hv & _ & (Hb & Hc) & Hs).
    destruct (IH _ _ _ Hr) as (more & Hm & Hl & Hlast & Hlen & Hq & Hb2 & Hc2). cbn zeta in *.
    assert (frag_written (gc_timebase_map c) ((pkt, ts) :: pkts).*1 (gc_ctx c) =
      ((frag_written (gc_timebase_map c) [pkt] (gc_ctx c)).1 ++ (frag_written (gc_timebase_map c1) pkts.*1 (gc_ctx c1)).1,
       (frag_written (gc_timebase_map c1) pkts.*1 (gc_ctx c1)).2)) as Hfw.
    { rewrite Hc, Htb. cbn [fmap list_fmap fst frag_written]. destruct (gc_timebase_map c !! _); [|by apply surjective_pairing].
      destruct (at_index _ _); cbn [fst snd]; rewrite ?app_nil_r; [done|by apply surjective_pairing]. }
    rewrite Hfw. cbn [fst snd]. destruct Hs as [(Hse & Hla & Hsq)|(p & Hse & Hlp & Hla & Hsq)].
    + rewrite Hse, Nat.ltb_irrefl. cbn [app]. exists more. rewrite Hm, Hse, <- Hla. split_and!; try done.
      * intros Hk. destruct (Hq Hk) as [Hn ->]. by rewrite <- Hsq.
      * rewrite Hm, Hse in Hb2. rewrite Hse in Hb. by rewrite Hb2, Hb, app_assoc.
    + rewrite Hse. assert ((length (gc_sent c) <? length (gc_sent c ++ [p]))%nat = true) as ->
        by (apply Nat.ltb_lt; rewrite length_app; simpl; lia). exists (p :: more).
      rewrite Hm, Hse, <- app_assoc. cbn [app fmap list_fmap length take]. rewrite <- Hla, Hl, Hlp, Hlen. split_and!; try done.
      * intros Hk. destruct (Hsq Hk) as [Hp Hs1]. destruct (Hq Hk) as [Hn ->]. split; [|rewrite Hs1; cbn [length]; lia].
        intros [|i] p'; cbn; [intros [= <-]; lia|]. intros Hi. rewrite (Hn _ _ Hi), Hs1. lia.
      * rewrite Hm, Hse, <- app_assoc in Hb2. rewrite Hse in Hb. cbn [app] in Hb2. by rewrite Hb2, Hb, app_assoc.
Qed.


(** ** The indices of the streams *)

Definition audio_or_video (s : AVStream) : bool := match codec_type (codecpar s) with OTHER_TYPE => false | _ => true end.
Lemma copy_streams_made sts : forall i tbs v made tbs' v' made',
  copy_streams i sts tbs v made = Done (tbs', v', made') ->
  made' = made ++ (codecpar <$> filter (fun s => audio_or_video s = true) sts) /\
  (forall z, z < Z.of_nat i -> tbs' !! z = tbs !! z) /\
  (forall j s, sts !! j = Some s -> audio_or_video s = true -> tbs' !! Z.of_nat (i + j) = Some (time_base s)).
Proof.
  induction sts as [|s sts IH]; intros i tbs v made tbs' v' made' Hc; cbn [copy_streams] in Hc.
  { injection Hc as <- <- <-. by rewrite app_nil_r. }
  destruct (audio_or_video s) eqn:Ea.
  - assert (exists v1, copy_streams (S i) sts (<[Z.of_nat i := time_base s]> tbs) v1 (made ++ [codecpar s])
      = Done (tbs', v', made')) as [v1 Hc1].
    { unfold audio_or_video in Ea. destruct (codec_type (codecpar s)); [| |done]; (destruct (negb _); [done|]); eauto. }
    apply IH in Hc1 as (-> & Hlo & Hhi). split_and!.
    + rewrite filter_cons_True by done. by rewrite <- app_assoc.
    + intros z Hz. rewrite Hlo by lia. apply lookup_insert_ne. lia.
    + intros [|j] s' Hj Hs'; cbn in Hj.
      * injection Hj as <-. rewrite Nat.add_0_r, Hlo by lia. apply lookup_insert_eq.
      * rewrite <- Nat.add_succ_comm. by apply Hhi.
  - assert (copy_streams (S i) sts tbs v made = Done (tbs', v', made')) as Hc1.
    { unfold audio_or_video in Ea. by destruct (codec_type (codecpar s)). }
    apply IH in Hc1 as (-> & Hlo & Hhi). split_and!.
    + by rewrite filter_cons_False by (by rewrite Ea).
    + intros z Hz. apply Hlo. lia.
    + intros [|j] s' Hj Hs'; cbn in Hj; [injection Hj as <-; congruence|]. rewrite <- Nat.add_succ_comm. by apply Hhi.
Qed.

End Props.

(** ** Witnesses *)

(** FFmpeg's output side, writing the data of each packet and a trailer. *)
Definition demo_output : AVOutput := {|
  out_ctx := list AVRational; setup_ok _ := true;
  write_header _ _ sts := Some ([1; 2], (fun _ => {| tb_num := 1; tb_den := 90000 |}) <$> sts);
  out_time_bases ctx := ctx; packet_ref p := Some p; packet_rescale_ts p _ _ := p; rescale_q x _ _ := x;
  interleaved_write_frame p ctx := (true, pk_data p, ctx); write_null_frame ctx := ([], ctx);
  write_trailer ctx := ([255], ctx); avio_flush ctx := ([], ctx) |}.
Definition demo_parameters (t : AVMediaType) (id : AVCodecID) : AVCodecParameters := {|
  codec_type := t; codec_id := id; extradata := None; format := 0; bit_rate := 0; profile := 0; level := 0;
  width := 704; height := 576; framerate := {| tb_num := 25; tb_den := 1 |}; cp_sample_rate := 8000; cp_channels := 1;
  channel_layout := 4; video_delay := 0 |}.
Definition demo_stream (t : AVMediaType) (id : AVCodecID) : AVStream := {|
  time_base := {| tb_num := 1; tb_den := 90000 |}; avg_frame_rate := {| tb_num := 25; tb_den := 1 |};
  r_frame_rate := {| tb_num := 25; tb_den := 1 |}; start_time := 0; duration := 0; codecpar := demo_parameters t id |}.
Definition demo_packet (i : Z) (key : bool) (data : bytes) : Packet := {|
  pk_index := i; pk_pts := 0; pk_dts := 0; pk_duration := 3600; pk_key := key; pk_data := data |}.
Definition demo_streams : list AVStream := [demo_stream VIDEO H264; demo_stream AUDIO PCM_ALAW].
Definition demo_packets : list (Packet * Z) :=
  [(demo_packet 1 false [7], 0); (demo_packet 0 true [10; 11], 0); (demo_packet 0 false [12], 1); (demo_packet 1 false [8], 1)].

Lemma recording_complete_witness :
  exists c, mp4_init_context (H := demo_output) 5 demo_streams 2 = Done c /\
    sent_bytes (mc_sent (H := demo_output) (mp4_flush (H := demo_output) (mp4_run (H := demo_output) demo_packets c))) =
    [7; 10; 11; 12; 8; 255].
Proof.
  eexists. split; [reflexivity|].
  match goal with |- context [mp4_run demo_packets ?c] =>
    destruct (recording_complete (H := demo_output) 5 demo_streams 2 c demo_packets eq_refl) as (-> & _) end.
  vm_compute. reflexivity.
Defined.
Lemma flv_begins_with_key_witness :
  exists c, flv_init_context (H := demo_output) 5 demo_streams 2 = Done c /\
    flv_run (H := demo_output) demo_packets c = flv_run (H := demo_output) (tail demo_packets) c.
Proof.
  eexists. split; [reflexivity|].
  match goal with |- flv_run demo_packets ?c = _ =>
    destruct (flv_begins_with_key (H := demo_output) 5 demo_streams 2 c demo_packets eq_refl) as (-> & _) end.
  reflexivity.
Defined.
