(* ===== verification/MediaLoop.v ===== *)
(** * The media thread of a stream ([stream/src/media/context/mod.rs],
    [format/muxer.rs], [event/])

    [FmtMuxer] is the trait the muxers implement.  The thread repairs the
    parameters of the streams while it looks for the first key frame, opens the
    muxers asked for, and then hands every packet, its times regularised, to
    each of them, looking for events in between.  What FFmpeg reads and what the
    channel holds at each look are arguments. *)
From S2P Require Import Prelude SharedTypes StreamOutputs RtpIngest RtpDepacket H265Flv TimeScale CodecParams.
From S2P Require Import MediaParams Muxers.
Local Open Scope gmv_scope.
Local Open Scope Z_scope.

(** ** [RtpState] *)

Record RtpState := { first_unwrapped : Z; timestamp : Z; marker : bool; last_32 : Z; last_unwrapped : Z }.
Definition RtpState_new : RtpState := {|
  first_unwrapped := 0; timestamp := 0; marker := false; last_32 := 0; last_unwrapped := 0 |}.
(** The unwrapped time stamp and the difference to the last one. *)
Definition RtpState_update (cur_ts clock_rate : Z) (s : RtpState) : Z * Z * RtpState :=
  let cur_unwrapped :=
    if last_unwrapped s =? 0 then cur_ts
    else
      let diff := i64_sub cur_ts (last_32 s) in
      let diff := if (diff <? 0) && (2 ^ 31 <? (last_32 s - cur_ts) mod 2 ^ 32)
                  then cur_ts + 2 ^ 32 - last_32 s else diff in
      let max_diff := clock_rate * 3 in
      i64_add (last_unwrapped s) (if diff <? 0 then 0 else if max_diff <? diff then max_diff else diff) in
  let duration_ticks := if last_unwrapped s =? 0 then 0 else i64_sub cur_unwrapped (last_unwrapped s) in
  (cur_unwrapped, duration_ticks,
   {| first_unwrapped := first_unwrapped s; timestamp := timestamp s; marker := marker s; last_32 := cur_ts;
      last_unwrapped := cur_unwrapped |}).

(** ** The trait of the muxers *)

(** What a muxer is made of: FFmpeg's streams and the repair state of each. *)
Record Demuxed := { dx_streams : list AVStream; dx_params : list ParamRepairState }.
(** [None]: the muxer could not be made, for whatever reason; the errors of
    [write_packet] are not looked at. *)
Class FmtMuxer (M : Type) := {
  init_context : Z -> Demuxed -> outcome unit (option M);
  get_header : M -> bytes;
  write_packet : Packet -> Z -> M -> outcome unit M;
  flush : M -> M
}.
(** The field [epoch] of the muxers of fragments. *)
Class HasEpoch (M : Type) := set_epoch : Z -> M -> M.

(** Errors are logged by the caller's [let _]. *)
Definition opened {E A B} (f : A -> B) (o : outcome E A) : outcome unit (option B) :=
  match o with Done c => Done (Some (f c)) | Failed _ => Done None | Panic => Panic end.
Definition written_to {E A B} (f : A -> B) (o : outcome E A) : outcome unit B :=
  match o with Done c => Done (f c) | _ => Panic end.

Section Instances.
Context `{AVOutput} `{!MapIter Z}.
Record CmafFmp4Context := Cmaf { cmaf : FragContext }.
Record DashCmafMp4Context := Dash { dash : FragContext }.
Record HlsFmp4Context := Hls { hls : FragContext }.
(** FFmpeg's numbers; whether the channel of the H.265 muxer has a receiver. *)
Context (codec_number : AVCodecID -> Z) (listened : bool).

#[global] Instance Mp4_muxer : FmtMuxer Mp4Context := {|
  init_context now d := opened id (mp4_init_context now (dx_streams d) (length (dx_params d)));
  get_header := mp4_get_header;
  write_packet pkt ts c := Done (mp4_write_packet pkt ts c);
  flush := mp4_flush |}.
#[global] Instance Flv_muxer : FmtMuxer FlvContext := {|
  init_context now d := opened id (flv_init_context now (dx_streams d) (length (dx_params d)));
  get_header := flv_get_header;
  write_packet pkt ts c := Done (flv_write_packet pkt ts c);
  flush := flv_flush |}.
#[global] Instance Cmaf_muxer : FmtMuxer CmafFmp4Context := {|
  init_context now d := opened Cmaf (CmafFmp4_init_context now (dx_streams d));
  get_header c := frag_get_header (cmaf c);
  write_packet pkt ts c := written_to Cmaf (CmafFmp4_write_packet pkt ts (cmaf c));
  flush c := Cmaf (CmafFmp4_flush (cmaf c)) |}.
#[global] Instance Cmaf_epoch : HasEpoch CmafFmp4Context := fun now c => Cmaf (frag_set_epoch now (cmaf c)).
#[global] Instance Dash_muxer : FmtMuxer DashCmafMp4Context := {|
  init_context now d := opened Dash (DashCmafMp4_init_context now (dx_streams d));
  get_header c := frag_get_header (dash c);
  write_packet pkt ts c := written_to Dash (DashCmafMp4_write_packet pkt ts (dash c));
  flush c := Dash (DashCmafMp4_flush (dash c)) |}.
#[global] Instance Dash_epoch : HasEpoch DashCmafMp4Context := fun now c => Dash (frag_set_epoch now (dash c)).
#[global] Instance Hls_muxer : FmtMuxer HlsFmp4Context := {|
  init_context now d := opened Hls (HlsFmp4_init_context now (dx_streams d));
  get_header c := frag_get_header (hls c);
  write_packet pkt ts c := written_to Hls (HlsFmp4_write_packet pkt ts (hls c));
  flush c := Hls (HlsFmp4_flush (hls c)) |}.
#[global] Instance Hls_epoch : HasEpoch HlsFmp4Context := fun now c => Hls (frag_set_epoch now (hls c)).

(** The H.265 FLV muxer with what it has sent. *)
Definition fmt_stream (s : AVStream) : FmtStream := {|
  fs_kind := match codec_type (codecpar s) with VIDEO => VideoStream | AUDIO => AudioStream | OTHER_TYPE => OtherStream end;
  fs_time_base := time_base s; fs_codec_id := codec_number (codec_id (codecpar s));
  fs_sample_rate := cp_sample_rate (codecpar s); fs_channels := cp_channels (codecpar s);
  fs_extradata := default [] (extradata (codecpar s)) |}.
Definition h265_packet (p : Packet) : H265Flv.AVPacket := {|
  pkt_stream_index := pk_index p; pkt_dts := pk_dts p; pkt_pts := pk_pts p; pkt_data := pk_data p |}.
Definition H265Flv_muxer : FmtMuxer (H265FlvContext * list MuxPacket) := {|
  init_context now d :=
    opened (fun c => (c, []))
      (H265Flv.init_context (codec_number AAC) (codec_number PCM_ALAW) (codec_number PCM_MULAW) now
         (fmt_stream <$> dx_streams d) (h265_ps <$> dx_params d));
  get_header c := H265Flv.get_header c.1;
  write_packet pkt ts c :=
    Done (c.1, (H265Flv.write_packet (codec_number AAC) (codec_number PCM_ALAW) (codec_number PCM_MULAW) rescale_q
                  listened (h265_packet pkt) ts c.1 c.2).2);
  flush c := c |}.
End Instances.

Section Context_.
Context {FlvC H265C Mp4C CmafC DashC HlsC : Type}.
Context `{!FmtMuxer FlvC, !FmtMuxer H265C, !FmtMuxer Mp4C, !FmtMuxer CmafC, !FmtMuxer DashC, !FmtMuxer HlsC}.
Context `{!HasEpoch CmafC, !HasEpoch DashC, !HasEpoch HlsC}.
Context `{FFmpeg}.

(** ** [MuxerContext] *)

Inductive FlvSupperCtx := FlvCtx (c : FlvC) | H265FlvCtx (c : H265C).
(** The five muxers that are empty structs: present or not.  [mx_finished]: the
    recordings an event has closed, with all they have sent. *)
Record MuxerContext := {
  mx_flv : option FlvSupperCtx; mx_mp4 : option Mp4C; mx_dash_mp4 : option DashC; mx_ts : option unit;
  mx_hls_ts : option unit; mx_hls_mp4 : option HlsC; mx_fmp4 : option CmafC; mx_rtp_ps : option unit;
  mx_rtp_enc : option unit; mx_rtp_frame : option unit; mx_finished : list Mp4C
}.
Definition MuxerContext_default : MuxerContext := {|
  mx_flv := None; mx_mp4 := None; mx_dash_mp4 := None; mx_ts := None; mx_hls_ts := None; mx_hls_mp4 := None;
  mx_fmp4 := None; mx_rtp_ps := None; mx_rtp_enc := None; mx_rtp_frame := None;
  mx_finished := [] |}.
Definition with_flv (v : option FlvSupperCtx) (m : MuxerContext) : MuxerContext := {|
  mx_flv := v; mx_mp4 := mx_mp4 m; mx_dash_mp4 := mx_dash_mp4 m; mx_ts := mx_ts m; mx_hls_ts := mx_hls_ts m;
  mx_hls_mp4 := mx_hls_mp4 m; mx_fmp4 := mx_fmp4 m; mx_rtp_ps := mx_rtp_ps m; mx_rtp_enc := mx_rtp_enc m;
  mx_rtp_frame := mx_rtp_frame m; mx_finished := mx_finished m |}.
Definition with_files (mp4 : option Mp4C) (dash : option DashC) (hls : option HlsC) (fmp4 : option CmafC)
    (m : MuxerContext) : MuxerContext := {|
  mx_flv := mx_flv m; mx_mp4 := mp4; mx_dash_mp4 := dash; mx_ts := mx_ts m; mx_hls_ts := mx_hls_ts m;
  mx_hls_mp4 := hls; mx_fmp4 := fmp4; mx_rtp_ps := mx_rtp_ps m; mx_rtp_enc := mx_rtp_enc m;
  mx_rtp_frame := mx_rtp_frame m; mx_finished := mx_finished m |}.
(** A muxer is dropped; a recording is flushed before. *)
Definition without (e : MuxerEnum) (m : MuxerContext) : MuxerContext :=
  let gone {A : Type} (this : bool) (x : option A) := if this then None else x in
  let it x := bool_decide (e = x) in
  {| mx_flv := gone (it Flv) (mx_flv m); mx_mp4 := gone (it Mp4) (mx_mp4 m);
     mx_dash_mp4 := gone (it DashMp4Muxer) (mx_dash_mp4 m); mx_ts := gone (it Ts) (mx_ts m);
     mx_hls_ts := gone (it HlsTsMuxer) (mx_hls_ts m); mx_hls_mp4 := gone (it HlsMp4) (mx_hls_mp4 m);
     mx_fmp4 := gone (it FMp4) (mx_fmp4 m); mx_rtp_ps := gone (it RtpPs) (mx_rtp_ps m);
     mx_rtp_enc := gone (it RtpEnc) (mx_rtp_enc m); mx_rtp_frame := gone (it RtpFrame) (mx_rtp_frame m);
     mx_finished := mx_finished m ++ (if it Mp4 then option_list (flush <$> mx_mp4 m) else []) |}.
(** The muxers that only exist as empty structs. *)
Definition empty_muxers (m : MuxerContext) : list (option unit) :=
  [mx_ts m; mx_rtp_frame m; mx_rtp_ps m; mx_rtp_enc m; mx_hls_ts m].
Definition unimplemented (os : list (option unit)) : bool := existsb (fun o => bool_decide (is_Some o)) os.

Definition input_has_hevc_video (streams : list AVStream) : bool :=
  existsb (fun s => bool_decide (codec_type (codecpar s) = VIDEO) && bool_decide (codec_id (codecpar s) = HEVC)) streams.
Definition init_flv (hevc : bool) (now : Z) (d : Demuxed) : outcome unit (option FlvSupperCtx) :=
  if hevc then c <-! init_context now d ;; Done (H265FlvCtx <$> c)
  else c <-! init_context now d ;; Done (FlvCtx <$> c).
(** A muxer that is asked for. *)
Definition init_if {M} `{!FmtMuxer M} (layer : option Z) (now : Z) (d : Demuxed) : outcome unit (option M) :=
  match layer with None => Done None | Some _ => init_context now d end.
Definition MuxerContext_init (now : Z) (d : Demuxed) (muxer : MuxerLayer) : outcome unit MuxerContext :=
  flv <-! (match ml_flv muxer with
           | None => Done None | Some _ => init_flv (input_has_hevc_video (dx_streams d)) now d end) ;;
  mp4 <-! init_if (ml_mp4 muxer) now d ;;
  if existsb (fun o => bool_decide (is_Some o))
       [ml_ts muxer; ml_hls_ts muxer; ml_rtp_frame muxer; ml_rtp_ps muxer; ml_rtp_enc muxer] then Panic
  else
    fmp4 <-! init_if (ml_fmp4 muxer) now d ;;
    dash <-! init_if (ml_dash_mp4 muxer) now d ;;
    hls <-! init_if (ml_hls_mp4 muxer) now d ;;
    Done (with_files mp4 dash hls fmp4 (with_flv flv MuxerContext_default)).

(** ** Packets to the muxers *)

Definition write_if {M} `{!FmtMuxer M} (pkt : Packet) (ts : Z) (m : option M) : outcome unit (option M) :=
  match m with None => Done None | Some c => c1 <-! write_packet pkt ts c ;; Done (Some c1) end.
Definition renewed {M} `{!HasEpoch M} (epoch : ProcessResult) (now : Z) (m : option M) : option M :=
  match epoch with Discontinuity => set_epoch now <$> m | POk => m end.
Definition handle_pkt_muxer (now : Z) (epoch : ProcessResult) (pkt : Packet) (ts : Z) (m : MuxerContext)
    : outcome unit MuxerContext :=
  flv <-! (match mx_flv m with
           | None => Done None
           | Some (FlvCtx c) => c1 <-! write_packet pkt ts c ;; Done (Some (FlvCtx c1))
           | Some (H265FlvCtx c) => c1 <-! write_packet pkt ts c ;; Done (Some (H265FlvCtx c1))
           end) ;;
  mp4 <-! write_if pkt ts (mx_mp4 m) ;;
  if unimplemented (empty_muxers m) then Panic
  else
    fmp4 <-! write_if pkt ts (renewed epoch now (mx_fmp4 m)) ;;
    dash <-! write_if pkt ts (renewed epoch now (mx_dash_mp4 m)) ;;
    hls <-! write_if pkt ts (renewed epoch now (mx_hls_mp4 m)) ;;
    Done (with_files mp4 dash hls fmp4 (with_flv flv m)).
Definition flush_flv (c : FlvSupperCtx) : FlvSupperCtx :=
  match c with FlvCtx c => FlvCtx (flush c) | H265FlvCtx c => H265FlvCtx (flush c) end.
Definition handle_pkt_muxer_end (m : MuxerContext) : outcome unit MuxerContext :=
  if unimplemented (empty_muxers m) then Panic
  else Done (with_files (flush <$> mx_mp4 m) (flush <$> mx_dash_mp4 m) (flush <$> mx_hls_mp4 m) (flush <$> mx_fmp4 m)
               (with_flv (flush_flv <$> mx_flv m) m)).

(** ** Events *)

(** [hint]: FFmpeg's [video_codec_id], which only a described codec sets. *)
Inductive MuxerEvent := Open (m : MuxerEnum) | Close (m : MuxerEnum).
(** With the channel of the answer. *)
Inductive InnerEvent :=
| FlvHeader (tx : Z) | Mp4Header (tx : Z) | Fmp4Header (tx : Z) | DashMp4Header (tx : Z) | MediaParamOf (tx : Z).
Inductive ContextEvent := ECodec | EMuxer (e : MuxerEvent) | EFilter | EInner (e : InnerEvent).
Inductive MediaReply := RHeader (tx : Z) (header : bytes) | RParam (tx : Z) (p : MediaParam).

(** An open that fails leaves what is there. *)
Definition or_old {A} (new old : option A) : option A := match new with Some _ => new | None => old end.
Definition handle_muxer_event (now : Z) (hint : AVCodecID) (d : Demuxed) (e : MuxerEvent) (m : MuxerContext)
    : outcome unit MuxerContext :=
  let files := with_files in
  match e with
  | Open Flv => c <-! init_flv (bool_decide (hint = HEVC)) now d ;; Done (with_flv (or_old c (mx_flv m)) m)
  | Open FMp4 => c <-! init_context now d ;;
                 Done (files (mx_mp4 m) (mx_dash_mp4 m) (mx_hls_mp4 m) (or_old c (mx_fmp4 m)) m)
  | Open DashMp4Muxer => c <-! init_context now d ;;
                 Done (files (mx_mp4 m) (or_old c (mx_dash_mp4 m)) (mx_hls_mp4 m) (mx_fmp4 m) m)
  | Open HlsMp4 => c <-! init_context now d ;;
                 Done (files (mx_mp4 m) (mx_dash_mp4 m) (or_old c (mx_hls_mp4 m)) (mx_fmp4 m) m)
  | Open _ => Panic
  | Close e => Done (without e m)
  end.
Definition flv_header (c : FlvSupperCtx) : bytes :=
  match c with FlvCtx c => get_header c | H265FlvCtx c => get_header c end.
Definition handle_inner_event (now : Z) (streams : list AVStream) (e : InnerEvent) (m : MuxerContext) : option MediaReply :=
  match e with
  | FlvHeader tx => RHeader tx <$> (flv_header <$> mx_flv m)
  | Mp4Header tx => RHeader tx <$> (get_header <$> mx_mp4 m)
  | Fmp4Header tx => RHeader tx <$> (get_header <$> mx_fmp4 m)
  | DashMp4Header tx => RHeader tx <$> (get_header <$> mx_dash_mp4 m)
  | MediaParamOf tx => Some (RParam tx (parse_media_param now streams))
  end.

(** ** [MediaContext] *)

Record MediaContext := {
  md_ext : MediaExt; md_hint : AVCodecID; md_demuxed : Demuxed; md_muxers : MuxerContext; md_replies : list MediaReply
}.
Definition md_with (m : MuxerContext) (replies : list MediaReply) (c : MediaContext) : MediaContext := {|
  md_ext := md_ext c; md_hint := md_hint c; md_demuxed := md_demuxed c; md_muxers := m; md_replies := replies |}.
Definition md_repaired (d : Demuxed) (c : MediaContext) : MediaContext := {|
  md_ext := md_ext c; md_hint := md_hint c; md_demuxed := d; md_muxers := md_muxers c; md_replies := md_replies c |}.

(** Whether there is one, and the index of the first. *)
Definition has_stream (t : AVMediaType) (c : MediaContext) : bool * Z :=
  match list_find (fun s => codec_type (codecpar s) = t) (dx_streams (md_demuxed c)) with
  | Some (i, _) => (true, Z.of_nat i) | None => (false, 0)
  end.
Definition has_video_stream : MediaContext -> bool * Z := has_stream VIDEO.
Definition has_audio_stream : MediaContext -> bool * Z := has_stream AUDIO.

Definition handle_event (now : Z) (e : ContextEvent) (c : MediaContext) : outcome unit MediaContext :=
  match e with
  | ECodec | EFilter => Panic
  | EMuxer e => m <-! handle_muxer_event now (md_hint c) (md_demuxed c) e (md_muxers c) ;;
                Done (md_with m (md_replies c) c)
  | EInner e => Done (md_with (md_muxers c)
                        (md_replies c ++ option_list (handle_inner_event now (dx_streams (md_demuxed c)) e (md_muxers c))) c)
  end.

(** *** Finding the start *)

Definition FIX_MAX_READ_FRAME : nat := 128.
Definition ts_part (p : Packet) : TimeScale.AVPacket := {|
  pts := pk_pts p; dts := pk_dts p; stream_index := pk_index p;
  av_empty := match pk_data p with [] => true | _ => false end |}.
Definition with_times (t : TimeScale.AVPacket) (p : Packet) : Packet := {|
  pk_index := pk_index p; pk_pts := pts t; pk_dts := dts t; pk_duration := pk_duration p; pk_key := pk_key p;
  pk_data := pk_data p |}.

(** The variables of the loop. *)
Record FixState := {
  fx_demuxed : Demuxed; fx_normalizer : TimelineNormalizer; fx_pkts : list Packet; fx_video_keyframe_found : bool;
  fx_audio_ready : bool; fx_counter : nat
}.
Definition init_timelines (d : Demuxed) : outcome unit TimelineNormalizer :=
  foldl (fun n i =>
    n <-! n ;;
    match dx_streams d !! i with
    | Some s => init_stream i (bool_decide (codec_type (codecpar s) = AUDIO)) (video_delay (codecpar s)) n
    | None => Panic
    end) (Done (TimelineNormalizer_new (length (dx_params d)))) (seq 0 (length (dx_params d))).
(** The parameter [ready] is set after the call. *)
Definition repair_stream (ext : MediaExt) (i : nat) (st : AVStream) (param : ParamRepairState) (pkt : Packet) (d : Demuxed)
    : outcome unit Demuxed :=
  if ready param then Done d
  else
    r <-! repair_basic_stream_info st (pk_data pkt) ext param ;;
    let '(ok, st1, param1) := r in
    Done {| dx_streams := <[i := st1]> (dx_streams d);
            dx_params := <[i := {| h264_ps := h264_ps param1; h265_ps := h265_ps param1; aac_asc := aac_asc param1;
                                   ready := ok |}]> (dx_params d) |}.
(** One packet: the state after it, and whether the loop ends. *)
Definition fix_step (has_video : bool) (ext : MediaExt) (pkt : Packet) (s : FixState) : outcome unit (FixState * bool) :=
  match at_index (pk_index pkt) (dx_params (fx_demuxed s)) with
  | None => Done (s, false)
  | Some param =>
      let i := Z.to_nat (pk_index pkt) in
      match dx_streams (fx_demuxed s) !! i, pk_data pkt with
      | None, _ => Panic
      | Some _, [] => Done (s, false)
      | Some st, _ =>
          let '(ok, t) := repair_missing_timestamps (ts_part pkt) (video_delay (codecpar st)) in
          if negb ok then Done (s, false)
          else
            let pkt1 := with_times t pkt in
            d <-! repair_stream ext i st param pkt1 (fx_demuxed s) ;;
            let t := codec_type (codecpar (default st (dx_streams d !! i))) in
            let key := fx_video_keyframe_found s || (bool_decide (t = VIDEO) && pk_key pkt) in
            let audio := fx_audio_ready s || bool_decide (t = AUDIO) in
            let should_cache := if has_video then key else audio in
            Done ({| fx_demuxed := d;
                     fx_normalizer := if should_cache then rescale_global_base_us (pk_pts pkt1) (fx_normalizer s)
                                      else fx_normalizer s;
                     fx_pkts := if should_cache then fx_pkts s ++ [pkt1] else fx_pkts s;
                     fx_video_keyframe_found := key; fx_audio_ready := audio; fx_counter := S (fx_counter s) |},
                  should_cache && forallb ready (dx_params d))
      end
  end.
(** What is read, and what is left to read after the loop. *)
Fixpoint fix_loop (has_video : bool) (ext : MediaExt) (reads : list Packet) (s : FixState)
    : outcome unit (FixState * list Packet) :=
  if (fx_counter s <? FIX_MAX_READ_FRAME)%nat then
    match reads with
    | [] => Done (s, [])
    | pkt :: reads =>
        r <-! fix_step has_video ext pkt s ;;
        if r.2 : bool then Done (r.1, reads) else fix_loop has_video ext reads r.1
    end
  else Done (s, reads).
(** The packets kept with the normalizer, the streams repaired, and the rest. *)
Definition fix_basic_stream_info (ext : MediaExt) (d : Demuxed) (reads : list Packet)
    : outcome unit (list Packet * TimelineNormalizer * Demuxed * list Packet) :=
  n <-! init_timelines d ;;
  let has_video := existsb (fun s => bool_decide (codec_type (codecpar s) = VIDEO))
                     (take (length (dx_params d)) (dx_streams d)) in
  r <-! fix_loop has_video ext reads
          {| fx_demuxed := d; fx_normalizer := n; fx_pkts := []; fx_video_keyframe_found := false;
             fx_audio_ready := false; fx_counter := 0 |} ;;
  let '(s, rest) := r in
  let n1 := fx_normalizer s in
  Done (fx_pkts s,
        if global_base_us n1 =? i64_max then {| streams := streams n1; global_base_us := 0 |} else n1,
        fx_demuxed s, rest).

(** *** The main loop *)

(** What [try_recv] finds. *)
Inductive Poll := PEvent (e : ContextEvent) | PClosed | PNothing.
(** The time bases the normalizer was given, in microseconds; the clock when so
    many packets have been handed on. *)
Context (rescale : nat -> Z -> Z) (clock : nat -> Z).

Definition process (k : nat) (pkt : Packet) (n : TimelineNormalizer) (c : MediaContext)
    : outcome unit (TimelineNormalizer * MediaContext) :=
  let '(master, res, t, n1) := normalizer_process rescale (ts_part pkt) n in
  match master with
  | None => Done (n1, c)
  | Some us =>
      m <-! handle_pkt_muxer (clock k) res (with_times t pkt) (Z.quot us 1000000 mod 2 ^ 64) (md_muxers c) ;;
      Done (n1, md_with m (md_replies c) c)
  end.
(** The state of the loops: the looks at the channel to come (none after the
    last), the normalizer, the context. *)
Definition Loop := (list Poll * TimelineNormalizer * MediaContext)%type.
(** [Failed]: the channel is closed. *)
Definition look (k : nat) (s : Loop) : outcome unit Loop :=
  let '(polls, n, c) := s in
  match head polls with
  | Some (PEvent e) => match handle_event (clock k) e c with
                       | Done c1 => Done (tail polls, n, c1)
                       | _ => Panic
                       end
  | Some PClosed => Failed tt
  | _ => Done (tail polls, n, c)
  end.
Definition hand_on (k : nat) (pkt : Packet) (s : Loop) : outcome unit Loop :=
  let '(polls, n, c) := s in
  match process k pkt n c with Done (n1, c1) => Done (polls, n1, c1) | _ => Panic end.
Fixpoint drain_cache (k : nat) (pkts : list Packet) (s : Loop) : outcome unit Loop :=
  match pkts with
  | [] => Done s
  | pkt :: pkts => s1 <-! look k s ;; s2 <-! hand_on k pkt s1 ;; drain_cache (S k) pkts s2
  end.
(** The muxers are flushed where the input ends, not where the channel is
    closed. *)
Fixpoint write_body (k : nat) (reads : list Packet) (s : Loop) : outcome unit MediaContext :=
  match look k s with
  | Failed _ => Done s.2
  | Panic => Panic
  | Done s1 =>
      match reads with
      | [] => m <-! handle_pkt_muxer_end (md_muxers s1.2) ;; Done (md_with m (md_replies s1.2) s1.2)
      | pkt :: reads => s2 <-! hand_on k pkt s1 ;; write_body (S k) reads s2
      end
  end.
Definition invoke (muxer_layer : MuxerLayer) (reads : list Packet) (polls : list Poll) (c : MediaContext)
    : outcome unit MediaContext :=
  r <-! fix_basic_stream_info (md_ext c) (md_demuxed c) reads ;;
  let '(pkts, n, d, rest) := r in
  let c1 := md_repaired d c in
  match pkts with
  | [] => Done c1
  | _ =>
      m <-! MuxerContext_init (clock 0) d muxer_layer ;;
      s <-! drain_cache 0 pkts (polls, n, md_with m (md_replies c1) c1) ;;
      write_body (length pkts) rest s
  end.
End Context_.
