(* ===== verification/MediaLoopProps.v ===== *)
(** * What the media thread achieves

    The packets it begins with, and that every muxer ends as if it had been
    alone with the packets of the stream. *)
From S2P Require Import Prelude SharedTypes StreamOutputs RtpIngest H265Flv TimeScale CodecParams CodecParamsProps.
From S2P Require Import MediaParams Muxers MuxersProps MediaLoop.
Local Open Scope gmv_scope.
Local Open Scope Z_scope.

(** ** [RtpState] *)

Lemma RtpState_update_bounds cur_ts clock_rate s cur d s' :
  0 <= cur_ts < 2 ^ 32 -> 0 <= last_32 s < 2 ^ 32 -> 0 <= clock_rate < 2 ^ 31 -> 0 <= last_unwrapped s < 2 ^ 62 ->
  RtpState_update cur_ts clock_rate s = (cur, d, s') ->
  0 <= d <= clock_rate * 3 /\ (last_unwrapped s <> 0 -> cur = last_unwrapped s + d) /\ last_32 s' = cur_ts.
Proof.
  intros Hc Hl Hr Hu. unfold RtpState_update. intros [= <- <- <-]. cbn. destruct (Z.eqb_spec (last_unwrapped s) 0) as [E|E]; [lia|].
  assert (i64_sub cur_ts (last_32 s) = cur_ts - last_32 s) as -> by (apply i64_wrap_small; unfold i64_min, i64_max; lia).
  set (diff := if _ && _ then _ else _). set (x := if diff <? 0 then 0 else _).
  assert (0 <= x <= clock_rate * 3) as Hx by (unfold x; clearbody diff; destruct (Z.ltb_spec diff 0), (Z.ltb_spec (clock_rate * 3) diff); lia).
  unfold i64_add, i64_sub. rewrite (i64_wrap_small (last_unwrapped s + x)) by (unfold i64_min, i64_max; lia).
  rewrite i64_wrap_small by (unfold i64_min, i64_max; lia). lia.
Qed.

(** ** The beginning of a stream *)

Section Beginning.
Context `{FFmpeg}.

(** FFmpeg's documentation: the type of a stream is not changed by its decoder. *)
Definition decoders_keep_type : Prop := forall id ctx par ctx1 ctx2,
  alloc_context3 id = Some ctx -> parameters_to_context ctx par = Some ctx1 -> codec_open2 ctx1 = Some ctx2 ->
  codec_type (parameters_from_context par ctx2).2 = codec_type par.
Context (Hkeep : decoders_keep_type).

Lemma rebuild_type par : codec_type (rebuild_par_from_extradata par).2 = codec_type par.
Proof.
  unfold rebuild_par_from_extradata. destruct (find_decoder _); [|done]. cbn [negb].
  destruct (alloc_context3 _) eqn:Ea; [|done]. destruct (parameters_to_context _ _) eqn:Et; [|done].
  destruct (codec_open2 _) eqn:Eo; [|done]. by eapply Hkeep.
Qed.
Lemma repair_codecpar_type par data param ok par1 param1 :
  repair_codecpar par data param = Done (ok, par1, param1) -> codec_type par1 = codec_type par.
Proof. unfold repair_codecpar. intros Hr. cases. Qed.
Lemma repair_par_type ext par data param ok par1 param1 :
  repair_par ext par data param = Done (ok, par1, param1) -> codec_type par1 = codec_type par.
Proof.
  unfold repair_par. assert (forall n ok par1 param1, repair_video_extradata n par data param = Done (ok, par1, param1) ->
    codec_type par1 = codec_type par) as Hv.
  { intros n ok' par' param'. unfold repair_video_extradata. destruct (too_short n par); [|by intros [= _ <- _]].
    intros Hr. apply outcome_bind_done in Hr as ([[[] par2] param2] & Hr & [= _ <- _]); rewrite ?rebuild_type;
      by eapply repair_codecpar_type. }
  destruct (codec_type par) eqn:Et.
  - intros Hr. apply outcome_bind_done in Hr as ([[ok2 par2] param2] & Hr & [= _ <- _]).
    assert (codec_type par2 = VIDEO) as H2 by (destruct (codec_id par); try (by eapply Hv); by injection Hr as _ <- _).
    unfold repair_video_stream_info. by repeat case_match.
  - destruct (_ && _); [|by intros [= _ <- _]].
    intros Hr. apply outcome_bind_done in Hr as ([[[] par2] param2] & Hr & [= _ <- _]);
      apply repair_codecpar_type in Hr; by rewrite <- Et.
  - by intros [= _ <- _].
Qed.
Lemma repair_stream_types ext i st param pkt d d1 :
  dx_streams d !! i = Some st -> repair_stream ext i st param pkt d = Done d1 ->
  (fun s => codec_type (codecpar s)) <$> dx_streams d1 = (fun s => codec_type (codecpar s)) <$> dx_streams d.
Proof.
  intros Hi. unfold repair_stream. destruct (ready param); [by intros [= <-]|]. intros Hr.
  apply outcome_bind_done in Hr as ([[ok st1] param1] & Hr & [= <-]). cbn. rewrite list_fmap_insert.
  apply list_insert_id. rewrite list_lookup_fmap, Hi. cbn. f_equal.
  unfold repair_basic_stream_info in Hr. apply outcome_bind_done in Hr as ([[ok2 par1] param2] & Hr & [= _ <- _]).
  symmetry. by eapply repair_par_type.
Qed.

(** A packet playing can begin with. *)
Definition starts (has_video : bool) (ts : list AVMediaType) (p : Packet) : Prop :=
  at_index (pk_index p) ts = Some (if has_video then VIDEO else AUDIO) /\ (has_video = true -> pk_key p = true).
Definition least_pts (pkts : list Packet) : Z := foldr (fun p m => Z.min (pk_pts p) m) i64_max pkts.
Lemma least_pts_snoc pkts p : least_pts (pkts ++ [p]) = Z.min (least_pts pkts) (pk_pts p) \/ i64_max < pk_pts p.
Proof.
  destruct (decide (i64_max < pk_pts p)); [by right|]. left.
  unfold least_pts. induction pkts as [|q pkts IH]; cbn [app foldr]; [lia|]. rewrite IH. lia.
Qed.

Definition types (d : Demuxed) : list AVMediaType := (fun s => codec_type (codecpar s)) <$> dx_streams d.
Definition fix_inv (has_video : bool) (ts : list AVMediaType) (s : FixState) : Prop :=
  types (fx_demuxed s) = ts /\ (length (fx_pkts s) <= fx_counter s)%nat /\
  (forall p, head (fx_pkts s) = Some p -> starts has_video ts p) /\
  ((if has_video then fx_video_keyframe_found s else fx_audio_ready s) = true -> fx_pkts s <> []) /\
  Forall (fun p => pk_pts p <> AV_NOPTS_VALUE /\ pk_dts p <> AV_NOPTS_VALUE /\ pk_data p <> []) (fx_pkts s) /\
  (Forall (fun p => pk_pts p <= i64_max) (fx_pkts s) -> global_base_us (fx_normalizer s) = least_pts (fx_pkts s)).
Lemma repaired_times pkt delay t : repair_missing_timestamps pkt delay = (true, t) ->
  pts t <> AV_NOPTS_VALUE /\ dts t <> AV_NOPTS_VALUE /\ stream_index t = stream_index pkt.
Proof.
  unfold repair_missing_timestamps. destruct (_ && _); [done|]. intros [= Ht <-].
  apply andb_true_iff in Ht as [H1%negb_true_iff%Z.eqb_neq H2%negb_true_iff%Z.eqb_neq]. split_and!; [done..|].
  by repeat case_match.
Qed.
Lemma head_snoc {A} (l : list A) x : head (l ++ [x]) = match head l with Some y => Some y | None => Some x end.
Proof. by destruct l. Qed.

Lemma fix_step_inv has_video ts ext pkt s s1 stop :
  fix_inv has_video ts s -> fix_step has_video ext pkt s = Done (s1, stop) ->
  fix_inv has_video ts s1 /\ (fx_counter s1 <= S (fx_counter s))%nat.
Proof.
  intros Hi. unfold fix_step. destruct (at_index _ _) as [param|] eqn:Ep; [|by intros [= <- _]; split; [|lia]].
  destruct (dx_streams (fx_demuxed s) !! _) as [st|] eqn:Es; [|done].
  destruct (pk_data pkt) as [|b data] eqn:Ed; [by intros [= <- _]; split; [|lia]|].
  destruct (repair_missing_timestamps _ _) as [ok t] eqn:Et. destruct ok; cbn [negb]; [|by intros [= <- _]; split; [|lia]].
  intros Hr. apply outcome_bind_done in Hr as (d1 & Hr & [= <- _]). cbn [fx_counter]. split; [|lia].
  destruct Hi as (Hts & Hlen & Hhead & Hfound & Hok & Hbase).
  pose proof (repair_stream_types _ _ _ _ _ _ _ Es Hr) as Hty. fold (types d1) (types (fx_demuxed s)) in Hty.
  apply repaired_times in Et as (Hp & Hd & _).
  assert (0 <= pk_index pkt) as Hidx by (unfold at_index in Ep; destruct (Z.ltb_spec (pk_index pkt) 0); [done|lia]).
  set (mt := codec_type (codecpar (default st (dx_streams d1 !! Z.to_nat (pk_index pkt))))).
  assert (at_index (pk_index pkt) ts = Some mt) as Hmt.
  { unfold at_index. rewrite (proj2 (Z.ltb_ge _ _)) by done. rewrite <- Hts, <- Hty. unfold types, mt. rewrite list_lookup_fmap.
    destruct (dx_streams d1 !! _) eqn:E; [done|]. apply lookup_ge_None in E. apply lookup_lt_Some in Es.
    apply (f_equal length) in Hty. unfold types in Hty. rewrite !length_fmap in Hty. lia. }
  set (key := fx_video_keyframe_found s || bool_decide (mt = VIDEO) && pk_key pkt).
  set (audio := fx_audio_ready s || bool_decide (mt = AUDIO)).
  split; [by cbn; rewrite Hty|]. cbn [fx_pkts fx_counter fx_video_keyframe_found fx_audio_ready fx_normalizer].
  assert (fx_pkts s = [] -> (if has_video then key else audio) = true -> starts has_video ts (with_times t pkt)) as Hst.
  { intros Hnil Hc. split; cbn; [rewrite Hmt|]; destruct has_video; try done; unfold key, audio in Hc.
    - destruct (fx_video_keyframe_found s); [by destruct (Hfound eq_refl)|]. cbn in Hc.
      by apply andb_true_iff in Hc as [->%bool_decide_eq_true _].
    - destruct (fx_audio_ready s); [by destruct (Hfound eq_refl)|]. cbn in Hc. by apply bool_decide_eq_true in Hc as ->.
    - destruct (fx_video_keyframe_found s); [by destruct (Hfound eq_refl)|]. cbn in Hc. by apply andb_true_iff in Hc as [_ ?]. }
  destruct (if has_video then key else audio) eqn:Ec; split_and!.
  - rewrite length_app. simpl. lia.
  - intros p. rewrite head_snoc. destruct (head (fx_pkts s)) as [q|] eqn:Eh; [intros [= <-]; by apply Hhead|].
    intros [= <-]. apply Hst; [by destruct (fx_pkts s)|done].
  - intros _. by destruct (fx_pkts s).
  - apply Forall_app. split; [done|]. constructor; [|done]. cbn. by rewrite Ed.
  - intros Hmax. apply Forall_app in Hmax as [Hmax Hmax2]. apply Forall_cons in Hmax2 as [Hmax2 _]. cbn in Hmax2.
    unfold rescale_global_base_us. cbn [with_times pk_pts]. destruct (Z.eqb_spec (pts t) AV_NOPTS_VALUE); [done|]. cbn.
    destruct (least_pts_snoc (fx_pkts s) (with_times t pkt)) as [->|]; [by rewrite Hbase|cbn in *; lia].
  - lia.
  - done.
  - intros Hf. apply Hfound. unfold key, audio in *. destruct has_video; [by destruct (fx_video_keyframe_found s)|by destruct (fx_audio_ready s)].
  - done.
  - done.
Qed.
Lemma fix_loop_inv has_video ts ext reads : forall s s1 rest,
  fix_inv has_video ts s -> (fx_counter s <= FIX_MAX_READ_FRAME)%nat -> fix_loop has_video ext reads s = Done (s1, rest) ->
  fix_inv has_video ts s1 /\ (fx_counter s1 <= FIX_MAX_READ_FRAME)%nat.
Proof.
  induction reads as [|pkt reads IH]; intros s s1 rest Hi Hc; cbn [fix_loop]; destruct (Nat.ltb_spec (fx_counter s) FIX_MAX_READ_FRAME);
    try (by intros [= <- _]).
  intros Hr. apply outcome_bind_done in Hr as ([s2 stop] & Hs & Hr). cbn [fst snd] in Hr.
  destruct (fix_step_inv _ _ _ _ _ _ _ Hi Hs) as [Hi2 Hc2]. destruct stop; [injection Hr as <- _; split; [done|lia]|].
  by apply (IH s2 s1 rest); [|lia|].
Qed.

Lemma fix_loop_rest has_video ext reads : forall s s1 rest,
  fix_loop has_video ext reads s = Done (s1, rest) -> rest `suffix_of` reads.
Proof.
  induction reads as [|pkt reads IH]; intros s s1 rest; cbn [fix_loop]; destruct (_ <? _)%nat; try (by intros [= _ <-]).
  intros Hr. apply outcome_bind_done in Hr as ([s2 stop] & _ & Hr). destruct stop; [injection Hr as _ <-|apply IH in Hr];
    by apply suffix_cons_r.
Qed.
Lemma init_timelines_base d n : init_timelines d = Done n -> global_base_us n = i64_max.
Proof.
  unfold init_timelines. generalize (seq 0 (length (dx_params d))). intros l.
  assert (forall (o : outcome unit TimelineNormalizer), (forall n, o = Done n -> global_base_us n = i64_max) ->
    forall n, foldl (fun n i => n <-! n ;;
      match dx_streams d !! i with
      | Some s => init_stream i (bool_decide (codec_type (codecpar s) = AUDIO)) (video_delay (codecpar s)) n
      | None => Panic
      end) o l = Done n -> global_base_us n = i64_max) as Hl.
  { induction l as [|i l IH]; intros o Ho m; cbn [foldl]; [apply Ho|]. apply IH. intros m1 Hm.
    apply outcome_bind_done in Hm as (m0 & Hm0 & Hm). destruct (dx_streams d !! i); [|done]. unfold init_stream in Hm.
    case_decide; [|done]. injection Hm as <-. cbn. by apply Ho. }
  apply Hl. by intros m [= <-].
Qed.

(** C26: Where a stream begins.  The packets kept are at most 128, each with data
    and both time stamps; the first is a key frame of a video stream, or, of a
    source without video, one of an audio stream; the common base of the time
    stamps is the least presentation time of any of them, whatever the time base
    of its stream. *)
Theorem stream_begins (ext : MediaExt) (d d1 : Demuxed) (reads rest pkts : list Packet) (n : TimelineNormalizer) :
  let has_video := existsb (fun s => bool_decide (codec_type (codecpar s) = VIDEO))
                     (take (length (dx_params d)) (dx_streams d)) in
  fix_basic_stream_info ext d reads = Done (pkts, n, d1, rest) ->
  types d1 = types d /\ rest `suffix_of` reads /\ (length pkts <= FIX_MAX_READ_FRAME)%nat /\
  Forall (fun p => pk_pts p <> AV_NOPTS_VALUE /\ pk_dts p <> AV_NOPTS_VALUE /\ pk_data p <> []) pkts /\
  (forall p, head pkts = Some p -> starts has_video (types d) p) /\
  (Forall (fun p => pk_pts p < i64_max) pkts -> pkts <> [] -> global_base_us n = least_pts pkts).
Proof.
  intros has_video Hr. unfold fix_basic_stream_info in Hr. apply outcome_bind_done in Hr as (n0 & Hn & Hr).
  fold has_video in Hr. apply outcome_bind_done in Hr as ([s rest'] & Hl & [= <- <- <- <-]).
  pose proof (fix_loop_rest _ _ _ _ _ _ Hl) as Hrest.
  apply (fix_loop_inv has_video (types d)) in Hl as [Hi Hc]; [|split_and!; cbn; try done|cbn; unfold FIX_MAX_READ_FRAME; lia].
  2: by destruct has_video. 2: intros _; by apply init_timelines_base in Hn.
  destruct Hi as (Ht & Hlen & Hh & _ & Hok & Hb). split_and!; try done; [lia|].
  intros Hmax Hne. assert (Forall (fun p => pk_pts p <= i64_max) (fx_pkts s)) as Hmax1 by (eapply Forall_impl; [done|]; cbn; lia).
  rewrite (Hb Hmax1). destruct (Z.eqb_spec (least_pts (fx_pkts s)) i64_max) as [E|]; [|by apply Hb].
  exfalso. destruct (fx_pkts s) as [|p l]; [done|]. apply Forall_cons in Hmax as [Hp _]. cbn in E. lia.
Qed.
End Beginning.

(** ** The muxers *)

Section Muxing.
Context {FlvC H265C Mp4C CmafC DashC HlsC : Type}.
Context `{!FmtMuxer FlvC, !FmtMuxer H265C, !FmtMuxer Mp4C, !FmtMuxer CmafC, !FmtMuxer DashC, !FmtMuxer HlsC}.
Context `{!HasEpoch CmafC, !HasEpoch DashC, !HasEpoch HlsC}.
Context (rescale : nat -> Z -> Z) (clock : nat -> Z).
Abbreviation Context_ := (MediaContext (FlvC := FlvC) (H265C := H265C) (Mp4C := Mp4C) (CmafC := CmafC) (DashC := DashC) (HlsC := HlsC)).
Abbreviation Muxers_ := (MuxerContext (FlvC := FlvC) (H265C := H265C) (Mp4C := Mp4C) (CmafC := CmafC) (DashC := DashC) (HlsC := HlsC)).

(** What the muxers are given: the packets the normalizer lets pass, with its
    verdict, the time of the source in seconds, and the clock. *)
Definition Item := (ProcessResult * Packet * Z * Z)%type.
Fixpoint accepted (k : nat) (pkts : list Packet) (n : TimelineNormalizer) : list Item :=
  match pkts with
  | [] => []
  | pkt :: pkts =>
      let '(master, res, t, n1) := normalizer_process rescale (ts_part pkt) n in
      match master with
      | Some us => [(res, with_times t pkt, Z.quot us 1000000 mod 2 ^ 64, clock k)]
      | None => []
      end ++ accepted (S k) pkts n1
  end.

(** A muxer alone. *)
Fixpoint muxed {M} `{!FmtMuxer M} (items : list Item) (m : M) : outcome unit M :=
  match items with [] => Done m | (_, pkt, ts, _) :: items => m1 <-! write_packet pkt ts m ;; muxed items m1 end.
Fixpoint muxed_epoch {M} `{!FmtMuxer M, !HasEpoch M} (items : list Item) (m : M) : outcome unit M :=
  match items with
  | [] => Done m
  | (res, pkt, ts, now) :: items =>
      m1 <-! write_packet pkt ts (match res with Discontinuity => set_epoch now m | POk => m end) ;; muxed_epoch items m1
  end.
Definition muxed_flv (items : list Item) (c : FlvSupperCtx (FlvC := FlvC) (H265C := H265C))
    : outcome unit (FlvSupperCtx (FlvC := FlvC) (H265C := H265C)) :=
  match c with
  | FlvCtx c => c1 <-! muxed items c ;; Done (FlvCtx c1)
  | H265FlvCtx c => c1 <-! muxed items c ;; Done (H265FlvCtx c1)
  end.
(** The muxer [m], if open, has become [m1]. *)
Definition became {M} (run : M -> outcome unit M) (m m1 : option M) : Prop :=
  match m with None => m1 = None | Some c => exists c1, run c = Done c1 /\ m1 = Some c1 end.
Lemma became_nil {M} (m m1 : option M) : became (fun c => Done c) m m1 -> m1 = m.
Proof. destruct m; [|done]. by intros (c1 & [= <-] & ->). Qed.

(** All the muxers of a context, each alone. *)
Definition each_alone (items : list Item) (m m1 : Muxers_) : Prop :=
  became (muxed_flv items) (mx_flv m) (mx_flv m1) /\ became (muxed items) (mx_mp4 m) (mx_mp4 m1) /\
  became (muxed_epoch items) (mx_fmp4 m) (mx_fmp4 m1) /\ became (muxed_epoch items) (mx_dash_mp4 m) (mx_dash_mp4 m1) /\
  became (muxed_epoch items) (mx_hls_mp4 m) (mx_hls_mp4 m1) /\
  empty_muxers m1 = empty_muxers m /\ mx_finished m1 = mx_finished m /\ unimplemented (empty_muxers m) = false.

Lemma became_write {M} `{!FmtMuxer M} res pkt ts now items (m m1 : option M) :
  became (muxed ((res, pkt, ts, now) :: items)) m m1 ->
  exists m2, write_if pkt ts m = Done m2 /\ became (muxed items) m2 m1.
Proof.
  destruct m as [c|]; cbn; [|intros ->; by exists None]. intros (c1 & Hr & ->).
  apply outcome_bind_done in Hr as (c2 & -> & Hr). exists (Some c2). split; [done|]. by exists c1.
Qed.
Lemma became_write_epoch {M} `{!FmtMuxer M, !HasEpoch M} res pkt ts now items (m m1 : option M) :
  became (muxed_epoch ((res, pkt, ts, now) :: items)) m m1 ->
  exists m2, write_if pkt ts (renewed res now m) = Done m2 /\ became (muxed_epoch items) m2 m1.
Proof.
  destruct m as [c|]; cbn; [|intros ->; exists None; by destruct res]. intros (c1 & Hr & ->).
  apply outcome_bind_done in Hr as (c2 & Hw & Hr). exists (Some c2). split; [|by exists c1].
  destruct res; cbn; by rewrite Hw.
Qed.
Lemma became_flv res pkt ts now items (m m1 : option (FlvSupperCtx (FlvC := FlvC) (H265C := H265C))) :
  became (muxed_flv ((res, pkt, ts, now) :: items)) m m1 ->
  exists m2, (match m with
              | None => Done None
              | Some (FlvCtx c) => c1 <-! write_packet pkt ts c ;; Done (Some (FlvCtx c1))
              | Some (H265FlvCtx c) => c1 <-! write_packet pkt ts c ;; Done (Some (H265FlvCtx c1))
              end) = Done m2 /\ became (muxed_flv items) m2 m1.
Proof.
  destruct m as [[c|c]|]; cbn [became]; [| |intros ->; by exists None]; intros (c1 & Hr & ->);
    apply outcome_bind_done in Hr as (c2 & Hr & [= <-]); apply outcome_bind_done in Hr as (c3 & -> & Hr);
    (eexists; split; [done|]); eexists; (split; [|done]); cbn [muxed_flv];
    assert (muxed items c3 = Done c2) as -> by exact Hr; done.
Qed.
Lemma alone_step res pkt ts now items m m1 : each_alone ((res, pkt, ts, now) :: items) m m1 ->
  exists m2, handle_pkt_muxer now res pkt ts m = Done m2 /\ each_alone items m2 m1.
Proof.
  intros (Hflv & Hmp4 & Hf & Hd & Hh & He & Hfin & Hu). unfold handle_pkt_muxer.
  apply became_flv in Hflv as (flv & -> & Hflv). apply became_write in Hmp4 as (mp4 & -> & Hmp4). rewrite Hu.
  apply became_write_epoch in Hf as (f & -> & Hf). apply became_write_epoch in Hd as (da & -> & Hd).
  apply became_write_epoch in Hh as (h & -> & Hh). eexists. split; [done|]. by split_and!.
Qed.

Lemma hand_on_alone k pkt n (c : Context_) items m1 :
  each_alone (accepted k (pkt :: items) n) (md_muxers c) m1 ->
  exists n1 m2, hand_on rescale clock k pkt ([], n, c) = Done ([], n1, md_with m2 (md_replies c) c) /\
    each_alone (accepted (S k) items n1) m2 m1.
Proof.
  cbn [accepted]. unfold hand_on, process. destruct (normalizer_process _ _ _) as [[[master res] t] n1] eqn:En.
  destruct master as [us|].
  - intros Ha. apply alone_step in Ha as (m2 & -> & Ha). exists n1, m2. by split.
  - intros Ha. exists n1, (md_muxers c). split; [|done]. cbn. by destruct c.
Qed.
Lemma look_nothing k n (c : Context_) : look clock k ([], n, c) = Done ([], n, c).
Proof. done. Qed.
Lemma drain_alone pkts : forall k more n (c : Context_) m1,
  each_alone (accepted k (pkts ++ more) n) (md_muxers c) m1 ->
  exists n1 m2, drain_cache rescale clock k pkts ([], n, c) = Done ([], n1, md_with m2 (md_replies c) c) /\
    each_alone (accepted (length pkts + k) more n1) m2 m1.
Proof.
  induction pkts as [|pkt pkts IH]; intros k more n c m1 Ha.
  { exists n, (md_muxers c). split; [|done]. cbn. by destruct c. }
  cbn [app] in Ha. apply hand_on_alone in Ha as (n1 & m2 & Hh & Ha). cbn [drain_cache]. rewrite look_nothing. cbn [outcome_bind].
  rewrite Hh. cbn [outcome_bind]. destruct (IH (S k) more n1 (md_with m2 (md_replies c) c) m1 Ha) as (n2 & m3 & -> & Ha2).
  exists n2, m3. split; [done|]. by rewrite Nat.add_succ_r in Ha2.
Qed.
(** After the last packet nothing is left to do but to flush. *)
Lemma alone_end (m m1 : Muxers_) : each_alone [] m m1 -> m1 = m /\ unimplemented (empty_muxers m) = false.
Proof.
  intros (Hflv & Hmp4 & Hf & Hd & Hh & He & Hfin & Hu). apply became_nil in Hmp4, Hf, Hd, Hh. split; [|done].
  assert (mx_flv m1 = mx_flv m) as Hflv2.
  { destruct (mx_flv m) as [[f|f]|]; cbn in Hflv; [| |done]; by destruct Hflv as (? & [= <-] & ->). }
  destruct m1, m. cbn in *. unfold empty_muxers in He. cbn in He. by simplify_eq.
Qed.
Lemma body_alone reads : forall k n (c : Context_) m1,
  each_alone (accepted k reads n) (md_muxers c) m1 ->
  write_body rescale clock k reads ([], n, c) =
  Done (md_with (with_files (flush <$> mx_mp4 m1) (flush <$> mx_dash_mp4 m1) (flush <$> mx_hls_mp4 m1) (flush <$> mx_fmp4 m1)
                   (with_flv (flush_flv <$> mx_flv m1) m1)) (md_replies c) c).
Proof.
  induction reads as [|pkt reads IH]; intros k n c m1 Ha; cbn [write_body]; rewrite look_nothing; cbn [snd].
  - apply alone_end in Ha as [-> Hu]. unfold handle_pkt_muxer_end. by rewrite Hu.
  - apply hand_on_alone in Ha as (n1 & m2 & Hh & Ha). rewrite Hh. cbn [outcome_bind]. by rewrite (IH (S k) n1 (md_with m2 (md_replies c) c) m1 Ha).
Qed.

Context `{FFmpeg}.
(** C25: Every muxer ends as if it had been alone: when a stream runs to the end of
    its input without events, each muxer it was opened with has been given all
    the packets the normalizer let pass, once and in order, those kept while
    the start was looked for first, and has then been flushed. *)
Theorem muxers_independent (muxer_layer : MuxerLayer) (reads rest pkts : list Packet) (n : TimelineNormalizer)
    (d : Demuxed) (c : Context_) (m0 m1 : Muxers_) :
  fix_basic_stream_info (md_ext c) (md_demuxed c) reads = Done (pkts, n, d, rest) -> pkts <> [] ->
  MuxerContext_init (clock 0) d muxer_layer = Done m0 ->
  each_alone (accepted 0 (pkts ++ rest) n) m0 m1 ->
  exists c1, invoke rescale clock muxer_layer reads [] c = Done c1 /\
    mx_flv (md_muxers c1) = flush_flv <$> mx_flv m1 /\ mx_mp4 (md_muxers c1) = flush <$> mx_mp4 m1 /\
    mx_fmp4 (md_muxers c1) = flush <$> mx_fmp4 m1 /\ mx_dash_mp4 (md_muxers c1) = flush <$> mx_dash_mp4 m1 /\
    mx_hls_mp4 (md_muxers c1) = flush <$> mx_hls_mp4 m1 /\ md_replies c1 = md_replies c.
Proof.
  intros Hfix Hne Hinit Ha. unfold invoke. rewrite Hfix. cbn [outcome_bind]. destruct pkts as [|p pkts]; [done|].
  rewrite Hinit. cbn [outcome_bind].
  destruct (drain_alone (p :: pkts) 0 rest n (md_with m0 (md_replies c) (md_repaired d c)) m1 Ha) as (n1 & m2 & Hd & Ha2).
  change (md_replies (md_repaired d c)) with (md_replies c). rewrite Hd. cbn [outcome_bind].
  rewrite Nat.add_0_r in Ha2. set (c2 := md_with m2 _ _). rewrite (body_alone rest _ n1 c2 m1 Ha2). eexists. split; [done|]. by split_and!.
Qed.

(** A stream whose event channel is closed is left as it is: the packets
    already read have gone to the muxers, none of which is flushed. *)
Theorem closed_channel_skips_flush (k : nat) (taken reads : list Packet) (n : TimelineNormalizer) (c : Context_) (m1 : Muxers_) :
  each_alone (accepted k taken n) (md_muxers c) m1 ->
  write_body rescale clock k (taken ++ reads) (replicate (length taken) PNothing ++ [PClosed], n, c) =
  Done (md_with m1 (md_replies c) c).
Proof.
  revert k n c m1. induction taken as [|pkt taken IH]; intros k n c m1 Ha.
  - apply alone_end in Ha as [-> _]. cbn. destruct reads; cbn; by destruct c.
  - cbn [app length replicate write_body look head]. cbn [tail].
    cbn [accepted] in Ha. unfold hand_on, process.
    destruct (normalizer_process _ _ _) as [[[master res] t] n1]. destruct master as [us|].
    + apply alone_step in Ha as (m2 & -> & Ha). cbn [outcome_bind]. by rewrite (IH (S k) n1 (md_with m2 (md_replies c) c) m1 Ha).
    + cbn [outcome_bind]. cbn [app] in Ha. by rewrite (IH (S k) n1 c m1 Ha).
Qed.
End Muxing.

(** ** Witnesses *)

Definition demo_ready : ParamRepairState := {| h264_ps := None; h265_ps := None; aac_asc := None; ready := true |}.
Definition demo_demuxed : Demuxed := {| dx_streams := demo_streams; dx_params := [demo_ready; demo_ready] |}.
Definition demo_reads : list Packet :=
  (fun p => {| pk_index := pk_index p; pk_pts := 9000; pk_dts := 9000; pk_duration := 3600; pk_key := pk_key p;
               pk_data := pk_data p |}) <$> demo_packets.*1.

Lemma stream_begins_witness :
  exists pkts n d1 rest,
    fix_basic_stream_info (H := demo_ffmpeg) MediaExt_default demo_demuxed demo_reads = Done (pkts, n, d1, rest) /\
    pkts <> [] /\ (forall p, head pkts = Some p -> starts true [VIDEO; AUDIO] p) /\ global_base_us n = 9000.
Proof.
  destruct (fix_basic_stream_info (H := demo_ffmpeg) MediaExt_default demo_demuxed demo_reads)
    as [[[[pkts n] d1] rest]| |] eqn:Hf; [|by vm_compute in Hf..].
  exists pkts, n, d1, rest. split; [done|].
  destruct (stream_begins (H := demo_ffmpeg)
    ltac:(intros id ctx par ctx1 ctx2 _ Ht Ho; by injection Ht as <-; injection Ho as <-)
    MediaExt_default demo_demuxed d1 demo_reads rest pkts n Hf) as (_ & _ & _ & _ & Hh & Hb).
  assert (pkts <> [] /\ Forall (fun p => pk_pts p < i64_max) pkts /\ least_pts pkts = 9000) as (Hne & Hmax & Hl).
  { vm_compute in Hf. injection Hf as <- _ _ _. split; [done|]. split; [|done]. by repeat constructor. }
  split; [done|]. split; [exact Hh|]. by rewrite Hb.
Defined.

(** A recording and a live view of a stream. *)
Definition demo_layers : MuxerLayer := muxer_set Mp4 (Some 1) (muxer_set HlsMp4 (Some 2) MuxerLayer_default).
Definition demo_number (id : AVCodecID) : Z := match id with AAC => 86018 | PCM_ALAW => 65543 | _ => 0 end.
#[local] Instance demo_h265 : FmtMuxer (H265FlvContext * list MuxPacket) := H265Flv_muxer (H := demo_output) demo_number true.
#[local] Existing Instance demo_output.
Abbreviation DemoMuxers := (MuxerContext (FlvC := FlvContext) (H265C := H265FlvContext * list MuxPacket)
  (Mp4C := Mp4Context) (CmafC := CmafFmp4Context) (DashC := DashCmafMp4Context) (HlsC := HlsFmp4Context)).
Definition demo_context : MediaContext (FlvC := FlvContext) (H265C := H265FlvContext * list MuxPacket)
    (Mp4C := Mp4Context) (CmafC := CmafFmp4Context) (DashC := DashCmafMp4Context) (HlsC := HlsFmp4Context) := {|
  md_ext := MediaExt_default; md_hint := NONE; md_demuxed := demo_demuxed; md_muxers := MuxerContext_default;
  md_replies := [] |}.
Lemma demo_alone : exists pkts n d rest (m0 m1 : DemoMuxers),
  fix_basic_stream_info (H := demo_ffmpeg) MediaExt_default demo_demuxed demo_reads = Done (pkts, n, d, rest) /\
  pkts <> [] /\ MuxerContext_init 5 d demo_layers = Done m0 /\
  each_alone (accepted (fun _ x => x) (fun _ => 5) 0 (pkts ++ rest) n) m0 m1 /\
  (mx_mp4 m0 = None -> False) /\
  (sent_bytes ∘ mc_sent ∘ mp4_flush <$> mx_mp4 m1) = Some [10; 11; 12; 8; 255].
Proof.
  eexists _, _, _, _, _, (with_files (Some _) None (Some _) None MuxerContext_default).
  split; [vm_compute; reflexivity|]. split; [discriminate|]. split; [vm_compute; reflexivity|]. split.
  - split; [reflexivity|]. split; [eexists; split; [vm_compute; reflexivity|reflexivity]|]. split; [reflexivity|].
    split; [reflexivity|]. split; [eexists; split; [vm_compute; reflexivity|reflexivity]|]. by split_and!.
  - split; [discriminate|]. vm_compute. reflexivity.
Qed.
Lemma muxers_independent_witness :
  exists c1 recording, invoke (H := demo_ffmpeg) (fun _ x => x) (fun _ => 5) demo_layers demo_reads [] demo_context = Done c1 /\
    mx_mp4 (md_muxers c1) = Some recording /\ sent_bytes (mc_sent recording) = [10; 11; 12; 8; 255].
Proof.
  destruct demo_alone as (pkts & n & d & rest & m0 & m1 & Hf & Hne & Hm & Ha & _ & Hs).
  destruct (muxers_independent (H := demo_ffmpeg) (fun _ x => x) (fun _ => 5) demo_layers demo_reads rest pkts n d demo_context m0 m1 Hf Hne Hm Ha)
    as (c1 & Hi & _ & Hmp4 & _).
  clear Hf Hm Ha.
  destruct (mx_mp4 m1) as [r|]; [|discriminate Hs]. exists c1, (mp4_flush r). split; [exact Hi|].
  split; [exact Hmp4|]. by apply (inj Some) in Hs.
Defined.
