(* ===== verification/ViewerOutput.v ===== *)
(** * The viewers of a stream ([stream/src/io/http/out/mod.rs], [flv.rs],
    [dash.rs])

    A request names a stream and an output by its suffix and carries a token.  A
    new token is shown to the signalling server; a viewer let in is counted,
    and counted out when its response is dropped.  The body of a live view is
    made of what a subscriber of the muxer receives. *)
From Stdlib Require Import Ascii.
From stdpp Require Import pretty.
From S2P Require Import Prelude Text SharedTypes StreamOutputs MediaRegister RtpIngest H265Flv MediaParams Tasks.
Local Open Scope task_scope.
Local Open Scope Z_scope.

(** What [recv] of a subscriber returns.  The list of what it ever does is
    the environment's; it may have missed packets before [RLagged]. *)
Inductive Recv := RPacket (p : MuxPacket) | RLagged | RClosed.

(** ** HTTP-FLV *)

Module FlvView.
Inductive FlvStreamState := Header | FirstKey | Live.
Record FlvStreamContext := { rx : list (Z * Recv); state : FlvStreamState }.

(** The loop below [timeout]; a receive comes with its time. *)
Fixpoint first_key (deadline : Z) (rx : list (Z * Recv)) : option (bytes * list (Z * Recv)) :=
  match rx with
  | [] => None
  | (t, r) :: rx =>
      if deadline <? t then None
      else match r with
           | RPacket p => if mp_is_key p then Some (mp_data p, rx) else first_key deadline rx
           | RLagged => first_key deadline rx
           | RClosed => None
           end
  end.
Fixpoint live (rx : list (Z * Recv)) : option (bytes * list (Z * Recv)) :=
  match rx with
  | [] => None
  | (_, RPacket p) :: rx => Some (mp_data p, rx)
  | (_, RLagged) :: rx => live rx
  | (_, RClosed) :: _ => None
  end.
(** One element of the stream, asked for at [now]. *)
Definition flv_next (header : option bytes) (now : Z) (ctx : FlvStreamContext) : option (bytes * FlvStreamContext) :=
  match state ctx with
  | Header => (fun h => (h, {| rx := rx ctx; state := FirstKey |})) <$> header
  | FirstKey => (fun r => (r.1, {| rx := r.2; state := Live |})) <$> first_key (now + DEFAULT_EXPIRES) (rx ctx)
  | Live => (fun r => (r.1, {| rx := r.2; state := Live |})) <$> live (rx ctx)
  end.
Fixpoint flv_unfold (fuel : nat) (header : option bytes) (now : Z) (ctx : FlvStreamContext) : list bytes :=
  match fuel with
  | O => []
  | S fuel => match flv_next header now ctx with
              | Some (chunk, ctx) => chunk :: flv_unfold fuel header now ctx
              | None => []
              end
  end.
(** [now]: when the client asks for what comes after the header. *)
Definition flv_stream (header : option bytes) (now : Z) (recvs : list (Z * Recv)) : list bytes :=
  flv_unfold (2 + length recvs) header now {| rx := recvs; state := Header |}.
End FlvView.

(** ** Fragmented MP4 over HTTP *)

Module Fmp4View.
Inductive Fmp4StreamState := Init | FirstKey (init : bytes) | Live.
(** [dumped]: what has been appended to the file [./dump/fmp4.bin]. *)
Record Fmp4StreamContext := {
  rx : list Recv; state : Fmp4StreamState; started : bool; current_epoch : Z; dumped : bytes
}.

(** The loop; [epoch] is the variable, [st] and [started] do not change in it. *)
Fixpoint next_chunk (st : Fmp4StreamState) (was_started : bool) (epoch : Z) (dump : bytes) (rx : list Recv)
    : option (bytes * Fmp4StreamContext) :=
  match rx with
  | [] => None
  | RLagged :: rx => next_chunk st was_started epoch dump rx
  | RClosed :: _ => None
  | RPacket p :: rx =>
      let epoch1 := mp_epoch p in
      match st with
      | FirstKey init =>
          if negb (mp_is_key p) then next_chunk st was_started epoch1 dump rx
          else let out := init ++ mp_data p in
               Some (out, {| rx := rx; state := Live; started := true; current_epoch := epoch1; dumped := dump ++ out |})
      | Live =>
          if was_started
          then Some (mp_data p, {| rx := rx; state := Live; started := was_started; current_epoch := epoch1;
                                   dumped := dump ++ mp_data p |})
          else next_chunk st was_started epoch1 dump rx
      | Init => next_chunk st was_started epoch1 dump rx
      end
  end.
Definition fmp4_next_chunk (ctx : Fmp4StreamContext) : option (bytes * Fmp4StreamContext) :=
  next_chunk (state ctx) (started ctx) (current_epoch ctx) (dumped ctx) (rx ctx).
Definition fmp4_next (init : option bytes) (ctx : Fmp4StreamContext) : option (bytes * Fmp4StreamContext) :=
  match state ctx with
  | Init => i ← init; fmp4_next_chunk {| rx := rx ctx; state := FirstKey i; started := started ctx;
                                         current_epoch := current_epoch ctx; dumped := dumped ctx |}
  | _ => fmp4_next_chunk ctx
  end.
(** The chunks, and the dump after the last. *)
Fixpoint fmp4_unfold (fuel : nat) (init : option bytes) (ctx : Fmp4StreamContext) : list bytes * bytes :=
  match fuel with
  | O => ([], dumped ctx)
  | S fuel => match fmp4_next init ctx with
              | Some (chunk, ctx) => let '(chunks, dump) := fmp4_unfold fuel init ctx in (chunk :: chunks, dump)
              | None => ([], dumped ctx)
              end
  end.
Definition fmp4_stream (init : option bytes) (now : Z) (recvs : list Recv) : list bytes * bytes :=
  fmp4_unfold (1 + length recvs) init
    {| rx := recvs; state := Init; started := false; current_epoch := now; dumped := [] |}.
End Fmp4View.

(** ** The manifest *)

Definition newline : string := String "010" EmptyString.
Definition quoted (s : string) : string := String "034" (s +:+ String "034" EmptyString)%string.
Definition attribute (name value : string) : string := (name +:+ "=" +:+ quoted value)%string.
Definition line (indent text : string) : string := (indent +:+ text +:+ newline)%string.
Definition generate_mpd (stream_id : string) (mp : MediaParam) : string :=
  let head :=
    ("<?xml " +:+ attribute "version" "1.0" +:+ " " +:+ attribute "encoding" "UTF-8" +:+ "?>" +:+ newline
     +:+ line "" "<MPD" +:+ line "  " (attribute "xmlns" "urn:mpeg:dash:schema:mpd:2011")
     +:+ line "  " (attribute "profiles" "urn:mpeg:dash:profile:isoff-live:2011")
     +:+ line "  " (attribute "type" "static") +:+ line "  " (attribute "mediaPresentationDuration" "PT1H")
     +:+ line "  " (attribute "minBufferTime" "PT1S" +:+ ">")
     +:+ "<Period " +:+ attribute "id" "0" +:+ " " +:+ attribute "start" "PT0S" +:+ ">")%string in
  let video :=
    match mp_video mp with
    | None => ""
    | Some v =>
        newline +:+ line "" "<AdaptationSet" +:+ line "  " (attribute "mimeType" "video/mp4")
        +:+ line "  " (attribute "segmentAlignment" "true") +:+ line "  " (attribute "startWithSAP" "1" +:+ ">")
        +:+ line "  " "<Representation" +:+ line "    " (attribute "id" "v1")
        +:+ line "    " (attribute "bandwidth" (pretty (v_bandwidth v))) +:+ line "    " (attribute "codecs" (v_codec v))
        +:+ line "    " (attribute "width" (pretty (v_width v))) +:+ line "    " (attribute "height" (pretty (v_height v)))
        +:+ line "    " (attribute "frameRate" (pretty (v_frame_rate v)) +:+ ">")
        +:+ line "    " "<SegmentTemplate" +:+ line "      " (attribute "timescale" (pretty (v_timescale v)))
        +:+ line "      " (attribute "duration" (pretty ((v_timescale v * 2) mod 2 ^ 32)))
        +:+ line "      " (attribute "startNumber" "1") +:+ line "      " (attribute "presentationTimeOffset" "0")
        +:+ line "      " (attribute "initialization" (stream_id +:+ ".m4it"))
        +:+ line "      " (attribute "media" (stream_id +:+ ".m4s?seg=seg-$Number$") +:+ ">")
        +:+ line "" "</SegmentTemplate>" +:+ line "  " "</Representation>" +:+ line "" "</AdaptationSet>"
    end%string in
  (head +:+ video +:+ "</Period></MPD>")%string.

(** ** Responses *)

(** A live view's body by its subscription. *)
Inductive Body := TextBody (s : string) | DataBody (b : bytes) | FlvFrames (ssrc rx : Z) | Fmp4Chunks (ssrc rx : Z).
(** What [DisconnectAwareStream] does when it is dropped. *)
Record OnDisconnect := { od_stream_id : string; od_output : OutputEnum; od_token : string; od_addr : string }.
Record Response := { status : Z; headers : list (string * string); body : Body; on_drop : option OnDisconnect }.
Definition res_404 : Response := {|
  status := 404; headers := [("Content-Type", "text/plain")]%string; body := TextBody "404 Not Found"; on_drop := None |}.
Definition res_401 : Response := {|
  status := 401; headers := [("Content-Type", "text/plain")]%string; body := TextBody "401 Unauthorized"; on_drop := None |}.
Definition send_frame (ssrc rx : Z) (on_disconnect : option OnDisconnect) : Response := {|
  status := 200; headers := [("Content-Type", "video/x-flv"); ("Connection", "keep-alive")]%string;
  body := FlvFrames ssrc rx; on_drop := on_disconnect |}.
Definition send_fmp4 (ssrc rx : Z) (on_disconnect : option OnDisconnect) : Response := {|
  status := 200; headers := [("Content-Type", "video/mp4"); ("Cache-Control", "no-cache")]%string;
  body := Fmp4Chunks ssrc rx; on_drop := on_disconnect |}.
Definition drop_response (r : Response) (i : MInner) : MInner :=
  match on_drop r with
  | Some d => listen_output_timeout (od_stream_id d) (od_output d) (od_token d) (od_addr d) 0 i
  | None => i
  end.

(** ** Requests *)

(** What is asked: the signalling server about a token ([None]: the answer's
    channel was dropped), the stream's thread for the description and a header,
    a subscription for its next packet. *)
Inductive ViewQuestion := OnPlay (info : StreamPlayInfo) | AskMediaParam (ssrc : Z) | AskDashMp4Header (ssrc : Z) | RecvSegment (rx : Z).
Definition view_answer (q : ViewQuestion) : Type :=
  match q with
  | OnPlay _ => option (option bool)
  | AskMediaParam _ => option MediaParam
  | AskDashMp4Header _ => option bytes
  | RecvSegment _ => Recv
  end.
Abbreviation view := (task MInner view_answer).

Inductive OutPlayKind := Play | Forbid | Notfound.
(** [event_tx.send] waits for room. *)
Definition send_event (e : MEvent) (_ : bool) (i : MInner) : option (unit * MInner) :=
  let '(sent, i1) := try_send e i in if sent then Some (tt, i1) else None.
Definition insert_token_kind (stream_id : string) (out : OutputEnum) (token : string) : view OutPlayKind :=
  r <- atomically (insert_out_token stream_id out token) ;;
  match r with Done _ => Ret Play | _ => Ret Notfound end.
Definition stream_user_token_check (out : OutputEnum) (bsi : BaseStreamInfo) (stream_id token addr : string) : view OutPlayKind :=
  known <- reads (check_token token stream_id) ;;
  if known : bool then insert_token_kind stream_id out token
  else
    let play_info := {| spi_base := bsi; spi_remote_addr := Some addr; spi_token := token; spi_play_type := out |} in
    wait (send_event (MOut (OOnPlay play_info))) ;;;
    res <- ask (OnPlay play_info) ;;
    match res : option (option bool) with
    | Some (Some true) => insert_token_kind stream_id out token
    | Some _ => Ret Forbid
    | None => Ret Notfound
    end.

(** [flv::handler] and [dash::chunk]: the same with another output, muxer and
    body. *)
Definition live_view (out : OutputEnum) (muxer : MuxerEnum) (send : Z -> Z -> option OnDisconnect -> Response)
    (stream_id token addr : string) : view (outcome unit Response) :=
  info <- reads (get_base_stream_info_by_stream_id stream_id) ;;
  match info with
  | None => Ret (Done res_404)
  | Some bsi =>
      let ssrc := ri_ssrc (rtp_info bsi) in
      kind <- stream_user_token_check out bsi stream_id token addr ;;
      match kind with
      | Play =>
          r <- reads (get_muxer_rx ssrc muxer) ;;
          match r with
          | Done rx => Ret (Done (send ssrc rx (Some {| od_stream_id := stream_id; od_output := out; od_token := token;
                                                        od_addr := addr |})))
          | Failed _ => Ret (Done res_404)
          | Panic => Ret Panic
          end
      | Forbid => Ret (Done res_401)
      | Notfound => Ret (Done res_404)
      end
  end.
Definition flv_handler : string -> string -> string -> view (outcome unit Response) := live_view HttpFlv Flv send_frame.
Definition chunk : string -> string -> string -> view (outcome unit Response) := live_view DashFmp4 FMp4 send_fmp4.

(** [try_publish_mpsc], as far as the register goes, and the thread's answer. *)
Definition ask_thread {A} (ssrc : Z) (q : view (option A)) : view (option A) :=
  there <- reads (with_bus ssrc (fun _ => true)) ;;
  match there with Done _ => q | _ => Ret None end.
Definition get_video_param (ssrc : Z) : view (option MediaParam) := ask_thread ssrc (ask (AskMediaParam ssrc)).
Definition get_dash_mp4_init (ssrc : Z) : view (option bytes) := ask_thread ssrc (ask (AskDashMp4Header ssrc)).

Definition mpd_handler (stream_id token addr : string) : view (outcome unit Response) :=
  info <- reads (get_base_stream_info_by_stream_id stream_id) ;;
  match info with
  | None => Ret (Done res_404)
  | Some bsi =>
      let ssrc := ri_ssrc (rtp_info bsi) in
      kind <- stream_user_token_check DashMp4 bsi stream_id token addr ;;
      match kind with
      | Play =>
          mp <- get_video_param ssrc ;;
          match mp with
          | Some mp => Ret (Done {| status := 200;
                                    headers := [("Content-Type", "application/dash+xml"); ("Cache-Control", "no-cache")]%string;
                                    body := TextBody (generate_mpd stream_id mp); on_drop := None |})
          | None => Ret (Done res_404)
          end
      | Forbid => Ret (Done res_401)
      | Notfound => Ret (Done res_404)
      end
  end.

(** The beginning [init_segment] and [segment] share; [offset] in seconds. *)
Definition dash_viewer (offset : Z) (stream_id token addr : string) (k : Z -> view (outcome unit Response))
    : view (outcome unit Response) :=
  info <- reads (get_base_stream_info_by_stream_id stream_id) ;;
  match info with
  | None => Ret (Done res_404)
  | Some bsi =>
      known <- reads (check_token token stream_id) ;;
      if known : bool then
        r <- atomically (insert_out_token stream_id DashMp4 token) ;;
        match r with
        | Done _ => modify (listen_output_timeout stream_id DashMp4 token addr offset) ;;; k (ri_ssrc (rtp_info bsi))
        | _ => Ret (Done res_404)
        end
      else Ret (Done res_401)
  end.
Definition init_segment (stream_id token addr : string) : view (outcome unit Response) :=
  dash_viewer 0 stream_id token addr (fun ssrc =>
    init <- get_dash_mp4_init ssrc ;;
    match init with
    | Some init => Ret (Done {| status := 200;
                                headers := [("Content-Type", "video/mp4"); ("Cache-Control", "max-age=3600")]%string;
                                body := DataBody init; on_drop := None |})
    | None => Ret (Done res_404)
    end).
Definition segment (stream_id token addr : string) : view (outcome unit Response) :=
  dash_viewer DEFAULT_OFFSET_SECOND stream_id token addr (fun ssrc =>
    r <- reads (get_muxer_rx ssrc DashMp4Muxer) ;;
    match r with
    | Done rx =>
        pkt <- ask (RecvSegment rx) ;;
        match pkt : Recv with
        | RPacket p => Ret (Done {| status := 200; headers := [("Content-Type", "video/mp4")]%string;
                                    body := DataBody (mp_data p); on_drop := None |})
        | _ => Ret (Done res_404)
        end
    | Failed _ => Ret (Done res_404)
    | Panic => Ret Panic
    end).

(** [rsplit_once('.')] *)
Definition rsplit_dot (s : string) : option (string * string) :=
  match split_once "." (rev (chars s)) with
  | Some (tp, id) => Some (text (rev id), text (rev tp))
  | None => None
  end.
(** The HLS handlers are [unimplemented!()]. *)
Definition handler (stream_id : string) (token : option string) (addr : string) : view (outcome unit Response) :=
  match token with
  | None => Ret (Done res_401)
  | Some token =>
      match rsplit_dot stream_id with
      | None => Ret (Done res_404)
      | Some (id, tp) =>
          if bool_decide (tp = "flv")%string then flv_handler id token addr
          else if bool_decide (tp ∈ ["m3u8"; "hmp4"; "ts"]%string) then Ret Panic
          else if bool_decide (tp = "mpd")%string then mpd_handler id token addr
          else if bool_decide (tp = "m4it")%string then init_segment id token addr
          else if bool_decide (tp = "fmp4")%string then chunk id token addr
          else if bool_decide (tp = "m4s")%string then segment id token addr
          else Ret (Done res_404)
      end
  end.
