(* ===== verification/ViewerOutputProps.v ===== *)
(** * What viewers get, who they are, and whether they are counted out *)
From Stdlib Require Import Ascii.
From S2P Require Import Prelude Text SharedTypes StreamOutputs MediaRegister MediaProps RtpIngest H265Flv MediaParams Tasks.
From S2P Require Import ViewerOutput.
Local Open Scope task_scope.
Local Open Scope Z_scope.

(** ** Live views *)

(** What was received until the muxer closed the channel. *)
Fixpoint received (rx : list (Z * Recv)) : list (Z * MuxPacket) :=
  match rx with
  | [] => []
  | (t, RPacket p) :: rx => (t, p) :: received rx
  | (_, RLagged) :: rx => received rx
  | (_, RClosed) :: _ => []
  end.
Fixpoint from_key (ps : list (Z * MuxPacket)) : list (Z * MuxPacket) :=
  match ps with [] => [] | p :: rest => if mp_is_key p.2 then ps else from_key rest end.
Definition datas (ps : list (Z * MuxPacket)) : list bytes := (fun p => mp_data p.2) <$> ps.
Definition at_time (recvs : list Recv) : list (Z * Recv) := pair 0 <$> recvs.

Lemma flv_live_unfold header now rx fuel : (length rx < fuel)%nat ->
  FlvView.flv_unfold fuel header now {| FlvView.rx := rx; FlvView.state := FlvView.Live |} = datas (received rx).
Proof.
  revert fuel. induction rx as [|[t r] rx IH]; intros [|fuel] Hf; cbn [length] in Hf; try lia; [done|].
  destruct r as [p| |].
  - cbn. f_equal. apply IH. lia.
  - exact (IH (S fuel) ltac:(lia)).
  - done.
Qed.
(** The times of the receives do not decrease. *)
Definition in_order (rx : list (Z * Recv)) : Prop := StronglySorted Z.le rx.*1.
Lemma first_key_spec deadline rx : in_order rx ->
  match FlvView.first_key deadline rx with
  | Some (data, rest) => exists t p ps, from_key (received rx) = (t, p) :: ps /\ t <= deadline /\ data = mp_data p /\
                           ps = received rest /\ (length rest < length rx)%nat
  | None => forall t p ps, from_key (received rx) = (t, p) :: ps -> deadline < t
  end.
Proof.
  unfold in_order. induction rx as [|[t r] rx IH]; intros Hs; cbn; [done|].
  cbn in Hs. apply StronglySorted_inv in Hs as [Hs Ht].
  destruct (Z.ltb_spec deadline t) as [Hl|Hl].
  - assert (forall t' p ps, from_key (received ((t, r) :: rx)) = (t', p) :: ps -> t <= t') as Hall.
    { intros t' p ps Hk. assert (forall l t' p ps, from_key (received l) = (t', p) :: ps -> t' ∈ l.*1) as Hin.
      { clear. induction l as [|[t [q| |]] l IHl]; cbn; intros t' p ps; [done| | |done].
        - case_match; [intros [= <- <- <-]; by constructor|]. intros Hk. apply list_elem_of_further. by eapply IHl.
        - intros Hk. apply list_elem_of_further. by eapply IHl. }
      apply Hin in Hk. cbn in Hk. apply elem_of_cons in Hk as [->|Hk]; [lia|]. rewrite list.Forall_forall in Ht. by apply Ht. }
    intros t' p ps Hk. specialize (Hall t' p ps). cbn in Hall. specialize (Hall Hk). lia.
  - destruct r as [p| |].
    + cbn. destruct (mp_is_key p) eqn:Ek.
      * exists t, p, (received rx). split_and!; [done..|cbn; lia].
      * specialize (IH Hs). destruct (FlvView.first_key deadline rx) as [[data rest]|]; [|done].
        destruct IH as (t' & p' & ps & ? & ? & ? & ? & ?). exists t', p', ps. split_and!; [done..|cbn; lia].
    + specialize (IH Hs). destruct (FlvView.first_key deadline rx) as [[data rest]|]; [|done].
      destruct IH as (t' & p' & ps & ? & ? & ? & ? & ?). exists t', p', ps. split_and!; [done..|cbn; lia].
    + done.
Qed.
Definition flv_view (header : bytes) (now : Z) (rx : list (Z * Recv)) : list bytes :=
  header :: match from_key (received rx) with
            | (t, p) :: ps => if t <=? now + DEFAULT_EXPIRES then datas ((t, p) :: ps) else []
            | [] => []
            end.
Lemma flv_stream_view header now rx : in_order rx -> FlvView.flv_stream (Some header) now rx = flv_view header now rx.
Proof.
  intros Hs. pose proof (first_key_spec (now + DEFAULT_EXPIRES) rx Hs) as Hk. unfold FlvView.flv_stream, flv_view. cbn. f_equal.
  destruct (FlvView.first_key _ rx) as [[data rest]|]; cbn.
  - destruct Hk as (t & p & ps & -> & Ht & -> & -> & Hlen). rewrite (proj2 (Z.leb_le _ _)) by done. cbn. f_equal.
    by apply flv_live_unfold.
  - destruct (from_key _) as [|[t p] ps] eqn:Ef; [done|]. by rewrite (proj2 (Z.leb_gt _ _)) by (by eapply Hk).
Qed.

Lemma fmp4_live init epoch dump rx fuel : (length rx < fuel)%nat ->
  Fmp4View.fmp4_unfold fuel init {| Fmp4View.rx := rx; Fmp4View.state := Fmp4View.Live; Fmp4View.started := true;
                               Fmp4View.current_epoch := epoch; Fmp4View.dumped := dump |}
  = (datas (received (at_time rx)), dump ++ mjoin (datas (received (at_time rx)))).
Proof.
  revert fuel epoch dump. induction rx as [|r rx IH]; intros [|fuel] epoch dump Hf; cbn [length] in Hf; try lia.
  { cbn. by rewrite app_nil_r. }
  destruct r as [p| |].
  - cbn [Fmp4View.fmp4_unfold Fmp4View.fmp4_next Fmp4View.state Fmp4View.fmp4_next_chunk Fmp4View.rx Fmp4View.next_chunk
      Fmp4View.started]. cbn [Fmp4View.dumped Fmp4View.current_epoch]. rewrite IH by lia. cbn. by rewrite <- app_assoc.
  - exact (IH (S fuel) epoch dump ltac:(lia)).
  - cbn. by rewrite app_nil_r.
Qed.
Definition fmp4_view (init : bytes) (rx : list Recv) : list bytes :=
  match from_key (received (at_time rx)) with
  | (_, p) :: ps => (init ++ mp_data p) :: datas ps
  | [] => []
  end.
Lemma fmp4_first init epoch rx fuel : (length rx < fuel)%nat ->
  forall header, Fmp4View.fmp4_unfold fuel header {| Fmp4View.rx := rx; Fmp4View.state := Fmp4View.FirstKey init; Fmp4View.started := false;
                               Fmp4View.current_epoch := epoch; Fmp4View.dumped := [] |}
  = (fmp4_view init rx, mjoin (fmp4_view init rx)).
Proof.
  revert fuel epoch. induction rx as [|r rx IH]; intros [|fuel] epoch Hf header; cbn [length] in Hf; try lia; [done|].
  destruct r as [p| |]; [|exact (IH (S fuel) epoch ltac:(lia) header)|done].
  destruct (mp_is_key p) eqn:Ek.
  - unfold fmp4_view. cbn. rewrite Ek. cbn. rewrite fmp4_live by lia. cbn. done.
  - rewrite (eq_refl : fmp4_view init (RPacket p :: rx) = match from_key (received (at_time (RPacket p :: rx))) with
      | (_, p) :: ps => (init ++ mp_data p) :: datas ps | [] => [] end). cbn. rewrite Ek. cbn.
    specialize (IH (S fuel) (mp_epoch p) ltac:(lia) header). cbn in IH. exact IH.
Qed.

(** What a live view shows.  An FLV view is the header and then the data of
    every packet received from the first key frame on, in order, if that one
    comes within eight seconds, and nothing more otherwise; a fragmented MP4
    view is the same with the header put before the first key frame and without
    a limit; the end of the muxer ends both, packets missed while lagging are
    passed over, and everything a fragmented MP4 view shows is also appended to
    the dump. *)
Theorem live_view_from_key (header : bytes) (now : Z) (rx : list (Z * Recv)) :
  in_order rx ->
  FlvView.flv_stream (Some header) now rx = flv_view header now rx /\ FlvView.flv_stream None now rx = [] /\
  Fmp4View.fmp4_stream (Some header) now rx.*2 = (fmp4_view header rx.*2, mjoin (fmp4_view header rx.*2)) /\
  Fmp4View.fmp4_stream None now rx.*2 = ([], []).
Proof.
  intros Hs. split; [by apply flv_stream_view|]. split; [done|]. split; [|done].
  unfold Fmp4View.fmp4_stream. rewrite <- (fmp4_first header now rx.*2 (1 + length rx.*2) ltac:(lia) (Some header)). done.
Qed.

(** ** Who may watch *)

Section Viewers.
Context (env : MInner -> MInner -> Prop).

Lemma wp_true {R} (t : view R) w : wp env t (fun _ _ _ => True) w.
Proof. revert w. induction t; cbn; eauto. Qed.
(** Whatever the rest does. *)
Lemma wp_always {R} (t : view R) (post : R -> MInner -> list (event view_answer) -> Prop) w :
  (forall r w' tr, post r w' tr) -> wp env t post w.
Proof. intros Hp. eapply wp_mono; [|apply wp_true]. auto. Qed.

(** The signalling server has let a viewer with the token play the stream. *)
Definition allowed (token id : string) (tr : list (event view_answer)) : Prop :=
  exists info, existT (OnPlay info) (Some (Some true)) ∈ tr /\ spi_token info = token /\ bsi_stream_id (spi_base info) = id.
Lemma allowed_cons token id e tr : allowed token id tr -> allowed token id (e :: tr).
Proof. intros (info & Hin & Ht). exists info. split; [by right|done]. Qed.
Lemma allowed_app_l token id tr1 tr2 : allowed token id tr1 -> allowed token id (tr1 ++ tr2).
Proof. intros (info & Hin & Ht). exists info. split; [apply elem_of_app; by left|done]. Qed.

(** No other task makes the token known to the stream. *)
Context (token id : string) (Henv : forall w1 w2, env w1 w2 -> check_token token id w1 = false -> check_token token id w2 = false).
Lemma unknown_rtc w1 w2 : rtc env w1 w2 -> check_token token id w1 = false -> check_token token id w2 = false.
Proof using Henv. induction 1; eauto. Qed.
Definition needs_permission (r : outcome unit Response) (w' : MInner) (tr : list (event view_answer)) : Prop :=
  forall resp, r = Done resp -> status resp = 200 -> allowed token id tr.

Lemma unknown_send e late w w' : send_event e late w = Some (tt, w') -> check_token token id w = false -> check_token token id w' = false.
Proof. unfold send_event, try_send. destruct (0 <? event_room w); [|done]. by intros [= <-]. Qed.
Lemma check_needs out bsi addr w : check_token token id w = false -> bsi_stream_id bsi = id ->
  wp env (stream_user_token_check out bsi id token addr) (fun k _ tr => k = Play -> allowed token id tr) w.
Proof using Henv.
  intros Hw Hb. apply wp_step. intros w1 H1. pose proof (unknown_rtc _ _ H1 Hw) as Hw1. cbn [fst snd]. rewrite Hw1.
  cbn -[insert_token_kind]. intros w2 late [] w3 H2 Hs [[[]|]|]; cbn -[insert_token_kind]; [|done..].
  apply wp_always. intros k w' tr _. eexists. split; [by left|]. done.
Qed.
Lemma info_id w bsi : get_base_stream_info_by_stream_id id w = Some bsi -> bsi_stream_id bsi = id.
Proof. unfold get_base_stream_info_by_stream_id. intros (meta & _ & ->)%fmap_Some. done. Qed.
Ltac refused := by intros ? [= <-] ?.
Lemma live_view_needs out muxer send addr w : check_token token id w = false ->
  wp env (live_view out muxer send id token addr) needs_permission w.
Proof using Henv.
  intros Hw. apply wp_step. intros w1 H1. cbn [fst snd]. pose proof (unknown_rtc _ _ H1 Hw) as Hw1.
  destruct (get_base_stream_info_by_stream_id id w1) as [bsi|] eqn:Ei; [|refused].
  apply wp_bind. eapply wp_mono; [|by apply (check_needs out bsi addr), (info_id w1)].
  intros k w2 tr Hk. destruct k; [|refused..]. apply wp_always. intros r w' tr2 resp _ _. by apply allowed_app_l, Hk.
Qed.
Lemma mpd_needs addr w : check_token token id w = false -> wp env (mpd_handler id token addr) needs_permission w.
Proof using Henv.
  intros Hw. apply wp_step. intros w1 H1. cbn [fst snd]. pose proof (unknown_rtc _ _ H1 Hw) as Hw1.
  destruct (get_base_stream_info_by_stream_id id w1) as [bsi|] eqn:Ei; [|refused].
  apply wp_bind. eapply wp_mono; [|by apply (check_needs DashMp4 bsi addr), (info_id w1)].
  intros k w2 tr Hk. destruct k; [|refused..]. apply wp_always. intros r w' tr2 resp _ _. by apply allowed_app_l, Hk.
Qed.
Lemma dash_needs offset addr k w : check_token token id w = false -> wp env (dash_viewer offset id token addr k) needs_permission w.
Proof using Henv.
  intros Hw. apply wp_step. intros w1 H1. cbn [fst snd]. pose proof (unknown_rtc _ _ H1 Hw) as Hw1.
  destruct (get_base_stream_info_by_stream_id id w1) as [bsi|] eqn:Ei; [|refused].
  apply wp_step. intros w2 H2. cbn [fst snd]. rewrite (unknown_rtc _ _ H2 Hw1). refused.
Qed.

(** Who may watch.  While no other request makes the token known to the
    stream, a request is only served if the signalling server has just answered
    for that token and that stream that it may play. *)
Theorem viewer_authorised (path addr : string) (w w' : MInner) (tr : list (event view_answer)) (resp : Response) (tp : string) :
  check_token token id w = false -> rsplit_dot path = Some (id, tp) ->
  exec env w (handler path (Some token) addr) tr w' (Done resp) -> status resp = 200 -> allowed token id tr.
Proof using Henv.
  intros Hw Hp He Hs. assert (wp env (handler path (Some token) addr) needs_permission w) as Hwp.
  { unfold handler. rewrite Hp. repeat (case_bool_decide;
      [first [by apply live_view_needs | by apply mpd_needs | by apply dash_needs | by intros ? [=]]|]). refused. }
  by eapply (wp_sound env _ _ _ _ _ _ He Hwp).
Qed.
End Viewers.

(** ** Counting viewers out *)

(** The plays of a token that no session will count out. *)
Definition plays (token id : string) (out : OutputEnum) (i : MInner) : Z :=
  default 0 (user_token_map i !! (token, id) ≫= fun m => m !! out).
Definition is_session (token id : string) (out : OutputEnum) (s : Z * OutSession) : bool :=
  bool_decide (os_token s.2 = token /\ os_stream_id s.2 = id /\ os_output_enum s.2 = out).
Definition sessions (token id : string) (out : OutputEnum) (i : MInner) : Z :=
  Z.of_nat (size (filter (fun s => is_session token id out s = true) (out_session_map i))).
Definition outstanding (token id : string) (out : OutputEnum) (i : MInner) : Z :=
  plays token id out i - sessions token id out i.

Section Released.
Context (token id : string) (out : OutputEnum).
Abbreviation outstanding_ := (outstanding token id out).

Lemma insert_outstanding i : is_Some (stream_metadata_map i !! id) -> 0 <= plays token id out i < umax 32 ->
  let '(r, i1) := insert_out_token id out token i in
  r = Done tt /\ outstanding_ i1 = outstanding_ i + 1 /\ is_Some (stream_metadata_map i1 !! id) /\
  out_session_map i1 = out_session_map i /\ next_id i1 = next_id i /\ rtp_gateway_map i1 = rtp_gateway_map i.
Proof.
  intros [meta Hm] Hp. unfold insert_out_token. rewrite Hm. split; [done|]. split_and!; try done.
  - unfold outstanding, plays, sessions in *. cbn. rewrite lookup_insert_eq. cbn. rewrite lookup_insert_eq. cbn.
    destruct (user_token_map i !! (token, id)) as [m|]; cbn in *.
    2: { rewrite lookup_empty. lia. }
    destruct (m !! out) as [n|]; cbn in *; [|lia]. unfold wrapping_add, umax in *. rewrite Z.mod_small; lia.
  - cbn. rewrite lookup_insert_eq. by eexists.
Qed.
Lemma listen_outstanding addr offset i : is_Some (stream_metadata_map i !! id) -> out_session_map i !! next_id i = None ->
  outstanding_ (listen_output_timeout id out token addr offset i) = outstanding_ i - 1.
Proof.
  intros [meta Hm] Hn. unfold listen_output_timeout. rewrite Hm. unfold outstanding, sessions, plays. cbn.
  rewrite map_filter_insert_True by (by apply bool_decide_eq_true_2). rewrite map_size_insert_None; [lia|].
  apply map_lookup_filter_None. by left.
Qed.

(** No other task changes the register. *)
Definition quiet (_ _ : MInner) : Prop := False.
Lemma rtc_quiet w w1 : rtc quiet w w1 -> w1 = w.
Proof. by inversion 1. Qed.

Definition yes (e : event view_answer) : bool :=
  match e with existT (OnPlay _) (Some (Some true)) => true | _ => false end.
Definition admitted (w : MInner) (tr : list (event view_answer)) : bool := check_token token id w || existsb yes tr.
(** The stream is there, the next session is new and the count fits. *)
Definition ready (w : MInner) : Prop :=
  is_Some (stream_metadata_map w !! id) /\ out_session_map w !! next_id w = None /\ 0 <= plays token id out w < umax 32.
Definition counted (n : Z) (w w' : MInner) : Prop :=
  is_Some (stream_metadata_map w' !! id) /\ out_session_map w' !! next_id w' = None /\ outstanding_ w' = outstanding_ w + n.

Lemma insert_counted w : ready w -> counted 1 w (insert_out_token id out token w).2 /\ (insert_out_token id out token w).1 = Done tt.
Proof.
  intros (Hm & Hn & Hp). pose proof (insert_outstanding w Hm Hp) as Hi.
  destruct (insert_out_token id out token w) as [r w1]. destruct Hi as (-> & Ho & Hm1 & Hs & Hid & _). split; [|done].
  split_and!; [done| |done]. cbn. by rewrite Hs, Hid.
Qed.
Lemma send_quiet e late w w' : send_event e late w = Some (tt, w') -> ready w ->
  ready w' /\ outstanding_ w' = outstanding_ w.
Proof. unfold send_event, try_send. destruct (0 <? event_room w); [|done]. by intros [= <-]. Qed.
Lemma token_kind_counted w : ready w ->
  wp quiet (insert_token_kind id out token) (fun k w' tr => k = Play /\ tr = [] /\ counted 1 w w') w.
Proof.
  intros Hr. intros w1 ->%rtc_quiet. destruct (insert_counted w Hr) as [Hc Hd].
  destruct (insert_out_token id out token w) as [r w2]. cbn in *. by subst r.
Qed.
Lemma check_counted bsi addr w : ready w ->
  wp quiet (stream_user_token_check out bsi id token addr)
    (fun k w' tr => if admitted w tr then k = Play /\ counted 1 w w' else k <> Play /\ outstanding_ w' = outstanding_ w) w.
Proof.
  intros Hr. intros w1 ->%rtc_quiet. cbn [fst snd]. unfold admitted. destruct (check_token token id w) eqn:Ht.
  - eapply wp_mono; [|by apply token_kind_counted]. by intros k w' tr (-> & -> & Hc).
  - cbn -[insert_token_kind]. intros w2 late [] w3 ->%rtc_quiet Hs. apply send_quiet in Hs as [Hr3 Ho]; [|done].
    intros [[[]|]|]; cbn -[insert_token_kind]; [|done..].
    eapply wp_mono; [|by apply token_kind_counted]. intros k w' tr (-> & -> & Hm & Hn & Hc). split; [done|].
    split_and!; [done..|lia].
Qed.

(** What a request leaves uncounted when its response is dropped. *)
Definition leaves (n : list (event view_answer) -> Z -> Z) (w : MInner) (r : outcome unit Response) (w' : MInner)
    (tr : list (event view_answer)) : Prop :=
  forall resp, r = Done resp -> outstanding_ (drop_response resp w') = outstanding_ w + n tr (status resp).
Lemma live_view_leaves muxer send addr w :
  (forall ssrc rx d, status (send ssrc rx d) = 200 /\ on_drop (send ssrc rx d) = d) -> ready w ->
  wp quiet (live_view out muxer send id token addr)
    (leaves (fun tr status => if admitted w tr && (status =? 404) then 1 else 0) w) w.
Proof.
  intros Hsend Hr. apply wp_step. intros w1 ->%rtc_quiet. cbn [fst snd]. destruct Hr as ([meta Hm] & Hn & Hp). unfold get_base_stream_info_by_stream_id.
  rewrite Hm. cbn [fmap option_fmap option_map]. cbv iota zeta. apply wp_bind. eapply wp_mono; [|apply check_counted; by split; [eexists|]].
  intros k w2 tr Hk. cbn beta in Hk. destruct (admitted w tr) eqn:Ea.
  - destruct Hk as (-> & Hm2 & Hn2 & Ho). apply wp_step. intros w3 ->%rtc_quiet. cbn [fst snd].
    destruct (get_muxer_rx _ muxer w2) as [rx|e|]; cbn; intros resp [= <-]; rewrite app_nil_r, Ea.
    + destruct (Hsend (sm_ssrc meta) rx (Some {| od_stream_id := id; od_output := out; od_token := token; od_addr := addr |})) as [-> Hd].
      unfold drop_response. rewrite Hd. cbn [od_stream_id od_output od_token od_addr].
      rewrite listen_outstanding by done. cbn. lia.
    + cbn. lia.
  - destruct Hk as [Hk Ho]. destruct k; [done| |]; cbn; intros resp [= <-]; rewrite app_nil_r, Ea; cbn; lia.
Qed.
Lemma mpd_leaves addr w : out = DashMp4 -> ready w ->
  wp quiet (mpd_handler id token addr) (leaves (fun tr _ => if admitted w tr then 1 else 0) w) w.
Proof.
  intros Hout Hr. apply wp_step. intros w1 ->%rtc_quiet. cbn [fst snd]. pose proof Hr as ([meta Hm] & _). unfold get_base_stream_info_by_stream_id.
  rewrite Hm. cbn [fmap option_fmap option_map]. cbv iota zeta. apply wp_bind.
  assert (forall bsi, wp quiet (stream_user_token_check DashMp4 bsi id token addr)
    (fun k w' tr => if admitted w tr then k = Play /\ counted 1 w w' else k <> Play /\ outstanding_ w' = outstanding_ w) w) as Hc.
  { intros bsi. rewrite <- Hout. by apply check_counted. }
  eapply wp_mono; [|apply Hc]. intros k w2 tr Hk. cbn beta in Hk. destruct (admitted w tr) eqn:Ea.
  - destruct Hk as (-> & Hm2 & Hn2 & Ho). cbn -[generate_mpd with_bus]. intros w3 ->%rtc_quiet.
    assert (forall tr2, admitted w (tr ++ tr2) = true) as Ha.
    { intros tr2. unfold admitted in *. rewrite existsb_app. apply orb_true_iff in Ea as [->| ->]; [done|]. by rewrite orb_true_r. }
    destruct (with_bus _ _ w2); cbn; [intros [mp|]; cbn|..]; intros resp [= <-]; rewrite Ha; cbn; lia.
  - destruct Hk as [Hk Ho]. destruct k; [done| |]; cbn; intros resp [= <-]; rewrite app_nil_r, Ea; cbn; lia.
Qed.
Lemma dash_leaves offset addr k w : out = DashMp4 -> ready w ->
  (forall ssrc w1, wp quiet (k ssrc) (fun r w2 _ => outstanding_ w2 = outstanding_ w1 /\ forall resp, r = Done resp -> on_drop resp = None) w1) ->
  wp quiet (dash_viewer offset id token addr k) (leaves (fun _ _ => 0) w) w.
Proof.
  intros Hout Hr Hk. apply wp_step. intros w1 ->%rtc_quiet. cbn [fst snd]. pose proof Hr as ([meta Hm] & _). unfold get_base_stream_info_by_stream_id.
  rewrite Hm. cbn [fmap option_fmap option_map]. cbv iota zeta. apply wp_step. intros w1 ->%rtc_quiet. cbn [fst snd].
  destruct (check_token token id w); [|by intros resp [= <-]; cbn; lia].
  apply wp_step. intros w1 ->%rtc_quiet. rewrite <- Hout. destruct (insert_counted w Hr) as [(Hm1 & Hn1 & Ho) Hd].
  destruct (insert_out_token id out token w) as [r w2]. cbn [fst snd] in *. subst r.
  apply wp_step. intros w3 ->%rtc_quiet. cbn [fst snd]. eapply wp_mono; [|apply Hk]. intros r w4 tr [Hw4 Hdrop] resp Hresp.
  unfold drop_response. rewrite (Hdrop resp Hresp), Hw4. rewrite listen_outstanding by done. lia.
Qed.

Definition output_of (tp : string) : option OutputEnum :=
  if bool_decide (tp = "flv")%string then Some HttpFlv
  else if bool_decide (tp = "fmp4")%string then Some DashFmp4
  else if bool_decide (tp ∈ ["mpd"; "m4it"; "m4s"]%string) then Some DashMp4 else None.
(** A manifest, and a live view whose muxer is not there. *)
Definition left_behind (tp : string) (status : Z) : bool :=
  bool_decide (tp = "mpd")%string || (bool_decide (tp ∈ ["flv"; "fmp4"]%string) && (status =? 404)).
(** C33: Whether viewers are counted out.  While nothing else touches the
    register, a request that was answered, and whose response was dropped, has
    a session for every play it counted, but for two cases: a request for the
    manifest of a viewer let in, and one for a live view whose muxer is not
    open, are counted and never counted out. *)
Theorem viewers_counted_out (path addr tp : string) (w w' : MInner) (tr : list (event view_answer)) (resp : Response) :
  rsplit_dot path = Some (id, tp) -> output_of tp = Some out -> ready w ->
  exec quiet w (handler path (Some token) addr) tr w' (Done resp) ->
  outstanding_ (drop_response resp w') =
  outstanding_ w + (if admitted w tr && left_behind tp (status resp) then 1 else 0).
Proof.
  intros Hp Ho Hr He.
  assert (wp quiet (handler path (Some token) addr)
    (leaves (fun tr status => if admitted w tr && left_behind tp status then 1 else 0) w) w) as Hwp.
  { unfold handler. rewrite Hp. unfold output_of in Ho. unfold left_behind.
    destruct (decide (tp = "flv"%string)) as [->|]; [|destruct (decide (tp = "fmp4"%string)) as [->|]].
    - injection Ho as Ho. unfold flv_handler. rewrite Ho. eapply wp_mono; [|by apply (live_view_leaves Flv send_frame)].
      intros r w1 tr1 Hl resp1 Hr1. by rewrite (Hl resp1 Hr1).
    - injection Ho as Ho. unfold chunk. rewrite Ho. eapply wp_mono; [|by apply (live_view_leaves FMp4 send_fmp4)].
      intros r w1 tr1 Hl resp1 Hr1. by rewrite (Hl resp1 Hr1).
    - do 2 rewrite (bool_decide_eq_false_2) in Ho by done. case_bool_decide as Hin; [|done]. injection Ho as Ho. symmetry in Ho.
      rewrite !elem_of_cons, elem_of_nil in Hin. destruct Hin as [->|[->|[->|[]]]]; cbn.
      + eapply wp_mono; [|by apply mpd_leaves]. intros r w1 tr1 Hl resp1 Hr1. rewrite (Hl resp1 Hr1). by rewrite andb_true_r.
      + change (wp quiet (init_segment id token addr) (leaves (fun tr s => if admitted w tr && false then 1 else 0) w) w).
        eapply wp_mono; [|apply dash_leaves; [done..|]].
        * intros r w1 tr1 Hl resp1 Hr1. rewrite (Hl resp1 Hr1). by rewrite andb_false_r.
        * intros ssrc w1. cbn -[with_bus]. intros w2 ->%rtc_quiet. destruct (with_bus _ _ w1); cbn; [intros [b|]; cbn|..]; (split; [done|]); by intros ? [= <-].
      + change (wp quiet (segment id token addr) (leaves (fun tr s => if admitted w tr && false then 1 else 0) w) w).
        eapply wp_mono; [|apply dash_leaves; [done..|]].
        * intros r w1 tr1 Hl resp1 Hr1. rewrite (Hl resp1 Hr1). by rewrite andb_false_r.
        * intros ssrc w1. cbn -[get_muxer_rx]. intros w2 ->%rtc_quiet. destruct (get_muxer_rx _ _ w1); cbn; [intros [p| |]; cbn|..]; (split; [done|]); by intros ? [= <-]. }
  by apply (wp_sound quiet _ _ _ _ _ _ He Hwp).
Qed.
End Released.

(** ** Witnesses *)

Definition demo_packet (key : bool) (b : Z) : MuxPacket := {|
  mp_data := [b]; mp_is_key := key; mp_timestamp := 0; mp_epoch := 0; mp_seq := 0 |}.
Definition demo_received : list (Z * Recv) :=
  [(1, RPacket (demo_packet false 1)); (2, RPacket (demo_packet true 2)); (3, RLagged);
   (4, RPacket (demo_packet false 4)); (5, RClosed)].
Lemma live_view_from_key_witness :
  FlvView.flv_stream (Some [70]) 0 demo_received = [[70]; [2]; [4]] /\
  Fmp4View.fmp4_stream (Some [70]) 0 demo_received.*2 = ([[70; 2]; [4]], [70; 2; 4]).
Proof.
  destruct (live_view_from_key [70] 0 demo_received) as (-> & _ & -> & _); [by repeat constructor|]. by split.
Defined.

Definition demo_yes (q : ViewQuestion) : view_answer q :=
  match q with OnPlay _ => Some (Some true) | AskMediaParam _ => None | AskDashMp4Header _ => None | RecvSegment _ => RClosed end.
Lemma viewer_authorised_witness :
  exists tr w' resp, exec quiet demo_stream (handler "s.flv" (Some "t"%string) "1.2.3.4") tr w' (Done resp) /\
    status resp = 200 /\ allowed "t" "s" tr.
Proof.
  destruct (run_found id false demo_yes quiet
    (fun _ _ r => match r with Done resp => status resp =? 200 | _ => false end)
    (handler "s.flv" (Some "t"%string) "1.2.3.4") demo_stream) as (tr & w' & r & Hp & He); [constructor|by vm_compute|].
  destruct r as [resp| |]; [|done..]. apply Z.eqb_eq in Hp. exists tr, w', resp. split; [done|]. split; [done|].
  exact (viewer_authorised quiet "t" "s" (fun _ _ H => match H with end) "s.flv" "1.2.3.4" demo_stream w' tr resp "flv"
    ltac:(by vm_compute) ltac:(by vm_compute) He Hp).
Defined.

Lemma viewers_counted_out_witness :
  exists tr w' resp, exec quiet demo_stream (handler "s.mpd" (Some "t"%string) "1.2.3.4") tr w' (Done resp) /\
    outstanding "t" "s" DashMp4 (drop_response resp w') = outstanding "t" "s" DashMp4 demo_stream + 1.
Proof.
  destruct (run_found id false demo_yes quiet
    (fun tr _ r => match r with Done resp => admitted "t" "s" demo_stream tr && left_behind "mpd" (status resp) | _ => false end)
    (handler "s.mpd" (Some "t"%string) "1.2.3.4") demo_stream) as (tr & w' & r & Hp & He); [constructor|by vm_compute|].
  destruct r as [resp| |]; [|done..]. exists tr, w', resp. split; [done|].
  rewrite (viewers_counted_out "t" "s" DashMp4 "s.mpd" "1.2.3.4" "mpd" demo_stream w' tr resp
    ltac:(by vm_compute) ltac:(by vm_compute) ltac:(split; [by vm_compute; eexists|by vm_compute]) He). by rewrite Hp.
Defined.
