(* ===== verification/Recorder.v ===== *)
(** * Recording to a local file ([stream/src/io/local/mp4.rs])

    The recorder subscribes to the MP4 muxer and writes what it receives to a
    file, the header before the first key frame.  It answers questions about its
    progress, can be closed, and reports the end of the recording. *)
From S2P Require Import Prelude Paths SharedTypes StreamOutputs MediaRegister RtpIngest H265Flv Tasks ViewerOutput.
Local Open Scope task_scope.
Local Open Scope Z_scope.

(** [reply] names the asker's channel. *)
Inductive Mp4OutputInnerEvent := StoreInfo (reply : Z) | Close.
(** The branch [select!] takes; no inner event when the bus is gone. *)
Inductive RecordBranch := PktRecv (r : Recv) | InnerRecv (e : option Mp4OutputInnerEvent).

(** The receivers are the list of branches still to come. *)
Record LocalStoreMp4Context := {
  ls_path : string; ls_ssrc : Z; ls_file_name : string; ls_file_size : Z; ls_ts : Z; ls_state : Z
}.
(** As the register makes it. *)
Definition LocalStoreMp4Context_new (path : string) (ssrc : Z) (stream_id : string) : LocalStoreMp4Context := {|
  ls_path := path; ls_ssrc := ssrc; ls_file_name := stream_id; ls_file_size := 0; ls_ts := 0; ls_state := 0 |}.
(** [file_size] is a [usize]. *)
Definition took (p : MuxPacket) (c : LocalStoreMp4Context) : LocalStoreMp4Context := {|
  ls_path := ls_path c; ls_ssrc := ls_ssrc c; ls_file_name := ls_file_name c;
  ls_file_size := wrapping_add 64 (ls_file_size c) (Z.of_nat (length (mp_data p))); ls_ts := mp_timestamp p;
  ls_state := ls_state c |}.
Definition progress (c : LocalStoreMp4Context) : StreamRecordInfo := {|
  sr_path_file_name := None; sr_file_size := ls_file_size c; sr_timestamp := ls_ts c mod 2 ^ 32; sr_state := ls_state c |}.

(** The file system, the stream's thread ([None]: the sender was dropped) and
    the asker. *)
Inductive RecordQuestion :=
| CreateDirAll (path : string) | CreateFile (path : string) | WriteAll (data : bytes) | AskMp4Header (ssrc : Z)
| Reply (to : Z) (info : StreamRecordInfo).
Definition record_answer (q : RecordQuestion) : Type :=
  match q with
  | CreateDirAll _ | CreateFile _ | WriteAll _ => bool
  | AskMp4Header _ => option bytes
  | Reply _ _ => unit
  end.
Abbreviation rec := (task MInner record_answer).

Inductive RecordError := NoDirectory | NoFile | WriteFailed | NoStreamBus | HeaderDropped.
Definition write_all (data : bytes) : rec (outcome RecordError unit) :=
  ok <- ask (WriteAll data) ;; Ret (if ok : bool then Done tt else Failed WriteFailed).

(** [None]: neither branch is ready again. *)
Abbreviation waiting A := (option (outcome RecordError A)).
Definition or_fail {A B} (t : rec (outcome RecordError A)) (k : A -> rec (waiting B)) : rec (waiting B) :=
  r <- t ;; match r with Done a => k a | Failed e => Ret (Some (Failed e)) | Panic => Ret (Some Panic) end.

(** [InnerEvent::Mp4Header], asked for through the stream's bus. *)
Definition ask_header (ssrc : Z) : rec (outcome RecordError bytes) :=
  there <- reads (with_bus ssrc (fun _ => true)) ;;
  match there with
  | Done _ =>
      header <- ask (AskMp4Header ssrc) ;;
      Ret (match header : option bytes with Some h => Done h | None => Failed HeaderDropped end)
  | _ => Ret (Failed NoStreamBus)
  end.
Fixpoint handle_first_key_frame (branches : list RecordBranch) (c : LocalStoreMp4Context)
    : rec (waiting (LocalStoreMp4Context * list RecordBranch)) :=
  match branches with
  | [] => Ret None
  | PktRecv (RPacket p) :: branches =>
      if mp_is_key p then
        or_fail (ask_header (ls_ssrc c)) (fun header =>
        or_fail (write_all header) (fun _ =>
        or_fail (write_all (mp_data p)) (fun _ => Ret (Some (Done (took p c, branches))))))
      else handle_first_key_frame branches c
  | PktRecv _ :: branches => Ret (Some (Done (c, branches)))
  | InnerRecv (Some (StoreInfo tx)) :: branches => ask (Reply tx (progress c)) ;;; handle_first_key_frame branches c
  | InnerRecv (Some Close) :: branches => Ret (Some (Done (c, branches)))
  | InnerRecv None :: branches => handle_first_key_frame branches c
  end.
(** The loop of [run]. *)
Fixpoint record_packets (branches : list RecordBranch) (c : LocalStoreMp4Context) : rec (waiting LocalStoreMp4Context) :=
  match branches with
  | [] => Ret None
  | PktRecv (RPacket p) :: branches => or_fail (write_all (mp_data p)) (fun _ => record_packets branches (took p c))
  | PktRecv _ :: _ => Ret (Some (Done c))
  | InnerRecv (Some (StoreInfo tx)) :: branches => ask (Reply tx (progress c)) ;;; record_packets branches c
  | InnerRecv (Some Close) :: _ => Ret (Some (Done c))
  | InnerRecv None :: branches => record_packets branches c
  end.
Definition run (branches : list RecordBranch) (c : LocalStoreMp4Context) : rec (waiting LocalStoreMp4Context) :=
  let dir_path := path_join (ls_path c) "mp4" in
  made <- ask (CreateDirAll dir_path) ;;
  if negb made then Ret (Some (Failed NoDirectory)) else
  created <- ask (CreateFile (with_extension (path_join dir_path (ls_file_name c)) "mp4")) ;;
  if negb created then Ret (Some (Failed NoFile)) else
  r <- handle_first_key_frame branches c ;;
  match r with
  | Some (Done (c1, branches)) => record_packets branches c1
  | Some (Failed e) => Ret (Some (Failed e))
  | Some Panic => Ret (Some Panic)
  | None => Ret None
  end.

Definition stored_path (c : LocalStoreMp4Context) : string := (ls_path c +:+ "/mp4/" +:+ ls_file_name c +:+ ".mp4")%string.
Definition completed (c : LocalStoreMp4Context) : StreamRecordInfo := {|
  sr_path_file_name := Some (stored_path c); sr_file_size := ls_file_size c; sr_timestamp := ls_ts c mod 2 ^ 32; sr_state := 1 |}.
Definition failed (c : LocalStoreMp4Context) : StreamRecordInfo := {|
  sr_path_file_name := Some (stored_path c); sr_file_size := 0; sr_timestamp := 0; sr_state := 3 |}.
(** The spawned task; what it reports, if the recording ends. *)
Definition store (branches : list RecordBranch) (c : LocalStoreMp4Context) : rec (option StreamRecordInfo) :=
  modify (handle_stream_metadata_map_output Insert (ls_file_name c) LocalMp4) ;;;
  r <- run branches c ;;
  match r with
  | None => Ret None
  | Some r =>
      let info := match r with Done c1 => completed c1 | _ => failed c end in
      wait (send_event (MOut (OEndRecord info))) ;;;
      modify (handle_stream_metadata_map_output Remove (ls_file_name c) LocalMp4) ;;;
      Ret (Some info)
  end.
