(* ===== verification/RecorderProps.v ===== *)
(** * What a recording holds *)
From S2P Require Import Prelude SharedTypes StreamOutputs MediaRegister MediaProps RtpIngest H265Flv CodecParams Muxers MuxersProps Tasks.
From S2P Require Import ViewerOutput Recorder.
Local Open Scope task_scope.
Local Open Scope Z_scope.

(** ** The specification *)

(** From where the recorder has begun: what it takes, and whether it ends. *)
Fixpoint kept (bs : list RecordBranch) : list MuxPacket :=
  match bs with
  | PktRecv (RPacket p) :: bs => p :: kept bs
  | [] | PktRecv _ :: _ | InnerRecv (Some Close) :: _ => []
  | InnerRecv _ :: bs => kept bs
  end.
Fixpoint ends (bs : list RecordBranch) : bool :=
  match bs with
  | [] => false
  | PktRecv (RPacket _) :: bs => ends bs
  | PktRecv _ :: _ | InnerRecv (Some Close) :: _ => true
  | InnerRecv _ :: bs => ends bs
  end.
(** The key frame it begins with, none if something else came first. *)
Fixpoint begun (bs : list RecordBranch) : option (option MuxPacket * list RecordBranch) :=
  match bs with
  | [] => None
  | PktRecv (RPacket p) :: bs => if mp_is_key p then Some (Some p, bs) else begun bs
  | PktRecv _ :: bs | InnerRecv (Some Close) :: bs => Some (None, bs)
  | InnerRecv _ :: bs => begun bs
  end.
Definition headed (bs : list RecordBranch) : bool := match begun bs with Some (Some _, _) => true | _ => false end.
Definition recorded (bs : list RecordBranch) : list MuxPacket :=
  match begun bs with Some (p, bs) => option_list p ++ kept bs | None => [] end.
Definition over (bs : list RecordBranch) : bool := match begun bs with Some (_, bs) => ends bs | None => false end.
Definition planned (header : bytes) (bs : list RecordBranch) : list bytes :=
  (if headed bs then [header] else []) ++ (mp_data <$> recorded bs).

(** What is in the file, and the header the stream's thread has given. *)
Record Tape := { tape : list bytes; given : option bytes }.
Definition tape_step (g : Tape) (e : event record_answer) : Tape :=
  match e with
  | existT (WriteAll data) true => {| tape := tape g ++ [data]; given := given g |}
  | existT (AskMp4Header _) (Some h) => {| tape := tape g; given := Some h |}
  | _ => g
  end.
Definition taped (tr : list (event record_answer)) : Tape := foldl tape_step {| tape := []; given := None |} tr.

(** ** The loops *)

Abbreviation acc := (accounts tape_step).
Lemma acc_write {B} data (k : unit -> rec (waiting B)) post g :
  acc (k tt) post {| tape := tape g ++ [data]; given := given g |} -> post (Some (Failed WriteFailed)) g ->
  acc (or_fail (write_all data) k) post g.
Proof. intros Hk Hf. by intros []. Qed.

Definition loop_post (bs : list RecordBranch) (c : LocalStoreMp4Context) (g : Tape)
    (r : waiting LocalStoreMp4Context) (g' : Tape) : Prop :=
  given g' = given g /\
  match r with
  | Some (Done c') => ends bs = true /\ c' = foldl (fun c p => took p c) c (kept bs) /\ tape g' = tape g ++ (mp_data <$> kept bs)
  | Some (Failed _) => exists n, tape g' = tape g ++ take n (mp_data <$> kept bs)
  | Some Panic => False
  | None => ends bs = false /\ tape g' = tape g ++ (mp_data <$> kept bs)
  end.
Lemma packets_written bs : forall c g, acc (record_packets bs c) (loop_post bs c g) g.
Proof.
  assert (Hnil : forall g : Tape, tape g = tape g ++ []) by (intros; by rewrite app_nil_r).
  induction bs as [|b bs IH]; intros c g; [done|].
  destruct b as [[p| |]|[[tx|]|]]; cbn [record_packets].
  2-3, 5: done.
  2: intros ?; exact (IH c g).
  2: exact (IH c g).
  apply acc_write; [|split; [done|by exists 0%nat]].
  eapply accounts_mono; [apply IH|]. intros r g' [Hg Hr]. cbn in Hg. split; [done|].
  destruct r as [[c'|e|]|]; cbn in *; rewrite <- ?app_assoc in Hr; [done| |done..].
  destruct Hr as [n Hn]. exists (S n). by rewrite Hn, <- app_assoc.
Qed.

Definition first_post (bs : list RecordBranch) (c : LocalStoreMp4Context) (g : Tape)
    (r : waiting (LocalStoreMp4Context * list RecordBranch)) (g' : Tape) : Prop :=
  match r with
  | Some (Done (c', rest)) =>
      exists p, begun bs = Some (p, rest) /\ c' = foldl (fun c p => took p c) c (option_list p) /\
      match p with
      | Some p => exists h, given g' = Some h /\ tape g' = tape g ++ [h; mp_data p]
      | None => g' = g
      end
  | Some (Failed _) => exists p rest, begun bs = Some (Some p, rest) /\ (g' = g \/
      exists h, given g' = Some h /\ (tape g' = tape g \/ tape g' = tape g ++ [h]))
  | Some Panic => False
  | None => begun bs = None /\ g' = g
  end.
Lemma first_written bs : forall c g, acc (handle_first_key_frame bs c) (first_post bs c g) g.
Proof.
  induction bs as [|b bs IH]; intros c g; [done|].
  destruct b as [[p| |]|[[tx|]|]]; cbn [handle_first_key_frame].
  2-3, 5: by exists None.
  2: intros ?; exact (IH c g).
  2: exact (IH c g).
  destruct (mp_is_key p) eqn:Ek.
  2: eapply accounts_mono; [exact (IH c g)|]; intros r g' Hr; unfold first_post in *; cbn; by rewrite Ek.
  assert (begun (PktRecv (RPacket p) :: bs) = Some (Some p, bs)) as Hb by (cbn; by rewrite Ek).
  assert (forall e g', (g' = g \/ exists h, given g' = Some h /\ (tape g' = tape g \/ tape g' = tape g ++ [h])) ->
    first_post (PktRecv (RPacket p) :: bs) c g (Some (Failed e)) g') as Hfail by (intros e g' Hg; by exists p, bs).
  cbn -[first_post write_all or_fail with_bus begun]. intros there. unfold or_fail at 1. cbn -[first_post write_all or_fail begun].
  destruct there; cbn -[first_post write_all or_fail begun]; [|by apply Hfail; left..].
  intros [h|]; cbn -[first_post write_all or_fail begun]; [|by apply Hfail; left].
  apply acc_write; [|apply Hfail; right; exists h; split; [done|by left]].
  apply acc_write; [|apply Hfail; right; exists h; split; [done|by right]].
  exists (Some p). split; [done|]. split; [done|]. exists h. split; [done|]. cbn. by rewrite <- app_assoc.
Qed.

Definition run_post (bs : list RecordBranch) (c : LocalStoreMp4Context) (r : waiting LocalStoreMp4Context) (g : Tape) : Prop :=
  let h := default [] (given g) in
  match r with
  | Some (Done c') => over bs = true /\ c' = foldl (fun c p => took p c) c (recorded bs) /\ tape g = planned h bs
  | Some (Failed _) => exists n, tape g = take n (planned h bs)
  | Some Panic => False
  | None => over bs = false /\ tape g = planned h bs
  end.
Lemma run_written bs c : acc (run bs c) (run_post bs c) {| tape := []; given := None |}.
Proof.
  intros [|]; cbn -[handle_first_key_frame]; [|by exists 0%nat]. intros [|]; cbn -[handle_first_key_frame]; [|by exists 0%nat].
  apply accounts_bind. eapply accounts_mono; [apply first_written|].
  unfold run_post, planned, headed, recorded, over.
  intros [[[c1 rest]|e|]|] g1 Hg1.
  - destruct Hg1 as (p & -> & -> & Hg). eapply accounts_mono; [apply packets_written|].
    intros r g' [Hgiven Hr]. cbn zeta. rewrite Hgiven. rewrite fmap_app, foldl_app.
    destruct p as [p|].
    + destruct Hg as (h & Hh & Ht). rewrite Hh. cbn in *. rewrite Ht in Hr.
      destruct r as [[c'|e|]|]; cbn in *; try done. destruct Hr as [n Hn]. exists (2 + n)%nat. by rewrite Hn.
    + subst g1. cbn in *. destruct r as [[c'|e|]|]; cbn in *; done.
  - destruct Hg1 as (p & rest & -> & [->|(h & Hh & [Ht|Ht])]); cbn in *.
    + by exists 0%nat.
    + exists 0%nat. by rewrite Ht.
    + exists 1%nat. by rewrite Ht, Hh.
  - done.
  - destruct Hg1 as [-> ->]. done.
Qed.

Lemma store_written bs c : acc (store bs c) (fun r g =>
  let h := default [] (given g) in
  match r with
  | Some info => info = completed (foldl (fun c p => took p c) c (recorded bs)) /\ over bs = true /\ tape g = planned h bs \/
                 info = failed c /\ exists n, tape g = take n (planned h bs)
  | None => over bs = false /\ tape g = planned h bs
  end) {| tape := []; given := None |}.
Proof.
  unfold store. apply accounts_bind. cbn -[run send_event]. intros ?. apply accounts_bind.
  eapply accounts_mono; [apply run_written|]. intros [r|] g Hr; [|done].
  cbn -[run_post send_event]. intros [] []. cbn -[run_post]. unfold run_post in Hr. cbn zeta in *.
  destruct r; [left|right|done]; naive_solver.
Qed.

Lemma took_all ps : forall c, let c1 := foldl (fun c p => took p c) c ps in
  0 <= ls_file_size c < 2 ^ 64 ->
  ls_path c1 = ls_path c /\ ls_file_name c1 = ls_file_name c /\
  ls_file_size c1 = wrapping_add 64 (ls_file_size c) (Z.of_nat (length (mjoin (mp_data <$> ps)))) /\
  ls_ts c1 = default (ls_ts c) (mp_timestamp <$> last ps).
Proof.
  induction ps as [|p ps IH]; intros c; cbn zeta; intros Hc.
  { cbn. rewrite wrapping_add_small by lia. split_and!; [done..|lia|done]. }
  cbn [foldl]. destruct (IH (took p c)) as (-> & -> & -> & ->); cbn.
  { unfold wrapping_add. by apply Z.mod_pos_bound. }
  split_and!; try done.
  - rewrite length_app. unfold wrapping_add. rewrite Zplus_mod_idemp_l. by rewrite Nat2Z.inj_add, Z.add_assoc.
  - rewrite last_cons. by destruct (last ps).
Qed.

(** ** The file *)

(** What a recording holds.  Whatever else happens, what has been written to
    the file is the header, once, and then the data of every packet received
    from the first key frame on, in order, and of none before; a recording
    reported as complete holds all of them until it was closed or the packets
    ended, and reports their size, without the header's, and the last one's
    time; if anything fails, the file is a part of that and the report says
    so.  If the recorder is closed or misses packets before the first key frame,
    it goes on without a header. *)
Theorem recording_written (env : MInner -> MInner -> Prop) (path file_name : string) (ssrc : Z) (bs : list RecordBranch)
    (w w' : MInner) (tr : list (event record_answer)) (r : option StreamRecordInfo) :
  exec env w (store bs (LocalStoreMp4Context_new path ssrc file_name)) tr w' r ->
  let file := planned (default [] (given (taped tr))) bs in
  let packets := recorded bs in
  match r with
  | None => over bs = false /\ tape (taped tr) = file
  | Some info =>
      sr_path_file_name info = Some (path +:+ "/mp4/" +:+ file_name +:+ ".mp4")%string /\
      ((sr_state info = 1 /\ over bs = true /\ tape (taped tr) = file /\
        sr_file_size info = Z.of_nat (length (mjoin (mp_data <$> packets))) mod 2 ^ 64 /\
        sr_timestamp info = default 0 (mp_timestamp <$> last packets) mod 2 ^ 32) \/
       (sr_state info = 3 /\ exists n, tape (taped tr) = take n file))
  end.
Proof.
  intros He. pose proof (accounts_sound tape_step env _ _ _ _ _ _ _ He (store_written bs _)) as Hr.
  cbn zeta in *. unfold taped. destruct r as [info|]; [|done].
  destruct Hr as [(-> & Ho & Ht)|(-> & n & Hn)].
  - destruct (took_all (recorded bs) (LocalStoreMp4Context_new path ssrc file_name) ltac:(done)) as (Hp & Hf & Hsz & Hts).
    unfold completed, stored_path. cbn [sr_path_file_name sr_state sr_file_size sr_timestamp]. rewrite Hp, Hf, Hsz, Hts.
    split; [done|]. left. by split_and!.
  - split; [done|]. right. split; [done|]. by exists n.
Qed.

(** ** The muxer's packets in a file *)

Section Whole.
Context `{AVOutput}.

(** A subscriber that misses none of the packets sent. *)
Definition missing_none (sent : list MuxPacket) : list RecordBranch := (PktRecv ∘ RPacket <$> sent) ++ [PktRecv RClosed].
Lemma kept_all sent : kept (missing_none sent) = sent.
Proof. induction sent as [|p sent IH]; [done|]. cbn. by f_equal. Qed.
Lemma begun_key p sent : mp_is_key p = true -> begun (missing_none (p :: sent)) = Some (Some p, missing_none sent).
Proof. intros Hk. cbn. by rewrite Hk. Qed.

Lemma key_packets_planned h p sent : mp_is_key p = true ->
  mjoin (planned h (missing_none (p :: sent))) = h ++ sent_bytes (p :: sent).
Proof.
  intros Hk. unfold planned, headed, recorded. rewrite (begun_key p sent Hk). cbn [option_list].
  rewrite kept_all. done.
Qed.
(** What flushing sends is not marked as a key frame. *)
Lemma mp4_flush_sent c : exists tail, mc_sent (mp4_flush c) = mc_sent c ++ tail /\ Forall (fun p => mp_is_key p = false) tail.
Proof.
  unfold mp4_flush. destruct (if negb (mc_flushed c) then _ else _) as [produced ctx].
  destruct (write_callback _ _); cbn; [exists []; by rewrite app_nil_r|]. eexists. split; [done|]. by constructor.
Qed.
Lemma no_key_planned h sent : Forall (fun p => mp_is_key p = false) sent -> planned h (missing_none sent) = [].
Proof.
  intros Hs. unfold planned, headed, recorded. replace (begun (missing_none sent)) with (Some (@None MuxPacket, @nil RecordBranch)); [done|].
  induction Hs as [|p sent Hp Hs IH]; [done|]. cbn. by rewrite Hp.
Qed.

(** C34: A recording is playable: if the recorder misses nothing, the header it
    is given is the muxer's and it reports a complete recording, then the file
    is the header followed by exactly the bytes FFmpeg wrote, the trailer
    included, provided that the first packet sent carries the mark of a key
    frame; and if the muxer sends nothing before it is flushed, a file
    reported as complete holds nothing at all. *)
Theorem recording_holds_stream (env : MInner -> MInner -> Prop) (now : Z) (streams : list AVStream) (params : nat)
    (c : Mp4Context) (pkts : list (Packet * Z)) (ctx : LocalStoreMp4Context) (w w' : MInner)
    (tr : list (event record_answer)) (info : StreamRecordInfo) :
  mp4_init_context now streams params = Done c ->
  let sent := mc_sent (mp4_flush (mp4_run pkts c)) in
  let ffmpeg := written (omap (mp4_input c) pkts.*1) (mc_ctx c) in
  exec env w (store (missing_none sent) ctx) tr w' (Some info) -> sr_state info = 1 ->
  match mc_sent (mp4_run pkts c) with
  | [] => tape (taped tr) = []
  | p :: _ => mp_is_key p = true -> given (taped tr) = Some (mp4_get_header c) ->
              mjoin (tape (taped tr)) = mc_header c ++ ffmpeg.1 ++ (write_trailer ffmpeg.2).1
  end.
Proof.
  intros Hi. cbn zeta. intros He Hs. pose proof (accounts_sound tape_step env _ _ _ _ _ _ _ He (store_written _ _)) as Hr.
  cbn beta iota zeta in Hr. destruct Hr as [(_ & _ & Ht)|(-> & _)]; [|done]. change (foldl tape_step _ tr) with (taped tr) in Ht.
  destruct (recording_complete now streams params c pkts Hi) as (Hb & _). cbn zeta in Hb.
  destruct (mp4_flush_sent (mp4_run pkts c)) as (tail & Hf & Hn). rewrite Hf in *.
  destruct (mc_sent (mp4_run pkts c)) as [|p sent].
  - rewrite Ht. by apply no_key_planned.
  - intros Hk Hg. rewrite Ht, Hg. cbn [default]. rewrite <- Hb. by apply (key_packets_planned _ p (sent ++ tail)).
Qed.
End Whole.

(** ** Witnesses *)

Definition demo_received (data : Z) (key : bool) (ts : Z) : MuxPacket := {|
  mp_data := [data]; mp_is_key := key; mp_timestamp := ts; mp_epoch := 0; mp_seq := 0 |}.
Definition demo_branches : list RecordBranch :=
  [PktRecv (RPacket (demo_received 1 false 1)); InnerRecv (Some (StoreInfo 9)); PktRecv (RPacket (demo_received 2 true 2));
   InnerRecv None; PktRecv (RPacket (demo_received 3 false 3)); InnerRecv (Some Close)].
Definition demo_disk (header : bytes) (q : RecordQuestion) : record_answer q :=
  match q with CreateDirAll _ | CreateFile _ | WriteAll _ => true | AskMp4Header _ => Some header | Reply _ _ => tt end.
Definition no_one (_ _ : MInner) : Prop := False.
(** A recording reported as complete, by running it. *)
Lemma demo_recording header bs ctx p :
  run_test id false (demo_disk header) (fun tr _ r => match r with Some info => (sr_state info =? 1) && p tr info | None => false end)
    (store bs ctx) MediaProps.demo_stream = true ->
  exists tr w' info, exec no_one MediaProps.demo_stream (store bs ctx) tr w' (Some info) /\ sr_state info = 1 /\ p tr info = true.
Proof.
  intros Ht. destruct (run_found id false (demo_disk header) no_one _ _ _ ltac:(constructor) Ht) as (tr & w' & r & Hp & He).
  destruct r as [info|]; [|done]. apply andb_true_iff in Hp as [Hs Hp]. exists tr, w', info. split; [done|]. by apply Z.eqb_eq in Hs.
Qed.
Lemma recording_written_witness :
  exists tr w' info, exec no_one MediaProps.demo_stream (store demo_branches (LocalStoreMp4Context_new "/rec" 7 "s")) tr w' (Some info) /\
    tape (taped tr) = [[70; 71]; [2]; [3]] /\ sr_file_size info = 2 /\ sr_timestamp info = 3.
Proof.
  destruct (demo_recording [70; 71] demo_branches (LocalStoreMp4Context_new "/rec" 7 "s")
    (fun tr _ => bool_decide (given (taped tr) = Some [70; 71])) ltac:(by vm_compute)) as (tr & w' & info & He & Hs & Hg).
  exists tr, w', info. split; [done|]. apply bool_decide_eq_true in Hg.
  destruct (recording_written no_one "/rec" "s" 7 demo_branches _ w' tr (Some info) He) as (_ & [(_ & _ & -> & -> & ->)|(Hf & _)]).
  - rewrite Hg. by vm_compute.
  - by rewrite Hf in Hs.
Defined.
Lemma recording_holds_stream_witness :
  exists c tr w' info, mp4_init_context (H := demo_output) 5 demo_streams 2 = Done c /\
    exec no_one MediaProps.demo_stream (store (missing_none (mc_sent (H := demo_output) (mp4_flush (H := demo_output)
      (mp4_run (H := demo_output) (tail demo_packets) c)))) (LocalStoreMp4Context_new "/rec" 7 "s")) tr w' (Some info) /\
    mjoin (tape (taped tr)) = [1; 2; 10; 11; 12; 8; 255].
Proof.
  destruct (mp4_init_context (H := demo_output) 5 demo_streams 2) as [c| |] eqn:Hc; [|by vm_compute in Hc..].
  assert (c = ltac:(let r := eval vm_compute in (mp4_init_context (H := demo_output) 5 demo_streams 2) in
                    match r with Done ?x => exact x end)) as -> by (vm_compute in Hc; by injection Hc as <-).
  match type of Hc with _ = Done ?x => set (c := x) in * end.
  destruct (demo_recording [1; 2] (missing_none (mc_sent (H := demo_output) (mp4_flush (H := demo_output)
      (mp4_run (H := demo_output) (tail demo_packets) c)))) (LocalStoreMp4Context_new "/rec" 7 "s")
    (fun tr _ => bool_decide (given (taped tr) = Some [1; 2])) ltac:(by vm_compute)) as (tr & w' & info & He & Hs & Hg).
  exists c, tr, w', info. split; [done|]. split; [done|]. apply bool_decide_eq_true in Hg.
  pose proof (recording_holds_stream (H := demo_output) no_one 5 demo_streams 2 c (tail demo_packets) _ _ w' tr info Hc He Hs) as Hw.
  destruct (mc_sent (mp4_run (tail demo_packets) c)) as [|q sent] eqn:Eq in Hw; [by vm_compute in Eq|].
  vm_compute in Eq. injection Eq as <- _. rewrite (Hw eq_refl Hg). by vm_compute.
Defined.
