(* ===== verification/MediaApi.v ===== *)
(** * The media node's interface for the signalling server
    ([stream/src/io/http/api.rs], [mod.rs], [shared/src/info/res.rs]) and the
    start of streams ([stream/src/media/mod.rs])

    Requests on streams are answered from the register and the recorder, those
    on talks from the talk table.  A stream listened for goes through a bounded
    channel to [handle_process], which starts its media thread. *)
From S2P Require Import Prelude SharedTypes StreamOutputs MediaRegister MediaProps MediaExt TalkUpload Tasks Recorder.
Local Open Scope task_scope.
Local Open Scope Z_scope.

(** ** Responses *)

Record Resp (A : Type) := { code : Z; msg : string; data : option A }.
Arguments code {A} r.
Arguments msg {A} r.
Arguments data {A} r.
Definition build_success {A} : Resp A := {| code := 200; msg := "success"; data := None |}.
Definition build_success_data {A} (a : A) : Resp A := {| code := 200; msg := "success"; data := Some a |}.
Definition build_failed_code {A} (c : Z) (m : string) : Resp A := {| code := c; msg := m; data := None |}.

(** The code and the text the error library has for an error. *)
Class OutErr (E : Type) := { err_code : E -> Z; out_err : E -> string }.
Definition res_by_error {A} `{OutErr E} (e : E) : Resp A := build_failed_code (err_code e) (out_err e).

(** The handlers' errors: those of the register, and a full channel. *)
Inductive ApiError := AtRegister (e : MediaError) | ChannelFull.

(** ** Streams *)

(** The channel of [run_app] holds a hundred SSRCs. *)
Definition PROCESS_ROOM : nat := 100.
(** [nd_waiting]: the stream whose configuration [handle_process] waits for;
    [nd_done]: those it is done with, and whether it has started them. *)
Record MediaNode := { nd_register : MInner; nd_queue : list Z; nd_waiting : option Z; nd_done : list (Z * bool) }.
Definition set_register (i : MInner) (n : MediaNode) : MediaNode := {|
  nd_register := i; nd_queue := nd_queue n; nd_waiting := nd_waiting n; nd_done := nd_done n |}.
Definition set_queue (q : list Z) (n : MediaNode) : MediaNode := {|
  nd_register := nd_register n; nd_queue := q; nd_waiting := nd_waiting n; nd_done := nd_done n |}.
Definition set_waiting (s : option Z) (d : list (Z * bool)) (n : MediaNode) : MediaNode := {|
  nd_register := nd_register n; nd_queue := nd_queue n; nd_waiting := s; nd_done := d |}.

Section Api.
Context (bus_ok : bool) `{OutErr ApiError} `{OutErr TalkError}.

Definition send_ssrc (ssrc : Z) (n : MediaNode) : bool * MediaNode :=
  if decide (length (nd_queue n) < PROCESS_ROOM)%nat then (true, set_queue (nd_queue n ++ [ssrc]) n) else (false, n).
(** [Panic]: an output that is not implemented. *)
Definition listen_media (config : MediaConfig) (n : MediaNode) : outcome ApiError (Resp unit) * MediaNode :=
  let '(r, i) := init_media bus_ok config (nd_register n) in
  let n1 := set_register i n in
  match r with
  | Done ssrc =>
      let '(sent, n2) := send_ssrc ssrc n1 in
      (Done (if sent : bool then build_success else res_by_error ChannelFull), n2)
  | Failed e => (Done (res_by_error (AtRegister e)), n1)
  | Panic => (Panic, n1)
  end.
Definition sdp_media (ssrc : Z) (ext : MediaExt) (n : MediaNode) : outcome ApiError (Resp unit) * MediaNode :=
  let '(r, i) := init_media_ext ssrc ext (nd_register n) in
  (match r with
   | Done _ => Done build_success
   | Failed e => Done (res_by_error (AtRegister e))
   | Panic => Panic
   end, set_register i n).
Definition stream_online (key : StreamKey) (n : MediaNode) : Resp bool := build_success_data (is_exist key (nd_register n)).

(** *** [handle_process] *)

(** [sub_bus_mpsc_channel]. *)
Definition process_take (n : MediaNode) : option MediaNode :=
  match nd_waiting n, nd_queue n with
  | None, ssrc :: queue =>
      let n1 := set_queue queue n in
      Some (match with_bus ssrc (fun _ => bus_ok) (nd_register n) with
            | Done _ => set_waiting (Some ssrc) (nd_done n) n1
            | _ => set_waiting None (nd_done n ++ [(ssrc, false)]) n1
            end)
  | _, _ => None
  end.
(** The wait has no limit: it ends with a configuration, then the media thread
    is spawned, or when the bus is dropped. *)
Definition process_config (configured : bool) (n : MediaNode) : option MediaNode :=
  ssrc ← nd_waiting n; Some (set_waiting None (nd_done n ++ [(ssrc, configured)]) n).

(** ** Recordings *)

(** The recorder's answer, if its bus takes the question. *)
Inductive RecordAsk := AskStoreInfo (ssrc : Z) | SendClose (ssrc : Z).
Definition recorder_answer (q : RecordAsk) : Type :=
  match q with AskStoreInfo _ => option StreamRecordInfo | SendClose _ => bool end.
Abbreviation api := (task MInner recorder_answer).
Definition ask_recorder (ssrc : Z) (q : RecordAsk) : api (option (recorder_answer q)) :=
  there <- reads (with_bus ssrc (fun _ => true)) ;;
  match there with Done _ => a <- ask q ;; Ret (Some a) | _ => Ret None end.
(** [not_found]: [BaseErrorCode::NotFound]'s code and text. *)
Definition record_info (not_found : Resp StreamRecordInfo) (ssrc : Z) (output_enum : OutputEnum) : api (Resp StreamRecordInfo) :=
  match output_enum with
  | LocalMp4 =>
      a <- ask_recorder ssrc (AskStoreInfo ssrc) ;;
      Ret (match a : option (option StreamRecordInfo) with Some (Some info) => build_success_data info | _ => not_found end)
  | _ => Ret not_found
  end.
Definition close_output (ssrc : Z) (output_enum : OutputEnum) : api (Resp unit) :=
  match output_enum with
  | LocalMp4 => ask_recorder ssrc (SendClose ssrc) ;;; Ret build_success
  | _ => Ret build_success
  end.

(** ** Talks *)

Section Talks.
Context {Addr : Type} (parse_device_addr : string -> Z -> option Addr).
Abbreviation talks := (World (Addr := Addr)).

Definition answered {A} (r : outcome TalkError A * talks) (resp : A -> Resp A) : outcome ApiError (Resp A) * talks :=
  (match r.1 with Done a => Done (resp a) | Failed e => Done (res_by_error e) | Panic => Panic end, r.2).
Definition talk_open (now : Z) (req : TalkOpenReq) (w : talks) : outcome ApiError (Resp TalkOpenResp) * talks :=
  answered (open now req w) build_success_data.
Definition talk_answer (req : TalkAnswerReq) (w : talks) : outcome ApiError (Resp unit) * talks :=
  answered (answer parse_device_addr req w) (fun _ => build_success).
Definition talk_online (talk_id : string) (w : talks) : Resp bool := build_success_data (is_online talk_id w).
Definition talk_close (room : bool) (talk_id : string) (w : talks) : Resp unit * talks :=
  (build_success, (close room talk_id w).2).

(** [None]: 401. *)
Inductive WsUpgrade := Upgraded (talk_id : string).
Definition talk_input_ws (talk_id : string) (token : option string) (w : talks) : option WsUpgrade :=
  token ← token; if check_token talk_id token w then Some (Upgraded talk_id) else None.
Inductive WsMessage := WsBinary (frame : list Z) | WsText | WsClose | WsPingPong | WsError.
(** One message of the socket; [None] leaves the loop. *)
Definition socket_message (talk_id : string) (m : WsMessage) (w : talks) : option talks :=
  match m with
  | WsBinary frame => Some (push_frame talk_id frame w).2
  | WsText | WsPingPong => Some w
  | WsClose | WsError => None
  end.
Fixpoint handle_talk_socket (talk_id : string) (messages : list WsMessage) (w : talks) : talks :=
  match messages with
  | [] => w
  | m :: messages => match socket_message talk_id m w with Some w => handle_talk_socket talk_id messages w | None => w end
  end.
End Talks.
End Api.

(** ** Which streams are started, and in which order *)

Section Starting.
Context (bus_ok : bool) `{OutErr ApiError}.

(** Requests, the media thread's starter, and anything else that works on the
    register. *)
Inductive node_step : MediaNode -> MediaNode -> Prop :=
| step_listen config n r n' : listen_media bus_ok config n = (r, n') -> node_step n n'
| step_register i n : node_step n (set_register i n)
| step_take n n' : process_take bus_ok n = Some n' -> node_step n n'
| step_config configured n n' : process_config configured n = Some n' -> node_step n n'.

(** The streams accepted so far, in order. *)
Definition accepted (n : MediaNode) : list Z := (nd_done n).*1 ++ option_list (nd_waiting n) ++ nd_queue n.

Lemma listen_queue config n : let '(_, n') := listen_media bus_ok config n in
  nd_waiting n' = nd_waiting n /\ nd_done n' = nd_done n /\ (nd_queue n' = nd_queue n \/ nd_queue n' = nd_queue n ++ [mc_ssrc config]).
Proof.
  unfold listen_media. destruct (init_media bus_ok config (nd_register n)) as [r i] eqn:Hi.
  destruct r as [ssrc|e|]; [|by split_and!; [..|left]|by split_and!; [..|left]].
  assert (ssrc = mc_ssrc config) as ->.
  { unfold init_media in Hi. repeat case_match; simplify_eq; done. }
  unfold send_ssrc. case_decide; cbn; split_and!; auto.
Qed.
Lemma step_accepts n n' : node_step n n' ->
  accepted n `prefix_of` accepted n' /\ nd_done n `prefix_of` nd_done n' /\
  (nd_waiting n <> None -> nd_done n' = nd_done n -> nd_waiting n' = nd_waiting n).
Proof.
  unfold accepted. intros [config m r m' Hl|i m|m m' Ht|configured m m' Hc].
  - pose proof (listen_queue config m) as Hq. rewrite Hl in Hq. destruct Hq as (-> & -> & [->| ->]); split_and!; try done.
    rewrite !app_assoc. by apply prefix_app_r.
  - by split_and!.
  - unfold process_take in Ht. destruct (nd_waiting m); [done|]. destruct (nd_queue m) as [|ssrc queue]; [done|].
    injection Ht as <-. destruct (with_bus _ _ _); cbn; rewrite ?fmap_app; cbn; rewrite <- ?app_assoc; split_and!;
      try done; by apply prefix_app_r.
  - unfold process_config in Hc. destruct (nd_waiting m) as [ssrc|]; [|done]. cbn in Hc. injection Hc as <-. cbn.
    rewrite fmap_app. cbn. rewrite <- app_assoc. split_and!; [done|by apply prefix_app_r|].
    intros _ Hd. by apply (f_equal length) in Hd; rewrite length_app in Hd; cbn in Hd; lia.
Qed.
Lemma steps_accept n n' : rtc node_step n n' ->
  accepted n `prefix_of` accepted n' /\ nd_done n `prefix_of` nd_done n' /\
  (nd_waiting n <> None -> nd_done n' = nd_done n -> nd_waiting n' = nd_waiting n).
Proof.
  induction 1 as [n|n1 n2 n3 H12 _ IH]; [done|]. destruct (step_accepts _ _ H12) as (Ha & Hd & Hw).
  destruct IH as (Ha2 & Hd2 & Hw2). split_and!; [by etransitivity..|]. intros Hn He.
  assert (nd_done n2 = nd_done n1) as He2.
  { rewrite <- He in Hd. destruct Hd as [l1 Hl1], Hd2 as [l2 Hl2]. rewrite Hl1 in Hl2.
    rewrite <- (app_nil_r (nd_done n3)) in Hl2 at 1. rewrite <- app_assoc in Hl2. apply app_inv_head in Hl2.
    symmetry in Hl2. apply app_eq_nil in Hl2 as [-> _]. by rewrite Hl1, He, app_nil_r. }
  rewrite <- (Hw Hn He2). apply Hw2; [by rewrite (Hw Hn He2)|]. by rewrite He, He2.
Qed.

(** The starter alone, while every configuration comes. *)
Lemma drain n : exists n', rtc node_step n n' /\ nd_queue n' = [] /\ nd_waiting n' = None /\ accepted n' = accepted n.
Proof.
  assert (Hw : forall q n, nd_queue n = q -> nd_waiting n = None ->
    exists n', rtc node_step n n' /\ nd_queue n' = [] /\ nd_waiting n' = None /\ accepted n' = accepted n).
  { induction q as [|ssrc q IH]; intros m Hq Hm; [by exists m|].
    assert (exists m1, rtc node_step m m1 /\ nd_queue m1 = q /\ nd_waiting m1 = None /\ accepted m1 = accepted m) as (m1 & Hs & Hq1 & Hw1 & Ha1).
    { pose proof (eq_refl (process_take bus_ok m)) as Ht. unfold process_take in Ht at 2. rewrite Hm, Hq in Ht.
      destruct (with_bus ssrc _ _) eqn:Hb; [|eexists; split; [by apply rtc_once, step_take|]..].
      - eexists. split; [eapply rtc_l; [by eapply step_take|]; apply rtc_once; by apply (step_config true)|].
        cbn. unfold accepted. cbn. by rewrite Hm, Hq, fmap_app, <- app_assoc.
      - cbn. unfold accepted. cbn. by rewrite Hm, Hq, fmap_app, <- app_assoc.
      - cbn. unfold accepted. cbn. by rewrite Hm, Hq, fmap_app, <- app_assoc. }
    destruct (IH m1 Hq1 Hw1) as (m2 & Hs2 & ? & ? & Ha2). exists m2. split; [by etransitivity|]. by rewrite Ha2, Ha1. }
  destruct (nd_waiting n) as [ssrc|] eqn:Hn; [|by apply (Hw (nd_queue n))].
  destruct (Hw (nd_queue n) (set_waiting None (nd_done n ++ [(ssrc, true)]) n) eq_refl eq_refl) as (n' & Hs & ? & ? & Ha).
  exists n'. split; [|split_and!; [done..|]].
  - eapply rtc_l; [|exact Hs]. apply (step_config true). unfold process_config. by rewrite Hn.
  - rewrite Ha. unfold accepted. cbn. by rewrite Hn, fmap_app, <- app_assoc.
Qed.

(** C35: Streams are started in the order in which they were asked for, one at a
    time: whatever else happens, the streams done with are the first of those
    accepted; while the starter waits for the configuration of one stream, no
    other is started, however long that takes; and if every wait ends, every
    accepted stream gets its turn. *)
Theorem streams_start_in_order (n n' : MediaNode) (ssrc : Z) :
  rtc node_step n n' -> nd_waiting n = Some ssrc ->
  accepted n `prefix_of` accepted n' /\ (nd_done n').*1 `prefix_of` accepted n' /\
  (nd_done n' = nd_done n /\ nd_waiting n' = Some ssrc \/
   exists configured rest, nd_done n' = nd_done n ++ (ssrc, configured) :: rest) /\
  exists n2, rtc node_step n' n2 /\ (nd_done n2).*1 = accepted n'.
Proof.
  intros Hs Hn. destruct (steps_accept _ _ Hs) as (Ha & [d Hd] & Hw). split; [done|]. split; [by eexists|]. split.
  - destruct d as [|[s b] d].
    + left. rewrite app_nil_r in Hd. split; [done|]. rewrite Hw by (done || by rewrite Hn). done.
    + right. exists b, d. rewrite Hd. do 2 f_equal. f_equal. unfold accepted in Ha. rewrite Hd, Hn, fmap_app, <- app_assoc in Ha.
      cbn in Ha. apply prefix_app_inv in Ha. by apply prefix_cons_inv_1 in Ha.
  - destruct (drain n') as (n2 & Hs2 & Hq & Hw2 & Ha2). exists n2. split; [done|]. rewrite <- Ha2. unfold accepted.
    by rewrite Hq, Hw2, !app_nil_r.
Qed.

Lemma is_exist_sent key e i : is_exist key (try_send e i).2 = is_exist key i.
Proof. unfold try_send. by destruct (0 <? event_room i). Qed.

(** What a request to listen for a stream leaves behind.  Answered with
    success, the stream is online and queued for its start; refused because the
    queue is full, it is online all the same, and will never be started;
    refused by the register, the streams online are as before. *)
Theorem listen_media_outcome (config : MediaConfig) (n : MediaNode) (r : Resp unit) (n' : MediaNode) :
  listen_media bus_ok config n = (Done r, n') ->
  let key := {| sk_ssrc := mc_ssrc config; sk_stream_id := Some (mc_stream_id config) |} in
  r = build_success /\ accepted n' = accepted n ++ [mc_ssrc config] /\ data (stream_online key n') = Some true \/
  r = res_by_error ChannelFull /\ accepted n' = accepted n /\ (PROCESS_ROOM <= length (nd_queue n))%nat /\
    data (stream_online key n') = Some true \/
  (exists e, r = res_by_error (AtRegister e)) /\ accepted n' = accepted n /\
    rtp_gateway_map (nd_register n') = rtp_gateway_map (nd_register n) /\
    stream_metadata_map (nd_register n') = stream_metadata_map (nd_register n).
Proof.
  cbn zeta. unfold listen_media. destruct (init_media bus_ok config (nd_register n)) as [ri i] eqn:Hi.
  assert (match ri with
          | Done ssrc => ssrc = mc_ssrc config /\
              is_exist {| sk_ssrc := mc_ssrc config; sk_stream_id := Some (mc_stream_id config) |} i = true
          | _ => rtp_gateway_map i = rtp_gateway_map (nd_register n) /\ stream_metadata_map i = stream_metadata_map (nd_register n)
          end) as Hr.
  { unfold init_media in Hi. cbn in Hi. repeat case_match; simplify_eq; try done; split; try done.
    1: rewrite is_exist_sent.
    all: unfold is_exist; cbn; rewrite !lookup_insert_eq; cbn; rewrite Z.eqb_refl; by rewrite bool_decide_eq_true_2. }
  unfold send_ssrc, stream_online, accepted, build_success_data. destruct ri as [ssrc|e|]; [|intros [= <- <-]|done].
  - destruct Hr as [-> Hr]. case_decide; intros [= <- <-]; cbn in *; rewrite Hr.
    + left. split_and!; [done| |done]. by rewrite !app_assoc.
    + right. left. split_and!; [done..|lia|done].
  - right. right. split; [by eexists|]. by split.
Qed.
End Starting.

(** ** Witnesses *)

#[local] Instance demo_err : OutErr ApiError := {| err_code _ := 500; out_err _ := "failed" |}.
Definition demo_node : MediaNode := {|
  nd_register := MediaProps.demo_stream; nd_queue := [8]; nd_waiting := Some 7; nd_done := [] |}.
Lemma streams_start_in_order_witness :
  exists n', rtc (node_step true) demo_node n' /\ accepted n' = [7; 8; 7] /\
    (nd_done n' = [] /\ nd_waiting n' = Some 7 \/ exists configured rest, nd_done n' = (7, configured) :: rest).
Proof.
  assert (rtc (node_step true) demo_node (listen_media true (demo_config KHttpFlv) demo_node).2) as Hs.
  { apply rtc_once, (step_listen true (demo_config KHttpFlv) _ (listen_media true (demo_config KHttpFlv) demo_node).1).
    by destruct (listen_media _ _ _). }
  eexists. split; [exact Hs|]. split; [by vm_compute|].
  exact (proj1 (proj2 (proj2 (streams_start_in_order true demo_node _ 7 Hs eq_refl)))).
Defined.
Lemma listen_media_outcome_witness :
  exists r n', listen_media true (demo_config KHttpFlv) demo_node = (Done r, n') /\ r = build_success /\ accepted n' = [7; 8; 7].
Proof.
  eexists _, _. split; [reflexivity|].
  edestruct (listen_media_outcome true (demo_config KHttpFlv) demo_node) as [(-> & -> & _)|[(Hr & _)|((e & Hr) & _)]];
    [reflexivity|by split|by vm_compute in Hr..].
Defined.
