(* ===== verification/Storage.v ===== *)
(** * The tables of the signalling server
    ([session/src/storage/entity.rs], [mapper.rs], [db_task.rs])

    Each SQL statement is a function on the rows; whether the next statements
    succeed is part of the data base's state.  The unique keys are those the
    statements rely on.  Times are in milliseconds. *)
From Stdlib Require Import Ascii Floats.SpecFloat.
From S2P Require Import Prelude Text Float64 SharedTypes Xml RegisterCore DeviceAuth SipEvents StreamService.
Local Open Scope Z_scope.

(** ** Rows *)

(** The columns of GMV_DEVICE a device information fills. *)
Record GmvDeviceExt := {
  de_device_id : string; de_device_type : option string; de_manufacturer : string; de_model : string;
  de_firmware : string; de_max_camera : option Z
}.
Record DeviceRow := { dr_device : GmvDevice; dr_ext : option GmvDeviceExt }.
(** [or_del]: the column DEL. *)
Record OauthRow := { or_oauth : GmvOauth; or_del : Z }.
Record GmvDeviceChannel := {
  dc_device_id : string; dc_channel_id : string; dc_name : option string; dc_manufacturer : option string;
  dc_model : option string; dc_owner : option string; dc_status : string; dc_civil_code : option string;
  dc_address : option string; dc_parental : option Z; dc_block : option string; dc_parent_id : option string;
  dc_ip_address : option string; dc_port : option Z; dc_password : option string; dc_longitude : option spec_float;
  dc_latitude : option spec_float; dc_ptz_type : option Z; dc_supply_light_type : option Z
}.
Record GmvFileInfo := {
  fi_id : option Z; fi_device_id : string; fi_channel_id : string; fi_biz_time : option Z; fi_biz_id : string;
  fi_file_type : option Z; fi_file_size : Z; fi_file_name : string; fi_file_format : option string; fi_dir_path : string;
  fi_abs_path : string; fi_note : option string; fi_is_del : option Z; fi_create_time : option Z
}.
Definition set_file_id (id : Z) (f : GmvFileInfo) : GmvFileInfo := {|
  fi_id := Some id; fi_device_id := fi_device_id f; fi_channel_id := fi_channel_id f; fi_biz_time := fi_biz_time f;
  fi_biz_id := fi_biz_id f; fi_file_type := fi_file_type f; fi_file_size := fi_file_size f; fi_file_name := fi_file_name f;
  fi_file_format := fi_file_format f; fi_dir_path := fi_dir_path f; fi_abs_path := fi_abs_path f; fi_note := fi_note f;
  fi_is_del := fi_is_del f; fi_create_time := fi_create_time f |}.

(** [db_fate]: whether the coming statements succeed; all do after the last. *)
Record Db := {
  db_devices : gmap string DeviceRow; db_oauths : gmap string OauthRow;
  db_channels : gmap (string * string) GmvDeviceChannel; db_channel_conf : gset (string * string);
  db_records : gmap string GmvRecord; db_files : gmap Z GmvFileInfo; db_next_file : Z; db_fate : list bool
}.
Definition set_devices (m : gmap string DeviceRow) (d : Db) : Db := {|
  db_devices := m; db_oauths := db_oauths d; db_channels := db_channels d; db_channel_conf := db_channel_conf d;
  db_records := db_records d; db_files := db_files d; db_next_file := db_next_file d; db_fate := db_fate d |}.
Definition set_channels (m : gmap (string * string) GmvDeviceChannel) (c : gset (string * string)) (d : Db) : Db := {|
  db_devices := db_devices d; db_oauths := db_oauths d; db_channels := m; db_channel_conf := c;
  db_records := db_records d; db_files := db_files d; db_next_file := db_next_file d; db_fate := db_fate d |}.
Definition set_records (m : gmap string GmvRecord) (d : Db) : Db := {|
  db_devices := db_devices d; db_oauths := db_oauths d; db_channels := db_channels d; db_channel_conf := db_channel_conf d;
  db_records := m; db_files := db_files d; db_next_file := db_next_file d; db_fate := db_fate d |}.
Definition set_files (m : gmap Z GmvFileInfo) (next : Z) (d : Db) : Db := {|
  db_devices := db_devices d; db_oauths := db_oauths d; db_channels := db_channels d; db_channel_conf := db_channel_conf d;
  db_records := db_records d; db_files := m; db_next_file := next; db_fate := db_fate d |}.
Definition set_fate (f : list bool) (d : Db) : Db := {|
  db_devices := db_devices d; db_oauths := db_oauths d; db_channels := db_channels d; db_channel_conf := db_channel_conf d;
  db_records := db_records d; db_files := db_files d; db_next_file := db_next_file d; db_fate := f |}.

(** ** Statements *)

Inductive DbError := DbFailed | DuplicateKey | RowNotFound.
Definition db (A : Type) : Type := Db -> outcome DbError A * Db.
Definition db_ret {A} (a : A) : db A := fun d => (Done a, d).
Definition db_bind {A B} (m : db A) (k : A -> db B) : db B :=
  fun d => let '(r, d1) := m d in
           match r with Done a => k a d1 | Failed e => (Failed e, d1) | Panic => (Panic, d1) end.
Definition statement {A} (f : Db -> outcome DbError A * Db) : db A :=
  fun d => match db_fate d with
           | false :: fate => (Failed DbFailed, set_fate fate d)
           | _ :: fate => f (set_fate fate d)
           | [] => f d
           end.
Definition select {A} (f : Db -> A) : db A := statement (fun d => (Done (f d), d)).
Definition update (f : Db -> Db) : db unit := statement (fun d => (Done tt, f d)).
Declare Scope db_scope.
Notation "x <-- m ;; k" := (db_bind m (fun x => k)) (at level 100, m at next level, right associativity) : db_scope.
Local Open Scope db_scope.

(** *** GMV_RECORD *)

Definition rm_gmv_record_by_biz_id (biz_id : string) : db unit := update (fun d => set_records (delete biz_id (db_records d)) d).
Definition insert_single_gmv_record (r : GmvRecord) : db unit := statement (fun d =>
  match db_records d !! gr_biz_id r with
  | Some _ => (Failed DuplicateKey, d)
  | None => (Done tt, set_records (<[gr_biz_id r := r]> (db_records d)) d)
  end).
(** Some matching row. *)
Definition running_record (device_id channel_id : string) (r : GmvRecord) : bool :=
  (gr_state r =? 0) && bool_decide (gr_device_id r = device_id) && bool_decide (gr_channel_id r = channel_id).
Definition query_gmv_record_run_by_device_id_channel_id (device_id channel_id : string) : db (option GmvRecord) :=
  select (fun d => head (filter (fun r => running_record device_id channel_id r = true) (map_to_list (db_records d)).*2)).
Definition query_gmv_record_by_biz_id (biz_id : string) : db (option GmvRecord) := select (fun d => db_records d !! biz_id).
Definition set_record_state (state lt : Z) (r : GmvRecord) : GmvRecord := {|
  gr_biz_id := gr_biz_id r; gr_device_id := gr_device_id r; gr_channel_id := gr_channel_id r; gr_user_id := gr_user_id r;
  gr_st := gr_st r; gr_et := gr_et r; gr_speed := gr_speed r; gr_ct := gr_ct r; gr_state := state; gr_lt := lt;
  gr_stream_app_name := gr_stream_app_name r |}.
(** Only the state and the time of the change are written. *)
Definition update_gmv_record_by_biz_id (r : GmvRecord) : db unit := update (fun d =>
  set_records (alter (set_record_state (gr_state r) (gr_lt r)) (gr_biz_id r) (db_records d)) d).

(** *** GMV_OAUTH *)

Definition oauth_row (d : Db) (device_id : string) : option GmvOauth :=
  row ← db_oauths d !! device_id; if (or_del row =? 0) && (oa_status (or_oauth row) =? 1) then Some (or_oauth row) else None.
Definition read_gmv_oauth_by_device_id (device_id : string) : db (option GmvOauth) := select (fun d => oauth_row d device_id).
(** No statement for no devices; the order of the rows is the data base's. *)
Definition read_gmv_oauth_by_device_ids (device_ids : list string) : db (list GmvOauth) :=
  match device_ids with
  | [] => db_ret []
  | _ => select (fun d => omap (oauth_row d) (remove_dups device_ids))
  end.

(** *** GMV_DEVICE *)

Definition query_gmv_device_by_device_id (device_id : string) : db (option GmvDevice) :=
  select (fun d => dr_device <$> db_devices d !! device_id).
Definition insert_single_gmv_device_by_register (device_id : string) (dev : GmvDevice) : db unit := update (fun d =>
  set_devices (<[device_id := {| dr_device := dev; dr_ext := db_devices d !! device_id ≫= dr_ext |}]> (db_devices d)) d).
Definition set_online_expire (t : Z) (r : DeviceRow) : DeviceRow := {|
  dr_device := {| gd_transport := gd_transport (dr_device r); gd_local_addr := gd_local_addr (dr_device r);
    gd_register_time := gd_register_time (dr_device r); gd_register_expires := gd_register_expires (dr_device r);
    gd_online_expire_time := Some t; gd_contact_uri := gd_contact_uri (dr_device r);
    gd_gb_version := gd_gb_version (dr_device r); gd_enable_lr := gd_enable_lr (dr_device r) |};
  dr_ext := dr_ext r |}.
Definition expire_online_by_device_id (now : Z) (device_id : string) : db unit := update (fun d =>
  set_devices (alter (set_online_expire now) device_id (db_devices d)) d).
(** [now()] of the data base has whole seconds. *)
Definition refresh_online_expire_time_by_device_id (now : Z) (device_id : string) : db unit := update (fun d =>
  match db_oauths d !! device_id with
  | Some o => set_devices (alter (set_online_expire (now / 1000 * 1000 + oa_heartbeat_sec (or_oauth o) * 3 * 1000)) device_id
                             (db_devices d)) d
  | None => d
  end).

Definition GmvDeviceExt_default : GmvDeviceExt := {|
  de_device_id := ""; de_device_type := None; de_manufacturer := ""; de_model := ""; de_firmware := ""; de_max_camera := None |}.
Definition ext_field (de : GmvDeviceExt) (kv : string * string) : GmvDeviceExt :=
  let '(k, v) := kv in
  let at_key (name : string) : bool := bool_decide (k = name) in
  {| de_device_id := if at_key "Response,DeviceID" then v else de_device_id de;
     de_device_type := if at_key "Response,DeviceType" then Some v else de_device_type de;
     de_manufacturer := if at_key "Response,Manufacturer" then v else de_manufacturer de;
     de_model := if at_key "Response,Model" then v else de_model de;
     de_firmware := if at_key "Response,Firmware" then v else de_firmware de;
     de_max_camera := if at_key "Response,MaxCamera" then SipEvents.parse_u8 v else de_max_camera de |}.
Definition GmvDeviceExt_build (vs : list (string * string)) : GmvDeviceExt := foldl ext_field GmvDeviceExt_default vs.
Definition set_ext (e : GmvDeviceExt) (r : DeviceRow) : DeviceRow := {| dr_device := dr_device r; dr_ext := Some e |}.
Definition update_gmv_device_ext_info (vs : list (string * string)) : db unit :=
  let ext := GmvDeviceExt_build vs in
  update (fun d => set_devices (alter (set_ext ext) (de_device_id ext) (db_devices d)) d).

(** [GMV_OAUTH] and [GMV_DEVICE] joined; neither DEL nor STATUS is looked at. *)
Record DeviceStatus := {
  ds_heartbeat : Z; ds_enable : Z; ds_expires : Z; ds_online_expire_time : option Z; ds_contact_uri : string; ds_lr : Z
}.
Definition get_device_status (device_id : string) : db (option DeviceStatus) := select (fun d =>
  o ← db_oauths d !! device_id; r ← db_devices d !! device_id;
  Some {| ds_heartbeat := oa_heartbeat_sec (or_oauth o); ds_enable := oa_status (or_oauth o);
          ds_expires := gd_register_expires (dr_device r); ds_online_expire_time := gd_online_expire_time (dr_device r);
          ds_contact_uri := gd_contact_uri (dr_device r); ds_lr := gd_enable_lr (dr_device r) |}).

(** *** GMV_DEVICE_CHANNEL *)

Definition GmvDeviceChannel_new (device_id : string) : GmvDeviceChannel := {|
  dc_device_id := device_id; dc_channel_id := ""; dc_name := None; dc_manufacturer := None; dc_model := None;
  dc_owner := None; dc_status := ""; dc_civil_code := None; dc_address := None; dc_parental := None; dc_block := None;
  dc_parent_id := None; dc_ip_address := None; dc_port := None; dc_password := None; dc_longitude := None;
  dc_latitude := None; dc_ptz_type := None; dc_supply_light_type := None |}.
Definition parse_u16 (v : string) : option Z := n ← parse_u32 v; if n <=? 65535 then Some n else None.
Definition item_key (name : string) : string := ("Response,DeviceList,Item," +:+ name)%string.
(** The arms that set a field. *)
Definition channel_field (dc : GmvDeviceChannel) (kv : string * string) : GmvDeviceChannel :=
  let '(k, v) := kv in
  let at_key (name : string) : bool := bool_decide (k = item_key name) in
  {| dc_device_id := dc_device_id dc;
     dc_channel_id := if at_key "DeviceID" then v else dc_channel_id dc;
     dc_name := if at_key "Name" then Some v else dc_name dc;
     dc_manufacturer := if at_key "Manufacturer" then Some v else dc_manufacturer dc;
     dc_model := if at_key "Model" then Some v else dc_model dc;
     dc_owner := if at_key "Owner" then Some v else dc_owner dc;
     dc_status := if at_key "Status" then v else dc_status dc;
     dc_civil_code := if at_key "CivilCode" then Some v else dc_civil_code dc;
     dc_address := if at_key "Address" then Some v else dc_address dc;
     dc_parental := if at_key "Parental" then SipEvents.parse_u8 v else dc_parental dc;
     dc_block := if at_key "Block" then Some v else dc_block dc;
     dc_parent_id := if at_key "ParentID" then Some v else dc_parent_id dc;
     dc_ip_address := if at_key "IPAddress" then Some v else dc_ip_address dc;
     dc_port := if at_key "Port" then parse_u16 v else dc_port dc;
     dc_password := if at_key "Password" then Some v else dc_password dc;
     dc_longitude := if at_key "Longitude" then parse_f32 v else dc_longitude dc;
     dc_latitude := if at_key "Latitude" then parse_f32 v else dc_latitude dc;
     dc_ptz_type := if at_key "Info,PTZType" then SipEvents.parse_u8 v else dc_ptz_type dc;
     dc_supply_light_type := if at_key "SupplyLightType" then SipEvents.parse_u8 v else dc_supply_light_type dc |}.
(** One turn of the loop: a marker of depth four ends a channel that has an id. *)
Definition channel_turn (device_id : string) (st : GmvDeviceChannel * list GmvDeviceChannel) (kv : string * string)
    : GmvDeviceChannel * list GmvDeviceChannel :=
  let '(dc, dcs) := st in
  if bool_decide (kv = (SPLIT_CLASS, "4"%string))
  then if bool_decide (dc_channel_id dc = ""%string) then st else (GmvDeviceChannel_new device_id, dcs ++ [dc])
  else (channel_field dc kv, dcs).
Definition GmvDeviceChannel_build (device_id : string) (vs : list (string * string)) : list GmvDeviceChannel :=
  let '(dc, dcs) := foldl (channel_turn device_id) (GmvDeviceChannel_new device_id, []) vs in dcs ++ [dc].
Definition channel_key (dc : GmvDeviceChannel) : string * string := (dc_device_id dc, dc_channel_id dc).
Definition insert_channel (m : gmap (string * string) GmvDeviceChannel) (dc : GmvDeviceChannel) := <[channel_key dc := dc]> m.
Definition insert_gmv_device_channel_conf (dc_ls : list GmvDeviceChannel) : db unit :=
  match dc_ls with
  | [] => db_ret tt
  | _ => update (fun d => set_channels (db_channels d) (list_to_set (channel_key <$> dc_ls) ∪ db_channel_conf d) d)
  end.
Definition insert_gmv_device_channel (device_id : string) (vs : list (string * string)) : db (list GmvDeviceChannel) :=
  let dc_ls := GmvDeviceChannel_build device_id vs in
  _ <-- update (fun d => set_channels (foldl insert_channel (db_channels d) dc_ls) (db_channel_conf d) d) ;;
  _ <-- insert_gmv_device_channel_conf dc_ls ;;
  db_ret dc_ls.

(** [mapper.rs]: ONLY for a device without such a channel; a device that is not
    registered has no row. *)
Definition get_device_channel_status (device_id channel_id : string) : db (option string) := select (fun d =>
  _ ← db_devices d !! device_id;
  Some (match db_channels d !! (device_id, channel_id) with Some c => dc_status c | None => "ONLY"%string end)).
(** [least]: the first of the children in the collation of the data base. *)
Definition resolve_broadcast_target_id (least : list string -> option string) (device_id channel_id : string) : db string :=
  select (fun d =>
    let children := omap (fun c : GmvDeviceChannel =>
      if bool_decide (dc_device_id c = device_id /\ dc_parent_id c = Some channel_id) then Some (dc_channel_id c) else None)
      (map_to_list (db_channels d)).*2 in
    match db_channels d !! (device_id, channel_id) with
    | Some _ => default channel_id (least children)
    | None => channel_id
    end).

(** *** GMV_FILE_INFO *)

Definition query_gmv_file_info_by_id (id : Z) : db GmvFileInfo := statement (fun d =>
  (match db_files d !! id with Some f => Done f | None => Failed RowNotFound end, d)).
Definition rm_gmv_file_info_by_id (id : Z) : db unit := update (fun d => set_files (delete id (db_files d)) (db_next_file d) d).
Definition insert_file (d : Db) (f : GmvFileInfo) : Db :=
  set_files (<[db_next_file d := set_file_id (db_next_file d) f]> (db_files d)) (db_next_file d + 1) d.
Definition insert_gmv_file_info (arr : list GmvFileInfo) : db unit :=
  match arr with [] => db_ret tt | _ => update (fun d => foldl insert_file d arr) end.

(** ** The task queue ([db_task.rs]) *)

Definition DB_TASK_QUEUE_SIZE : Z := 8192.
(** [None]: not initialised. *)
Definition submit (queue : option (list DbTask)) (t : DbTask) : option (list DbTask) :=
  q ← queue; Some (if Z.of_nat (length q) <? DB_TASK_QUEUE_SIZE then q ++ [t] else q).
(** Failures are logged. *)
Definition logged {A} (m : db A) (d : Db) : Db := (m d).2.
Definition handle_task (now : Z) (t : DbTask) : Db -> Db :=
  match t with
  | UpsertDevice device_id device => logged (insert_single_gmv_device_by_register device_id device)
  | DbExpireDeviceOnline device_id => logged (expire_online_by_device_id now device_id)
  | DbTouchDeviceHeartbeat device_id => logged (refresh_online_expire_time_by_device_id now device_id)
  | UpdateDeviceExtInfo items => logged (update_gmv_device_ext_info items)
  | InsertDeviceCatalog device_id items => logged (insert_gmv_device_channel device_id items)
  end.
(** One item of the worker's loop. *)
Definition run (now : Z) (queue : list DbTask) (d : Db) : option (list DbTask * Db) :=
  match queue with t :: queue => Some (queue, handle_task now t d) | [] => None end.
