(* ===== verification/StorageProps.v ===== *)
(** * What reaches the tables *)
From Stdlib Require Import Ascii.
From stdpp Require Import pretty.
From S2P Require Import Prelude Text Paths SharedTypes Xml RegisterCore DeviceAuth SipEvents StreamService Storage.
Local Open Scope Z_scope.

(** ** Catalogs *)

(** An item of a catalog: the elements with a text directly in it, and those in
    its [Info]. *)
Record CatalogItem := { ci_fields : list (string * string); ci_info : list (string * string) }.
Definition field_node (f : string * string) : Node := Elem f.1 [Txt f.2].
Definition item_node (i : CatalogItem) : Node := Elem "Item" ((field_node <$> ci_fields i) ++ [Elem "Info" (field_node <$> ci_info i)]).
Definition catalog (root : string) (head : list (string * string)) (items : list CatalogItem) : list Node :=
  [Elem root ((field_node <$> head) ++ [Elem "DeviceList" (item_node <$> items)])].
(** A text the reader reports as it is, under a name without a comma. *)
Definition printed (f : string * string) : Prop := trim (chars f.2) = chars f.2 /\ f.2 <> ""%string /\ ","%char ∉ chars f.1.
Definition printed_item (i : CatalogItem) : Prop := Forall printed (ci_fields i) /\ Forall printed (ci_info i).

(** The row for one item. *)
Definition info_key (f : string * string) : string * string := (item_key ("Info," +:+ f.1), f.2).
Definition channel_row (device_id : string) (i : CatalogItem) : GmvDeviceChannel :=
  foldl channel_field (GmvDeviceChannel_new device_id)
    (((fun f => (item_key f.1, f.2)) <$> ci_fields i) ++ (info_key <$> ci_info i)).

Definition item_path (root : string) : list string := [root; "DeviceList"; "Item"]%string.
Definition texts_at (path : list string) (fs : list (string * string)) : list (list string * string) :=
  (fun f => (path ++ [f.1], f.2)) <$> fs.
Definition item_texts (root : string) (i : CatalogItem) : list (list string * string) :=
  texts_at (item_path root) (ci_fields i) ++ texts_at (item_path root ++ ["Info"%string]) (ci_info i).

Lemma field_texts path fs : Forall printed fs -> flat_map (node_texts path) (field_node <$> fs) = texts_at path fs.
Proof.
  induction 1 as [|[n v] fs (Ht & Hv & _) _ IH]; [done|]. cbn [fst snd] in Ht, Hv.
  cbn [fmap list_fmap flat_map texts_at field_node node_texts fst snd app]. rewrite app_nil_r, Ht. unfold texts_at in IH. rewrite IH.
  destruct (chars v) as [|a l] eqn:Hc; [by apply (list_ascii_inj v "") in Hc|]. rewrite <- Hc. unfold chars.
  by rewrite String.string_of_list_ascii_of_string.
Qed.
Lemma catalog_texts root head items : Forall printed head -> Forall printed_item items ->
  doc_texts (catalog root head items) = texts_at [root] head ++ flat_map (item_texts root) items.
Proof.
  intros Hh Hi. unfold doc_texts, catalog. cbn [flat_map node_texts app]. rewrite app_nil_r, flat_map_app, field_texts by done.
  f_equal. cbn [flat_map node_texts app]. rewrite app_nil_r. induction Hi as [|i items [Hf Hn] _ IH]; [done|].
  cbn [fmap list_fmap flat_map]. f_equal; [|exact IH]. unfold item_node, item_texts. cbn [node_texts app].
  rewrite flat_map_app, field_texts by done. f_equal. cbn [flat_map node_texts app]. by rewrite app_nil_r, field_texts.
Qed.

Lemma marked_texts path fs d : fs <> [] -> marked d (texts_at path fs) =
  (if decide (d = S (length path)) then [] else [(SPLIT_CLASS, pretty (S (length path)))]) ++
  ((fun f => (join_path (path ++ [f.1]), f.2)) <$> fs).
Proof.
  intros Hne. assert (forall fs, marked (S (length path)) (texts_at path fs) = (fun f => (join_path (path ++ [f.1]), f.2)) <$> fs) as Hs.
  { clear fs Hne. intros fs. unfold texts_at. induction fs as [|f fs IH]; [done|]. cbn [fmap list_fmap marked fst snd]. rewrite length_app. cbn [length].
    rewrite Nat.add_1_r, decide_True by done. by rewrite IH. }
  destruct fs as [|f fs]; [done|]. unfold texts_at in *. cbn [fmap list_fmap marked fst snd]. rewrite length_app. cbn [length].
  rewrite Nat.add_1_r. do 2 f_equal. apply Hs.
Qed.
Lemma last_depth_texts path fs d : fs <> [] -> last_depth_of d (texts_at path fs) = S (length path).
Proof.
  intros Hne. unfold last_depth_of, texts_at. rewrite fmap_last.
  destruct (last fs) as [f|] eqn:Hl; [|by apply last_None in Hl]. cbn. rewrite length_app. cbn. lia.
Qed.

(** *** The loop *)

Section Build.
Context (device_id : string).
Abbreviation turns := (foldl (channel_turn device_id)).

Lemma turn_field dc dcs k v : k <> SPLIT_CLASS -> channel_turn device_id (dc, dcs) (k, v) = (channel_field dc (k, v), dcs).
Proof. intros Hk. unfold channel_turn. rewrite bool_decide_eq_false_2; [done|]. by intros [= ? _]. Qed.
Lemma turn_marker dc dcs depth : depth <> "4"%string -> channel_turn device_id (dc, dcs) (SPLIT_CLASS, depth) = (channel_field dc (SPLIT_CLASS, depth), dcs).
Proof. intros Hk. unfold channel_turn. rewrite bool_decide_eq_false_2; [done|]. by intros [= ?]. Qed.
Lemma field_other dc k v : (forall n, k <> item_key n) -> channel_field dc (k, v) = dc.
Proof. intros Hk. unfold channel_field. repeat rewrite bool_decide_eq_false_2 by apply Hk. by destruct dc. Qed.
Lemma marker_other n : SPLIT_CLASS <> item_key n.
Proof. by unfold SPLIT_CLASS, item_key. Qed.

Lemma turns_fields dc dcs (kvs : list (string * string)) : Forall (fun kv => kv.1 <> SPLIT_CLASS) kvs ->
  turns (dc, dcs) kvs = (foldl channel_field dc kvs, dcs).
Proof.
  intros Hk. revert dc. induction Hk as [|[k v] kvs Hk _ IH]; intros dc; [done|]. cbn [foldl]. by rewrite turn_field, IH.
Qed.
(** Texts that concern no channel. *)
Lemma turns_other dc dcs (kvs : list (string * string)) :
  Forall (fun kv => (forall n, kv.1 <> item_key n) /\ (kv = (SPLIT_CLASS, "4"%string) -> dc_channel_id dc = ""%string)) kvs ->
  turns (dc, dcs) kvs = (dc, dcs).
Proof.
  induction 1 as [|[k v] kvs [Hk H4] _ IH]; [done|]. cbn [foldl].
  destruct (decide ((k, v) = (SPLIT_CLASS, "4"%string))) as [He|He].
  - unfold channel_turn. rewrite bool_decide_eq_true_2, bool_decide_eq_true_2 by auto. exact IH.
  - unfold channel_turn. rewrite bool_decide_eq_false_2 by done. rewrite field_other by exact Hk. exact IH.
Qed.
Lemma field_key n : join_path (item_path "Response" ++ [n]) = item_key n.
Proof. done. Qed.
Lemma info_field_key n : join_path ((item_path "Response" ++ ["Info"%string]) ++ [n]) = item_key ("Info," +:+ n).
Proof. done. Qed.

Definition has_id (i : CatalogItem) : Prop := dc_channel_id (channel_row device_id i) <> ""%string.
Lemma fields_not_marker fs : Forall (fun kv : string * string => kv.1 <> SPLIT_CLASS) ((fun f => (item_key f.1, f.2)) <$> fs).
Proof. apply Forall_fmap, Forall_forall. intros f _. cbn. intros Hc. by apply (marker_other f.1). Qed.

(** The marker before an item ends the one before, if there is one. *)
Definition push (st : GmvDeviceChannel * list GmvDeviceChannel) : GmvDeviceChannel * list GmvDeviceChannel :=
  if bool_decide (dc_channel_id st.1 = ""%string) then st else (GmvDeviceChannel_new device_id, st.2 ++ [st.1]).
Lemma item_turns i d st : d <> 4%nat -> ci_fields i <> [] -> ci_info i <> [] ->
  turns st (marked d (item_texts "Response" i)) =
  (foldl channel_field (push st).1 (((fun f => (item_key f.1, f.2)) <$> ci_fields i) ++ (info_key <$> ci_info i)), (push st).2).
Proof.
  intros Hd Hf Hi. unfold item_texts. rewrite marked_app, marked_texts, last_depth_texts, marked_texts by done.
  rewrite decide_False, decide_False by done. rewrite !foldl_app. cbn [foldl].
  change (pretty (S (length (item_path "Response")))) with "4"%string.
  change (pretty (S (length (item_path "Response" ++ ["Info"%string])))) with "5"%string.
  assert (channel_turn device_id st (SPLIT_CLASS, "4"%string) = push st) as ->.
  { destruct st as [dc dcs]. unfold channel_turn, push. by rewrite bool_decide_eq_true_2. }
  destruct (push st) as [dc dcs]. cbn [fst snd].
  rewrite (turns_fields dc dcs) by exact (fields_not_marker (ci_fields i)). rewrite turn_marker by done.
  rewrite field_other by apply marker_other. rewrite turns_fields; [done|].
  apply Forall_fmap, Forall_forall. intros f _. apply (not_eq_sym (marker_other _)).
Qed.
Lemma push_new dcs : push (GmvDeviceChannel_new device_id, dcs) = (GmvDeviceChannel_new device_id, dcs).
Proof. done. Qed.

Definition separate (i : CatalogItem) : Prop := ci_fields i <> [] /\ ci_info i <> [] /\ has_id i.
Lemma items_turns items i d dcs : d <> 4%nat -> separate i -> Forall separate items ->
  (let '(dc, l) := turns (GmvDeviceChannel_new device_id, dcs) (marked d (flat_map (item_texts "Response") (i :: items))) in l ++ [dc])
  = dcs ++ (channel_row device_id <$> i :: items).
Proof.
  intros Hd Hi Hs. revert i d dcs Hd Hi. induction Hs as [|j items Hj _ IH]; intros i d dcs Hd (Hf & Hn & Hid).
  - cbn [flat_map]. rewrite app_nil_r, item_turns, push_new by done. done.
  - assert (last_depth_of d (item_texts "Response" i) = 5%nat) as Hl.
    { unfold item_texts. rewrite last_depth_app. by rewrite !last_depth_texts. }
    change (flat_map (item_texts "Response") (i :: j :: items)) with
      (item_texts "Response" i ++ flat_map (item_texts "Response") (j :: items)).
    rewrite marked_app, foldl_app, item_turns, push_new, Hl by done.
    cbn [fst snd]. change (foldl channel_field (GmvDeviceChannel_new device_id) _) with (channel_row device_id i).
    transitivity ((dcs ++ [channel_row device_id i]) ++ (channel_row device_id <$> j :: items)); [|by rewrite <- app_assoc].
    rewrite <- (IH j 5%nat (dcs ++ [channel_row device_id i]) ltac:(done) Hj). destruct Hj as (Hfj & Hnj & _).
    cbn [flat_map]. rewrite !marked_app, !foldl_app, !item_turns, push_new by done.
    unfold push at 1 2. cbn [fst snd]. by rewrite bool_decide_eq_false_2.
Qed.

(** Items without an [Info] are at one depth: nothing separates them. *)
Definition all_fields (items : list CatalogItem) : CatalogItem := {| ci_fields := flat_map ci_fields items; ci_info := [] |}.
Lemma merged_texts root items : Forall (fun i => ci_info i = []) items ->
  flat_map (item_texts root) items = texts_at (item_path root) (flat_map ci_fields items).
Proof.
  induction 1 as [|i items Hi _ IH]; [done|]. cbn [flat_map]. rewrite IH. unfold item_texts, texts_at. by rewrite Hi, app_nil_r, fmap_app.
Qed.
Lemma merged_turns items d dcs : d <> 4%nat -> flat_map ci_fields items <> [] -> Forall (fun i => ci_info i = []) items ->
  turns (GmvDeviceChannel_new device_id, dcs) (marked d (flat_map (item_texts "Response") items))
  = (channel_row device_id (all_fields items), dcs).
Proof.
  intros Hd Hf Hi. rewrite merged_texts, marked_texts by done. rewrite decide_False by done. cbn [app foldl].
  change (channel_turn device_id (GmvDeviceChannel_new device_id, dcs) (SPLIT_CLASS, pretty (S (length (item_path "Response")))))
    with (GmvDeviceChannel_new device_id, dcs).
  rewrite turns_fields by exact (fields_not_marker _). unfold channel_row, all_fields. cbn [ci_fields ci_info fmap list_fmap].
  by rewrite app_nil_r.
Qed.

(** Texts under another path. *)
Definition elsewhere (pv : list string * string) : Prop := forall n, join_path pv.1 <> item_key n.
Lemma elsewhere_turns dcs d l : Forall elsewhere l ->
  turns (GmvDeviceChannel_new device_id, dcs) (marked d l) = (GmvDeviceChannel_new device_id, dcs).
Proof.
  intros Hl. apply turns_other. revert d. induction Hl as [|[p v] l Hp _ IH]; intros d; [constructor|]. cbn [marked].
  apply Forall_app. split; [|constructor; [by split|apply IH]].
  case_decide; constructor; [|constructor]. split; [apply marker_other|done].
Qed.
End Build.

Lemma head_elsewhere root head : ","%char ∉ chars root -> Forall printed head -> Forall elsewhere (texts_at [root] head).
Proof.
  intros Hr Hh. apply Forall_fmap. eapply Forall_impl; [exact Hh|]. intros [n v] (_ & _ & Hn) m Hc. cbn in Hc, Hn.
  apply (f_equal (fun s => split_on ","%char (chars s))) in Hc. unfold item_key in Hc.
  assert (Hs : forall a b : string, split_on ","%char (chars (a +:+ "," +:+ b)%string) = split_on "," (chars a) ++ split_on "," (chars b)).
  { intros a b. unfold chars. rewrite !list_ascii_app. apply split_on_app. }
  change (root +:+ "," +:+ n)%string with (root +:+ ("," +:+ n))%string in Hc. rewrite Hs in Hc. rewrite (split_on_plain _ _ Hn), (split_on_plain _ _ Hr) in Hc.
  change ("Response,DeviceList,Item," +:+ m)%string with ("Response" +:+ ("," +:+ ("DeviceList" +:+ ("," +:+ ("Item" +:+ ("," +:+ m))))))%string in Hc.
  rewrite !Hs in Hc. apply (f_equal length) in Hc. rewrite !length_app in Hc.
  change (length (split_on "," (chars "Response"))) with 1%nat in Hc. change (length (split_on "," (chars "DeviceList"))) with 1%nat in Hc.
  change (length (split_on "," (chars "Item"))) with 1%nat in Hc. cbn [length] in Hc. lia.
Qed.
Lemma head_depth root head : last_depth_of 0 (texts_at [root] head) <> 4%nat.
Proof. destruct head as [|f head]; [done|]. by rewrite last_depth_texts. Qed.
Lemma notify_elsewhere items : Forall elsewhere (flat_map (item_texts "Notify") items).
Proof.
  apply Forall_flat_map, Forall_forall. intros i _. apply Forall_app. split; apply Forall_fmap, Forall_forall; by intros [n v] _ m Hc.
Qed.

Lemma roots_comma_free : ","%char ∉ chars "Response" /\ ","%char ∉ chars "Notify".
Proof. split; apply (bool_decide_eq_true_1 (_ ∉ _)); by vm_compute. Qed.
Definition well_formed (head : list (string * string)) (items : list CatalogItem) : Prop :=
  Forall printed head /\ Forall printed_item items.

(** C39: What a catalog leaves in the table of channels.  The answer to a query
    is stored as one row per item, each with the item's own fields, if every
    item has an [Info] after its other fields; if none has one, as the node's
    own tests have it, the items are run together into a single row with the
    fields of the last; and from a catalog that comes as a notification nothing
    is read at all: a channel without an id is stored. *)
Theorem catalog_channels_stored (decode : XmlEncoding -> list ascii -> option string) (reader : string -> list XmlEvent)
    (xml : list ascii) (decoded root device_id : string) (head : list (string * string)) (items : list CatalogItem) (d : Db) :
  decode (detect_encoding xml) xml = Some decoded -> tokenizes reader decoded (catalog root head items) ->
  well_formed head items -> flat_map ci_fields items <> [] ->
  exists vs, parse_items decode reader xml = Done vs /\
    let rows := GmvDeviceChannel_build device_id vs in
    (root = "Response"%string -> Forall (separate device_id) items -> rows = channel_row device_id <$> items) /\
    (root = "Response"%string -> Forall (fun i => ci_info i = []) items -> rows = [channel_row device_id (all_fields items)]) /\
    (root = "Notify"%string -> rows = [GmvDeviceChannel_new device_id]) /\
    (db_fate d = [] -> db_channels (handle_task 0 (InsertDeviceCatalog device_id vs) d) = foldl insert_channel (db_channels d) rows).
Proof.
  intros Hdec Htok [Hh Hi] Hne. eexists. split; [by eapply parse_items_marked|]. cbn zeta.
  rewrite catalog_texts, marked_app by done. unfold GmvDeviceChannel_build. rewrite foldl_app.
  assert (forall dcs, ","%char ∉ chars root -> foldl (channel_turn device_id) (GmvDeviceChannel_new device_id, dcs)
    (marked 0 (texts_at [root] head)) = (GmvDeviceChannel_new device_id, dcs)) as Hhead.
  { intros dcs Hr. by apply elsewhere_turns, head_elsewhere. }
  split_and!.
  - intros -> Hs. rewrite Hhead by apply roots_comma_free. destruct items as [|i items]; [done|].
    apply Forall_cons in Hs as [Hsi Hs]. rewrite items_turns by (done || apply head_depth). done.
  - intros -> Hs. rewrite Hhead by apply roots_comma_free. by rewrite merged_turns by (done || apply head_depth).
  - intros ->. rewrite Hhead by apply roots_comma_free.
    by rewrite elsewhere_turns by apply notify_elsewhere.
  - intros Hf. unfold handle_task, logged, insert_gmv_device_channel, db_bind, update, statement. rewrite Hf. cbn.
    unfold GmvDeviceChannel_build. rewrite <- foldl_app. destruct (foldl _ _ _) as [dc dcs]. unfold insert_gmv_device_channel_conf.
    destruct (dcs ++ [dc]); [done|]. unfold update, statement. cbn. by rewrite Hf.
Qed.

(** A table with nothing in it. *)
Definition no_rows : Db := {| db_devices := ∅; db_oauths := ∅; db_channels := ∅; db_channel_conf := ∅; db_records := ∅;
  db_files := ∅; db_next_file := 1; db_fate := [] |}.
Lemma printed_reflect fs : forallb (fun f : string * string =>
    bool_decide (trim (chars f.2) = chars f.2) && bool_decide (f.2 <> ""%string) && bool_decide (","%char ∉ chars f.1)) fs = true ->
  Forall printed fs.
Proof.
  rewrite forallb_forall. intros H. apply Forall_forall. intros f Hf. apply list_elem_of_In, H in Hf. unfold printed.
  apply andb_prop in Hf as [[?%bool_decide_eq_true ?%bool_decide_eq_true]%andb_prop ?%bool_decide_eq_true]. done.
Qed.
Lemma catalog_channels_stored_witness :
  let items := [{| ci_fields := [("DeviceID", "34020000001320000001"); ("Name", "gate")]; ci_info := [("PTZType", "1")] |};
                {| ci_fields := [("DeviceID", "34020000001320000002"); ("Name", "yard")]; ci_info := [("PTZType", "3")] |}]%string in
  let doc := catalog "Response" [("CmdType", "Catalog")]%string items in
  exists vs, parse_items (fun _ l => Some (text l)) (fun _ => flat_map node_events doc) (chars "<Response/>") = Done vs /\
    dc_name <$> (map_to_list (db_channels (handle_task 0 (InsertDeviceCatalog "d" vs) no_rows))).*2 = [Some "gate"%string; Some "yard"%string].
Proof.
  intros items doc.
  destruct (catalog_channels_stored (fun _ l => Some (text l)) (fun _ => flat_map node_events doc) (chars "<Response/>") "<Response/>"
    "Response" "d" [("CmdType", "Catalog")]%string items no_rows) as (vs & Hvs & Hsep & _ & _ & Hdb); [done|done| |done|].
  { split; [by apply printed_reflect; vm_compute|]. apply Forall_cons; split; [|apply Forall_cons; split; [|by constructor]]; split; by apply printed_reflect; vm_compute. }
  exists vs. split; [exact Hvs|]. rewrite Hdb, Hsep; [by vm_compute|done| |done].
  apply Forall_cons; split; [|apply Forall_cons; split; [|by constructor]]; split_and!; try done; by vm_compute.
Defined.
