(* ===== verification/StreamIds.v ===== *)
(** * New streams' SSRCs and ids ([session/src/utils/id_builder.rs],
    [build_ssrc_stream_id])

    A live view is only given an SSRC if the channel's row says that it is on
    line; then the SSRC is allocated and the id of the stream is made of device,
    channel and SSRC. *)
From stdpp Require Import pretty.
From S2P Require Import Prelude Text Decimal SharedTypes Scheduler SessionCache RegisterCore Ssrc Storage.
Local Open Scope Z_scope.

Inductive StreamIdError := UnknownDevice | DeviceOffline | AtMapper (e : Storage.DbError) | AtSequence (e : SsrcError).

Definition status_on_line (status : string) : bool :=
  bool_decide (to_ascii_uppercase status ∈ ["OK"; "ON"; "ONLINE"; "ONLY"; ""]%string).
(** The test before a live view. *)
Definition check_live (device_id channel_id : string) (d : Db) : outcome StreamIdError unit * Db :=
  let '(r, d1) := get_device_channel_status device_id channel_id d in
  (match r with
   | Done None => Failed UnknownDevice
   | Done (Some status) => if status_on_line status then Done tt else Failed DeviceOffline
   | Failed e => Failed (AtMapper e)
   | Panic => Panic
   end, d1).

Section StreamIds.
Context {S C : Type} `{SeqStoreLaws S} `{SsrcUse C}.
Context (dig62_en dig62_de : string -> outcome SsrcError string) (env env' : nat -> S * C -> S * C).

(** [millis]: the clock's reading; [w]: the table of serials with the dialogs,
    and the running session. *)
Definition name_stream (domain_id : string) (kind : SsrcKind) (millis : Z) (device_id channel_id : string) (w : S * C)
    : outcome StreamIdError (string * string * (S * C)) :=
  match allocate env env' domain_id kind w with
  | Failed e => Failed (AtSequence e)
  | Panic => Panic
  | Done (ssrc, w') =>
      match en_stream_id dig62_en millis device_id channel_id ssrc with
      | Done stream_id => Done (ssrc, stream_id, w')
      | Failed e => Failed (AtSequence e)
      | Panic => Panic
      end
  end.
Definition build_ssrc_stream_id (domain_id : string) (millis : Z) (device_id channel_id : string) (live : bool) (d : Db) (w : S * C)
    : outcome StreamIdError (string * string * (S * C)) * Db :=
  let '(checked, d1) := if live then check_live device_id channel_id d else (Done tt, d) in
  (match checked with
   | Failed e => Failed e
   | Panic => Panic
   | Done _ => name_stream domain_id (if live then Realtime else History) millis device_id channel_id w
   end, d1).

(** What the row of the channel says of it; no row of the device: [None]. *)
Definition channel_status (device_id channel_id : string) (d : Db) : option string :=
  _ ← db_devices d !! device_id; Some (default "ONLY"%string (dc_status <$> db_channels d !! (device_id, channel_id))).
Lemma check_live_reads device_id channel_id d : db_fate d = [] ->
  check_live device_id channel_id d =
  (match channel_status device_id channel_id d with
   | None => Failed UnknownDevice
   | Some s => if status_on_line s then Done tt else Failed DeviceOffline
   end, d).
Proof.
  intros Hf. unfold check_live, get_device_channel_status, select, statement, channel_status. rewrite Hf.
  destruct (db_devices d !! device_id); [|done]. cbn. by destruct (db_channels d !! _).
Qed.

Lemma name_stream_spec domain_id kind millis device_id channel_id (w : S * C) :
  (forall s t, dig62_en s = Done t -> dig62_de t = Done s) ->
  match name_stream domain_id kind millis device_id channel_id w with
  | Done (ssrc, stream_id, w') =>
      de_stream_id dig62_de stream_id = Done (device_id, channel_id, ssrc) /\
      exists serial n, 1 <= serial <= 9999 /\ parse_u32 ssrc = Some n /\ n mod 10000 = serial /\
        ssrc = (marker kind +:+ String.substring 3 5 domain_id +:+ fmt04 serial)%string /\
        ssrc_used n w'.2 = false /\ dialog_active domain_id ssrc w'.1 = Done false
  | Failed (AtSequence _) | Panic => True
  | _ => False
  end.
Proof.
  intros Hen. unfold name_stream. destruct (allocate _ _ _ _ _) as [[ssrc w']|e|] eqn:Ha; [|done..].
  apply allocate_sound in Ha as (serial & n & Hs & Ht & _ & _ & Hp & Hm & Hu & Hd).
  destruct (en_stream_id _ _ _ _ _) as [id|e|] eqn:Hi; [|done..].
  apply (stream_id_round_trip dig62_en dig62_de) in Hi; [|done]. split; [done|]. by exists serial, n.
Qed.

End StreamIds.

(** ** A concrete stream *)

Definition camera : string := "34020000001110000001".
Definition camera_channel : string := "34020000001320000101".
Definition camera_db (status : string) : Db := {|
  db_devices := {[camera := {| dr_device := {| gd_transport := "UDP"; gd_local_addr := ""; gd_register_time := 0; gd_register_expires := 3600;
    gd_online_expire_time := None; gd_contact_uri := ""; gd_gb_version := None; gd_enable_lr := 0 |}; dr_ext := None |}]};
  db_oauths := ∅;
  db_channels := {[(camera, camera_channel) := channel_field (GmvDeviceChannel_new camera) (item_key "Status", status)]};
  db_channel_conf := ∅; db_records := ∅; db_files := ∅; db_next_file := 1; db_fate := [] |}.
#[local] Existing Instance demo_store_ops.
#[local] Existing Instance demo_store_laws.

Example unknown_camera : (build_ssrc_stream_id Done quiet quiet demo_domain 171 "34020000001110000002" camera_channel true (camera_db "On") (demo_db, Cache_init)).1 = Failed UnknownDevice.
Proof. by vm_compute. Qed.
