(* ===== verification/RecordFiles.v ===== *)
(** * The records of finished recordings
    ([session/src/service/hook_serv.rs], [edge_serv.rs])

    A media node reports the end of a recording with the path of its file.  The
    record's row gets its final state, the file a row of its own; removing the
    file removes both rows. *)
From S2P Require Import Prelude Text Paths SharedTypes StreamOutputs MediaRegister RtpIngest H265Flv Tasks ViewerOutput Recorder.
From S2P Require Import StreamService Storage.
Local Open Scope db_scope.
Local Open Scope Z_scope.

Inductive HookError := BadFileName | RemoveFailed | AtDb (e : DbError).
Definition hook (A : Type) : Type := Db -> outcome HookError A * Db.
Definition at_db {A B} (m : db A) (k : A -> hook B) : hook B := fun d =>
  let '(r, d1) := m d in match r with Done a => k a d1 | Failed e => (Failed (AtDb e), d1) | Panic => (Panic, d1) end.

(** [d_path]: [DownloadConf]'s storage path.  The absolute directory, the
    directory, the name without and the extension. *)
Definition get_path (d_path path_file_name : string) : outcome HookError (string * string * string * string) :=
  let need {B} (o : option string) (k : string -> outcome HookError B) : outcome HookError B :=
    match o with Some s => k s | None => Failed BadFileName end in
  need (file_stem path_file_name) (fun biz_id =>
  need (extension path_file_name) (fun extension =>
  need (parent path_file_name) (fun p_path1 =>
  need (file_name p_path1) (fun l_path1 =>
  need (parent p_path1) (fun p_path2 =>
  need (file_name p_path2) (fun l_path2 =>
  Done (p_path2, path_join (path_join d_path l_path2) l_path1, biz_id, extension))))))).

(** The final state; the times of the record are in milliseconds. *)
Definition final_state (info : StreamRecordInfo) (record : GmvRecord) : Z :=
  if (sr_file_size info =? 0) || (sr_timestamp info =? 0) then 3
  else let total_secs := (gr_et record - gr_st record) ÷ 1000 in
       if total_secs <=? 0 then 3
       else let per := (sr_timestamp info * 1000) ÷ total_secs in
            if 98 <? per then 1 else 2.
(** [now]: the clock's readings, for the row's change and the file's times. *)
Definition end_record (d_path : string) (now biz_time create_time : Z) (info : StreamRecordInfo) : hook unit := fun d =>
  match sr_path_file_name info with
  | None => (Done tt, d)
  | Some path_file_name =>
      match get_path d_path path_file_name with
      | Failed e => (Failed e, d)
      | Panic => (Panic, d)
      | Done (abs_path, dir_path, biz_id, extension) =>
          at_db (query_gmv_record_by_biz_id biz_id) (fun row =>
            match row with
            | None => fun d => (Done tt, d)
            | Some record =>
                let record := set_record_state (final_state info record) now record in
                at_db (update_gmv_record_by_biz_id record) (fun _ =>
                at_db (insert_gmv_file_info [{|
                    fi_id := None; fi_device_id := gr_device_id record; fi_channel_id := gr_channel_id record;
                    fi_biz_time := Some biz_time; fi_biz_id := biz_id; fi_file_type := Some 1;
                    fi_file_size := sr_file_size info; fi_file_name := gr_biz_id record; fi_file_format := Some extension;
                    fi_dir_path := dir_path; fi_abs_path := abs_path; fi_note := None; fi_is_del := Some 0;
                    fi_create_time := Some create_time |}]) (fun _ d => (Done tt, d)))
            end) d
      end
  end.

(** [rm_file]: the file's path, which is removed if it exists; [remove] is the
    file system's answer. *)
Definition file_path (f : GmvFileInfo) : string :=
  let file := match fi_file_format f with
              | Some ext => (fi_file_name f +:+ "." +:+ ext)%string
              | None => fi_file_name f end in
  path_join (fi_dir_path f) file.
Definition rm_file (exists_ remove : string -> bool) (file_id : Z) : hook (option string) :=
  at_db (query_gmv_file_info_by_id file_id) (fun f =>
    let path := file_path f in
    if exists_ path && negb (remove path) then fun d => (Failed RemoveFailed, d)
    else at_db (rm_gmv_file_info_by_id file_id) (fun _ =>
         at_db (rm_gmv_record_by_biz_id (fi_biz_id f)) (fun _ d =>
         (Done (if exists_ path then Some path else None), d)))).

(** ** Recordings from the recorder to the tables and back *)

(** The path the recorder reports, read back. *)
Lemma mp4_plain : plain "mp4" /\ dotless "mp4".
Proof. split; [|apply (bool_decide_eq_true_1 (_ ∉ _)); by vm_compute]. split; [|done]. apply (bool_decide_eq_true_1 (_ ∉ _)). by vm_compute. Qed.
Lemma mp4_file_plain name : plain name -> dotless name -> plain (name +:+ ".mp4").
Proof.
  intros (Hs & Hn & _) Hd. split_and!.
  - rewrite chars_app. intros [Hin|Hin]%elem_of_app; [done|]. revert Hin. apply (bool_decide_eq_true_1 (_ ∉ _)). by vm_compute.
  - by destruct name.
  - destruct name as [|a name]; [done|]. intros Hc. apply (f_equal String.length) in Hc. cbn in Hc.
    rewrite <- list_ascii_length, list_ascii_app, length_app in Hc. cbn in Hc. lia.
  - intros Hc. apply (f_equal String.length) in Hc. rewrite <- list_ascii_length, list_ascii_app, length_app in Hc. cbn in Hc.
    destruct name; [done|cbn in Hc; lia].
Qed.
Lemma get_recorded d_path dir date name :
  tidy dir -> plain date -> plain name -> dotless name ->
  get_path d_path (dir +:+ "/" +:+ date +:+ "/mp4/" +:+ name +:+ ".mp4")
  = Done ((dir +:+ "/" +:+ date)%string, path_join (path_join d_path date) "mp4", name, "mp4"%string).
Proof.
  intros Ht Hd Hn Hdot. destruct mp4_plain as [Hp Hpd].
  set (p2 := (dir +:+ "/" +:+ date)%string). set (p1 := (p2 +:+ "/" +:+ "mp4")%string).
  assert ((dir +:+ "/" +:+ date +:+ "/mp4/" +:+ name +:+ ".mp4")%string = (p1 +:+ "/" +:+ (name +:+ ".mp4"))%string) as ->.
  { apply chars_inj. unfold p1, p2. rewrite !chars_app. by rewrite <- !app_assoc. }
  pose proof (mp4_file_plain _ Hn Hdot) as Hf. assert (tidy p2) as H2 by by apply tidy_join. assert (tidy p1) as H1 by by apply tidy_join.
  unfold get_path, file_stem, extension. rewrite file_name_join by done. cbn [fmap option_fmap option_map mbind option_bind].
  change (name +:+ ".mp4")%string with (name +:+ "." +:+ "mp4")%string.
  rewrite (split_at_dot_ext name "mp4") by (done || apply Hn). cbn [fst snd fmap option_fmap option_map].
  rewrite !text_chars. rewrite (parent_join p1) by done. unfold p1. rewrite file_name_join, parent_join by done.
  unfold p2. by rewrite file_name_join.
Qed.
Lemma created_path dir date name :
  tidy dir -> plain date -> plain name -> dotless name ->
  with_extension (path_join (path_join (dir +:+ "/" +:+ date) "mp4") name) "mp4"
  = (dir +:+ "/" +:+ date +:+ "/mp4/" +:+ name +:+ ".mp4")%string.
Proof.
  intros Ht Hd Hn Hdot. destruct mp4_plain as [Hp Hpd].
  set (p2 := (dir +:+ "/" +:+ date)%string). assert (tidy p2) as H2 by by apply tidy_join.
  rewrite (join_text p2 "mp4") by done. set (p1 := (p2 +:+ "/" +:+ "mp4")%string). assert (tidy p1) as H1 by by apply tidy_join.
  rewrite (join_text p1 name) by done. unfold with_extension, file_stem.
  rewrite last_component_join, file_name_join by done. cbn [fmap option_fmap option_map].
  rewrite split_at_dot_plain by done. cbn [fst]. rewrite text_chars.
  apply chars_inj. rewrite chars_text.
  rewrite <- (join_pieces_of p1 (name +:+ "." +:+ "mp4")) by by apply mp4_file_plain.
  rewrite reverse_involutive, join_split. unfold p1, p2. rewrite !chars_app. by rewrite <- !app_assoc.
Qed.

(** The state of the record, by the part of it that has been recorded. *)
Lemma final_state_spec info record total :
  gr_et record - gr_st record = total * 1000 -> 0 < total -> 0 < sr_timestamp info -> sr_file_size info <> 0 ->
  final_state info record = if 99 * total <=? 1000 * sr_timestamp info then 1 else 2.
Proof.
  intros Ht Hp Hts Hsz. unfold final_state. rewrite (proj2 (Z.eqb_neq _ _) Hsz), (proj2 (Z.eqb_neq (sr_timestamp info) 0)) by lia. cbn [orb].
  rewrite Ht, Z.quot_mul by done. rewrite (proj2 (Z.leb_gt total 0)) by lia.
  rewrite Z.quot_div_nonneg by lia. destruct (Z.leb_spec (99 * total) (1000 * sr_timestamp info)).
  - rewrite (proj2 (Z.ltb_lt _ _)); [done|]. assert (99 <= sr_timestamp info * 1000 / total); [|lia]. apply Z.div_le_lower_bound; lia.
  - rewrite (proj2 (Z.ltb_ge _ _)); [done|]. assert (sr_timestamp info * 1000 / total < 99); [|lia]. apply Z.div_lt_upper_bound; lia.
Qed.

(** Removing a file whose row is there, and the tables answer. *)
Lemma removed exists_ remove id f d : db_fate d = [] -> db_files d !! id = Some f ->
  rm_file exists_ remove id d =
  if exists_ (file_path f) && negb (remove (file_path f)) then (Failed RemoveFailed, d)
  else (Done (if exists_ (file_path f) then Some (file_path f) else None),
        set_records (delete (fi_biz_id f) (db_records d)) (set_files (delete id (db_files d)) (db_next_file d) d)).
Proof.
  intros Hfate Hf. unfold rm_file, at_db, query_gmv_file_info_by_id, statement. rewrite Hfate, Hf.
  destruct (_ && _); [done|]. unfold rm_gmv_file_info_by_id, rm_gmv_record_by_biz_id, update, statement.
  rewrite Hfate. cbn [db_fate set_files]. by rewrite Hfate.
Qed.

(** C40: The life of a recorded file.  When a recording that has a row is
    reported, the row gets its final state and the file a row of its own, under
    which removing it later finds the very file the recorder created, and both
    rows are gone again.  A record counts as complete from 9.9 per cent of its
    time on: the share is computed in thousandths and compared with 98. *)
Theorem recorded_file_life (dir date name : string) (ctx : LocalStoreMp4Context) (info : StreamRecordInfo)
    (record : GmvRecord) (now biz_time create_time : Z) (exists_ remove : string -> bool) (d : Db) :
  tidy dir -> plain date -> plain name -> dotless name ->
  ls_path ctx = (dir +:+ "/" +:+ date)%string -> ls_file_name ctx = name ->
  sr_path_file_name info = Some (stored_path ctx) ->
  db_records d !! name = Some record -> gr_biz_id record = name -> db_fate d = [] ->
  let file := with_extension (path_join (path_join (ls_path ctx) "mp4") (ls_file_name ctx)) "mp4" in
  let '(r, d1) := end_record dir now biz_time create_time info d in
  r = Done tt /\ db_records d1 = <[name := set_record_state (final_state info record) now record]> (db_records d) /\
  (forall total, gr_et record - gr_st record = total * 1000 -> 0 < total -> 0 < sr_timestamp info -> sr_file_size info <> 0 ->
     final_state info record = if 99 * total <=? 1000 * sr_timestamp info then 1 else 2) /\
  (exists f, db_files d1 = <[db_next_file d := f]> (db_files d) /\ file_path f = file /\ fi_file_size f = sr_file_size info) /\
  (exists_ file = true -> remove file = true ->
   let '(r2, d2) := rm_file exists_ remove (db_next_file d) d1 in
   r2 = Done (Some file) /\ db_records d2 = delete name (db_records d) /\ db_files d2 = delete (db_next_file d) (db_files d)).
Proof.
  intros Ht Hd Hn Hdot Hp Hf Hinfo Hrec Hbiz Hfate. cbn zeta. destruct mp4_plain as [Hm _].
  rewrite Hp, Hf, created_path by done. set (file := (dir +:+ "/" +:+ date +:+ "/mp4/" +:+ name +:+ ".mp4")%string).
  assert (stored_path ctx = file) as Hs.
  { unfold stored_path. rewrite Hp, Hf. apply chars_inj. unfold file. rewrite !chars_app. by rewrite <- !app_assoc. }
  assert (path_join (path_join (path_join dir date) "mp4") (name +:+ "." +:+ "mp4")%string = file) as Hfile.
  { rewrite (join_text dir date), (join_text (dir +:+ "/" +:+ date) "mp4") by (done || by apply tidy_join).
    rewrite join_text by (by apply tidy_join || by apply mp4_file_plain).
    apply chars_inj. unfold file. rewrite !chars_app. by rewrite <- !app_assoc. }
  unfold end_record. rewrite Hinfo, Hs. unfold file at 1. rewrite get_recorded by done.
  unfold at_db, query_gmv_record_by_biz_id, select, statement. rewrite Hfate, Hrec.
  unfold update_gmv_record_by_biz_id, update, statement. rewrite Hfate.
  cbn -[final_state path_join file_path rm_file]. unfold insert_gmv_file_info, update, statement. cbn -[final_state path_join file_path rm_file]. rewrite Hfate.
  cbn -[final_state path_join file_path rm_file]. rewrite Hbiz.
  assert (alter (set_record_state (final_state info record) now) name (db_records d)
          = <[name := set_record_state (final_state info record) now record]> (db_records d)) as Halter.
  { apply map_eq. intros k. destruct (decide (k = name)) as [->|Hk];
      [by rewrite lookup_alter_eq, Hrec, lookup_insert_eq|by rewrite lookup_alter_ne, lookup_insert_ne]. }
  split; [done|]. split; [exact Halter|]. split; [apply final_state_spec|]. split.
  - eexists. split; [done|]. split; [exact Hfile|done].
  - intros He Hr. erewrite removed; [|done|apply lookup_insert_eq].
    match goal with |- context [file_path ?f] => assert (file_path f = file) as -> by exact Hfile end.
    rewrite He, Hr. split; [done|]. cbn -[final_state].
    rewrite Halter. by rewrite !delete_insert_eq.
Qed.

Lemma recorded_file_life_witness :
  let ctx := {| ls_path := "/data/20240501"; ls_ssrc := 7; ls_file_name := "r1"; ls_file_size := 900; ls_ts := 20; ls_state := 1 |} in
  let info := {| sr_path_file_name := Some (stored_path ctx); sr_file_size := 900; sr_timestamp := 20; sr_state := 1 |} in
  let record := {| gr_biz_id := "r1"; gr_device_id := "d"; gr_channel_id := "c"; gr_user_id := None; gr_st := 0; gr_et := 200000;
                   gr_speed := 1; gr_ct := 0; gr_state := 0; gr_lt := 0; gr_stream_app_name := "n" |} in
  let d := {| db_devices := ∅; db_oauths := ∅; db_channels := ∅; db_channel_conf := ∅; db_records := {["r1"%string := record]}; db_files := ∅;
               db_next_file := 1; db_fate := [] |} in
  let '(r, d1) := end_record "/data" 5 6 7 info d in
  r = Done tt /\ gr_state <$> db_records d1 !! "r1"%string = Some 1 /\
  let '(r2, d2) := rm_file (fun _ => true) (fun _ => true) 1 d1 in
  r2 = Done (Some "/data/20240501/mp4/r1.mp4"%string) /\ db_records d2 = ∅ /\ db_files d2 = ∅.
Proof.
  intros ctx info record d.
  assert (plain "20240501" /\ plain "r1" /\ dotless "r1") as (Hp & Hn & Hdot).
  { unfold plain, dotless. split_and!; try done; apply (bool_decide_eq_true_1 (_ ∉ _)); by vm_compute. }
  assert (tidy "/data") as Ht.
  { exists (chars "data"), [[]]. split; [by vm_compute|]. split; [done|]. by left. }
  pose proof (recorded_file_life "/data" "20240501" "r1" ctx info record 5 6 7 (fun _ => true) (fun _ => true) d
    Ht Hp Hn Hdot eq_refl eq_refl eq_refl eq_refl eq_refl eq_refl) as H.
  cbv zeta in H. destruct (end_record _ _ _ _ _ _) as [r d1]. destruct H as (Hr & Hrec & Hfin & Hfile & Hrm).
  specialize (Hrm eq_refl eq_refl). change (db_next_file d) with 1 in Hrm. destruct (rm_file _ _ 1 d1) as [r2 d2].
  destruct Hrm as (H2 & Hr2 & Hf2). split; [exact Hr|]. split.
  { rewrite Hrec, lookup_insert_eq. cbn. f_equal. }
  rewrite H2, Hr2, Hf2. split; [by vm_compute|]. split; apply (bool_decide_eq_true_1 (_ = _)); by vm_compute.
Defined.
