(* ===== verification/TaskPool.v ===== *)
(** * Tasks on a part of the state, and tasks that run side by side *)
From S2P Require Import Prelude Tasks.
Local Open Scope Z_scope.

(** ** A task on a part of the state *)

Section Zoom.
Context {W V Q : Type} {ans : Q -> Type} (get : V -> W) (put : W -> V -> V).
Fixpoint zoom {R} (t : task W ans R) : task V ans R :=
  match t with
  | Ret r => Ret r
  | Step f k => Step (fun v => let '(x, w) := f (get v) in (x, put w v)) (fun x => zoom (k x))
  | Await f k => Await (fun late v => match f late (get v) with Some (x, w) => Some (x, put w v) | None => None end) (fun x => zoom (k x))
  | Ask q k => Ask q (fun a => zoom (k a))
  end.
End Zoom.

(** ** Tasks that run side by side

    One step of one task at a time, in any order, with any answers; the
    environment steps in between.  [pl_pool]: what is left of each. *)
Section Turns.
Context {W Q R : Type} {ans : Q -> Type} (env : W -> W -> Prop).
Notation task := (task W ans R).
Inductive turn : task -> W -> task -> W -> Prop :=
| turn_step {X} (f : W -> X * W) k w : turn (Step f k) w (k (f w).1) (f w).2
| turn_await {X} (f : bool -> W -> option (X * W)) k w late x w2 : f late w = Some (x, w2) -> turn (Await f k) w (k x) w2
| turn_ask q k a w : turn (Ask q k) w (k a) w.
Inductive pool_turn : list task -> W -> list task -> W -> Prop :=
| pool_here t t' l w w' : turn t w t' w' -> pool_turn (t :: l) w (t' :: l) w'
| pool_there t l l' w w' : pool_turn l w l' w' -> pool_turn (t :: l) w (t :: l') w'.
Inductive pool : list task -> W -> list task -> W -> Prop :=
| pool_done l w : pool l w l w
| pool_step l w l1 w1 l2 w2 : pool_turn l w l1 w1 -> pool l1 w1 l2 w2 -> pool l w l2 w2
| pool_env l w w1 l2 w2 : env w w1 -> pool l w1 l2 w2 -> pool l w l2 w2.

Lemma pool_envs l w w1 l2 w2 : rtc env w w1 -> pool l w1 l2 w2 -> pool l w l2 w2.
Proof. induction 1 as [|w w0 w1 He _ IH]; intros Hp; [exact Hp|]. exact (pool_env _ _ _ _ _ He (IH Hp)). Qed.
Lemma pool_trans l w l1 w1 l2 w2 : pool l w l1 w1 -> pool l1 w1 l2 w2 -> pool l w l2 w2.
Proof.
  induction 1 as [l w|l w l0 w0 l3 w3 Ht _ IH|l w w0 l3 w3 He _ IH]; intros Hp; [exact Hp| |].
  - exact (pool_step _ _ _ _ _ _ Ht (IH Hp)).
  - exact (pool_env _ _ _ _ _ He (IH Hp)).
Qed.
Lemma pool_cons t l w l' w' : pool l w l' w' -> pool (t :: l) w (t :: l') w'.
Proof.
  induction 1 as [l w|l w l0 w0 l3 w3 Ht _ IH|l w w0 l3 w3 He _ IH]; [apply pool_done| |].
  - exact (pool_step _ _ _ _ _ _ (pool_there _ _ _ _ _ Ht) IH).
  - exact (pool_env _ _ _ _ _ He IH).
Qed.
End Turns.
(** One task that runs to its end before the others. *)
Lemma exec_pool {W Q R} {ans : Q -> Type} (env : W -> W -> Prop) (t : task W ans R) l w tr w' r :
  exec env w t tr w' r -> pool env (t :: l) w (Ret r :: l) w'.
Proof.
  induction 1 as [R w r|R X w w1 f x w2 k tr w' r Hr Hf _ IH|R X w w1 f late x w2 k tr w' r Hr Hf _ IH|R w q a k tr w' r _ IH].
  - apply pool_done.
  - refine (pool_envs _ _ _ _ _ _ Hr (pool_step _ _ _ _ _ _ _ (pool_here _ _ _ _ _ (turn_step f k w1)) _)). rewrite Hf. apply IH.
  - exact (pool_envs _ _ _ _ _ _ Hr (pool_step _ _ _ _ _ _ _ (pool_here _ _ _ _ _ (turn_await f k w1 late x w2 Hf)) (IH l))).
  - exact (pool_step _ _ _ _ _ _ _ (pool_here _ _ _ _ _ (turn_ask q k a w)) (IH l)).
Qed.

(** ** Budgets

    [affords c t post]: with [c] in hand [t] never makes [spent] exceed what was
    there; what a step frees the task keeps in hand, and it ends with [post] of
    its result and of what it has left. *)
Section Budget.
Context {W Q : Type} {ans : Q -> Type} (spent : W -> Z).
Fixpoint affords {R} (c : Z) (t : task W ans R) (post : R -> Z -> Prop) : Prop :=
  match t with
  | Ret r => post r c
  | Step f k => forall w, exists c', 0 <= c' /\ spent (f w).2 + c' <= spent w + c /\ affords c' (k (f w).1) post
  | Await f k => forall late w x w2, f late w = Some (x, w2) ->
      exists c', 0 <= c' /\ spent w2 + c' <= spent w + c /\ affords c' (k x) post
  | Ask q k => forall a, affords c (k a) post
  end.
Abbreviation thrifty t := (keeps (fun w w' => spent w' <= spent w) t).

Lemma affords_mono {R} c (t : task W ans R) (post post' : R -> Z -> Prop) :
  affords c t post -> (forall r c', post r c' -> post' r c') -> affords c t post'.
Proof.
  intros Ht Hp. revert c Ht. induction t as [r|X f k IH|X f k IH|q k IH]; intros c Ht; cbn in *.
  - by apply Hp.
  - intros w. destruct (Ht w) as (c' & ? & ? & Hk). exists c'. eauto.
  - intros late w x w2 Hf. destruct (Ht late w x w2 Hf) as (c' & ? & ? & Hk). exists c'. eauto.
  - intros a. by apply IH.
Qed.
Lemma affords_bind {R S} c (t : task W ans R) (k : R -> task W ans S) post :
  affords c t (fun r c1 => affords c1 (k r) post) -> affords c (bind t k) post.
Proof.
  revert c. induction t as [r|X f k' IH|X f k' IH|q k' IH]; intros c Ht; cbn in *.
  - done.
  - intros w. destruct (Ht w) as (c' & ? & ? & Hk). exists c'. eauto.
  - intros late w x w2 Hf. destruct (Ht late w x w2 Hf) as (c' & ? & ? & Hk). exists c'. eauto.
  - intros a. by apply IH.
Qed.
Lemma affords_bind_ok {E R S} c (t : task W ans (outcome E R)) (k : R -> task W ans (outcome E S)) post :
  affords c t (fun o c1 => match o with Done r => affords c1 (k r) post | Failed e => post (Failed e) c1 | Panic => post Panic c1 end) ->
  affords c (bind_ok t k) post.
Proof. intros Ht. apply affords_bind. eapply affords_mono; [exact Ht|]. by intros []. Qed.
Lemma affords_thrifty {R} c (t : task W ans R) : 0 <= c -> thrifty t -> affords c t (fun _ c' => c' = c).
Proof.
  intros Hc. induction t as [r|X f k IH|X f k IH|q k IH]; intros Ht; cbn in *; [done| | |auto].
  - destruct Ht as [Hf Hk]. intros w. exists c. specialize (Hf w). split_and!; [done|lia|auto].
  - destruct Ht as [Hf Hk]. intros late w x w2 Hfw. exists c. specialize (Hf late w x w2 Hfw). split_and!; [done|lia|auto].
Qed.
(** A part of a task that only frees. *)
Lemma affords_part {R S} c (t : task W ans R) (k : R -> task W ans S) post :
  0 <= c -> thrifty t -> (forall r, affords c (k r) post) -> affords c (bind t k) post.
Proof.
  intros Hc Ht Hk. apply affords_bind. eapply affords_mono; [by apply affords_thrifty|]. by intros r ? ->.
Qed.

(** *** A pool whose tasks can afford what they do *)
Section Pool.
Context {R : Type} (env : W -> W -> Prop) (env_thrifty : forall w w', env w w' -> spent w' <= spent w).
Inductive funded : list (task W ans R) -> Z -> Prop :=
| funded_nil : funded [] 0
| funded_cons c t l n : 0 <= c -> affords c t (fun (_ : R) _ => True) -> funded l n -> funded (t :: l) (c + n).

Lemma funded_nonneg l n : funded l n -> 0 <= n.
Proof. induction 1; lia. Qed.
Lemma turn_affords c t w t' w' : 0 <= c -> affords c t (fun (_ : R) _ => True) -> turn t w t' w' ->
  exists c', 0 <= c' /\ affords c' t' (fun (_ : R) _ => True) /\ spent w' + c' <= spent w + c.
Proof.
  intros Hc Ht Hturn. destruct Hturn as [X f k w|X f k w late x w2 Hf|q k a w]; cbn in Ht.
  - destruct (Ht w) as (c' & ? & ? & ?). by exists c'.
  - destruct (Ht late w x w2 Hf) as (c' & ? & ? & ?). by exists c'.
  - exists c. split_and!; [done|done|lia].
Qed.
Lemma pool_turn_funded l w l' w' n : funded l n -> pool_turn l w l' w' -> exists n', funded l' n' /\ spent w' + n' <= spent w + n.
Proof.
  intros Hl Ht. revert n Hl. induction Ht as [t t' l w w' Ht|t l l' w w' _ IH]; intros n Hl; inversion Hl; subst.
  - destruct (turn_affords _ _ _ _ _ ltac:(done) ltac:(done) Ht) as (c' & ? & ? & ?). exists (c' + n0). split; [by constructor|lia].
  - destruct (IH _ ltac:(done)) as (n' & ? & ?). exists (c + n'). split; [by constructor|lia].
Qed.
Lemma pool_funded l w l' w' n : funded l n -> pool env l w l' w' -> exists n', funded l' n' /\ spent w' + n' <= spent w + n.
Proof using env_thrifty.
  intros Hl Hp. revert n Hl. induction Hp as [l w|l w l1 w1 l2 w2 Ht _ IH|l w w1 l2 w2 He _ IH]; intros n Hl.
  - exists n. split; [done|lia].
  - destruct (pool_turn_funded _ _ _ _ _ Hl Ht) as (n1 & H1 & ?). destruct (IH _ H1) as (n2 & ? & ?). exists n2. split; [done|lia].
  - destruct (IH _ Hl) as (n2 & ? & ?). apply env_thrifty in He. exists n2. split; [done|lia].
Qed.
(** Tasks that begin with nothing in hand. *)
Lemma pool_bounded l w l' w' : funded l 0 -> pool env l w l' w' -> spent w' <= spent w.
Proof using env_thrifty.
  intros Hl Hp. destruct (pool_funded _ _ _ _ _ Hl Hp) as (n & Hn & ?). apply funded_nonneg in Hn. lia.
Qed.
End Pool.
End Budget.
