(* ===== verification/EdgeService.v ===== *)
(** * Snapshots and the upload of pictures
    ([session/src/service/edge_serv.rs], [utils/edge_token.rs], [http/edge.rs])

    A client asks for snapshots; the device is told where to upload its pictures,
    under a token that is good for as many uploads, and the client waits for the
    device's notice that it has finished.  An upload is checked, written below the
    directory of the day and given a row. *)
From Stdlib Require Import Ascii.
From stdpp Require Import pretty.
From S2P Require Import Prelude Text Paths SharedTypes Scheduler Lifecycle SessionCache DialogCache Network CloseService RegisterCore.
From S2P Require Import SipEvents SipRuntime NativeRuntime Tasks TaskPool.
From S2P Require Import DialogRecovery SipCommands Storage RecordFiles.
Local Open Scope Z_scope.
Local Open Scope task_scope.

Definition SNAPSHOT_IDLE_EXPIRES : Z := 20.
Definition KEY : string := "GMV:SESSION v1.0".
(** [server.pics] of the configuration. *)
Record Pics := {
  pc_push_url : option string; pc_num : Z; pc_interval : Z; pc_storage_path : string; pc_storage_format : string
}.

Inductive EdgeError :=
| ClockWentBackwards | BadDig62 | ShortSessionId | InvalidToken | NoPushUrl | ZeroCount | SnapshotTimeout | AtSipCommand (e : CommandError)
| MissingParam | NoContentType | BadContentType | Unsupported | BadMultipart | BadField | NoImageField | BadRequestBody
| DirFailed | BadImage | SaveFailed | AtFileInfo (e : DbError).

(** Bytes of a picture. *)
Definition picture : Type := list Z.

(** A field of a form: its type, whether it has a file name, its bytes if they
    can be read; [None] if the next field cannot be got. *)
Record FormField := { ff_content_type : option string; ff_has_file_name : bool; ff_bytes : option picture }.
(** The body: what the readers of axum make of it. *)
Record UploadBody := { ub_form : option (list (option FormField)); ub_binary : option picture }.
(** [ur_params]: in the order of the map; [ur_content_type]: the inner [None] for
    a header that is no text. *)
Record UploadRequest := {
  ur_token : string; ur_params : list (string * string); ur_content_type : option (option string); ur_body : UploadBody
}.

(** The questions: the clock, local time and date, the file system, and the
    image library. *)
Inductive EdgeQuestion :=
| UnixMillis | LocalNow | LocalDate | CreatePicsDir (path : string) | Canonicalize (path : string)
| LoadImage (data : picture) | SaveImage (path : string) (data : picture) | FileLen (path : string).
Definition edge_answer (q : EdgeQuestion) : Type :=
  match q with
  | UnixMillis => option Z
  | LocalNow => Z
  | LocalDate => string
  | CreatePicsDir _ | LoadImage _ | SaveImage _ _ => bool
  | Canonicalize _ => option string
  | FileLen _ => option Z
  end.

(** ** Byte positions in a text *)

Definition is_char_boundary (l : list ascii) (n : nat) : bool :=
  match l !! n with
  | Some a => negb ((128 <=? Z.of_nat (nat_of_ascii a)) && (Z.of_nat (nat_of_ascii a) <? 192))
  | None => (n =? length l)%nat
  end.
(** Lower case of letters other than ASCII's ends in no ASCII letter of the
    suffix, so ASCII's is enough here. *)
Definition is_file_id (key : string) : bool := starts_with (reverse (chars "fileid")) (reverse (chars (to_ascii_lowercase key))).
Fixpoint trim_start_slashes (l : list ascii) : list ascii :=
  match l with a :: l' => if bool_decide (a = slash) then trim_start_slashes l' else l | [] => [] end.
(** [trim_end_matches('/')] *)
Definition trim_end_slashes (s : string) : string := text (reverse (trim_start_slashes (reverse (chars s)))).

Section EdgeService.
Context {A : Type} `{AssociationLike A} `{!MapIter string}.
Context {SA F32 : Type} `{!SipLibrary A SA F32} {Assoc Meth : Type} `{Countable Meth}.
(** [base::utils]: the base-62 code and the hash of tokens. *)
Context (dig62_en dig62_de : string -> option string) (generate_token : string -> string) (pics : Pics).

Notation Signal := (SignalNode (A := A) (SA := SA) (Assoc := Assoc) (Meth := Meth)).
Notation answer := (Answer (more_answer := edge_answer)).
Notation result X := (outcome EdgeError X).

Record EdgeNode := { en_signal : Signal; en_db : Db }.
Definition set_signal (s : Signal) (w : EdgeNode) : EdgeNode := {| en_signal := s; en_db := en_db w |}.
Definition set_db (d : Db) (w : EdgeNode) : EdgeNode := {| en_signal := en_signal w; en_db := d |}.
Notation task := (task EdgeNode answer).
Definition on_signal {X : Type} (t : Tasks.task Signal answer X) : task X := zoom en_signal set_signal t.
Definition ask_edge (q : EdgeQuestion) : task (edge_answer q) := ask (Other q).
Definition edge_cache (w : EdgeNode) : Cache := cache_of_node (en_signal w).
Definition fails {X} (e : EdgeError) : task (result X) := Ret (Failed e).

(** ** Session ids and tokens *)

Definition encode_now (device_id channel_id : string) : task (result string) :=
  mils <- ask_edge UnixMillis ;;
  Ret (match mils : option Z with
       | None => Failed ClockWentBackwards
       | Some mils => match dig62_en (device_id +:+ channel_id +:+ pretty mils)%string with
                      | Some s => Done s | None => Failed BadDig62 end
       end).
Definition build_session_id : string -> string -> task (result string) := encode_now.
Definition build_file_name : string -> string -> task (result string) := encode_now.
Definition session_token (session_id : string) : string := generate_token (KEY +:+ "@" +:+ session_id)%string.
Definition build_token_session_id (device_id channel_id : string) : task (result (string * string)) :=
  session_id <-? build_session_id device_id channel_id ;;
  Ret (Done (session_token session_id, session_id)).
(** [Panic]: a position within a character. *)
Definition split_dc (session_id : string) : result (string * string) :=
  match dig62_de session_id with
  | None => Failed BadDig62
  | Some dcs =>
      let l := chars dcs in
      if (length l <? 40)%nat then Failed ShortSessionId
      else if is_char_boundary l 20 && is_char_boundary l 40
           then Done (text (take 20 l), text (take 20 (drop 20 l))) else Panic
  end.
Definition check (session_id token : string) : result unit :=
  if bool_decide (session_token session_id = token) then Done tt else Failed InvalidToken.

(** ** The tokens of pictures *)

Definition rebuild_pic_token (token : string) : string := ("SNAPSHOT:" +:+ token)%string.
Definition snapshot_idle_timeout : Z := SNAPSHOT_IDLE_EXPIRES * 1000.
Definition check_pic_token (token : string) : task bool := on_signal (with_cache (decrement_counter (rebuild_pic_token token))).
Definition refresh_at (key : string) : task bool := on_signal (atomically (fun w =>
  let '(b, c) := refresh_state key snapshot_idle_timeout (sn_instant w) (cache_of_node w) in
  (b, on_server (on_register (on_cache (fun _ => c))) w))).
Definition refresh_pic_upload (token session_id : string) : task unit :=
  refresh_at (rebuild_snapshot_wait_key session_id) ;;; refresh_at (rebuild_pic_token token) ;;; Ret tt.

(** ** A picture *)

(** The path below the directory of the day. *)
Definition picture_format : string := to_ascii_lowercase (pc_storage_format pics).
Definition picture_stem (file_name : string) : string := default ""%string (file_stem file_name).
Definition final_dir (date : string) : string := path_join (pc_storage_path pics) date.
Definition save_path (date file_name : string) : string :=
  path_join (final_dir date) (picture_stem file_name +:+ "." +:+ picture_format)%string.
Definition picture_row (device_id channel_id session_id file_name date abs_path : string) (now size : Z) : GmvFileInfo := {|
  fi_id := None; fi_device_id := device_id; fi_channel_id := channel_id; fi_biz_time := Some now; fi_biz_id := session_id;
  fi_file_type := Some 0; fi_file_size := size; fi_file_name := picture_stem file_name; fi_file_format := Some picture_format;
  fi_dir_path := final_dir date; fi_abs_path := abs_path; fi_note := None; fi_is_del := Some 0; fi_create_time := Some now |}.
Definition insert_row (f : GmvFileInfo) : task (result unit) := atomically (fun w =>
  let '(r, d) := insert_gmv_file_info [f] (en_db w) in
  (match r with Done x => Done x | Failed e => Failed (AtFileInfo e) | Panic => Panic end, set_db d w)).
Definition upload (data : picture) (session_id : string) (file_id_opt : option string) : task (result unit) :=
  dc <-? Ret (split_dc session_id) ;;
  let '(device_id, channel_id) := dc in
  file_name <-? match file_id_opt with None => build_file_name device_id channel_id | Some id => Ret (Done id) end ;;
  now <- ask_edge LocalNow ;;
  date <- ask_edge LocalDate ;;
  made <- ask_edge (CreatePicsDir (final_dir date)) ;;
  if negb made then fails DirFailed else
  abs <- ask_edge (Canonicalize (final_dir date)) ;;
  match abs : option string with
  | None => fails DirFailed
  | Some abs_path =>
      loaded <- ask_edge (LoadImage data) ;;
      if negb loaded then fails BadImage else
      saved <- ask_edge (SaveImage (save_path date file_name) data) ;;
      if negb saved then fails SaveFailed else
      len <- ask_edge (FileLen (save_path date file_name)) ;;
      match len : option Z with
      | None => fails SaveFailed
      | Some size => insert_row (picture_row device_id channel_id session_id file_name date abs_path now size)
      end
  end.

(** ** The request ([http/edge.rs]) *)

Definition param (key : string) (params : list (string * string)) : option string :=
  snd <$> head (filter (fun kv => kv.1 = key) params).
Definition file_id (params : list (string * string)) : option string :=
  snd <$> head (filter (fun kv => is_file_id kv.1 = true) params).
(** The first image with a file name. *)
Fixpoint form_picture (fields : list (option FormField)) : result picture :=
  match fields with
  | [] => Failed NoImageField
  | None :: _ => Failed BadField
  | Some f :: fields =>
      if default false (starts_with (chars "image/") ∘ chars <$> ff_content_type f) && ff_has_file_name f
      then match ff_bytes f with Some data => Done data | None => Failed BadField end
      else form_picture fields
  end.
Definition handle_multipart_upload (body : UploadBody) (session_id : string) (file_id_opt : option string) : task (result string) :=
  match ub_form body with
  | None => fails BadMultipart
  | Some fields =>
      data <-? Ret (form_picture fields) ;;
      _ <-? upload data session_id file_id_opt ;;
      Ret (Done "File uploaded successfully as form-data"%string)
  end.
Definition handle_binary_upload (body : UploadBody) (session_id : string) (file_id_opt : option string) : task (result string) :=
  match ub_binary body with
  | None => fails BadRequestBody
  | Some data => _ <-? upload data session_id file_id_opt ;; Ret (Done "File uploaded successfully as binary"%string)
  end.
Definition upload_picture (req : UploadRequest) : task (result string) :=
  match param "SessionID" (ur_params req) with
  | None => fails MissingParam
  | Some session_id =>
      _ <-? Ret (check session_id (ur_token req)) ;;
      known <- check_pic_token (ur_token req) ;;
      if negb known then fails InvalidToken else
      let file_id_opt := file_id (ur_params req) in
      match ur_content_type req with
      | None => fails NoContentType
      | Some None => fails BadContentType
      | Some (Some ct) =>
          r <-? (if starts_with (chars "multipart/form-data") (chars ct) then handle_multipart_upload (ur_body req) session_id file_id_opt
                 else if starts_with (chars "image/") (chars ct) then handle_binary_upload (ur_body req) session_id file_id_opt
                 else fails Unsupported) ;;
          refresh_pic_upload (ur_token req) session_id ;;;
          Ret (Done r)
      end
  end.

(** ** A snapshot *)

Definition remove_at (key : string) : task bool := on_signal (with_cache (remove_state key)).
(** The first message of the channel, or that its sender is gone. *)
Definition await_snapshot (tx : Z) : task (option bool) := wait (fun _ w =>
  let c := edge_cache w in
  let messages := omap (fun m => match m with WakeSnapshot t ok => if t =? tx then Some ok else None | _ => None end) (wakes c) in
  let waiting := map_any (fun _ e => match se_waiter e with Some (WaitSnapshot t) => t =? tx | _ => false end) (entities c) in
  match messages with
  | ok :: _ => Some (Some ok, w)
  | [] => if waiting then None else Some (None, w)
  end).
Definition snapshot_image (device_id channel_id : string) (count : option Z) : task (result string) :=
  ts <-? build_token_session_id device_id channel_id ;;
  let '(token, session_id) := ts in
  match pc_push_url pics with
  | None => fails NoPushUrl
  | Some push_url =>
      let url := (trim_end_slashes push_url +:+ "/" +:+ token)%string in
      let count := default (pc_num pics) count in
      if count =? 0 then fails ZeroCount else
      let key := rebuild_snapshot_wait_key session_id in
      let token_key := rebuild_pic_token token in
      tx <- on_signal (atomically (fun w => (sn_channels w, with_locks (sn_locked w) (sn_channels w + 1) w))) ;;
      when <- on_signal (reads (fun w => sn_instant w + snapshot_idle_timeout)) ;;
      on_signal (modify (fun w => on_server (on_register (on_cache (insert_snapshot_wait key when tx (sn_instant w)))) w)) ;;;
      now <- on_signal (reads sn_instant) ;;
      on_signal (modify (fun w => on_server (on_register (on_cache
        (insert_counter token_key count snapshot_idle_timeout now (sn_instant w)))) w)) ;;;
      r <- on_signal (snapshot_image_call device_id channel_id count (pc_interval pics) url session_id) ;;
      match r with
      | Done _ =>
          message <- await_snapshot tx ;;
          match message with
          | Some true => remove_at key ;;; Ret (Done session_id)
          | _ => remove_at token_key ;;; fails SnapshotTimeout
          end
      | Failed e => remove_at key ;;; remove_at token_key ;;; fails (AtSipCommand e)
      | Panic => Ret Panic
      end
  end.
End EdgeService.
