(* ===== verification/EdgeServiceProps.v ===== *)
(** * Pictures under the tokens of snapshots *)
From Stdlib Require Import Ascii.
From stdpp Require Import pretty.
From S2P Require Import Prelude Text Paths Decimal SharedTypes Scheduler Lifecycle SessionCache DialogCache Network CloseService RegisterCore.
From S2P Require Import SipEvents SipRuntime NativeRuntime Tasks TaskPool DialogRecovery SipCommands Storage RecordFiles.
From S2P Require Import SipCommandsProps StorageProps RecordFiles EdgeService.
Local Open Scope Z_scope.
Local Open Scope task_scope.

(** ** The name of a picture *)

Lemma split_on_pieces ch l p : p ∈ split_on ch l -> ch ∉ p.
Proof.
  revert p. induction l as [|a l IH]; intros p Hp; simpl in Hp.
  - apply list_elem_of_singleton in Hp as ->. apply not_elem_of_nil.
  - case_bool_decide as Ha.
    + apply elem_of_cons in Hp as [->|Hp]; [apply not_elem_of_nil|auto].
    + destruct (split_on_cons ch l) as (q & rest & Hs). rewrite Hs in *. apply elem_of_cons in Hp as [->|Hp].
      * apply not_elem_of_cons. split; [congruence|]. apply IH. by left.
      * apply IH. by right.
Qed.
Lemma split_once_join ch l before after : split_once ch l = Some (before, after) -> l = before ++ ch :: after.
Proof.
  revert before. induction l as [|a l IH]; intros before Hs; simpl in Hs; [done|]. case_bool_decide as Ha; [by simplify_eq|].
  destruct (split_once ch l) as [[b c]|]; [|done]. simplify_eq/=. by rewrite (IH b).
Qed.
Lemma trim_back_subset l p : p ∈ trim_back l -> p ∈ l.
Proof.
  induction l as [|q [|q' l] IH]; intros Hp; simpl in Hp; [done|done|].
  case_bool_decide; [right; by apply IH|done].
Qed.
Lemma file_name_no_slash p name : file_name p = Some name -> slash ∉ chars name.
Proof.
  unfold file_name, last_component. destruct (rev_pieces p) as [|c rest] eqn:Hr; [done|].
  assert (slash ∉ c) as Hc.
  { apply (split_on_pieces slash (chars p)). apply elem_of_reverse, trim_back_subset. unfold rev_pieces in Hr. rewrite Hr. by left. }
  intros Hn. assert (Hname : (if bool_decide (c = chars "." \/ c = chars "..") then None else Some (text c)) = Some name).
  { destruct c as [|a c]; [|exact Hn]. destruct rest; [done|exact Hn]. }
  case_bool_decide; [done|]. injection Hname as <-. by rewrite chars_text.
Qed.
Lemma stem_no_slash p stem : file_stem p = Some stem -> slash ∉ chars stem.
Proof.
  unfold file_stem. destruct (file_name p) as [name|] eqn:Hn; [|done]. intros [= <-]. rewrite chars_text.
  apply file_name_no_slash in Hn. intros Hin. apply Hn. unfold split_at_dot in Hin.
  destruct (split_once "." (reverse (chars name))) as [[after before]|] eqn:Hs; [|done]. destruct before as [|b before]; [done|].
  apply split_once_join in Hs. apply elem_of_reverse. rewrite Hs. apply elem_of_app. right. right. by apply elem_of_reverse.
Qed.
Lemma stem_plain stem format : slash ∉ chars stem -> plain format -> plain (stem +:+ "." +:+ format)%string.
Proof.
  intros Hs (Hf & H1 & H2 & H3). split_and!.
  - rewrite !chars_app. intros [Hin|[Hin|Hin]%elem_of_app]%elem_of_app; [done| |done].
    by apply list_elem_of_singleton in Hin.
  - by destruct stem.
  - intros Hc. destruct stem as [|a stem]; [cbn in Hc; by injection Hc|]. injection Hc as -> Hc. by destruct stem.
  - intros Hc. destruct stem as [|a stem]; [cbn in Hc; by injection Hc|]. injection Hc as -> Hc.
    destruct stem as [|b stem]; [cbn in Hc; by injection Hc|]. injection Hc as -> Hc. by destruct stem.
Qed.

Section EdgeProps.
Context {A : Type} `{AssociationLike A} `{!MapIter string}.
Context {SA F32 : Type} `{!SipLibrary A SA F32} {Assoc Meth : Type} `{Countable Meth}.
Context (dig62_en dig62_de : string -> option string) (generate_token : string -> string) (pics : Pics).
Notation EdgeNode := (EdgeNode (A := A) (SA := SA) (Assoc := Assoc) (Meth := Meth)).
Notation answer := (Answer (more_answer := edge_answer)).
Notation task := (task EdgeNode answer).
Notation token_of s := (session_token generate_token s).
Notation save_at := (save_path pics).

Lemma saved_in_dir date name : tidy (pc_storage_path pics) -> plain date -> plain (picture_format pics) ->
  parent (save_at date name) = Some (final_dir pics date) /\
  save_at date name = (final_dir pics date +:+ "/" +:+ (picture_stem name +:+ "." +:+ picture_format pics))%string.
Proof.
  intros Ht Hd Hf. assert (tidy (final_dir pics date)) as Hdir by (unfold final_dir; rewrite join_text by done; by apply tidy_join).
  assert (plain (picture_stem name +:+ "." +:+ picture_format pics)%string) as Hn.
  { apply stem_plain; [|done]. unfold picture_stem. destruct (file_stem name) as [stem|] eqn:Hs; [by apply (stem_no_slash name)|].
    apply not_elem_of_nil. }
  unfold save_path. rewrite join_text by done. split; [by apply parent_join|done].
Qed.

(** ** The session id *)

Definition first_boundary (s : string) : Prop := is_char_boundary (chars s) 0 = true /\ s <> ""%string.
Lemma boundary_skip l1 l2 n : l2 <> [] -> n = length l1 -> is_char_boundary l2 0 = true -> is_char_boundary (l1 ++ l2) n = true.
Proof.
  intros Hne -> Hb. unfold is_char_boundary in *. rewrite lookup_app_r, Nat.sub_diag by done. destruct l2 as [|a l2]; [done|exact Hb].
Qed.
Lemma digits_boundary z : 0 <= z -> first_boundary (pretty z).
Proof.
  intros Hz. destruct (pretty_Z_digits z Hz) as (Hd & _ & Hne). split; [|intros Hc; by rewrite Hc in Hne].
  unfold is_char_boundary. destruct (chars (pretty z)) as [|a l] eqn:Hl; [done|]. cbn in Hd |- *.
  apply andb_true_iff in Hd as [Ha _]. unfold is_ascii_digit in Ha. apply andb_true_iff in Ha as [?%Nat.leb_le ?%Nat.leb_le].
  rewrite (proj2 (Z.leb_gt _ _)) by lia. done.
Qed.

(** A session id made for a device and a channel of twenty bytes each is
    split into the two again and passes the check with the token made with it;
    one that cannot be made is an error of the clock or of the code. *)
Theorem session_id_splits (env : EdgeNode -> EdgeNode -> Prop) (device_id channel_id : string) (w w' : EdgeNode) tr r :
  (forall s e, dig62_en s = Some e -> dig62_de e = Some s) ->
  String.length device_id = 20%nat -> String.length channel_id = 20%nat -> first_boundary channel_id ->
  exec env w (build_token_session_id dig62_en generate_token device_id channel_id) tr w' r ->
  (forall mils, existT (Other UnixMillis : Question) (Some mils) ∈ tr -> 0 <= mils) ->
  match r with
  | Done (token, session_id) =>
      split_dc dig62_de session_id = Done (device_id, channel_id) /\ check generate_token session_id token = Done tt
  | Failed e => e = ClockWentBackwards \/ e = BadDig62
  | Panic => False
  end.
Proof.
  intros Hcode Hd Hc [Hb _] He Hmils. cut (wp env (build_token_session_id dig62_en generate_token device_id channel_id)
    (fun r _ tr => (forall mils, existT (Other UnixMillis : Question) (Some mils) ∈ tr -> 0 <= mils) -> match r with
      | Done (token, session_id) => split_dc dig62_de session_id = Done (device_id, channel_id) /\ check generate_token session_id token = Done tt
      | Failed e => e = ClockWentBackwards \/ e = BadDig62 | Panic => False end) w).
  { intros Hwp. exact (wp_sound env _ _ _ _ _ _ He Hwp Hmils). }
  apply wp_ask. intros [mils|]; cbn; [|auto]. destruct (dig62_en _) as [e|] eqn:Hen; cbn; [|auto].
  intros Hm. specialize (Hm mils ltac:(by left)). split; [|unfold check; by rewrite bool_decide_eq_true_2].
  unfold split_dc. rewrite (Hcode _ _ Hen), !chars_app. rewrite <- list_ascii_length in Hd, Hc. rewrite !length_app.
  rewrite (proj2 (Nat.ltb_ge _ _)) by lia. pose proof (digits_boundary mils Hm) as [Hp Hpn].
  assert (chars (pretty mils) <> []) as Hpc by (intros Hx; apply Hpn; by apply chars_inj).
  rewrite boundary_skip; [|by destruct (chars channel_id)|done|].
  2:{ destruct (chars channel_id) as [|a l]; [done|exact Hb]. }
  rewrite app_assoc, boundary_skip; [|done|by rewrite length_app; lia|done]. cbn [andb]. do 2 f_equal.
  - rewrite <- app_assoc, take_app_length' by done. apply text_chars.
  - rewrite <- app_assoc, drop_app_length' by done. rewrite take_app_length' by done. apply text_chars.
Qed.

(** ** Uploads of a session *)

Definition quota (e : option StateEntry) : Z :=
  match e with Some e => match se_value e with Counter n => Z.max 1 n | Empty => 1 end | None => 0 end.
(** What is left of the session's token, and the pictures it has rows for. *)
Definition remaining (session_id : string) (w : EdgeNode) : Z :=
  quota (entities (edge_cache w) !! rebuild_pic_token (token_of session_id)).
Definition pictures (session_id : string) (w : EdgeNode) : Z :=
  Z.of_nat (size (filter (fun kf => fi_biz_id kf.2 = session_id) (db_files (en_db w)))).
Definition account (session_id : string) (w : EdgeNode) : Z := remaining session_id w + pictures session_id w.

Lemma quota_nonneg e : 0 <= quota e.
Proof. unfold quota. destruct e as [e|]; [|done]. destruct (se_value e); lia. Qed.
Lemma decrement_quota key k c :
  quota (entities (decrement_counter key c).2 !! k) + (if decide (k = key) then if (decrement_counter key c).1 then 1 else 0 else 0)
  <= quota (entities c !! k).
Proof.
  assert (entities (decrement_counter key c).2 = (state_decrement_counter key (entities c)).2 /\
          (decrement_counter key c).1 = bool_decide (is_Some (state_decrement_counter key (entities c)).1)) as [-> ->].
  { unfold decrement_counter. destruct (state_decrement_counter _ _) as [handled m]. cbn [fst snd]. by case_bool_decide. }
  unfold state_decrement_counter. destruct (entities c !! key) as [e|] eqn:He.
  2:{ cbn [fst snd]. rewrite bool_decide_eq_false_2 by (by intros []). case_decide; lia. }
  destruct (se_value e) as [|n] eqn:Hv; [|destruct (Z.leb_spec n 1)]; cbn [fst snd]; rewrite bool_decide_eq_true_2 by done;
    case_decide as Hk; subst; rewrite ?lookup_delete_eq, ?lookup_insert_eq, ?lookup_delete_ne, ?lookup_insert_ne by congruence;
    rewrite ?He; unfold quota; cbn; rewrite ?Hv; try lia; destruct (entities c !! k); lia.
Qed.
Lemma refresh_quota key t now k c : quota (entities (refresh_state key t now c).2 !! k) = quota (entities c !! k).
Proof.
  unfold refresh_state. destruct (entities c !! key) as [e|] eqn:He; [|done]. cbn.
  destruct (decide (k = key)) as [->|Hk]; [by rewrite lookup_insert_eq, He|by rewrite lookup_insert_ne].
Qed.

Definition rows_of (session_id : string) (m : gmap Z GmvFileInfo) : Z :=
  Z.of_nat (size (filter (fun kf => fi_biz_id kf.2 = session_id) m)).
Lemma rows_insert session_id id f m :
  rows_of session_id (<[id := f]> m) <= rows_of session_id m + (if decide (fi_biz_id f = session_id) then 1 else 0).
Proof.
  unfold rows_of. rewrite map_filter_insert. cbn [snd]. case_decide as Hf; [rewrite map_size_insert; case_match; unfold Datatypes.id; lia|].
  rewrite map_filter_delete, map_size_delete. case_match; unfold Datatypes.id; lia.
Qed.
Lemma insert_pictures session_id f d :
  rows_of session_id (db_files (insert_gmv_file_info [f] d).2)
  <= rows_of session_id (db_files d) + (if decide (fi_biz_id f = session_id) then 1 else 0).
Proof.
  unfold insert_gmv_file_info, update, statement. assert (forall b : bool, 0 <= if b then 1 else 0) as Hb by by intros [].
  destruct (db_fate d) as [|[] fate]; cbn [snd foldl insert_file set_files set_fate db_files];
    [exact (rows_insert session_id _ (set_file_id _ f) _)|exact (rows_insert session_id _ (set_file_id _ f) _)|case_decide; lia].
Qed.

Section Session.
Context (session_id : string).
Notation spent := (account session_id).
Abbreviation thrifty t := (keeps (fun w w' => spent w' <= spent w) t).

Lemma refresh_thrifty key : thrifty (refresh_at key : task bool).
Proof.
  split; [|done]. intros w. cbn. destruct (refresh_state _ _ _ _) as [b c] eqn:Hr. unfold account, remaining, edge_cache. cbn.
  unfold pictures. cbn. pose proof (refresh_quota key snapshot_idle_timeout (sn_instant (en_signal w)) (rebuild_pic_token (token_of session_id)) (cache_of_node (en_signal w))) as Hq.
  rewrite Hr in Hq. cbn in Hq. rewrite Hq. lia.
Qed.
Lemma refresh_both_thrifty token s : thrifty (refresh_pic_upload token s : task unit).
Proof. apply keeps_bind; [apply refresh_thrifty|]. intros _. apply keeps_bind; [apply refresh_thrifty|done]. Qed.

(** What the row costs is in hand after the token was counted. *)
Definition in_hand (s : string) (c : Z) : Prop := 0 <= c /\ (s = session_id -> 1 <= c).
Abbreviation costs c t := (affords spent c t (fun _ c' => 0 <= c')).
Lemma insert_row_affords f c : in_hand (fi_biz_id f) c -> costs c (insert_row f : task _).
Proof.
  intros [Hc Hs] w. unfold insert_row. cbn [snd]. pose proof (insert_pictures session_id f (en_db w)) as Hi.
  destruct (insert_gmv_file_info [f] (en_db w)) as [r d]. cbn [fst snd] in Hi |- *. unfold account, remaining, pictures, edge_cache. cbn [en_signal en_db set_db].
  fold (rows_of session_id (db_files d)) (rows_of session_id (db_files (en_db w))).
  exists (if decide (fi_biz_id f = session_id) then c - 1 else c). case_decide as Hf; [specialize (Hs Hf)|]; cbn; split_and!; lia.
Qed.
Lemma upload_affords data s file_id c : in_hand s c -> costs c (upload dig62_en dig62_de pics data s file_id : task _).
Proof.
  intros Hc. unfold upload. apply affords_bind_ok. cbn. destruct (split_dc _ _) as [[device channel]|e|]; [|apply Hc..].
  apply affords_bind_ok. apply (affords_mono _ _ _ (fun _ c' => c' = c)).
  { destruct file_id; [done|]. unfold build_file_name, encode_now. cbn. by intros []. }
  intros [name|e|] c' ->; [|apply Hc..]. cbn -[insert_row]. intros now date [|]; cbn -[insert_row]; [|apply Hc].
  intros [abs|]; cbn -[insert_row]; [|apply Hc]. intros [|]; cbn -[insert_row]; [|apply Hc].
  intros [|]; cbn -[insert_row]; [|apply Hc]. intros [size|]; [|apply Hc]. by apply insert_row_affords.
Qed.
Lemma check_affords {R} token (k : bool -> task R) s : token = token_of s ->
  (forall known c, in_hand s c \/ known = false /\ 0 <= c -> affords spent c (k known) (fun _ _ => True)) ->
  affords spent 0 (bind (check_pic_token token) k) (fun _ _ => True).
Proof.
  intros -> Hk. apply affords_bind. intros w. cbn -[decrement_counter].
  pose proof (decrement_quota (rebuild_pic_token (token_of s)) (rebuild_pic_token (token_of session_id)) (cache_of_node (en_signal w))) as Hq.
  destruct (decrement_counter _ _) as [known c] eqn:Hd. cbn [fst snd] in Hq |- *.
  exists (if decide (s = session_id) then if known then 1 else 0 else 0). split_and!.
  - destruct (decide (s = session_id)), known; lia.
  - unfold account, remaining, edge_cache, pictures. cbn -[quota]. destruct (decide (s = session_id)) as [->|Hs].
    + rewrite decide_True in Hq by done. lia.
    + assert (0 <= if decide (rebuild_pic_token (token_of session_id) = rebuild_pic_token (token_of s)) then if known then 1 else 0 else 0)
        by (destruct (decide (rebuild_pic_token _ = _)), known; lia). lia.
  - apply Hk. destruct (decide (s = session_id)) as [Hs|Hs], known; [left|right|left|right]; split; done || lia.
Qed.
Lemma picture_affords req : affords spent 0 (upload_picture dig62_en dig62_de generate_token pics req : task _) (fun _ _ => True).
Proof.
  unfold upload_picture. destruct (param _ _) as [s|]; [|done]. apply affords_bind_ok. unfold check. cbn [affords].
  case_bool_decide as Ht; [|done]. apply (check_affords _ _ s); [done|]. intros known c Hc. destruct known; [|done]. cbn [negb].
  destruct Hc as [Hc|[? _]]; [|done]. destruct (ur_content_type req) as [[ct|]|]; [|done..].
  apply affords_bind_ok, (affords_mono _ _ _ (fun _ c' => 0 <= c')).
  { destruct (starts_with _ _); [|destruct (starts_with _ _)].
    - unfold handle_multipart_upload. destruct (ub_form _); [|apply Hc]. apply affords_bind_ok. cbn. destruct (form_picture _); [|apply Hc..].
      apply affords_bind_ok. eapply affords_mono; [by apply upload_affords|]. by intros [].
    - unfold handle_binary_upload. destruct (ub_binary _); [|apply Hc]. apply affords_bind_ok.
      eapply affords_mono; [by apply upload_affords|]. by intros [].
    - apply Hc. }
  intros [r|e|] c' Hc'; [|done..]. apply affords_part; [done|apply refresh_both_thrifty|]. done.
Qed.
End Session.

(** C38: The pictures of a session are bounded by its token.  However the uploads
    of any number of requests interleave, whatever their tokens, and whatever
    else happens that gives neither the token new uploads nor the session new
    rows, the rows of the session's pictures do not exceed those it had and what
    was left of its token. *)
Theorem pictures_bounded (env : EdgeNode -> EdgeNode -> Prop) (session_id : string) (reqs : list UploadRequest) (w w' : EdgeNode) tasks' :
  (forall w1 w2, env w1 w2 -> account session_id w2 <= account session_id w1) ->
  pool env (map (upload_picture dig62_en dig62_de generate_token pics) reqs) w tasks' w' ->
  pictures session_id w' <= remaining session_id w + pictures session_id w.
Proof.
  intros Henv Hp. assert (account session_id w' <= account session_id w) as Ha.
  { eapply (pool_bounded (account session_id) env Henv); [|exact Hp]. clear. induction reqs as [|req reqs IH]; cbn [map]; [constructor|].
    apply (funded_cons _ 0 _ _ 0); [done|apply picture_affords|exact IH]. }
  unfold account in Ha. pose proof (quota_nonneg (entities (edge_cache w') !! rebuild_pic_token (token_of session_id))) as Hq.
  unfold remaining in *. lia.
Qed.

(** ** An upload *)

(** What the file system was asked to write. *)
Notation SaveEvent p data := (existT (Other (SaveImage p data) : Question) true).
Definition stored (s : string) (file_id : option string) (data : picture) (d d' : Db) (tr : list (event answer)) : Prop :=
  exists device channel name date abs_path now size,
    let row := picture_row pics device channel s name date abs_path now size in
    split_dc dig62_de s = Done (device, channel) /\ (forall id, file_id = Some id -> name = id) /\
    SaveEvent (save_at date name) data ∈ tr /\ d' = insert_file d row /\ RecordFiles.file_path row = save_at date name.

Section Upload.
Context (env : EdgeNode -> EdgeNode -> Prop) (env_tables : forall w1 w2, env w1 w2 -> en_db w2 = en_db w1).
Abbreviation same_tables := (fun w1 w2 => en_db w2 = en_db w1).
#[local] Instance same_tables_pre : PreOrder (fun w1 w2 : EdgeNode => en_db w2 = en_db w1).
Proof. split; [by intros ?|]. intros ? ? ? He1 He2. by rewrite He2. Qed.
Lemma env_tables_rtc w1 w2 : rtc env w1 w2 -> en_db w2 = en_db w1.
Proof using env_tables. induction 1 as [|w1 w2 w3 He _ IH]; [done|]. by rewrite IH, (env_tables _ _ He). Qed.

Lemma upload_stores data s file_id w : db_fate (en_db w) = [] ->
  wp env (upload dig62_en dig62_de pics data s file_id) (fun r w1 tr => match r with
    | Done _ => stored s file_id data (en_db w) (en_db w1) tr | _ => en_db w1 = en_db w end) w.
Proof using env_tables.
  intros Hfate. unfold upload. apply wp_bind_ok, wp_ret. destruct (split_dc dig62_de s) as [[device channel]|e|] eqn:Hdc; [|done..].
  apply wp_bind_ok. apply (wp_mono env _ (fun r w1 _ => w1 = w /\ forall name, r = Done name -> forall id, file_id = Some id -> name = id)).
  2:{ destruct file_id as [id|]; [cbn; split; [done|intros ? [= ->] ? [= ->]; done]|]. unfold build_file_name, encode_now. cbn. intros a. by destruct a. }
  intros [name|e|] w1 tr0 [-> Hname]; [|done..]. specialize (Hname name eq_refl).
  intros now. cbn -[insert_row]. intros date [|]; cbn -[insert_row]; [|done].
  intros [abs|]; cbn -[insert_row]; [|done]. intros [|]; cbn -[insert_row]; [|done].
  intros [|]; cbn -[insert_row]; [|done]. intros [size|]; cbn -[insert_row]; [|done].
  intros w1 Hr. apply env_tables_rtc in Hr. cbn. unfold insert_gmv_file_info, update, statement. rewrite Hr, Hfate. cbn [fst snd en_db set_db].
  exists device, channel, name, date, abs, now, size. split_and!; [done|done| |done|done].
  apply elem_of_app. right. do 5 right. left.
Qed.
Lemma refresh_tables token s : keeps same_tables (refresh_pic_upload token s : task unit).
Proof.
  assert (forall key, keeps same_tables (refresh_at key : task bool)) as Hk.
  { intros key. split; [|done]. intros v. cbn. by destruct (refresh_state _ _ _ _). }
  apply keeps_bind; [apply Hk|]. intros _. apply keeps_bind; [apply Hk|done].
Qed.
Lemma check_tables token : keeps same_tables (check_pic_token token : task bool).
Proof. split; [|done]. intros v. cbn -[decrement_counter]. by destruct (decrement_counter _ _). Qed.
Lemma picture_stores req w : db_fate (en_db w) = [] ->
  wp env (upload_picture dig62_en dig62_de generate_token pics req) (fun r w1 tr => match r with
    | Done _ => exists s data, param "SessionID" (ur_params req) = Some s /\ token_of s = ur_token req /\
        stored s (file_id (ur_params req)) data (en_db w) (en_db w1) tr
    | _ => en_db w1 = en_db w end) w.
Proof using env_tables.
  intros Hfate. unfold upload_picture. destruct (param _ _) as [s|]; [|done]. apply wp_bind_ok, wp_ret. unfold check.
  case_bool_decide as Ht; [|done]. apply wp_bind.
  eapply wp_mono; [|apply (keeps_wp env same_tables _ w env_tables); apply check_tables]. intros known w2 tr2 Hw2.
  destruct known; [|exact Hw2]. cbn [negb]. destruct (ur_content_type req) as [[ct|]|]; [|exact Hw2..].
  apply wp_bind_ok, (wp_mono env _ (fun r w3 tr => match r with
    | Done _ => exists data, stored s (file_id (ur_params req)) data (en_db w) (en_db w3) tr | _ => en_db w3 = en_db w end)).
  - intros [m|e|] w3 tr3 H3; [|done..]. cbn beta iota. apply wp_bind.
    eapply wp_mono; [|apply (keeps_wp env same_tables _ w3 env_tables); apply refresh_tables]. intros ? w4 tr4 Hw4. apply wp_ret.
    destruct H3 as (data & (device & channel & name & date & abs & now & size & H3)). exists s, data. split_and!; [done|done|].
    exists device, channel, name, date, abs, now, size. destruct H3 as (? & ? & Hin & Hdb & ?). split_and!; [done|done| |by rewrite Hw4|done].
    rewrite app_nil_r, app_nil_l. apply elem_of_app. right. apply elem_of_app. by left.
  - rewrite <- Hw2 in Hfate. pose proof (fun data => upload_stores data s (file_id (ur_params req)) w2 Hfate) as Hu. rewrite Hw2 in Hu.
    assert (forall data (m : string), wp env (_ <-? upload dig62_en dig62_de pics data s (file_id (ur_params req)) ;; Ret (Done m)) (fun r w3 tr => match r with
      | Done _ => exists data, stored s (file_id (ur_params req)) data (en_db w) (en_db w3) tr | _ => en_db w3 = en_db w end) w2) as Hm.
    { intros data m. apply wp_bind_ok. eapply wp_mono; [|apply Hu]. intros [[]|e|] w3 tr Hs; [|done..]. apply wp_ret. exists data. by rewrite app_nil_r. }
    destruct (starts_with _ _); [|destruct (starts_with _ _)].
    + unfold handle_multipart_upload. destruct (ub_form _) as [fields|]; [|done]. apply wp_bind_ok, wp_ret. destruct (form_picture fields) as [data|e|]; [|done..].
      eapply wp_mono; [|exact (Hm data _)]. by intros [].
    + unfold handle_binary_upload. destruct (ub_binary _) as [data|]; [|done]. apply Hm.
    + done.
Qed.
End Upload.

(** C37: An upload that is accepted carries the token made for its session.  It
    has written the picture directly in the directory of the day, whatever file
    name the device gave, and left one row, from which removing the file finds
    the picture again; an upload that is refused leaves no row.  The path has
    nothing of the session in it: pictures that two devices name alike on a day
    are one file. *)
Theorem picture_uploaded (env : EdgeNode -> EdgeNode -> Prop) (req : UploadRequest) (w w' : EdgeNode) tr r (exists_ remove : string -> bool) :
  (forall w1 w2, env w1 w2 -> en_db w2 = en_db w1) -> db_fate (en_db w) = [] ->
  exec env w (upload_picture dig62_en dig62_de generate_token pics req) tr w' r ->
  match r with
  | Done _ => exists s name date data, param "SessionID" (ur_params req) = Some s /\ token_of s = ur_token req /\
      (forall id, file_id (ur_params req) = Some id -> name = id) /\ SaveEvent (save_at date name) data ∈ tr /\
      (tidy (pc_storage_path pics) -> plain date -> plain (picture_format pics) ->
         parent (save_at date name) = Some (final_dir pics date)) /\
      (exists f, fi_biz_id f = s /\ en_db w' = insert_file (en_db w) f) /\
      (exists_ (save_at date name) = true -> remove (save_at date name) = true ->
         (rm_file exists_ remove (db_next_file (en_db w)) (en_db w')).1 = Done (Some (save_at date name)))
  | _ => en_db w' = en_db w
  end.
Proof.
  intros Henv Hfate He. pose proof (wp_sound env _ _ _ _ _ _ He (picture_stores env Henv req w Hfate)) as Hs. cbn in Hs.
  destruct r as [m|e|]; [|done..]. destruct Hs as (s & data & Hp & Ht & device & channel & name & date & abs & now & size & Hdc & Hn & Hin & Hdb & Hpath).
  exists s, name, date, data. split_and!; [done|done|done|done| | |].
  - intros. by apply saved_in_dir.
  - eexists. split; [|exact Hdb]. done.
  - intros Hex Hrm. rewrite Hdb. erewrite removed; [|exact Hfate|apply lookup_insert_eq].
    match goal with |- context [RecordFiles.file_path ?f] => change (RecordFiles.file_path f) with (save_at date name) end. by rewrite Hex, Hrm.
Qed.

(** ** A snapshot *)

Lemma wp_any env {R} (t : task R) (w : EdgeNode) : wp env t (fun _ _ _ => True) w.
Proof. revert w. induction t; cbn; auto. Qed.
Lemma remove_wp env key (post : bool -> EdgeNode -> list (event answer) -> Prop) (w : EdgeNode) :
  (forall b w1, entities (edge_cache w1) !! key = None -> post b w1 []) -> wp env (remove_at key : task bool) post w.
Proof.
  intros Hp w1 _. cbn -[remove_state]. destruct (remove_state key (cache_of_node (en_signal w1))) as [b c] eqn:Hr. cbn. apply Hp.
  unfold remove_state in Hr. injection Hr as _ <-. unfold edge_cache. cbn. by rewrite lookup_delete_eq.
Qed.

Notation ClockEvent mils := (existT (P := answer) (Other UnixMillis) (Some mils)).
Section Snapshot.
Context (env : EdgeNode -> EdgeNode -> Prop) (device_id channel_id : string) (count : option Z).
(** The token is the one of the session made at [mils]. *)
Definition revoked (w' : EdgeNode) (tr : list (event answer)) : Prop := exists mils s,
  ClockEvent mils ∈ tr /\ dig62_en (device_id +:+ channel_id +:+ pretty mils)%string = Some s /\
  default (pc_num pics) count <> 0 /\ remaining s w' = 0.
Definition snapshot_end (r : outcome EdgeError string) (w' : EdgeNode) (tr : list (event answer)) : Prop :=
  match r with
  | Failed (AtSipCommand _) | Failed SnapshotTimeout => revoked w' tr
  | Done s => entities (edge_cache w') !! rebuild_snapshot_wait_key s = None
  | _ => True
  end.
Lemma revoke_wp mils s e before w :
  dig62_en (device_id +:+ channel_id +:+ pretty mils)%string = Some s -> default (pc_num pics) count <> 0 ->
  wp env (remove_at (rebuild_pic_token (token_of s)) ;;; fails e : task (outcome EdgeError string))
    (fun r w' tr => snapshot_end r w' (ClockEvent mils :: before ++ tr)) w.
Proof.
  intros Hs Hc. apply wp_bind, remove_wp. intros b w1 Hnone. apply wp_ret. assert (revoked w1 (ClockEvent mils :: before ++ [] ++ [])) as Hr.
  { exists mils, s. split_and!; [by left|done|done|]. unfold remaining. by rewrite Hnone. }
  destruct e; done.
Qed.
Lemma snapshot_wp w : wp env (snapshot_image dig62_en generate_token pics device_id channel_id count : task _) snapshot_end w.
Proof.
  unfold snapshot_image. apply wp_bind_ok, wp_bind_ok, (wp_ask env (Other UnixMillis)). intros [mils|]; [|done]. apply wp_ret.
  destruct (dig62_en _) as [s|] eqn:Hen; [|done]. cbn beta iota zeta. apply wp_ret. destruct (pc_push_url pics) as [push|]; [|done].
  destruct (Z.eqb_spec (default (pc_num pics) count) 0) as [|Hcount]; [done|].
  apply wp_bind. intros w1 _. apply wp_bind. intros w2 _. apply wp_bind. intros w3 _. apply wp_bind. intros w4 _. apply wp_bind. intros w5 _.
  apply wp_bind. eapply wp_mono; [|apply wp_any]. intros r6 w6 tr6 _. destruct r6 as [[]|e|]; [| |done].
  - apply wp_bind. intros w7 late x w8 _ _. apply wp_ret. destruct x as [[|]|]; [|exact (revoke_wp mils s _ tr6 w8 Hen Hcount)..].
    apply wp_bind, remove_wp. intros b w9 Hnone. apply wp_ret. exact Hnone.
  - apply wp_bind, remove_wp. intros b w9 Hnone. exact (revoke_wp mils s _ tr6 w9 Hen Hcount).
Qed.
End Snapshot.

(** A snapshot that fails leaves no token.  When the device cannot be asked or
    does not report in time, the token it was told is revoked, and nothing
    remains of it for uploads; when it reports, the wait entry is gone. *)
Theorem snapshot_token_revoked (env : EdgeNode -> EdgeNode -> Prop) (device_id channel_id : string) (count : option Z) (w w' : EdgeNode) tr r :
  exec env w (snapshot_image dig62_en generate_token pics device_id channel_id count) tr w' r ->
  match r with
  | Failed (AtSipCommand _) | Failed SnapshotTimeout => revoked device_id channel_id count w' tr
  | Done s => entities (edge_cache w') !! rebuild_snapshot_wait_key s = None
  | _ => True
  end.
Proof. intros He. exact (wp_sound env _ _ _ _ _ _ He (snapshot_wp env device_id channel_id count w)). Qed.
End EdgeProps.

(** ** A device with a token for one picture *)

Definition demo_device : string := "34020000001110000009".
Definition demo_channel : string := "34020000001320000101".
Definition demo_session : string := (demo_device +:+ demo_channel +:+ "1700000000000")%string.
Definition demo_hash (s : string) : string := ("hash of " +:+ s)%string.
Definition demo_pics : Pics := {|
  pc_push_url := Some "http://host/edge/upload/picture/"%string; pc_num := 1; pc_interval := 1; pc_storage_path := "/pics";
  pc_storage_format := "JPEG" |}.
Definition demo_edge (q : Question (More := EdgeQuestion)) : Answer (more_answer := edge_answer) q :=
  match q with
  | GenerateIdentity => {| id_call_id := "call"; id_local_tag := "lt"; id_local_cseq := 4 |}
  | Other UnixMillis => Some 1700000000000
  | Other LocalNow => 5
  | Other LocalDate => "20240501"%string
  | Other (CreatePicsDir _) => true
  | Other (Canonicalize path) => Some path
  | Other (LoadImage _) => true
  | Other (SaveImage _ _) => true
  | Other (FileLen _) => Some 9
  end.
Notation DemoEdge := (EdgeNode (A := Z) (SA := string) (Assoc := unit) (Meth := Z)).
Definition demo_before : DemoEdge := {| en_signal := demo_node ∅; en_db := no_rows |}.
Definition demo_granted : DemoEdge := {|
  en_signal := on_server (on_register (on_cache (insert_counter
    (rebuild_pic_token (session_token demo_hash demo_session)) 1 20000 0 0))) (demo_node ∅); en_db := no_rows |}.
Definition demo_upload : UploadRequest := {|
  ur_token := session_token demo_hash demo_session; ur_params := [("SessionID", demo_session); ("FileID", "../../etc/shot.png")]%string;
  ur_content_type := Some (Some "image/png"%string); ur_body := {| ub_form := None; ub_binary := Some [1; 2; 3] |} |}.
Abbreviation demo_picture := (upload_picture Some Some demo_hash demo_pics demo_upload : task DemoEdge _ _).

Definition clock_ok (e : event (Answer (more_answer := edge_answer))) : bool :=
  match e with existT (Other UnixMillis) (Some mils) => 0 <=? mils | _ => true end.
Lemma session_id_splits_witness :
  exists tr (w' : DemoEdge) token session_id,
    exec eq demo_before (build_token_session_id Some demo_hash demo_device demo_channel) tr w' (Done (token, session_id)) /\
    split_dc Some session_id = Done (demo_device, demo_channel).
Proof.
  destruct (run_found id false demo_edge eq (fun tr _ r => match r with Done _ => forallb clock_ok tr | _ => false end)
    (build_token_session_id Some demo_hash demo_device demo_channel) demo_before (fun w => rtc_refl _ w)) as (tr & w' & r & Hd & He);
    [vm_compute; reflexivity|].
  destruct r as [[token session_id]|e|]; [|done..]. exists tr, w', token, session_id. split; [exact He|].
  destruct (session_id_splits Some Some demo_hash eq demo_device demo_channel demo_before w' tr (Done (token, session_id))) as [Hs _];
    [by intros s e [= ->]|done|done|by split|exact He| |exact Hs].
  intros mils Hin%list_elem_of_In. apply forallb_forall with (x := existT (Other UnixMillis) (Some mils)) in Hd; [|exact Hin]. by apply Z.leb_le.
Defined.

Lemma pictures_bounded_witness :
  exists tasks' (w' : DemoEdge), pool eq (map (upload_picture Some Some demo_hash demo_pics) [demo_upload; demo_upload]) demo_granted tasks' w' /\
    size (db_files (en_db w')) = 1%nat /\ pictures demo_session w' <= 1.
Proof.
  destruct (run_found id false demo_edge eq (fun _ w' r => match r with Done _ => bool_decide (size (db_files (en_db w')) = 1%nat) | _ => false end)
    demo_picture demo_granted (fun w => rtc_refl _ w)) as (tr & w1 & r & Hp & He); [vm_compute; reflexivity|].
  destruct r as [m|e|]; [|done..]. apply bool_decide_eq_true in Hp.
  assert (pool eq (map (upload_picture Some Some demo_hash demo_pics) [demo_upload; demo_upload]) demo_granted [Ret (Done m); demo_picture] w1) as Hpool
    by exact (exec_pool eq demo_picture [demo_picture] demo_granted tr w1 (Done m) He).
  eexists _, w1. split; [exact Hpool|]. split; [exact Hp|].
  eapply Z.le_trans; [apply (pictures_bounded Some Some demo_hash demo_pics eq demo_session [demo_upload; demo_upload] demo_granted w1 [Ret (Done m); demo_picture])|];
    [by intros ? ? ->|exact Hpool|]. vm_compute. discriminate.
Defined.
Lemma picture_uploaded_witness :
  exists tr (w' : DemoEdge) m, exec eq demo_granted demo_picture tr w' (Done m) /\
    (rm_file (fun _ => true) (fun _ => true) 1 (en_db w')).1 = Done (Some (save_path demo_pics "20240501" "../../etc/shot.png")) /\
    save_path demo_pics "20240501" "../../etc/shot.png" = "/pics/20240501/shot.jpeg"%string.
Proof.
  destruct (run_found id false demo_edge eq (fun tr w' r => match r with Done _ => forallb (fun e => match e with
      | existT (Other (SaveImage path _)) _ => bool_decide (path = save_path demo_pics "20240501" "../../etc/shot.png") | _ => true end) tr | _ => false end)
    demo_picture demo_granted (fun w => rtc_refl _ w)) as (tr & w' & r & Hp & He); [vm_compute; reflexivity|].
  destruct r as [m|e|]; [|done..]. exists tr, w', m. split; [exact He|].
  destruct (picture_uploaded Some Some demo_hash demo_pics eq demo_upload demo_granted w' tr (Done m) (fun _ => true) (fun _ => true))
    as (s & name & date & data & _ & _ & _ & Hin & _ & _ & Hrm); [by intros ? ? ->|done|exact He|].
  apply list_elem_of_In in Hin. apply forallb_forall with (2 := Hin) in Hp. apply bool_decide_eq_true in Hp. split; [|by vm_compute].
  rewrite <- Hp. exact (Hrm eq_refl eq_refl).
Defined.
Lemma snapshot_token_revoked_witness :
  exists tr (w' : DemoEdge) e, exec eq demo_before (snapshot_image Some demo_hash demo_pics "unknown" demo_channel None) tr w' (Failed (AtSipCommand e)) /\
    revoked Some demo_hash demo_pics "unknown" demo_channel None w' tr.
Proof.
  destruct (run_found id false demo_edge eq (fun _ _ r => match r with Failed (AtSipCommand _) => true | _ => false end)
    (snapshot_image Some demo_hash demo_pics "unknown" demo_channel None) demo_before (fun w => rtc_refl _ w)) as (tr & w' & r & Hp & He); [vm_compute; reflexivity|].
  destruct r as [s|[]|]; try done. exists tr, w', e. split; [exact He|].
  exact (snapshot_token_revoked Some demo_hash demo_pics eq "unknown" demo_channel None demo_before w' tr (Failed (AtSipCommand e)) He).
Defined.
