(* ===== verification/SessionApi.v ===== *)
(** * The signalling server's interface for clients
    ([session/src/http/api.rs], [hook.rs], [edge.rs], [mod.rs])

    Each handler wants a token in the header [gmv-token], of whatever value, calls
    its service and puts the result into a response. *)
From S2P Require Import Prelude SharedTypes MediaApi.
From S2P Require Import Scheduler SessionCache Network CloseService RegisterCore Ssrc Sdp Tasks DialogRecovery SipCommands StreamService Storage RecordFiles EdgeService.
Local Open Scope task_scope.
Local Open Scope Z_scope.

Inductive TokenError := TokenInvalid | TokenNotFound.
(** The inner [None]: the header is no text. *)
Definition get_gmv_token (header : option (option string)) : outcome TokenError string :=
  match header with
  | Some (Some token) => Done token
  | Some None => Failed TokenInvalid
  | None => Failed TokenNotFound
  end.
Definition respond {E X : Type} `{OutErr E} (r : outcome E X) : outcome unit (Resp X) :=
  match r with Done a => Done (build_success_data a) | Failed e => Done (res_by_error e) | Panic => Panic end.

Section Handlers.
Context {W Q : Type} {ans : Q -> Type} `{OutErr TokenError}.
(** What the handlers share; [Panic]: the task of the request panics. *)
Definition with_token {E X : Type} `{OutErr E} (header : option (option string)) (k : string -> task W ans (outcome E X))
    : task W ans (outcome unit (Resp X)) :=
  match get_gmv_token header with
  | Done token => r <- k token ;; Ret (respond r)
  | Failed e => Ret (Done (res_by_error e))
  | Panic => Ret Panic
  end.
End Handlers.

Section SessionApi.
Context {A : Type} `{AssociationLike A} `{!MapIter string}.
Context {SA : Type} `{!SipLibrary A SA f32} {Assoc Meth : Type} `{Countable Meth}.
Context `{OutErr TokenError} `{OutErr ServiceError} `{OutErr HookError} `{OutErr EdgeError}.
Context (accepts : TimeScheduleKey -> bool) (node_names : list string) (node_map : string -> option StreamService.MediaNode)
  (client_ok : string -> bool) (local_of_secs : Z -> option Z) (form_urlencode : string -> string)
  (dig62_de : string -> outcome SsrcError string) (protocol_value : Protocol -> string).
Abbreviation header := (option (option string)).
Abbreviation Node := (SignalNode (A := A) (SA := SA) (Assoc := Assoc) (Meth := Meth)).
Abbreviation handled X := (task Node (Answer (more_answer := service_answer)) (outcome unit (Resp X))).

Definition play_living (h : header) (m : PlayLiveModel) : handled StreamInfo :=
  with_token h (StreamService.play_live accepts node_names node_map client_ok m).
Definition api_play_back (h : header) (m : PlayBackModel) : handled StreamInfo :=
  with_token h (StreamService.play_back accepts node_names node_map client_ok m).
Definition api_play_seek (h : header) (m : PlaySeekModel) : handled bool := with_token h (fun _ => StreamService.seek m).
Definition api_play_speed (h : header) (m : PlaySpeedModel) : handled bool := with_token h (fun _ => StreamService.speed m).
Definition api_control_ptz (h : header) (m : PtzControlModel) : handled bool := with_token h (fun _ => StreamService.ptz m).
Definition download_mp4 (h : header) (m : PlayBackModel) : handled string :=
  with_token h (StreamService.download accepts node_names node_map client_ok local_of_secs m).
Definition api_download_stop (h : header) (stream_id : string) : handled bool :=
  with_token h (fun _ => StreamService.download_stop accepts node_map client_ok dig62_de stream_id).
Definition downing_info (h : header) (info : StreamQo) : handled StreamRecordInfo :=
  with_token h (fun _ => download_info_by_stream_id node_map client_ok info).
Definition api_talk_start (h : header) (m : TalkStartModel) : handled TalkInfo :=
  with_token h (StreamService.talk_start node_names node_map client_ok form_urlencode protocol_value m).
Definition api_talk_stop (h : header) (talk_id : string) : handled bool :=
  with_token h (fun _ => StreamService.talk_stop accepts node_map client_ok talk_id).

(** [rm_file] works on the tables. *)
Definition remove_file (exists_ remove : string -> bool) (h : header) (file_id : Z) (d : Db) : outcome unit (Resp unit) * Db :=
  match get_gmv_token h with
  | Done _ =>
      let '(r, d1) := RecordFiles.rm_file exists_ remove file_id d in
      (match r with Done _ => Done build_success | Failed e => Done (res_by_error e) | Panic => Panic end, d1)
  | Failed e => (Done (res_by_error e), d)
  | Panic => (Panic, d)
  end.
(** The callback for a finished recording ([hook.rs]). *)
Definition hook_end_record (d_path : string) (now biz_time create_time : Z) (info : StreamRecordInfo) (d : Db) : outcome unit (Resp unit) * Db :=
  let '(r, d1) := RecordFiles.end_record d_path now biz_time create_time info d in
  (match r with Done _ => Done build_success | Failed e => Done (res_by_error e) | Panic => Panic end, d1).

(** [edge.rs] *)
Section Edge.
Context (dig62_en dig62_decode : string -> option string) (generate_token : string -> string) (pics : Pics).
Abbreviation edge X := (task (EdgeNode (A := A) (SA := SA) (Assoc := Assoc) (Meth := Meth)) (Answer (more_answer := edge_answer)) X).
Definition edge_snapshot_image (h : header) (device_id channel_id : string) (count : option Z) : edge (outcome unit (Resp string)) :=
  with_token h (fun _ => EdgeService.snapshot_image dig62_en generate_token pics device_id channel_id count).
(** The inner [Failed]: the text of the error. *)
Definition edge_upload_picture (req : UploadRequest) : edge (outcome string string) :=
  r <- EdgeService.upload_picture dig62_en dig62_decode generate_token pics req ;;
  Ret (match r with Done m => Done m | Failed e => Failed (out_err e) | Panic => Panic end).
End Edge.

(** ** The routes *)

Inductive ApiRequest :=
| PlayLiving (m : PlayLiveModel) | PlayBack (m : PlayBackModel) | PlaySeek (m : PlaySeekModel) | PlaySpeed (m : PlaySpeedModel)
| ControlPtz (m : PtzControlModel) | DownloadMp4 (m : PlayBackModel) | DownloadStop (stream_id : string) | DowningInfo (info : StreamQo)
| TalkStart (m : TalkStartModel) | TalkStop (talk_id : string).
Inductive ApiReply :=
| ReplyStream (r : Resp StreamInfo) | ReplyBool (r : Resp bool) | ReplyText (r : Resp string) | ReplyInfo (r : Resp StreamRecordInfo)
| ReplyTalk (r : Resp TalkInfo).
Definition reply_code (r : ApiReply) : Z :=
  match r with ReplyStream r => code r | ReplyBool r => code r | ReplyText r => code r | ReplyInfo r => code r | ReplyTalk r => code r end.
Definition as_reply {X : Type} (f : Resp X -> ApiReply) (t : handled X) : task Node (Answer (more_answer := service_answer)) (outcome unit ApiReply) :=
  r <- t ;; Ret (match r with Done x => Done (f x) | Failed e => Failed e | Panic => Panic end).
Definition routes (h : header) (req : ApiRequest) : task Node (Answer (more_answer := service_answer)) (outcome unit ApiReply) :=
  match req with
  | PlayLiving m => as_reply ReplyStream (play_living h m)
  | PlayBack m => as_reply ReplyStream (api_play_back h m)
  | PlaySeek m => as_reply ReplyBool (api_play_seek h m)
  | PlaySpeed m => as_reply ReplyBool (api_play_speed h m)
  | ControlPtz m => as_reply ReplyBool (api_control_ptz h m)
  | DownloadMp4 m => as_reply ReplyText (download_mp4 h m)
  | DownloadStop s => as_reply ReplyBool (api_download_stop h s)
  | DowningInfo info => as_reply ReplyInfo (downing_info h info)
  | TalkStart m => as_reply ReplyTalk (api_talk_start h m)
  | TalkStop id => as_reply ReplyBool (api_talk_stop h id)
  end.

(** A request without a usable token gets the error's code; nothing is asked and
    nothing changes. *)
Theorem api_wants_token (env : Node -> Node -> Prop) (h : header) (req : ApiRequest) (e : TokenError) w w' tr r :
  get_gmv_token h = Failed e -> exec env w (routes h req) tr w' r ->
  tr = [] /\ w' = w /\ exists reply, r = Done reply /\ reply_code reply = err_code e.
Proof.
  intros Hh He. revert He. refine (fun He => wp_sound env _ (fun r w' tr => tr = [] /\ w' = w /\ exists reply, r = Done reply /\ reply_code reply = err_code e) _ _ _ _ He _).
  destruct req; cbn [routes]; unfold as_reply, play_living, api_play_back, api_play_seek, api_play_speed, api_control_ptz, download_mp4, api_download_stop, downing_info,
    api_talk_start, api_talk_stop, with_token; rewrite Hh; cbn; eauto.
Qed.
End SessionApi.
