(* ===== verification/Config.v ===== *)
(** * What the configuration is checked for
    ([session/src/state/mod.rs], [session/src/storage/pics.rs];
    [stream/src/general/cfg.rs])

    The values are read by a library; what the code itself does is fill in
    defaults, refuse values, and build the table of the media nodes. *)
From Stdlib Require Import Ascii.
From stdpp Require Import pretty.
From S2P Require Import Prelude Text Paths SharedTypes SipEvents EdgeService StreamService.
Local Open Scope Z_scope.

Inductive FieldCheckError :=
| PushUrlEmpty | PushUrlInvalid | PriorityOutOfRange | PushUrlRequired | StorageFormat | CreateDir | InWaitTimeout.

Section Session.
(** [Url::parse] succeeds. *)
Context (url_ok : string -> bool).

(** ** Alarms *)

Definition default_priority : Z := 4.
Definition AlarmConf_conf (enable : bool) (push_url : option string) (priority : option Z) : AlarmConf :=
  {| ac_enable := enable; ac_push_url := push_url; ac_priority := default default_priority priority |}.
Definition AlarmConf_field_check (c : AlarmConf) : outcome FieldCheckError unit :=
  let push :=
    if ac_enable c then
      match ac_push_url c with
      | None => Failed PushUrlEmpty
      | Some url => if bool_decide (url = ""%string) then Failed PushUrlEmpty else if url_ok url then Done tt else Failed PushUrlInvalid
      end
    else Done tt in
  match push with
  | Done _ => if (ac_priority c =? 0) || (4 <? ac_priority c) then Failed PriorityOutOfRange else Done tt
  | r => r
  end.

(** ** Pictures *)

Definition picture_formats : list string :=
  ["avif"; "bmp"; "farbfeld"; "gif"; "hdr"; "ico"; "jpeg"; "exr"; "png"; "pnm"; "qoi"; "tga"; "tiff"; "webp"]%string.
Definition Pics_conf (push_url : option string) (num interval : option Z) (storage_path storage_format : option string) : Pics := {|
  pc_push_url := push_url; pc_num := default 1 num; pc_interval := default 1 interval;
  pc_storage_path := default "./pics/raw"%string storage_path; pc_storage_format := default "jpeg"%string storage_format |}.
(** [made]: the directories could be made. *)
Definition Pics_field_check (made : string -> bool) (p : Pics) : outcome FieldCheckError unit :=
  match pc_push_url p with
  | None => Failed PushUrlRequired
  | Some uri =>
      if negb (url_ok uri) then Failed PushUrlInvalid
      else if bool_decide (to_ascii_lowercase (pc_storage_format p) ∈ picture_formats)
      then if made (pc_storage_path p) then Done tt else Failed CreateDir
      else Failed StorageFormat
  end.

(** A checked configuration has what snapshots and uploads need: an address for
    the device, and a format that keeps a picture in the directory of the day. *)
Lemma pics_checked made p : Pics_field_check made p = Done tt ->
  is_Some (pc_push_url p) /\ plain (picture_format p) /\ dotless (picture_format p) /\ made (pc_storage_path p) = true.
Proof.
  unfold Pics_field_check. destruct (pc_push_url p) as [uri|]; [|done]. destruct (negb _); [done|].
  case_bool_decide as Hf; [|done]. destruct (made _) eqn:Hm; [|done]. intros _. split; [by eexists|].
  assert (Forall (fun f => plain f /\ dotless f) picture_formats) as Hall.
  { unfold plain, dotless. repeat constructor;
      first [discriminate | apply (bool_decide_eq_true_1 (_ ∉ _)); by vm_compute]. }
  rewrite Forall_forall in Hall. destruct (Hall _ Hf) as [? ?]. done.
Qed.
Lemma default_pics push_url num interval :
  tidy (pc_storage_path (Pics_conf push_url num interval None None)) /\
  to_ascii_lowercase (pc_storage_format (Pics_conf push_url num interval None None)) ∈ picture_formats.
Proof.
  split; [|apply (bool_decide_eq_true_1 (_ ∈ _)); by vm_compute].
  exists (chars "raw"), [chars "pics"; chars "."]. split_and!; [by vm_compute|done|]. left. discriminate.
Qed.
End Session.

(** ** Media nodes *)

(** Addresses are 32-bit numbers. *)
Record StreamNode := { cn_name : string; cn_local_ip : Z; cn_local_port : Z; cn_pub_ip : Z; cn_pub_port : Z }.
Definition ipv4_text (ip : Z) : string :=
  (pretty (Z.shiftr ip 24) +:+ "." +:+ pretty (Z.land (Z.shiftr ip 16) 255) +:+ "." +:+
   pretty (Z.land (Z.shiftr ip 8) 255) +:+ "." +:+ pretty (Z.land ip 255))%string.
(** [node_map]: what the configuration has under that name. *)
Definition insert_node (r : outcome unit (gmap string StreamNode)) (node : StreamNode) : outcome unit (gmap string StreamNode) :=
  match r with
  | Done m => match m !! cn_name node with Some _ => Panic | None => Done (<[cn_name node := node]> m) end
  | _ => r
  end.
Definition get_stream_conf (node_map : gmap string StreamNode) (nodes : list StreamNode) : outcome unit (gmap string StreamNode) :=
  match foldl insert_node (Done node_map) nodes with
  | Done m => if bool_decide (m = ∅) then Panic else Done m
  | r => r
  end.
(** What [StreamService] reads of it. *)
Definition service_node (m : gmap string StreamNode) (name : string) : option StreamService.MediaNode :=
  node ← m !! name; Some {| mn_pub_ip := ipv4_text (cn_pub_ip node); mn_pub_port := cn_pub_port node |}.

Definition node_names_of (nodes : list StreamNode) : list string := cn_name <$> nodes.
Lemma insert_nodes_failed nodes (r : outcome unit (gmap string StreamNode)) :
  (forall m, r <> Done m) -> foldl insert_node r nodes = r.
Proof. intros Hr. induction nodes as [|n nodes IH]; [done|]. cbn. by destruct r as [m| |]; [destruct (Hr m)|..]. Qed.
Lemma insert_nodes nodes m :
  foldl insert_node (Done m) nodes =
  if bool_decide (NoDup (node_names_of nodes) /\ Forall (fun name => m !! name = None) (node_names_of nodes))
  then Done (list_to_map (zip (node_names_of nodes) nodes) ∪ m) else Panic.
Proof.
  revert m. induction nodes as [|n nodes IH]; intros m; cbn [foldl insert_node].
  - rewrite bool_decide_true; [|split; [constructor|done]]. cbn. by rewrite map_empty_union.
  - destruct (m !! cn_name n) eqn:Hn.
    + rewrite insert_nodes_failed by done. rewrite bool_decide_false; [done|]. intros [_ Hf]. cbn in Hf. apply Forall_cons in Hf as [Hf _]. congruence.
    + rewrite IH. cbn [node_names_of fmap list_fmap zip zip_with list_to_map foldr]. fold (node_names_of nodes). case_bool_decide as Hc.
      * destruct Hc as [Hd Hf]. rewrite Forall_forall in Hf. rewrite bool_decide_true.
        -- f_equal. cbn. rewrite <- insert_union_l. rewrite <- insert_union_r; [done|].
           apply not_elem_of_list_to_map_1. rewrite fst_zip by (unfold node_names_of; by rewrite length_fmap).
           intros He. specialize (Hf _ He). by rewrite lookup_insert_eq in Hf.
        -- split.
           ++ constructor; [|done]. intros He. specialize (Hf _ He). by rewrite lookup_insert_eq in Hf.
           ++ apply Forall_cons. split; [done|]. apply Forall_forall. intros x Hx. specialize (Hf _ Hx).
              by apply lookup_insert_None in Hf as [? _].
      * rewrite bool_decide_false; [done|]. intros [Hd Hf]. apply Hc. apply NoDup_cons in Hd as [Hnin Hd]. split; [done|].
        apply Forall_cons in Hf as [_ Hf]. rewrite Forall_forall in Hf. apply Forall_forall. intros x Hx.
        apply lookup_insert_None. split; [by apply Hf|]. by intros <-.
Qed.

(** The table is built exactly if no two nodes share a name, no node has a name
    the table had already, and there is a node; then a name leads to the node
    configured under it, and to nothing else. *)
Theorem stream_conf_table (node_map : gmap string StreamNode) (nodes : list StreamNode) :
  match get_stream_conf node_map nodes with
  | Done m =>
      NoDup (node_names_of nodes) /\ m <> ∅ /\
      (forall node, node ∈ nodes -> node_map !! cn_name node = None /\ m !! cn_name node = Some node) /\
      (forall name, name ∉ node_names_of nodes -> m !! name = node_map !! name)
  | _ => ~ NoDup (node_names_of nodes) \/ (exists node, node ∈ nodes /\ is_Some (node_map !! cn_name node)) \/
         (nodes = [] /\ node_map = ∅)
  end.
Proof.
  unfold get_stream_conf. rewrite insert_nodes. assert (length (node_names_of nodes) = length nodes) as Hl by apply length_fmap.
  case_bool_decide as Hc.
  - destruct Hc as [Hd Hf]. rewrite Forall_forall in Hf. case_bool_decide as He.
    + right. right. apply map_positive_l in He as Hz. rewrite Hz, map_empty_union in He. split; [|done].
      destruct nodes as [|n nodes]; [done|]. cbn in Hz. by apply insert_non_empty in Hz.
    + split_and!; [done|done| |].
      * intros node Hn. split; [apply Hf; by apply list_elem_of_fmap_2|]. apply lookup_union_Some_l.
        apply elem_of_list_to_map; [by rewrite fst_zip by lia|]. apply list_elem_of_lookup in Hn as [i Hi].
        apply list_elem_of_lookup. exists i. apply lookup_zip_with_Some. exists (cn_name node), node. split_and!; [done| |done].
        unfold node_names_of. by rewrite list_lookup_fmap, Hi.
      * intros name Hn. apply lookup_union_r. apply not_elem_of_list_to_map_1. by rewrite fst_zip by lia.
  - destruct (decide (NoDup (node_names_of nodes))) as [Hd|Hd]; [right|by left].
    destruct (decide (Forall (fun name => node_map !! name = None) (node_names_of nodes))) as [Hf|Hf]; [by destruct Hc|].
    left. apply not_Forall_Exists in Hf; [|solve_decision]. apply Exists_exists in Hf as (name & Hin & Hs).
    unfold node_names_of in Hin. apply list_elem_of_fmap_1 in Hin as (node & -> & Hn). exists node. split; [done|]. cbn in Hs.
    by destruct (node_map !! cn_name node); [eexists|].
Qed.

(** ** The media process *)

Definition default_in_wait_timeout : Z := 4.
Definition default_out_idle_timeout : Z := 6.
Record StreamConf := { sc_in_wait_timeout : Z; sc_out_idle_timeout : Z }.
Definition StreamConf_init (in_wait out_idle : option Z) : StreamConf := {|
  sc_in_wait_timeout := default default_in_wait_timeout in_wait; sc_out_idle_timeout := default default_out_idle_timeout out_idle |}.
Definition StreamConf_field_check (c : StreamConf) : outcome FieldCheckError unit :=
  if sc_in_wait_timeout c <? 1 then Failed InWaitTimeout else Done tt.

Record ServerConf := {
  sv_name : string; sv_rtp_port : Z; sv_rtcp_port : Z; sv_http_port : Z; sv_hook_uri : string; sv_proxy_addr : string
}.
Definition ServerConf_conf (name : option string) (rtp_port rtcp_port http_port : option Z) (hook_uri proxy_addr : option string) : ServerConf := {|
  sv_name := default "stream-node-1"%string name; sv_rtp_port := default 18568 rtp_port; sv_rtcp_port := default 18569 rtcp_port;
  sv_http_port := default 18570 http_port; sv_hook_uri := default "http://127.0.0.1:18567"%string hook_uri;
  sv_proxy_addr := default "http:-1"%string proxy_addr |}.
Definition ServerConf_init_by_conf (c : ServerConf) : ServerConf := {|
  sv_name := sv_name c; sv_rtp_port := sv_rtp_port c; sv_rtcp_port := sv_rtcp_port c; sv_http_port := sv_http_port c;
  sv_hook_uri := sv_hook_uri c;
  sv_proxy_addr := if bool_decide (sv_proxy_addr c = "http:-1"%string)
                   then ("http://127.0.0.1:" +:+ pretty (sv_http_port c) +:+ "/" +:+ sv_name c)%string
                   else (sv_proxy_addr c +:+ "/" +:+ sv_name c)%string |}.
Example default_proxy : sv_proxy_addr (ServerConf_init_by_conf (ServerConf_conf None None None None None None)) = "http://127.0.0.1:18570/stream-node-1"%string.
Proof. by vm_compute. Qed.
