(* ===== verification/EventLoop.v ===== *)
(** * The events of a media node ([stream/src/state/event.rs])

    One task takes the events from their channel and runs the timers.  An event
    for the signalling server is called out by a task of its own, of which 128
    may be under way. *)
From S2P Require Import Prelude SharedTypes StreamOutputs MediaRegister Tasks.
Local Open Scope task_scope.
Local Open Scope Z_scope.

Definition MAX_WORKER_POOL : nat := 128.

(** ** A call to the signalling server *)

(** [None]: a transport error or a time-out; else the code and the data. *)
Inductive HookCall :=
| CallStreamRegister (info : RegisterStreamInfo) | CallInputTimeout (state : StreamState) | CallStreamIdle (info : OutputStreamInfo)
| CallStreamUnknown (event : UnknownStreamEvent) | CallOnPlay (info : StreamPlayInfo) | CallOffPlay (info : StreamPlayInfo)
| CallEndRecord (info : StreamRecordInfo) | SleepSecs (secs : Z) | ReplyOnPlay (tx : Z) (data : option bool).
Definition call_answer (q : HookCall) : Type :=
  match q with
  | CallStreamRegister _ | CallOffPlay _ | CallEndRecord _ => option Z
  | CallInputTimeout _ => option (Z * option InTimeoutEventRes)
  | CallStreamIdle _ => option (Z * option OutputEventRes)
  | CallStreamUnknown _ | CallOnPlay _ => option (Z * option bool)
  | SleepSecs _ | ReplyOnPlay _ _ => unit
  end.
Abbreviation call := (task MInner call_answer).

Definition accepted (response : option (Z * option bool)) : bool :=
  match response with Some (code, Some true) => code =? 200 | _ => false end.
(** [more]: the attempts after this one. *)
Fixpoint report_unknown (more : nat) (event : UnknownStreamEvent) : call unit :=
  response <- ask (CallStreamUnknown event) ;;
  if accepted response then Ret tt
  else match more with
       | O => Ret tt
       | S more => ask (SleepSecs (Z.shiftl 1 (3 - Z.of_nat (S more)))) ;;; report_unknown more event
       end.
(** [tx]: the sender of the answer; [Panic]: an on-play event without one. *)
Definition hand_out (out_event : OutEvent) (tx : option Z) : call (outcome unit unit) :=
  match out_event with
  | OStreamRegister rsi => ask (CallStreamRegister rsi) ;;; Ret (Done tt)
  | OStreamInTimeout ss =>
      res <- ask (CallInputTimeout ss) ;; modify (hand_out_input_timeout ss res) ;;; Ret (Done tt)
  | OOnPlay spi =>
      res <- ask (CallOnPlay spi) ;;
      match res : option (Z * option bool), tx with
      | Some (_, data), Some tx => ask (ReplyOnPlay tx data) ;;; Ret (Done tt)
      | Some _, None => Ret Panic
      | None, _ => Ret (Done tt)
      end
  | OStreamIdle os => res <- ask (CallStreamIdle os) ;; modify (hand_out_stream_idle os res) ;;; Ret (Done tt)
  | OStreamUnknown event => report_unknown 3 event ;;; Ret (Done tt)
  | OOffPlay spi => ask (CallOffPlay spi) ;;; Ret (Done tt)
  | OEndRecord info => ask (CallEndRecord info) ;;; Ret (Done tt)
  end.

(** ** The loop

    [el_held]: an event received for which no permit was left; it lives in the
    future the loop waits on.  [el_running]: the spawned calls. *)
Definition item : Type := MEvent * option Z.
Record EventLoop := {
  el_queue : list item; el_held : option (OutEvent * option Z); el_running : list (OutEvent * option Z);
  el_finished : list (OutEvent * option Z); el_direct : list item; el_lost : list (OutEvent * option Z)
}.
Definition EventLoop_new : EventLoop := {|
  el_queue := []; el_held := None; el_running := []; el_finished := []; el_direct := []; el_lost := [] |}.
Definition push_event (e : item) (l : EventLoop) : EventLoop := {|
  el_queue := el_queue l ++ [e]; el_held := el_held l; el_running := el_running l; el_finished := el_finished l;
  el_direct := el_direct l; el_lost := el_lost l |}.
(** [hand_event] up to the permit; the recorder of an active event and the
    handler of an inner one ([hand_inner]) are started at once. *)
Definition receive (l : EventLoop) : option EventLoop :=
  match el_held l, el_queue l with
  | None, (MOut o, tx) :: queue =>
      Some (if decide (length (el_running l) < MAX_WORKER_POOL)%nat
            then {| el_queue := queue; el_held := None; el_running := el_running l ++ [(o, tx)]; el_finished := el_finished l;
                    el_direct := el_direct l; el_lost := el_lost l |}
            else {| el_queue := queue; el_held := Some (o, tx); el_running := el_running l; el_finished := el_finished l;
                    el_direct := el_direct l; el_lost := el_lost l |})
  | None, e :: queue =>
      Some {| el_queue := queue; el_held := None; el_running := el_running l; el_finished := el_finished l;
              el_direct := el_direct l ++ [e]; el_lost := el_lost l |}
  | _, _ => None
  end.
Definition acquire (l : EventLoop) : option EventLoop :=
  match el_held l with
  | Some e =>
      if decide (length (el_running l) < MAX_WORKER_POOL)%nat
      then Some {| el_queue := el_queue l; el_held := None; el_running := el_running l ++ [e]; el_finished := el_finished l;
                   el_direct := el_direct l; el_lost := el_lost l |}
      else None
  | None => None
  end.
(** [on_time_schedule] has completed: [select!] drops the other branch. *)
Definition tick (l : EventLoop) : EventLoop := {|
  el_queue := el_queue l; el_held := None; el_running := el_running l; el_finished := el_finished l; el_direct := el_direct l;
  el_lost := el_lost l ++ option_list (el_held l) |}.
(** The [k]th call ends and gives its permit back. *)
Definition finish (k : nat) (l : EventLoop) : option EventLoop :=
  match el_running l !! k with
  | Some e => Some {| el_queue := el_queue l; el_held := el_held l; el_running := delete k (el_running l);
                      el_finished := el_finished l ++ [e]; el_direct := el_direct l; el_lost := el_lost l |}
  | None => None
  end.
(** A run, of which every state that is left satisfies [P]; with the events
    pushed. *)
Inductive loop_run (P : EventLoop -> Prop) : EventLoop -> list item -> EventLoop -> Prop :=
| lr_done l : loop_run P l [] l
| lr_push e l es l' : loop_run P (push_event e l) es l' -> loop_run P l (e :: es) l'
| lr_receive l l1 es l' : P l -> receive l = Some l1 -> loop_run P l1 es l' -> loop_run P l es l'
| lr_acquire l l1 es l' : P l -> acquire l = Some l1 -> loop_run P l1 es l' -> loop_run P l es l'
| lr_tick l es l' : P l -> loop_run P (tick l) es l' -> loop_run P l es l'
| lr_finish k l l1 es l' : P l -> finish k l = Some l1 -> loop_run P l1 es l' -> loop_run P l es l'.

(** ** Reports of unknown streams *)

Definition reports (g : list bool * list Z) (e : event call_answer) : list bool * list Z :=
  match e with
  | existT (CallStreamUnknown _) a => (g.1 ++ [accepted a], g.2)
  | existT (SleepSecs n) _ => (g.1, g.2 ++ [n])
  | _ => g
  end.
Definition pauses (more : nat) : list Z := (fun k => Z.shiftl 1 (3 - Z.of_nat k)) <$> reverse (seq 1 more).
Lemma pauses_S more : pauses (S more) = Z.shiftl 1 (3 - Z.of_nat (S more)) :: pauses more.
Proof. unfold pauses. rewrite seq_S, reverse_app. done. Qed.
Lemma report_accounts more event g :
  accounts reports (report_unknown more event) (fun _ g' => exists k last, (k <= more)%nat /\
    g' = (g.1 ++ replicate k false ++ [last], g.2 ++ take k (pauses more)) /\ (k < more -> last = true)%nat) g.
Proof.
  revert g. induction more as [|more IH]; intros g; cbn [report_unknown]; apply accounts_bind; cbn -[accepted pauses]; intros a;
    destruct (accepted a) eqn:Ha; cbn -[accepted pauses].
  - exists 0%nat, true. rewrite app_nil_r. by split_and!.
  - exists 0%nat, false. rewrite app_nil_r. split_and!; [done|done|lia].
  - exists 0%nat, true. rewrite app_nil_r. split_and!; [lia|done|done].
  - intros _. eapply accounts_mono; [apply IH|]. cbn -[pauses]. intros _ g' (k & last & Hk & -> & Hl). exists (S k), last.
    rewrite pauses_S. cbn [replicate take app]. rewrite <- !app_assoc. split_and!; [lia|done|]. intros ?. apply Hl. lia.
Qed.

(** An unknown stream is reported at most four times: the server is asked
    until it accepts, with pauses of one, two and four seconds after answers
    that do not. *)
Theorem unknown_stream_reported (env : MInner -> MInner -> Prop) (event : UnknownStreamEvent) tx w tr w' r :
  exec env w (hand_out (OStreamUnknown event) tx) tr w' r ->
  exists k last, (k <= 3)%nat /\ foldl reports ([], []) tr = (replicate k false ++ [last], take k [1; 2; 4]) /\
    (k < 3 -> last = true)%nat.
Proof.
  intros He. apply (accounts_sound reports env _ (fun _ g => exists k last, (k <= 3)%nat /\
    g = (replicate k false ++ [last], take k [1; 2; 4]) /\ (k < 3 -> last = true)%nat) _ _ _ _ ([], []) He).
  apply accounts_bind. eapply accounts_mono; [apply report_accounts|]. cbn. intros _ g (k & last & Hk & -> & Hl). by exists k, last.
Qed.

(** ** What becomes of the events *)

Definition out_item (e : OutEvent * option Z) : item := (MOut e.1, e.2).
Definition all_items (l : EventLoop) : list item :=
  el_queue l ++ el_direct l ++ (out_item <$> option_list (el_held l) ++ el_running l ++ el_finished l ++ el_lost l).
Definition within (l : EventLoop) : Prop := (length (el_running l) <= MAX_WORKER_POOL)%nat.
Definition nothing_lost (l : EventLoop) : Prop := el_held l = None /\ el_lost l = [].

Lemma receive_all l l1 : within l -> receive l = Some l1 -> all_items l ≡ₚ all_items l1 /\ within l1 /\
  ((length (el_running l) < MAX_WORKER_POOL)%nat -> nothing_lost l -> nothing_lost l1).
Proof.
  unfold receive, all_items, within, nothing_lost. intros Hw. destruct (el_held l); [done|]. destruct (el_queue l) as [|[e tx] queue]; [done|].
  destruct e as [o| |]; intros [= <-]; [case_decide|..]; cbn; rewrite ?length_app; cbn;
    (split; [rewrite ?fmap_app; cbn; solve_Permutation|split; [lia|intros ? [_ Hl]; first [by split|lia]]]).
Qed.
Lemma acquire_all l l1 : within l -> acquire l = Some l1 -> all_items l ≡ₚ all_items l1 /\ within l1 /\ (nothing_lost l -> nothing_lost l1).
Proof.
  unfold acquire, all_items, within, nothing_lost. intros Hw. destruct (el_held l); [|done]. case_decide; [|done]. intros [= <-]. cbn.
  rewrite length_app. cbn. split; [rewrite ?fmap_app; cbn; solve_Permutation|split; [lia|by intros [? _]]].
Qed.
Lemma finish_all k l l1 : within l -> finish k l = Some l1 -> all_items l ≡ₚ all_items l1 /\ within l1 /\ (nothing_lost l -> nothing_lost l1).
Proof.
  unfold finish, all_items, within, nothing_lost. intros Hw. destruct (el_running l !! k) as [e|] eqn:He; [|done]. intros [= <-]. cbn.
  pose proof (delete_Permutation _ _ _ He) as Hp. pose proof (Permutation_length Hp) as Hlen. cbn in Hlen.
  split; [|split; [lia|done]]. rewrite Hp at 1. rewrite ?fmap_app. cbn. rewrite ?fmap_app. cbn. solve_Permutation.
Qed.
Lemma tick_all l : all_items l ≡ₚ all_items (tick l).
Proof. unfold all_items, tick. cbn. rewrite !fmap_app. cbn. solve_Permutation. Qed.

(** C36: No event of a media node is forgotten but by a timer: every event that
    was sent is waiting, called out, done with, started, or lost; at most 128 are
    called out at a time; and none is lost as long as a permit is left whenever
    the loop goes on. *)
Theorem events_conserved (P : EventLoop -> Prop) (es : list item) (l : EventLoop) :
  loop_run P EventLoop_new es l ->
  es ≡ₚ all_items l /\ within l /\ ((forall l, P l -> length (el_running l) < MAX_WORKER_POOL)%nat -> nothing_lost l).
Proof.
  intros Hr. assert (forall l0, loop_run P l0 es l -> within l0 -> es ++ all_items l0 ≡ₚ all_items l /\ within l /\
    ((forall l, P l -> length (el_running l) < MAX_WORKER_POOL)%nat -> nothing_lost l0 -> nothing_lost l)) as H.
  2:{ destruct (H _ Hr) as (Hp & Hw & Hl); [unfold within; cbn; lia|]. rewrite app_nil_r in Hp. split_and!; [done|done|]. intros HP. by apply Hl. }
  clear Hr. intros l0 Hr. induction Hr as [l|e l es l' _ IH|l l1 es l' HPl Hs _ IH|l l1 es l' HPl Hs _ IH|l es l' HPl _ IH|k l l1 es l' HPl Hs _ IH]; intros Hw.
  - done.
  - destruct (IH Hw) as (Hp & Hw' & Hl). split_and!; [|done|done]. rewrite <- Hp. unfold all_items, push_event. cbn. solve_Permutation.
  - destruct (receive_all _ _ Hw Hs) as (Hp1 & Hw1 & Hl1). destruct (IH Hw1) as (Hp & Hw' & Hl). rewrite Hp1. split_and!; [done|done|]. auto.
  - destruct (acquire_all _ _ Hw Hs) as (Hp1 & Hw1 & Hl1). destruct (IH Hw1) as (Hp & Hw' & Hl). rewrite Hp1. split_and!; [done|done|]. auto.
  - destruct (IH Hw) as (Hp & Hw' & Hl). rewrite (tick_all l). split_and!; [done|done|]. intros HP [Hh Hlost]. apply (Hl HP).
    split; [done|]. cbn. by rewrite Hh, Hlost.
  - destruct (finish_all _ _ _ Hw Hs) as (Hp1 & Hw1 & Hl1). destruct (IH Hw1) as (Hp & Hw' & Hl). rewrite Hp1. split_and!; [done|done|]. auto.
Qed.

(** ** Concrete runs *)

Inductive LoopOp := OpPush (e : item) | OpReceive | OpAcquire | OpTick | OpFinish (k : nat).
Definition loop_do (op : LoopOp) (l : EventLoop) : option EventLoop :=
  match op with
  | OpPush e => Some (push_event e l)
  | OpReceive => receive l
  | OpAcquire => acquire l
  | OpTick => Some (tick l)
  | OpFinish k => finish k l
  end.
Fixpoint drive (ops : list LoopOp) (l : EventLoop) : option EventLoop :=
  match ops with [] => Some l | op :: ops => loop_do op l ≫= drive ops end.
Definition pushed (ops : list LoopOp) : list item := omap (fun op => match op with OpPush e => Some e | _ => None end) ops.
Lemma drive_run ops l l' : drive ops l = Some l' -> loop_run (fun _ => True) l (pushed ops) l'.
Proof.
  revert l. induction ops as [|op ops IH]; intros l Hd; cbn in Hd; [injection Hd as <-; constructor|].
  destruct op as [e| | | |k]; cbn -[receive acquire finish] in Hd |- *.
  - by apply lr_push, IH.
  - destruct (receive l) eqn:Hs; [|done]. by eapply lr_receive; [| |apply IH].
  - destruct (acquire l) eqn:Hs; [|done]. by eapply lr_acquire; [| |apply IH].
  - by apply lr_tick, IH.
  - destruct (finish k l) eqn:Hs; [|done]. by eapply lr_finish; [| |apply IH].
Qed.
Definition demo_unknown : UnknownStreamEvent := {|
  use_media_node_id := "m"; use_ssrc := 7; use_remote_addr := "192.0.2.9:4000"; use_protocol := "udp"; use_first_seen_at_ms := 0;
  use_last_seen_at_ms := 0; use_packet_count := 1; use_reason := "" |}.
(** The 129th event is held when a timer fires. *)
Definition demo_item : item := (MOut (OStreamUnknown demo_unknown), None).
Definition demo_ops : list LoopOp := replicate 129 (OpPush demo_item) ++ replicate 129 OpReceive ++ [OpTick].
Lemma events_conserved_witness :
  exists l, loop_run (fun _ => True) EventLoop_new (replicate 129 demo_item) l /\ el_lost l = [(OStreamUnknown demo_unknown, None)] /\
    replicate 129 demo_item ≡ₚ all_items l /\ within l.
Proof.
  destruct (drive demo_ops EventLoop_new) as [l|] eqn:Hd; [|by vm_compute in Hd].
  pose proof (drive_run _ _ _ Hd) as Hr. change (pushed demo_ops) with (replicate 129 demo_item) in Hr.
  assert (el_lost <$> drive demo_ops EventLoop_new = Some [(OStreamUnknown demo_unknown, None)]) as Hl by by vm_compute.
  rewrite Hd in Hl. injection Hl as Hl. exists l. split; [exact Hr|]. split; [exact Hl|].
  destruct (events_conserved (fun _ => True) _ l Hr) as (Hp & Hw & _). by split.
Defined.
Definition demo_call (q : HookCall) : call_answer q :=
  match q with CallStreamUnknown _ => Some (200, Some false) | SleepSecs _ | ReplyOnPlay _ _ => tt | _ => None end.
Lemma unknown_stream_reported_witness :
  exists tr w' r, exec eq (MInner_init "m" "" 0 0) (hand_out (OStreamUnknown demo_unknown) None) tr w' r /\
    foldl reports ([], []) tr = ([false; false; false; false], [1; 2; 4]).
Proof.
  destruct (run_found id false demo_call eq (fun tr _ _ => bool_decide (length (foldl reports ([], []) tr).1 = 4%nat)
      && forallb negb (foldl reports ([], []) tr).1)
    (hand_out (OStreamUnknown demo_unknown) None) (MInner_init "m" "" 0 0) (fun w => rtc_refl _ w)) as (tr & w' & r & Hp & He); [vm_compute; reflexivity|].
  exists tr, w', r. split; [exact He|]. destruct (unknown_stream_reported eq demo_unknown None _ tr w' r He) as (k & last & Hk & Ht & Hl).
  rewrite Ht in Hp |- *. apply andb_true_iff in Hp as [Hlen%bool_decide_eq_true Hneg]. cbn [fst] in Hlen, Hneg. rewrite length_app, length_replicate in Hlen.
  cbn in Hlen. assert (k = 3)%nat as -> by lia. cbn in Hneg |- *. destruct last; [by rewrite ?andb_false_r in Hneg|done].
Defined.
