(* ===== verification/Callbacks.v ===== *)
(** * What the two processes tell each other ([session/src/http/hook.rs] and
    [stream/src/state/event.rs] together)

    A media node calls the session process about its streams and acts on the
    answer.  A call may be lost, or its answer may; what is answered is what the
    session process's handler says of its own state at that time. *)
From stdpp Require Import relations.
From S2P Require Import Prelude SharedTypes Scheduler Lifecycle SessionCache DialogCache Network CloseService RegisterCore.
From S2P Require Import DialogStore SipRuntime StreamOutputs MediaRegister MediaProps TalkUpload Tasks DialogRecovery ViewerOutput ViewerOutputProps.
From S2P Require Import MediaApi Storage StorageProps RecordFiles SessionApi EventLoop.
Local Open Scope task_scope.
Local Open Scope Z_scope.

Section Callbacks.
Context {A : Type} `{AssociationLike A} `{!MapIter string}.
Context {Snap Sdp Assoc Meth : Type} `{Countable Meth}.
Context (accepts : Scheduler.TimeScheduleKey -> bool).
Context {IP SA : Type} `{EqDecision IP} (parse_socket : string -> option SA) (sa_ip : SA -> IP) (association_new : SA -> A).
Context (routes_from_json : string -> option (list string)).
Context (has_node : string -> bool) (answers : string -> Answers) (local_of_millis : Z -> option Z) `{OutErr HookError}.
Context (domain_id d_path : string).
Notation Server := (Server (A := A) (Snap := Snap) (Sdp := Sdp) (Assoc := Assoc) (Meth := Meth)).

(** ** The handlers *)

(** The state of the session process, with the tables of records and files. *)
Record SessionSide := { ss_server : Server; ss_db : Db }.
Definition on_server_side (v : Server) (w : SessionSide) : SessionSide := {| ss_server := v; ss_db := ss_db w |}.

Definition hook_stream_register (now : Z) (info : RegisterStreamInfo) (v : Server) : Resp unit * Server :=
  (build_success, stream_register parse_socket routes_from_json now (rsi_code info) (rsi_base info) v).
Definition hook_stream_input_timeout (instant : Z) (info : StreamState) (v : Server) : Resp InTimeoutEventRes * Server :=
  let '(res, r) := stream_input_timeout accepts instant (bsi_stream_id (ss_base info)) (sv_register v) in
  (build_success_data res, on_register (fun _ => r) v).
(** If the answer is yes, a task touches the row of the dialog ([touch]). *)
Definition hook_on_play (info : StreamPlayInfo) (v : Server) : Resp bool * Server :=
  (build_success_data (DialogRecovery.on_play (bsi_stream_id (spi_base info)) (spi_token info) (sv_register v)), v).
Definition touch (now : Z) (info : StreamPlayInfo) (v : Server) : Server :=
  on_dialogs (touch_durable_dialog parse_socket routes_from_json now (bsi_stream_id (spi_base info))) v.
Definition hook_off_play (info : StreamPlayInfo) (v : Server) : Resp unit * Server :=
  (build_success, on_register (DialogRecovery.off_play (bsi_stream_id (spi_base info)) (spi_token info)) v).
Definition hook_stream_idle (instant : Z) (info : OutputStreamInfo) (v : Server) : Resp OutputEventRes * Server :=
  let '(res, r) := DialogRecovery.stream_idle accepts instant (bsi_stream_id (osi_base info)) (osi_user_count info) (sv_register v) in
  (build_success_data res, on_register (fun _ => r) v).
Definition hook_stream_unknown (now instant : Z) (event : UnknownStreamEvent) (v : Server) : Resp bool * Server :=
  let '(res, v1) := stream_unknown accepts parse_socket sa_ip association_new routes_from_json has_node answers local_of_millis
                      domain_id now instant event v in
  (build_success_data res, v1).
Definition hook_talk_closed (instant : Z) (event : TalkClosedEvent) (v : Server) : Resp bool * Server :=
  let '(res, r) := DialogRecovery.talk_closed accepts instant (tc_talk_id event) (sv_register v) in
  (build_success_data res, on_register (fun _ => r) v).

(** ** A call and its answer *)

(** The clocks are read while the handler runs. *)
Definition serve (now instant : Z) (q : HookCall) (w : SessionSide) : call_answer q * SessionSide :=
  let v := ss_server w in
  match q return call_answer q * SessionSide with
  | CallStreamRegister info => let '(resp, v1) := hook_stream_register now info v in (Some (code resp), on_server_side v1 w)
  | CallInputTimeout info => let '(resp, v1) := hook_stream_input_timeout instant info v in (Some (code resp, data resp), on_server_side v1 w)
  | CallStreamIdle info => let '(resp, v1) := hook_stream_idle instant info v in (Some (code resp, data resp), on_server_side v1 w)
  | CallStreamUnknown event => let '(resp, v1) := hook_stream_unknown now instant event v in (Some (code resp, data resp), on_server_side v1 w)
  | CallOnPlay info => let '(resp, v1) := hook_on_play info v in (Some (code resp, data resp), on_server_side v1 w)
  | CallOffPlay info => let '(resp, v1) := hook_off_play info v in (Some (code resp), on_server_side v1 w)
  | CallEndRecord info =>
      let '(resp, d) := hook_end_record d_path now now now info (ss_db w) in
      (match resp with Done resp => Some (code resp) | _ => None end, {| ss_server := v; ss_db := d |})
  | SleepSecs _ => (tt, w)
  | ReplyOnPlay _ _ => (tt, w)
  end.
(** What the caller sees of a call that did not reach the other process, or
    whose answer did not come back. *)
Definition lost (q : HookCall) : option (call_answer q) :=
  match q return option (call_answer q) with
  | CallStreamRegister _ | CallOffPlay _ | CallEndRecord _ => Some None
  | CallInputTimeout _ => Some None
  | CallStreamIdle _ => Some None
  | CallStreamUnknown _ | CallOnPlay _ => Some None
  | SleepSecs _ | ReplyOnPlay _ _ => None
  end.
Definition exchange (w : SessionSide) (e : event call_answer) (w' : SessionSide) : Prop :=
  let 'existT q a := e in
  exists now instant, (a, w') = serve now instant q w \/ (lost q = Some a /\ (w' = w \/ w' = (serve now instant q w).2)).
(** The calls of one task, while the session process does other things. *)
Inductive exchanges (senv : SessionSide -> SessionSide -> Prop) : SessionSide -> list (event call_answer) -> SessionSide -> Prop :=
| ex_nil w w' : rtc senv w w' -> exchanges senv w [] w'
| ex_cons w w1 e w2 tr w' : rtc senv w w1 -> exchange w1 e w2 -> exchanges senv w2 tr w' -> exchanges senv w (e :: tr) w'.

(** ** Streams that end *)

(** The stream is gone, or it is being closed. *)
Definition not_playing (id : string) (c : Cache) : Prop := forall t, stream_map c !! id = Some t -> lifecycle t <> Playing.
Definition ended (id : string) (w : SessionSide) : Prop := not_playing id (general_cache (sv_register (ss_server w))).

Lemma force_not_playing id g (r : Inner (A := A)) : not_playing id (general_cache r) -> not_playing id (general_cache (stream_force_cleanup id g r)).
Proof.
  unfold not_playing, stream_force_cleanup, stream_close_force, stream_close_remove. intros Hr.
  destruct (stream_map (general_cache r) !! id) as [t0|] eqn:E; [|cbn; by rewrite E].
  destruct (is_closing_generation g t0); [|cbn; rewrite E; exact Hr].
  assert (forall d s c, stream_map (device_map_remove_stream d s c) = stream_map c) as Hd by (intros; unfold device_map_remove_stream; by cases).
  intros t. unfold finish_removed_stream. destruct (closing_generation t0); cbn; rewrite Hd; cbn; by rewrite lookup_delete_eq.
Qed.
Lemma retry_not_playing id (r : Inner (A := A)) : not_playing id (general_cache r) -> not_playing id (general_cache (retry_stream id r)).
Proof.
  unfold not_playing, retry_stream, stream_close_take_bye. intros Hr.
  destruct (stream_map (general_cache r) !! id) as [t0|] eqn:E; [|cbn; by rewrite E].
  specialize (Hr _ eq_refl). destruct (take_bye t0) as [bye t1] eqn:Hb.
  assert (lifecycle t1 <> Playing) as Hnp by (unfold take_bye in Hb; destruct (lifecycle t0) as [|g [seq|] err] eqn:?; by simplify_eq/=; congruence).
  intros t. destruct bye as [[g seq]|]; cbn; rewrite lookup_insert_eq; intros [= <-]; exact Hnp.
Qed.
Lemma begin_not_playing now id (r : Inner (A := A)) : not_playing id (general_cache (stream_begin accepts now id r)).
Proof.
  unfold stream_begin, stream_close_begin. destruct (stream_map (general_cache r) !! id) as [t0|] eqn:E; [|unfold not_playing; cbn; by rewrite E].
  unfold begin_close. destruct (lifecycle t0) as [|g seq err] eqn:Hl.
  - cbn -[stream_is_restored stream_force_cleanup reconnect_timeout retry_stream].
    set (r1 := on_cache _ r). assert (not_playing id (general_cache r1)) as Hnp.
    { intros t. cbn. rewrite lookup_insert_eq. by intros [= <-]. }
    clearbody r1. destruct (session (io_map r) !! st_device_id t0) as [s|].
    + destruct (_ =? 0); [by apply force_not_playing|]. unfold timer_insert. destruct (accepts _); [apply retry_not_playing|apply force_not_playing]; exact Hnp.
    + destruct (stream_is_restored _ _); [exact Hnp|by apply force_not_playing].
  - cbn. unfold closing_generation. rewrite Hl. cbn. intros t. cbn. rewrite lookup_insert_eq. intros [= <-]. congruence.
Qed.
Lemma timeout_served instant info w a w' now :
  (a, w') = serve now instant (CallInputTimeout info) w -> a = Some (200, Some InCloseAll) /\ ended (bsi_stream_id (ss_base info)) w'.
Proof.
  cbn. unfold hook_stream_input_timeout, stream_input_timeout, ended. set (id := bsi_stream_id _). set (r := sv_register _).
  destruct (stream_is_closing id (general_cache r)) eqn:Hc; cbn; intros [= -> ->]; (split; [done|]); cbn.
  - unfold stream_is_closing in Hc. intros t Ht. fold r in Ht |- *. rewrite Ht in Hc. unfold is_closing in Hc. by destruct (lifecycle t).
  - apply begin_not_playing.
Qed.
Lemma idle_served instant info w a w' now : osi_user_count info = 0 ->
  (a, w') = serve now instant (CallStreamIdle info) w -> a = Some (200, Some OutCloseAll) /\ ended (bsi_stream_id (osi_base info)) w'.
Proof.
  intros Hu. cbn. unfold hook_stream_idle, stream_idle, ended. rewrite Hu. cbn. intros [= -> ->]. split; [done|]. cbn. apply begin_not_playing.
Qed.
Lemma exchanges_cons senv v e tr v' : exchanges senv v (e :: tr) v' ->
  exists w1 w2, rtc senv v w1 /\ exchange w1 e w2 /\ exchanges senv w2 tr v'.
Proof. inversion 1. by do 2 eexists. Qed.
Lemma exchanges_one senv v e v' : exchanges senv v [e] v' -> exists w1 w2, rtc senv v w1 /\ exchange w1 e w2 /\ rtc senv w2 v'.
Proof. intros (w1 & w2 & Hp1 & Hp2 & Hp3)%exchanges_cons. exists w1, w2. split_and!; [done..|]. by inversion Hp3. Qed.

Lemma hand_out_timeout_run (env : MInner -> MInner -> Prop) state tx i tr i2 r :
  exec env i (hand_out (OStreamInTimeout state) tx) tr i2 r ->
  r = Done tt /\ exists a i1, tr = [existT (CallInputTimeout state) a] /\ i2 = hand_out_input_timeout state a i1.
Proof.
  intros He. apply (wp_sound env _ (fun r i2 tr => r = Done tt /\ exists a i1, tr = [existT (CallInputTimeout state) a] /\ i2 = hand_out_input_timeout state a i1) _ _ _ _ He).
  unfold hand_out. apply wp_ask. intros a. apply wp_step. intros i1 _. apply wp_ret. split; [done|]. by exists a, i1.
Qed.
Lemma hand_out_idle_run (env : MInner -> MInner -> Prop) info tx i tr i2 r :
  exec env i (hand_out (OStreamIdle info) tx) tr i2 r ->
  r = Done tt /\ exists a i1, tr = [existT (CallStreamIdle info) a] /\ i2 = hand_out_stream_idle info a i1.
Proof.
  intros He. apply (wp_sound env _ (fun r i2 tr => r = Done tt /\ exists a i1, tr = [existT (CallStreamIdle info) a] /\ i2 = hand_out_stream_idle info a i1) _ _ _ _ He).
  unfold hand_out. apply wp_ask. intros a. apply wp_step. intros i1 _. apply wp_ret. split; [done|]. by exists a, i1.
Qed.


(** ** Who may watch *)

Definition knows_token (id token : string) (w : SessionSide) : Prop :=
  stream_map_contains_token id token (general_cache (sv_register (ss_server w))) = true.
(** The event task of the media node asks the session process for a viewer and
    hands on [answer]. *)
Definition asked_session (senv : SessionSide -> SessionSide -> Prop) (v : SessionSide) (info : StreamPlayInfo) (answer : option bool) : Prop :=
  exists (env : MInner -> MInner -> Prop) tx i tr i2 r v',
    exec env i (hand_out (OOnPlay info) (Some tx)) tr i2 r /\ exchanges senv v tr v' /\ existT (ReplyOnPlay tx answer) tt ∈ tr.

Lemma hand_out_play_run (env : MInner -> MInner -> Prop) info tx i tr i2 r :
  exec env i (hand_out (OOnPlay info) (Some tx)) tr i2 r ->
  r = Done tt /\ (tr = [existT (CallOnPlay info) None] \/
    exists c data, tr = [existT (CallOnPlay info) (Some (c, data)); existT (ReplyOnPlay tx data) tt]).
Proof.
  intros He. apply (wp_sound env _ (fun r i2 tr => r = Done tt /\ (tr = [existT (CallOnPlay info) None] \/
    exists c data, tr = [existT (CallOnPlay info) (Some (c, data)); existT (ReplyOnPlay tx data) tt])) _ _ _ _ He).
  unfold hand_out. apply wp_ask. intros [[c data]|].
  - apply wp_ask. intros []. apply wp_ret. split; [done|]. right. by exists c, data.
  - apply wp_ret. split; [done|by left].
Qed.
Lemma session_said senv v info answer : asked_session senv v info answer ->
  exists v1, rtc senv v v1 /\
    answer = Some (stream_map_contains_token (bsi_stream_id (spi_base info)) (spi_token info) (general_cache (sv_register (ss_server v1)))).
Proof.
  intros (env & tx & i & tr & i2 & r & v' & He & Hx & Hin). apply hand_out_play_run in He as [_ [->|(c & data & ->)]].
  - apply list_elem_of_singleton in Hin. by apply (f_equal projT1) in Hin.
  - apply elem_of_cons in Hin as [Hin|Hin]; [by apply (f_equal projT1) in Hin|].
    apply list_elem_of_singleton, (f_equal projT1) in Hin. injection Hin as ->.
    apply exchanges_cons in Hx as (w1 & w2 & Hp1 & (now & instant & Hx) & _). exists w1. split; [done|].
    destruct Hx as [Hx|[Hx _]]; [|done]. cbn in Hx. by injection Hx as _ -> _.
Qed.

(** C32: Only viewers the session process knows are served.  If the answers about
    tokens that the media node acts on are those its event task gets from the
    session process, then a request with a token that no other request has made
    known to the stream is served only if the session process held that very
    token for the stream when it was asked. *)
Theorem served_viewer_known (env : MInner -> MInner -> Prop) (senv : SessionSide -> SessionSide -> Prop) (token id path addr tp : string)
    (i i2 : MInner) (tr : list (event view_answer)) (resp : Response) (v : SessionSide) :
  (forall w1 w2, env w1 w2 -> MediaRegister.check_token token id w1 = false -> MediaRegister.check_token token id w2 = false) ->
  (forall info answer, existT (OnPlay info) (Some answer) ∈ tr -> asked_session senv v info answer) ->
  MediaRegister.check_token token id i = false -> rsplit_dot path = Some (id, tp) ->
  exec env i (handler path (Some token) addr) tr i2 (Done resp) -> status resp = 200 ->
  exists v1, rtc senv v v1 /\ knows_token id token v1.
Proof.
  intros Henv Hwired Hc Hp He Hs.
  destruct (viewer_authorised env token id Henv path addr i i2 tr resp tp Hc Hp He Hs) as (info & Hin & Ht & Hid).
  apply Hwired, session_said in Hin as (v1 & Hr & Ha). exists v1. split; [done|]. unfold knows_token. rewrite <- Ht, <- Hid. by injection Ha as <-.
Qed.
End Callbacks.

(** ** The end of a talk ([stream/src/io/talk.rs]) *)

Definition TALK_CLOSE_NOTIFY_RETRY : nat := 3.
Inductive TalkCall := TalkClient | CallTalkClosed (event : TalkClosedEvent) | TalkPause (secs : Z).
Definition talk_answer (q : TalkCall) : Type :=
  match q with TalkClient => bool | CallTalkClosed _ => option (Z * option bool) | TalkPause _ => unit end.
Definition talk_noted (response : option (Z * option bool)) : bool :=
  match response with Some (code, _) => code =? 200 | None => false end.
Fixpoint notify_from {W : Type} (attempt : Z) (more : nat) (event : TalkClosedEvent) : task W talk_answer unit :=
  match more with
  | O => Ret tt
  | S more =>
      client <- ask TalkClient ;;
      if negb client then Ret tt else
      response <- ask (CallTalkClosed event) ;;
      if talk_noted response then Ret tt else ask (TalkPause attempt) ;;; notify_from (attempt + 1) more event
  end.
Definition notify_talk_closed {W : Type} : TalkClosedEvent -> task W talk_answer unit := notify_from 1 TALK_CLOSE_NOTIFY_RETRY.

(** Whether each call was noted, and the pauses. *)
Definition talk_reports (g : list bool * list Z) (e : event talk_answer) : list bool * list Z :=
  match e with
  | existT (CallTalkClosed _) a => (g.1 ++ [talk_noted a], g.2)
  | existT (TalkPause n) _ => (g.1, g.2 ++ [n])
  | _ => g
  end.
Lemma notify_accounts {W : Type} more ev attempt g :
  accounts talk_reports (notify_from (W := W) attempt more ev) (fun _ g' => exists k noted, (k + length noted <= more)%nat /\
    (noted = [] \/ noted = [true]) /\ g' = (g.1 ++ replicate k false ++ noted, g.2 ++ take k (seqZ attempt (Z.of_nat more)))) g.
Proof.
  revert attempt g. induction more as [|more IH]; intros attempt g; cbn [notify_from].
  - cbn. exists 0%nat, []. rewrite !app_nil_r. split_and!; [cbn; lia|by left|by destruct g].
  - apply accounts_bind. cbn -[talk_noted]. intros [|]; cbn -[talk_noted].
    2:{ exists 0%nat, []. rewrite !app_nil_r. split_and!; [cbn; lia|by left|by destruct g]. }
    intros a. destruct (talk_noted a) eqn:Ha; cbn -[talk_noted].
    + exists 0%nat, [true]. rewrite app_nil_r. split_and!; [cbn; lia|by right|done].
    + intros _. eapply accounts_mono; [apply IH|]. cbn -[talk_noted seqZ]. intros _ g' (k & noted & Hk & Hn & ->). exists (S k), noted.
      rewrite (seqZ_cons attempt) by lia. rewrite Nat2Z.inj_succ, Z.pred_succ. cbn [replicate take app]. rewrite <- !app_assoc.
      split_and!; [lia|done|done].
Qed.
(** At most three calls, with a pause after each that was not noted, the last
    included. *)
Theorem talk_end_reported {W : Type} (env : W -> W -> Prop) (ev : TalkClosedEvent) w tr w' r :
  exec env w (notify_talk_closed ev) tr w' r ->
  exists k noted, (k + length noted <= 3)%nat /\ (noted = [] \/ noted = [true]) /\
    foldl talk_reports ([], []) tr = (replicate k false ++ noted, take k [1; 2; 3]).
Proof. intros He. exact (accounts_sound talk_reports env _ _ _ _ _ _ _ He (notify_accounts 3 ev 1 ([], []))). Qed.

(** ** Concrete runs *)

Abbreviation DemoSide := (SessionSide (A := Z) (Snap := unit) (Sdp := unit) (Assoc := unit) (Meth := Z)).
Definition demo_side : DemoSide := {|
  ss_server := {| sv_dialogs := ∅;
    sv_register := {| general_cache := (stream_map_insert_token "s" "t" (general_cache demo_inner)).2; io_map := io_map demo_inner;
      recovering_devices := ∅; recovery_permits := 64; effects := [] |}; sv_sip := SipRuntimeCache_default |};
  ss_db := no_rows |}.
#[local] Instance demo_hook_err : OutErr HookError := {| err_code _ := 500; out_err _ := "error"%string |}.
Definition demo_recovery : Answers := {|
  an_now := 0; an_orphan_now := 0; an_instant := 0; an_online := None; an_lease_now := 0; an_oauth := Panic; an_device := Panic |}.
Abbreviation demo_exchanges := (exchanges (fun _ => true) Some id (fun _ => 7) (fun _ => None) (fun _ => true) (fun _ => demo_recovery)
  Some "34020000002000000001" "/videos" eq).
Lemma rtc_eq {X : Type} (x y : X) : rtc eq x y -> x = y.
Proof. induction 1; congruence. Qed.


Lemma demo_known info : spi_token info = "t"%string -> bsi_stream_id (spi_base info) = "s"%string ->
  asked_session (fun _ => true) Some id (fun _ => 7) (fun _ => None) (fun _ => true) (fun _ => demo_recovery)
    Some "34020000002000000001" "/videos" eq demo_side info (Some true).
Proof.
  intros Ht Hid. exists eq, 1, MediaProps.demo_stream, [existT (CallOnPlay info) (Some (200, Some true)); existT (ReplyOnPlay 1 (Some true)) tt],
    MediaProps.demo_stream, (Done tt), demo_side. split; [|split].
  - apply exec_ask, exec_ask, exec_ret.
  - eapply ex_cons; [apply rtc_refl| |eapply ex_cons; [apply rtc_refl| |apply ex_nil, rtc_refl]]; exists 0, 0; left; cbn.
    + unfold on_play. by rewrite Ht, Hid.
    + done.
  - apply elem_of_cons. right. by apply list_elem_of_singleton.
Qed.
Definition demo_asked (tr : list (event view_answer)) : bool :=
  match tr with
  | [existT (OnPlay info) a] => bool_decide (a = Some (Some true)) && bool_decide (spi_token info = "t"%string) && bool_decide (bsi_stream_id (spi_base info) = "s"%string)
  | _ => false
  end.
Lemma served_viewer_known_witness :
  exists tr i2 resp, exec quiet MediaProps.demo_stream (handler "s.flv" (Some "t"%string) "1.2.3.4") tr i2 (Done resp) /\
    status resp = 200 /\ exists v1, rtc eq demo_side v1 /\ knows_token "s" "t" v1.
Proof.
  destruct (run_found id false demo_yes quiet
    (fun tr _ r => match r with Done resp => (status resp =? 200) && demo_asked tr | _ => false end)
    (handler "s.flv" (Some "t"%string) "1.2.3.4") MediaProps.demo_stream) as (tr & i2 & r & Hp & He); [constructor|by vm_compute|].
  destruct r as [resp| |]; [|done..]. apply andb_true_iff in Hp as [Hs%Z.eqb_eq Ha].
  exists tr, i2, resp. split; [exact He|]. split; [exact Hs|].
  refine (served_viewer_known (fun _ => true) Some id (fun _ => 7) (fun _ => None) (fun _ => true) (fun _ => demo_recovery) Some
    "34020000002000000001" "/videos" quiet eq "t" "s" "s.flv" "1.2.3.4" "flv" MediaProps.demo_stream i2 tr resp demo_side
    (fun _ _ H => match H with end) _ ltac:(by vm_compute) ltac:(by vm_compute) He Hs).
  intros info answer Hin. destruct tr as [|[[info'| | |] a] [|]]; try done. unfold demo_asked in Ha.
  apply andb_true_iff in Ha as [[->%bool_decide_eq_true Ht%bool_decide_eq_true]%andb_true_iff Hid%bool_decide_eq_true].
  apply list_elem_of_singleton in Hin.
  pose proof (f_equal (fun e : event view_answer => match e with existT (OnPlay i) _ => Some i | _ => None end) Hin) as [= ->].
  pose proof (f_equal (fun e : event view_answer => match e return option (option bool) with existT (OnPlay _) b => b | _ => None end) Hin) as [= ->].
  by apply demo_known.
Defined.
